(* ===== verification/_CoqProject ===== *)
-Q . S2P
Prelude.v
Dpdk.v
Error.v
Types.v
Responder.v
Port.v
Hw.v
Multipath.v
Capture.v
PortCtl.v
Firewall.v
GrpcConv.v
Rib.v
Lb.v
Vnf.v
Conn.v
Mbuf.v
Graph.v
Nat.v
Vni.v
Lpm.v
Flow.v
Nat64.v
Cntrack.v
Virtsvc.v
Conf.v
Nodes.v
Forward.v
Offload.v
Neigh.v
Dhcp.v
Pipeline.v
Runtime.v
Iface.v
Service.v
Startup.v
Replies.v
GrpcMsg.v
AsyncGrpc.v
