(* ===== verification/Prelude.v ===== *)
(** * Verification of dpservice

    dpservice is the data plane of a hypervisor.  A worker thread moves packets
    between the physical ports and the virtual functions of the guests through a
    graph of nodes; a gRPC server passes the requests of the control plane to
    that worker, which alone changes the tables.  This library models both, the
    tables they share, and the start and end of the service, as functions
    that can be run, and proves what they do.

    ** How code is modelled

    A C function is a function of the same name.  One that changes state is a
    command [cmd S A]: it takes the state of its component and gives a result
    and a new state, or nothing when the C code would have undefined behaviour (a
    null or dangling pointer, an access outside a buffer, a failed assertion).
    A composite state is accessed by lenses with [zoom].  [wp c Q s] says that
    [c] has no such fault on [s] and ends in [Q]; [triple] and [maintains] are
    the partial forms; [returns] is about the result alone.  Integers are [Z]
    with the conversions of their C type written out ([u8] to [u128], [ntohs],
    [htonl]); a packet is the bytes of its buffer; a pointer to an object is its
    location on a heap; strings are their bytes.

    The loops of the code are structural recursions.  Where that is not so the
    model has fuel, and a theorem says how much is enough: 13 visits of nodes
    for a packet ([Pipeline]), one round per byte for the
    options of DHCP ([Dhcp]), one round per buffer for the
    replies to a call ([AsyncGrpc]), and more than there are routes
    for their listing ([Lpm]).

    DPDK and the C library are classes: [RteHash], [RteMalloc] ([Dpdk]),
    [RteRib] ([Rib]), [RteFlow] ([Hw]), [RteEth] ([PortCtl]), [RteMempool]
    ([Responder]), [RteGraph] ([Graph]), [RteNet] ([Nat64]), [RteIndirect]
    ([Offload]), [Libc] ([Virtsvc]), [LibcConf] ([Conf]), [LibcAddr] ([GrpcMsg])
    and a few more beside their use, with what the code relies on as separate
    classes of laws, and concrete instances with which the main theorems are
    applied.

    ** The parts

    Foundations.  [Prelude] (this file): the monad, its logic, machine integers
    and tactics.  [Dpdk], [Rib]: hash tables, heaps and routing tables of DPDK.
    [Error] (src/dp_error.c): codes.  [Types] (include/dp_ipaddr.h, dp_mbuf_dyn.h):
    addresses, keys and metadata.  [Mbuf] (include/dp_mbuf_dyn.h): packets.

    Tables of the data plane.  [Port] and [PortCtl] (src/dp_port.c, dp_hairpin.c):
    ports and their set-up.  [Firewall] (src/dp_firewall.c).  [Lb] (src/dp_lb.c).
    [Vnf] (src/dp_vnf.c).  [Conn] and [Flow] (src/dp_flow.c): connections and
    their aging.  [Cntrack] (src/dp_cntrack.c).  [Nat] and [Nat64] (src/dp_nat.c):
    addresses, port ranges and headers.  [Vni] (src/dp_vni.c) and [Lpm]
    (src/dp_lpm.c): networks and routes.  [Virtsvc] (src/dp_virtsvc.c).
    [Multipath] (src/dp_multi_path.c).

    The NIC.  [Hw] (src/rte_flow/dp_rte_flow.c, dp_rte_flow_init.c), [Capture]
    (dp_rte_flow_capture.c, src/monitoring/dp_monitoring.c) and [Offload]
    (dp_rte_flow_traffic_forward.c): the rules installed, for any answer of the
    driver.

    The graph (src/nodes).  [Graph] has what all nodes share, [Nodes] a function
    for each forwarding node, [Neigh] and [Dhcp] the nodes that answer guests and
    src/dp_periodic_msg.c, [Pipeline] the walk of a packet through all of them,
    [Runtime] the worker with its packets, timers and requests as a step
    relation.  [Forward] has the properties of the nodes that change packets.

    The control plane.  [Iface] (src/dp_iface.c): interfaces, and the state
    of the whole service.  [Service] (src/grpc/dp_grpc_impl.c): every handler.
    [Responder] (src/grpc/dp_grpc_responder.c) and [Replies]: packets of replies.
    [GrpcConv] and [GrpcMsg] (src/grpc/dp_grpc_conv.cpp, dp_async_grpc.cpp,
    proto/dpdk.proto): the messages of the API and their conversion.
    [AsyncGrpc] (src/grpc/dp_async_grpc.cpp, dp_grpc_service.cpp): the server
    and its two queues.

    The service.  [Conf] (src/dp_conf.c, dp_conf_opts.c, dp_argparse.c): the
    configuration.  [Startup] (src/dp_service.c, dpdk_layer.c, dp_graph.c,
    dp_timers.c, src/grpc/dp_grpc_thread.cpp): initialisation, timers and the end.

    ** What is shown

    - Decisions.  The verdict of the firewall is that of the first rule that
      applies, rules made from prefixes match exactly these prefixes, packets go
      where the longest prefix sends them, backends are chosen in turn and kept
      for a connection.
    - Packets.  Address translation and the tunnel are undone by the way back;
      NAT64 and DHCP produce the headers they should; every packet leaves
      the graph; what the NIC is told to do equals what the software does.
    - Tables.  Every operation keeps the invariants (keys and objects belong
      together, nothing leaks); NAT addresses, firewall rules and networks
      refine maps, lists and counters; ports of a NAT are never given out twice
      and are found as long as there is one; aging removes exactly what is
      idle.  While the service runs no entry of the flow table dangles.
    - Requests.  A VIP, a prefix and an offloaded connection are set up as a
      whole or not at all.  A request made from any message is well formed,
      every reply is one the server can read, and every call ends, however
      the threads interleave.
    - Start and end.  Any input gives a well-formed configuration or an
      error; whatever initialisation fails, all that was acquired is released.
    - Errors.  Where the code does something else than it means to, a theorem
      says what: among others in [Firewall] (a null counter), [Nat64] (the time
      to live), [Service] (a second VIP), [Offload] (rules that outlive their
      flow), [Runtime] (a stale NAT64 key) and [AsyncGrpc] (the error of a
      listing).

    ** Not modelled

    Logging, telemetry, statistics, tracing and packet dumps, which nothing else
    reads; netlink and sysfs, which are input; the events from the link monitor
    (src/monitoring/dp_event.c), whose handlers are modelled; the drop node,
    which is the end of a walk; the gRPC runtime and generated code, of which a
    call is a message that has arrived; the registration of nodes with the graph
    library and its scheduling of bursts, of which the worker takes one packet
    after another; the command-line client and the dump tool.  Worker and server
    share nothing but the two rings, so the memory model of the machine only
    matters inside them and inside DPDK.  The configurations that are compiled in
    for tests are left out. *)

From stdpp Require Export base option numbers list gmap fin_maps.
From stdpp Require Export list_numbers.
From Stdlib Require Export ZArith Lia.

#[export] Set Default Goal Selector "!".
Global Open Scope Z_scope.

(** ** Record update

    [r <| f := v |>] is the C assignment [r->f = v] on a record value.  A
    record type declares its eta-expansion once; the setter of a field is read
    off the expansion by abstracting the projection. *)

Class Eta (R : Type) := eta_expand : R → R.

Class FieldSetter {R T : Type} (proj : R → T) := set_field : T → R → R.
Global Arguments set_field {R T} proj {_} v r /.

Ltac find_setter :=
  lazymatch goal with
  | |- @FieldSetter ?R ?T ?proj =>
      let e := constr:(_ : Eta R) in
      let e := eval red in e in
      lazymatch e with
      | context [proj] =>
          let f := eval pattern proj in e in
          lazymatch f with
          | ?g proj => exact (λ (v : T) (r : R), g (λ _, v) r)
          end
      end
  end.
Global Hint Extern 0 (FieldSetter _) => find_setter : typeclass_instances.

Declare Scope dps_scope.
Delimit Scope dps_scope with dps.
Global Open Scope dps_scope.

Notation "r <| f := v |>" := (set_field f v r)
  (at level 1, f at level 10, left associativity,
   format "r  <| f  :=  v |>") : dps_scope.

(** ** Commands

    A C function that reads and writes static variables is a state
    transformer.  [None] is undefined behaviour: a NULL or dangling pointer
    was dereferenced, an object was freed twice, or an assertion failed. *)

Definition cmd (S A : Type) : Type := S → option (A * S).

Global Instance cmd_ret {S} : MRet (cmd S) := λ A a s, Some (a, s).
Global Instance cmd_bind {S} : MBind (cmd S) := λ A B f m s,
  match m s with Some (a, s') => f a s' | None => None end.

Definition fault {S A} : cmd S A := λ _, None.
Definition gets {S A} (f : S → A) : cmd S A := λ s, Some (f s, s).
Definition modify {S} (f : S → S) : cmd S () := λ s, Some (tt, f s).

(** The state after a command that does not fail. *)
Definition run_state {S A} (s : S) (m : cmd S A) : S :=
  match m s with Some (_, s') => s' | None => s end.

(** Whether a command runs into a fault. *)
Definition faults {S A} (m : cmd S A) (s : S) : bool :=
  match m s with Some _ => false | None => true end.

(** A component's state inside a bigger one. *)
Record lens (S T : Type) := Lens { lget : S → T; lput : T → S → S }.
Arguments Lens {_ _} _ _.
Arguments lget {_ _} _ _.
Arguments lput {_ _} _ _ _.

Class LensOk {S T} (l : lens S T) : Prop := {
  lget_lput t s : lget l (lput l t s) = t;
  lput_lput t t' s : lput l t (lput l t' s) = lput l t s;
  lput_lget s : lput l (lget l s) s = s
}.

Definition zoom {S T A} (l : lens S T) (m : cmd T A) : cmd S A := λ s,
  match m (lget l s) with
  | Some (a, t) => Some (a, lput l t s)
  | None => None
  end.

Definition fstL {S T : Type} : lens (S * T) S := Lens fst (λ a s, (a, s.2)).
Definition sndL {S T : Type} : lens (S * T) T := Lens snd (λ b s, (s.1, b)).

(** Total-correctness triples: [wp m Q s] says that [m] runs from [s] without
    undefined behaviour and that [Q] holds of its result and final state. *)
Definition wp {S A} (m : cmd S A) (Q : A → S → Prop) (s : S) : Prop :=
  match m s with Some (a, s') => Q a s' | None => False end.

Section wp.
Context {S A B : Type}.
Implicit Types (s : S) (m : cmd S A) (f : A → cmd S B).

Lemma wp_ret (a : A) Q s : Q a s → wp (mret a : cmd S A) Q s.
Proof. done. Qed.

Lemma wp_bind m f Q s : wp m (λ a, wp (f a) Q) s → wp (m ≫= f) Q s.
Proof. unfold wp, mbind, cmd_bind. by destruct (m s) as [[a s']|]. Qed.

Lemma wp_mono m (Q R : A → S → Prop) s :
  wp m Q s → (∀ a s', Q a s' → R a s') → wp m R s.
Proof. unfold wp. destruct (m s) as [[a s']|]; auto. Qed.

Lemma wp_gets (g : S → A) Q s : Q (g s) s → wp (gets g) Q s.
Proof. done. Qed.

Lemma wp_modify (g : S → S) (Q : () → S → Prop) s :
  Q tt (g s) → wp (modify g) Q s.
Proof. done. Qed.

Lemma wp_inv m Q s : wp m Q s → ∃ a s', m s = Some (a, s') ∧ Q a s'.
Proof. unfold wp. destruct (m s) as [[a s']|]; naive_solver. Qed.

Lemma wp_intro m (Q : A → S → Prop) s a s' :
  m s = Some (a, s') → Q a s' → wp m Q s.
Proof. unfold wp. by intros ->. Qed.

Lemma wp_elim m (Q : A → S → Prop) s a s' : wp m Q s → m s = Some (a, s') → Q a s'.
Proof. unfold wp. intros HQ E. by rewrite E in HQ. Qed.

Lemma wp_elim_eq (Q : A → S → Prop) m s a s' :
  wp m Q s → (∀ b t, Q b t → (b, t) = (a, s')) → m s = Some (a, s').
Proof. unfold wp. destruct (m s) as [[b t]|]; [|done]. intros HQ Heq. f_equal. auto. Qed.

Lemma bind_eq m f s a s' : m s = Some (a, s') → (m ≫= f) s = f a s'.
Proof. unfold mbind, cmd_bind. by intros ->. Qed.
End wp.

Lemma wp_zoom {S T A} (l : lens S T) (m : cmd T A) (Q : A → S → Prop) s :
  wp m (λ a t, Q a (lput l t s)) (lget l s) → wp (zoom l m) Q s.
Proof. unfold wp, zoom. by destruct (m (lget l s)) as [[a t]|]. Qed.

(** Triples that allow undefined behaviour when [F] holds. *)
Definition wpf {S A} (F : Prop) (m : cmd S A) (Q : A → S → Prop) (s : S) : Prop :=
  match m s with Some (a, s') => Q a s' | None => F end.

Lemma wpf_wp {S A} (F : Prop) (m : cmd S A) Q s : wp m Q s → wpf F m Q s.
Proof. unfold wp, wpf. by destruct (m s) as [[]|]. Qed.
Lemma wpf_bind {S A B} (F : Prop) (m : cmd S A) (f : A → cmd S B) Q s :
  wpf F m (λ a, wpf F (f a) Q) s → wpf F (m ≫= f) Q s.
Proof. unfold wpf, mbind, cmd_bind. by destruct (m s) as [[]|]. Qed.
Lemma wpf_ret {S A} (F : Prop) (a : A) Q (s : S) : Q a s → wpf F (mret a : cmd S A) Q s.
Proof. done. Qed.
Lemma wpf_zoom {S T A} (F : Prop) (l : lens S T) (m : cmd T A) Q s :
  wpf F m (λ a t, Q a (lput l t s)) (lget l s) → wpf F (zoom l m) Q s.
Proof. unfold wpf, zoom. by destruct (m (lget l s)) as [[]|]. Qed.
Lemma wpf_mono {S A} (F : Prop) (m : cmd S A) (Q R : A → S → Prop) s :
  wpf F m Q s → (∀ a s', Q a s' → R a s') → wpf F m R s.
Proof. unfold wpf. destruct (m s) as [[]|]; auto. Qed.

(** Partial correctness: what holds of the results of a command that starts where
    [P] holds, whenever it has one. *)
Definition triple {S A} (P : S → Prop) (c : cmd S A) (Q : A → S → Prop) : Prop :=
  ∀ s a s', P s → c s = Some (a, s') → Q a s'.
Definition maintains {S A} (P : S → Prop) (c : cmd S A) : Prop := triple P c (λ _, P).

Section triple.
Context {S A B : Type}.
Implicit Types (P : S → Prop) (c : cmd S A).

Lemma tr_bind P R c (f : A → cmd S B) Q :
  triple P c R → (∀ a, triple (R a) (f a) Q) → triple P (c ≫= f) Q.
Proof.
  intros Hc Hf s b s' Hs E. unfold mbind, cmd_bind in E. destruct (c s) as [[a s1]|] eqn:Ec; [|done].
  by eapply (Hf a s1), E; eapply Hc.
Qed.
Lemma tr_seq P c (f : A → cmd S B) Q : maintains P c → (∀ a, triple P (f a) Q) → triple P (c ≫= f) Q.
Proof. apply tr_bind. Qed.
Lemma tr_ret P (a : A) (Q : A → S → Prop) : (∀ s, P s → Q a s) → triple P (mret a : cmd S A) Q.
Proof. intros HQ s b s' Hs [= <- <-]. auto. Qed.
Lemma tr_fault P (Q : A → S → Prop) : triple P (fault : cmd S A) Q.
Proof. done. Qed.
Lemma tr_gets P (g : S → A) (Q : A → S → Prop) : (∀ s, P s → Q (g s) s) → triple P (gets g) Q.
Proof. intros HQ s b s' Hs [= <- <-]. auto. Qed.
Lemma tr_modify P (g : S → S) (Q : () → S → Prop) : (∀ s, P s → Q tt (g s)) → triple P (modify g) Q.
Proof. intros HQ s b s' Hs [= <- <-]. auto. Qed.
Lemma tr_post P c (R Q : A → S → Prop) : triple P c R → (∀ a s, R a s → Q a s) → triple P c Q.
Proof. intros Hc HQ s a s' Hs E. eapply HQ, Hc; eauto. Qed.
Lemma tr_pre P P' c (Q : A → S → Prop) : triple P' c Q → (∀ s, P s → P' s) → triple P c Q.
Proof. intros Hc HP s a s' Hs E. eapply Hc; eauto. Qed.
Lemma tr_and P P' c (Q Q' : A → S → Prop) :
  triple P c Q → triple P' c Q' → triple (λ s, P s ∧ P' s) c (λ a s, Q a s ∧ Q' a s).
Proof. intros H H' s a s' [Hs Hs'] E. split; eauto. Qed.
Lemma tr_fact P c (Q : A → S → Prop) (X : Prop) : (X → triple P c Q) → triple (λ s, X ∧ P s) c Q.
Proof. intros H s a s' [Hx Hs] E. by eapply H. Qed.
End triple.

Lemma tr_zoom {S T A} (l : lens S T) (c : cmd T A) (P : S → Prop) Q :
  (∀ s, P s → ∀ a t, c (lget l s) = Some (a, t) → Q a (lput l t s)) → triple P (zoom l c) Q.
Proof.
  intros H s a s' Hs E. unfold zoom in E. destruct (c (lget l s)) as [[b t]|] eqn:Ec; [|done].
  injection E as <- <-. eauto.
Qed.
(** A part of the state that [P] says nothing about, and the part it is about. *)
Lemma mt_frame {S T A} (l : lens S T) (c : cmd T A) (P : S → Prop) :
  (∀ t s, P s → P (lput l t s)) → maintains P (zoom l c).
Proof. intros H. apply tr_zoom. eauto. Qed.
Lemma mt_zoom {S T A} (l : lens S T) (c : cmd T A) (P : T → Prop) (P' : S → Prop) :
  (∀ s, P' s ↔ P (lget l s)) → (∀ t s, lget l (lput l t s) = t) → maintains P c → maintains P' (zoom l c).
Proof. intros HP Hl Hc. apply tr_zoom. intros s Hs a t E. apply HP. rewrite Hl. eapply Hc; [|done]. by apply HP. Qed.

(** [wp_steps] runs the administrative commands at the head of a triple. *)
Ltac wp_step :=
  lazymatch goal with
  | |- wp (mbind _ _) _ _ => apply wp_bind
  | |- wp (mret _) _ _ => apply wp_ret
  | |- wp (gets _) _ _ => apply wp_gets
  | |- wp (modify _) _ _ => apply wp_modify
  | |- wp (zoom _ _) _ _ => apply wp_zoom
  end.
Ltac wp_simpl := cbn beta match delta [negb andb orb fst snd].
Ltac wp_steps := wp_simpl; repeat (wp_step; wp_simpl).

(** A run on concrete values, by the virtual machine. *)
Ltac vm_run := match goal with |- _ = ?r => vm_cast_no_check (eq_refl r) end.

(** [wp_if] splits on the condition at the head of a triple. *)
Ltac wp_if :=
  lazymatch goal with
  | |- wp (match ?b with _ => _ end) _ _ =>
      let E := fresh "Hb" in destruct b eqn:E
  | |- wp (mbind _ (match ?b with _ => _ end)) _ _ =>
      let E := fresh "Hb" in destruct b eqn:E
  end.

(** [wp_use H] continues a triple with the triple [H] already proved of its
    head command. *)
Tactic Notation "wp_use" uconstr(H) := eapply wp_mono; [ apply H | cbn beta ].

(** ** Machine integers

    A [w]-bit unsigned value is a [Z] in [[0, 2^w)]; the conversion to the
    width is written where the C code converts. *)

Definition u8 (z : Z) : Z := z mod 2 ^ 8.
Definition u16 (z : Z) : Z := z mod 2 ^ 16.
Definition u32 (z : Z) : Z := z mod 2 ^ 32.
Definition u64 (z : Z) : Z := z mod 2 ^ 64.

(** Conversion of a 32-bit value to [int] (two's complement). *)
Definition i32 (z : Z) : Z :=
  let u := u32 z in if u <? 2 ^ 31 then u else u - 2 ^ 32.

Definition is_u8 (z : Z) : Prop := 0 ≤ z < 2 ^ 8.
Definition is_u16 (z : Z) : Prop := 0 ≤ z < 2 ^ 16.
Definition is_u32 (z : Z) : Prop := 0 ≤ z < 2 ^ 32.
Definition is_u128 (z : Z) : Prop := 0 ≤ z < 2 ^ 128.

(** Byte [i] (in memory order) of a little-endian value. *)
Definition byte_of (i : Z) (z : Z) : Z := z / 2 ^ (8 * i) mod 2 ^ 8.

(** [htons]/[ntohs] and [htonl]/[ntohl] on a little-endian host. *)
Definition bswap16 (z : Z) : Z := byte_of 0 z * 2 ^ 8 + byte_of 1 z.
Definition bswap32 (z : Z) : Z :=
  byte_of 0 z * 2 ^ 24 + byte_of 1 z * 2 ^ 16 + byte_of 2 z * 2 ^ 8 + byte_of 3 z.

Abbreviation htons := bswap16 (only parsing).
Abbreviation ntohs := bswap16 (only parsing).
Abbreviation htonl := bswap32 (only parsing).
Abbreviation ntohl := bswap32 (only parsing).

Ltac unfold_widths :=
  unfold is_u8, is_u16, is_u32, is_u128, u8, u16, u32, u64 in *;
  change (2 ^ 8) with 256 in *; change (2 ^ 16) with 65536 in *;
  change (2 ^ 32) with 4294967296 in *;
  change (2 ^ 64) with 18446744073709551616 in *.

(** [zsolve] closes linear goals with [/] and [mod] by constants. *)
Ltac zsolve := unfold_widths; Z.div_mod_to_equations; lia.

Lemma u16_range z : is_u16 (u16 z).
Proof. apply Z.mod_pos_bound. lia. Qed.

Lemma u32_range z : is_u32 (u32 z).
Proof. apply Z.mod_pos_bound. lia. Qed.

Lemma u16_id z : is_u16 z → u16 z = z.
Proof. apply Z.mod_small. Qed.

Lemma u32_id z : is_u32 z → u32 z = z.
Proof. apply Z.mod_small. Qed.

Lemma i32_small z : - 2 ^ 31 ≤ z < 2 ^ 31 → i32 z = z.
Proof.
  intros Hz. unfold i32, u32. destruct (Z.ltb_spec z 0).
  - replace (z mod 2 ^ 32) with (z + 2 ^ 32).
    + rewrite (proj2 (Z.ltb_ge _ _)); lia.
    + symmetry. rewrite <- (Z.mod_add z 1) by lia. apply Z.mod_small. lia.
  - rewrite Z.mod_small by lia. rewrite (proj2 (Z.ltb_lt _ _)); lia.
Qed.

Lemma byte_of_range i z : is_u8 (byte_of i z).
Proof. apply Z.mod_pos_bound. lia. Qed.

Lemma bswap16_range z : is_u16 (bswap16 z).
Proof.
  unfold bswap16. pose proof (byte_of_range 0 z). pose proof (byte_of_range 1 z).
  unfold_widths. lia.
Qed.

(** Digits in base 256, least significant first. *)
Lemma byte_of_0 b q : is_u8 b → byte_of 0 (b + q * 256) = b.
Proof.
  unfold byte_of. intros Hb. change (2 ^ (8 * 0)) with 1. rewrite Z.div_1_r.
  change (2 ^ 8) with 256. rewrite Z.mod_add by lia. by apply Z.mod_small.
Qed.

Lemma byte_of_small b : is_u8 b → byte_of 0 b = b.
Proof. intros Hb. rewrite <- (byte_of_0 b 0) at 2 by done. f_equal. lia. Qed.

Lemma byte_of_S i b q :
  0 ≤ i → is_u8 b → byte_of (i + 1) (b + q * 256) = byte_of i q.
Proof.
  intros Hi Hb. unfold byte_of.
  replace (8 * (i + 1)) with (8 + 8 * i) by lia.
  rewrite Z.pow_add_r, <- Z.div_div by lia. change (2 ^ 8) with 256.
  rewrite Z.div_add by lia. rewrite (Z.div_small b) by done. done.
Qed.

Lemma byte_digits z : z = byte_of 0 z + z / 256 * 256.
Proof.
  unfold byte_of. change (2 ^ (8 * 0)) with 1. rewrite Z.div_1_r.
  change (2 ^ 8) with 256. pose proof (Z.div_mod z 256). lia.
Qed.

Lemma bswap16_digits b0 b1 :
  is_u8 b0 → is_u8 b1 → bswap16 (b0 + b1 * 256) = b1 + b0 * 256.
Proof.
  intros H0 H1. unfold bswap16. rewrite byte_of_0 by done.
  rewrite (byte_of_S 0) by (done || lia).
  rewrite byte_of_small by done. lia.
Qed.

Lemma bswap16_involutive z : is_u16 z → bswap16 (bswap16 z) = z.
Proof.
  intros Hz. rewrite (byte_digits z).
  assert (is_u8 (z / 256)).
  { unfold is_u8, is_u16 in *. split; [apply Z.div_pos; lia | apply Z.div_lt_upper_bound; lia]. }
  rewrite !bswap16_digits; auto using byte_of_range.
Qed.

Lemma bswap32_range z : is_u32 (bswap32 z).
Proof.
  unfold bswap32. pose proof (byte_of_range 0 z). pose proof (byte_of_range 1 z).
  pose proof (byte_of_range 2 z). pose proof (byte_of_range 3 z).
  change (2 ^ 24) with 16777216. unfold_widths. lia.
Qed.

Lemma bswap32_digits b0 b1 b2 b3 :
  is_u8 b0 → is_u8 b1 → is_u8 b2 → is_u8 b3 →
  bswap32 (b0 + (b1 + (b2 + b3 * 256) * 256) * 256)
  = b3 + (b2 + (b1 + b0 * 256) * 256) * 256.
Proof.
  intros H0 H1 H2 H3. unfold bswap32. rewrite byte_of_0 by done.
  rewrite (byte_of_S 0), (byte_of_S 1), (byte_of_S 2) by (done || lia).
  rewrite byte_of_0 by done.
  rewrite (byte_of_S 0), (byte_of_S 1) by (done || lia).
  rewrite byte_of_0 by done.
  rewrite (byte_of_S 0) by (done || lia).
  rewrite byte_of_small by done.
  change (2 ^ 24) with 16777216. change (2 ^ 16) with 65536. change (2 ^ 8) with 256. lia.
Qed.

Lemma bswap32_involutive z : is_u32 z → bswap32 (bswap32 z) = z.
Proof.
  intros Hz. rewrite (byte_digits z), (byte_digits (z / 256)),
    (byte_digits (z / 256 / 256)).
  assert (is_u8 (z / 256 / 256 / 256)).
  { rewrite !Z.div_div by lia. unfold is_u8, is_u32 in *.
    split; [apply Z.div_pos; lia | apply Z.div_lt_upper_bound; lia]. }
  rewrite !bswap32_digits; auto using byte_of_range.
Qed.

Lemma bswap16_inj a b : is_u16 a → is_u16 b → bswap16 a = bswap16 b → a = b.
Proof.
  intros Ha Hb E. by rewrite <- (bswap16_involutive a), <- (bswap16_involutive b), E.
Qed.

Lemma bswap32_inj a b : is_u32 a → is_u32 b → bswap32 a = bswap32 b → a = b.
Proof.
  intros Ha Hb E. by rewrite <- (bswap32_involutive a), <- (bswap32_involutive b), E.
Qed.

Create HintDb dps.
Create Rewrite HintDb dps.
#[export] Hint Resolve u16_range u32_range bswap16_range bswap32_range
  byte_of_range : dps.
#[export] Hint Rewrite @lget_lput @lput_lput @lput_lget using typeclasses eauto : dps.

(** ** Sixteen-byte arrays

    A [uint8_t[16]] is the 128-bit value its bytes encode in memory order
    (byte 0 is the least significant). *)

Definition word32_of (i : Z) (z : Z) : Z := z / 2 ^ (32 * i) mod 2 ^ 32.

(** The value of the array after its first four bytes were overwritten. *)
Definition set_word32_0 (w z : Z) : Z := z / 2 ^ 32 * 2 ^ 32 + u32 w.

Definition of_bytes (l : list Z) : Z :=
  foldr (λ b acc, u8 b + 2 ^ 8 * acc) 0 l.

Lemma of_bytes_range l : Forall is_u8 l → 0 ≤ of_bytes l < 2 ^ (8 * Z.of_nat (length l)).
Proof.
  induction 1 as [|b l Hb Hl IH]; [done|]. cbn [of_bytes foldr length].
  fold (of_bytes l). unfold u8. rewrite Z.mod_small by done.
  replace (8 * Z.of_nat (S (length l))) with (8 + 8 * Z.of_nat (length l)) by lia.
  rewrite Z.pow_add_r by lia. unfold is_u8 in Hb. nia.
Qed.

(** The bytes of a value put together again. *)
Lemma of_bytes_byte_of n z :
  of_bytes ((λ i, byte_of i z) <$> seqZ 0 (Z.of_nat n)) = z mod 2 ^ (8 * Z.of_nat n).
Proof.
  revert z. induction n as [|n IH]; intros z; [by rewrite Z.mod_1_r|].
  rewrite seqZ_cons by lia. replace (Z.pred (Z.of_nat (S n))) with (Z.of_nat n) by lia.
  replace (8 * Z.of_nat (S n)) with (8 + 8 * Z.of_nat n) by lia.
  rewrite Z.pow_add_r by lia. rewrite Z.rem_mul_r by lia. rewrite <- IH.
  rewrite fmap_cons. cbn [of_bytes foldr]. f_equal.
  - unfold u8, byte_of. change (2 ^ (8 * 0)) with 1. by rewrite Z.div_1_r, Z.mod_mod.
  - f_equal. apply (f_equal of_bytes).
    rewrite <- (fmap_add_seqZ 1 0), <- list_fmap_compose.
    apply list_fmap_ext. intros i x Hx. apply lookup_seqZ in Hx as [-> Hx]. unfold compose.
    replace (1 + (0 + Z.of_nat i)) with ((0 + Z.of_nat i) + 1) by lia.
    rewrite (byte_digits z) at 1. apply byte_of_S; [lia|]. apply byte_of_range.
Qed.

Lemma byte_of_testbit i z j :
  0 ≤ i → 0 ≤ j → Z.testbit (byte_of i z) j = (j <? 8) && Z.testbit z (8 * i + j).
Proof.
  intros Hi Hj. unfold byte_of. destruct (Z.ltb_spec j 8).
  - rewrite Z.mod_pow2_bits_low, Z.div_pow2_bits by lia. simpl. f_equal. lia.
  - by rewrite Z.mod_pow2_bits_high by lia.
Qed.

Lemma byte_of_land i a b :
  0 ≤ i → byte_of i (Z.land a b) = Z.land (byte_of i a) (byte_of i b).
Proof.
  intros Hi. apply Z.bits_inj'. intros j Hj. rewrite Z.land_spec, !byte_of_testbit by done.
  rewrite Z.land_spec. by destruct (j <? 8), (Z.testbit a _).
Qed.

Lemma land_range w a b : 0 ≤ w → 0 ≤ a < 2 ^ w → 0 ≤ b → 0 ≤ Z.land a b < 2 ^ w.
Proof.
  intros Hw Ha Hb. assert (E : Z.land a b mod 2 ^ w = Z.land a b).
  { rewrite <- Z.land_ones by done. rewrite Z.land_comm, Z.land_assoc.
    rewrite (Z.land_comm (Z.ones w)), Z.land_ones by done. by rewrite Z.mod_small. }
  rewrite <- E. apply Z.mod_pos_bound. lia.
Qed.

Lemma word32_of_range i z : is_u32 (word32_of i z).
Proof. apply Z.mod_pos_bound. lia. Qed.
#[export] Hint Resolve word32_of_range : dps.

(** ** Lists *)

Lemma list_filter_all {A} (P : A → Prop) `{∀ x, Decision (P x)} (l : list A) :
  Forall P l → filter P l = l.
Proof.
  induction 1 as [|x l Hx Hl IH]; [done|]. by rewrite filter_cons, decide_True, IH.
Qed.

Lemma list_filter_none {A} (P : A → Prop) `{∀ x, Decision (P x)} (l : list A) :
  Forall (λ x, ¬ P x) l → filter P l = [].
Proof. induction 1 as [|x l Hx Hl IH]; [done|]. by rewrite filter_cons, decide_False. Qed.

Lemma list_filter_ext_in {A} (P Q : A → Prop) `{∀ x, Decision (P x)} `{∀ x, Decision (Q x)}
    (l : list A) :
  (∀ x, x ∈ l → P x ↔ Q x) → filter P l = filter Q l.
Proof.
  induction l as [|x l IH]; intros HPQ; [done|]. rewrite !filter_cons.
  rewrite IH by (intros; apply HPQ; set_solver).
  specialize (HPQ x ltac:(set_solver)). repeat case_decide; tauto.
Qed.

(** A [for] loop that breaks at the first index with a property: that index, or
    [None] when the loop ends without a break. *)
Definition for_find (test : Z → bool) (from n : Z) : option Z :=
  head (filter (λ k, test k = true) (seqZ from n)).

Lemma for_find_Some test from n k :
  for_find test from n = Some k →
  from ≤ k < from + n ∧ test k = true ∧ ∀ j, from ≤ j < k → test j = false.
Proof.
  unfold for_find. intros Hf. assert (Hk : k ∈ filter (λ k, test k = true) (seqZ from n)).
  { destruct (filter _ _); simplify_eq/=. set_solver. }
  apply list_elem_of_filter in Hk as [Ht Hk%elem_of_seqZ]. split; [lia|]. split; [done|].
  intros j Hj. apply head_filter_Some in Hf as (l1 & l2 & Heq & Hl1).
  destruct (test j) eqn:Htj; [|done]. exfalso.
  assert (Hlen : l1 = take (length l1) (seqZ from n)) by (by rewrite Heq, take_app_length).
  assert (Hlk : seqZ from n !! length l1 = Some k) by (by rewrite Heq, list_lookup_middle).
  apply lookup_seqZ in Hlk as [-> Hlt].
  rewrite Forall_forall in Hl1. apply (Hl1 j); [|done].
  rewrite Hlen. apply list_elem_of_lookup. exists (Z.to_nat (j - from)).
  rewrite lookup_take_lt by lia. apply lookup_seqZ. lia.
Qed.

Lemma for_find_None test from n j :
  for_find test from n = None → from ≤ j < from + n → test j = false.
Proof.
  unfold for_find. intros Hf Hj. destruct (test j) eqn:Ht; [|done].
  assert (Hin : j ∈ filter (λ k, test k = true) (seqZ from n)).
  { apply list_elem_of_filter. split; [done|]. apply elem_of_seqZ. lia. }
  destruct (filter _ _); [set_solver|done].
Qed.

(** ** Booleans *)

Ltac zbool :=
  repeat match goal with
  | H : (_ =? _) = true |- _ => apply Z.eqb_eq in H
  | H : (_ =? _) = false |- _ => apply Z.eqb_neq in H
  | H : (_ <? _) = true |- _ => apply Z.ltb_lt in H
  | H : (_ <? _) = false |- _ => apply Z.ltb_ge in H
  | H : (_ <=? _) = true |- _ => apply Z.leb_le in H
  | H : (_ <=? _) = false |- _ => apply Z.leb_gt in H
  | H : (_ && _) = true |- _ => apply andb_true_iff in H as [? ?]
  | H : (_ || _) = false |- _ => apply orb_false_iff in H as [? ?]
  | H : negb _ = true |- _ => apply negb_true_iff in H
  | H : negb _ = false |- _ => apply negb_false_iff in H
  end.
