(* ===== verification/Dpdk.v ===== *)
(** * The DPDK interface: hash tables and the heap

    DPDK is not part of the repository.  What dpservice calls of [rte_hash] and
    [rte_malloc] are operations of the classes [RteHash] and [RteMalloc]; what
    it relies on (the documented behaviour of these functions) are the laws of
    [RteHashOk] and [RteMallocOk].  The last section gives an instance of each,
    so that the theorems can be run on concrete tables.

    Nearly every table of dpservice maps a key to a pointer to an object that
    the table owns.  [otable] is such a table with its heap; its commands
    are the calls the C code makes, its view is the map from keys to objects,
    and [wf_with E] says that the table's pointers are live and unshared and
    that, apart from the objects in [E], no live object is unreachable. *)

From S2P Require Import Prelude.

Definition ENOENT : Z := 2.
Definition EINVAL : Z := 22.
Definition ENOSPC : Z := 28.

Definition loc := positive.

(** ** [rte_hash] *)

Class RteHash := {
  rte_hash (K V : Type) `{Countable K} : Type;
  (** a new table for a number of entries; [None] is NULL *)
  rte_hash_create {K V : Type} `{Countable K} : Z → option (rte_hash K V);
  (** the return value, and what [*data] was set to *)
  rte_hash_lookup_data {K V : Type} `{Countable K} : rte_hash K V → K → Z * option V;
  rte_hash_add_key_data {K V : Type} `{Countable K} :
    rte_hash K V → K → V → Z * rte_hash K V;
  (** adds a key that has no data *)
  rte_hash_add_key {K : Type} `{Countable K} : rte_hash K () → K → Z * rte_hash K ();
  rte_hash_del_key {K V : Type} `{Countable K} : rte_hash K V → K → Z * rte_hash K V;
  rte_hash_count {K V : Type} `{Countable K} : rte_hash K V → Z;
  rte_hash_hash {K V : Type} `{Countable K} : rte_hash K V → K → Z;
  (** the return value, the entry, and the new value of the iterator *)
  rte_hash_iterate {K V : Type} `{Countable K} :
    rte_hash K V → Z → Z * option (K * V) * Z
}.

Definition rte_hash_lookup `{RteHash} {K V} `{Countable K}
  (t : rte_hash K V) (k : K) : Z := (rte_hash_lookup_data t k).1.

(** Calling [rte_hash_iterate] from [i] until [-ENOENT] yields [l]. *)
Inductive iterates `{RteHash} {K V} `{Countable K} (t : rte_hash K V) :
    Z → list (K * V) → Prop :=
  | iterates_end i i' :
      rte_hash_iterate t i = (- ENOENT, None, i') → iterates t i []
  | iterates_next i pos kv i' l :
      rte_hash_iterate t i = (pos, Some kv, i') → 0 ≤ pos →
      iterates t i' l → iterates t i (kv :: l).

Class RteHashOk `{RteHash} := {
  contents {K V : Type} `{Countable K} : rte_hash K V → gmap K V;
  hash_create_empty {K V : Type} `{Countable K} n (t : rte_hash K V) :
    rte_hash_create n = Some t → contents t = ∅;
  hash_lookup_some {K V : Type} `{Countable K} (t : rte_hash K V) k v :
    contents t !! k = Some v →
    ∃ pos, 0 ≤ pos ∧ rte_hash_lookup_data t k = (pos, Some v);
  hash_lookup_none {K V : Type} `{Countable K} (t : rte_hash K V) k :
    contents t !! k = None → rte_hash_lookup_data t k = (- ENOENT, None);
  hash_add {K V : Type} `{Countable K} (t : rte_hash K V) k v r t' :
    rte_hash_add_key_data t k v = (r, t') →
    (r = 0 ∧ contents t' = <[k := v]> (contents t))
    ∨ ((r = - EINVAL ∨ r = - ENOSPC) ∧ contents t' = contents t);
  hash_add_key {K : Type} `{Countable K} (t : rte_hash K ()) k r t' :
    rte_hash_add_key t k = (r, t') →
    (0 ≤ r ∧ contents t' = <[k := tt]> (contents t))
    ∨ ((r = - EINVAL ∨ r = - ENOSPC) ∧ contents t' = contents t);
  hash_del_some {K V : Type} `{Countable K} (t : rte_hash K V) k v :
    contents t !! k = Some v →
    ∃ pos t', 0 ≤ pos ∧ rte_hash_del_key t k = (pos, t')
      ∧ contents t' = delete k (contents t);
  hash_del_none {K V : Type} `{Countable K} (t : rte_hash K V) k :
    contents t !! k = None → rte_hash_del_key t k = (- ENOENT, t);
  hash_count_size {K V : Type} `{Countable K} (t : rte_hash K V) :
    rte_hash_count t = Z.of_nat (size (contents t));
  hash_hash_range {K V : Type} `{Countable K} (t : rte_hash K V) k :
    is_u32 (rte_hash_hash t k);
  hash_iterate_all {K V : Type} `{Countable K} (t : rte_hash K V) :
    ∃ l, iterates t 0 l ∧ l ≡ₚ map_to_list (contents t)
}.

(** What the loops rely on that delete entries while they iterate: the entries
    stand in slots, the iterator is a slot number and moves to the first
    occupied slot from there, and a deletion leaves the other entries where they
    are. *)
Class RteHashScan `{RteHashOk} := {
  slot {K V : Type} `{Countable K} : rte_hash K V → K → Z;
  slot_nonneg {K V : Type} `{Countable K} (t : rte_hash K V) k : 0 ≤ slot t k;
  slot_inj {K V : Type} `{Countable K} (t : rte_hash K V) k1 k2 :
    is_Some (contents t !! k1) → is_Some (contents t !! k2) → slot t k1 = slot t k2 → k1 = k2;
  scan_next {K V : Type} `{Countable K} (t : rte_hash K V) i :
    (∃ pos k v, rte_hash_iterate t i = (pos, Some (k, v), slot t k + 1) ∧ 0 ≤ pos
       ∧ contents t !! k = Some v ∧ i ≤ slot t k
       ∧ ∀ k', is_Some (contents t !! k') → i ≤ slot t k' → slot t k ≤ slot t k')
    ∨ (∃ i', rte_hash_iterate t i = (- ENOENT, None, i')
         ∧ ∀ k', is_Some (contents t !! k') → slot t k' < i);
  slot_del {K V : Type} `{Countable K} (t : rte_hash K V) k r t' k' :
    rte_hash_del_key t k = (r, t') → is_Some (contents t' !! k') → slot t' k' = slot t k'
}.

(** The loop [while ((ret = rte_hash_iterate(...)) != -ENOENT)] over a table that
    does not change: the entries visited and the value of [ret] that ended it.
    [None] is a loop that is still running after [fuel] rounds. *)
Fixpoint hash_items_from `{RteHash} {K V} `{Countable K} (fuel : nat) (t : rte_hash K V) (i : Z) :
    option (list (K * V) * Z) :=
  match fuel with
  | O => None
  | S fuel =>
      match rte_hash_iterate t i with
      | (ret, Some kv, i') =>
          if ret <? 0 then Some ([], ret)
          else match hash_items_from fuel t i' with
               | Some (l, e) => Some (kv :: l, e)
               | None => None
               end
      | (ret, None, _) => Some ([], ret)
      end
  end.

(** One round more than there are entries. *)
Definition hash_items `{RteHash} {K V} `{Countable K} (t : rte_hash K V) :
    option (list (K * V) * Z) :=
  hash_items_from (S (Z.to_nat (rte_hash_count t))) t 0.

Section hash_facts.
Context `{HH : RteHash} {HO : RteHashOk}.
Context {K V : Type} `{Countable K}.
Implicit Types t : rte_hash K V.

Lemma hash_lookup_cases t k :
  (∃ pos v, contents t !! k = Some v ∧ 0 ≤ pos ∧ rte_hash_lookup_data t k = (pos, Some v))
  ∨ (contents t !! k = None ∧ rte_hash_lookup_data t k = (- ENOENT, None)).
Proof.
  destruct (contents t !! k) as [v|] eqn:E.
  - left. destruct (hash_lookup_some t k v E) as (pos & ? & ?). eauto 6.
  - right. split; [done|]. by apply hash_lookup_none.
Qed.

(** [rte_hash_lookup] as the code tests it. *)
Lemma hash_lookup_neg t k : rte_hash_lookup t k < 0 ↔ contents t !! k = None.
Proof.
  unfold rte_hash_lookup, ENOENT.
  destruct (hash_lookup_cases t k) as [(pos & v & E & ? & ->)|[E ->]];
    rewrite E; unfold ENOENT; simpl; split; intros; (done || lia).
Qed.

Lemma hash_lookup_ENOENT t k :
  rte_hash_lookup t k = - ENOENT ↔ contents t !! k = None.
Proof.
  unfold rte_hash_lookup.
  destruct (hash_lookup_cases t k) as [(pos & v & E & ? & ->)|[E ->]];
    rewrite E; unfold ENOENT; simpl; split; intros; (done || lia).
Qed.

Lemma hash_items_from_iterates t i l fuel :
  iterates t i l → (length l < fuel)%nat → hash_items_from fuel t i = Some (l, - ENOENT).
Proof.
  intros Hit. revert fuel. induction Hit as [i i' E|i pos kv i' l E Hpos Hit IH];
    intros [|fuel] Hf; simpl in *; try lia; rewrite E; [done|].
  assert (pos <? 0 = false) as -> by (by apply Z.ltb_ge). rewrite IH by lia. done.
Qed.

(** The loop ends, and visits every entry once. *)
Lemma hash_items_spec t :
  ∃ l, hash_items t = Some (l, - ENOENT) ∧ l ≡ₚ map_to_list (contents t).
Proof.
  destruct (hash_iterate_all t) as (l & Hit & Hperm). exists l. split; [|done].
  apply hash_items_from_iterates; [done|].
  rewrite hash_count_size, Nat2Z.id, (Permutation_length Hperm), length_map_to_list. lia.
Qed.
End hash_facts.

(** ** [rte_malloc] *)

Class RteMalloc := {
  malloc_state : Type;
  (** a request made when the addresses of the set are in use *)
  rte_malloc : malloc_state → gset loc → option loc * malloc_state
}.

Class RteMallocOk `{RteMalloc} : Prop :=
  rte_malloc_fresh st live p st' : rte_malloc st live = (Some p, st') → p ∉ live.

(** The live objects of one type. *)
Record heap `{RteMalloc} (T : Type) := Heap {
  objs : gmap loc T;
  mst : malloc_state
}.
Arguments Heap {_ _} _ _.
Arguments objs {_ _} _.
Arguments mst {_ _} _.

Section heap_ops.
Context `{HM : RteMalloc} {T : Type}.
Implicit Types (h : heap T) (p : loc) (v : T).

(** [rte_zmalloc(...)] of an object whose initial value is [v] *)
Definition hp_malloc v : cmd (heap T) (option loc) := λ h,
  let '(op, st) := rte_malloc (mst h) (dom (objs h)) in
  match op with
  | Some p => Some (Some p, Heap (<[p := v]> (objs h)) st)
  | None => Some (None, Heap (objs h) st)
  end.

(** [rte_free(p)] of a live object, [*p], and [*p = v] *)
Definition hp_free p : cmd (heap T) () := λ h,
  match objs h !! p with
  | Some _ => Some (tt, Heap (delete p (objs h)) (mst h))
  | None => None
  end.
Definition hp_load p : cmd (heap T) T := λ h,
  match objs h !! p with Some v => Some (v, h) | None => None end.
Definition hp_store p v : cmd (heap T) () := λ h,
  match objs h !! p with
  | Some _ => Some (tt, Heap (<[p := v]> (objs h)) (mst h))
  | None => None
  end.

Lemma wp_hp_malloc `{!RteMallocOk} h v (Q : option loc → heap T → Prop) :
  (∀ st, Q None (Heap (objs h) st)) →
  (∀ p st, objs h !! p = None → Q (Some p) (Heap (<[p := v]> (objs h)) st)) →
  wp (hp_malloc v) Q h.
Proof.
  intros Hnone Hsome. unfold wp, hp_malloc.
  destruct (rte_malloc _ _) as [[p|] st] eqn:Hm; [|done].
  apply rte_malloc_fresh, not_elem_of_dom in Hm. auto.
Qed.

Lemma wp_hp_free h p v (Q : () → heap T → Prop) :
  objs h !! p = Some v → Q tt (Heap (delete p (objs h)) (mst h)) → wp (hp_free p) Q h.
Proof. unfold wp, hp_free. by intros ->. Qed.

Lemma wp_hp_load h p v (Q : T → heap T → Prop) :
  objs h !! p = Some v → Q v h → wp (hp_load p) Q h.
Proof. unfold wp, hp_load. by intros ->. Qed.

Lemma wp_hp_store h p v0 v (Q : () → heap T → Prop) :
  objs h !! p = Some v0 → Q tt (Heap (<[p := v]> (objs h)) (mst h)) → wp (hp_store p v) Q h.
Proof. unfold wp, hp_store. by intros ->. Qed.
End heap_ops.

(** ** Tables that own their objects *)

Record otable `{RteHash} `{RteMalloc} (K V : Type) `{Countable K} := OTable {
  ot_tbl : rte_hash K loc;
  ot_heap : heap V
}.
Arguments OTable {_ _ _ _ _ _} _ _.
Arguments ot_tbl {_ _ _ _ _ _} _.
Arguments ot_heap {_ _ _ _ _ _} _.

Section otable_ops.
Context `{HH : RteHash} `{HM : RteMalloc}.
Context {K V : Type} `{Countable K}.

(** A new table; the objects will come from a heap that starts at [st]. *)
Definition ot_create (entries : Z) (st : malloc_state) : option (otable K V) :=
  match rte_hash_create entries with
  | Some tbl => Some (OTable tbl (Heap ∅ st))
  | None => None
  end.

Definition DP_JHASH_MARGIN_COEF (entries : Z) : Z := u32 (entries * 6 / 5).

(** src/dp_util.c; the choice of the hash function has no influence on the
    content of a table. *)
Definition dp_create_jhash_table (entries : Z) (st : malloc_state) : option (otable K V) :=
  ot_create (DP_JHASH_MARGIN_COEF entries) st.

(** [rte_hash_lookup_data(tbl, &k, &data)] *)
Definition ot_lookup (k : K) : cmd (otable K V) (Z * option loc) :=
  gets (λ t, rte_hash_lookup_data (ot_tbl t) k).

(** [rte_hash_add_key_data(tbl, &k, data)] *)
Definition ot_add (k : K) (p : loc) : cmd (otable K V) Z := λ t,
  let '(r, tbl) := rte_hash_add_key_data (ot_tbl t) k p in
  Some (r, OTable tbl (ot_heap t)).

(** [rte_hash_del_key(tbl, &k)] *)
Definition ot_del (k : K) : cmd (otable K V) Z := λ t,
  let '(r, tbl) := rte_hash_del_key (ot_tbl t) k in
  Some (r, OTable tbl (ot_heap t)).

(** [rte_zmalloc(...)] of an object whose initial value is [v] *)
Definition ot_malloc (v : V) : cmd (otable K V) (option loc) := λ t,
  let h := ot_heap t in
  let '(op, st) := rte_malloc (mst h) (dom (objs h)) in
  match op with
  | Some p => Some (Some p, OTable (ot_tbl t) (Heap (<[p := v]> (objs h)) st))
  | None => Some (None, OTable (ot_tbl t) (Heap (objs h) st))
  end.

(** [rte_free(p)] of a live object *)
Definition ot_free (p : loc) : cmd (otable K V) () := λ t,
  let h := ot_heap t in
  match objs h !! p with
  | Some _ => Some (tt, OTable (ot_tbl t) (Heap (delete p (objs h)) (mst h)))
  | None => None
  end.

(** [*p] *)
Definition ot_load (p : loc) : cmd (otable K V) V := λ t,
  match objs (ot_heap t) !! p with Some v => Some (v, t) | None => None end.

(** The objects of entries, in order. *)
Fixpoint ot_load_all (items : list (K * loc)) : cmd (otable K V) (list (K * V)) :=
  match items with
  | [] => mret []
  | (k, p) :: items =>
      v ← ot_load p;
      rest ← ot_load_all items;
      mret ((k, v) :: rest)
  end.

(** The entries a read-only iteration over the table visits, and how it ended. *)
Definition ot_items : cmd (otable K V) (list (K * V) * Z) := λ t,
  match hash_items (ot_tbl t) with
  | None => None
  | Some (items, last_ret) =>
      match ot_load_all items t with
      | Some (l, t) => Some ((l, last_ret), t)
      | None => None
      end
  end.

(** [*p = v] *)
Definition ot_store (p : loc) (v : V) : cmd (otable K V) () := λ t,
  let h := ot_heap t in
  match objs h !! p with
  | Some _ => Some (tt, OTable (ot_tbl t) (Heap (<[p := v]> (objs h)) (mst h)))
  | None => None
  end.
End otable_ops.

Section otable_laws.
Context `{HH : RteHash} {HO : RteHashOk} `{HM : RteMalloc} {MO : RteMallocOk}.
Context {K V : Type} `{Countable K}.
Implicit Types (t : otable K V) (k : K) (v : V) (p : loc) (E : gset loc).

Definition ot_ptrs t : gmap K loc := contents (ot_tbl t).
Definition ot_objs t : gmap loc V := objs (ot_heap t).

Definition view t : gmap K V := omap (λ p, ot_objs t !! p) (ot_ptrs t).

Record wf_with E t : Prop := {
  wf_live k p : ot_ptrs t !! k = Some p → is_Some (ot_objs t !! p);
  wf_inj k1 k2 p : ot_ptrs t !! k1 = Some p → ot_ptrs t !! k2 = Some p → k1 = k2;
  wf_owned p : is_Some (ot_objs t !! p) → p ∈ E ∨ ∃ k, ot_ptrs t !! k = Some p;
  wf_extra p : p ∈ E → is_Some (ot_objs t !! p);
  wf_extra_free k p : ot_ptrs t !! k = Some p → p ∉ E
}.

(** No live object is unreachable. *)
Definition wf t : Prop := wf_with ∅ t.

Lemma lookup_view t k : view t !! k = ot_ptrs t !! k ≫= λ p, ot_objs t !! p.
Proof. unfold view. by rewrite lookup_omap. Qed.

Lemma view_lookup_Some t k v :
  view t !! k = Some v ↔ ∃ p, ot_ptrs t !! k = Some p ∧ ot_objs t !! p = Some v.
Proof. rewrite lookup_view. by rewrite bind_Some. Qed.

Lemma view_lookup_None E t k :
  wf_with E t → view t !! k = None ↔ ot_ptrs t !! k = None.
Proof.
  intros Hwf. rewrite lookup_view, bind_None. split; [|by left].
  intros [?|(p & Hp & Hn)]; [done|].
  destruct (wf_live _ _ Hwf _ _ Hp) as [v Hv]. congruence.
Qed.

Lemma ot_create_wf n st t : ot_create n st = Some t → wf t ∧ view t = ∅.
Proof.
  unfold ot_create. destruct (rte_hash_create n) as [tbl|] eqn:Hc; [|done]. intros [= <-].
  apply hash_create_empty in Hc.
  assert (Hp : ot_ptrs (OTable (V := V) tbl (Heap ∅ st)) = ∅) by done.
  assert (Ho : ot_objs (OTable (V := V) tbl (Heap ∅ st)) = ∅) by done.
  split.
  - constructor; intros *; rewrite ?Hp, ?Ho, ?lookup_empty; (done || set_solver).
  - unfold view. rewrite Hp. apply omap_empty.
Qed.

(** A table with one entry. *)
Lemma wf_with_singleton t k p v :
  ot_ptrs t = {[k := p]} → ot_objs t = {[p := v]} → wf t.
Proof.
  intros HP HO'. constructor; rewrite ?HP, ?HO'; intros *.
  - intros [<- <-]%lookup_singleton_Some. by rewrite lookup_singleton_eq.
  - intros [<- <-]%lookup_singleton_Some [<- _]%lookup_singleton_Some. done.
  - intros [w [<- _]%lookup_singleton_Some]. right. exists k. by rewrite ?HP, lookup_singleton_eq.
  - by intros ?%elem_of_empty.
  - intros _. apply not_elem_of_empty.
Qed.

(** A table whose pointers and objects did not change. *)
Lemma wf_with_ext E t t' :
  ot_ptrs t' = ot_ptrs t → ot_objs t' = ot_objs t → wf_with E t → wf_with E t'.
Proof. intros HP HO' []. constructor; rewrite ?HP, ?HO'; eauto. Qed.

Lemma view_ext t t' :
  ot_ptrs t' = ot_ptrs t → ot_objs t' = ot_objs t → view t' = view t.
Proof. unfold view. by intros -> ->. Qed.

Lemma wp_ot_lookup E t k (Q : Z * option loc → otable K V → Prop) :
  wf_with E t →
  (∀ pos p v, 0 ≤ pos → ot_ptrs t !! k = Some p → ot_objs t !! p = Some v →
     view t !! k = Some v → Q (pos, Some p) t) →
  (view t !! k = None → ot_ptrs t !! k = None → Q (- ENOENT, None) t) →
  wp (ot_lookup k) Q t.
Proof.
  intros Hwf Hsome Hnone. apply wp_gets.
  destruct (hash_lookup_cases (ot_tbl t) k) as [(pos & p & Hp & ? & ->)|[Hn ->]].
  - destruct (wf_live _ _ Hwf k p Hp) as [v Hv].
    eapply Hsome; eauto. apply view_lookup_Some; eauto.
  - apply Hnone; [|done]. by apply (view_lookup_None E).
Qed.

Lemma wp_ot_load t p v (Q : V → otable K V → Prop) :
  ot_objs t !! p = Some v → Q v t → wp (ot_load p) Q t.
Proof. unfold wp, ot_load, ot_objs. by intros ->. Qed.

Lemma ot_load_all_eq E t items :
  wf_with E t → (∀ k p, (k, p) ∈ items → ot_ptrs t !! k = Some p) →
  ∃ l, ot_load_all items t = Some (l, t) ∧ l.*1 = items.*1
    ∧ ∀ k v, (k, v) ∈ l → view t !! k = Some v.
Proof.
  intros Hwf. induction items as [|[k p] items IH]; intros Hin.
  { exists []. split_and!; [done|done|set_solver]. }
  destruct IH as (l & Hl & Hfst & Hview); [set_solver|].
  assert (Hp : ot_ptrs t !! k = Some p) by (apply Hin; set_solver).
  destruct (wf_live _ _ Hwf k p Hp) as [v Hv]. exists ((k, v) :: l). split_and!.
  - cbn [ot_load_all]. rewrite (bind_eq _ _ t v t) by (unfold ot_load; fold (ot_objs t); by rewrite Hv).
    by rewrite (bind_eq _ _ _ _ _ Hl).
  - csimpl. by rewrite Hfst.
  - intros k' v' [[= -> ->]|Hin']%elem_of_cons; [|eauto]. apply view_lookup_Some; eauto.
Qed.

(** Every entry is visited once. *)
Lemma wp_ot_items E t (Q : list (K * V) * Z → otable K V → Prop) :
  wf_with E t → (∀ l, l ≡ₚ map_to_list (view t) → Q (l, - ENOENT) t) → wp ot_items Q t.
Proof.
  intros Hwf HQ. unfold wp, ot_items.
  destruct (hash_items_spec (ot_tbl t)) as (items & -> & Hperm).
  assert (Hin : ∀ k p, (k, p) ∈ items ↔ ot_ptrs t !! k = Some p).
  { intros k p. rewrite Hperm. apply elem_of_map_to_list. }
  destruct (ot_load_all_eq E t items Hwf) as (l & -> & Hfst & Hview); [naive_solver|].
  apply HQ. assert (Hnd : NoDup l.*1).
  { rewrite Hfst, (fmap_Permutation fst _ _ Hperm). apply NoDup_fst_map_to_list. }
  apply NoDup_Permutation; [by eapply NoDup_fmap_1|apply NoDup_map_to_list|].
  intros [k v]. rewrite elem_of_map_to_list. split; [apply Hview|].
  intros Hv. apply view_lookup_Some in Hv as (p & Hp & Ho).
  assert (Hk : k ∈ l.*1). { rewrite Hfst. apply list_elem_of_fmap. exists (k, p). by rewrite Hin. }
  apply list_elem_of_fmap in Hk as ([k' v'] & -> & Hk'). simpl in *.
  pose proof (Hview _ _ Hk') as Hv'. apply view_lookup_Some in Hv' as (p' & Hp' & Ho'). congruence.
Qed.

(** Writing through a pointer of the table updates its entry. *)
Lemma wp_ot_store E t k p v0 v (Q : () → otable K V → Prop) :
  wf_with E t → ot_ptrs t !! k = Some p → ot_objs t !! p = Some v0 →
  (∀ t', wf_with E t' → view t' = <[k := v]> (view t) →
     ot_ptrs t' = ot_ptrs t → ot_objs t' = <[p := v]> (ot_objs t) → Q tt t') →
  wp (ot_store p v) Q t.
Proof.
  intros Hwf Hk Hp HQ. unfold wp, ot_store. unfold ot_objs in Hp. rewrite Hp.
  set (t' := OTable _ _).
  assert (HP : ot_ptrs t' = ot_ptrs t) by done.
  assert (HO' : ot_objs t' = <[p := v]> (ot_objs t)) by done.
  assert (Hsome : ∀ q, is_Some (ot_objs t' !! q) ↔ is_Some (ot_objs t !! q)).
  { intros q. rewrite HO', lookup_insert. case_decide as Hq; [|done]. subst q.
    unfold ot_objs. rewrite Hp. done. }
  apply HQ; [| |done|done].
  - destruct Hwf. constructor; intros *; rewrite ?HP, ?Hsome; eauto.
  - apply map_eq. intros k'. rewrite lookup_view, HP, HO', !lookup_insert.
    case_decide as Hk'; [subst k'; rewrite Hk; simpl; by rewrite lookup_insert_eq|].
    rewrite lookup_view. destruct (ot_ptrs t !! k') as [p'|] eqn:Hp'; [|done]. simpl.
    rewrite lookup_insert_ne; [done|]. intros <-. by apply Hk', (wf_inj _ _ Hwf _ _ p).
Qed.

(** Writing to an object the table does not refer to. *)
Lemma wp_ot_store_extra E t p v (Q : () → otable K V → Prop) :
  wf_with E t → p ∈ E →
  (∀ t', wf_with E t' → view t' = view t → ot_ptrs t' = ot_ptrs t →
     ot_objs t' = <[p := v]> (ot_objs t) → Q tt t') →
  wp (ot_store p v) Q t.
Proof.
  intros Hwf Hp HQ. destruct (wf_extra _ _ Hwf p Hp) as [v0 Hv0].
  unfold wp, ot_store. unfold ot_objs in Hv0. rewrite Hv0. set (t' := OTable _ _).
  assert (HP : ot_ptrs t' = ot_ptrs t) by done.
  assert (HO' : ot_objs t' = <[p := v]> (ot_objs t)) by done.
  assert (Hsome : ∀ q, is_Some (ot_objs t' !! q) ↔ is_Some (ot_objs t !! q)).
  { intros q. rewrite HO', lookup_insert. case_decide as Hq; [|done]. subst q.
    unfold ot_objs. rewrite Hv0. done. }
  apply HQ; [| |done|done].
  - destruct Hwf. constructor; intros *; rewrite ?HP, ?Hsome; eauto.
  - apply map_eq. intros k'. rewrite !lookup_view, HP, HO'.
    destruct (ot_ptrs t !! k') as [p'|] eqn:Hp'; [|done]. simpl.
    rewrite lookup_insert_ne; [done|]. intros <-. by apply (wf_extra_free _ _ Hwf _ _ Hp').
Qed.

Lemma wp_ot_malloc E t v (Q : option loc → otable K V → Prop) :
  wf_with E t →
  (∀ t', wf_with E t' → view t' = view t → ot_ptrs t' = ot_ptrs t →
     ot_objs t' = ot_objs t → Q None t') →
  (∀ p t', wf_with ({[p]} ∪ E) t' → p ∉ E → view t' = view t →
     ot_ptrs t' = ot_ptrs t → ot_objs t' = <[p := v]> (ot_objs t) →
     ot_objs t !! p = None → Q (Some p) t') →
  wp (ot_malloc v) Q t.
Proof.
  intros Hwf Hnone Hsome. unfold wp, ot_malloc.
  destruct (rte_malloc _ _) as [[p|] st] eqn:Hm; last first.
  { apply Hnone; [by apply (wf_with_ext E t)|done..]. }
  apply rte_malloc_fresh, not_elem_of_dom in Hm. fold (ot_objs t) in Hm.
  set (t' := OTable _ _).
  assert (HP : ot_ptrs t' = ot_ptrs t) by done.
  assert (HO' : ot_objs t' = <[p := v]> (ot_objs t)) by done.
  assert (Hne : ∀ k q, ot_ptrs t !! k = Some q → q ≠ p).
  { intros k q Hq ->. destruct (wf_live _ _ Hwf _ _ Hq) as [? ?]. congruence. }
  apply Hsome; try done.
  - destruct Hwf as [Hl Hi Ho He Hf]. constructor; intros *; rewrite ?HP, ?HO'.
    + intros Hq. rewrite lookup_insert_ne by (intros <-; by eapply Hne). eauto.
    + eauto.
    + rewrite lookup_insert. case_decide; [set_solver|].
      intros [?|?]%Ho; set_solver.
    + rewrite lookup_insert. case_decide; [done|]. set_solver.
    + intros Hq. rewrite not_elem_of_union, not_elem_of_singleton. eauto.
  - intros Hp. destruct (wf_extra _ _ Hwf p Hp) as [? ?]. congruence.
  - apply map_eq. intros k'. rewrite !lookup_view, HP, HO'.
    destruct (ot_ptrs t !! k') as [p'|] eqn:Hp'; [|done]. simpl.
    rewrite lookup_insert_ne; [done|]. intros <-. by eapply Hne.
Qed.

(** Adding a pointer to an unreachable object; a pointer the key had before is
    overwritten, and its object becomes unreachable. *)
Lemma wp_ot_add E t k p v (Q : Z → otable K V → Prop) :
  wf_with ({[p]} ∪ E) t → p ∉ E → ot_objs t !! p = Some v →
  (∀ r t', r < 0 → (r = - EINVAL ∨ r = - ENOSPC) → wf_with ({[p]} ∪ E) t' → view t' = view t →
     ot_ptrs t' = ot_ptrs t → ot_objs t' = ot_objs t → Q r t') →
  (∀ t', wf_with (E ∪ (option_to_set (ot_ptrs t !! k))) t' →
     view t' = <[k := v]> (view t) → ot_ptrs t' = <[k := p]> (ot_ptrs t) →
     ot_objs t' = ot_objs t → Q 0 t') →
  wp (ot_add k p) Q t.
Proof.
  intros Hwf HpE Hp Hfail Hok. unfold wp, ot_add.
  destruct (rte_hash_add_key_data _ _ _) as [r tbl] eqn:Hadd.
  apply hash_add in Hadd as [[-> Hc]|[Hr Hc]]; last first.
  { apply Hfail; [unfold EINVAL, ENOSPC in Hr; lia|done|by apply (wf_with_ext _ t)|by apply view_ext|done|done]. }
  set (t' := OTable _ _).
  assert (HP : ot_ptrs t' = <[k := p]> (ot_ptrs t)) by done.
  assert (HO' : ot_objs t' = ot_objs t) by done.
  assert (Hne : ∀ k' q, ot_ptrs t !! k' = Some q → q ≠ p).
  { intros k' q Hq ->. apply (wf_extra_free _ _ Hwf _ _ Hq). set_solver. }
  apply Hok; try done.
  - destruct Hwf as [Hl Hi Ho He Hf].
    constructor; intros *; rewrite ?HP, ?HO', ?lookup_insert.
    + case_decide; [intros [= <-]; by exists v|]. eauto.
    + repeat case_decide; intros; simplify_eq; eauto; exfalso; by eapply Hne.
    + intros [Hq|[k' Hk']]%Ho.
      * apply elem_of_union in Hq as [Hq|Hq]; [|set_solver]. right. exists k.
        by rewrite ?HP, lookup_insert_eq, (elem_of_singleton_1 _ _ Hq).
      * destruct (decide (k = k')) as [<-|Hkk].
        { left. rewrite Hk'. set_solver. }
        right. exists k'. by rewrite ?HP, lookup_insert_ne.
    + intros [Hq|Hq%elem_of_option_to_set]%elem_of_union; [apply He; set_solver|]. eauto.
    + case_decide; intros Hq [Hin|Hin%elem_of_option_to_set]%elem_of_union.
      * by simplify_eq.
      * simplify_eq. by eapply Hne.
      * apply (Hf _ _ Hq). set_solver.
      * eauto.
  - apply map_eq. intros k'. rewrite !lookup_view, HP, HO', !lookup_insert.
    case_decide; [done|]. by rewrite lookup_view.
Qed.

Lemma wp_ot_free_extra E t p (Q : () → otable K V → Prop) :
  wf_with ({[p]} ∪ E) t → p ∉ E →
  (∀ t', wf_with E t' → view t' = view t → ot_ptrs t' = ot_ptrs t →
     ot_objs t' = delete p (ot_objs t) → Q tt t') →
  wp (ot_free p) Q t.
Proof.
  intros Hwf HpE HQ. destruct (wf_extra _ _ Hwf p) as [v Hv]; [set_solver|].
  unfold wp, ot_free. unfold ot_objs in Hv. rewrite Hv. set (t' := OTable _ _).
  assert (HP : ot_ptrs t' = ot_ptrs t) by done.
  assert (HO' : ot_objs t' = delete p (ot_objs t)) by done.
  assert (Hne : ∀ k' q, ot_ptrs t !! k' = Some q → q ≠ p).
  { intros k' q Hq ->. apply (wf_extra_free _ _ Hwf _ _ Hq). set_solver. }
  apply HQ; try done.
  - destruct Hwf as [Hl Hi Ho He Hf].
    constructor; intros *; rewrite ?HP, ?HO', ?lookup_delete.
    + intros Hq. case_decide; [subst; by destruct (Hne _ _ Hq)|]. eauto.
    + eauto.
    + case_decide; [intros []; done|]. intros [?|?]%Ho; set_solver.
    + intros Hq. case_decide; [set_solver|]. apply He. set_solver.
    + intros Hq Hin. apply (Hf _ _ Hq). set_solver.
  - apply map_eq. intros k'. rewrite !lookup_view, HP, HO'.
    destruct (ot_ptrs t !! k') as [p'|] eqn:Hp'; [|done]. simpl.
    rewrite lookup_delete_ne; [done|]. intros <-. by eapply Hne.
Qed.

(** [rte_hash_del_key] alone leaves the object unreachable. *)
Lemma wp_ot_del E t k p (Q : Z → otable K V → Prop) :
  wf_with E t → ot_ptrs t !! k = Some p →
  (∀ pos t', 0 ≤ pos → wf_with ({[p]} ∪ E) t' → p ∉ E → view t' = delete k (view t) →
     ot_ptrs t' = delete k (ot_ptrs t) → ot_objs t' = ot_objs t → Q pos t') →
  wp (ot_del k) Q t.
Proof.
  intros Hwf Hk HQ. unfold wp, ot_del.
  destruct (hash_del_some _ _ _ Hk) as (pos & tbl & Hpos & -> & Hc).
  set (t' := OTable _ _).
  assert (HP : ot_ptrs t' = delete k (ot_ptrs t)) by done.
  assert (HO' : ot_objs t' = ot_objs t) by done.
  apply HQ; try done.
  - destruct Hwf as [Hl Hi Ho He Hf].
    constructor; intros *; rewrite ?HP, ?HO', ?lookup_delete.
    + case_decide; [done|]. eauto.
    + repeat case_decide; try done. eauto.
    + intros [?|[k' Hk']]%Ho; [left; set_solver|].
      destruct (decide (k = k')) as [<-|Hne]; [left; rewrite Hk in Hk'; set_solver|].
      right. exists k'. by rewrite ?HP, lookup_delete_ne.
    + intros [->%elem_of_singleton_1|?]%elem_of_union; eauto.
    + case_decide as Hkk; [done|]. intros Hq. rewrite not_elem_of_union, not_elem_of_singleton.
      split; [|eauto]. intros ->. by apply Hkk, (Hi _ _ p).
  - by eapply wf_extra_free.
  - apply map_eq. intros k'. rewrite !lookup_view, HP, HO', !lookup_delete.
    case_decide; [done|]. by rewrite lookup_view.
Qed.

Lemma wp_ot_del_none E t k (Q : Z → otable K V → Prop) :
  wf_with E t → view t !! k = None → Q (- ENOENT) t → wp (ot_del k) Q t.
Proof.
  intros Hwf Hk HQ. unfold wp, ot_del.
  rewrite hash_del_none by (by apply (view_lookup_None E) in Hk). by destruct t.
Qed.

(** A table without the entry of [k] and without its object. *)
Lemma wf_free_del E t t' k p :
  wf_with E t → ot_ptrs t !! k = Some p →
  ot_ptrs t' = delete k (ot_ptrs t) → ot_objs t' = delete p (ot_objs t) →
  wf_with E t' ∧ view t' = delete k (view t).
Proof.
  intros Hwf Hk HP HO'. split.
  - destruct Hwf as [Hl Hi Ho He Hf].
    constructor; intros *; rewrite ?HP, ?HO', ?lookup_delete.
    + case_decide; [done|]. intros Hq. case_decide; [|eauto]. subst.
      exfalso. eauto.
    + repeat case_decide; try done. eauto.
    + case_decide as Hpq; [intros []; done|]. intros [?|[k' Hk']]%Ho; [by left|].
      right. exists k'. rewrite ?HP, lookup_delete_ne; [done|]. intros <-. congruence.
    + intros Hq. case_decide; [subst; by destruct (Hf _ _ Hk)|]. eauto.
    + case_decide; [done|]. eauto.
  - apply map_eq. intros k'. rewrite !lookup_view, HP, HO', !lookup_delete.
    case_decide; [done|]. rewrite lookup_view.
    destruct (ot_ptrs t !! k') as [p'|] eqn:Hp'; [|done]. simpl.
    rewrite lookup_delete_ne; [done|]. intros <-. eauto using wf_inj.
Qed.

(** [rte_free] of an object that the table still refers to. *)
Lemma wp_ot_free_raw t p v (Q : () → otable K V → Prop) :
  ot_objs t !! p = Some v →
  (∀ t', ot_ptrs t' = ot_ptrs t → ot_objs t' = delete p (ot_objs t) → Q tt t') → wp (ot_free p) Q t.
Proof. unfold wp, ot_free, ot_objs. intros -> HQ. by apply HQ. Qed.

Lemma wp_ot_del_raw t k p (Q : Z → otable K V → Prop) :
  ot_ptrs t !! k = Some p →
  (∀ pos t', 0 ≤ pos → ot_ptrs t' = delete k (ot_ptrs t) → ot_objs t' = ot_objs t → Q pos t') →
  wp (ot_del k) Q t.
Proof.
  intros Hk HQ. unfold wp, ot_del. destruct (hash_del_some _ _ _ Hk) as (pos & tbl & Hpos & -> & Hc).
  by apply HQ.
Qed.

(** [rte_free(data)] followed by [rte_hash_del_key(tbl, &k)], the order the
    code uses to drop an entry. *)
Lemma wp_ot_free_del {A} E t k p (f : Z → cmd (otable K V) A) (Q : A → otable K V → Prop) :
  wf_with E t → ot_ptrs t !! k = Some p →
  (∀ pos t', 0 ≤ pos → wf_with E t' → view t' = delete k (view t) →
     ot_ptrs t' = delete k (ot_ptrs t) → wp (f pos) Q t') →
  wp (ot_free p;; (ot_del k ≫= f)) Q t.
Proof.
  intros Hwf Hk HQ. destruct (wf_live _ _ Hwf k p Hk) as [v Hv].
  apply wp_bind, (wp_ot_free_raw _ _ v); [done|]. intros t1 HP1 HO1.
  apply wp_bind, (wp_ot_del_raw _ _ p); [by rewrite HP1|]. intros pos t2 Hpos HP2 HO2.
  rewrite HP1 in HP2. rewrite HO1 in HO2. destruct (wf_free_del E t t2 k p Hwf Hk HP2 HO2). by apply HQ.
Qed.
End otable_laws.

#[export] Hint Resolve wf_with_ext : dps.

(** ** Concrete instances

    A table holding at most [cap] entries, and an allocator that follows a
    list of outcomes ([false] is a failed request; the list exhausted, every
    request succeeds). *)

Section instances.
Context (cap : nat).

Definition gmap_hash_add {K V : Type} `{Countable K} (t : gmap K V) (k : K) (v : V) :
    Z * gmap K V :=
  match t !! k with
  | Some _ => (0, <[k := v]> t)
  | None => if decide (size t < cap)%nat then (0, <[k := v]> t) else (- ENOSPC, t)
  end.

Definition gmap_hash_del {K V : Type} `{Countable K} (t : gmap K V) (k : K) :
    Z * gmap K V :=
  match t !! k with Some _ => (0, delete k t) | None => (- ENOENT, t) end.

(** An entry stands in the slot that the encoding of its key numbers. *)
Definition key_slot {K : Type} `{Countable K} (k : K) : Z := Zpos (encode k).

(** The entry of a list in the lowest slot. *)
Fixpoint lowest_slot {K V : Type} `{Countable K} (l : list (K * V)) : option (K * V) :=
  match l with
  | [] => None
  | kv :: l =>
      match lowest_slot l with
      | Some kv' => if key_slot kv.1 <=? key_slot kv'.1 then Some kv else Some kv'
      | None => Some kv
      end
  end.

Definition slots_from {K V : Type} `{Countable K} (t : gmap K V) (i : Z) : list (K * V) :=
  filter (λ kv, i ≤ key_slot kv.1) (map_to_list t).

Definition gmap_hash_iterate {K V : Type} `{Countable K} (t : gmap K V) (i : Z) :
    Z * option (K * V) * Z :=
  match lowest_slot (slots_from t i) with
  | Some kv => (key_slot kv.1, Some kv, key_slot kv.1 + 1)
  | None => (- ENOENT, None, i)
  end.

Definition gmap_hash : RteHash := {|
  rte_hash K V _ _ := gmap K V;
  rte_hash_create K V _ _ n := Some ∅;
  rte_hash_lookup_data K V _ _ t k :=
    match t !! k with Some v => (0, Some v) | None => (- ENOENT, None) end;
  rte_hash_add_key_data K V _ _ t k v := gmap_hash_add t k v;
  rte_hash_add_key K _ _ t k := gmap_hash_add t k tt;
  rte_hash_del_key K V _ _ t k := gmap_hash_del t k;
  rte_hash_count K V _ _ t := Z.of_nat (size t);
  rte_hash_hash K V _ _ t k := u32 (Zpos (encode k));
  rte_hash_iterate K V _ _ t i := gmap_hash_iterate t i
|}.

Lemma key_slot_inj {K : Type} `{Countable K} (k1 k2 : K) : key_slot k1 = key_slot k2 → k1 = k2.
Proof. intros [= E]. by apply (inj encode). Qed.

Lemma lowest_slot_Some {K V : Type} `{Countable K} (l : list (K * V)) kv :
  lowest_slot l = Some kv → kv ∈ l ∧ ∀ kv', kv' ∈ l → key_slot kv.1 ≤ key_slot kv'.1.
Proof.
  revert kv. induction l as [|x l IH]; intros kv; [done|]. cbn [lowest_slot].
  destruct (lowest_slot l) as [y|] eqn:Hy.
  - destruct (IH y eq_refl) as [Hin Hmin]. destruct (Z.leb_spec (key_slot x.1) (key_slot y.1)).
    + intros [= <-]. split; [set_solver|]. intros z [->|Hz]%elem_of_cons; [lia|].
      specialize (Hmin z Hz). lia.
    + intros [= <-]. split; [set_solver|]. intros z [->|Hz]%elem_of_cons; [lia|auto].
  - intros [= <-]. split; [set_solver|]. destruct l as [|z l]; [set_solver|].
    exfalso. cbn [lowest_slot] in Hy. repeat case_match; done.
Qed.

Lemma lowest_slot_None {K V : Type} `{Countable K} (l : list (K * V)) :
  lowest_slot l = None → l = [].
Proof. destruct l as [|x l]; [done|]. cbn [lowest_slot]. by repeat case_match. Qed.

Lemma elem_of_slots_from {K V : Type} `{Countable K} (t : gmap K V) i k v :
  (k, v) ∈ slots_from t i ↔ t !! k = Some v ∧ i ≤ key_slot k.
Proof. unfold slots_from. rewrite list_elem_of_filter, elem_of_map_to_list. simpl. tauto. Qed.

Lemma slots_from_NoDup {K V : Type} `{Countable K} (t : gmap K V) i : NoDup (slots_from t i).
Proof. apply NoDup_filter, NoDup_map_to_list. Qed.

Lemma slots_from_next {K V : Type} `{Countable K} (t : gmap K V) i k v :
  lowest_slot (slots_from t i) = Some (k, v) →
  slots_from t i ≡ₚ (k, v) :: slots_from t (key_slot k + 1).
Proof.
  intros [Hin Hmin]%lowest_slot_Some. apply elem_of_slots_from in Hin as [Hk Hi].
  apply NoDup_Permutation.
  - apply slots_from_NoDup.
  - apply NoDup_cons. split; [|apply slots_from_NoDup]. rewrite elem_of_slots_from. lia.
  - intros [k' v']. rewrite elem_of_cons, !elem_of_slots_from. split.
    + intros [Hk' Hi']. destruct (decide (k' = k)) as [->|Hne]; [left; congruence|right].
      split; [done|]. pose proof (Hmin (k', v')) as Hle. rewrite elem_of_slots_from in Hle.
      specialize (Hle (conj Hk' Hi')). simpl in Hle.
      assert (key_slot k ≠ key_slot k') by (intros ?%key_slot_inj; congruence). lia.
    + intros [[= -> ->]|[? ?]]; [done|]. split; [done|lia].
Qed.

Lemma gmap_iterates {K V : Type} `{Countable K} (t : gmap K V) i :
  ∃ l, iterates (H := gmap_hash) (K := K) (V := V) t i l ∧ l ≡ₚ slots_from t i.
Proof.
  remember (length (slots_from t i)) as n eqn:Hn. revert i Hn.
  induction n as [|n IH]; intros i Hn; destruct (lowest_slot (slots_from t i)) as [[k v]|] eqn:Hl.
  - apply slots_from_next in Hl. by rewrite Hl in Hn.
  - exists []. split.
    + eapply iterates_end. simpl. unfold gmap_hash_iterate. by rewrite Hl.
    + by rewrite (lowest_slot_None _ Hl).
  - pose proof (slots_from_next t i k v Hl) as Hp. rewrite Hp in Hn. simpl in Hn.
    destruct (IH (key_slot k + 1)) as (l & Hit & Hperm); [lia|]. exists ((k, v) :: l). split.
    + eapply (iterates_next (H := gmap_hash) t _ (key_slot k)); [|done|done].
      simpl. unfold gmap_hash_iterate. by rewrite Hl.
    + by rewrite Hperm, Hp.
  - apply lowest_slot_None in Hl. by rewrite Hl in Hn.
Qed.

Lemma slots_from_0 {K V : Type} `{Countable K} (t : gmap K V) : slots_from t 0 = map_to_list t.
Proof. apply list_filter_all, Forall_true. intros. done. Qed.

Definition gmap_hash_ok : @RteHashOk gmap_hash.
Proof.
  refine (@Build_RteHashOk gmap_hash (λ K V _ _ (t : gmap K V), t) _ _ _ _ _ _ _ _ _ _).
  - by intros K V ?? n t [= <-].
  - intros K V ?? t k v E. exists 0. simpl. by rewrite E.
  - intros K V ?? t k E. simpl. by rewrite E.
  - intros K V ?? t k v r t'. simpl. unfold gmap_hash_add.
    repeat case_match; intros [= <- <-]; first [by left | right; by auto].
  - intros K ?? t k r t'. simpl. unfold gmap_hash_add.
    repeat case_match; intros [= <- <-]; first [by left | right; by auto].
  - intros K V ?? t k v E. exists 0, (delete k t). simpl. unfold gmap_hash_del.
    by rewrite E.
  - intros K V ?? t k E. simpl. unfold gmap_hash_del. by rewrite E.
  - done.
  - intros. apply u32_range.
  - intros K V ?? t. destruct (gmap_iterates t 0) as (l & Hit & Hp). exists l. split; [done|].
    by rewrite Hp, slots_from_0.
Defined.

Definition gmap_hash_scan : @RteHashScan gmap_hash gmap_hash_ok.
Proof.
  refine (@Build_RteHashScan gmap_hash gmap_hash_ok (λ K V _ _ _ k, key_slot k) _ _ _ _).
  - done.
  - intros K V ?? t k1 k2 _ _. apply key_slot_inj.
  - intros K V ?? t i. simpl. unfold gmap_hash_iterate.
    destruct (lowest_slot (slots_from t i)) as [[k v]|] eqn:Hl.
    + left. apply lowest_slot_Some in Hl as [Hin Hmin]. apply elem_of_slots_from in Hin as [Hk Hi].
      exists (key_slot k), k, v. split_and!; [done|done|done|done|].
      intros k' [v' Hv'] Hi'. apply (Hmin (k', v')). by apply elem_of_slots_from.
    + right. exists i. split; [done|]. intros k' [v' Hv']. apply lowest_slot_None in Hl.
      apply Z.nle_gt. intros Hi. assert (Hin : (k', v') ∈ slots_from t i) by (by apply elem_of_slots_from).
      rewrite Hl in Hin. set_solver.
  - done.
Defined.

Definition fresh_loc (live : gset loc) : loc := Pos.succ (set_fold Pos.max 1%positive live).

Definition list_malloc : RteMalloc := {|
  malloc_state := list bool;
  rte_malloc st live :=
    match st with
    | false :: st => (None, st)
    | _ :: st => (Some (fresh_loc live), st)
    | [] => (Some (fresh_loc live), [])
    end
|}.

Lemma fresh_loc_fresh live : fresh_loc live ∉ live.
Proof.
  assert (Hle : ∀ q, q ∈ live → (q ≤ set_fold Pos.max 1 live)%positive).
  { apply (set_fold_ind_L (λ m X, ∀ q, q ∈ X → (q ≤ m)%positive)); [set_solver|].
    intros x X m Hx IH q [->%elem_of_singleton_1|Hq]%elem_of_union; [lia|].
    specialize (IH q Hq). lia. }
  intros Hin. apply Hle in Hin. unfold fresh_loc in Hin. lia.
Qed.

Lemma list_malloc_ok : @RteMallocOk list_malloc.
Proof.
  intros st live p st'. destruct st as [|[] st]; simpl; intros [= <- <-];
    apply fresh_loc_fresh.
Qed.
End instances.

(** The instances used by the concrete runs. *)
Definition test_hash : RteHash := gmap_hash 1000.
Definition test_hash_ok : @RteHashOk test_hash := gmap_hash_ok 1000.
Definition test_hash_scan : @RteHashScan test_hash test_hash_ok := gmap_hash_scan 1000.
Definition test_malloc : RteMalloc := list_malloc.
Definition test_malloc_ok : @RteMallocOk test_malloc := list_malloc_ok.
