(* ===== verification/Error.v ===== *)
(** * Return codes (include/dp_error.h, src/dp_error.c)

    The three ranges of return values: [DP_OK] and positive results, the errno
    range down to [DP_ERROR], and below it the gRPC codes.  [dp_grpc_error] is
    the list the [_DP_GRPC_ERRORS] macro expands to. *)

From Stdlib Require Import String.
From S2P Require Import Prelude Dpdk.
Open Scope string_scope.
Open Scope Z_scope.

(** [RTE_MAX_ERRNO] is the last entry of an enumeration of DPDK's [rte_errno.h]. *)
Definition RTE_MAX_ERRNO : Z := 1003.

Definition DP_OK : Z := 0.
Definition DP_ERROR : Z := - RTE_MAX_ERRNO.
Definition _DP_GRPC_ERRCODES : Z := DP_ERROR - 1.
Definition DP_FAILED (ret : Z) : bool := ret <? 0.

Definition DP_GRPC_OK : Z := 0.

Inductive dp_grpc_error :=
  | BAD_REQUEST | NOT_FOUND | ALREADY_EXISTS | WRONG_TYPE | BAD_IPVER | NO_VM | NO_VNI
  | ITERATOR | OUT_OF_MEMORY | LIMIT_REACHED | ALREADY_ACTIVE | NOT_ACTIVE | ROLLBACK
  | RTE_RULE_ADD | RTE_RULE_DEL | ROUTE_EXISTS | ROUTE_NOT_FOUND | ROUTE_INSERT
  | ROUTE_BAD_PORT | ROUTE_RESET | DNAT_NO_DATA | DNAT_CREATE | DNAT_EXISTS
  | SNAT_NO_DATA | SNAT_CREATE | SNAT_EXISTS | VNI_INIT4 | VNI_INIT6 | VNI_FREE4
  | VNI_FREE6 | PORT_START | PORT_STOP | PORT_METER | VNF_INSERT | VM_HANDLE
  | VNF_DELETE | NO_BACKIP | NO_LB | NO_DROP_SUPPORT.

(** [ERR(NAME, NUMBER)] of the [_DP_GRPC_ERRORS] macro. *)
Definition grpc_error_number (e : dp_grpc_error) : Z :=
  match e with
  | BAD_REQUEST => 101 | NOT_FOUND => 201 | ALREADY_EXISTS => 202 | WRONG_TYPE => 203
  | BAD_IPVER => 204 | NO_VM => 205 | NO_VNI => 206 | ITERATOR => 207
  | OUT_OF_MEMORY => 208 | LIMIT_REACHED => 209 | ALREADY_ACTIVE => 210 | NOT_ACTIVE => 211
  | ROLLBACK => 212 | RTE_RULE_ADD => 213 | RTE_RULE_DEL => 214 | ROUTE_EXISTS => 301
  | ROUTE_NOT_FOUND => 302 | ROUTE_INSERT => 303 | ROUTE_BAD_PORT => 304
  | ROUTE_RESET => 305 | DNAT_NO_DATA => 321 | DNAT_CREATE => 322 | DNAT_EXISTS => 323
  | SNAT_NO_DATA => 341 | SNAT_CREATE => 342 | SNAT_EXISTS => 343 | VNI_INIT4 => 361
  | VNI_INIT6 => 362 | VNI_FREE4 => 363 | VNI_FREE6 => 364 | PORT_START => 381
  | PORT_STOP => 382 | PORT_METER => 383 | VNF_INSERT => 401 | VM_HANDLE => 402
  | VNF_DELETE => 403 | NO_BACKIP => 421 | NO_LB => 422 | NO_DROP_SUPPORT => 441
  end.

Definition grpc_error_name (e : dp_grpc_error) : string :=
  match e with
  | BAD_REQUEST => "BAD_REQUEST" | NOT_FOUND => "NOT_FOUND"
  | ALREADY_EXISTS => "ALREADY_EXISTS" | WRONG_TYPE => "WRONG_TYPE"
  | BAD_IPVER => "BAD_IPVER" | NO_VM => "NO_VM" | NO_VNI => "NO_VNI"
  | ITERATOR => "ITERATOR" | OUT_OF_MEMORY => "OUT_OF_MEMORY"
  | LIMIT_REACHED => "LIMIT_REACHED" | ALREADY_ACTIVE => "ALREADY_ACTIVE"
  | NOT_ACTIVE => "NOT_ACTIVE" | ROLLBACK => "ROLLBACK" | RTE_RULE_ADD => "RTE_RULE_ADD"
  | RTE_RULE_DEL => "RTE_RULE_DEL" | ROUTE_EXISTS => "ROUTE_EXISTS"
  | ROUTE_NOT_FOUND => "ROUTE_NOT_FOUND" | ROUTE_INSERT => "ROUTE_INSERT"
  | ROUTE_BAD_PORT => "ROUTE_BAD_PORT" | ROUTE_RESET => "ROUTE_RESET"
  | DNAT_NO_DATA => "DNAT_NO_DATA" | DNAT_CREATE => "DNAT_CREATE"
  | DNAT_EXISTS => "DNAT_EXISTS" | SNAT_NO_DATA => "SNAT_NO_DATA"
  | SNAT_CREATE => "SNAT_CREATE" | SNAT_EXISTS => "SNAT_EXISTS" | VNI_INIT4 => "VNI_INIT4"
  | VNI_INIT6 => "VNI_INIT6" | VNI_FREE4 => "VNI_FREE4" | VNI_FREE6 => "VNI_FREE6"
  | PORT_START => "PORT_START" | PORT_STOP => "PORT_STOP" | PORT_METER => "PORT_METER"
  | VNF_INSERT => "VNF_INSERT" | VM_HANDLE => "VM_HANDLE" | VNF_DELETE => "VNF_DELETE"
  | NO_BACKIP => "NO_BACKIP" | NO_LB => "NO_LB" | NO_DROP_SUPPORT => "NO_DROP_SUPPORT"
  end.

Definition _DP_GRPC_ERRORS : list dp_grpc_error := [
  BAD_REQUEST; NOT_FOUND; ALREADY_EXISTS; WRONG_TYPE; BAD_IPVER; NO_VM; NO_VNI; ITERATOR;
  OUT_OF_MEMORY; LIMIT_REACHED; ALREADY_ACTIVE; NOT_ACTIVE; ROLLBACK; RTE_RULE_ADD;
  RTE_RULE_DEL; ROUTE_EXISTS; ROUTE_NOT_FOUND; ROUTE_INSERT; ROUTE_BAD_PORT; ROUTE_RESET;
  DNAT_NO_DATA; DNAT_CREATE; DNAT_EXISTS; SNAT_NO_DATA; SNAT_CREATE; SNAT_EXISTS;
  VNI_INIT4; VNI_INIT6; VNI_FREE4; VNI_FREE6; PORT_START; PORT_STOP; PORT_METER;
  VNF_INSERT; VM_HANDLE; VNF_DELETE; NO_BACKIP; NO_LB; NO_DROP_SUPPORT ].

Global Instance dp_grpc_error_eq_dec : EqDecision dp_grpc_error.
Proof. solve_decision. Defined.

(** [DP_GRPC_ERR_<name>] *)
Definition DP_GRPC_ERR (e : dp_grpc_error) : Z := _DP_GRPC_ERRCODES - grpc_error_number e.

(** [None] is the failed assertion. *)
Definition dp_errcode_to_grpc_errcode (dp_errcode : Z) : option Z :=
  if dp_errcode <? _DP_GRPC_ERRCODES then Some (- (dp_errcode - _DP_GRPC_ERRCODES)) else None.

(** The array built with designated initialisers; [None] is a NULL entry. *)
Definition dp_grpc_error_strings (i : Z) : option string :=
  grpc_error_name <$> head (filter (λ e, grpc_error_number e = i) _DP_GRPC_ERRORS).

(** [RTE_DIM(dp_grpc_error_strings)]: one more than the biggest designator. *)
Definition dp_grpc_error_dim : Z :=
  foldr (λ e acc, Z.max (grpc_error_number e + 1) acc) 0 _DP_GRPC_ERRORS.

(** [None] is the failed assertion. *)
Definition dp_grpc_strerror (grpc_errcode : Z) : option string :=
  if grpc_errcode =? DP_GRPC_OK then Some "Success"
  else if (grpc_errcode <? 0) || (dp_grpc_error_dim <=? grpc_errcode) then None
  else dp_grpc_error_strings grpc_errcode.

Section strerror.
Context (rte_strerror : Z → string).

Definition dp_strerror (error : Z) : option string :=
  let error := if error <? 0 then - error else error in
  if error <? RTE_MAX_ERRNO then Some (rte_strerror error)
  else if - _DP_GRPC_ERRCODES <=? error then dp_grpc_strerror (error + _DP_GRPC_ERRCODES)
  else Some "General dpservice error".
End strerror.

Lemma DP_FAILED_true ret : DP_FAILED ret = true ↔ ret < 0.
Proof. apply Z.ltb_lt. Qed.

Lemma DP_FAILED_false ret : DP_FAILED ret = false ↔ 0 ≤ ret.
Proof. apply Z.ltb_ge. Qed.

Lemma DP_FAILED_pos ret : 0 ≤ ret → DP_FAILED ret = false.
Proof. apply DP_FAILED_false. Qed.

Lemma DP_FAILED_neg ret : ret < 0 → DP_FAILED ret = true.
Proof. apply DP_FAILED_true. Qed.

Lemma DP_FAILED_ENOENT : DP_FAILED (- ENOENT) = true.
Proof. done. Qed.

Lemma nonneg_ENOENT pos : 0 ≤ pos → (pos =? - ENOENT) = false.
Proof. intros. apply Z.eqb_neq. unfold ENOENT. lia. Qed.

Lemma DP_GRPC_ERR_neg e : DP_GRPC_ERR e < _DP_GRPC_ERRCODES.
Proof. by destruct e. Qed.

Lemma DP_GRPC_ERR_failed e : DP_FAILED (DP_GRPC_ERR e) = true.
Proof. by destruct e. Qed.

Lemma grpc_error_number_inj e1 e2 : grpc_error_number e1 = grpc_error_number e2 → e1 = e2.
Proof. destruct e1, e2; simpl; intros E; (reflexivity || discriminate E). Qed.

Lemma DP_GRPC_ERR_inj e1 e2 : DP_GRPC_ERR e1 = DP_GRPC_ERR e2 → e1 = e2.
Proof. unfold DP_GRPC_ERR. intros. apply grpc_error_number_inj. lia. Qed.

(** Results of the functions that report in gRPC codes. *)
Definition grpc_result (ret : Z) : Prop :=
  ret = DP_GRPC_OK ∨ ∃ e, ret = DP_GRPC_ERR e.

Lemma grpc_result_ok : grpc_result DP_GRPC_OK.
Proof. by left. Qed.

Lemma grpc_result_err e : grpc_result (DP_GRPC_ERR e).
Proof. right. eauto. Qed.
#[export] Hint Resolve grpc_result_ok grpc_result_err : dps.

Ltac dp_failed :=
  repeat match goal with
  | H : DP_FAILED _ = true |- _ => apply DP_FAILED_true in H
  | H : DP_FAILED _ = false |- _ => apply DP_FAILED_false in H
  end.

(** Every code the gRPC server can send has a name of its own: [dp_strerror] of an
    error code is the name the table gives to its number, which is also the
    number sent to the client. *)
Lemma grpc_codes_named e :
  ∃ n s, dp_errcode_to_grpc_errcode (DP_GRPC_ERR e) = Some n
    ∧ dp_grpc_strerror n = Some s
    ∧ (∀ rte_strerror, dp_strerror rte_strerror (DP_GRPC_ERR e) = Some s)
    ∧ ∀ e', dp_errcode_to_grpc_errcode (DP_GRPC_ERR e') = Some n → e' = e.
Proof.
  exists (grpc_error_number e), (grpc_error_name e). repeat split.
  - by destruct e.
  - by destruct e.
  - intros rte_strerror. by destruct e.
  - unfold dp_errcode_to_grpc_errcode, DP_GRPC_ERR. intros e'.
    case_match; [|done]. intros [= E]. apply grpc_error_number_inj. lia.
Qed.
