(* ===== verification/Types.v ===== *)
(** * Shared data types

    Addresses (include/dp_ipaddr.h), the per-packet metadata [struct dp_flow]
    (include/dp_mbuf_dyn.h), the VNF types (include/dp_vnf.h) and the
    connection key (include/dp_flow.h).

    Unions are modelled by their storage: an address is the 128-bit value of
    its sixteen bytes whether it is read as [ipv6] or as [ipv4] (the first
    word), and the four bytes of [l4_info] are the two 16-bit words of
    [trans_port], of which [icmp_field] reads the bytes. *)

From S2P Require Import Prelude Dpdk Error.

(** ** Constants of the protocol headers *)

Definition RTE_ETHER_TYPE_IPV4 : Z := 2048.   (* 0x0800 *)
Definition RTE_ETHER_TYPE_ARP : Z := 2054.    (* 0x0806 *)
Definition RTE_ETHER_TYPE_IPV6 : Z := 34525.  (* 0x86DD *)

Definition DP_IP6_HOP_LIMIT : Z := 0x40.
Definition DP_IP6_VTC_FLOW : Z := 0x60000000.

Definition IPPROTO_ICMP : Z := 1.
Definition IPPROTO_IPIP : Z := 4.
Definition IPPROTO_TCP : Z := 6.
Definition IPPROTO_UDP : Z := 17.
Definition IPPROTO_IPV6 : Z := 41.
Definition IPPROTO_ICMPV6 : Z := 58.

Definition RTE_IP_ICMP_ECHO_REPLY : Z := 0.
Definition RTE_IP_ICMP_ECHO_REQUEST : Z := 8.

(** ** Addresses *)

Record dp_ip_address := MkIp { ip_data : Z; is_v6 : bool }.

Global Instance dp_ip_address_eq_dec : EqDecision dp_ip_address.
Proof. solve_decision. Defined.
Global Instance dp_ip_address_countable : Countable dp_ip_address :=
  inj_countable' (λ a, (ip_data a, is_v6 a)) (λ x, MkIp x.1 x.2) (λ '(MkIp _ _), eq_refl).

(** The members of the anonymous union. *)
Definition ipv4 (a : dp_ip_address) : Z := word32_of 0 (ip_data a).
Definition ipv6 (a : dp_ip_address) : Z := ip_data a.

Definition dp_is_ipv6_addr_zero (addr : Z) : bool :=
  (addr mod 2 ^ 64 =? 0) && (addr / 2 ^ 64 mod 2 ^ 64 =? 0).

Definition dp_copy_ipaddr (src : dp_ip_address) : dp_ip_address := MkIp (ip_data src) (is_v6 src).

Definition DP_SET_IPADDR6 (addr6 : Z) : dp_ip_address := MkIp addr6 true.

(** All sixteen bytes are cleared before the first word is written. *)
Definition DP_SET_IPADDR4 (addr4 : Z) : dp_ip_address := MkIp (set_word32_0 addr4 0) false.

(** ** VNF types *)

Inductive dp_vnf_type :=
  | DP_VNF_TYPE_UNDEFINED
  | DP_VNF_TYPE_LB_ALIAS_PFX
  | DP_VNF_TYPE_ALIAS_PFX
  | DP_VNF_TYPE_LB
  | DP_VNF_TYPE_VIP
  | DP_VNF_TYPE_NAT
  | DP_VNF_TYPE_INTERFACE_IP.

Global Instance dp_vnf_type_eq_dec : EqDecision dp_vnf_type.
Proof. solve_decision. Defined.
Global Instance dp_vnf_type_countable : Countable dp_vnf_type.
Proof.
  refine (inj_countable'
    (λ t, match t with
          | DP_VNF_TYPE_UNDEFINED => 0%nat | DP_VNF_TYPE_LB_ALIAS_PFX => 1%nat
          | DP_VNF_TYPE_ALIAS_PFX => 2%nat | DP_VNF_TYPE_LB => 3%nat
          | DP_VNF_TYPE_VIP => 4%nat | DP_VNF_TYPE_NAT => 5%nat
          | DP_VNF_TYPE_INTERFACE_IP => 6%nat end)
    (λ n, match n with
          | 0%nat => DP_VNF_TYPE_UNDEFINED | 1%nat => DP_VNF_TYPE_LB_ALIAS_PFX
          | 2%nat => DP_VNF_TYPE_ALIAS_PFX | 3%nat => DP_VNF_TYPE_LB
          | 4%nat => DP_VNF_TYPE_VIP | 5%nat => DP_VNF_TYPE_NAT
          | _ => DP_VNF_TYPE_INTERFACE_IP end) _).
  by intros [].
Defined.

(** ** Packet metadata *)

Inductive dp_flow_type := DP_FLOW_WEST_EAST | DP_FLOW_SOUTH_NORTH.

Inductive dp_pkt_offload_state :=
  | DP_FLOW_NON_OFFLOAD
  | DP_FLOW_OFFLOAD_INSTALL
  | DP_FLOW_OFFLOADED.

Inductive dp_flow_dir := DP_FLOW_DIR_ORG | DP_FLOW_DIR_REPLY.

Inductive dp_nat_type :=
  | DP_NAT_CHG_NONE
  | DP_NAT_CHG_SRC_IP
  | DP_NAT_CHG_DST_IP
  | DP_CHG_UL_DST_IP
  | DP_LB_RECIRC
  | DP_NAT_64_CHG_SRC_IP
  | DP_NAT_64_CHG_DST_IP.

Global Instance dp_flow_type_eq_dec : EqDecision dp_flow_type.
Proof. solve_decision. Defined.
Global Instance dp_pkt_offload_state_eq_dec : EqDecision dp_pkt_offload_state.
Proof. solve_decision. Defined.
Global Instance dp_flow_dir_eq_dec : EqDecision dp_flow_dir.
Proof. solve_decision. Defined.
Global Instance dp_nat_type_eq_dec : EqDecision dp_nat_type.
Proof. solve_decision. Defined.

(** [df_trans_dst_port] and [df_trans_src_port] are the storage of [l4_info];
    [tun_info] is flattened. *)
Record dp_flow := MkDpFlow {
  df_flow_type : dp_flow_type;
  df_nat_type : dp_nat_type;
  df_flow_dir : dp_flow_dir;
  df_offload_state : dp_pkt_offload_state;
  df_vnf_type : dp_vnf_type;
  df_l3_type : Z;
  df_l3_payload_length : Z;
  df_dst_addr6 : Z;
  df_src_addr6 : Z;
  df_nat_addr : Z;
  df_nat_port : Z;
  df_l4_type : Z;
  df_trans_dst_port : Z;
  df_trans_src_port : Z;
  df_flow_hash : Z;
  df_ul_src_addr6 : Z;
  df_ul_dst_addr6 : Z;
  df_tun_l3_type : Z;
  df_tun_proto_id : Z;
  df_tun_dst_vni : Z;
  df_nxt_hop : Z;
  df_conntrack : option loc;
  df_virtsvc : option nat
}.

Global Instance dp_flow_eta : Eta dp_flow := λ r,
  MkDpFlow (df_flow_type r) (df_nat_type r) (df_flow_dir r) (df_offload_state r)
    (df_vnf_type r) (df_l3_type r) (df_l3_payload_length r) (df_dst_addr6 r)
    (df_src_addr6 r) (df_nat_addr r) (df_nat_port r) (df_l4_type r)
    (df_trans_dst_port r) (df_trans_src_port r) (df_flow_hash r) (df_ul_src_addr6 r)
    (df_ul_dst_addr6 r) (df_tun_l3_type r) (df_tun_proto_id r) (df_tun_dst_vni r)
    (df_nxt_hop r) (df_conntrack r) (df_virtsvc r).

(** [memset(df, 0, sizeof( *df))] *)
Definition dp_init_flow_ptr : dp_flow :=
  MkDpFlow DP_FLOW_WEST_EAST DP_NAT_CHG_NONE DP_FLOW_DIR_ORG DP_FLOW_NON_OFFLOAD
    DP_VNF_TYPE_UNDEFINED 0 0 0 0 0 0 0 0 0 0 0 0 0 0 0 0 None None.

(** The members of the unions [dst], [src] and [l4_info]. *)
Definition df_dst_addr (df : dp_flow) : Z := word32_of 0 (df_dst_addr6 df).
Definition df_src_addr (df : dp_flow) : Z := word32_of 0 (df_src_addr6 df).
Definition df_icmp_type (df : dp_flow) : Z := byte_of 0 (df_trans_dst_port df).
Definition df_icmp_code (df : dp_flow) : Z := byte_of 1 (df_trans_dst_port df).
Definition df_icmp_identifier (df : dp_flow) : Z := df_trans_src_port df.

Definition set_df_dst_addr (a : Z) (df : dp_flow) : dp_flow :=
  df <| df_dst_addr6 := set_word32_0 a (df_dst_addr6 df) |>.
Definition set_df_src_addr (a : Z) (df : dp_flow) : dp_flow :=
  df <| df_src_addr6 := set_word32_0 a (df_src_addr6 df) |>.

Record dp_flow_ok (df : dp_flow) : Prop := {
  dfo_dst : is_u128 (df_dst_addr6 df);
  dfo_src : is_u128 (df_src_addr6 df);
  dfo_dport : is_u16 (df_trans_dst_port df);
  dfo_sport : is_u16 (df_trans_src_port df)
}.

(** ** Connection keys *)

(** [fk_port_src] is the storage of the union [src]. *)
Record flow_key := MkFlowKey {
  fk_l3_dst : dp_ip_address;
  fk_proto : Z;
  fk_port_dst : Z;
  fk_l3_src : dp_ip_address;
  fk_vnf_type : dp_vnf_type;
  fk_port_src : Z;
  fk_vni : Z
}.

Global Instance flow_key_eta : Eta flow_key := λ r,
  MkFlowKey (fk_l3_dst r) (fk_proto r) (fk_port_dst r) (fk_l3_src r) (fk_vnf_type r)
    (fk_port_src r) (fk_vni r).

Global Instance flow_key_eq_dec : EqDecision flow_key.
Proof. solve_decision. Defined.
Global Instance flow_key_countable : Countable flow_key :=
  inj_countable'
    (λ k, (fk_l3_dst k, fk_proto k, fk_port_dst k, fk_l3_src k, fk_vnf_type k,
           fk_port_src k, fk_vni k))
    (λ '(a, b, c, d, e, f, g), MkFlowKey a b c d e f g)
    (λ '(MkFlowKey _ _ _ _ _ _ _), eq_refl).

(** ** Lemmas *)

Lemma ipv4_set4 a : is_u32 a → ipv4 (DP_SET_IPADDR4 a) = a.
Proof.
  intros Ha. unfold ipv4, DP_SET_IPADDR4, word32_of, set_word32_0. simpl.
  rewrite u32_id by done. change (2 ^ (32 * 0)) with 1. rewrite Z.div_1_r.
  rewrite Z.div_0_l by lia. by apply Z.mod_small.
Qed.

Lemma DP_SET_IPADDR4_inj a b :
  is_u32 a → is_u32 b → DP_SET_IPADDR4 a = DP_SET_IPADDR4 b → a = b.
Proof. intros Ha Hb E. by rewrite <- (ipv4_set4 a), <- (ipv4_set4 b), E. Qed.

Lemma dp_is_ipv6_addr_zero_spec a :
  is_u128 a → dp_is_ipv6_addr_zero a = true ↔ a = 0.
Proof.
  unfold is_u128, dp_is_ipv6_addr_zero. intros Ha. rewrite andb_true_iff, !Z.eqb_eq.
  change (2 ^ 128) with (2 ^ 64 * 2 ^ 64) in Ha.
  rewrite (Z.mod_small (a / 2 ^ 64)) by (split; [apply Z.div_pos; lia|apply Z.div_lt_upper_bound; lia]).
  pose proof (Z.div_mod a (2 ^ 64)). split; [lia|]. by intros ->.
Qed.

Lemma dp_copy_ipaddr_id a : dp_copy_ipaddr a = a.
Proof. by destruct a. Qed.

Lemma df_dst_addr_range df : is_u32 (df_dst_addr df).
Proof. apply word32_of_range. Qed.
Lemma df_src_addr_range df : is_u32 (df_src_addr df).
Proof. apply word32_of_range. Qed.
#[export] Hint Resolve df_dst_addr_range df_src_addr_range : dps.
#[export] Hint Rewrite dp_copy_ipaddr_id : dps.
