(* ===== verification/Responder.v ===== *)
(** * Multi-message gRPC replies (src/grpc/dp_grpc_responder.c, its header)

    A handler answers with an array of reply packets, each divided into
    messages of equal size.  The last packet of the array is the one being
    filled ([responder->rep]); the messages of a packet are kept by their
    index, a message being written at [messages + msg_size * index].  The theorem
    says that a listing arrives in order, whole or with an error. *)

From S2P Require Import Prelude Dpdk Error Types.

(** [rte_pktmbuf_alloc]: whether a packet could be allocated. *)
Class RteMempool := {
  mempool_state : Type;
  rte_pktmbuf_alloc : mempool_state → bool * mempool_state
}.

Definition DP_GRPC_Q_SIZE : Z := 64.
Definition DP_GRPC_REPLY_ARR_SIZE : Z := DP_GRPC_Q_SIZE / 4 * 3.
Definition UINT16_MAX : Z := 65535.

Record dpgrpc_reply (M : Type) := MkReply {
  rp_is_chained : bool;
  rp_msg_count : Z;
  rp_err_code : Z;
  rp_messages : gmap Z M
}.
Arguments MkReply {_} _ _ _ _.
Arguments rp_is_chained {_} _.
Arguments rp_msg_count {_} _.
Arguments rp_err_code {_} _.
Arguments rp_messages {_} _.

Global Instance dpgrpc_reply_eta {M} : Eta (dpgrpc_reply M) := λ r,
  MkReply (rp_is_chained r) (rp_msg_count r) (rp_err_code r) (rp_messages r).

(** [rs_replies] without its last element, and the last element, which [rep]
    points to; [repcount] is the number of both. *)
Record dp_grpc_responder `{RteMempool} (M : Type) := MkResponder {
  rs_replies : list (dpgrpc_reply M);
  rs_rep : dpgrpc_reply M;
  rs_mempool : mempool_state;
  rs_rep_max_size : Z;
  rs_msg_size : Z;
  rs_rep_capacity : Z;
  rs_rep_msgcount : Z
}.
Arguments MkResponder {_ _} _ _ _ _ _ _ _.
Arguments rs_replies {_ _} _.
Arguments rs_rep {_ _} _.
Arguments rs_mempool {_ _} _.
Arguments rs_rep_max_size {_ _} _.
Arguments rs_msg_size {_ _} _.
Arguments rs_rep_capacity {_ _} _.
Arguments rs_rep_msgcount {_ _} _.

Global Instance dp_grpc_responder_eta `{RteMempool} {M} : Eta (dp_grpc_responder M) := λ r,
  MkResponder (rs_replies r) (rs_rep r) (rs_mempool r) (rs_rep_max_size r) (rs_msg_size r)
    (rs_rep_capacity r) (rs_rep_msgcount r).

Section responder.
Context `{RteMempool} {M : Type}.
Implicit Types (r : dp_grpc_responder M) (m : M).

Definition rs_repcount r : Z := Z.of_nat (length (rs_replies r)) + 1.

(** [req_mbuf] is reused as the first reply: its content is whatever the
    request left there.  [room] is the size of the packet's buffer after the
    reply header, [sizeof_reply] the size of [struct dpgrpc_reply]. *)
Definition dp_grpc_init_responder (req_mbuf : dpgrpc_reply M) (mempool : mempool_state)
    (room sizeof_reply : Z) : dp_grpc_responder M :=
  MkResponder [] (req_mbuf <| rp_is_chained := false |>) mempool room sizeof_reply 1 0.

Definition dp_grpc_set_multireply (msg_size : Z) : cmd (dp_grpc_responder M) () :=
  modify (λ r, r <| rs_msg_size := msg_size |>
                 <| rs_rep_capacity := rs_rep_max_size r / msg_size |>).

Definition dp_grpc_alloc_reply : cmd (dp_grpc_responder M) Z := λ r,
  if UINT16_MAX <? rs_rep_capacity r then Some (DP_ERROR, r)
  else if DP_GRPC_REPLY_ARR_SIZE <=? rs_repcount r then Some (DP_ERROR, r)
  else
    let '(ok, pool) := rte_pktmbuf_alloc (rs_mempool r) in
    if negb ok then Some (DP_ERROR, r <| rs_mempool := pool |>)
    else
      let full := (rs_rep r) <| rp_is_chained := true |>
                           <| rp_msg_count := u16 (rs_rep_capacity r) |> in
      Some (DP_OK,
        r <| rs_mempool := pool |>
          <| rs_replies := rs_replies r ++ [full] |>
          <| rs_rep := MkReply false 0 0 ∅ |>
          <| rs_rep_msgcount := 0 |>).

(** The index of the message in the packet [rep], or [None] for NULL. *)
Definition dp_grpc_add_reply : cmd (dp_grpc_responder M) (option Z) :=
  r ← gets id;
  failed ← (if rs_rep_capacity r <=? rs_rep_msgcount r
            then ret ← dp_grpc_alloc_reply; mret (DP_FAILED ret)
            else mret false);
  if (failed : bool) then mret None
  else
    i ← gets rs_rep_msgcount;
    modify (λ r, r <| rs_rep_msgcount := u16 (rs_rep_msgcount r + 1) |>);;
    mret (Some i).

(** Writing the message at the index returned by [dp_grpc_add_reply]. *)
Definition fill_reply (i : Z) m : cmd (dp_grpc_responder M) () :=
  modify (λ r, r <| rs_rep := (rs_rep r) <| rp_messages := <[i := m]> (rp_messages (rs_rep r)) |> |>).

(** [dp_grpc_single_reply]: the first message of the first packet. *)
Definition dp_grpc_single_reply m : cmd (dp_grpc_responder M) () := fill_reply 0 m.

(** The loop of the listing functions: for each element an [add_reply], an
    early return of [DP_GRPC_ERR_OUT_OF_MEMORY] on NULL, and the message
    written. *)
Fixpoint reply_each (l : list M) : cmd (dp_grpc_responder M) Z :=
  match l with
  | [] => mret DP_GRPC_OK
  | m :: l =>
      reply ← dp_grpc_add_reply;
      match reply with
      | None => mret (DP_GRPC_ERR OUT_OF_MEMORY)
      | Some i => fill_reply i m;; reply_each l
      end
  end.

(** The packets handed to the ring; [enqueue] is the number of packets that
    [rte_ring_sp_enqueue_burst] accepts, the rest is freed. *)
Definition dp_grpc_send_response (enqueue : Z → Z) (grpc_ret : Z) r : list (dpgrpc_reply M) :=
  let rep := (rs_rep r) <| rp_msg_count := rs_rep_msgcount r |> in
  let replies :=
    match rs_replies r with
    | [] => [rep <| rp_err_code := grpc_ret |>]
    | r0 :: rs => (r0 <| rp_err_code := grpc_ret |>) :: rs ++ [rep]
    end in
  take (Z.to_nat (enqueue (rs_repcount r))) replies.

(** The messages of a packet, as its [msg_count] delimits them. *)
Definition messages_upto (n : Z) (msgs : gmap Z M) : list M :=
  omap (λ i, msgs !! i) (seqZ 0 n).

Definition received (ps : list (dpgrpc_reply M)) : list M :=
  ps ≫= λ p, messages_upto (rp_msg_count p) (rp_messages p).

(** The messages written so far. *)
Definition written r : list M :=
  received (rs_replies r) ++ messages_upto (rs_rep_msgcount r) (rp_messages (rs_rep r)).

Record responder_ok r : Prop := {
  ro_capacity : 0 < rs_rep_capacity r ≤ UINT16_MAX;
  ro_msgcount : 0 ≤ rs_rep_msgcount r ≤ rs_rep_capacity r;
  ro_length : rs_repcount r ≤ DP_GRPC_REPLY_ARR_SIZE;
  ro_full : Forall (λ p, rp_msg_count p = rs_rep_capacity r
                       ∧ length (messages_upto (rp_msg_count p) (rp_messages p))
                         = Z.to_nat (rs_rep_capacity r)) (rs_replies r);
  ro_last : length (messages_upto (rs_rep_msgcount r) (rp_messages (rs_rep r)))
            = Z.to_nat (rs_rep_msgcount r)
}.

Lemma messages_upto_insert n msgs m :
  0 ≤ n → messages_upto (n + 1) (<[n := m]> msgs) = messages_upto n msgs ++ [m].
Proof.
  intros Hn. unfold messages_upto. rewrite seqZ_app by lia. rewrite omap_app. f_equal.
  - apply list_omap_ext, Forall2_same_length_lookup_2; [done|].
    intros i x y Hx Hy. assert (x = y) by congruence. subst y.
    apply lookup_seqZ in Hx as [-> ?]. rewrite lookup_insert_ne by lia. done.
  - rewrite seqZ_cons by lia. rewrite seqZ_nil by lia. simpl.
    replace (0 + n) with n by lia. by rewrite lookup_insert_eq.
Qed.

(** [written] does not depend on where the error code is. *)
Lemma received_sent grpc_ret r :
  received (dp_grpc_send_response id grpc_ret r) = written r.
Proof.
  unfold dp_grpc_send_response, written, rs_repcount, id.
  rewrite take_ge.
  - destruct (rs_replies r) as [|r0 rs]; simpl; [by rewrite app_nil_r|].
    unfold received. by rewrite bind_app, app_assoc; simpl; rewrite app_nil_r.
  - destruct (rs_replies r); simpl; [lia|]. rewrite length_app. simpl. lia.
Qed.

Lemma wp_alloc_reply r (Q : Z → dp_grpc_responder M → Prop) :
  responder_ok r → rs_rep_msgcount r = rs_rep_capacity r →
  (∀ pool, Q DP_ERROR (r <| rs_mempool := pool |>)) →
  (∀ r', responder_ok r' → written r' = written r → rs_rep_msgcount r' = 0 →
     rs_rep_capacity r' = rs_rep_capacity r → Q DP_OK r') →
  wp dp_grpc_alloc_reply Q r.
Proof.
  intros [Hcap Hcnt Hlen Hfull Hlast] Hfill Hfail Hok. unfold wp, dp_grpc_alloc_reply.
  destruct (UINT16_MAX <? _) eqn:E1; [zbool; lia|].
  destruct (DP_GRPC_REPLY_ARR_SIZE <=? _) eqn:E2.
  { specialize (Hfail (rs_mempool r)). by destruct r. }
  destruct (rte_pktmbuf_alloc _) as [ok pool]. destruct ok; [|apply Hfail]. simpl. zbool.
  assert (Hu : u16 (rs_rep_capacity r) = rs_rep_capacity r).
  { apply u16_id. unfold is_u16, UINT16_MAX in *. lia. }
  apply Hok; try done.
  - constructor; cbn; try lia.
    + unfold rs_repcount, DP_GRPC_REPLY_ARR_SIZE, DP_GRPC_Q_SIZE in *. cbn in *.
      rewrite length_app. cbn. lia.
    + apply Forall_app. split; [done|]. apply Forall_singleton.
      cbn. rewrite Hu. split; [done|]. rewrite Hfill in Hlast. done.
    + done.
  - unfold written, received. cbn. rewrite bind_app. cbn. rewrite app_nil_r, Hu, Hfill.
    by rewrite app_nil_r.
Qed.

Lemma responder_ok_mempool r pool :
  responder_ok r → responder_ok (r <| rs_mempool := pool |>).
Proof. by intros []. Qed.

(** A reply slot followed by the message written into it. *)
Lemma wp_add_reply r (Q : option Z → dp_grpc_responder M → Prop) :
  responder_ok r →
  (∀ pool, Q None (r <| rs_mempool := pool |>)) →
  (∀ i r', (∀ m k R, (∀ r'', responder_ok r'' → written r'' = written r ++ [m] →
                rs_rep_capacity r'' = rs_rep_capacity r → wp k R r'') →
              wp (fill_reply i m;; k : cmd _ Z) R r') → Q (Some i) r') →
  wp dp_grpc_add_reply Q r.
Proof.
  intros Hok Hnone Hsome. unfold dp_grpc_add_reply. wp_steps. unfold id.
  (* the state in which the slot is taken *)
  assert (Hslot : ∀ r', responder_ok r' → rs_rep_msgcount r' < rs_rep_capacity r' →
      written r' = written r → rs_rep_capacity r' = rs_rep_capacity r →
      wp (i ← gets rs_rep_msgcount;
          modify (λ r, r <| rs_rep_msgcount := u16 (rs_rep_msgcount r + 1) |>);;
          mret (Some i)) Q r').
  { intros r' [Hcap Hcnt Hlen Hfull Hlast] Hlt Hw Hc. wp_steps. apply Hsome.
    intros m k R HR. wp_steps. apply HR.
    - assert (u16 (rs_rep_msgcount r' + 1) = rs_rep_msgcount r' + 1) as Hu.
      { apply u16_id. unfold is_u16, UINT16_MAX in *. lia. }
      constructor; cbn; rewrite ?Hu; try done; try lia.
      rewrite messages_upto_insert by lia. rewrite length_app, Hlast. simpl. lia.
    - assert (u16 (rs_rep_msgcount r' + 1) = rs_rep_msgcount r' + 1) as Hu.
      { apply u16_id. unfold is_u16, UINT16_MAX in *. lia. }
      rewrite <- Hw. unfold written. cbn. rewrite Hu.
      rewrite messages_upto_insert by lia. by rewrite app_assoc.
    - done. }
  destruct (_ <=? _) eqn:E; zbool.
  - wp_steps. apply wp_alloc_reply; [done|destruct Hok; lia|..].
    + intros pool. wp_steps. apply Hnone.
    + intros r' Hok' Hw Hcnt Hcap. wp_steps. apply Hslot; try done.
      destruct Hok'. lia.
  - wp_steps. apply Hslot; [done|lia|done..].
Qed.

(** The messages a listing leaves behind: all of them, or a prefix when it
    fails for lack of space. *)
Lemma wp_reply_each r l :
  responder_ok r →
  wp (reply_each l)
    (λ ret r', ∃ n, written r' = written r ++ take n l ∧
       ((ret = DP_GRPC_OK ∧ (length l ≤ n)%nat)
        ∨ (ret = DP_GRPC_ERR OUT_OF_MEMORY ∧ (n < length l)%nat))) r.
Proof.
  revert r. induction l as [|m l IH]; intros r Hok; simpl.
  - wp_steps. exists 0%nat. rewrite app_nil_r. auto with lia.
  - wp_steps. apply wp_add_reply; [done|..].
    + intros pool. wp_steps. exists 0%nat. rewrite app_nil_r. split; [done|right].
      split; [done|]. lia.
    + intros i r' Hfill. apply Hfill. intros r'' Hok'' Hw Hcap.
      wp_use (IH r'' Hok''). intros ret r3 (n & Hw3 & Hret).
      exists (S n). rewrite Hw3, Hw, <- app_assoc. split; [done|].
      destruct Hret as [[-> ?]|[-> ?]]; [left|right]; split; (done || lia).
Qed.

Lemma responder_ok_init req pool room size msg_size :
  0 < msg_size ≤ room → room / msg_size ≤ UINT16_MAX →
  ∃ r, dp_grpc_set_multireply msg_size (dp_grpc_init_responder req pool room size)
         = Some (tt, r) ∧ responder_ok r ∧ written r = [].
Proof.
  intros Hs Hr. eexists. split; [reflexivity|]. split; [|done].
  assert (1 ≤ room / msg_size) by (apply Z.div_le_lower_bound; lia).
  constructor; cbn; (done || lia).
Qed.

(** A listing on a fresh responder, as the client receives it. *)
Lemma wp_listing req pool room size msg_size l :
  0 < msg_size ≤ room → room / msg_size ≤ UINT16_MAX →
  wp (dp_grpc_set_multireply msg_size;; reply_each l)
    (λ ret r, ∃ n, received (dp_grpc_send_response id ret r) = take n l ∧
       ((ret = DP_GRPC_OK ∧ (length l ≤ n)%nat)
        ∨ (ret = DP_GRPC_ERR OUT_OF_MEMORY ∧ (n < length l)%nat)))
    (dp_grpc_init_responder req pool room size).
Proof.
  intros Hs Hr. destruct (responder_ok_init req pool room size msg_size Hs Hr)
    as (r & Hset & Hok & Hw).
  apply wp_bind. eapply wp_intro; [done|].
  wp_use (wp_reply_each r l Hok). intros ret r' (n & Hw' & Hret).
  exists n. rewrite received_sent, Hw', Hw. by split.
Qed.

(** A multi-reply listing on a fresh responder is received by the client as
    listed: with [DP_GRPC_OK] every message arrives, in order, over however many
    packets were needed; with an out-of-memory result the packets hold a
    proper prefix.  (For packets that all fit the ring.) *)
Theorem listing_received req pool room size msg_size l :
  0 < msg_size ≤ room → room / msg_size ≤ UINT16_MAX →
  wp (dp_grpc_set_multireply msg_size;; reply_each l)
    (λ ret r, ∃ n, received (dp_grpc_send_response id ret r) = take n l ∧
       ((ret = DP_GRPC_OK ∧ (length l ≤ n)%nat)
        ∨ (ret = DP_GRPC_ERR OUT_OF_MEMORY ∧ (n < length l)%nat)))
    (dp_grpc_init_responder req pool room size).
Proof. apply wp_listing. Qed.
End responder.

(** A pool that never runs out, and one that follows a list of outcomes. *)
Definition list_mempool : RteMempool := {|
  mempool_state := list bool;
  rte_pktmbuf_alloc st := match st with b :: st => (b, st) | [] => (true, []) end
|}.

(** Five messages over three packets. *)
Lemma listing_received_witness :
  let run := dp_grpc_set_multireply (H := list_mempool) 100;; reply_each [1; 2; 3; 4; 5] in
  let start := dp_grpc_init_responder (H := list_mempool) (MkReply true 7 7 ∅) [] 250 120 in
  wp run
    (λ ret r, ∃ n, received (dp_grpc_send_response id ret r) = take n [1; 2; 3; 4; 5] ∧
       ((ret = DP_GRPC_OK ∧ (5 ≤ n)%nat)
        ∨ (ret = DP_GRPC_ERR OUT_OF_MEMORY ∧ (n < 5)%nat))) start
  ∧ wp run (λ ret r, ret = DP_GRPC_OK ∧ length (rs_replies r) = 2%nat) start.
Proof.
  split; [|by vm_compute].
  apply (listing_received (H := list_mempool)); [lia|by vm_compute].
Defined.
