(* ===== verification/Port.v ===== *)
(** * Ports (include/dp_port.h, src/dp_port.c) and the firewall rule structures

    The port array [_dp_ports.ports], the table [_dp_port_table] by DPDK port
    id and the table of physical ports.  A [struct dp_port *] is an index into
    the array.  Firewall rules (include/dp_firewall.h) are heap objects linked
    into the list of the interface they belong to, so they are declared here
    and their operations follow in [Firewall].

    Of [struct dp_port] the name of the port, which is only logged, is left
    out. *)

From S2P Require Import Prelude Dpdk Error Types.

Definition RTE_ETH_LINK_DOWN : Z := 0.
Definition RTE_ETH_LINK_UP : Z := 1.
Definition DP_MAX_PF_PORTS : Z := 2.
Definition DP_MAX_VF_PORTS : Z := 126.
Definition DP_MAX_PORTS : Z := DP_MAX_PF_PORTS + DP_MAX_VF_PORTS.

(** ** Firewall rules *)

Inductive dp_fwall_action := DP_FWALL_DROP | DP_FWALL_ACCEPT.
Inductive dp_fwall_direction := DP_FWALL_INGRESS | DP_FWALL_EGRESS.

Global Instance dp_fwall_action_eq_dec : EqDecision dp_fwall_action.
Proof. solve_decision. Defined.
Global Instance dp_fwall_direction_eq_dec : EqDecision dp_fwall_direction.
Proof. solve_decision. Defined.

(** The union [filter] is its four words; [icmp] reads the first two. *)
Record dp_fwall_rule := MkRule {
  fr_rule_id : list Z;
  fr_src_ip : dp_ip_address;
  fr_dest_ip : dp_ip_address;
  fr_src_mask : Z;
  fr_dest_mask : Z;
  fr_priority : Z;
  fr_protocol : Z;
  fr_src_port_lower : Z;
  fr_src_port_upper : Z;
  fr_dst_port_lower : Z;
  fr_dst_port_upper : Z;
  fr_action : dp_fwall_action;
  fr_dir : dp_fwall_direction
}.

Definition fr_icmp_type (r : dp_fwall_rule) : Z := fr_src_port_lower r.
Definition fr_icmp_code (r : dp_fwall_rule) : Z := fr_src_port_upper r.

(** [TAILQ_HEAD]: the rules in order, and whether [TAILQ_INIT] was called since
    the head was last zeroed (only then [tqh_last] can be written through). *)
Record dp_fwall_head := MkFwallHead { fh_rules : list loc; fh_inited : bool }.

(** ** Interfaces and ports *)

Record dp_iface_cfg := MkIfaceCfg {
  cfg_own_ip : Z;
  cfg_neigh_ip : Z;
  cfg_ip_depth : Z;
  cfg_dhcp_ipv6 : Z;
  cfg_own_ipv6 : Z;
  cfg_ip6_depth : Z;
  cfg_pxe_ip : dp_ip_address;
  cfg_pxe_str : list Z
}.

Record dp_port_iface := MkIface {
  if_fwall_head : dp_fwall_head;
  if_cfg : dp_iface_cfg;
  if_vni : Z;
  if_id : list Z;
  if_ul_ipv6 : Z;
  if_nat_ip : Z;
  if_nat_port_range0 : Z;
  if_nat_port_range1 : Z;
  if_ready : bool;
  if_total_flow_rate_cap : Z;
  if_public_flow_rate_cap : Z
}.

(** [struct rte_meter_srtcm_profile] as configured by [cir], [cbs] and [ebs];
    [None] is the zeroed profile. *)
Record srtcm_params := MkSrtcm { sp_cir : Z; sp_cbs : Z; sp_ebs : Z }.

(** [pt_used_port_cnt] is [stats.nat_stats.used_port_cnt]; the flow members are
    pointers to hardware rules. *)
Record dp_port := MkPort {
  pt_is_pf : bool;
  pt_port_id : Z;
  pt_socket_id : Z;
  pt_link_status : Z;
  pt_allocated : bool;
  pt_vf_name : list Z;
  pt_dev_name : list Z;
  pt_peer_pf_hairpin_offset : Z;
  pt_peer_pf_port_id : Z;
  pt_own_mac : Z;
  pt_neigh_mac : Z;
  pt_iface : dp_port_iface;
  pt_default_jump_flow : option loc;
  pt_default_capture_flow : option loc;
  pt_captured : bool;
  pt_used_port_cnt : Z;
  pt_srtcm : option srtcm_params;
  pt_srtcm_profile : option srtcm_params
}.

Global Instance dp_iface_cfg_eta : Eta dp_iface_cfg := λ r,
  MkIfaceCfg (cfg_own_ip r) (cfg_neigh_ip r) (cfg_ip_depth r) (cfg_dhcp_ipv6 r)
    (cfg_own_ipv6 r) (cfg_ip6_depth r) (cfg_pxe_ip r) (cfg_pxe_str r).
Global Instance dp_port_iface_eta : Eta dp_port_iface := λ r,
  MkIface (if_fwall_head r) (if_cfg r) (if_vni r) (if_id r) (if_ul_ipv6 r) (if_nat_ip r)
    (if_nat_port_range0 r) (if_nat_port_range1 r) (if_ready r)
    (if_total_flow_rate_cap r) (if_public_flow_rate_cap r).
Global Instance dp_port_eta : Eta dp_port := λ r,
  MkPort (pt_is_pf r) (pt_port_id r) (pt_socket_id r) (pt_link_status r) (pt_allocated r)
    (pt_vf_name r) (pt_dev_name r) (pt_peer_pf_hairpin_offset r) (pt_peer_pf_port_id r)
    (pt_own_mac r) (pt_neigh_mac r) (pt_iface r) (pt_default_jump_flow r) (pt_default_capture_flow r)
    (pt_captured r) (pt_used_port_cnt r) (pt_srtcm r) (pt_srtcm_profile r).

(** All bytes zero. *)
Definition zero_iface_cfg : dp_iface_cfg :=
  MkIfaceCfg 0 0 0 0 0 0 (MkIp 0 false) (replicate 32 0).
Definition zero_iface : dp_port_iface :=
  MkIface (MkFwallHead [] false) zero_iface_cfg 0 (replicate 64 0) 0 0 0 0 false 0 0.
Definition zero_port : dp_port :=
  MkPort false 0 0 0 false [] [] 0 0 0 0 zero_iface None None false 0 None None.

(** ** The port tables *)

(** [ps_ports] is [_dp_ports], [ps_port_table] the entries of [_dp_port_table]
    that are not NULL, [ps_pf_ports] the registered part of [_dp_pf_ports];
    [ps_rules] holds the rules of all interfaces. *)
Record ports_state `{RteMalloc} := MkPorts {
  ps_ports : list dp_port;
  ps_port_table : gmap Z nat;
  ps_pf_ports : list nat;
  ps_rules : heap dp_fwall_rule
}.
Arguments MkPorts {_} _ _ _ _.

Global Instance ports_state_eta `{RteMalloc} : Eta ports_state := λ r,
  MkPorts (ps_ports r) (ps_port_table r) (ps_pf_ports r) (ps_rules r).

Section ports.
Context `{HM : RteMalloc}.
Implicit Types (st : ports_state) (p : nat).

(** [*port], and an assignment to members of [*port]. *)
Definition get_port p : cmd ports_state dp_port := λ st,
  match ps_ports st !! p with Some port => Some (port, st) | None => None end.

Definition upd_port p (f : dp_port → dp_port) : cmd ports_state () := λ st,
  match ps_ports st !! p with
  | Some port => Some (tt, st <| ps_ports := <[p := f port]> (ps_ports st) |>)
  | None => None
  end.

Definition set_iface (f : dp_port_iface → dp_port_iface) (port : dp_port) : dp_port :=
  port <| pt_iface := f (pt_iface port) |>.

(** Fails when there is no more room for a physical port. *)
Definition dp_port_register_pf p : cmd ports_state Z := λ st,
  if Z.of_nat (length (ps_pf_ports st)) <? DP_MAX_PF_PORTS
  then Some (DP_OK, st <| ps_pf_ports := ps_pf_ports st ++ [p] |>)
  else Some (DP_ERROR, st).

(** The table is read without a range check: the entry exists or the access is
    undefined. *)
Definition dp_get_in_port (m_port : Z) : cmd ports_state (option nat) := λ st,
  if (0 <=? m_port) && (m_port <? DP_MAX_PORTS)
  then Some (ps_port_table st !! m_port, st) else None.

Definition dp_get_out_port (nxt_hop : Z) : cmd ports_state (option nat) :=
  dp_get_in_port nxt_hop.

Definition dp_get_port_by_id (port_id : Z) : cmd ports_state (option nat) :=
  if DP_MAX_PORTS <=? port_id then mret None
  else gets (λ st, ps_port_table st !! port_id).

Definition dp_get_pf0 : cmd ports_state (option nat) := gets (λ st, ps_pf_ports st !! 0%nat).
Definition dp_get_pf1 : cmd ports_state (option nat) := gets (λ st, ps_pf_ports st !! 1%nat).

Definition dp_get_port_by_pf_index (index : Z) : cmd ports_state (option nat) :=
  if index <? DP_MAX_PF_PORTS then gets (λ st, ps_pf_ports st !! Z.to_nat index)
  else mret None.

(** [dp_conf_get_underlay_ip()] is the argument. *)
Definition dp_get_port_ul_ipv6 (underlay_ip : Z) (port : dp_port) : Z :=
  if if_ready (pt_iface port) then if_ul_ipv6 (pt_iface port) else underlay_ip.

Lemma wp_get_port st p port (Q : dp_port → ports_state → Prop) :
  ps_ports st !! p = Some port → Q port st → wp (get_port p) Q st.
Proof. unfold wp, get_port. by intros ->. Qed.

Lemma wp_upd_port st p port f (Q : () → ports_state → Prop) :
  ps_ports st !! p = Some port →
  Q tt (st <| ps_ports := <[p := f port]> (ps_ports st) |>) → wp (upd_port p f) Q st.
Proof. unfold wp, upd_port. by intros ->. Qed.
End ports.
