(* ===== verification/Hw.v ===== *)
(** * Hardware flow rules (include/rte_flow/dp_rte_flow_helpers.h,
      src/rte_flow/dp_rte_flow.c, src/rte_flow/dp_rte_flow_init.c)

    A rule of [rte_flow] is a pattern of protocol layers and a list of actions.
    A pattern item compares the fields its mask covers; the other fields of the
    [spec], which the code leaves uninitialised, have no influence and are left
    out.  Rules belong to DPDK: creating one gives a pointer, destroying a rule
    that does not exist is undefined. *)

From S2P Require Import Prelude Dpdk Error Types Port.

(** ** Rules *)

Inductive flow_item_type := ItemEth | ItemIpv6 | ItemIpv4 | ItemUdp | ItemTcp | ItemIcmp | ItemIcmp6 | ItemMark | ItemTag | ItemMeta | ItemEnd.
Global Instance flow_item_type_eq_dec : EqDecision flow_item_type.
Proof. solve_decision. Defined.

Inductive item_field :=
  | EthSrc | EthDst | EthType | IpSrc | IpDst | IpProto
  | L4Src | L4Dst | TcpFlags | IcmpType | MarkId | TagData | TagIndex | MetaData.
Global Instance item_field_eq_dec : EqDecision item_field.
Proof. solve_decision. Defined.

(** The fields with a non-zero mask: the value of the spec and the mask. *)
Record rte_flow_item := MkItem {
  it_type : flow_item_type;
  it_fields : list (item_field * (Z * Z))
}.

Definition mask8 : Z := 0xff.
Definition mask16 : Z := 0xffff.
Definition mask32 : Z := 0xffffffff.
Definition mask48 : Z := 2 ^ 48 - 1.
Definition mask128 : Z := 2 ^ 128 - 1.

(** [RTE_TCP_FIN_FLAG|RTE_TCP_SYN_FLAG|RTE_TCP_RST_FLAG] *)
Definition DP_TCP_CONTROL_FLAGS : Z := Z.lor (Z.lor 1 2) 4.
Definition DP_AGE_TIMEOUT_24BIT_MASK : Z := 0x00ffffff.
Definition DP_PKT_OFFLOAD_MARK : Z := 1.

Definition dp_set_eth_match_all_item : rte_flow_item := MkItem ItemEth [].
Definition dp_set_eth_flow_item (type : Z) : rte_flow_item := MkItem ItemEth [(EthType, (type, mask16))].
Definition dp_set_eth_dst_flow_item (dst type : Z) : rte_flow_item :=
  MkItem ItemEth [(EthDst, (dst, mask48)); (EthType, (type, mask16))].
Definition dp_set_eth_src_dst_flow_item (src dst type : Z) : rte_flow_item :=
  MkItem ItemEth [(EthSrc, (src, mask48)); (EthDst, (dst, mask48)); (EthType, (type, mask16))].
Definition dp_set_ipv6_flow_item (proto : Z) : rte_flow_item := MkItem ItemIpv6 [(IpProto, (proto, mask8))].
Definition dp_set_ipv6_src_flow_item (src proto : Z) : rte_flow_item :=
  MkItem ItemIpv6 [(IpSrc, (src, mask128)); (IpProto, (proto, mask8))].
Definition dp_set_ipv6_dst_flow_item (dst proto : Z) : rte_flow_item :=
  MkItem ItemIpv6 [(IpDst, (dst, mask128)); (IpProto, (proto, mask8))].
Definition dp_set_ipv4_dst_flow_item (dst proto : Z) : rte_flow_item :=
  MkItem ItemIpv4 [(IpDst, (dst, mask32)); (IpProto, (proto, mask8))].
Definition dp_set_ipv4_src_dst_flow_item (src dst proto : Z) : rte_flow_item :=
  MkItem ItemIpv4 [(IpSrc, (src, mask32)); (IpDst, (dst, mask32)); (IpProto, (proto, mask8))].
Definition dp_set_udp_src_flow_item (src_port : Z) : rte_flow_item := MkItem ItemUdp [(L4Src, (src_port, mask16))].
Definition dp_set_udp_dst_flow_item (dst_port : Z) : rte_flow_item := MkItem ItemUdp [(L4Dst, (dst_port, mask16))].
Definition dp_set_udp_src_dst_flow_item (src_port dst_port : Z) : rte_flow_item :=
  MkItem ItemUdp [(L4Src, (src_port, mask16)); (L4Dst, (dst_port, mask16))].
Definition dp_set_tcp_src_flow_item (src_port : Z) : rte_flow_item := MkItem ItemTcp [(L4Src, (src_port, mask16))].
Definition dp_set_tcp_src_dst_flow_item (src_port dst_port : Z) : rte_flow_item :=
  MkItem ItemTcp [(L4Src, (src_port, mask16)); (L4Dst, (dst_port, mask16))].
Definition dp_set_tcp_src_dst_noctrl_flow_item (src_port dst_port : Z) : rte_flow_item :=
  MkItem ItemTcp [(L4Src, (src_port, mask16)); (L4Dst, (dst_port, mask16));
                  (TcpFlags, (u8 (Z.lnot DP_TCP_CONTROL_FLAGS), DP_TCP_CONTROL_FLAGS))].
Definition dp_set_icmp_flow_item (type : Z) : rte_flow_item := MkItem ItemIcmp [(IcmpType, (type, mask8))].
Definition dp_set_icmp6_flow_item (type : Z) : rte_flow_item := MkItem ItemIcmp6 [(IcmpType, (type, mask8))].
(** The masks of these three are DPDK's defaults, which cover the whole field. *)
Definition dp_set_mark_flow_item (marked_id : Z) : rte_flow_item := MkItem ItemMark [(MarkId, (marked_id, mask32))].
Definition dp_set_tag_flow_item (tag_value tag_index : Z) : rte_flow_item :=
  MkItem ItemTag [(TagData, (tag_value, mask32)); (TagIndex, (tag_index, mask8))].
Definition dp_set_meta_flow_item (meta_value : Z) : rte_flow_item := MkItem ItemMeta [(MetaData, (meta_value, mask32))].
Definition dp_set_end_flow_item : rte_flow_item := MkItem ItemEnd [].

(** [None] is the error for any other protocol. *)
Definition dp_set_l4_flow_item (df : dp_flow) : option rte_flow_item :=
  if df_l4_type df =? IPPROTO_TCP then
    Some (dp_set_tcp_src_dst_noctrl_flow_item (df_trans_src_port df) (df_trans_dst_port df))
  else if df_l4_type df =? IPPROTO_UDP then
    Some (dp_set_udp_src_dst_flow_item (df_trans_src_port df) (df_trans_dst_port df))
  else if df_l4_type df =? IPPROTO_ICMP then Some (dp_set_icmp_flow_item (df_icmp_type df))
  else if df_l4_type df =? IPPROTO_ICMPV6 then Some (dp_set_icmp6_flow_item (df_icmp_type df))
  else None.

(** The headers the rules put in front of a packet: an Ethernet header, with an
    IPv6 header, with a UDP header (whose length is not set). *)
Record encap_eth := MkEncapEth { ee_dst : Z; ee_src : Z; ee_type : Z }.
Record encap_ipv6 := MkEncapIpv6 {
  e6_vtc_flow : Z; e6_payload_len : Z; e6_proto : Z; e6_hop_limits : Z; e6_src : Z; e6_dst : Z
}.
Record encap_udp := MkEncapUdp { eu_src_port : Z; eu_dst_port : Z; eu_dgram_cksum : Z }.
Record encap_hdr := MkEncapHdr {
  eh_eth : encap_eth;
  eh_ipv6 : option encap_ipv6;
  eh_udp : option encap_udp
}.

Inductive rte_flow_action :=
  | ActRawDecap (size : Z)
  | ActRawEncap (hdr : encap_hdr)
  | ActSetMacDst (mac : Z)
  | ActSetMacSrc (mac : Z)
  | ActSetIpv4Src (ipv4 : Z)
  | ActSetIpv4Dst (ipv4 : Z)
  | ActSetIpv6Src (ipv6 : Z)
  | ActSetIpv6Dst (ipv6 : Z)
  | ActSetTpSrc (port : Z)
  | ActSetTpDst (port : Z)
  | ActPortId (id : Z)
  | ActAge (timeout : Z) (context : loc)
  | ActQueue (index : Z)
  | ActMark (id : Z)
  | ActSetTag (data mask index : Z)
  | ActSetMeta (data mask : Z)
  | ActSample (ratio : Z) (actions : list rte_flow_action)
  | ActJump (group : Z)
  | ActEnd.

Definition dp_set_raw_decap_action (data_len : Z) : rte_flow_action := ActRawDecap data_len.
Definition dp_set_raw_encap_action (data_to_encap : encap_hdr) : rte_flow_action := ActRawEncap data_to_encap.
Definition dp_set_dst_mac_set_action (dst_mac : Z) : rte_flow_action := ActSetMacDst dst_mac.
Definition dp_set_src_mac_set_action (src_mac : Z) : rte_flow_action := ActSetMacSrc src_mac.
Definition dp_set_ipv4_set_src_action (ipv4 : Z) : rte_flow_action := ActSetIpv4Src ipv4.
Definition dp_set_ipv4_set_dst_action (ipv4 : Z) : rte_flow_action := ActSetIpv4Dst ipv4.
Definition dp_set_ipv6_set_src_action (ipv6 : Z) : rte_flow_action := ActSetIpv6Src ipv6.
Definition dp_set_ipv6_set_dst_action (ipv6 : Z) : rte_flow_action := ActSetIpv6Dst ipv6.
Definition dp_set_trans_proto_set_src_action (port : Z) : rte_flow_action := ActSetTpSrc port.
Definition dp_set_trans_proto_set_dst_action (port : Z) : rte_flow_action := ActSetTpDst port.
Definition dp_set_send_to_port_action (port_id : Z) : rte_flow_action := ActPortId port_id.
Definition dp_set_flow_age_action (timeout : Z) (age_context : loc) : rte_flow_action :=
  ActAge (Z.land timeout DP_AGE_TIMEOUT_24BIT_MASK) age_context.
Definition dp_set_redirect_queue_action (queue_index : Z) : rte_flow_action := ActQueue queue_index.
Definition dp_set_packet_mark_action (marked_value : Z) : rte_flow_action := ActMark marked_value.
Definition dp_set_set_tag_action (tag_value : Z) : rte_flow_action := ActSetTag tag_value mask32 0.
Definition dp_set_set_meta_action (meta_value : Z) : rte_flow_action := ActSetMeta meta_value mask32.
Definition dp_set_sample_action (sample_ratio : Z) (sub_action : list rte_flow_action) : rte_flow_action :=
  ActSample sample_ratio sub_action.
Definition dp_set_jump_group_action (group_id : Z) : rte_flow_action := ActJump group_id.
Definition dp_set_end_action : rte_flow_action := ActEnd.

(** [struct rte_flow_attr] *)
Record rte_flow_attr := MkAttr {
  at_group : Z; at_priority : Z; at_ingress : bool; at_egress : bool; at_transfer : bool
}.

Definition DP_RTE_FLOW_DEFAULT_GROUP : Z := 0.
Definition DP_RTE_FLOW_CAPTURE_GROUP : Z := 1.
Definition DP_RTE_FLOW_VNET_GROUP : Z := 2.

Record flow_rule := MkFlowRule {
  hr_port : Z;
  hr_attr : rte_flow_attr;
  hr_pattern : list rte_flow_item;
  hr_actions : list rte_flow_action
}.

(** ** What a pattern matches

    A packet as the hardware parses it: its layers from the outermost, each with
    its fields. *)

Definition hw_layer : Type := flow_item_type * (item_field → Z).

Definition field_matches (l : item_field → Z) (f : item_field * (Z * Z)) : bool :=
  Z.land (l f.1) f.2.2 =? Z.land f.2.1 f.2.2.

Definition item_matches (it : rte_flow_item) (l : hw_layer) : bool :=
  bool_decide (it_type it = l.1) && forallb (field_matches l.2) (it_fields it).

(** The items match the first layers of the packet, up to the end item. *)
Fixpoint pattern_matches (pattern : list rte_flow_item) (layers : list hw_layer) : bool :=
  match pattern with
  | [] => false
  | it :: pattern =>
      if bool_decide (it_type it = ItemEnd) then true
      else match layers with
           | [] => false
           | l :: layers => item_matches it l && pattern_matches pattern layers
           end
  end.

(** ** Installing rules *)

Class RteFlow := {
  rteflow_state : Type;
  rte_flow_validate : rteflow_state → flow_rule → Z;
  (** the pointer, given those in use *)
  rte_flow_create : rteflow_state → gset loc → flow_rule → option loc * rteflow_state;
  rte_flow_destroy : rteflow_state → loc → Z * rteflow_state
}.

Class RteFlowOk `{RteFlow} := {
  rte_flow_create_fresh st live r p st' : rte_flow_create st live r = (Some p, st') → p ∉ live
}.

(** The rules that are installed. *)
Record hw_state `{RteFlow} := MkHw { hw_rules : gmap loc flow_rule; hw_st : rteflow_state }.
Arguments MkHw {_} _ _.

Section hw.
Context `{HF : RteFlow}.

Definition dp_install_rte_flow (port_id : Z) (attr : rte_flow_attr) (pattern : list rte_flow_item)
    (actions : list rte_flow_action) : cmd hw_state (option loc) := λ h,
  let r := MkFlowRule port_id attr pattern actions in
  if DP_FAILED (rte_flow_validate (hw_st h) r) then Some (None, h)
  else
    let c := rte_flow_create (hw_st h) (dom (hw_rules h)) r in
    match c.1 with
    | None => Some (None, MkHw (hw_rules h) c.2)
    | Some p => Some (Some p, MkHw (<[p := r]> (hw_rules h)) c.2)
    end.

(** [rte_flow_destroy] *)
Definition hw_destroy (p : loc) : cmd hw_state Z := λ h,
  match hw_rules h !! p with
  | None => None
  | Some _ =>
      let d := rte_flow_destroy (hw_st h) p in
      Some (d.1, MkHw (if DP_FAILED d.1 then hw_rules h else delete p (hw_rules h)) d.2)
  end.

Definition dp_flow_attr_prio_ingress : rte_flow_attr := MkAttr 0 1 true false false.

Definition dp_install_isolated_mode_ipip (port_id proto_id : Z) : cmd hw_state Z :=
  let pattern := [dp_set_eth_flow_item (htons RTE_ETHER_TYPE_IPV6); dp_set_ipv6_flow_item proto_id;
                  dp_set_end_flow_item] in
  let action := [dp_set_redirect_queue_action 0; dp_set_end_action] in
  flow ← dp_install_rte_flow port_id dp_flow_attr_prio_ingress pattern action;
  match flow with None => mret DP_ERROR | Some _ => mret DP_OK end.

Definition dp_install_isolated_mode_virtsvc (port_id proto_id svc_ipv6 svc_port : Z) : cmd hw_state Z :=
  let l4 := if proto_id =? IPPROTO_TCP then Some (dp_set_tcp_src_flow_item svc_port)
            else if proto_id =? IPPROTO_UDP then Some (dp_set_udp_src_flow_item svc_port) else None in
  match l4 with
  | None => mret DP_ERROR
  | Some l4 =>
      let pattern := [dp_set_eth_flow_item (htons RTE_ETHER_TYPE_IPV6);
                      dp_set_ipv6_src_flow_item svc_ipv6 proto_id; l4; dp_set_end_flow_item] in
      let actions := [dp_set_redirect_queue_action 0; dp_set_end_action] in
      flow ← dp_install_rte_flow port_id dp_flow_attr_prio_ingress pattern actions;
      match flow with None => mret DP_ERROR | Some _ => mret DP_OK end
  end.
End hw.

(** ** Facts *)

Section hw_facts.
Context `{HF : RteFlow} {FO : RteFlowOk}.
Implicit Types (h : hw_state) (r : flow_rule).

Lemma wp_install_rte_flow h port_id attr pattern actions (Q : option loc → hw_state → Prop) :
  (∀ st, Q None (MkHw (hw_rules h) st)) →
  (∀ p st, hw_rules h !! p = None →
     Q (Some p) (MkHw (<[p := MkFlowRule port_id attr pattern actions]> (hw_rules h)) st)) →
  wp (dp_install_rte_flow port_id attr pattern actions) Q h.
Proof.
  intros Hn Hs. unfold wp, dp_install_rte_flow. destruct (DP_FAILED _).
  { destruct h as [rules st]. apply (Hn st). }
  destruct (rte_flow_create _ _ _) as [[p|] st] eqn:Hc; simpl; [|apply Hn].
  apply rte_flow_create_fresh, not_elem_of_dom in Hc. by apply Hs.
Qed.

Lemma wp_hw_destroy h p r (Q : Z → hw_state → Prop) :
  hw_rules h !! p = Some r →
  (∀ ret st, ret < 0 → Q ret (MkHw (hw_rules h) st)) →
  (∀ ret st, 0 ≤ ret → Q ret (MkHw (delete p (hw_rules h)) st)) →
  wp (hw_destroy p) Q h.
Proof.
  intros Hp Hf Hs. unfold wp, hw_destroy. rewrite Hp. destruct (DP_FAILED _) eqn:E; simpl.
  - apply Hf. by apply DP_FAILED_true.
  - apply Hs. by apply DP_FAILED_false.
Qed.
End hw_facts.

(** ** An instance for concrete runs

    Rules are always valid and can always be destroyed; the list says for the
    next rules whether they can be created. *)

Definition test_rteflow : RteFlow := {|
  rteflow_state := list bool;
  rte_flow_validate _ _ := 0;
  rte_flow_create st live _ :=
    match st with
    | false :: st => (None, st)
    | _ :: st => (Some (fresh_loc live), st)
    | [] => (Some (fresh_loc live), [])
    end;
  rte_flow_destroy st _ := (0, st)
|}.

Lemma test_rteflow_ok : @RteFlowOk test_rteflow.
Proof.
  constructor. intros st live r p st'. destruct st as [|[] st]; simpl; intros [= <- <-]; apply fresh_loc_fresh.
Qed.
