(* ===== verification/Multipath.v ===== *)
(** * Choice of the physical port (src/dp_multi_path.c)

    Outgoing traffic is spread over the two physical ports by the hash of its
    connection, with a configured percentage for the first one. *)

From S2P Require Import Prelude Dpdk Error Types Port.

Definition PORT_SELECT_TABLE_SIZE : Z := 10.

Inductive egress_pf_port := OWNER_PORT | PEER_PORT.
Global Instance egress_pf_port_eq_dec : EqDecision egress_pf_port.
Proof. solve_decision. Defined.

Section multipath.
Context `{HM : RteMalloc}.
(** [dp_conf_get_wcmp_perc()] *)
Context (wcmp_perc : Z).

Definition dp_conf_is_wcmp_enabled : bool := wcmp_perc <? 100.

(** [lround(perc / (100.0/10))]: the quotient of an integer by ten is never
    rounded to a half that it is not, and a half is rounded up. *)
Definition wcmp_frac : Z := (wcmp_perc + 5) / 10.

(** [pf0_egress_select_table], which is zeroed memory before. *)
Definition dp_multipath_init : list egress_pf_port :=
  if negb dp_conf_is_wcmp_enabled then replicate (Z.to_nat PORT_SELECT_TABLE_SIZE) OWNER_PORT
  else replicate (Z.to_nat wcmp_frac) OWNER_PORT
       ++ replicate (Z.to_nat (PORT_SELECT_TABLE_SIZE - wcmp_frac)) PEER_PORT.

(** A null port is dereferenced for its link status. *)
Definition link_status_of (portp : option nat) : cmd ports_state Z :=
  match portp with
  | None => fault
  | Some p => port ← get_port p; mret (pt_link_status port)
  end.

Definition dp_multipath_get_pf (hash : Z) : cmd ports_state (option nat) :=
  if negb dp_conf_is_wcmp_enabled then dp_get_pf0
  else
    match dp_multipath_init !! Z.to_nat (hash mod PORT_SELECT_TABLE_SIZE) with
    | None => fault
    | Some selected_port =>
        owner_port ← dp_get_pf0;
        peer_port ← dp_get_pf1;
        match selected_port with
        | PEER_PORT =>
            link ← link_status_of peer_port;
            mret (if link =? RTE_ETH_LINK_UP then peer_port else owner_port)
        | OWNER_PORT =>
            link ← link_status_of owner_port;
            mret (if link =? RTE_ETH_LINK_DOWN then peer_port else owner_port)
        end
    end.
End multipath.

Section multipath_facts.
Context `{HM : RteMalloc}.
Implicit Types st : ports_state.

Definition link_known (port : dp_port) : Prop :=
  pt_link_status port = RTE_ETH_LINK_UP ∨ pt_link_status port = RTE_ETH_LINK_DOWN.
Definition link_up (port : dp_port) : bool := pt_link_status port =? RTE_ETH_LINK_UP.

(** The connections whose hash has one of these residues use the first port. *)
Definition prefers_pf0 (wcmp_perc hash : Z) : bool := hash mod PORT_SELECT_TABLE_SIZE <? wcmp_frac wcmp_perc.

Lemma multipath_entry perc hash :
  0 ≤ perc < 100 →
  dp_multipath_init perc !! Z.to_nat (hash mod PORT_SELECT_TABLE_SIZE)
  = Some (if prefers_pf0 perc hash then OWNER_PORT else PEER_PORT).
Proof.
  intros Hp. pose proof (Z.mod_pos_bound hash PORT_SELECT_TABLE_SIZE ltac:(done)) as Hm.
  assert (Hf : 0 ≤ wcmp_frac perc ≤ 10) by (unfold wcmp_frac; Z.div_mod_to_equations; lia).
  unfold dp_multipath_init, dp_conf_is_wcmp_enabled, prefers_pf0, PORT_SELECT_TABLE_SIZE in *.
  rewrite (proj2 (Z.ltb_lt perc 100)) by lia. cbn [negb]. destruct (Z.ltb_spec (hash mod 10) (wcmp_frac perc)).
  - rewrite lookup_app_l by (rewrite length_replicate; lia). apply lookup_replicate. split; [done|lia].
  - rewrite lookup_app_r by (rewrite length_replicate; lia). apply lookup_replicate.
    rewrite length_replicate. split; [done|lia].
Qed.

Lemma wp_link_status st p port (Q : Z → ports_state → Prop) :
  ps_ports st !! p = Some port → Q (pt_link_status port) st → wp (link_status_of (Some p)) Q st.
Proof. intros Hp HQ. apply wp_bind. by eapply wp_get_port. Qed.

(** A connection leaves through the physical port that its hash prefers; when
    the link of that port is down it leaves through the other one.  The share of
    hashes that prefer the first port is the configured percentage, to the
    nearest tenth. *)
Theorem multipath_get_pf_spec st perc hash i j owner peer :
  0 ≤ perc < 100 → ps_pf_ports st = [i; j] → ps_ports st !! i = Some owner → ps_ports st !! j = Some peer →
  link_known owner → link_known peer →
  wp (dp_multipath_get_pf perc hash)
    (λ r st', st' = st ∧ r = Some (if prefers_pf0 perc hash then if link_up owner then i else j
                                   else if link_up peer then j else i)) st
  ∧ Z.abs (10 * Z.of_nat (length (filter (λ h, prefers_pf0 perc h = true) (seqZ 0 10))) - perc) ≤ 5.
Proof.
  intros Hp Hpf Hi Hj Ho Hpe. split.
  - unfold dp_multipath_get_pf. unfold dp_conf_is_wcmp_enabled. rewrite (proj2 (Z.ltb_lt perc 100)) by lia.
    cbn [negb]. rewrite multipath_entry by done. unfold dp_get_pf0, dp_get_pf1. wp_steps. rewrite Hpf. cbn [lookup list_lookup].
    unfold link_up. destruct (prefers_pf0 perc hash).
    + apply wp_bind. eapply wp_link_status; [done|]. wp_steps. by destruct Ho as [-> | ->].
    + apply wp_bind. eapply wp_link_status; [done|]. wp_steps. by destruct Hpe as [-> | ->].
  - assert (Hf : 0 ≤ wcmp_frac perc ≤ 10 ∧ Z.abs (10 * wcmp_frac perc - perc) ≤ 5)
      by (unfold wcmp_frac; Z.div_mod_to_equations; lia).
    rewrite (list_filter_ext_in _ (λ h, h < wcmp_frac perc)).
    + assert (∃ n : nat, (n ≤ 10)%nat ∧ wcmp_frac perc = Z.of_nat n) as (n & Hn & Heq)
        by (exists (Z.to_nat (wcmp_frac perc)); lia).
      rewrite Heq in *. replace (length (filter (λ h, h < Z.of_nat n) (seqZ 0 10))) with n; [lia|].
      clear Hf Heq. do 11 (destruct n as [|n]; [reflexivity|]). lia.
    + intros h Hh%elem_of_seqZ. unfold prefers_pf0, PORT_SELECT_TABLE_SIZE. rewrite Z.mod_small by lia. apply Z.ltb_lt.
Qed.
End multipath_facts.

(** ** Examples *)

Section multipath_examples.
#[local] Existing Instances test_malloc.

Definition ex_mp_pf (i link : Z) : dp_port :=
  zero_port <| pt_is_pf := true |> <| pt_port_id := i |> <| pt_link_status := link |>.
(** The link of the second port is down. *)
Definition ex_mp_ports : ports_state :=
  MkPorts [ex_mp_pf 0 RTE_ETH_LINK_UP; ex_mp_pf 1 RTE_ETH_LINK_DOWN] {[0 := 0%nat; 1 := 1%nat]} [0%nat; 1%nat]
    (Heap (H := test_malloc) ∅ []).

Lemma multipath_get_pf_spec_witness :
  prefers_pf0 30 17 = false ∧ wp (dp_multipath_get_pf 30 17) (λ r st', st' = ex_mp_ports ∧ r = Some 0%nat) ex_mp_ports.
Proof.
  split; [reflexivity|].
  apply (multipath_get_pf_spec ex_mp_ports 30 17 0 1 (ex_mp_pf 0 RTE_ETH_LINK_UP) (ex_mp_pf 1 RTE_ETH_LINK_DOWN));
    [lia|reflexivity..|by left|by right].
Defined.
End multipath_examples.
