(* ===== verification/Capture.v ===== *)
(** * Packet capture (src/rte_flow/dp_rte_flow_capture.c, src/monitoring/dp_monitoring.c)

    A virtual function has a default rule that sends its packets to the group of
    the forwarding rules; while it is captured they go through the capture group
    first, whose rule also sends an encapsulated copy to the capturing host.  A
    physical port only has the rule of the capture group.

    The pointers to the two rules are members of the port, the rules are those
    of [Hw]. *)

From S2P Require Import Prelude Dpdk Error Types Port Hw.


(** [struct dp_capture_hdr_config] *)
Record dp_capture_hdr_config := MkCaptureHdr {
  ch_node_ipv6_addr : Z;
  ch_udp_src_port : Z;
  ch_udp_dst_port : Z
}.

(** The static variables of dp_monitoring.c. *)
Record monitoring_state := MkMonitoring {
  mo_capture_hdr_config : dp_capture_hdr_config;
  mo_capture_enabled : bool
}.
Global Instance monitoring_state_eta : Eta monitoring_state := λ r,
  MkMonitoring (mo_capture_hdr_config r) (mo_capture_enabled r).

Definition dp_set_capture_hdr_config (addr udp_src_port udp_dst_port : Z) : cmd monitoring_state () :=
  modify (λ s, s <| mo_capture_hdr_config := MkCaptureHdr addr udp_src_port udp_dst_port |>).
Definition dp_get_capture_hdr_config : cmd monitoring_state dp_capture_hdr_config := gets mo_capture_hdr_config.
Definition dp_set_capture_enabled (enabled : bool) : cmd monitoring_state () :=
  modify (λ s, s <| mo_capture_enabled := enabled |>).
Definition dp_is_capture_enabled : cmd monitoring_state bool := gets mo_capture_enabled.

Definition dp_flow_attr_default_jump_ingress : rte_flow_attr :=
  MkAttr DP_RTE_FLOW_DEFAULT_GROUP 0 false false true.
Definition dp_flow_attr_default_capture_ingress : rte_flow_attr :=
  MkAttr DP_RTE_FLOW_CAPTURE_GROUP 0 false false true.

(** The actions of the copy; [pf0] is [*dp_get_pf0()], [underlay_ip] is
    [dp_conf_get_underlay_ip()]. *)
Definition dp_configure_pkt_capture_action (underlay_ip : Z) (pf0 : dp_port) (cfg : dp_capture_hdr_config) :
    list rte_flow_action :=
  let hdr := MkEncapHdr
    (MkEncapEth (pt_neigh_mac pf0) (pt_own_mac pf0) (htons RTE_ETHER_TYPE_IPV6))
    (Some (MkEncapIpv6 (htonl DP_IP6_VTC_FLOW) 0 IPPROTO_UDP DP_IP6_HOP_LIMIT underlay_ip (ch_node_ipv6_addr cfg)))
    (Some (MkEncapUdp (htons (ch_udp_src_port cfg)) (htons (ch_udp_dst_port cfg)) 0)) in
  [dp_set_raw_encap_action hdr; dp_set_send_to_port_action (pt_port_id pf0); dp_set_end_action].

Section capture.
Context `{HM : RteMalloc} `{HF : RteFlow}.

Definition port_hw : Type := ports_state * hw_state.

Definition match_all : list rte_flow_item := [dp_set_eth_match_all_item; dp_set_end_flow_item].

Definition dp_install_jump_rule_in_default_group (p : nat) (dst_group : Z) : cmd port_hw Z :=
  port ← zoom fstL (get_port p);
  flow ← zoom sndL (dp_install_rte_flow (pt_port_id port) dp_flow_attr_default_jump_ingress match_all
                      [dp_set_jump_group_action dst_group; dp_set_end_action]);
  match flow with
  | None => mret DP_ERROR
  | Some flow => zoom fstL (upd_port p (λ port, port <| pt_default_jump_flow := Some flow |>));; mret DP_OK
  end.

(** The configuration the capture rules are made from: [dp_conf_get_underlay_ip()]
    and the header of the copies. *)
Context (underlay_ip : Z) (cfg : dp_capture_hdr_config).

(** [*dp_get_pf0()] *)
Definition deref_pf0 : cmd ports_state dp_port :=
  pf0 ← dp_get_pf0;
  match pf0 with None => fault | Some p => get_port p end.

Definition dp_install_default_rule_in_capture_group (p : nat) (capture_on : bool) : cmd port_hw Z :=
  sample ← (if capture_on
            then pf0 ← zoom fstL deref_pf0;
                 mret [dp_set_sample_action 1 (dp_configure_pkt_capture_action underlay_ip pf0 cfg)]
            else mret []);
  port ← zoom fstL (get_port p);
  flow ← zoom sndL (dp_install_rte_flow (pt_port_id port) dp_flow_attr_default_capture_ingress match_all
                      (sample ++ [dp_set_jump_group_action DP_RTE_FLOW_VNET_GROUP; dp_set_end_action]));
  match flow with
  | None => mret DP_ERROR
  | Some flow => zoom fstL (upd_port p (λ port, port <| pt_default_capture_flow := Some flow |>));; mret DP_OK
  end.

(** One of the two halves of [dp_destroy_default_flow]; [false] is a failure. *)
Definition destroy_flow (flow : option loc) : cmd port_hw bool :=
  match flow with
  | None => mret true
  | Some flow => ret ← zoom sndL (hw_destroy flow); mret (negb (DP_FAILED ret))
  end.

Definition dp_destroy_default_flow (p : nat) : cmd port_hw Z :=
  port ← zoom fstL (get_port p);
  ok ← destroy_flow (pt_default_jump_flow port);
  if negb ok then mret DP_ERROR
  else
    ok ← destroy_flow (pt_default_capture_flow port);
    if negb ok then mret DP_ERROR else mret DP_OK.

Definition dp_install_pf_default_flow (p : nat) (capture_on : bool) : cmd port_hw Z :=
  ret ← dp_install_default_rule_in_capture_group p capture_on;
  if DP_FAILED ret then mret DP_ERROR else mret DP_OK.

Definition dp_install_vf_default_jump_flow (p : nat) (dst_group : Z) : cmd port_hw Z :=
  ret ← dp_install_jump_rule_in_default_group p dst_group;
  if DP_FAILED ret then mret DP_ERROR else mret DP_OK.

Definition dp_install_vf_default_capture_flow (p : nat) : cmd port_hw Z :=
  ret ← dp_install_default_rule_in_capture_group p true;
  if DP_FAILED ret then mret DP_ERROR else mret DP_OK.

(** [port->captured = v] and the final return. *)
Definition set_captured (p : nat) (v : bool) (ret : Z) : cmd port_hw Z :=
  zoom fstL (upd_port p (λ port, port <| pt_captured := v |>));; mret ret.

Definition dp_enable_pkt_capture (p : option nat) : cmd port_hw Z :=
  match p with
  | None => mret (DP_GRPC_ERR NO_VM)
  | Some p =>
      port ← zoom fstL (get_port p);
      if negb (pt_allocated port) then mret (DP_GRPC_ERR NO_VM)
      else if pt_captured port then mret (DP_GRPC_ERR ALREADY_ACTIVE)
      else
        ret ← dp_destroy_default_flow p;
        if DP_FAILED ret then mret (DP_GRPC_ERR RTE_RULE_DEL)
        else if pt_is_pf port then
          ret ← dp_install_pf_default_flow p true;
          if DP_FAILED ret then mret (DP_GRPC_ERR RTE_RULE_ADD) else set_captured p true DP_GRPC_OK
        else
          ret ← dp_install_vf_default_jump_flow p DP_RTE_FLOW_CAPTURE_GROUP;
          if DP_FAILED ret then mret (DP_GRPC_ERR RTE_RULE_ADD)
          else
            ret ← dp_install_vf_default_capture_flow p;
            if DP_FAILED ret then
              ret ← dp_destroy_default_flow p;
              if DP_FAILED ret then mret (DP_GRPC_ERR ROLLBACK)
              else
                ret ← dp_install_vf_default_jump_flow p DP_RTE_FLOW_VNET_GROUP;
                if DP_FAILED ret then mret (DP_GRPC_ERR ROLLBACK) else mret (DP_GRPC_ERR RTE_RULE_ADD)
            else set_captured p true DP_GRPC_OK
  end.

Definition dp_disable_pkt_capture (p : option nat) : cmd port_hw Z :=
  match p with
  | None => mret (DP_GRPC_ERR NO_VM)
  | Some p =>
      port ← zoom fstL (get_port p);
      if negb (pt_allocated port) then mret (DP_GRPC_ERR NO_VM)
      else if negb (pt_captured port) then mret (DP_GRPC_ERR NOT_ACTIVE)
      else
        ret ← dp_destroy_default_flow p;
        if DP_FAILED ret then mret (DP_GRPC_ERR RTE_RULE_DEL)
        else if pt_is_pf port then
          ret ← dp_install_pf_default_flow p false;
          if DP_FAILED ret then mret (DP_GRPC_ERR RTE_RULE_ADD) else set_captured p false DP_OK
        else
          ret ← dp_install_vf_default_jump_flow p DP_RTE_FLOW_VNET_GROUP;
          if DP_FAILED ret then mret (DP_GRPC_ERR RTE_RULE_ADD) else set_captured p false DP_OK
  end.

(** The loop over the ports [p], [p + 1], ... *)
Fixpoint disable_ports (n : nat) (p : nat) (count : Z) : cmd port_hw Z :=
  match n with
  | O => mret count
  | S n =>
      port ← zoom fstL (get_port p);
      if pt_allocated port && pt_captured port then
        ret ← dp_enable_pkt_capture (Some p);
        if DP_FAILED ret then mret ret else disable_ports n (S p) (count + 1)
      else disable_ports n (S p) count
  end.

Definition dp_disable_pkt_capture_on_all_ifaces : cmd port_hw Z :=
  ports ← zoom fstL (gets ps_ports);
  disable_ports (length ports) 0 0.
End capture.

(** ** Facts *)

Section capture_facts.
Context `{HM : RteMalloc} `{HF : RteFlow} {FO : RteFlowOk}.
Context (underlay_ip : Z) (cfg : dp_capture_hdr_config).
Implicit Types (st : ports_state) (h : hw_state) (p : nat).

(** *** Stopping all captures *)

Definition captured_port (port : dp_port) : bool := pt_allocated port && pt_captured port.

Lemma get_port_eq st h p port :
  ps_ports st !! p = Some port → zoom fstL (get_port p) (st, h) = Some (port, (st, h)).
Proof. intros Hp. unfold zoom, get_port. simpl. by rewrite Hp. Qed.

Lemma disable_ports_eq n st h p count :
  (p + n)%nat = length (ps_ports st) →
  disable_ports underlay_ip cfg n p count (st, h)
  = Some (if existsb captured_port (drop p (ps_ports st)) then DP_GRPC_ERR ALREADY_ACTIVE else count, (st, h)).
Proof.
  revert p count. induction n as [|n IH]; intros p count Hlen; simpl.
  { by rewrite drop_ge by lia. }
  destruct (lookup_lt_is_Some_2 (ps_ports st) p) as [port Hport]; [lia|].
  rewrite (bind_eq _ _ _ _ _ (get_port_eq _ h _ _ Hport)). rewrite (drop_S _ _ _ Hport). simpl.
  unfold captured_port at 1. destruct (pt_allocated port) eqn:Ha, (pt_captured port) eqn:Hc; simpl; try (apply IH; lia).
  unfold mbind at 1, cmd_bind at 1. rewrite (bind_eq _ _ _ _ _ (get_port_eq _ h _ _ Hport)), Ha, Hc. done.
Qed.

Lemma disable_all_eq st h :
  dp_disable_pkt_capture_on_all_ifaces underlay_ip cfg (st, h)
  = Some (if existsb captured_port (ps_ports st) then DP_GRPC_ERR ALREADY_ACTIVE else 0, (st, h)).
Proof.
  unfold dp_disable_pkt_capture_on_all_ifaces. unfold mbind, cmd_bind. simpl.
  rewrite disable_ports_eq by done. done.
Qed.

(** Stopping the capture on all interfaces never stops one: as soon as a port is
    captured the call fails with [ALREADY_ACTIVE] and changes nothing (the loop
    enables each captured port instead of disabling it); otherwise it reports
    zero ports. *)
Theorem disable_all_spec st h :
  dp_disable_pkt_capture_on_all_ifaces underlay_ip cfg (st, h)
  = Some (if existsb captured_port (ps_ports st) then DP_GRPC_ERR ALREADY_ACTIVE else 0, (st, h)).
Proof. apply disable_all_eq. Qed.

(** *** Starting a capture on a virtual function *)

Definition jump_rule (port_id group : Z) : flow_rule :=
  MkFlowRule port_id dp_flow_attr_default_jump_ingress match_all [dp_set_jump_group_action group; dp_set_end_action].

Definition capture_rule (port_id : Z) (pf0 : dp_port) : flow_rule :=
  MkFlowRule port_id dp_flow_attr_default_capture_ingress match_all
    [dp_set_sample_action 1 (dp_configure_pkt_capture_action underlay_ip pf0 cfg);
     dp_set_jump_group_action DP_RTE_FLOW_VNET_GROUP; dp_set_end_action].

(** The rules of a virtual function that is not captured, and of one that is;
    [others] are the rules of everything else. *)
Record vf_normal st h p (port : dp_port) (j : loc) (others : gmap loc flow_rule) : Prop := {
  vn_port : ps_ports st !! p = Some port;
  vn_vf : pt_is_pf port = false;
  vn_allocated : pt_allocated port = true;
  vn_captured : pt_captured port = false;
  vn_jump : pt_default_jump_flow port = Some j;
  vn_capture : pt_default_capture_flow port = None;
  vn_fresh : others !! j = None;
  vn_rules : hw_rules h = <[j := jump_rule (pt_port_id port) DP_RTE_FLOW_VNET_GROUP]> others
}.

Record vf_captured h (port : dp_port) (pf0 : dp_port) (j c : loc) (others : gmap loc flow_rule) : Prop := {
  vc_captured : pt_captured port = true;
  vc_jump : pt_default_jump_flow port = Some j;
  vc_capture : pt_default_capture_flow port = Some c;
  vc_fresh_j : others !! j = None;
  vc_fresh_c : others !! c = None;
  vc_ne : j ≠ c;
  vc_rules : hw_rules h = <[c := capture_rule (pt_port_id port) pf0]>
               (<[j := jump_rule (pt_port_id port) DP_RTE_FLOW_CAPTURE_GROUP]> others)
}.

Definition with_jump (flow : loc) (port : dp_port) : dp_port := port <| pt_default_jump_flow := Some flow |>.
Definition with_capture (flow : loc) (port : dp_port) : dp_port := port <| pt_default_capture_flow := Some flow |>.
Definition upd_ports st p (f : dp_port → dp_port) (port : dp_port) : ports_state :=
  st <| ps_ports := <[p := f port]> (ps_ports st) |>.

Lemma wp_install_jump st h p port group (Q : Z → port_hw → Prop) :
  ps_ports st !! p = Some port →
  (∀ x, Q DP_ERROR (st, MkHw (hw_rules h) x)) →
  (∀ j x, hw_rules h !! j = None →
     Q DP_OK (upd_ports st p (with_jump j) port, MkHw (<[j := jump_rule (pt_port_id port) group]> (hw_rules h)) x)) →
  wp (dp_install_vf_default_jump_flow p group) Q (st, h).
Proof.
  intros Hp Hf Hs. unfold dp_install_vf_default_jump_flow, dp_install_jump_rule_in_default_group.
  wp_steps. eapply wp_get_port; [done|]. wp_steps. apply wp_install_rte_flow.
  - intros x. wp_steps. apply Hf.
  - intros j x Hj. wp_steps. eapply wp_upd_port; [done|]. wp_steps. by apply Hs.
Qed.

Lemma wp_install_capture st h p port q pf0 (Q : Z → port_hw → Prop) :
  ps_ports st !! p = Some port → ps_pf_ports st !! 0%nat = Some q → ps_ports st !! q = Some pf0 →
  (∀ x, Q DP_ERROR (st, MkHw (hw_rules h) x)) →
  (∀ c x, hw_rules h !! c = None →
     Q DP_OK (upd_ports st p (with_capture c) port,
              MkHw (<[c := capture_rule (pt_port_id port) pf0]> (hw_rules h)) x)) →
  wp (dp_install_vf_default_capture_flow underlay_ip cfg p) Q (st, h).
Proof.
  intros Hp Hq Hpf Hf Hs. unfold dp_install_vf_default_capture_flow, dp_install_default_rule_in_capture_group.
  wp_steps. unfold deref_pf0, dp_get_pf0. wp_steps. simpl. rewrite Hq. eapply wp_get_port; [done|]. wp_steps.
  eapply wp_get_port; [done|]. wp_steps. apply wp_install_rte_flow.
  - intros x. wp_steps. apply Hf.
  - intros c x Hc. wp_steps. eapply wp_upd_port; [done|]. wp_steps. by apply Hs.
Qed.

(** Destroying both rules; a failure leaves the ports alone. *)
Lemma wp_destroy_default_flow st h p port (Q : Z → port_hw → Prop) :
  ps_ports st !! p = Some port →
  (∀ j, pt_default_jump_flow port = Some j → is_Some (hw_rules h !! j)) →
  (∀ c, pt_default_capture_flow port = Some c →
     is_Some (hw_rules h !! c) ∧ pt_default_jump_flow port ≠ Some c) →
  (∀ h', Q DP_ERROR (st, h')) →
  (∀ x, Q DP_OK (st, MkHw (from_option delete id (pt_default_capture_flow port)
                             (from_option delete id (pt_default_jump_flow port) (hw_rules h))) x)) →
  wp (dp_destroy_default_flow p) Q (st, h).
Proof.
  intros Hp Hj Hc Hf Hs. unfold dp_destroy_default_flow. wp_steps. eapply wp_get_port; [done|]. wp_steps.
  assert (Hsecond : ∀ x m, m = from_option delete id (pt_default_jump_flow port) (hw_rules h) →
    wp (destroy_flow (pt_default_capture_flow port))
      (λ ok, wp (if negb ok then mret DP_ERROR else mret DP_OK) Q) (st, MkHw m x)).
  { intros x m ->. destruct (pt_default_capture_flow port) as [c|] eqn:Ec; simpl; last first.
    { wp_steps. apply Hs. }
    destruct (Hc c eq_refl) as [[r Hr] Hne]. wp_steps. apply (wp_hw_destroy _ _ r).
    - simpl. destruct (pt_default_jump_flow port) as [j|]; [|done]. simpl. rewrite lookup_delete_ne; [done|naive_solver].
    - intros ret y Hret. wp_steps. rewrite DP_FAILED_neg by done. wp_steps. apply Hf.
    - intros ret y Hret. wp_steps. rewrite DP_FAILED_pos by done. wp_steps. apply Hs. }
  destruct (pt_default_jump_flow port) as [j|] eqn:Ej; simpl.
  - destruct (Hj j eq_refl) as [r Hr]. wp_steps. eapply wp_hw_destroy; [done|..].
    + intros ret y Hret. wp_steps. rewrite DP_FAILED_neg by done. wp_steps. apply Hf.
    + intros ret y Hret. wp_steps. rewrite DP_FAILED_pos by done. wp_steps. by apply Hsecond.
  - wp_steps. destruct h as [rules x]. by apply Hsecond.
Qed.

Lemma upd_ports_lookup st p f port : ps_ports st !! p = Some port → ps_ports (upd_ports st p f port) !! p = Some (f port).
Proof. intros Hp. simpl. apply list_lookup_insert_eq. by eapply lookup_lt_Some. Qed.

Lemma upd_ports_lookup_ne st p q f port : p ≠ q → ps_ports (upd_ports st p f port) !! q = ps_ports st !! q.
Proof. intros Hne. simpl. by apply list_lookup_insert_ne. Qed.

(** Starting the capture of a virtual function either leaves exactly the two
    capture rules in place of its default rule, or fails.  When the second rule
    cannot be installed the default rule is restored; when already the first one
    cannot, the port is left without a rule and with a pointer to the rule that
    was destroyed. *)
Theorem enable_vf_spec st h p port j others q pf0 :
  vf_normal st h p port j others → p ≠ q → ps_pf_ports st !! 0%nat = Some q → ps_ports st !! q = Some pf0 →
  wp (dp_enable_pkt_capture underlay_ip cfg (Some p))
    (λ ret x,
       (ret = DP_GRPC_OK ∧ ∃ port' j' c', ps_ports x.1 !! p = Some port' ∧ vf_captured x.2 port' pf0 j' c' others)
       ∨ (ret = DP_GRPC_ERR RTE_RULE_ADD
          ∧ ((∃ port' j', vf_normal x.1 x.2 p port' j' others) ∨ x.1 = st ∧ hw_rules x.2 = others))
       ∨ ret = DP_GRPC_ERR RTE_RULE_DEL ∨ ret = DP_GRPC_ERR ROLLBACK) (st, h).
Proof.
  intros [Hp Hvf Hal Hcap Hj Hc Hfresh Hrules] Hne Hq Hpf. unfold dp_enable_pkt_capture.
  apply wp_bind, wp_zoom. eapply wp_get_port; [done|]. cbn [lput fstL fst snd]. rewrite Hal, Hcap. cbn [negb].
  apply wp_bind. eapply wp_destroy_default_flow; [done|..].
  { intros ? Hj'. rewrite Hj in Hj'. injection Hj' as <-. rewrite Hrules, lookup_insert_eq. by eexists. }
  { by rewrite Hc. }
  { intros h'. apply wp_ret. naive_solver. }
  intros x. rewrite Hj, Hc, Hrules, Hvf. cbn [from_option id]. rewrite delete_insert_id by done. cbn match.
  change (DP_FAILED DP_OK) with false. cbn match.
  apply wp_bind. eapply wp_install_jump; [done|..].
  { intros y. apply wp_ret. right; left. split; [done|]. by right. }
  intros j1 y Hj1. simpl in Hj1. change (DP_FAILED DP_OK) with false. cbn match.
  set (st1 := upd_ports st p (with_jump j1) port).
  assert (Hp1 : ps_ports st1 !! p = Some (with_jump j1 port)) by (by apply upd_ports_lookup).
  apply wp_bind. eapply (wp_install_capture st1); [done|done|unfold st1; by rewrite upd_ports_lookup_ne|..].
  - intros z. change (DP_FAILED DP_ERROR) with true. cbn match. apply wp_bind.
    eapply (wp_destroy_default_flow st1); [done|..]; simpl.
    + intros ? [= <-]. rewrite lookup_insert_eq. by eexists.
    + by rewrite Hc.
    + intros h'. apply wp_ret. naive_solver.
    + intros w. rewrite Hc. cbn [from_option id]. rewrite delete_insert_id by done. apply wp_bind.
      eapply (wp_install_jump st1); [done|..].
      * intros v. apply wp_ret. naive_solver.
      * intros j2 v Hj2. simpl in Hj2. apply wp_ret. right; left. split; [done|]. left.
        exists (with_jump j2 (with_jump j1 port)), j2. constructor; try done.
        simpl. apply list_lookup_insert_eq. rewrite length_insert. by eapply lookup_lt_Some.
  - intros c z Hcl. change (DP_FAILED DP_OK) with false. cbn match. unfold set_captured. apply wp_bind, wp_zoom.
    set (st2 := upd_ports st1 p (with_capture c) (with_jump j1 port)).
    assert (Hp2 : ps_ports st2 !! p = Some (with_capture c (with_jump j1 port))) by (by apply upd_ports_lookup).
    eapply wp_upd_port; [done|]. apply wp_ret. left. split; [done|]. simpl in Hcl.
    apply lookup_insert_None in Hcl as [Hcl Hjc]. eexists _, j1, c. split; [by apply (upd_ports_lookup st2)|].
    constructor; done.
Qed.
End capture_facts.

(** ** A concrete run *)

Section capture_examples.
#[local] Existing Instances test_malloc test_rteflow test_rteflow_ok.

(** A physical port and a virtual function with its default rule. *)
Definition ex_cap_pf : dp_port := zero_port <| pt_is_pf := true |> <| pt_allocated := true |>.
Definition ex_cap_vf : dp_port :=
  zero_port <| pt_port_id := 1 |> <| pt_allocated := true |> <| pt_default_jump_flow := Some 1%positive |>.
Definition ex_cap_ports : ports_state :=
  MkPorts [ex_cap_pf; ex_cap_vf] {[0 := 0%nat; 1 := 1%nat]} [0%nat] (Heap (H := test_malloc) ∅ []).
Definition ex_cap_hw : hw_state := MkHw {[1%positive := jump_rule 1 DP_RTE_FLOW_VNET_GROUP]} [].
Definition ex_cap_cfg : dp_capture_hdr_config := MkCaptureHdr 7 3000 3001.

Lemma enable_vf_spec_witness :
  vf_normal ex_cap_ports ex_cap_hw 1 ex_cap_vf 1%positive ∅ ∧
  wp (dp_enable_pkt_capture 9 ex_cap_cfg (Some 1%nat))
    (λ ret x,
       (ret = DP_GRPC_OK ∧ ∃ port' j' c', ps_ports x.1 !! 1%nat = Some port'
                                          ∧ vf_captured 9 ex_cap_cfg x.2 port' ex_cap_pf j' c' ∅)
       ∨ (ret = DP_GRPC_ERR RTE_RULE_ADD
          ∧ ((∃ port' j', vf_normal x.1 x.2 1 port' j' ∅) ∨ x.1 = ex_cap_ports ∧ hw_rules x.2 = ∅))
       ∨ ret = DP_GRPC_ERR RTE_RULE_DEL ∨ ret = DP_GRPC_ERR ROLLBACK) (ex_cap_ports, ex_cap_hw).
Proof.
  assert (Hn : vf_normal ex_cap_ports ex_cap_hw 1 ex_cap_vf 1%positive ∅) by (constructor; reflexivity).
  split; [exact Hn|].
  apply (enable_vf_spec 9 ex_cap_cfg ex_cap_ports ex_cap_hw 1 ex_cap_vf 1%positive ∅ 0 ex_cap_pf Hn); [lia|reflexivity..].
Defined.
End capture_examples.
