(* ===== verification/PortCtl.v ===== *)
(** * Setting up, starting, metering and stopping ports (src/dp_port.c,
      src/dp_hairpin.c, parts of src/dp_util.c and include/dp_port.h)

    What is done to the Ethernet devices goes through DPDK and the kernel: every
    request is an [eth_req], whose result the class [RteEth] gives; the requests
    made are kept in [ed_log].  The configuration of the service is the argument
    [conf]. *)

From S2P Require Import Prelude Dpdk Error Types Port Hw Capture.

(** ** Configuration (include/dp_conf_opts.h) *)

Inductive dp_conf_nic_type := DP_CONF_NIC_TYPE_MELLANOX | DP_CONF_NIC_TYPE_TAP | DP_CONF_NIC_TYPE_BLUEFIELD2.
Global Instance dp_conf_nic_type_eq_dec : EqDecision dp_conf_nic_type.
Proof. solve_decision. Defined.

(** The configuration that is read here; names are without their NUL.
    [cf_num_of_vfs] is the member of the DPDK layer, which [dp_get_num_of_vfs]
    sets before any port is initialized. *)
Record dp_conf := MkConf {
  cf_nic_type : dp_conf_nic_type;
  cf_offload_enabled : bool;
  cf_underlay_ip : Z;
  cf_pf0_name : list Z;
  cf_pf1_name : list Z;
  cf_vf_pattern : list Z;
  cf_num_of_vfs : Z
}.

(** ** Devices *)

Inductive eth_req :=
  | DevConfigure (port_id nb_rx nb_tx : Z)
  | RxQueueSetup (port_id queue : Z) (socket_id : Z)
  | TxQueueSetup (port_id queue : Z) (socket_id : Z)
  | PromiscuousEnable (port_id : Z)
  | CallbackRegister (port_id : Z)
  | FlowIsolate (port_id : Z)
  | RxQueueInfo (port_id : Z)
  | TxQueueInfo (port_id : Z)
  | RxHairpinSetup (port_id queue peer_port peer_queue : Z)
  | TxHairpinSetup (port_id queue peer_port peer_queue : Z)
  | HairpinBind (tx_port rx_port : Z)
  | DevStart (port_id : Z)
  | DevStop (port_id : Z)
  (** [calloc] of the ports, a failure being negative *)
  | PortsCalloc (num_of_ports : Z)
  (** [rte_meter_srtcm_profile_config] and [rte_meter_srtcm_config] *)
  | MeterProfile (p : srtcm_params)
  | MeterConfig (p : srtcm_params)
  (** [access(F_OK)], [fopen("w+")], and the number printed to the file *)
  | SysfsAccess (path : list Z)
  | SysfsOpen (path : list Z)
  | SysfsWrite (path : list Z) (value : Z).

Class RteEth := {
  eth_state : Type;
  eth_call : eth_req → eth_state → Z * eth_state;
  (** [RTE_ETH_FOREACH_DEV]; the interface name of [dp_get_dev_info], [None] when
      it fails; [rte_eth_dev_socket_id]; the result of [rte_eth_macaddr_get] and
      the address it writes when it succeeds; [rte_eth_dev_get_name_by_port]; the
      neighbour that [dp_get_pf_neigh_mac] learns from the kernel for the own
      address of a physical port; [rte_eth_dev_get_port_by_name] *)
  eth_devs : eth_state → list Z;
  eth_ifname : Z → eth_state → option (list Z);
  eth_socket_id : Z → eth_state → Z;
  eth_mac : Z → eth_state → Z * Z;
  eth_dev_name : Z → eth_state → list Z;
  eth_pf_neigh_mac : Z → Z → eth_state → option Z;
  eth_port_by_name : list Z → eth_state → option Z
}.

Record eth_dev `{RteEth} := MkEthDev { ed_st : eth_state; ed_log : list eth_req }.
Arguments MkEthDev {_} _ _.

(** The ports, the hardware rules and the devices; [dv_ports_cap] is how many
    ports the array has room for, [dv_last_offset] the static variable
    [last_pf1_hairpin_tx_rx_queue_offset]. *)
Record dev_state `{RteMalloc} `{RteFlow} `{RteEth} := MkDev {
  dv_ports : ports_state;
  dv_hw : hw_state;
  dv_eth : eth_dev;
  dv_ports_cap : Z;
  dv_last_offset : Z
}.
Arguments MkDev {_ _ _} _ _ _ _ _.
Global Instance dev_state_eta `{RteMalloc} `{RteFlow} `{RteEth} : Eta dev_state := λ r,
  MkDev (dv_ports r) (dv_hw r) (dv_eth r) (dv_ports_cap r) (dv_last_offset r).

Definition DP_NR_STD_RX_QUEUES : Z := 1.
Definition DP_NR_STD_TX_QUEUES : Z := 1.
Definition DP_NR_PF_HAIRPIN_RX_TX_QUEUES : Z := 1.
Definition DP_NR_VF_HAIRPIN_RX_TX_QUEUES : Z := 1.
Definition DP_NR_RESERVED_RX_QUEUES : Z := DP_NR_STD_RX_QUEUES + DP_NR_PF_HAIRPIN_RX_TX_QUEUES.
Definition DP_NR_RESERVED_TX_QUEUES : Z := DP_NR_STD_TX_QUEUES + DP_NR_PF_HAIRPIN_RX_TX_QUEUES.

Definition SOCKET_ID_ANY : Z := -1.
Definition UINT8_MAX : Z := 255.
Definition IF_NAMESIZE : Z := 16.

Section portctl.
Context `{HM : RteMalloc} `{HF : RteFlow} `{HE : RteEth} (conf : dp_conf).

Definition portsD : lens dev_state ports_state := Lens dv_ports (λ x s, s <| dv_ports := x |>).
Definition hwD : lens dev_state hw_state := Lens dv_hw (λ x s, s <| dv_hw := x |>).
Definition ethD : lens dev_state eth_dev := Lens dv_eth (λ x s, s <| dv_eth := x |>).
Definition porthwD : lens dev_state port_hw :=
  Lens (λ s, (dv_ports s, dv_hw s)) (λ x s, s <| dv_ports := x.1 |> <| dv_hw := x.2 |>).

Definition eth (r : eth_req) : cmd dev_state Z :=
  zoom ethD (λ e, let c := eth_call r (ed_st e) in Some (c.1, MkEthDev c.2 (ed_log e ++ [r]))).
Definition eth_query {A} (f : eth_state → A) : cmd dev_state A := zoom ethD (gets (λ e, f (ed_st e))).

Definition port_of (p : nat) : cmd dev_state dp_port := zoom portsD (get_port p).
Definition set_port (p : nat) (f : dp_port → dp_port) : cmd dev_state () := zoom portsD (upd_port p f).

(** ** Starting and stopping *)

Definition dp_load_mac (p : nat) : cmd dev_state Z :=
  port ← port_of p;
  r ← eth_query (eth_mac (pt_port_id port));
  (if DP_FAILED r.1 then mret tt else set_port p (λ port, port <| pt_own_mac := r.2 |>));;
  mret r.1.

Definition dp_stop_eth_port (port_id : Z) : cmd dev_state Z := eth (DevStop port_id).

Definition dp_port_install_isolated_mode (port_id : Z) : cmd dev_state Z :=
  ret ← zoom hwD (dp_install_isolated_mode_ipip port_id IPPROTO_IPIP);
  if DP_FAILED ret then mret DP_ERROR
  else
    ret ← zoom hwD (dp_install_isolated_mode_ipip port_id IPPROTO_IPV6);
    if DP_FAILED ret then mret DP_ERROR else mret DP_OK.

Definition dp_hairpin_bind (port : dp_port) : cmd dev_state Z :=
  ret ← eth (HairpinBind (pt_peer_pf_port_id port) (pt_port_id port));
  if DP_FAILED ret then mret DP_ERROR
  else
    ret ← eth (HairpinBind (pt_port_id port) (pt_peer_pf_port_id port));
    if DP_FAILED ret then mret DP_ERROR else mret DP_OK.

Definition dp_port_bind_port_hairpins (p : nat) : cmd dev_state Z :=
  pf0 ← zoom portsD dp_get_pf0;
  if bool_decide (pf0 = Some p) then mret DP_OK
  else
    port ← port_of p;
    ret ← dp_hairpin_bind port;
    if DP_FAILED ret then mret DP_ERROR else mret DP_OK.

Definition dp_install_vf_init_rte_rules (p : nat) : cmd dev_state Z :=
  ret ← zoom porthwD (dp_install_jump_rule_in_default_group p DP_RTE_FLOW_VNET_GROUP);
  if DP_FAILED ret then mret DP_ERROR else mret DP_OK.

(** [assert(false)] ends the program. *)
Definition dp_init_port (p : nat) : cmd dev_state Z :=
  if bool_decide (cf_nic_type conf = DP_CONF_NIC_TYPE_TAP) then mret DP_OK
  else
    port ← port_of p;
    ret ← (if pt_is_pf port then dp_port_install_isolated_mode (pt_port_id port) else mret DP_OK);
    if DP_FAILED ret then mret DP_ERROR
    else if cf_offload_enabled conf then
      ret ← dp_port_bind_port_hairpins p;
      if DP_FAILED ret then mret DP_ERROR
      else if pt_is_pf port then mret DP_OK
      else
        ret ← dp_install_vf_init_rte_rules p;
        if DP_FAILED ret then fault else mret DP_OK
    else mret DP_OK.

Definition dp_start_port (p : nat) : cmd dev_state Z :=
  port ← port_of p;
  ret ← eth (DevStart (pt_port_id port));
  if DP_FAILED ret then mret ret
  else
    ret ← dp_init_port p;
    if DP_FAILED ret then dp_stop_eth_port (pt_port_id port);; mret ret
    else
      set_port p (λ port, port <| pt_link_status := RTE_ETH_LINK_UP |> <| pt_allocated := true |>);;
      mret DP_OK.

Definition dp_stop_port (p : nat) : cmd dev_state Z :=
  ret ← zoom porthwD (dp_destroy_default_flow p);
  if DP_FAILED ret then mret DP_ERROR
  else
    port ← port_of p;
    ret ← dp_stop_eth_port (pt_port_id port);
    if DP_FAILED ret then mret DP_ERROR
    else set_port p (λ port, port <| pt_allocated := false |>);; mret DP_OK.

(** [free] leaves no port that can be accessed. *)
Fixpoint stop_ports (ports : list dp_port) : cmd dev_state () :=
  match ports with
  | [] => mret tt
  | port :: ports =>
      (if pt_allocated port then dp_stop_eth_port (pt_port_id port);; mret tt else mret tt);;
      stop_ports ports
  end.

Definition dp_ports_free : cmd dev_state () :=
  ports ← zoom portsD (gets ps_ports);
  stop_ports ports;;
  zoom portsD (modify (λ st, st <| ps_ports := [] |>)).

(** [None] is a name that is not a device of this service. *)
Definition dp_get_port_by_name (pci_name : list Z) : cmd dev_state (option nat) :=
  if bool_decide (pci_name = []) then mret None
  else
    port_id ← eth_query (eth_port_by_name pci_name);
    match port_id with
    | None => mret None
    | Some port_id =>
        if DP_MAX_PORTS <=? port_id then mret None
        else zoom portsD (gets (λ st, ps_port_table st !! port_id))
    end.

(** ** Hairpins *)

Definition setup_hairpin_rx_tx_queues (port_id peer_port_id hairpin_queue_id peer_hairpin_queue_id : Z) :
    cmd dev_state Z :=
  ret ← eth (RxQueueInfo port_id);
  if DP_FAILED ret then mret DP_ERROR
  else
    ret ← eth (RxHairpinSetup port_id hairpin_queue_id peer_port_id peer_hairpin_queue_id);
    if DP_FAILED ret then mret DP_ERROR
    else
      ret ← eth (TxQueueInfo peer_port_id);
      if DP_FAILED ret then mret DP_ERROR
      else
        ret ← eth (TxHairpinSetup peer_port_id peer_hairpin_queue_id port_id hairpin_queue_id);
        if DP_FAILED ret then mret DP_ERROR else mret DP_OK.

Definition peer_hairpin_queue (is_pf : bool) (offset : Z) : Z :=
  u16 ((if is_pf then DP_NR_STD_TX_QUEUES else DP_NR_RESERVED_TX_QUEUES) - 1 + offset).

Definition dp_hairpin_setup (port : dp_port) : cmd dev_state Z :=
  let hairpin_queue_id := DP_NR_STD_RX_QUEUES in
  let peer_hairpin_queue_id := peer_hairpin_queue (pt_is_pf port) (pt_peer_pf_hairpin_offset port) in
  ret ← setup_hairpin_rx_tx_queues (pt_port_id port) (pt_peer_pf_port_id port)
          hairpin_queue_id peer_hairpin_queue_id;
  if DP_FAILED ret then mret DP_ERROR
  else if pt_is_pf port then mret DP_OK
  else
    ret ← setup_hairpin_rx_tx_queues (pt_peer_pf_port_id port) (pt_port_id port)
            peer_hairpin_queue_id hairpin_queue_id;
    if DP_FAILED ret then mret DP_ERROR else mret DP_OK.

(** [dp_get_pf0()->port_id] and the same for the other port. *)
Definition pf_port_id (get : cmd ports_state (option nat)) : cmd dev_state Z :=
  pf ← zoom portsD get;
  match pf with None => fault | Some p => port ← port_of p; mret (pt_port_id port) end.

(** The loop, at port [p] with [n] ports to go. *)
Fixpoint set_up_hairpins (n p : nat) : cmd dev_state Z :=
  match n with
  | O => mret DP_OK
  | S n =>
      port ← port_of p;
      (if pt_is_pf port then
         id0 ← pf_port_id dp_get_pf0;
         peer ← (if pt_port_id port =? id0 then pf_port_id dp_get_pf1 else mret id0);
         set_port p (λ port, port <| pt_peer_pf_port_id := peer |> <| pt_peer_pf_hairpin_offset := 1 |>)
       else mret tt);;
      port ← port_of p;
      ret ← dp_hairpin_setup port;
      if DP_FAILED ret then mret DP_ERROR else set_up_hairpins n (S p)
  end.

Definition dp_port_set_up_hairpins : cmd dev_state Z :=
  ports ← zoom portsD (gets ps_ports);
  set_up_hairpins (length ports) 0.

(** ** Initialization *)

(** A loop of queue set-ups, at queue [i] with [n] to go. *)
Fixpoint queue_setup (req : Z → eth_req) (n : nat) (i : Z) : cmd dev_state Z :=
  match n with
  | O => mret DP_OK
  | S n => ret ← eth (req i); if DP_FAILED ret then mret DP_ERROR else queue_setup req n (i + 1)
  end.

Definition nr_hairpin_queues (is_pf : bool) : Z :=
  if bool_decide (cf_nic_type conf = DP_CONF_NIC_TYPE_TAP) then 0
  else if is_pf then u16 (DP_NR_PF_HAIRPIN_RX_TX_QUEUES + DP_NR_VF_HAIRPIN_RX_TX_QUEUES * cf_num_of_vfs conf)
  else DP_NR_VF_HAIRPIN_RX_TX_QUEUES.

(** The offload flags and queue options taken from the device information are
    left out of the requests. *)
Definition dp_port_init_ethdev (p : nat) : cmd dev_state Z :=
  port ← port_of p;
  let port_id := pt_port_id port in
  let nr := nr_hairpin_queues (pt_is_pf port) in
  ret ← eth (DevConfigure port_id (DP_NR_STD_RX_QUEUES + nr) (DP_NR_STD_TX_QUEUES + nr));
  if DP_FAILED ret then mret DP_ERROR else
  ret ← queue_setup (λ i, RxQueueSetup port_id i (pt_socket_id port)) (Z.to_nat DP_NR_STD_RX_QUEUES) 0;
  if DP_FAILED ret then mret DP_ERROR else
  ret ← queue_setup (λ i, TxQueueSetup port_id i (pt_socket_id port)) (Z.to_nat DP_NR_STD_TX_QUEUES) 0;
  if DP_FAILED ret then mret DP_ERROR else
  ret ← (if pt_is_pf port then mret DP_OK else eth (PromiscuousEnable port_id));
  if DP_FAILED ret then mret DP_ERROR else
  ret ← dp_load_mac p;
  if DP_FAILED ret then mret DP_ERROR else
  name ← eth_query (eth_dev_name port_id);
  set_port p (λ port, port <| pt_dev_name := name |>);;
  if pt_is_pf port then
    port ← port_of p;
    mac ← eth_query (eth_pf_neigh_mac port_id (pt_own_mac port));
    match mac with
    | None => mret DP_ERROR
    | Some mac => set_port p (λ port, port <| pt_neigh_mac := mac |>);; mret DP_OK
    end
  else mret DP_OK.

Definition dp_port_flow_isolate (port_id : Z) : cmd dev_state Z := eth (FlowIsolate port_id).

(** [port = _dp_ports.end++] and what is stored in the new port; past the end
    of the array the access is undefined. *)
Definition new_port (port_id socket_id : Z) (is_pf : bool) : cmd dev_state nat := λ s,
  let ps := dv_ports s in
  let p := length (ps_ports ps) in
  if Z.of_nat p <? dv_ports_cap s then
    let port := zero_port <| pt_is_pf := is_pf |> <| pt_port_id := port_id |> <| pt_socket_id := socket_id |> in
    Some (p, s <| dv_ports := ps <| ps_ports := ps_ports ps ++ [port] |>
                                 <| ps_port_table := <[port_id := p]> (ps_port_table ps) |> |>)
  else None.

(** The hairpin queue of pf1 that a new VF gets. *)
Definition assign_hairpin (p : nat) : cmd dev_state bool :=
  pf1 ← pf_port_id dp_get_pf1;
  last ← gets dv_last_offset;
  set_port p (λ port, port <| pt_peer_pf_port_id := pf1 |> <| pt_peer_pf_hairpin_offset := u8 last |>);;
  modify (λ s, s <| dv_last_offset := last + 1 |>);;
  mret (negb (UINT8_MAX <? last + 1)).

Definition dp_port_init_interface (port_id : Z) (is_pf : bool) : cmd dev_state (option nat) :=
  if DP_MAX_PORTS <=? port_id then mret None else
  ret ← (if is_pf && negb (bool_decide (cf_nic_type conf = DP_CONF_NIC_TYPE_TAP))
         then dp_port_flow_isolate port_id else mret DP_OK);
  if DP_FAILED ret then mret None else
  socket_id ← eth_query (eth_socket_id port_id);
  if DP_FAILED socket_id && negb (socket_id =? SOCKET_ID_ANY) then mret None else
  p ← new_port port_id socket_id is_pf;
  ret ← dp_port_init_ethdev p;
  if DP_FAILED ret then mret None
  else if is_pf then
    ret ← zoom portsD (dp_port_register_pf p);
    if DP_FAILED ret then mret None else
    ret ← eth (CallbackRegister port_id);
    if DP_FAILED ret then mret None else mret (Some p)
  else if cf_offload_enabled conf then
    ok ← assign_hairpin p;
    if negb ok then mret None else mret (Some p)
  else mret (Some p).

(** [strstr]: whether [pat] occurs in [s]; [strncmp] over a name buffer; and
    [snprintf] of a name into one. *)
Fixpoint strstr (s pat : list Z) : bool :=
  bool_decide (take (length pat) s = pat) || match s with [] => false | _ :: s => strstr s pat end.
Definition same_name (a b : list Z) : bool :=
  bool_decide (take (Z.to_nat IF_NAMESIZE) a = take (Z.to_nat IF_NAMESIZE) b).
Definition name_buf (s : list Z) : list Z := take (Z.to_nat (IF_NAMESIZE - 1)) s.

Fixpoint init_pf (pf_name : list Z) (devs : list Z) : cmd dev_state Z :=
  match devs with
  | [] => mret DP_ERROR
  | port_id :: devs =>
      ifname ← eth_query (eth_ifname port_id);
      match ifname with
      | None => mret DP_ERROR
      | Some ifname =>
          if same_name pf_name ifname then
            p ← dp_port_init_interface port_id true;
            match p with None => mret DP_ERROR | Some _ => mret DP_OK end
          else init_pf pf_name devs
      end
  end.

Definition dp_port_init_pf (pf_name : list Z) : cmd dev_state Z :=
  devs ← eth_query eth_devs; init_pf pf_name devs.

(** The loop gives the number of VFs found, or [None] when it returns an error. *)
Fixpoint init_vfs (devs : list Z) (vf_count : Z) : cmd dev_state (option Z) :=
  match devs with
  | [] => mret (Some vf_count)
  | port_id :: devs =>
      ifname ← eth_query (eth_ifname port_id);
      match ifname with
      | None => mret None
      | Some ifname =>
          if strstr ifname (cf_vf_pattern conf) then
            if vf_count + 1 <=? cf_num_of_vfs conf then
              p ← dp_port_init_interface port_id false;
              match p with
              | None => mret None
              | Some p =>
                  set_port p (λ port, port <| pt_vf_name := name_buf ifname |>);;
                  init_vfs devs (vf_count + 1)
              end
            else init_vfs devs (vf_count + 1)
          else init_vfs devs vf_count
      end
  end.

Definition dp_port_init_vfs : cmd dev_state Z :=
  devs ← eth_query eth_devs;
  count ← init_vfs devs 0;
  match count with
  | None => mret DP_ERROR
  | Some vf_count =>
      if vf_count =? 0 then mret DP_ERROR
      else if vf_count <? cf_num_of_vfs conf then mret DP_ERROR else mret DP_OK
  end.

Definition dp_ports_init : cmd dev_state Z :=
  let num_of_ports := DP_MAX_PF_PORTS + cf_num_of_vfs conf in
  ret ← eth (PortsCalloc num_of_ports);
  if DP_FAILED ret then mret DP_ERROR else
  zoom portsD (modify (λ ps, ps <| ps_ports := [] |>));;
  modify (λ s, s <| dv_ports_cap := num_of_ports |>);;
  ret ← dp_port_init_pf (cf_pf0_name conf);
  if DP_FAILED ret then mret DP_ERROR else
  ret ← dp_port_init_pf (cf_pf1_name conf);
  if DP_FAILED ret then mret DP_ERROR else
  ret ← dp_port_init_vfs;
  if DP_FAILED ret then mret DP_ERROR
  else if cf_offload_enabled conf then
    ret ← dp_port_set_up_hairpins;
    if DP_FAILED ret then mret DP_ERROR else mret DP_OK
  else mret DP_OK.

(** ** Metering *)

Definition DP_METER_CIR_BASE_VALUE : Z := 1024 * 1024.
Definition DP_METER_EBS_BREAK_VALUE : Z := 100.
Definition DP_METER_MBITS_TO_BYTES : Z := 1024 * 1024 / 8.

Definition dp_srtcm_params_base : srtcm_params :=
  MkSrtcm (DP_METER_CIR_BASE_VALUE * 100 / 8) 4096 (DP_METER_EBS_BREAK_VALUE * DP_METER_MBITS_TO_BYTES).

(** "/sys/class/net/", "/device/sriov/" and "/max_tx_rate" *)
Definition DP_SYSFS_PREFIX_MLX_DEVICE : list Z := [47;115;121;115;47;99;108;97;115;115;47;110;101;116;47].
Definition DP_SYSFS_PREFIX_MLX_MAX_TX_RATE : list Z := [47;100;101;118;105;99;101;47;115;114;105;111;118;47].
Definition DP_SYSFS_SUFFIX_MLX_MAX_TX_RATE : list Z := [47;109;97;120;95;116;120;95;114;97;116;101].
Definition DP_SYSFS_MAX_PATH : Z := 256.

(** [vf_name + vf_pattern_len] has to stay inside the array, whose bytes after
    the name are zero. *)
Definition dp_set_vf_rate_limit (port_id rate : Z) : cmd dev_state Z :=
  p ← zoom portsD (dp_get_port_by_id port_id);
  match p with
  | None => mret DP_ERROR
  | Some p =>
      port ← port_of p;
      (if IF_NAMESIZE <=? Z.of_nat (length (cf_vf_pattern conf)) then fault else mret tt);;
      let filename := DP_SYSFS_PREFIX_MLX_DEVICE ++ cf_pf0_name conf ++ DP_SYSFS_PREFIX_MLX_MAX_TX_RATE
                        ++ drop (length (cf_vf_pattern conf)) (pt_vf_name port) ++ DP_SYSFS_SUFFIX_MLX_MAX_TX_RATE in
      if DP_SYSFS_MAX_PATH <=? Z.of_nat (length filename) then mret DP_ERROR
      else
        ret ← eth (SysfsAccess filename);
        if DP_FAILED ret then mret (- ENOENT)
        else
          ret ← eth (SysfsOpen filename);
          if DP_FAILED ret then mret DP_ERROR
          else eth (SysfsWrite filename rate);; mret DP_OK
  end.

Definition dp_port_total_flow_meter_config (p : nat) (total_flow_rate_cap : Z) : cmd dev_state Z :=
  port ← port_of p;
  dp_set_vf_rate_limit (pt_port_id port) total_flow_rate_cap.

Definition srtcm_params_for (public_flow_rate_cap : Z) : srtcm_params :=
  MkSrtcm (u64 (DP_METER_CIR_BASE_VALUE * (public_flow_rate_cap / 8))) (sp_cbs dp_srtcm_params_base)
    (if public_flow_rate_cap <? DP_METER_EBS_BREAK_VALUE
     then public_flow_rate_cap * DP_METER_MBITS_TO_BYTES else sp_ebs dp_srtcm_params_base).

Definition dp_port_public_flow_meter_config (p : nat) (public_flow_rate_cap : Z) : cmd dev_state Z :=
  if public_flow_rate_cap =? 0 then
    set_port p (λ port, port <| pt_srtcm_profile := None |>);; mret DP_OK
  else
    let params := srtcm_params_for public_flow_rate_cap in
    ret ← eth (MeterProfile params);
    if DP_FAILED ret then mret DP_ERROR
    else
      set_port p (λ port, port <| pt_srtcm_profile := Some params |>);;
      ret ← eth (MeterConfig params);
      if DP_FAILED ret then set_port p (λ port, port <| pt_srtcm_profile := None |>);; mret DP_ERROR
      else set_port p (λ port, port <| pt_srtcm := Some params |>);; mret DP_OK.

Definition set_total_cap (p : nat) (cap : Z) : cmd dev_state () :=
  set_port p (set_iface (λ i, i <| if_total_flow_rate_cap := cap |>)).
Definition set_public_cap (p : nat) (cap : Z) : cmd dev_state () :=
  set_port p (set_iface (λ i, i <| if_public_flow_rate_cap := cap |>)).

Definition dp_port_meter_config (p : nat) (total_flow_rate_cap public_flow_rate_cap : Z) : cmd dev_state Z :=
  if negb (bool_decide (cf_nic_type conf = DP_CONF_NIC_TYPE_MELLANOX)) then mret DP_OK
  else if total_flow_rate_cap <? public_flow_rate_cap then mret DP_ERROR
  else
    err ← dp_port_total_flow_meter_config p total_flow_rate_cap;
    if DP_FAILED err && negb (err =? - ENOENT) then mret DP_ERROR
    else
      (if DP_FAILED err then mret tt else set_total_cap p total_flow_rate_cap);;
      ret ← dp_port_public_flow_meter_config p public_flow_rate_cap;
      if DP_FAILED ret then
        ret ← dp_port_total_flow_meter_config p 0;
        if DP_FAILED ret then mret DP_ERROR
        else set_total_cap p 0;; mret DP_ERROR
      else set_public_cap p public_flow_rate_cap;; mret DP_OK.
End portctl.

(** ** Facts *)

Section portctl_facts.
Context `{HM : RteMalloc} `{HF : RteFlow} `{HE : RteEth} (conf : dp_conf).
Implicit Types (s : dev_state) (p : nat).

Global Instance portsD_ok : LensOk portsD.
Proof. split; [by intros ? []|by intros ? ? []|by intros []]. Qed.

(** *** Initialization *)

(** Of a port, what decides which hairpin queue it is given. *)
Definition core (port : dp_port) : bool * Z := (pt_is_pf port, pt_peer_pf_hairpin_offset port).
Definition cores s : list (bool * Z) := core <$> ps_ports (dv_ports s).

Definition vf_cores (vfs : nat) : list (bool * Z) :=
  (λ k : nat, (false, if cf_offload_enabled conf then Z.of_nat k else 0)) <$> seq 1 vfs.

(** [pfs] physical ports and [vfs] virtual functions are initialized. *)
Record progress (pfs vfs : nat) s : Prop := {
  pg_cores : cores s = replicate pfs (true, 0) ++ vf_cores vfs;
  pg_pfs : ps_pf_ports (dv_ports s) = seq 0 pfs;
  pg_cap : dv_ports_cap s = DP_MAX_PF_PORTS + cf_num_of_vfs conf;
  pg_last : dv_last_offset s = if cf_offload_enabled conf then 1 + Z.of_nat vfs else 1
}.

(** What setting up a device leaves alone. *)
Definition same_setup s s' : Prop :=
  cores s' = cores s ∧ ps_pf_ports (dv_ports s') = ps_pf_ports (dv_ports s)
  ∧ dv_ports_cap s' = dv_ports_cap s ∧ dv_last_offset s' = dv_last_offset s.

Global Instance same_setup_preorder : PreOrder same_setup.
Proof. split; [by intros s|]. intros s1 s2 s3 (?&?&?&?) (?&?&?&?). repeat split; congruence. Qed.

Lemma wp_eth r s (Q : Z → dev_state → Prop) :
  (∀ ret s', same_setup s s' → dv_ports s' = dv_ports s → dv_hw s' = dv_hw s →
             ed_log (dv_eth s') = ed_log (dv_eth s) ++ [r] → Q ret s') → wp (eth r) Q s.
Proof. intros HQ. unfold wp, eth, zoom. simpl. by apply HQ. Qed.

Lemma wp_eth_query {A} (f : eth_state → A) s (Q : A → dev_state → Prop) :
  Q (f (ed_st (dv_eth s))) s → wp (eth_query f) Q s.
Proof. unfold wp, eth_query, zoom. by destruct s. Qed.

Lemma core_insert (ports : list dp_port) p f port :
  ports !! p = Some port → core (f port) = core port → core <$> <[p := f port]> ports = core <$> ports.
Proof.
  intros Hp Hf. rewrite list_fmap_insert, Hf. apply list_insert_id. by rewrite list_lookup_fmap, Hp.
Qed.

Lemma cores_lookup s p c : cores s !! p = Some c → ∃ port, ps_ports (dv_ports s) !! p = Some port ∧ core port = c.
Proof. unfold cores. rewrite list_lookup_fmap. destruct (_ !! p) eqn:E; naive_solver. Qed.

Lemma same_setup_lookup s s' p c : same_setup s s' → cores s !! p = Some c → cores s' !! p = Some c.
Proof. intros (Hc & _). by rewrite Hc. Qed.

Lemma wp_port_of s p c (Q : dp_port → dev_state → Prop) :
  cores s !! p = Some c → (∀ port, core port = c → Q port s) → wp (port_of p) Q s.
Proof.
  intros (port & Hp & Hc)%cores_lookup HQ. apply wp_zoom. eapply wp_get_port; [done|].
  rewrite lput_lget. by apply HQ.
Qed.

Lemma wp_set_port_core s p c f (Q : () → dev_state → Prop) :
  cores s !! p = Some c → (∀ port, core (f port) = core port) →
  (∀ s', same_setup s s' → Q tt s') → wp (set_port p f) Q s.
Proof.
  intros (port & Hp & Hc)%cores_lookup Hf HQ. apply wp_zoom. eapply wp_upd_port; [done|]. apply HQ.
  repeat split. unfold cores. simpl. by apply core_insert.
Qed.

Lemma wp_load_mac s p c (Q : Z → dev_state → Prop) :
  cores s !! p = Some c → (∀ ret s', same_setup s s' → Q ret s') → wp (dp_load_mac p) Q s.
Proof.
  intros Hp HQ. unfold dp_load_mac. apply wp_bind. eapply wp_port_of; [done|]. intros port Hc.
  apply wp_bind, wp_eth_query, wp_bind. wp_if.
  - wp_steps. by apply HQ.
  - eapply wp_set_port_core; [done|done|]. intros s' Hs'. wp_steps. by apply HQ.
Qed.

Lemma wp_queue_setup req n i s (Q : Z → dev_state → Prop) :
  (∀ ret s', same_setup s s' → Q ret s') → wp (queue_setup req n i) Q s.
Proof.
  revert i s. induction n as [|n IH]; intros i s HQ; simpl.
  { apply wp_ret. by apply HQ. }
  apply wp_bind, wp_eth. intros ret s' Hs' _ _ _. wp_if; [apply wp_ret; by apply HQ|].
  apply IH. intros ret' s'' Hs''. apply HQ. by etrans.
Qed.

Lemma wp_init_ethdev s p c (Q : Z → dev_state → Prop) :
  cores s !! p = Some c → (∀ ret s', same_setup s s' → Q ret s') → wp (dp_port_init_ethdev conf p) Q s.
Proof.
  intros Hp HQ. unfold dp_port_init_ethdev. apply wp_bind. eapply wp_port_of; [done|]. intros port Hc.
  apply wp_bind, wp_eth. intros ? s1 H1 _ _ _. wp_if; [apply wp_ret; by apply HQ|].
  apply wp_bind, wp_queue_setup. intros ? s2 H2. wp_if; [apply wp_ret, HQ; by etrans|].
  apply wp_bind, wp_queue_setup. intros ? s3 H3.
  assert (H03 : same_setup s s3) by (do 2 (etrans; [eassumption|]); done). clear H1 H2 H3.
  wp_if; [by apply wp_ret, HQ|].
  apply wp_bind. apply (wp_mono _ (λ _ s4, same_setup s s4)).
  { destruct (pt_is_pf port); [by apply wp_ret|]. apply wp_eth. intros. by etrans. }
  intros ? s4 H4. wp_if; [by apply wp_ret, HQ|].
  apply wp_bind. eapply wp_load_mac; [by eapply same_setup_lookup|]. intros ? s5 H5.
  assert (H05 : same_setup s s5) by (by etrans). wp_if; [by apply wp_ret, HQ|].
  apply wp_bind, wp_eth_query, wp_bind.
  eapply wp_set_port_core; [by eapply same_setup_lookup|done|]. intros s6 H6.
  assert (H06 : same_setup s s6) by (etrans; [exact H05|exact H6]).
  destruct (pt_is_pf port); [|by apply wp_ret, HQ].
  apply wp_bind. eapply wp_port_of; [by eapply same_setup_lookup|]. intros port' _. apply wp_bind, wp_eth_query.
  destruct (eth_pf_neigh_mac _ _ _); [|by apply wp_ret, HQ]. apply wp_bind.
  eapply wp_set_port_core; [by eapply same_setup_lookup|done|]. intros s7 H7. apply wp_ret, HQ.
  etrans; [exact H06|exact H7].
Qed.

Definition with_new s (c : bool * Z) s' : Prop :=
  cores s' = cores s ++ [c] ∧ ps_pf_ports (dv_ports s') = ps_pf_ports (dv_ports s)
  ∧ dv_ports_cap s' = dv_ports_cap s ∧ dv_last_offset s' = dv_last_offset s.

Lemma with_new_setup s c s1 s2 : with_new s c s1 → same_setup s1 s2 → with_new s c s2.
Proof. intros (?&?&?&?) (?&?&?&?). repeat split; congruence. Qed.

Lemma with_new_lookup s c s' : with_new s c s' → cores s' !! length (cores s) = Some c.
Proof. intros (-> & _). by rewrite lookup_app_r, Nat.sub_diag by lia. Qed.

Lemma wp_new_port s port_id socket_id is_pf (Q : nat → dev_state → Prop) :
  Z.of_nat (length (cores s)) < dv_ports_cap s →
  (∀ s', with_new s (is_pf, 0) s' → Q (length (cores s)) s') →
  wp (new_port port_id socket_id is_pf) Q s.
Proof.
  unfold cores. rewrite length_fmap. intros Hlt HQ. unfold wp, new_port.
  rewrite (proj2 (Z.ltb_lt _ _) Hlt). apply HQ. repeat split. unfold cores. simpl. by rewrite fmap_app.
Qed.

(** The device is set up; what remains depends on the kind of the port. *)
Lemma wp_init_interface s port_id is_pf (Q : option nat → dev_state → Prop) :
  Z.of_nat (length (cores s)) < dv_ports_cap s →
  (∀ s', Q None s') →
  (∀ s', with_new s (is_pf, 0) s' →
     wp (let p := length (cores s) in
         if is_pf then
           ret ← zoom portsD (dp_port_register_pf p);
           if DP_FAILED ret then mret None else
           ret ← eth (CallbackRegister port_id);
           if DP_FAILED ret then mret None else mret (Some p)
         else if cf_offload_enabled conf then
           ok ← assign_hairpin p;
           if negb ok then mret None else mret (Some p)
         else mret (Some p)) Q s') →
  wp (dp_port_init_interface conf port_id is_pf) Q s.
Proof.
  intros Hlt Hn Hs. unfold dp_port_init_interface. wp_if; [by apply wp_ret|].
  apply wp_bind, (wp_mono _ (λ _, same_setup s)).
  { wp_if; [|by apply wp_ret]. apply wp_eth. by intros. }
  intros ? s1 H1. wp_if; [by apply wp_ret|]. apply wp_bind, wp_eth_query. wp_if; [by apply wp_ret|].
  pose proof H1 as (Hc1 & _ & Hcap1 & _).
  apply wp_bind, wp_new_port; [by rewrite Hc1, Hcap1|]. intros s2 H2. rewrite Hc1.
  assert (H02 : with_new s (is_pf, 0) s2).
  { destruct H1 as (?&?&?&?), H2 as (?&?&?&?). repeat split; congruence. }
  apply wp_bind. eapply wp_init_ethdev; [by apply with_new_lookup in H02|]. intros ? s3 H3.
  wp_if; [by apply wp_ret|]. apply Hs. by eapply with_new_setup.
Qed.

Lemma progress_length pfs vfs s : progress pfs vfs s → length (cores s) = (pfs + vfs)%nat.
Proof. intros H. rewrite (pg_cores _ _ _ H). unfold vf_cores. by rewrite length_app, length_replicate, length_fmap, length_seq. Qed.

Lemma wp_init_interface_pf s pfs port_id (Q : option nat → dev_state → Prop) :
  progress pfs 0 s → (pfs < 2)%nat → 0 ≤ cf_num_of_vfs conf →
  (∀ s', Q None s') → (∀ p s', progress (S pfs) 0 s' → Q (Some p) s') →
  wp (dp_port_init_interface conf port_id true) Q s.
Proof.
  intros Hpg Hlt Hv Hn Hs. pose proof (progress_length _ _ _ Hpg) as Hlen. destruct Hpg as [Hc Hp Hcap Hl].
  apply wp_init_interface; [rewrite Hcap, Hlen; unfold DP_MAX_PF_PORTS; lia|done|].
  intros s1 (Hc1 & Hp1 & Hcap1 & Hl1). cbv zeta. apply wp_bind, wp_zoom. unfold wp, dp_port_register_pf.
  cbn [lget portsD]. rewrite Hp1, Hp, length_seq. rewrite (proj2 (Z.ltb_lt _ _)) by (unfold DP_MAX_PF_PORTS; lia).
  apply wp_bind, wp_eth. intros ? s2 (Hc2 & Hp2 & Hcap2 & Hl2) _ _ _. wp_if; [by apply wp_ret|]. apply wp_ret, Hs.
  constructor.
  - etrans; [exact Hc2|]. etrans; [exact Hc1|]. rewrite Hc. simpl. by rewrite !app_nil_r, <-replicate_S_end.
  - etrans; [exact Hp2|]. rewrite seq_S, Hlen, Nat.add_0_r. done.
  - by rewrite Hcap2; cbn; rewrite Hcap1.
  - by rewrite Hl2; cbn; rewrite Hl1.
Qed.

Lemma wp_pf_port_id s get i q c (Q : Z → dev_state → Prop) :
  get = (gets (λ st, ps_pf_ports st !! i) : cmd ports_state (option nat)) →
  ps_pf_ports (dv_ports s) !! i = Some q → cores s !! q = Some c →
  (∀ id, Q id s) → wp (pf_port_id get) Q s.
Proof.
  intros -> Hi Hq HQ. unfold pf_port_id. apply wp_bind, wp_zoom, wp_gets. rewrite lput_lget. cbn [lget portsD].
  rewrite Hi. apply wp_bind. eapply wp_port_of; [done|]. intros port _. by apply wp_ret.
Qed.

Lemma vf_cores_S n : vf_cores (S n) = vf_cores n ++ [(false, if cf_offload_enabled conf then Z.of_nat (S n) else 0)].
Proof. unfold vf_cores. by rewrite seq_S, fmap_app. Qed.

Lemma wp_assign_hairpin s p b o (Q : bool → dev_state → Prop) :
  ps_pf_ports (dv_ports s) = seq 0 2 → (2 ≤ p)%nat → cores s !! p = Some (b, o) → 0 ≤ dv_last_offset s < 255 →
  (∀ s', cores s' = <[p := (b, dv_last_offset s)]> (cores s) → ps_pf_ports (dv_ports s') = seq 0 2 →
         dv_ports_cap s' = dv_ports_cap s → dv_last_offset s' = dv_last_offset s + 1 → Q true s') →
  wp (assign_hairpin p) Q s.
Proof.
  intros Hpf H2 Hp Hl HQ. unfold assign_hairpin.
  destruct (lookup_lt_is_Some_2 (cores s) 1) as [c1 Hc1]; [apply lookup_lt_Some in Hp; lia|].
  apply wp_bind. eapply (wp_pf_port_id s _ 1); [done|by rewrite Hpf|done|]. intros id.
  apply wp_bind, wp_gets, wp_bind, wp_zoom.
  apply cores_lookup in Hp as (port & Hp & Hcore). eapply wp_upd_port; [done|].
  apply wp_bind, wp_modify, wp_ret. unfold UINT8_MAX. rewrite (proj2 (Z.ltb_ge _ _)) by lia. apply HQ; try done.
  unfold cores. cbn. rewrite list_fmap_insert. f_equal. unfold core in *. cbn. injection Hcore as -> _.
  f_equal. unfold u8. rewrite Z.mod_small; [done|lia].
Qed.

Lemma wp_init_interface_vf s vfs port_id (Q : option nat → dev_state → Prop) :
  progress 2 vfs s → Z.of_nat vfs < cf_num_of_vfs conf → cf_num_of_vfs conf ≤ DP_MAX_VF_PORTS →
  (∀ s', Q None s') → (∀ s', progress 2 (S vfs) s' → Q (Some (2 + vfs)%nat) s') →
  wp (dp_port_init_interface conf port_id false) Q s.
Proof.
  intros Hpg Hlt Hmax Hn Hs. unfold DP_MAX_VF_PORTS in Hmax.
  pose proof (progress_length _ _ _ Hpg) as Hlen. destruct Hpg as [Hc Hp Hcap Hl].
  apply wp_init_interface; [rewrite Hcap, Hlen; unfold DP_MAX_PF_PORTS; lia|done|].
  intros s1 Hnew. pose proof (with_new_lookup _ _ _ Hnew) as Hlk. destruct Hnew as (Hc1 & Hp1 & Hcap1 & Hl1).
  cbv zeta. rewrite Hlen in *. destruct (cf_offload_enabled conf) eqn:Hoff.
  - apply wp_bind. eapply wp_assign_hairpin; [by rewrite Hp1|lia|done|lia|].
    intros s2 Hc2 Hp2 Hcap2 Hl2. apply wp_ret, Hs. constructor; [|done|congruence|rewrite Hoff; lia].
    rewrite Hc2, Hc1, insert_app_r_alt by lia. rewrite Hlen, Nat.sub_diag, Hc, vf_cores_S, Hoff, <-app_assoc.
    simpl. repeat f_equal. lia.
  - apply wp_ret, Hs. constructor; [|congruence|congruence|rewrite Hoff; congruence].
    by rewrite Hc1, Hc, vf_cores_S, Hoff, <-app_assoc.
Qed.

Lemma wp_init_pf s pfs name devs (Q : Z → dev_state → Prop) :
  progress pfs 0 s → (pfs < 2)%nat → 0 ≤ cf_num_of_vfs conf →
  (∀ s', Q DP_ERROR s') → (∀ s', progress (S pfs) 0 s' → Q DP_OK s') → wp (init_pf conf name devs) Q s.
Proof.
  intros Hpg Hlt Hv He Hs. induction devs as [|d devs IH]; simpl; [by apply wp_ret|].
  apply wp_bind, wp_eth_query. destruct (eth_ifname _ _); [|by apply wp_ret]. wp_if; [|done].
  apply wp_bind. eapply wp_init_interface_pf; [done..| |]; intros; apply wp_ret; auto.
Qed.

(** The loop over the devices; [vfs] is [vf_count] up to the number of VFs. *)
Lemma wp_init_vfs devs s vfs count (Q : option Z → dev_state → Prop) :
  progress 2 vfs s → cf_num_of_vfs conf ≤ DP_MAX_VF_PORTS → Z.of_nat vfs = Z.min count (cf_num_of_vfs conf) →
  (∀ s', Q None s') →
  (∀ s' vfs' count', progress 2 vfs' s' → Z.of_nat vfs' = Z.min count' (cf_num_of_vfs conf) → Q (Some count') s') →
  wp (init_vfs conf devs count) Q s.
Proof.
  intros Hpg Hmax. revert s vfs count Hpg. induction devs as [|d devs IH]; intros s vfs count Hpg Hv Hn Hs; simpl.
  { apply wp_ret. by eapply Hs. }
  apply wp_bind, wp_eth_query. destruct (eth_ifname _ _); [|by apply wp_ret]. wp_if; [|by eapply IH].
  wp_if; [|eapply IH; [done| |done|done]; zbool; lia].
  zbool. apply wp_bind. eapply wp_init_interface_vf; [done|lia|done|intros; by apply wp_ret|].
  intros s1 H1. apply wp_bind. destruct (lookup_lt_is_Some_2 (cores s1) (2 + vfs)) as [c Hc].
  { rewrite (progress_length _ _ _ H1). lia. }
  eapply wp_set_port_core; [exact Hc|done|]. intros s2 (Hc2 & Hp2 & Hcap2 & Hl2).
  eapply (IH s2 (S vfs)); [|lia|done|done]. destruct H1. constructor; congruence.
Qed.

Lemma wp_setup_queues a b c d s (Q : Z → dev_state → Prop) :
  (∀ ret s', ret = DP_ERROR ∨ ret = DP_OK → same_setup s s' → Q ret s') → wp (setup_hairpin_rx_tx_queues a b c d) Q s.
Proof.
  intros HQ. unfold setup_hairpin_rx_tx_queues.
  apply wp_bind, wp_eth. intros ? s1 H1 _ _ _. wp_if; [apply wp_ret, HQ; auto|].
  apply wp_bind, wp_eth. intros ? s2 H2 _ _ _. assert (H02 : same_setup s s2) by (by etrans).
  wp_if; [apply wp_ret, HQ; auto|].
  apply wp_bind, wp_eth. intros ? s3 H3 _ _ _. assert (H03 : same_setup s s3) by (etrans; [exact H02|done]).
  wp_if; [apply wp_ret, HQ; auto|].
  apply wp_bind, wp_eth. intros ? s4 H4 _ _ _. assert (H04 : same_setup s s4) by (etrans; [exact H03|done]).
  wp_if; apply wp_ret, HQ; auto.
Qed.

Lemma wp_hairpin_setup port s (Q : Z → dev_state → Prop) :
  (∀ ret s', ret = DP_ERROR ∨ ret = DP_OK → same_setup s s' → Q ret s') → wp (dp_hairpin_setup port) Q s.
Proof.
  intros HQ. unfold dp_hairpin_setup. apply wp_bind, wp_setup_queues. intros ret s1 Hret H1.
  wp_if; [apply wp_ret, HQ; auto|]. destruct (pt_is_pf port); [apply wp_ret, HQ; auto|].
  apply wp_bind, wp_setup_queues. intros ? s2 _ H2. assert (H02 : same_setup s s2) by (by etrans).
  wp_if; apply wp_ret, HQ; auto.
Qed.

(** The physical ports are given their own queue, the first one. *)
Definition paired (c : bool * Z) : bool * Z := if c.1 then (true, 1) else c.

Lemma wp_set_up_hairpins n p s (Q : Z → dev_state → Prop) :
  (p + n)%nat = length (cores s) → (2 ≤ length (cores s))%nat → ps_pf_ports (dv_ports s) = seq 0 2 →
  (∀ s', Q DP_ERROR s') →
  (∀ s', cores s' = take p (cores s) ++ (paired <$> drop p (cores s)) →
         ps_pf_ports (dv_ports s') = seq 0 2 → Q DP_OK s') →
  wp (set_up_hairpins n p) Q s.
Proof.
  revert p s. induction n as [|n IH]; intros p s Hlen H2 Hpf He Hs; simpl.
  { apply wp_ret, Hs; [|done]. by rewrite take_ge, drop_ge, app_nil_r by lia. }
  destruct (lookup_lt_is_Some_2 (cores s) p) as [c Hc]; [lia|].
  apply wp_bind. eapply wp_port_of; [done|]. intros port Hport. apply wp_bind.
  apply (wp_mono _ (λ _ s1, cores s1 = <[p := paired c]> (cores s) ∧ ps_pf_ports (dv_ports s1) = seq 0 2)).
  { destruct (lookup_lt_is_Some_2 (cores s) 0) as [c0 Hc0]; [lia|].
    destruct (lookup_lt_is_Some_2 (cores s) 1) as [c1 Hc1]; [lia|].
    destruct (pt_is_pf port) eqn:Hb; subst c; unfold paired; simpl; rewrite Hb; last first.
    { apply wp_ret. split; [|done]. symmetry. by apply list_insert_id. }
    apply wp_bind. eapply (wp_pf_port_id s _ 0); [done|by rewrite Hpf|done|]. intros id0.
    apply wp_bind, (wp_mono _ (λ _ s1, s1 = s)).
    { wp_if; [|by apply wp_ret]. eapply (wp_pf_port_id s _ 1); [done|by rewrite Hpf|done|done]. }
    intros id1 ? ->. apply cores_lookup in Hc as (port' & Hp' & Hcore). apply wp_zoom.
    eapply wp_upd_port; [done|]. split; [|done]. unfold cores. cbn. rewrite list_fmap_insert. f_equal.
    unfold core in *. cbn. congruence. }
  intros [] s1 [H1 Hpf1]. assert (Hc1 : cores s1 !! p = Some (paired c)).
  { rewrite H1. apply list_lookup_insert_eq. lia. }
  apply wp_bind. eapply wp_port_of; [done|]. intros port1 _. apply wp_bind, wp_hairpin_setup.
  intros ret s2 _ (Hc2 & Hpf2 & _). wp_if; [by apply wp_ret|].
  apply IH; [rewrite Hc2, H1, length_insert; lia|rewrite Hc2, H1, length_insert; lia|congruence|done|].
  intros s3 Hc3 Hpf3. apply Hs; [|done]. rewrite Hc3, Hc2, H1. rewrite drop_insert_lt by lia.
  rewrite (take_S_r _ _ (paired c)) by (apply list_lookup_insert_eq; lia).
  rewrite take_insert_ge by lia. rewrite (drop_S (cores s) c p Hc). simpl. by rewrite <-app_assoc.
Qed.

Lemma paired_vf_cores n : paired <$> vf_cores n = vf_cores n.
Proof. unfold vf_cores. rewrite <-list_fmap_compose. done. Qed.

(** The queues of the second physical port that the first one and the virtual
    functions are bound to. *)
Definition pf1_queues (cs : list (bool * Z)) : list Z :=
  (λ c, peer_hairpin_queue c.1 c.2) <$> delete 1%nat cs.

Definition ports_ready s : Prop :=
  cores s = replicate 2 (true, if cf_offload_enabled conf then 1 else 0) ++ vf_cores (Z.to_nat (cf_num_of_vfs conf))
  ∧ ps_pf_ports (dv_ports s) = [0; 1]%nat.

Lemma pf1_queues_ready n :
  cf_offload_enabled conf = true → Z.of_nat n ≤ DP_MAX_VF_PORTS →
  pf1_queues (replicate 2 (true, 1) ++ vf_cores n) = Z.of_nat <$> seq 1 (S n).
Proof.
  intros Hoff Hn. unfold DP_MAX_VF_PORTS in Hn. unfold pf1_queues, vf_cores. rewrite Hoff. simpl. f_equal.
  rewrite <-list_fmap_compose, <-(fmap_S_seq 1), <-list_fmap_compose. apply list_fmap_ext. intros i k Hk.
  apply lookup_seq in Hk as [-> Hk]. simpl. unfold peer_hairpin_queue, u16, DP_NR_RESERVED_TX_QUEUES,
    DP_NR_STD_TX_QUEUES, DP_NR_PF_HAIRPIN_RX_TX_QUEUES. rewrite Z.mod_small by lia. lia.
Qed.

(** Setting up the ports never writes past the array of ports nor follows a
    missing pointer to a physical port, whatever the devices answer.  When it
    succeeds there are the two physical ports and exactly the configured number of
    virtual functions; with offloading, the hairpin queues of the second physical
    port they are bound to are pairwise different and among those it was
    configured with. *)
Theorem ports_init_spec s :
  ps_pf_ports (dv_ports s) = [] → dv_last_offset s = 1 → 1 ≤ cf_num_of_vfs conf ≤ DP_MAX_VF_PORTS →
  wp (dp_ports_init conf)
    (λ ret s', ret = DP_ERROR
       ∨ (ret = DP_OK ∧ ports_ready s'
          ∧ (cf_offload_enabled conf = true → cf_nic_type conf ≠ DP_CONF_NIC_TYPE_TAP →
             NoDup (pf1_queues (cores s'))
             ∧ Forall (λ q, DP_NR_STD_TX_QUEUES <= q < DP_NR_STD_TX_QUEUES + nr_hairpin_queues conf true)
                 (pf1_queues (cores s'))))) s.
Proof.
  intros Hpf Hl Hn. unfold dp_ports_init. cbv zeta.
  apply wp_bind, wp_eth. intros ? s1 (_ & Hpf1 & _ & Hl1) _ _ _. wp_if; [apply wp_ret; by left|].
  apply wp_bind, wp_zoom, wp_modify, wp_bind, wp_modify, wp_bind.
  apply wp_bind, wp_eth_query. eapply (wp_init_pf _ 0); [|lia|lia|..].
  { constructor; [done|cbn; congruence|done|]. cbn. rewrite Hl1, Hl. by destruct (cf_offload_enabled conf). }
  { intros s2. apply wp_ret. by left. }
  intros s2 H2. cbn match. apply wp_bind. apply wp_bind, wp_eth_query. eapply wp_init_pf; [done|lia|lia|..].
  { intros s3. apply wp_ret. by left. }
  intros s3 H3. cbn match. apply wp_bind. apply wp_bind, wp_eth_query, wp_bind.
  eapply (wp_init_vfs _ _ 0); [done|lia|lia|..].
  { intros s4. apply wp_ret. apply wp_ret. by left. }
  intros s4 vfs count H4 Hcount. wp_if; [apply wp_ret; apply wp_ret; by left|].
  wp_if; [apply wp_ret; apply wp_ret; by left|]. zbool. apply wp_ret. cbn match.
  assert (vfs = Z.to_nat (cf_num_of_vfs conf)) as -> by lia. clear Hcount.
  pose proof (progress_length _ _ _ H4) as Hlen4. destruct H4 as [Hc4 Hp4 _ _].
  destruct (cf_offload_enabled conf) eqn:Hoff; last first.
  { apply wp_ret. right. unfold ports_ready. rewrite Hoff. done. }
  apply wp_bind. unfold dp_port_set_up_hairpins. apply wp_bind, wp_zoom, wp_gets. rewrite lput_lget.
  apply wp_set_up_hairpins; [unfold cores; by rewrite length_fmap|lia|done|intros; apply wp_ret; by left|].
  intros s5 Hc5 Hp5. apply wp_ret. right. split; [done|].
  assert (Hr : cores s5 = replicate 2 (true, 1) ++ vf_cores (Z.to_nat (cf_num_of_vfs conf))).
  { rewrite Hc5, Hc4. change (take 0 _) with (@nil (bool * Z)). rewrite drop_0, fmap_app, paired_vf_cores. done. }
  split; [by unfold ports_ready; rewrite Hoff|]. intros _ Hnic.
  unfold DP_MAX_VF_PORTS in Hn. rewrite Hr, pf1_queues_ready; [|done|unfold DP_MAX_VF_PORTS; lia]. split.
  { apply (NoDup_fmap_2 _). apply NoDup_seq. }
  apply Forall_fmap, Forall_seq. intros k Hk. unfold nr_hairpin_queues. rewrite bool_decide_eq_false_2 by done.
  simpl. unfold u16, DP_NR_STD_TX_QUEUES, DP_NR_PF_HAIRPIN_RX_TX_QUEUES, DP_NR_VF_HAIRPIN_RX_TX_QUEUES.
  rewrite Z.mod_small by lia. lia.
Qed.

(** *** Starting a port *)

(** What [dp_install_rte_flow] can do to the rules, whether pointers are fresh or
    not. *)
Lemma install_cases h port_id attr pattern actions (Q : option loc → hw_state → Prop) :
  (∀ x, Q None (MkHw (hw_rules h) x)) →
  (∀ f x, Q (Some f) (MkHw (<[f := MkFlowRule port_id attr pattern actions]> (hw_rules h)) x)) →
  wp (dp_install_rte_flow port_id attr pattern actions) Q h.
Proof.
  intros Hn Hs. unfold wp, dp_install_rte_flow. destruct (DP_FAILED _); [destruct h; apply Hn|].
  destruct (rte_flow_create _ _ _) as [[f|] x]; simpl; [apply Hs|apply Hn].
Qed.

Lemma wp_isolated_mode s port_id (Q : Z → dev_state → Prop) :
  (∀ ret s', ret = DP_OK ∨ ret = DP_ERROR → dv_ports s' = dv_ports s → dv_eth s' = dv_eth s → Q ret s') →
  wp (dp_port_install_isolated_mode port_id) Q s.
Proof.
  intros HQ. unfold dp_port_install_isolated_mode.
  assert (Hone : ∀ proto s0 (R : Z → dev_state → Prop),
    (∀ ret s', ret = DP_OK ∨ ret = DP_ERROR → dv_ports s' = dv_ports s0 → dv_eth s' = dv_eth s0 → R ret s') →
    wp (zoom hwD (dp_install_isolated_mode_ipip port_id proto)) R s0).
  { intros proto s0 R HR. apply wp_zoom. unfold dp_install_isolated_mode_ipip. cbv zeta. apply wp_bind, install_cases;
      intros; apply wp_ret, HR; auto. }
  apply wp_bind, Hone. intros r1 s1 [-> | ->] Hp1 He1; cbn; [|apply HQ; auto].
  apply wp_bind, Hone. intros r2 s2 [-> | ->] Hp2 He2; cbn; apply HQ; auto; congruence.
Qed.

Lemma wp_hairpin_bind s port (Q : Z → dev_state → Prop) :
  (∀ ret s', ret = DP_OK ∨ ret = DP_ERROR → dv_ports s' = dv_ports s → dv_hw s' = dv_hw s → Q ret s') →
  wp (dp_hairpin_bind port) Q s.
Proof.
  intros HQ. unfold dp_hairpin_bind. apply wp_bind, wp_eth. intros ? s1 _ Hp1 Hh1 _. wp_if; [apply wp_ret, HQ; auto|].
  apply wp_bind, wp_eth. intros ? s2 _ Hp2 Hh2 _. wp_if; apply wp_ret, HQ; auto; congruence.
Qed.

Lemma wp_bind_hairpins s p port (Q : Z → dev_state → Prop) :
  ps_ports (dv_ports s) !! p = Some port →
  (∀ ret s', ret = DP_OK ∨ ret = DP_ERROR → dv_ports s' = dv_ports s → dv_hw s' = dv_hw s → Q ret s') →
  wp (dp_port_bind_port_hairpins p) Q s.
Proof.
  intros Hp HQ. unfold dp_port_bind_port_hairpins. apply wp_bind, wp_zoom, wp_gets. rewrite lput_lget.
  wp_if; [apply wp_ret, HQ; auto|]. apply wp_bind, wp_zoom. eapply wp_get_port; [done|]. rewrite lput_lget.
  apply wp_bind, wp_hairpin_bind. intros ret s' [-> | ->] ? ?; apply HQ; auto.
Qed.

Lemma wpf_init_port s p port :
  ps_ports (dv_ports s) !! p = Some port →
  wpf (pt_is_pf port = false ∧ cf_offload_enabled conf = true ∧ cf_nic_type conf ≠ DP_CONF_NIC_TYPE_TAP)
    (dp_init_port conf p)
    (λ ret s', (ret = DP_ERROR ∧ dv_ports s' = dv_ports s)
       ∨ (ret = DP_OK ∧ dv_ports s' = dv_ports s
          ∧ (pt_is_pf port = true ∨ cf_offload_enabled conf = false ∨ cf_nic_type conf = DP_CONF_NIC_TYPE_TAP))
       ∨ (ret = DP_OK ∧ pt_is_pf port = false ∧ ∃ j r, hw_rules (dv_hw s') = <[j := r]> (hw_rules (dv_hw s))
          ∧ dv_ports s' = upd_ports (dv_ports s) p (with_jump j) port)) s.
Proof.
  intros Hp. unfold dp_init_port. case_bool_decide as Hnic; [apply wpf_ret; auto 10|].
  apply wpf_bind, wpf_wp, wp_zoom. eapply wp_get_port; [done|]. rewrite lput_lget.
  apply wpf_bind, wpf_wp.
  apply (wp_mono _ (λ ret s1, (ret = DP_OK ∨ ret = DP_ERROR) ∧ dv_ports s1 = dv_ports s
                              ∧ (pt_is_pf port = false → s1 = s))).
  { destruct (pt_is_pf port); [|apply wp_ret; auto]. apply wp_isolated_mode. naive_solver. }
  intros ret s1 ([-> | ->] & Hp1 & Hs1); cbn; [|by apply wpf_ret; left].
  destruct (cf_offload_enabled conf); [|apply wpf_ret; auto 10].
  apply wpf_bind, wpf_wp. eapply wp_bind_hairpins; [by rewrite Hp1|].
  intros ret s2 [-> | ->] Hp2 Hh2; cbn; [|apply wpf_ret; left; split; [done|congruence]].
  destruct (pt_is_pf port) eqn:Hpf; [apply wpf_ret; right; left; split; [done|]; split; [congruence|auto]|].
  rewrite (Hs1 eq_refl) in *. apply wpf_bind, wpf_wp. unfold dp_install_vf_init_rte_rules.
  apply wp_bind, wp_zoom. unfold dp_install_jump_rule_in_default_group. apply wp_bind, wp_zoom.
  cbn [lget lput fstL sndL porthwD fst snd]. eapply wp_get_port; [by rewrite Hp2|]. cbn [lput fstL fst snd].
  apply wp_bind, wp_zoom. cbn [lget lput sndL fst snd]. apply install_cases.
  { intros x. change (DP_FAILED DP_ERROR) with true. by unfold wp, wpf; cbn. }
  intros j x. apply wp_bind, wp_zoom. cbn [lget lput fstL fst snd]. eapply wp_upd_port; [by rewrite Hp2|].
  unfold wp, wpf. cbn. right; right. split; [done|]. split; [done|]. eexists j, _. rewrite Hh2, Hp2. done.
Qed.

Definition start_vf_rule port : Prop :=
  pt_is_pf port = false ∧ cf_offload_enabled conf = true ∧ cf_nic_type conf ≠ DP_CONF_NIC_TYPE_TAP.

Lemma wpf_start_port s p port :
  ps_ports (dv_ports s) !! p = Some port →
  wpf (start_vf_rule port) (dp_start_port conf p)
    (λ ret s',
       (ret = DP_OK ∧ ∃ port', ps_ports (dv_ports s') !! p = Some port'
          ∧ pt_allocated port' = true ∧ pt_link_status port' = RTE_ETH_LINK_UP
          ∧ pt_default_capture_flow port' = pt_default_capture_flow port
          ∧ (start_vf_rule port → ∃ j r, pt_default_jump_flow port' = Some j
                                       ∧ hw_rules (dv_hw s') = <[j := r]> (hw_rules (dv_hw s))))
       ∨ (DP_FAILED ret = true ∧ dv_ports s' = dv_ports s
          ∧ (ed_log (dv_eth s') = ed_log (dv_eth s) ++ [DevStart (pt_port_id port)]
             ∨ last (ed_log (dv_eth s')) = Some (DevStop (pt_port_id port))))) s.
Proof.
  intros Hp. unfold dp_start_port. apply wpf_bind, wpf_wp, wp_zoom. eapply wp_get_port; [done|]. rewrite lput_lget.
  apply wpf_bind, wpf_wp, wp_eth. intros ret s1 _ Hp1 Hh1 Hl1.
  destruct (DP_FAILED ret) eqn:Hret; [by apply wpf_ret; auto|].
  apply wpf_bind. eapply wpf_mono; [apply wpf_init_port; by rewrite Hp1|]. cbn beta.
  intros ret2 s2 [[-> Hp2]|[(-> & Hp2 & Hno)|(-> & Hvf & j & r & Hr & Hp2)]]; cbn match.
  - apply wpf_bind, wpf_wp, wp_eth. intros ? s3 _ Hp3 _ Hl3. apply wpf_ret. right. split; [done|].
    split; [congruence|]. right. by rewrite Hl3, last_snoc.
  - apply wpf_bind, wpf_wp, wp_zoom. cbn [lget portsD]. eapply wp_upd_port; [by rewrite Hp2, Hp1|].
    apply wpf_ret. left. split; [done|]. eexists. cbn. split.
    { apply list_lookup_insert_eq. rewrite Hp2, Hp1. by eapply lookup_lt_Some. }
    do 3 (split; [done|]). intros (? & ? & ?). destruct Hno as [?|[?|?]]; congruence.
  - apply wpf_bind, wpf_wp, wp_zoom. cbn [lget portsD]. rewrite Hp1 in Hp2.
    eapply wp_upd_port; [rewrite Hp2; by apply upd_ports_lookup|]. apply wpf_ret. left. split; [done|]. eexists.
    cbn. split.
    { apply list_lookup_insert_eq. rewrite Hp2. cbn. rewrite length_insert. by eapply lookup_lt_Some. }
    do 3 (split; [done|]). intros _. exists j, r. split; [done|]. by rewrite Hr, Hh1.
Qed.

(** Starting a port has three outcomes.  It succeeds, and the port is allocated
    with its link up; it fails, the port is as it was and the device is stopped
    again if it had been started; or the process ends because the default rule
    of a virtual function cannot be installed, which needs offloading. *)
Theorem start_port_spec s p port :
  ps_ports (dv_ports s) !! p = Some port →
  wpf (start_vf_rule port)
    (dp_start_port conf p)
    (λ ret s',
       (ret = DP_OK ∧ ∃ port', ps_ports (dv_ports s') !! p = Some port'
          ∧ pt_allocated port' = true ∧ pt_link_status port' = RTE_ETH_LINK_UP)
       ∨ (DP_FAILED ret = true ∧ dv_ports s' = dv_ports s
          ∧ (ed_log (dv_eth s') = ed_log (dv_eth s) ++ [DevStart (pt_port_id port)]
             ∨ last (ed_log (dv_eth s')) = Some (DevStop (pt_port_id port))))) s.
Proof.
  intros Hp. eapply wpf_mono; [by apply wpf_start_port|]. cbn beta. intros ret s' [(-> & port' & H)|H]; [left|by right].
  split; [done|]. exists port'. naive_solver.
Qed.

(** *** Stopping and restarting *)

Lemma wpf_destroy_flow flow st h (Q : bool → port_hw → Prop) :
  (∀ h', Q false (st, h')) →
  (∀ x, (∀ f, flow = Some f → is_Some (hw_rules h !! f)) →
        Q true (st, MkHw (from_option delete id flow (hw_rules h)) x)) →
  wpf True (destroy_flow flow) Q (st, h).
Proof.
  intros Hf Hs. destruct flow as [f|]; simpl.
  - unfold wpf, destroy_flow, mbind, cmd_bind, zoom, hw_destroy. cbn. destruct (hw_rules h !! f) eqn:E; [|done].
    destruct (rte_flow_destroy _ _) as [ret x]. cbn. destruct (DP_FAILED ret); [apply Hf|].
    apply Hs. intros f' [= <-]. by rewrite E.
  - apply wpf_ret. destruct h as [rules x]. apply (Hs x). done.
Qed.

Lemma wpf_stop_port s p port (Q : Z → dev_state → Prop) :
  ps_ports (dv_ports s) !! p = Some port →
  (∀ s', Q DP_ERROR s') →
  (∀ s', (∀ c, pt_default_capture_flow port = Some c →
            is_Some (from_option delete id (pt_default_jump_flow port) (hw_rules (dv_hw s)) !! c)
            ∧ hw_rules (dv_hw s') !! c = None) →
         dv_ports s' = upd_ports (dv_ports s) p (λ port, port <| pt_allocated := false |>) port → Q DP_OK s') →
  wpf True (dp_stop_port p) Q s.
Proof.
  intros Hp He Hs. unfold dp_stop_port. apply wpf_bind, wpf_zoom. unfold dp_destroy_default_flow.
  apply wpf_bind, wpf_wp, wp_zoom. cbn [lget lput fstL porthwD fst snd]. eapply wp_get_port; [done|].
  apply wpf_bind, wpf_destroy_flow; [intros h1; apply wpf_ret, wpf_ret, He|]. intros x1 _. cbn [negb].
  apply wpf_bind, wpf_destroy_flow; [intros h2; apply wpf_ret, wpf_ret, He|]. intros x2 Hcap. cbn [negb].
  apply wpf_ret. cbn match. apply wpf_bind, wpf_wp, wp_zoom. eapply wp_get_port; [done|]. rewrite lput_lget.
  apply wpf_bind, wpf_wp, wp_eth. intros ret s1 _ Hp1 Hh1 _. destruct (DP_FAILED ret); [by apply wpf_ret|].
  apply wpf_bind, wpf_wp, wp_zoom. cbn [lget portsD]. eapply wp_upd_port; [by rewrite Hp1|]. apply wpf_ret, Hs.
  - intros c Hc. split; [by apply Hcap|]. cbn. rewrite Hh1. cbn. rewrite Hc. cbn. apply lookup_delete_eq.
  - cbn. by rewrite Hp1.
Qed.

(** A virtual function that was stopped while captured and then started
    again cannot be stopped: its pointer to the destroyed capture rule is still
    there, so the second stop either fails or destroys a rule that does not
    exist any more. *)
Theorem captured_restart s p port c s1 s2 :
  ps_ports (dv_ports s) !! p = Some port → pt_is_pf port = false → pt_default_capture_flow port = Some c →
  cf_offload_enabled conf = true → cf_nic_type conf ≠ DP_CONF_NIC_TYPE_TAP →
  dp_stop_port p s = Some (DP_OK, s1) → dp_start_port conf p s1 = Some (DP_OK, s2) →
  wpf True (dp_stop_port p) (λ ret _, ret = DP_ERROR) s2.
Proof.
  intros Hp Hvf Hc Hoff Hnic Hstop Hstart.
  assert (H1 : hw_rules (dv_hw s1) !! c = None
               ∧ dv_ports s1 = upd_ports (dv_ports s) p (λ port, port <| pt_allocated := false |>) port).
  { pose proof (wpf_stop_port s p port (λ ret s', ret = DP_OK → hw_rules (dv_hw s') !! c = None
      ∧ dv_ports s' = upd_ports (dv_ports s) p (λ port, port <| pt_allocated := false |>) port) Hp) as Hw.
    unfold wpf in Hw. rewrite Hstop in Hw. apply Hw; [done| |done]. intros s' Hs' Hps _. split; [by apply Hs'|done]. }
  destruct H1 as [Hc1 Hps1].
  set (port1 := port <| pt_allocated := false |>).
  assert (Hp1 : ps_ports (dv_ports s1) !! p = Some port1) by (rewrite Hps1; by apply upd_ports_lookup).
  assert (H2 : ∃ port2 j r, ps_ports (dv_ports s2) !! p = Some port2 ∧ pt_default_capture_flow port2 = Some c
                 ∧ pt_default_jump_flow port2 = Some j ∧ hw_rules (dv_hw s2) = <[j := r]> (hw_rules (dv_hw s1))).
  { pose proof (wpf_start_port s1 p port1 Hp1) as Hw. unfold wpf in Hw. rewrite Hstart in Hw.
    destruct Hw as [(_ & port2 & Hp2 & _ & _ & Hc2 & Hj)|(Hf & _)]; [|done].
    destruct Hj as (j & r & Hj & Hr); [done|]. exists port2, j, r. repeat split; [done| |done|done]. by rewrite Hc2. }
  destruct H2 as (port2 & j & r & Hp2 & Hc2 & Hj2 & Hr2).
  eapply wpf_stop_port; [done|done|]. intros s3 Hs3 _. exfalso. destruct (Hs3 c Hc2) as [[r' Hr'] _].
  rewrite Hj2, Hr2 in Hr'. cbn in Hr'. destruct (decide (j = c)) as [->|Hne].
  - by rewrite lookup_delete_eq in Hr'.
  - rewrite lookup_delete_ne, lookup_insert_ne in Hr' by done. congruence.
Qed.

(** *** Metering *)

(** The port [p], which is also what its id leads to. *)
Definition port_is s p port : Prop :=
  ps_ports (dv_ports s) !! p = Some port ∧ ps_port_table (dv_ports s) !! pt_port_id port = Some p
  ∧ pt_port_id port < DP_MAX_PORTS.

Lemma port_is_same s s' p port : dv_ports s' = dv_ports s → port_is s p port → port_is s' p port.
Proof. unfold port_is. by intros ->. Qed.

Lemma wp_set_port_is s p port f (Q : () → dev_state → Prop) :
  port_is s p port → pt_port_id (f port) = pt_port_id port →
  (∀ s', port_is s' p (f port) → Q tt s') → wp (set_port p f) Q s.
Proof.
  intros (Hp & Ht & Hlt) Hf HQ. apply wp_zoom. eapply wp_upd_port; [done|]. apply HQ. split; [|by rewrite Hf].
  cbn. apply list_lookup_insert_eq. by eapply lookup_lt_Some.
Qed.

Lemma wp_set_vf_rate_limit s p port rate (Q : Z → dev_state → Prop) :
  port_is s p port → Z.of_nat (length (cf_vf_pattern conf)) < IF_NAMESIZE →
  (∀ ret s', ret = DP_OK ∨ ret = DP_ERROR ∨ ret = - ENOENT → dv_ports s' = dv_ports s → Q ret s') →
  wp (dp_port_total_flow_meter_config conf p rate) Q s.
Proof.
  intros (Hp & Ht & Hlt) Hlen HQ. unfold dp_port_total_flow_meter_config, dp_set_vf_rate_limit.
  apply wp_bind, wp_zoom. eapply wp_get_port; [done|]. rewrite lput_lget. apply wp_bind, wp_zoom.
  unfold dp_get_port_by_id. rewrite (proj2 (Z.leb_gt _ _) Hlt). apply wp_gets. rewrite lput_lget. cbn [lget portsD].
  rewrite Ht. apply wp_bind, wp_zoom. eapply wp_get_port; [done|]. rewrite lput_lget.
  rewrite (proj2 (Z.leb_gt _ _) Hlen). apply wp_bind, wp_ret. cbv zeta. wp_if; [apply wp_ret, HQ; auto|].
  apply wp_bind, wp_eth. intros ? s1 _ Hp1 _ _. wp_if; [apply wp_ret, HQ; auto|].
  apply wp_bind, wp_eth. intros ? s2 _ Hp2 _ _. wp_if; [apply wp_ret, HQ; [auto|congruence]|].
  apply wp_bind, wp_eth. intros ? s3 _ Hp3 _ _. apply wp_ret, HQ; [auto|congruence].
Qed.

Definition profile_for (cap : Z) : option srtcm_params := if cap =? 0 then None else Some (srtcm_params_for cap).

(** The caps of [port'] are those of [port]. *)
Definition same_caps (port port' : dp_port) : Prop := pt_iface port' = pt_iface port.

Lemma wp_public_flow_meter s p port cap (Q : Z → dev_state → Prop) :
  port_is s p port →
  (∀ s' port', port_is s' p port' → same_caps port port' → Q DP_ERROR s') →
  (∀ s' port', port_is s' p port' → same_caps port port' → pt_srtcm_profile port' = profile_for cap → Q DP_OK s') →
  wp (dp_port_public_flow_meter_config p cap) Q s.
Proof.
  intros Hp He Hs. unfold dp_port_public_flow_meter_config, profile_for in *. destruct (cap =? 0).
  { apply wp_bind. eapply wp_set_port_is; [done|done|]. intros s1 H1. apply wp_ret. by eapply Hs. }
  apply wp_bind, wp_eth. intros ? s1 _ H1 _ _. apply (port_is_same s s1) in Hp; [|done].
  wp_if; [apply wp_ret; by eapply He|]. apply wp_bind. eapply wp_set_port_is; [done|done|]. intros s2 H2.
  apply wp_bind, wp_eth. intros ? s3 _ H3 _ _. apply (port_is_same s2 s3) in H2; [|done]. wp_if.
  - apply wp_bind. eapply wp_set_port_is; [done|done|]. intros s4 H4. apply wp_ret. by eapply He.
  - apply wp_bind. eapply wp_set_port_is; [done|done|]. intros s4 H4. apply wp_ret. by eapply Hs.
Qed.

Definition total_cap (port : dp_port) : Z := if_total_flow_rate_cap (pt_iface port).
Definition public_cap (port : dp_port) : Z := if_public_flow_rate_cap (pt_iface port).

(** On the metered NIC, a cap is only accepted when the public rate does not
    exceed the total one.  On success the port records the public cap and the
    profile computed from it, and the total cap unless the kernel has no file
    for it; on an error the recorded public cap stays as it was. *)
Theorem meter_config_spec s p port total public :
  cf_nic_type conf = DP_CONF_NIC_TYPE_MELLANOX → Z.of_nat (length (cf_vf_pattern conf)) < IF_NAMESIZE →
  port_is s p port →
  wp (dp_port_meter_config conf p total public)
    (λ ret s', ∃ port', port_is s' p port'
       ∧ ((ret = DP_OK ∧ public ≤ total ∧ public_cap port' = public ∧ pt_srtcm_profile port' = profile_for public
           ∧ (total_cap port' = total ∨ total_cap port' = total_cap port))
          ∨ (ret = DP_ERROR ∧ public_cap port' = public_cap port
             ∧ (total < public → s' = s)
             ∧ (total_cap port' = total_cap port ∨ total_cap port' = total ∨ total_cap port' = 0)))) s.
Proof.
  intros Hnic Hlen Hp. unfold dp_port_meter_config. rewrite bool_decide_eq_true_2 by done. cbn [negb].
  wp_if; [apply wp_ret; exists port; auto 10|]. zbool. apply wp_bind.
  eapply wp_set_vf_rate_limit; [done|done|]. intros err s1 Herr Hp1. apply (port_is_same s s1) in Hp; [|done].
  wp_if; [apply wp_ret; exists port; split; [done|right; repeat split; auto; lia]|].
  apply wp_bind.
  apply (wp_mono _ (λ _ s2, ∃ port2, port_is s2 p port2 ∧ public_cap port2 = public_cap port
                                    ∧ (total_cap port2 = total ∨ total_cap port2 = total_cap port))).
  { wp_if; [apply wp_ret; eauto|]. eapply wp_set_port_is; [done|done|]. intros s2 H2. eauto. }
  intros [] s2 (port2 & H2 & Hpub & Htot). apply wp_bind. eapply wp_public_flow_meter; [done|..].
  - intros s3 port3 H3 Hc3. cbn match. apply wp_bind. eapply wp_set_vf_rate_limit; [done|done|].
    intros err2 s4 _ Hp4. apply (port_is_same s3 s4) in H3; [|done]. unfold public_cap, total_cap, same_caps in *.
    wp_if.
    + apply wp_ret. exists port3. rewrite Hc3. split; [done|]. right. repeat split; [done|lia|naive_solver].
    + apply wp_bind. eapply wp_set_port_is; [done|done|]. intros s5 H5. apply wp_ret. eexists. split; [done|].
      right. cbn. rewrite Hc3. repeat split; [done|lia|auto].
  - intros s3 port3 H3 Hc3 Hprof. cbn match. apply wp_bind. eapply wp_set_port_is; [done|done|]. intros s4 H4.
    apply wp_ret. eexists. split; [done|]. left. unfold total_cap, same_caps in *. cbn. rewrite Hc3. auto.
Qed.

(** The committed rate given to the meter is the cap rounded down to a
    multiple of 8 Mbit/s: it never exceeds the cap, but a cap below 8 Mbit/s
    gives a rate of zero. *)
Theorem srtcm_cir_truncates cap :
  0 ≤ cap < 2 ^ 47 →
  8 * sp_cir (srtcm_params_for cap) ≤ cap * DP_METER_CIR_BASE_VALUE
  ∧ cap * DP_METER_CIR_BASE_VALUE - 8 * sp_cir (srtcm_params_for cap) < 8 * DP_METER_CIR_BASE_VALUE
  ∧ (cap < 8 → sp_cir (srtcm_params_for cap) = 0).
Proof.
  intros Hcap. unfold srtcm_params_for, DP_METER_CIR_BASE_VALUE, u64. cbn [sp_cir].
  change (2 ^ 47) with 140737488355328 in Hcap.
  rewrite Z.mod_small by (Z.div_mod_to_equations; lia). Z.div_mod_to_equations. lia.
Qed.
End portctl_facts.

(** ** Concrete runs *)

(** Every request succeeds; there are two physical ports and one virtual
    function, named "a", "b" and "v0". *)
Definition test_eth : RteEth := {|
  eth_state := unit;
  eth_call _ st := (0, st);
  eth_devs _ := [0; 1; 2];
  eth_ifname id _ := if id =? 0 then Some [97] else if id =? 1 then Some [98] else Some [118; 48];
  eth_socket_id _ _ := 0;
  eth_mac id _ := (0, 1000 + id);
  eth_dev_name id _ := [48 + id];
  eth_pf_neigh_mac _ _ _ := Some 2000;
  eth_port_by_name _ _ := None
|}.

Section portctl_examples.
#[local] Existing Instances test_malloc test_rteflow test_rteflow_ok test_eth.

Definition ex_conf : dp_conf := MkConf DP_CONF_NIC_TYPE_MELLANOX true 9 [97] [98] [118] 1.
Definition ex_dev_eth : eth_dev := MkEthDev (tt : @eth_state test_eth) [].
Definition ex_dev_empty : dev_state := MkDev (MkPorts [] ∅ [] (Heap (H := test_malloc) ∅ [])) (MkHw ∅ []) ex_dev_eth 0 1.

Lemma ports_init_spec_witness :
  ps_pf_ports (dv_ports ex_dev_empty) = [] ∧
  wp (dp_ports_init ex_conf)
    (λ ret s', ret = DP_ERROR
       ∨ (ret = DP_OK ∧ ports_ready ex_conf s'
          ∧ (cf_offload_enabled ex_conf = true → cf_nic_type ex_conf ≠ DP_CONF_NIC_TYPE_TAP →
             NoDup (pf1_queues (cores s'))
             ∧ Forall (λ q, DP_NR_STD_TX_QUEUES <= q < DP_NR_STD_TX_QUEUES + nr_hairpin_queues ex_conf true)
                 (pf1_queues (cores s'))))) ex_dev_empty.
Proof.
  split; [reflexivity|]. apply (ports_init_spec ex_conf ex_dev_empty); [reflexivity..|].
  unfold DP_MAX_VF_PORTS. simpl. lia.
Defined.

(** The run above does succeed. *)
Example ports_init_run : option_map fst (dp_ports_init ex_conf ex_dev_empty) = Some DP_OK.
Proof. vm_compute. reflexivity. Qed.

(** A captured virtual function beside the first physical port. *)
Definition ex_port_vf : dp_port :=
  zero_port <| pt_port_id := 1 |> <| pt_allocated := true |> <| pt_captured := true |>
    <| pt_default_jump_flow := Some 1%positive |> <| pt_default_capture_flow := Some 2%positive |>.
Definition ex_dev_captured : dev_state :=
  MkDev (MkPorts [ex_cap_pf; ex_port_vf] {[0 := 0%nat; 1 := 1%nat]} [0%nat] (Heap (H := test_malloc) ∅ []))
    (MkHw (list_to_map [(1%positive, jump_rule 1 DP_RTE_FLOW_CAPTURE_GROUP);
                        (2%positive, capture_rule 9 ex_cap_cfg 1 ex_cap_pf)]) []) ex_dev_eth 3 2.
Definition ex_dev_stopped : dev_state := from_option snd ex_dev_empty (dp_stop_port 1 ex_dev_captured).
Definition ex_dev_restarted : dev_state := from_option snd ex_dev_empty (dp_start_port ex_conf 1 ex_dev_stopped).

Lemma start_port_spec_witness :
  ps_ports (dv_ports ex_dev_captured) !! 0%nat = Some ex_cap_pf ∧
  wpf (start_vf_rule ex_conf ex_cap_pf) (dp_start_port ex_conf 0)
    (λ ret s',
       (ret = DP_OK ∧ ∃ port', ps_ports (dv_ports s') !! 0%nat = Some port'
          ∧ pt_allocated port' = true ∧ pt_link_status port' = RTE_ETH_LINK_UP)
       ∨ (DP_FAILED ret = true ∧ dv_ports s' = dv_ports ex_dev_captured
          ∧ (ed_log (dv_eth s') = ed_log (dv_eth ex_dev_captured) ++ [DevStart (pt_port_id ex_cap_pf)]
             ∨ last (ed_log (dv_eth s')) = Some (DevStop (pt_port_id ex_cap_pf))))) ex_dev_captured.
Proof.
  split; [reflexivity|]. apply (start_port_spec ex_conf ex_dev_captured 0 ex_cap_pf). reflexivity.
Defined.

Lemma captured_restart_witness :
  dp_stop_port 1 ex_dev_captured = Some (DP_OK, ex_dev_stopped)
  ∧ dp_start_port ex_conf 1 ex_dev_stopped = Some (DP_OK, ex_dev_restarted)
  ∧ dp_stop_port 1 ex_dev_restarted = None
  ∧ wpf True (dp_stop_port 1) (λ ret _, ret = DP_ERROR) ex_dev_restarted.
Proof.
  split; [vm_compute; reflexivity|]. split; [vm_compute; reflexivity|]. split; [vm_compute; reflexivity|].
  apply (captured_restart ex_conf ex_dev_captured 1 ex_port_vf 2%positive ex_dev_stopped ex_dev_restarted);
    [reflexivity..|discriminate|vm_compute; reflexivity|vm_compute; reflexivity].
Defined.

Lemma meter_config_spec_witness :
  port_is ex_dev_captured 1 ex_port_vf ∧
  wp (dp_port_meter_config ex_conf 1 100 40)
    (λ ret s', ∃ port', port_is s' 1 port'
       ∧ ((ret = DP_OK ∧ 40 ≤ 100 ∧ public_cap port' = 40 ∧ pt_srtcm_profile port' = profile_for 40
           ∧ (total_cap port' = 100 ∨ total_cap port' = total_cap ex_port_vf))
          ∨ (ret = DP_ERROR ∧ public_cap port' = public_cap ex_port_vf
             ∧ (100 < 40 → s' = ex_dev_captured)
             ∧ (total_cap port' = total_cap ex_port_vf ∨ total_cap port' = 100 ∨ total_cap port' = 0))))
    ex_dev_captured.
Proof.
  assert (Hp : port_is ex_dev_captured 1 ex_port_vf) by (repeat split; reflexivity).
  split; [exact Hp|]. apply (meter_config_spec ex_conf ex_dev_captured 1 ex_port_vf 100 40); [reflexivity|reflexivity|exact Hp].
Defined.

Lemma srtcm_cir_truncates_witness :
  8 * sp_cir (srtcm_params_for 7) ≤ 7 * DP_METER_CIR_BASE_VALUE
  ∧ 7 * DP_METER_CIR_BASE_VALUE - 8 * sp_cir (srtcm_params_for 7) < 8 * DP_METER_CIR_BASE_VALUE
  ∧ (7 < 8 → sp_cir (srtcm_params_for 7) = 0).
Proof. apply (srtcm_cir_truncates 7). lia. Defined.
End portctl_examples.
