(* ===== verification/Firewall.v ===== *)
(** * Firewall (src/dp_firewall.c)

    Rules are kept per interface in the order they were added.  The first
    section has the operations as the code performs them, on the rule heap and
    the linked lists; then come the invariant that each live rule is in exactly
    one list, the effect of the operations on the sequence of rules of a port,
    and the decision for a packet against its declarative description. *)

From S2P Require Import Prelude Dpdk Error Types Responder Port.

Definition DP_FWALL_MATCH_ANY_PORT : Z := 4294967295.
Definition DP_FWALL_MATCH_ANY_ICMP_TYPE : Z := 4294967295.
Definition DP_FWALL_MATCH_ANY_ICMP_CODE : Z := 4294967295.
Definition DP_FWALL_MATCH_ANY_PROTOCOL : Z := 0.

(** ** Matching one rule *)

Definition dp_apply_ipv6_mask (addr mask : Z) : Z :=
  of_bytes ((λ i, Z.land (byte_of i addr) (byte_of i mask)) <$> seqZ 0 16).

(** Whether the comparison of addresses and ports is reached ([None]), or what
    is returned before it. *)
Definition rule_switch (rule : dp_fwall_rule) (df : dp_flow) : option bool :=
  let proto := fr_protocol rule in
  let any := proto =? DP_FWALL_MATCH_ANY_PROTOCOL in
  if df_l4_type df =? IPPROTO_TCP then
    if negb (proto =? IPPROTO_TCP) && negb any then Some false else None
  else if df_l4_type df =? IPPROTO_UDP then
    if negb (proto =? IPPROTO_UDP) && negb any then Some false else None
  else if (df_l4_type df =? IPPROTO_ICMP) || (df_l4_type df =? IPPROTO_ICMPV6) then
    if negb (proto =? IPPROTO_ICMP) && negb any then Some false
    else
      let protocol := if df_l3_type df =? RTE_ETHER_TYPE_IPV6 then IPPROTO_ICMP
                      else df_l4_type df in
      if ((fr_icmp_type rule =? DP_FWALL_MATCH_ANY_ICMP_TYPE)
          || (df_icmp_type df =? fr_icmp_type rule))
         && ((fr_icmp_code rule =? DP_FWALL_MATCH_ANY_ICMP_CODE)
             || (df_icmp_code df =? fr_icmp_code rule))
         && (any || (proto =? protocol))
      then Some true else None
  else Some false.

(** The comparison of the addresses under the rule's masks. *)
Definition rule_addresses (rule : dp_fwall_rule) (df : dp_flow) : bool :=
  let dest_ip := ntohl (df_dst_addr df) in
  let src_ip := ntohl (df_src_addr df) in
  let r_dest_ip := ipv4 (fr_dest_ip rule) in
  let r_src_ip := ipv4 (fr_src_ip rule) in
  let src_mask4 := word32_of 0 (fr_src_mask rule) in
  let dest_mask4 := word32_of 0 (fr_dest_mask rule) in
  if df_l3_type df =? RTE_ETHER_TYPE_IPV4 then
    (Z.land src_ip src_mask4 =? Z.land r_src_ip src_mask4)
    && (Z.land dest_ip dest_mask4 =? Z.land r_dest_ip dest_mask4)
  else if df_l3_type df =? RTE_ETHER_TYPE_IPV6 then
    (dp_apply_ipv6_mask (df_src_addr6 df) (fr_src_mask rule)
     =? dp_apply_ipv6_mask (ipv6 (fr_src_ip rule)) (fr_src_mask rule))
    && (dp_apply_ipv6_mask (df_dst_addr6 df) (fr_dest_mask rule)
        =? dp_apply_ipv6_mask (ipv6 (fr_dest_ip rule)) (fr_dest_mask rule))
  else false.

Definition dp_is_rule_matching (rule : dp_fwall_rule) (df : dp_flow) : bool :=
  let src_type := if is_v6 (fr_src_ip rule) then RTE_ETHER_TYPE_IPV6 else RTE_ETHER_TYPE_IPV4 in
  let dest_type := if is_v6 (fr_dest_ip rule) then RTE_ETHER_TYPE_IPV6 else RTE_ETHER_TYPE_IPV4 in
  let l3 := df_l3_type df in
  (* [protocol] as the switch leaves it *)
  let protocol :=
    if ((df_l4_type df =? IPPROTO_ICMP) || (df_l4_type df =? IPPROTO_ICMPV6))
       && (l3 =? RTE_ETHER_TYPE_IPV6)
    then IPPROTO_ICMP else df_l4_type df in
  if negb (src_type =? l3) && negb (dest_type =? l3) then false
  else
    match rule_switch rule df with
    | Some b => b
    | None =>
        if negb (rule_addresses rule df) then false
        else
          let src_port := ntohs (df_trans_src_port df) in
          let dest_port := ntohs (df_trans_dst_port df) in
          ((fr_src_port_lower rule =? DP_FWALL_MATCH_ANY_PORT)
           || ((fr_src_port_lower rule <=? src_port) && (src_port <=? fr_src_port_upper rule)))
          && ((fr_dst_port_lower rule =? DP_FWALL_MATCH_ANY_PORT)
              || ((fr_dst_port_lower rule <=? dest_port) && (dest_port <=? fr_dst_port_upper rule)))
          && ((fr_protocol rule =? DP_FWALL_MATCH_ANY_PROTOCOL) || (fr_protocol rule =? protocol))
    end.

(** ** Rule lists *)

Section firewall.
Context `{HM : RteMalloc}.
Implicit Types (st : ports_state) (p : nat) (l : loc).

Definition rule_load l : cmd ports_state dp_fwall_rule := λ st,
  match objs (ps_rules st) !! l with Some r => Some (r, st) | None => None end.

Definition rule_malloc (r : dp_fwall_rule) : cmd ports_state (option loc) := λ st,
  let h := ps_rules st in
  let '(op, ms) := rte_malloc (mst h) (dom (objs h)) in
  match op with
  | Some l => Some (Some l, st <| ps_rules := Heap (<[l := r]> (objs h)) ms |>)
  | None => Some (None, st <| ps_rules := Heap (objs h) ms |>)
  end.

Definition rule_free l : cmd ports_state () := λ st,
  let h := ps_rules st in
  match objs h !! l with
  | Some _ => Some (tt, st <| ps_rules := Heap (delete l (objs h)) (mst h) |>)
  | None => None
  end.

Definition set_fwall_head (h : dp_fwall_head) : dp_port → dp_port :=
  set_iface (λ i, i <| if_fwall_head := h |>).

Definition fwall_head p : cmd ports_state dp_fwall_head :=
  port ← get_port p; mret (if_fwall_head (pt_iface port)).

(** [TAILQ_INSERT_TAIL] writes through [tqh_last]. *)
Definition tailq_insert_tail p l : cmd ports_state () :=
  head ← fwall_head p;
  if fh_inited head then upd_port p (set_fwall_head (MkFwallHead (fh_rules head ++ [l]) true))
  else fault.

Definition tailq_remove p l : cmd ports_state () :=
  head ← fwall_head p;
  upd_port p (set_fwall_head (MkFwallHead (filter (λ l', l' ≠ l) (fh_rules head)) (fh_inited head))).

Definition dp_init_firewall_rules p : cmd ports_state () :=
  upd_port p (set_fwall_head (MkFwallHead [] true)).

Definition dp_add_firewall_rule (new_rule : dp_fwall_rule) p : cmd ports_state Z :=
  rule ← rule_malloc new_rule;
  match rule with
  | None => mret DP_ERROR
  | Some l => tailq_insert_tail p l;; mret DP_OK
  end.

(** The first rule with the id, walking the list. *)
Fixpoint find_rule_id (rule_id : list Z) (ls : list loc) : cmd ports_state (option loc) :=
  match ls with
  | [] => mret None
  | l :: ls =>
      rule ← rule_load l;
      if decide (fr_rule_id rule = rule_id) then mret (Some l) else find_rule_id rule_id ls
  end.

Definition dp_delete_firewall_rule (rule_id : list Z) p : cmd ports_state Z :=
  head ← fwall_head p;
  found ← find_rule_id rule_id (fh_rules head);
  match found with
  | Some l => tailq_remove p l;; rule_free l;; mret DP_OK
  | None => mret DP_ERROR
  end.

Definition dp_get_firewall_rule (rule_id : list Z) p : cmd ports_state (option loc) :=
  head ← fwall_head p;
  find_rule_id rule_id (fh_rules head).

Fixpoint load_rules (ls : list loc) : cmd ports_state (list dp_fwall_rule) :=
  match ls with
  | [] => mret []
  | l :: ls => rule ← rule_load l; rules ← load_rules ls; mret (rule :: rules)
  end.

(** The rules are read while the replies are written; nothing else changes the
    port state meanwhile. *)
Definition dp_list_firewall_rules `{RteMempool} (sizeof_reply : Z) p st :
    cmd (dp_grpc_responder dp_fwall_rule) Z :=
  match (head ← fwall_head p; load_rules (fh_rules head)) st with
  | Some (rules, _) => dp_grpc_set_multireply sizeof_reply;; reply_each rules
  | None => fault
  end.

(** Removes the first rule until the list is empty: once per element. *)
Fixpoint del_all_loop p (ls : list loc) : cmd ports_state () :=
  match ls with
  | [] => mret tt
  | l :: ls => tailq_remove p l;; rule_free l;; del_all_loop p ls
  end.

Definition dp_del_all_firewall_rules p : cmd ports_state () :=
  head ← fwall_head p;
  del_all_loop p (fh_rules head).

(** ** Decisions *)

(** The matching rule, and [*egress_rule_count] ([None] for a NULL pointer). *)
Fixpoint dp_is_matched_in_fwall_list (df : dp_flow) (ls : list loc) (dir : dp_fwall_direction)
    (egress_rule_count : option Z) : cmd ports_state (option dp_fwall_rule * option Z) :=
  match ls with
  | [] => mret (None, egress_rule_count)
  | l :: ls =>
      rule ← rule_load l;
      count ← (if decide (fr_dir rule = DP_FWALL_EGRESS) then
                 match egress_rule_count with
                 | Some n => mret (Some (u32 (n + 1)))
                 | None => fault
                 end
               else mret egress_rule_count);
      if bool_decide (dir = fr_dir rule) && dp_is_rule_matching rule df
      then mret (Some rule, count)
      else dp_is_matched_in_fwall_list df ls dir count
  end.

Definition dp_get_egress_action (df : dp_flow) (head : dp_fwall_head) :
    cmd ports_state dp_fwall_action :=
  res ← dp_is_matched_in_fwall_list df (fh_rules head) DP_FWALL_EGRESS (Some 0);
  match res with
  | (Some rule, _) => mret (fr_action rule)
  | (None, Some 0) => mret DP_FWALL_ACCEPT
  | (None, _) => mret DP_FWALL_DROP
  end.

Definition dp_get_firewall_action (df : dp_flow) (in_port out_port : nat) :
    cmd ports_state dp_fwall_action :=
  inp ← get_port in_port;
  outp ← get_port out_port;
  if pt_is_pf outp then dp_get_egress_action df (if_fwall_head (pt_iface inp))
  else
    egress_action ← (if pt_is_pf inp then mret DP_FWALL_ACCEPT
                     else dp_get_egress_action df (if_fwall_head (pt_iface inp)));
    if decide (egress_action ≠ DP_FWALL_ACCEPT) then mret DP_FWALL_DROP
    else
      res ← dp_is_matched_in_fwall_list df (fh_rules (if_fwall_head (pt_iface outp)))
              DP_FWALL_INGRESS None;
      match res.1 with
      | None => mret DP_FWALL_DROP
      | Some rule =>
          if decide (fr_action rule ≠ DP_FWALL_ACCEPT) then mret DP_FWALL_DROP
          else mret DP_FWALL_ACCEPT
      end.
End firewall.

(** ** The rules of a port *)

Section firewall_facts.
Context `{HM : RteMalloc} {MO : RteMallocOk}.
Implicit Types (st : ports_state) (p q : nat) (l : loc).

Definition rule_ptrs st p : list loc :=
  match ps_ports st !! p with
  | Some port => fh_rules (if_fwall_head (pt_iface port))
  | None => []
  end.

Definition rule_objs st : gmap loc dp_fwall_rule := objs (ps_rules st).

Definition port_rules st p : list dp_fwall_rule := omap (rule_objs st !!.) (rule_ptrs st p).

(** Every live rule is in exactly one list, once, and the lists hold only live
    rules. *)
Record fw_wf st : Prop := {
  fw_nodup p : NoDup (rule_ptrs st p);
  fw_disj p q l : l ∈ rule_ptrs st p → l ∈ rule_ptrs st q → p = q;
  fw_live p l : l ∈ rule_ptrs st p → is_Some (rule_objs st !! l);
  fw_owned l : is_Some (rule_objs st !! l) → ∃ p, l ∈ rule_ptrs st p
}.

(** The first rule with an id, and the list without it. *)
Definition find_rule (id : list Z) (rules : list dp_fwall_rule) : option dp_fwall_rule :=
  head (filter (λ r, fr_rule_id r = id) rules).

Fixpoint remove_rule (id : list Z) (rules : list dp_fwall_rule) : list dp_fwall_rule :=
  match rules with
  | [] => []
  | r :: rules => if decide (fr_rule_id r = id) then rules else r :: remove_rule id rules
  end.

Lemma omap_insert_notin {A} (m : gmap loc A) (ls : list loc) l a :
  l ∉ ls → omap ((<[l := a]> m) !!.) ls = omap (m !!.) ls.
Proof.
  induction ls as [|l' ls IH]; [done|]. rewrite not_elem_of_cons. intros [Hne Hin].
  csimpl. rewrite lookup_insert_ne by done. by rewrite IH.
Qed.

Lemma omap_delete_notin {A} (m : gmap loc A) (ls : list loc) l :
  l ∉ ls → omap ((delete l m) !!.) ls = omap (m !!.) ls.
Proof.
  induction ls as [|l' ls IH]; [done|]. rewrite not_elem_of_cons. intros [Hne Hin].
  csimpl. rewrite lookup_delete_ne by done. by rewrite IH.
Qed.

Lemma rule_ptrs_upd st p port h q :
  ps_ports st !! p = Some port →
  rule_ptrs (st <| ps_ports := <[p := set_fwall_head h port]> (ps_ports st) |>) q
  = if decide (q = p) then fh_rules h else rule_ptrs st q.
Proof.
  intros Hp. unfold rule_ptrs. cbn. case_decide as Hq.
  - subst q. rewrite list_lookup_insert_eq by (by eapply lookup_lt_Some). done.
  - by rewrite list_lookup_insert_ne by done.
Qed.

(** Walking a list of live rules. *)
Lemma find_rule_id_spec st id ls :
  (∀ l, l ∈ ls → is_Some (rule_objs st !! l)) →
  (find_rule_id id ls st = Some (None, st)
     ∧ Forall (λ r, fr_rule_id r ≠ id) (omap (rule_objs st !!.) ls))
  ∨ ∃ ls1 l ls2 r, ls = ls1 ++ l :: ls2 ∧ find_rule_id id ls st = Some (Some l, st)
      ∧ rule_objs st !! l = Some r ∧ fr_rule_id r = id
      ∧ Forall (λ r, fr_rule_id r ≠ id) (omap (rule_objs st !!.) ls1).
Proof.
  induction ls as [|l ls IH]; intros Hlive; [by left|].
  destruct (Hlive l) as [r Hr]; [set_solver|].
  assert (Hload : rule_load l st = Some (r, st)).
  { unfold rule_load. unfold rule_objs in Hr. by rewrite Hr. }
  csimpl. rewrite (bind_eq _ _ _ _ _ Hload). case_decide as Hid.
  { right. exists [], l, ls, r. by rewrite Hr. }
  destruct IH as [[-> Hno]|(ls1 & l' & ls2 & r' & -> & -> & Hr' & Hid' & Hno)].
  - intros; apply Hlive; set_solver.
  - left. rewrite Hr. by rewrite Forall_cons.
  - right. exists (l :: ls1), l', ls2, r'. csimpl. rewrite Hr. by rewrite Forall_cons.
Qed.

Lemma find_rule_none id rules :
  Forall (λ r, fr_rule_id r ≠ id) rules → find_rule id rules = None ∧ remove_rule id rules = rules.
Proof.
  unfold find_rule. induction 1 as [|r rules Hr Hrs [IH1 IH2]]; [done|]. csimpl.
  rewrite filter_cons. by rewrite !decide_False, IH2 by done.
Qed.

Lemma find_rule_middle id rs1 r rs2 :
  Forall (λ r, fr_rule_id r ≠ id) rs1 → fr_rule_id r = id →
  find_rule id (rs1 ++ r :: rs2) = Some r ∧ remove_rule id (rs1 ++ r :: rs2) = rs1 ++ rs2.
Proof.
  unfold find_rule. induction 1 as [|r' rs1 Hr' Hrs IH]; intros Hr; csimpl.
  - rewrite filter_cons. by rewrite !decide_True.
  - destruct (IH Hr) as [IH1 IH2]. rewrite filter_cons. by rewrite !decide_False, IH2 by done.
Qed.

Lemma filter_remove_middle (ls1 ls2 : list loc) l :
  NoDup (ls1 ++ l :: ls2) → filter (λ l', l' ≠ l) (ls1 ++ l :: ls2) = ls1 ++ ls2.
Proof.
  intros (Hn1 & Hd & Hn2)%NoDup_app. apply NoDup_cons in Hn2 as [Hl Hn2].
  rewrite filter_app, filter_cons, decide_False by (intros []; done).
  rewrite !list_filter_all; [done|..].
  - apply Forall_forall. intros x Hx ->. done.
  - apply Forall_forall. intros x Hx ->. apply (Hd l Hx). set_solver.
Qed.

(** A state that differs by one rule taken out of the list of [p] and freed. *)
Lemma fw_wf_removed st st1 p ls1 l ls2 :
  fw_wf st → rule_ptrs st p = ls1 ++ l :: ls2 →
  (∀ q, rule_ptrs st1 q = if decide (q = p) then ls1 ++ ls2 else rule_ptrs st q) →
  rule_objs st1 = delete l (rule_objs st) →
  fw_wf st1
  ∧ port_rules st1 p = omap (rule_objs st !!.) ls1 ++ omap (rule_objs st !!.) ls2
  ∧ ∀ q, q ≠ p → port_rules st1 q = port_rules st q.
Proof.
  intros Hwf Hls Hptr Hobj.
  pose proof (fw_nodup _ Hwf p) as Hnd. rewrite Hls in Hnd.
  apply NoDup_app in Hnd as (Hn1 & Hd & [Hl2 Hn2]%NoDup_cons).
  assert (Hl12 : l ∉ ls1 ++ ls2).
  { intros [Hin|Hin]%elem_of_app; [|done]. apply (Hd l Hin). set_solver. }
  assert (Hother : ∀ q, q ≠ p → l ∉ rule_ptrs st q).
  { intros q Hq Hin. apply Hq, (fw_disj _ Hwf q p l); [done|]. rewrite Hls. set_solver. }
  assert (Hsub : ∀ q l', l' ∈ rule_ptrs st1 q → l' ∈ rule_ptrs st q ∧ l' ≠ l).
  { intros q l'. rewrite Hptr. case_decide as Hq.
    - subst q. intros Hin. split; [rewrite Hls; set_solver|]. by intros ->.
    - intros Hin. split; [done|]. intros ->. by apply (Hother q). }
  split; [constructor|split].
  - intros q. rewrite Hptr. case_decide as Hq; [|apply fw_nodup, Hwf]. subst q.
    apply NoDup_app. repeat split; [done| |done]. intros x Hx Hx2. apply (Hd x Hx). set_solver.
  - intros q1 q2 l' H1%Hsub H2%Hsub. apply (fw_disj _ Hwf q1 q2 l'); naive_solver.
  - intros q l' [Hin Hne]%Hsub. rewrite Hobj, lookup_delete_ne by done. by eapply fw_live.
  - intros l'. rewrite Hobj. destruct (decide (l = l')) as [<-|Hne].
    { rewrite lookup_delete_eq. by intros []. }
    rewrite lookup_delete_ne by done. intros [q Hq]%(fw_owned _ Hwf).
    exists q. rewrite Hptr. case_decide; [|done]. subst q. rewrite Hls in Hq. set_solver.
  - unfold port_rules. rewrite Hptr, decide_True, Hobj by done.
    rewrite omap_delete_notin by done. by rewrite omap_app.
  - intros q Hq. unfold port_rules. rewrite Hptr, decide_False, Hobj by done.
    rewrite omap_delete_notin; auto.
Qed.

(** [TAILQ_REMOVE] and [rte_free]. *)
Lemma wp_remove_free {A} st p ls1 l ls2 (k : cmd ports_state A) Q :
  fw_wf st → rule_ptrs st p = ls1 ++ l :: ls2 →
  (∀ st', fw_wf st' → rule_ptrs st' p = ls1 ++ ls2 →
     port_rules st' p = omap (rule_objs st !!.) ls1 ++ omap (rule_objs st !!.) ls2 →
     (∀ q, q ≠ p → port_rules st' q = port_rules st q) → wp k Q st') →
  wp (tailq_remove p l;; rule_free l;; k) Q st.
Proof.
  intros Hwf Hls HQ.
  assert (∃ port, ps_ports st !! p = Some port) as [port Hp].
  { unfold rule_ptrs in Hls. destruct (ps_ports st !! p); [eauto|by destruct ls1]. }
  assert (Hrules : fh_rules (if_fwall_head (pt_iface port)) = ls1 ++ l :: ls2).
  { rewrite <- Hls. unfold rule_ptrs. by rewrite Hp. }
  assert (Hnd : NoDup (ls1 ++ l :: ls2)) by (rewrite <- Hls; apply fw_nodup, Hwf).
  destruct (fw_live _ Hwf p l) as [r Hr]; [rewrite Hls; set_solver|].
  unfold tailq_remove, fwall_head. wp_steps. apply (wp_get_port _ _ port); [done|]. wp_steps.
  apply (wp_upd_port _ _ port); [done|]. rewrite Hrules, filter_remove_middle by done.
  set (h := MkFwallHead _ _). wp_steps. unfold wp at 1, rule_free. cbn.
  fold (rule_objs st). rewrite Hr. set (st1 := MkPorts _ _ _ _).
  assert (Hptr : ∀ q, rule_ptrs st1 q = if decide (q = p) then ls1 ++ ls2 else rule_ptrs st q).
  { intros q. exact (rule_ptrs_upd st p port h q Hp). }
  destruct (fw_wf_removed st st1 p ls1 l ls2 Hwf Hls Hptr eq_refl) as (Hwf' & Hpr & Hoth).
  apply HQ; [done| |done|done]. by rewrite Hptr, decide_True.
Qed.

Lemma fwall_head_eq st p port :
  ps_ports st !! p = Some port →
  fwall_head p st = Some (if_fwall_head (pt_iface port), st).
Proof.
  intros Hp. unfold fwall_head. rewrite (bind_eq _ _ _ port st); [done|].
  unfold get_port. by rewrite Hp.
Qed.

Lemma rule_ptrs_port st p port :
  ps_ports st !! p = Some port → fh_rules (if_fwall_head (pt_iface port)) = rule_ptrs st p.
Proof. unfold rule_ptrs. by intros ->. Qed.

(** ** The operations *)

(** Getting a rule returns a pointer to the first rule with the id. *)
Lemma get_firewall_rule_spec st p port id :
  fw_wf st → ps_ports st !! p = Some port →
  ∃ ol, dp_get_firewall_rule id p st = Some (ol, st)
    ∧ (ol ≫= λ l, rule_objs st !! l) = find_rule id (port_rules st p).
Proof.
  intros Hwf Hp. unfold dp_get_firewall_rule.
  rewrite (bind_eq _ _ _ _ _ (fwall_head_eq _ _ _ Hp)), (rule_ptrs_port _ _ _ Hp).
  destruct (find_rule_id_spec st id (rule_ptrs st p)) as
    [[-> Hno]|(ls1 & l & ls2 & r & Hls & -> & Hr & Hid & Hno)].
  - intros l. by apply fw_live.
  - exists None. split; [done|]. fold (port_rules st p) in Hno.
    by destruct (find_rule_none id _ Hno) as [-> _].
  - exists (Some l). split; [done|]. unfold port_rules. rewrite Hls, omap_app. csimpl. rewrite Hr.
    by destruct (find_rule_middle id _ r (omap (rule_objs st !!.) ls2) Hno Hid) as [-> _].
Qed.

Lemma delete_firewall_rule_spec st p port id :
  fw_wf st → ps_ports st !! p = Some port →
  wp (dp_delete_firewall_rule id p)
    (λ ret st', fw_wf st'
       ∧ ret = (match find_rule id (port_rules st p) with Some _ => DP_OK | None => DP_ERROR end)
       ∧ port_rules st' p = remove_rule id (port_rules st p)
       ∧ ∀ q, q ≠ p → port_rules st' q = port_rules st q) st.
Proof.
  intros Hwf Hp. unfold dp_delete_firewall_rule.
  apply wp_bind. eapply wp_intro; [by apply fwall_head_eq|].
  rewrite (rule_ptrs_port _ _ _ Hp). apply wp_bind.
  destruct (find_rule_id_spec st id (rule_ptrs st p)) as
    [[Hf Hno]|(ls1 & l & ls2 & r & Hls & Hf & Hr & Hid & Hno)].
  - intros l. by apply fw_live.
  - eapply wp_intro; [done|]. wp_steps. fold (port_rules st p) in Hno.
    by destruct (find_rule_none id _ Hno) as [-> ->].
  - eapply wp_intro; [done|]. eapply wp_remove_free; [done..|].
    intros st' Hwf' _ Hpr Hoth. wp_steps. split; [done|].
    assert (port_rules st p = omap (rule_objs st !!.) ls1 ++ r :: omap (rule_objs st !!.) ls2) as ->.
    { unfold port_rules. rewrite Hls, omap_app. csimpl. by rewrite Hr. }
    destruct (find_rule_middle id _ r (omap (rule_objs st !!.) ls2) Hno Hid) as [-> ->].
    by rewrite Hpr.
Qed.

Lemma del_all_loop_spec ls st p :
  fw_wf st → rule_ptrs st p = ls →
  wp (del_all_loop p ls)
    (λ _ st', fw_wf st' ∧ rule_ptrs st' p = [] ∧ ∀ q, q ≠ p → port_rules st' q = port_rules st q) st.
Proof.
  revert st. induction ls as [|l ls IH]; intros st Hwf Hls; simpl; [by wp_steps|].
  apply (wp_remove_free st p [] l ls); [done..|].
  intros st' Hwf' Hptr _ Hoth. wp_use (IH st' Hwf' Hptr).
  intros _ st'' (? & ? & Hoth'). split_and!; [done..|]. intros q Hq. rewrite Hoth'; auto.
Qed.

(** No rule of the port stays, in the list or on the heap. *)
Lemma del_all_firewall_rules_spec st p port :
  fw_wf st → ps_ports st !! p = Some port →
  wp (dp_del_all_firewall_rules p)
    (λ _ st', fw_wf st' ∧ rule_ptrs st' p = [] ∧ ∀ q, q ≠ p → port_rules st' q = port_rules st q) st.
Proof.
  intros Hwf Hp. unfold dp_del_all_firewall_rules.
  apply wp_bind. eapply wp_intro; [by apply fwall_head_eq|].
  rewrite (rule_ptrs_port _ _ _ Hp). by apply del_all_loop_spec.
Qed.

Lemma fw_wf_added st st1 p l r :
  fw_wf st → rule_objs st !! l = None →
  (∀ q, rule_ptrs st1 q = if decide (q = p) then rule_ptrs st p ++ [l] else rule_ptrs st q) →
  rule_objs st1 = <[l := r]> (rule_objs st) →
  fw_wf st1 ∧ port_rules st1 p = port_rules st p ++ [r]
  ∧ ∀ q, q ≠ p → port_rules st1 q = port_rules st q.
Proof.
  intros Hwf Hl Hptr Hobj.
  assert (Hnew : ∀ q, l ∉ rule_ptrs st q).
  { intros q Hin. destruct (fw_live _ Hwf q l Hin). congruence. }
  assert (Hin : ∀ q l', l' ∈ rule_ptrs st1 q → l' ∈ rule_ptrs st q ∨ (q = p ∧ l' = l)).
  { intros q l'. rewrite Hptr. case_decide as Hq; [|by left]. subst q. set_solver. }
  split; [constructor|split].
  - intros q. rewrite Hptr. case_decide as Hq; [|apply fw_nodup, Hwf].
    apply NoDup_app. repeat split; [apply fw_nodup, Hwf| |apply NoDup_singleton].
    intros x Hx ->%list_elem_of_singleton. by apply (Hnew p).
  - intros q1 q2 l' [H1|[-> ->]]%Hin [H2|[-> ?]]%Hin; try done.
    + by apply (fw_disj _ Hwf q1 q2 l').
    + subst l'. by destruct (Hnew q1).
    + by destruct (Hnew q2).
  - intros q l' [H1|[-> ->]]%Hin; rewrite Hobj.
    + rewrite lookup_insert_ne; [by eapply fw_live|]. intros <-. by apply (Hnew q).
    + by rewrite lookup_insert_eq.
  - intros l'. rewrite Hobj, lookup_insert. case_decide as Hl'.
    + subst l'. exists p. rewrite Hptr, decide_True by done. set_solver.
    + intros [q Hq]%(fw_owned _ Hwf). exists q. rewrite Hptr. case_decide; set_solver.
  - unfold port_rules. rewrite Hptr, decide_True, Hobj by done. rewrite omap_app.
    rewrite omap_insert_notin by done. f_equal. csimpl. by rewrite lookup_insert_eq.
  - intros q Hq. unfold port_rules. rewrite Hptr, decide_False, Hobj by done.
    by rewrite omap_insert_notin.
Qed.

(** A rule is appended, or the state is as before but for the allocator. *)
Lemma add_firewall_rule_spec st p port r :
  fw_wf st → ps_ports st !! p = Some port → fh_inited (if_fwall_head (pt_iface port)) = true →
  wp (dp_add_firewall_rule r p)
    (λ ret st', fw_wf st'
       ∧ (∀ q, q ≠ p → port_rules st' q = port_rules st q)
       ∧ ((ret = DP_OK ∧ port_rules st' p = port_rules st p ++ [r])
          ∨ (ret = DP_ERROR ∧ port_rules st' p = port_rules st p))) st.
Proof.
  intros Hwf Hp Hinit. unfold dp_add_firewall_rule. apply wp_bind.
  unfold wp at 1, rule_malloc. destruct (rte_malloc _ _) as [[l|] ms] eqn:Hm; last first.
  { wp_steps. split; [by destruct Hwf|]. split; [done|]. by right. }
  apply rte_malloc_fresh, not_elem_of_dom in Hm. fold (rule_objs st) in Hm.
  set (st0 := set_field _ _ st). unfold tailq_insert_tail. apply wp_bind, wp_bind.
  eapply wp_intro; [by apply (fwall_head_eq st0 p port)|]. rewrite Hinit.
  apply (wp_upd_port _ _ port); [done|]. wp_steps. set (st1 := set_field _ _ st0).
  destruct (fw_wf_added st st1 p l r Hwf Hm) as (? & ? & ?); [|done|auto].
  intros q. rewrite <- (rule_ptrs_port _ _ _ Hp).
  exact (rule_ptrs_upd st p port
    (MkFwallHead (fh_rules (if_fwall_head (pt_iface port)) ++ [l]) true) q Hp).
Qed.

(** *** The interface of the gRPC handlers *)

Inductive fw_op :=
  | FwAdd (r : dp_fwall_rule)
  | FwDelete (rule_id : list Z)
  | FwDelAll.

Definition fw_step (op : fw_op) p : cmd ports_state Z :=
  match op with
  | FwAdd r => dp_add_firewall_rule r p
  | FwDelete id => dp_delete_firewall_rule id p
  | FwDelAll => dp_del_all_firewall_rules p;; mret DP_OK
  end.

(** On the list of the rules of a port: only an allocation can fail. *)
Definition fw_abs (op : fw_op) (rules : list dp_fwall_rule) (ret : Z) (rules' : list dp_fwall_rule) : Prop :=
  match op with
  | FwAdd r => ret = DP_OK ∧ rules' = rules ++ [r] ∨ ret = DP_ERROR ∧ rules' = rules
  | FwDelete id =>
      ret = (match find_rule id rules with Some _ => DP_OK | None => DP_ERROR end)
      ∧ rules' = remove_rule id rules
  | FwDelAll => ret = DP_OK ∧ rules' = []
  end.

(** C17. Every operation on the rules of a port does to the linked list what it says
    on a list of rules, leaves the rules of other ports alone, and leaks or
    dangles no rule. *)
Theorem fw_refines st p port op :
  fw_wf st → ps_ports st !! p = Some port → fh_inited (if_fwall_head (pt_iface port)) = true →
  wp (fw_step op p)
    (λ ret st', fw_wf st' ∧ fw_abs op (port_rules st p) ret (port_rules st' p)
       ∧ ∀ q, q ≠ p → port_rules st' q = port_rules st q) st.
Proof.
  intros Hwf Hp Hinit. destruct op as [r|id|]; simpl.
  - wp_use (add_firewall_rule_spec st p port r Hwf Hp Hinit). naive_solver.
  - wp_use (delete_firewall_rule_spec st p port id Hwf Hp). naive_solver.
  - wp_steps. wp_use (del_all_firewall_rules_spec st p port Hwf Hp).
    intros _ st' (? & Hnil & ?). wp_steps.
    split_and!; try done. unfold port_rules. by rewrite Hnil.
Qed.

(** ** Decisions *)

Definition rule_applies (df : dp_flow) (dir : dp_fwall_direction) (r : dp_fwall_rule) : Prop :=
  fr_dir r = dir ∧ dp_is_rule_matching r df = true.

Global Instance rule_applies_dec df dir r : Decision (rule_applies df dir r).
Proof. unfold rule_applies. apply _. Defined.

Definition first_match (df : dp_flow) (dir : dp_fwall_direction)
    (rules : list dp_fwall_rule) : option dp_fwall_rule :=
  head (filter (rule_applies df dir) rules).

(** A packet leaving an interface: the first egress rule that applies decides;
    without one, only an interface that has egress rules at all drops. *)
Definition egress_decision (df : dp_flow) (rules : list dp_fwall_rule) : dp_fwall_action :=
  match first_match df DP_FWALL_EGRESS rules with
  | Some r => fr_action r
  | None => if decide (Exists (λ r, fr_dir r = DP_FWALL_EGRESS) rules)
            then DP_FWALL_DROP else DP_FWALL_ACCEPT
  end.

(** A packet entering an interface: the first ingress rule that applies, and
    otherwise drop. *)
Definition ingress_decision (df : dp_flow) (rules : list dp_fwall_rule) : dp_fwall_action :=
  match first_match df DP_FWALL_INGRESS rules with
  | Some r => fr_action r
  | None => DP_FWALL_DROP
  end.

(** An egress rule stands before the first ingress rule that applies. *)
Fixpoint egress_before_match (df : dp_flow) (rules : list dp_fwall_rule) : bool :=
  match rules with
  | [] => false
  | r :: rules =>
      if decide (fr_dir r = DP_FWALL_EGRESS) then true
      else if dp_is_rule_matching r df then false
      else egress_before_match df rules
  end.

Definition egress_count (rules : list dp_fwall_rule) : nat :=
  length (filter (λ r, fr_dir r = DP_FWALL_EGRESS) rules).

Lemma load_live st l r :
  rule_objs st !! l = Some r → rule_load l st = Some (r, st).
Proof. unfold rule_load, rule_objs. by intros ->. Qed.

(** The walk that counts egress rules. *)
Lemma matched_egress_spec st df ls n :
  (∀ l, l ∈ ls → is_Some (rule_objs st !! l)) →
  0 ≤ n → n + Z.of_nat (length ls) < 2 ^ 32 →
  let rules := omap (rule_objs st !!.) ls in
  ∃ n', dp_is_matched_in_fwall_list df ls DP_FWALL_EGRESS (Some n) st
          = Some ((first_match df DP_FWALL_EGRESS rules, Some n'), st)
    ∧ (first_match df DP_FWALL_EGRESS rules = None → n' = n + Z.of_nat (egress_count rules)).
Proof.
  revert n. induction ls as [|l ls IH]; intros n Hlive Hn Hlen rules.
  { exists n. unfold egress_count. simpl. split; [done|]. lia. }
  destruct (Hlive l) as [r Hr]; [set_solver|].
  assert (Hlive' : ∀ l, l ∈ ls → is_Some (rule_objs st !! l)) by set_solver.
  subst rules. csimpl in *. rewrite Hr. rewrite (bind_eq _ _ _ _ _ (load_live _ _ _ Hr)).
  unfold first_match, egress_count. rewrite !filter_cons.
  destruct (decide (fr_dir r = DP_FWALL_EGRESS)) as [Hdir|Hdir].
  - rewrite (bind_eq _ _ st (Some (u32 (n + 1))) st) by done.
    rewrite u32_id by (unfold is_u32; lia). rewrite bool_decide_true by done. simpl.
    destruct (dp_is_rule_matching r df) eqn:Hmatch.
    + exists (n + 1). rewrite decide_True by done. by split.
    + rewrite decide_False by (intros []; congruence).
      destruct (IH (n + 1) Hlive') as (n' & -> & Hn'); [lia..|].
      exists n'. split; [done|]. intros Hnone. rewrite (Hn' Hnone). unfold egress_count. simpl. lia.
  - rewrite (bind_eq _ _ st (Some n) st) by done.
    rewrite (bool_decide_false (DP_FWALL_EGRESS = fr_dir r)) by (intros E; by apply Hdir). simpl.
    rewrite decide_False by (intros []; congruence).
    apply IH; [done|lia..].
Qed.

(** The walk with the NULL counter. *)
Lemma matched_ingress_spec st df ls :
  (∀ l, l ∈ ls → is_Some (rule_objs st !! l)) →
  let rules := omap (rule_objs st !!.) ls in
  dp_is_matched_in_fwall_list df ls DP_FWALL_INGRESS None st
  = if egress_before_match df rules then None
    else Some ((first_match df DP_FWALL_INGRESS rules, None), st).
Proof.
  induction ls as [|l ls IH]; intros Hlive; [done|].
  destruct (Hlive l) as [r Hr]; [set_solver|]. csimpl.
  rewrite Hr, (bind_eq _ _ _ _ _ (load_live _ _ _ Hr)).
  unfold first_match. rewrite filter_cons. csimpl.
  destruct (decide (fr_dir r = DP_FWALL_EGRESS)) as [Hdir|Hdir]; [done|].
  rewrite (bind_eq _ _ st None st) by done.
  assert (fr_dir r = DP_FWALL_INGRESS) as Hdir' by (by destruct (fr_dir r)).
  rewrite bool_decide_true by done. simpl.
  destruct (dp_is_rule_matching r df) eqn:Hmatch.
  - by rewrite decide_True.
  - rewrite decide_False by (intros []; congruence). apply IH. set_solver.
Qed.

Lemma egress_count_zero rules :
  Z.of_nat (egress_count rules) = 0 ↔ ¬ Exists (λ r, fr_dir r = DP_FWALL_EGRESS) rules.
Proof.
  unfold egress_count. induction rules as [|r rules IH]; [rewrite Exists_nil; simpl; tauto|].
  rewrite filter_cons, Exists_cons. case_decide; simpl.
  - split; [lia|]. intros Hn. destruct Hn. by left.
  - rewrite IH. tauto.
Qed.

Lemma get_egress_action_eq st p port df :
  fw_wf st → ps_ports st !! p = Some port → Z.of_nat (length (rule_ptrs st p)) < 2 ^ 32 →
  dp_get_egress_action df (if_fwall_head (pt_iface port)) st
  = Some (egress_decision df (port_rules st p), st).
Proof.
  intros Hwf Hp Hlen. unfold dp_get_egress_action, egress_decision.
  rewrite (rule_ptrs_port _ _ _ Hp).
  destruct (matched_egress_spec st df (rule_ptrs st p) 0) as (n & Hm & Hn); [|lia..|].
  { intros l. by apply fw_live. }
  fold (port_rules st p) in Hm, Hn. rewrite (bind_eq _ _ _ _ _ Hm).
  destruct (first_match _ _ _) as [r|]; [done|]. rewrite (Hn eq_refl).
  pose proof (egress_count_zero (port_rules st p)) as Hz.
  case_decide as Hex; destruct (0 + Z.of_nat (egress_count _)) eqn:E; try done; exfalso.
  - apply Hz in Hex; [done|lia].
  - apply Hz in Hex. lia.
  - lia.
Qed.

(** C1. The decision for a packet, whatever the rules: towards a physical port only
    the sender's egress rules count; otherwise the sender's egress rules (unless
    it came from a physical port) and then the receiver's ingress rules.  The
    walk of the receiver's list is given no egress counter, so that the one
    case in which the code does not return is a list with an egress rule before
    the first ingress rule that applies. *)
Theorem firewall_action_spec st df i o inp outp :
  fw_wf st → ps_ports st !! i = Some inp → ps_ports st !! o = Some outp →
  Z.of_nat (length (rule_ptrs st i)) < 2 ^ 32 →
  dp_get_firewall_action df i o st
  = if pt_is_pf outp then Some (egress_decision df (port_rules st i), st)
    else if negb (pt_is_pf inp)
            && bool_decide (egress_decision df (port_rules st i) = DP_FWALL_DROP)
         then Some (DP_FWALL_DROP, st)
    else if egress_before_match df (port_rules st o) then None
    else Some (ingress_decision df (port_rules st o), st).
Proof.
  intros Hwf Hi Ho Hlen. unfold dp_get_firewall_action.
  rewrite (bind_eq (get_port i) _ st inp st) by (unfold get_port; by rewrite Hi).
  rewrite (bind_eq (get_port o) _ st outp st) by (unfold get_port; by rewrite Ho).
  pose proof (get_egress_action_eq st i inp df Hwf Hi Hlen) as Heg.
  destruct (pt_is_pf outp); [done|].
  assert (Hlive : ∀ l, l ∈ rule_ptrs st o → is_Some (rule_objs st !! l)) by (intros; by eapply fw_live).
  pose proof (matched_ingress_spec st df _ Hlive) as Hin. fold (port_rules st o) in Hin.
  set (act := if pt_is_pf inp then DP_FWALL_ACCEPT else egress_decision df (port_rules st i)).
  rewrite (bind_eq _ _ st act st) by (unfold act; by destruct (pt_is_pf inp)).
  assert (negb (pt_is_pf inp) && bool_decide (egress_decision df (port_rules st i) = DP_FWALL_DROP)
          = bool_decide (act ≠ DP_FWALL_ACCEPT)) as ->.
  { unfold act. by destruct (pt_is_pf inp), (egress_decision df (port_rules st i)). }
  case_decide as Hact; [by rewrite bool_decide_true|]. rewrite bool_decide_false by tauto.
  rewrite (rule_ptrs_port _ _ _ Ho). unfold mbind at 1, cmd_bind. rewrite Hin.
  destruct (egress_before_match _ _); [done|]. unfold ingress_decision. simpl.
  destruct (first_match _ _ _) as [r|]; [|done]. by destruct (fr_action r).
Qed.
End firewall_facts.

(** ** Examples *)

Section firewall_examples.
#[local] Existing Instances test_malloc test_malloc_ok.

Definition ex_rule (id : Z) (dir : dp_fwall_direction) : dp_fwall_rule :=
  MkRule [id] (MkIp 0 false) (MkIp 0 false) 0 0 0 IPPROTO_TCP DP_FWALL_MATCH_ANY_PORT 0 80 90
    DP_FWALL_ACCEPT dir.

Definition ex_fw_port (rules : list loc) : dp_port :=
  set_iface (λ i, i <| if_fwall_head := MkFwallHead rules true |>) zero_port.

(** Port 0 has one ingress rule. *)
Definition ex_fw : ports_state :=
  MkPorts [ex_fw_port [1%positive]; ex_fw_port []] ∅ []
    (Heap {[1%positive := ex_rule 1 DP_FWALL_INGRESS]} ([] : list bool)).

Lemma ex_fw_ptrs p : rule_ptrs ex_fw p = if decide (p = 0%nat) then [1%positive] else [].
Proof. by destruct p as [|[|p]]. Qed.

Lemma ex_fw_wf : fw_wf ex_fw.
Proof.
  constructor.
  - intros p. rewrite ex_fw_ptrs. case_decide; [apply NoDup_singleton|apply NoDup_nil_2].
  - intros p q l. rewrite !ex_fw_ptrs. do 2 case_decide; set_solver.
  - intros p l. rewrite ex_fw_ptrs. case_decide; [|set_solver].
    intros ->%list_elem_of_singleton. by eexists.
  - intros l [r Hr]. exists 0%nat. rewrite ex_fw_ptrs. unfold rule_objs in Hr.
    simpl in Hr. apply lookup_singleton_Some in Hr as [<- _]. set_solver.
Qed.

Lemma fw_refines_witness :
  wp (fw_step (FwDelete [1]) 0)
    (λ ret st', fw_wf st' ∧ ret = DP_OK ∧ port_rules st' 0 = []) ex_fw.
Proof.
  wp_use (fw_refines ex_fw 0 (ex_fw_port [1%positive]) (FwDelete [1]) ex_fw_wf eq_refl eq_refl).
  intros ret st' (Hwf & [Hret Hr] & _). split_and!; [exact Hwf| |].
  - rewrite Hret. reflexivity.
  - rewrite Hr. reflexivity.
Defined.

(** A TCP packet to port 80 from port 1 to port 0. *)
Definition ex_fw_df : dp_flow :=
  dp_init_flow_ptr <| df_l3_type := RTE_ETHER_TYPE_IPV4 |> <| df_l4_type := IPPROTO_TCP |>
    <| df_trans_dst_port := htons 80 |>.

Lemma firewall_action_spec_witness :
  dp_get_firewall_action ex_fw_df 1 0 ex_fw = Some (DP_FWALL_ACCEPT, ex_fw).
Proof.
  rewrite (firewall_action_spec ex_fw ex_fw_df 1 0 (ex_fw_port []) (ex_fw_port [1%positive]) ex_fw_wf).
  - reflexivity.
  - reflexivity.
  - reflexivity.
  - by apply Z.ltb_lt.
Defined.
End firewall_examples.
