(* ===== verification/GrpcConv.v ===== *)
(** * Conversions of the gRPC server (src/grpc/dp_grpc_conv.cpp)

    Prefix lengths become masks on the way in, and masks become prefix lengths
    on the way out.  The theorems say what a firewall rule made from prefixes
    matches, and that the lengths survive the round trip.  The conversions of whole
    messages are in [GrpcMsg]. *)

From S2P Require Import Prelude Dpdk Error Types Responder Port Firewall.

(** [None] is the result [false]. *)
Definition Ipv4PrefixLenToMask (prefix_length : Z) : option Z :=
  if 32 <? prefix_length then None
  else Some (if prefix_length =? 0 then 0
             else u32 (Z.lnot (Z.shiftl 1 (32 - prefix_length) - 1))).

(** [mask[i / 8] |= (uint8_t)(1 << (7 - (i % 8)))] on the 16-byte array. *)
Definition set_mask_bit (mask : Z) (i : Z) : Z :=
  Z.lor mask (Z.shiftl (u8 (Z.shiftl 1 (7 - i mod 8))) (8 * (i / 8))).

Definition Ipv6PrefixLenToMask (prefix_length : Z) : option Z :=
  if 128 <? prefix_length then None
  else Some (foldl set_mask_bit 0 (seqZ 0 prefix_length)).

(** [__builtin_popcount] and [__builtin_popcountll] *)
Definition popcount (bits : Z) (z : Z) : Z :=
  Z.of_nat (length (filter (λ i, Z.testbit z i = true) (seqZ 0 bits))).

(** [rte_be_to_cpu_64] *)
Definition bswap64 (z : Z) : Z := of_bytes ((λ i, byte_of (7 - i) z) <$> seqZ 0 8).

Definition DpIpv6MaskToPrefixLen (mask : Z) : Z :=
  let high := bswap64 (u64 mask) in
  let low := bswap64 (u64 (mask / 2 ^ 64)) in
  u32 (popcount 64 high + popcount 64 low).

(** The length [SetupIpAndPrefix] reports for a rule's mask. *)
Definition rule_prefix_len (is_v6 : bool) (mask : Z) : Z :=
  if is_v6 then DpIpv6MaskToPrefixLen mask else popcount 32 (word32_of 0 mask).

Definition GrpcToDpFwallPort (grpc_port : Z) : option Z :=
  let port := u32 grpc_port in
  if negb (port =? DP_FWALL_MATCH_ANY_PORT) && (UINT16_MAX <? port) then None else Some port.

Definition IsInterfaceIdValid (id : list Z) : bool :=
  forallb (λ c, (c =? 45) || (c =? 95) || ((48 <=? c) && (c <=? 57))
                || ((65 <=? c) && (c <=? 90)) || ((97 <=? c) && (c <=? 122))) id.

(** ** Prefixes *)

(** The addresses (in host order) agree in their first [n] bits. *)
Definition in_prefix4 (n a b : Z) : Prop := a / 2 ^ (32 - n) = b / 2 ^ (32 - n).

(** Where bit [i] of an address in network order is in the 16-byte array. *)
Definition net_bit (i : Z) : Z := 8 * (i / 8) + (7 - i mod 8).

Definition in_prefix6 (n a b : Z) : Prop :=
  ∀ i, 0 ≤ i < n → Z.testbit a (net_bit i) = Z.testbit b (net_bit i).

Definition in_ports (lower upper port : Z) : Prop :=
  lower = DP_FWALL_MATCH_ANY_PORT ∨ lower ≤ port ≤ upper.

Lemma land_high_mask w k a :
  0 ≤ k ≤ w → 0 ≤ a < 2 ^ w → Z.land a (2 ^ w - 2 ^ k) = a / 2 ^ k * 2 ^ k.
Proof.
  intros Hk Ha. rewrite <- Z.shiftr_div_pow2, <- Z.shiftl_mul_pow2 by lia.
  rewrite <- Z.ldiff_ones_r by lia.
  replace (2 ^ w - 2 ^ k) with (Z.shiftl (Z.ones (w - k)) k); last first.
  { rewrite Z.shiftl_mul_pow2, Z.ones_equiv by lia. rewrite <- Z.sub_1_r, Z.mul_sub_distr_r.
    rewrite <- Z.pow_add_r by lia. replace (w - k + k) with w by lia. lia. }
  apply Z.bits_inj'. intros i Hi. rewrite Z.land_spec, Z.ldiff_spec.
  rewrite Z.shiftl_spec, (Z.testbit_ones_nonneg k) by lia.
  destruct (Z.ltb_spec i k) as [Hik|Hik].
  - rewrite (Z.testbit_neg_r (Z.ones _)) by lia. by rewrite !andb_false_r.
  - rewrite Z.testbit_ones_nonneg by lia. destruct (Z.ltb_spec (i - k) (w - k)); [done|].
    assert (Z.testbit a i = false) as ->; [|done].
    apply (Z.bounded_iff_bits_nonneg w a); lia.
Qed.

Lemma Ipv4PrefixLenToMask_spec n m :
  0 ≤ n → Ipv4PrefixLenToMask n = Some m → n ≤ 32 ∧ m = 2 ^ 32 - 2 ^ (32 - n).
Proof.
  unfold Ipv4PrefixLenToMask. intros Hn. destruct (Z.ltb_spec 32 n) as [|Hle]; [done|].
  intros [= <-]. split; [done|]. destruct (Z.eqb_spec n 0) as [->|Hne]; [done|].
  rewrite Z.shiftl_1_l. unfold Z.lnot, u32.
  assert (1 ≤ 2 ^ (32 - n)) by (apply (Z.pow_le_mono_r 2 0); lia).
  assert (2 ^ (32 - n) ≤ 2 ^ 31) by (apply Z.pow_le_mono_r; lia).
  rewrite <- (Z.mod_add _ 1) by lia. rewrite Z.mod_small by lia. lia.
Qed.

Lemma mask4_in_prefix n m a b :
  0 ≤ n → Ipv4PrefixLenToMask n = Some m → is_u32 a → is_u32 b →
  Z.land a m = Z.land b m ↔ in_prefix4 n a b.
Proof.
  intros Hn Hm Ha Hb. apply Ipv4PrefixLenToMask_spec in Hm as [Hle ->]; [|done].
  unfold in_prefix4. rewrite !land_high_mask by (done || lia).
  assert (0 < 2 ^ (32 - n)) by (apply Z.pow_pos_nonneg; lia).
  rewrite Z.mul_cancel_r by lia. done.
Qed.

Lemma net_bit_inj i j : 0 ≤ i → 0 ≤ j → net_bit i = net_bit j → i = j.
Proof. unfold net_bit. intros. zsolve. Qed.

Lemma set_mask_bit_testbit mask i j :
  0 ≤ i → 0 ≤ j →
  Z.testbit (set_mask_bit mask i) j = Z.testbit mask j || (j =? net_bit i).
Proof.
  intros Hi Hj. unfold set_mask_bit, net_bit. rewrite Z.lor_spec. f_equal.
  assert (0 ≤ i mod 8 < 8) by (apply Z.mod_pos_bound; lia).
  assert (0 ≤ i / 8) by (apply Z.div_pos; lia).
  rewrite Z.shiftl_spec, Z.shiftl_1_l by lia. unfold u8. rewrite Z.mod_small; last first.
  { split; [lia|]. apply Z.pow_lt_mono_r; lia. }
  destruct (Z.ltb_spec j (8 * (i / 8))).
  - rewrite Z.testbit_neg_r by lia. symmetry. apply Z.eqb_neq. lia.
  - rewrite Z.pow2_bits_eqb by lia. apply eq_bool_prop_intro. rewrite !Is_true_true, !Z.eqb_eq. lia.
Qed.

Lemma mask6_testbit n j mask :
  0 ≤ j →
  Z.testbit (foldl set_mask_bit mask (seqZ 0 (Z.of_nat n))) j = true
  ↔ Z.testbit mask j = true ∨ ∃ i, (0 ≤ i < Z.of_nat n) ∧ j = net_bit i.
Proof.
  intros Hj. induction n as [|n IH]; simpl foldl.
  { split; [by left|]. intros [?|(i & ? & ?)]; [done|lia]. }
  replace (Z.of_nat (S n)) with (Z.of_nat n + 1) by lia.
  rewrite seqZ_app by lia. rewrite (seqZ_cons (0 + Z.of_nat n)), (seqZ_nil _ (Z.pred 1)) by lia.
  rewrite foldl_app. simpl foldl. rewrite set_mask_bit_testbit by lia.
  rewrite orb_true_iff, IH, Z.eqb_eq. split.
  - intros [[?|(i & ? & ?)]|Heq]; [by left|right; exists i; split; [lia|done]|].
    right. exists (0 + Z.of_nat n). split; [lia|done].
  - intros [?|(i & Hi & Heq)]; [by left; left|].
    destruct (decide (i = Z.of_nat n)) as [->|]; [by right|].
    left. right. exists i. split; [lia|done].
Qed.

Lemma Ipv6PrefixLenToMask_testbit n m j :
  0 ≤ n → 0 ≤ j → Ipv6PrefixLenToMask n = Some m →
  Z.testbit m j = true ↔ ∃ i, (0 ≤ i < n) ∧ j = net_bit i.
Proof.
  unfold Ipv6PrefixLenToMask. intros Hn Hj. case_match; [done|]. intros [= <-].
  rewrite <- (Z2Nat.id n) by done. rewrite mask6_testbit by done. rewrite Z.bits_0.
  naive_solver.
Qed.

Lemma mask6_in_prefix n m a b :
  0 ≤ n → Ipv6PrefixLenToMask n = Some m →
  Z.land a m = Z.land b m ↔ in_prefix6 n a b.
Proof.
  intros Hn Hm. unfold in_prefix6. split.
  - intros E i Hi.
    assert (0 ≤ net_bit i) by (unfold net_bit; zsolve).
    assert (Z.testbit m (net_bit i) = true) as Hbit.
    { apply (Ipv6PrefixLenToMask_testbit n); eauto. }
    apply (f_equal (λ z, Z.testbit z (net_bit i))) in E.
    by rewrite !Z.land_spec, Hbit, !andb_true_r in E.
  - intros H. apply Z.bits_inj'. intros j Hj. rewrite !Z.land_spec.
    destruct (Z.testbit m j) eqn:Hbit; [|by rewrite !andb_false_r].
    apply (Ipv6PrefixLenToMask_testbit n) in Hbit as (i & Hi & ->); [|done..].
    by rewrite H.
Qed.

Lemma mask6_nonneg n m : Ipv6PrefixLenToMask n = Some m → 0 ≤ m.
Proof.
  unfold Ipv6PrefixLenToMask. case_match; [done|]. intros [= <-].
  assert (Hf : ∀ l acc, (∀ i, i ∈ l → 0 ≤ i) → 0 ≤ acc → 0 ≤ foldl set_mask_bit acc l).
  { induction l as [|i l IH]; intros acc Hl Hacc; [done|]. apply IH; [set_solver|].
    apply Z.lor_nonneg. split; [done|]. apply Z.shiftl_nonneg.
    unfold u8. apply Z.mod_pos_bound. lia. }
  apply Hf; [|done]. intros i Hi. apply elem_of_seqZ in Hi. lia.
Qed.

(** The loop over the bytes is the bitwise and of the whole addresses. *)
Lemma dp_apply_ipv6_mask_land a m :
  is_u128 a → 0 ≤ m → dp_apply_ipv6_mask a m = Z.land a m.
Proof.
  intros Ha Hm. unfold dp_apply_ipv6_mask.
  rewrite (list_fmap_ext _ (λ i, byte_of i (Z.land a m))).
  - rewrite (of_bytes_byte_of 16). apply Z.mod_small.
    change (8 * Z.of_nat 16) with 128. apply land_range; [lia|done..].
  - intros k i Hi. apply lookup_seqZ in Hi as [-> ?]. rewrite byte_of_land by lia. done.
Qed.

(** ** What a rule made from prefixes matches *)

Section rule_matching.
Context (rule : dp_fwall_rule) (df : dp_flow).
Context (Hl4 : df_l4_type df = IPPROTO_TCP ∨ df_l4_type df = IPPROTO_UDP).

Definition rule_protocol_ok : Prop :=
  fr_protocol rule = DP_FWALL_MATCH_ANY_PROTOCOL ∨ fr_protocol rule = df_l4_type df.

Definition rule_ports_ok : Prop :=
  in_ports (fr_src_port_lower rule) (fr_src_port_upper rule) (ntohs (df_trans_src_port df))
  ∧ in_ports (fr_dst_port_lower rule) (fr_dst_port_upper rule) (ntohs (df_trans_dst_port df)).

(** The switch lets a TCP or UDP packet through on the protocol alone. *)
Lemma rule_switch_tcp_udp :
  (rule_switch rule df = None ∧ rule_protocol_ok)
  ∨ (rule_switch rule df = Some false ∧ ¬ rule_protocol_ok).
Proof.
  unfold rule_switch, rule_protocol_ok. destruct Hl4 as [-> | ->]; simpl;
    destruct (Z.eqb_spec (fr_protocol rule) DP_FWALL_MATCH_ANY_PROTOCOL) as [E1|E1];
    rewrite ?andb_false_r, ?andb_true_r; simpl; auto;
    match goal with |- context [fr_protocol rule =? ?x] =>
      destruct (Z.eqb_spec (fr_protocol rule) x); simpl; [auto|right; split; [done|tauto]] end.
Qed.

Lemma ports_test_spec lower upper port :
  (lower =? DP_FWALL_MATCH_ANY_PORT) || ((lower <=? port) && (port <=? upper)) = true
  ↔ in_ports lower upper port.
Proof. unfold in_ports. rewrite orb_true_iff, andb_true_iff, Z.eqb_eq, !Z.leb_le. tauto. Qed.

(** The tail of the comparison, common to both address families. *)
Lemma dp_is_rule_matching_tail :
  (if is_v6 (fr_src_ip rule) then RTE_ETHER_TYPE_IPV6 else RTE_ETHER_TYPE_IPV4) = df_l3_type df →
  dp_is_rule_matching rule df = true
  ↔ rule_protocol_ok ∧ rule_addresses rule df = true ∧ rule_ports_ok.
Proof.
  intros Hfam. unfold dp_is_rule_matching. rewrite Hfam, Z.eqb_refl. cbn [negb andb].
  destruct rule_switch_tcp_udp as [[-> Hp]|[-> Hp]]; [|naive_solver].
  assert (((df_l4_type df =? IPPROTO_ICMP) || (df_l4_type df =? IPPROTO_ICMPV6)) = false) as ->.
  { by destruct Hl4 as [-> | ->]. }
  cbn [andb]. destruct (rule_addresses rule df); cbn [negb]; [|naive_solver].
  unfold rule_ports_ok. rewrite !andb_true_iff, !ports_test_spec.
  rewrite orb_true_iff, !Z.eqb_eq. unfold rule_protocol_ok in *. tauto.
Qed.
End rule_matching.

(** C24. An IPv4 rule for TCP or UDP made from two prefixes matches exactly the
    packets of its protocol whose addresses lie in the prefixes and whose ports
    lie in the ranges. *)
Theorem rule_matches_prefixes_v4 rule df ns nd :
  df_l4_type df = IPPROTO_TCP ∨ df_l4_type df = IPPROTO_UDP →
  df_l3_type df = RTE_ETHER_TYPE_IPV4 →
  is_v6 (fr_src_ip rule) = false → is_v6 (fr_dest_ip rule) = false →
  0 ≤ ns → Ipv4PrefixLenToMask ns = Some (word32_of 0 (fr_src_mask rule)) →
  0 ≤ nd → Ipv4PrefixLenToMask nd = Some (word32_of 0 (fr_dest_mask rule)) →
  dp_is_rule_matching rule df = true
  ↔ rule_protocol_ok rule df
    ∧ in_prefix4 ns (ntohl (df_src_addr df)) (ipv4 (fr_src_ip rule))
    ∧ in_prefix4 nd (ntohl (df_dst_addr df)) (ipv4 (fr_dest_ip rule))
    ∧ rule_ports_ok rule df.
Proof.
  intros Hl4 Hl3 Hs6 Hd6 Hns Hms Hnd Hmd.
  rewrite dp_is_rule_matching_tail by (done || by rewrite Hs6, Hl3).
  unfold rule_addresses. rewrite Hl3, Z.eqb_refl, andb_true_iff, !Z.eqb_eq.
  rewrite (mask4_in_prefix ns), (mask4_in_prefix nd); auto with dps; try apply word32_of_range.
  tauto.
Qed.

(** The same for IPv6; the prefixes are those of the addresses as they are on
    the wire. *)
Theorem rule_matches_prefixes_v6 rule df ns nd :
  df_l4_type df = IPPROTO_TCP ∨ df_l4_type df = IPPROTO_UDP →
  df_l3_type df = RTE_ETHER_TYPE_IPV6 → dp_flow_ok df →
  is_v6 (fr_src_ip rule) = true → is_v6 (fr_dest_ip rule) = true →
  is_u128 (ipv6 (fr_src_ip rule)) → is_u128 (ipv6 (fr_dest_ip rule)) →
  0 ≤ ns → Ipv6PrefixLenToMask ns = Some (fr_src_mask rule) →
  0 ≤ nd → Ipv6PrefixLenToMask nd = Some (fr_dest_mask rule) →
  dp_is_rule_matching rule df = true
  ↔ rule_protocol_ok rule df
    ∧ in_prefix6 ns (df_src_addr6 df) (ipv6 (fr_src_ip rule))
    ∧ in_prefix6 nd (df_dst_addr6 df) (ipv6 (fr_dest_ip rule))
    ∧ rule_ports_ok rule df.
Proof.
  intros Hl4 Hl3 [Hdst Hsrc _ _] Hs6 Hd6 Hsr Hdr Hns Hms Hnd Hmd.
  rewrite dp_is_rule_matching_tail by (done || by rewrite Hs6, Hl3).
  unfold rule_addresses. rewrite Hl3.
  change (RTE_ETHER_TYPE_IPV6 =? RTE_ETHER_TYPE_IPV4) with false. cbn match. rewrite Z.eqb_refl, andb_true_iff, !Z.eqb_eq.
  pose proof (mask6_nonneg _ _ Hms). pose proof (mask6_nonneg _ _ Hmd).
  rewrite !dp_apply_ipv6_mask_land by done.
  rewrite (mask6_in_prefix ns), (mask6_in_prefix nd) by done. tauto.
Qed.

(** A prefix length comes back from the mask it was turned into. *)
Theorem prefix_len_roundtrip n m :
  0 ≤ n →
  (Ipv4PrefixLenToMask n = Some m → rule_prefix_len false m = n)
  ∧ (Ipv6PrefixLenToMask n = Some m → rule_prefix_len true m = n).
Proof.
  intros Hn.
  assert (H4 : forallb (λ n, match Ipv4PrefixLenToMask n with
                 | Some m => rule_prefix_len false m =? n | None => false end) (seqZ 0 33) = true)
    by (vm_compute; reflexivity).
  assert (H6 : forallb (λ n, match Ipv6PrefixLenToMask n with
                 | Some m => rule_prefix_len true m =? n | None => false end) (seqZ 0 129) = true)
    by (vm_compute; reflexivity).
  rewrite forallb_forall in H4, H6. split; intros Hm.
  - specialize (H4 n). rewrite Hm in H4. apply Z.eqb_eq, H4, list_elem_of_In, elem_of_seqZ.
    unfold Ipv4PrefixLenToMask in Hm. case_match; zbool; [done|lia].
  - specialize (H6 n). rewrite Hm in H6. apply Z.eqb_eq, H6, list_elem_of_In, elem_of_seqZ.
    unfold Ipv6PrefixLenToMask in Hm. case_match; zbool; [done|lia].
Qed.

(** ** Examples *)

(** 10.0.0.0/8 to anywhere; [2001:db8::/32] to anywhere. *)
Definition ex_rule4 : dp_fwall_rule :=
  MkRule [1] (MkIp 167772160 false) (MkIp 0 false) 4278190080 0 0 IPPROTO_TCP DP_FWALL_MATCH_ANY_PORT 0
    80 90 DP_FWALL_ACCEPT DP_FWALL_INGRESS.
Definition ex_df10 : dp_flow :=
  dp_init_flow_ptr <| df_l3_type := RTE_ETHER_TYPE_IPV4 |> <| df_l4_type := IPPROTO_TCP |>
    <| df_src_addr6 := htonl 167837696 |> <| df_trans_dst_port := htons 80 |>.

Lemma rule_matches_prefixes_v4_witness : in_prefix4 8 (ntohl (df_src_addr ex_df10)) 167772160.
Proof.
  apply (rule_matches_prefixes_v4 ex_rule4 ex_df10 8 0); try reflexivity; try lia. left. reflexivity.
Defined.

Definition ex_rule6 : dp_fwall_rule :=
  MkRule [1] (MkIp (of_bytes [32; 1; 13; 184]) true) (MkIp 0 true) 4294967295 0 0 IPPROTO_TCP
    DP_FWALL_MATCH_ANY_PORT 0 80 90 DP_FWALL_ACCEPT DP_FWALL_INGRESS.
Definition ex_df6 : dp_flow :=
  ex_df10 <| df_l3_type := RTE_ETHER_TYPE_IPV6 |> <| df_src_addr6 := of_bytes [32; 1; 13; 184; 7] |>.

Lemma rule_matches_prefixes_v6_witness :
  in_prefix6 32 (df_src_addr6 ex_df6) (ipv6 (fr_src_ip ex_rule6)).
Proof.
  apply (rule_matches_prefixes_v6 ex_rule6 ex_df6 32 0); try reflexivity; try lia.
  - left. reflexivity.
  - by constructor.
  - by split.
  - by split.
Defined.

Lemma prefix_len_roundtrip_witness :
  rule_prefix_len false 4278190080 = 8 ∧ rule_prefix_len true 4294967295 = 32.
Proof.
  split.
  - refine (proj1 (prefix_len_roundtrip 8 4278190080 _) _); [lia|reflexivity].
  - refine (proj2 (prefix_len_roundtrip 32 4294967295 _) _); [lia|reflexivity].
Defined.
