(* ===== verification/Rib.v ===== *)
(** * DPDK's routing tables ([rte_rib] and [rte_rib6])

    A table holds one node per prefix; a node carries the next hop and, for
    routes over the underlay, the extension dpservice asked for.  The operations
    are those of the class [RteRib], what dpservice relies on are the laws of
    [RteRibOk]; the last section has an instance. *)

From S2P Require Import Prelude Dpdk Error Types Responder Port Firewall GrpcConv.

Inductive rib_family := Rib4 | Rib6.
Global Instance rib_family_eq_dec : EqDecision rib_family.
Proof. solve_decision. Defined.

Definition rib_max_depth (fam : rib_family) : Z := match fam with Rib4 => 32 | Rib6 => 128 end.

(** The first [d] bits of an address: an IPv4 address is in host order, an IPv6
    address is the array of its bytes. *)
Definition rib_mask (fam : rib_family) (d a : Z) : Z :=
  match fam with
  | Rib4 => a / 2 ^ (32 - d) * 2 ^ (32 - d)
  | Rib6 => Z.land a (foldl set_mask_bit 0 (seqZ 0 d))
  end.

Definition in_prefix (fam : rib_family) (d a b : Z) : Prop :=
  match fam with Rib4 => in_prefix4 d a b | Rib6 => in_prefix6 d a b end.

Definition rib_depth_ok (fam : rib_family) (d : Z) : bool := (0 <=? d) && (d <=? rib_max_depth fam).

(** [struct dp_iface_route], the extension of a node (include/dp_lpm.h). *)
Record dp_iface_route := MkRoute { rt_vni : Z; rt_nh_ipv6 : Z }.

Record rib_data := MkRibData { rd_nh : Z; rd_ext : dp_iface_route }.
Global Instance rib_data_eta : Eta rib_data := λ r, MkRibData (rd_nh r) (rd_ext r).

(** A pointer to a node is the prefix it stands for. *)
Definition rib_node : Type := Z * Z.

(** The node of a prefix. *)
Definition node_of (fam : rib_family) (ip depth : Z) : rib_node := (rib_mask fam depth ip, depth).

Class RteRib := {
  rib : rib_family → Type;
  rib_new fam : rib fam;
  rib_lookup_exact {fam} : Z → Z → rib fam → option rib_node;
  rib_lookup {fam} : Z → rib fam → option rib_node;
  rib_insert {fam} : Z → Z → rib fam → option rib_node * rib fam;
  rib_remove {fam} : Z → Z → rib fam → rib fam;
  (** the node after the given one among those below the prefix *)
  rib_get_nxt {fam} : Z → Z → option rib_node → rib fam → option rib_node;
  (** reading and writing the data of a node *)
  rib_get {fam} : rib_node → rib fam → rib_data;
  rib_set {fam} : rib_node → rib_data → rib fam → rib fam
}.

Class RteRibOk `{RteRib} := {
  routes {fam} : rib fam → gmap rib_node rib_data;
  rib_new_empty fam : routes (rib_new fam) = ∅;
  rib_lookup_exact_some {fam} (r : rib fam) ip d n :
    rib_lookup_exact ip d r = Some n →
    rib_depth_ok fam d = true ∧ n = node_of fam ip d ∧ is_Some (routes r !! n);
  rib_lookup_exact_none {fam} (r : rib fam) ip d :
    rib_lookup_exact ip d r = None → rib_depth_ok fam d = true →
    routes r !! node_of fam ip d = None;
  rib_lookup_some {fam} (r : rib fam) ip n :
    rib_lookup ip r = Some n →
    is_Some (routes r !! n) ∧ rib_mask fam n.2 ip = n.1
    ∧ ∀ n', is_Some (routes r !! n') → rib_mask fam n'.2 ip = n'.1 → n'.2 ≤ n.2;
  rib_lookup_none {fam} (r : rib fam) ip n :
    rib_lookup ip r = None → is_Some (routes r !! n) → rib_mask fam n.2 ip ≠ n.1;
  (** the data of a new node is whatever its memory held *)
  rib_insert_some {fam} (r r' : rib fam) ip d n :
    rib_insert ip d r = (Some n, r') →
    rib_depth_ok fam d = true ∧ n = node_of fam ip d ∧ ∃ e, routes r' = <[n := e]> (routes r);
  rib_insert_none {fam} (r r' : rib fam) ip d :
    rib_insert ip d r = (None, r') → routes r' = routes r;
  rib_remove_routes {fam} (r : rib fam) ip d :
    rib_depth_ok fam d = true →
    routes (rib_remove ip d r) = delete (node_of fam ip d) (routes r);
  rib_get_routes {fam} (r : rib fam) n e : routes r !! n = Some e → rib_get n r = e;
  rib_set_routes {fam} (r : rib fam) n e :
    is_Some (routes r !! n) → routes (rib_set n e r) = <[n := e]> (routes r);
  rib_get_nxt_all {fam} (r : rib fam) :
    ∃ l, NoDup l ∧ (∀ n, n ∈ l ↔ is_Some (routes r !! n) ∧ n.2 ≠ 0)
      ∧ rib_get_nxt 0 0 None r = head l
      ∧ ∀ i n, l !! i = Some n → rib_get_nxt 0 0 (Some n) r = l !! S i
}.

Lemma rib_mask_in_prefix fam d a b :
  rib_depth_ok fam d = true → rib_mask fam d a = rib_mask fam d b ↔ in_prefix fam d a b.
Proof.
  unfold rib_depth_ok. intros Hd. zbool. destruct fam; simpl in *.
  - unfold in_prefix4. assert (0 < 2 ^ (32 - d)) by (apply Z.pow_pos_nonneg; lia). nia.
  - apply mask6_in_prefix; [done|]. unfold Ipv6PrefixLenToMask.
    by rewrite (proj2 (Z.ltb_ge 128 d)) by lia.
Qed.

(** ** An instance *)

Section instance.

(** The longest prefix among the ones that match. *)
Fixpoint longest (l : list rib_node) : option rib_node :=
  match l with
  | [] => None
  | n :: l => match longest l with
              | Some n' => if n.2 <=? n'.2 then Some n' else Some n
              | None => Some n
              end
  end.

Definition rib_keys (r : gmap rib_node rib_data) : list rib_node := (map_to_list r).*1.

Definition gmap_rib_below (r : gmap rib_node rib_data) : list rib_node :=
  filter (λ n, n.2 ≠ 0) (rib_keys r).

Definition gmap_rib_nxt (last : option rib_node) (r : gmap rib_node rib_data) : option rib_node :=
  let l := gmap_rib_below r in
  match last with
  | None => head l
  | Some n => match list_find (n =.) l with Some (i, _) => l !! S i | None => None end
  end.

Definition gmap_rib : RteRib := {|
  rib fam := gmap rib_node rib_data;
  rib_new fam := ∅;
  rib_lookup_exact fam ip d r :=
    let n := node_of fam ip d in
    if rib_depth_ok fam d then match r !! n with Some _ => Some n | None => None end else None;
  rib_lookup fam ip r := longest (filter (λ n, rib_mask fam n.2 ip = n.1) (rib_keys r));
  rib_insert fam ip d r :=
    let n := node_of fam ip d in
    if rib_depth_ok fam d then
      match r !! n with
      | Some _ => (None, r)
      | None => (Some n, <[n := MkRibData 0 (MkRoute 0 0)]> r)
      end
    else (None, r);
  rib_remove fam ip d r := delete (node_of fam ip d) r;
  rib_get_nxt fam ip d last r := gmap_rib_nxt last r;
  rib_get fam n r := default (MkRibData 0 (MkRoute 0 0)) (r !! n);
  rib_set fam n e r := <[n := e]> r
|}.

Lemma elem_of_rib_keys r n : n ∈ rib_keys r ↔ is_Some (r !! n).
Proof.
  unfold rib_keys. rewrite list_elem_of_fmap. split.
  - intros ([n' e] & -> & Hin). apply elem_of_map_to_list in Hin. by eexists.
  - intros [e He]. exists (n, e). by rewrite elem_of_map_to_list.
Qed.

Lemma longest_Some l n : longest l = Some n → n ∈ l ∧ ∀ n', n' ∈ l → n'.2 ≤ n.2.
Proof.
  revert n. induction l as [|m l IH]; intros n; [done|]. cbn [longest].
  destruct (longest l) as [m'|] eqn:Hl.
  - destruct (IH m' eq_refl) as [Hin Hmax]. destruct (Z.leb_spec m.2 m'.2); intros [= <-].
    + split; [set_solver|]. intros n' [->|Hn']%elem_of_cons; [done|auto].
    + split; [set_solver|]. intros n' [->|Hn']%elem_of_cons; [lia|]. specialize (Hmax n' Hn'). lia.
  - intros [= <-]. destruct l as [|x l]; [set_solver|]. cbn [longest] in Hl. repeat case_match; done.
Qed.

Lemma longest_None l : longest l = None → l = [].
Proof. destruct l as [|x l]; [done|]. cbn [longest]. by repeat case_match. Qed.

Lemma gmap_rib_below_NoDup r : NoDup (gmap_rib_below r).
Proof. apply NoDup_filter, NoDup_fst_map_to_list. Qed.

Lemma gmap_rib_nxt_at r i n :
  gmap_rib_below r !! i = Some n → gmap_rib_nxt (Some n) r = gmap_rib_below r !! S i.
Proof.
  intros Hi. unfold gmap_rib_nxt. assert (list_find (n =.) (gmap_rib_below r) = Some (i, n)) as ->; [|done].
  apply list_find_Some. split_and!; [done|done|]. intros j m Hj Hlt ->.
  assert (i = j) by (by eapply NoDup_lookup; [apply gmap_rib_below_NoDup|..]). lia.
Qed.

Definition gmap_rib_ok : @RteRibOk gmap_rib.
Proof.
  refine (@Build_RteRibOk gmap_rib (λ fam (r : gmap rib_node rib_data), r) _ _ _ _ _ _ _ _ _ _ _);
    simpl; intros fam.
  - done.
  - intros r ip d n. case_match; [|done]. case_match eqn:E; [|done].
    intros [= <-]. split_and!; [done|done|]. by eexists.
  - intros r ip d Hl Hd. rewrite Hd in Hl. by case_match.
  - intros r ip n [Hin Hmax]%longest_Some. apply list_elem_of_filter in Hin as [Hm Hin].
    rewrite elem_of_rib_keys in Hin. split_and!; [done|done|]. intros n' Hn' Hm'. apply Hmax.
    apply list_elem_of_filter. by rewrite elem_of_rib_keys.
  - intros r ip n Hl%longest_None Hn Hm. eapply filter_nil_not_elem_of; [exact Hl|exact Hm|].
    by rewrite elem_of_rib_keys.
  - intros r r' ip d n. repeat case_match; intros; simplify_eq. split_and!; [done|done|]. by eexists.
  - intros r r' ip d. by repeat case_match; intros; simplify_eq.
  - done.
  - intros r n e ->. done.
  - done.
  - intros r. exists (gmap_rib_below r). split_and!; [apply gmap_rib_below_NoDup| |done|].
    + intros n. unfold gmap_rib_below. rewrite list_elem_of_filter, elem_of_rib_keys. tauto.
    + apply gmap_rib_nxt_at.
Defined.
End instance.

Definition test_rib : RteRib := gmap_rib.
Definition test_rib_ok : @RteRibOk test_rib := gmap_rib_ok.
