(* ===== verification/Lb.v ===== *)
(** * Load balancers (src/dp_lb.c, include/dp_lb.h)

    Two tables: [ipv4_lb_tbl] from a VNI and address to the load balancer, and
    [id_map_lb_tbl] from the id the client uses to a copy of that key.  The
    slots of the backends are 16-byte arrays whose first word tells whether the
    slot is taken. *)

From S2P Require Import Prelude Dpdk Error Types Responder.

Definition DP_LB_MAX_IPS_PER_VIP : Z := 64.
Definition DP_LB_MAX_PORTS : Z := 16.

Record lb_key := MkLbKey { lk_vni : Z; lk_ip : dp_ip_address }.
Global Instance lb_key_eq_dec : EqDecision lb_key.
Proof. solve_decision. Defined.
Global Instance lb_key_countable : Countable lb_key :=
  inj_countable' (λ k, (lk_vni k, lk_ip k)) (λ x, MkLbKey x.1 x.2) (λ '(MkLbKey _ _), eq_refl).

Record lb_port := MkLbPort { lp_protocol : Z; lp_port : Z }.

Record lb_value := MkLbValue {
  lv_lb_id : list Z;
  lv_ports : list lb_port;
  lv_back_end_ips : list Z;
  lv_last_sel_pos : Z;
  lv_back_end_cnt : Z;
  lv_lb_ul_addr : Z
}.
Global Instance lb_value_eta : Eta lb_value := λ r,
  MkLbValue (lv_lb_id r) (lv_ports r) (lv_back_end_ips r) (lv_last_sel_pos r)
    (lv_back_end_cnt r) (lv_lb_ul_addr r).

Definition zero_lb_value : lb_value :=
  MkLbValue (replicate 64 0) (replicate 16 (MkLbPort 0 0)) (replicate 64 0) 0 0 0.

(** [struct dpgrpc_lb]; the ports are in host order. *)
Record dpgrpc_lb := MkGrpcLb {
  gl_lb_id : list Z;
  gl_addr : dp_ip_address;
  gl_vni : Z;
  gl_lbports : list lb_port;
  gl_ul_addr6 : Z
}.

(** ** One load balancer *)

(** [back_end_ips[k][0]] *)
Definition slot_word (val : lb_value) (k : Z) : Z :=
  word32_of 0 (default 0 (lv_back_end_ips val !! Z.to_nat k)).

Definition dp_lb_last_free_pos (val : lb_value) : Z :=
  match for_find (λ k, slot_word val k =? 0) 0 DP_LB_MAX_IPS_PER_VIP with
  | Some k => k
  | None => -1
  end.

(** [rte_rib6_is_equal] of a slot and an address. *)
Definition slot_is (val : lb_value) (b_ip : Z) (k : Z) : bool :=
  bool_decide (lv_back_end_ips val !! Z.to_nat k = Some b_ip).

Definition dp_lb_delete_back_ip (val : lb_value) (b_ip : Z) : Z * lb_value :=
  match for_find (slot_is val b_ip) 0 DP_LB_MAX_IPS_PER_VIP with
  | Some i =>
      (DP_GRPC_OK,
       val <| lv_back_end_ips := <[Z.to_nat i := 0]> (lv_back_end_ips val) |>
           <| lv_back_end_cnt := u16 (lv_back_end_cnt val - 1) |>)
  | None => (DP_GRPC_ERR NOT_FOUND, val)
  end.

Definition dp_lb_is_back_ip_inserted (val : lb_value) (b_ip : Z) : bool :=
  match for_find (slot_is val b_ip) 0 DP_LB_MAX_IPS_PER_VIP with Some _ => true | None => false end.

(** The loop over the ports: whether a backend is selected after it. *)
Fixpoint lb_port_scan (wanted : lb_port) (ports : list lb_port) : bool :=
  match ports with
  | [] => true
  | q :: ports =>
      if (lp_port q =? lp_port wanted) && (lp_protocol q =? lp_protocol wanted) then true
      else if lp_port q =? 0 then false
      else lb_port_scan wanted ports
  end.

Definition dp_lb_rr_backend (val : lb_value) (lb_port : lb_port) : Z :=
  if negb (lb_port_scan lb_port (lv_ports val)) then -1
  else if lv_back_end_cnt val =? 1 then
    match for_find (λ k, negb (slot_word val k =? 0)) 0 DP_LB_MAX_IPS_PER_VIP with
    | Some k => k
    | None => -1
    end
  else
    match for_find (λ k, negb (slot_word val (k mod DP_LB_MAX_IPS_PER_VIP) =? 0)
                         && negb (k =? lv_last_sel_pos val))
                   (lv_last_sel_pos val) DP_LB_MAX_IPS_PER_VIP with
    | Some k => k mod DP_LB_MAX_IPS_PER_VIP
    | None => -1
    end.

(** [rte_memcpy(&back_end_ips[pos][0], back_ip, ip_size)] *)
Definition copy_bytes (size src dst : Z) : Z :=
  dst / 2 ^ (8 * size) * 2 ^ (8 * size) + src mod 2 ^ (8 * size).

(** ** The tables *)

Record lb_state `{RteHash} `{RteMalloc} := MkLbState {
  ipv4_lb_tbl : otable lb_key lb_value;
  id_map_lb_tbl : otable (list Z) lb_key
}.
Arguments MkLbState {_ _} _ _.

Section lb.
Context `{HH : RteHash} `{HM : RteMalloc}.

Definition lbT : lens lb_state (otable lb_key lb_value) :=
  Lens ipv4_lb_tbl (λ t s, MkLbState t (id_map_lb_tbl s)).
Definition idT : lens lb_state (otable (list Z) lb_key) :=
  Lens id_map_lb_tbl (λ t s, MkLbState (ipv4_lb_tbl s) t).

Definition DP_LB_TABLE_MAX : Z := 256.

Definition dp_lb_init (st1 st2 : malloc_state) : Z * option lb_state :=
  match dp_create_jhash_table DP_LB_TABLE_MAX st1 with
  | None => (DP_ERROR, None)
  | Some t1 =>
      match dp_create_jhash_table DP_LB_TABLE_MAX st2 with
      | None => (DP_ERROR, None)
      | Some t2 => (DP_OK, Some (MkLbState t1 t2))
      end
  end.

Definition dp_map_lb_handle (id_key : list Z) (l_key : lb_key) (l_val : loc) : cmd lb_state Z :=
  lb_k ← zoom idT (ot_malloc l_key);
  match lb_k with
  | None => mret DP_ERROR
  | Some lb_k =>
      v ← zoom lbT (ot_load l_val);
      zoom lbT (ot_store l_val (v <| lv_lb_id := id_key |>));;
      ret ← zoom idT (ot_add id_key lb_k);
      if DP_FAILED ret then zoom idT (ot_free lb_k);; mret ret
      else mret DP_OK
  end.

Definition dp_create_lb (lb : dpgrpc_lb) (ul_ip : Z) : cmd lb_state Z :=
  let lb_key := MkLbKey (gl_vni lb) (dp_copy_ipaddr (gl_addr lb)) in
  found ← zoom lbT (ot_lookup lb_key);
  if negb (DP_FAILED found.1) then mret (DP_GRPC_ERR ALREADY_EXISTS)
  else
    lb_val ← zoom lbT (ot_malloc zero_lb_value);
    match lb_val with
    | None => mret (DP_GRPC_ERR OUT_OF_MEMORY)
    | Some lb_val =>
        ret ← zoom lbT (ot_add lb_key lb_val);
        if DP_FAILED ret then
          zoom lbT (ot_free lb_val);; mret (DP_GRPC_ERR OUT_OF_MEMORY)
        else
          ret ← dp_map_lb_handle (gl_lb_id lb) lb_key lb_val;
          if DP_FAILED ret then
            zoom lbT (ot_free lb_val);; mret (DP_GRPC_ERR OUT_OF_MEMORY)
          else
            v ← zoom lbT (ot_load lb_val);
            zoom lbT (ot_store lb_val
              (v <| lv_lb_ul_addr := ul_ip |>
                 <| lv_ports := (λ q, MkLbPort (lp_protocol q) (htons (lp_port q))) <$> gl_lbports lb |>));;
            mret DP_GRPC_OK
    end.

(** The common head of the functions that take an id: the key and the value
    the id stands for, or the codes for a missing id and a missing value. *)
Definition lb_of_id {A} (id_key : list Z) (no_id no_val : cmd lb_state A)
    (k : loc → lb_key → loc → cmd lb_state A) : cmd lb_state A :=
  r ← zoom idT (ot_lookup id_key);
  if DP_FAILED r.1 then no_id
  else
    match r.2 with
    | None => fault
    | Some lb_k =>
        key ← zoom idT (ot_load lb_k);
        r ← zoom lbT (ot_lookup key);
        if DP_FAILED r.1 then no_val
        else match r.2 with Some lb_val => k lb_k key lb_val | None => fault end
    end.

Definition dp_get_lb (id_key : list Z) (out_lb : dpgrpc_lb) : cmd lb_state (Z * dpgrpc_lb) :=
  lb_of_id id_key (mret (DP_GRPC_ERR NOT_FOUND, out_lb)) (mret (DP_GRPC_ERR NO_BACKIP, out_lb))
    (λ _ key lb_val,
       v ← zoom lbT (ot_load lb_val);
       mret (DP_GRPC_OK,
             MkGrpcLb (gl_lb_id out_lb) (dp_copy_ipaddr (lk_ip key)) (lk_vni key)
               ((λ q, MkLbPort (lp_protocol q) (ntohs (lp_port q))) <$> lv_ports v)
               (lv_lb_ul_addr v))).

Definition dp_delete_lb (id_key : list Z) : cmd lb_state Z :=
  r ← zoom idT (ot_lookup id_key);
  if DP_FAILED r.1 then mret (DP_GRPC_ERR NOT_FOUND)
  else
    match r.2 with
    | None => fault
    | Some lb_k =>
        key ← zoom idT (ot_load lb_k);
        r ← zoom lbT (ot_lookup key);
        (if DP_FAILED r.1 then mret tt
         else match r.2 with
              | None => fault
              | Some lb_val => zoom lbT (ot_free lb_val;; (ot_del key ≫= λ _, mret tt))
              end);;
        zoom idT (ot_free lb_k;; (ot_del id_key ≫= λ _, mret tt));;
        mret DP_GRPC_OK
    end.

Definition dp_is_lb_enabled : cmd lb_state bool :=
  gets (λ s, 0 <? rte_hash_count (ot_tbl (ipv4_lb_tbl s))).

Definition dp_is_ip_lb (df : dp_flow) (vni : Z) : cmd lb_state bool :=
  let lookup ip :=
    r ← zoom lbT (ot_lookup (MkLbKey vni ip)); mret (negb (DP_FAILED r.1)) in
  if df_l3_type df =? RTE_ETHER_TYPE_IPV4 then lookup (DP_SET_IPADDR4 (ntohl (df_dst_addr df)))
  else if df_l3_type df =? RTE_ETHER_TYPE_IPV6 then lookup (DP_SET_IPADDR6 (df_dst_addr6 df))
  else mret false.

(** The address the returned pointer points to, or [None] for NULL. *)
Definition dp_lb_get_backend_ip (key : flow_key) (vni : Z) : cmd lb_state (option Z) :=
  let lb_key := MkLbKey vni (dp_copy_ipaddr (fk_l3_dst key)) in
  r ← zoom lbT (ot_lookup lb_key);
  if r.1 <? 0 then mret None
  else
    match r.2 with
    | None => fault
    | Some p =>
        v ← zoom lbT (ot_load p);
        let pos := dp_lb_rr_backend v (MkLbPort (fk_proto key) (htons (fk_port_dst key))) in
        if pos <? 0 then mret None
        else
          zoom lbT (ot_store p (v <| lv_last_sel_pos := u16 pos |>));;
          match lv_back_end_ips v !! Z.to_nat pos with
          | Some ip => mret (Some ip)
          | None => fault
          end
    end.

Definition dp_add_lb_back_ip (id_key : list Z) (back_ip ip_size : Z) : cmd lb_state Z :=
  lb_of_id id_key (mret (DP_GRPC_ERR NO_LB)) (mret (DP_GRPC_ERR NO_BACKIP))
    (λ _ _ lb_val,
       v ← zoom lbT (ot_load lb_val);
       if dp_lb_is_back_ip_inserted v back_ip then mret (DP_GRPC_ERR ALREADY_EXISTS)
       else
         let pos := dp_lb_last_free_pos v in
         if pos <? 0 then mret (DP_GRPC_ERR LIMIT_REACHED)
         else
           let slot := default 0 (lv_back_end_ips v !! Z.to_nat pos) in
           zoom lbT (ot_store lb_val
             (v <| lv_back_end_ips := <[Z.to_nat pos := copy_bytes ip_size back_ip slot]>
                                        (lv_back_end_ips v) |>
                <| lv_back_end_cnt := u16 (lv_back_end_cnt v + 1) |>));;
           mret DP_GRPC_OK).

Definition dp_del_lb_back_ip (id_key : list Z) (back_ip : Z) : cmd lb_state Z :=
  lb_of_id id_key (mret (DP_GRPC_ERR NO_LB)) (mret (DP_GRPC_ERR NO_BACKIP))
    (λ _ _ lb_val,
       v ← zoom lbT (ot_load lb_val);
       let '(ret, v') := dp_lb_delete_back_ip v back_ip in
       zoom lbT (ot_store lb_val v');;
       mret ret).

(** The listed addresses of a load balancer. *)
Definition taken_slots (val : lb_value) : list Z :=
  filter (λ ip, word32_of 0 ip ≠ 0) (lv_back_end_ips val).

Definition dp_get_lb_back_ips `{RteMempool} (sizeof_reply : Z) (id_key : list Z) (s : lb_state) :
    cmd (dp_grpc_responder dp_ip_address) Z :=
  match lb_of_id id_key (mret (inl (DP_GRPC_ERR NO_LB))) (mret (inl (DP_GRPC_ERR NO_BACKIP)))
          (λ _ _ lb_val, v ← zoom lbT (ot_load lb_val); mret (inr v)) s with
  | None => fault
  | Some (inl err, _) => mret err
  | Some (inr v, _) =>
      dp_grpc_set_multireply sizeof_reply;;
      reply_each ((λ ip, MkIp ip true) <$> taken_slots v)
  end.
End lb.

(** ** Backends of one load balancer *)

Definition taken (val : lb_value) (k : Z) : bool := negb (slot_word val k =? 0).

Definition taken_positions (val : lb_value) : list Z :=
  filter (λ k, taken val k = true) (seqZ 0 DP_LB_MAX_IPS_PER_VIP).

Record lb_ok (val : lb_value) : Prop := {
  lbo_slots : length (lv_back_end_ips val) = 64%nat;
  lbo_last : 0 ≤ lv_last_sel_pos val < DP_LB_MAX_IPS_PER_VIP;
  lbo_cnt : lv_back_end_cnt val = Z.of_nat (length (taken_positions val));
  lbo_empty k ip : lv_back_end_ips val !! k = Some ip → word32_of 0 ip = 0 → ip = 0;
  lbo_nodup i j ip : lv_back_end_ips val !! i = Some ip → lv_back_end_ips val !! j = Some ip →
    word32_of 0 ip ≠ 0 → i = j
}.

(** The slots in the order in which the selection visits them. *)
Definition rotation (last : Z) : list Z :=
  seqZ (last + 1) (63 - last) ++ seqZ 0 (last + 1).

Lemma rotation_mod last :
  0 ≤ last < 64 → rotation last = (λ k, k mod 64) <$> seqZ (last + 1) 64.
Proof.
  intros Hl. unfold rotation. apply list_eq. intros i.
  destruct (decide (Z.of_nat i < 64)) as [Hi|Hi]; last first.
  { rewrite !lookup_ge_None_2; [done|..]; rewrite ?length_fmap, ?length_app, ?length_seqZ; lia. }
  rewrite list_lookup_fmap.
  rewrite lookup_seqZ_lt by lia. simpl.
  destruct (decide (Z.of_nat i < 63 - last)) as [Hi'|Hi'].
  - rewrite lookup_app_l by (rewrite length_seqZ; lia).
    rewrite lookup_seqZ_lt by lia.
    rewrite Z.mod_small by lia. done.
  - rewrite lookup_app_r by (rewrite length_seqZ; lia). rewrite length_seqZ.
    rewrite lookup_seqZ_lt by lia.
    f_equal. rewrite <- (Z.mod_add (last + 1 + Z.of_nat i) (-1)) by lia.
    rewrite Z.mod_small by lia. lia.
Qed.

Lemma rotation_perm last : 0 ≤ last < 64 → rotation last ≡ₚ seqZ 0 64.
Proof.
  intros Hl. unfold rotation. rewrite Permutation_app_comm.
  assert (seqZ 0 64 = seqZ 0 (last + 1) ++ seqZ (last + 1) (63 - last)) as ->; [|done].
  rewrite <- (Z.add_0_l (last + 1)) at 2. rewrite <- seqZ_app by lia. f_equal. lia.
Qed.

(** Rotating to the slot at position [j] of the rotation. *)
Lemma rotation_shift last j p :
  0 ≤ last < 64 → rotation last !! j = Some p →
  rotation p = drop (S j) (rotation last) ++ take (S j) (rotation last).
Proof.
  intros Hl Hj.
  assert (Hj64 : (j < 64)%nat).
  { apply lookup_lt_Some in Hj. unfold rotation in Hj.
    rewrite length_app, !length_seqZ in Hj. lia. }
  rewrite (rotation_mod last) in Hj |- * by done.
  rewrite list_lookup_fmap, lookup_seqZ_lt in Hj by lia.
  cbn in Hj. injection Hj as Hp.
  assert (0 ≤ p < 64) by (rewrite <- Hp; apply Z.mod_pos_bound; lia).
  rewrite rotation_mod by done. apply list_eq. intros i.
  destruct (decide (i < 64)%nat) as [Hi|Hi]; last first.
  { rewrite (lookup_ge_None_2 (fmap _ (seqZ (p + 1) _))) by (rewrite length_fmap, length_seqZ; lia).
    rewrite lookup_ge_None_2; [done|].
    rewrite length_app, length_drop, length_take, !length_fmap, !length_seqZ. lia. }
  rewrite list_lookup_fmap, lookup_seqZ_lt by lia. cbn [fmap option_fmap option_map].
  destruct (decide (i < 63 - j)%nat) as [Hij|Hij].
  - rewrite lookup_app_l by (rewrite length_drop, length_fmap, length_seqZ; lia).
    rewrite lookup_drop, list_lookup_fmap, lookup_seqZ_lt by lia.
    cbn [fmap option_fmap option_map]. f_equal. rewrite <- Hp, <- Z.add_assoc, Z.add_mod_idemp_l by lia. f_equal. lia.
  - rewrite lookup_app_r by (rewrite length_drop, length_fmap, length_seqZ; lia).
    rewrite length_drop, length_fmap, length_seqZ, lookup_take_lt by lia.
    rewrite list_lookup_fmap, lookup_seqZ_lt by lia.
    cbn [fmap option_fmap option_map]. f_equal. rewrite <- Hp, <- Z.add_assoc, Z.add_mod_idemp_l by lia.
    rewrite <- (Z.mod_add _ 1) at 1 by lia.
    replace (last + 1 + Z.of_nat j + (1 + Z.of_nat i) + 1 * 64)
      with (last + 1 + Z.of_nat (i - (Z.to_nat 64 - S j)) + 2 * 64) by lia.
    by rewrite Z.mod_add by lia.
Qed.

(** The slots of the backends, starting after the one used last. *)
Definition backend_cycle (val : lb_value) : list Z :=
  filter (λ k, taken val k = true) (rotation (lv_last_sel_pos val)).

Lemma backend_cycle_perm val : lb_ok val → backend_cycle val ≡ₚ taken_positions val.
Proof.
  intros [_ Hl _ _ _]. unfold backend_cycle, taken_positions. by rewrite rotation_perm.
Qed.

Lemma head_filter_fmap {A B} (f : A → B) (P : B → bool) (l : list A) :
  f <$> head (filter (λ x, P (f x) = true) l) = head (filter (λ y, P y = true) (f <$> l)).
Proof.
  induction l as [|x l IH]; [done|]. rewrite fmap_cons, !filter_cons. by case_decide.
Qed.

(** The selection is the head of that cycle. *)
Lemma rr_backend_head val lb_port :
  lb_ok val → lb_port_scan lb_port (lv_ports val) = true →
  dp_lb_rr_backend val lb_port = default (-1) (head (backend_cycle val)).
Proof.
  intros Hok Hscan. pose proof (backend_cycle_perm val Hok) as Hperm.
  destruct Hok as [Hlen Hlast Hcnt _ _]. change DP_LB_MAX_IPS_PER_VIP with 64 in *.
  unfold dp_lb_rr_backend. rewrite Hscan. cbn [negb].
  destruct (Z.eqb_spec (lv_back_end_cnt val) 1) as [H1|H1].
  - change (for_find _ _ _) with (head (taken_positions val)). rewrite Hcnt in H1.
    destruct (taken_positions val) as [|k [|]] eqn:Ht; simplify_eq/=; try lia.
    apply Permutation_singleton_r in Hperm. by rewrite Hperm.
  - set (last := lv_last_sel_pos val) in *. unfold for_find.
    change DP_LB_MAX_IPS_PER_VIP with 64. rewrite seqZ_cons, filter_cons by lia.
    rewrite decide_False by (rewrite Z.eqb_refl, andb_false_r; done).
    replace (Z.succ last) with (last + 1) by lia. change (Z.pred 64) with 63.
    assert (Hf : filter (λ k, negb (slot_word val (k mod 64) =? 0) && negb (k =? last) = true)
                   (seqZ (last + 1) 63)
                 = filter (λ k, taken val (k mod 64) = true) (seqZ (last + 1) 63)).
    { apply list_filter_ext_in. intros k Hk%elem_of_seqZ. unfold taken.
      assert (k =? last = false) as -> by (apply Z.eqb_neq; lia). by rewrite andb_true_r. }
    rewrite Hf. clear Hf.
    pose proof (head_filter_fmap (λ k, k mod 64) (taken val) (seqZ (last + 1) 63)) as Hh.
    assert (Hcyc : backend_cycle val
      = filter (λ k, taken val k = true) ((λ k, k mod 64) <$> seqZ (last + 1) 63)
        ++ filter (λ k, taken val k = true) [last]).
    { unfold backend_cycle. rewrite rotation_mod by done. fold last.
      change 64 with (63 + 1) at 2. rewrite seqZ_app, fmap_app, filter_app by lia. f_equal.
      rewrite seqZ_cons, seqZ_nil by lia. simpl. rewrite <- (Z.mod_add _ (-1)) by lia.
      rewrite Z.mod_small by lia. by replace (last + 1 + 63 + -1 * 64) with last by lia. }
    rewrite Hcyc in Hperm |- *. apply Permutation_length in Hperm.
    rewrite length_app, <- (Nat2Z.id (length (taken_positions val))), <- Hcnt in Hperm.
    destruct (filter _ ((λ k, k mod 64) <$> _)) as [|k ks] eqn:Hfl.
    + destruct (head (filter _ (seqZ (last + 1) 63))); [done|].
      rewrite filter_cons in Hperm |- *. case_decide; [|done]. simpl in Hperm.
      lia.
    + destruct (head (filter _ (seqZ (last + 1) 63))); [|done]. simplify_eq/=. done.
Qed.

Definition with_last (p : Z) (val : lb_value) : lb_value := val <| lv_last_sel_pos := u16 p |>.

Lemma backend_cycle_range val p :
  lb_ok val → p ∈ backend_cycle val → 0 ≤ p < 64 ∧ taken val p = true.
Proof.
  intros Hok Hp. rewrite (backend_cycle_perm val Hok) in Hp. unfold taken_positions in Hp.
  change DP_LB_MAX_IPS_PER_VIP with 64 in Hp.
  apply list_elem_of_filter in Hp as [? Hp%elem_of_seqZ]. split; [lia|done].
Qed.

Lemma lb_ok_with_last val p : lb_ok val → 0 ≤ p < 64 → lb_ok (with_last p val).
Proof.
  intros [Hlen Hlast Hcnt Hemp Hnd] Hp. constructor; try done. unfold with_last. cbn.
  change DP_LB_MAX_IPS_PER_VIP with 64. rewrite u16_id by (unfold is_u16; lia). done.
Qed.

(** Selecting rotates the cycle by one backend. *)
Lemma backend_cycle_next val p cyc :
  lb_ok val → backend_cycle val = p :: cyc → backend_cycle (with_last p val) = cyc ++ [p].
Proof.
  intros Hok Hcyc. destruct (backend_cycle_range val p Hok) as [Hp Htk]; [rewrite Hcyc; set_solver|].
  unfold backend_cycle in Hcyc.
  destruct (head_filter_Some (λ k, taken val k = true) (rotation (lv_last_sel_pos val)) p)
    as (l1 & l2 & Heq & Hl1); [by rewrite Hcyc|].
  pose proof (list_filter_none _ _ Hl1) as Hf1.
  rewrite Heq, filter_app, Hf1, filter_cons, decide_True in Hcyc by done. simplify_eq/=.
  unfold backend_cycle. change (taken (with_last p val)) with (taken val).
  assert (lv_last_sel_pos (with_last p val) = p) as ->.
  { unfold with_last. cbn. apply u16_id. unfold is_u16. lia. }
  destruct Hok as [_ Hlast _ _ _].
  rewrite (rotation_shift (lv_last_sel_pos val) (length l1)); [|done|].
  - rewrite Heq. rewrite cons_middle, app_assoc.
    rewrite drop_app_length' by (rewrite length_app; simpl; lia).
    rewrite take_app_length' by (rewrite length_app; simpl; lia).
    rewrite !filter_app, Hf1. simpl. by rewrite filter_cons, decide_True.
  - by rewrite Heq, list_lookup_middle.
Qed.

(** Consecutive selections, each remembering its position. *)
Fixpoint selections (n : nat) (lb_port : lb_port) (val : lb_value) : list Z :=
  match n with
  | O => []
  | S n =>
      let pos := dp_lb_rr_backend val lb_port in
      pos :: selections n lb_port (with_last pos val)
  end.

Lemma selections_cycle n lb_port val :
  lb_ok val → lb_port_scan lb_port (lv_ports val) = true →
  (n ≤ length (backend_cycle val))%nat →
  selections n lb_port val = take n (backend_cycle val).
Proof.
  revert val. induction n as [|n IH]; intros val Hok Hscan Hn; [done|]. simpl.
  rewrite rr_backend_head by done.
  destruct (backend_cycle val) as [|p cyc] eqn:Hcyc; simpl in Hn; [lia|]. simpl. f_equal.
  destruct (backend_cycle_range val p Hok) as [Hp _]; [rewrite Hcyc; set_solver|].
  assert (Hnext := backend_cycle_next val p cyc Hok Hcyc).
  rewrite IH; [|by apply lb_ok_with_last|done|].
  - rewrite Hnext. by rewrite take_app_le by lia.
  - rewrite Hnext, length_app. simpl. lia.
Qed.


(** ** The set of backends *)

Definition backends (val : lb_value) : gset Z := list_to_set (taken_slots val).

Lemma elem_of_backends val ip :
  ip ∈ backends val ↔ word32_of 0 ip ≠ 0 ∧ ∃ k, lv_back_end_ips val !! k = Some ip.
Proof.
  unfold backends, taken_slots. rewrite elem_of_list_to_set, list_elem_of_filter.
  by rewrite list_elem_of_lookup.
Qed.

Lemma elem_of_taken_positions val k :
  k ∈ taken_positions val ↔ (0 ≤ k < 64) ∧ taken val k = true.
Proof.
  unfold taken_positions. change DP_LB_MAX_IPS_PER_VIP with 64.
  rewrite list_elem_of_filter, elem_of_seqZ. split; intros; split; (tauto || lia).
Qed.

Lemma NoDup_taken_positions val : NoDup (taken_positions val).
Proof. apply NoDup_filter, NoDup_seqZ. Qed.

Lemma taken_positions_le val : (length (taken_positions val) ≤ 64)%nat.
Proof.
  unfold taken_positions. etrans; [apply length_filter|]. rewrite length_seqZ.
  unfold DP_LB_MAX_IPS_PER_VIP. lia.
Qed.

Lemma slot_lookup val k :
  lb_ok val → 0 ≤ k < 64 → ∃ ip, lv_back_end_ips val !! Z.to_nat k = Some ip ∧ slot_word val k = word32_of 0 ip.
Proof.
  intros [Hlen _ _ _ _] Hk. destruct (lookup_lt_is_Some_2 (lv_back_end_ips val) (Z.to_nat k))
    as [ip Hip]; [lia|]. exists ip. unfold slot_word. by rewrite Hip.
Qed.

(** A load balancer with a backend selects one. *)
Lemma backend_cycle_head val : lb_ok val → backends val ≠ ∅ → ∃ k, head (backend_cycle val) = Some k.
Proof.
  intros Hok Hne. destruct (set_choose_L _ Hne) as (ip & [Hw [k Hk]]%elem_of_backends).
  assert (Z.of_nat k ∈ backend_cycle val) as Hin.
  { rewrite (backend_cycle_perm val Hok). apply elem_of_taken_positions. pose proof (lookup_lt_Some _ _ _ Hk).
    destruct Hok as [Hlen _ _ _ _]. split; [lia|]. unfold taken, slot_word. rewrite Nat2Z.id, Hk. cbn.
    by apply negb_true_iff, Z.eqb_neq. }
  destruct (backend_cycle val); [by apply elem_of_nil in Hin|]. eauto.
Qed.

(** A slot overwritten, and the counter adjusted. *)
Definition with_slot (k : Z) (ip cnt : Z) (val : lb_value) : lb_value :=
  val <| lv_back_end_ips := <[Z.to_nat k := ip]> (lv_back_end_ips val) |>
      <| lv_back_end_cnt := cnt |>.

Lemma taken_with_slot val k ip cnt j :
  lb_ok val → 0 ≤ k < 64 → 0 ≤ j →
  taken (with_slot k ip cnt val) j = if decide (j = k) then negb (word32_of 0 ip =? 0) else taken val j.
Proof.
  intros [Hlen _ _ _ _] Hk Hj. unfold taken, slot_word. cbn.
  case_decide as Hjk; [subst j; rewrite list_lookup_insert_eq by lia; done|].
  rewrite list_lookup_insert_ne by lia. done.
Qed.

Lemma lookup_with_slot val k ip cnt i :
  lb_ok val → 0 ≤ k < 64 →
  lv_back_end_ips (with_slot k ip cnt val) !! i
  = if decide (i = Z.to_nat k) then Some ip else lv_back_end_ips val !! i.
Proof.
  intros [Hlen _ _ _ _] Hk. cbn. case_decide as Hi; [subst i; by rewrite list_lookup_insert_eq by lia|].
  by rewrite list_lookup_insert_ne.
Qed.

(** Filling a free slot. *)
Lemma lb_ok_fill val k ip :
  lb_ok val → 0 ≤ k < 64 → taken val k = false → word32_of 0 ip ≠ 0 → ip ∉ backends val →
  let val' := with_slot k ip (u16 (lv_back_end_cnt val + 1)) val in
  lb_ok val' ∧ backends val' = {[ip]} ∪ backends val.
Proof.
  intros Hok Hk Hfree Hip Hnew val'.
  assert (Hperm : taken_positions val' ≡ₚ k :: taken_positions val).
  { apply NoDup_Permutation; [apply NoDup_taken_positions|apply NoDup_cons; split|].
    - rewrite elem_of_taken_positions, Hfree. by intros [].
    - apply NoDup_taken_positions.
    - intros j. rewrite elem_of_cons, !elem_of_taken_positions. split.
      + intros [Hj Ht]. unfold val' in Ht. rewrite taken_with_slot in Ht by (done || lia).
        case_decide; [by left|by right].
      + intros Hj. assert (0 ≤ j < 64) by naive_solver. split; [done|]. unfold val'.
        rewrite taken_with_slot by (done || lia). case_decide; [|naive_solver].
        apply negb_true_iff, Z.eqb_neq. done. }
  apply Permutation_length in Hperm. simpl in Hperm.
  pose proof (taken_positions_le val) as Hle.
  pose proof Hok as [Hlen Hlast Hcnt Hemp Hnd].
  split; [constructor|].
  - cbn. by rewrite length_insert.
  - done.
  - cbn. rewrite Hcnt, Hperm, u16_id by (unfold is_u16; lia). lia.
  - intros i ip'. unfold val'. rewrite lookup_with_slot by done. case_decide; [|eauto].
    intros [= <-] Hz. done.
  - intros i j ip'. unfold val'. rewrite !lookup_with_slot by done. intros Hi Hj Hw.
    repeat case_decide; simplify_eq; [done|exfalso|exfalso|eauto];
      (apply Hnew, elem_of_backends; split; [done|eauto]).
  - apply set_eq. intros x. rewrite elem_of_union, elem_of_singleton, !elem_of_backends. split.
    + intros [Hw [i Hi]]. unfold val' in Hi. rewrite lookup_with_slot in Hi by done.
      case_decide; simplify_eq; eauto.
    + intros [->|[Hw [i Hi]]].
      * split; [done|]. exists (Z.to_nat k). unfold val'. rewrite lookup_with_slot by done.
        by rewrite decide_True.
      * split; [done|]. exists i. unfold val'. rewrite lookup_with_slot by done.
        case_decide; [|done]. subst i. unfold taken, slot_word in Hfree. rewrite Hi in Hfree.
        simpl in Hfree. zbool. done.
Qed.

(** Clearing a slot. *)
Lemma lb_ok_clear val k ip :
  lb_ok val → 0 ≤ k < 64 → lv_back_end_ips val !! Z.to_nat k = Some ip → word32_of 0 ip ≠ 0 →
  let val' := with_slot k 0 (u16 (lv_back_end_cnt val - 1)) val in
  lb_ok val' ∧ backends val' = backends val ∖ {[ip]}.
Proof.
  intros Hok Hk Hip Hw val'.
  assert (Htk : taken val k = true).
  { unfold taken, slot_word. rewrite Hip. apply negb_true_iff, Z.eqb_neq. done. }
  assert (Hperm : taken_positions val ≡ₚ k :: taken_positions val').
  { apply NoDup_Permutation; [apply NoDup_taken_positions|apply NoDup_cons; split|].
    - rewrite elem_of_taken_positions. unfold val'. rewrite taken_with_slot by (done || lia).
      rewrite decide_True by done. by intros [].
    - apply NoDup_taken_positions.
    - intros j. rewrite elem_of_cons, !elem_of_taken_positions. unfold val'. split.
      + intros [Hj Ht]. destruct (decide (j = k)) as [|Hne]; [by left|right].
        split; [done|]. rewrite taken_with_slot by (done || lia). by rewrite decide_False.
      + intros [->|[Hj Ht]]; [done|]. split; [done|].
        rewrite taken_with_slot in Ht by (done || lia). case_decide; [done|done]. }
  apply Permutation_length in Hperm. simpl in Hperm.
  pose proof (taken_positions_le val) as Hle.
  pose proof Hok as [Hlen Hlast Hcnt Hemp Hnd].
  split; [constructor|].
  - cbn. by rewrite length_insert.
  - done.
  - cbn. rewrite Hcnt, Hperm, u16_id by (unfold is_u16; lia). lia.
  - intros i ip'. unfold val'. rewrite lookup_with_slot by done. case_decide; [|eauto].
    by intros [= <-].
  - intros i j ip'. unfold val'. rewrite !lookup_with_slot by done. intros Hi Hj Hw'.
    repeat case_decide; simplify_eq; (done || eauto).
  - apply set_eq. intros x. rewrite elem_of_difference, elem_of_singleton, !elem_of_backends.
    unfold val'. split.
    + intros [Hwx [i Hi]]. rewrite lookup_with_slot in Hi by done.
      case_decide as Hik; [simplify_eq; done|]. split; [eauto|]. intros ->. eauto.
    + intros [[Hwx [i Hi]] Hx]. split; [done|]. exists i. rewrite lookup_with_slot by done.
      case_decide; [congruence|done].
Qed.

Lemma all_slots_taken v :
  for_find (λ k, slot_word v k =? 0) 0 DP_LB_MAX_IPS_PER_VIP = None →
  length (taken_positions v) = 64%nat.
Proof.
  intros Hf. unfold taken_positions. rewrite list_filter_all; [by rewrite length_seqZ|].
  apply Forall_forall. intros k Hk%elem_of_seqZ.
  unfold taken. by rewrite (for_find_None _ _ _ k Hf).
Qed.

Lemma copy_bytes_all src : is_u128 src → copy_bytes 16 src 0 = src.
Proof.
  intros Hs. unfold copy_bytes. rewrite Z.div_0_l by lia. by apply Z.mod_small.
Qed.

(** The loops that look for an address. *)
Lemma slot_search v ip :
  lb_ok v → word32_of 0 ip ≠ 0 →
  ((∃ i, for_find (slot_is v ip) 0 DP_LB_MAX_IPS_PER_VIP = Some i ∧ (0 ≤ i < 64)
         ∧ lv_back_end_ips v !! Z.to_nat i = Some ip) ∧ ip ∈ backends v)
  ∨ (for_find (slot_is v ip) 0 DP_LB_MAX_IPS_PER_VIP = None ∧ ip ∉ backends v).
Proof.
  intros Hok Hw. destruct (for_find (slot_is v ip) 0 DP_LB_MAX_IPS_PER_VIP) as [i|] eqn:Hf.
  - left. pose proof (for_find_Some _ _ _ _ Hf) as (Hi & Ht & _).
    unfold DP_LB_MAX_IPS_PER_VIP in Hi. apply bool_decide_eq_true in Ht. split.
    + exists i. split; [done|]. split; [lia|done].
    + apply elem_of_backends. eauto.
  - right. split; [done|]. intros [_ [k Hkk]]%elem_of_backends.
    pose proof (lookup_lt_Some _ _ _ Hkk). destruct Hok as [Hlen _ _ _ _].
    pose proof (for_find_None _ _ _ (Z.of_nat k) Hf) as Hff.
    unfold slot_is in Hff. rewrite Nat2Z.id, bool_decide_true in Hff by done.
    unfold DP_LB_MAX_IPS_PER_VIP in Hff. specialize (Hff ltac:(lia)). done.
Qed.

(** Where a new backend goes. *)
Lemma back_ip_cases v ip :
  lb_ok v → word32_of 0 ip ≠ 0 →
  (dp_lb_is_back_ip_inserted v ip = true ∧ ip ∈ backends v)
  ∨ (dp_lb_is_back_ip_inserted v ip = false ∧ ip ∉ backends v
     ∧ dp_lb_last_free_pos v = -1 ∧ length (taken_positions v) = 64%nat)
  ∨ (dp_lb_is_back_ip_inserted v ip = false ∧ ip ∉ backends v
     ∧ ∃ k, dp_lb_last_free_pos v = k ∧ (0 ≤ k < 64)
            ∧ lv_back_end_ips v !! Z.to_nat k = Some 0 ∧ taken v k = false).
Proof.
  intros Hok Hw. unfold dp_lb_is_back_ip_inserted.
  destruct (slot_search v ip Hok Hw) as [[(i & -> & Hi) Hin]|[-> Hnew]]; [by left|right].
  unfold dp_lb_last_free_pos.
  destruct (for_find (λ k, slot_word v k =? 0) 0 DP_LB_MAX_IPS_PER_VIP) as [k|] eqn:Hfree.
  - right. split; [done|]. split; [done|]. exists k.
    apply for_find_Some in Hfree as (Hk64 & Hz & _). unfold DP_LB_MAX_IPS_PER_VIP in Hk64.
    split; [done|]. split; [lia|]. destruct (slot_lookup v k Hok) as (ip0 & Hip0 & Hsw); [lia|].
    split; [|unfold taken; by rewrite Hz]. rewrite Hip0. f_equal.
    zbool. eapply lbo_empty; [done|done|congruence].
  - left. repeat (split; [done|]). by apply all_slots_taken.
Qed.

Lemma delete_back_ip_spec v ip :
  lb_ok v → word32_of 0 ip ≠ 0 →
  ∃ v', dp_lb_delete_back_ip v ip
        = (if decide (ip ∈ backends v) then DP_GRPC_OK else DP_GRPC_ERR NOT_FOUND, v')
    ∧ lb_ok v' ∧ backends v' = backends v ∖ {[ip]}
    ∧ lv_ports v' = lv_ports v ∧ lv_lb_id v' = lv_lb_id v.
Proof.
  intros Hok Hw. unfold dp_lb_delete_back_ip.
  destruct (slot_search v ip Hok Hw) as [[(i & -> & Hi & Hip) Hin]|[-> Hnew]].
  - eexists. rewrite decide_True by done. split; [done|].
    destruct (lb_ok_clear v i ip Hok Hi Hip Hw). done.
  - exists v. rewrite decide_False by done. split_and!; [done|done| |done|done]. set_solver.
Qed.

(** ** The two tables *)

Section lb_facts.
Context `{HH : RteHash} {HO : RteHashOk} `{HM : RteMalloc} {MO : RteMallocOk}.
Implicit Types s : lb_state.

Ltac lb_simpl := cbn [lget lput fst snd idT lbT ipv4_lb_tbl id_map_lb_tbl] in *.

Definition lbs s : gmap lb_key lb_value := view (ipv4_lb_tbl s).
Definition ids s : gmap (list Z) lb_key := view (id_map_lb_tbl s).

(** The tables own their objects, ids and load balancers correspond one to one,
    and every load balancer is well formed. *)
Record lb_inv s : Prop := {
  lbi_wf : wf (ipv4_lb_tbl s);
  lbi_ids_wf : wf (id_map_lb_tbl s);
  lbi_id id key : ids s !! id = Some key → ∃ v, lbs s !! key = Some v ∧ lv_lb_id v = id;
  lbi_val key v : lbs s !! key = Some v → ids s !! lv_lb_id v = Some key;
  lbi_ok key v : lbs s !! key = Some v → lb_ok v
}.

Lemma lb_init_inv st1 st2 s : dp_lb_init st1 st2 = (DP_OK, Some s) → lb_inv s ∧ lbs s = ∅ ∧ ids s = ∅.
Proof.
  unfold dp_lb_init, dp_create_jhash_table.
  destruct (ot_create _ st1) as [t1|] eqn:H1; [|done].
  destruct (ot_create _ st2) as [t2|] eqn:H2; [|done]. intros [= <-].
  apply ot_create_wf in H1 as [Hw1 Hv1]. apply ot_create_wf in H2 as [Hw2 Hv2].
  assert (Hl : lbs (MkLbState t1 t2) = ∅) by done. assert (Hi : ids (MkLbState t1 t2) = ∅) by done.
  split; [|done]. constructor; [done|done|..]; intros *; by rewrite ?Hl, ?Hi, lookup_empty.
Qed.

(** What [dp_create_lb] stores. *)
Definition new_lb (lb : dpgrpc_lb) (ul_ip : Z) : lb_value :=
  MkLbValue (gl_lb_id lb) ((λ q, MkLbPort (lp_protocol q) (htons (lp_port q))) <$> gl_lbports lb)
    (replicate 64 0) 0 0 ul_ip.

Definition key_of (lb : dpgrpc_lb) : lb_key := MkLbKey (gl_vni lb) (gl_addr lb).

Lemma zero_slots k ip : replicate 64 0 !! k = Some ip → ip = 0.
Proof. by intros [-> _]%lookup_replicate. Qed.

Lemma lb_ok_new lb ul_ip : lb_ok (new_lb lb ul_ip).
Proof.
  constructor; try done.
  - by intros k ip ->%zero_slots.
  - intros i j ip ->%zero_slots. done.
Qed.

(** The entry of a load balancer replaced by one with the same id. *)
Lemma lb_inv_update s s' key v v' :
  lb_inv s → lbs s !! key = Some v → lv_lb_id v' = lv_lb_id v → lb_ok v' →
  wf (ipv4_lb_tbl s') → lbs s' = <[key := v']> (lbs s) → id_map_lb_tbl s' = id_map_lb_tbl s →
  lb_inv s'.
Proof.
  intros [Hwf Hwfi Hid Hval Hok] Hv Hv'id Hok' Hwf' Hlbs Hids.
  assert (Hids' : ids s' = ids s) by (unfold ids; by rewrite Hids).
  constructor.
  - done.
  - by rewrite Hids.
  - intros id k. rewrite Hids', Hlbs. intros Hk. destruct (Hid id k Hk) as (v0 & Hv0 & Hv0id).
    rewrite lookup_insert. case_decide; [|eauto]. subst k. exists v'. split; [done|]. congruence.
  - intros k v0. rewrite Hids', Hlbs, lookup_insert. case_decide; [|eauto].
    intros [= <-]. subst k. rewrite Hv'id. eauto.
  - intros k v0. rewrite Hlbs, lookup_insert. case_decide; [by intros [= <-]|]. eauto.
Qed.

Lemma wp_lb_of_id {A} s id no_id no_val k (Q : A → lb_state → Prop) :
  lb_inv s →
  (ids s !! id = None → wp no_id Q s) →
  (∀ lb_k key lb_val v,
     ot_ptrs (id_map_lb_tbl s) !! id = Some lb_k →
     ids s !! id = Some key →
     ot_ptrs (ipv4_lb_tbl s) !! key = Some lb_val → ot_objs (ipv4_lb_tbl s) !! lb_val = Some v →
     lbs s !! key = Some v → lv_lb_id v = id → lb_ok v → wp (k lb_k key lb_val) Q s) →
  wp (lb_of_id id no_id no_val k) Q s.
Proof.
  intros [Hwf Hwfi Hid Hval Hok] Hnone Hsome. unfold lb_of_id. wp_steps.
  destruct s as [tbl idt]. lb_simpl. apply (wp_ot_lookup ∅); [done|..]; lb_simpl.
  - intros pos lb_k key Hpos Hptr Hobj Hview. lb_simpl. rewrite DP_FAILED_pos by done.
    wp_steps. eapply wp_ot_load; [done|]. wp_steps. lb_simpl.
    destruct (Hid id key Hview) as (v & Hv & Hvid). apply (wp_ot_lookup ∅); [done|..]; lb_simpl.
    + intros pos' lb_val v' Hpos' Hp' Ho' Hview'. rewrite DP_FAILED_pos by done.
      unfold lbs in Hv. lb_simpl. rewrite Hview' in Hv. injection Hv as ->. eapply Hsome; eauto.
    + intros Hn. unfold lbs in Hv. lb_simpl. congruence.
  - intros Hn _. rewrite DP_FAILED_ENOENT. by apply Hnone.
Qed.

(** An id or an address that is not there. *)
Lemma lb_inv_insert s s' lb ul_ip :
  lb_inv s → ids s !! gl_lb_id lb = None → lbs s !! key_of lb = None →
  wf (ipv4_lb_tbl s') → wf (id_map_lb_tbl s') →
  lbs s' = <[key_of lb := new_lb lb ul_ip]> (lbs s) → ids s' = <[gl_lb_id lb := key_of lb]> (ids s) →
  lb_inv s'.
Proof.
  intros [Hwf Hwfi Hid Hval Hok] Hnid Hnkey Hwf' Hwfi' Hlbs Hids. constructor; [done|done|..].
  - intros id k. rewrite Hids, Hlbs, !lookup_insert. case_decide as Hd.
    + intros [= <-]. rewrite decide_True by done. eauto.
    + intros Hk. destruct (Hid id k Hk) as (v & Hv & Hvid). exists v.
      rewrite decide_False; [done|]. intros <-. congruence.
  - intros k v. rewrite Hids, Hlbs, !lookup_insert. case_decide as Hd.
    + intros [= <-]. simpl. rewrite decide_True by done. congruence.
    + intros Hv. pose proof (Hval k v Hv). rewrite decide_False; [done|]. intros E. congruence.
  - intros k v. rewrite Hlbs, lookup_insert. case_decide; [|eauto].
    intros [= <-]. apply lb_ok_new.
Qed.

(** What is left of a failed [dp_create_lb]: nothing, or an entry whose object
    has been freed. *)
Definition lb_dangling s key : Prop :=
  ∃ p, ot_ptrs (ipv4_lb_tbl s) !! key = Some p ∧ ot_objs (ipv4_lb_tbl s) !! p = None.

Lemma wp_map_lb_handle s id key p v (Q : Z → lb_state → Prop) :
  wf (ipv4_lb_tbl s) → wf (id_map_lb_tbl s) → ids s !! id = None →
  ot_ptrs (ipv4_lb_tbl s) !! key = Some p → ot_objs (ipv4_lb_tbl s) !! p = Some v →
  (∀ ret s' v', ret < 0 → ot_ptrs (ipv4_lb_tbl s') = ot_ptrs (ipv4_lb_tbl s) →
     ot_objs (ipv4_lb_tbl s') = <[p := v']> (ot_objs (ipv4_lb_tbl s)) →
     ids s' = ids s → Q ret s') →
  (∀ s', wf (ipv4_lb_tbl s') → wf (id_map_lb_tbl s') →
     lbs s' = <[key := v <| lv_lb_id := id |>]> (lbs s) → ids s' = <[id := key]> (ids s) →
     ot_ptrs (ipv4_lb_tbl s') = ot_ptrs (ipv4_lb_tbl s) →
     ot_objs (ipv4_lb_tbl s') = <[p := v <| lv_lb_id := id |>]> (ot_objs (ipv4_lb_tbl s)) →
     Q DP_OK s') →
  wp (dp_map_lb_handle id key p) Q s.
Proof.
  intros Hwf Hwfi Hnid Hptr Hobj Hfail Hok. destruct s as [tbl idt]. unfold ids, lbs in *. lb_simpl.
  unfold dp_map_lb_handle. wp_steps. lb_simpl. apply (wp_ot_malloc ∅); [done|..]; lb_simpl.
  { intros t' _ Hv _ _. wp_steps. eapply (Hfail _ _ v); [done|done| |done]. lb_simpl.
    by rewrite insert_id. }
  intros lk idt1 Hwf1 _ Hv1 Hp1 Ho1 Hn1. wp_steps. lb_simpl. eapply wp_ot_load; [done|]. wp_steps.
  lb_simpl. eapply (wp_ot_store ∅); [done|done|done|].
  intros tbl1 Hwft Hvt Hpt Hot. lb_simpl. wp_steps. lb_simpl.
  eapply (wp_ot_add ∅ idt1 id lk key); [done|set_solver|by rewrite Ho1, lookup_insert_eq|..].
  - intros ret idt2 Hneg _ Hwf2 Hv2 Hp2 Ho2. lb_simpl. rewrite DP_FAILED_neg by done.
    wp_steps. lb_simpl. eapply (wp_ot_free_extra ∅); [done|set_solver|].
    intros idt3 Hwf3 Hv3 _ _. wp_steps. lb_simpl.
    eapply Hfail; [done|done|done|]. lb_simpl. congruence.
  - intros idt2 Hwf2 Hv2 Hp2 Ho2. lb_simpl. rewrite DP_FAILED_pos by done. wp_steps.
    assert (Hold : ot_ptrs idt1 !! id = None).
    { rewrite Hp1. by apply (view_lookup_None ∅). }
    rewrite Hold in Hwf2. simpl in Hwf2. rewrite union_empty_r_L in Hwf2.
    apply Hok; lb_simpl; (done || congruence).
Qed.

Lemma lb_inv_same s s' :
  lb_inv s → wf (ipv4_lb_tbl s') → lbs s' = lbs s → id_map_lb_tbl s' = id_map_lb_tbl s →
  lb_inv s'.
Proof.
  intros [Hwf Hwfi Hid Hval Hok] Hwf' Hlbs Hids.
  assert (Hids' : ids s' = ids s) by (unfold ids; by rewrite Hids).
  constructor; rewrite ?Hids', ?Hlbs, ?Hids; eauto.
Qed.

Lemma create_lb_spec s lb ul_ip :
  lb_inv s → ids s !! gl_lb_id lb = None →
  wp (dp_create_lb lb ul_ip)
    (λ ret s',
       (ret = DP_GRPC_OK ∧ lb_inv s' ∧ lbs s !! key_of lb = None
          ∧ lbs s' = <[key_of lb := new_lb lb ul_ip]> (lbs s)
          ∧ ids s' = <[gl_lb_id lb := key_of lb]> (ids s))
       ∨ (ret = DP_GRPC_ERR ALREADY_EXISTS ∧ s' = s ∧ is_Some (lbs s !! key_of lb))
       ∨ (ret = DP_GRPC_ERR OUT_OF_MEMORY ∧ lbs s !! key_of lb = None ∧ ids s' = ids s
          ∧ ((lb_inv s' ∧ lbs s' = lbs s) ∨ lb_dangling s' (key_of lb)))) s.
Proof.
  intros Hinv Hnid. unfold dp_create_lb. rewrite dp_copy_ipaddr_id. fold (key_of lb).
  pose proof Hinv as [Hwf Hwfi _ _ _]. destruct s as [tbl idt]. lb_simpl.
  wp_steps. lb_simpl. apply (wp_ot_lookup ∅); [done|..]; lb_simpl.
  { intros pos p v Hpos _ _ Hv. rewrite DP_FAILED_pos by done. wp_steps. right. left. eauto. }
  intros Hnone Hnptr. rewrite DP_FAILED_ENOENT. cbn [negb]. wp_steps. lb_simpl.
  apply (wp_ot_malloc ∅); [done|..]; lb_simpl.
  { intros t1 Hwf1 Hv1 _ _. wp_steps. right. right. repeat (split; [done|]). left.
    split; [|done]. by eapply lb_inv_same. }
  intros p t1 Hwf1 _ Hv1 Hp1 Ho1 Hn1. wp_steps. lb_simpl.
  eapply (wp_ot_add ∅ t1 (key_of lb) p zero_lb_value);
    [done|set_solver|by rewrite Ho1, lookup_insert_eq|..].
  { intros ret t2 Hneg _ Hwf2 Hv2 _ _. lb_simpl. rewrite DP_FAILED_neg by done.
    wp_steps. lb_simpl. eapply (wp_ot_free_extra ∅); [done|set_solver|].
    intros t3 Hwf3 Hv3 _ _. wp_steps. lb_simpl. right. right. repeat (split; [done|]). left.
    unfold lbs. lb_simpl. split; [|congruence]. eapply lb_inv_same; [done|done| |done].
    unfold lbs. lb_simpl. congruence. }
  intros t2 Hwf2 Hv2 Hp2 Ho2. lb_simpl. rewrite DP_FAILED_pos by done. wp_steps.
  rewrite Hp1, Hnptr in Hwf2. simpl in Hwf2. rewrite union_empty_r_L in Hwf2.
  assert (Hobj2 : ot_objs t2 !! p = Some zero_lb_value) by (by rewrite Ho2, Ho1, lookup_insert_eq).
  assert (Hptr2 : ot_ptrs t2 !! key_of lb = Some p) by (by rewrite Hp2, lookup_insert_eq).
  eapply (wp_map_lb_handle (MkLbState t2 idt) _ _ p); [done|done|done|done|done|..].
  - intros ret [t3 idt3] v' Hneg Hp3 Ho3 Hids. lb_simpl. rewrite DP_FAILED_neg by done.
    wp_steps. lb_simpl. unfold wp at 1, ot_free. unfold ot_objs in Ho3.
    rewrite Ho3, lookup_insert_eq. wp_steps. right. right. split; [done|]. split; [done|].
    split; [done|]. right. exists p. unfold ot_ptrs, ot_objs. cbn. split.
    + fold (ot_ptrs t3). by rewrite Hp3.
    + by rewrite ?Ho3, lookup_delete_eq.
  - intros [t3 idt3] Hwf3 Hwfi3 Hv3 Hids3 Hp3 Ho3. lb_simpl. rewrite DP_FAILED_pos by done.
    wp_steps. lb_simpl. eapply wp_ot_load; [by rewrite Ho3, lookup_insert_eq|]. wp_steps. lb_simpl.
    eapply (wp_ot_store ∅); [done|by rewrite Hp3|by rewrite Ho3, lookup_insert_eq|].
    intros t4 Hwf4 Hv4 _ _. wp_steps. lb_simpl. left.
    assert (Hlbs : lbs (MkLbState t4 idt3) = <[key_of lb := new_lb lb ul_ip]> (lbs (MkLbState tbl idt))).
    { unfold lbs in *. lb_simpl. rewrite Hv4, Hv3, Hv2, Hv1. by rewrite !insert_insert_eq. }
    split_and!; [done| |done|done|done].
    by eapply (lb_inv_insert (MkLbState tbl idt)).
Qed.

Lemma lb_inv_delete s s' id key :
  lb_inv s → ids s !! id = Some key →
  wf (ipv4_lb_tbl s') → wf (id_map_lb_tbl s') →
  lbs s' = delete key (lbs s) → ids s' = delete id (ids s) → lb_inv s'.
Proof.
  intros [Hwf Hwfi Hid Hval Hok] Hkey Hwf' Hwfi' Hlbs Hids.
  destruct (Hid id key Hkey) as (v & Hv & Hvid). constructor; [done|done|..].
  - intros id' k. rewrite Hids, Hlbs, !lookup_delete. case_decide as Hd; [done|].
    intros Hk. destruct (Hid id' k Hk) as (v' & Hv' & Hvid'). exists v'.
    rewrite decide_False; [done|]. intros <-. congruence.
  - intros k v'. rewrite Hids, Hlbs, !lookup_delete. case_decide as Hd; [done|].
    intros Hv'. pose proof (Hval k v' Hv') as Hk. rewrite decide_False; [done|].
    intros E. rewrite <- E in Hk. congruence.
  - intros k v'. rewrite Hlbs, lookup_delete. case_decide; [done|]. eauto.
Qed.

Lemma delete_lb_spec s id :
  lb_inv s →
  wp (dp_delete_lb id)
    (λ ret s', lb_inv s' ∧
       match ids s !! id with
       | None => ret = DP_GRPC_ERR NOT_FOUND ∧ s' = s
       | Some key => ret = DP_GRPC_OK ∧ lbs s' = delete key (lbs s) ∧ ids s' = delete id (ids s)
       end) s.
Proof.
  intros Hinv. pose proof Hinv as [Hwf Hwfi Hid _ _]. destruct s as [tbl idt]. lb_simpl.
  unfold dp_delete_lb. wp_steps. lb_simpl. apply (wp_ot_lookup ∅); [done|..]; lb_simpl; last first.
  { intros Hn _. rewrite DP_FAILED_ENOENT. wp_steps. split; [done|].
    unfold ids. lb_simpl. by rewrite Hn. }
  intros pos lk key Hpos Hptr Hobj Hview. rewrite DP_FAILED_pos by done. wp_steps.
  eapply wp_ot_load; [done|]. wp_steps. lb_simpl.
  destruct (Hid id key Hview) as (v & Hv & _). apply (wp_ot_lookup ∅); [done|..]; lb_simpl; last first.
  { intros Hn. unfold lbs in Hv. lb_simpl. congruence. }
  intros pos' p v' Hpos' Hp' Ho' _. rewrite DP_FAILED_pos by done. apply wp_bind, wp_zoom. lb_simpl.
  eapply (wp_ot_free_del ∅); [done|done|]. intros pos2 t1 _ Hwf1 Hv1 _. apply wp_ret.
  apply wp_bind, wp_zoom. lb_simpl.
  eapply (wp_ot_free_del ∅); [done|done|]. intros pos3 idt1 _ Hwfi1 Hvi1 _. wp_steps. lb_simpl.
  unfold ids at 1. lb_simpl. rewrite Hview. split; [|done].
  by eapply (lb_inv_delete (MkLbState tbl idt)).
Qed.

Lemma get_lb_spec s id out :
  lb_inv s →
  wp (dp_get_lb id out)
    (λ r s', s' = s ∧
       match ids s !! id with
       | None => r = (DP_GRPC_ERR NOT_FOUND, out)
       | Some key => ∃ v, lbs s !! key = Some v ∧
           r = (DP_GRPC_OK,
                MkGrpcLb (gl_lb_id out) (lk_ip key) (lk_vni key)
                  ((λ q, MkLbPort (lp_protocol q) (ntohs (lp_port q))) <$> lv_ports v)
                  (lv_lb_ul_addr v))
       end) s.
Proof.
  intros Hinv. unfold dp_get_lb. apply wp_lb_of_id; [done|..].
  - intros ->. by wp_steps.
  - intros lk key p v _ -> Hp Ho Hv _ _. wp_steps. eapply wp_ot_load; [done|]. wp_steps.
    split; [by destruct s|]. exists v. by rewrite dp_copy_ipaddr_id.
Qed.

(** Backends are added to and removed from the set. *)
Lemma add_lb_back_ip_spec s id ip :
  lb_inv s → is_u128 ip → word32_of 0 ip ≠ 0 →
  wp (dp_add_lb_back_ip id ip 16)
    (λ ret s', lb_inv s' ∧ ids s' = ids s ∧
       match ids s !! id with
       | None => ret = DP_GRPC_ERR NO_LB ∧ s' = s
       | Some key => ∃ v, lbs s !! key = Some v ∧
           ((ret = DP_GRPC_ERR ALREADY_EXISTS ∧ ip ∈ backends v ∧ s' = s)
            ∨ (ret = DP_GRPC_ERR LIMIT_REACHED ∧ ip ∉ backends v
               ∧ length (taken_positions v) = 64%nat ∧ s' = s)
            ∨ (ret = DP_GRPC_OK ∧ ip ∉ backends v ∧
               ∃ v', lbs s' = <[key := v']> (lbs s) ∧ backends v' = {[ip]} ∪ backends v
                     ∧ lv_ports v' = lv_ports v ∧ lv_lb_id v' = lv_lb_id v))
       end) s.
Proof.
  intros Hinv Hip Hw. unfold dp_add_lb_back_ip. apply wp_lb_of_id; [done|..].
  { intros ->. by wp_steps. }
  intros lk key p v _ Hk Hp Ho Hv Hvid Hok. rewrite Hk. wp_steps. eapply wp_ot_load; [done|].
  cbn beta. assert (lput lbT (lget lbT s) s = s) as -> by (by destruct s).
  destruct (back_ip_cases v ip Hok Hw) as [[-> Hin]|[(-> & Hnew & Hpos & Hall)|
    (-> & Hnew & k & Hpos & Hk64 & Hslot & Hfree)]].
  { wp_steps. split; [done|]. split; [done|]. exists v. split; [done|]. by left. }
  { rewrite Hpos. change (-1 <? 0) with true. cbv zeta match. wp_steps.
    split; [done|]. split; [done|]. exists v. split; [done|]. right. by left. }
  rewrite Hpos. assert (k <? 0 = false) as Hk0 by (apply Z.ltb_ge; lia).
  cbv zeta. rewrite Hk0, Hslot. change (default 0 (Some 0)) with 0. rewrite copy_bytes_all by done.
  fold (with_slot k ip (u16 (lv_back_end_cnt v + 1)) v). wp_steps.
  eapply (wp_ot_store ∅); [apply Hinv|done|done|]. intros t1 Hwf1 Hv1 _ _. wp_steps.
  destruct (lb_ok_fill v k ip Hok) as [Hok' Hb]; [done..|].
  split; [|split; [done|]].
  - eapply (lb_inv_update s _ key v); [done|done| |done|done|done|done]. done.
  - exists v. split; [done|]. right. right. split; [done|]. split; [done|]. eauto 6.
Qed.

Lemma del_lb_back_ip_spec s id ip :
  lb_inv s → word32_of 0 ip ≠ 0 →
  wp (dp_del_lb_back_ip id ip)
    (λ ret s', lb_inv s' ∧ ids s' = ids s ∧
       match ids s !! id with
       | None => ret = DP_GRPC_ERR NO_LB ∧ s' = s
       | Some key => ∃ v v', lbs s !! key = Some v ∧ lbs s' = <[key := v']> (lbs s)
           ∧ ret = (if decide (ip ∈ backends v) then DP_GRPC_OK else DP_GRPC_ERR NOT_FOUND)
           ∧ backends v' = backends v ∖ {[ip]}
           ∧ lv_ports v' = lv_ports v ∧ lv_lb_id v' = lv_lb_id v
       end) s.
Proof.
  intros Hinv Hw. unfold dp_del_lb_back_ip. apply wp_lb_of_id; [done|..].
  { intros ->. by wp_steps. }
  intros lk key p v _ Hk Hp Ho Hv Hvid Hok. rewrite Hk. wp_steps. eapply wp_ot_load; [done|].
  cbn beta. assert (lput lbT (lget lbT s) s = s) as -> by (by destruct s).
  destruct (delete_back_ip_spec v ip Hok Hw) as (v' & -> & Hok' & Hb & Hports & Hid').
  wp_steps. eapply (wp_ot_store ∅); [apply Hinv|done|done|]. intros t1 Hwf1 Hv1 _ _. wp_steps.
  split; [|split; [done|]].
  - eapply (lb_inv_update s _ key v v'); done.
  - exists v, v'. done.
Qed.

(** The backend of a packet: from the set of the load balancer of its address,
    the next one in the cycle; none when there is no load balancer, when it does
    not serve the port or when it has no backend. *)
Lemma get_backend_ip_spec s key vni :
  lb_inv s →
  let lkey := MkLbKey vni (fk_l3_dst key) in
  let wanted := MkLbPort (fk_proto key) (htons (fk_port_dst key)) in
  wp (dp_lb_get_backend_ip key vni)
    (λ r s', lb_inv s' ∧ ids s' = ids s ∧
       match lbs s !! lkey with
       | None => r = None ∧ s' = s
       | Some v =>
           if lb_port_scan wanted (lv_ports v) then
             match head (backend_cycle v) with
             | None => r = None ∧ s' = s
             | Some k => ∃ ip, r = Some ip ∧ lv_back_end_ips v !! Z.to_nat k = Some ip
                 ∧ ip ∈ backends v ∧ lbs s' = <[lkey := with_last k v]> (lbs s)
             end
           else r = None ∧ s' = s
       end) s.
Proof.
  intros Hinv lkey wanted. pose proof Hinv as [Hwf _ _ _ Hoks]. unfold dp_lb_get_backend_ip.
  rewrite dp_copy_ipaddr_id. fold lkey wanted. cbv zeta. destruct s as [tbl idt]. lb_simpl.
  wp_steps. lb_simpl. apply (wp_ot_lookup ∅); [done|..]; lb_simpl; last first.
  { intros Hn _. change (- ENOENT <? 0) with true. wp_steps.
    unfold lbs. lb_simpl. by rewrite Hn. }
  intros pos p v Hpos Hp Ho Hv. unfold lbs at 1. lb_simpl. rewrite Hv.
  assert (pos <? 0 = false) as -> by (by apply Z.ltb_ge). wp_steps. eapply wp_ot_load; [done|].
  cbn beta. lb_simpl. pose proof (Hoks lkey v Hv) as Hok.
  destruct (lb_port_scan wanted (lv_ports v)) eqn:Hscan; last first.
  { unfold dp_lb_rr_backend. rewrite Hscan. by wp_steps. }
  rewrite rr_backend_head by done. destruct (backend_cycle v) as [|k cyc] eqn:Hcyc.
  { by wp_steps. }
  destruct (backend_cycle_range v k Hok) as [Hk Htk]; [rewrite Hcyc; set_solver|].
  change (default (-1) (head (k :: cyc))) with k. change (head (k :: cyc)) with (Some k).
  cbn match. assert (k <? 0 = false) as -> by (apply Z.ltb_ge; lia).
  fold (with_last k v). destruct (slot_lookup v k Hok Hk) as (ip & Hip & Hsw). rewrite Hip.
  wp_steps. lb_simpl. eapply (wp_ot_store ∅); [done|done|done|]. intros t1 Hwf1 Hv1 _ _. wp_steps.
  lb_simpl. split; [|split; [done|]].
  - eapply (lb_inv_update _ _ lkey v (with_last k v) Hinv); try done. by apply lb_ok_with_last.
  - exists ip. split_and!; [done|done| |done]. apply elem_of_backends. split; [|eauto].
    unfold taken in Htk. zbool. congruence.
Qed.

(** The address of a load balancer is recognised. *)
Lemma wp_is_ip_lb s df vni v (Q : bool → lb_state → Prop) :
  lb_inv s →
  lbs s !! MkLbKey vni (if df_l3_type df =? RTE_ETHER_TYPE_IPV4 then DP_SET_IPADDR4 (ntohl (df_dst_addr df))
                        else DP_SET_IPADDR6 (df_dst_addr6 df)) = Some v →
  df_l3_type df = RTE_ETHER_TYPE_IPV4 ∨ df_l3_type df = RTE_ETHER_TYPE_IPV6 →
  Q true s → wp (dp_is_ip_lb df vni) Q s.
Proof.
  intros [Hwf _ _ _ _] Hv Hl3 HQ. unfold dp_is_ip_lb. destruct s as [tbl idt]. unfold lbs in Hv. lb_simpl.
  destruct Hl3 as [Hl|Hl]; rewrite Hl in *; cbn [Z.eqb Pos.eqb RTE_ETHER_TYPE_IPV4 RTE_ETHER_TYPE_IPV6] in *; wp_steps; lb_simpl;
    (apply (wp_ot_lookup ∅); [done|intros pos ? ? Hpos _ _ _|intros Hn _; by rewrite Hv in Hn]); wp_steps; lb_simpl; by rewrite DP_FAILED_pos.
Qed.

(** What was created is what [dp_get_lb] reports under the id, ports in host order
    again. *)
Theorem lb_create_get s lb ul_ip out s1 :
  lb_inv s → ids s !! gl_lb_id lb = None → Forall (λ q, is_u16 (lp_port q)) (gl_lbports lb) →
  dp_create_lb lb ul_ip s = Some (DP_GRPC_OK, s1) →
  dp_get_lb (gl_lb_id lb) out s1
  = Some (DP_GRPC_OK,
          MkGrpcLb (gl_lb_id out) (gl_addr lb) (gl_vni lb) (gl_lbports lb) ul_ip, s1).
Proof.
  intros Hinv Hid Hports Hcr.
  destruct (wp_elim _ _ _ _ _ (create_lb_spec s lb ul_ip Hinv Hid) Hcr)
    as [(_ & Hinv1 & _ & Hlbs & Hids)|[[? _]|[? _]]]; [|done|done].
  destruct (wp_inv _ _ _ (get_lb_spec s1 (gl_lb_id lb) out Hinv1)) as (r & s2 & -> & -> & Hr).
  rewrite Hids, lookup_insert_eq in Hr. destruct Hr as (v & Hv & ->).
  rewrite Hlbs, lookup_insert_eq in Hv. injection Hv as <-. do 4 f_equal. simpl.
  rewrite <- list_fmap_compose. rewrite <- (list_fmap_id (gl_lbports lb)) at 2.
  apply list_fmap_ext. intros i [pr po] Hq. unfold compose. simpl.
  rewrite bswap16_involutive; [done|]. by apply (Forall_lookup_1 _ _ _ _ Hports Hq).
Qed.

(** Deleting a load balancer that was just created restores both tables. *)
Theorem lb_create_delete s lb ul_ip s1 :
  lb_inv s → ids s !! gl_lb_id lb = None →
  dp_create_lb lb ul_ip s = Some (DP_GRPC_OK, s1) →
  ∃ s2, dp_delete_lb (gl_lb_id lb) s1 = Some (DP_GRPC_OK, s2)
    ∧ lb_inv s2 ∧ lbs s2 = lbs s ∧ ids s2 = ids s.
Proof.
  intros Hinv Hid Hcr.
  destruct (wp_elim _ _ _ _ _ (create_lb_spec s lb ul_ip Hinv Hid) Hcr)
    as [(_ & Hinv1 & Hn & Hlbs & Hids)|[[? _]|[? _]]]; [|done|done].
  destruct (wp_inv _ _ _ (delete_lb_spec s1 (gl_lb_id lb) Hinv1)) as (r & s2 & -> & Hinv2 & Hr).
  rewrite Hids, lookup_insert_eq in Hr. destruct Hr as (-> & Hl & Hi).
  exists s2. split; [done|]. split; [done|].
  rewrite Hl, Hi, Hlbs. by rewrite !delete_insert_id.
Qed.

(** The entry that a create leaves behind when the id cannot be mapped is never
    safe to use: the next packet for its address dereferences freed memory. *)
Theorem dangling_lookup_faults s key vni :
  lb_dangling s (MkLbKey vni (fk_l3_dst key)) → dp_lb_get_backend_ip key vni s = None.
Proof.
  intros (p & Hp & Ho). unfold dp_lb_get_backend_ip. rewrite dp_copy_ipaddr_id. cbv zeta.
  destruct s as [tbl idt]. lb_simpl.
  destruct (hash_lookup_some (ot_tbl tbl) (MkLbKey vni (fk_l3_dst key)) p Hp) as (pos & Hpos & Hl).
  unfold mbind at 1, cmd_bind, zoom at 1, ot_lookup, gets. lb_simpl. rewrite Hl. lb_simpl.
  assert (pos <? 0 = false) as -> by (by apply Z.ltb_ge).
  unfold mbind at 1, cmd_bind, zoom at 1, ot_load. lb_simpl.
  unfold ot_objs in Ho. by rewrite Ho.
Qed.
End lb_facts.

(** ** Runs *)

Section lb_examples.
#[local] Existing Instances test_hash test_hash_ok test_malloc test_malloc_ok.

Definition ex_lb : dpgrpc_lb :=
  MkGrpcLb [108; 98] (DP_SET_IPADDR4 167772161) 100
    (MkLbPort IPPROTO_TCP 80 :: MkLbPort IPPROTO_UDP 53 :: replicate 14 (MkLbPort 0 0)) 0.

(** The empty tables; the second object of the id table cannot be allocated. *)
Definition ex_tables : lb_state :=
  MkLbState (OTable (∅ : gmap lb_key loc) (Heap (∅ : gmap loc lb_value) ([] : list bool)))
    (OTable (∅ : gmap (list Z) loc) (Heap (∅ : gmap loc lb_key) ([] : list bool))).
Definition ex_full : lb_state :=
  MkLbState (OTable (∅ : gmap lb_key loc) (Heap (∅ : gmap loc lb_value) ([] : list bool)))
    (OTable (∅ : gmap (list Z) loc) (Heap (∅ : gmap loc lb_key) ([false] : list bool))).

Definition ex_created : lb_state := run_state ex_tables (dp_create_lb ex_lb 4242).
Definition ex_targets : lb_state :=
  run_state ex_created (dp_add_lb_back_ip [108; 98] 11 16;; dp_add_lb_back_ip [108; 98] 22 16;;
    dp_add_lb_back_ip [108; 98] 33 16).
Definition ex_key : flow_key :=
  MkFlowKey (DP_SET_IPADDR4 167772161) IPPROTO_TCP 80 (DP_SET_IPADDR4 1) DP_VNF_TYPE_LB 1234 100.

Lemma ex_tables_inv : lb_inv ex_tables.
Proof. by apply (lb_init_inv (HM := test_malloc) ([] : list bool) ([] : list bool)). Qed.

Lemma lb_create_get_witness :
  dp_get_lb [108; 98] ex_lb ex_created
  = Some (DP_GRPC_OK,
          MkGrpcLb [108; 98] (gl_addr ex_lb) (gl_vni ex_lb) (gl_lbports ex_lb) 4242, ex_created).
Proof.
  apply (lb_create_get ex_tables ex_lb 4242 ex_lb ex_created ex_tables_inv);
    [reflexivity|by repeat (constructor; [split; vm_compute; congruence|])|vm_compute; reflexivity].
Defined.

Lemma lb_create_delete_witness :
  ∃ s2, dp_delete_lb [108; 98] ex_created = Some (DP_GRPC_OK, s2)
    ∧ lb_inv s2 ∧ lbs s2 = lbs ex_tables ∧ ids s2 = ids ex_tables.
Proof.
  apply (lb_create_delete ex_tables ex_lb 4242 ex_created ex_tables_inv);
    [reflexivity|vm_compute; reflexivity].
Defined.

Definition ex_lost : lb_state := run_state ex_full (dp_create_lb ex_lb 4242).

Lemma dangling_lookup_faults_witness :
  dp_create_lb ex_lb 4242 ex_full = Some (DP_GRPC_ERR OUT_OF_MEMORY, ex_lost)
  ∧ dp_lb_get_backend_ip ex_key 100 ex_lost = None.
Proof.
  split; [vm_compute; reflexivity|]. apply dangling_lookup_faults.
  exists 2%positive. vm_compute. done.
Defined.

(** Three backends, in slots 0, 1 and 2. *)
Definition ex_val (ips : list Z) : lb_value :=
  foldl (λ v ip, with_slot (dp_lb_last_free_pos v) ip (u16 (lv_back_end_cnt v + 1)) v)
    (new_lb ex_lb 4242) ips.

Lemma ex_val_ok : lb_ok (ex_val [11; 22; 33]).
Proof.
  assert (H0 : lb_ok (ex_val [])) by apply lb_ok_new.
  assert (H1 : lb_ok (ex_val [11])).
  { by apply (lb_ok_fill (ex_val []) 0 11); [|lia|..|apply (bool_decide_unpack _)]. }
  assert (H2 : lb_ok (ex_val [11; 22])).
  { by apply (lb_ok_fill (ex_val [11]) 1 22); [|lia|..|apply (bool_decide_unpack _)]. }
  by apply (lb_ok_fill (ex_val [11; 22]) 2 33); [|lia|..|apply (bool_decide_unpack _)].
Qed.


Lemma ex_created_inv : lb_inv ex_created ∧ ids ex_created !! [108; 98] = Some (key_of ex_lb).
Proof.
  destruct (wp_elim _ _ _ DP_GRPC_OK ex_created (create_lb_spec ex_tables ex_lb 4242 ex_tables_inv eq_refl))
    as [(_ & Hinv & _)|[[? _]|[? _]]]; [vm_compute; reflexivity| |done|done].
  split; [done|]. vm_compute. reflexivity.
Qed.

Lemma add_lb_back_ip_spec_witness :
  ∃ ret s', dp_add_lb_back_ip [108; 98] 11 16 ex_created = Some (ret, s') ∧ lb_inv s' ∧ ret = DP_GRPC_OK.
Proof.
  destruct (wp_inv _ _ _ (add_lb_back_ip_spec ex_created [108; 98] 11 (proj1 ex_created_inv)
    ltac:(split; vm_compute; congruence) ltac:(vm_compute; congruence)))
    as (ret & s' & Hrun & Hinv & _).
  exists ret, s'. split; [done|]. split; [done|].
  assert (Hok : fst <$> dp_add_lb_back_ip [108; 98] 11 16 ex_created = Some DP_GRPC_OK)
    by (vm_compute; reflexivity).
  rewrite Hrun in Hok. by injection Hok.
Defined.

Lemma get_backend_ip_spec_witness :
  ∃ s', dp_lb_get_backend_ip ex_key 100 ex_created = Some (None, s') ∧ lb_inv s'.
Proof.
  destruct (wp_inv _ _ _ (get_backend_ip_spec ex_created ex_key 100 (proj1 ex_created_inv)))
    as (r & s' & Hrun & Hinv & _).
  exists s'. split; [|done]. rewrite Hrun. f_equal.
  assert (Hok : fst <$> dp_lb_get_backend_ip ex_key 100 ex_created = Some None)
    by (vm_compute; reflexivity).
  rewrite Hrun in Hok. injection Hok as ->. done.
Defined.
End lb_examples.
