(* ===== verification/Vnf.v ===== *)
(** * Virtual network functions (src/dp_vnf.c)

    An underlay address stands for a function of the overlay (an interface, a
    prefix, a NAT address, a load balancer).  [vnf_handle_tbl] maps the address
    to the function, [vnf_value_tbl] the function back to the address. *)

From S2P Require Import Prelude Dpdk Error Types Responder.

Definition DP_VNF_MAX_TABLE_SIZE : Z := 1000.
Definition DP_VNF_MATCH_ALL_PORT_IDS : Z := 65535.

(** [alias_pfx] is flattened. *)
Record dp_vnf := MkVnf {
  vnf_type : dp_vnf_type;
  vnf_vni : Z;
  vnf_port_id : Z;
  vnf_pfx_ol : dp_ip_address;
  vnf_pfx_length : Z
}.
Global Instance dp_vnf_eq_dec : EqDecision dp_vnf.
Proof. solve_decision. Defined.
Global Instance dp_vnf_countable : Countable dp_vnf :=
  inj_countable' (λ v, (vnf_type v, vnf_vni v, vnf_port_id v, vnf_pfx_ol v, vnf_pfx_length v))
    (λ '(a, b, c, d, e), MkVnf a b c d e) (λ '(MkVnf _ _ _ _ _), eq_refl).

Record vnf_state `{RteHash} `{RteMalloc} := MkVnfState {
  vnf_handle_tbl : otable Z dp_vnf;
  vnf_value_tbl : otable dp_vnf Z
}.
Arguments MkVnfState {_ _} _ _.

(** The members of [struct dpgrpc_route] that a listing sets. *)
Record vnf_route := MkVnfRoute {
  vr_pfx_addr : dp_ip_address;
  vr_pfx_length : Z;
  vr_trgt_addr : dp_ip_address
}.

Section vnf.
Context `{HH : RteHash} `{HM : RteMalloc}.

Definition handleT : lens vnf_state (otable Z dp_vnf) :=
  Lens vnf_handle_tbl (λ t s, MkVnfState t (vnf_value_tbl s)).
Definition valueT : lens vnf_state (otable dp_vnf Z) :=
  Lens vnf_value_tbl (λ t s, MkVnfState (vnf_handle_tbl s) t).

Definition dp_vnf_init (st1 st2 : malloc_state) : Z * option vnf_state :=
  match dp_create_jhash_table DP_VNF_MAX_TABLE_SIZE st1 with
  | None => (DP_ERROR, None)
  | Some t1 =>
      match dp_create_jhash_table DP_VNF_MAX_TABLE_SIZE st2 with
      | None => (DP_ERROR, None)
      | Some t2 => (DP_OK, Some (MkVnfState t1 t2))
      end
  end.

Definition dp_fill_vnf_data (type : dp_vnf_type) (port_id vni : Z) (src : dp_ip_address)
    (prefix_len : Z) : dp_vnf :=
  MkVnf type vni port_id (dp_copy_ipaddr src) prefix_len.

Definition dp_add_vnf_value (vnf : dp_vnf) (ul_addr6 : Z) : cmd vnf_state Z :=
  p ← zoom valueT (ot_malloc ul_addr6);
  match p with
  | None => mret DP_ERROR
  | Some p =>
      ret ← zoom valueT (ot_add vnf p);
      if DP_FAILED ret then zoom valueT (ot_free p);; mret DP_ERROR
      else mret DP_OK
  end.

Definition dp_delete_vnf_value (vnf : dp_vnf) : cmd vnf_state Z :=
  r ← zoom valueT (ot_lookup vnf);
  if DP_FAILED r.1 then mret DP_ERROR
  else
    match r.2 with
    | None => fault
    | Some p =>
        ret ← zoom valueT (ot_del vnf);
        if DP_FAILED ret then mret ret
        else zoom valueT (ot_free p);; mret DP_OK
    end.

Definition dp_vnf_value_exists (vnf : dp_vnf) : cmd vnf_state bool :=
  r ← zoom valueT (ot_lookup vnf);
  mret (negb (DP_FAILED r.1)).

Definition dp_del_vnf (ul_addr6 : Z) : cmd vnf_state Z :=
  r ← zoom handleT (ot_lookup ul_addr6);
  if DP_FAILED r.1 then mret r.1
  else
    match r.2 with
    | None => fault
    | Some p =>
        ret ← zoom handleT (ot_del ul_addr6);
        if DP_FAILED ret then mret ret
        else
          vnf ← zoom handleT (ot_load p);
          ret ← dp_delete_vnf_value vnf;
          if DP_FAILED ret then zoom handleT (ot_free p);; mret ret
          else zoom handleT (ot_free p);; mret DP_OK
    end.

Definition dp_add_vnf (ul_addr6 : Z) (type : dp_vnf_type) (port_id vni : Z)
    (prefix : dp_ip_address) (prefix_len : Z) : cmd vnf_state Z :=
  r ← zoom handleT (ot_lookup ul_addr6);
  if negb (r.1 =? - ENOENT) then mret DP_ERROR
  else
    let vnf := dp_fill_vnf_data type port_id vni prefix prefix_len in
    p ← zoom handleT (ot_malloc vnf);
    match p with
    | None => mret DP_ERROR
    | Some p =>
        ret ← zoom handleT (ot_add ul_addr6 p);
        if DP_FAILED ret then zoom handleT (ot_free p);; mret DP_ERROR
        else
          ret ← dp_add_vnf_value vnf ul_addr6;
          if DP_FAILED ret then dp_del_vnf ul_addr6;; mret DP_ERROR
          else mret DP_OK
    end.

(** What the returned pointer points to. *)
Definition dp_get_vnf (ul_addr6 : Z) : cmd vnf_state (option dp_vnf) :=
  r ← zoom handleT (ot_lookup ul_addr6);
  if DP_FAILED r.1 then mret None
  else
    match r.2 with
    | None => fault
    | Some p => vnf ← zoom handleT (ot_load p); mret (Some vnf)
    end.

Definition dp_vnf_lbprefix_exists (port_id vni : Z) (prefix_ip : dp_ip_address) (prefix_len : Z) :
    cmd vnf_state bool :=
  dp_vnf_value_exists (dp_fill_vnf_data DP_VNF_TYPE_LB_ALIAS_PFX port_id vni prefix_ip prefix_len).

Definition dp_del_vnf_by_value (type : dp_vnf_type) (port_id vni : Z) (prefix_ip : dp_ip_address)
    (prefix_len : Z) : cmd vnf_state Z :=
  let target_vnf := dp_fill_vnf_data type port_id vni prefix_ip prefix_len in
  r ← zoom valueT (ot_lookup target_vnf);
  if DP_FAILED r.1 then
    mret (if r.1 =? - ENOENT then DP_GRPC_ERR NOT_FOUND else DP_GRPC_ERR VNF_DELETE)
  else
    match r.2 with
    | None => fault
    | Some p =>
        ul_addr6 ← zoom valueT (ot_load p);
        ret ← dp_del_vnf ul_addr6;
        if DP_FAILED ret then
          mret (if ret =? - ENOENT then DP_GRPC_ERR NOT_FOUND else DP_GRPC_ERR VNF_DELETE)
        else mret DP_OK
    end.

Definition dp_list_vnf_alias_prefixes `{RteMempool} (sizeof_reply port_id : Z) (type : dp_vnf_type)
    (s : vnf_state) : cmd (dp_grpc_responder vnf_route) Z :=
  if rte_hash_count (ot_tbl (vnf_handle_tbl s)) =? 0 then mret DP_GRPC_OK
  else
    match ot_items (vnf_handle_tbl s) with
    | None => fault
    | Some ((vnfs, last_ret), _) =>
        dp_grpc_set_multireply sizeof_reply;;
        ret ← reply_each
          ((λ '(ul, vnf), MkVnfRoute (dp_copy_ipaddr (vnf_pfx_ol vnf)) (vnf_pfx_length vnf)
                            (DP_SET_IPADDR6 ul))
             <$> filter (λ x, vnf_port_id x.2 = port_id ∧ vnf_type x.2 = type) vnfs);
        mret (if DP_FAILED ret then ret
              else if last_ret =? - ENOENT then DP_GRPC_OK else DP_GRPC_ERR ITERATOR)
    end.
End vnf.

(** ** Facts *)

Section vnf_facts.
Context `{HH : RteHash} {HO : RteHashOk} `{HM : RteMalloc} {MO : RteMallocOk}.
Implicit Types s : vnf_state.

Definition handles s : gmap Z dp_vnf := view (vnf_handle_tbl s).
Definition values s : gmap dp_vnf Z := view (vnf_value_tbl s).

(** The two maps are inverse to each other. *)
Record vnf_inv s : Prop := {
  vni_handle_wf : wf (vnf_handle_tbl s);
  vni_value_wf : wf (vnf_value_tbl s);
  vni_inverse ul vnf : handles s !! ul = Some vnf ↔ values s !! vnf = Some ul
}.

Ltac vnf_simpl := cbn [lget lput fst snd handleT valueT vnf_handle_tbl vnf_value_tbl] in *.

Lemma wp_get_vnf s ul (Q : option dp_vnf → vnf_state → Prop) :
  vnf_inv s → Q (handles s !! ul) s → wp (dp_get_vnf ul) Q s.
Proof.
  intros [Hwf _ _] HQ. unfold dp_get_vnf. destruct s as [h t]. wp_steps. vnf_simpl. unfold handles in HQ. cbn in HQ.
  eapply wp_ot_lookup; [done|..].
  - intros pos q v Hpos _ Ho Hv. wp_simpl. rewrite DP_FAILED_pos by done. wp_steps. vnf_simpl.
    eapply wp_ot_load; [done|]. wp_steps. by rewrite Hv in HQ.
  - intros Hv _. wp_simpl. cbn. wp_steps. by rewrite Hv in HQ.
Qed.

Lemma vnf_init_inv st1 st2 s :
  dp_vnf_init st1 st2 = (DP_OK, Some s) → vnf_inv s ∧ handles s = ∅.
Proof.
  unfold dp_vnf_init, dp_create_jhash_table.
  destruct (ot_create _ st1) as [t1|] eqn:H1; [|done].
  destruct (ot_create _ st2) as [t2|] eqn:H2; [|done]. intros [= <-].
  apply ot_create_wf in H1 as [Hw1 Hv1]. apply ot_create_wf in H2 as [Hw2 Hv2].
  split; [|done]. constructor; [done|done|]. intros ul vnf. unfold handles, values. vnf_simpl.
  by rewrite Hv1, Hv2, !lookup_empty.
Qed.

(** The relation kept when an address and a function are added or removed
    together. *)
Lemma vnf_inverse_insert (h : gmap Z dp_vnf) (v : gmap dp_vnf Z) ul vnf :
  (∀ u x, h !! u = Some x ↔ v !! x = Some u) → h !! ul = None → v !! vnf = None →
  ∀ u x, <[ul := vnf]> h !! u = Some x ↔ <[vnf := ul]> v !! x = Some u.
Proof.
  intros Hinv Hh Hv u x. rewrite !lookup_insert. repeat case_decide; subst.
  - naive_solver.
  - rewrite <- Hinv. naive_solver.
  - rewrite Hinv. naive_solver.
  - apply Hinv.
Qed.

Lemma vnf_inverse_delete (h : gmap Z dp_vnf) (v : gmap dp_vnf Z) ul vnf :
  (∀ u x, h !! u = Some x ↔ v !! x = Some u) → h !! ul = Some vnf →
  ∀ u x, delete ul h !! u = Some x ↔ delete vnf v !! x = Some u.
Proof.
  intros Hinv Hh u x. rewrite !lookup_delete. pose proof (proj1 (Hinv _ _) Hh) as Hv.
  repeat case_decide; subst; try done.
  - split; [done|]. intros Hx%Hinv. congruence.
  - split; [|done]. intros Hx%Hinv. congruence.
Qed.

Lemma wp_delete_vnf_value s vnf (Q : Z → vnf_state → Prop) :
  wf (vnf_value_tbl s) →
  (values s !! vnf = None → Q DP_ERROR s) →
  (∀ ul t', values s !! vnf = Some ul → wf t' → view t' = delete vnf (values s) →
     Q DP_OK (MkVnfState (vnf_handle_tbl s) t')) →
  wp (dp_delete_vnf_value vnf) Q s.
Proof.
  intros Hwf Hnone Hsome. destruct s as [ht vt]. unfold values in *. vnf_simpl.
  unfold dp_delete_vnf_value. wp_steps. vnf_simpl. apply (wp_ot_lookup ∅); [done|..]; vnf_simpl.
  - intros pos p ul Hpos Hp Ho Hv. rewrite DP_FAILED_pos by done. wp_steps. vnf_simpl.
    eapply (wp_ot_del ∅); [done|done|]. intros pos' t1 Hpos' Hwf1 HpE Hv1 _ _. vnf_simpl.
    rewrite DP_FAILED_pos by done. wp_steps. vnf_simpl.
    eapply (wp_ot_free_extra ∅); [done|set_solver|]. intros t2 Hwf2 Hv2 _ _. wp_steps. vnf_simpl.
    eapply Hsome; [done|done|congruence].
  - intros Hn _. rewrite DP_FAILED_ENOENT. wp_steps. auto.
Qed.

(** The address is forgotten, with its function if that one leads back to it. *)
Lemma wp_del_vnf s ul (Q : Z → vnf_state → Prop) :
  wf (vnf_handle_tbl s) → wf (vnf_value_tbl s) →
  (handles s !! ul = None → Q (- ENOENT) s) →
  (∀ vnf ret s', handles s !! ul = Some vnf → wf (vnf_handle_tbl s') → wf (vnf_value_tbl s') →
     handles s' = delete ul (handles s) → values s' = delete vnf (values s) →
     ret = (if decide (is_Some (values s !! vnf)) then DP_OK else DP_ERROR) → Q ret s') →
  wp (dp_del_vnf ul) Q s.
Proof.
  intros Hhwf Hvwf Hnone Hsome. destruct s as [ht vt]. unfold values, handles in *. vnf_simpl.
  unfold dp_del_vnf. wp_steps. vnf_simpl. apply (wp_ot_lookup ∅); [done|..]; vnf_simpl; last first.
  { intros Hn _. rewrite DP_FAILED_ENOENT. wp_steps. auto. }
  intros pos p vnf Hpos Hp Ho Hv. rewrite DP_FAILED_pos by done. wp_steps. vnf_simpl.
  eapply (wp_ot_del ∅); [done|done|]. intros pos' t1 Hpos' Hwf1 HpE Hv1 Hp1 Ho1. vnf_simpl.
  rewrite DP_FAILED_pos by done. wp_steps. vnf_simpl.
  eapply wp_ot_load; [by rewrite Ho1|]. vnf_simpl. wp_steps.
  apply wp_delete_vnf_value; [done|..]; vnf_simpl.
  - intros Hn. change (DP_FAILED DP_ERROR) with true. wp_steps. vnf_simpl.
    eapply (wp_ot_free_extra ∅); [done|set_solver|]. intros t2 Hwf2 Hv2 _ _. wp_steps. vnf_simpl.
    unfold values in Hn. vnf_simpl.
    eapply Hsome; [done|done|done| | |]; vnf_simpl; [congruence| |].
    + by rewrite delete_id.
    + rewrite Hn. by rewrite decide_False by (by intros []).
  - intros u vt' Hu Hwf' Hv'. change (DP_FAILED DP_OK) with false. wp_steps. vnf_simpl.
    eapply (wp_ot_free_extra ∅); [done|set_solver|]. intros t2 Hwf2 Hv2 _ _. wp_steps. vnf_simpl.
    unfold values in Hu. vnf_simpl.
    eapply Hsome; [done|done|done| | |]; vnf_simpl; [congruence|done|].
    rewrite Hu. by rewrite decide_True by eauto.
Qed.

Lemma wp_add_vnf_value s vnf ul (Q : Z → vnf_state → Prop) :
  wf (vnf_value_tbl s) → values s !! vnf = None →
  (∀ s', wf (vnf_value_tbl s') → values s' = values s → vnf_handle_tbl s' = vnf_handle_tbl s →
     Q DP_ERROR s') →
  (∀ s', wf (vnf_value_tbl s') → values s' = <[vnf := ul]> (values s) →
     vnf_handle_tbl s' = vnf_handle_tbl s → Q DP_OK s') →
  wp (dp_add_vnf_value vnf ul) Q s.
Proof.
  intros Hwf Hn Hfail Hok. destruct s as [ht vt]. unfold values in *. vnf_simpl.
  unfold dp_add_vnf_value. wp_steps. vnf_simpl. apply (wp_ot_malloc ∅); [done|..]; vnf_simpl.
  { intros t1 Hwf1 Hv1 _ _. wp_steps. apply Hfail; done. }
  intros p t1 Hwf1 _ Hv1 Hp1 Ho1 _. wp_steps. vnf_simpl.
  eapply (wp_ot_add ∅ t1 vnf p ul); [done|set_solver|by rewrite Ho1, lookup_insert_eq|..].
  - intros ret t2 Hneg _ Hwf2 Hv2 _ _. vnf_simpl. rewrite DP_FAILED_neg by done. wp_steps. vnf_simpl.
    eapply (wp_ot_free_extra ∅); [done|set_solver|]. intros t3 Hwf3 Hv3 _ _. wp_steps. vnf_simpl.
    apply Hfail; [done|vnf_simpl; congruence|done].
  - intros t2 Hwf2 Hv2 _ _. vnf_simpl. rewrite DP_FAILED_pos by done. wp_steps.
    assert (Hold : ot_ptrs t1 !! vnf = None) by (rewrite Hp1; by apply (view_lookup_None ∅)).
    rewrite Hold in Hwf2. simpl in Hwf2. rewrite union_empty_r_L in Hwf2.
    apply Hok; [done|vnf_simpl; congruence|done].
Qed.

Lemma vnf_inv_same s s' :
  vnf_inv s → wf (vnf_handle_tbl s') → wf (vnf_value_tbl s') →
  handles s' = handles s → values s' = values s → vnf_inv s'.
Proof.
  intros [_ _ Hinv] Hh Hv Eh Ev. constructor; [done|done|]. intros. by rewrite Eh, Ev.
Qed.

(** Adding a function that no address has yet: both tables gain it, or neither
    changes (with the address already in use, or an allocation or an insertion
    that fails at any step). *)
Lemma wp_add_vnf s ul type port_id vni pfx len :
  vnf_inv s → values s !! MkVnf type vni port_id pfx len = None →
  wp (dp_add_vnf ul type port_id vni pfx len)
    (λ ret s', vnf_inv s' ∧
       ((ret = DP_OK ∧ handles s !! ul = None
         ∧ handles s' = <[ul := MkVnf type vni port_id pfx len]> (handles s)
         ∧ values s' = <[MkVnf type vni port_id pfx len := ul]> (values s))
        ∨ (ret = DP_ERROR ∧ handles s' = handles s ∧ values s' = values s))) s.
Proof.
  intros Hs Hnv. pose proof Hs as [Hh Hv Hinv]. unfold dp_add_vnf, dp_fill_vnf_data.
  rewrite dp_copy_ipaddr_id. cbv zeta. set (vnf := MkVnf type vni port_id pfx len) in *.
  destruct s as [ht vt]. unfold handles, values in *. vnf_simpl. wp_steps. vnf_simpl.
  apply (wp_ot_lookup ∅); [done|..]; vnf_simpl.
  { intros pos p v Hpos _ _ Hx. rewrite nonneg_ENOENT by done. wp_steps. split; [done|]. by right. }
  intros Hn Hnp. rewrite Z.eqb_refl. wp_steps. vnf_simpl.
  apply (wp_ot_malloc ∅); [done|..]; vnf_simpl.
  { intros t1 Hwf1 Hv1 _ _. wp_steps. split; [|by right]. by apply (vnf_inv_same _ _ Hs). }
  intros p t1 Hwf1 _ Hv1 Hp1 Ho1 _. wp_steps. vnf_simpl.
  eapply (wp_ot_add ∅ t1 ul p vnf); [done|set_solver|by rewrite Ho1, lookup_insert_eq|..].
  { intros ret t2 Hneg _ Hwf2 Hv2 _ _. vnf_simpl. rewrite DP_FAILED_neg by done. wp_steps. vnf_simpl.
    eapply (wp_ot_free_extra ∅); [done|set_solver|]. intros t3 Hwf3 Hv3 _ _. wp_steps. vnf_simpl.
    assert (Hv3' : view t3 = view ht) by congruence. split; [|by right].
    by apply (vnf_inv_same _ _ Hs). }
  intros t2 Hwf2 Hv2 _ _. vnf_simpl. rewrite DP_FAILED_pos by done. wp_steps.
  rewrite Hp1, Hnp in Hwf2. simpl in Hwf2. rewrite union_empty_r_L in Hwf2.
  assert (Hh2 : view t2 = <[ul := vnf]> (view ht)) by congruence.
  apply wp_add_vnf_value; [done|done|..]; vnf_simpl; intros [ht3 vt3] Hwf3 Hv3 Hht;
    vnf_simpl; subst ht3; unfold values, handles in *; vnf_simpl.
  - change (DP_FAILED DP_ERROR) with true. wp_steps.
    apply wp_del_vnf; [done|done|..]; unfold values, handles; vnf_simpl; rewrite Hh2, lookup_insert_eq;
      [done|]. intros x ret [ht4 vt4] [= <-] Hw4 Hwv4 Hh4 Hv4 _. wp_steps. vnf_simpl.
    rewrite delete_insert_id in Hh4 by done. rewrite delete_id, Hv3 in Hv4 by congruence.
    split; [|by right]. by apply (vnf_inv_same _ _ Hs).
  - change (DP_FAILED DP_OK) with false. wp_steps. split; [|by left].
    constructor; [done|done|]. unfold handles, values. vnf_simpl. rewrite Hh2, Hv3.
    by apply vnf_inverse_insert.
Qed.

(** Deleting by address and by function undo [dp_add_vnf] and tell an unknown
    address or function. *)
Lemma wp_del_vnf_known s ul :
  vnf_inv s →
  wp (dp_del_vnf ul)
    (λ ret s', vnf_inv s' ∧
       match handles s !! ul with
       | None => ret = - ENOENT ∧ s' = s
       | Some vnf => ret = DP_OK ∧ handles s' = delete ul (handles s)
                     ∧ values s' = delete vnf (values s)
       end) s.
Proof.
  intros Hs. pose proof Hs as [Hh Hv Hinv]. apply wp_del_vnf; [done|done|..].
  - intros Hn. by rewrite Hn.
  - intros vnf ret s' Hx Hw1 Hw2 Eh Ev ->. rewrite Hx. pose proof (proj1 (Hinv _ _) Hx) as Hx'.
    rewrite decide_True by eauto. split; [|done].
    constructor; [done|done|]. rewrite Eh, Ev. by apply vnf_inverse_delete.
Qed.

(** Deleting by value removes the network function with that value, if there is
    one, under its underlay address and under its value. *)
Theorem del_vnf_by_value_spec s type port_id vni pfx len :
  vnf_inv s →
  wp (dp_del_vnf_by_value type port_id vni pfx len)
    (λ ret s', vnf_inv s' ∧
       match values s !! MkVnf type vni port_id pfx len with
       | None => ret = DP_GRPC_ERR NOT_FOUND ∧ s' = s
       | Some ul => ret = DP_OK ∧ handles s' = delete ul (handles s)
                    ∧ values s' = delete (MkVnf type vni port_id pfx len) (values s)
       end) s.
Proof.
  intros Hs. pose proof Hs as [Hh Hv Hinv]. unfold dp_del_vnf_by_value, dp_fill_vnf_data.
  rewrite dp_copy_ipaddr_id. cbv zeta. set (vnf := MkVnf type vni port_id pfx len).
  destruct s as [ht vt]. wp_steps. vnf_simpl. apply (wp_ot_lookup ∅); [done|..]; vnf_simpl.
  - intros pos p ul Hpos Hp Ho Hx. rewrite DP_FAILED_pos by done. wp_steps.
    eapply wp_ot_load; [done|]. vnf_simpl. wp_steps. unfold values at 1. vnf_simpl. rewrite Hx.
    pose proof (proj2 (Hinv ul vnf) Hx) as Hx'.
    apply wp_del_vnf; [done|done|rewrite Hx'; done|].
    intros x ret s' Hxx Hw1 Hw2 Eh Ev ->. rewrite Hx' in Hxx. injection Hxx as <-.
    rewrite decide_True by (exists ul; exact Hx).
    change (DP_FAILED DP_OK) with false. wp_steps. split; [|done].
    constructor; [done|done|]. rewrite Eh, Ev. by apply vnf_inverse_delete.
  - intros Hn _. rewrite DP_FAILED_ENOENT. wp_steps. split; [done|].
    unfold values. vnf_simpl. by rewrite Hn.
Qed.

(** A prefix exists for a port exactly when some address stands for it. *)
Lemma lbprefix_exists_eq s port_id vni pfx len :
  vnf_inv s →
  dp_vnf_lbprefix_exists port_id vni pfx len s
  = Some (bool_decide (is_Some (values s !! MkVnf DP_VNF_TYPE_LB_ALIAS_PFX vni port_id pfx len)), s).
Proof.
  intros [Hh Hv Hinv]. unfold dp_vnf_lbprefix_exists, dp_vnf_value_exists, dp_fill_vnf_data.
  rewrite dp_copy_ipaddr_id. set (vnf := MkVnf _ _ _ _ _). destruct s as [ht vt].
  unfold values. vnf_simpl. eapply (wp_elim_eq (λ r s', (r, s') = _)); [|done].
  wp_steps. vnf_simpl. apply (wp_ot_lookup ∅); [done|..]; vnf_simpl.
  - intros pos p ul Hpos _ _ Hx. rewrite Hx, DP_FAILED_pos by done. wp_steps.
    by rewrite bool_decide_true by eauto.
  - intros Hn _. rewrite Hn, DP_FAILED_ENOENT. wp_steps. by rewrite bool_decide_false by (by intros []).
Qed.

(** [DP_VNF_MATCH_ALL_PORT_IDS] is an ordinary port id for the lookup: as long as
    functions are registered for existing ports, the question whether any port
    has the prefix is always answered with no. *)
Theorem lbprefix_all_ports_never s vni pfx len :
  vnf_inv s → (∀ ul vnf, handles s !! ul = Some vnf → vnf_port_id vnf ≠ DP_VNF_MATCH_ALL_PORT_IDS) →
  dp_vnf_lbprefix_exists DP_VNF_MATCH_ALL_PORT_IDS vni pfx len s = Some (false, s).
Proof.
  intros Hs Hports. rewrite lbprefix_exists_eq by done. rewrite bool_decide_false; [done|].
  intros [ul Hx%(vni_inverse _ Hs)]. by apply Hports in Hx.
Qed.

(** The routes listed for a port and type. *)
Definition vnf_routes s (port_id : Z) (type : dp_vnf_type) : list vnf_route :=
  (λ x, MkVnfRoute (vnf_pfx_ol x.2) (vnf_pfx_length x.2) (DP_SET_IPADDR6 x.1))
    <$> filter (λ x, vnf_port_id x.2 = port_id ∧ vnf_type x.2 = type) (map_to_list (handles s)).

(** The client that lists the prefixes of a port receives each of them once, or
    an out-of-memory code. *)
Theorem list_vnf_spec `{HP : RteMempool} s port_id type req pool room size msg_size :
  vnf_inv s → 0 < msg_size ≤ room → room / msg_size ≤ UINT16_MAX →
  wp (dp_list_vnf_alias_prefixes msg_size port_id type s)
    (λ ret r, (ret = DP_GRPC_OK
               ∧ received (dp_grpc_send_response id ret r) ≡ₚ vnf_routes s port_id type)
              ∨ ret = DP_GRPC_ERR OUT_OF_MEMORY)
    (dp_grpc_init_responder req pool room size).
Proof.
  intros [Hh _ _] Hs Hr. unfold dp_list_vnf_alias_prefixes. destruct (_ =? 0) eqn:Hcnt.
  - wp_steps. left. split; [done|]. apply Z.eqb_eq in Hcnt. rewrite hash_count_size in Hcnt.
    assert (Hz : handles s = ∅).
    { unfold handles, view, ot_ptrs. rewrite (map_size_empty_inv (contents _)) by lia. apply omap_empty. }
    unfold vnf_routes. rewrite Hz, map_to_list_empty. done.
  - destruct (wp_inv _ _ _ (wp_ot_items ∅ (vnf_handle_tbl s) (λ r t, r.1 ≡ₚ map_to_list (handles s)
      ∧ r.2 = - ENOENT) Hh ltac:(by intros))) as ([l ret0] & t & -> & Hperm & Hret). simpl in *. subst ret0.
    destruct (responder_ok_init req pool room size msg_size Hs Hr) as (r & Hset & Hok & Hw).
    apply wp_bind. eapply wp_intro; [done|]. apply wp_bind.
    wp_use (wp_reply_each r _ Hok). intros ret r' (n & Hw' & Hret). wp_steps.
    destruct Hret as [[-> Hn]|[-> Hn]]; [left|by right].
    change (DP_FAILED DP_GRPC_OK) with false. rewrite Z.eqb_refl. split; [done|].
    rewrite received_sent, Hw', Hw, take_ge by done. simpl. unfold vnf_routes.
    rewrite <- Hperm. erewrite list_fmap_ext; [reflexivity|]. intros i [ul vnf] _.
    by rewrite dp_copy_ipaddr_id.
Qed.
End vnf_facts.

(** ** Runs *)

Section vnf_examples.
#[local] Existing Instances test_hash test_hash_ok test_malloc test_malloc_ok list_mempool.

Definition ex_vnf : dp_vnf := MkVnf DP_VNF_TYPE_LB_ALIAS_PFX 100 3 (DP_SET_IPADDR4 167772160) 24.
Definition ex_vnf_empty : vnf_state :=
  MkVnfState (OTable (∅ : gmap Z loc) (Heap (∅ : gmap loc dp_vnf) ([] : list bool)))
    (OTable (∅ : gmap dp_vnf loc) (Heap (∅ : gmap loc Z) ([] : list bool))).
Definition ex_vnf_one : vnf_state :=
  run_state ex_vnf_empty
    (dp_add_vnf 77 DP_VNF_TYPE_LB_ALIAS_PFX 3 100 (DP_SET_IPADDR4 167772160) 24).

Lemma ex_vnf_empty_inv : vnf_inv ex_vnf_empty.
Proof. by apply (vnf_init_inv (HM := test_malloc) ([] : list bool) ([] : list bool)). Qed.

Lemma ex_vnf_one_inv : vnf_inv ex_vnf_one.
Proof.
  constructor.
  - by apply (wf_with_singleton (vnf_handle_tbl ex_vnf_one) 77 2%positive ex_vnf).
  - by apply (wf_with_singleton (vnf_value_tbl ex_vnf_one) ex_vnf 2%positive 77).
  - intros ul vnf. change (handles ex_vnf_one) with ({[77 := ex_vnf]} : gmap Z dp_vnf).
    change (values ex_vnf_one) with ({[ex_vnf := 77]} : gmap dp_vnf Z).
    rewrite !lookup_singleton_Some. naive_solver.
Qed.

Lemma del_vnf_by_value_spec_witness :
  ∃ s', dp_del_vnf_by_value DP_VNF_TYPE_LB_ALIAS_PFX 3 100 (DP_SET_IPADDR4 167772160) 24 ex_vnf_one
        = Some (DP_OK, s') ∧ vnf_inv s' ∧ handles s' = ∅.
Proof.
  destruct (wp_inv _ _ _ (del_vnf_by_value_spec ex_vnf_one DP_VNF_TYPE_LB_ALIAS_PFX 3 100
    (DP_SET_IPADDR4 167772160) 24 ex_vnf_one_inv)) as (ret & s' & Hrun & Hinv & Hr).
  change (values ex_vnf_one !! _) with (Some 77) in Hr. destruct Hr as (-> & Hh & _).
  exists s'. split; [exact Hrun|]. split; [exact Hinv|]. rewrite Hh. vm_compute. reflexivity.
Defined.

Lemma lbprefix_all_ports_never_witness :
  dp_vnf_lbprefix_exists DP_VNF_MATCH_ALL_PORT_IDS 100 (DP_SET_IPADDR4 167772160) 24 ex_vnf_one
  = Some (false, ex_vnf_one)
  ∧ dp_vnf_lbprefix_exists 3 100 (DP_SET_IPADDR4 167772160) 24 ex_vnf_one
    = Some (true, ex_vnf_one).
Proof.
  split; [|vm_compute; reflexivity]. apply lbprefix_all_ports_never; [exact ex_vnf_one_inv|].
  intros ul vnf. change (handles ex_vnf_one) with ({[77 := ex_vnf]} : gmap Z dp_vnf).
  intros [<- <-]%lookup_singleton_Some. vm_compute. congruence.
Defined.

Lemma list_vnf_spec_witness :
  wp (dp_list_vnf_alias_prefixes 40 3 DP_VNF_TYPE_LB_ALIAS_PFX ex_vnf_one)
    (λ ret r, (ret = DP_GRPC_OK
               ∧ received (dp_grpc_send_response id ret r)
                 ≡ₚ [MkVnfRoute (DP_SET_IPADDR4 167772160) 24 (DP_SET_IPADDR6 77)])
              ∨ ret = DP_GRPC_ERR OUT_OF_MEMORY)
    (dp_grpc_init_responder (MkReply false 0 0 ∅) ([] : list bool) 1000 100).
Proof.
  apply (list_vnf_spec (HP := list_mempool) ex_vnf_one 3 DP_VNF_TYPE_LB_ALIAS_PFX
           (MkReply false 0 0 ∅) ([] : list bool) 1000 100 40
           ex_vnf_one_inv); [lia|vm_compute; congruence].
Defined.
End vnf_examples.
