(* ===== verification/Conn.v ===== *)
(** * Connection objects (include/dp_flow.h)

    The flow table maps both keys of a connection to one [struct flow_value];
    [flow_key] itself is in [Types].  The two-element arrays indexed by the
    direction and the nested structures are flattened. *)

From S2P Require Import Prelude Dpdk Error Types Port.

Definition DP_FLOW_TABLE_MAX : Z := 850000.
Definition DP_FLOW_VAL_AGE_CTX_CAPACITY : nat := 6.
Definition DP_FLOW_DEFAULT_TIMEOUT : Z := 30.
Definition DP_FLOW_TCP_EXTENDED_TIMEOUT : Z := 60 * 60 * 24.

Definition DP_FLOW_FLAG_NONE : Z := 0.
Definition DP_FLOW_FLAG_SRC_NAT : Z := 1.
Definition DP_FLOW_FLAG_DST_NAT : Z := 2.
Definition DP_FLOW_FLAG_DST_LB : Z := 4.
Definition DP_FLOW_FLAG_FIREWALL : Z := 8.
Definition DP_FLOW_FLAG_SRC_NAT64 : Z := 16.
Definition DP_FLOW_FLAG_DEFAULT : Z := 32.
Definition DP_FLOW_FLAG_NF : Z :=
  Z.lor (Z.lor (Z.lor DP_FLOW_FLAG_SRC_NAT64 DP_FLOW_FLAG_SRC_NAT) DP_FLOW_FLAG_DST_NAT)
    DP_FLOW_FLAG_DST_LB.

Definition has_flag (flag flags : Z) : bool := negb (Z.land flags flag =? 0).
Definition DP_FLOW_HAS_NO_FLAGS (flags : Z) : bool := flags =? 0.
Definition DP_FLOW_HAS_FLAG_SRC_NAT : Z → bool := has_flag DP_FLOW_FLAG_SRC_NAT.
Definition DP_FLOW_HAS_FLAG_DST_NAT : Z → bool := has_flag DP_FLOW_FLAG_DST_NAT.
Definition DP_FLOW_HAS_FLAG_DST_LB : Z → bool := has_flag DP_FLOW_FLAG_DST_LB.
Definition DP_FLOW_HAS_FLAG_FIREWALL : Z → bool := has_flag DP_FLOW_FLAG_FIREWALL.
Definition DP_FLOW_HAS_FLAG_SRC_NAT64 : Z → bool := has_flag DP_FLOW_FLAG_SRC_NAT64.
Definition DP_FLOW_HAS_FLAG_DEFAULT : Z → bool := has_flag DP_FLOW_FLAG_DEFAULT.
Definition DP_FLOW_HAS_FLAG_NF : Z → bool := has_flag DP_FLOW_FLAG_NF.

Inductive dp_flow_nat_type :=
  | DP_FLOW_NAT_TYPE_NONE
  | DP_FLOW_NAT_TYPE_VIP
  | DP_FLOW_NAT_TYPE_NETWORK_LOCAL
  | DP_FLOW_NAT_TYPE_NETWORK_NEIGH
  | DP_FLOW_NAT_AS_TARGET
  | DP_FLOW_LB_TYPE_LOCAL_NEIGH_TRAFFIC
  | DP_FLOW_LB_TYPE_RECIRC
  | DP_FLOW_LB_TYPE_FORWARD.

Inductive dp_flow_tcp_state :=
  | DP_FLOW_TCP_STATE_NONE
  | DP_FLOW_TCP_STATE_NEW_SYN
  | DP_FLOW_TCP_STATE_NEW_SYNACK
  | DP_FLOW_TCP_STATE_ESTABLISHED
  | DP_FLOW_TCP_STATE_FINWAIT
  | DP_FLOW_TCP_STATE_RST_FIN.

Global Instance dp_flow_nat_type_eq_dec : EqDecision dp_flow_nat_type.
Proof. solve_decision. Defined.
Global Instance dp_flow_tcp_state_eq_dec : EqDecision dp_flow_tcp_state.
Proof. solve_decision. Defined.

(** [fv_nf_*] are the members of [nf_info]; [fv_refcount] is the counter of
    [ref_count], whose release function is always [dp_free_flow]. *)
Record flow_value := MkFlowValue {
  fv_key_org : flow_key;
  fv_key_reply : flow_key;
  fv_rte_age_ctxs : list (option loc);
  fv_nf_vni : Z;
  fv_nf_icmp_err_ip_cksum : Z;
  fv_nf_nat_type : dp_flow_nat_type;
  fv_nf_underlay_dst : Z;
  fv_nf_l4_type : Z;
  fv_timestamp : Z;
  fv_timeout_value : Z;
  fv_created_port_id : Z;
  fv_flow_flags : Z;
  fv_fwall_action_org : dp_fwall_action;
  fv_fwall_action_reply : dp_fwall_action;
  fv_offload_orig : dp_pkt_offload_state;
  fv_offload_reply : dp_pkt_offload_state;
  fv_incoming_pf0 : bool;
  fv_incoming_pf1 : bool;
  fv_refcount : Z;
  fv_tcp_state : dp_flow_tcp_state;
  fv_aged : bool
}.

Global Instance flow_value_eta : Eta flow_value := λ r,
  MkFlowValue (fv_key_org r) (fv_key_reply r) (fv_rte_age_ctxs r) (fv_nf_vni r)
    (fv_nf_icmp_err_ip_cksum r) (fv_nf_nat_type r) (fv_nf_underlay_dst r) (fv_nf_l4_type r)
    (fv_timestamp r) (fv_timeout_value r) (fv_created_port_id r) (fv_flow_flags r)
    (fv_fwall_action_org r) (fv_fwall_action_reply r) (fv_offload_orig r) (fv_offload_reply r)
    (fv_incoming_pf0 r) (fv_incoming_pf1 r) (fv_refcount r) (fv_tcp_state r) (fv_aged r).

(** All bytes zero. *)
Definition zero_flow_key : flow_key :=
  MkFlowKey (MkIp 0 false) 0 0 (MkIp 0 false) DP_VNF_TYPE_UNDEFINED 0 0.
Definition zero_flow_value : flow_value :=
  MkFlowValue zero_flow_key zero_flow_key (replicate DP_FLOW_VAL_AGE_CTX_CAPACITY None) 0 0
    DP_FLOW_NAT_TYPE_NONE 0 0 0 0 0 0 DP_FWALL_DROP DP_FWALL_DROP DP_FLOW_NON_OFFLOAD
    DP_FLOW_NON_OFFLOAD false false 0 DP_FLOW_TCP_STATE_NONE false.

(** [ac_rte_flow] and [ac_handle] are the handles that DPDK returned. *)
Record flow_age_ctx := MkAgeCtx {
  ac_cntrack : option loc;
  ac_rte_flow : option Z;
  ac_ref_index : Z;
  ac_port_id : Z;
  ac_handle : option Z
}.
Global Instance flow_age_ctx_eta : Eta flow_age_ctx := λ r,
  MkAgeCtx (ac_cntrack r) (ac_rte_flow r) (ac_ref_index r) (ac_port_id r) (ac_handle r).

(** The comparison of the 44 bytes of two keys. *)
Definition dp_are_flows_identical (key1 key2 : flow_key) : bool := bool_decide (key1 = key2).
