(* ===== verification/Mbuf.v ===== *)
(** * Packets (include/dp_mbuf_dyn.h, src/rte_flow/dp_rte_flow.c)

    A packet is the buffer of its mbuf, byte by byte, with the private area
    that dpservice attaches to it.  A member of a header is read and written
    as the value its bytes encode in the memory of a little-endian host, so a
    member of type [rte_be16_t] is converted with [ntohs] where the code does.
    An access outside the buffer is undefined behaviour.

    Headers are found by their offset: the Ethernet header is at 0, and the
    offsets below are those of the members in the structures of DPDK
    (rte_ether.h, rte_ip.h, rte_tcp.h, rte_udp.h, rte_icmp.h). *)

From S2P Require Import Prelude Dpdk Error Types.

(** ** Header layouts *)

Definition sizeof_ether_hdr : Z := 14.
Definition sizeof_ipv4_hdr : Z := 20.
Definition sizeof_ipv6_hdr : Z := 40.
Definition sizeof_tcp_hdr : Z := 20.
Definition sizeof_udp_hdr : Z := 8.
Definition sizeof_icmp_hdr : Z := 8.

(** Members of the Ethernet header. *)
Definition eth_dst : Z := 0.
Definition eth_src : Z := 6.
Definition eth_ether_type : Z := 12.

(** Members of the IPv4 header. *)
Definition ip4_version_ihl : Z := 0.
Definition ip4_tos : Z := 1.
Definition ip4_total_length : Z := 2.
Definition ip4_packet_id : Z := 4.
Definition ip4_fragment_offset : Z := 6.
Definition ip4_ttl : Z := 8.
Definition ip4_proto : Z := 9.
Definition ip4_cksum : Z := 10.
Definition ip4_src : Z := 12.
Definition ip4_dst : Z := 16.

(** Members of the IPv6 header. *)
Definition ip6_vtc_flow : Z := 0.
Definition ip6_payload_len : Z := 4.
Definition ip6_proto : Z := 6.
Definition ip6_hop_limits : Z := 7.
Definition ip6_src : Z := 8.
Definition ip6_dst : Z := 24.

(** Members of the TCP, UDP and ICMP headers. *)
Definition l4_src_port : Z := 0.
Definition l4_dst_port : Z := 2.
Definition tcp_data_off : Z := 12.
Definition tcp_flags : Z := 13.
Definition tcp_cksum : Z := 16.
Definition udp_cksum : Z := 6.
Definition icmp_type : Z := 0.
Definition icmp_code : Z := 1.
Definition icmp_cksum : Z := 2.
Definition icmp_ident : Z := 4.

(** ** The buffer *)

Definition to_bytes (n : nat) (v : Z) : list Z := (λ i, byte_of i v) <$> seqZ 0 (Z.of_nat n).

(** The [n] bytes at position [i] of a buffer, and the buffer with bytes [l]
    written there. *)
Definition in_buf (buf : list Z) (i : Z) (n : nat) : bool :=
  (0 <=? i) && (i + Z.of_nat n <=? Z.of_nat (length buf)).
Definition buf_get (buf : list Z) (i : Z) (n : nat) : list Z := take n (drop (Z.to_nat i) buf).
Definition buf_set (buf : list Z) (i : Z) (l : list Z) : list Z :=
  take (Z.to_nat i) buf ++ l ++ drop (Z.to_nat i + length l) buf.

Record dp_pkt_mark := MkMark { pm_id : Z; pm_is_recirc : bool }.

(** [mb_flow] and [mb_mark] are the private area; the lengths of headers are the
    members of [tx_offload] that are used. *)
Record rte_mbuf := MkMbuf {
  mb_buf : list Z;
  mb_data_off : Z;
  mb_data_len : Z;
  mb_port : Z;
  mb_packet_type : Z;
  mb_ol_flags : Z;
  mb_l2_len : Z;
  mb_l3_len : Z;
  mb_l4_len : Z;
  mb_outer_l2_len : Z;
  mb_outer_l3_len : Z;
  mb_flow : dp_flow;
  mb_mark : dp_pkt_mark
}.
Global Instance rte_mbuf_eta : Eta rte_mbuf := λ r,
  MkMbuf (mb_buf r) (mb_data_off r) (mb_data_len r) (mb_port r) (mb_packet_type r) (mb_ol_flags r)
    (mb_l2_len r) (mb_l3_len r) (mb_l4_len r) (mb_outer_l2_len r) (mb_outer_l3_len r) (mb_flow r) (mb_mark r).

(** Reading and writing [n] bytes at an offset from the start of the data
    ([rte_pktmbuf_mtod]). *)
Definition ld (n : nat) (off : Z) : cmd rte_mbuf Z := λ m,
  let i := mb_data_off m + off in
  if in_buf (mb_buf m) i n then Some (of_bytes (buf_get (mb_buf m) i n), m) else None.
Definition st (n : nat) (off v : Z) : cmd rte_mbuf () := λ m,
  let i := mb_data_off m + off in
  if in_buf (mb_buf m) i n
  then Some (tt, m <| mb_buf := buf_set (mb_buf m) i (to_bytes n v) |>) else None.

Abbreviation ld8 := (ld 1).
Abbreviation ld16 := (ld 2).
Abbreviation ld32 := (ld 4).
Abbreviation ld128 := (ld 16).
Abbreviation st8 := (st 1).
Abbreviation st16 := (st 2).
Abbreviation st32 := (st 4).
Abbreviation st128 := (st 16).

(** [memmove] of [n] bytes between positions given as offsets from the data. *)
Definition m_memmove (n : nat) (dst src : Z) : cmd rte_mbuf () := λ m,
  let i := mb_data_off m + src in
  let j := mb_data_off m + dst in
  if in_buf (mb_buf m) i n && in_buf (mb_buf m) j n
  then Some (tt, m <| mb_buf := buf_set (mb_buf m) j (buf_get (mb_buf m) i n) |>) else None.

Definition get_df : cmd rte_mbuf dp_flow := gets mb_flow.
Definition upd_df (f : dp_flow → dp_flow) : cmd rte_mbuf () :=
  modify (λ m, m <| mb_flow := f (mb_flow m) |>).

(** The position of the header after the Ethernet header. *)
Definition dp_get_ipv4_hdr : Z := sizeof_ether_hdr.
Definition dp_get_ipv6_hdr : Z := sizeof_ether_hdr.

(** [pkt_id] is the new value of [dp_pkt_id_counter]. *)
Definition dp_init_pkt_mark (pkt_id : Z) : cmd rte_mbuf () :=
  modify (λ m, m <| mb_mark := MkMark pkt_id false |>).

(** ** Header extraction (include/dp_mbuf_dyn.h) *)

Definition dp_extract_ipv4_header (ipv4_hdr : Z) : cmd rte_mbuf () :=
  src_addr ← ld32 (ipv4_hdr + ip4_src);
  upd_df (set_df_src_addr src_addr);;
  dst_addr ← ld32 (ipv4_hdr + ip4_dst);
  upd_df (set_df_dst_addr dst_addr);;
  proto ← ld8 (ipv4_hdr + ip4_proto);
  upd_df (λ df, df <| df_l4_type := proto |>).

Definition dp_extract_ipv6_header (ipv6_hdr : Z) : cmd rte_mbuf () :=
  dst_addr ← ld128 (ipv6_hdr + ip6_dst);
  upd_df (λ df, df <| df_dst_addr6 := dst_addr |>);;
  src_addr ← ld128 (ipv6_hdr + ip6_src);
  upd_df (λ df, df <| df_src_addr6 := src_addr |>);;
  proto ← ld8 (ipv6_hdr + ip6_proto);
  upd_df (λ df, df <| df_l4_type := proto |>).

Definition dp_extract_l4_header (l4_hdr : Z) : cmd rte_mbuf Z :=
  df ← get_df;
  if (df_l4_type df =? IPPROTO_TCP) || (df_l4_type df =? IPPROTO_UDP) then
    dst_port ← ld16 (l4_hdr + l4_dst_port);
    upd_df (λ df, df <| df_trans_dst_port := dst_port |>);;
    src_port ← ld16 (l4_hdr + l4_src_port);
    upd_df (λ df, df <| df_trans_src_port := src_port |>);;
    mret DP_OK
  else if (df_l4_type df =? IPPROTO_ICMP) || (df_l4_type df =? IPPROTO_ICMPV6) then
    type ← ld8 (l4_hdr + icmp_type);
    code ← ld8 (l4_hdr + icmp_code);
    ident ← ld16 (l4_hdr + icmp_ident);
    upd_df (λ df, df <| df_trans_dst_port := type + 2 ^ 8 * code |>
                     <| df_trans_src_port := ident |>);;
    mret DP_OK
  else mret DP_ERROR.

Definition dp_extract_underlay_header (ipv6_hdr : Z) : cmd rte_mbuf () :=
  src_addr ← ld128 (ipv6_hdr + ip6_src);
  dst_addr ← ld128 (ipv6_hdr + ip6_dst);
  proto ← ld8 (ipv6_hdr + ip6_proto);
  upd_df (λ df, df <| df_ul_src_addr6 := src_addr |> <| df_ul_dst_addr6 := dst_addr |>
                   <| df_tun_proto_id := proto |>).

(** ** Header changes (src/rte_flow/dp_rte_flow.c) *)

Definition DP_L4_PORT_DIR_SRC : Z := 1.
Definition DP_L4_PORT_DIR_DST : Z := 2.
Definition DP_IP_ICMP_TYPE_ERROR : Z := 3.
Definition DP_IP_ICMP_CODE_DST_PROTO_UNREACHABLE : Z := 2.
Definition DP_IP_ICMP_CODE_DST_PORT_UNREACHABLE : Z := 3.
Definition DP_IP_ICMP_CODE_FRAGMENT_NEEDED : Z := 4.

(** [ei_err_ipv4_hdr] is the position of the header inside the ICMP message. *)
Record dp_icmp_err_ip_info := MkErrInfo {
  ei_err_ipv4_hdr : option Z;
  ei_l4_src_port : Z;
  ei_l4_dst_port : Z
}.

(** The low four bits of [version_ihl]. *)
Definition ip4_ihl (version_ihl : Z) : Z := Z.land version_ihl 15.

Definition dp_get_icmp_err_ip_hdr (info : dp_icmp_err_ip_info) : cmd rte_mbuf dp_icmp_err_ip_info :=
  df ← get_df;
  if df_l4_type df =? IPPROTO_ICMP then
    let icmp_hdr := dp_get_ipv4_hdr + sizeof_ipv4_hdr in
    type ← ld8 (icmp_hdr + icmp_type);
    if type =? DP_IP_ICMP_TYPE_ERROR then
      let err := icmp_hdr + sizeof_icmp_hdr in
      proto ← ld8 (err + ip4_proto);
      if (proto =? IPPROTO_TCP) || (proto =? IPPROTO_UDP) then
        vihl ← ld8 (err + ip4_version_ihl);
        src ← ld16 (err + ip4_ihl vihl * 4);
        dst ← ld16 (err + ip4_ihl vihl * 4 + 2);
        mret (MkErrInfo (Some err) src dst)
      else mret (MkErrInfo (Some err) (ei_l4_src_port info) (ei_l4_dst_port info))
    else mret info
  else mret info.

Definition dp_change_icmp_err_l4_src_port (info : dp_icmp_err_ip_info) (new_val : Z) :
    cmd rte_mbuf dp_icmp_err_ip_info :=
  let new_src_port := htons new_val in
  let icmp_hdr := dp_get_ipv4_hdr + sizeof_ipv4_hdr in
  type ← ld8 (icmp_hdr + icmp_type);
  if type =? DP_IP_ICMP_TYPE_ERROR then
    let err := icmp_hdr + sizeof_icmp_hdr in
    proto ← ld8 (err + ip4_proto);
    (if (proto =? IPPROTO_TCP) || (proto =? IPPROTO_UDP) then
       vihl ← ld8 (err + ip4_version_ihl);
       st16 (err + ip4_ihl vihl * 4) new_src_port
     else mret tt);;
    mret (MkErrInfo (Some err) (ei_l4_src_port info) (ei_l4_dst_port info))
  else mret info.

(** The ports of the TCP and of the UDP header are at the same place. *)
Definition dp_change_l4_hdr_port (port_type new_val : Z) : cmd rte_mbuf () :=
  let new_port := htons new_val in
  let hdr := dp_get_ipv4_hdr + sizeof_ipv4_hdr in
  if port_type =? DP_L4_PORT_DIR_SRC then st16 (hdr + l4_src_port) new_port
  else st16 (hdr + l4_dst_port) new_port.

(** [~x & 0xffff] *)
Definition not16 (z : Z) : Z := 2 ^ 16 - 1 - u16 z.
(** One round of folding the carries of a 32-bit sum. *)
Definition fold16 (z : Z) : Z := z mod 2 ^ 16 + z / 2 ^ 16.

(** The new checksum of [dp_change_icmp_identifier]. *)
Definition icmp_ident_cksum (cksum old_identifier new_identifier : Z) : Z :=
  let sum := u32 (not16 cksum + not16 old_identifier + u16 new_identifier) in
  not16 (fold16 (fold16 sum)).

Definition dp_change_icmp_identifier (new_val : Z) : cmd rte_mbuf () :=
  let icmp_hdr := dp_get_ipv4_hdr + sizeof_ipv4_hdr in
  old_identifier ← ld16 (icmp_hdr + icmp_ident);
  st16 (icmp_hdr + icmp_ident) (htons new_val);;
  cksum ← ld16 (icmp_hdr + icmp_cksum);
  new_identifier ← ld16 (icmp_hdr + icmp_ident);
  st16 (icmp_hdr + icmp_cksum) (icmp_ident_cksum cksum old_identifier new_identifier).

(** ** Facts about the buffer *)

Lemma length_to_bytes n v : length (to_bytes n v) = n.
Proof. unfold to_bytes. by rewrite length_fmap, length_seqZ, Nat2Z.id. Qed.

Lemma of_to_bytes n v : of_bytes (to_bytes n v) = v mod 2 ^ (8 * Z.of_nat n).
Proof. apply of_bytes_byte_of. Qed.

Lemma to_bytes_u8 n v : Forall is_u8 (to_bytes n v).
Proof. apply Forall_fmap, Forall_true. intros. apply byte_of_range. Qed.

Section buf.
Implicit Types (buf l : list Z) (i j : Z) (n : nat).

Lemma in_buf_spec buf i n :
  in_buf buf i n = true ↔ 0 ≤ i ∧ i + Z.of_nat n ≤ Z.of_nat (length buf).
Proof. unfold in_buf. rewrite andb_true_iff. lia. Qed.

Lemma in_buf_set_length buf i n l :
  in_buf buf i n = true → length l = n → length (buf_set buf i l) = length buf.
Proof.
  rewrite in_buf_spec. intros Hi Hl. unfold buf_set.
  rewrite !length_app, length_take, length_drop. lia.
Qed.

Lemma buf_get_set_eq buf i l n :
  in_buf buf i n = true → length l = n → buf_get (buf_set buf i l) i n = l.
Proof.
  rewrite in_buf_spec. intros Hi <-. unfold buf_get, buf_set.
  rewrite drop_app_length' by (rewrite length_take; lia). by rewrite take_app_length.
Qed.

Lemma buf_get_set_ne buf i l j n :
  in_buf buf i (length l) = true → 0 ≤ j → j + Z.of_nat n ≤ i ∨ i + Z.of_nat (length l) ≤ j →
  buf_get (buf_set buf i l) j n = buf_get buf j n.
Proof.
  rewrite in_buf_spec. intros Hi Hj Hdis. unfold buf_get, buf_set. apply list_eq. intros x.
  destruct (decide (x < n)%nat) as [Hx|Hx]; [|by rewrite !lookup_take_ge by lia].
  rewrite !lookup_take_lt, !lookup_drop by done. destruct Hdis as [Hd|Hd].
  - rewrite lookup_app_l by (rewrite length_take; lia). by rewrite lookup_take_lt by lia.
  - rewrite lookup_app_r by (rewrite length_take; lia).
    rewrite lookup_app_r by (rewrite length_take; lia).
    rewrite lookup_drop. f_equal. rewrite length_take. lia.
Qed.

Lemma buf_set_u8 buf i l : Forall is_u8 buf → Forall is_u8 l → Forall is_u8 (buf_set buf i l).
Proof.
  intros Hb Hl. unfold buf_set. repeat apply Forall_app_2; auto using Forall_take, Forall_drop.
Qed.

Lemma buf_get_u8 buf i n : Forall is_u8 buf → Forall is_u8 (buf_get buf i n).
Proof. intros Hb. unfold buf_get. auto using Forall_take, Forall_drop. Qed.

Lemma length_buf_get buf i n : in_buf buf i n = true → length (buf_get buf i n) = n.
Proof. rewrite in_buf_spec. intros Hi. unfold buf_get. rewrite length_take, length_drop. lia. Qed.
End buf.

(** The value of [n] bytes of a packet. *)
Definition mget (m : rte_mbuf) (n : nat) (off : Z) : Z :=
  of_bytes (buf_get (mb_buf m) (mb_data_off m + off) n).
Definition in_pkt (m : rte_mbuf) (off : Z) (n : nat) : bool :=
  in_buf (mb_buf m) (mb_data_off m + off) n.
(** The packet after a store. *)
Definition mset (m : rte_mbuf) (n : nat) (off v : Z) : rte_mbuf :=
  m <| mb_buf := buf_set (mb_buf m) (mb_data_off m + off) (to_bytes n v) |>.

Lemma wp_ld n off m (Q : Z → rte_mbuf → Prop) :
  in_pkt m off n = true → Q (mget m n off) m → wp (ld n off) Q m.
Proof. unfold wp, ld, in_pkt. by intros ->. Qed.

Lemma wp_st n off v m (Q : () → rte_mbuf → Prop) :
  in_pkt m off n = true → Q tt (mset m n off v) → wp (st n off v) Q m.
Proof. unfold wp, st, in_pkt. by intros ->. Qed.

Lemma ld_eq n off m : in_pkt m off n = true → ld n off m = Some (mget m n off, m).
Proof. unfold ld, in_pkt. by intros ->. Qed.

Lemma st_eq n off v m : in_pkt m off n = true → st n off v m = Some (tt, mset m n off v).
Proof. unfold st, in_pkt. by intros ->. Qed.

Lemma in_pkt_mset m n off v off' n' :
  in_pkt m off n = true → in_pkt (mset m n off v) off' n' = in_pkt m off' n'.
Proof.
  intros Hi. unfold in_pkt, in_buf in *. simpl.
  rewrite (in_buf_set_length _ _ n) by (done || apply length_to_bytes). done.
Qed.

Lemma mget_mset_eq m n off v :
  in_pkt m off n = true → mget (mset m n off v) n off = v mod 2 ^ (8 * Z.of_nat n).
Proof.
  intros Hi. unfold mget, mset. simpl. rewrite buf_get_set_eq by (done || apply length_to_bytes).
  apply of_to_bytes.
Qed.

Lemma mget_mset_ne m n off v n' off' :
  in_pkt m off n = true → 0 ≤ mb_data_off m + off' →
  off' + Z.of_nat n' ≤ off ∨ off + Z.of_nat n ≤ off' →
  mget (mset m n off v) n' off' = mget m n' off'.
Proof.
  intros Hi Hj Hdis. unfold mget, mset. simpl. rewrite buf_get_set_ne; [done| |done|].
  - by rewrite length_to_bytes.
  - rewrite length_to_bytes. lia.
Qed.

Lemma mget_range m n off :
  Forall is_u8 (mb_buf m) → in_pkt m off n = true → 0 ≤ mget m n off < 2 ^ (8 * Z.of_nat n).
Proof.
  intros Hu Hi. unfold mget. pose proof (of_bytes_range _ (buf_get_u8 _ (mb_data_off m + off) n Hu)) as Hr.
  by rewrite length_buf_get in Hr.
Qed.

(** An access inside a range that is in the buffer is in the buffer. *)
Lemma in_pkt_sub m off n off' n' :
  in_pkt m off n = true → off ≤ off' → off' + Z.of_nat n' ≤ off + Z.of_nat n →
  in_pkt m off' n' = true.
Proof. unfold in_pkt. rewrite !in_buf_spec. lia. Qed.

Lemma in_pkt_nonneg m off n : in_pkt m off n = true → 0 ≤ mb_data_off m + off.
Proof. unfold in_pkt. rewrite in_buf_spec. lia. Qed.

(** *** Packets that differ in one place

    For programs that write many members, the packet after a store is described
    by what it reads as; [pkt_get] computes a read through such descriptions. *)

Record pkt_upd (m m' : rte_mbuf) (n : nat) (off v : Z) : Prop := {
  pu_eq : mget m' n off = v mod 2 ^ (8 * Z.of_nat n);
  pu_ne n' off' : 0 ≤ mb_data_off m + off' →
    off' + Z.of_nat n' ≤ off ∨ off + Z.of_nat n ≤ off' → mget m' n' off' = mget m n' off';
  pu_off : mb_data_off m' = mb_data_off m;
  pu_len : length (mb_buf m') = length (mb_buf m);
  pu_u8 : Forall is_u8 (mb_buf m) → Forall is_u8 (mb_buf m');
  pu_rest : m' = m <| mb_buf := mb_buf m' |>;
  pu_get n' off' : 0 ≤ mb_data_off m + off' →
    off' + Z.of_nat n' ≤ off ∨ off + Z.of_nat n ≤ off' →
    buf_get (mb_buf m') (mb_data_off m' + off') n' = buf_get (mb_buf m) (mb_data_off m + off') n'
}.

Lemma wp_st_upd n off v m (Q : () → rte_mbuf → Prop) :
  in_pkt m off n = true → (∀ m', pkt_upd m m' n off v → Q tt m') → wp (st n off v) Q m.
Proof.
  intros Hi HQ. apply wp_st; [done|]. apply HQ. constructor.
  - by apply mget_mset_eq.
  - intros. by apply mget_mset_ne.
  - done.
  - simpl. apply (in_buf_set_length _ _ n); [done|]. apply length_to_bytes.
  - intros Hu. apply buf_set_u8; [done|]. apply to_bytes_u8.
  - done.
  - intros n' off' H0 Hd. cbn. apply buf_get_set_ne; rewrite ?length_to_bytes; [done|done|lia].
Qed.

(** The bytes [dst, dst + n) were copied from [src, src + n). *)
Record pkt_moved (m m' : rte_mbuf) (n : nat) (dst src : Z) : Prop := {
  pv_eq k off : dst ≤ off → off + Z.of_nat k ≤ dst + Z.of_nat n →
    mget m' k off = mget m k (off - dst + src);
  pv_ne k off : 0 ≤ mb_data_off m + off →
    off + Z.of_nat k ≤ dst ∨ dst + Z.of_nat n ≤ off → mget m' k off = mget m k off;
  pv_off : mb_data_off m' = mb_data_off m;
  pv_len : length (mb_buf m') = length (mb_buf m);
  pv_u8 : Forall is_u8 (mb_buf m) → Forall is_u8 (mb_buf m');
  pv_rest : m' = m <| mb_buf := mb_buf m' |>
}.

Lemma wp_memmove n dst src m (Q : () → rte_mbuf → Prop) :
  in_pkt m dst n = true → in_pkt m src n = true →
  (∀ m', pkt_moved m m' n dst src → Q tt m') → wp (m_memmove n dst src) Q m.
Proof.
  unfold in_pkt. intros Hd Hs HQ. unfold wp, m_memmove. rewrite Hs, Hd. apply HQ.
  set (l := buf_get (mb_buf m) (mb_data_off m + src) n).
  assert (Hl : length l = n) by (by apply length_buf_get).
  rewrite in_buf_spec in Hd, Hs. constructor; simpl; [| |done| |by intros Hu; apply buf_set_u8; [|apply buf_get_u8]|done].
  - intros k off Hlo Hhi. unfold mget. simpl. f_equal. unfold buf_get, buf_set, l.
    apply list_eq. intros x. destruct (decide (x < k)%nat) as [Hx|Hx]; [|by rewrite !lookup_take_ge by lia].
    rewrite !lookup_take_lt, !lookup_drop by done.
    rewrite lookup_app_r by (rewrite length_take; lia).
    rewrite lookup_app_l by (unfold buf_get; rewrite !length_take, length_drop; lia).
    unfold buf_get. rewrite length_take, lookup_take_lt, lookup_drop by lia. f_equal. lia.
  - intros k off H0 Hdis. unfold mget. simpl. rewrite buf_get_set_ne; [done| |done|]; rewrite Hl.
    + by rewrite in_buf_spec.
    + lia.
  - apply (in_buf_set_length _ _ n); [|done]. by rewrite in_buf_spec.
Qed.

Lemma pu_data_len m m' n off v : pkt_upd m m' n off v → mb_data_len m' = mb_data_len m.
Proof. intros H. by rewrite (pu_rest _ _ _ _ _ H). Qed.
Lemma pu_ol_flags m m' n off v : pkt_upd m m' n off v → mb_ol_flags m' = mb_ol_flags m.
Proof. intros H. by rewrite (pu_rest _ _ _ _ _ H). Qed.
Lemma pu_flow m m' n off v : pkt_upd m m' n off v → mb_flow m' = mb_flow m.
Proof. intros H. by rewrite (pu_rest _ _ _ _ _ H). Qed.
Lemma pu_port m m' n off v : pkt_upd m m' n off v → mb_port m' = mb_port m.
Proof. intros H. by rewrite (pu_rest _ _ _ _ _ H). Qed.
Lemma pv_data_len m m' n dst src : pkt_moved m m' n dst src → mb_data_len m' = mb_data_len m.
Proof. intros H. by rewrite (pv_rest _ _ _ _ _ H). Qed.
Lemma pv_ol_flags m m' n dst src : pkt_moved m m' n dst src → mb_ol_flags m' = mb_ol_flags m.
Proof. intros H. by rewrite (pv_rest _ _ _ _ _ H). Qed.
Lemma pv_flow m m' n dst src : pkt_moved m m' n dst src → mb_flow m' = mb_flow m.
Proof. intros H. by rewrite (pv_rest _ _ _ _ _ H). Qed.
Lemma pv_port m m' n dst src : pkt_moved m m' n dst src → mb_port m' = mb_port m.
Proof. intros H. by rewrite (pv_rest _ _ _ _ _ H). Qed.

(** The same bytes at the same place. *)
Lemma mget_ext m m' n off :
  mb_buf m' = mb_buf m → mb_data_off m' = mb_data_off m → mget m' n off = mget m n off.
Proof. unfold mget. by intros -> ->. Qed.

(** The same bytes with the data starting elsewhere. *)
Lemma mget_shift m m' n off :
  mb_buf m' = mb_buf m → mget m' n off = mget m n (mb_data_off m' - mb_data_off m + off).
Proof. unfold mget. intros ->. do 2 f_equal. lia. Qed.

(** [pkt_in] proves that an access is inside the buffer. *)
Ltac pkt_in := unfold in_pkt in *; rewrite ?in_buf_spec in *; simpl Z.of_nat in *; lia.

(** [pkt_facts] brings what is known of the packets into the context. *)
Ltac pkt_facts :=
  repeat match goal with
  | H : pkt_upd ?m ?m' ?n ?off ?v |- _ =>
      lazymatch goal with
      | _ : mb_data_off m' = mb_data_off m |- _ => fail
      | _ => pose proof (pu_off _ _ _ _ _ H); pose proof (pu_len _ _ _ _ _ H);
             pose proof (pu_data_len _ _ _ _ _ H); pose proof (pu_flow _ _ _ _ _ H);
             pose proof (pu_ol_flags _ _ _ _ _ H); pose proof (pu_port _ _ _ _ _ H)
      end
  | H : pkt_moved ?m ?m' ?n ?dst ?src |- _ =>
      lazymatch goal with
      | _ : mb_data_off m' = mb_data_off m |- _ => fail
      | _ => pose proof (pv_off _ _ _ _ _ H); pose proof (pv_len _ _ _ _ _ H);
             pose proof (pv_data_len _ _ _ _ _ H); pose proof (pv_flow _ _ _ _ _ H);
             pose proof (pv_ol_flags _ _ _ _ _ H); pose proof (pv_port _ _ _ _ _ H)
      end
  end.

(** [pkt_get] computes the reads of a goal through the stores before them. *)
Ltac pkt_get1 :=
  match goal with
  | H : pkt_upd ?m ?m' ?n ?off ?v |- context [mget ?m' ?k ?o] =>
      first [ rewrite (pu_eq _ _ _ _ _ H)
            | rewrite (pu_ne _ _ _ _ _ H k o) by (simpl Z.of_nat; lia) ]
  | H : pkt_moved ?m ?m' ?n ?dst ?src |- context [mget ?m' ?k ?o] =>
      first [ rewrite (pv_ne _ _ _ _ _ H k o) by (simpl Z.of_nat; lia)
            | rewrite (pv_eq _ _ _ _ _ H k o) by (simpl Z.of_nat; lia) ]
  end.
Ltac pkt_get := repeat pkt_get1.

(** ** The Internet checksum *)

(** The sum of [n] 16-bit words, and what a receiver checks: the
    one's-complement sum is zero, which is congruence to 0 modulo [2^16 - 1]. *)
Fixpoint words_sum (m : rte_mbuf) (off : Z) (n : nat) : Z :=
  match n with O => 0 | S n => mget m 2 off + words_sum m (off + 2) n end.
Definition cksum_ok (m : rte_mbuf) (off : Z) (n : nat) : Prop :=
  words_sum m off n mod (2 ^ 16 - 1) = 0.

Lemma words_sum_mset_out m off n off' v :
  in_pkt m off' 2 = true → in_pkt m off (2 * n) = true →
  off' + 2 ≤ off ∨ off + 2 * Z.of_nat n ≤ off' →
  words_sum (mset m 2 off' v) off n = words_sum m off n.
Proof.
  intros Hi. revert off. induction n as [|n IH]; intros off Hn Hdis; [done|]. cbn [words_sum].
  pose proof (in_pkt_nonneg _ _ _ Hn). destruct n as [|n].
  - simpl. rewrite mget_mset_ne; [done|done|done|lia].
  - rewrite IH, mget_mset_ne; [done|done|done|lia|by apply (in_pkt_sub _ _ _ _ _ Hn); lia|lia].
Qed.

(** Writing one of the words changes the sum by the difference. *)
Lemma words_sum_mset m off n k v :
  (k < n)%nat → in_pkt m off (2 * n) = true → is_u16 v →
  words_sum (mset m 2 (off + 2 * Z.of_nat k) v) off n
  = words_sum m off n - mget m 2 (off + 2 * Z.of_nat k) + v.
Proof.
  intros Hk. revert off k Hk. induction n as [|n IH]; intros off k Hk Hn Hv; [lia|].
  pose proof (in_pkt_nonneg _ _ _ Hn).
  assert (Hi : in_pkt m (off + 2 * Z.of_nat k) 2 = true) by (apply (in_pkt_sub _ _ _ _ _ Hn); lia).
  cbn [words_sum]. destruct k as [|k].
  - replace (off + 2 * Z.of_nat 0) with off in * by lia. rewrite mget_mset_eq by done.
    rewrite Z.mod_small by done. destruct n as [|n]; [simpl; lia|].
    rewrite words_sum_mset_out; [lia|done|by apply (in_pkt_sub _ _ _ _ _ Hn); lia|lia].
  - rewrite mget_mset_ne; [|done|done|lia].
    replace (off + 2 * Z.of_nat (S k)) with (off + 2 + 2 * Z.of_nat k) by lia.
    rewrite IH; [lia|lia|by apply (in_pkt_sub _ _ _ _ _ Hn); lia|done].
Qed.

Lemma words_sum_ext m m' off n :
  (∀ k, (k < n)%nat → mget m' 2 (off + 2 * Z.of_nat k) = mget m 2 (off + 2 * Z.of_nat k)) →
  words_sum m' off n = words_sum m off n.
Proof.
  revert off. induction n as [|n IH]; intros off Hk; [done|]. cbn [words_sum]. f_equal.
  - specialize (Hk 0%nat). rewrite Z.add_0_r in Hk. apply Hk. lia.
  - apply IH. intros k Hkn. specialize (Hk (S k)).
    replace (off + 2 + 2 * Z.of_nat k) with (off + 2 * Z.of_nat (S k)) by lia. apply Hk. lia.
Qed.

(** A word is two bytes. *)
Lemma mget_word m off :
  in_pkt m off 2 = true → mget m 2 off = mget m 1 off + 2 ^ 8 * mget m 1 (off + 1).
Proof.
  unfold in_pkt. rewrite in_buf_spec. intros Hi. unfold mget, buf_get. rewrite Z.add_assoc.
  set (o := mb_data_off m + off) in *. replace (Z.to_nat (o + 1)) with (S (Z.to_nat o)) by lia.
  destruct (lookup_lt_is_Some_2 (mb_buf m) (Z.to_nat o)) as [a Ha]; [lia|].
  destruct (lookup_lt_is_Some_2 (mb_buf m) (S (Z.to_nat o))) as [b Hb]; [lia|].
  rewrite (drop_S _ _ _ Ha), (drop_S _ _ _ Hb). cbn [take of_bytes foldr]. rewrite !take_0. cbn. lia.
Qed.

Lemma fold16_mod z : fold16 z mod (2 ^ 16 - 1) = z mod (2 ^ 16 - 1).
Proof.
  unfold fold16. rewrite (Z.div_mod z (2 ^ 16)) at 3 by lia.
  replace (2 ^ 16 * (z / 2 ^ 16) + z mod 2 ^ 16)
    with (z mod 2 ^ 16 + z / 2 ^ 16 + z / 2 ^ 16 * (2 ^ 16 - 1)) by lia.
  by rewrite Z.mod_add by lia.
Qed.

(** The incremental update keeps the sum of checksum and identifier. *)
Lemma icmp_ident_cksum_mod cksum old new :
  is_u16 cksum → is_u16 old → is_u16 new →
  (icmp_ident_cksum cksum old new + new) mod (2 ^ 16 - 1) = (cksum + old) mod (2 ^ 16 - 1).
Proof.
  intros Hc Ho Hn. unfold icmp_ident_cksum, not16 at 2 3. rewrite !u16_id by done.
  set (sum := u32 _). assert (Hsum : sum = (2 ^ 16 - 1 - cksum) + (2 ^ 16 - 1 - old) + new).
  { apply u32_id. unfold_widths. lia. }
  assert (Hf : is_u16 (fold16 (fold16 sum))).
  { rewrite Hsum. unfold fold16. zsolve. }
  unfold not16. rewrite u16_id by done.
  pose proof (fold16_mod (fold16 sum)) as H1. pose proof (fold16_mod sum) as H2. rewrite H2 in H1.
  set (f := fold16 (fold16 sum)) in *. change (2 ^ 16 - 1) with 65535 in *.
  rewrite Hsum in H1. clearbody f. clear H2 Hsum sum. Z.div_mod_to_equations. lia.
Qed.

Lemma icmp_ident_cksum_range cksum old new : is_u16 (icmp_ident_cksum cksum old new).
Proof. unfold icmp_ident_cksum, not16 at 1. pose proof (u16_range (fold16 (fold16 (u32 (not16 cksum + not16 old + u16 new))))). unfold_widths. lia. Qed.

(** Changing the identifier of an ICMP message (of [n] 16-bit words) keeps its
    checksum valid, and changes no other word. *)
Theorem icmp_identifier_checksum m n new_val :
  let icmp_hdr := dp_get_ipv4_hdr + sizeof_ipv4_hdr in
  Forall is_u8 (mb_buf m) → (4 ≤ n)%nat → in_pkt m icmp_hdr (2 * n) = true →
  cksum_ok m icmp_hdr n →
  wp (dp_change_icmp_identifier new_val)
    (λ _ m', cksum_ok m' icmp_hdr n ∧ mget m' 2 (icmp_hdr + icmp_ident) = htons new_val
       ∧ ∀ k, (k < n)%nat → k ≠ 1%nat → k ≠ 2%nat →
           mget m' 2 (icmp_hdr + 2 * Z.of_nat k) = mget m 2 (icmp_hdr + 2 * Z.of_nat k)) m.
Proof.
  intros icmp_hdr Hu Hn Hin Hok. unfold dp_change_icmp_identifier. fold icmp_hdr.
  change icmp_ident with (2 * Z.of_nat 2). change icmp_cksum with (2 * Z.of_nat 1).
  assert (Hi : ∀ k, (k < n)%nat → in_pkt m (icmp_hdr + 2 * Z.of_nat k) 2 = true)
    by (intros k Hk; apply (in_pkt_sub _ _ _ _ _ Hin); lia).
  pose proof (in_pkt_nonneg _ _ _ Hin) as Hnn.
  pose proof (bswap16_range new_val) as Hnew. wp_steps. apply wp_ld; [apply Hi; lia|]. wp_steps.
  apply wp_st; [apply Hi; lia|]. wp_steps. set (m1 := mset _ _ _ _).
  assert (Hi1 : ∀ k, (k < n)%nat → in_pkt m1 (icmp_hdr + 2 * Z.of_nat k) 2 = true)
    by (intros k Hk; unfold m1; rewrite in_pkt_mset; apply Hi; lia).
  apply wp_ld; [apply Hi1; lia|]. wp_steps. apply wp_ld; [apply Hi1; lia|]. wp_steps.
  apply wp_st; [apply Hi1; lia|]. unfold m1 at 2 3. rewrite mget_mset_eq by (apply Hi; lia).
  rewrite (mget_mset_ne m) by (try apply Hi; lia). rewrite Z.mod_small by done.
  set (ck := icmp_ident_cksum _ _ _). assert (Hck : is_u16 ck) by apply icmp_ident_cksum_range.
  assert (Hin1 : in_pkt m1 icmp_hdr (2 * n) = true) by (unfold m1; by rewrite in_pkt_mset by (apply Hi; lia)).
  assert (Hrng : ∀ k, (k < n)%nat → is_u16 (mget m 2 (icmp_hdr + 2 * Z.of_nat k)))
    by (intros k Hk; apply (mget_range m 2); [done|by apply Hi]).
  split_and!.
  - unfold cksum_ok in *. rewrite words_sum_mset by (done || lia). unfold m1.
    rewrite words_sum_mset by (done || lia). rewrite (mget_mset_ne m) by (try apply Hi; lia).
    pose proof (icmp_ident_cksum_mod _ _ _ (Hrng 1%nat ltac:(lia)) (Hrng 2%nat ltac:(lia)) Hnew) as Hmod.
    fold ck in Hmod. revert Hok Hmod. change (2 ^ 16 - 1) with 65535. clear.
    intros. Z.div_mod_to_equations. lia.
  - rewrite mget_mset_ne by (try apply Hi1; lia || (change (mb_data_off m1) with (mb_data_off m); lia)).
    unfold m1. rewrite mget_mset_eq by (apply Hi; lia). by apply Z.mod_small.
  - intros k Hk H1 H2. rewrite mget_mset_ne by (try apply Hi1; lia || (change (mb_data_off m1) with (mb_data_off m); lia)).
    unfold m1. rewrite mget_mset_ne by (try apply Hi; lia). done.
Qed.

(** ** Examples *)

(** A frame of [bytes] followed by zeros, with room in front of it. *)
Definition ex_frame (headroom : nat) (len : Z) (df : dp_flow) (bytes : list Z) : rte_mbuf :=
  MkMbuf (replicate headroom 0 ++ bytes ++ replicate 100 0) (Z.of_nat headroom) len 0 0 0 0 0 0 0 0
    df (MkMark 0 false).

Lemma ex_frame_u8 headroom len df bytes :
  forallb (λ b, (0 <=? b) && (b <? 256)) bytes = true → Forall is_u8 (mb_buf (ex_frame headroom len df bytes)).
Proof.
  intros Hb. unfold ex_frame, mb_buf. rewrite !Forall_app. split_and!.
  - apply Forall_replicate. unfold is_u8. lia.
  - apply Forall_forall. intros b Hin. apply list_elem_of_In in Hin. rewrite forallb_forall in Hb.
    specialize (Hb _ Hin). zbool. unfold is_u8. lia.
  - apply Forall_replicate. unfold is_u8. lia.
Qed.

(** An ICMP message of 8 bytes, all zero but the checksum. *)
Lemma icmp_identifier_checksum_witness :
  wp (dp_change_icmp_identifier 4242)
    (λ _ m', cksum_ok m' 34 4 ∧ mget m' 2 (34 + icmp_ident) = htons 4242)
    (ex_frame 0 42 dp_init_flow_ptr (replicate 36 0 ++ [255; 255])).
Proof.
  eapply wp_mono; [apply (icmp_identifier_checksum _ 4); try reflexivity; try lia|].
  - apply ex_frame_u8. reflexivity.
  - cbn beta. intros _ m' (H1 & H2 & _). by split.
Defined.
