(* ===== verification/Graph.v ===== *)
(** * The packet graph (include/nodes/common_node.h, src/nodes/common_node.c)

    What the nodes of the graph share: the edges they return, the loop that
    moves the packets of a burst to the next nodes, the edges to the transmit
    nodes of the ports, and the helpers of include/dp_iface.h. *)

From S2P Require Import Prelude Dpdk Error Types Port Mbuf.

(** ** Nodes and edges *)

Inductive dp_node :=
  | node_cls | node_arp | node_ipv6_nd | node_conntrack | node_ipip_decap | node_virtsvc
  | node_lb | node_dhcp | node_dhcpv6 | node_dnat | node_firewall | node_ipv4_lookup
  | node_ipv6_lookup | node_packet_relay | node_snat | node_ipip_encap.
Global Instance dp_node_eq_dec : EqDecision dp_node.
Proof. solve_decision. Defined.

(** The edge a node returns for a packet: to the node that drops it, to another
    node, or to the transmit node of a port. *)
Inductive dp_edge := EDGE_DROP | EDGE_NODE (n : dp_node) | EDGE_TX (port_id : Z).
Global Instance dp_edge_eq_dec : EqDecision dp_edge.
Proof. solve_decision. Defined.

(** [next_tx_index[port_id]] of a node, where the set holds the ports whose
    transmit node was appended.  The array is static, so the other entries are
    zero, which is the edge to the node that drops. *)
Definition tx_edge {S : Type} (next_tx_index : gset Z) (port_id : Z) : cmd S dp_edge :=
  if (0 <=? port_id) && (port_id <? DP_MAX_PORTS)
  then mret (if decide (port_id ∈ next_tx_index) then EDGE_TX port_id else EDGE_DROP)
  else fault.

Lemma wp_tx_edge {S : Type} tx port_id (s : S) (Q : dp_edge → S → Prop) :
  0 ≤ port_id < DP_MAX_PORTS → Q (if decide (port_id ∈ tx) then EDGE_TX port_id else EDGE_DROP) s → wp (tx_edge tx port_id) Q s.
Proof. intros Hid HQ. unfold tx_edge. rewrite (proj2 (Z.leb_le _ _)), (proj2 (Z.ltb_lt _ _)) by lia. by apply wp_ret. Qed.

(** ** Appending transmit nodes *)

(** Edges of a node in DPDK: appending a name returns how many were added, and the
    number of edges. *)
Class RteNodeEdges := {
  edges_state : Type;
  rte_node_edge_update : list Z → edges_state → Z * edges_state;
  rte_node_edge_count : edges_state → Z
}.

Section append.
Context `{HM : RteMalloc} `{HG : RteNodeEdges}.

(** [next_tx_indices] of the node; entries that were never set are zero. *)
Definition append_state : Type := (ports_state * edges_state) * gmap Z Z.

Definition dp_node_append_tx (port_id : Z) (tx_node_name : list Z) : cmd append_state Z :=
  if DP_MAX_PORTS <=? port_id then mret DP_ERROR
  else
    ret ← zoom fstL (zoom sndL (λ e, Some (rte_node_edge_update tx_node_name e)));
    if negb (ret =? 1) then mret DP_ERROR
    else
      count ← zoom fstL (zoom sndL (gets rte_node_edge_count));
      if count <=? 0 then mret DP_ERROR
      else zoom sndL (modify (<[port_id := u16 (count - 1)]>));; mret DP_OK.

Definition append_for (want_pf : bool) (port_id : Z) (tx_node_name : list Z) : cmd append_state Z :=
  portp ← zoom fstL (zoom fstL (dp_get_port_by_id port_id));
  match portp with
  | None => mret DP_ERROR
  | Some p =>
      port ← zoom fstL (zoom fstL (get_port p));
      if Bool.eqb (pt_is_pf port) want_pf then dp_node_append_tx port_id tx_node_name else mret DP_ERROR
  end.
Definition dp_node_append_vf_tx := append_for false.
Definition dp_node_append_pf_tx := append_for true.
End append.

(** ** Moving packets *)

(** The queues of the next nodes in DPDK; an object is a pointer to a packet.
    [next_stream_put] takes what was written to the array that
    [rte_node_next_stream_get] returned. *)
Class RteGraph (obj : Type) := {
  graph_state : Type;
  rte_node_enqueue_x1 : dp_edge → obj → graph_state → graph_state;
  rte_node_next_stream_put : dp_edge → list obj → nat → graph_state → graph_state;
  rte_node_next_stream_move : dp_edge → list obj → graph_state → graph_state
}.

(** [stream g e] is what waits at edge [e]. *)
Class RteGraphOk {obj} `{RteGraph obj} := {
  stream : graph_state → dp_edge → list obj;
  stream_enqueue e o g e' :
    stream (rte_node_enqueue_x1 e o g) e' = stream g e' ++ (if decide (e' = e) then [o] else []);
  stream_put e l n g e' :
    stream (rte_node_next_stream_put e l n g) e' = stream g e' ++ (if decide (e' = e) then take n l else []);
  stream_move e l g e' :
    stream (rte_node_next_stream_move e l g) e' = stream g e' ++ (if decide (e' = e) then l else [])
}.

Section graph.
Context {obj S : Type} `{HG : RteGraph obj}.
(** What the node does with a packet. *)
Context (get_next_index : obj → cmd S dp_edge).

Definition enqueue (e : dp_edge) (o : obj) : cmd (S * graph_state) () := zoom sndL (modify (rte_node_enqueue_x1 e o)).

(** The variables of the loop: [from] is an index into [objs], [to_next] are the
    pointers written so far. *)
Record spec_vars := MkSpec { sp_from : nat; sp_to_next : list obj; sp_last_spec : nat; sp_held : nat }.

(** [rte_memcpy(to_next, from, last_spec * sizeof(from[0]))] *)
Definition copy_spec (objs : list obj) (v : spec_vars) : list obj :=
  sp_to_next v ++ take (sp_last_spec v) (drop (sp_from v) objs).

Fixpoint spec_loop (objs : list obj) (speculated : dp_edge) (rest : list obj) (v : spec_vars) :
    cmd (S * graph_state) spec_vars :=
  match rest with
  | [] => mret v
  | pkt :: rest =>
      next_index ← zoom fstL (get_next_index pkt);
      if negb (bool_decide (next_index = speculated)) then
        match objs !! (sp_from v + sp_last_spec v)%nat with
        | None => fault
        | Some o =>
            enqueue next_index o;;
            spec_loop objs speculated rest
              (MkSpec (sp_from v + sp_last_spec v + 1) (copy_spec objs v) 0 (sp_held v + sp_last_spec v))
        end
      else spec_loop objs speculated rest
             (MkSpec (sp_from v) (sp_to_next v) (sp_last_spec v + 1) (sp_held v))
  end.

Fixpoint plain_loop (rest : list obj) : cmd (S * graph_state) () :=
  match rest with
  | [] => mret tt
  | pkt :: rest =>
      next_index ← zoom fstL (get_next_index pkt);
      enqueue next_index pkt;;
      plain_loop rest
  end.

(** [speculated_node] is [None] for [DP_GRAPH_NO_SPECULATED_NODE]. *)
Definition dp_foreach_graph_packet (objs : list obj) (speculated_node : option dp_edge) : cmd (S * graph_state) () :=
  match speculated_node with
  | None => plain_loop objs
  | Some speculated =>
      v ← spec_loop objs speculated objs (MkSpec 0 [] 0 0);
      if decide (sp_last_spec v = length objs) then zoom sndL (modify (rte_node_next_stream_move speculated objs))
      else
        zoom sndL (modify (rte_node_next_stream_put speculated (copy_spec objs v) (sp_held v + sp_last_spec v)))
  end.

Definition dp_forward_graph_packets (objs : list obj) (next_index : dp_edge) : cmd (S * graph_state) () :=
  zoom sndL (modify (rte_node_next_stream_move next_index objs)).
End graph.

(** ** Helpers of the nodes (include/dp_iface.h) *)

Definition dp_arp_cycle_needed (port : dp_port) : bool := if_ready (pt_iface port) && (pt_neigh_mac port =? 0).

(** [ether_hdr] is a position in the packet. *)
Definition dp_fill_ether_hdr (ether_hdr : Z) (port : dp_port) (ether_type : Z) : cmd rte_mbuf () :=
  st 6 (ether_hdr + eth_dst) (pt_neigh_mac port);;
  st 6 (ether_hdr + eth_src) (pt_own_mac port);;
  st16 (ether_hdr + eth_ether_type) (htons ether_type).

(** ** Facts *)

Section graph_facts.
Context {obj S : Type} `{HG : RteGraph obj} {HGO : RteGraphOk}.
Context (get_next_index : obj → cmd S dp_edge).

(** What running the node on the packets one by one does to its state, and where
    they go. *)
Inductive runs : list obj → S → list (obj * dp_edge) → S → Prop :=
  | runs_nil s : runs [] s [] s
  | runs_cons o e l s s1 s2 es :
      get_next_index o s = Some (e, s1) → runs l s1 es s2 → runs (o :: l) s ((o, e) :: es) s2.

(** The packets that go along an edge, in their order. *)
Definition along (e : dp_edge) (es : list (obj * dp_edge)) : list obj := (filter (λ x, x.2 = e) es).*1.

Lemma along_app e es1 es2 : along e (es1 ++ es2) = along e es1 ++ along e es2.
Proof. unfold along. by rewrite filter_app, fmap_app. Qed.

Lemma runs_objs l s es s' : runs l s es s' → es.*1 = l.
Proof. induction 1; [done|]. by csimpl; f_equal. Qed.

Definition streamed (g g' : graph_state) (es : list (obj * dp_edge)) : Prop :=
  ∀ e, stream g' e = stream g e ++ along e es.

Lemma wp_plain_loop l s es s' g :
  runs l s es s' → wp (plain_loop get_next_index l) (λ _ x, x.1 = s' ∧ streamed g x.2 es) (s, g).
Proof.
  intros Hr. revert g. induction Hr as [s|o e l s s1 s2 es Ho Hr IH]; intros g; simpl.
  { apply wp_ret. split; [done|]. intros e. by rewrite app_nil_r. }
  apply wp_bind, wp_zoom. eapply wp_intro; [exact Ho|]. apply wp_bind, wp_zoom, wp_modify.
  eapply wp_mono; [apply IH|]. cbn. intros _ [s3 g3] [-> Hs]. split; [done|]. intros e'. simpl in *.
  rewrite Hs, stream_enqueue, <- app_assoc. f_equal. unfold along. rewrite filter_cons. simpl.
  repeat case_decide; naive_solver.
Qed.

(** The packets already dealt with are those held, those waiting to be copied,
    and those at the other edges. *)
Record spec_inv (objs : list obj) (spec : dp_edge) (done_ : list (obj * dp_edge)) (g0 g : graph_state)
    (v : spec_vars) : Prop := {
  si_index : (sp_from v + sp_last_spec v = length done_)%nat;
  si_held : sp_held v = length (sp_to_next v);
  si_copy : copy_spec objs v = along spec done_;
  si_all : sp_last_spec v = length objs → sp_from v = 0%nat;
  si_other e : e ≠ spec → stream g e = stream g0 e ++ along e done_;
  si_spec : stream g spec = stream g0 spec
}.

Lemma wp_spec_loop objs spec rest s es s' done_ g0 g v :
  objs = done_.*1 ++ rest → runs rest s es s' → spec_inv objs spec done_ g0 g v →
  wp (spec_loop get_next_index objs spec rest v)
    (λ v' x, x.1 = s' ∧ spec_inv objs spec (done_ ++ es) g0 x.2 v') (s, g).
Proof.
  intros Hobjs Hr. revert done_ g v Hobjs.
  induction Hr as [s|o e l s s1 s2 es Ho Hr IH]; intros done_ g v Hobjs Hi; simpl.
  { apply wp_ret. by rewrite app_nil_r. }
  assert (Hlk : objs !! length done_ = Some o).
  { rewrite Hobjs. rewrite lookup_app_r by (by rewrite length_fmap). by rewrite length_fmap, Nat.sub_diag. }
  apply wp_bind, wp_zoom. eapply wp_intro; [exact Ho|]. destruct Hi as [Hx Hh Hc Ha Hoth Hspec].
  replace (done_ ++ (o, e) :: es) with ((done_ ++ [(o, e)]) ++ es) by (by rewrite <- app_assoc).
  assert (Hobjs' : objs = (done_ ++ [(o, e)]).*1 ++ l) by (rewrite fmap_app, <- app_assoc; done).
  destruct (bool_decide_reflect (e = spec)) as [->|Hne]; cbn [negb].
  - apply IH; [done|]. constructor; cbn [sp_from sp_to_next sp_last_spec sp_held]; try done.
    + rewrite length_app. simpl. lia.
    + unfold copy_spec in *. cbn [sp_from sp_to_next sp_last_spec]. rewrite Nat.add_1_r.
      rewrite (take_S_r _ _ o), along_app by (by rewrite lookup_drop, Hx).
      rewrite app_assoc, Hc. f_equal. unfold along. by rewrite filter_cons, decide_True.
    + intros Hlen. assert (length done_ < length objs)%nat by (by eapply lookup_lt_Some). lia.
    + intros e He. rewrite Hoth by done. rewrite along_app. unfold along at 3.
      rewrite filter_cons, decide_False by naive_solver. by rewrite app_nil_r.
  - rewrite Hx, Hlk. apply wp_bind, wp_zoom, wp_modify. apply IH; [done|].
    constructor; cbn [sp_from sp_to_next sp_last_spec sp_held lget lput sndL fst snd].
    + rewrite length_app. simpl. lia.
    + unfold copy_spec. rewrite length_app, length_take, length_drop.
      assert (length done_ < length objs)%nat by (by eapply lookup_lt_Some). lia.
    + unfold copy_spec at 1. cbn [sp_from sp_to_next sp_last_spec]. rewrite take_0, app_nil_r, Hc, along_app.
      unfold along at 3. rewrite filter_cons, decide_False by done. by rewrite app_nil_r.
    + intros Hlen. assert (length done_ < length objs)%nat by (by eapply lookup_lt_Some). lia.
    + intros e' He'. rewrite stream_enqueue, Hoth, along_app, <- app_assoc by done. do 2 f_equal. unfold along.
      rewrite filter_cons. simpl. repeat case_decide; naive_solver.
    + rewrite stream_enqueue, decide_False by done. by rewrite app_nil_r.
Qed.

(** Moving the packets of a burst with speculation does the same as moving them
    one by one: the node sees them in their order, and each next node gets
    exactly the packets the node sent to it, in their order. *)
Theorem foreach_graph_packet_spec objs speculated s es s' g :
  runs objs s es s' →
  wp (dp_foreach_graph_packet get_next_index objs speculated) (λ _ x, x.1 = s' ∧ streamed g x.2 es) (s, g).
Proof.
  intros Hr. destruct speculated as [spec|]; [|by apply wp_plain_loop]. apply wp_bind.
  eapply wp_mono; [eapply (wp_spec_loop objs spec objs s es s' [] g g); [done|done|]|].
  { constructor; try done. intros e _. unfold along. simpl. by rewrite app_nil_r. }
  cbn beta. intros v [s2 g2] [Hs2 [Hx Hh Hc Ha Hoth Hspec]]. simpl in *. subst s2.
  assert (Hout : ∀ l, along spec es = l → streamed g
      (rte_node_next_stream_move spec l g2) es).
  { intros l Hl e. rewrite stream_move. destruct (decide (e = spec)) as [->|].
    - by rewrite Hspec, Hl.
    - by rewrite app_nil_r, Hoth. }
  case_decide as Hlen; apply wp_zoom, wp_modify; (split; [done|]); cbn [lget lput sndL fst snd].
  - apply Hout. rewrite <- Hc. unfold copy_spec. rewrite (Ha Hlen), Hlen, drop_0, take_ge by done.
    specialize (Ha Hlen). apply runs_objs in Hr. apply (f_equal length) in Hr. rewrite length_fmap in Hr.
    assert (length (copy_spec objs v) ≤ length es)%nat as Hle.
    { rewrite Hc. unfold along. rewrite length_fmap. apply length_filter. }
    unfold copy_spec in Hle. rewrite length_app, Ha, Hlen, drop_0, take_ge in Hle by done.
    by rewrite (nil_length_inv (sp_to_next v)) by lia.
  - intros e. rewrite stream_put. destruct (decide (e = spec)) as [->|]; [|by rewrite app_nil_r, Hoth].
    rewrite Hspec, Hc, take_ge; [done|]. rewrite <- Hc. unfold copy_spec. rewrite length_app, length_take. lia.
Qed.
End graph_facts.

(** ** Examples *)

(** Queues as one list of packets with their edges. *)
Definition list_graph : RteGraph Z := {|
  graph_state := list (dp_edge * Z);
  rte_node_enqueue_x1 e o g := g ++ [(e, o)];
  rte_node_next_stream_put e l n g := g ++ ((λ o, (e, o)) <$> take n l);
  rte_node_next_stream_move e l g := g ++ ((λ o, (e, o)) <$> l)
|}.

Lemma list_graph_tagged (l : list Z) (e e' : dp_edge) :
  (filter (λ x, x.1 = e') ((λ o, (e, o)) <$> l)).*2 = if decide (e' = e) then l else [].
Proof.
  destruct (decide (e' = e)) as [->|Hne].
  - rewrite list_filter_all; [by rewrite <- list_fmap_compose, list_fmap_id|]. by apply Forall_fmap, Forall_true.
  - rewrite list_filter_none; [done|]. apply Forall_fmap, Forall_true. naive_solver.
Qed.

Definition list_graph_ok : @RteGraphOk Z list_graph.
Proof.
  refine {| stream := λ (g : @graph_state Z list_graph) e, (filter (λ x, x.1 = e) (g : list (dp_edge * Z))).*2 |};
    intros; cbn; rewrite filter_app, fmap_app; f_equal; try apply list_graph_tagged.
  apply (list_graph_tagged [_]).
Defined.

(** A node that counts packets and drops the odd ones. *)
Definition ex_node (o : Z) : cmd Z dp_edge := λ n,
  Some (if Z.odd o then EDGE_DROP else EDGE_NODE node_snat, n + 1).

Lemma foreach_graph_packet_spec_witness :
  wp (dp_foreach_graph_packet (HG := list_graph) ex_node [2; 4; 5; 6] (Some (EDGE_NODE node_snat)))
    (λ _ x, x.1 = 4 ∧ stream (RteGraphOk := list_graph_ok) x.2 (EDGE_NODE node_snat) = [2; 4; 6]) (0, []).
Proof.
  eapply wp_mono; [apply (foreach_graph_packet_spec (HGO := list_graph_ok) ex_node [2; 4; 5; 6]
    (Some (EDGE_NODE node_snat)) 0 [(2, EDGE_NODE node_snat); (4, EDGE_NODE node_snat); (5, EDGE_DROP); (6, EDGE_NODE node_snat)] 4)|].
  - repeat econstructor.
  - cbn beta. intros _ x [Hs Hg]. split; [exact Hs|]. rewrite Hg. reflexivity.
Defined.
