(* ===== verification/Nat.v ===== *)
(** * NAT (src/dp_nat.c, include/dp_nat.h)

    [ipv4_snat_tbl] holds the VIP and the NAT address of an interface,
    [ipv4_dnat_tbl] the way back.  [nat_headp] lists the port ranges that other
    hypervisors use.  Of a local NAT, [ipv4_netnat_portmap_tbl] records the
    port an interface's (address, port) got and how many connections use it,
    and [ipv4_netnat_portoverload_tbl] the connections
    (NAT address and port, destination address and port, protocol) in use.

    The translation of packet headers is in [Nat64]. *)

From S2P Require Import Prelude Dpdk Error Types Responder Port Conn.

Definition DP_NAT_FULL_LOG_DELAY : Z := 5.
Definition DP_NAT_TABLE_MAX : Z := DP_MAX_VF_PORTS * 32.
Definition DP_NETWORK_NAT_ALL_VNI : Z := 0.

(** The twelve bytes of the prefix 64:ff9b::/96. *)
Definition DP_NAT64_PREFIX : Z := of_bytes [0; 100; 255; 155; 0; 0; 0; 0; 0; 0; 0; 0].
Definition dp_is_ip6_in_nat64_range (ipv6_addr : Z) : bool :=
  ipv6_addr mod 2 ^ 96 =? DP_NAT64_PREFIX.

(** ** Data *)

Record nat_key := MkNatKey { nk_ip : Z; nk_vni : Z }.
Global Instance nat_key_eq_dec : EqDecision nat_key.
Proof. solve_decision. Defined.
Global Instance nat_key_countable : Countable nat_key :=
  inj_countable' (λ k, (nk_ip k, nk_vni k)) (λ '(a, b), MkNatKey a b) (λ '(MkNatKey _ _), eq_refl).

(** [ne_nat_ip6] is the storage of the union [nat_ip]. *)
Record network_nat_entry := MkNatEntry {
  ne_nat_ip6 : Z;
  ne_port_min : Z;
  ne_port_max : Z;
  ne_vni : Z;
  ne_dst_ipv6 : Z
}.
Definition ne_nat_ip4 (e : network_nat_entry) : Z := word32_of 0 (ne_nat_ip6 e).

Record snat_data := MkSnat {
  sd_vip_ip : Z;
  sd_nat_ip : Z;
  sd_port_min : Z;
  sd_port_max : Z;
  sd_ul_vip_ip6 : Z;
  sd_ul_nat_ip6 : Z;
  sd_log_timestamp : Z
}.
Global Instance snat_data_eta : Eta snat_data := λ r,
  MkSnat (sd_vip_ip r) (sd_nat_ip r) (sd_port_min r) (sd_port_max r) (sd_ul_vip_ip6 r)
    (sd_ul_nat_ip6 r) (sd_log_timestamp r).
Definition zero_snat : snat_data := MkSnat 0 0 0 0 0 0 0.

Inductive snat_ptr := SnatEntry (p : loc) | SnatLocal (data : snat_data).

Record dnat_data := MkDnat { dd_dnat_ip : Z }.

Record netnat_portmap_key := MkPortmapKey {
  pk_vni : Z;
  pk_src_ip : dp_ip_address;
  pk_iface_src_port : Z
}.
Global Instance netnat_portmap_key_eq_dec : EqDecision netnat_portmap_key.
Proof. solve_decision. Defined.
Global Instance netnat_portmap_key_countable : Countable netnat_portmap_key :=
  inj_countable' (λ k, (pk_vni k, pk_src_ip k, pk_iface_src_port k))
    (λ '(a, b, c), MkPortmapKey a b c) (λ '(MkPortmapKey _ _ _), eq_refl).

Record netnat_portmap_data := MkPortmap { pm_nat_ip : Z; pm_nat_port : Z; pm_flow_cnt : Z }.
Global Instance netnat_portmap_data_eta : Eta netnat_portmap_data := λ r,
  MkPortmap (pm_nat_ip r) (pm_nat_port r) (pm_flow_cnt r).

Record netnat_portoverload_tbl_key := MkOverloadKey {
  ok_nat_ip : Z;
  ok_nat_port : Z;
  ok_dst_ip : Z;
  ok_dst_port : Z;
  ok_l4_type : Z
}.
Global Instance netnat_portoverload_tbl_key_eta : Eta netnat_portoverload_tbl_key := λ r,
  MkOverloadKey (ok_nat_ip r) (ok_nat_port r) (ok_dst_ip r) (ok_dst_port r) (ok_l4_type r).
Global Instance netnat_portoverload_tbl_key_eq_dec : EqDecision netnat_portoverload_tbl_key.
Proof. solve_decision. Defined.
Global Instance netnat_portoverload_tbl_key_countable : Countable netnat_portoverload_tbl_key :=
  inj_countable' (λ k, (ok_nat_ip k, ok_nat_port k, ok_dst_ip k, ok_dst_port k, ok_l4_type k))
    (λ '(a, b, c, d, e), MkOverloadKey a b c d e) (λ '(MkOverloadKey _ _ _ _ _), eq_refl).

(** The reply messages of the two listings ([struct dpgrpc_nat]); [None] is a
    member the listing does not write. *)
Record dpgrpc_nat := MkNatReply {
  nr_min_port : Z;
  nr_max_port : Z;
  nr_addr : option dp_ip_address;
  nr_vni : Z;
  nr_ul_addr6 : option Z
}.

(** [nat_headp] pairs every element of the list with its address; the elements
    are the only live objects of their heap, whose allocator is [nat_mst]. *)
Record nat_state `{RteHash} `{RteMalloc} := MkNat {
  ipv4_snat_tbl : otable nat_key snat_data;
  ipv4_dnat_tbl : otable nat_key dnat_data;
  ipv4_netnat_portmap_tbl : otable netnat_portmap_key netnat_portmap_data;
  ipv4_netnat_portoverload_tbl : rte_hash netnat_portoverload_tbl_key ();
  nat_headp : list (loc * network_nat_entry);
  nat_mst : malloc_state;
  dp_nat_full_log_delay : Z
}.
Arguments MkNat {_ _} _ _ _ _ _ _ _.

Global Instance nat_state_eta `{RteHash} `{RteMalloc} : Eta nat_state := λ r,
  MkNat (ipv4_snat_tbl r) (ipv4_dnat_tbl r) (ipv4_netnat_portmap_tbl r)
    (ipv4_netnat_portoverload_tbl r) (nat_headp r) (nat_mst r) (dp_nat_full_log_delay r).

Section nat_init.
Context `{HH : RteHash} `{HM : RteMalloc}.

(** [hz] is [rte_get_timer_hz()]. *)
Definition dp_nat_init (hz : Z) (st1 st2 st3 st4 : malloc_state) : Z * option nat_state :=
  match dp_create_jhash_table DP_NAT_TABLE_MAX st1 with
  | None => (DP_ERROR, None)
  | Some snat =>
      match dp_create_jhash_table DP_NAT_TABLE_MAX st2 with
      | None => (DP_ERROR, None)
      | Some dnat =>
          match dp_create_jhash_table DP_FLOW_TABLE_MAX st3 with
          | None => (DP_ERROR, None)
          | Some portmap =>
              match rte_hash_create (DP_JHASH_MARGIN_COEF DP_FLOW_TABLE_MAX) with
              | None => (DP_ERROR, None)
              | Some overload =>
                  (DP_OK, Some (MkNat snat dnat portmap overload [] st4
                                  (u64 (hz * DP_NAT_FULL_LOG_DELAY))))
              end
          end
      end
  end.

Definition snatT : lens nat_state (otable nat_key snat_data) :=
  Lens ipv4_snat_tbl (λ t s, s <| ipv4_snat_tbl := t |>).
Definition dnatT : lens nat_state (otable nat_key dnat_data) :=
  Lens ipv4_dnat_tbl (λ t s, s <| ipv4_dnat_tbl := t |>).
Definition portmapT : lens nat_state (otable netnat_portmap_key netnat_portmap_data) :=
  Lens ipv4_netnat_portmap_tbl (λ t s, s <| ipv4_netnat_portmap_tbl := t |>).
End nat_init.

(** ** The VIP and the NAT address of an interface *)

Section snat.
Context `{HH : RteHash} `{HM : RteMalloc}.

Definition dp_get_iface_snat_data (iface_ip vni : Z) : cmd nat_state (option loc) :=
  r ← zoom snatT (ot_lookup (MkNatKey iface_ip vni));
  mret (if DP_FAILED r.1 then None else r.2).

Definition dp_create_snat_data (iface_ip vni : Z) : cmd nat_state (option loc) :=
  data ← zoom snatT (ot_malloc zero_snat);
  match data with
  | None => mret None
  | Some p =>
      ret ← zoom snatT (ot_add (MkNatKey iface_ip vni) p);
      if DP_FAILED ret then zoom snatT (ot_free p);; mret None
      else mret (Some p)
  end.

Definition dp_delete_snat_data (iface_ip vni : Z) (data : loc) : cmd nat_state () :=
  zoom snatT (ot_free data;; (ot_del (MkNatKey iface_ip vni) ≫= λ _, mret tt)).

(** The common start of the two setters: the object of the interface, created
    if there is none; [used] tests the member to be set. *)
Definition snat_data_for (iface_ip vni : Z) (used : snat_data → bool) : cmd nat_state (Z + loc) :=
  data ← dp_get_iface_snat_data iface_ip vni;
  match data with
  | None =>
      data ← dp_create_snat_data iface_ip vni;
      match data with
      | None => mret (inl (DP_GRPC_ERR SNAT_CREATE))
      | Some p => mret (inr p)
      end
  | Some p =>
      d ← zoom snatT (ot_load p);
      mret (if used d then inl (DP_GRPC_ERR SNAT_EXISTS) else inr p)
  end.

Definition dp_set_iface_vip_ip (iface_ip vip_ip vni ul_ipv6 : Z) : cmd nat_state Z :=
  r ← snat_data_for iface_ip vni (λ d, negb (sd_vip_ip d =? 0));
  match r with
  | inl err => mret err
  | inr p =>
      d ← zoom snatT (ot_load p);
      zoom snatT (ot_store p (d <| sd_vip_ip := vip_ip |> <| sd_ul_vip_ip6 := ul_ipv6 |>));;
      mret DP_GRPC_OK
  end.

Definition dp_set_iface_nat_ip (iface_ip nat_ip vni min_port max_port ul_ipv6 : Z) :
    cmd nat_state Z :=
  r ← snat_data_for iface_ip vni (λ d, negb (sd_nat_ip d =? 0));
  match r with
  | inl err => mret err
  | inr p =>
      d ← zoom snatT (ot_load p);
      zoom snatT (ot_store p (d <| sd_ul_nat_ip6 := ul_ipv6 |> <| sd_nat_ip := nat_ip |>
                                <| sd_port_min := min_port |> <| sd_port_max := max_port |>));;
      mret DP_GRPC_OK
  end.

Definition dp_del_iface_vip_ip (iface_ip vni : Z) : cmd nat_state Z :=
  data ← dp_get_iface_snat_data iface_ip vni;
  match data with
  | None => mret (DP_GRPC_ERR SNAT_NO_DATA)
  | Some p =>
      d ← zoom snatT (ot_load p);
      if negb (sd_nat_ip d =? 0) then
        zoom snatT (ot_store p (d <| sd_vip_ip := 0 |>));; mret DP_GRPC_OK
      else dp_delete_snat_data iface_ip vni p;; mret DP_GRPC_OK
  end.

Definition dp_del_iface_nat_ip (iface_ip vni : Z) : cmd nat_state Z :=
  data ← dp_get_iface_snat_data iface_ip vni;
  match data with
  | None => mret (DP_GRPC_ERR SNAT_NO_DATA)
  | Some p =>
      d ← zoom snatT (ot_load p);
      if negb (sd_vip_ip d =? 0) then
        zoom snatT (ot_store p (d <| sd_nat_ip := 0 |> <| sd_port_min := 0 |>
                                  <| sd_port_max := 0 |>));; mret DP_GRPC_OK
      else dp_delete_snat_data iface_ip vni p;; mret DP_GRPC_OK
  end.
End snat.

(** ** The way back *)

Section dnat.
Context `{HH : RteHash} `{HM : RteMalloc}.

Definition dp_get_dnat_data (d_ip vni : Z) : cmd nat_state (option loc) :=
  r ← zoom dnatT (ot_lookup (MkNatKey d_ip vni));
  mret (if DP_FAILED r.1 then None else r.2).

Definition dp_set_dnat_ip (d_ip dnat_ip vni : Z) : cmd nat_state Z :=
  data ← dp_get_dnat_data d_ip vni;
  match data with
  | Some _ => mret (DP_GRPC_ERR DNAT_EXISTS)
  | None =>
      data ← zoom dnatT (ot_malloc (MkDnat 0));
      match data with
      | None => mret (DP_GRPC_ERR DNAT_CREATE)
      | Some p =>
          ret ← zoom dnatT (ot_add (MkNatKey d_ip vni) p);
          if DP_FAILED ret then zoom dnatT (ot_free p);; mret (DP_GRPC_ERR DNAT_CREATE)
          else zoom dnatT (ot_store p (MkDnat dnat_ip));; mret DP_GRPC_OK
      end
  end.

Definition dp_del_dnat_ip (d_ip vni : Z) : cmd nat_state Z :=
  r ← zoom dnatT (ot_lookup (MkNatKey d_ip vni));
  if DP_FAILED r.1 then mret (DP_GRPC_ERR DNAT_NO_DATA)
  else
    match r.2 with
    | None => fault
    | Some p =>
        zoom dnatT (ot_free p;; (ot_del (MkNatKey d_ip vni) ≫= λ _, mret tt));;
        mret DP_GRPC_OK
    end.
End dnat.

(** ** The port ranges of other hypervisors *)

(** [nat_ipv6] is the pointer argument, [None] being NULL. *)
Definition dp_is_network_nat_ip (entry : network_nat_entry) (nat_ipv4 : Z) (nat_ipv6 : option Z)
    (vni : Z) : bool :=
  (ne_vni entry =? vni)
  && ((negb (nat_ipv4 =? 0) && (ne_nat_ip4 entry =? nat_ipv4))
      || match nat_ipv6 with Some ip6 => ip6 =? ne_nat_ip6 entry | None => false end).

Definition dp_is_network_nat_entry (entry : network_nat_entry) (nat_ipv4 : Z)
    (nat_ipv6 : option Z) (vni min_port max_port : Z) : bool :=
  dp_is_network_nat_ip entry nat_ipv4 nat_ipv6 vni
  && (ne_port_min entry =? min_port) && (ne_port_max entry =? max_port).

Definition dp_is_network_nat_port (entry : network_nat_entry) (nat_ipv4 : Z)
    (nat_ipv6 : option Z) (vni port : Z) : bool :=
  dp_is_network_nat_ip entry nat_ipv4 nat_ipv6 vni
  && (ne_port_min entry <=? port) && (port <? ne_port_max entry).

(** The first element of the list that passes a test, with its position. *)
Definition nat_find (test : network_nat_entry → bool) (l : list (loc * network_nat_entry)) :
    option (nat * (loc * network_nat_entry)) :=
  list_find (λ x, test x.2 = true) l.

Section neigh.
Context `{HH : RteHash} `{HM : RteMalloc}.

Definition dp_del_vip_from_dnat (d_ip vni : Z) : cmd nat_state () :=
  l ← gets nat_headp;
  match nat_find (λ e, dp_is_network_nat_ip e d_ip None vni) l with
  | Some _ => mret tt
  | None => dp_del_dnat_ip d_ip vni;; mret tt
  end.

Definition dp_add_network_nat_entry (nat_ipv4 : Z) (nat_ipv6 : option Z)
    (vni min_port max_port ul_ipv6 : Z) : cmd nat_state Z :=
  l ← gets nat_headp;
  match nat_find (λ e, dp_is_network_nat_entry e nat_ipv4 nat_ipv6 vni min_port max_port) l with
  | Some _ => mret (DP_GRPC_ERR ALREADY_EXISTS)
  | None =>
      st ← gets nat_mst;
      let '(op, st') := rte_malloc st (list_to_set l.*1) in
      modify (λ s, s <| nat_mst := st' |>);;
      match op with
      | None => mret (DP_GRPC_ERR OUT_OF_MEMORY)
      | Some p =>
          let ip := if negb (nat_ipv4 =? 0) then set_word32_0 nat_ipv4 0 else 0 in
          let ip := match nat_ipv6 with Some ip6 => ip6 | None => ip end in
          modify (λ s, s <| nat_headp :=
            nat_headp s ++ [(p, MkNatEntry ip min_port max_port vni ul_ipv6)] |>);;
          mret DP_GRPC_OK
      end
  end.

Definition dp_del_network_nat_entry (nat_ipv4 : Z) (nat_ipv6 : option Z)
    (vni min_port max_port : Z) : cmd nat_state Z :=
  l ← gets nat_headp;
  match nat_find (λ e, dp_is_network_nat_entry e nat_ipv4 nat_ipv6 vni min_port max_port) l with
  | Some (i, _) =>
      modify (λ s, s <| nat_headp := delete i (nat_headp s) |>);; mret DP_GRPC_OK
  | None => mret (DP_GRPC_ERR NOT_FOUND)
  end.

Definition dp_get_network_nat_underlay_ip (nat_ipv4 : Z) (nat_ipv6 : option Z)
    (vni min_port max_port : Z) (s : nat_state) : option Z :=
  (λ x, ne_dst_ipv6 x.2.2) <$>
    nat_find (λ e, dp_is_network_nat_entry e nat_ipv4 nat_ipv6 vni min_port max_port)
      (nat_headp s).

Definition dp_lookup_network_nat_underlay_ip (df : dp_flow) (s : nat_state) : option Z :=
  let dst_ip := ntohl (df_dst_addr df) in
  let dst_vni := df_tun_dst_vni df in
  let dst_port :=
    if (df_l4_type df =? IPPROTO_ICMP) || (df_l4_type df =? IPPROTO_ICMPV6)
    then ntohs (df_icmp_identifier df) else ntohs (df_trans_dst_port df) in
  (λ x, ne_dst_ipv6 x.2.2) <$>
    nat_find (λ e, dp_is_network_nat_port e dst_ip None dst_vni dst_port) (nat_headp s).

Definition dp_del_all_neigh_nat_entries_in_vni (vni : Z) : cmd nat_state () :=
  modify (λ s, s <| nat_headp :=
    filter (λ x, ¬ (ne_vni x.2 = vni ∨ vni = DP_NETWORK_NAT_ALL_VNI)) (nat_headp s) |>).

Definition dp_list_nat_neigh_entries `{RteMempool} (sizeof_reply nat_ip : Z) (s : nat_state) :
    cmd (dp_grpc_responder dpgrpc_nat) Z :=
  dp_grpc_set_multireply sizeof_reply;;
  reply_each ((λ x, MkNatReply (ne_port_min x.2) (ne_port_max x.2) None (ne_vni x.2)
                      (Some (ne_dst_ipv6 x.2)))
                <$> filter (λ x, ne_nat_ip4 x.2 = nat_ip) (nat_headp s)).

Definition dp_list_nat_local_entries `{RteMempool} (sizeof_reply nat_ip : Z) (s : nat_state) :
    cmd (dp_grpc_responder dpgrpc_nat) Z :=
  if rte_hash_count (ot_tbl (ipv4_snat_tbl s)) =? 0 then mret DP_GRPC_OK
  else
    match ot_items (ipv4_snat_tbl s) with
    | None => fault
    | Some ((items, last_ret), _) =>
        dp_grpc_set_multireply sizeof_reply;;
        ret ← reply_each
          ((λ '(nkey, data), MkNatReply (sd_port_min data) (sd_port_max data)
                               (Some (DP_SET_IPADDR4 (nk_ip nkey))) (nk_vni nkey) None)
             <$> filter (λ x, sd_nat_ip x.2 = nat_ip) items);
        mret (if DP_FAILED ret then ret
              else if last_ret =? - ENOENT then DP_GRPC_OK else DP_GRPC_ERR ITERATOR)
    end.
End neigh.

(** ** The ports of a local NAT *)

Section ports_of_nat.
Context `{HH : RteHash} `{HM : RteMalloc}.

Definition is_icmp (l4_type : Z) : bool :=
  (l4_type =? IPPROTO_ICMP) || (l4_type =? IPPROTO_ICMPV6).

(** The source address and the destination address of the connection. *)
Definition nat_conn_addrs (df : dp_flow) : option (dp_ip_address * Z) :=
  if df_l3_type df =? RTE_ETHER_TYPE_IPV4 then
    Some (DP_SET_IPADDR4 (ntohl (df_src_addr df)), ntohl (df_dst_addr df))
  else if df_l3_type df =? RTE_ETHER_TYPE_IPV6 then
    Some (DP_SET_IPADDR6 (df_src_addr6 df), ntohl (word32_of 3 (df_dst_addr6 df)))
  else None.

Definition nat_conn_src_port (df : dp_flow) : Z :=
  if is_icmp (df_l4_type df) then ntohs (df_icmp_identifier df) else ntohs (df_trans_src_port df).
Definition nat_conn_dst_port (df : dp_flow) : Z :=
  if is_icmp (df_l4_type df) then ntohs (df_icmp_identifier df) else ntohs (df_trans_dst_port df).

(** The port tried in round [p]. *)
Definition nat_try_port (min_port max_port hash p : Z) : Z :=
  u16 (min_port + u16 (u32 (hash + p) mod u32 (max_port - min_port))).

(** The search loop: the error that ended it, or the port found (0 if none). *)
Fixpoint nat_search (tbl : rte_hash netnat_portoverload_tbl_key ()) (key : netnat_portoverload_tbl_key)
    (min_port max_port hash : Z) (ps : list Z) : Z + Z :=
  match ps with
  | [] => inr 0
  | p :: ps =>
      let tmp_port := nat_try_port min_port max_port hash p in
      let ret := rte_hash_lookup tbl (key <| ok_nat_port := tmp_port |>) in
      if ret =? - ENOENT then inr tmp_port
      else if DP_FAILED ret then inl ret
      else nat_search tbl key min_port max_port hash ps
  end.

(** The port that the source already has, if this connection can use it too. *)
Definition nat_reuse_port (portmap_key : netnat_portmap_key) (key : netnat_portoverload_tbl_key) :
    cmd nat_state (Z + option Z) :=
  r ← zoom portmapT (ot_lookup portmap_key);
  if r.1 =? - ENOENT then mret (inr None)
  else if DP_FAILED r.1 then mret (inl r.1)
  else
    match r.2 with
    | None => fault
    | Some pm =>
        data ← zoom portmapT (ot_load pm);
        ret ← gets (λ s, rte_hash_lookup (ipv4_netnat_portoverload_tbl s)
                           (key <| ok_nat_port := pm_nat_port data |>));
        if ret =? - ENOENT then
          zoom portmapT (ot_store pm (data <| pm_flow_cnt := u16 (pm_flow_cnt data + 1) |>));;
          mret (inr (Some (pm_nat_port data)))
        else if DP_FAILED ret then mret (inl ret)
        else mret (inr None)
    end.

(** A pointer to the data of an interface: to an object of the table, or to a
    local variable of the caller, which is not used after the call. *)
Definition snat_load (snat : snat_ptr) : cmd nat_state snat_data :=
  match snat with SnatEntry p => zoom snatT (ot_load p) | SnatLocal data => mret data end.
Definition snat_store (snat : snat_ptr) (data : snat_data) : cmd nat_state () :=
  match snat with SnatEntry p => zoom snatT (ot_store p data) | SnatLocal _ => mret tt end.

(** The log of a full range, at most once per delay and interface. *)
Definition nat_log_full (tsc : Z) (snat : snat_ptr) : cmd nat_state () :=
  data ← snat_load snat;
  delay ← gets dp_nat_full_log_delay;
  if u64 (sd_log_timestamp data + delay) <? tsc
  then snat_store snat (data <| sd_log_timestamp := tsc |>)
  else mret tt.

(** [portoverload_tbl_key] added, and for a new port the entry of the source. *)
Definition nat_record_port (key : netnat_portoverload_tbl_key) (new : option netnat_portmap_key) :
    cmd nat_state Z :=
  tbl ← gets ipv4_netnat_portoverload_tbl;
  let '(ret, tbl') := rte_hash_add_key tbl key in
  modify (λ s, s <| ipv4_netnat_portoverload_tbl := tbl' |>);;
  if DP_FAILED ret then mret ret
  else
    match new with
    | None => mret (ok_nat_port key)
    | Some portmap_key =>
        pm ← zoom portmapT (ot_malloc (MkPortmap 0 0 0));
        match pm with
        | None => fault
        | Some pm =>
            zoom portmapT (ot_store pm (MkPortmap (ok_nat_ip key) (ok_nat_port key) 1));;
            ret ← zoom portmapT (ot_add portmap_key pm);
            if DP_FAILED ret then zoom portmapT (ot_free pm);; mret ret
            else mret (ok_nat_port key)
        end
    end.

(** The search for a new port of the range, and its record. *)
Definition nat_new_port (tsc : Z) (snat : snat_ptr) (data : snat_data)
    (portmap_key : netnat_portmap_key) (key : netnat_portoverload_tbl_key) : cmd nat_state Z :=
  s ← gets (λ s, s);
  let hash := rte_hash_hash (ot_tbl (ipv4_netnat_portmap_tbl s)) portmap_key in
  match nat_search (ipv4_netnat_portoverload_tbl s) key (sd_port_min data)
          (sd_port_max data) hash (seqZ 0 (sd_port_max data - sd_port_min data)) with
  | inl ret => mret ret
  | inr port =>
      if port =? 0 then nat_log_full tsc snat;; mret DP_ERROR
      else nat_record_port (key <| ok_nat_port := port |>) (Some portmap_key)
  end.

(** [tsc] is [rte_rdtsc()]. *)
Definition dp_allocate_network_snat_port (tsc : Z) (snat : snat_ptr) (df : dp_flow) (vni : Z) :
    cmd nat_state Z :=
  match nat_conn_addrs df with
  | None => mret (DP_GRPC_ERR BAD_IPVER)
  | Some (src_ip, dst_ip) =>
      let portmap_key := MkPortmapKey vni src_ip (nat_conn_src_port df) in
      data ← snat_load snat;
      let key := MkOverloadKey (sd_nat_ip data) 0 dst_ip (nat_conn_dst_port df) (df_l4_type df) in
      reuse ← nat_reuse_port portmap_key key;
      match reuse with
      | inl ret => mret ret
      | inr (Some port) => nat_record_port (key <| ok_nat_port := port |>) None
      | inr None => nat_new_port tsc snat data portmap_key key
      end
  end.

(** [DP_STATS_NAT_DEC_USED_PORT_CNT] on the port that created a connection. *)
Definition nat_dec_used_port_cnt (created_port_id : Z) : cmd ports_state Z :=
  port ← dp_get_port_by_id created_port_id;
  match port with
  | None => mret DP_ERROR
  | Some p =>
      upd_port p (λ port, port <| pt_used_port_cnt := u16 (pt_used_port_cnt port - 1) |>);;
      mret DP_OK
  end.

Definition dp_remove_network_snat_port (cntrack : flow_value) : cmd (nat_state * ports_state) Z :=
  let org := fv_key_org cntrack in
  let reply := fv_key_reply cntrack in
  if is_v6 (fk_l3_dst reply) then mret DP_ERROR
  else
    let key := MkOverloadKey (ipv4 (fk_l3_dst reply)) (fk_port_dst reply)
                 (if is_v6 (fk_l3_dst org) then ntohl (word32_of 3 (ipv6 (fk_l3_dst org)))
                  else ipv4 (fk_l3_dst org))
                 (fk_port_dst org) (fk_proto org) in
    tbl ← gets (λ s, ipv4_netnat_portoverload_tbl s.1);
    let '(ret, tbl') := rte_hash_del_key tbl key in
    zoom fstL (modify (λ s, s <| ipv4_netnat_portoverload_tbl := tbl' |>));;
    if DP_FAILED ret && negb (ret =? - ENOENT) then mret ret
    else
      let portmap_key := MkPortmapKey (fv_nf_vni cntrack) (dp_copy_ipaddr (fk_l3_src org))
        (if is_icmp (fk_proto org) then fk_port_dst org else fk_port_src org) in
      r ← zoom fstL (zoom portmapT (ot_lookup portmap_key));
      if DP_FAILED r.1 then mret (if r.1 =? - ENOENT then DP_OK else r.1)
      else
        match r.2 with
        | None => fault
        | Some pm =>
            data ← zoom fstL (zoom portmapT (ot_load pm));
            let cnt := u16 (pm_flow_cnt data - 1) in
            zoom fstL (zoom portmapT (ot_store pm (data <| pm_flow_cnt := cnt |>)));;
            failed ←
              (if cnt =? 0 then
                 ret ← zoom fstL (zoom portmapT (ot_del portmap_key));
                 if DP_FAILED ret then
                   zoom fstL (zoom portmapT (ot_store pm (data <| pm_flow_cnt := u16 (cnt + 1) |>)));;
                   mret true
                 else zoom fstL (zoom portmapT (ot_free pm));; mret false
               else mret false);
            if (failed : bool) then mret DP_ERROR
            else
              zoom sndL (nat_dec_used_port_cnt (fv_created_port_id cntrack))
        end.
End ports_of_nat.

(** ** Facts: VIP and NAT of an interface *)

Section snat_facts.
Context `{HH : RteHash} {HO : RteHashOk} `{HM : RteMalloc} {MO : RteMallocOk}.
Implicit Types (s : nat_state) (d : snat_data) (k : nat_key).

Definition snats s : gmap nat_key snat_data := view (ipv4_snat_tbl s).
Definition dnats s : gmap nat_key dnat_data := view (ipv4_dnat_tbl s).

Ltac nat_simpl :=
  cbn [lget lput fst snd snatT dnatT portmapT fstL sndL set_field ipv4_snat_tbl ipv4_dnat_tbl
       ipv4_netnat_portmap_tbl ipv4_netnat_portoverload_tbl nat_headp nat_mst
       dp_nat_full_log_delay] in *.

Lemma wp_get_iface_snat_data s ip vni (Q : option loc → nat_state → Prop) :
  wf (ipv4_snat_tbl s) →
  (snats s !! MkNatKey ip vni = None → ot_ptrs (ipv4_snat_tbl s) !! MkNatKey ip vni = None →
     Q None s) →
  (∀ p d, snats s !! MkNatKey ip vni = Some d →
     ot_ptrs (ipv4_snat_tbl s) !! MkNatKey ip vni = Some p →
     ot_objs (ipv4_snat_tbl s) !! p = Some d → Q (Some p) s) →
  wp (dp_get_iface_snat_data ip vni) Q s.
Proof.
  intros Hwf Hnone Hsome. destruct s. unfold dp_get_iface_snat_data, snats in *. wp_steps. nat_simpl.
  apply (wp_ot_lookup ∅); [done|..]; nat_simpl.
  - intros pos p d Hpos Hp Ho Hv. wp_steps. rewrite DP_FAILED_pos by done. eauto.
  - intros Hn Hp. wp_steps. rewrite DP_FAILED_ENOENT. eauto.
Qed.

Lemma wp_create_snat_data s ip vni (Q : option loc → nat_state → Prop) :
  wf (ipv4_snat_tbl s) → ot_ptrs (ipv4_snat_tbl s) !! MkNatKey ip vni = None →
  (∀ t, wf t → view t = snats s → Q None (s <| ipv4_snat_tbl := t |>)) →
  (∀ p t, wf t → view t = <[MkNatKey ip vni := zero_snat]> (snats s) →
     ot_ptrs t !! MkNatKey ip vni = Some p → ot_objs t !! p = Some zero_snat →
     Q (Some p) (s <| ipv4_snat_tbl := t |>)) →
  wp (dp_create_snat_data ip vni) Q s.
Proof.
  intros Hwf Hn Hfail Hok. destruct s. unfold dp_create_snat_data, snats in *. nat_simpl. wp_steps.
  nat_simpl. apply (wp_ot_malloc ∅); [done|..]; nat_simpl.
  { intros t1 Hwf1 Hv1 _ _. wp_steps. auto. }
  intros p t1 Hwf1 _ Hv1 Hp1 Ho1 _. wp_steps. nat_simpl.
  assert (Hop : ot_objs t1 !! p = Some zero_snat) by (by rewrite Ho1, lookup_insert_eq).
  eapply (wp_ot_add ∅ t1 _ p zero_snat); [done|set_solver|done|..].
  - intros ret t2 Hneg _ Hwf2 Hv2 _ _. nat_simpl. rewrite DP_FAILED_neg by done. wp_steps. nat_simpl.
    eapply (wp_ot_free_extra ∅); [done|set_solver|]. intros t3 Hwf3 Hv3 _ _. wp_steps. nat_simpl.
    apply Hfail; [done|congruence].
  - intros t2 Hwf2 Hv2 Hp2 Ho2. nat_simpl. change (DP_FAILED 0) with false. wp_steps.
    rewrite Hp1, Hn in Hwf2. simpl in Hwf2. rewrite union_empty_r_L in Hwf2.
    apply Hok; [done|congruence|by rewrite Hp2, lookup_insert_eq|by rewrite Ho2].
Qed.

(** The object to be written: the one the interface has, or a zeroed one. *)
Lemma wp_snat_data_for s ip vni used (Q : Z + loc → nat_state → Prop) :
  wf (ipv4_snat_tbl s) →
  (∀ d, snats s !! MkNatKey ip vni = Some d → used d = true →
     Q (inl (DP_GRPC_ERR SNAT_EXISTS)) s) →
  (∀ t, snats s !! MkNatKey ip vni = None → wf t → view t = snats s →
     Q (inl (DP_GRPC_ERR SNAT_CREATE)) (s <| ipv4_snat_tbl := t |>)) →
  (∀ p d t, wf t → view t = <[MkNatKey ip vni := d]> (snats s) →
     ot_ptrs t !! MkNatKey ip vni = Some p → ot_objs t !! p = Some d →
     (snats s !! MkNatKey ip vni = Some d ∧ used d = false
      ∨ snats s !! MkNatKey ip vni = None ∧ d = zero_snat) →
     Q (inr p) (s <| ipv4_snat_tbl := t |>)) →
  wp (snat_data_for ip vni used) Q s.
Proof.
  intros Hwf Hexists Hfail Hok. unfold snat_data_for. wp_steps.
  apply wp_get_iface_snat_data; [done|..].
  - intros Hn Hp. wp_steps. apply wp_create_snat_data; [done|done|..].
    + intros t Ht Hv. wp_steps. auto.
    + intros p t Ht Hv Hpt Hot. wp_steps. eapply Hok; eauto.
  - intros p d Hd Hp Ho. wp_steps. eapply wp_ot_load; [done|]. wp_steps.
    assert (Hs : s = s <| ipv4_snat_tbl := ipv4_snat_tbl s |>) by (by destruct s).
    nat_simpl. rewrite <- Hs.
    destruct (used d) eqn:Hu; [by eapply Hexists|]. rewrite Hs.
    eapply Hok; [done| |done|done|by left]. by rewrite insert_id.
Qed.

(** The members of an entry that count: what an interface has. *)
Record snat_spec := MkSnatSpec {
  ss_vip : option (Z * Z);              (** address, underlay *)
  ss_nat : option (Z * (Z * Z) * Z)     (** address, port range, underlay *)
}.

Definition abs_snat d : snat_spec :=
  MkSnatSpec
    (if sd_vip_ip d =? 0 then None else Some (sd_vip_ip d, sd_ul_vip_ip6 d))
    (if sd_nat_ip d =? 0 then None
     else Some (sd_nat_ip d, (sd_port_min d, sd_port_max d), sd_ul_nat_ip6 d)).

Definition abs_snats s : gmap nat_key snat_spec := abs_snat <$> snats s.

Inductive snat_req :=
  | SetVip (vip_ip ul_ipv6 : Z)
  | SetNat (nat_ip min_port max_port ul_ipv6 : Z)
  | DelVip
  | DelNat.

Definition run_snat_req k (req : snat_req) : cmd nat_state Z :=
  match req with
  | SetVip vip ul => dp_set_iface_vip_ip (nk_ip k) vip (nk_vni k) ul
  | SetNat nat min max ul => dp_set_iface_nat_ip (nk_ip k) nat (nk_vni k) min max ul
  | DelVip => dp_del_iface_vip_ip (nk_ip k) (nk_vni k)
  | DelNat => dp_del_iface_nat_ip (nk_ip k) (nk_vni k)
  end.

(** What a request does to the entry of its interface. *)
Definition snat_req_spec (req : snat_req) (e : option snat_spec) : Z * option snat_spec :=
  let old := default (MkSnatSpec None None) e in
  match req with
  | SetVip vip ul =>
      match ss_vip old with
      | Some _ => (DP_GRPC_ERR SNAT_EXISTS, e)
      | None => (DP_GRPC_OK, Some (MkSnatSpec (Some (vip, ul)) (ss_nat old)))
      end
  | SetNat nat min max ul =>
      match ss_nat old with
      | Some _ => (DP_GRPC_ERR SNAT_EXISTS, e)
      | None => (DP_GRPC_OK, Some (MkSnatSpec (ss_vip old) (Some (nat, (min, max), ul))))
      end
  | DelVip =>
      match e with
      | None => (DP_GRPC_ERR SNAT_NO_DATA, None)
      | Some e =>
          (DP_GRPC_OK, match ss_nat e with Some _ => Some (MkSnatSpec None (ss_nat e)) | None => None end)
      end
  | DelNat =>
      match e with
      | None => (DP_GRPC_ERR SNAT_NO_DATA, None)
      | Some e =>
          (DP_GRPC_OK, match ss_vip e with Some _ => Some (MkSnatSpec (ss_vip e) None) | None => None end)
      end
  end.

(** Address 0 stands for "none". *)
Definition snat_req_ok (req : snat_req) : Prop :=
  match req with SetVip ip _ | SetNat ip _ _ _ => ip ≠ 0 | _ => True end.

(** No entry is empty. *)
Record snat_inv s : Prop := {
  sni_wf : wf (ipv4_snat_tbl s);
  sni_used k d : snats s !! k = Some d → sd_vip_ip d ≠ 0 ∨ sd_nat_ip d ≠ 0
}.

Definition snat_post s k req (ret : Z) s' : Prop :=
  snat_inv s' ∧ (∃ t, s' = s <| ipv4_snat_tbl := t |>)
  ∧ ((ret = (snat_req_spec req (abs_snats s !! k)).1
      ∧ abs_snats s' = partial_alter (λ e, (snat_req_spec req e).2) k (abs_snats s))
     ∨ (ret = DP_GRPC_ERR SNAT_CREATE ∧ snats s !! k = None ∧ abs_snats s' = abs_snats s)).

Lemma snat_post_same s k req ret t :
  snat_inv s → wf t → view t = snats s →
  (ret, abs_snats s !! k) = snat_req_spec req (abs_snats s !! k)
  ∨ (ret = DP_GRPC_ERR SNAT_CREATE ∧ snats s !! k = None) →
  snat_post s k req ret (s <| ipv4_snat_tbl := t |>).
Proof.
  intros [Hwf Hu] Ht Hv Hr. assert (Hab : abs_snats (s <| ipv4_snat_tbl := t |>) = abs_snats s).
  { unfold abs_snats. f_equal. exact Hv. }
  split; [|split; [eauto|]].
  - constructor; [done|]. intros k' d. unfold snats. nat_simpl. rewrite Hv. apply Hu.
  - destruct Hr as [Hr|[-> Hn]]; [left|by right]. rewrite <- Hr. split; [done|]. rewrite Hab.
    symmetry. apply map_eq. intros k'. destruct (decide (k = k')) as [<-|Hne].
    + by rewrite lookup_partial_alter_eq, <- Hr.
    + by rewrite lookup_partial_alter_ne.
Qed.

Lemma snat_post_write s k req ret t d :
  snat_inv s → wf t → view t = <[k := d]> (snats s) → sd_vip_ip d ≠ 0 ∨ sd_nat_ip d ≠ 0 →
  (ret, Some (abs_snat d)) = snat_req_spec req (abs_snats s !! k) →
  snat_post s k req ret (s <| ipv4_snat_tbl := t |>).
Proof.
  intros [Hwf Hu] Ht Hv Hd Hr. split; [|split; [eauto|]].
  - constructor; [done|]. intros k' d'. unfold snats. nat_simpl. rewrite Hv.
    intros [[<- <-]|[_ ?]]%lookup_insert_Some; [done|eauto].
  - left. rewrite <- Hr. split; [done|]. unfold abs_snats at 1, snats. nat_simpl.
    rewrite Hv, fmap_insert. apply map_eq. intros k'. destruct (decide (k = k')) as [<-|Hne].
    + by rewrite lookup_insert_eq, lookup_partial_alter_eq, <- Hr.
    + by rewrite lookup_insert_ne, lookup_partial_alter_ne.
Qed.

Lemma snat_post_delete s k req ret t :
  snat_inv s → wf t → view t = delete k (snats s) →
  (ret, None) = snat_req_spec req (abs_snats s !! k) →
  snat_post s k req ret (s <| ipv4_snat_tbl := t |>).
Proof.
  intros [Hwf Hu] Ht Hv Hr. split; [|split; [eauto|]].
  - constructor; [done|]. intros k' d'. unfold snats. nat_simpl. rewrite Hv.
    intros [_ ?]%lookup_delete_Some. eauto.
  - left. rewrite <- Hr. split; [done|]. unfold abs_snats at 1, snats. nat_simpl.
    rewrite Hv, fmap_delete. apply map_eq. intros k'. destruct (decide (k = k')) as [<-|Hne].
    + by rewrite lookup_delete_eq, lookup_partial_alter_eq, <- Hr.
    + by rewrite lookup_delete_ne, lookup_partial_alter_ne.
Qed.

Lemma lookup_abs_snats s k : abs_snats s !! k = abs_snat <$> snats s !! k.
Proof. apply lookup_fmap. Qed.

Lemma wp_set_vip s k vip ul :
  snat_inv s → vip ≠ 0 →
  wp (dp_set_iface_vip_ip (nk_ip k) vip (nk_vni k) ul) (snat_post s k (SetVip vip ul)) s.
Proof.
  intros Hs Hvip. destruct k as [ip vni]. unfold dp_set_iface_vip_ip. cbn [nk_ip nk_vni]. wp_steps.
  apply wp_snat_data_for; [apply Hs|..].
  - intros d Hd Hused. wp_steps. replace s with (s <| ipv4_snat_tbl := ipv4_snat_tbl s |>) at 2
      by (by destruct s).
    apply snat_post_same; [done|apply Hs|done|left]. rewrite lookup_abs_snats, Hd.
    simpl. zbool. by rewrite (proj2 (Z.eqb_neq _ _)).
  - intros t Hn Ht Hv. wp_steps. apply snat_post_same; auto.
  - intros p d t Ht Hv Hp Ho Hd. wp_steps. eapply wp_ot_load; [done|]. wp_steps. nat_simpl.
    eapply (wp_ot_store ∅); [done|done|done|]. intros t' Ht' Hv' _ _. wp_steps.
    eapply (snat_post_write s (MkNatKey ip vni)); [done|done|by rewrite Hv', Hv, insert_insert_eq|by left|].
    rewrite lookup_abs_snats. unfold abs_snat. simpl. rewrite (proj2 (Z.eqb_neq _ _) Hvip).
    destruct Hd as [[-> Hu]|[-> ->]]; simpl; [|done]. zbool. by rewrite Hu.
Qed.

Lemma wp_set_nat s k nat min max ul :
  snat_inv s → nat ≠ 0 →
  wp (dp_set_iface_nat_ip (nk_ip k) nat (nk_vni k) min max ul)
    (snat_post s k (SetNat nat min max ul)) s.
Proof.
  intros Hs Hnat. destruct k as [ip vni]. unfold dp_set_iface_nat_ip. cbn [nk_ip nk_vni]. wp_steps.
  apply wp_snat_data_for; [apply Hs|..].
  - intros d Hd Hused. wp_steps. replace s with (s <| ipv4_snat_tbl := ipv4_snat_tbl s |>) at 2
      by (by destruct s).
    apply snat_post_same; [done|apply Hs|done|left]. rewrite lookup_abs_snats, Hd.
    simpl. zbool. by rewrite (proj2 (Z.eqb_neq _ _)).
  - intros t Hn Ht Hv. wp_steps. apply snat_post_same; auto.
  - intros p d t Ht Hv Hp Ho Hd. wp_steps. eapply wp_ot_load; [done|]. wp_steps. nat_simpl.
    eapply (wp_ot_store ∅); [done|done|done|]. intros t' Ht' Hv' _ _. wp_steps.
    eapply (snat_post_write s (MkNatKey ip vni)); [done|done|by rewrite Hv', Hv, insert_insert_eq|by right|].
    rewrite lookup_abs_snats. unfold abs_snat. simpl. rewrite (proj2 (Z.eqb_neq _ _) Hnat).
    destruct Hd as [[-> Hu]|[-> ->]]; simpl; [|done]. zbool. by rewrite Hu.
Qed.

Lemma wp_delete_snat_data s ip vni p (Q : () → nat_state → Prop) :
  wf (ipv4_snat_tbl s) → ot_ptrs (ipv4_snat_tbl s) !! MkNatKey ip vni = Some p →
  (∀ t, wf t → view t = delete (MkNatKey ip vni) (snats s) → Q tt (s <| ipv4_snat_tbl := t |>)) →
  wp (dp_delete_snat_data ip vni p) Q s.
Proof.
  intros Hwf Hp HQ. unfold dp_delete_snat_data. apply wp_zoom. nat_simpl.
  eapply (wp_ot_free_del ∅); [done|done|]. intros pos t _ Ht Hv _. wp_steps. auto.
Qed.

Lemma wp_del_vip s k :
  snat_inv s → wp (dp_del_iface_vip_ip (nk_ip k) (nk_vni k)) (snat_post s k DelVip) s.
Proof.
  intros Hs. destruct k as [ip vni]. unfold dp_del_iface_vip_ip. cbn [nk_ip nk_vni]. wp_steps.
  apply wp_get_iface_snat_data; [apply Hs|..].
  - intros Hn _. wp_steps. replace s with (s <| ipv4_snat_tbl := ipv4_snat_tbl s |>) at 2
      by (by destruct s).
    apply snat_post_same; [done|apply Hs|done|left]. by rewrite lookup_abs_snats, Hn.
  - intros p d Hd Hp Ho. wp_steps. eapply wp_ot_load; [done|]. wp_steps. nat_simpl.
    replace (s <| ipv4_snat_tbl := ipv4_snat_tbl s |>) with s by (by destruct s).
    replace (MkNat _ _ _ _ _ _ _) with s by (by destruct s).
    destruct (sd_nat_ip d =? 0) eqn:Hnat; wp_steps.
    + apply wp_delete_snat_data; [apply Hs|done|]. intros t Ht Hv. wp_steps.
      eapply (snat_post_delete s (MkNatKey ip vni)); [done|done|done|].
      rewrite lookup_abs_snats, Hd. simpl. by rewrite Hnat.
    + eapply (wp_ot_store ∅); [apply Hs|done|done|]. intros t Ht Hv _ _. wp_steps.
      eapply (snat_post_write s (MkNatKey ip vni)); [done|done|done|right; simpl; by apply Z.eqb_neq|].
      rewrite lookup_abs_snats, Hd. simpl. unfold abs_snat. simpl. by rewrite Hnat.
Qed.

Lemma wp_del_nat s k :
  snat_inv s → wp (dp_del_iface_nat_ip (nk_ip k) (nk_vni k)) (snat_post s k DelNat) s.
Proof.
  intros Hs. destruct k as [ip vni]. unfold dp_del_iface_nat_ip. cbn [nk_ip nk_vni]. wp_steps.
  apply wp_get_iface_snat_data; [apply Hs|..].
  - intros Hn _. wp_steps. replace s with (s <| ipv4_snat_tbl := ipv4_snat_tbl s |>) at 2
      by (by destruct s).
    apply snat_post_same; [done|apply Hs|done|left]. by rewrite lookup_abs_snats, Hn.
  - intros p d Hd Hp Ho. wp_steps. eapply wp_ot_load; [done|]. wp_steps. nat_simpl.
    replace (MkNat _ _ _ _ _ _ _) with s by (by destruct s).
    destruct (sd_vip_ip d =? 0) eqn:Hvip; wp_steps.
    + apply wp_delete_snat_data; [apply Hs|done|]. intros t Ht Hv. wp_steps.
      eapply (snat_post_delete s (MkNatKey ip vni)); [done|done|done|].
      rewrite lookup_abs_snats, Hd. simpl. by rewrite Hvip.
    + eapply (wp_ot_store ∅); [apply Hs|done|done|]. intros t Ht Hv _ _. wp_steps.
      eapply (snat_post_write s (MkNatKey ip vni)); [done|done|done|left; simpl; by apply Z.eqb_neq|].
      rewrite lookup_abs_snats, Hd. simpl. unfold abs_snat. simpl. by rewrite Hvip.
Qed.

(** C16. The four requests on the VIP and the NAT address of an interface do what
    [snat_req_spec] says to the entry of that interface, and nothing to the
    others; a request that needs a new entry may instead fail without any
    change when memory or the table is exhausted. *)
Theorem snat_refines s k req :
  snat_inv s → snat_req_ok req → wp (run_snat_req k req) (snat_post s k req) s.
Proof.
  intros Hs Hreq. destruct req; simpl in *;
    [by apply wp_set_vip|by apply wp_set_nat|by apply wp_del_vip|by apply wp_del_nat].
Qed.

End snat_facts.

(** ** Facts: the way back, and the neighbours *)

Section neigh_facts.
Context `{HH : RteHash} {HO : RteHashOk} `{HM : RteMalloc} {MO : RteMallocOk}.
Implicit Types (s : nat_state) (e : network_nat_entry).

Ltac nat_simpl :=
  cbn [lget lput fst snd snatT dnatT portmapT fstL sndL set_field ipv4_snat_tbl ipv4_dnat_tbl
       ipv4_netnat_portmap_tbl ipv4_netnat_portoverload_tbl nat_headp nat_mst
       dp_nat_full_log_delay] in *.

(** A new way back is recorded unless the address has one already or resources
    are exhausted. *)
Lemma wp_set_dnat_ip s d_ip dnat_ip vni :
  wf (ipv4_dnat_tbl s) →
  wp (dp_set_dnat_ip d_ip dnat_ip vni)
    (λ ret s', ∃ t, s' = s <| ipv4_dnat_tbl := t |> ∧ wf t
       ∧ match dnats s !! MkNatKey d_ip vni with
         | Some _ => ret = DP_GRPC_ERR DNAT_EXISTS ∧ view t = dnats s
         | None =>
             (ret = DP_GRPC_OK ∧ view t = <[MkNatKey d_ip vni := MkDnat dnat_ip]> (dnats s))
             ∨ (ret = DP_GRPC_ERR DNAT_CREATE ∧ view t = dnats s)
         end) s.
Proof.
  intros Hwf. destruct s as [st dt pt ot hd ms dl]. unfold dnats. nat_simpl.
  unfold dp_set_dnat_ip, dp_get_dnat_data. wp_steps. nat_simpl.
  apply (wp_ot_lookup ∅); [done|..]; nat_simpl.
  { intros pos p v Hpos _ _ Hv. wp_steps. rewrite DP_FAILED_pos by done. wp_steps. exists dt. by rewrite Hv. }
  intros Hn Hnp. wp_steps. rewrite DP_FAILED_ENOENT. wp_steps. nat_simpl. rewrite Hn.
  apply (wp_ot_malloc ∅); [done|..]; nat_simpl.
  { intros t1 Hwf1 Hv1 _ _. wp_steps. exists t1. by auto. }
  intros p t1 Hwf1 _ Hv1 Hp1 Ho1 _. wp_steps. nat_simpl.
  eapply (wp_ot_add ∅ t1 _ p (MkDnat 0)); [done|set_solver|by rewrite Ho1, lookup_insert_eq|..].
  - intros ret t2 Hneg _ Hwf2 Hv2 _ _. nat_simpl. rewrite DP_FAILED_neg by done. wp_steps. nat_simpl.
    eapply (wp_ot_free_extra ∅); [done|set_solver|]. intros t3 Hwf3 Hv3 _ _. wp_steps. nat_simpl.
    exists t3. split; [done|]. split; [done|]. right. split; [done|congruence].
  - intros t2 Hwf2 Hv2 Hp2 Ho2. nat_simpl. change (DP_FAILED 0) with false. wp_steps. nat_simpl.
    rewrite Hp1, Hnp in Hwf2. simpl in Hwf2. rewrite union_empty_r_L in Hwf2.
    eapply (wp_ot_store ∅ _ (MkNatKey d_ip vni)); [done|by rewrite Hp2, lookup_insert_eq|
      by rewrite Ho2, Ho1, lookup_insert_eq|].
    intros t3 Hwf3 Hv3 _ _. wp_steps. nat_simpl. exists t3. split; [done|]. split; [done|]. left.
    split; [done|]. by rewrite Hv3, Hv2, insert_insert_eq, Hv1.
Qed.

Lemma wp_del_dnat_ip s d_ip vni (Q : Z → nat_state → Prop) :
  wf (ipv4_dnat_tbl s) →
  (dnats s !! MkNatKey d_ip vni = None → Q (DP_GRPC_ERR DNAT_NO_DATA) s) →
  (∀ t, is_Some (dnats s !! MkNatKey d_ip vni) → wf t →
     view t = delete (MkNatKey d_ip vni) (dnats s) →
     Q DP_GRPC_OK (s <| ipv4_dnat_tbl := t |>)) →
  wp (dp_del_dnat_ip d_ip vni) Q s.
Proof.
  intros Hwf Hnone Hsome. destruct s as [st dt pt ot hd ms dl]. unfold dnats in *. nat_simpl.
  unfold dp_del_dnat_ip. wp_steps. nat_simpl. apply (wp_ot_lookup ∅); [done|..]; nat_simpl.
  - intros pos p v Hpos Hp _ Hv. rewrite DP_FAILED_pos by done. apply wp_bind, wp_zoom. nat_simpl.
    eapply (wp_ot_free_del ∅); [done|done|]. intros pos' t _ Ht Hvt _. wp_steps. eauto.
  - intros Hn _. rewrite DP_FAILED_ENOENT. wp_steps. auto.
Qed.

Lemma nat_find_None test (l : list (loc * network_nat_entry)) :
  nat_find test l = None ↔ ∀ x, x ∈ l → test x.2 = false.
Proof.
  unfold nat_find. rewrite list_find_None, Forall_forall.
  split; intros Hx x Hin; specialize (Hx x Hin); by destruct (test x.2).
Qed.

Lemma nat_find_Some test l i x :
  nat_find test l = Some (i, x) ↔
  l !! i = Some x ∧ test x.2 = true ∧ ∀ j y, l !! j = Some y → (j < i)%nat → test y.2 = false.
Proof.
  unfold nat_find. rewrite list_find_Some. split; intros (H1 & H2 & H3); split_and!; try done;
    intros j y Hj Hlt; specialize (H3 j y Hj Hlt); by destruct (test y.2).
Qed.

(** The way back of a NAT address is dropped only when no other hypervisor uses
    a port range of that address. *)
Theorem del_vip_from_dnat_spec s d_ip vni :
  wf (ipv4_dnat_tbl s) → d_ip ≠ 0 →
  wp (dp_del_vip_from_dnat d_ip vni)
    (λ _ s', ∃ t, s' = s <| ipv4_dnat_tbl := t |> ∧ wf t
       ∧ ((∃ x, x ∈ nat_headp s ∧ ne_vni x.2 = vni ∧ ne_nat_ip4 x.2 = d_ip) ∧ view t = dnats s
          ∨ (∀ x, x ∈ nat_headp s → ne_vni x.2 = vni → ne_nat_ip4 x.2 ≠ d_ip)
            ∧ view t = delete (MkNatKey d_ip vni) (dnats s))) s.
Proof.
  intros Hwf Hip. unfold dp_del_vip_from_dnat. wp_steps. destruct (nat_find _ _) as [[i x]|] eqn:Hf.
  - wp_steps. exists (ipv4_dnat_tbl s). split; [by destruct s|]. split; [done|]. left. split; [|done].
    apply nat_find_Some in Hf as (Hi & Ht & _). exists x. split; [by eapply list_elem_of_lookup_2|].
    unfold dp_is_network_nat_ip in Ht. rewrite (proj2 (Z.eqb_neq _ _) Hip), orb_false_r in Ht.
    simpl in Ht. zbool. done.
  - rewrite nat_find_None in Hf.
    assert (Hno : ∀ x, x ∈ nat_headp s → ne_vni x.2 = vni → ne_nat_ip4 x.2 ≠ d_ip).
    { intros x Hx Hv He. specialize (Hf x Hx). unfold dp_is_network_nat_ip in Hf.
      rewrite Hv, He, !Z.eqb_refl, (proj2 (Z.eqb_neq _ _) Hip) in Hf. done. }
    wp_steps. apply wp_del_dnat_ip; [done|..].
    + intros Hn. wp_steps. exists (ipv4_dnat_tbl s). split; [by destruct s|]. split; [done|]. right.
      split; [done|]. by rewrite delete_id.
    + intros t _ Ht Hv. wp_steps. exists t. auto.
Qed.

(** What identifies an element of the list. *)
Definition ne_id e : Z * Z * Z * Z := (ne_nat_ip6 e, ne_vni e, ne_port_min e, ne_port_max e).

(** The list: the elements have different addresses in memory, and no two are
    redundant. *)
Record neigh_inv s : Prop := {
  nei_addr : NoDup (nat_headp s).*1;
  nei_id : NoDup (ne_id ∘ snd <$> nat_headp s)
}.

Definition neigh_entry (nat_ipv4 vni min_port max_port ul_ipv6 : Z) : network_nat_entry :=
  MkNatEntry (set_word32_0 nat_ipv4 0) min_port max_port vni ul_ipv6.

Lemma ne_nat_ip4_entry ip vni min max ul :
  is_u32 ip → ne_nat_ip4 (neigh_entry ip vni min max ul) = ip.
Proof.
  intros Hip. unfold ne_nat_ip4, neigh_entry, word32_of, set_word32_0. simpl.
  rewrite u32_id by done. change (2 ^ (32 * 0)) with 1. rewrite Z.div_1_r.
  rewrite Z.div_0_l by lia. by apply Z.mod_small.
Qed.

(** Announcing a range: refused when it is listed already, else appended. *)
Theorem add_network_nat_spec s ip vni min max ul :
  neigh_inv s → is_u32 ip → ip ≠ 0 →
  wp (dp_add_network_nat_entry ip None vni min max ul)
    (λ ret s', neigh_inv s' ∧ (∃ st, s' = s <| nat_mst := st |> <| nat_headp := nat_headp s' |>)
       ∧ ((ret = DP_GRPC_ERR ALREADY_EXISTS ∧ nat_headp s' = nat_headp s
           ∧ ∃ x, x ∈ nat_headp s ∧ ne_nat_ip4 x.2 = ip ∧ ne_vni x.2 = vni
                  ∧ ne_port_min x.2 = min ∧ ne_port_max x.2 = max)
          ∨ (ret = DP_GRPC_ERR OUT_OF_MEMORY ∧ nat_headp s' = nat_headp s)
          ∨ (ret = DP_GRPC_OK
             ∧ ∃ p, nat_headp s' = nat_headp s ++ [(p, neigh_entry ip vni min max ul)]))) s.
Proof.
  intros [Ha Hi] Hip Hip0. unfold dp_add_network_nat_entry. wp_steps.
  destruct (nat_find _ _) as [[i x]|] eqn:Hf.
  - wp_steps. split; [done|]. split; [exists (nat_mst s); by destruct s|]. left. split_and!; [done|done|].
    apply nat_find_Some in Hf as (Hix & Ht & _). exists x. split; [by eapply list_elem_of_lookup_2|].
    unfold dp_is_network_nat_entry, dp_is_network_nat_ip in Ht. zbool. split_and!; try done.
    by match goal with H : (_ || _) = true |- _ => rewrite orb_false_r in H; zbool end.
  - wp_steps. destruct (rte_malloc _ _) as [op st'] eqn:Hm. wp_steps. destruct op as [p|]; wp_steps.
    + apply rte_malloc_fresh in Hm. rewrite (proj2 (Z.eqb_neq _ _) Hip0). cbn [negb].
      fold (neigh_entry ip vni min max ul). nat_simpl. rewrite nat_find_None in Hf. split.
      * constructor; nat_simpl; rewrite fmap_app; apply NoDup_app; split_and!; try done;
          try apply NoDup_singleton; intros y Hy.
        { simpl. intros ->%list_elem_of_singleton. set_solver. }
        { simpl. intros Hy'%list_elem_of_singleton. revert Hy'. apply list_elem_of_fmap in Hy as (x & -> & Hx).
          specialize (Hf x Hx). intros [= H1 H2 H3 H4].
          unfold dp_is_network_nat_entry, dp_is_network_nat_ip in Hf.
          assert (Hx4 : ne_nat_ip4 x.2 = ip).
          { unfold ne_nat_ip4. rewrite H1. by apply (ne_nat_ip4_entry ip vni min max ul). }
          rewrite Hx4, H2, H3, H4, !Z.eqb_refl, (proj2 (Z.eqb_neq _ _) Hip0) in Hf. done. }
      * split; [by exists st'|]. right; right. split; [done|]. by exists p.
    + split; [done|]. split; [by exists st'|]. right; left. done.
Qed.


Lemma nat_find_snoc test l x :
  nat_find test l = None → test x.2 = true → nat_find test (l ++ [x]) = Some (length l, x).
Proof.
  rewrite nat_find_None. intros Hl Hx. apply nat_find_Some. split_and!; [|done|].
  - by rewrite lookup_app_r, Nat.sub_diag by done.
  - intros j y Hj Hlt. apply Hl. rewrite lookup_app_l in Hj by done. by eapply list_elem_of_lookup_2.
Qed.

Lemma is_network_nat_entry_new ip vni min max ul :
  is_u32 ip → ip ≠ 0 →
  dp_is_network_nat_entry (neigh_entry ip vni min max ul) ip None vni min max = true.
Proof.
  intros Hip Hip0. unfold dp_is_network_nat_entry, dp_is_network_nat_ip.
  rewrite ne_nat_ip4_entry by done. simpl. by rewrite !Z.eqb_refl, (proj2 (Z.eqb_neq _ _) Hip0).
Qed.

(** A range that was announced can be queried and withdrawn: the withdrawal
    finds it and restores the list. *)
Theorem neigh_add_del s s1 ip vni min max ul :
  is_u32 ip → ip ≠ 0 →
  dp_add_network_nat_entry ip None vni min max ul s = Some (DP_GRPC_OK, s1) →
  dp_get_network_nat_underlay_ip ip None vni min max s1 = Some ul
  ∧ ∃ s2, dp_del_network_nat_entry ip None vni min max s1 = Some (DP_GRPC_OK, s2)
          ∧ nat_headp s2 = nat_headp s.
Proof.
  intros Hip Hip0. unfold dp_add_network_nat_entry.
  rewrite (bind_eq _ _ s (nat_headp s) s) by done. destruct (nat_find _ _) as [[i x]|] eqn:Hf; [done|].
  rewrite (bind_eq _ _ s (nat_mst s) s) by done. destruct (rte_malloc _ _) as [[p|] st']; [|done].
  rewrite (proj2 (Z.eqb_neq _ _) Hip0). cbn [negb]. fold (neigh_entry ip vni min max ul).
  intros [= <-]. pose proof (nat_find_snoc _ _ (p, neigh_entry ip vni min max ul) Hf
    (is_network_nat_entry_new ip vni min max ul Hip Hip0)) as Hf'.
  unfold dp_get_network_nat_underlay_ip, dp_del_network_nat_entry. nat_simpl. rewrite Hf'.
  split; [done|]. eexists. rewrite (bind_eq _ _ _ _ _ (eq_refl : gets nat_headp _ = _)). nat_simpl.
  rewrite Hf'. split; [done|]. nat_simpl. by rewrite delete_middle, app_nil_r.
Qed.

(** The destination port of a packet as the neighbour lookup sees it. *)
Definition neigh_port (df : dp_flow) : Z :=
  if is_icmp (df_l4_type df) then ntohs (df_icmp_identifier df) else ntohs (df_trans_dst_port df).

(** An element of the list covers a packet: same VNI, same address, and the port
    in the half-open range. *)
Definition covers (df : dp_flow) e : Prop :=
  ne_vni e = df_tun_dst_vni df ∧ ne_nat_ip4 e = ntohl (df_dst_addr df)
  ∧ ne_port_min e ≤ neigh_port df < ne_port_max e.

(** The lookup returns the underlay address of the first element that covers
    the packet. *)
Theorem neigh_lookup_spec s df :
  df_dst_addr df ≠ 0 →
  match dp_lookup_network_nat_underlay_ip df s with
  | Some ul => ∃ i p e, nat_headp s !! i = Some (p, e) ∧ covers df e ∧ ne_dst_ipv6 e = ul
                 ∧ ∀ j q e', nat_headp s !! j = Some (q, e') → (j < i)%nat → ¬ covers df e'
  | None => ∀ p e, (p, e) ∈ nat_headp s → ¬ covers df e
  end.
Proof.
  intros Hd0. unfold dp_lookup_network_nat_underlay_ip.
  assert (Hd : ntohl (df_dst_addr df) ≠ 0).
  { intros E. apply Hd0, bswap32_inj; [apply df_dst_addr_range|done|]. by rewrite E. }
  set (test := λ e, _). assert (Htest : ∀ e, test e = true ↔ covers df e).
  { intros e. unfold test, covers, neigh_port, is_icmp, dp_is_network_nat_port, dp_is_network_nat_ip.
    rewrite (proj2 (Z.eqb_neq _ _) Hd), orb_false_r. cbn [negb andb].
    rewrite !andb_true_iff, !Z.eqb_eq, Z.leb_le, Z.ltb_lt. lia. }
  destruct (nat_find test _) as [[i [p e]]|] eqn:Hf; simpl.
  - apply nat_find_Some in Hf as (Hi & Ht & Hbefore). exists i, p, e. split_and!; [done|by apply Htest|done|].
    intros j q e' Hj Hlt Hc%Htest. specialize (Hbefore j _ Hj Hlt). simpl in *. congruence.
  - rewrite nat_find_None in Hf. intros p e Hin Hc%Htest. specialize (Hf _ Hin). simpl in *. congruence.
Qed.
End neigh_facts.

(** ** Facts: the ports of a local NAT *)

Section port_facts.
Context `{HH : RteHash} {HO : RteHashOk} `{HM : RteMalloc} {MO : RteMallocOk}.
Implicit Types (s : nat_state) (k : netnat_portmap_key) (key : netnat_portoverload_tbl_key).

Ltac nat_simpl :=
  cbn [lget lput fst snd snatT dnatT portmapT fstL sndL set_field ipv4_snat_tbl ipv4_dnat_tbl
       ipv4_netnat_portmap_tbl ipv4_netnat_portoverload_tbl nat_headp nat_mst
       dp_nat_full_log_delay] in *.

Definition portmap s : gmap netnat_portmap_key netnat_portmap_data :=
  view (ipv4_netnat_portmap_tbl s).
Definition overload s : gmap netnat_portoverload_tbl_key () :=
  contents (ipv4_netnat_portoverload_tbl s).

Lemma nat_try_port_range min max hash p :
  is_u16 min → is_u16 max → min < max → min ≤ nat_try_port min max hash p < max.
Proof.
  intros Hmin Hmax Hlt. unfold nat_try_port.
  rewrite (u32_id (max - min)) by (unfold_widths; lia).
  pose proof (Z.mod_pos_bound (u32 (hash + p)) (max - min) ltac:(lia)) as Hm.
  rewrite (u16_id (_ mod _)) by (unfold_widths; lia). rewrite u16_id by (unfold_widths; lia). lia.
Qed.

(** The rounds reach every port of the range, if the 32-bit sum of the hash and
    the round number does not wrap around. *)
Lemma nat_try_port_all min max hash port :
  is_u16 min → is_u16 max → 0 ≤ hash → hash + (max - min) ≤ 2 ^ 32 → min ≤ port < max →
  ∃ p, p ∈ seqZ 0 (max - min) ∧ nat_try_port min max hash p = port.
Proof.
  intros Hmin Hmax Hh Hwrap Hport. set (n := max - min) in *.
  exists ((port - min - hash) mod n). assert (Hn : 0 < n) by lia.
  pose proof (Z.mod_pos_bound (port - min - hash) n Hn) as Hp. split; [apply elem_of_seqZ; lia|].
  unfold nat_try_port. fold n. rewrite (u32_id n) by (unfold n; unfold_widths; lia).
  rewrite (u32_id (hash + _)) by (unfold_widths; lia).
  rewrite Zplus_mod_idemp_r. replace (hash + (port - min - hash)) with (port - min) by lia.
  rewrite Z.mod_small by (unfold n; lia). rewrite (u16_id (port - min)) by (unfold_widths; lia).
  rewrite u16_id by (unfold_widths; lia). lia.
Qed.

(** The search takes the first free port, in the order of the rounds. *)
Lemma nat_search_cases tbl key min max hash ps :
  (∃ p, p ∈ ps ∧ contents tbl !! (key <| ok_nat_port := nat_try_port min max hash p |>) = None
     ∧ nat_search tbl key min max hash ps = inr (nat_try_port min max hash p))
  ∨ ((∀ p, p ∈ ps → is_Some (contents tbl !! (key <| ok_nat_port := nat_try_port min max hash p |>)))
     ∧ nat_search tbl key min max hash ps = inr 0).
Proof.
  induction ps as [|p ps IH]; cbn [nat_search]; [right; split; [set_solver|done]|].
  set (kp := key <| ok_nat_port := _ |>).
  destruct (contents tbl !! kp) as [[]|] eqn:Hk.
  - assert (Hr : 0 ≤ rte_hash_lookup tbl kp).
    { apply Z.nlt_ge. rewrite hash_lookup_neg. by rewrite Hk. }
    rewrite nonneg_ENOENT, DP_FAILED_pos by done.
    destruct IH as [(q & Hq & Hn & ->)|[Hall ->]].
    + left. exists q. split; [set_solver|done].
    + right. split; [|done]. intros q [->|Hq]%elem_of_cons; [by exists tt|auto].
  - left. exists p. split; [set_solver|]. split; [done|].
    rewrite (proj2 (hash_lookup_ENOENT tbl kp)) by done. by rewrite Z.eqb_refl.
Qed.

Lemma wp_nat_reuse_port E s k key (Q : Z + option Z → nat_state → Prop) :
  wf_with E (ipv4_netnat_portmap_tbl s) →
  ((∀ d, portmap s !! k = Some d → is_Some (overload s !! (key <| ok_nat_port := pm_nat_port d |>))) →
   Q (inr None) s) →
  (∀ d t, portmap s !! k = Some d → overload s !! (key <| ok_nat_port := pm_nat_port d |>) = None →
     wf_with E t → view t = <[k := d <| pm_flow_cnt := u16 (pm_flow_cnt d + 1) |>]> (portmap s) →
     Q (inr (Some (pm_nat_port d))) (s <| ipv4_netnat_portmap_tbl := t |>)) →
  wp (nat_reuse_port k key) Q s.
Proof.
  intros Hwf Hno Hyes. destruct s as [st dt pt ot hd ms dl]. unfold portmap, overload in *. nat_simpl.
  unfold nat_reuse_port. wp_steps. nat_simpl. apply (wp_ot_lookup E); [done|..]; nat_simpl; last first.
  { intros Hn _. rewrite Z.eqb_refl. wp_steps. apply Hno. congruence. }
  intros pos p d Hpos Hp Ho Hd. rewrite nonneg_ENOENT, DP_FAILED_pos by done. wp_steps. nat_simpl.
  eapply wp_ot_load; [done|]. wp_steps. nat_simpl. set (kp := MkOverloadKey _ _ _ _ _) in *.
  destruct (contents ot !! kp) as [[]|] eqn:Hk.
  - assert (Hr : 0 ≤ rte_hash_lookup ot kp).
    { apply Z.nlt_ge. rewrite hash_lookup_neg. by rewrite Hk. }
    rewrite nonneg_ENOENT, DP_FAILED_pos by done. wp_steps. apply Hno. intros d' Hd'.
    assert (d' = d) as -> by congruence. by exists tt.
  - rewrite (proj2 (hash_lookup_ENOENT ot kp)) by done. rewrite Z.eqb_refl. wp_steps. nat_simpl.
    eapply (wp_ot_store E); [done|done|done|]. intros t Ht Hv _ _. wp_steps. nat_simpl.
    apply Hyes; done.
Qed.

(** [rte_zmalloc] would return memory for a new entry of the port map. *)
Definition portmap_can_malloc s : Prop :=
  let h := ot_heap (ipv4_netnat_portmap_tbl s) in
  is_Some (rte_malloc (mst h) (dom (objs h))).1.

Lemma wp_ot_malloc_some {K V} `{Countable K} E (t : otable K V) v (Q : option loc → otable K V → Prop) :
  wf_with E t → is_Some (rte_malloc (mst (ot_heap t)) (dom (objs (ot_heap t)))).1 →
  (∀ p t', wf_with ({[p]} ∪ E) t' → p ∉ E → view t' = view t →
     ot_ptrs t' = ot_ptrs t → ot_objs t' = <[p := v]> (ot_objs t) → Q (Some p) t') →
  wp (ot_malloc v) Q t.
Proof.
  intros Hwf [q Hq] HQ. destruct (wp_inv _ _ _ (wp_ot_malloc E t v (λ op t', match op with
    | Some p => wf_with ({[p]} ∪ E) t' ∧ p ∉ E ∧ view t' = view t ∧ ot_ptrs t' = ot_ptrs t
                ∧ ot_objs t' = <[p := v]> (ot_objs t) | None => True end) Hwf
    ltac:(done) ltac:(naive_solver))) as (op & t' & Hm & Hop).
  destruct op as [p|]; [eapply wp_intro; [done|]; naive_solver|].
  exfalso. unfold ot_malloc in Hm. destruct (rte_malloc _ _) as [[]]; simplify_eq/=.
Qed.

Lemma hash_add_failed r : r = - EINVAL ∨ r = - ENOSPC → DP_FAILED r = true.
Proof. by intros [-> | ->]. Qed.

Lemma wp_nat_record_reused s key (Q : Z → nat_state → Prop) :
  (∀ r tbl, r = - EINVAL ∨ r = - ENOSPC → contents tbl = overload s →
     Q r (s <| ipv4_netnat_portoverload_tbl := tbl |>)) →
  (∀ tbl, contents tbl = <[key := tt]> (overload s) →
     Q (ok_nat_port key) (s <| ipv4_netnat_portoverload_tbl := tbl |>)) →
  wp (nat_record_port key None) Q s.
Proof.
  intros Hfail Hok. unfold nat_record_port. wp_steps.
  destruct (rte_hash_add_key _ _) as [r tbl] eqn:Ha. apply hash_add_key in Ha. wp_steps.
  destruct Ha as [[Hr Hc]|[Hr Hc]].
  - rewrite DP_FAILED_pos by done. wp_steps. by apply Hok.
  - rewrite hash_add_failed by done. wp_steps. by apply Hfail.
Qed.

Lemma wp_nat_record_new E s key k (Q : Z → nat_state → Prop) :
  wf_with E (ipv4_netnat_portmap_tbl s) → portmap_can_malloc s →
  (∀ r tbl t, r = - EINVAL ∨ r = - ENOSPC → wf_with E t → view t = portmap s →
     contents tbl = overload s ∨ contents tbl = <[key := tt]> (overload s) →
     Q r (s <| ipv4_netnat_portoverload_tbl := tbl |> <| ipv4_netnat_portmap_tbl := t |>)) →
  (∀ tbl t, contents tbl = <[key := tt]> (overload s) →
     wf_with (E ∪ option_to_set (ot_ptrs (ipv4_netnat_portmap_tbl s) !! k)) t →
     view t = <[k := MkPortmap (ok_nat_ip key) (ok_nat_port key) 1]> (portmap s) →
     Q (ok_nat_port key)
       (s <| ipv4_netnat_portoverload_tbl := tbl |> <| ipv4_netnat_portmap_tbl := t |>)) →
  wp (nat_record_port key (Some k)) Q s.
Proof.
  intros Hwf Hmem Hfail Hok. destruct s as [st dt pt ot hd ms dl].
  unfold portmap, overload, portmap_can_malloc in *. nat_simpl. unfold nat_record_port. wp_steps.
  nat_simpl. destruct (rte_hash_add_key _ _) as [r tbl] eqn:Ha. apply hash_add_key in Ha. wp_steps.
  nat_simpl. destruct Ha as [[Hr Hc]|[Hr Hc]]; last first.
  { rewrite hash_add_failed by done. wp_steps. by apply (Hfail r tbl pt); auto. }
  rewrite DP_FAILED_pos by done. wp_steps. nat_simpl.
  eapply (wp_ot_malloc_some E); [done|done|]. intros p t1 Hwf1 HpE Hv1 Hp1 Ho1. wp_steps. nat_simpl.
  eapply (wp_ot_store_extra ({[p]} ∪ E)); [done|set_solver|]. intros t2 Hwf2 Hv2 Hp2 Ho2. wp_steps. nat_simpl.
  eapply (wp_ot_add E t2 k p); [done|done|by rewrite Ho2, lookup_insert_eq|..].
  - intros r' t3 Hneg Hr' Hwf3 Hv3 _ _. nat_simpl. rewrite DP_FAILED_neg by done. wp_steps. nat_simpl.
    eapply (wp_ot_free_extra E); [done|done|]. intros t4 Hwf4 Hv4 _ _. wp_steps. nat_simpl.
    apply Hfail; [done|done|congruence|by right].
  - intros t3 Hwf3 Hv3 _ _. nat_simpl. change (DP_FAILED 0) with false. wp_steps.
    apply Hok; [done|by rewrite Hp2, Hp1 in Hwf3|congruence].
Qed.

(** The two keys under which a packet's connection is recorded; the second is
    completed by the port. *)
Definition conn_portmap_key (df : dp_flow) (vni : Z) : netnat_portmap_key :=
  MkPortmapKey vni (default (MkIp 0 false) (fst <$> nat_conn_addrs df)) (nat_conn_src_port df).
Definition conn_key (nat_ip : Z) (df : dp_flow) (port : Z) : netnat_portoverload_tbl_key :=
  MkOverloadKey nat_ip port (default 0 (snd <$> nat_conn_addrs df)) (nat_conn_dst_port df)
    (df_l4_type df).

(** What an allocation may do, for a source [k] and connections [key port]: the
    returned value and the two maps after it. *)
Inductive nat_alloc (nat_ip min max hash : Z) k (key : Z → netnat_portoverload_tbl_key)
    (m : gmap netnat_portmap_key netnat_portmap_data)
    (o : gmap netnat_portoverload_tbl_key ()) :
    Z → gmap netnat_portmap_key netnat_portmap_data → gmap netnat_portoverload_tbl_key () → Prop :=
  | alloc_reuse d :
      m !! k = Some d → o !! key (pm_nat_port d) = None →
      nat_alloc nat_ip min max hash k key m o (pm_nat_port d)
        (<[k := d <| pm_flow_cnt := u16 (pm_flow_cnt d + 1) |>]> m)
        (<[key (pm_nat_port d) := tt]> o)
  | alloc_new port :
      (∀ d, m !! k = Some d → is_Some (o !! key (pm_nat_port d))) →
      min ≤ port < max → port ≠ 0 → o !! key port = None →
      nat_alloc nat_ip min max hash k key m o port
        (<[k := MkPortmap nat_ip port 1]> m) (<[key port := tt]> o)
  | alloc_full :
      (∀ d, m !! k = Some d → is_Some (o !! key (pm_nat_port d))) →
      (0 < min → hash + (max - min) ≤ 2 ^ 32 → ∀ port, min ≤ port < max → is_Some (o !! key port)) →
      nat_alloc nat_ip min max hash k key m o DP_ERROR m o
  | alloc_no_room r m' o' :
      r = - EINVAL ∨ r = - ENOSPC →
      m' = m ∨ (∃ d, m !! k = Some d ∧ m' = <[k := d <| pm_flow_cnt := u16 (pm_flow_cnt d + 1) |>]> m) →
      o' = o ∨ (∃ port, min ≤ port < max ∧ o !! key port = None ∧ o' = <[key port := tt]> o) →
      nat_alloc nat_ip min max hash k key m o r m' o'.

Record alloc_post s (sd : snat_data) (df : dp_flow) (vni ret : Z) s' : Prop := {
  al_snat : wf (ipv4_snat_tbl s') ∧ abs_snats s' = abs_snats s;
  al_frame : ipv4_dnat_tbl s' = ipv4_dnat_tbl s ∧ nat_headp s' = nat_headp s;
  al_wf : ∃ E, wf_with E (ipv4_netnat_portmap_tbl s');
  al_maps : nat_alloc (sd_nat_ip sd) (sd_port_min sd) (sd_port_max sd)
              (rte_hash_hash (ot_tbl (ipv4_netnat_portmap_tbl s)) (conn_portmap_key df vni))
              (conn_portmap_key df vni) (conn_key (sd_nat_ip sd) df) (portmap s) (overload s) ret (portmap s') (overload s')
}.

(** The snat object an allocation reads, and its range. *)
(** [snat] points to [sd]. *)
Definition snat_at s (snat : snat_ptr) (sd : snat_data) : Prop :=
  match snat with
  | SnatEntry p => (∃ nk, ot_ptrs (ipv4_snat_tbl s) !! nk = Some p) ∧ ot_objs (ipv4_snat_tbl s) !! p = Some sd
  | SnatLocal data => data = sd
  end.

Record alloc_pre E s (snat : snat_ptr) (sd : snat_data) (df : dp_flow) : Prop := {
  ap_portmap : wf_with E (ipv4_netnat_portmap_tbl s);
  ap_snat : wf (ipv4_snat_tbl s);
  ap_ptr : snat_at s snat sd;
  ap_range : is_u16 (sd_port_min sd) ∧ is_u16 (sd_port_max sd);
  ap_ver : is_Some (nat_conn_addrs df);
  ap_mem : portmap_can_malloc s
}.

Lemma wp_snat_load s snat sd (Q : snat_data → nat_state → Prop) :
  snat_at s snat sd → Q sd s → wp (snat_load snat) Q s.
Proof.
  intros Hat HQ. destruct snat as [p|d]; cbn [snat_load snat_at] in *; [|subst d; by apply wp_ret].
  apply wp_zoom. eapply wp_ot_load; [apply Hat|]. by destruct s.
Qed.

Lemma wp_nat_log_full s tsc snat sd (Q : () → nat_state → Prop) :
  wf (ipv4_snat_tbl s) → snat_at s snat sd →
  (∀ t, wf t → abs_snat <$> view t = abs_snats s → Q tt (s <| ipv4_snat_tbl := t |>)) →
  wp (nat_log_full tsc snat) Q s.
Proof.
  intros Hwf Hat HQ. unfold nat_log_full. apply wp_bind. eapply wp_snat_load; [done|].
  destruct s as [st dt pt ot hd ms dl]. unfold abs_snats, snats in *. nat_simpl. wp_steps.
  wp_if; wp_steps; [|by apply HQ]. destruct snat as [p|d]; [|by apply wp_ret, HQ]. destruct Hat as [[nk Hp] Ho].
  cbn [snat_store]. wp_steps. nat_simpl. eapply (wp_ot_store ∅); [done|done|done|]. intros t Ht Hv _ _. nat_simpl. apply HQ; [done|].
  rewrite Hv, fmap_insert. apply insert_id. rewrite lookup_fmap.
  rewrite (proj2 (view_lookup_Some st nk sd)) by eauto. done.
Qed.

Ltac key_simpl := cbn [set_field ok_nat_ip ok_nat_port ok_dst_ip ok_dst_port ok_l4_type] in *.

Lemma conn_keys_eq df src dst vni nat_ip :
  nat_conn_addrs df = Some (src, dst) →
  conn_portmap_key df vni = MkPortmapKey vni src (nat_conn_src_port df)
  ∧ ∀ port, conn_key nat_ip df port
            = MkOverloadKey nat_ip port dst (nat_conn_dst_port df) (df_l4_type df).
Proof. unfold conn_portmap_key, conn_key. by intros ->. Qed.

Lemma wp_nat_new_port E s tsc snat sd df vni :
  alloc_pre E s snat sd df →
  (∀ d, portmap s !! conn_portmap_key df vni = Some d →
     is_Some (overload s !! conn_key (sd_nat_ip sd) df (pm_nat_port d))) →
  wp (nat_new_port tsc snat sd (conn_portmap_key df vni) (conn_key (sd_nat_ip sd) df 0))
    (alloc_post s sd df vni) s.
Proof.
  intros [Hpm Hsn Hptr [Hmin Hmax] Hver Hmem] Hno. unfold nat_new_port. wp_steps.
  destruct (nat_search_cases (ipv4_netnat_portoverload_tbl s) (conn_key (sd_nat_ip sd) df 0)
    (sd_port_min sd) (sd_port_max sd)
    (rte_hash_hash (ot_tbl (ipv4_netnat_portmap_tbl s)) (conn_portmap_key df vni))
    (seqZ 0 (sd_port_max sd - sd_port_min sd))) as [(p & Hp & Hfree & ->)|[Hall ->]].
  - apply elem_of_seqZ in Hp. set (port := nat_try_port _ _ _ _) in *.
    pose proof (nat_try_port_range _ _ _ p Hmin Hmax ltac:(lia) : _ ≤ port < _) as Hport.
    destruct (port =? 0) eqn:Hz; zbool.
    + wp_steps. eapply wp_nat_log_full; [done|done|]. intros t Ht Hv. wp_steps. destruct s.
      constructor; nat_simpl; [done|done|by eauto|]. apply alloc_full; [done|lia].
    + apply (wp_nat_record_new E); [done|done|..]; key_simpl.
      * intros r tbl t Hr Ht Hv Hc. destruct s. constructor; nat_simpl; [done|done|by eauto|].
        apply alloc_no_room; [done|by left|]. unfold overload in *. nat_simpl.
        destruct Hc as [Hc|Hc]; [by left|right]. by exists port.
      * intros tbl t Hc Ht Hv. destruct s. constructor; nat_simpl; [done|done|by eauto|].
        unfold portmap at 2, overload at 2. nat_simpl. rewrite Hv, Hc.
        by apply (alloc_new _ _ _ _ _ (conn_key (sd_nat_ip sd) df) _ _ port).
  - rewrite Z.eqb_refl. wp_steps. eapply wp_nat_log_full; [done|done|]. intros t Ht Hv. wp_steps.
    destruct s. constructor; nat_simpl; [done|done|by eauto|]. apply alloc_full; [done|].
    intros Hpos Hwrap port Hport.
    destruct (nat_try_port_all _ _ _ port Hmin Hmax (proj1 (hash_hash_range _ _)) Hwrap Hport)
      as (p & Hp & <-). apply (Hall p Hp).
Qed.

Lemma wp_allocate E s tsc snat sd df vni :
  alloc_pre E s snat sd df →
  wp (dp_allocate_network_snat_port tsc snat df vni) (alloc_post s sd df vni) s.
Proof.
  intros Hpre. pose proof Hpre as [Hpm Hsn Hptr _ [[src dst] Hver] _].
  unfold dp_allocate_network_snat_port. rewrite Hver. apply wp_bind. eapply wp_snat_load; [done|]. wp_steps.
  destruct (conn_keys_eq df src dst vni (sd_nat_ip sd) Hver) as [Hk Hkey]. rewrite <- Hk, <- Hkey.
  apply (wp_nat_reuse_port E); [done|..]; key_simpl.
  - intros Hno. by apply (wp_nat_new_port E).
  - intros d t Hd Hfree Ht Hv. wp_steps. apply wp_nat_record_reused; key_simpl.
    + intros r tbl Hr Hc. destruct s. constructor; nat_simpl; [done|done|by eauto|].
      apply alloc_no_room; [done| |by left]. right. by exists d.
    + intros tbl Hc. destruct s. constructor; nat_simpl; [done|done|by eauto|].
      unfold portmap at 2, overload at 2. nat_simpl. rewrite Hv, Hc.
      by apply (alloc_reuse _ _ _ _ _ (conn_key (sd_nat_ip sd) df)).
Qed.

(** C2. A positive result is a port with which the connection (its NAT address,
    destination and protocol) was not in use, and which is now recorded for it;
    it lies in the range of the interface unless the source had it before. *)
Theorem allocate_unique E s tsc snat sd df vni :
  alloc_pre E s snat sd df →
  wp (dp_allocate_network_snat_port tsc snat df vni)
    (λ ret s', 0 < ret →
       overload s !! conn_key (sd_nat_ip sd) df ret = None
       ∧ overload s' = <[conn_key (sd_nat_ip sd) df ret := tt]> (overload s)
       ∧ (sd_port_min sd ≤ ret < sd_port_max sd
          ∨ pm_nat_port <$> portmap s !! conn_portmap_key df vni = Some ret)
       ∧ pm_nat_port <$> portmap s' !! conn_portmap_key df vni = Some ret) s.
Proof.
  intros Hpre. wp_use (wp_allocate E s tsc snat sd df vni Hpre). intros ret s' [_ _ _ Hmaps] Hret.
  inversion Hmaps as [d Hd Hfree|port Hno Hport Hp0 Hfree|Hno Hfull|r m' o' Hr]; subst.
  - split_and!; [done|done|right; by rewrite Hd|by rewrite lookup_insert_eq].
  - split_and!; [done|done|by left|by rewrite lookup_insert_eq].
  - done.
  - by destruct Hr as [-> | ->].
Qed.


(** The keys a connection releases. *)
Definition release_key (fv : flow_value) : netnat_portoverload_tbl_key :=
  let org := fv_key_org fv in
  MkOverloadKey (ipv4 (fk_l3_dst (fv_key_reply fv))) (fk_port_dst (fv_key_reply fv))
    (if is_v6 (fk_l3_dst org) then ntohl (word32_of 3 (ipv6 (fk_l3_dst org)))
     else ipv4 (fk_l3_dst org))
    (fk_port_dst org) (fk_proto org).
Definition release_portmap_key (fv : flow_value) : netnat_portmap_key :=
  let org := fv_key_org fv in
  MkPortmapKey (fv_nf_vni fv) (fk_l3_src org)
    (if is_icmp (fk_proto org) then fk_port_dst org else fk_port_src org).

(** The port that created a connection, and its statistics counted down. *)
Definition created_port (fv : flow_value) (ps : ports_state) : option nat :=
  if DP_MAX_PORTS <=? fv_created_port_id fv then None
  else ps_port_table ps !! fv_created_port_id fv.
Definition count_down (op : option nat) (ps : ports_state) : Z * ports_state :=
  match op with
  | None => (DP_ERROR, ps)
  | Some p => (DP_OK, run_state ps (upd_port p (λ port,
      port <| pt_used_port_cnt := u16 (pt_used_port_cnt port - 1) |>)))
  end.
Definition port_table_ok (ps : ports_state) : Prop :=
  ∀ id p, ps_port_table ps !! id = Some p → is_Some (ps_ports ps !! p).

Lemma wp_count_down fv ps (Q : Z → ports_state → Prop) :
  port_table_ok ps →
  Q (count_down (created_port fv ps) ps).1 (count_down (created_port fv ps) ps).2 →
  wp (nat_dec_used_port_cnt (fv_created_port_id fv)) Q ps.
Proof.
  intros Hok HQ. unfold nat_dec_used_port_cnt, dp_get_port_by_id, created_port in *.
  destruct (DP_MAX_PORTS <=? _); [wp_steps; done|]. wp_steps.
  destruct (ps_port_table ps !! _) as [p|] eqn:Hp; wp_steps; [|done].
  destruct (Hok _ _ Hp) as [port Hport]. eapply wp_upd_port; [done|]. wp_steps.
  cbn [count_down fst snd] in HQ. unfold run_state, upd_port in HQ. by rewrite Hport in HQ.
Qed.

Lemma wp_release E s ps fv (Q : Z → nat_state * ports_state → Prop) :
  wf_with E (ipv4_netnat_portmap_tbl s) → is_v6 (fk_l3_dst (fv_key_reply fv)) = false →
  port_table_ok ps →
  (∀ tbl, portmap s !! release_portmap_key fv = None →
     contents tbl = delete (release_key fv) (overload s) →
     Q DP_OK (s <| ipv4_netnat_portoverload_tbl := tbl |>, ps)) →
  (∀ tbl t d, portmap s !! release_portmap_key fv = Some d →
     contents tbl = delete (release_key fv) (overload s) → wf_with E t →
     view t = (if u16 (pm_flow_cnt d - 1) =? 0 then delete (release_portmap_key fv) (portmap s)
               else <[release_portmap_key fv := d <| pm_flow_cnt := u16 (pm_flow_cnt d - 1) |>]>
                      (portmap s)) →
     Q (count_down (created_port fv ps) ps).1
       (s <| ipv4_netnat_portoverload_tbl := tbl |> <| ipv4_netnat_portmap_tbl := t |>,
        (count_down (created_port fv ps) ps).2)) →
  wp (dp_remove_network_snat_port fv) Q (s, ps).
Proof.
  intros Hwf Hv6 Hports Hnone Hsome. destruct s as [st dt pt ot hd ms dl].
  unfold portmap, overload in *. nat_simpl.
  unfold dp_remove_network_snat_port. rewrite Hv6, dp_copy_ipaddr_id.
  fold (release_key fv). fold (release_portmap_key fv). wp_steps. nat_simpl.
  assert (Hdel : ∃ r tbl, rte_hash_del_key ot (release_key fv) = (r, tbl)
    ∧ contents tbl = delete (release_key fv) (contents ot)
    ∧ DP_FAILED r && negb (r =? - ENOENT) = false).
  { destruct (contents ot !! release_key fv) as [v|] eqn:Hk.
    - destruct (hash_del_some ot _ v Hk) as (pos & tbl & Hpos & Hd & Hc). exists pos, tbl.
      by rewrite DP_FAILED_pos.
    - exists (- ENOENT), ot. rewrite (hash_del_none ot) by done. by rewrite delete_id. }
  destruct Hdel as (r & tbl & -> & Hc & Hr). wp_steps. nat_simpl. rewrite Hr. wp_steps. nat_simpl.
  apply (wp_ot_lookup E); [done|..]; nat_simpl; last first.
  { intros Hn _. rewrite DP_FAILED_ENOENT. wp_steps. by apply Hnone. }
  intros pos p d Hpos Hp Ho Hd. rewrite DP_FAILED_pos by done. wp_steps. nat_simpl.
  eapply wp_ot_load; [done|]. wp_steps. nat_simpl.
  eapply (wp_ot_store E); [done|done|done|]. intros t1 Ht1 Hv1 Hp1 Ho1. wp_steps. nat_simpl.
  destruct (u16 (pm_flow_cnt d - 1) =? 0) eqn:Hz; wp_steps; nat_simpl.
  - eapply (wp_ot_del E); [done|by rewrite Hp1|]. intros pos' t2 Hpos' Ht2 HpE Hv2 _ _. nat_simpl.
    rewrite DP_FAILED_pos by done. wp_steps. nat_simpl.
    eapply (wp_ot_free_extra E); [done|done|]. intros t3 Ht3 Hv3 _ _. wp_steps. nat_simpl.
    apply wp_count_down; [done|]. eapply (Hsome tbl t3 d); [done|done|done|].
    by rewrite Hv3, Hv2, Hv1, delete_insert_eq, Hz.
  - apply wp_count_down; [done|]. eapply (Hsome tbl t1 d); [done|done|done|]. by rewrite Hz.
Qed.

(** [fv] is the connection that a packet's flow got from an allocation. *)
Record conn_of_flow (nat_ip : Z) (df : dp_flow) (vni port : Z) (fv : flow_value) : Prop := {
  cf_reply : fk_l3_dst (fv_key_reply fv) = DP_SET_IPADDR4 nat_ip;
  cf_key : release_key fv = conn_key nat_ip df port;
  cf_portmap : release_portmap_key fv = conn_portmap_key df vni
}.

(** Releasing the port of a connection undoes its allocation: the connection is
    free again and the port map is what it was, unless the allocation replaced
    an older port of the same source. *)
Theorem allocate_release E s tsc snat sd df vni ps fv ret s1 :
  alloc_pre E s snat sd df → port_table_ok ps →
  dp_allocate_network_snat_port tsc snat df vni s = Some (ret, s1) → 0 < ret →
  (∀ d, portmap s !! conn_portmap_key df vni = Some d →
     pm_nat_port d = ret ∧ 0 < pm_flow_cnt d < 2 ^ 16 - 1) →
  conn_of_flow (sd_nat_ip sd) df vni ret fv →
  wp (dp_remove_network_snat_port fv)
    (λ r st, (r, st.2) = count_down (created_port fv ps) ps
       ∧ overload st.1 = overload s ∧ portmap st.1 = portmap s) (s1, ps).
Proof.
  intros Hpre Hports Halloc Hret Hold [Hreply Hkey Hpk].
  destruct (wp_elim _ _ _ _ _ (wp_allocate E s tsc snat sd df vni Hpre) Halloc)
    as [_ _ [E' Hwf1] Hmaps].
  assert (Hfree : overload s !! conn_key (sd_nat_ip sd) df ret = None
    ∧ overload s1 = <[conn_key (sd_nat_ip sd) df ret := tt]> (overload s)
    ∧ ∃ d1, portmap s1 = <[conn_portmap_key df vni := d1]> (portmap s)
      ∧ (if u16 (pm_flow_cnt d1 - 1) =? 0 then delete (conn_portmap_key df vni) (portmap s1)
         else <[conn_portmap_key df vni := d1 <| pm_flow_cnt := u16 (pm_flow_cnt d1 - 1) |>]>
                (portmap s1)) = portmap s).
  { inversion Hmaps as [d Hd Hfree|port Hno Hport Hp0 Hfree|Hno Hfull|r m' o' Hr]; subst.
    - split; [done|]. split; [done|]. destruct (Hold _ Hd) as [_ Hcnt]. eexists. split; [done|].
      cbn [set_field pm_flow_cnt pm_nat_ip pm_nat_port].
      rewrite (u16_id (pm_flow_cnt d + 1)) by (unfold_widths; lia).
      replace (pm_flow_cnt d + 1 - 1) with (pm_flow_cnt d) by lia.
      rewrite u16_id, (proj2 (Z.eqb_neq _ _)) by (unfold_widths; lia).
      rewrite insert_insert_eq, insert_id; [done|]. rewrite Hd. by destruct d.
    - split; [done|]. split; [done|]. eexists. split; [done|].
      cbn [pm_flow_cnt]. change (u16 (1 - 1) =? 0) with true. rewrite delete_insert_id; [done|].
      destruct (portmap s !! conn_portmap_key df vni) as [d|] eqn:Hd; [|done].
      destruct (Hold _ eq_refl) as [<- _]. destruct (Hno _ eq_refl) as [? ?]. congruence.
    - done.
    - by destruct Hr as [-> | ->]. }
  destruct Hfree as (Hfree & Ho1 & d1 & Hm1 & Hm2).
  apply (wp_release E'); [done|by rewrite Hreply|done|..]; rewrite Hpk, Hkey, Hm1, lookup_insert_eq; [done|].
  intros tbl t d [= <-] Hc _ Hv. nat_simpl. split; [by destruct (count_down _ _)|]. unfold portmap at 1, overload at 1. nat_simpl.
  split; [by rewrite Hc, Ho1, delete_insert_id|]. rewrite Hv, <- Hm1. exact Hm2.
Qed.
End port_facts.

(** ** Runs *)

Section nat_examples.
#[local] Existing Instances test_hash test_hash_ok test_malloc test_malloc_ok.

Definition ex_nat_empty : nat_state :=
  MkNat (OTable (∅ : gmap nat_key loc) (Heap (∅ : gmap loc snat_data) ([] : list bool)))
    (OTable (∅ : gmap nat_key loc) (Heap (∅ : gmap loc dnat_data) ([] : list bool)))
    (OTable (∅ : gmap netnat_portmap_key loc)
       (Heap (∅ : gmap loc netnat_portmap_data) ([] : list bool)))
    (∅ : gmap netnat_portoverload_tbl_key ()) [] ([] : list bool) 5000.

Definition ex_iface : nat_key := MkNatKey 10 100.

(** The interface with a NAT address and three ports. *)
Definition ex_nat_one : nat_state :=
  run_state ex_nat_empty (run_snat_req ex_iface (SetNat 20 1000 1003 77)).
Definition ex_snat : snat_data := MkSnat 0 20 1000 1003 0 77 0.

Lemma ex_nat_empty_inv : snat_inv ex_nat_empty.
Proof.
  assert (Hv : snats ex_nat_empty = ∅) by (by apply (ot_create_wf (HM := test_malloc) 1 ([] : list bool))). constructor.
  - by apply (ot_create_wf (HM := test_malloc) 1 ([] : list bool)).
  - intros k d. rewrite Hv. by rewrite lookup_empty.
Qed.

Lemma snat_refines_witness :
  abs_snats ex_nat_one !! ex_iface = Some (MkSnatSpec None (Some (20, (1000, 1003), 77))).
Proof.
  pose proof (wp_elim _ _ _ DP_GRPC_OK ex_nat_one
    (snat_refines ex_nat_empty ex_iface (SetNat 20 1000 1003 77) ex_nat_empty_inv
       ltac:(discriminate)) ltac:(vm_compute; reflexivity)) as (_ & _ & Hr).
  destruct Hr as [[_ ->]|[? _]]; [|done]. rewrite lookup_partial_alter_eq. reflexivity.
Defined.

(** A TCP packet from 10:4000 to 30:80. *)
Definition ex_df : dp_flow :=
  dp_init_flow_ptr <| df_l3_type := RTE_ETHER_TYPE_IPV4 |> <| df_l4_type := IPPROTO_TCP |>
    <| df_src_addr6 := htonl 10 |> <| df_dst_addr6 := htonl 30 |>
    <| df_trans_src_port := htons 4000 |> <| df_trans_dst_port := htons 80 |>.

Lemma ex_alloc_pre : alloc_pre ∅ ex_nat_one (SnatEntry 2%positive) ex_snat ex_df.
Proof.
  constructor.
  - by apply (ot_create_wf (HM := test_malloc) 1 ([] : list bool)).
  - by apply (wf_with_singleton (ipv4_snat_tbl ex_nat_one) ex_iface 2%positive ex_snat).
  - by split; [exists ex_iface|].
  - done.
  - by eexists.
  - by eexists.
Qed.

Definition ex_alloc : Z * nat_state :=
  match dp_allocate_network_snat_port 0 (SnatEntry 2%positive) ex_df 100 ex_nat_one with
  | Some r => r | None => (0, ex_nat_one) end.

Lemma ex_alloc_eq :
  dp_allocate_network_snat_port 0 (SnatEntry 2%positive) ex_df 100 ex_nat_one = Some (1002, ex_alloc.2).
Proof. vm_compute. reflexivity. Qed.

Lemma allocate_unique_witness :
  overload ex_alloc.2 !! conn_key 20 ex_df 1002 = Some tt.
Proof.
  destruct (wp_elim _ _ _ _ _ (allocate_unique ∅ ex_nat_one 0 (SnatEntry 2%positive) ex_snat ex_df 100 ex_alloc_pre)
    ex_alloc_eq ltac:(lia)) as (_ & Ho & _). rewrite Ho. apply lookup_insert_eq.
Defined.


(** The connection of that packet. *)
Definition ex_nat_flow : flow_value :=
  zero_flow_value
    <| fv_key_org := MkFlowKey (DP_SET_IPADDR4 30) IPPROTO_TCP 80 (DP_SET_IPADDR4 10)
                       DP_VNF_TYPE_NAT 4000 100 |>
    <| fv_key_reply := MkFlowKey (DP_SET_IPADDR4 20) IPPROTO_TCP 1002 (DP_SET_IPADDR4 30)
                         DP_VNF_TYPE_NAT 80 100 |>
    <| fv_nf_vni := 100 |> <| fv_created_port_id := 3 |>.
Definition ex_ports : ports_state :=
  MkPorts [zero_port <| pt_used_port_cnt := 1 |>] {[3 := 0%nat]} []
    (Heap (H := test_malloc) ∅ ([] : list bool)).

Lemma allocate_release_witness :
  wp (dp_remove_network_snat_port ex_nat_flow)
    (λ r st, (r, st.2) = count_down (Some 0%nat) ex_ports
       ∧ overload st.1 = overload ex_nat_one ∧ portmap st.1 = portmap ex_nat_one)
    (ex_alloc.2, ex_ports).
Proof.
  apply (allocate_release ∅ ex_nat_one 0 (SnatEntry 2%positive) ex_snat ex_df 100 ex_ports ex_nat_flow 1002
    ex_alloc.2 ex_alloc_pre).
  - intros id p Hp. cbn [ps_port_table ex_ports] in Hp.
    apply lookup_singleton_Some in Hp as [<- <-]. by eexists.
  - apply ex_alloc_eq.
  - done.
  - intros d. vm_compute. discriminate.
  - constructor; vm_compute; reflexivity.
Defined.

Definition ex_full_key (port : Z) : netnat_portoverload_tbl_key :=
  MkOverloadKey 20 port 30 80 IPPROTO_TCP.

(** With the hash of the source at the end of the 32-bit range the rounds repeat
    a port and miss another: of the ports 1000, 1001 and 1002 only the last is
    free, and the search does not find it. *)
Theorem search_misses_free_port :
  let tbl : gmap netnat_portoverload_tbl_key () :=
    {[ex_full_key 1000 := tt; ex_full_key 1001 := tt]} in
  tbl !! ex_full_key 1002 = None
  ∧ nat_search (HH := test_hash) tbl (ex_full_key 0) 1000 1003 (2 ^ 32 - 1) (seqZ 0 3) = inr 0.
Proof. split; vm_compute; reflexivity. Qed.

Lemma neigh_add_del_witness :
  dp_get_network_nat_underlay_ip 20 None 100 1000 2000
    (run_state ex_nat_empty (dp_add_network_nat_entry 20 None 100 1000 2000 88)) = Some 88.
Proof.
  apply (neigh_add_del ex_nat_empty (run_state ex_nat_empty (dp_add_network_nat_entry 20 None 100 1000 2000 88))
    20 100 1000 2000 88); [done|done|]. vm_compute. reflexivity.
Defined.

Definition ex_neigh : nat_state :=
  run_state ex_nat_empty (dp_add_network_nat_entry 30 None 100 80 90 88).
Definition ex_neigh_df : dp_flow := ex_df <| df_tun_dst_vni := 100 |>.

Lemma neigh_lookup_spec_witness :
  ∃ i p e, nat_headp ex_neigh !! i = Some (p, e) ∧ covers ex_neigh_df e ∧ ne_dst_ipv6 e = 88.
Proof.
  pose proof (neigh_lookup_spec ex_neigh ex_neigh_df ltac:(vm_compute; discriminate)) as Hl.
  change (dp_lookup_network_nat_underlay_ip ex_neigh_df ex_neigh) with (Some 88) in Hl.
  destruct Hl as (i & p & e & Hi & Hc & Hu & _). by exists i, p, e.
Defined.

Lemma del_vip_from_dnat_spec_witness :
  wp (dp_del_vip_from_dnat 30 100)
    (λ _ s', dnats s' = dnats ex_neigh) ex_neigh.
Proof.
  refine (wp_mono _ _ _ _ (del_vip_from_dnat_spec ex_neigh 30 100 _ _) _).
  - by apply (ot_create_wf (HM := test_malloc) 1 ([] : list bool)).
  - done.
  - intros _ s' (t & -> & _ & [[_ Hv]|[Hno _]]); [exact Hv|].
    destruct (Hno (2%positive, neigh_entry 30 100 80 90 88)); [by apply list_elem_of_singleton|done|done].
Defined.
End nat_examples.
