(* ===== verification/Vni.v ===== *)
(** * Virtual networks (src/dp_vni.c, include/dp_vni.h)

    A virtual network (VNI) that is used by an interface or a load balancer has
    an entry in [vni_handle_tbl]: a reference count and a route table for each
    of IPv4 and IPv6.  The route tables are objects of DPDK ([Rib]), of which
    [vn_rib4] and [vn_rib6] hold the live ones.  The functions for the two
    families are the same but for the type; they take the family as an argument
    here. *)

From S2P Require Import Prelude Dpdk Error Types Responder Port Firewall GrpcConv Rib Nat.

Definition DP_VNI_MAX_TABLE_SIZE : Z := 512.
Definition DP_NB_SOCKETS : Z := 2.

Definition DP_SOCKETID (socket_id : Z) : Z := if DP_NB_SOCKETS <=? u32 socket_id then 0 else socket_id.

(** [vd_refcount] is the counter of [ref_count]; its release function is always
    [dp_free_vni_data]. *)
Record dp_vni_data := MkVniData {
  vd_ipv4 : list (option loc);
  vd_ipv6 : list (option loc);
  vd_refcount : Z;
  vd_socket_id : Z;
  vd_vni : Z
}.
Global Instance dp_vni_data_eta : Eta dp_vni_data := λ r,
  MkVniData (vd_ipv4 r) (vd_ipv6 r) (vd_refcount r) (vd_socket_id r) (vd_vni r).

Definition zero_vni_data : dp_vni_data := MkVniData [None; None] [None; None] 0 0 0.

Definition vd_ribs (fam : rib_family) (d : dp_vni_data) : list (option loc) :=
  match fam with Rib4 => vd_ipv4 d | Rib6 => vd_ipv6 d end.
Definition set_vd_ribs (fam : rib_family) (l : list (option loc)) (d : dp_vni_data) : dp_vni_data :=
  match fam with Rib4 => d <| vd_ipv4 := l |> | Rib6 => d <| vd_ipv6 := l |> end.

(** [vni_data->ipv4[DP_SOCKETID(vni_data->socket_id)]]; the index is in range. *)
Definition vd_sock (d : dp_vni_data) : nat := Z.to_nat (DP_SOCKETID (vd_socket_id d)).
Definition vd_rib (fam : rib_family) (d : dp_vni_data) : option loc := mjoin (vd_ribs fam d !! vd_sock d).

Record vni_state `{RteHash} `{RteMalloc} `{RteRib} := MkVniState {
  vni_handle_tbl : otable Z dp_vni_data;
  vn_rib4 : heap (rib Rib4);
  vn_rib6 : heap (rib Rib6)
}.
Arguments MkVniState {_ _ _} _ _ _.
Global Instance vni_state_eta `{RteHash} `{RteMalloc} `{RteRib} : Eta vni_state := λ r,
  MkVniState (vni_handle_tbl r) (vn_rib4 r) (vn_rib6 r).

Section vni.
Context `{HH : RteHash} `{HM : RteMalloc} `{HR : RteRib}.

Definition vniT : lens vni_state (otable Z dp_vni_data) :=
  Lens vni_handle_tbl (λ t s, s <| vni_handle_tbl := t |>).
Definition ribL (fam : rib_family) : lens vni_state (heap (rib fam)) :=
  match fam with
  | Rib4 => Lens vn_rib4 (λ h s, s <| vn_rib4 := h |>)
  | Rib6 => Lens vn_rib6 (λ h s, s <| vn_rib6 := h |>)
  end.

Definition dp_vni_init (st : malloc_state) : option vni_state :=
  match dp_create_jhash_table DP_VNI_MAX_TABLE_SIZE st with
  | Some t => Some (MkVniState t (Heap ∅ st) (Heap ∅ st))
  | None => None
  end.

Definition dp_is_vni_route_table_available (vni type : Z) : cmd vni_state bool :=
  r ← zoom vniT (ot_lookup vni);
  if DP_FAILED r.1 then mret false
  else
    match r.2 with
    | None => fault
    | Some p =>
        d ← zoom vniT (ot_load p);
        mret ((type =? IPPROTO_IPIP) && bool_decide (is_Some (vd_rib Rib4 d))
              || (type =? IPPROTO_IPV6) && bool_decide (is_Some (vd_rib Rib6 d)))
    end.

(** [rte_rib_free]; freeing NULL does nothing. *)
Definition rte_rib_free (fam : rib_family) (r : option loc) : cmd vni_state () :=
  match r with Some q => zoom (ribL fam) (hp_free q) | None => mret tt end.

(** [dp_free_rib] and [dp_free_rib6] *)
Definition dp_free_rib (fam : rib_family) (vni_data : loc) : cmd vni_state () :=
  d ← zoom vniT (ot_load vni_data);
  rte_rib_free fam (vd_rib fam d).

(** [dp_create_rib] and [dp_create_rib6] *)
Definition dp_create_rib (fam : rib_family) (vni socket_id : Z) (vni_data : loc) : cmd vni_state Z :=
  r ← zoom (ribL fam) (hp_malloc (rib_new fam));
  match r with
  | None => mret DP_ERROR
  | Some q =>
      d ← zoom vniT (ot_load vni_data);
      let ribs := <[Z.to_nat (DP_SOCKETID socket_id) := Some q]> (vd_ribs fam d) in
      zoom vniT (ot_store vni_data
        (set_vd_ribs fam ribs (d <| vd_vni := vni |> <| vd_socket_id := socket_id |>)));;
      mret DP_OK
  end.

Definition vni_ref_init (vni_data : loc) : cmd vni_state () :=
  d ← zoom vniT (ot_load vni_data);
  zoom vniT (ot_store vni_data (d <| vd_refcount := 1 |>)).

Definition dp_allocate_vni_route_tables (vni socket_id : Z) : cmd vni_state Z :=
  p ← zoom vniT (ot_malloc zero_vni_data);
  match p with
  | None => mret DP_ERROR
  | Some p =>
      r ← dp_create_rib Rib4 vni socket_id p;
      if DP_FAILED r then zoom vniT (ot_free p);; mret DP_ERROR
      else
        r ← dp_create_rib Rib6 vni socket_id p;
        if DP_FAILED r then dp_free_rib Rib4 p;; zoom vniT (ot_free p);; mret DP_ERROR
        else
          ret ← zoom vniT (ot_add vni p);
          if DP_FAILED ret then
            dp_free_rib Rib6 p;; dp_free_rib Rib4 p;; zoom vniT (ot_free p);; mret DP_ERROR
          else vni_ref_init p;; mret DP_OK
  end.

(** [dp_ref_inc] *)
Definition vni_ref_inc (vni_data : loc) : cmd vni_state () :=
  d ← zoom vniT (ot_load vni_data);
  if vd_refcount d =? 0 then fault
  else zoom vniT (ot_store vni_data (d <| vd_refcount := i32 (vd_refcount d + 1) |>)).

Definition dp_create_vni_route_tables (vni socket_id : Z) : cmd vni_state Z :=
  r ← zoom vniT (ot_lookup vni);
  if DP_FAILED r.1 then
    if negb (r.1 =? - ENOENT) then mret DP_ERROR
    else dp_allocate_vni_route_tables vni socket_id
  else
    match r.2 with
    | None => fault
    | Some p => vni_ref_inc p;; mret DP_OK
    end.

Definition dp_free_vni_data (vni_data : loc) : cmd (vni_state * nat_state) () :=
  d ← zoom fstL (zoom vniT (ot_load vni_data));
  zoom fstL (dp_free_rib Rib6 vni_data);;
  zoom fstL (dp_free_rib Rib4 vni_data);;
  zoom sndL (dp_del_all_neigh_nat_entries_in_vni (vd_vni d));;
  zoom fstL (zoom vniT (ot_free vni_data)).

(** [dp_ref_dec_and_chk_freed] *)
Definition vni_ref_dec_and_chk_freed (vni_data : loc) : cmd (vni_state * nat_state) bool :=
  d ← zoom fstL (zoom vniT (ot_load vni_data));
  let cnt := i32 (vd_refcount d - 1) in
  zoom fstL (zoom vniT (ot_store vni_data (d <| vd_refcount := cnt |>)));;
  if cnt =? 0 then dp_free_vni_data vni_data;; mret true else mret false.

Definition dp_delete_vni_route_tables (vni : Z) : cmd (vni_state * nat_state) Z :=
  r ← zoom fstL (zoom vniT (ot_lookup vni));
  if DP_FAILED r.1 then mret r.1
  else
    match r.2 with
    | None => fault
    | Some p =>
        freed ← vni_ref_dec_and_chk_freed p;
        if freed : bool then
          ret ← zoom fstL (zoom vniT (ot_del vni));
          if DP_FAILED ret then mret DP_ERROR else mret DP_OK
        else mret DP_OK
    end.

(** One of the two halves of [dp_reset_vni_data]; [false] is a failure. *)
Definition reset_rib (fam : rib_family) (vni socket_id : Z) (vni_data : loc) : cmd vni_state bool :=
  d ← zoom vniT (ot_load vni_data);
  match vd_ribs fam d !! Z.to_nat socket_id with
  | Some (Some q) =>
      rte_rib_free fam (Some q);;
      r ← dp_create_rib fam vni socket_id vni_data;
      mret (negb (DP_FAILED r))
  | _ => mret true
  end.

Definition dp_reset_vni_data (vni : Z) (vni_data : loc) : cmd vni_state Z :=
  d ← zoom vniT (ot_load vni_data);
  let socket_id := DP_SOCKETID (vd_socket_id d) in
  ok ← reset_rib Rib4 vni socket_id vni_data;
  if negb ok then mret DP_ERROR
  else
    ok ← reset_rib Rib6 vni socket_id vni_data;
    if negb ok then mret DP_ERROR else mret DP_OK.

Definition dp_reset_vni_route_tables (vni : Z) : cmd vni_state Z :=
  r ← zoom vniT (ot_lookup vni);
  if DP_FAILED r.1 then mret DP_OK
  else match r.2 with None => fault | Some p => dp_reset_vni_data vni p end.

Fixpoint reset_each (items : list (Z * loc)) : cmd vni_state Z :=
  match items with
  | [] => mret DP_OK
  | (vni, p) :: items =>
      r ← dp_reset_vni_data vni p;
      if DP_FAILED r then mret DP_ERROR else reset_each items
  end.

(** Resetting a network does not change the table the loop iterates over. *)
Definition dp_reset_all_vni_route_tables : cmd vni_state Z :=
  t ← zoom vniT (gets ot_tbl);
  if rte_hash_count t =? 0 then mret DP_OK
  else
    match hash_items t with
    | Some (items, _) => reset_each items
    | None => fault
    end.

(** [dp_get_vni_route4_table] and [dp_get_vni_route6_table] *)
Definition dp_get_vni_route_table (fam : rib_family) (vni : Z) : cmd vni_state (option loc) :=
  r ← zoom vniT (ot_lookup vni);
  if DP_FAILED r.1 then mret None
  else
    match r.2 with
    | None => fault
    | Some p => d ← zoom vniT (ot_load p); mret (vd_rib fam d)
    end.

(** The operations on the IPv6 tables. *)
Definition dp_get_vni_route6_table : Z → cmd vni_state (option loc) := dp_get_vni_route_table Rib6.
Definition dp_free_rib6 : loc → cmd vni_state () := dp_free_rib Rib6.
Definition dp_create_rib6 : Z → Z → loc → cmd vni_state Z := dp_create_rib Rib6.
End vni.

(** ** Facts *)

Section vni_facts.
Context `{HH : RteHash} {HO : RteHashOk} `{HM : RteMalloc} {MO : RteMallocOk} `{HR : RteRib} {RO : RteRibOk}.
Implicit Types (s : vni_state) (p q : loc) (d : dp_vni_data) (fam : rib_family).

Definition vtbl s : otable Z dp_vni_data := vni_handle_tbl s.
Definition vnis s : gmap Z dp_vni_data := view (vtbl s).
Definition ribs fam s : gmap loc (rib fam) := objs (lget (ribL fam) s).

(** What the API promises of a network: how many users it has, and its routes. *)
Definition vni_refs s (vni : Z) : option Z := vd_refcount <$> vnis s !! vni.
Definition vni_routes fam s (vni : Z) : option (gmap rib_node rib_data) :=
  d ← vnis s !! vni; q ← vd_rib fam d; routes <$> ribs fam s !! q.

(** Every network has a live table of each family, which is its own, and every
    live table belongs to a network. *)
Record vni_data_ok s (vni : Z) d : Prop := {
  vo_vni : vd_vni d = vni;
  vo_refs : 0 < vd_refcount d < 2 ^ 31;
  vo_len fam : length (vd_ribs fam d) = 2%nat;
  vo_rib fam : ∃ q, vd_rib fam d = Some q ∧ is_Some (ribs fam s !! q)
}.
Record vni_inv s : Prop := {
  vi_wf : wf (vtbl s);
  vi_data vni d : vnis s !! vni = Some d → vni_data_ok s vni d;
  vi_inj fam vni1 vni2 d1 d2 q :
    vnis s !! vni1 = Some d1 → vnis s !! vni2 = Some d2 →
    vd_rib fam d1 = Some q → vd_rib fam d2 = Some q → vni1 = vni2;
  vi_owned fam q : is_Some (ribs fam s !! q) → ∃ vni d, vnis s !! vni = Some d ∧ vd_rib fam d = Some q
}.

Ltac ret_simpl :=
  change (DP_FAILED DP_ERROR) with true in *; change (DP_FAILED DP_OK) with false in *; cbn match.

(** *** Steps on one of the parts of the state *)

Record rib_upd fam s s' (m : gmap loc (rib fam)) : Prop := {
  ru_tbl : vtbl s' = vtbl s;
  ru_ribs : ribs fam s' = m;
  ru_other fam' : fam' ≠ fam → ribs fam' s' = ribs fam' s
}.
Record tbl_upd s s' (t : otable Z dp_vni_data) : Prop := {
  tu_tbl : vtbl s' = t;
  tu_ribs fam : ribs fam s' = ribs fam s
}.

Lemma tbl_upd_lput s t : tbl_upd s (lput vniT t s) t.
Proof. constructor; [done|]. by intros []. Qed.

Lemma wp_tbl {A} (c : cmd (otable Z dp_vni_data) A) s (Q : A → vni_state → Prop) :
  wp c (λ a t, ∀ s', tbl_upd s s' t → Q a s') (vtbl s) → wp (zoom vniT c) Q s.
Proof. intros Hc. apply wp_zoom. wp_use Hc. intros a t HQ. apply HQ, tbl_upd_lput. Qed.

Lemma rib_upd_lput fam s h : rib_upd fam s (lput (ribL fam) h s) (objs h).
Proof. destruct fam; (constructor; [done|done|]); by intros [] ?. Qed.

Lemma wp_rib_malloc fam s (Q : option loc → vni_state → Prop) :
  (∀ s', rib_upd fam s s' (ribs fam s) → Q None s') →
  (∀ q s', ribs fam s !! q = None → rib_upd fam s s' (<[q := rib_new fam]> (ribs fam s)) → Q (Some q) s') →
  wp (zoom (ribL fam) (hp_malloc (rib_new fam))) Q s.
Proof.
  intros Hn Hs. apply wp_zoom, wp_hp_malloc.
  - intros st. apply Hn. exact (rib_upd_lput fam s (Heap (ribs fam s) st)).
  - intros q st Hq. apply (Hs q); [done|]. exact (rib_upd_lput fam s (Heap _ st)).
Qed.

Lemma wp_rib_free fam s q r (Q : () → vni_state → Prop) :
  ribs fam s !! q = Some r → (∀ s', rib_upd fam s s' (delete q (ribs fam s)) → Q tt s') →
  wp (zoom (ribL fam) (hp_free q)) Q s.
Proof.
  intros Hq HQ. apply wp_zoom. eapply wp_hp_free; [done|]. apply HQ.
  exact (rib_upd_lput fam s (Heap _ _)).
Qed.

(** *** A new network *)

Definition with_rib fam q (vni socket_id : Z) d : dp_vni_data :=
  set_vd_ribs fam (<[Z.to_nat (DP_SOCKETID socket_id) := Some q]> (vd_ribs fam d))
    (d <| vd_vni := vni |> <| vd_socket_id := socket_id |>).

(** An object [p] that is not in the table yet. *)
Record loose s p d : Prop := {
  lo_wf : wf_with {[p]} (vtbl s);
  lo_obj : ot_objs (vtbl s) !! p = Some d
}.

Lemma wp_create_rib_loose fam s p d vni socket_id (Q : Z → vni_state → Prop) :
  loose s p d →
  (∀ s', loose s' p d → vnis s' = vnis s → ot_ptrs (vtbl s') = ot_ptrs (vtbl s) →
     (∀ fam', ribs fam' s' = ribs fam' s) → Q DP_ERROR s') →
  (∀ q s', ribs fam s !! q = None → loose s' p (with_rib fam q vni socket_id d) → vnis s' = vnis s →
     ot_ptrs (vtbl s') = ot_ptrs (vtbl s) → ribs fam s' = <[q := rib_new fam]> (ribs fam s) →
     (∀ fam', fam' ≠ fam → ribs fam' s' = ribs fam' s) → Q DP_OK s') →
  wp (dp_create_rib fam vni socket_id p) Q s.
Proof.
  intros [Hwf Hp] Hfail Hok. unfold dp_create_rib. apply wp_bind, wp_rib_malloc.
  - intros s' [Ht Hr Ho]. wp_steps. apply Hfail; unfold vnis; rewrite ?Ht; try done.
    + constructor; by rewrite Ht.
    + intros fam'. destruct (decide (fam' = fam)) as [->|]; [done|auto].
  - intros q s1 Hq [Ht1 Hr1 Ho1]. apply wp_bind, wp_tbl. eapply wp_ot_load; [by rewrite Ht1|].
    intros s2 [Ht2 Hr2]. apply wp_bind, wp_tbl.
    eapply wp_ot_store_extra; [by rewrite Ht2, Ht1|set_solver|].
    rewrite Ht2, Ht1. intros t Hwt Hvt Hpt Hot s3 [Ht3 Hr3]. apply wp_ret.
    apply (Hok q s3 Hq); unfold vnis; rewrite ?Ht3; try done.
    + constructor; [by rewrite Ht3|]. rewrite Ht3, Hot. by rewrite lookup_insert_eq.
    + by rewrite Hr3, Hr2.
    + intros fam' Hne. rewrite Hr3, Hr2. auto.
Qed.

Lemma wp_free_rib_loose fam s p d q r (Q : () → vni_state → Prop) :
  loose s p d → vd_rib fam d = Some q → ribs fam s !! q = Some r →
  (∀ s', loose s' p d → vnis s' = vnis s → ot_ptrs (vtbl s') = ot_ptrs (vtbl s) →
     ribs fam s' = delete q (ribs fam s) → (∀ fam', fam' ≠ fam → ribs fam' s' = ribs fam' s) → Q tt s') →
  wp (dp_free_rib fam p) Q s.
Proof.
  intros [Hwf Hp] Hq Hr HQ. unfold dp_free_rib. apply wp_bind, wp_tbl. eapply wp_ot_load; [done|].
  intros s1 [Ht1 Hr1]. rewrite Hq. simpl. eapply wp_rib_free; [by rewrite Hr1|].
  intros s2 [Ht2 Hr2 Ho2]. rewrite Hr1 in Hr2.
  apply HQ; unfold vnis; rewrite ?Ht2, ?Ht1; try done.
  - constructor; by rewrite Ht2, Ht1.
  - intros fam' Hne. by rewrite Ho2, Hr1.
Qed.

Lemma wp_free_loose s p d (Q : () → vni_state → Prop) :
  loose s p d →
  (∀ s', wf (vtbl s') → vnis s' = vnis s → ot_ptrs (vtbl s') = ot_ptrs (vtbl s) →
     (∀ fam, ribs fam s' = ribs fam s) → Q tt s') →
  wp (zoom vniT (ot_free p)) Q s.
Proof.
  intros [Hwf Hp] HQ. apply wp_tbl, (wp_ot_free_extra ∅ (vtbl s) p); [by rewrite (right_id_L ∅ (∪))|set_solver|].
  intros t Hwt Hvt Hpt Hot s' [Ht Hr]. apply HQ; unfold vnis; by rewrite ?Ht.
Qed.

Lemma DP_SOCKETID_range socket_id :
  - 2 ^ 31 ≤ socket_id < 2 ^ 31 → (Z.to_nat (DP_SOCKETID socket_id) < 2)%nat.
Proof.
  intros Hs. unfold DP_SOCKETID, DP_NB_SOCKETS. destruct (Z.leb_spec 2 (u32 socket_id)) as [|Hu]; [simpl; lia|].
  unfold u32 in *. Z.div_mod_to_equations. lia.
Qed.

Lemma vd_rib_with_rib fam q vni socket_id d :
  (Z.to_nat (DP_SOCKETID socket_id) < length (vd_ribs fam d))%nat →
  vd_rib fam (with_rib fam q vni socket_id d) = Some q.
Proof.
  intros Hl. unfold vd_rib, with_rib, vd_sock. destruct fam; simpl in *; by rewrite list_lookup_insert_eq.
Qed.

Lemma vd_ribs_with_rib fam fam' q vni socket_id d :
  fam' ≠ fam → vd_ribs fam' (with_rib fam q vni socket_id d) = vd_ribs fam' d.
Proof. by destruct fam, fam'. Qed.

Definition new_vni q4 q6 (vni socket_id : Z) : dp_vni_data :=
  with_rib Rib6 q6 vni socket_id (with_rib Rib4 q4 vni socket_id zero_vni_data).

Lemma vd_rib_new fam q4 q6 vni socket_id :
  - 2 ^ 31 ≤ socket_id < 2 ^ 31 →
  vd_rib fam (new_vni q4 q6 vni socket_id) = Some (match fam with Rib4 => q4 | Rib6 => q6 end).
Proof.
  intros Hs%DP_SOCKETID_range. unfold new_vni. destruct fam.
  - unfold vd_rib, vd_sock. simpl. by rewrite list_lookup_insert_eq.
  - by rewrite vd_rib_with_rib.
Qed.

(** The networks other than [vni] are as before. *)
Definition others_same s s' (vni : Z) : Prop :=
  ∀ vni', vni' ≠ vni →
    vni_refs s' vni' = vni_refs s vni' ∧ ∀ fam, vni_routes fam s' vni' = vni_routes fam s vni'.

Lemma vni_same s s' vni :
  vnis s' !! vni = vnis s !! vni →
  (∀ fam d q, vnis s !! vni = Some d → vd_rib fam d = Some q → ribs fam s' !! q = ribs fam s !! q) →
  vni_refs s' vni = vni_refs s vni ∧ ∀ fam, vni_routes fam s' vni = vni_routes fam s vni.
Proof.
  intros Hv Hr. split; [unfold vni_refs; by rewrite Hv|]. intros fam. unfold vni_routes. rewrite Hv.
  destruct (vnis s !! vni) as [d|] eqn:Hd; [|done]. simpl. destruct (vd_rib fam d) as [q|] eqn:Hq; [|done].
  simpl. by erewrite Hr.
Qed.

(** Adding a network with new tables. *)
Lemma vni_inv_insert s s' vni d (qs : rib_family → loc) :
  vni_inv s → vnis s !! vni = None → (∀ fam, ribs fam s !! qs fam = None) → wf (vtbl s') →
  vnis s' = <[vni := d]> (vnis s) → (∀ fam, ribs fam s' = <[qs fam := rib_new fam]> (ribs fam s)) →
  vd_vni d = vni → vd_refcount d = 1 → (∀ fam, length (vd_ribs fam d) = 2%nat) →
  (∀ fam, vd_rib fam d = Some (qs fam)) →
  vni_inv s' ∧ vni_refs s' vni = Some 1 ∧ (∀ fam, vni_routes fam s' vni = Some ∅) ∧ others_same s s' vni.
Proof.
  intros Hi Hnew Hq Hwf Hv Hr Hvni Href Hlen Hqd.
  assert (Hold : ∀ fam vni' d' q, vnis s !! vni' = Some d' → vd_rib fam d' = Some q →
    is_Some (ribs fam s !! q) ∧ q ≠ qs fam).
  { intros fam vni' d' q Hd' Hq'. destruct (vo_rib _ _ _ (vi_data _ Hi _ _ Hd') fam) as (q' & Hq'' & Hl).
    rewrite Hq' in Hq''. injection Hq'' as <-. split; [done|]. intros ->. rewrite Hq in Hl. by destruct Hl. }
  split_and!.
  - constructor; [done|..]; rewrite Hv.
    + intros vni' d'. rewrite lookup_insert. case_decide as Hd; [intros [= <-]; subst|].
      * constructor; [done|lia|done|]. intros fam. exists (qs fam). rewrite Hr, lookup_insert_eq. done.
      * intros Hd'. destruct (vi_data _ Hi _ _ Hd') as [? ? ? Hrib]. constructor; try done.
        intros fam. destruct (Hrib fam) as (q & Hq' & _). destruct (Hold fam _ _ _ Hd' Hq') as [? Hne].
        exists q. rewrite Hr, lookup_insert_ne by done. done.
    + intros fam vni1 vni2 d1 d2 q. rewrite !lookup_insert. case_decide; case_decide; intros H1 H2 Hq1 Hq2;
        simplify_eq; try done.
      * rewrite Hqd in Hq1. injection Hq1 as <-. by destruct (Hold fam _ _ _ H2 Hq2).
      * rewrite Hqd in Hq2. injection Hq2 as <-. by destruct (Hold fam _ _ _ H1 Hq1).
      * by eapply (vi_inj _ Hi fam).
    + intros fam q. rewrite Hr, lookup_insert. case_decide as Hqq.
      * intros _. exists vni, d. rewrite lookup_insert_eq, Hqd. by subst.
      * intros (vni' & d' & Hd' & Hq')%(vi_owned _ Hi). exists vni', d'. split; [|done].
        rewrite lookup_insert_ne; [done|]. intros <-. congruence.
  - unfold vni_refs. rewrite Hv, lookup_insert_eq. simpl. by rewrite Href.
  - intros fam. unfold vni_routes. rewrite Hv, lookup_insert_eq. simpl. rewrite Hqd. simpl.
    rewrite Hr, lookup_insert_eq. simpl. by rewrite rib_new_empty.
  - intros vni' Hne. apply vni_same; [by rewrite Hv, lookup_insert_ne|]. intros fam d' q Hd' Hq'.
    rewrite Hr, lookup_insert_ne; [done|]. intros <-. by destruct (Hold fam _ _ _ Hd' Hq').
Qed.

(** Nothing changed but the allocator. *)
Lemma vni_inv_same s s' :
  vni_inv s → wf (vtbl s') → vnis s' = vnis s → (∀ fam, ribs fam s' = ribs fam s) →
  vni_inv s' ∧ ∀ vni, vni_refs s' vni = vni_refs s vni ∧ ∀ fam, vni_routes fam s' vni = vni_routes fam s vni.
Proof.
  intros [Hwf Hd Hinj Ho] Hwf' Hv Hr. split; [constructor; try done; rewrite Hv|].
  - intros vni d Hvd. destruct (Hd _ _ Hvd) as [? ? ? Hrib]. constructor; try done. intros fam. by rewrite Hr.
  - done.
  - intros fam q. rewrite Hr. eauto.
  - intros vni. apply vni_same; [by rewrite Hv|]. intros. by rewrite Hr.
Qed.

(** The result of creating the tables of a network that has none. *)
Definition alloc_post s (vni ret : Z) s' : Prop :=
  vni_inv s' ∧ others_same s s' vni
  ∧ (ret = DP_OK ∧ vni_refs s' vni = Some 1 ∧ (∀ fam, vni_routes fam s' vni = Some ∅)
     ∨ ret = DP_ERROR ∧ vni_refs s' vni = None).

Lemma alloc_failed s s' vni :
  vni_inv s → vnis s !! vni = None → wf (vtbl s') → vnis s' = vnis s →
  (∀ fam, ribs fam s' = ribs fam s) → alloc_post s vni DP_ERROR s'.
Proof.
  intros Hi Hnew Hwf Hv Hr. destruct (vni_inv_same s s' Hi Hwf Hv Hr) as [? Hsame].
  split_and!; [done|intros ??; apply Hsame|]. right. split; [done|]. rewrite (proj1 (Hsame vni)).
  unfold vni_refs. by rewrite Hnew.
Qed.

(** The end of the allocation, when both tables exist. *)
Lemma wp_add_vni s s1 p vni socket_id (qs : rib_family → loc) :
  vni_inv s → vnis s !! vni = None → - 2 ^ 31 ≤ socket_id < 2 ^ 31 →
  loose s1 p (new_vni (qs Rib4) (qs Rib6) vni socket_id) → vnis s1 = vnis s → ot_ptrs (vtbl s1) = ot_ptrs (vtbl s) →
  (∀ fam, ribs fam s !! qs fam = None) → (∀ fam, ribs fam s1 = <[qs fam := rib_new fam]> (ribs fam s)) →
  wp (ret ← zoom vniT (ot_add vni p);
      if DP_FAILED ret then
        dp_free_rib Rib6 p;; dp_free_rib Rib4 p;; zoom vniT (ot_free p);; mret DP_ERROR
      else vni_ref_init p;; mret DP_OK) (alloc_post s vni) s1.
Proof.
  intros Hi Hnew Hs Hl1 Hv1 Hp1 Hq Hr1. set (d := new_vni _ _ _ _) in *.
  assert (Hd : ∀ fam, vd_rib fam d = Some (qs fam)) by (intros fam; unfold d; rewrite vd_rib_new by done; by destruct fam).
  assert (Hno : ot_ptrs (vtbl s1) !! vni = None).
  { rewrite Hp1. by apply (view_lookup_None ∅ (vtbl s)); [apply Hi|]. }
  apply wp_bind, wp_tbl, (wp_ot_add ∅ _ _ _ d); [rewrite (right_id_L ∅ (∪)); apply Hl1|set_solver|apply Hl1|..].
  - intros r t2 Hr _ Hwt2 Hvt2 Hpt2 Hot2 s2 [Ht2 Hr2]. rewrite DP_FAILED_neg by done.
    assert (Hl2 : loose s2 p d) by (constructor; rewrite Ht2; [by rewrite (right_id_L ∅ (∪)) in Hwt2|];
      rewrite Hot2; apply Hl1).
    assert (Hv2 : vnis s2 = vnis s) by (unfold vnis in *; congruence).
    apply wp_bind. eapply (wp_free_rib_loose Rib6 s2); [done|apply Hd|by rewrite Hr2, Hr1, lookup_insert_eq|].
    intros s3 Hl3 Hv3 _ Hr3 Ho3. apply wp_bind.
    eapply (wp_free_rib_loose Rib4 s3); [done|apply Hd|by rewrite Ho3, Hr2, Hr1, lookup_insert_eq|].
    intros s4 Hl4 Hv4 _ Hr4 Ho4. apply wp_bind. eapply wp_free_loose; [done|]. intros s5 Hwf5 Hv5 _ Hr5.
    apply wp_ret, alloc_failed; [done|done|done|congruence|].
    intros []; rewrite Hr5; [rewrite Hr4, Ho3 by done|rewrite Ho4, Hr3 by done]; by rewrite Hr2, Hr1, delete_insert_id.
  - intros t2 Hwt2 Hvt2 Hpt2 Hot2 s2 [Ht2 Hr2]. rewrite Hno in Hwt2. simpl in Hwt2.
    unfold vni_ref_init. apply wp_bind, wp_bind, wp_tbl. eapply wp_ot_load; [rewrite Ht2, Hot2; apply Hl1|].
    intros s3 [Ht3 Hr3]. apply wp_tbl. rewrite Ht2 in Ht3.
    assert (Hk : ot_ptrs t2 !! vni = Some p) by (by rewrite Hpt2, lookup_insert_eq).
    assert (Ho : ot_objs t2 !! p = Some d) by (rewrite Hot2; apply Hl1).
    eapply (wp_ot_store _ _ vni p); [by rewrite Ht3|by rewrite Ht3|by rewrite Ht3|].
    rewrite Ht3. intros t4 Hwt4 Hvt4 _ _ s4 [Ht4 Hr4]. apply wp_ret.
    destruct (vni_inv_insert s s4 vni (d <| vd_refcount := 1 |>) qs) as (? & ? & ? & ?); try done.
    + rewrite Ht4. by rewrite (left_id_L ∅ (∪)) in Hwt4.
    + unfold vnis. rewrite Ht4, Hvt4, Hvt2, insert_insert_eq. unfold vnis in Hv1. by rewrite Hv1.
    + intros fam. by rewrite Hr4, Hr3, Hr2, Hr1.
    + intros []; simpl; by rewrite length_insert.
    + split_and!; auto.
Qed.

Lemma wp_allocate_vni s vni socket_id :
  vni_inv s → vnis s !! vni = None → - 2 ^ 31 ≤ socket_id < 2 ^ 31 →
  wp (dp_allocate_vni_route_tables vni socket_id) (alloc_post s vni) s.
Proof.
  intros Hi Hnew Hs. pose proof (DP_SOCKETID_range _ Hs) as Hsock.
  unfold dp_allocate_vni_route_tables. apply wp_bind, wp_tbl, (wp_ot_malloc ∅); [apply Hi|..].
  { intros t Hwt Hvt Hpt Hot s' [Ht Hr]. apply wp_ret, alloc_failed; unfold vnis; by rewrite ?Ht. }
  intros p t Hwt _ Hvt Hpt Hot Hfree s1 [Ht1 Hr1]. apply wp_bind.
  assert (Hloose : loose s1 p zero_vni_data).
  { constructor; rewrite Ht1; [by rewrite (right_id_L ∅ (∪)) in Hwt|]. by rewrite Hot, lookup_insert_eq. }
  assert (Hv1 : vnis s1 = vnis s) by (unfold vnis; by rewrite Ht1).
  apply (wp_create_rib_loose Rib4 s1 p zero_vni_data); [done|..].
  { intros s2 Hl2 Hv2 _ Hr2. ret_simpl. apply wp_bind. eapply wp_free_loose; [done|].
    intros s3 Hwf3 Hv3 _ Hr3. apply wp_ret, alloc_failed; [done|done|done|congruence|].
    intros fam. by rewrite Hr3, Hr2, Hr1. }
  intros q4 s2 Hq4 Hl2 Hv2 Hp2 Hr2 Ho2. ret_simpl. apply wp_bind.
  eapply (wp_create_rib_loose Rib6 s2 p); [done|..].
  { intros s3 Hl3 Hv3 _ Hr3. ret_simpl. apply wp_bind.
    eapply (wp_free_rib_loose Rib4 s3 p _ q4); [done|by apply vd_rib_with_rib|by rewrite Hr3, Hr2, lookup_insert_eq|].
    intros s4 Hl4 Hv4 _ Hr4 Ho4. apply wp_bind. eapply wp_free_loose; [done|]. intros s5 Hwf5 Hv5 _ Hr5.
    apply wp_ret, alloc_failed; [done|done|done|congruence|]. intros [].
    - by rewrite Hr5, Hr4, Hr3, Hr2, delete_insert_id, Hr1.
    - by rewrite Hr5, Ho4, Hr3, Ho2, Hr1. }
  intros q6 s3 Hq6 Hl3 Hv3 Hp3 Hr3 Ho3. ret_simpl.
  apply (wp_add_vni s s3 p vni socket_id (λ fam, match fam with Rib4 => q4 | Rib6 => q6 end)); try done.
  - congruence.
  - congruence.
  - intros []; [by rewrite <- Hr1|by rewrite <- Hr1, <- Ho2].
  - intros []; [by rewrite Ho3, Hr2, Hr1|by rewrite Hr3, Ho2, Hr1].
Qed.

(** *** Users of a network *)

Lemma vni_inv_set_refs s s' vni d n :
  vni_inv s → vnis s !! vni = Some d → 0 < n < 2 ^ 31 → wf (vtbl s') →
  vnis s' = <[vni := d <| vd_refcount := n |>]> (vnis s) → (∀ fam, ribs fam s' = ribs fam s) →
  vni_inv s' ∧ vni_refs s' vni = Some n ∧ (∀ fam, vni_routes fam s' vni = vni_routes fam s vni)
  ∧ others_same s s' vni.
Proof.
  intros Hi Hd Hn Hwf Hv Hr.
  assert (Hback : ∀ vni' d', vnis s' !! vni' = Some d' → ∃ d0, vnis s !! vni' = Some d0
    ∧ (∀ fam, vd_rib fam d' = vd_rib fam d0) ∧ (∀ fam, vd_ribs fam d' = vd_ribs fam d0) ∧ vd_vni d' = vd_vni d0).
  { intros vni' d'. rewrite Hv, lookup_insert. case_decide as Hk; [|by eauto 6]. intros [= <-]. subst.
    exists d. split_and!; [done|by intros []|by intros []|done]. }
  split_and!.
  - constructor; [done|..].
    + intros vni' d' Hd'. destruct (Hback _ _ Hd') as (d0 & Hd0 & Hq & Hl & Hvn).
      destruct (vi_data _ Hi _ _ Hd0) as [? ? Hlen Hrib]. constructor; [congruence| |intros; by rewrite Hl|].
      * revert Hd'. rewrite Hv, lookup_insert. case_decide; [by intros [= <-]|]. intros. congruence.
      * intros fam. destruct (Hrib fam) as (q & ? & ?). exists q. by rewrite Hq, Hr.
    + intros fam vni1 vni2 d1 d2 q H1 H2. destruct (Hback _ _ H1) as (? & ? & -> & _), (Hback _ _ H2) as (? & ? & -> & _).
      by eapply (vi_inj _ Hi fam).
    + intros fam q. rewrite Hr. intros (vni' & d' & Hd' & Hq)%(vi_owned _ Hi).
      destruct (decide (vni = vni')) as [<-|Hne].
      * exists vni, (d <| vd_refcount := n |>). rewrite Hv, lookup_insert_eq. split; [done|].
        rewrite Hd in Hd'. injection Hd' as <-. by destruct fam.
      * exists vni', d'. by rewrite Hv, lookup_insert_ne.
  - unfold vni_refs. by rewrite Hv, lookup_insert_eq.
  - intros fam. unfold vni_routes. rewrite Hv, lookup_insert_eq, Hd. simpl. by rewrite Hr; destruct fam.
  - intros vni' Hne. apply vni_same; [by rewrite Hv, lookup_insert_ne|]. intros. by rewrite Hr.
Qed.

Lemma vnis_lookup s vni d :
  vnis s !! vni = Some d ↔ ∃ p, ot_ptrs (vtbl s) !! vni = Some p ∧ ot_objs (vtbl s) !! p = Some d.
Proof. apply view_lookup_Some. Qed.

(** Using a network: one more user, or the first one with empty tables. *)
Definition create_post s (vni ret : Z) s' : Prop :=
  vni_inv s' ∧ others_same s s' vni
  ∧ match vni_refs s vni with
    | Some n => ret = DP_OK ∧ vni_refs s' vni = Some (n + 1)
                ∧ ∀ fam, vni_routes fam s' vni = vni_routes fam s vni
    | None => ret = DP_OK ∧ vni_refs s' vni = Some 1 ∧ (∀ fam, vni_routes fam s' vni = Some ∅)
              ∨ ret = DP_ERROR ∧ vni_refs s' vni = None
    end.

Lemma wp_create_vni s vni socket_id :
  vni_inv s → - 2 ^ 31 ≤ socket_id < 2 ^ 31 → (∀ n, vni_refs s vni = Some n → n < 2 ^ 31 - 1) →
  wp (dp_create_vni_route_tables vni socket_id) (create_post s vni) s.
Proof.
  intros Hi Hs Hmax. unfold dp_create_vni_route_tables. apply wp_bind, wp_tbl.
  apply (wp_ot_lookup ∅); [apply Hi|..].
  - intros pos p d Hpos Hp Ho Hv s1 [Ht1 Hr1]. cbn [fst snd]. rewrite DP_FAILED_pos by done.
    fold (vnis s) in Hv. unfold create_post, vni_refs at 1. rewrite Hv. simpl.
    assert (Hd := vo_refs _ _ _ (vi_data _ Hi _ _ Hv)).
    specialize (Hmax (vd_refcount d)). unfold vni_refs in Hmax. rewrite Hv in Hmax. specialize (Hmax eq_refl).
    unfold vni_ref_inc. apply wp_bind, wp_bind, wp_tbl. eapply wp_ot_load; [by rewrite Ht1|].
    intros s2 [Ht2 Hr2]. rewrite (proj2 (Z.eqb_neq _ 0)) by lia. rewrite i32_small by lia.
    rewrite Ht1 in Ht2. apply wp_tbl, (wp_ot_store ∅ _ vni p d); [by rewrite Ht2; apply Hi|by rewrite Ht2|by rewrite Ht2|].
    rewrite Ht2. intros t Hwt Hvt _ _ s3 [Ht3 Hr3]. apply wp_ret.
    destruct (vni_inv_set_refs s s3 vni d (vd_refcount d + 1)) as (? & ? & ? & ?); try done.
    + lia.
    + by rewrite Ht3.
    + unfold vnis. by rewrite Ht3.
    + intros fam. by rewrite Hr3, Hr2.
  - intros Hv Hp s1 [Ht1 Hr1]. cbn [fst snd]. rewrite DP_FAILED_ENOENT. rewrite Z.eqb_refl. cbn [negb].
    fold (vnis s) in Hv.
    assert (Hi1 : vni_inv s1 ∧ ∀ vni', vni_refs s1 vni' = vni_refs s vni'
      ∧ ∀ fam, vni_routes fam s1 vni' = vni_routes fam s vni').
    { apply vni_inv_same; [done|rewrite Ht1; apply Hi|unfold vnis; by rewrite Ht1|done]. }
    destruct Hi1 as [Hi1 Hsame]. wp_use (wp_allocate_vni s1 vni socket_id Hi1).
    + unfold vnis. by rewrite Ht1.
    + done.
    + intros ret s' (? & Ho & Hres). unfold create_post, vni_refs at 1. rewrite Hv. split_and!; [done| |done].
      intros vni' Hne. destruct (Ho vni' Hne) as [-> Hf], (Hsame vni') as [-> Hf'].
      split; [done|]. intros fam. by rewrite Hf, Hf'.
Qed.

(** *** The last user of a network *)

Lemma vni_inv_delete s s' vni d (qs : rib_family → loc) :
  vni_inv s → vnis s !! vni = Some d → (∀ fam, vd_rib fam d = Some (qs fam)) → wf (vtbl s') →
  vnis s' = delete vni (vnis s) → (∀ fam, ribs fam s' = delete (qs fam) (ribs fam s)) →
  vni_inv s' ∧ vni_refs s' vni = None ∧ others_same s s' vni.
Proof.
  intros Hi Hd Hq Hwf Hv Hr.
  assert (Hold : ∀ fam vni' d' q, vni' ≠ vni → vnis s !! vni' = Some d' → vd_rib fam d' = Some q → q ≠ qs fam).
  { intros fam vni' d' q Hne Hd' Hq' ->. apply Hne. by eapply (vi_inj _ Hi fam). }
  split_and!.
  - constructor; [done|..]; rewrite Hv.
    + intros vni' d' [Hne Hd']%lookup_delete_Some. destruct (vi_data _ Hi _ _ Hd') as [? ? ? Hrib].
      constructor; try done. intros fam. destruct (Hrib fam) as (q & Hq' & ?). exists q. split; [done|].
      rewrite Hr, lookup_delete_ne; [done|]. intros <-. by eapply Hold.
    + intros fam vni1 vni2 d1 d2 q [_ H1]%lookup_delete_Some [_ H2]%lookup_delete_Some. by eapply (vi_inj _ Hi fam).
    + intros fam q. rewrite Hr. intros [r [Hne Hq']%lookup_delete_Some].
      destruct (vi_owned _ Hi fam q) as (vni' & d' & Hd' & Hqd); [by eauto|]. exists vni', d'. split; [|done].
      rewrite lookup_delete_ne; [done|]. intros <-. rewrite Hd in Hd'. injection Hd' as <-. congruence.
  - unfold vni_refs. by rewrite Hv, lookup_delete_eq.
  - intros vni' Hne. apply vni_same; [by rewrite Hv, lookup_delete_ne|]. intros fam d' q Hd' Hq'.
    rewrite Hr, lookup_delete_ne; [done|]. intros <-. by eapply Hold.
Qed.

Lemma wp_free_rib fam s p d q (Q : () → vni_state → Prop) :
  ot_objs (vtbl s) !! p = Some d → vd_rib fam d = Some q → is_Some (ribs fam s !! q) →
  (∀ s', rib_upd fam s s' (delete q (ribs fam s)) → Q tt s') → wp (dp_free_rib fam p) Q s.
Proof.
  intros Hp Hq [r Hr] HQ. unfold dp_free_rib. apply wp_bind, wp_tbl. eapply wp_ot_load; [done|].
  intros s1 [Ht1 Hr1]. rewrite Hq. simpl. eapply wp_rib_free; [by rewrite Hr1|].
  intros s2 [Ht2 Hr2 Ho2]. apply HQ. constructor; [congruence|by rewrite Hr2, Hr1|].
  intros fam' Hne. by rewrite Ho2, Hr1.
Qed.

(** The neighbouring NAT ranges of a network are removed with it. *)
Definition without_neighbours (vni : Z) (n : nat_state) : nat_state :=
  n <| nat_headp := filter (λ x, ¬ (ne_vni x.2 = vni ∨ vni = DP_NETWORK_NAT_ALL_VNI)) (nat_headp n) |>.

Lemma wp_free_vni_data s n p d (qs : rib_family → loc) (Q : () → vni_state * nat_state → Prop) :
  ot_objs (vtbl s) !! p = Some d →
  (∀ fam, vd_rib fam d = Some (qs fam) ∧ is_Some (ribs fam s !! qs fam)) →
  (∀ s', ot_ptrs (vtbl s') = ot_ptrs (vtbl s) → ot_objs (vtbl s') = delete p (ot_objs (vtbl s)) →
     (∀ fam, ribs fam s' = delete (qs fam) (ribs fam s)) → Q tt (s', without_neighbours (vd_vni d) n)) →
  wp (dp_free_vni_data p) Q (s, n).
Proof.
  intros Hp Hq HQ. unfold dp_free_vni_data. apply wp_bind, wp_zoom, wp_tbl. eapply wp_ot_load; [done|].
  intros s1 [Ht1 Hr1]. apply wp_bind, wp_zoom.
  apply (wp_free_rib Rib6 s1 p d (qs Rib6)); [by rewrite Ht1|apply Hq|rewrite Hr1; apply Hq|].
  intros s2 [Ht2 Hr2 Ho2]. apply wp_bind, wp_zoom.
  apply (wp_free_rib Rib4 s2 p d (qs Rib4)); [by rewrite Ht2, Ht1|apply Hq|rewrite Ho2, Hr1 by done; apply Hq|].
  intros s3 [Ht3 Hr3 Ho3]. apply wp_bind, wp_zoom, wp_modify. apply wp_zoom, wp_tbl.
  simpl. rewrite Ht3, Ht2, Ht1. eapply wp_ot_free_raw; [done|]. intros t HP HO' s4 [Ht4 Hr4].
  apply (HQ s4); [by rewrite Ht4|by rewrite Ht4|]. intros []; rewrite Hr4.
  - rewrite Hr3, Ho2, Hr1 by done. done.
  - rewrite Ho3, Hr2, Hr1 by done. done.
Qed.

(** One user less; with the last one the network is gone, together with the
    neighbouring NAT ranges in it. *)
Definition delete_post s n (vni ret : Z) s' n' : Prop :=
  match vni_refs s vni with
  | None => ret = - ENOENT ∧ s' = s ∧ n' = n
  | Some k =>
      ret = DP_OK ∧ vni_inv s' ∧ others_same s s' vni
      ∧ if k =? 1 then vni_refs s' vni = None ∧ n' = without_neighbours vni n
        else vni_refs s' vni = Some (k - 1) ∧ (∀ fam, vni_routes fam s' vni = vni_routes fam s vni) ∧ n' = n
  end.

Lemma lput_vniT s : lput vniT (vtbl s) s = s.
Proof. by destruct s. Qed.

Lemma wp_delete_vni s n vni :
  vni_inv s → wp (dp_delete_vni_route_tables vni) (λ ret x, delete_post s n vni ret x.1 x.2) (s, n).
Proof.
  intros Hi. unfold dp_delete_vni_route_tables. apply wp_bind, wp_zoom, wp_zoom.
  apply (wp_ot_lookup ∅); [apply Hi|..]; last first.
  { intros Hv _. change (vnis s !! vni = None) in Hv. cbn [fst snd]. rewrite DP_FAILED_ENOENT. apply wp_ret.
    unfold delete_post, vni_refs at 1. rewrite Hv. by destruct s. }
  intros pos p d Hpos Hp Ho Hv. cbn [fst snd]. rewrite DP_FAILED_pos by done. change (vnis s !! vni = Some d) in Hv.
  destruct (vi_data _ Hi _ _ Hv) as [Hvni Href _ Hrib]. 
  change (lput fstL _ (s, n)) with (lput vniT (vtbl s) s, n). rewrite lput_vniT.
  unfold vni_ref_dec_and_chk_freed. apply wp_bind, wp_bind, wp_zoom, wp_tbl.
  eapply wp_ot_load; [done|]. intros s1 [Ht1 Hr1]. apply wp_bind, wp_zoom, wp_tbl. rewrite i32_small by lia.
  apply (wp_ot_store ∅ _ vni p d); [by simpl; rewrite Ht1; apply Hi|by simpl; rewrite Ht1|by simpl; rewrite Ht1|].
  simpl. rewrite Ht1. intros t Hwt Hvt Hpt Hot s2 [Ht2 Hr2].
  unfold delete_post, vni_refs at 1. rewrite Hv. simpl.
  destruct (Z.eqb_spec (vd_refcount d - 1) 0) as [H1|H1]; last first.
  { apply wp_ret, wp_ret. destruct (vni_inv_set_refs s s2 vni d (vd_refcount d - 1)) as (? & ? & ? & ?); try done.
    - lia.
    - by rewrite Ht2.
    - unfold vnis. by rewrite Ht2.
    - intros fam. by rewrite Hr2, Hr1.
    - rewrite (proj2 (Z.eqb_neq _ 1)) by lia. done. }
  rewrite (proj2 (Z.eqb_eq _ 1)) by lia.
  assert (∃ qs, ∀ fam, vd_rib fam d = Some (qs fam) ∧ is_Some (ribs fam s !! qs fam)) as [qs Hqs].
  { destruct (Hrib Rib4) as (q4 & ? & ?), (Hrib Rib6) as (q6 & ? & ?).
    by exists (λ fam, match fam with Rib4 => q4 | Rib6 => q6 end); intros []. }
  apply wp_bind, (wp_free_vni_data _ _ _ (d <| vd_refcount := vd_refcount d - 1 |>) qs).
  { by rewrite Ht2, Hot, lookup_insert_eq. }
  { intros fam. rewrite Hr2, Hr1. destruct (Hqs fam). by destruct fam. }
  intros s3 HP3 HO3 Hr3. simpl. apply wp_ret, wp_bind, wp_zoom, wp_tbl.
  apply (wp_ot_del_raw _ _ p); [simpl; by rewrite HP3, Ht2, Hpt|]. simpl.
  intros pos' t4 Hpos' HP4 HO4 s4 [Ht4 Hr4]. rewrite DP_FAILED_pos by done. apply wp_ret.
  destruct (wf_free_del ∅ (vtbl s) (vtbl s4) vni p) as [Hwf Hview]; [apply Hi|done|..].
  { by rewrite Ht4, HP4, HP3, Ht2, Hpt. }
  { by rewrite Ht4, HO4, HO3, Ht2, Hot, delete_insert_eq. }
  destruct (vni_inv_delete s s4 vni d qs) as (? & ? & ?); try done.
  { intros fam. apply Hqs. }
  { intros fam. by rewrite Hr4, Hr3, Hr2, Hr1. }
  rewrite Hvni. done.
Qed.

(** *** Emptying the tables *)

Lemma DP_SOCKETID_idem socket_id : DP_SOCKETID (DP_SOCKETID socket_id) = DP_SOCKETID socket_id.
Proof. unfold DP_SOCKETID at 2 3. case_match eqn:H; [done|]. unfold DP_SOCKETID. by rewrite H. Qed.

Lemma vd_rib_reset fam q vni d :
  (vd_sock d < length (vd_ribs fam d))%nat →
  let d' := with_rib fam q vni (DP_SOCKETID (vd_socket_id d)) d in
  vd_rib fam d' = Some q ∧ ∀ fam', fam' ≠ fam → vd_rib fam' d' = vd_rib fam' d.
Proof.
  intros Hl d'. assert (Hs : vd_sock d' = vd_sock d).
  { unfold vd_sock, d'. by destruct fam; simpl; rewrite DP_SOCKETID_idem. }
  split; [apply vd_rib_with_rib; by rewrite DP_SOCKETID_idem|].
  intros fam' Hne. unfold vd_rib. rewrite Hs. by destruct fam, fam'.
Qed.

(** The table of a family is replaced by a new one, possibly at the old address. *)
Record replaced s s' fam (vni : Z) d q q' : Prop := {
  rp_data : vnis s !! vni = Some d;
  rp_old : vd_rib fam d = Some q;
  rp_fresh : delete q (ribs fam s) !! q' = None;
  rp_wf : wf (vtbl s');
  rp_vnis : vnis s' = <[vni := with_rib fam q' vni (DP_SOCKETID (vd_socket_id d)) d]> (vnis s);
  rp_ribs : ribs fam s' = <[q' := rib_new fam]> (delete q (ribs fam s));
  rp_ribs_other fam' : fam' ≠ fam → ribs fam' s' = ribs fam' s
}.

Lemma replaced_rib s s' fam vni d q q' :
  replaced s s' fam vni d q q' →
  let d' := with_rib fam q' vni (DP_SOCKETID (vd_socket_id d)) d in
  vd_rib fam d' = Some q' ∧ ∀ fam', fam' ≠ fam → vd_rib fam' d' = vd_rib fam' d.
Proof.
  intros [_ Hq _ _ _ _ _]. apply vd_rib_reset. unfold vd_rib in Hq. apply lookup_lt_is_Some.
  destruct (vd_ribs fam d !! vd_sock d); [by eexists|done].
Qed.

Lemma replaced_others s s' fam vni d q q' vni' d0 q0 :
  vni_inv s → replaced s s' fam vni d q q' →
  vni' ≠ vni → vnis s !! vni' = Some d0 → vd_rib fam d0 = Some q0 →
  ribs fam s' !! q0 = ribs fam s !! q0 ∧ q0 ≠ q'.
Proof.
  intros Hi [Hd Hq Hq' _ _ Hr _] Hne Hd0 Hq0.
  assert (q0 ≠ q) by (intros ->; apply Hne; by eapply (vi_inj _ Hi fam)).
  assert (q0 ≠ q').
  { intros ->. rewrite lookup_delete_ne in Hq' by done.
    destruct (vo_rib _ _ _ (vi_data _ Hi _ _ Hd0) fam) as (? & ? & [? ?]). congruence. }
  by rewrite Hr, lookup_insert_ne, lookup_delete_ne by done.
Qed.

Lemma replaced_data s s' fam vni d q q' vni' d0 :
  vni_inv s → replaced s s' fam vni d q q' → vnis s' !! vni' = Some d0 → vni_data_ok s' vni' d0.
Proof.
  intros Hi Hrep. destruct (replaced_rib _ _ _ _ _ _ _ Hrep) as [Hqd' Hod']. pose proof Hrep as [Hd Hq _ _ Hv Hr Ho].
  rewrite Hv, lookup_insert. case_decide as Hk; [intros [= <-]; subst vni'|].
  - destruct (vi_data _ Hi _ _ Hd) as [Hvni Href Hlen Hrib].
    constructor; [by destruct fam|by destruct fam|..]; intros fam'; destruct (decide (fam' = fam)) as [->|].
    + destruct fam; simpl; rewrite length_insert; apply (Hlen Rib4) || apply (Hlen Rib6).
    + rewrite vd_ribs_with_rib by done. apply Hlen.
    + exists q'. by rewrite Hr, lookup_insert_eq.
    + destruct (Hrib fam') as (q0 & ? & ?). exists q0. by rewrite Hod', Ho.
  - intros Hd0. destruct (vi_data _ Hi _ _ Hd0) as [? ? ? Hrib0]. constructor; try done.
    intros fam'. destruct (Hrib0 fam') as (q0 & Hq0 & Hl). exists q0. split; [done|].
    destruct (decide (fam' = fam)) as [->|]; [|by rewrite Ho].
    by rewrite (proj1 (replaced_others _ _ _ _ _ _ _ _ _ _ Hi Hrep (not_eq_sym Hk) Hd0 Hq0)).
Qed.

Lemma replaced_inv s s' fam vni d q q' : vni_inv s → replaced s s' fam vni d q q' → vni_inv s'.
Proof.
  intros Hi Hrep. destruct (replaced_rib _ _ _ _ _ _ _ Hrep) as [Hqd' Hod'].
  assert (Hother := λ vni' d0 q0, replaced_others _ _ _ _ _ _ _ vni' d0 q0 Hi Hrep).
  pose proof Hrep as [Hd Hq Hq' Hwf Hv Hr Ho].
  constructor; [done|intros; by eapply replaced_data|..].
  - intros fam' vni1 vni2 d1 d2 q0. rewrite Hv, !lookup_insert. destruct (decide (fam' = fam)) as [->|Hf].
    + case_decide; case_decide; intros H1 H2 Hq1 Hq2; simplify_eq; try done.
      * by destruct (Hother vni2 d2 q').
      * by destruct (Hother vni1 d1 q').
      * by eapply (vi_inj _ Hi fam).
    + case_decide; case_decide; intros H1 H2 Hq1 Hq2; simplify_eq; try done; rewrite ?Hod' in * by done;
        by eapply (vi_inj _ Hi fam').
  - intros fam' q0 Hl. rewrite Hv. set (d' := with_rib _ _ _ _ _) in *.
    destruct (decide (q0 = q' ∧ fam' = fam)) as [[-> ->]|Hne].
    { exists vni, d'. by rewrite lookup_insert_eq. }
    assert (Hl' : is_Some (ribs fam' s !! q0) ∧ (fam' = fam → q0 ≠ q)).
    { destruct (decide (fam' = fam)) as [->|]; [|by rewrite <- Ho].
      rewrite Hr in Hl. destruct Hl as [r Hl]. rewrite lookup_insert_ne in Hl by naive_solver.
      apply lookup_delete_Some in Hl as [? ?]. naive_solver. }
    destruct Hl' as [Hl' Hneq]. destruct (vi_owned _ Hi fam' q0 Hl') as (vni' & d0 & Hd0 & Hq0).
    destruct (decide (vni' = vni)) as [->|]; [|exists vni', d0; by rewrite lookup_insert_ne].
    exists vni, d'. rewrite lookup_insert_eq. split; [done|]. rewrite Hd in Hd0. injection Hd0 as <-.
    destruct (decide (fam' = fam)) as [->|]; [|by rewrite Hod']. exfalso. apply Hneq; congruence.
Qed.

(** What replacing the table does to the networks. *)
Definition emptied fam s s' (vni : Z) : Prop :=
  vni_inv s' ∧ vni_refs s' vni = vni_refs s vni ∧ vni_routes fam s' vni = Some ∅
  ∧ (∀ fam', fam' ≠ fam → vni_routes fam' s' vni = vni_routes fam' s vni) ∧ others_same s s' vni.

Lemma replaced_emptied s s' fam vni d q q' :
  vni_inv s → replaced s s' fam vni d q q' → emptied fam s s' vni.
Proof.
  intros Hi Hrep. destruct (replaced_rib _ _ _ _ _ _ _ Hrep) as [Hqd' Hod']. pose proof Hrep as [Hd Hq _ _ Hv Hr Ho].
  split_and!; [by eapply replaced_inv|..].
  - unfold vni_refs. rewrite Hv, lookup_insert_eq, Hd. by destruct fam.
  - unfold vni_routes. rewrite Hv, lookup_insert_eq. simpl. rewrite Hqd'. simpl.
    rewrite Hr, lookup_insert_eq. simpl. by rewrite rib_new_empty.
  - intros fam' Hne. unfold vni_routes. rewrite Hv, lookup_insert_eq, Hd. simpl. by rewrite Hod', Ho.
  - intros vni' Hne. apply vni_same; [by rewrite Hv, lookup_insert_ne|]. intros fam' d0 q0 Hd0 Hq0.
    destruct (decide (fam' = fam)) as [->|]; [|by rewrite Ho].
    by destruct (replaced_others _ _ _ _ _ _ _ _ _ _ Hi Hrep Hne Hd0 Hq0).
Qed.

(** What a failed reset leaves: the entry still has the table that was freed. *)
Definition dangling fam s (vni : Z) : Prop :=
  ∃ d q, vnis s !! vni = Some d ∧ vd_rib fam d = Some q ∧ ribs fam s !! q = None.

Lemma wp_reset_rib fam s p vni d :
  vni_inv s → ot_ptrs (vtbl s) !! vni = Some p → ot_objs (vtbl s) !! p = Some d →
  wp (reset_rib fam vni (DP_SOCKETID (vd_socket_id d)) p)
    (λ ok s', if ok : bool then emptied fam s s' vni ∧ ot_ptrs (vtbl s') = ot_ptrs (vtbl s)
                ∧ (∃ d', ot_objs (vtbl s') !! p = Some d'
                     ∧ DP_SOCKETID (vd_socket_id d') = DP_SOCKETID (vd_socket_id d))
              else wf (vtbl s') ∧ dangling fam s' vni) s.
Proof.
  intros Hi Hp Ho. assert (Hv : vnis s !! vni = Some d) by (apply vnis_lookup; eauto).
  destruct (vi_data _ Hi _ _ Hv) as [Hvni Href Hlen Hrib]. destruct (Hrib fam) as (q & Hq & [r Hr]).
  unfold reset_rib. apply wp_bind, wp_tbl. eapply wp_ot_load; [done|]. intros s1 [Ht1 Hr1].
  assert (vd_ribs fam d !! Z.to_nat (DP_SOCKETID (vd_socket_id d)) = Some (Some q)) as ->.
  { unfold vd_rib, vd_sock in Hq. by destruct (vd_ribs fam d !! _) as [[]|]; simplify_eq/=. }
  apply wp_bind. eapply wp_rib_free; [by rewrite Hr1|]. intros s2 [Ht2 Hr2 Ho2].
  unfold dp_create_rib. apply wp_bind, wp_bind, wp_rib_malloc.
  { intros s3 [Ht3 Hr3 Ho3]. apply wp_ret, wp_ret. split; [by rewrite Ht3, Ht2, Ht1; apply Hi|].
    exists d, q. unfold vnis. rewrite Ht3, Ht2, Ht1. split_and!; [done|done|].
    by rewrite Hr3, Hr2, lookup_delete_eq. }
  intros q' s3 Hq' [Ht3 Hr3 Ho3]. apply wp_bind, wp_tbl. eapply wp_ot_load; [by rewrite Ht3, Ht2, Ht1|].
  intros s4 [Ht4 Hr4]. apply wp_bind, wp_tbl.
  assert (Ht : vtbl s4 = vtbl s) by congruence. rewrite Ht.
  apply (wp_ot_store ∅ _ vni p d); [apply Hi|done|done|]. intros t Hwt Hvt Hpt Hot s5 [Ht5 Hr5].
  apply wp_ret, wp_ret. simpl. split_and!; [|by rewrite Ht5|].
  - apply (replaced_emptied _ _ _ _ d q q'); [done|]. constructor; try done.
    + by rewrite <- Hr1, <- Hr2.
    + by rewrite Ht5.
    + unfold vnis. by rewrite Ht5.
    + by rewrite Hr5, Hr4, Hr3, Hr2, Hr1.
    + intros fam' Hne. by rewrite Hr5, Hr4, Ho3, Ho2, Hr1.
  - rewrite Ht5, Hot, lookup_insert_eq. eexists. split; [done|]. destruct fam; simpl; apply DP_SOCKETID_idem.
Qed.

(** Both tables of a network emptied, or a table that does not exist any more. *)
Definition reset_post s (vni ret : Z) s' : Prop :=
  ret = DP_OK ∧ vni_inv s' ∧ vni_refs s' vni = vni_refs s vni ∧ others_same s s' vni
    ∧ ot_ptrs (vtbl s') = ot_ptrs (vtbl s)
    ∧ (∀ fam, vni_routes fam s' vni = (λ _, ∅) <$> vni_refs s vni)
  ∨ ret = DP_ERROR ∧ ∃ fam, dangling fam s' vni.

Lemma wp_reset_vni_data s p vni d :
  vni_inv s → ot_ptrs (vtbl s) !! vni = Some p → ot_objs (vtbl s) !! p = Some d →
  wp (dp_reset_vni_data vni p) (reset_post s vni) s.
Proof.
  intros Hi Hp Ho. assert (Hv : vnis s !! vni = Some d) by (apply vnis_lookup; eauto).
  unfold dp_reset_vni_data. apply wp_bind, wp_tbl. eapply wp_ot_load; [done|]. intros s0 [Ht0 Hr0].
  assert (Hs0 : vni_inv s0 ∧ ∀ vni', vni_refs s0 vni' = vni_refs s vni'
    ∧ ∀ fam, vni_routes fam s0 vni' = vni_routes fam s vni').
  { apply vni_inv_same; [done|rewrite Ht0; apply Hi|unfold vnis; by rewrite Ht0|done]. }
  destruct Hs0 as [Hi0 Hsame0]. apply wp_bind. wp_use (wp_reset_rib Rib4 s0 p vni d Hi0).
  { by rewrite Ht0. } { by rewrite Ht0. }
  intros [] s1; simpl; last first.
  { intros [? ?]. apply wp_ret. right. eauto. }
  intros ((Hi1 & Href1 & H4 & H6 & Hoth1) & Hptr1 & d1 & Hd1 & Hsock). rewrite <- Hsock. apply wp_bind.
  wp_use (wp_reset_rib Rib6 s1 p vni d1 Hi1).
  { by rewrite Hptr1, Ht0. } { done. }
  intros [] s2; simpl; last first.
  { intros [? ?]. apply wp_ret. right. eauto. }
  intros ((Hi2 & Href2 & H6' & H4' & Hoth2) & Hptr2 & _). apply wp_ret. left. split_and!; [done..| | | |].
  - rewrite Href2, Href1. apply Hsame0.
  - intros vni' Hne. destruct (Hoth1 vni' Hne) as [E1 F1], (Hoth2 vni' Hne) as [E2 F2], (Hsame0 vni') as [E3 F3].
    split; [congruence|]. intros fam. by rewrite F2, F1, F3.
  - by rewrite Hptr2, Hptr1, Ht0.
  - unfold vni_refs. rewrite Hv. intros []; [by rewrite H4'|done].
Qed.

Lemma wp_reset_vni s vni :
  vni_inv s → wp (dp_reset_vni_route_tables vni) (reset_post s vni) s.
Proof.
  intros Hi. unfold dp_reset_vni_route_tables. apply wp_bind, wp_tbl.
  assert (Hsame : ∀ s0, tbl_upd s s0 (vtbl s) → vni_inv s0 ∧ ∀ vni', vni_refs s0 vni' = vni_refs s vni'
    ∧ ∀ fam, vni_routes fam s0 vni' = vni_routes fam s vni').
  { intros s0 [Ht Hr]. apply vni_inv_same; [done|rewrite Ht; apply Hi|unfold vnis; by rewrite Ht|done]. }
  apply (wp_ot_lookup ∅); [apply Hi|..].
  - intros pos p d Hpos Hp Ho Hv s0 Hs0. cbn [fst snd]. rewrite DP_FAILED_pos by done.
    destruct (Hsame _ Hs0) as [Hi0 Hsame0]. destruct Hs0 as [Ht0 Hr0].
    wp_use (wp_reset_vni_data s0 p vni d Hi0); [by rewrite Ht0|by rewrite Ht0|].
    intros ret s' [(-> & ? & Href & Hoth & Hptr & Hem)|?]; [left|by right]. split_and!; try done.
    + rewrite Href. apply Hsame0.
    + intros vni' Hne. destruct (Hoth _ Hne) as [E F], (Hsame0 vni') as [E' F']. split; [congruence|].
      intros. by rewrite F, F'.
    + by rewrite Hptr, Ht0.
    + intros fam. rewrite Hem. by rewrite (proj1 (Hsame0 vni)).
  - intros Hv _ s0 Hs0. cbn [fst snd]. rewrite DP_FAILED_ENOENT. apply wp_ret. left.
    destruct (Hsame _ Hs0) as [? Hs]. destruct Hs0 as [Ht0 _].
    split_and!; [done|done|apply Hs|intros ??; apply Hs|by rewrite Ht0|].
    intros fam. rewrite (proj2 (Hs vni)). unfold vni_routes, vni_refs. fold (vnis s) in Hv. by rewrite Hv.
Qed.

(** Every network emptied, or one left with a table that does not exist. *)
Definition reset_all_post s (emptied : Z → Prop) (ret : Z) s' : Prop :=
  ret = DP_OK ∧ vni_inv s' ∧ (∀ vni, vni_refs s' vni = vni_refs s vni)
    ∧ (∀ fam vni, emptied vni → vni_routes fam s' vni = (λ _, ∅) <$> vni_refs s vni)
    ∧ (∀ fam vni, ¬ emptied vni → vni_routes fam s' vni = vni_routes fam s vni)
  ∨ ret = DP_ERROR ∧ ∃ fam vni, dangling fam s' vni.

Lemma wp_reset_each items s :
  vni_inv s → NoDup items.*1 → (∀ vni p, (vni, p) ∈ items → ot_ptrs (vtbl s) !! vni = Some p) →
  wp (reset_each items) (reset_all_post s (.∈ items.*1)) s.
Proof.
  revert s. induction items as [|[vni p] items IH]; intros s Hi Hnd Hin; simpl.
  { apply wp_ret. left. split_and!; try done. set_solver. }
  apply NoDup_cons in Hnd as [Hnew Hnd]. assert (Hp : ot_ptrs (vtbl s) !! vni = Some p) by (apply Hin; set_solver).
  destruct (wf_live _ _ (vi_wf _ Hi) vni p Hp) as [d Hd]. apply wp_bind. wp_use (wp_reset_vni_data s p vni d Hi Hp Hd).
  intros ret s1 [(-> & Hi1 & Href & Hoth & Hptr & Hem)|(-> & fam & Hdang)]; ret_simpl; last first.
  { apply wp_ret. right. eauto. }
  assert (Hrefs : ∀ v, vni_refs s1 v = vni_refs s v).
  { intros v. destruct (decide (v = vni)) as [->|]; [done|]. by apply Hoth. }
  wp_use (IH s1 Hi1 Hnd); [intros v q Hv; rewrite Hptr; apply Hin; set_solver|].
  intros ret s' [(-> & Hi' & Href' & Hem' & Hsame')|?]; [left|by right]. split_and!; try done.
  - intros v. by rewrite Href'.
  - intros fam v Hv. destruct (decide (v ∈ items.*1)) as [Hv'|Hv']; [by rewrite Hem', Hrefs|].
    rewrite Hsame' by done. assert (v = vni) as -> by set_solver. apply Hem.
  - intros fam v Hv. rewrite Hsame' by set_solver. apply Hoth. set_solver.
Qed.

Lemma wp_reset_all s :
  vni_inv s → wp dp_reset_all_vni_route_tables (reset_all_post s (λ _, True)) s.
Proof.
  intros Hi. unfold dp_reset_all_vni_route_tables. apply wp_bind, wp_tbl, wp_gets. intros s0 [Ht0 Hr0].
  assert (Hs0 : vni_inv s0 ∧ ∀ vni', vni_refs s0 vni' = vni_refs s vni'
    ∧ ∀ fam, vni_routes fam s0 vni' = vni_routes fam s vni').
  { apply vni_inv_same; [done|rewrite Ht0; apply Hi|unfold vnis; by rewrite Ht0|done]. }
  destruct Hs0 as [Hi0 Hsame].
  destruct (hash_items_spec (ot_tbl (vtbl s))) as (items & Hitems & Hperm). fold (ot_ptrs (vtbl s)) in Hperm.
  assert (Hout : ∀ vni, vni ∉ items.*1 → vni_refs s vni = None).
  { intros vni Hv. unfold vni_refs. destruct (vnis s !! vni) as [d|] eqn:Hd; [|done].
    apply vnis_lookup in Hd as (p & Hp & _). destruct Hv. rewrite (fmap_Permutation fst _ _ Hperm).
    apply list_elem_of_fmap. exists (vni, p). by rewrite elem_of_map_to_list. }
  assert (Hnone : ∀ fam vni, vni_refs s vni = None → vni_routes fam s vni = None).
  { intros fam vni. unfold vni_refs, vni_routes. by destruct (vnis s !! vni). }
  destruct (Z.eqb_spec (rte_hash_count (ot_tbl (vtbl s))) 0) as [Hc|Hc].
  - apply wp_ret. left. rewrite hash_count_size in Hc. fold (ot_ptrs (vtbl s)) in Hc.
    assert (Hnil : ot_ptrs (vtbl s) = ∅) by (apply map_size_empty_inv; lia).
    rewrite Hnil, map_to_list_empty in Hperm. apply Permutation_nil_r in Hperm as ->.
    split_and!; [done|done|intros; apply Hsame| |done].
    intros fam vni _. assert (Hv : vni_refs s vni = None) by (apply Hout; set_solver).
    by rewrite (proj2 (Hsame vni)), Hv, Hnone.
  - rewrite Hitems. wp_use (wp_reset_each items s0 Hi0).
    + rewrite (fmap_Permutation fst _ _ Hperm). apply NoDup_fst_map_to_list.
    + intros vni p Hin. rewrite Hperm, elem_of_map_to_list in Hin. by rewrite Ht0.
    + intros ret s' [(-> & Hi' & Href' & Hem' & Hsame')|?]; [left|by right]. split_and!; try done.
      * intros v. rewrite Href'. apply Hsame.
      * intros fam v _. rewrite <- (proj1 (Hsame v)). destruct (decide (v ∈ items.*1)) as [Hv|Hv]; [by apply Hem'|].
        rewrite Hsame', (proj2 (Hsame v)), (proj1 (Hsame v)), Hnone, Hout by auto. done.
Qed.

Lemma vni_init_inv st s : dp_vni_init st = Some s → vni_inv s ∧ vnis s = ∅.
Proof.
  unfold dp_vni_init, dp_create_jhash_table. intros Hi. case_match eqn:Ht; [|done]. injection Hi as <-.
  apply ot_create_wf in Ht as [Hwf Hv]. split; [|done].
  assert (Hr : ∀ fam q, ribs fam (MkVniState o (Heap ∅ st) (Heap ∅ st)) !! q = None) by (by intros []).
  constructor; [done|..]; unfold vnis, vtbl; simpl; rewrite ?Hv.
  - intros vni d. by rewrite lookup_empty.
  - intros fam vni1 vni2 d1 d2 q. by rewrite lookup_empty.
  - intros fam q [r Hq]. by rewrite Hr in Hq.
Qed.

(** ** Histories of users *)

Inductive vni_op := VniUse (vni socket_id : Z) | VniRelease (vni : Z).

Definition vni_step (op : vni_op) : cmd (vni_state * nat_state) Z :=
  match op with
  | VniUse vni socket_id => zoom fstL (dp_create_vni_route_tables vni socket_id)
  | VniRelease vni => dp_delete_vni_route_tables vni
  end.

Fixpoint vni_run (ops : list vni_op) : cmd (vni_state * nat_state) (list Z) :=
  match ops with
  | [] => mret []
  | op :: ops => ret ← vni_step op; rets ← vni_run ops; mret (ret :: rets)
  end.

(** The specification: the number of users of every network in use.  [None] is
    a result the operation cannot have. *)
Definition users_step (op : vni_op) (ret : Z) (users : gmap Z Z) : option (gmap Z Z) :=
  match op with
  | VniUse vni _ =>
      match users !! vni with
      | Some n => if ret =? DP_OK then Some (<[vni := n + 1]> users) else None
      | None => if ret =? DP_OK then Some (<[vni := 1]> users)
                else if ret =? DP_ERROR then Some users else None
      end
  | VniRelease vni =>
      match users !! vni with
      | Some n => if ret =? DP_OK
                  then Some (if n =? 1 then delete vni users else <[vni := n - 1]> users) else None
      | None => if ret =? - ENOENT then Some users else None
      end
  end.

Fixpoint users_run (ops : list vni_op) (rets : list Z) (users : gmap Z Z) : option (gmap Z Z) :=
  match ops, rets with
  | [], [] => Some users
  | op :: ops, ret :: rets => users_step op ret users ≫= users_run ops rets
  | _, _ => None
  end.

Definition vni_users s : gmap Z Z := vd_refcount <$> vnis s.

Lemma vni_users_lookup s vni : vni_users s !! vni = vni_refs s vni.
Proof. apply lookup_fmap. Qed.

Definition op_ok (op : vni_op) : Prop :=
  match op with VniUse _ socket_id => - 2 ^ 31 ≤ socket_id < 2 ^ 31 | VniRelease _ => True end.

Lemma vni_users_eq s s' vni (f : gmap Z Z → gmap Z Z) :
  others_same s s' vni →
  (∀ m k, k ≠ vni → f m !! k = m !! k) →
  vni_refs s' vni = f (vni_users s) !! vni → vni_users s' = f (vni_users s).
Proof.
  intros Hoth Hf Hv. apply map_eq. intros k. rewrite vni_users_lookup.
  destruct (decide (k = vni)) as [->|Hne]; [done|].
  rewrite Hf, vni_users_lookup by done. by apply Hoth.
Qed.

Lemma vni_step_spec op s n :
  vni_inv s → op_ok op → (∀ vni k, vni_refs s vni = Some k → k < 2 ^ 31 - 1) →
  wp (vni_step op) (λ ret x, vni_inv x.1 ∧ users_step op ret (vni_users s) = Some (vni_users x.1)) (s, n).
Proof.
  intros Hi Hop Hmax. destruct op as [vni socket_id|vni]; simpl in *.
  - apply wp_zoom. wp_use (wp_create_vni s vni socket_id Hi Hop (Hmax vni)).
    intros ret s' (? & Hoth & Hres). split; [done|]. rewrite vni_users_lookup. simpl.
    destruct (vni_refs s vni) as [k|] eqn:Href.
    + destruct Hres as (-> & Hk & _). f_equal. symmetry. apply (vni_users_eq _ _ vni (<[vni := k + 1]>)); try done.
      * intros. by rewrite lookup_insert_ne.
      * by rewrite lookup_insert_eq.
    + destruct Hres as [(-> & Hk & _)|(-> & Hk)].
      * f_equal. symmetry. apply (vni_users_eq _ _ vni (<[vni := 1]>)); try done.
        { intros. by rewrite lookup_insert_ne. } { by rewrite lookup_insert_eq. }
      * f_equal. symmetry. apply (vni_users_eq _ _ vni id); try done. by rewrite Hk, <- Href, <- vni_users_lookup.
  - wp_use (wp_delete_vni s n vni Hi). intros ret [s' n']. unfold delete_post. rewrite vni_users_lookup. simpl.
    destruct (vni_refs s vni) as [k|] eqn:Href; [|by intros (-> & -> & ->)].
    intros (-> & ? & Hoth & Hres). split; [done|]. simpl. f_equal. symmetry.
    destruct (k =? 1); destruct Hres as [Hk _].
    + apply (vni_users_eq _ _ vni (delete vni)); try done.
      * intros. by rewrite lookup_delete_ne.
      * by rewrite lookup_delete_eq.
    + apply (vni_users_eq _ _ vni (<[vni := k - 1]>)); try done.
      * intros. by rewrite lookup_insert_ne.
      * by rewrite lookup_insert_eq.
Qed.

(** The number of users grows by at most one in a step. *)
Lemma users_step_bound op ret m m' vni k :
  users_step op ret m = Some m' → m' !! vni = Some k → k ≤ 1 ∨ ∃ k', m !! vni = Some k' ∧ k ≤ k' + 1.
Proof.
  destruct op as [v sock|v]; simpl; destruct (m !! v) as [c|] eqn:Hc; repeat case_match; intros [= <-];
    rewrite ?lookup_insert_Some, ?lookup_delete_Some; intros; destruct_or?; destruct_and?; subst;
    try (left; lia); right; eauto with lia.
Qed.

(** *** Claims *)

(** C18. Over every sequence of uses and releases of virtual networks, the table
    of networks holds exactly the networks with more uses than releases, with
    the number of their users; no route table is leaked or freed early: when no
    network is in use, no route table is left. *)
Theorem vni_users_refine ops s n :
  vni_inv s → Forall op_ok ops →
  (∀ vni k, vni_refs s vni = Some k → k + Z.of_nat (length ops) < 2 ^ 31) → Z.of_nat (length ops) < 2 ^ 31 →
  wp (vni_run ops)
    (λ rets x, vni_inv x.1 ∧ users_run ops rets (vni_users s) = Some (vni_users x.1)
       ∧ (vni_users x.1 = ∅ → ∀ fam, ribs fam x.1 = ∅)) (s, n).
Proof.
  intros Hi Hops. revert s n Hi. induction Hops as [|op ops Hop Hops IH]; intros s n Hi Hmax Hlen; simpl.
  { apply wp_ret. split_and!; [done..|]. intros Hnil fam. apply map_empty. intros q. apply eq_None_not_Some.
    intros (vni & d & Hd & _)%(vi_owned _ Hi). apply (f_equal (.!! vni)) in Hnil.
    rewrite vni_users_lookup, lookup_empty in Hnil. unfold vni_refs in Hnil. simpl in Hnil. by rewrite Hd in Hnil. }
  simpl in *. apply wp_bind. wp_use (vni_step_spec op s n Hi Hop).
  { intros vni k Hk. specialize (Hmax _ _ Hk). lia. }
  intros ret [s1 n1] [Hi1 Hstep]. simpl in *. apply wp_bind. wp_use (IH s1 n1 Hi1).
  - intros vni k. rewrite <- vni_users_lookup. intros Hk.
    destruct (users_step_bound _ _ _ _ _ _ Hstep Hk) as [?|(k' & Hk' & ?)]; [lia|].
    rewrite vni_users_lookup in Hk'. specialize (Hmax _ _ Hk'). lia.
  - lia.
  - intros rets [s' n'] (? & Hrun & ?). apply wp_ret. split_and!; [done| |done]. simpl. by rewrite Hstep.
Qed.

(** Emptying the route tables of a network either empties both of them and
    changes nothing else, or, when DPDK has no memory for the new table, leaves
    the network with a pointer to the table that was freed, so the next lookup
    or change of a route in that network is undefined. *)
Theorem reset_vni_spec s vni :
  vni_inv s → wp (dp_reset_vni_route_tables vni) (reset_post s vni) s.
Proof. apply wp_reset_vni. Qed.
End vni_facts.

(** ** Examples *)

Section vni_examples.
#[local] Existing Instances test_hash test_hash_ok test_malloc test_malloc_ok test_rib test_rib_ok.

Definition ex_vni_empty : vni_state :=
  @MkVniState test_hash test_malloc test_rib (OTable (∅ : gmap Z loc) (Heap (∅ : gmap loc dp_vni_data) ([] : list bool)))
    (Heap (∅ : gmap loc (rib Rib4)) ([] : list bool)) (Heap (∅ : gmap loc (rib Rib6)) ([] : list bool)).

Lemma ex_vni_empty_inv : vni_inv ex_vni_empty.
Proof. by apply (vni_init_inv (HM := test_malloc) ([] : list bool)). Qed.

(** Two users of network 100, and one of them leaves. *)
Definition ex_vni_ops : list vni_op := [VniUse 100 0; VniUse 100 (-1); VniRelease 100; VniRelease 7].
Definition ex_vni_run : list Z * (vni_state * nat_state) :=
  default ([], (ex_vni_empty, ex_nat_empty)) (vni_run ex_vni_ops (ex_vni_empty, ex_nat_empty)).

Lemma ex_vni_empty_refs (P : Z → Prop) vni k : vni_refs ex_vni_empty vni = Some k → P k.
Proof. discriminate. Qed.

Lemma ex_vni_ops_ok : Forall op_ok ex_vni_ops.
Proof. unfold ex_vni_ops. rewrite !Forall_cons. simpl. split_and!; [lia..|done|done|done]. Qed.

Lemma ex_vni_run_eq :
  vni_run ex_vni_ops (ex_vni_empty, ex_nat_empty) = Some (ex_vni_run.1, ex_vni_run.2).
Proof. vm_run. Qed.

Lemma vni_users_refine_witness :
  ex_vni_run.1 = [DP_OK; DP_OK; DP_OK; - ENOENT] ∧ vni_users ex_vni_run.2.1 = {[100 := 1]}.
Proof.
  destruct (wp_elim _ _ _ ex_vni_run.1 ex_vni_run.2
    (vni_users_refine ex_vni_ops ex_vni_empty ex_nat_empty ex_vni_empty_inv
       ex_vni_ops_ok (ex_vni_empty_refs (λ k, k + _ < _)) ltac:(vm_compute; reflexivity))
    ex_vni_run_eq) as (_ & Hrun & _).
  split; [vm_compute; reflexivity|]. apply (inj Some).
  etransitivity; [symmetry; exact Hrun|vm_compute; reflexivity].
Defined.

(** Network 100 in use, and the next allocation of a table fails. *)
Definition ex_vni_100 : vni_state := run_state ex_vni_empty (dp_create_vni_route_tables 100 0).
Definition ex_vni_full : vni_state :=
  ex_vni_100 <| vn_rib4 := Heap (H := test_malloc) (objs (vn_rib4 ex_vni_100)) [false] |>.

Lemma ex_vni_100_inv : vni_inv ex_vni_100.
Proof.
  destruct (wp_elim _ _ _ DP_OK ex_vni_100
    (wp_create_vni ex_vni_empty 100 0 ex_vni_empty_inv ltac:(lia) (ex_vni_empty_refs (λ k, k < _) 100))
    ltac:(vm_run)) as (Hi & _). exact Hi.
Qed.

Lemma ex_vni_full_inv : vni_inv ex_vni_full.
Proof.
  pose proof ex_vni_100_inv as Hi. apply (vni_inv_same ex_vni_100); [done|apply (vi_wf _ Hi)|done|by intros []].
Qed.

Lemma reset_vni_spec_witness :
  ∃ fam, dangling fam (run_state ex_vni_full (dp_reset_vni_route_tables 100)) 100.
Proof.
  destruct (wp_elim _ _ _ DP_ERROR (run_state ex_vni_full (dp_reset_vni_route_tables 100))
    (reset_vni_spec ex_vni_full 100 ex_vni_full_inv) ltac:(vm_run)) as [[Hx _]|[_ Hx]]; [discriminate|exact Hx].
Defined.
End vni_examples.
