(* ===== verification/Lpm.v ===== *)
(** * Routes (src/dp_lpm.c, include/dp_lpm.h)

    The routes of a virtual network are kept in its route tables ([Vni], [Rib]):
    a route's next hop is the DPDK id of a port, a route over the underlay (to a
    physical port) also has the virtual network and the underlay address of the
    destination.  The functions for IPv4 and IPv6 are the same but for the
    types; they take the family as an argument here. *)

From S2P Require Import Prelude Dpdk Error Types Responder Port Firewall GrpcConv Rib Vnf Nat Vni.

Definition DP_LPM_DHCP_IP_DEPTH : Z := 32.
Definition DP_LPM_DHCP_IP6_DEPTH : Z := 128.

Definition RTE_IPV4 (a b c d : Z) : Z := ((a * 256 + b) * 256 + c) * 256 + d.

Definition dp_router_gw_ip4 : Z := RTE_IPV4 169 254 0 1.
Definition dp_router_gw_ip6 : Z := of_bytes ([0xfe; 0x80] ++ replicate 13 0 ++ [1]).
Definition dp_get_gw_ip4 : Z := dp_router_gw_ip4.
Definition dp_get_gw_ip6 : Z := dp_router_gw_ip6.

Section lpm.
Context `{HH : RteHash} `{HM : RteMalloc} `{HR : RteRib}.

(** [dp_add_route] and [dp_add_route6]; [t_ip6] is read for physical ports only,
    where it must not be NULL. *)
Definition dp_add_route (fam : rib_family) (port : dp_port) (vni t_vni ip : Z) (t_ip6 : option Z)
    (depth : Z) : cmd vni_state Z :=
  root ← dp_get_vni_route_table fam vni;
  match root with
  | None => mret (DP_GRPC_ERR NO_VNI)
  | Some root =>
      r ← zoom (ribL fam) (hp_load root);
      match rib_lookup_exact ip depth r with
      | Some _ => mret (DP_GRPC_ERR ROUTE_EXISTS)
      | None =>
          let ins := rib_insert ip depth r in
          zoom (ribL fam) (hp_store root ins.2);;
          match ins.1 with
          | None => mret (DP_GRPC_ERR ROUTE_INSERT)
          | Some node =>
              let e := (rib_get node ins.2) <| rd_nh := pt_port_id port |> in
              if pt_is_pf port then
                match t_ip6 with
                | None => fault
                | Some t_ip6 =>
                    zoom (ribL fam) (hp_store root
                      (rib_set node (e <| rd_ext := MkRoute t_vni t_ip6 |>) ins.2));;
                    mret DP_GRPC_OK
                end
              else zoom (ribL fam) (hp_store root (rib_set node e ins.2));; mret DP_GRPC_OK
          end
      end
  end.

(** [dp_del_route] and [dp_del_route6] *)
Definition dp_del_route (fam : rib_family) (port : dp_port) (vni ip depth : Z) : cmd vni_state Z :=
  root ← dp_get_vni_route_table fam vni;
  match root with
  | None => mret (DP_GRPC_ERR NO_VNI)
  | Some root =>
      r ← zoom (ribL fam) (hp_load root);
      match rib_lookup_exact ip depth r with
      | None => mret (DP_GRPC_ERR ROUTE_NOT_FOUND)
      | Some node =>
          if negb (rd_nh (rib_get node r) =? pt_port_id port) then mret (DP_GRPC_ERR ROUTE_BAD_PORT)
          else zoom (ribL fam) (hp_store root (rib_remove ip depth r));; mret DP_GRPC_OK
      end
  end.

Definition dp_add_route6 : dp_port → Z → Z → Z → option Z → Z → cmd vni_state Z := dp_add_route Rib6.
Definition dp_del_route6 : dp_port → Z → Z → Z → cmd vni_state Z := dp_del_route Rib6.

Definition dp_lpm_fill_route_tables (port : dp_port) : cmd vni_state Z :=
  let i := pt_iface port in
  ret ← dp_add_route Rib4 port (if_vni i) 0 (cfg_own_ip (if_cfg i)) None 32;
  if DP_FAILED ret then mret ret
  else
    ret ← dp_add_route Rib6 port (if_vni i) 0 (cfg_dhcp_ipv6 (if_cfg i)) None 128;
    if DP_FAILED ret then mret ret else mret DP_GRPC_OK.

(** The loop over all ports; [skip] is the condition of its [continue]. *)
Fixpoint fill_ports (skip : dp_port → bool) (ports : list dp_port) : cmd vni_state Z :=
  match ports with
  | [] => mret DP_GRPC_OK
  | port :: ports =>
      if skip port then fill_ports skip ports
      else
        ret ← dp_lpm_fill_route_tables port;
        if DP_FAILED ret then mret ret else fill_ports skip ports
  end.

Definition dp_lpm_reset_all_route_tables : cmd (ports_state * vni_state) Z :=
  ret ← zoom sndL dp_reset_all_vni_route_tables;
  if DP_FAILED ret then mret (DP_GRPC_ERR ROUTE_RESET)
  else
    ports ← zoom fstL (gets ps_ports);
    zoom sndL (fill_ports (λ port, negb (if_ready (pt_iface port))) ports).

Definition dp_lpm_reset_route_tables (vni : Z) : cmd (ports_state * vni_state) Z :=
  ret ← zoom sndL (dp_reset_vni_route_tables vni);
  if DP_FAILED ret then mret (DP_GRPC_ERR ROUTE_RESET)
  else
    ports ← zoom fstL (gets ps_ports);
    zoom sndL (fill_ports (λ port, negb (if_ready (pt_iface port)) || negb (if_vni (pt_iface port) =? vni)) ports).

(** *** Listing *)

Definition dp_route_in_dhcp_range (node : rib_node) (port : dp_port) : bool :=
  (cfg_own_ip (if_cfg (pt_iface port)) =? node.1) && (node.2 =? DP_LPM_DHCP_IP_DEPTH).

(** The members of [struct dpgrpc_route] that the listing sets; [None] is a
    member that is left as it was. *)
Record route_reply := MkRouteReply {
  rr_pfx_addr : dp_ip_address;
  rr_pfx_length : Z;
  rr_trgt_addr : option dp_ip_address;
  rr_trgt_vni : option Z
}.

(** [dp_get_port_by_id((uint16_t)next_hop)] *)
Definition port_by_nh (st : ports_state) (next_hop : Z) : option nat :=
  if DP_MAX_PORTS <=? u16 next_hop then None else ps_port_table st !! u16 next_hop.

Definition dp_list_route_entry `{RteMempool} (st : ports_state) (r : rib Rib4) (node : rib_node)
    (port : dp_port) (ext_routes : bool) : cmd (dp_grpc_responder route_reply) Z :=
  let e := rib_get node r in
  match port_by_nh st (rd_nh e), port_by_nh st (rd_nh e) ≫= (ps_ports st !!.) with
  | None, _ => mret (DP_GRPC_ERR NO_VM)
  | Some _, None => fault
  | Some _, Some dst_port =>
      if (ext_routes && pt_is_pf dst_port)
         || (negb ext_routes && (pt_port_id dst_port =? pt_port_id port)
             && negb (dp_route_in_dhcp_range node port))
      then
        reply ← dp_grpc_add_reply;
        match reply with
        | None => mret (DP_GRPC_ERR OUT_OF_MEMORY)
        | Some i =>
            fill_reply i
              (if ext_routes
               then MkRouteReply (DP_SET_IPADDR4 node.1) node.2
                      (Some (DP_SET_IPADDR6 (rt_nh_ipv6 (rd_ext e)))) (Some (rt_vni (rd_ext e)))
               else MkRouteReply (DP_SET_IPADDR4 node.1) node.2 None None);;
            mret DP_GRPC_OK
        end
      else mret DP_GRPC_OK
  end.

(** The loop over [rte_rib_get_nxt]; each node is visited once, so fuel above the
    number of routes is enough. *)
Fixpoint list_nxt `{RteMempool} (fuel : nat) (st : ports_state) (r : rib Rib4) (node : option rib_node)
    (port : dp_port) (ext_routes : bool) : cmd (dp_grpc_responder route_reply) Z :=
  match fuel with
  | O => fault
  | S fuel =>
      match rib_get_nxt 0 0 node r with
      | None => mret DP_GRPC_OK
      | Some node =>
          ret ← dp_list_route_entry st r node port ext_routes;
          if DP_FAILED ret then mret ret else list_nxt fuel st r (Some node) port ext_routes
      end
  end.

(** The tables are only read. *)
Definition dp_list_routes `{RteMempool} (fuel : nat) (sizeof_reply : Z) (st : ports_state) (s : vni_state)
    (port : dp_port) (vni : Z) (ext_routes : bool) : cmd (dp_grpc_responder route_reply) Z :=
  match dp_get_vni_route_table Rib4 vni s with
  | None => fault
  | Some (None, _) => mret (DP_GRPC_ERR NO_VNI)
  | Some (Some root, _) =>
      match objs (vn_rib4 s) !! root with
      | None => fault
      | Some r =>
          dp_grpc_set_multireply sizeof_reply;;
          ret ← match rib_lookup_exact 0 0 r with
                | Some node => dp_list_route_entry st r node port ext_routes
                | None => mret DP_GRPC_OK
                end;
          if DP_FAILED ret then mret ret else list_nxt fuel st r None port ext_routes
      end
  end.

(** *** Forwarding *)

(** What the lookup returns: the port, the route if it is one over the underlay
    (else the caller's [*route] is left as it was) and the route's prefix. *)
Record out_port := MkOutPort {
  op_port : nat;
  op_route : option dp_iface_route;
  op_route_key : Z
}.

Definition get_ip_out_port (fam : rib_family) (in_port : dp_port) (t_vni dst_ip : Z) :
    cmd (ports_state * vni_state) (option out_port) :=
  let t_vni := if t_vni =? 0 then if_vni (pt_iface in_port) else t_vni in
  root ← zoom sndL (dp_get_vni_route_table fam t_vni);
  match root with
  | None => mret None
  | Some root =>
      r ← zoom sndL (zoom (ribL fam) (hp_load root));
      match rib_lookup dst_ip r with
      | None => mret None
      | Some node =>
          let e := rib_get node r in
          dst_port ← zoom fstL (dp_get_port_by_id (u16 (rd_nh e)));
          match dst_port with
          | None => mret None
          | Some p =>
              dst_port ← zoom fstL (get_port p);
              mret (Some (MkOutPort p (if pt_is_pf dst_port then Some (rd_ext e) else None) node.1))
          end
      end
  end.

Definition dp_get_ip4_out_port (in_port : dp_port) (t_vni : Z) (df : dp_flow) :
    cmd (ports_state * vni_state) (option out_port) :=
  get_ip_out_port Rib4 in_port t_vni (ntohl (df_dst_addr df)).

Definition dp_get_ip6_out_port (in_port : dp_port) (t_vni : Z) (df : dp_flow) :
    cmd (ports_state * vni_state) (option out_port) :=
  get_ip_out_port Rib6 in_port t_vni (df_dst_addr6 df).
End lpm.

(** ** Facts *)

Section lpm_facts.
Context `{HH : RteHash} {HO : RteHashOk} `{HM : RteMalloc} {MO : RteMallocOk} `{HR : RteRib} {RO : RteRibOk}.
Implicit Types (s : vni_state) (fam : rib_family) (port : dp_port) (m : gmap rib_node rib_data).

Lemma lput_lget_vniT s : lput vniT (lget vniT s) s = s.
Proof. apply lput_vniT. Qed.

Lemma wp_get_table fam s vni (Q : option loc → vni_state → Prop) :
  vni_inv s →
  (∀ d q r, vnis s !! vni = Some d → vd_rib fam d = Some q → ribs fam s !! q = Some r →
     vni_routes fam s vni = Some (routes r) → Q (Some q) s) →
  (vni_routes fam s vni = None → Q None s) →
  wp (dp_get_vni_route_table fam vni) Q s.
Proof.
  intros Hi Hsome Hnone. unfold dp_get_vni_route_table. apply wp_bind, wp_zoom.
  apply (wp_ot_lookup ∅); [apply Hi|..]; rewrite lput_lget_vniT; cbn [fst snd].
  - intros pos p d Hpos Hp Ho Hv. rewrite DP_FAILED_pos by done. change (vnis s !! vni = Some d) in Hv.
    apply wp_bind, wp_zoom. eapply wp_ot_load; [done|]. rewrite lput_lget_vniT. apply wp_ret.
    destruct (vo_rib _ _ _ (vi_data _ Hi _ _ Hv) fam) as (q & Hq & [r Hr]). rewrite Hq.
    apply (Hsome d q r); try done. unfold vni_routes. rewrite Hv. simpl. rewrite Hq. simpl. by rewrite Hr.
  - intros Hv _. rewrite DP_FAILED_ENOENT. apply wp_ret, Hnone. unfold vni_routes.
    change (vnis s !! vni = None) in Hv. by rewrite Hv.
Qed.

(** Only the routes of one table change. *)
Record routes_upd fam s s' (vni : Z) m : Prop := {
  rt_inv : vni_inv s';
  rt_refs vni' : vni_refs s' vni' = vni_refs s vni';
  rt_routes : vni_routes fam s' vni = Some m;
  rt_other fam' vni' : fam' ≠ fam ∨ vni' ≠ vni → vni_routes fam' s' vni' = vni_routes fam' s vni'
}.

Lemma routes_upd_store fam s s' vni d q r r' :
  vni_inv s → vnis s !! vni = Some d → vd_rib fam d = Some q → ribs fam s !! q = Some r →
  rib_upd fam s s' (<[q := r']> (ribs fam s)) → routes_upd fam s s' vni (routes r').
Proof.
  intros Hi Hd Hq Hr [Ht Hrib Ho].
  assert (Hv : vnis s' = vnis s) by (unfold vnis; by rewrite Ht).
  assert (Hlive : ∀ fam' q', is_Some (ribs fam' s' !! q') ↔ is_Some (ribs fam' s !! q')).
  { intros fam' q'. destruct (decide (fam' = fam)) as [->|]; [|by rewrite Ho]. rewrite Hrib, lookup_insert.
    case_decide; [|done]. subst q'. rewrite Hr. split; by eexists. }
  constructor.
  - destruct Hi as [Hwf Hdata Hinj Hown]. constructor; rewrite ?Hv; [by rewrite Ht| |done|].
    + intros vni' d' Hd'. destruct (Hdata _ _ Hd') as [? ? ? Hrb]. constructor; try done.
      intros fam'. destruct (Hrb fam') as (q' & ? & ?). exists q'. by rewrite Hlive.
    + intros fam' q' Hl. apply Hlive in Hl. eauto.
  - intros vni'. unfold vni_refs. by rewrite Hv.
  - unfold vni_routes. rewrite Hv, Hd. simpl. rewrite Hq. simpl. by rewrite Hrib, lookup_insert_eq.
  - intros fam' vni' Hne. unfold vni_routes. rewrite Hv. destruct (vnis s !! vni') as [d'|] eqn:Hd'; [|done]. simpl.
    destruct (vd_rib fam' d') as [q'|] eqn:Hq'; [|done]. simpl.
    destruct (decide (fam' = fam)) as [->|]; [|by rewrite Ho]. rewrite Hrib, lookup_insert_ne; [done|].
    intros <-. destruct Hne as [|Hne]; [done|]. apply Hne. by eapply (vi_inj _ Hi fam).
Qed.

Lemma routes_upd_trans fam s s1 s2 vni m1 m2 :
  routes_upd fam s s1 vni m1 → routes_upd fam s1 s2 vni m2 → routes_upd fam s s2 vni m2.
Proof.
  intros [? H1 ? H1'] [? H2 ? H2']. constructor; try done.
  - intros. by rewrite H2.
  - intros. by rewrite H2', H1'.
Qed.

Lemma wp_load_rib fam s q r (Q : rib fam → vni_state → Prop) :
  ribs fam s !! q = Some r → Q r s → wp (zoom (ribL fam) (hp_load q)) Q s.
Proof.
  intros Hr HQ. apply wp_zoom. eapply wp_hp_load; [done|]. by destruct fam, s.
Qed.

Lemma wp_store_rib fam s vni d q r r' (Q : () → vni_state → Prop) :
  vni_inv s → vnis s !! vni = Some d → vd_rib fam d = Some q → ribs fam s !! q = Some r →
  (∀ s', routes_upd fam s s' vni (routes r') → vnis s' = vnis s → ribs fam s' !! q = Some r' → Q tt s') →
  wp (zoom (ribL fam) (hp_store q r')) Q s.
Proof.
  intros Hi Hd Hq Hr HQ. apply wp_zoom. eapply wp_hp_store; [done|].
  assert (Hu := rib_upd_lput fam s (Heap (<[q := r']> (objs (lget (ribL fam) s))) (mst (lget (ribL fam) s)))).
  apply HQ.
  - by eapply routes_upd_store.
  - unfold vnis. f_equal. apply Hu.
  - rewrite (ru_ribs _ _ _ _ Hu). simpl. by rewrite lookup_insert_eq.
Qed.

(** *** Adding and deleting routes *)

(** What the route commands do to the routes of a table. *)
Definition add_route_spec fam port (t_vni ip : Z) (t_ip6 : option Z) (depth : Z)
    (m : gmap rib_node rib_data) (ret : Z) (m' : gmap rib_node rib_data) : Prop :=
  let n := node_of fam ip depth in
  match m !! n with
  | Some _ => ret = DP_GRPC_ERR ROUTE_EXISTS ∧ m' = m
  | None =>
      ret = DP_GRPC_ERR ROUTE_INSERT ∧ m' = m
      ∨ ret = DP_GRPC_OK ∧ ∃ e, m' = <[n := e]> m ∧ rd_nh e = pt_port_id port
          ∧ (pt_is_pf port = true → ∃ nh, t_ip6 = Some nh ∧ rd_ext e = MkRoute t_vni nh)
  end.

Definition del_route_spec fam port (ip depth : Z)
    (m : gmap rib_node rib_data) (ret : Z) (m' : gmap rib_node rib_data) : Prop :=
  let n := node_of fam ip depth in
  match m !! n with
  | None => ret = DP_GRPC_ERR ROUTE_NOT_FOUND ∧ m' = m
  | Some e =>
      if rd_nh e =? pt_port_id port then ret = DP_GRPC_OK ∧ m' = delete n m
      else ret = DP_GRPC_ERR ROUTE_BAD_PORT ∧ m' = m
  end.

(** The change of the table [vni]; without one there is nothing to change. *)
Definition on_table fam s s' (vni ret : Z) (spec : gmap rib_node rib_data → Z → gmap rib_node rib_data → Prop) : Prop :=
  match vni_routes fam s vni with
  | None => ret = DP_GRPC_ERR NO_VNI ∧ s' = s
  | Some m => ∃ m', spec m ret m' ∧ routes_upd fam s s' vni m'
  end.

Lemma routes_upd_refl fam s vni m : vni_inv s → vni_routes fam s vni = Some m → routes_upd fam s s vni m.
Proof. by constructor. Qed.

Lemma wp_add_route fam s port vni t_vni ip t_ip6 depth :
  vni_inv s → rib_depth_ok fam depth = true → (pt_is_pf port = true → is_Some t_ip6) →
  wp (dp_add_route fam port vni t_vni ip t_ip6 depth)
    (λ ret s', on_table fam s s' vni ret (add_route_spec fam port t_vni ip t_ip6 depth)) s.
Proof.
  intros Hi Hdep Hpf. unfold dp_add_route, on_table. apply wp_bind, wp_get_table; [done|..]; last first.
  { intros ->. by apply wp_ret. }
  intros d q r Hd Hq Hr Hm. rewrite Hm. cbn match. apply wp_bind. eapply wp_load_rib; [done|]. unfold add_route_spec.
  destruct (rib_lookup_exact ip depth r) as [n|] eqn:Hl.
  { apply rib_lookup_exact_some in Hl as (_ & -> & [e ->]). apply wp_ret. exists (routes r).
    split; [done|]. by apply routes_upd_refl. }
  apply rib_lookup_exact_none in Hl; [|done]. rewrite Hl. destruct (rib_insert ip depth r) as [n r1] eqn:Hins.
  cbn [fst snd]. apply wp_bind. eapply wp_store_rib; [done..|]. intros s1 Hu1 Hv1 Hr1. destruct n as [n|]; last first.
  { apply rib_insert_none in Hins. apply wp_ret. rewrite Hins in Hu1. exists (routes r). split; [left; done|done]. }
  apply rib_insert_some in Hins as (_ & -> & e0 & He0).
  assert (Hset : ∀ e, routes (rib_set (node_of fam ip depth) e r1)
    = <[(node_of fam ip depth) := e]> (routes r)).
  { intros e. rewrite rib_set_routes; [by rewrite He0, insert_insert_eq|]. rewrite He0, lookup_insert_eq. by eexists. }
  destruct (pt_is_pf port) eqn:Epf.
  - destruct (Hpf eq_refl) as [nh ->]. apply wp_bind.
    eapply wp_store_rib; [apply Hu1|by rewrite Hv1|done|done|]. intros s2 Hu2 _ _. apply wp_ret.
    eexists. split; [|by eapply routes_upd_trans]. right. split; [done|]. rewrite Hset. eexists. split; [done|].
    split; [done|]. by eexists.
  - apply wp_bind. eapply wp_store_rib; [apply Hu1|by rewrite Hv1|done|done|]. intros s2 Hu2 _ _. apply wp_ret.
    eexists. split; [|by eapply routes_upd_trans]. right. split; [done|]. rewrite Hset. by eexists.
Qed.

Lemma wp_del_route fam s port vni ip depth :
  vni_inv s → rib_depth_ok fam depth = true →
  wp (dp_del_route fam port vni ip depth)
    (λ ret s', on_table fam s s' vni ret (del_route_spec fam port ip depth)) s.
Proof.
  intros Hi Hdep. unfold dp_del_route, on_table. apply wp_bind, wp_get_table; [done|..]; last first.
  { intros ->. by apply wp_ret. }
  intros d q r Hd Hq Hr Hm. rewrite Hm. cbn match. apply wp_bind. eapply wp_load_rib; [done|]. unfold del_route_spec.
  destruct (rib_lookup_exact ip depth r) as [n|] eqn:Hl; last first.
  { apply rib_lookup_exact_none in Hl; [|done]. rewrite Hl. apply wp_ret. exists (routes r).
    split; [done|]. by apply routes_upd_refl. }
  apply rib_lookup_exact_some in Hl as (_ & -> & [e He]). rewrite He. rewrite (rib_get_routes _ _ _ He).
  destruct (rd_nh e =? pt_port_id port); simpl.
  - apply wp_bind. eapply wp_store_rib; [done..|]. intros s' Hu _ _. apply wp_ret.
    rewrite rib_remove_routes in Hu by done. eexists. by split.
  - apply wp_ret. exists (routes r). split; [done|]. by apply routes_upd_refl.
Qed.

(** *** Forwarding *)

(** [n] is the node of the longest prefix of [dst] that has a route. *)
Definition longest_match fam m (dst : Z) (n : rib_node) : Prop :=
  is_Some (m !! n) ∧ node_of fam dst n.2 = n ∧ ∀ n' : rib_node, is_Some (m !! n') → node_of fam dst n'.2 = n' → n'.2 ≤ n.2.

Lemma node_of_eq fam dst (n : rib_node) : node_of fam dst n.2 = n ↔ rib_mask fam n.2 dst = n.1.
Proof. destruct n as [a d]. unfold node_of. simpl. naive_solver. Qed.

Lemma longest_match_unique fam m dst n1 n2 : longest_match fam m dst n1 → longest_match fam m dst n2 → n1 = n2.
Proof.
  intros (H1 & M1 & L1) (H2 & M2 & L2). specialize (L1 n2 H2 M2). specialize (L2 n1 H1 M1).
  assert (n1.2 = n2.2) by lia. congruence.
Qed.

(** The registered ports are ports. *)
Definition ports_ok (st : ports_state) : Prop :=
  ∀ i p, ps_port_table st !! i = Some p → is_Some (ps_ports st !! p).

(** Where a packet to [dst] goes with the routes [m]. *)
Definition forwards fam (st : ports_state) m (dst : Z) (res : option out_port) : Prop :=
  (∃ n e p port, longest_match fam m dst n ∧ m !! n = Some e ∧ port_by_nh st (rd_nh e) = Some p
     ∧ ps_ports st !! p = Some port
     ∧ res = Some (MkOutPort p (if pt_is_pf port then Some (rd_ext e) else None) n.1))
  ∨ res = None ∧ ∀ n e, longest_match fam m dst n → m !! n = Some e → port_by_nh st (rd_nh e) = None.

Lemma forwards_unique fam st m dst res1 res2 : forwards fam st m dst res1 → forwards fam st m dst res2 → res1 = res2.
Proof.
  intros [(n & e & p & port & Hn & He & Hp & Hport & ->)|[-> H1]] [(n' & e' & p' & port' & Hn' & He' & Hp' & Hport' & ->)|[-> H2]];
    try done.
  - pose proof (longest_match_unique _ _ _ _ _ Hn Hn'). by simplify_eq.
  - by rewrite (H2 _ _ Hn He) in Hp.
  - by rewrite (H1 _ _ Hn' He') in Hp'.
Qed.

Definition lookup_vni (in_port : dp_port) (t_vni : Z) : Z :=
  if t_vni =? 0 then if_vni (pt_iface in_port) else t_vni.

Lemma wp_out_port fam st s in_port t_vni dst :
  vni_inv s → ports_ok st →
  wp (get_ip_out_port fam in_port t_vni dst)
    (λ res x, x = (st, s) ∧
       match vni_routes fam s (lookup_vni in_port t_vni) with
       | None => res = None
       | Some m => forwards fam st m dst res
       end) (st, s).
Proof.
  intros Hi Hports. unfold get_ip_out_port. fold (lookup_vni in_port t_vni). apply wp_bind, wp_zoom.
  cbn [lget lput sndL fst snd]. apply wp_get_table; [done|..]; last first.
  { intros ->. by apply wp_ret. }
  intros d q r Hd Hq Hr Hm. rewrite Hm. cbn match. apply wp_bind, wp_zoom. eapply wp_load_rib; [done|].
  cbn [lget lput sndL fst snd]. destruct (rib_lookup dst r) as [n|] eqn:Hl; last first.
  { apply wp_ret. split; [done|]. right. split; [done|]. intros n e (Hn & Hmask & _) _.
    apply node_of_eq in Hmask. by destruct (rib_lookup_none _ _ _ Hl Hn). }
  apply rib_lookup_some in Hl as (Hn & Hmask & Hlong).
  assert (longest_match fam (routes r) dst n) as Hbest.
  { split_and!; [done|by apply node_of_eq|]. intros n' Hn' Hm'%node_of_eq. by apply Hlong. }
  destruct Hn as [e He]. rewrite (rib_get_routes _ _ _ He). unfold dp_get_port_by_id.
  assert (∀ res, forwards fam st (routes r) dst res ↔
    match port_by_nh st (rd_nh e) with
    | None => res = None
    | Some p => ∃ port, ps_ports st !! p = Some port
        ∧ res = Some (MkOutPort p (if pt_is_pf port then Some (rd_ext e) else None) n.1)
    end) as Hfw.
  { intros res. split.
    - intros [(n' & e' & p & port & Hn' & He' & Hp & Hport & ->)|[-> Hnone]].
      + pose proof (longest_match_unique _ _ _ _ _ Hn' Hbest). simplify_eq. rewrite Hp. eauto.
      + by rewrite (Hnone n e).
    - destruct (port_by_nh st (rd_nh e)) as [p|] eqn:Hp.
      + intros (port & ? & ->). left. by exists n, e, p, port.
      + intros ->. right. split; [done|]. intros n' e' Hn' He'.
        pose proof (longest_match_unique _ _ _ _ _ Hn' Hbest). by simplify_eq. }
  unfold port_by_nh in Hfw. destruct (DP_MAX_PORTS <=? _).
  { wp_steps. split; [done|]. by apply Hfw. }
  wp_steps. simpl. destruct (ps_port_table st !! _) as [p|] eqn:Hp.
  - destruct (Hports _ _ Hp) as [port Hport]. wp_steps. eapply wp_get_port; [done|]. wp_steps.
    split; [done|]. apply Hfw. eauto.
  - wp_steps. split; [done|]. by apply Hfw.
Qed.

(** Where a packet from [in_port] to [dst] goes. *)
Definition out_port_for fam (st : ports_state) s in_port (t_vni dst : Z) : option (option out_port) :=
  fst <$> get_ip_out_port fam in_port t_vni dst (st, s).

Lemma out_port_forwards fam st s in_port t_vni dst m res :
  vni_inv s → ports_ok st → vni_routes fam s (lookup_vni in_port t_vni) = Some m →
  forwards fam st m dst res → out_port_for fam st s in_port t_vni dst = Some res.
Proof.
  intros Hi Hports Hm Hfw. pose proof (wp_out_port fam st s in_port t_vni dst Hi Hports) as Hout.
  unfold out_port_for, wp in *. destruct (get_ip_out_port _ _ _ _ _) as [[res' x]|]; [|done].
  destruct Hout as [_ Hout]. rewrite Hm in Hout. simpl. by rewrite (forwards_unique _ _ _ _ _ _ Hfw Hout).
Qed.

Lemma forwards_total fam st s in_port t_vni dst m :
  vni_inv s → ports_ok st → vni_routes fam s (lookup_vni in_port t_vni) = Some m →
  ∃ res, forwards fam st m dst res ∧ out_port_for fam st s in_port t_vni dst = Some res.
Proof.
  intros Hi Hports Hm. pose proof (wp_out_port fam st s in_port t_vni dst Hi Hports) as Hout.
  unfold out_port_for, wp in *. destruct (get_ip_out_port _ _ _ _ _) as [[res x]|]; [|done].
  destruct Hout as [_ Hout]. rewrite Hm in Hout. by exists res.
Qed.

(** A route that is not the best match for [dst] does not matter to it. *)
Lemma longest_match_insert_other fam m dst n (n0 : rib_node) e :
  node_of fam dst n0.2 ≠ n0 ∨ (∃ n' : rib_node, is_Some (m !! n') ∧ node_of fam dst n'.2 = n' ∧ n0.2 < n'.2) → m !! n0 = None →
  longest_match fam (<[n0 := e]> m) dst n ↔ longest_match fam m dst n.
Proof.
  intros Hother Hnew.
  assert (Hlook : ∀ n', is_Some (<[n0 := e]> m !! n') ↔ n' = n0 ∨ is_Some (m !! n')).
  { intros n'. rewrite lookup_insert_is_Some'. naive_solver. }
  unfold longest_match. setoid_rewrite Hlook. split.
  - intros ([->|Hn] & Hm & Hl); [|naive_solver]. destruct Hother as [?|(n' & Hn' & Hm' & ?)]; [done|].
    specialize (Hl n' (or_intror Hn') Hm'). lia.
  - intros (Hn & Hm & Hl). split_and!; [naive_solver|done|]. intros n' [->|Hn'] Hm'; [|auto].
    destruct Hother as [?|(n' & Hn' & Hmn' & ?)]; [done|]. specialize (Hl n' Hn' Hmn'). lia.
Qed.

Lemma forwards_insert_other fam st m dst (n0 : rib_node) e res :
  node_of fam dst n0.2 ≠ n0 ∨ (∃ n' : rib_node, is_Some (m !! n') ∧ node_of fam dst n'.2 = n' ∧ n0.2 < n'.2) → m !! n0 = None →
  forwards fam st m dst res → forwards fam st (<[n0 := e]> m) dst res.
Proof.
  intros Hother Hnew. pose proof (λ n, longest_match_insert_other fam m dst n n0 e Hother Hnew) as Hl.
  assert (Hlk : ∀ n, longest_match fam m dst n → <[n0 := e]> m !! n = m !! n).
  { intros n (Hs & _). apply lookup_insert_ne. intros <-. rewrite Hnew in Hs. by destruct Hs. }
  intros [(n & e' & p & port & Hn & He & ? & ? & ->)|[-> Hnone]].
  - left. exists n, e', p, port. by rewrite Hl, Hlk.
  - right. split; [done|]. intros n e' Hn. apply Hl in Hn. rewrite Hlk by done. by apply Hnone.
Qed.

(** C15. A route that was added decides where packets go exactly as longest-prefix
    matching says: packets to the prefix for which there is no longer match go
    to the route's port (with the route's underlay address for a physical
    port), and all other packets in the network go where they went before. *)
Theorem add_route_forwarding fam st s s' port p in_port vni t0 t_vni ip t_ip6 depth dst m :
  vni_inv s → ports_ok st → rib_depth_ok fam depth = true → (pt_is_pf port = true → is_Some t_ip6) →
  port_by_nh st (pt_port_id port) = Some p → ps_ports st !! p = Some port →
  lookup_vni in_port t0 = vni → vni_routes fam s vni = Some m →
  dp_add_route fam port vni t_vni ip t_ip6 depth s = Some (DP_GRPC_OK, s') →
  (in_prefix fam depth ip dst → (∀ n : rib_node, is_Some (m !! n) → node_of fam dst n.2 = n → n.2 ≤ depth) →
   out_port_for fam st s' in_port t0 dst
   = Some (Some (MkOutPort p (if pt_is_pf port then MkRoute t_vni <$> t_ip6 else None) (rib_mask fam depth ip))))
  ∧ (¬ in_prefix fam depth ip dst ∨ (∃ n : rib_node, is_Some (m !! n) ∧ node_of fam dst n.2 = n ∧ depth < n.2) →
     out_port_for fam st s' in_port t0 dst = out_port_for fam st s in_port t0 dst).
Proof.
  intros Hi Hports Hdep Hpf Hp Hport Hvni Hm Hadd.
  apply (wp_elim _ _ _ _ _ (wp_add_route fam s port vni t_vni ip t_ip6 depth Hi Hdep Hpf)) in Hadd.
  unfold on_table in Hadd. rewrite Hm in Hadd. destruct Hadd as (m' & Hspec & Hu). unfold add_route_spec in Hspec.
  destruct (m !! node_of fam ip depth) as [|] eqn:Hnew; [by destruct Hspec|].
  destruct Hspec as [[? _]|(_ & e & -> & Hnh & Hext)]; [done|].
  assert (Hpre : in_prefix fam depth ip dst ↔ node_of fam dst depth = node_of fam ip depth).
  { rewrite <- rib_mask_in_prefix by done. unfold node_of. split; intros; congruence. }
  split.
  - intros Hin Hlong. eapply out_port_forwards; [apply Hu|done|rewrite Hvni; apply Hu|]. left.
    exists (node_of fam ip depth), e, p, port. rewrite Hnh, lookup_insert_eq.
    split; [|split_and!; try done].
    + unfold longest_match. split_and!; [rewrite lookup_insert_eq; by eexists|by apply Hpre|].
      intros n' [->|[_ Hn']]%lookup_insert_is_Some Hm'; [done|]. by apply Hlong.
    + destruct (pt_is_pf port); [|done]. destruct (Hext eq_refl) as (nh & -> & ->). done.
  - intros Hother. destruct (forwards_total fam st s in_port t0 dst m) as (res & Hfw & ->); [done|done|by rewrite Hvni|].
    eapply out_port_forwards; [apply Hu|done|rewrite Hvni; apply Hu|]. apply forwards_insert_other; [|done|done].
    destruct Hother as [Hnot|Hlonger]; [left|by right]. simpl. intros E. by apply Hnot, Hpre.
Qed.

Lemma wp_add_del_route fam s s' port vni t_vni ip t_ip6 depth :
  vni_inv s → rib_depth_ok fam depth = true → (pt_is_pf port = true → is_Some t_ip6) →
  dp_add_route fam port vni t_vni ip t_ip6 depth s = Some (DP_GRPC_OK, s') →
  wp (dp_del_route fam port vni ip depth)
    (λ ret s2, ret = DP_GRPC_OK ∧ vni_inv s2 ∧ ∀ fam' vni', vni_routes fam' s2 vni' = vni_routes fam' s vni') s'.
Proof.
  intros Hi Hdep Hpf Hadd.
  apply (wp_elim _ _ _ _ _ (wp_add_route fam s port vni t_vni ip t_ip6 depth Hi Hdep Hpf)) in Hadd.
  unfold on_table in Hadd. destruct (vni_routes fam s vni) as [m|] eqn:Hm; [|by destruct Hadd].
  destruct Hadd as (m' & Hspec & Hu). unfold add_route_spec in Hspec.
  destruct (m !! node_of fam ip depth) as [|] eqn:Hnew; [by destruct Hspec|].
  destruct Hspec as [[? _]|(_ & e & -> & Hnh & Hext)]; [done|].
  wp_use (wp_del_route fam s' port vni ip depth (rt_inv _ _ _ _ _ Hu) Hdep).
  intros ret s2. unfold on_table. rewrite (rt_routes _ _ _ _ _ Hu). intros (m2 & Hspec & Hu2).
  unfold del_route_spec in Hspec. rewrite lookup_insert_eq, Hnh, Z.eqb_refl in Hspec. destruct Hspec as [-> ->].
  split_and!; [done|apply Hu2|]. intros fam' vni'.
  destruct (decide (fam' = fam ∧ vni' = vni)) as [[-> ->]|Hne].
  - rewrite (rt_routes _ _ _ _ _ Hu2), Hm. by rewrite delete_insert_id.
  - rewrite (rt_other _ _ _ _ _ Hu2), (rt_other _ _ _ _ _ Hu); [done|..]; destruct (decide (fam' = fam)); naive_solver.
Qed.

(** Deleting a route that was just added succeeds and leaves every route table
    as it was before. *)
Theorem add_del_route fam s s' port vni t_vni ip t_ip6 depth :
  vni_inv s → rib_depth_ok fam depth = true → (pt_is_pf port = true → is_Some t_ip6) →
  dp_add_route fam port vni t_vni ip t_ip6 depth s = Some (DP_GRPC_OK, s') →
  wp (dp_del_route fam port vni ip depth)
    (λ ret s2, ret = DP_GRPC_OK ∧ vni_inv s2 ∧ ∀ fam' vni', vni_routes fam' s2 vni' = vni_routes fam' s vni') s'.
Proof. apply wp_add_del_route. Qed.

(** *** Listing *)

(** The routes of a listing: the ones over the underlay, or the ones to the port
    itself other than its own address. *)
Definition listed (st : ports_state) port (ext_routes : bool) (x : rib_node * rib_data) : Prop :=
  match port_by_nh st (rd_nh x.2) ≫= (ps_ports st !!.) with
  | None => False
  | Some dst_port =>
      if ext_routes then pt_is_pf dst_port = true
      else pt_port_id dst_port = pt_port_id port ∧ dp_route_in_dhcp_range x.1 port = false
  end.
Global Instance listed_dec st port ext x : Decision (listed st port ext x).
Proof. unfold listed. repeat case_match; apply _. Defined.

Definition route_msg (ext_routes : bool) (x : rib_node * rib_data) : route_reply :=
  let ext := rd_ext x.2 in
  if ext_routes
  then MkRouteReply (DP_SET_IPADDR4 x.1.1) x.1.2 (Some (DP_SET_IPADDR6 (rt_nh_ipv6 ext))) (Some (rt_vni ext))
  else MkRouteReply (DP_SET_IPADDR4 x.1.1) x.1.2 None None.

Definition hops_ok (st : ports_state) m : Prop :=
  ∀ n e, m !! n = Some e → ∃ p port, port_by_nh st (rd_nh e) = Some p ∧ ps_ports st !! p = Some port.

Section listing.
Context `{HP : RteMempool} (st : ports_state) (r : rib Rib4) (port : dp_port) (ext : bool).
Hypothesis Hops : hops_ok st (routes r).

Let msgs (l : list (rib_node * rib_data)) := route_msg ext <$> filter (listed st port ext) l.

(** A node, and then the rest of the listing. *)
Lemma list_route_entry_reply n e (k : cmd (dp_grpc_responder route_reply) Z) l resp :
  routes r !! n = Some e → (∀ resp', k resp' = reply_each l resp') →
  (ret ← dp_list_route_entry st r n port ext; if DP_FAILED ret then mret ret else k) resp
  = reply_each (msgs [(n, e)] ++ l) resp.
Proof.
  intros He Hk. destruct (Hops n e He) as (p & dst & Hp & Hdst). unfold dp_list_route_entry, msgs.
  rewrite (rib_get_routes _ _ _ He), Hp. cbn [mbind option_bind]. rewrite Hdst.
  assert (((ext && pt_is_pf dst) || (negb ext && (pt_port_id dst =? pt_port_id port)
      && negb (dp_route_in_dhcp_range n port)) = true) ↔ listed st port ext (n, e)) as Hsel.
  { unfold listed. simpl. rewrite Hp. simpl. rewrite Hdst.
    rewrite orb_true_iff, !andb_true_iff, !negb_true_iff, Z.eqb_eq. destruct ext; naive_solver. }
  destruct (_ || _) eqn:Esel.
  - rewrite filter_cons_True by (by apply Hsel). cbn [fmap list_fmap filter app].
    unfold route_msg. cbn [fst snd]. simpl reply_each.
    unfold mbind, cmd_bind. destruct (dp_grpc_add_reply resp) as [[[i|] resp']|]; [|done|done].
    simpl. by destruct ext; simpl; rewrite Hk.
  - rewrite filter_cons_False by (intros Hs; apply Hsel in Hs; congruence). simpl. apply Hk.
Qed.

Lemma list_nxt_reply l fuel last resp nodes :
  Forall (λ x, routes r !! x.1 = Some x.2) l → (length l < fuel)%nat → nodes = l.*1 →
  rib_get_nxt 0 0 last r = head nodes → (∀ i n, nodes !! i = Some n → rib_get_nxt 0 0 (Some n) r = nodes !! S i) →
  list_nxt fuel st r last port ext resp = reply_each (msgs l) resp.
Proof.
  intros Hl Hf -> Hlast Hnxt. revert fuel last resp Hf Hlast Hnxt.
  induction Hl as [|[n e] l He Hl IH]; intros [|fuel] last resp Hf Hlast Hnxt; simpl in *; try lia.
  { by rewrite Hlast. }
  rewrite Hlast. erewrite (list_route_entry_reply n e _ (msgs l)); [|done|].
  - unfold msgs. change ((n, e) :: l) with ([(n, e)] ++ l). by rewrite filter_app, fmap_app.
  - intros resp'. apply IH; [lia| |].
    + rewrite (Hnxt 0%nat n eq_refl). by destruct l.
    + intros i n' Hi. exact (Hnxt (S i) n' Hi).
Qed.
End listing.

(** The nodes the listing visits, the default route first. *)
Lemma rib_nodes (r : rib Rib4) :
  ∃ l, l ≡ₚ filter (λ x, x.1.2 ≠ 0) (map_to_list (routes r))
    ∧ rib_get_nxt 0 0 None r = head l.*1
    ∧ ∀ i n, l.*1 !! i = Some n → rib_get_nxt 0 0 (Some n) r = l.*1 !! S i.
Proof.
  destruct (rib_get_nxt_all r) as (nodes & Hnd & Hin & Hhead & Hnxt).
  exists (omap (λ n, pair n <$> routes r !! n) nodes).
  assert (Hfst : (omap (λ n, pair n <$> routes r !! n) nodes).*1 = nodes).
  { assert (Hall : Forall (λ n, is_Some (routes r !! n)) nodes) by (apply Forall_forall; naive_solver).
    clear -Hall. induction Hall as [|n l [e He] Hall IH]; [done|]. simpl. rewrite He. simpl. f_equal. exact IH. }
  rewrite Hfst. split_and!; [|done|done].
  apply NoDup_Permutation.
  - apply (NoDup_fmap_1 fst). by rewrite Hfst.
  - apply NoDup_filter, NoDup_map_to_list.
  - intros [n e]. rewrite list_elem_of_omap, list_elem_of_filter, elem_of_map_to_list. simpl. split.
    + intros (n' & Hn' & He). apply fmap_Some in He as (e' & He & [= -> ->]). apply Hin in Hn' as [_ ?]. done.
    + intros [Hd He]. exists n. rewrite He. split; [|done]. apply Hin. split; [by eexists|done].
Qed.

Lemma get_table_eq fam s vni m :
  vni_inv s → vni_routes fam s vni = Some m →
  ∃ q r, dp_get_vni_route_table fam vni s = Some (Some q, s) ∧ ribs fam s !! q = Some r ∧ routes r = m.
Proof.
  intros Hi Hm.
  assert (wp (dp_get_vni_route_table fam vni)
    (λ q' s', s' = s ∧ ∃ q r, q' = Some q ∧ ribs fam s !! q = Some r ∧ routes r = m) s) as Hw.
  { apply wp_get_table; [done|..].
    - intros d q r Hd Hq Hr Hroutes. split; [done|]. exists q, r. split_and!; [done|done|congruence].
    - intros Hnone. congruence. }
  unfold wp in Hw. destruct (dp_get_vni_route_table fam vni s) as [[q' s']|]; [|done].
  destruct Hw as (-> & q & r & -> & ? & ?). eauto.
Qed.

(** There is one default route, whose address is zero. *)
Definition one_default m : Prop := ∀ n : rib_node, is_Some (m !! n) → n.2 = 0 → n = (0, 0).

(** The default route comes first, then the other nodes. *)
Lemma default_first m l :
  one_default m → l ≡ₚ filter (λ x : rib_node * rib_data, x.1.2 ≠ 0) (map_to_list m) →
  match m !! ((0, 0) : rib_node) with Some e => [((0, 0) : rib_node, e)] | None => [] end ++ l ≡ₚ map_to_list m.
Proof.
  intros Hone ->. apply NoDup_Permutation.
  - apply NoDup_app. split_and!; [case_match; [apply NoDup_singleton|apply NoDup_nil_2]| |].
    + intros x Hx [Hd _]%list_elem_of_filter. case_match; set_solver.
    + apply NoDup_filter, NoDup_map_to_list.
  - apply NoDup_map_to_list.
  - intros [n e]. rewrite elem_of_app, list_elem_of_filter, !elem_of_map_to_list. simpl. split.
    + intros [Hin|[_ Hin]]; [|done]. case_match eqn:He; [|set_solver]. apply list_elem_of_singleton in Hin.
      by injection Hin as -> ->.
    + intros He. destruct (decide (n.2 = 0)) as [Hz|]; [left|by right].
      assert (n = (0, 0)) as -> by (apply Hone; [by eexists|done]). rewrite He. set_solver.
Qed.

(** The listing is a reply for each route listed. *)
Lemma list_routes_reply `{HP : RteMempool} st s port vni ext m fuel msg_size :
  vni_inv s → vni_routes Rib4 s vni = Some m → hops_ok st m → one_default m → (size m < fuel)%nat →
  ∃ l, l ≡ₚ filter (listed st port ext) (map_to_list m)
    ∧ ∀ resp, dp_list_routes fuel msg_size st s port vni ext resp
        = (dp_grpc_set_multireply msg_size;; reply_each (route_msg ext <$> l)) resp.
Proof.
  intros Hi Hm Hops Hone Hfuel. destruct (get_table_eq Rib4 s vni m Hi Hm) as (q & r & Hget & Hr & <-).
  destruct (rib_nodes r) as (l & Hl & Hhead & Hnxt).
  assert (Hlm : Forall (λ x, routes r !! x.1 = Some x.2) l).
  { rewrite Hl. apply Forall_forall. intros [n e] [_ Hin%elem_of_map_to_list]%list_elem_of_filter. done. }
  assert (Hlen : (length l < fuel)%nat).
  { rewrite Hl. eapply Nat.le_lt_trans; [apply length_filter|]. by rewrite length_map_to_list. }
  pose proof (default_first (routes r) l Hone Hl) as Hperm.
  eexists (filter (listed st port ext) (_ ++ l)). split; [by rewrite Hperm|].
  intros resp. unfold dp_list_routes. rewrite Hget. change (ribs Rib4 s) with (objs (vn_rib4 s)) in Hr. rewrite Hr.
  unfold mbind at 1 3, cmd_bind at 1 3. destruct (dp_grpc_set_multireply msg_size resp) as [[[] resp1]|]; [|done].
  rewrite filter_app, fmap_app.
  assert (Hrest := λ resp', list_nxt_reply st r port ext Hops l fuel None resp' _ Hlm Hlen eq_refl Hhead Hnxt).
  destruct (rib_lookup_exact 0 0 r) as [n|] eqn:Hex.
  - apply rib_lookup_exact_some in Hex as (_ & -> & [e He]). change (node_of Rib4 0 0) with ((0, 0) : rib_node) in *.
    rewrite He. by apply list_route_entry_reply.
  - apply rib_lookup_exact_none in Hex; [|done]. change (node_of Rib4 0 0) with ((0, 0) : rib_node) in *.
    rewrite Hex. apply Hrest.
Qed.

(** Listing the routes of a network gives the client exactly the routes that
    were asked for (those over the underlay, or those to the port itself), each
    once; if there is no memory for the reply the client gets some of them and an
    error. *)
Theorem list_routes_spec `{HP : RteMempool} st s port vni ext m req pool room sz msg_size fuel :
  vni_inv s → vni_routes Rib4 s vni = Some m → hops_ok st m → one_default m → (size m < fuel)%nat →
  0 < msg_size ≤ room → room / msg_size ≤ UINT16_MAX →
  wp (dp_list_routes fuel msg_size st s port vni ext)
    (λ ret resp, ∃ l k, l ≡ₚ filter (listed st port ext) (map_to_list m)
       ∧ received (dp_grpc_send_response id ret resp) = take k (route_msg ext <$> l)
       ∧ (ret = DP_GRPC_OK ∧ (length l ≤ k)%nat ∨ ret = DP_GRPC_ERR OUT_OF_MEMORY ∧ (k < length l)%nat))
    (dp_grpc_init_responder req pool room sz).
Proof.
  intros Hi Hm Hops Hone Hfuel Hs Hr.
  destruct (list_routes_reply st s port vni ext m fuel msg_size Hi Hm Hops Hone Hfuel) as (l & Hl & Heq).
  unfold wp. rewrite Heq. wp_use (wp_listing req pool room sz msg_size (route_msg ext <$> l) Hs Hr).
  intros ret resp (k & Hk & Hret). exists l, k. rewrite length_fmap in Hret. done.
Qed.

(** *** Filling the tables with the addresses of the interfaces *)

Definition host_ip fam port : Z :=
  match fam with Rib4 => cfg_own_ip (if_cfg (pt_iface port)) | Rib6 => cfg_dhcp_ipv6 (if_cfg (pt_iface port)) end.
Definition host_node fam port : rib_node := node_of fam (host_ip fam port) (rib_max_depth fam).

(** The address and the port of the interfaces of a network. *)
Definition hosts fam (skip : dp_port → bool) (vni : Z) (ports : list dp_port) : list (rib_node * Z) :=
  (λ port, (host_node fam port, pt_port_id port))
    <$> filter (λ port, skip port = false ∧ if_vni (pt_iface port) = vni) ports.

Definition hops_of m : gmap rib_node Z := rd_nh <$> m.
Definition next_hops fam s (vni : Z) : option (gmap rib_node Z) := hops_of <$> vni_routes fam s vni.

(** Adding an address to a table that has a route for it fails. *)
Record filled s s' (hs : rib_family → Z → list (rib_node * Z)) : Prop := {
  fl_inv : vni_inv s';
  fl_refs vni : vni_refs s' vni = vni_refs s vni;
  fl_nhs fam vni : next_hops fam s' vni = (λ h, list_to_map (hs fam vni) ∪ h) <$> next_hops fam s vni;
  fl_some fam vni : hs fam vni ≠ [] → is_Some (next_hops fam s vni);
  fl_nodup fam vni : NoDup (hs fam vni).*1;
  fl_new fam vni h n : next_hops fam s vni = Some h → n ∈ (hs fam vni).*1 → h !! n = None
}.

Lemma next_hops_same s s' fam vni : vni_routes fam s' vni = vni_routes fam s vni → next_hops fam s' vni = next_hops fam s vni.
Proof. unfold next_hops. by intros ->. Qed.

Lemma filled_app s s1 s2 hs1 hs2 hs :
  filled s s1 hs1 → filled s1 s2 hs2 → (∀ fam vni, hs fam vni = hs1 fam vni ++ hs2 fam vni) → filled s s2 hs.
Proof.
  intros [Hi1 Hr1 Hn1 Hs1 Hd1 Hf1] [Hi2 Hr2 Hn2 Hs2 Hd2 Hf2] Hhs.
  assert (Hsome2 : ∀ fam vni, hs2 fam vni ≠ [] → is_Some (next_hops fam s vni)).
  { intros fam vni Hne%Hs2. rewrite Hn1, fmap_is_Some in Hne. done. }
  assert (Hdis : ∀ fam vni n, n ∈ (hs1 fam vni).*1 → n ∉ (hs2 fam vni).*1).
  { intros fam vni n H1 H2. destruct (Hsome2 fam vni) as [m Hm]; [intros E; rewrite E in H2; set_solver|].
    specialize (Hn1 fam vni). rewrite Hm in Hn1. specialize (Hf2 _ _ _ _ Hn1 H2).
    apply lookup_union_None in Hf2 as [Hf2 _]. apply not_elem_of_list_to_map in Hf2. done. }
  constructor; [done|intros; by rewrite Hr2| | | |].
  - intros fam vni. rewrite Hn2, Hn1, Hhs, list_to_map_app. destruct (next_hops fam s vni) as [m|]; [|done]. simpl. f_equal.
    rewrite (assoc_L (∪)). f_equal. apply map_union_comm, map_disjoint_spec. intros n x y H1 H2.
    apply elem_of_list_to_map_2 in H1, H2. apply (Hdis fam vni n); apply list_elem_of_fmap; [by exists (n, y)|by exists (n, x)].
  - intros fam vni. rewrite Hhs. destruct (hs1 fam vni) as [|x l] eqn:E; [by apply Hsome2|].
    intros _. apply Hs1. by rewrite E.
  - intros fam vni. rewrite Hhs, fmap_app. apply NoDup_app. split_and!; auto.
  - intros fam vni m n Hm. rewrite Hhs, fmap_app. intros [H1|H2]%elem_of_app; [by eapply Hf1|].
    specialize (Hn1 fam vni). rewrite Hm in Hn1. specialize (Hf2 _ _ _ _ Hn1 H2).
    by apply lookup_union_None in Hf2 as [_ ?].
Qed.

(** One host route. *)
Definition one_host fam port fam' (vni : Z) : list (rib_node * Z) :=
  if decide (fam' = fam ∧ vni = if_vni (pt_iface port)) then [(host_node fam port, pt_port_id port)] else [].

Definition kept s s' : Prop := vni_inv s' ∧ ∀ vni, vni_refs s' vni = vni_refs s vni.

Lemma wp_add_host fam s port :
  vni_inv s → pt_is_pf port = false →
  wp (dp_add_route fam port (if_vni (pt_iface port)) 0 (host_ip fam port) None (rib_max_depth fam))
    (λ ret s', kept s s' ∧ (ret = DP_GRPC_OK ∨ DP_FAILED ret = true) ∧ (ret = DP_GRPC_OK → filled s s' (one_host fam port))) s.
Proof.
  set (vni := if_vni (pt_iface port)). intros Hi Hpf.
  wp_use (wp_add_route fam s port vni 0 _ None _ Hi); [by destruct fam|by rewrite Hpf|].
  intros ret s'. unfold on_table. destruct (vni_routes fam s vni) as [m|] eqn:Hm.
  2: { intros [-> ->]. split_and!; [done|by right|done]. }
  intros (m' & Hspec & [Hi' Href Hm' Hother]). unfold add_route_spec in Hspec. fold (host_node fam port) in Hspec.
  split; [done|]. destruct (m !! host_node fam port) as [|] eqn:Hn.
  { destruct Hspec as [-> ->]. split; [by right|done]. }
  destruct Hspec as [[-> ->]|(-> & e & -> & Hnh & _)]; [split; [by right|done]|]. split; [by left|]. intros _.
  assert (Hnone : ∀ fam' vni', ¬ (fam' = fam ∧ vni' = vni) → next_hops fam' s' vni' = next_hops fam' s vni').
  { intros fam' vni' Hne. apply next_hops_same, Hother. destruct (decide (fam' = fam)); naive_solver. }
  constructor; try done; intros fam' vni'; unfold one_host; fold vni; case_decide as Hd;
    try destruct Hd as [-> ->]; simpl.
  - unfold next_hops. rewrite Hm, Hm'. simpl. f_equal. unfold hops_of. rewrite fmap_insert, Hnh.
    by rewrite insert_empty, <- insert_union_singleton_l.
  - rewrite Hnone by done. destruct (next_hops fam' s vni'); simpl; [|done]. f_equal. by rewrite (left_id_L ∅ (∪)).
  - intros _. unfold next_hops. rewrite Hm. by eexists.
  - done.
  - apply NoDup_singleton.
  - apply NoDup_nil_2.
  - intros m0 n. unfold next_hops. rewrite Hm. intros [= <-] ->%list_elem_of_singleton.
    unfold hops_of. by rewrite lookup_fmap, Hn.
  - set_solver.
Qed.

Lemma kept_trans s s1 s2 : kept s s1 → kept s1 s2 → kept s s2.
Proof. intros [? H1] [? H2]. split; [done|]. intros. by rewrite H2. Qed.

Lemma wp_fill_port s port :
  vni_inv s → pt_is_pf port = false →
  wp (dp_lpm_fill_route_tables port)
    (λ ret s', kept s s' ∧ (ret = DP_GRPC_OK ∨ DP_FAILED ret = true)
       ∧ (ret = DP_GRPC_OK → filled s s' (λ fam vni, one_host fam port fam vni))) s.
Proof.
  intros Hi Hpf. unfold dp_lpm_fill_route_tables. apply wp_bind. wp_use (wp_add_host Rib4 s port Hi Hpf).
  intros ret s1 ([Hi1 Hr1] & Hret & Hf1). destruct Hret as [->|Hret]; last first.
  { rewrite Hret. apply wp_ret. split_and!; [done|by right|]. by intros ->. }
  change (DP_FAILED DP_GRPC_OK) with false. apply wp_bind. wp_use (wp_add_host Rib6 s1 port Hi1 Hpf).
  intros ret s2 (Hk2 & Hret & Hf2). assert (kept s s2) by (by eapply kept_trans). destruct Hret as [->|Hret]; last first.
  { rewrite Hret. apply wp_ret. split_and!; [done|by right|]. by intros ->. }
  apply wp_ret. split_and!; [done|by left|]. intros _. eapply filled_app; [by apply Hf1|by apply Hf2|].
  intros [] vni; unfold one_host; simpl; repeat case_decide; naive_solver.
Qed.

Lemma hosts_cons fam skip vni port ports :
  hosts fam skip vni (port :: ports)
  = (if skip port then [] else one_host fam port fam vni) ++ hosts fam skip vni ports.
Proof.
  unfold hosts, one_host. rewrite filter_cons. destruct (skip port) eqn:E; repeat case_decide; naive_solver.
Qed.

Lemma wp_fill_ports skip ports s :
  vni_inv s → (∀ port, port ∈ ports → skip port = false → pt_is_pf port = false) →
  wp (fill_ports skip ports)
    (λ ret s', kept s s' ∧ (ret = DP_GRPC_OK → filled s s' (λ fam vni, hosts fam skip vni ports))) s.
Proof.
  revert s. induction ports as [|port ports IH]; intros s Hi Hpf; simpl.
  { apply wp_ret. split; [done|]. intros _. constructor; try done.
    - intros fam vni. destruct (next_hops fam s vni); [|done]. simpl. by rewrite (left_id_L ∅ (∪)).
    - intros. apply NoDup_nil_2.
    - set_solver. }
  destruct (skip port) eqn:Hskip.
  { wp_use (IH s Hi); [set_solver|]. intros ret s' [Hk Hf]. split; [done|]. intros Hret. specialize (Hf Hret).
    eapply (filled_app s s s' (λ _ _, [])); [|exact Hf|intros fam vni; by rewrite hosts_cons, Hskip].
    constructor; try done.
    - intros fam vni. destruct (next_hops fam s vni); [|done]. simpl. by rewrite (left_id_L ∅ (∪)).
    - intros. apply NoDup_nil_2.
    - set_solver. }
  apply wp_bind. wp_use (wp_fill_port s port Hi); [apply Hpf; [set_solver|done]|].
  intros ret s1 (Hk1 & Hret & Hf1). destruct Hret as [->|Hret]; last first.
  { rewrite Hret. apply wp_ret. split; [done|]. by intros ->. }
  change (DP_FAILED DP_GRPC_OK) with false. cbn match. destruct Hk1 as [Hi1 ?]. wp_use (IH s1 Hi1); [set_solver|].
  intros ret s' [Hk Hf]. split; [by eapply kept_trans|]. intros Hret.
  eapply filled_app; [by apply Hf1|by apply Hf|]. intros fam vni. by rewrite hosts_cons, Hskip.
Qed.

(** *** Resetting *)

Definition not_ready port : bool := negb (if_ready (pt_iface port)).
Definition not_in (vni : Z) port : bool := not_ready port || negb (if_vni (pt_iface port) =? vni).

(** Interfaces are on virtual functions. *)
Definition ifaces_on_vfs (st : ports_state) : Prop :=
  ∀ port, port ∈ ps_ports st → if_ready (pt_iface port) = true → pt_is_pf port = false.

(** The interfaces [ready] in a network have all their addresses in its tables,
    and nothing else is there. *)
Definition only_hosts (st : ports_state) s s' fam (vni : Z) : Prop :=
  next_hops fam s' vni = (λ _, list_to_map (hosts fam not_ready vni (ps_ports st))) <$> vni_refs s vni
  ∧ NoDup (hosts fam not_ready vni (ps_ports st)).*1.

Lemma hosts_not_in fam vni vni' ports :
  hosts fam (not_in vni) vni' ports = if decide (vni' = vni) then hosts fam not_ready vni ports else [].
Proof.
  unfold hosts, not_in. case_decide as Hv; [subst vni'|].
  - f_equal. apply list_filter_iff. intros port. rewrite orb_false_iff, negb_false_iff, Z.eqb_eq. tauto.
  - induction ports as [|port ports IH]; [done|]. rewrite filter_cons_False; [done|].
    rewrite orb_false_iff, negb_false_iff, Z.eqb_eq. naive_solver.
Qed.

Lemma filled_only_hosts st s s1 s' skip vni :
  (∀ fam, hosts fam skip vni (ps_ports st) = hosts fam not_ready vni (ps_ports st)) →
  (∀ fam, vni_routes fam s1 vni = (λ _, ∅) <$> vni_refs s vni) →
  filled s1 s' (λ fam vni, hosts fam skip vni (ps_ports st)) → ∀ fam, only_hosts st s s' fam vni.
Proof.
  intros Hskip Hem [_ _ Hn _ Hd _] fam. split.
  - rewrite Hn. unfold next_hops. rewrite Hem, Hskip. destruct (vni_refs s vni); [|done]. simpl. f_equal.
    unfold hops_of. by rewrite fmap_empty, (right_id_L ∅ (∪)).
  - specialize (Hd fam vni). simpl in Hd. by rewrite Hskip in Hd.
Qed.

Lemma wp_lpm_reset st s vni :
  vni_inv s → ifaces_on_vfs st →
  wp (dp_lpm_reset_route_tables vni)
    (λ ret x, x.1 = st ∧ (ret = DP_GRPC_OK → vni_inv x.2 ∧ (∀ vni', vni_refs x.2 vni' = vni_refs s vni')
       ∧ (∀ fam, only_hosts st s x.2 fam vni)
       ∧ ∀ fam vni', vni' ≠ vni → next_hops fam x.2 vni' = next_hops fam s vni')) (st, s).
Proof.
  intros Hi Hvf. unfold dp_lpm_reset_route_tables. apply wp_bind, wp_zoom. wp_use (wp_reset_vni s vni Hi).
  intros ret s1 [(-> & Hi1 & Href & Hoth & _ & Hem)|(-> & fam & _)].
  2: { apply wp_ret. split; [done|]. discriminate. }
  change (DP_FAILED DP_OK) with false. wp_steps. cbn [lget lput fstL sndL fst snd].
  change (λ port, negb (if_ready (pt_iface port)) || negb (if_vni (pt_iface port) =? vni)) with (not_in vni).
  wp_use (wp_fill_ports (not_in vni) (ps_ports st) s1 Hi1).
  { intros port Hp [Hr _]%orb_false_iff. apply negb_false_iff in Hr. auto. }
  intros ret s' [[Hi' Hr'] Hf]. simpl. split; [done|]. intros Hret. specialize (Hf Hret). split_and!; [done|..].
  - intros vni'. rewrite Hr'. destruct (decide (vni' = vni)) as [->|]; [done|]. by apply Hoth.
  - eapply filled_only_hosts; [|exact Hem|exact Hf]. intros fam. by rewrite hosts_not_in, decide_True.
  - intros fam vni' Hne. rewrite (fl_nhs _ _ _ Hf), hosts_not_in, decide_False by done.
    rewrite (next_hops_same s s1) by (by apply Hoth). destruct (next_hops fam s vni'); [|done]. simpl.
    by rewrite (left_id_L ∅ (∪)).
Qed.

Lemma wp_lpm_reset_all st s :
  vni_inv s → ifaces_on_vfs st →
  wp dp_lpm_reset_all_route_tables
    (λ ret x, x.1 = st ∧ (ret = DP_GRPC_OK → vni_inv x.2 ∧ (∀ vni, vni_refs x.2 vni = vni_refs s vni)
       ∧ ∀ fam vni, only_hosts st s x.2 fam vni)) (st, s).
Proof.
  intros Hi Hvf. unfold dp_lpm_reset_all_route_tables. apply wp_bind, wp_zoom. wp_use (wp_reset_all s Hi).
  intros ret s1 [(-> & Hi1 & Href & Hem & _)|(-> & fam & _)].
  2: { apply wp_ret. split; [done|]. discriminate. }
  change (DP_FAILED DP_OK) with false. wp_steps. cbn [lget lput fstL sndL fst snd].
  change (λ port, negb (if_ready (pt_iface port))) with not_ready.
  wp_use (wp_fill_ports not_ready (ps_ports st) s1 Hi1).
  { intros port Hp Hr. apply negb_false_iff in Hr. auto. }
  intros ret s' [[Hi' Hr'] Hf]. simpl. split; [done|]. intros Hret. specialize (Hf Hret). split_and!; [done|..].
  - intros vni. by rewrite Hr'.
  - intros fam vni. eapply filled_only_hosts; [done|intros; by apply Hem|exact Hf].
Qed.

(** A reset of all routes that succeeds leaves, in every network, exactly the
    addresses of the interfaces that are ready in it, each with the port of its
    interface. *)
Theorem reset_all_routes_spec st s :
  vni_inv s → ifaces_on_vfs st →
  wp dp_lpm_reset_all_route_tables
    (λ ret x, x.1 = st ∧ (ret = DP_GRPC_OK → vni_inv x.2 ∧ (∀ vni, vni_refs x.2 vni = vni_refs s vni)
       ∧ ∀ fam vni, only_hosts st s x.2 fam vni)) (st, s).
Proof. apply wp_lpm_reset_all. Qed.

(** With two ready interfaces in a network that have the same IPv4 address, for
    instance none, the reset of the routes of the network always fails: the
    address of an interface without one is installed like any other. *)
Theorem reset_same_address_fails st s vni i j port1 port2 :
  vni_inv s → ifaces_on_vfs st → i ≠ j → ps_ports st !! i = Some port1 → ps_ports st !! j = Some port2 →
  if_ready (pt_iface port1) = true → if_ready (pt_iface port2) = true →
  if_vni (pt_iface port1) = vni → if_vni (pt_iface port2) = vni →
  cfg_own_ip (if_cfg (pt_iface port1)) = cfg_own_ip (if_cfg (pt_iface port2)) →
  wp (dp_lpm_reset_route_tables vni) (λ ret _, ret ≠ DP_GRPC_OK) (st, s).
Proof.
  intros Hi Hvf Hij H1 H2 Hr1 Hr2 Hv1 Hv2 Hip. wp_use (wp_lpm_reset st s vni Hi Hvf).
  intros ret x [_ Hok] Hret. destruct (Hok Hret) as (_ & _ & Hhosts & _). destruct (Hhosts Rib4) as [_ Hnd].
  unfold hosts in Hnd. rewrite <- list_fmap_compose in Hnd.
  assert (Hsplit : ∀ l (k1 k2 : nat), (k1 < k2)%nat → ∀ a b, l !! k1 = Some a → l !! k2 = Some b →
    host_node Rib4 a = host_node Rib4 b → not_ready a = false ∧ if_vni (pt_iface a) = vni →
    not_ready b = false ∧ if_vni (pt_iface b) = vni →
    ¬ NoDup ((fst ∘ λ port, (host_node Rib4 port, pt_port_id port))
       <$> filter (λ port, not_ready port = false ∧ if_vni (pt_iface port) = vni) l)).
  { intros l k1 k2 Hlt a b Ha Hb Hab Ha' Hb' Hl. rewrite <- (take_drop_middle l k1 a Ha) in Hl.
    rewrite filter_app, filter_cons_True, fmap_app, fmap_cons in Hl by done.
    apply NoDup_app in Hl as (_ & _ & Hl). apply NoDup_cons in Hl as [Hl _]. apply Hl. simpl. rewrite Hab.
    apply list_elem_of_fmap. exists b. split; [done|]. apply list_elem_of_filter. split; [done|].
    apply (list_elem_of_lookup_2 _ (k2 - S k1)). rewrite lookup_drop. by replace (S k1 + (k2 - S k1))%nat with k2 by lia. }
  assert (host_node Rib4 port1 = host_node Rib4 port2) as Hh by (unfold host_node; simpl; by rewrite Hip).
  unfold not_ready in Hsplit. destruct (decide (i < j)%nat).
  - eapply (Hsplit _ i j); try done; by rewrite ?Hr1, ?Hr2.
  - eapply (Hsplit _ j i); try done; [lia|by rewrite ?Hr1, ?Hr2..].
Qed.
End lpm_facts.

(** ** Examples *)

Section lpm_examples.
#[local] Existing Instances test_hash test_hash_ok test_malloc test_malloc_ok test_rib test_rib_ok list_mempool.

Definition ex_iface_port (id : Z) : dp_port :=
  set_iface (λ i, i <| if_vni := 100 |> <| if_ready := true |>) zero_port <| pt_port_id := id |>.
Definition ex_pf : dp_port := zero_port <| pt_is_pf := true |>.

(** A physical port and two interfaces without an address in network 100. *)
Definition ex_lpm_ports : ports_state :=
  MkPorts [ex_pf; ex_iface_port 1; ex_iface_port 2] {[0 := 0%nat; 1 := 1%nat; 2 := 2%nat]} [0%nat]
    (Heap (H := test_malloc) ∅ ([] : list bool)).

Lemma ex_lpm_ports_ok : ports_ok ex_lpm_ports.
Proof.
  intros i p Hp. unfold ex_lpm_ports in Hp. simpl in Hp.
  rewrite !lookup_insert_Some, lookup_singleton_Some in Hp.
  assert (p = 0 ∨ p = 1 ∨ p = 2)%nat as [-> | [-> | ->]] by naive_solver; by eexists.
Qed.

Lemma ex_lpm_vfs : ifaces_on_vfs ex_lpm_ports.
Proof.
  intros port Hp. repeat (apply elem_of_cons in Hp as [->|Hp]; [done || discriminate|]). by apply not_elem_of_nil in Hp.
Qed.

Lemma ex_vni_100_routes fam : vni_routes fam ex_vni_100 100 = Some ∅.
Proof. destruct fam; vm_compute; reflexivity. Qed.

(** The route 10.0.0.0/8 over the underlay. *)
Definition ex_route : cmd vni_state Z :=
  dp_add_route Rib4 ex_pf 100 200 (RTE_IPV4 10 0 0 0) (Some 77) 8.
Definition ex_routed : vni_state := run_state ex_vni_100 ex_route.

Lemma ex_route_eq : ex_route ex_vni_100 = Some (DP_GRPC_OK, ex_routed).
Proof. vm_run. Qed.

Lemma ex_routed_inv : vni_inv ex_routed.
Proof.
  pose proof (wp_elim _ _ _ _ _ (wp_add_route Rib4 ex_vni_100 ex_pf 100 200 (RTE_IPV4 10 0 0 0) (Some 77) 8
    ex_vni_100_inv eq_refl (λ _, ex_intro _ 77 eq_refl)) ex_route_eq) as Hon.
  unfold on_table in Hon. rewrite ex_vni_100_routes in Hon. destruct Hon as (m' & _ & Hu). apply Hu.
Qed.

Lemma add_route_forwarding_witness :
  out_port_for Rib4 ex_lpm_ports ex_routed (ex_iface_port 1) 0 (RTE_IPV4 10 1 2 3)
  = Some (Some (MkOutPort 0 (Some (MkRoute 200 77)) (RTE_IPV4 10 0 0 0)))
  ∧ out_port_for Rib4 ex_lpm_ports ex_routed (ex_iface_port 1) 0 (RTE_IPV4 11 1 2 3)
    = out_port_for Rib4 ex_lpm_ports ex_vni_100 (ex_iface_port 1) 0 (RTE_IPV4 11 1 2 3).
Proof.
  assert (Hth := λ dst, add_route_forwarding Rib4 ex_lpm_ports ex_vni_100 ex_routed ex_pf 0%nat (ex_iface_port 1)
    100 0 200 (RTE_IPV4 10 0 0 0) (Some 77) 8 dst ∅ ex_vni_100_inv ex_lpm_ports_ok eq_refl
    (λ _, ex_intro _ 77 eq_refl) eq_refl eq_refl eq_refl (ex_vni_100_routes Rib4) ex_route_eq).
  split.
  - apply (proj1 (Hth (RTE_IPV4 10 1 2 3))); [vm_compute; reflexivity|]. intros n [e He]. by rewrite lookup_empty in He.
  - apply (proj2 (Hth (RTE_IPV4 11 1 2 3))). left. vm_compute. discriminate.
Defined.

Lemma add_del_route_witness :
  wp (dp_del_route Rib4 ex_pf 100 (RTE_IPV4 10 0 0 0) 8)
    (λ ret s2, ret = DP_GRPC_OK ∧ vni_routes Rib4 s2 100 = Some ∅) ex_routed.
Proof.
  wp_use (add_del_route Rib4 ex_vni_100 ex_routed ex_pf 100 200 (RTE_IPV4 10 0 0 0) (Some 77) 8
    ex_vni_100_inv eq_refl (λ _, ex_intro _ 77 eq_refl) ex_route_eq).
  intros ret s2 (Hret & _ & Hr). split; [exact Hret|]. rewrite Hr. apply ex_vni_100_routes.
Defined.

(** One interface. *)
Definition ex_one_port : ports_state := ex_lpm_ports <| ps_ports := [ex_pf; ex_iface_port 1] |>.
Definition ex_reset : vni_state := (run_state (ex_one_port, ex_routed) dp_lpm_reset_all_route_tables).2.

Lemma ex_one_port_vfs : ifaces_on_vfs ex_one_port.
Proof. intros port Hp. apply elem_of_cons in Hp as [->|Hp]; [discriminate|]. by apply list_elem_of_singleton in Hp as ->. Qed.

Lemma ex_reset_eq :
  dp_lpm_reset_all_route_tables (ex_one_port, ex_routed) = Some (DP_GRPC_OK, (ex_one_port, ex_reset)).
Proof. vm_run. Qed.

Lemma ex_reset_hosts x :
  only_hosts ex_one_port ex_routed x Rib4 100 → next_hops Rib4 x 100 = Some {[(0, 32) := 1]}.
Proof. intros [-> _]. vm_compute. reflexivity. Qed.

Lemma reset_all_routes_spec_witness :
  next_hops Rib4 (ex_one_port, ex_reset).2 100 = Some {[(0, 32) := 1]}.
Proof.
  destruct (wp_elim _ _ _ _ _ (reset_all_routes_spec ex_one_port ex_routed ex_routed_inv ex_one_port_vfs) ex_reset_eq)
    as [_ Hok].
  destruct (Hok eq_refl) as (_ & _ & Hh). exact (ex_reset_hosts _ (Hh Rib4 100)).
Defined.

Lemma reset_same_address_fails_witness :
  wp (dp_lpm_reset_route_tables 100) (λ ret _, ret ≠ DP_GRPC_OK) (ex_lpm_ports, ex_vni_100).
Proof.
  apply (reset_same_address_fails ex_lpm_ports ex_vni_100 100 1 2 (ex_iface_port 1) (ex_iface_port 2)
    ex_vni_100_inv ex_lpm_vfs ltac:(done)); reflexivity.
Defined.

Lemma list_routes_spec_witness :
  wp (dp_list_routes 5 40 ex_lpm_ports ex_routed ex_pf 100 true)
    (λ ret resp, ∃ l k, l ≡ₚ [((RTE_IPV4 10 0 0 0, 8), MkRibData 0 (MkRoute 200 77))]
       ∧ received (dp_grpc_send_response id ret resp) = take k (route_msg true <$> l))
    (dp_grpc_init_responder (H := list_mempool) (MkReply true 7 7 ∅) [] 250 120).
Proof.
  set (m := {[(RTE_IPV4 10 0 0 0, 8) := MkRibData 0 (MkRoute 200 77)]} : gmap rib_node rib_data).
  assert (Hm : vni_routes Rib4 ex_routed 100 = Some m) by (vm_compute; reflexivity).
  wp_use (list_routes_spec (HP := list_mempool) ex_lpm_ports ex_routed ex_pf 100 true m (MkReply true 7 7 ∅) [] 250 120 40 5).
  - exact ex_routed_inv.
  - exact Hm.
  - intros n e [_ <-]%lookup_singleton_Some. exists 0%nat, ex_pf. split; vm_compute; reflexivity.
  - intros n [e [<- _]%lookup_singleton_Some]. discriminate.
  - vm_compute. lia.
  - lia.
  - vm_compute. discriminate.
  - intros ret resp (l & k & Hl & Hrec & _). exists l, k. split; [|exact Hrec]. rewrite Hl. vm_compute. reflexivity.
Defined.
End lpm_examples.
