(* ===== verification/Flow.v ===== *)
(** * The flow table (src/dp_flow.c, include/dp_refcount.h)

    Both keys of a connection lead to its [flow_value], which holds the keys, a
    reference count (one for the table, one per hardware rule) and pointers to
    the contexts of its hardware rules.  Hardware rules themselves belong to
    DPDK: the requests to destroy them are recorded in [fl_requests], and the
    answers to the queries about their age are an argument.

    The one-entry lookup cache of src/dp_cntrack.c is part of the state because
    every deletion flushes it; it is used in [Cntrack]. *)

From S2P Require Import Prelude Dpdk Error Types Port Vnf Conn Mbuf Nat.

Definition DP_ICMPV6_ECHO_REQUEST : Z := 128.
Definition DP_ICMPV6_ECHO_REPLY : Z := 129.

Inductive rte_flow_request :=
  | ActionHandleDestroy (port_id handle : Z)
  | FlowDestroy (port_id rte_flow : Z).

(** [fc_prev] and [fc_curr] point to one of the two keys of [key_cache]
    ([true] is the second). *)
Record flow_cache := MkFlowCache {
  fc_key0 : flow_key;
  fc_key1 : flow_key;
  fc_index : Z;
  fc_prev : option bool;
  fc_curr : bool;
  fc_flow_val : option loc
}.
Global Instance flow_cache_eta : Eta flow_cache := λ r,
  MkFlowCache (fc_key0 r) (fc_key1 r) (fc_index r) (fc_prev r) (fc_curr r) (fc_flow_val r).
Definition fc_key (c : flow_cache) (i : bool) : flow_key := if i then fc_key1 c else fc_key0 c.
Definition set_fc_key (c : flow_cache) (i : bool) (k : flow_key) : flow_cache :=
  if i then c <| fc_key1 := k |> else c <| fc_key0 := k |>.

Record flow_state `{RteHash} `{RteMalloc} := MkFlowState {
  ipv4_flow_tbl : rte_hash flow_key loc;
  fl_vals : heap flow_value;
  fl_ctxs : heap flow_age_ctx;
  fl_requests : list rte_flow_request;
  fl_offload_mode_enabled : bool;
  fl_cache : flow_cache
}.
Arguments MkFlowState {_ _} _ _ _ _ _ _.
Global Instance flow_state_eta `{RteHash} `{RteMalloc} : Eta flow_state := λ r,
  MkFlowState (ipv4_flow_tbl r) (fl_vals r) (fl_ctxs r) (fl_requests r)
    (fl_offload_mode_enabled r) (fl_cache r).

(** The flow table and the components it calls. *)
Record conn_state `{RteHash} `{RteMalloc} := MkConnState {
  cs_flow : flow_state;
  cs_nat : nat_state;
  cs_vnf : vnf_state;
  cs_ports : ports_state
}.
Arguments MkConnState {_ _} _ _ _ _.
Global Instance conn_state_eta `{RteHash} `{RteMalloc} : Eta conn_state := λ r,
  MkConnState (cs_flow r) (cs_nat r) (cs_vnf r) (cs_ports r).

Section flow.
Context `{HH : RteHash} `{HM : RteMalloc}.

Definition flowL : lens conn_state flow_state := Lens cs_flow (λ x s, s <| cs_flow := x |>).
Definition natL : lens conn_state nat_state := Lens cs_nat (λ x s, s <| cs_nat := x |>).
Definition vnfL : lens conn_state vnf_state := Lens cs_vnf (λ x s, s <| cs_vnf := x |>).
Definition portsL : lens conn_state ports_state := Lens cs_ports (λ x s, s <| cs_ports := x |>).
Definition natportsL : lens conn_state (nat_state * ports_state) :=
  Lens (λ s, (cs_nat s, cs_ports s)) (λ x s, s <| cs_nat := x.1 |> <| cs_ports := x.2 |>).

Definition valsL : lens flow_state (heap flow_value) := Lens fl_vals (λ x s, s <| fl_vals := x |>).
Definition ctxsL : lens flow_state (heap flow_age_ctx) := Lens fl_ctxs (λ x s, s <| fl_ctxs := x |>).

Definition fv_load (p : loc) : cmd conn_state flow_value := zoom flowL (zoom valsL (hp_load p)).
Definition fv_store (p : loc) (v : flow_value) : cmd conn_state () :=
  zoom flowL (zoom valsL (hp_store p v)).
Definition fv_free (p : loc) : cmd conn_state () := zoom flowL (zoom valsL (hp_free p)).
Definition ctx_load (p : loc) : cmd conn_state flow_age_ctx := zoom flowL (zoom ctxsL (hp_load p)).
Definition ctx_store (p : loc) (v : flow_age_ctx) : cmd conn_state () :=
  zoom flowL (zoom ctxsL (hp_store p v)).
Definition ctx_free (p : loc) : cmd conn_state () := zoom flowL (zoom ctxsL (hp_free p)).

(** [offload_enabled] is [dp_conf_is_offload_enabled()]. *)
Definition dp_flow_init (offload_enabled : bool) (st1 st2 : malloc_state) : Z * option flow_state :=
  match rte_hash_create (DP_JHASH_MARGIN_COEF DP_FLOW_TABLE_MAX) with
  | None => (DP_ERROR, None)
  | Some tbl =>
      (DP_OK, Some (MkFlowState tbl (Heap ∅ st1) (Heap ∅ st2) [] offload_enabled
                      (MkFlowCache zero_flow_key zero_flow_key 0 None false None)))
  end.

(** ** Keys *)

Definition set_key_icmp (port_dst type_src : Z) (key : flow_key) : flow_key :=
  key <| fk_port_dst := port_dst |> <| fk_port_src := type_src |>.

(** The state of a packet being handled: the components and the packet. *)
Definition pkt_state : Type := conn_state * rte_mbuf.

Definition dp_build_icmp_flow_key (df : dp_flow) (key : flow_key) : cmd pkt_state (Z * flow_key) :=
  if (df_icmp_type df =? RTE_IP_ICMP_ECHO_REPLY) || (df_icmp_type df =? RTE_IP_ICMP_ECHO_REQUEST) then
    mret (DP_OK, set_key_icmp (ntohs (df_icmp_identifier df)) (df_icmp_type df) key)
  else if df_icmp_type df =? DP_IP_ICMP_TYPE_ERROR then
    if negb (df_icmp_code df =? DP_IP_ICMP_CODE_DST_PROTO_UNREACHABLE)
       && negb (df_icmp_code df =? DP_IP_ICMP_CODE_DST_PORT_UNREACHABLE)
       && negb (df_icmp_code df =? DP_IP_ICMP_CODE_FRAGMENT_NEEDED)
    then mret (DP_ERROR, key)
    else
      info ← zoom sndL (dp_get_icmp_err_ip_hdr (MkErrInfo None 0 0));
      match ei_err_ipv4_hdr info with
      | None => mret (DP_ERROR, key)
      | Some err =>
          if (ei_l4_src_port info =? 0) || (ei_l4_dst_port info =? 0) then mret (DP_ERROR, key)
          else
            src_addr ← zoom sndL (ld32 (err + ip4_src));
            dst_addr ← zoom sndL (ld32 (err + ip4_dst));
            proto ← zoom sndL (ld8 (err + ip4_proto));
            mret (DP_OK,
              key <| fk_l3_dst := DP_SET_IPADDR4 (ntohl src_addr) |>
                  <| fk_l3_src := DP_SET_IPADDR4 (ntohl dst_addr) |>
                  <| fk_proto := proto |>
                  <| fk_port_dst := ntohs (ei_l4_src_port info) |>
                  <| fk_port_src := ntohs (ei_l4_dst_port info) |>)
      end
  else mret (DP_ERROR, key).

Definition dp_mark_vnf_type (df : dp_flow) (port : dp_port) (key : flow_key) :
    cmd conn_state flow_key :=
  if pt_is_pf port then
    mret (if bool_decide (df_vnf_type df = DP_VNF_TYPE_NAT)
             || bool_decide (df_vnf_type df = DP_VNF_TYPE_LB_ALIAS_PFX)
          then key <| fk_vnf_type := df_vnf_type df |>
          else key <| fk_vnf_type := DP_VNF_TYPE_UNDEFINED |>)
  else if is_v6 (fk_l3_src key) && is_v6 (fk_l3_dst key) then
    mret (if dp_is_ip6_in_nat64_range (ipv6 (fk_l3_dst key))
          then key <| fk_vnf_type := DP_VNF_TYPE_NAT |> else key)
  else
    s_data ← zoom natL (dp_get_iface_snat_data (ipv4 (fk_l3_src key)) (fk_vni key));
    natted ← (match s_data with
              | None => mret false
              | Some p => d ← zoom natL (zoom snatT (ot_load p)); mret (negb (sd_nat_ip d =? 0))
              end);
    if (natted : bool) then mret (key <| fk_vnf_type := DP_VNF_TYPE_NAT |>)
    else
      lbpfx ← zoom vnfL (dp_vnf_lbprefix_exists (pt_port_id port) (fk_vni key) (fk_l3_src key) 32);
      mret (if (lbpfx : bool) then key <| fk_vnf_type := DP_VNF_TYPE_LB_ALIAS_PFX |>
            else key <| fk_vnf_type := DP_VNF_TYPE_UNDEFINED |>).

(** The port a packet came from, and what the pointer points to. *)
Definition in_port_ptr : cmd pkt_state (option nat) :=
  id ← gets (λ s, mb_port s.2);
  zoom fstL (zoom portsL (dp_get_in_port id)).
Definition deref_port (port : option nat) : cmd conn_state dp_port :=
  match port with
  | None => fault
  | Some p => zoom portsL (get_port p)
  end.

(** [key] is what the key's memory holds before; the result is what it holds
    after, also when the call fails. *)
Definition dp_build_flow_key (key : flow_key) : cmd pkt_state (Z * flow_key) :=
  df ← zoom sndL get_df;
  portp ← in_port_ptr;
  let addrs :=
    if df_l3_type df =? RTE_ETHER_TYPE_IPV4 then
      Some (DP_SET_IPADDR4 (ntohl (df_dst_addr df)), DP_SET_IPADDR4 (ntohl (df_src_addr df)))
    else if df_l3_type df =? RTE_ETHER_TYPE_IPV6 then
      Some (DP_SET_IPADDR6 (df_dst_addr6 df), DP_SET_IPADDR6 (df_src_addr6 df))
    else None in
  match addrs with
  | None => mret (DP_ERROR, key)
  | Some (dst, src) =>
      port ← zoom fstL (deref_port portp);
      let key := key <| fk_l3_dst := dst |> <| fk_l3_src := src |> <| fk_proto := df_l4_type df |>
        <| fk_vni := if pt_is_pf port then df_tun_dst_vni df else if_vni (pt_iface port) |> in
      key ← zoom fstL (dp_mark_vnf_type df port key);
      if (df_l4_type df =? IPPROTO_TCP) || (df_l4_type df =? IPPROTO_UDP) then
        mret (DP_OK, key <| fk_port_dst := ntohs (df_trans_dst_port df) |>
                         <| fk_port_src := ntohs (df_trans_src_port df) |>)
      else if df_l4_type df =? IPPROTO_ICMP then dp_build_icmp_flow_key df key
      else if df_l4_type df =? IPPROTO_ICMPV6 then
        mret (DP_OK, set_key_icmp (ntohs (df_icmp_identifier df)) (df_icmp_type df) key)
      else mret (DP_ERROR, key)
  end.

Definition dp_invert_flow_key (key : flow_key) : flow_key :=
  let inv port_dst port_src :=
    MkFlowKey (dp_copy_ipaddr (fk_l3_src key)) (fk_proto key) port_dst
      (dp_copy_ipaddr (fk_l3_dst key)) (fk_vnf_type key) port_src (fk_vni key) in
  if (fk_proto key =? IPPROTO_TCP) || (fk_proto key =? IPPROTO_UDP) then
    inv (fk_port_src key) (fk_port_dst key)
  else if fk_proto key =? IPPROTO_ICMP then
    inv (fk_port_dst key)
      (if fk_port_src key =? RTE_IP_ICMP_ECHO_REPLY then RTE_IP_ICMP_ECHO_REQUEST
       else if fk_port_src key =? RTE_IP_ICMP_ECHO_REQUEST then RTE_IP_ICMP_ECHO_REPLY
       else 0)
  else if fk_proto key =? IPPROTO_ICMPV6 then
    inv (fk_port_dst key)
      (if fk_port_src key =? DP_ICMPV6_ECHO_REPLY then DP_ICMPV6_ECHO_REQUEST
       else if fk_port_src key =? DP_ICMPV6_ECHO_REQUEST then DP_ICMPV6_ECHO_REPLY
       else 0)
  else inv 0 0.

(** ** The table *)

Definition dp_delete_flow_no_flush (key : flow_key) : cmd conn_state () :=
  zoom flowL (modify (λ s, s <| ipv4_flow_tbl := (rte_hash_del_key (ipv4_flow_tbl s) key).2 |>)).

(** src/dp_cntrack.c *)
Definition dp_cntrack_flush_cache : cmd conn_state () :=
  zoom flowL (modify (λ s, s <| fl_cache :=
    (fl_cache s) <| fc_prev := None |> <| fc_flow_val := None |> |>)).

Definition dp_delete_flow (key : flow_key) : cmd conn_state () :=
  dp_delete_flow_no_flush key;; dp_cntrack_flush_cache.

Definition dp_add_flow (key : flow_key) (flow_val : loc) : cmd conn_state Z :=
  zoom flowL (λ s,
    let '(ret, tbl) := rte_hash_add_key_data (ipv4_flow_tbl s) key flow_val in
    Some (if DP_FAILED ret then ret else DP_OK, s <| ipv4_flow_tbl := tbl |>)).

Definition dp_get_flow (key : flow_key) : cmd conn_state (Z * option loc) :=
  zoom flowL (gets (λ s, rte_hash_lookup_data (ipv4_flow_tbl s) key)).

Definition dp_get_conntrack_flow_hash_value (key : flow_key) : cmd conn_state Z :=
  zoom flowL (gets (λ s, rte_hash_hash (ipv4_flow_tbl s) key)).

Definition dp_free_network_nat_port (cntrack : loc) : cmd conn_state () :=
  v ← fv_load cntrack;
  if bool_decide (fv_nf_nat_type v = DP_FLOW_NAT_TYPE_NETWORK_LOCAL)
  then zoom natportsL (dp_remove_network_snat_port v);; mret tt
  else mret tt.

Definition dp_free_flow (cntrack : loc) : cmd conn_state () :=
  dp_free_network_nat_port cntrack;;
  v ← fv_load cntrack;
  dp_delete_flow_no_flush (fv_key_org v);;
  dp_delete_flow_no_flush (fv_key_reply v);;
  dp_cntrack_flush_cache;;
  fv_free cntrack.

(** ** Reference counts (include/dp_refcount.h) *)

Definition dp_ref_init (p : loc) : cmd conn_state () :=
  v ← fv_load p;
  fv_store p (v <| fv_refcount := 1 |>).

(** [RTE_VERIFY] panics on a counter that is already zero. *)
Definition dp_ref_inc (p : loc) : cmd conn_state () :=
  v ← fv_load p;
  if fv_refcount v =? 0 then fault
  else fv_store p (v <| fv_refcount := i32 (fv_refcount v + 1) |>).

Definition dp_ref_dec (p : loc) : cmd conn_state () :=
  v ← fv_load p;
  let cnt := i32 (fv_refcount v - 1) in
  fv_store p (v <| fv_refcount := cnt |>);;
  if cnt =? 0 then dp_free_flow p else mret tt.

(** ** Contexts of hardware rules *)

Definition dp_add_rte_age_ctx (cntrack ctx : loc) : cmd conn_state Z :=
  v ← fv_load cntrack;
  match for_find (λ i, match fv_rte_age_ctxs v !! Z.to_nat i with Some None => true | _ => false end)
          0 (Z.of_nat DP_FLOW_VAL_AGE_CTX_CAPACITY) with
  | None => mret DP_ERROR
  | Some i =>
      fv_store cntrack (v <| fv_rte_age_ctxs := <[Z.to_nat i := Some ctx]> (fv_rte_age_ctxs v) |>);;
      c ← ctx_load ctx;
      ctx_store ctx (c <| ac_ref_index := u8 i |>);;
      mret DP_OK
  end.

Definition dp_del_rte_age_ctx (cntrack ctx : loc) : cmd conn_state Z :=
  c ← ctx_load ctx;
  if Z.of_nat DP_FLOW_VAL_AGE_CTX_CAPACITY <=? ac_ref_index c then mret DP_ERROR
  else
    v ← fv_load cntrack;
    fv_store cntrack
      (v <| fv_rte_age_ctxs := <[Z.to_nat (ac_ref_index c) := None]> (fv_rte_age_ctxs v) |>);;
    mret DP_OK.

Definition hw_request (r : rte_flow_request) : cmd conn_state () :=
  zoom flowL (modify (λ s, s <| fl_requests := fl_requests s ++ [r] |>)).

(** [None] is NULL. *)
Definition dp_destroy_rte_flow_agectx (agectx : option loc) : cmd conn_state Z :=
  match agectx with
  | None => mret DP_OK
  | Some a =>
      c ← ctx_load a;
      (match ac_handle c with
       | Some h => hw_request (ActionHandleDestroy (ac_port_id c) h);;
                   ctx_store a (c <| ac_handle := None |>)
       | None => mret tt
       end);;
      c ← ctx_load a;
      (match ac_rte_flow c with
       | Some f => hw_request (FlowDestroy (ac_port_id c) f);;
                   ctx_store a (c <| ac_rte_flow := None |>)
       | None => mret tt
       end);;
      (match ac_cntrack c with
       | Some cntrack => dp_del_rte_age_ctx cntrack a;; dp_ref_dec cntrack
       | None => mret tt
       end);;
      ctx_free a;;
      mret DP_OK
  end.

(** [flow_val->rte_age_ctxs[i]] *)
Definition age_ctx_at (flow_val : loc) (i : nat) : cmd conn_state (option loc) :=
  v ← fv_load flow_val;
  match fv_rte_age_ctxs v !! i with Some a => mret a | None => fault end.

Definition dp_rte_flow_remove (flow_val : loc) : cmd conn_state () :=
  foldr (λ i rest, a ← age_ctx_at flow_val i; dp_destroy_rte_flow_agectx a;; rest) (mret tt)
    (seq 0 DP_FLOW_VAL_AGE_CTX_CAPACITY).

(** [query port handle] is the return value of [rte_flow_action_handle_query]
    and the [sec_since_last_hit] it reports. *)
Fixpoint query_and_remove_from (query : Z → Z → Z * Z) (flow_val : loc) (idxs : list nat) :
    cmd conn_state Z :=
  match idxs with
  | [] => mret DP_OK
  | i :: idxs =>
      a ← age_ctx_at flow_val i;
      match a with
      | None => query_and_remove_from query flow_val idxs
      | Some a =>
          c ← ctx_load a;
          match ac_handle c with
          | None => query_and_remove_from query flow_val idxs
          | Some h =>
              let '(ret, sec_since_last_hit) := query (ac_port_id c) h in
              if DP_FAILED ret then mret ret
              else
                v ← fv_load flow_val;
                (if fv_timeout_value v <=? sec_since_last_hit
                 then dp_destroy_rte_flow_agectx (Some a);; mret tt else mret tt);;
                query_and_remove_from query flow_val idxs
          end
      end
  end.
Definition dp_rte_flow_query_and_remove (query : Z → Z → Z * Z) (flow_val : loc) : cmd conn_state Z :=
  query_and_remove_from query flow_val (seq 0 DP_FLOW_VAL_AGE_CTX_CAPACITY).

(** ** Aging and removal *)

Definition dp_age_out_flow (flow_val : loc) : cmd conn_state () :=
  v ← fv_load flow_val;
  fv_store flow_val (v <| fv_aged := true |>);;
  dp_ref_dec flow_val.

Definition dp_remove_flow (flow_val : loc) : cmd conn_state () :=
  offload ← gets (λ s, fl_offload_mode_enabled (cs_flow s));
  (if (offload : bool) then dp_rte_flow_remove flow_val else mret tt);;
  dp_age_out_flow flow_val.

(** [contexts] are the aged contexts DPDK reports for a port: the number it
    announces, whether the array for them can be allocated, and the answer to
    the second call. *)
Definition dp_process_aged_flows (total : Z) (allocated : bool) (fetched : Z)
    (contexts : list (option loc)) : cmd conn_state () :=
  if total <=? 0 then mret tt
  else if negb allocated then mret tt
  else
    let fetched := if DP_FAILED fetched then 0 else fetched in
    foldr (λ a rest, dp_destroy_rte_flow_agectx a;; rest) (mret tt)
      (take (Z.to_nat fetched) contexts).

(** The loop over the flow table: [body] handles an entry and may remove flows.
    Running out of [fuel] is undefined; one round more than there are entries
    is enough, since the iterator never returns to a slot. *)
Fixpoint flow_loop (fuel : nat) (body : flow_key → loc → cmd conn_state ()) (iter : Z) :
    cmd conn_state () :=
  match fuel with
  | O => fault
  | S fuel =>
      r ← zoom flowL (gets (λ s, rte_hash_iterate (ipv4_flow_tbl s) iter));
      let '(ret, entry, iter) := r in
      if ret =? - ENOENT then mret tt
      else if DP_FAILED ret then mret tt
      else
        match entry with
        | None => fault
        | Some (next_key, flow_val) =>
            body next_key flow_val;;
            flow_loop fuel body iter
        end
  end.
Definition flow_foreach (body : flow_key → loc → cmd conn_state ()) : cmd conn_state () :=
  n ← zoom flowL (gets (λ s, rte_hash_count (ipv4_flow_tbl s)));
  flow_loop (S (Z.to_nat n)) body 0.

(** [tsc] is [rte_rdtsc()], [timer_hz] is [rte_get_timer_hz()]. *)
Definition dp_process_aged_flows_non_offload (tsc timer_hz : Z) (query : Z → Z → Z * Z) :
    cmd conn_state () :=
  offload ← gets (λ s, fl_offload_mode_enabled (cs_flow s));
  flow_foreach (λ next_key flow_val,
    (if offload && (fk_proto next_key =? IPPROTO_TCP)
     then dp_rte_flow_query_and_remove query flow_val;; mret tt else mret tt);;
    v ← fv_load flow_val;
    if (u64 (timer_hz * fv_timeout_value v) <? u64 (tsc - fv_timestamp v)) && negb (fv_aged v)
    then dp_age_out_flow flow_val else mret tt).

Definition dp_remove_nat_flows (port_id : Z) (nat_type : dp_flow_nat_type) : cmd conn_state () :=
  flow_foreach (λ _ flow_val,
    v ← fv_load flow_val;
    if (fv_created_port_id v =? port_id) && bool_decide (fv_nf_nat_type v = nat_type)
    then dp_remove_flow flow_val else mret tt).

Definition dp_remove_neighnat_flows (ip4 vni min_port max_port : Z) : cmd conn_state () :=
  flow_foreach (λ next_key flow_val,
    if (fk_vni next_key =? vni) && negb (is_v6 (fk_l3_dst next_key))
       && (ipv4 (fk_l3_dst next_key) =? ip4)
       && (min_port <=? fk_port_dst next_key) && (fk_port_dst next_key <? max_port)
    then dp_remove_flow flow_val else mret tt).

Definition dp_remove_iface_flows (port_id ip4 vni : Z) : cmd conn_state () :=
  flow_foreach (λ next_key flow_val,
    v ← fv_load flow_val;
    if (fv_created_port_id v =? port_id)
       || ((fk_vni next_key =? vni) && negb (is_v6 (fk_l3_dst (fv_key_org v)))
           && (ipv4 (fk_l3_dst (fv_key_org v)) =? ip4))
    then dp_remove_flow flow_val else mret tt).
End flow.

(** ** Facts: keys *)

(** The protocols and ICMP types whose keys have an inverse. *)
Definition invertible (key : flow_key) : Prop :=
  fk_proto key = IPPROTO_TCP ∨ fk_proto key = IPPROTO_UDP
  ∨ (fk_proto key = IPPROTO_ICMP
     ∧ (fk_port_src key = RTE_IP_ICMP_ECHO_REQUEST ∨ fk_port_src key = RTE_IP_ICMP_ECHO_REPLY))
  ∨ (fk_proto key = IPPROTO_ICMPV6
     ∧ (fk_port_src key = DP_ICMPV6_ECHO_REQUEST ∨ fk_port_src key = DP_ICMPV6_ECHO_REPLY)).

(** The key of the reply direction of the reply direction is the key. *)
Theorem invert_flow_key_involutive key :
  invertible key → dp_invert_flow_key (dp_invert_flow_key key) = key.
Proof.
  destruct key as [dst proto dport src vnf sport vni]. unfold invertible, dp_invert_flow_key. simpl.
  intros [->|[->|[[-> [-> | ->]]|[-> [-> | ->]]]]]; simpl; by rewrite !dp_copy_ipaddr_id.
Qed.

(** ** Facts: the table *)

Section flow_facts.
Context `{HH : RteHash} {HO : RteHashOk} `{HM : RteMalloc} {MO : RteMallocOk}.
Implicit Types (s : conn_state) (fs : flow_state) (k : flow_key) (v : flow_value) (p : loc).

Definition flow_tbl fs : gmap flow_key loc := contents (ipv4_flow_tbl fs).
Definition flow_objs fs : gmap loc flow_value := objs (fl_vals fs).

(** Every entry of the table leads to a live flow that has the key, and every
    flow is reached by both its keys. *)
Record flow_inv fs : Prop := {
  fi_entry k p : flow_tbl fs !! k = Some p →
    ∃ v, flow_objs fs !! p = Some v ∧ (k = fv_key_org v ∨ k = fv_key_reply v);
  fi_keys p v : flow_objs fs !! p = Some v →
    flow_tbl fs !! fv_key_org v = Some p ∧ flow_tbl fs !! fv_key_reply v = Some p
}.

(** The cache: the key of the previous packet, if there is one, has its flow in
    the table, and its memory is not the memory of the next key. *)
Record cache_inv fs : Prop := {
  ci_curr : fc_curr (fl_cache fs) = Z.odd (fc_index (fl_cache fs));
  ci_prev i : fc_prev (fl_cache fs) = Some i →
    i ≠ fc_curr (fl_cache fs)
    ∧ ∃ p, fc_flow_val (fl_cache fs) = Some p
           ∧ flow_tbl fs !! fc_key (fl_cache fs) i = Some p
}.

Lemma flow_inv_inj fs p q v w k :
  flow_inv fs → flow_objs fs !! p = Some v → flow_objs fs !! q = Some w →
  k = fv_key_org v ∨ k = fv_key_reply v → k = fv_key_org w ∨ k = fv_key_reply w → p = q.
Proof.
  intros Hi Hp Hq. destruct (fi_keys _ Hi _ _ Hp) as [H1 H2], (fi_keys _ Hi _ _ Hq) as [H3 H4].
  intros [->| ->] [E|E]; rewrite E in *; congruence.
Qed.

Ltac fl_simpl :=
  cbn [lget lput fst snd flowL natL vnfL portsL natportsL valsL ctxsL cs_flow cs_nat cs_vnf cs_ports
       ipv4_flow_tbl fl_vals fl_ctxs fl_requests fl_offload_mode_enabled fl_cache set_field
       fc_key0 fc_key1 fc_index fc_prev fc_curr fc_flow_val objs mst] in *.

Lemma wp_fv_load s p v (Q : flow_value → conn_state → Prop) :
  flow_objs (cs_flow s) !! p = Some v → Q v s → wp (fv_load p) Q s.
Proof.
  intros Hp HQ. unfold fv_load. destruct s as [[] ? ? ?]. wp_steps. fl_simpl. by eapply wp_hp_load.
Qed.

(** The state with another value of one flow. *)
Definition set_flow s p v : conn_state :=
  s <| cs_flow := (cs_flow s) <| fl_vals :=
    Heap (<[p := v]> (flow_objs (cs_flow s))) (mst (fl_vals (cs_flow s))) |> |>.

Lemma wp_fv_store s p v0 v (Q : () → conn_state → Prop) :
  flow_objs (cs_flow s) !! p = Some v0 → Q tt (set_flow s p v) → wp (fv_store p v) Q s.
Proof.
  intros Hp HQ. unfold fv_store. destruct s as [[] ? ? ?]. wp_steps. fl_simpl. by eapply wp_hp_store.
Qed.

Lemma wp_release_any s fv (Q : Z → conn_state → Prop) :
  (∃ E, wf_with E (ipv4_netnat_portmap_tbl (cs_nat s))) → port_table_ok (cs_ports s) →
  (∀ ret nat ports E, wf_with E (ipv4_netnat_portmap_tbl nat) → port_table_ok ports →
     Q ret (s <| cs_nat := nat |> <| cs_ports := ports |>)) →
  wp (zoom natportsL (dp_remove_network_snat_port fv)) Q s.
Proof.
  intros [E Hwf] Hports HQ. destruct s as [fs ns vs ps]. wp_steps. fl_simpl.
  destruct (is_v6 (fk_l3_dst (fv_key_reply fv))) eqn:H6.
  - unfold dp_remove_network_snat_port. rewrite H6. wp_steps. fl_simpl. by eapply HQ.
  - apply (wp_release E); [done|done|done|..]; fl_simpl.
    + intros tbl _ _. by eapply HQ.
    + intros tbl t d _ _ Ht _. eapply HQ; [done|].
      destruct (created_port fv ps) as [q|] eqn:Hq; [|done]. simpl. intros id p Hp.
      unfold run_state, upd_port in *. destruct (ps_ports ps !! q) eqn:Hpq; [|eauto]. simpl in *.
      destruct (Hports id p Hp) as [x Hx]. destruct (decide (p = q)) as [->|].
      * rewrite list_lookup_insert_eq; [done|]. by eapply lookup_lt_Some.
      * rewrite list_lookup_insert_ne by done. eauto.
Qed.

Lemma contents_del {K V} `{Countable K} (t : rte_hash K V) (k : K) :
  contents (rte_hash_del_key t k).2 = delete k (contents t).
Proof.
  destruct (contents t !! k) as [v|] eqn:Hk.
  - destruct (hash_del_some t k v Hk) as (pos & t' & _ & -> & Hc). done.
  - rewrite (hash_del_none t k Hk). by rewrite delete_id.
Qed.

(** The components the release of a flow calls. *)
Record others_ok s : Prop := {
  oo_portmap : ∃ E, wf_with E (ipv4_netnat_portmap_tbl (cs_nat s));
  oo_ports : port_table_ok (cs_ports s)
}.

(** The flow tables after a flow was freed. *)
Definition flow_freed fs p v : flow_state :=
  fs <| ipv4_flow_tbl :=
          (rte_hash_del_key (rte_hash_del_key (ipv4_flow_tbl fs) (fv_key_org v)).2 (fv_key_reply v)).2 |>
     <| fl_vals := Heap (delete p (flow_objs fs)) (mst (fl_vals fs)) |>
     <| fl_cache := (fl_cache fs) <| fc_prev := None |> <| fc_flow_val := None |> |>.

Lemma flow_tbl_freed fs p v :
  flow_tbl (flow_freed fs p v) = delete (fv_key_reply v) (delete (fv_key_org v) (flow_tbl fs)).
Proof. unfold flow_tbl. simpl. by rewrite !contents_del. Qed.

Lemma flow_inv_freed fs p v :
  flow_inv fs → flow_objs fs !! p = Some v → flow_inv (flow_freed fs p v).
Proof.
  intros Hi Hp. constructor.
  - intros k q. rewrite flow_tbl_freed. intros [H1 [H2 Hk]%lookup_delete_Some]%lookup_delete_Some.
    destruct (fi_entry _ Hi _ _ Hk) as (w & Hw & Hkw). exists w. split; [|done].
    unfold flow_objs. simpl. rewrite lookup_delete_ne; [done|]. intros <-.
    rewrite Hp in Hw. injection Hw as <-. destruct Hkw; congruence.
  - intros q w. unfold flow_objs at 1. simpl. intros [Hpq Hw]%lookup_delete_Some.
    destruct (fi_keys _ Hi _ _ Hw) as [H1 H2]. rewrite flow_tbl_freed.
    assert (Hne : ∀ k, k = fv_key_org w ∨ k = fv_key_reply w → k ≠ fv_key_org v ∧ k ≠ fv_key_reply v).
    { intros k Hk. split; intros ->; apply Hpq;
        (eapply (flow_inv_inj fs p q v w _ Hi Hp Hw); [|exact Hk]; auto). }
    rewrite !lookup_delete_ne by (try apply not_eq_sym; apply Hne; auto). done.
Qed.

Lemma cache_inv_freed fs p v : cache_inv fs → cache_inv (flow_freed fs p v).
Proof. intros [Hc _]. constructor; [done|]. intros i. simpl. done. Qed.

Lemma wp_free_flow s p v (Q : () → conn_state → Prop) :
  flow_objs (cs_flow s) !! p = Some v → others_ok s →
  (∀ nat ports, others_ok (s <| cs_nat := nat |> <| cs_ports := ports |>) →
     Q tt (s <| cs_nat := nat |> <| cs_ports := ports |> <| cs_flow := flow_freed (cs_flow s) p v |>)) →
  wp (dp_free_flow p) Q s.
Proof.
  intros Hp [Hnat Hports] HQ. unfold dp_free_flow. apply wp_bind.
  assert (Hfree : wp (dp_free_network_nat_port p) (λ _ s', ∃ nat ports,
    s' = s <| cs_nat := nat |> <| cs_ports := ports |> ∧ others_ok s') s).
  { unfold dp_free_network_nat_port. wp_steps. eapply wp_fv_load; [done|]. wp_if.
    - apply wp_bind, wp_release_any; [done|done|]. intros ret nat ports E Hwf Hok. wp_steps.
      exists nat, ports. split; [done|]. constructor; simpl; eauto.
    - wp_steps. exists (cs_nat s), (cs_ports s). split; [by destruct s|]. by constructor. }
  wp_use Hfree. intros _ s' (nat & ports & -> & Hok). wp_steps. eapply wp_fv_load; [done|]. wp_steps.
  destruct s as [[] ? ? ?]. unfold dp_delete_flow_no_flush, dp_cntrack_flush_cache, fv_free. wp_steps.
  fl_simpl. eapply wp_hp_free; [done|]. fl_simpl. by apply (HQ nat ports).
Qed.

(** Dropping the last reference frees the flow. *)
Lemma wp_ref_dec_last s p v (Q : () → conn_state → Prop) :
  flow_objs (cs_flow s) !! p = Some v → fv_refcount v = 1 → others_ok s →
  (∀ nat ports, others_ok (s <| cs_nat := nat |> <| cs_ports := ports |>) →
     Q tt (s <| cs_nat := nat |> <| cs_ports := ports |> <| cs_flow := flow_freed (cs_flow s) p v |>)) →
  wp (dp_ref_dec p) Q s.
Proof.
  intros Hp Href [Hnat Hports] HQ. unfold dp_ref_dec. wp_steps. eapply wp_fv_load; [done|]. wp_steps.
  eapply wp_fv_store; [done|]. rewrite Href. change (i32 (1 - 1) =? 0) with true. cbn match.
  eapply (wp_free_flow _ _ (v <| fv_refcount := i32 (1 - 1) |>)).
  - unfold flow_objs. simpl. by rewrite lookup_insert_eq.
  - by constructor.
  - intros nat ports Hok. destruct s as [[] ? ? ?]. unfold flow_freed, set_flow, flow_objs in *. simpl in *.
    specialize (HQ nat ports). rewrite delete_insert_eq. apply HQ. by destruct Hok.
Qed.
End flow_facts.

(** ** Facts: removal of flows

    Without hardware offloading a flow has one reference and no contexts. *)

Section flow_loops.
Context `{HH : RteHash} {HO : RteHashOk} {HS : RteHashScan} `{HM : RteMalloc} {MO : RteMallocOk}.
Implicit Types (s : conn_state) (fs : flow_state) (k : flow_key) (v : flow_value) (p : loc).

Record soft_inv s : Prop := {
  so_flow : flow_inv (cs_flow s);
  so_cache : cache_inv (cs_flow s);
  so_others : others_ok s;
  so_offload : fl_offload_mode_enabled (cs_flow s) = false;
  so_ref p v : flow_objs (cs_flow s) !! p = Some v → fv_refcount v = 1
}.

(** The state after flow [p] was freed, and its port released to [nat]. *)
Definition freed s p v (nat : nat_state) (ports : ports_state) : conn_state :=
  s <| cs_nat := nat |> <| cs_ports := ports |> <| cs_flow := flow_freed (cs_flow s) p v |>.

Lemma soft_inv_freed s p v nat ports :
  soft_inv s → flow_objs (cs_flow s) !! p = Some v →
  others_ok (s <| cs_nat := nat |> <| cs_ports := ports |>) → soft_inv (freed s p v nat ports).
Proof.
  intros [Hf Hc Ho Hoff Hr] Hp Hok. constructor; simpl.
  - by apply flow_inv_freed.
  - by apply cache_inv_freed.
  - by destruct Hok.
  - done.
  - intros q w Hq. unfold flow_objs in Hq. simpl in Hq. apply lookup_delete_Some in Hq as [_ Hq]. eauto.
Qed.

Lemma wp_remove_flow_soft s p v (Q : () → conn_state → Prop) :
  soft_inv s → flow_objs (cs_flow s) !! p = Some v →
  (∀ nat ports, others_ok (s <| cs_nat := nat |> <| cs_ports := ports |>) →
     Q tt (freed s p v nat ports)) →
  wp (dp_age_out_flow p) Q s ∧ wp (dp_remove_flow p) Q s.
Proof.
  intros [Hf Hc Ho Hoff Hr] Hp HQ.
  assert (Hage : wp (dp_age_out_flow p) Q s).
  { unfold dp_age_out_flow. wp_steps. eapply wp_fv_load; [done|]. wp_steps. eapply wp_fv_store; [done|].
    wp_steps. eapply (wp_ref_dec_last _ p (v <| fv_aged := true |>)).
    - unfold flow_objs. simpl. by rewrite lookup_insert_eq.
    - simpl. by eapply Hr.
    - by destruct Ho; constructor.
    - intros nat ports Hok. destruct s as [[] ? ? ?]. unfold freed, flow_freed, set_flow, flow_objs in *.
      simpl in *. rewrite delete_insert_eq. apply HQ. by destruct Hok. }
  split; [done|]. unfold dp_remove_flow. wp_steps. rewrite Hoff. by wp_steps.
Qed.

(** A body that removes the flow of an entry when a test says so. *)
Definition removes (test : flow_key → flow_value → bool) (body : flow_key → loc → cmd conn_state ()) :
    Prop :=
  ∀ s k p v (Q : () → conn_state → Prop),
    soft_inv s → flow_tbl (cs_flow s) !! k = Some p → flow_objs (cs_flow s) !! p = Some v →
    (test k v = false → Q tt s) →
    (test k v = true → ∀ nat ports, others_ok (s <| cs_nat := nat |> <| cs_ports := ports |>) →
       Q tt (freed s p v nat ports)) →
    wp (body k p) Q s.

Definition has_key v k : Prop := k = fv_key_org v ∨ k = fv_key_reply v.

(** The flows that a loop starting at slot [i] leaves. *)
Definition survives (test : flow_key → flow_value → bool) fs (i : Z) v : Prop :=
  ∀ k, has_key v k → i ≤ slot (ipv4_flow_tbl fs) k → test k v = false.

Definition entries_from fs (i : Z) : gmap flow_key loc :=
  filter (λ kp, i ≤ slot (ipv4_flow_tbl fs) kp.1) (flow_tbl fs).

Lemma slot_freed fs p v k :
  is_Some (flow_tbl (flow_freed fs p v) !! k) →
  slot (ipv4_flow_tbl (flow_freed fs p v)) k = slot (ipv4_flow_tbl fs) k.
Proof.
  intros Hk. rewrite flow_tbl_freed in Hk. simpl.
  destruct (rte_hash_del_key (ipv4_flow_tbl fs) (fv_key_org v)) as [r1 t1] eqn:H1. simpl.
  destruct (rte_hash_del_key t1 (fv_key_reply v)) as [r2 t2] eqn:H2. simpl.
  pose proof (contents_del (ipv4_flow_tbl fs) (fv_key_org v)) as C1. rewrite H1 in C1. simpl in C1.
  pose proof (contents_del t1 (fv_key_reply v)) as C2. rewrite H2 in C2. simpl in C2.
  rewrite (slot_del _ _ _ _ k H2), (slot_del _ _ _ _ k H1); [done|..].
  - rewrite C1. destruct Hk as [q [_ Hq]%lookup_delete_Some]. eauto.
  - rewrite C2, C1. done.
Qed.

(** Moving the iterator past the entry in the lowest slot. *)
Lemma entries_from_next fs i k p :
  flow_tbl fs !! k = Some p → i ≤ slot (ipv4_flow_tbl fs) k →
  (size (entries_from fs (slot (ipv4_flow_tbl fs) k + 1)) < size (entries_from fs i))%nat.
Proof.
  intros Hk Hi. apply map_subset_size. split.
  - apply map_filter_subseteq_ext. intros k' q Hq Hs. simpl in *. lia.
  - intros Hsub. assert (Hin : entries_from fs i !! k = Some p) by (by apply map_lookup_filter_Some).
    eapply lookup_weaken in Hin; [|exact Hsub]. apply map_lookup_filter_Some in Hin as [_ Hlt]. simpl in Hlt. lia.
Qed.

Lemma entries_from_freed fs p v i :
  (size (entries_from (flow_freed fs p v) i) ≤ size (entries_from fs i))%nat.
Proof.
  apply map_subseteq_size. apply map_subseteq_spec. intros k q [Hq Hi]%map_lookup_filter_Some.
  apply map_lookup_filter_Some. simpl in Hi. split.
  - rewrite flow_tbl_freed in Hq. by apply lookup_delete_Some in Hq as [_ [_ ?]%lookup_delete_Some].
  - simpl. by rewrite <- (slot_freed fs p v k) by eauto.
Qed.

(** Passing the entry of a flow that stays. *)
Lemma survives_next test fs i k p v w :
  flow_inv fs → flow_tbl fs !! k = Some p → flow_objs fs !! p = Some v → test k v = false →
  (∀ k', is_Some (flow_tbl fs !! k') → i ≤ slot (ipv4_flow_tbl fs) k' →
     slot (ipv4_flow_tbl fs) k ≤ slot (ipv4_flow_tbl fs) k') →
  i ≤ slot (ipv4_flow_tbl fs) k → (∃ q, flow_objs fs !! q = Some w) →
  survives test fs (slot (ipv4_flow_tbl fs) k + 1) w ↔ survives test fs i w.
Proof.
  intros Hinv Hk Hp Ht Hmin Hi [q Hq]. split; intros Hs k' Hk' Hi'; [|apply Hs; [done|lia]].
  destruct (fi_keys _ Hinv _ _ Hq) as [Ho Hr].
  assert (Hin : flow_tbl fs !! k' = Some q) by (by destruct Hk' as [->| ->]).
  destruct (decide (k' = k)) as [->|Hne].
  - assert (q = p) as -> by congruence. assert (w = v) as -> by congruence. done.
  - apply Hs; [done|]. specialize (Hmin k' ltac:(eauto) Hi').
    assert (slot (ipv4_flow_tbl fs) k ≠ slot (ipv4_flow_tbl fs) k').
    { intros E. apply Hne. symmetry. eapply (slot_inj (ipv4_flow_tbl fs)); [| |done]; eauto. }
    lia.
Qed.

(** Passing the entry of a flow that is freed. *)
Lemma survives_freed test fs i k p v q w :
  flow_inv fs → flow_tbl fs !! k = Some p → flow_objs fs !! p = Some v →
  (∀ k', is_Some (flow_tbl fs !! k') → i ≤ slot (ipv4_flow_tbl fs) k' →
     slot (ipv4_flow_tbl fs) k ≤ slot (ipv4_flow_tbl fs) k') →
  i ≤ slot (ipv4_flow_tbl fs) k → flow_objs fs !! q = Some w → q ≠ p →
  survives test (flow_freed fs p v) (slot (ipv4_flow_tbl fs) k + 1) w ↔ survives test fs i w.
Proof.
  intros Hinv Hk Hp Hmin Hi Hq Hne. destruct (fi_keys _ Hinv _ _ Hq) as [Ho Hr].
  assert (Hslot : ∀ k', has_key w k' →
    flow_tbl fs !! k' = Some q ∧ slot (ipv4_flow_tbl (flow_freed fs p v)) k' = slot (ipv4_flow_tbl fs) k').
  { intros k' Hk'. split; [by destruct Hk' as [->| ->]|]. apply slot_freed.
    destruct (fi_keys _ (flow_inv_freed _ _ _ Hinv Hp) q w) as [Ho' Hr'].
    - unfold flow_objs. simpl. by rewrite lookup_delete_ne.
    - destruct Hk' as [->| ->]; eauto. }
  split; intros Hs k' Hk' Hi'; destruct (Hslot k' Hk') as [Hin Hsl]; apply Hs; try done.
  - rewrite Hsl. specialize (Hmin k' ltac:(eauto) Hi').
    assert (slot (ipv4_flow_tbl fs) k ≠ slot (ipv4_flow_tbl fs) k').
    { intros E. apply Hne. assert (k = k') as <-; [|congruence].
      eapply (slot_inj (ipv4_flow_tbl fs)); [| |done]; eauto. }
    lia.
  - rewrite Hsl in Hi'. lia.
Qed.

Lemma wp_flow_loop test body fuel i s :
  removes test body → soft_inv s → (size (entries_from (cs_flow s) i) < fuel)%nat →
  wp (flow_loop fuel body i)
    (λ _ s', soft_inv s' ∧ cs_vnf s' = cs_vnf s
       ∧ ∀ p v, flow_objs (cs_flow s') !! p = Some v
           ↔ flow_objs (cs_flow s) !! p = Some v ∧ survives test (cs_flow s) i v) s.
Proof.
  intros Hbody. revert i s. induction fuel as [|fuel IH]; intros i s Hs Hfuel; [lia|].
  cbn [flow_loop]. wp_steps. pose proof Hs as [Hinv _ _ _ _].
  replace (lput flowL _ s) with s by (by destruct s). cbn [lget flowL].
  destruct (scan_next (ipv4_flow_tbl (cs_flow s)) i)
    as [(pos & k & p & -> & Hpos & Hk & Hi & Hmin)|(i' & -> & Hnone)].
  - rewrite nonneg_ENOENT, DP_FAILED_pos by done. wp_steps.
    destruct (fi_entry _ Hinv _ _ Hk) as (v & Hp & Hkv).
    pose proof (entries_from_next _ _ _ _ Hk Hi) as Hsize.
    eapply Hbody; [done|done|done|..].
    + intros Ht. wp_use (IH (slot (ipv4_flow_tbl (cs_flow s)) k + 1) s Hs ltac:(lia)). intros _ s' (Hs' & Hv & Hobjs). split_and!; [done|done|].
      intros q w. rewrite Hobjs. split; intros [Hq Hsv]; (split; [done|]);
        by eapply (survives_next test (cs_flow s) i k p v w) in Hsv; eauto.
    + intros Ht nat ports Hok. pose proof (soft_inv_freed _ _ _ _ _ Hs Hp Hok) as Hs1.
      pose proof (entries_from_freed (cs_flow s) p v (slot (ipv4_flow_tbl (cs_flow s)) k + 1)) as Hle.
      wp_use (IH (slot (ipv4_flow_tbl (cs_flow s)) k + 1) _ Hs1 ltac:(simpl; lia)). intros _ s' (Hs' & Hv & Hobjs). split_and!; [done|done|].
      intros q w. rewrite Hobjs. simpl. unfold flow_objs at 1. simpl. rewrite lookup_delete_Some. split.
      * intros [[Hne Hq] Hsv]. split; [done|].
        eapply (survives_freed test (cs_flow s) i k p v q w) in Hsv; eauto.
      * intros [Hq Hsv]. assert (Hne : q ≠ p).
        { intros ->. assert (w = v) as -> by congruence. by rewrite (Hsv k Hkv Hi) in Ht. }
        split; [done|]. by eapply (survives_freed test (cs_flow s) i k p v q w); eauto.
  - rewrite Z.eqb_refl. wp_steps. split_and!; [done|done|]. intros p v. split; [|by intros [? _]].
    intros Hp. split; [done|]. intros k' Hk' Hi'. destruct (fi_keys _ Hinv _ _ Hp) as [Ho Hr].
    specialize (Hnone k' ltac:(destruct Hk' as [->| ->]; eauto)). lia.
Qed.

(** A loop over the whole table removes the flows that a test selects by one of
    their keys, and no others. *)
Lemma wp_flow_foreach test body s :
  removes test body → soft_inv s →
  wp (flow_foreach body)
    (λ _ s', soft_inv s' ∧ cs_vnf s' = cs_vnf s
       ∧ ∀ p v, flow_objs (cs_flow s') !! p = Some v
           ↔ flow_objs (cs_flow s) !! p = Some v
             ∧ test (fv_key_org v) v = false ∧ test (fv_key_reply v) v = false) s.
Proof.
  intros Hbody Hs. unfold flow_foreach. wp_steps. replace (lput flowL _ s) with s by (by destruct s).
  cbn [lget flowL]. eapply wp_mono; [apply (wp_flow_loop test body); [done|done|]|cbn beta].
  - rewrite hash_count_size, Nat2Z.id. apply Nat.lt_succ_r, map_subseteq_size, map_filter_subseteq.
  - intros _ s' (Hs' & Hv & Hobjs). split_and!; [done|done|]. intros p v. rewrite Hobjs.
    split; intros [Hp Hsv]; (split; [done|]).
    + split; apply Hsv; try apply slot_nonneg; unfold has_key; auto.
    + intros k [->| ->] _; tauto.
Qed.

(** The loop bodies that test the flow. *)
Definition remove_if (test : flow_key → flow_value → bool) k p : cmd conn_state () :=
  v ← fv_load p;
  if test k v then dp_remove_flow p else mret tt.

Lemma removes_load test : removes test (remove_if test).
Proof.
  intros s k p v Q Hs _ Hp Hno Hyes. unfold remove_if. wp_steps. eapply wp_fv_load; [done|].
  destruct (test k v) eqn:Ht; [|wp_steps; auto].
  apply (wp_remove_flow_soft s p v); [done|done|]. intros. by apply Hyes.
Qed.

(** The flows of an interface that use its NAT or VIP address. *)
Definition nat_flow (port_id : Z) (nat_type : dp_flow_nat_type) v : Prop :=
  fv_created_port_id v = port_id ∧ fv_nf_nat_type v = nat_type.

(** When the NAT or VIP address of an interface is removed, so are exactly the
    flows the interface created with it. *)
Theorem remove_nat_flows_spec s port_id nat_type :
  soft_inv s →
  wp (dp_remove_nat_flows port_id nat_type)
    (λ _ s', soft_inv s' ∧ ∀ p v, flow_objs (cs_flow s') !! p = Some v
       ↔ flow_objs (cs_flow s) !! p = Some v ∧ ¬ nat_flow port_id nat_type v) s.
Proof.
  intros Hs. unfold dp_remove_nat_flows.
  eapply wp_mono; [apply (wp_flow_foreach (λ _ v, (fv_created_port_id v =? port_id)
    && bool_decide (fv_nf_nat_type v = nat_type))); [apply removes_load|done]|cbn beta].
  intros _ s' (Hs' & _ & Hobjs). split; [done|]. intros p v. rewrite Hobjs. unfold nat_flow.
  rewrite andb_false_iff, Z.eqb_neq, bool_decide_eq_false.
  split; intros [Hp Hx]; (split; [done|]); [intros [? ?]; tauto|].
  destruct (decide (fv_created_port_id v = port_id)) as [?|?]; [|by auto].
  destruct (decide (fv_nf_nat_type v = nat_type)) as [?|?]; [|by auto]. exfalso. auto.
Qed.

(** A flow is idle when no packet came for longer than its timeout. *)
Definition idle (tsc timer_hz : Z) v : Prop :=
  u64 (timer_hz * fv_timeout_value v) < u64 (tsc - fv_timestamp v) ∧ fv_aged v = false.

(** C14. Without offloading, the periodic aging removes exactly the flows that are idle
    by their timestamp and timeout, in 64-bit time, and keeps the invariants of
    the table. *)
Theorem process_aged_flows_spec s tsc timer_hz query :
  soft_inv s →
  wp (dp_process_aged_flows_non_offload tsc timer_hz query)
    (λ _ s', soft_inv s' ∧ ∀ p v, flow_objs (cs_flow s') !! p = Some v
       ↔ flow_objs (cs_flow s) !! p = Some v ∧ ¬ idle tsc timer_hz v) s.
Proof.
  intros Hs. unfold dp_process_aged_flows_non_offload. wp_steps. rewrite (so_offload _ Hs).
  eapply wp_mono; [apply (wp_flow_foreach (λ _ v, (u64 (timer_hz * fv_timeout_value v)
    <? u64 (tsc - fv_timestamp v)) && negb (fv_aged v))); [|done]|cbn beta].
  - intros s0 k p v Q Hs0 _ Hp Hno Hyes. wp_steps. eapply wp_fv_load; [done|].
    destruct (_ && _); [|wp_steps; auto].
    apply (wp_remove_flow_soft s0 p v); [done|done|]. intros. by apply Hyes.
  - intros _ s' (Hs' & _ & Hobjs). split; [done|]. intros p v. rewrite Hobjs. unfold idle.
    rewrite andb_false_iff, Z.ltb_ge, negb_false_iff.
    destruct (fv_aged v); split; intros [Hp Hx]; (split; [done|]); lia.
Qed.

(** The flows an interface created, and the flows to its address. *)
Definition iface_flow (port_id ip4 vni : Z) v : Prop :=
  fv_created_port_id v = port_id
  ∨ ((fk_vni (fv_key_org v) = vni ∨ fk_vni (fv_key_reply v) = vni)
     ∧ is_v6 (fk_l3_dst (fv_key_org v)) = false ∧ ipv4 (fk_l3_dst (fv_key_org v)) = ip4).

(** Deleting an interface removes exactly these flows. *)
Theorem remove_iface_flows_spec s port_id ip4 vni :
  soft_inv s →
  wp (dp_remove_iface_flows port_id ip4 vni)
    (λ _ s', soft_inv s' ∧ ∀ p v, flow_objs (cs_flow s') !! p = Some v
       ↔ flow_objs (cs_flow s) !! p = Some v ∧ ¬ iface_flow port_id ip4 vni v) s.
Proof.
  intros Hs. unfold dp_remove_iface_flows.
  eapply wp_mono; [apply (wp_flow_foreach (λ k v, (fv_created_port_id v =? port_id)
       || ((fk_vni k =? vni) && negb (is_v6 (fk_l3_dst (fv_key_org v)))
           && (ipv4 (fk_l3_dst (fv_key_org v)) =? ip4)))); [apply removes_load|done]|cbn beta].
  intros _ s' (Hs' & _ & Hobjs). split; [done|]. intros p v. rewrite Hobjs. unfold iface_flow.
  rewrite !orb_false_iff, !andb_false_iff, !negb_false_iff, !Z.eqb_neq.
  destruct (is_v6 (fk_l3_dst (fv_key_org v))); split; intros [Hp Hx]; (split; [done|]); lia.
Qed.

(** The flows to a port range of a NAT address that another hypervisor has. *)
Definition neighnat_flow (ip4 vni min_port max_port : Z) v : Prop :=
  ∃ k, has_key v k ∧ fk_vni k = vni ∧ is_v6 (fk_l3_dst k) = false ∧ ipv4 (fk_l3_dst k) = ip4
       ∧ min_port ≤ fk_port_dst k < max_port.

(** Withdrawing the range removes exactly these flows. *)
Theorem remove_neighnat_flows_spec s ip4 vni min_port max_port :
  soft_inv s →
  wp (dp_remove_neighnat_flows ip4 vni min_port max_port)
    (λ _ s', soft_inv s' ∧ ∀ p v, flow_objs (cs_flow s') !! p = Some v
       ↔ flow_objs (cs_flow s) !! p = Some v ∧ ¬ neighnat_flow ip4 vni min_port max_port v) s.
Proof.
  intros Hs. unfold dp_remove_neighnat_flows. set (test := λ k (_ : flow_value),
    (fk_vni k =? vni) && negb (is_v6 (fk_l3_dst k)) && (ipv4 (fk_l3_dst k) =? ip4)
    && (min_port <=? fk_port_dst k) && (fk_port_dst k <? max_port)).
  assert (Htest : ∀ k v, test k v = true ↔ fk_vni k = vni ∧ is_v6 (fk_l3_dst k) = false
    ∧ ipv4 (fk_l3_dst k) = ip4 ∧ min_port ≤ fk_port_dst k < max_port).
  { intros k v. unfold test. rewrite !andb_true_iff, negb_true_iff, !Z.eqb_eq, Z.leb_le, Z.ltb_lt. tauto. }
  eapply wp_mono; [apply (wp_flow_foreach test); [|done]|cbn beta].
  - intros s0 k p v Q Hs0 _ Hp Hno Hyes. fold (test k v). destruct (test k v); [|wp_steps; auto].
    apply (wp_remove_flow_soft s0 p v); [done|done|]. intros. by apply Hyes.
  - intros _ s' (Hs' & _ & Hobjs). split; [done|]. intros p v. rewrite Hobjs.
    rewrite <- !not_true_iff_false, !Htest. unfold neighnat_flow, has_key. split.
    + intros (Hp & Ho & Hr). split; [done|]. intros (k & [->| ->] & Hk); auto.
    + intros [Hp Hno]. split; [done|]. split; intros Hk; apply Hno; eauto.
Qed.
End flow_loops.

(** ** Runs *)

Section flow_examples.
#[local] Existing Instances test_hash test_hash_ok test_hash_scan test_malloc test_malloc_ok.

Definition ex_key : flow_key :=
  MkFlowKey (DP_SET_IPADDR4 30) IPPROTO_TCP 80 (DP_SET_IPADDR4 10) DP_VNF_TYPE_UNDEFINED 4000 100.
Definition ex_flow : flow_value :=
  zero_flow_value <| fv_key_org := ex_key |> <| fv_key_reply := dp_invert_flow_key ex_key |>
    <| fv_created_port_id := 3 |> <| fv_nf_nat_type := DP_FLOW_NAT_TYPE_VIP |>
    <| fv_timeout_value := 30 |> <| fv_refcount := 1 |>.

(** One flow, in software. *)
Definition ex_conn : conn_state :=
  MkConnState
    (MkFlowState ({[ex_key := 1%positive; dp_invert_flow_key ex_key := 1%positive]} : gmap flow_key loc)
       (Heap {[1%positive := ex_flow]} ([] : list bool)) (Heap ∅ ([] : list bool)) [] false
       (MkFlowCache zero_flow_key zero_flow_key 0 None false None))
    ex_nat_empty ex_vnf_empty ex_ports.

Lemma ex_others_ok : others_ok ex_conn.
Proof.
  constructor.
  - exists ∅. by apply (ot_create_wf (HM := test_malloc) 1 ([] : list bool)).
  - intros id p Hp. cbn [cs_ports ex_conn ps_port_table ex_ports] in Hp.
    apply lookup_singleton_Some in Hp as [<- <-]. by eexists.
Qed.

Lemma ex_conn_soft : soft_inv ex_conn.
Proof.
  constructor.
  - constructor.
    + intros k p Hk. change (flow_tbl (cs_flow ex_conn))
        with ({[ex_key := 1%positive; dp_invert_flow_key ex_key := 1%positive]} : gmap flow_key loc) in Hk.
      exists ex_flow. apply lookup_insert_Some in Hk as [[<- <-]|[_ Hk]]; [by auto|].
      apply lookup_singleton_Some in Hk as [<- <-]. auto.
    + intros p v Hp. change (flow_objs (cs_flow ex_conn)) with ({[1%positive := ex_flow]} : gmap loc flow_value) in Hp.
      apply lookup_singleton_Some in Hp as [<- <-]. by split.
  - by constructor.
  - apply ex_others_ok.
  - done.
  - intros p v Hp. change (flow_objs (cs_flow ex_conn)) with ({[1%positive := ex_flow]} : gmap loc flow_value) in Hp.
    by apply lookup_singleton_Some in Hp as [<- <-].
Qed.

(** The flow after a removal of flows like it. *)
Definition ex_gone (c : cmd conn_state ()) : Prop :=
  wp c (λ _ s', flow_objs (cs_flow s') !! 1%positive = None) ex_conn.

Lemma ex_gone_intro (c : cmd conn_state ()) (P : flow_value → Prop) :
  wp c (λ _ s', soft_inv s' ∧ ∀ p v, flow_objs (cs_flow s') !! p = Some v
    ↔ flow_objs (cs_flow ex_conn) !! p = Some v ∧ ¬ P v) ex_conn → P ex_flow → ex_gone c.
Proof.
  intros Hc HP. eapply wp_mono; [exact Hc|]. intros _ s' [_ Hobjs].
  destruct (flow_objs (cs_flow s') !! 1%positive) as [v|] eqn:E; [|done]. exfalso.
  apply Hobjs in E as [E Hno]. change (Some ex_flow = Some v) in E. congruence.
Qed.

Lemma invert_flow_key_involutive_witness :
  dp_invert_flow_key (dp_invert_flow_key ex_key) = ex_key.
Proof. apply (invert_flow_key_involutive ex_key). by left. Defined.

Lemma remove_nat_flows_spec_witness : ex_gone (dp_remove_nat_flows 3 DP_FLOW_NAT_TYPE_VIP).
Proof. exact (ex_gone_intro _ _ (remove_nat_flows_spec ex_conn 3 DP_FLOW_NAT_TYPE_VIP ex_conn_soft) (conj eq_refl eq_refl)). Defined.

Lemma process_aged_flows_spec_witness :
  ex_gone (dp_process_aged_flows_non_offload 3001 100 (λ _ _, (0, 0))).
Proof.
  exact (ex_gone_intro _ _ (process_aged_flows_spec ex_conn 3001 100 (λ _ _, (0, 0)) ex_conn_soft)
    (conj eq_refl eq_refl)).
Defined.

Lemma remove_iface_flows_spec_witness : ex_gone (dp_remove_iface_flows 5 30 100).
Proof.
  exact (ex_gone_intro _ _ (remove_iface_flows_spec ex_conn 5 30 100 ex_conn_soft)
    (or_intror (conj (or_introl eq_refl) (conj eq_refl eq_refl)))).
Defined.

Lemma remove_neighnat_flows_spec_witness : ex_gone (dp_remove_neighnat_flows 30 100 80 90).
Proof.
  refine (ex_gone_intro _ _ (remove_neighnat_flows_spec ex_conn 30 100 80 90 ex_conn_soft) _).
  exists ex_key. split; [by left|]. done.
Defined.
End flow_examples.
