(* ===== verification/Nat64.v ===== *)
(** * Translation of packet headers (src/dp_nat.c)

    [dp_nat_chg_ip] prepares a packet whose address was translated for checksum
    offloading; [dp_nat_chg_ipv6_to_ipv4_hdr] and [dp_nat_chg_ipv4_to_ipv6_hdr]
    replace the IP header of a packet in place (NAT64). *)

From S2P Require Import Prelude Dpdk Error Types Port Conn Mbuf Nat Flow.

Definition RTE_MBUF_F_TX_TCP_CKSUM : Z := Z.shiftl 1 52.
Definition RTE_MBUF_F_TX_UDP_CKSUM : Z := Z.shiftl 3 52.
Definition RTE_MBUF_F_TX_IP_CKSUM : Z := Z.shiftl 1 54.
Definition RTE_MBUF_F_TX_IPV4 : Z := Z.shiftl 1 55.
Definition RTE_MBUF_F_TX_IPV6 : Z := Z.shiftl 1 56.
Definition RTE_PTYPE_L3_MASK : Z := 240.
Definition RTE_PTYPE_L3_IPV4 : Z := 16.
Definition RTE_PTYPE_L3_IPV6 : Z := 64.

(** ** DPDK *)

(** Moving the start of the data ([None] is NULL), the length of an IPv4 header
    given its first byte, and the checksum of the L4 part of an IPv6 packet. *)
Class RteNet := {
  rte_pktmbuf_adj : Z → rte_mbuf → option rte_mbuf;
  rte_pktmbuf_prepend : Z → rte_mbuf → option rte_mbuf;
  rte_ipv4_hdr_len : Z → Z;
  rte_ipv6_udptcp_cksum : rte_mbuf → Z → Z → Z
}.

Class RteNetOk `{RteNet} : Prop := {
  adj_some len m : 0 ≤ len ≤ mb_data_len m →
    rte_pktmbuf_adj len m
    = Some (m <| mb_data_off := mb_data_off m + len |> <| mb_data_len := mb_data_len m - len |>);
  adj_none len m : mb_data_len m < len → rte_pktmbuf_adj len m = None;
  prepend_some len m : 0 ≤ len ≤ mb_data_off m →
    rte_pktmbuf_prepend len m
    = Some (m <| mb_data_off := mb_data_off m - len |> <| mb_data_len := mb_data_len m + len |>);
  prepend_none len m : mb_data_off m < len → rte_pktmbuf_prepend len m = None;
  ipv4_hdr_len_eq vihl : rte_ipv4_hdr_len vihl = Z.land vihl 15 * 4;
  cksum_range m l3 l4 : is_u16 (rte_ipv6_udptcp_cksum m l3 l4)
}.

Section nat64.
Context `{HN : RteNet}.

(** The lengths of headers; [set_tx_offload] is after [m->tx_offload = 0]. *)
Definition set_l_lens (l2 l3 l4 : Z) (m : rte_mbuf) : rte_mbuf :=
  m <| mb_l2_len := l2 |> <| mb_l3_len := l3 |> <| mb_l4_len := l4 |>.
Definition set_tx_offload (l2 l3 l4 : Z) (m : rte_mbuf) : rte_mbuf :=
  set_l_lens l2 l3 l4 (m <| mb_outer_l2_len := 0 |> <| mb_outer_l3_len := 0 |>).
Definition add_ol_flags (flags : Z) (m : rte_mbuf) : rte_mbuf :=
  m <| mb_ol_flags := Z.lor (mb_ol_flags m) flags |>.
Definition set_l4_len (len : Z) : cmd rte_mbuf () := modify (λ m, m <| mb_l4_len := len |>).

(** [DP_TCP_HDR_LEN] *)
Definition dp_tcp_hdr_len (data_off : Z) : Z := Z.shiftr (Z.land data_off 240) 2.

(** The TCP or UDP header at [hdr]: its checksum is left to the hardware. *)
Definition offload_tcp_cksum (hdr : Z) : cmd rte_mbuf () :=
  st16 (hdr + tcp_cksum) 0;;
  modify (add_ol_flags RTE_MBUF_F_TX_TCP_CKSUM);;
  data_off ← ld8 (hdr + tcp_data_off);
  set_l4_len (dp_tcp_hdr_len data_off).
Definition offload_udp_cksum (hdr : Z) : cmd rte_mbuf () :=
  st16 (hdr + udp_cksum) 0;;
  modify (add_ol_flags RTE_MBUF_F_TX_UDP_CKSUM);;
  set_l4_len sizeof_udp_hdr.

(** [ipv4_hdr] is the position of the header. *)
Definition dp_nat_chg_ip (ipv4_hdr : Z) : cmd rte_mbuf () :=
  df ← get_df;
  st16 (ipv4_hdr + ip4_cksum) 0;;
  modify (add_ol_flags RTE_MBUF_F_TX_IPV4);;
  modify (add_ol_flags RTE_MBUF_F_TX_IP_CKSUM);;
  vihl ← ld8 (ipv4_hdr + ip4_version_ihl);
  modify (set_tx_offload sizeof_ether_hdr (rte_ipv4_hdr_len vihl) 0);;
  let hdr := ipv4_hdr + sizeof_ipv4_hdr in
  if df_l4_type df =? IPPROTO_TCP then offload_tcp_cksum hdr
  else if df_l4_type df =? IPPROTO_UDP then offload_udp_cksum hdr
  else if df_l4_type df =? IPPROTO_ICMP then set_l4_len sizeof_icmp_hdr
  else mret tt.

(** The sum of the 16-bit words of [len] bytes (of one byte more if [len] is
    odd), in 32 bits. *)
Fixpoint icmp_sum (fuel : nat) (off i len sum : Z) : cmd rte_mbuf Z :=
  match fuel with
  | O => fault
  | S fuel =>
      if i <? len then
        word ← ld16 (off + i);
        icmp_sum fuel off (i + 2) len (u32 (sum + word))
      else mret sum
  end.

(** [while (sum >> 16)] runs at most twice. *)
Definition fold_sum (sum : Z) : Z :=
  let fold s := if Z.shiftr s 16 =? 0 then s else Z.land s 65535 + Z.shiftr s 16 in
  fold (fold sum).

(** A byte of the buffer is read in every round, so the rounds are at most as
    many as the buffer has bytes. *)
Definition dp_calculate_icmp_checksum (icmp_hdr icmp_len : Z) : cmd rte_mbuf () :=
  st16 (icmp_hdr + icmp_cksum) 0;;
  fuel ← gets (λ m, S (length (mb_buf m)));
  sum ← icmp_sum fuel icmp_hdr 0 icmp_len 0;
  st16 (icmp_hdr + icmp_cksum) (not16 (u16 (fold_sum sum))).

(** Moving the start of the data; [false] is a failure. *)
Definition mbuf_move (f : rte_mbuf → option rte_mbuf) : cmd rte_mbuf bool := λ m,
  match f m with Some m' => Some (true, m') | None => Some (false, m) end.

Definition set_ptype_l3 (ptype : Z) (m : rte_mbuf) : rte_mbuf :=
  m <| mb_packet_type :=
    Z.lor (Z.land (mb_packet_type m) (2 ^ 32 - 1 - RTE_PTYPE_L3_MASK)) ptype |>.
(** The bit-field [m->l4_type], bits 8 to 11 of the packet type. *)
Definition set_ptype_l4_bits (v : Z) (m : rte_mbuf) : rte_mbuf :=
  m <| mb_packet_type :=
    Z.lor (Z.land (mb_packet_type m) (2 ^ 32 - 1 - 3840)) (Z.shiftl (Z.land v 15) 8) |>.

Definition hdr_diff : Z := sizeof_ipv6_hdr - sizeof_ipv4_hdr.

(** The new IPv4 header, up to [df->l3_type]; [false] if the start of the data
    cannot be moved.  The second value is [*dest_ip]. *)
Definition chg_to_ipv4_hdr (nat_ip : Z) : cmd rte_mbuf (bool * Z) :=
  st16 eth_ether_type (htons RTE_ETHER_TYPE_IPV4);;
  let ipv6_hdr := dp_get_ipv6_hdr in
  dest_ip ← ld32 (ipv6_hdr + ip6_dst + 12);
  l4_proto ← ld8 (ipv6_hdr + ip6_proto);
  ok ← mbuf_move (rte_pktmbuf_adj hdr_diff);
  if negb ok then mret (false, dest_ip)
  else
    (* the old headers are now [hdr_diff] bytes further to the front *)
    m_memmove 14 0 (- hdr_diff);;
    let ipv6_hdr := ipv6_hdr - hdr_diff in
    let ipv4_hdr := dp_get_ipv4_hdr in
    st8 (ipv4_hdr + ip4_version_ihl) 69;;
    vtc_flow ← ld32 (ipv6_hdr + ip6_vtc_flow);
    st8 (ipv4_hdr + ip4_tos) (Z.land (Z.shiftr (ntohl vtc_flow) 20) 255);;
    data_len ← gets mb_data_len;
    st16 (ipv4_hdr + ip4_total_length) (htons (u16 (data_len - sizeof_ether_hdr)));;
    st16 (ipv4_hdr + ip4_packet_id) 0;;
    st16 (ipv4_hdr + ip4_fragment_offset) 0;;
    hop_limits ← ld8 (ipv6_hdr + ip6_hop_limits);
    st8 (ipv4_hdr + ip4_ttl) hop_limits;;
    st8 (ipv4_hdr + ip4_proto) l4_proto;;
    st32 (ipv4_hdr + ip4_src) (htonl nat_ip);;
    st32 (ipv4_hdr + ip4_dst) dest_ip;;
    st16 (ipv4_hdr + ip4_cksum) 0;;
    modify (set_ptype_l3 RTE_PTYPE_L3_IPV4);;
    modify (add_ol_flags RTE_MBUF_F_TX_IPV4);;
    modify (add_ol_flags RTE_MBUF_F_TX_IP_CKSUM);;
    vihl ← ld8 (ipv4_hdr + ip4_version_ihl);
    modify (set_tx_offload sizeof_ether_hdr (rte_ipv4_hdr_len vihl) 0);;
    upd_df (λ df, df <| df_l3_type := RTE_ETHER_TYPE_IPV4 |>);;
    mret (true, dest_ip).

(** [switch (df->l4_type)] *)
Definition chg_l4_for_ipv4 : cmd rte_mbuf Z :=
  df ← get_df;
  let ipv4_hdr := dp_get_ipv4_hdr in
  let hdr := ipv4_hdr + sizeof_ipv4_hdr in
  if df_l4_type df =? IPPROTO_TCP then offload_tcp_cksum hdr;; mret DP_OK
  else if df_l4_type df =? IPPROTO_UDP then offload_udp_cksum hdr;; mret DP_OK
  else if df_l4_type df =? IPPROTO_ICMPV6 then
    upd_df (λ df, df <| df_l4_type := IPPROTO_ICMP |>);;
    st8 (ipv4_hdr + ip4_proto) IPPROTO_ICMP;;
    set_l4_len sizeof_icmp_hdr;;
    modify (set_ptype_l4_bits IPPROTO_ICMP);;
    st8 (hdr + icmp_code) 0;;
    type ← ld8 (hdr + icmp_type);
    let new_type :=
      if type =? DP_ICMPV6_ECHO_REQUEST then Some RTE_IP_ICMP_ECHO_REQUEST
      else if type =? DP_ICMPV6_ECHO_REPLY then Some RTE_IP_ICMP_ECHO_REPLY else None in
    match new_type with
    | None => mret DP_ERROR
    | Some t =>
        st8 (hdr + icmp_type) t;;
        total_length ← ld16 (ipv4_hdr + ip4_total_length);
        vihl ← ld8 (ipv4_hdr + ip4_version_ihl);
        dp_calculate_icmp_checksum hdr (u64 (ntohs total_length - Z.land vihl 15 * 4));;
        mret DP_OK
    end
  else mret DP_ERROR.

(** The return value and [*dest_ip]. *)
Definition dp_nat_chg_ipv6_to_ipv4_hdr (nat_ip : Z) : cmd rte_mbuf (Z * Z) :=
  r ← chg_to_ipv4_hdr nat_ip;
  if negb r.1 then mret (DP_ERROR, r.2)
  else ret ← chg_l4_for_ipv4; mret (ret, r.2).

(** The same in the other direction. *)
Definition chg_to_ipv6_hdr (ipv6_addr : Z) : cmd rte_mbuf bool :=
  st16 eth_ether_type (htons RTE_ETHER_TYPE_IPV6);;
  let ipv4_hdr := dp_get_ipv4_hdr in
  src_ipv4 ← ld32 (ipv4_hdr + ip4_src);
  l4_proto ← ld8 (ipv4_hdr + ip4_proto);
  ok ← mbuf_move (rte_pktmbuf_prepend hdr_diff);
  if negb ok then mret false
  else
    (* the old headers are now [hdr_diff] bytes further to the back *)
    m_memmove 14 0 hdr_diff;;
    let ipv4_hdr := ipv4_hdr + hdr_diff in
    let ipv6_hdr := dp_get_ipv6_hdr in
    tos ← ld8 (ipv4_hdr + ip4_tos);
    st32 (ipv6_hdr + ip6_vtc_flow) (htonl (Z.lor (Z.shiftl 6 28) (Z.shiftl tos 20)));;
    data_len ← gets mb_data_len;
    st16 (ipv6_hdr + ip6_payload_len) (htons (u16 (data_len - sizeof_ether_hdr - sizeof_ipv6_hdr)));;
    st8 (ipv6_hdr + ip6_proto) l4_proto;;
    ttl ← ld8 (ipv4_hdr + ip4_ttl);
    st8 (ipv6_hdr + ip6_hop_limits) ttl;;
    st 12 (ipv6_hdr + ip6_src) DP_NAT64_PREFIX;;
    st32 (ipv6_hdr + ip6_src + 12) src_ipv4;;
    st128 (ipv6_hdr + ip6_dst) ipv6_addr;;
    upd_df (λ df, df <| df_dst_addr6 := ipv6_addr |>);;
    modify (set_ptype_l3 RTE_PTYPE_L3_IPV6);;
    modify (add_ol_flags RTE_MBUF_F_TX_IPV6);;
    modify (set_l_lens sizeof_ether_hdr sizeof_ipv6_hdr 0);;
    mret true.

Definition chg_l4_for_ipv6 : cmd rte_mbuf Z :=
  df ← get_df;
  let ipv6_hdr := dp_get_ipv6_hdr in
  let hdr := ipv6_hdr + sizeof_ipv6_hdr in
  if df_l4_type df =? IPPROTO_TCP then offload_tcp_cksum hdr;; mret DP_OK
  else if df_l4_type df =? IPPROTO_UDP then offload_udp_cksum hdr;; mret DP_OK
  else if df_l4_type df =? IPPROTO_ICMP then
    upd_df (λ df, df <| df_l4_type := IPPROTO_ICMPV6 |>);;
    set_l4_len sizeof_icmp_hdr;;
    st8 (ipv6_hdr + ip6_proto) IPPROTO_ICMPV6;;
    st8 (hdr + icmp_code) 0;;
    st16 (hdr + icmp_cksum) 0;;
    type ← ld8 (hdr + icmp_type);
    let new_type :=
      if type =? RTE_IP_ICMP_ECHO_REQUEST then Some DP_ICMPV6_ECHO_REQUEST
      else if type =? RTE_IP_ICMP_ECHO_REPLY then Some DP_ICMPV6_ECHO_REPLY else None in
    match new_type with
    | None => mret DP_ERROR
    | Some t =>
        st8 (hdr + icmp_type) t;;
        cksum ← gets (λ m, rte_ipv6_udptcp_cksum m ipv6_hdr hdr);
        st16 (hdr + icmp_cksum) cksum;;
        mret DP_OK
    end
  else mret DP_ERROR.

Definition dp_nat_chg_ipv4_to_ipv6_hdr (ipv6_addr : Z) : cmd rte_mbuf Z :=
  ok ← chg_to_ipv6_hdr ipv6_addr;
  if negb ok then mret DP_ERROR else chg_l4_for_ipv6.
End nat64.

(** ** Facts *)

Ltac net_unfold :=
  unfold dp_get_ipv4_hdr, dp_get_ipv6_hdr, hdr_diff, sizeof_ether_hdr, sizeof_ipv4_hdr, sizeof_ipv6_hdr,
    sizeof_tcp_hdr, sizeof_udp_hdr, sizeof_icmp_hdr,
    eth_dst, eth_src, eth_ether_type, ip4_version_ihl, ip4_tos, ip4_total_length, ip4_packet_id,
    ip4_fragment_offset, ip4_ttl, ip4_proto, ip4_cksum, ip4_src, ip4_dst, ip6_vtc_flow, ip6_payload_len,
    ip6_proto, ip6_hop_limits, ip6_src, ip6_dst, l4_src_port, l4_dst_port, tcp_data_off, tcp_flags,
    tcp_cksum, udp_cksum, icmp_type, icmp_code, icmp_cksum, icmp_ident in *.

(** A write to members other than the buffer. *)
Record pkt_meta (m m' : rte_mbuf) : Prop := {
  pm_buf : mb_buf m' = mb_buf m;
  pm_off : mb_data_off m' = mb_data_off m
}.

Lemma pm_get m m' k off : pkt_meta m m' → mget m' k off = mget m k off.
Proof. intros []. by apply mget_ext. Qed.

Lemma wp_meta f m (Q : () → rte_mbuf → Prop) :
  pkt_meta m (f m) → (∀ m', m' = f m → pkt_meta m m' → Q tt m') → wp (modify f) Q m.
Proof. intros Hm HQ. apply wp_modify. by apply HQ. Qed.

Ltac meta_facts E :=
  let g t := (let H := fresh in pose proof (f_equal t E) as H;
    unfold add_ol_flags, set_tx_offload, set_l_lens, set_ptype_l3, set_ptype_l4_bits in H;
    lazymatch type of H with
    | ?l = mb_flow (set_field mb_flow ?v _) => change (l = v) in H
    | _ => unfold set_field in H; cbn [mb_buf mb_data_off mb_data_len mb_flow mb_ol_flags mb_port] in H
    end) in
  g mb_data_off; g mb_data_len; g mb_flow; g mb_ol_flags; g mb_port; g (λ m, length (mb_buf m)); clear E.

(** [pkt_run] runs over accesses of a packet that are known to be inside it,
    [pkt_read] computes what the resulting packet reads as. *)
Ltac pkt_step :=
  lazymatch goal with
  | |- wp (mbind _ _) _ _ => apply wp_bind
  | |- wp (mret _) _ _ => apply wp_ret
  | |- wp (gets _) _ _ => apply wp_gets
  | |- wp (st _ _ _) _ _ => apply wp_st_upd; [pkt_in | intros ? ?; pkt_facts]
  | |- wp (ld _ _) _ _ => apply wp_ld; [pkt_in |]
  | |- wp (modify _) _ _ =>
      let E := fresh in apply wp_meta; [by constructor | intros ? E ?; meta_facts E]
  end.
Ltac pkt_run := wp_simpl; repeat (pkt_step; wp_simpl).

(** [pkt_u8] proves that the bytes of the resulting packet are bytes. *)
Ltac pkt_u8 :=
  repeat match goal with
  | H : pkt_upd _ ?m' _ _ _ |- Forall is_u8 (mb_buf ?m') => apply (pu_u8 _ _ _ _ _ H)
  | H : pkt_moved _ ?m' _ _ _ |- Forall is_u8 (mb_buf ?m') => apply (pv_u8 _ _ _ _ _ H)
  | H : pkt_meta _ ?m' |- Forall is_u8 (mb_buf ?m') => rewrite (pm_buf _ _ H)
  end.

Ltac pkt_read :=
  repeat first
    [ pkt_get1
    | match goal with H : pkt_meta ?m ?m' |- context [mget ?m' ?k ?o] => rewrite (pm_get m m' k o H) end ].

Lemma mget_mod m n off :
  Forall is_u8 (mb_buf m) → in_pkt m off n = true →
  mget m n off mod 2 ^ (8 * Z.of_nat n) = mget m n off.
Proof. intros. by apply Z.mod_small, mget_range. Qed.

Section nat64_facts.
Context `{HN : RteNet} {HNO : RteNetOk}.

Lemma wp_mbuf_adj len m (Q : bool → rte_mbuf → Prop) :
  0 ≤ len →
  (mb_data_len m < len → Q false m) →
  (len ≤ mb_data_len m →
   ∀ m', mb_buf m' = mb_buf m → mb_data_off m' = mb_data_off m + len →
     mb_data_len m' = mb_data_len m - len → mb_flow m' = mb_flow m →
     mb_ol_flags m' = mb_ol_flags m → mb_port m' = mb_port m → Q true m') →
  wp (mbuf_move (rte_pktmbuf_adj len)) Q m.
Proof.
  intros Hlen Hf Ht. unfold wp, mbuf_move. destruct (Z.le_gt_cases len (mb_data_len m)).
  - rewrite adj_some by done. by apply Ht.
  - rewrite adj_none by done. auto.
Qed.

Lemma wp_mbuf_prepend len m (Q : bool → rte_mbuf → Prop) :
  0 ≤ len →
  (mb_data_off m < len → Q false m) →
  (len ≤ mb_data_off m →
   ∀ m', mb_buf m' = mb_buf m → mb_data_off m' = mb_data_off m - len →
     mb_data_len m' = mb_data_len m + len → mb_flow m' = mb_flow m →
     mb_ol_flags m' = mb_ol_flags m → mb_port m' = mb_port m → Q true m') →
  wp (mbuf_move (rte_pktmbuf_prepend len)) Q m.
Proof.
  intros Hlen Hf Ht. unfold wp, mbuf_move. destruct (Z.le_gt_cases len (mb_data_off m)).
  - rewrite prepend_some by done. by apply Ht.
  - rewrite prepend_none by done. auto.
Qed.

(** The IPv4 header made from an IPv6 packet.  The payload is kept.  The time
    to live is not the hop limit: it is read after the Ethernet header was moved
    over it, so it is the second byte of the destination MAC address. *)
Record v4_made (nat_ip : Z) (m m' : rte_mbuf) : Prop := {
  v4_off : mb_data_off m' = mb_data_off m + 20;
  v4_len : mb_data_len m' = mb_data_len m - 20;
  v4_buf : length (mb_buf m') = length (mb_buf m);
  v4_u8 : Forall is_u8 (mb_buf m');
  v4_ether : mget m' 2 eth_ether_type = htons RTE_ETHER_TYPE_IPV4;
  v4_macs : mget m' 12 eth_dst = mget m 12 eth_dst;
  v4_vihl : mget m' 1 (dp_get_ipv4_hdr + ip4_version_ihl) = 69;
  v4_tos : mget m' 1 (dp_get_ipv4_hdr + ip4_tos)
           = Z.land (Z.shiftr (ntohl (mget m 4 (dp_get_ipv6_hdr + ip6_vtc_flow))) 20) 255;
  v4_total : mget m' 2 (dp_get_ipv4_hdr + ip4_total_length) = htons (u16 (mb_data_len m' - 14));
  v4_proto : mget m' 1 (dp_get_ipv4_hdr + ip4_proto) = mget m 1 (dp_get_ipv6_hdr + ip6_proto);
  v4_src : mget m' 4 (dp_get_ipv4_hdr + ip4_src) = htonl nat_ip;
  v4_dst : mget m' 4 (dp_get_ipv4_hdr + ip4_dst) = mget m 4 (dp_get_ipv6_hdr + ip6_dst + 12);
  v4_ttl : mget m' 1 (dp_get_ipv4_hdr + ip4_ttl) = mget m 1 (eth_dst + 1);
  v4_cksum : mget m' 2 (dp_get_ipv4_hdr + ip4_cksum) = 0;
  v4_flow : mb_flow m' = (mb_flow m) <| df_l3_type := RTE_ETHER_TYPE_IPV4 |>;
  v4_ol : mb_ol_flags m'
          = Z.lor (Z.lor (mb_ol_flags m) RTE_MBUF_F_TX_IPV4) RTE_MBUF_F_TX_IP_CKSUM;
  v4_payload k off : 34 ≤ off → mget m' k off = mget m k (off + 20)
}.

Lemma wp_chg_to_ipv4_hdr m nat_ip :
  in_pkt m 0 54 = true → 54 ≤ mb_data_len m → Forall is_u8 (mb_buf m) →
  wp (chg_to_ipv4_hdr nat_ip)
    (λ r m', r = (true, mget m 4 (dp_get_ipv6_hdr + ip6_dst + 12)) ∧ v4_made nat_ip m m') m.
Proof.
  intros Hin Hlen Hu8. unfold chg_to_ipv4_hdr, upd_df. net_unfold.
  pkt_run. apply wp_mbuf_adj; [lia|intros; lia|]. intros _ m1 Hb1 Ho1 Hl1 Hf1 Hg1 Hpo1.
  pose proof (f_equal length Hb1).
  assert (Hs : ∀ k off, mget m1 k off = mget m' k (20 + off))
    by (intros; rewrite (mget_shift m') by done; f_equal; lia). pkt_run. apply wp_memmove; [pkt_in|pkt_in|]. intros m2 Hmv. pkt_facts.
  pkt_run. unfold in_pkt in Hin. rewrite in_buf_spec in Hin. split; [by pkt_read|]. constructor; net_unfold.
  all: try lia. 1: by pkt_u8; rewrite Hb1; pkt_u8.
  all: try (intros k off Hoff). all: pkt_read. all: rewrite ?Hs. all: pkt_read.
  all: first [done | by apply Z.mod_small, bswap16_range | by apply Z.mod_small, bswap32_range
             | by apply mget_mod; [done|pkt_in] | by f_equal; lia | congruence | idtac].
  - change (20 + (12 - 0 + - (40 - 20))) with 12. pkt_read. apply Z.mod_small, bswap16_range.
  - apply Z.mod_small. rewrite Z.land_ones with (n := 8) by lia. apply Z.mod_pos_bound. lia.
  - rewrite Z.mod_small by apply bswap16_range. do 3 f_equal. congruence.
Qed.

(** The L4 checksum position of a protocol that is translated unchanged, and the
    flag that leaves its computation to the hardware. *)
Definition l4_cksum (l4_type : Z) : Z := if l4_type =? IPPROTO_TCP then tcp_cksum else udp_cksum.
Definition l4_flag (l4_type : Z) : Z :=
  if l4_type =? IPPROTO_TCP then RTE_MBUF_F_TX_TCP_CKSUM else RTE_MBUF_F_TX_UDP_CKSUM.

Record l4_offloaded (l4 hdr : Z) (m m' : rte_mbuf) : Prop := {
  lo_cksum : mget m' 2 (hdr + l4_cksum l4) = 0;
  lo_other k off : 0 ≤ mb_data_off m + off →
    off + Z.of_nat k ≤ hdr + l4_cksum l4 ∨ hdr + l4_cksum l4 + 2 ≤ off → mget m' k off = mget m k off;
  lo_flags : mb_ol_flags m' = Z.lor (mb_ol_flags m) (l4_flag l4);
  lo_flow : mb_flow m' = mb_flow m;
  lo_off : mb_data_off m' = mb_data_off m;
  lo_len : mb_data_len m' = mb_data_len m
}.

Lemma wp_offload_tcp hdr m :
  in_pkt m hdr 20 = true → wp (offload_tcp_cksum hdr) (λ _, l4_offloaded IPPROTO_TCP hdr m) m.
Proof.
  intros Hin. unfold offload_tcp_cksum, set_l4_len. net_unfold. pkt_run.
  unfold in_pkt in Hin. rewrite in_buf_spec in Hin.
  constructor; net_unfold; change (l4_cksum IPPROTO_TCP) with 16; change (l4_flag IPPROTO_TCP)
    with RTE_MBUF_F_TX_TCP_CKSUM; try congruence; [by pkt_read|]. intros k off Hoff Hd. by pkt_read.
Qed.

Lemma wp_offload_udp hdr m :
  in_pkt m hdr 8 = true → wp (offload_udp_cksum hdr) (λ _, l4_offloaded IPPROTO_UDP hdr m) m.
Proof.
  intros Hin. unfold offload_udp_cksum, set_l4_len. net_unfold. pkt_run.
  unfold in_pkt in Hin. rewrite in_buf_spec in Hin.
  constructor; net_unfold; change (l4_cksum IPPROTO_UDP) with 6; change (l4_flag IPPROTO_UDP)
    with RTE_MBUF_F_TX_UDP_CKSUM; try congruence; [by pkt_read|]. intros k off Hoff Hd. by pkt_read.
Qed.

Lemma wp_chg_l4_for_ipv4 l4 m :
  df_l4_type (mb_flow m) = l4 → l4 = IPPROTO_TCP ∨ l4 = IPPROTO_UDP → in_pkt m 34 20 = true →
  wp chg_l4_for_ipv4 (λ r m', r = DP_OK ∧ l4_offloaded l4 34 m m') m.
Proof.
  intros El4 Hl4 Hin. unfold chg_l4_for_ipv4, get_df. wp_steps. rewrite El4.
  change (dp_get_ipv4_hdr + sizeof_ipv4_hdr) with 34. destruct Hl4 as [-> | ->]; simpl; wp_steps.
  - eapply wp_mono; [by apply wp_offload_tcp|]. intros ? m' H. by wp_steps.
  - eapply wp_mono; [apply wp_offload_udp; apply (in_pkt_sub _ _ _ _ _ Hin); lia|].
    intros ? m' H. by wp_steps.
Qed.

Lemma wp_chg_l4_for_ipv6 l4 m :
  df_l4_type (mb_flow m) = l4 → l4 = IPPROTO_TCP ∨ l4 = IPPROTO_UDP → in_pkt m 54 20 = true →
  wp chg_l4_for_ipv6 (λ r m', r = DP_OK ∧ l4_offloaded l4 54 m m') m.
Proof.
  intros El4 Hl4 Hin. unfold chg_l4_for_ipv6, get_df. wp_steps. rewrite El4.
  change (dp_get_ipv6_hdr + sizeof_ipv6_hdr) with 54. destruct Hl4 as [-> | ->]; simpl; wp_steps.
  - eapply wp_mono; [by apply wp_offload_tcp|]. intros ? m' H. by wp_steps.
  - eapply wp_mono; [apply wp_offload_udp; apply (in_pkt_sub _ _ _ _ _ Hin); lia|].
    intros ? m' H. by wp_steps.
Qed.

Lemma l4_cksum_range l4 : 6 ≤ l4_cksum l4 ≤ 16.
Proof. unfold l4_cksum, tcp_cksum, udp_cksum. case_match; lia. Qed.

(** C27. NAT64 from IPv6 to IPv4: a TCP or UDP packet gets an IPv4 header with the
    address of the NAT as source, the last word of the IPv6 destination as
    destination, its protocol and its length; its Ethernet addresses and
    everything after the IP header but the checksum stay as they were.  The time
    to live, however, is the second byte of the destination MAC address. *)
Theorem nat64_to_v4 m nat_ip :
  let l4 := df_l4_type (mb_flow m) in
  in_pkt m 0 74 = true → 74 ≤ mb_data_len m → Forall is_u8 (mb_buf m) →
  l4 = IPPROTO_TCP ∨ l4 = IPPROTO_UDP →
  wp (dp_nat_chg_ipv6_to_ipv4_hdr nat_ip)
    (λ r m', r = (DP_OK, mget m 4 (dp_get_ipv6_hdr + ip6_dst + 12))
       ∧ mb_data_off m' = mb_data_off m + 20 ∧ mb_data_len m' = mb_data_len m - 20
       ∧ mget m' 2 eth_ether_type = htons RTE_ETHER_TYPE_IPV4
       ∧ mget m' 12 eth_dst = mget m 12 eth_dst
       ∧ mget m' 1 (dp_get_ipv4_hdr + ip4_version_ihl) = 69
       ∧ mget m' 2 (dp_get_ipv4_hdr + ip4_total_length) = htons (u16 (mb_data_len m' - 14))
       ∧ mget m' 1 (dp_get_ipv4_hdr + ip4_proto) = mget m 1 (dp_get_ipv6_hdr + ip6_proto)
       ∧ mget m' 4 (dp_get_ipv4_hdr + ip4_src) = htonl nat_ip
       ∧ mget m' 4 (dp_get_ipv4_hdr + ip4_dst) = mget m 4 (dp_get_ipv6_hdr + ip6_dst + 12)
       ∧ mget m' 1 (dp_get_ipv4_hdr + ip4_ttl) = mget m 1 (eth_dst + 1)
       ∧ df_l3_type (mb_flow m') = RTE_ETHER_TYPE_IPV4
       ∧ mget m' 2 (34 + l4_cksum l4) = 0
       ∧ ∀ k off, 34 ≤ off → off + Z.of_nat k ≤ 34 + l4_cksum l4 ∨ 34 + l4_cksum l4 + 2 ≤ off →
           mget m' k off = mget m k (off + 20)) m.
Proof.
  intros l4 Hin Hlen Hu8 Hl4. unfold dp_nat_chg_ipv6_to_ipv4_hdr. wp_steps.
  eapply wp_mono; [apply wp_chg_to_ipv4_hdr; [|lia|done]|].
  { apply (in_pkt_sub _ _ _ _ _ Hin); lia. }
  intros r m1 [-> Hm1]. pose proof (v4_off _ _ _ Hm1). pose proof (v4_buf _ _ _ Hm1).
  pose proof (l4_cksum_range l4). unfold in_pkt in Hin. rewrite in_buf_spec in Hin. wp_steps.
  eapply wp_mono; [apply (wp_chg_l4_for_ipv4 l4); [by rewrite (v4_flow _ _ _ Hm1)|done|pkt_in]|].
  intros r m' [-> Hl]. pose proof (lo_other _ _ _ _ Hl) as Ho. wp_steps. net_unfold.
  split_and!; [done|rewrite (lo_off _ _ _ _ Hl); lia|rewrite (lo_len _ _ _ _ Hl); apply Hm1|..].
  9: by rewrite (lo_flow _ _ _ _ Hl), (v4_flow _ _ _ Hm1).
  9: apply Hl.
  9: intros k off Hoff Hd; rewrite Ho by lia; by apply Hm1.
  all: rewrite Ho by (simpl Z.of_nat; lia). all: try apply Hm1.
  rewrite (lo_len _ _ _ _ Hl). apply Hm1.
Qed.
(** The IPv6 header made from an IPv4 packet: here the time to live is read
    before anything is written over it. *)
Record v6_made (ipv6_addr : Z) (m m' : rte_mbuf) : Prop := {
  v6_off : mb_data_off m' = mb_data_off m - 20;
  v6_len : mb_data_len m' = mb_data_len m + 20;
  v6_buf : length (mb_buf m') = length (mb_buf m);
  v6_ether : mget m' 2 eth_ether_type = htons RTE_ETHER_TYPE_IPV6;
  v6_macs : mget m' 12 eth_dst = mget m 12 eth_dst;
  v6_plen : mget m' 2 (dp_get_ipv6_hdr + ip6_payload_len) = htons (u16 (mb_data_len m' - 14 - 40));
  v6_proto : mget m' 1 (dp_get_ipv6_hdr + ip6_proto) = mget m 1 (dp_get_ipv4_hdr + ip4_proto);
  v6_hops : mget m' 1 (dp_get_ipv6_hdr + ip6_hop_limits) = mget m 1 (dp_get_ipv4_hdr + ip4_ttl);
  v6_prefix : mget m' 12 (dp_get_ipv6_hdr + ip6_src) = DP_NAT64_PREFIX;
  v6_src : mget m' 4 (dp_get_ipv6_hdr + ip6_src + 12) = mget m 4 (dp_get_ipv4_hdr + ip4_src);
  v6_dst : mget m' 16 (dp_get_ipv6_hdr + ip6_dst) = ipv6_addr;
  v6_flow : mb_flow m' = (mb_flow m) <| df_dst_addr6 := ipv6_addr |>;
  v6_payload k off : 54 ≤ off → mget m' k off = mget m k (off - 20)
}.

Lemma wp_chg_to_ipv6_hdr m ipv6_addr :
  in_pkt m 0 34 = true → 20 ≤ mb_data_off m → Forall is_u8 (mb_buf m) → is_u128 ipv6_addr →
  wp (chg_to_ipv6_hdr ipv6_addr) (λ r m', r = true ∧ v6_made ipv6_addr m m') m.
Proof.
  intros Hin Hoff Hu8 Ha. unfold chg_to_ipv6_hdr, upd_df. net_unfold.
  pkt_run. apply wp_mbuf_prepend; [lia|intros; lia|]. intros _ m1 Hb1 Ho1 Hl1 Hf1 Hg1 Hpo1.
  pose proof (f_equal length Hb1).
  assert (Hs : ∀ k off, mget m1 k off = mget m' k (off - 20))
    by (intros; rewrite (mget_shift m') by done; f_equal; lia).
  pkt_run. apply wp_memmove; [pkt_in|pkt_in|]. intros m2 Hmv. pkt_facts.
  pkt_run. unfold in_pkt in Hin. rewrite in_buf_spec in Hin. split; [done|]. constructor; net_unfold.
  all: try lia. all: try (intros k off ?). all: pkt_read. all: rewrite ?Hs. all: pkt_read.
  all: first [done | by apply Z.mod_small, bswap16_range | by apply Z.mod_small, bswap32_range
             | by apply mget_mod; [done|pkt_in] | by f_equal; lia | congruence | idtac].
  - change (12 - 0 + (40 - 20) - 20) with 12. pkt_read. apply Z.mod_small, bswap16_range.
  - rewrite Z.mod_small by apply bswap16_range. do 3 f_equal. congruence.
  - by apply Z.mod_small.
Qed.

(** C28. NAT64 from IPv4 to IPv6: a TCP or UDP packet with room for the longer header
    gets an IPv6 header with the source address behind the NAT64 prefix, the given
    destination, its protocol, its length and its time to live as hop limit;
    everything else but the checksum stays as it was. *)
Theorem nat64_to_v6 m ipv6_addr :
  let l4 := df_l4_type (mb_flow m) in
  in_pkt m 0 54 = true → 20 ≤ mb_data_off m → Forall is_u8 (mb_buf m) → is_u128 ipv6_addr →
  l4 = IPPROTO_TCP ∨ l4 = IPPROTO_UDP →
  wp (dp_nat_chg_ipv4_to_ipv6_hdr ipv6_addr)
    (λ r m', r = DP_OK
       ∧ mb_data_off m' = mb_data_off m - 20 ∧ mb_data_len m' = mb_data_len m + 20
       ∧ mget m' 2 eth_ether_type = htons RTE_ETHER_TYPE_IPV6
       ∧ mget m' 12 eth_dst = mget m 12 eth_dst
       ∧ mget m' 2 (dp_get_ipv6_hdr + ip6_payload_len) = htons (u16 (mb_data_len m' - 14 - 40))
       ∧ mget m' 1 (dp_get_ipv6_hdr + ip6_proto) = mget m 1 (dp_get_ipv4_hdr + ip4_proto)
       ∧ mget m' 1 (dp_get_ipv6_hdr + ip6_hop_limits) = mget m 1 (dp_get_ipv4_hdr + ip4_ttl)
       ∧ mget m' 12 (dp_get_ipv6_hdr + ip6_src) = DP_NAT64_PREFIX
       ∧ mget m' 4 (dp_get_ipv6_hdr + ip6_src + 12) = mget m 4 (dp_get_ipv4_hdr + ip4_src)
       ∧ mget m' 16 (dp_get_ipv6_hdr + ip6_dst) = ipv6_addr
       ∧ df_dst_addr6 (mb_flow m') = ipv6_addr
       ∧ mget m' 2 (54 + l4_cksum l4) = 0
       ∧ ∀ k off, 54 ≤ off → off + Z.of_nat k ≤ 54 + l4_cksum l4 ∨ 54 + l4_cksum l4 + 2 ≤ off →
           mget m' k off = mget m k (off - 20)) m.
Proof.
  intros l4 Hin Hroom Hu8 Ha Hl4. unfold dp_nat_chg_ipv4_to_ipv6_hdr. wp_steps.
  eapply wp_mono; [apply wp_chg_to_ipv6_hdr; [|lia|done|done]|].
  { apply (in_pkt_sub _ _ _ _ _ Hin); lia. }
  intros r m1 [-> Hm1]. pose proof (v6_off _ _ _ Hm1). pose proof (v6_buf _ _ _ Hm1).
  pose proof (l4_cksum_range l4). unfold in_pkt in Hin. rewrite in_buf_spec in Hin. wp_steps.
  eapply wp_mono; [apply (wp_chg_l4_for_ipv6 l4); [by rewrite (v6_flow _ _ _ Hm1)|done|pkt_in]|].
  intros r m' [-> Hl]. pose proof (lo_other _ _ _ _ Hl) as Ho. wp_steps. net_unfold.
  split_and!; [done|rewrite (lo_off _ _ _ _ Hl); lia|rewrite (lo_len _ _ _ _ Hl); apply Hm1|..].
  9: by rewrite (lo_flow _ _ _ _ Hl), (v6_flow _ _ _ Hm1).
  9: apply Hl.
  9: intros k off Hoff Hd; rewrite Ho by lia; by apply Hm1.
  all: rewrite Ho by (simpl Z.of_nat; lia). all: try apply Hm1.
  rewrite (lo_len _ _ _ _ Hl). apply Hm1.
Qed.
End nat64_facts.

(** ** The ICMP checksum *)

(** Two rounds of folding are enough for a 32-bit sum, so [while (sum >> 16)]
    ends after them with a 16-bit value of the same residue. *)
Lemma fold_sum_spec sum :
  is_u32 sum → is_u16 (fold_sum sum) ∧ fold_sum sum mod (2 ^ 16 - 1) = sum mod (2 ^ 16 - 1).
Proof.
  intros Hs. set (f s := if Z.shiftr s 16 =? 0 then s else Z.land s 65535 + Z.shiftr s 16).
  assert (Hf : ∀ z, 0 ≤ z → f z = if z <? 65536 then z else fold16 z).
  { intros z Hz. unfold f, fold16. change 65535 with (Z.ones 16).
    rewrite Z.shiftr_div_pow2, (Z.land_ones z 16) by lia.
    destruct (Z.eqb_spec (z / 2 ^ 16) 0), (Z.ltb_spec z 65536); try done; zsolve. }
  assert (Hm : ∀ z, 0 ≤ z → f z mod (2 ^ 16 - 1) = z mod (2 ^ 16 - 1)).
  { intros z Hz. rewrite Hf by done. case_match; [done|]. apply fold16_mod. }
  change (fold_sum sum) with (f (f sum)).
  assert (H1 : 0 ≤ f sum ≤ 131070).
  { rewrite Hf by (unfold_widths; lia). unfold fold16. case_match; zbool; zsolve. }
  split; [|rewrite !Hm; [done|unfold_widths; lia|lia]].
  rewrite Hf by lia. unfold fold16. case_match; zbool; zsolve.
Qed.

Lemma words_sum_range m off n :
  Forall is_u8 (mb_buf m) → in_pkt m off (2 * n) = true →
  0 ≤ words_sum m off n ≤ 65535 * Z.of_nat n.
Proof.
  intros Hu. revert off. induction n as [|n IH]; intros off Hi; cbn [words_sum]; [lia|].
  assert (Hw : 0 ≤ mget m 2 off < 2 ^ (8 * Z.of_nat 2))
    by (apply mget_range; [done|]; apply (in_pkt_sub _ _ _ _ _ Hi); lia).
  destruct n as [|n]; [simpl in *; lia|].
  assert (in_pkt m (off + 2) (2 * S n) = true) by (apply (in_pkt_sub _ _ _ _ _ Hi); lia).
  specialize (IH (off + 2) H). change (2 ^ (8 * Z.of_nat 2)) with 65536 in Hw. lia.
Qed.

(** Enough fuel: one round per word. *)
Lemma wp_icmp_sum fuel n m off i len sum :
  (n < fuel)%nat → len ≤ i + 2 * Z.of_nat n < len + 2 → in_pkt m (off + i) (2 * n) = true →
  Forall is_u8 (mb_buf m) → 0 ≤ sum → sum + 65535 * Z.of_nat n < 2 ^ 32 →
  wp (icmp_sum fuel off i len sum) (λ r m', r = sum + words_sum m (off + i) n ∧ m' = m) m.
Proof.
  intros Hf Hn Hi Hu. revert fuel i sum Hf Hn Hi.
  induction n as [|n IH]; intros [|fuel] i sum Hf Hn Hi Hs Hmax; try lia.
  - cbn [icmp_sum]. replace (i <? len) with false by lia. wp_steps. simpl. split; [lia|done].
  - cbn [icmp_sum]. replace (i <? len) with true by lia. wp_steps.
    assert (Hi2 : in_pkt m (off + i) 2 = true) by (apply (in_pkt_sub _ _ _ _ _ Hi); lia).
    apply wp_ld; [done|]. pose proof (mget_range m 2 (off + i) Hu Hi2) as Hw.
    change (2 ^ (8 * Z.of_nat 2)) with 65536 in Hw. rewrite u32_id by (unfold_widths; lia).
    eapply wp_mono; [apply IH; try lia|].
    + unfold in_pkt in *. rewrite in_buf_spec in *. lia.
    + intros r m' [-> ->]. cbn [words_sum]. rewrite Z.add_assoc. split; [lia|done].
Qed.

(** The computed checksum makes the message valid, including the byte after it
    if its length is odd. *)
Lemma wp_calculate_icmp_checksum m hdr len n :
  Forall is_u8 (mb_buf m) → (2 ≤ n)%nat → len ≤ 2 * Z.of_nat n < len + 2 → Z.of_nat n ≤ 2 ^ 16 →
  in_pkt m hdr (2 * n) = true →
  wp (dp_calculate_icmp_checksum hdr len)
    (λ _ m', cksum_ok m' hdr n ∧ ∃ v, m' = mset (mset m 2 (hdr + icmp_cksum) 0) 2 (hdr + icmp_cksum) v) m.
Proof.
  intros Hu Hn2 Hn Hmax Hin. unfold dp_calculate_icmp_checksum.
  change icmp_cksum with (2 * Z.of_nat 1). wp_steps.
  assert (Hck : in_pkt m (hdr + 2 * Z.of_nat 1) 2 = true) by (apply (in_pkt_sub _ _ _ _ _ Hin); lia).
  apply wp_st; [done|]. set (m1 := mset _ _ _ _). wp_steps.
  assert (Hin1 : in_pkt m1 hdr (2 * n) = true) by (unfold m1; by rewrite in_pkt_mset).
  assert (Hu1 : Forall is_u8 (mb_buf m1)) by (apply buf_set_u8; [done|apply to_bytes_u8]).
  assert (Hr : 0 ≤ words_sum m1 hdr n ≤ 65535 * Z.of_nat n) by (by apply words_sum_range).
  eapply wp_mono; [apply (wp_icmp_sum _ n); try done|].
  - unfold in_pkt in Hin1. rewrite in_buf_spec in Hin1. lia.
  - by rewrite Z.add_0_r.
  - lia.
  - intros r m' [-> ->]. rewrite Z.add_0_l, Z.add_0_r. destruct (fold_sum_spec (words_sum m1 hdr n)) as [Hf Hm].
    { unfold_widths. lia. }
    set (f := fold_sum _) in *. rewrite u16_id by done.
    apply wp_st; [unfold m1; by rewrite in_pkt_mset|]. split; [|by eexists].
    unfold cksum_ok. assert (Hnf : is_u16 (not16 f)) by (unfold not16; rewrite u16_id by done; unfold_widths; lia).
    rewrite words_sum_mset by (done || lia). unfold m1 at 2. rewrite mget_mset_eq by done.
    unfold not16. rewrite u16_id by done. revert Hm. generalize (words_sum m1 hdr n). clear.
    change (2 ^ 16 - 1) with 65535. intros. Z.div_mod_to_equations. lia.
Qed.

Section nat64_icmp.
Context `{HN : RteNet} {HNO : RteNetOk}.

Definition icmp_type_v4 (type : Z) : Z :=
  if type =? DP_ICMPV6_ECHO_REQUEST then RTE_IP_ICMP_ECHO_REQUEST else RTE_IP_ICMP_ECHO_REPLY.

Lemma v4_total_length nat_ip m m' :
  v4_made nat_ip m m' → 54 ≤ mb_data_len m ≤ 65535 →
  u64 (ntohs (mget m' 2 (dp_get_ipv4_hdr + ip4_total_length))
       - Z.land (mget m' 1 (dp_get_ipv4_hdr + ip4_version_ihl)) 15 * 4) = mb_data_len m - 54.
Proof.
  intros Hm Hl. rewrite (v4_total _ _ _ Hm), (v4_vihl _ _ _ Hm), (v4_len _ _ _ Hm).
  change (Z.land 69 15 * 4) with 20. rewrite bswap16_involutive by apply u16_range. zsolve.
Qed.

Lemma wp_chg_l4_icmp m n len :
  let type := mget m 1 (34 + icmp_type) in
  Forall is_u8 (mb_buf m) → in_pkt m 0 (34 + 2 * n) = true →
  df_l4_type (mb_flow m) = IPPROTO_ICMPV6 →
  type = DP_ICMPV6_ECHO_REQUEST ∨ type = DP_ICMPV6_ECHO_REPLY →
  u64 (ntohs (mget m 2 (dp_get_ipv4_hdr + ip4_total_length))
       - Z.land (mget m 1 (dp_get_ipv4_hdr + ip4_version_ihl)) 15 * 4) = len →
  8 ≤ len ≤ 65535 → len ≤ 2 * Z.of_nat n < len + 2 →
  wp chg_l4_for_ipv4
    (λ r m', r = DP_OK ∧ mget m' 1 (dp_get_ipv4_hdr + ip4_proto) = IPPROTO_ICMP
       ∧ df_l4_type (mb_flow m') = IPPROTO_ICMP
       ∧ mget m' 1 (34 + icmp_type) = icmp_type_v4 type ∧ mget m' 1 (34 + icmp_code) = 0
       ∧ cksum_ok m' 34 n ∧ ∀ k off, 38 ≤ off → mget m' k off = mget m k off) m.
Proof.
  intros type Hu8 Hin Hl4 Hty Hlen Hl Hn. unfold chg_l4_for_ipv4, get_df, upd_df, set_l4_len.
  assert (Hi : 0 ≤ mb_data_off m ∧ mb_data_off m + 34 + 2 * Z.of_nat n ≤ Z.of_nat (length (mb_buf m)))
    by (unfold in_pkt in Hin; rewrite in_buf_spec in Hin; lia).
  clear Hin. wp_steps. rewrite Hl4. simpl (_ =? _). cbn match. unfold type in *. net_unfold. pkt_run.
  set (new_type := if _ =? DP_ICMPV6_ECHO_REQUEST then _ else _).
  assert (new_type = Some (icmp_type_v4 (mget m 1 (34 + 0)))) as ->.
  { unfold new_type. pkt_read. change (14 + 20 + 0) with (34 + 0). by destruct Hty as [-> | ->]. }
  assert (Ht : icmp_type_v4 (mget m 1 (34 + 0)) mod 2 ^ (8 * Z.of_nat 1) = icmp_type_v4 (mget m 1 (34 + 0)))
    by (by destruct Hty as [-> | ->]).
  pkt_run. pkt_read. rewrite Hlen. change (14 + 20) with 34 in *.
  eapply wp_mono; [apply (wp_calculate_icmp_checksum _ _ _ n); [by pkt_u8|lia|lia|lia|pkt_in]|].
  intros _ m5 [Hck [v ->]]. net_unfold.
  match goal with |- context [mset (mset ?m4 _ _ _) _ _ _] => rename m4 into m4' end.
  assert (Hms : ∀ k off, 0 ≤ mb_data_off m + off → off + Z.of_nat k ≤ 36 ∨ 38 ≤ off →
    mget (mset (mset m4' 2 (34 + 2) 0) 2 (34 + 2) v) k off = mget m4' k off).
  { intros k off Ho Hd. assert (in_pkt m4' (34 + 2) 2 = true) by pkt_in.
    rewrite !mget_mset_ne; simpl; rewrite ?in_pkt_mset; try done; lia. }
  wp_steps. split_and!; try done; [..|intros k off Ho]. all: rewrite ?Hms by (simpl; lia).
  all: pkt_read. all: try done.
  1: change (df_l4_type (mb_flow m4') = IPPROTO_ICMP).
  assert (mb_flow m4' = (mb_flow m) <| df_l4_type := IPPROTO_ICMP |>) as -> by congruence. done.
Qed.

(** An ICMPv6 echo message becomes the ICMP message of the same kind, with a
    valid checksum. *)
Theorem nat64_icmp_to_v4 m nat_ip n :
  let type := mget m 1 (dp_get_ipv6_hdr + sizeof_ipv6_hdr + icmp_type) in
  let len := mb_data_len m - 54 in
  Forall is_u8 (mb_buf m) → in_pkt m 0 (54 + 2 * n) = true →
  8 ≤ len → mb_data_len m ≤ 65535 → len ≤ 2 * Z.of_nat n < len + 2 →
  df_l4_type (mb_flow m) = IPPROTO_ICMPV6 →
  type = DP_ICMPV6_ECHO_REQUEST ∨ type = DP_ICMPV6_ECHO_REPLY →
  wp (dp_nat_chg_ipv6_to_ipv4_hdr nat_ip)
    (λ r m', r = (DP_OK, mget m 4 (dp_get_ipv6_hdr + ip6_dst + 12))
       ∧ mget m' 1 (dp_get_ipv4_hdr + ip4_proto) = IPPROTO_ICMP
       ∧ df_l4_type (mb_flow m') = IPPROTO_ICMP
       ∧ mget m' 1 (34 + icmp_type) = icmp_type_v4 type ∧ mget m' 1 (34 + icmp_code) = 0
       ∧ cksum_ok m' 34 n
       ∧ ∀ k off, 38 ≤ off → mget m' k off = mget m k (off + 20)) m.
Proof.
  intros type len Hu8 Hin Hlen Hmax Hn Hl4 Hty. unfold dp_nat_chg_ipv6_to_ipv4_hdr. wp_steps.
  eapply wp_mono; [apply wp_chg_to_ipv4_hdr; [|unfold len in *; lia|done]|].
  { apply (in_pkt_sub _ _ _ _ _ Hin); lia. }
  intros r m1 [-> Hm1]. pose proof (v4_off _ _ _ Hm1). pose proof (v4_buf _ _ _ Hm1).
  unfold in_pkt in Hin. rewrite in_buf_spec in Hin.
  assert (Ety : mget m1 1 (34 + icmp_type) = type) by (rewrite (v4_payload _ _ _ Hm1) by (unfold icmp_type; lia); done).
  wp_steps. eapply wp_mono; [apply (wp_chg_l4_icmp m1 n len)|].
  - apply Hm1.
  - unfold in_pkt. rewrite in_buf_spec. lia.
  - by rewrite (v4_flow _ _ _ Hm1).
  - by rewrite Ety.
  - apply (v4_total_length nat_ip); [done|unfold len in *; lia].
  - unfold len in *; lia.
  - done.
  - intros r m' (-> & Hp & Hf & Ht & Hc & Hck & Ho). wp_steps. rewrite Ety in Ht.
    split_and!; try done. intros k off Hoff. rewrite Ho by done. apply Hm1. lia.
Qed.
End nat64_icmp.

(** ** Examples *)

#[local] Instance test_net : RteNet := {
  rte_pktmbuf_adj len m :=
    if (0 <=? len) && (len <=? mb_data_len m)
    then Some (m <| mb_data_off := mb_data_off m + len |> <| mb_data_len := mb_data_len m - len |>)
    else None;
  rte_pktmbuf_prepend len m :=
    if (0 <=? len) && (len <=? mb_data_off m)
    then Some (m <| mb_data_off := mb_data_off m - len |> <| mb_data_len := mb_data_len m + len |>)
    else None;
  rte_ipv4_hdr_len vihl := Z.land vihl 15 * 4;
  rte_ipv6_udptcp_cksum m l3 l4 := 0
}.

#[local] Instance test_net_ok : RteNetOk.
Proof.
  constructor; simpl; try done; intros.
  - by rewrite (proj2 (Z.leb_le 0 len)), (proj2 (Z.leb_le len _)) by lia.
  - rewrite (proj2 (Z.leb_gt len _)) by lia. by rewrite andb_false_r.
  - by rewrite (proj2 (Z.leb_le 0 len)), (proj2 (Z.leb_le len _)) by lia.
  - rewrite (proj2 (Z.leb_gt len _)) by lia. by rewrite andb_false_r.
Qed.

Definition ex_df4 (l4 : Z) : dp_flow := dp_init_flow_ptr <| df_l4_type := l4 |>.

(** The hop limit 64 is lost: the new time to live is 7, from the MAC address. *)
Definition ex_tcp6 : rte_mbuf :=
  ex_frame 20 74 (ex_df4 IPPROTO_TCP)
    ([6; 7; 8; 9; 10; 11; 1; 2; 3; 4; 5; 6; 134; 221] ++ [96; 0; 0; 0; 0; 20; 6; 64]).

Lemma nat64_to_v4_witness :
  wp (dp_nat_chg_ipv6_to_ipv4_hdr 167772161)
    (λ r m', r.1 = DP_OK ∧ mget m' 4 (dp_get_ipv4_hdr + ip4_src) = htonl 167772161
       ∧ mget m' 1 (dp_get_ipv4_hdr + ip4_ttl) = 7) ex_tcp6.
Proof.
  eapply wp_mono; [apply (nat64_to_v4 ex_tcp6 167772161); try reflexivity|].
  - apply ex_frame_u8. reflexivity.
  - left. reflexivity.
  - cbn beta. intros r m' (-> & _ & _ & _ & _ & _ & _ & _ & Hs & _ & Ht & _). by rewrite Hs, Ht.
Defined.

Definition ex_udp4 : rte_mbuf := ex_frame 20 54 (ex_df4 IPPROTO_UDP) (replicate 22 0 ++ [64; 17]).

Lemma nat64_to_v6_witness :
  wp (dp_nat_chg_ipv4_to_ipv6_hdr 77)
    (λ r m', r = DP_OK ∧ mget m' 16 (dp_get_ipv6_hdr + ip6_dst) = 77
       ∧ mget m' 1 (dp_get_ipv6_hdr + ip6_hop_limits) = 64) ex_udp4.
Proof.
  eapply wp_mono; [apply (nat64_to_v6 ex_udp4 77); try reflexivity|].
  - apply ex_frame_u8. reflexivity.
  - unfold is_u128. lia.
  - right. reflexivity.
  - cbn beta. intros r m' (-> & _ & _ & _ & _ & _ & _ & Hh & _ & _ & Hd & _). by rewrite Hh, Hd.
Defined.

Definition ex_echo6 : rte_mbuf := ex_frame 20 62 (ex_df4 IPPROTO_ICMPV6) (replicate 54 0 ++ [128; 0; 0; 0]).

Lemma nat64_icmp_to_v4_witness :
  wp (dp_nat_chg_ipv6_to_ipv4_hdr 167772161)
    (λ r m', r.1 = DP_OK ∧ mget m' 1 (34 + icmp_type) = RTE_IP_ICMP_ECHO_REQUEST ∧ cksum_ok m' 34 4)
    ex_echo6.
Proof.
  eapply wp_mono; [apply (nat64_icmp_to_v4 ex_echo6 167772161 4); try reflexivity|].
  - apply ex_frame_u8. reflexivity.
  - by apply Z.leb_le.
  - by split; [apply Z.leb_le|apply Z.ltb_lt].
  - left. reflexivity.
  - cbn beta. intros r m' (-> & _ & _ & Ht & _ & Hc & _). by split_and!.
Defined.
