(* ===== verification/Cntrack.v ===== *)
(** * Connection tracking (src/dp_cntrack.c)

    A packet's key is built in one of the two entries of [key_cache]; when it
    equals the key of the previous packet, the flow found for that packet is
    used without a lookup.  Otherwise the flow is looked up, and created if
    there is none. *)

From S2P Require Import Prelude Dpdk Error Types Port Vnf Conn Mbuf Nat Flow.

Definition RTE_TCP_FIN_FLAG : Z := 1.
Definition RTE_TCP_SYN_FLAG : Z := 2.
Definition RTE_TCP_RST_FLAG : Z := 4.
Definition RTE_TCP_ACK_FLAG : Z := 16.

Definition DP_TCP_PKT_FLAG_SYN : Z → bool := has_flag RTE_TCP_SYN_FLAG.
Definition DP_TCP_PKT_FLAG_RST : Z → bool := has_flag RTE_TCP_RST_FLAG.
Definition DP_TCP_PKT_FLAG_ACK : Z → bool := has_flag RTE_TCP_ACK_FLAG.
Definition DP_TCP_PKT_FLAG_FIN : Z → bool := has_flag RTE_TCP_FIN_FLAG.
Definition DP_TCP_PKT_FLAG_SYNACK (flags : Z) : bool :=
  Z.land flags (Z.lor RTE_TCP_SYN_FLAG RTE_TCP_ACK_FLAG)
  =? Z.lor RTE_TCP_SYN_FLAG RTE_TCP_ACK_FLAG.

(** The static variables that are set once. *)
Record cntrack_conf := MkCntrackConf {
  cc_flow_timeout : Z;
  cc_offload_mode_enabled : bool
}.
Definition dp_cntrack_init (offload_enabled : bool) : cntrack_conf :=
  MkCntrackConf DP_FLOW_DEFAULT_TIMEOUT offload_enabled.

(** ** TCP *)

Definition dp_cntrack_tcp_state (state : dp_flow_tcp_state) (flags : Z) : dp_flow_tcp_state :=
  if DP_TCP_PKT_FLAG_RST flags then DP_FLOW_TCP_STATE_RST_FIN
  else if DP_TCP_PKT_FLAG_FIN flags then
    match state with
    | DP_FLOW_TCP_STATE_ESTABLISHED => DP_FLOW_TCP_STATE_FINWAIT
    | _ => DP_FLOW_TCP_STATE_RST_FIN
    end
  else
    match state with
    | DP_FLOW_TCP_STATE_NONE | DP_FLOW_TCP_STATE_RST_FIN =>
        if DP_TCP_PKT_FLAG_SYN flags then DP_FLOW_TCP_STATE_NEW_SYN else state
    | DP_FLOW_TCP_STATE_NEW_SYN =>
        if DP_TCP_PKT_FLAG_SYNACK flags then DP_FLOW_TCP_STATE_NEW_SYNACK else state
    | DP_FLOW_TCP_STATE_NEW_SYNACK =>
        if DP_TCP_PKT_FLAG_ACK flags then DP_FLOW_TCP_STATE_ESTABLISHED else state
    | _ => state
    end.

Section cntrack.
Context `{HH : RteHash} `{HM : RteMalloc}.
Variable conf : cntrack_conf.

Definition cacheL : lens flow_state flow_cache := Lens fl_cache (λ x s, s <| fl_cache := x |>).

(** [INT_MAX] packets after the start the counter overflows. *)
Definition dp_cache_flow_val (flow_val : loc) : cmd conn_state () :=
  zoom flowL (zoom cacheL (λ c,
    let index := fc_index c + 1 in
    if index <? 2 ^ 31 then
      Some (tt, c <| fc_prev := Some (fc_curr c) |> <| fc_index := index |>
                  <| fc_curr := Z.odd index |> <| fc_flow_val := Some flow_val |>)
    else None)).

(** ** The offload state of a flow *)

Definition dp_cntrack_init_flow_offload_flags (df : dp_flow) (v : flow_value) : flow_value :=
  if negb (cc_offload_mode_enabled conf) then v
  else
    v <| fv_offload_orig := if negb (df_l4_type df =? IPPROTO_TCP)
                            then DP_FLOW_OFFLOAD_INSTALL else DP_FLOW_NON_OFFLOAD |>
      <| fv_offload_reply := DP_FLOW_NON_OFFLOAD |>.

(** The next offload state of one direction. *)
Definition next_offload_state (state : dp_pkt_offload_state) (offload_other_pf : bool) :
    dp_pkt_offload_state :=
  if bool_decide (state = DP_FLOW_NON_OFFLOAD) || offload_other_pf then DP_FLOW_OFFLOAD_INSTALL
  else if bool_decide (state = DP_FLOW_OFFLOAD_INSTALL) then DP_FLOW_OFFLOADED
  else state.

Definition dp_cntrack_change_flow_offload_flags (flow_val : loc) : cmd pkt_state () :=
  portp ← in_port_ptr;
  if negb (cc_offload_mode_enabled conf) then mret tt
  else
    port ← zoom fstL (deref_port portp);
    v ← zoom fstL (fv_load flow_val);
    pf0 ← zoom fstL (zoom portsL dp_get_pf0);
    let offload_other_pf :=
      if pt_is_pf port then
        if bool_decide (portp = pf0) then negb (fv_incoming_pf0 v) else negb (fv_incoming_pf1 v)
      else false in
    df ← zoom sndL get_df;
    match df_flow_dir df with
    | DP_FLOW_DIR_ORG =>
        zoom fstL (fv_store flow_val
          (v <| fv_offload_orig := next_offload_state (fv_offload_orig v) offload_other_pf |>))
    | DP_FLOW_DIR_REPLY =>
        zoom fstL (fv_store flow_val
          (v <| fv_offload_reply := next_offload_state (fv_offload_reply v) offload_other_pf |>))
    end.

Definition dp_cntrack_set_timeout_tcp_flow (flow_val : loc) : cmd pkt_state () :=
  v ← zoom fstL (fv_load flow_val);
  if bool_decide (fv_tcp_state v = DP_FLOW_TCP_STATE_ESTABLISHED) then
    zoom fstL (fv_store flow_val (v <| fv_timeout_value := DP_FLOW_TCP_EXTENDED_TIMEOUT |>));;
    dp_cntrack_change_flow_offload_flags flow_val
  else
    zoom fstL (fv_store flow_val (v <| fv_timeout_value := cc_flow_timeout conf |>));;
    if bool_decide (fv_tcp_state v = DP_FLOW_TCP_STATE_FINWAIT)
       || bool_decide (fv_tcp_state v = DP_FLOW_TCP_STATE_RST_FIN)
    then dp_cntrack_change_flow_offload_flags flow_val
    else mret tt.

Definition dp_cntrack_set_pkt_offload_decision (flow_val : loc) : cmd pkt_state () :=
  v ← zoom fstL (fv_load flow_val);
  zoom sndL (upd_df (λ df, df <| df_offload_state :=
    match df_flow_dir df with
    | DP_FLOW_DIR_ORG => fv_offload_orig v
    | DP_FLOW_DIR_REPLY => fv_offload_reply v
    end |>)).

(** ** New flows *)

(** The object before it is entered in the table. *)
Definition new_flow_value (key : flow_key) (df : dp_flow) (port : dp_port) :
    cmd conn_state flow_value :=
  local_neigh ←
    (if cc_offload_mode_enabled conf && negb (pt_is_pf port) && negb (is_v6 (fk_l3_dst key))
     then zoom vnfL (dp_vnf_lbprefix_exists DP_VNF_MATCH_ALL_PORT_IDS (fk_vni key)
                       (fk_l3_dst key) 32)
     else mret false);
  mret (dp_cntrack_init_flow_offload_flags df
    (zero_flow_value
       <| fv_key_org := key |> <| fv_flow_flags := DP_FLOW_FLAG_NONE |>
       <| fv_timeout_value := cc_flow_timeout conf |>
       <| fv_created_port_id := pt_port_id port |>
       <| fv_nf_nat_type := if (local_neigh : bool) then DP_FLOW_LB_TYPE_LOCAL_NEIGH_TRAFFIC
                            else DP_FLOW_NAT_TYPE_NONE |>
       <| fv_tcp_state := DP_FLOW_TCP_STATE_NONE |>
       <| fv_refcount := 1 |>)).

(** [port] is the pointer [dp_get_in_port(m)]. *)
Definition flow_table_insert_entry (key : flow_key) (portp : option nat) :
    cmd pkt_state (option loc) :=
  flow_val ← zoom fstL (zoom flowL (zoom valsL (hp_malloc zero_flow_value)));
  match flow_val with
  | None => mret None
  | Some p =>
      port ← zoom fstL (deref_port portp);
      df ← zoom sndL get_df;
      v ← zoom fstL (new_flow_value key df port);
      zoom fstL (fv_store p v);;
      zoom sndL (upd_df (λ df, df <| df_flow_dir := DP_FLOW_DIR_ORG |>));;
      ret ← zoom fstL (dp_add_flow key p);
      if DP_FAILED ret then zoom fstL (fv_free p);; mret None
      else
        hash ← zoom fstL (dp_get_conntrack_flow_hash_value key);
        zoom sndL (upd_df (λ df, df <| df_flow_hash := hash |>));;
        let inverted_key := dp_invert_flow_key key in
        zoom fstL (fv_store p (v <| fv_key_reply := inverted_key |>));;
        ret ← zoom fstL (dp_add_flow inverted_key p);
        if DP_FAILED ret then
          zoom fstL (dp_delete_flow key);; zoom fstL (fv_free p);; mret None
        else mret (Some p)
  end.

(** ** Finding the flow of a packet *)

Definition dp_set_pkt_flow_direction (key : flow_key) (flow_val : loc) : cmd pkt_state () :=
  v ← zoom fstL (fv_load flow_val);
  (if dp_are_flows_identical key (fv_key_reply v)
   then zoom sndL (upd_df (λ df, df <| df_flow_dir := DP_FLOW_DIR_REPLY |>)) else mret tt);;
  (if dp_are_flows_identical key (fv_key_org v)
   then zoom sndL (upd_df (λ df, df <| df_flow_dir := DP_FLOW_DIR_ORG |>)) else mret tt);;
  hash ← zoom fstL (dp_get_conntrack_flow_hash_value key);
  zoom sndL (upd_df (λ df, df <| df_flow_hash := hash |>)).

Definition dp_set_flow_offload_flag (flow_val : loc) : cmd pkt_state () :=
  v ← zoom fstL (fv_load flow_val);
  if bool_decide (fv_nf_nat_type v = DP_FLOW_NAT_TYPE_NETWORK_NEIGH)
     || bool_decide (fv_nf_nat_type v = DP_FLOW_LB_TYPE_FORWARD)
     || bool_decide (fv_nf_nat_type v = DP_FLOW_LB_TYPE_LOCAL_NEIGH_TRAFFIC)
  then dp_cntrack_change_flow_offload_flags flow_val
  else
    df ← zoom sndL get_df;
    if bool_decide (df_vnf_type df = DP_VNF_TYPE_LB) then mret tt
    else if negb (df_l4_type df =? IPPROTO_TCP) then dp_cntrack_change_flow_offload_flags flow_val
    else mret tt.

(** The flow of the key in [curr_key]; [use_cache] is whether the cached flow
    may be used, which the code always tries. *)
Definition dp_lookup_flow_val (use_cache : bool) : cmd pkt_state (Z * option loc) :=
  c ← zoom fstL (zoom flowL (gets fl_cache));
  let key := fc_key c (fc_curr c) in
  if use_cache
     && match fc_prev c with Some i => dp_are_flows_identical key (fc_key c i) | None => false end
  then
    match fc_flow_val c with
    | None => fault
    | Some p =>
        dp_set_pkt_flow_direction key p;;
        dp_set_flow_offload_flag p;;
        mret (DP_OK, Some p)
    end
  else
    r ← zoom fstL (dp_get_flow key);
    if DP_FAILED r.1 then
      if negb (r.1 =? - ENOENT) then mret (r.1, None)
      else
        portp ← in_port_ptr;
        p ← flow_table_insert_entry key portp;
        match p with
        | None => mret (DP_ERROR, None)
        | Some p => zoom fstL (dp_cache_flow_val p);; mret (DP_OK, Some p)
        end
    else
      match r.2 with
      | None => fault
      | Some p =>
          dp_set_pkt_flow_direction key p;;
          dp_set_flow_offload_flag p;;
          zoom fstL (dp_cache_flow_val p);;
          mret (DP_OK, Some p)
      end.

Definition dp_get_flow_val : cmd pkt_state (Z * option loc) :=
  c ← zoom fstL (zoom flowL (gets fl_cache));
  r ← dp_build_flow_key (fc_key c (fc_curr c));
  zoom fstL (zoom flowL (zoom cacheL (modify (λ c, set_fc_key c (fc_curr c) r.2))));;
  if DP_FAILED r.1 then mret (r.1, None)
  else dp_lookup_flow_val true.

(** [tsc] is [rte_rdtsc()]. *)
Definition dp_cntrack_handle (tsc : Z) : cmd pkt_state Z :=
  r ← dp_get_flow_val;
  if DP_FAILED r.1 then mret r.1
  else
    match r.2 with
    | None => fault
    | Some p =>
        v ← zoom fstL (fv_load p);
        zoom fstL (fv_store p (v <| fv_timestamp := tsc |>));;
        df ← zoom sndL get_df;
        ret ←
          (if (df_l4_type df =? IPPROTO_TCP) && negb (bool_decide (df_vnf_type df = DP_VNF_TYPE_LB)) then
             let tcp_hdr :=
               if df_l3_type df =? RTE_ETHER_TYPE_IPV4 then Some (dp_get_ipv4_hdr + sizeof_ipv4_hdr)
               else if df_l3_type df =? RTE_ETHER_TYPE_IPV6 then Some (dp_get_ipv6_hdr + sizeof_ipv6_hdr)
               else None in
             match tcp_hdr with
             | None => mret DP_ERROR
             | Some tcp_hdr =>
                 flags ← zoom sndL (ld8 (tcp_hdr + tcp_flags));
                 v ← zoom fstL (fv_load p);
                 zoom fstL (fv_store p
                   (v <| fv_tcp_state := dp_cntrack_tcp_state (fv_tcp_state v) flags |>));;
                 dp_cntrack_set_timeout_tcp_flow p;;
                 mret DP_OK
             end
           else mret DP_OK);
        if DP_FAILED ret then mret ret
        else
          zoom sndL (upd_df (λ df, df <| df_conntrack := Some p |>));;
          dp_cntrack_set_pkt_offload_decision p;;
          mret DP_OK
    end.
End cntrack.

(** ** Facts: TCP *)

(** Neither RST nor FIN. *)
Definition keeps_open (flags : Z) : Prop :=
  DP_TCP_PKT_FLAG_RST flags = false ∧ DP_TCP_PKT_FLAG_FIN flags = false.

(** The state after a sequence of segments. *)
Definition tcp_run (l : list Z) : dp_flow_tcp_state :=
  foldl dp_cntrack_tcp_state DP_FLOW_TCP_STATE_NONE l.

(** How far the handshake got in a sequence of segments. *)
Definition handshake (l : list Z) (state : dp_flow_tcp_state) : Prop :=
  match state with
  | DP_FLOW_TCP_STATE_NEW_SYN =>
      ∃ l1 syn l2, l = l1 ++ syn :: l2 ∧ DP_TCP_PKT_FLAG_SYN syn = true
        ∧ Forall keeps_open (syn :: l2)
  | DP_FLOW_TCP_STATE_NEW_SYNACK =>
      ∃ l1 syn l2 synack l3, l = l1 ++ syn :: l2 ++ synack :: l3
        ∧ DP_TCP_PKT_FLAG_SYN syn = true ∧ DP_TCP_PKT_FLAG_SYNACK synack = true
        ∧ Forall keeps_open (syn :: l2 ++ synack :: l3)
  | DP_FLOW_TCP_STATE_ESTABLISHED =>
      ∃ l1 syn l2 synack l3 ack l4, l = l1 ++ syn :: l2 ++ synack :: l3 ++ ack :: l4
        ∧ DP_TCP_PKT_FLAG_SYN syn = true ∧ DP_TCP_PKT_FLAG_SYNACK synack = true
        ∧ DP_TCP_PKT_FLAG_ACK ack = true
        ∧ Forall keeps_open (syn :: l2 ++ synack :: l3 ++ ack :: l4)
  | _ => True
  end.

(** A later segment that leaves the handshake where it is. *)
Lemma handshake_stay l state flags :
  handshake l state → keeps_open flags → handshake (l ++ [flags]) state.
Proof.
  intros Hh Hk. destruct state; simpl in *; try done.
  - destruct Hh as (l1 & syn & l2 & -> & Hs & Ho). exists l1, syn, (l2 ++ [flags]).
    split_and!; [by rewrite <- app_assoc|done|]. by rewrite app_comm_cons; apply Forall_app_2; [|constructor].
  - destruct Hh as (l1 & syn & l2 & sa & l3 & -> & Hs & Hsa & Ho). exists l1, syn, l2, sa, (l3 ++ [flags]).
    split_and!; [by rewrite <- !app_assoc; simpl; rewrite <- app_assoc|done|done|].
    rewrite !app_comm_cons, app_assoc. by apply Forall_app_2; [|constructor].
  - destruct Hh as (l1 & syn & l2 & sa & l3 & ack & l4 & -> & Hs & Hsa & Ha & Ho).
    exists l1, syn, l2, sa, l3, ack, (l4 ++ [flags]).
    split_and!; [by rewrite <- !app_assoc; simpl; rewrite <- !app_assoc; simpl; rewrite <- app_assoc|done..|].
    replace (syn :: l2 ++ sa :: l3 ++ ack :: l4 ++ [flags])
      with ((syn :: l2 ++ sa :: l3 ++ ack :: l4) ++ [flags])
      by (simpl; rewrite <- !app_assoc; simpl; by rewrite <- app_assoc).
    by apply Forall_app_2; [|constructor].
Qed.

Lemma handshake_run l : handshake l (tcp_run l).
Proof.
  induction l as [|flags l IH] using rev_ind; [done|]. unfold tcp_run. rewrite foldl_snoc.
  fold (tcp_run l). unfold dp_cntrack_tcp_state.
  destruct (DP_TCP_PKT_FLAG_RST flags) eqn:Hrst; [done|].
  destruct (DP_TCP_PKT_FLAG_FIN flags) eqn:Hfin; [by destruct (tcp_run l)|].
  assert (Hk : keeps_open flags) by done. pose proof (handshake_stay _ _ _ IH Hk) as Hstay.
  destruct (tcp_run l) eqn:Hst; try done.
  - destruct (DP_TCP_PKT_FLAG_SYN flags) eqn:Hs; [|done].
    exists l, flags, []. split_and!; [done|done|by constructor].
  - destruct (DP_TCP_PKT_FLAG_SYNACK flags) eqn:Hs; [|done].
    destruct IH as (l1 & syn & l2 & -> & Hsyn & Ho). exists l1, syn, l2, flags, [].
    split_and!; [by rewrite <- app_assoc|done|done|]. rewrite app_comm_cons.
    by apply Forall_app_2; [|constructor].
  - destruct (DP_TCP_PKT_FLAG_ACK flags) eqn:Hs; [|done].
    destruct IH as (l1 & syn & l2 & sa & l3 & -> & Hsyn & Hsa & Ho). exists l1, syn, l2, sa, l3, flags, [].
    split_and!; [by rewrite <- !app_assoc; simpl; rewrite <- app_assoc|done|done|done|].
    rewrite !app_comm_cons, app_assoc. by apply Forall_app_2; [|constructor].
  - destruct (DP_TCP_PKT_FLAG_SYN flags) eqn:Hs; [|done].
    exists l, flags, []. split_and!; [done|done|by constructor].
Qed.

(** C26. A connection is taken for established only after a SYN, a SYN-ACK and an
    ACK in that order, with no RST or FIN from the SYN on. *)
Theorem tcp_established_handshake l :
  tcp_run l = DP_FLOW_TCP_STATE_ESTABLISHED →
  ∃ l1 syn l2 synack l3 ack l4, l = l1 ++ syn :: l2 ++ synack :: l3 ++ ack :: l4
    ∧ DP_TCP_PKT_FLAG_SYN syn = true ∧ DP_TCP_PKT_FLAG_SYNACK synack = true
    ∧ DP_TCP_PKT_FLAG_ACK ack = true
    ∧ Forall keeps_open (syn :: l2 ++ synack :: l3 ++ ack :: l4).
Proof. intros Hl. pose proof (handshake_run l) as Hh. by rewrite Hl in Hh. Qed.

(** SYN, SYN-ACK, ACK: the flags 2, 18 and 16. *)
Lemma tcp_established_handshake_witness :
  ∃ l1 syn l2 synack l3 ack l4, [2; 18; 16] = l1 ++ syn :: l2 ++ synack :: l3 ++ ack :: l4
    ∧ DP_TCP_PKT_FLAG_SYN syn = true ∧ DP_TCP_PKT_FLAG_SYNACK synack = true
    ∧ DP_TCP_PKT_FLAG_ACK ack = true
    ∧ Forall keeps_open (syn :: l2 ++ synack :: l3 ++ ack :: l4).
Proof. apply (tcp_established_handshake [2; 18; 16]). reflexivity. Defined.

(** ** Facts: the cache *)

Section cache_facts.
Context `{HH : RteHash} {HO : RteHashOk} `{HM : RteMalloc} {MO : RteMallocOk}.
Variable conf : cntrack_conf.
Implicit Types (s : pkt_state) (p : loc) (key : flow_key).

Definition pkt_cache s : flow_cache := fl_cache (cs_flow s.1).

(** A command that does not touch the cache. *)
Definition keeps_cache {A} (c : cmd pkt_state A) : Prop :=
  ∀ s a s', c s = Some (a, s') → pkt_cache s' = pkt_cache s.

Lemma keeps_ret {A} (a : A) : keeps_cache (mret a).
Proof. by intros s a' s' [= -> ->]. Qed.

Lemma keeps_fault {A} : keeps_cache (fault : cmd pkt_state A).
Proof. done. Qed.

Lemma keeps_bind {A B} (c : cmd pkt_state A) (f : A → cmd pkt_state B) :
  keeps_cache c → (∀ a, keeps_cache (f a)) → keeps_cache (c ≫= f).
Proof.
  intros Hc Hf s b s'. unfold mbind, cmd_bind. destruct (c s) as [[a s1]|] eqn:E; [|done].
  intros Hb. by rewrite (Hf a _ _ _ Hb), (Hc _ _ _ E).
Qed.

Lemma keeps_mbuf {A} (c : cmd rte_mbuf A) : keeps_cache (zoom sndL c).
Proof. intros [cs m] a s'. unfold zoom. simpl. destruct (c m) as [[? ?]|]; [|done]. by intros [= <- <-]. Qed.

Lemma keeps_vals {A} (c : cmd (heap flow_value) A) : keeps_cache (zoom fstL (zoom flowL (zoom valsL c))).
Proof.
  intros [cs m] a s'. unfold zoom. simpl. destruct (c (fl_vals (cs_flow cs))) as [[? ?]|]; [|done].
  by intros [= <- <-].
Qed.

Lemma keeps_ports {A} (c : cmd ports_state A) : keeps_cache (zoom fstL (zoom portsL c)).
Proof.
  intros [cs m] a s'. unfold zoom. simpl. destruct (c (cs_ports cs)) as [[? ?]|]; [|done].
  by intros [= <- <-].
Qed.

Lemma keeps_in_port : keeps_cache in_port_ptr.
Proof. apply keeps_bind; [by intros s a s' [= _ <-]|]. intros id. apply keeps_ports. Qed.

Lemma keeps_deref portp : keeps_cache (zoom fstL (deref_port portp)).
Proof. destruct portp; [apply keeps_ports|]. by intros s a s'. Qed.

Lemma keeps_hash key : keeps_cache (zoom fstL (dp_get_conntrack_flow_hash_value key)).
Proof. intros [[] m] a s'. unfold zoom. simpl. by intros [= <- <-]. Qed.

Lemma keeps_fv_load p : keeps_cache (zoom fstL (fv_load p)).
Proof. apply keeps_vals. Qed.

Lemma keeps_fv_store p v : keeps_cache (zoom fstL (fv_store p v)).
Proof. apply keeps_vals. Qed.

Create HintDb keeps.
#[local] Hint Resolve keeps_ret keeps_fault keeps_mbuf keeps_vals keeps_ports keeps_in_port keeps_deref
  keeps_hash keeps_fv_load keeps_fv_store : keeps.

Ltac keeps :=
  repeat (cbv zeta; match goal with
  | |- keeps_cache (_ ≫= _) => apply keeps_bind; [solve [auto with keeps]|intros ?]
  | |- keeps_cache (match ?b with _ => _ end) => destruct b
  end); auto with keeps.

Lemma keeps_change_offload p : keeps_cache (dp_cntrack_change_flow_offload_flags conf p).
Proof.
  unfold dp_cntrack_change_flow_offload_flags. apply keeps_bind; [auto with keeps|]. intros portp.
  destruct (negb _); [auto with keeps|]. keeps.
Qed.
#[local] Hint Resolve keeps_change_offload : keeps.

Lemma keeps_set_offload p : keeps_cache (dp_set_flow_offload_flag conf p).
Proof.
  unfold dp_set_flow_offload_flag. apply keeps_bind; [apply keeps_vals|]. intros v.
  destruct (_ || _); [auto with keeps|]. keeps.
Qed.

Lemma keeps_set_direction key p : keeps_cache (dp_set_pkt_flow_direction key p).
Proof.
  unfold dp_set_pkt_flow_direction. apply keeps_bind; [apply keeps_vals|]. intros v.
  apply keeps_bind; [destruct (dp_are_flows_identical key (fv_key_reply v)); auto with keeps|]. intros _.
  apply keeps_bind; [destruct (dp_are_flows_identical key (fv_key_org v)); auto with keeps|]. intros _.
  apply keeps_bind; auto with keeps.
Qed.

(** Equal up to the memory of the cache. *)
Definition same_but_cache s1 s2 : Prop :=
  s1 = (s2.1 <| cs_flow := (cs_flow s2.1) <| fl_cache := pkt_cache s1 |> |>, s2.2).

(** The cache is transparent: the flow used for a packet, and everything but the
    cache itself, is what a lookup in the flow table gives. *)
Theorem cache_transparent s :
  cache_inv (cs_flow s.1) → fc_index (pkt_cache s) < 2 ^ 31 - 1 →
  match dp_lookup_flow_val conf false s with
  | Some (r, s2) => ∃ s1, dp_lookup_flow_val conf true s = Some (r, s1) ∧ same_but_cache s1 s2
  | None => dp_lookup_flow_val conf true s = None
  end.
Proof.
  intros [_ Hprev] Hindex. unfold pkt_cache in Hindex. unfold dp_lookup_flow_val.
  assert (Hget : zoom fstL (zoom flowL (gets fl_cache)) s = Some (fl_cache (cs_flow s.1), s)).
  { destruct s as [[[] ? ? ?] ?]. done. }
  rewrite !(bind_eq _ _ _ _ _ Hget). set (c := fl_cache (cs_flow s.1)) in *. cbn [andb].
  set (key := fc_key c (fc_curr c)). destruct (match fc_prev c with Some _ => _ | None => _ end) eqn:Hhit;
    last first.
  { match goal with |- match ?x with _ => _ end => destruct x as [[r s2]|] end; [|done].
    exists s2. split; [done|]. by destruct s2 as [[[] ? ? ?] ?]. }
  destruct (fc_prev c) as [i|]; [|done]. destruct (Hprev i eq_refl) as (_ & p & Hp & Htbl).
  rewrite Hp. apply bool_decide_eq_true in Hhit. fold key in Hhit. rewrite <- Hhit in Htbl.
  destruct (hash_lookup_some _ _ _ Htbl) as (pos & Hpos & Hlk).
  assert (Hfl : zoom fstL (dp_get_flow key) s = Some ((pos, Some p), s)).
  { destruct s as [[[] ? ? ?] ?]. unfold zoom, gets. simpl in *. by rewrite Hlk. }
  rewrite (bind_eq _ _ _ _ _ Hfl). cbn [fst snd]. rewrite DP_FAILED_pos by done.
  unfold mbind, cmd_bind. destruct (dp_set_pkt_flow_direction key p s) as [[[] s1]|] eqn:H1; [|done].
  destruct (dp_set_flow_offload_flag conf p s1) as [[[] s2]|] eqn:H2; [|done].
  pose proof (keeps_set_direction _ _ _ _ _ H1) as K1. pose proof (keeps_set_offload _ _ _ _ H2) as K2.
  rewrite K1 in K2. unfold pkt_cache in K2. unfold dp_cache_flow_val, zoom, cacheL. cbn [lget lput fstL flowL fst snd].
  rewrite K2. fold c. rewrite (proj2 (Z.ltb_lt _ _)) by lia. exists s2. split; [done|].
  by destruct s2 as [[[] ? ? ?] ?].
Qed.
End cache_facts.

(** ** Facts: finding and creating flows *)

Section lookup_facts.
Context `{HH : RteHash} {HO : RteHashOk} `{HM : RteMalloc} {MO : RteMallocOk}.
Variable conf : cntrack_conf.
Implicit Types (s : pkt_state) (p : loc) (key : flow_key) (v : flow_value).

(** The packet came from a port of the table. *)
Definition in_port_ok s (q : nat) (port : dp_port) : Prop :=
  0 ≤ mb_port s.2 < DP_MAX_PORTS
  ∧ ps_port_table (cs_ports s.1) !! mb_port s.2 = Some q
  ∧ ps_ports (cs_ports s.1) !! q = Some port.

Lemma wp_in_port_ptr s q port (Q : option nat → pkt_state → Prop) :
  in_port_ok s q port → Q (Some q) s → wp in_port_ptr Q s.
Proof.
  intros (Hr & Hq & Hp) HQ. unfold in_port_ptr. wp_steps. unfold wp, dp_get_in_port.
  cbn [lget portsL fstL fst]. rewrite (proj2 (Z.leb_le _ _)), (proj2 (Z.ltb_lt _ _)) by lia. simpl.
  rewrite Hq. by destruct s as [[] ?].
Qed.

Lemma wp_deref_port s q port (Q : dp_port → pkt_state → Prop) :
  ps_ports (cs_ports s.1) !! q = Some port → Q port s → wp (zoom fstL (deref_port (Some q))) Q s.
Proof.
  intros Hp HQ. unfold deref_port. wp_steps. eapply wp_get_port; [done|]. by destruct s as [[] ?].
Qed.

Lemma wp_pkt_load s p v (Q : flow_value → pkt_state → Prop) :
  flow_objs (cs_flow s.1) !! p = Some v → Q v s → wp (zoom fstL (fv_load p)) Q s.
Proof. intros Hp HQ. apply wp_zoom. eapply wp_fv_load; [done|]. by destruct s. Qed.

Lemma wp_pkt_store s p v0 v (Q : () → pkt_state → Prop) :
  flow_objs (cs_flow s.1) !! p = Some v0 → Q tt (set_flow s.1 p v, s.2) →
  wp (zoom fstL (fv_store p v)) Q s.
Proof. intros Hp HQ. apply wp_zoom. eapply wp_fv_store; [done|]. by destruct s. Qed.

Lemma set_flow_id (cs : conn_state) p v : flow_objs (cs_flow cs) !! p = Some v → set_flow cs p v = cs.
Proof.
  intros Hp. destruct cs as [[tbl [o m] ? ? ? ?] ? ? ?]. unfold set_flow, flow_objs in *. simpl in *.
  by rewrite insert_id.
Qed.

(** [v'] differs from [v] in the offload states only. *)
Definition offload_change v v' : Prop :=
  v' = v <| fv_offload_orig := fv_offload_orig v' |> <| fv_offload_reply := fv_offload_reply v' |>.

Lemma offload_change_refl v : offload_change v v.
Proof. by destruct v. Qed.

Lemma wp_change_offload s p v q port (Q : () → pkt_state → Prop) :
  in_port_ok s q port → flow_objs (cs_flow s.1) !! p = Some v →
  (∀ v', offload_change v v' → Q tt (set_flow s.1 p v', s.2)) →
  wp (dp_cntrack_change_flow_offload_flags conf p) Q s.
Proof.
  intros Hport Hp HQ. unfold dp_cntrack_change_flow_offload_flags, dp_get_pf0, get_df. wp_steps.
  eapply wp_in_port_ptr; [done|]. destruct (negb _).
  { wp_steps. specialize (HQ v (offload_change_refl v)). rewrite set_flow_id in HQ by done. by destruct s. }
  apply wp_bind. eapply wp_deref_port; [apply Hport|]. apply wp_bind. eapply wp_pkt_load; [done|]. wp_steps.
  replace (s.1 <| cs_ports := cs_ports s.1 |>) with s.1 by (by destruct s as [[] ?]).
  destruct s as [cs m]. cbn [lget lput fst snd fstL sndL portsL cs_ports set_field].
  replace (MkConnState _ _ _ _) with cs by (by destruct cs).
  destruct (df_flow_dir _); (eapply (wp_pkt_store (cs, m)); [done|]; apply HQ; by destruct v).
Qed.

Lemma wp_set_offload s p v q port (Q : () → pkt_state → Prop) :
  in_port_ok s q port → flow_objs (cs_flow s.1) !! p = Some v →
  (∀ v', offload_change v v' → Q tt (set_flow s.1 p v', s.2)) →
  wp (dp_set_flow_offload_flag conf p) Q s.
Proof.
  intros Hport Hp HQ.
  assert (Hid : Q tt s).
  { specialize (HQ v (offload_change_refl v)). rewrite set_flow_id in HQ by done. by destruct s. }
  unfold dp_set_flow_offload_flag, get_df. apply wp_bind. eapply wp_pkt_load; [done|].
  destruct (_ || _); [by eapply wp_change_offload|]. wp_steps.
  replace (lput sndL _ s) with s by (by destruct s).
  destruct (bool_decide _); [by wp_steps|]. destruct (negb _); [by eapply wp_change_offload|]. by wp_steps.
Qed.

Definition pkt_with_df s (f : dp_flow → dp_flow) : pkt_state :=
  (s.1, s.2 <| mb_flow := f (mb_flow s.2) |>).

(** The direction of a packet with a flow that has its key. *)
Definition key_dir key v : dp_flow_dir :=
  if bool_decide (key = fv_key_org v) then DP_FLOW_DIR_ORG else DP_FLOW_DIR_REPLY.

Lemma wp_set_direction s key p v (Q : () → pkt_state → Prop) :
  flow_objs (cs_flow s.1) !! p = Some v → has_key v key →
  (∀ hash, Q tt (pkt_with_df s (λ df, df <| df_flow_dir := key_dir key v |> <| df_flow_hash := hash |>))) →
  wp (dp_set_pkt_flow_direction key p) Q s.
Proof.
  intros Hp Hkey HQ. unfold dp_set_pkt_flow_direction. apply wp_bind. eapply wp_pkt_load; [done|].
  unfold dp_are_flows_identical. unfold key_dir in HQ.
  assert (Hs : s = (s.1 <| cs_flow := cs_flow s.1 |>, s.2)) by (by destruct s as [[] ?]).
  destruct s as [[] m]. destruct (decide (key = fv_key_org v)) as [->|Hne].
  - rewrite (bool_decide_true (fv_key_org v = fv_key_org v)) in * by done.
    destruct (bool_decide (fv_key_org v = fv_key_reply v)); wp_steps; apply HQ.
  - rewrite (bool_decide_false (key = fv_key_org v)) in * by done.
    destruct Hkey as [?| ->]; [done|]. rewrite (bool_decide_true (fv_key_reply v = fv_key_reply v)) by done.
    wp_steps. apply HQ.
Qed.

Lemma flow_inv_set_flow (cs : conn_state) p v v' :
  flow_inv (cs_flow cs) → flow_objs (cs_flow cs) !! p = Some v →
  fv_key_org v' = fv_key_org v → fv_key_reply v' = fv_key_reply v →
  flow_inv (cs_flow (set_flow cs p v')).
Proof.
  intros Hi Hp Ho Hr. constructor.
  - intros k q Hk. destruct (fi_entry _ Hi k q Hk) as (w & Hw & Hkw). unfold flow_objs. simpl.
    destruct (decide (p = q)) as [<-|Hne].
    + exists v'. rewrite lookup_insert_eq. split; [done|]. assert (w = v) as -> by congruence.
      by rewrite Ho, Hr.
    + exists w. by rewrite lookup_insert_ne.
  - intros q w. unfold flow_objs at 1. simpl. intros [[<- <-]|[_ Hw]]%lookup_insert_Some.
    + rewrite Ho, Hr. by apply (fi_keys _ Hi p v).
    + by apply (fi_keys _ Hi q w).
Qed.

Lemma wp_add_flow (cs : conn_state) key p (Q : Z → conn_state → Prop) :
  (∀ r tbl, r < 0 → contents tbl = flow_tbl (cs_flow cs) →
     Q r (cs <| cs_flow := (cs_flow cs) <| ipv4_flow_tbl := tbl |> |>)) →
  (∀ tbl, contents tbl = <[key := p]> (flow_tbl (cs_flow cs)) →
     Q DP_OK (cs <| cs_flow := (cs_flow cs) <| ipv4_flow_tbl := tbl |> |>)) →
  wp (dp_add_flow key p) Q cs.
Proof.
  intros Hfail Hok. unfold dp_add_flow. apply wp_zoom. unfold wp. cbn [lget flowL].
  destruct (rte_hash_add_key_data _ _ _) as [r tbl] eqn:Ha. apply hash_add in Ha as [[-> Hc]|[Hr Hc]].
  - by apply Hok.
  - assert (r < 0) by (unfold EINVAL, ENOSPC in Hr; lia). rewrite DP_FAILED_neg by done. by apply Hfail.
Qed.

Lemma wp_new_flow_value (cs : conn_state) key df port (Q : flow_value → conn_state → Prop) :
  vnf_inv (cs_vnf cs) →
  (∀ v, fv_key_org v = key → fv_refcount v = 1 → fv_created_port_id v = pt_port_id port → Q v cs) →
  wp (new_flow_value conf key df port) Q cs.
Proof.
  intros Hvnf HQ. unfold new_flow_value. apply wp_bind.
  assert (Hinit : ∀ v, fv_key_org v = key → fv_refcount v = 1 → fv_created_port_id v = pt_port_id port →
    Q (dp_cntrack_init_flow_offload_flags conf df v) cs).
  { intros v Hk Hr Hc. unfold dp_cntrack_init_flow_offload_flags. destruct (negb _); by apply HQ. }
  destruct (_ && _).
  - apply wp_zoom. eapply wp_intro; [by apply lbprefix_exists_eq|]. wp_steps.
    replace (lput vnfL _ cs) with cs by (by destruct cs). by apply Hinit.
  - wp_steps. by apply Hinit.
Qed.

Lemma flow_inv_ext fs fs' :
  flow_inv fs → flow_tbl fs' = flow_tbl fs → flow_objs fs' = flow_objs fs → flow_inv fs'.
Proof. intros [He Hk] Ht Ho. constructor; intros *; rewrite ?Ht, ?Ho; eauto. Qed.

(** The flow tables with another key table and other flows. *)
Definition with_flows (fs : flow_state) (tbl : rte_hash flow_key loc) (h : heap flow_value) : flow_state :=
  fs <| ipv4_flow_tbl := tbl |> <| fl_vals := h |>.

Lemma flow_inv_insert fs tbl h p v :
  flow_inv fs → flow_objs fs !! p = None →
  flow_tbl fs !! fv_key_org v = None → flow_tbl fs !! fv_key_reply v = None →
  objs h = <[p := v]> (flow_objs fs) →
  contents tbl = <[fv_key_reply v := p]> (<[fv_key_org v := p]> (flow_tbl fs)) →
  flow_inv (with_flows fs tbl h).
Proof.
  intros Hi Hp Hko Hkr Hobjs Htbl. constructor; unfold flow_tbl, flow_objs; simpl; rewrite Hobjs, Htbl.
  - intros k q Hk. apply lookup_insert_Some in Hk as [[<- <-]|[_ Hk]].
    { exists v. rewrite lookup_insert_eq. auto. }
    apply lookup_insert_Some in Hk as [[<- <-]|[_ Hk]]; [exists v; rewrite lookup_insert_eq; auto|].
    destruct (fi_entry _ Hi _ _ Hk) as (w & Hw & Hkw). exists w. split; [|done].
    rewrite lookup_insert_ne; [done|]. intros <-. congruence.
  - intros q w [[<- <-]|[Hne Hw]]%lookup_insert_Some.
    + split; [|by rewrite lookup_insert_eq]. destruct (decide (fv_key_reply v = fv_key_org v)) as [->|Hn];
        [by rewrite lookup_insert_eq|]. by rewrite lookup_insert_ne, lookup_insert_eq.
    + destruct (fi_keys _ Hi _ _ Hw) as [H1 H2].
      rewrite !lookup_insert_ne by (intros E; rewrite E in *; congruence). done.
Qed.

Lemma cache_inv_tbl fs fs' :
  cache_inv fs → fl_cache fs' = fl_cache fs →
  (∀ k p, flow_tbl fs !! k = Some p → flow_tbl fs' !! k = Some p) → cache_inv fs'.
Proof.
  intros [Hc Hp] Hcache Htbl. constructor; rewrite Hcache; [done|]. intros i Hi.
  destruct (Hp i Hi) as (Hne & p & Hv & Hk). split; [done|]. exists p. auto.
Qed.

(** The outcomes of creating the flow of a key. *)
Definition not_created s s' : Prop :=
  flow_inv (cs_flow s'.1) ∧ cache_inv (cs_flow s'.1)
  ∧ flow_tbl (cs_flow s'.1) = flow_tbl (cs_flow s.1)
  ∧ flow_objs (cs_flow s'.1) = flow_objs (cs_flow s.1).
Definition created s key port s' p v : Prop :=
  flow_inv (cs_flow s'.1) ∧ cache_inv (cs_flow s'.1) ∧ pkt_cache s' = pkt_cache s
  ∧ flow_objs (cs_flow s.1) !! p = None
  ∧ flow_objs (cs_flow s'.1) = <[p := v]> (flow_objs (cs_flow s.1))
  ∧ flow_tbl (cs_flow s'.1) = <[dp_invert_flow_key key := p]> (<[key := p]> (flow_tbl (cs_flow s.1)))
  ∧ fv_key_org v = key ∧ fv_key_reply v = dp_invert_flow_key key ∧ fv_refcount v = 1
  ∧ fv_created_port_id v = pt_port_id port ∧ df_flow_dir (mb_flow s'.2) = DP_FLOW_DIR_ORG.

Ltac ct_simpl :=
  cbn [lget lput fst snd fstL sndL flowL vnfL portsL valsL cs_flow cs_nat cs_vnf cs_ports ipv4_flow_tbl
       fl_vals fl_ctxs fl_requests fl_offload_mode_enabled fl_cache set_field objs mst] in *.

Lemma wp_insert_entry s key q port (Q : option loc → pkt_state → Prop) :
  in_port_ok s q port → vnf_inv (cs_vnf s.1) → flow_inv (cs_flow s.1) → cache_inv (cs_flow s.1) →
  flow_tbl (cs_flow s.1) !! key = None →
  flow_tbl (cs_flow s.1) !! dp_invert_flow_key key = None →
  (∀ s', not_created s s' → Q None s') →
  (∀ p v s', created s key port s' p v → Q (Some p) s') →
  wp (flow_table_insert_entry conf key (Some q)) Q s.
Proof.
  intros (_ & _ & Hport) Hvnf Hinv Hcache Hkey Hikey Hno Hyes.
  destruct s as [[[tbl [o ms] cx rq off c] ns vs ps] m]. unfold not_created, created, pkt_cache in *.
  assert (Hsub : ∀ tbl' : rte_hash flow_key loc, contents tbl' = contents tbl → ∀ st' h,
    objs h = o → flow_inv (MkFlowState tbl' h cx rq off st')).
  { intros tbl' Ht st' h Hh. apply (flow_inv_ext (MkFlowState tbl (Heap o ms) cx rq off c)); done. }
  unfold flow_table_insert_entry, get_df, upd_df. wp_steps. ct_simpl. apply wp_hp_malloc; ct_simpl.
  { intros st. wp_steps. apply Hno. split_and!; [by apply Hsub| |done|done].
    by apply (cache_inv_tbl _ _ Hcache). }
  intros p st Hp. wp_simpl. apply wp_bind. eapply (wp_deref_port _ _ port); [done|]. wp_steps. ct_simpl.
  apply wp_new_flow_value; [done|]. intros v Hvk Hvr Hvc. apply wp_bind. ct_simpl.
  eapply wp_pkt_store; [unfold flow_objs; ct_simpl; by rewrite lookup_insert_eq|].
  unfold set_flow, flow_objs. ct_simpl. rewrite insert_insert_eq. wp_steps. ct_simpl.
  apply wp_add_flow; ct_simpl.
  - intros r tbl1 Hr Hc1. rewrite DP_FAILED_neg by done. unfold fv_free. wp_steps. ct_simpl.
    eapply wp_hp_free; [by ct_simpl; rewrite lookup_insert_eq|]. wp_steps. ct_simpl. apply Hno.
    rewrite delete_insert_id by done. split_and!; [by apply Hsub| |done|done].
    apply (cache_inv_tbl _ _ Hcache); [done|]. unfold flow_tbl. ct_simpl. by rewrite Hc1.
  - intros tbl1 Hc1. change (DP_FAILED DP_OK) with false. wp_steps. ct_simpl.
    unfold dp_get_conntrack_flow_hash_value. wp_steps. ct_simpl.
    eapply (wp_fv_store _ p v); [unfold flow_objs; ct_simpl; by rewrite lookup_insert_eq|].
    unfold set_flow, flow_objs. ct_simpl. rewrite insert_insert_eq. wp_steps. ct_simpl.
    set (v1 := v <| fv_key_reply := dp_invert_flow_key key |>).
    apply wp_add_flow; unfold flow_tbl; ct_simpl.
    + intros r tbl2 Hr Hc2. rewrite DP_FAILED_neg by done.
      unfold dp_delete_flow, dp_delete_flow_no_flush, dp_cntrack_flush_cache, fv_free. wp_steps. ct_simpl.
      eapply wp_hp_free; [by ct_simpl; rewrite lookup_insert_eq|]. wp_steps. ct_simpl. apply Hno.
      assert (Hdel : contents (rte_hash_del_key tbl2 key).2 = contents tbl).
      { rewrite contents_del, Hc2, Hc1. by apply delete_insert_id. }
      rewrite delete_insert_id by done. split_and!; [by apply Hsub| |done|done].
      destruct Hcache as [Hcurr _]. by constructor.
    + intros tbl2 Hc2. change (DP_FAILED DP_OK) with false. wp_steps. ct_simpl.
      apply (Hyes p v1). split_and!; try done.
      * apply (flow_inv_insert (MkFlowState tbl (Heap o ms) cx rq off c) tbl2 (Heap (<[p := v1]> o) st) p v1);
          [done|done|by cbn [v1 set_field fv_key_org]; rewrite Hvk|done|done|].
        cbn [v1 set_field fv_key_org fv_key_reply]. by rewrite Hc2, Hc1, Hvk.
      * apply (cache_inv_tbl _ _ Hcache); [done|]. unfold flow_tbl in *. ct_simpl. rewrite Hc2, Hc1.
        intros k r Hk. rewrite !lookup_insert_ne by congruence. done.
      * unfold flow_tbl. ct_simpl. by rewrite Hc2, Hc1.
Qed.

Lemma wp_cache_flow_val s key p (Q : () → pkt_state → Prop) :
  fc_index (pkt_cache s) < 2 ^ 31 - 1 → flow_inv (cs_flow s.1) → cache_inv (cs_flow s.1) →
  fc_key (pkt_cache s) (fc_curr (pkt_cache s)) = key → flow_tbl (cs_flow s.1) !! key = Some p →
  (∀ c, let s' := (s.1 <| cs_flow := (cs_flow s.1) <| fl_cache := c |> |>, s.2) in
     cache_inv (cs_flow s'.1) → Q tt s') →
  wp (zoom fstL (dp_cache_flow_val p)) Q s.
Proof.
  intros Hidx Hinv [Hcurr _] Hkey Htbl HQ. unfold dp_cache_flow_val. wp_steps. unfold wp.
  cbn [lget lput cacheL fstL flowL fst]. unfold pkt_cache in *. set (c := fl_cache (cs_flow s.1)) in *.
  rewrite (proj2 (Z.ltb_lt _ _)) by lia. apply HQ. constructor; simpl; [done|].
  intros i [= <-]. split.
  - rewrite Hcurr, Z.odd_add. by destruct (Z.odd (fc_index c)).
  - exists p. split; [done|]. unfold flow_tbl in *. simpl. by rewrite <- Htbl, <- Hkey.
Qed.

(** Everything but the flow of [p] and the packet's metadata is unchanged. *)
Definition found s key p v s' : Prop :=
  flow_inv (cs_flow s'.1) ∧ cache_inv (cs_flow s'.1) ∧ pkt_cache s' = pkt_cache s
  ∧ flow_tbl (cs_flow s'.1) = flow_tbl (cs_flow s.1)
  ∧ (∃ v', offload_change v v' ∧ flow_objs (cs_flow s'.1) = <[p := v']> (flow_objs (cs_flow s.1)))
  ∧ df_flow_dir (mb_flow s'.2) = key_dir key v.

Lemma wp_use_found {A} s key p v q port (f : cmd pkt_state A) (Q : A → pkt_state → Prop) :
  in_port_ok s q port → flow_inv (cs_flow s.1) → cache_inv (cs_flow s.1) →
  flow_objs (cs_flow s.1) !! p = Some v → has_key v key →
  (∀ s', found s key p v s' → wp f Q s') →
  wp (dp_set_pkt_flow_direction key p;; dp_set_flow_offload_flag conf p;; f) Q s.
Proof.
  intros Hport Hinv Hcache Hp Hkey HQ. apply wp_bind. eapply wp_set_direction; [done|done|].
  intros hash. apply wp_bind. eapply (wp_set_offload _ _ v q port); [done|done|]. intros v' Hv'. apply HQ.
  assert (Hk : fv_key_org v' = fv_key_org v ∧ fv_key_reply v' = fv_key_reply v) by (by rewrite Hv').
  split_and!; [by eapply flow_inv_set_flow; [| |apply Hk..]| |done|done|by exists v'|done].
  by apply (cache_inv_tbl _ _ Hcache).
Qed.

(** What connection tracking needs of the state: the key of the packet is in
    [curr_key]. *)
Record track_pre s (q : nat) (port : dp_port) key : Prop := {
  tp_port : in_port_ok s q port;
  tp_vnf : vnf_inv (cs_vnf s.1);
  tp_flow : flow_inv (cs_flow s.1);
  tp_cache : cache_inv (cs_flow s.1);
  tp_key : fc_key (pkt_cache s) (fc_curr (pkt_cache s)) = key;
  tp_index : fc_index (pkt_cache s) < 2 ^ 31 - 1;
  tp_inverse : flow_tbl (cs_flow s.1) !! key = None →
    flow_tbl (cs_flow s.1) !! dp_invert_flow_key key = None
}.

Definition track_post s key (r : Z * option loc) s' : Prop :=
  flow_inv (cs_flow s'.1) ∧ cache_inv (cs_flow s'.1)
  ∧ match r.2 with
    | Some p =>
        r.1 = DP_OK
        ∧ (∃ v, flow_objs (cs_flow s'.1) !! p = Some v ∧ has_key v key
                ∧ df_flow_dir (mb_flow s'.2) = key_dir key v)
        ∧ ∀ p0, flow_tbl (cs_flow s.1) !! key = Some p0 → p = p0
    | None =>
        r.1 = DP_ERROR ∧ flow_tbl (cs_flow s.1) !! key = None
        ∧ flow_tbl (cs_flow s'.1) = flow_tbl (cs_flow s.1)
        ∧ flow_objs (cs_flow s'.1) = flow_objs (cs_flow s.1)
    end.

Lemma found_post s key p v s' s'' :
  found s key p v s' → flow_objs (cs_flow s.1) !! p = Some v → has_key v key →
  flow_tbl (cs_flow s.1) !! key = Some p →
  flow_tbl (cs_flow s''.1) = flow_tbl (cs_flow s'.1) →
  flow_objs (cs_flow s''.1) = flow_objs (cs_flow s'.1) → s''.2 = s'.2 →
  cache_inv (cs_flow s''.1) → track_post s key (DP_OK, Some p) s''.
Proof.
  intros (Hinv & _ & _ & _ & (v' & Hv' & Hobjs) & Hdir) Hp Hkey Htbl Ht Ho Hm Hc. unfold track_post.
  assert (Hk : fv_key_org v' = fv_key_org v ∧ fv_key_reply v' = fv_key_reply v) by (by rewrite Hv').
  destruct Hk as [Hko Hkr]. cbn [fst snd]. split_and!; [by apply (flow_inv_ext (cs_flow s'.1))|done|done| |].
  - exists v'. unfold has_key, key_dir in *. rewrite Ho, Hobjs, lookup_insert_eq, Hko, Hkr, Hm. done.
  - intros p0. congruence.
Qed.

End lookup_facts.

(** ** Runs *)

Section cntrack_examples.
#[local] Existing Instances test_hash test_hash_ok test_malloc test_malloc_ok.

Definition ex_conf : cntrack_conf := dp_cntrack_init false.
Definition ex_mbuf : rte_mbuf :=
  MkMbuf (replicate 100 0) 0 60 3 0 0 0 0 0 0 0 ex_df (MkMark 0 false).

(** No flow yet; the key of the packet is in the first cache entry. *)
Definition ex_track : pkt_state :=
  (ex_conn <| cs_flow := MkFlowState (∅ : gmap flow_key loc) (Heap ∅ ([] : list bool))
     (Heap ∅ ([] : list bool)) [] false (MkFlowCache ex_key zero_flow_key 0 None false None) |>, ex_mbuf).

Lemma ex_track_pre : track_pre ex_track 0 (zero_port <| pt_used_port_cnt := 1 |>) ex_key.
Proof.
  constructor; try done.
  - apply ex_vnf_empty_inv.
Qed.


(** A second packet of the flow. *)
Definition ex_hit : pkt_state :=
  (ex_conn <| cs_flow := (cs_flow ex_conn) <| fl_cache :=
     MkFlowCache ex_key ex_key 1 (Some false) true (Some 1%positive) |> |>, ex_mbuf).

Lemma cache_transparent_witness :
  ∃ s1 s2 r, dp_lookup_flow_val ex_conf false ex_hit = Some (r, s2)
    ∧ dp_lookup_flow_val ex_conf true ex_hit = Some (r, s1) ∧ same_but_cache s1 s2.
Proof.
  assert (Hc : cache_inv (cs_flow ex_hit.1)).
  { constructor; [done|]. intros i [= <-]. split; [done|]. by exists 1%positive. }
  pose proof (cache_transparent ex_conf ex_hit Hc ltac:(done)) as Ht.
  assert (Hrun : match dp_lookup_flow_val ex_conf false ex_hit with Some _ => true | None => false end
    = true) by (vm_compute; reflexivity).
  destruct (dp_lookup_flow_val ex_conf false ex_hit) as [[r s2]|]; [|done].
  destruct Ht as (s1 & H1 & H2). by exists s1, s2, r.
Defined.
End cntrack_examples.
