(* ===== verification/Virtsvc.v ===== *)
(** * Virtual services (src/dp_virtsvc.c, src/nodes/virtsvc_node.c, the lookup of
      src/nodes/cls_node.c; compiled with ENABLE_VIRTSVC)

    A virtual service is an IPv4 endpoint for the guests that stands for an IPv6
    endpoint in the underlay.  Packets to it are found by a search tree over the
    IPv4 endpoints, packets from it by one over the IPv6 endpoints.  A
    connection of a guest gets one of the ports of the service, which is the
    source port towards the underlay; the table [open_ports] finds the port of
    a connection, the array [connections] the connection of a port. *)

From S2P Require Import Prelude Dpdk Error Types Port Multipath Conn Mbuf Graph Nat Flow Nat64 Cntrack.
From Stdlib Require Import Sorted.

Definition DP_NB_SYSTEM_PORTS : Z := 1024.
Definition DP_VIRTSVC_PORTCOUNT : Z := 65535 + 1 - DP_NB_SYSTEM_PORTS.

Inductive dp_virtsvc_conn_state :=
  | DP_VIRTSVC_CONN_TRANSIENT
  | DP_VIRTSVC_CONN_TRANSIENT_SYN
  | DP_VIRTSVC_CONN_TRANSIENT_SYNACK
  | DP_VIRTSVC_CONN_ESTABLISHED.
Global Instance dp_virtsvc_conn_state_eq_dec : EqDecision dp_virtsvc_conn_state.
Proof. solve_decision. Defined.

Record dp_virtsvc_conn := MkVsConn {
  vc_last_pkt_timestamp : Z;
  vc_vf_ip : Z;
  vc_vf_l4_port : Z;
  vc_vf_port_id : Z;
  vc_state : dp_virtsvc_conn_state
}.
Global Instance dp_virtsvc_conn_eta : Eta dp_virtsvc_conn := λ r,
  MkVsConn (vc_last_pkt_timestamp r) (vc_vf_ip r) (vc_vf_l4_port r) (vc_vf_port_id r) (vc_state r).
Definition zero_conn : dp_virtsvc_conn := MkVsConn 0 0 0 0 DP_VIRTSVC_CONN_TRANSIENT.

Record dp_virtsvc_conn_key := MkVsKey { vk_vf_port_id : Z; vk_vf_l4_port : Z; vk_vf_ip : Z }.
Global Instance dp_virtsvc_conn_key_eq_dec : EqDecision dp_virtsvc_conn_key.
Proof. solve_decision. Defined.
Global Instance dp_virtsvc_conn_key_countable : Countable dp_virtsvc_conn_key :=
  inj_countable' (λ k, (vk_vf_port_id k, vk_vf_l4_port k, vk_vf_ip k))
    (λ '(a, b, c), MkVsKey a b c) (λ '(MkVsKey _ _ _), eq_refl).

(** [vs_connections] holds the elements of the array that are not zero; the value
    of a key in [vs_open_ports] is a number cast to a pointer. *)
Record dp_virtsvc `{RteHash} := MkVirtsvc {
  vs_virtual_addr : Z;
  vs_service_addr : Z;
  vs_virtual_port : Z;
  vs_service_port : Z;
  vs_proto : Z;
  vs_last_assigned_port : Z;
  vs_open_ports : rte_hash dp_virtsvc_conn_key Z;
  vs_connections : gmap Z dp_virtsvc_conn
}.
Arguments MkVirtsvc {_} _ _ _ _ _ _ _ _.
Global Instance dp_virtsvc_eta `{RteHash} : Eta dp_virtsvc := λ r,
  MkVirtsvc (vs_virtual_addr r) (vs_service_addr r) (vs_virtual_port r) (vs_service_port r)
    (vs_proto r) (vs_last_assigned_port r) (vs_open_ports r) (vs_connections r).

(** [virtsvc] is an index of [dp_virtservices]; the empty tree is NULL. *)
Inductive dp_virtsvc_lookup_entry :=
  | no_entry
  | lookup_entry (virtsvc : nat) (left right : dp_virtsvc_lookup_entry).

(** [vt_released] is [None] before the array was allocated, and whether it was
    released after that; [vt_packet_id] is the static variable of
    [virtsvc_reply_next]. *)
Record virtsvc_state `{RteHash} := MkVsState {
  vt_services : list dp_virtsvc;
  vt_released : option bool;
  vt_ipv4_tree : dp_virtsvc_lookup_entry;
  vt_ipv6_tree : dp_virtsvc_lookup_entry;
  vt_port_timeout : Z;
  vt_established_port_timeout : Z;
  vt_packet_id : Z
}.
Arguments MkVsState {_} _ _ _ _ _ _ _.
Global Instance virtsvc_state_eta `{RteHash} : Eta virtsvc_state := λ r,
  MkVsState (vt_services r) (vt_released r) (vt_ipv4_tree r) (vt_ipv6_tree r) (vt_port_timeout r)
    (vt_established_port_timeout r) (vt_packet_id r).

(** An entry of [dp_conf_get_virtual_services()]. *)
Record dp_conf_virtsvc := MkConfVirtsvc {
  cv_proto : Z;
  cv_virtual_addr : Z;
  cv_virtual_port : Z;
  cv_service_addr : Z;
  cv_service_port : Z
}.

(** ** The C library *)

(** Whether an allocation succeeds, and sorting with a comparison function. *)
Class Libc := {
  libc_state : Type;
  libc_malloc : libc_state → bool * libc_state;
  qsort {T : Type} : (T → T → Z) → list T → list T
}.

(** A comparison that orders the elements of an array. *)
Record consistent {T : Type} (cmp : T → T → Z) (l : list T) : Prop := {
  cons_anti x y : x ∈ l → y ∈ l → cmp x y ≤ 0 ↔ 0 ≤ cmp y x;
  cons_trans x y z : x ∈ l → y ∈ l → z ∈ l → cmp x y ≤ 0 → cmp y z ≤ 0 → cmp x z ≤ 0
}.

(** Nothing is known of the result for a comparison that is not consistent. *)
Class LibcOk `{Libc} : Prop := {
  qsort_ok {T : Type} (cmp : T → T → Z) (l : list T) : consistent cmp l →
    qsort cmp l ≡ₚ l ∧ StronglySorted (λ x y, cmp x y ≤ 0) (qsort cmp l)
}.

(** The first difference of two arrays of bytes. *)
Fixpoint memcmp (l1 l2 : list Z) : Z :=
  match l1, l2 with
  | a :: l1, b :: l2 => if a =? b then memcmp l1 l2 else a - b
  | _, _ => 0
  end.

(** ** The search trees *)

(** The difference of two addresses is converted to [int]. *)
Definition dp_virtsvc_ipv4_cmp (proto1 addr1 port1 proto2 addr2 port2 : Z) : Z :=
  let diff := proto1 - proto2 in
  if negb (diff =? 0) then diff
  else
    let diff := i32 (u32 (addr1 - addr2)) in
    if negb (diff =? 0) then diff else port1 - port2.

Definition dp_virtsvc_ipv6_cmp (proto1 addr1 port1 proto2 addr2 port2 : Z) : Z :=
  let diff := proto1 - proto2 in
  if negb (diff =? 0) then diff
  else
    let diff := memcmp (to_bytes 16 addr1) (to_bytes 16 addr2) in
    if negb (diff =? 0) then diff else port1 - port2.

Section virtsvc.
Context `{HH : RteHash} `{HM : RteMalloc} `{HN : RteNet} `{HL : Libc}.
Implicit Types (st : virtsvc_state) (i : nat).

Definition dp_virtsvc_ipv4_comparator (l r : dp_virtsvc) : Z :=
  dp_virtsvc_ipv4_cmp (vs_proto l) (vs_virtual_addr l) (vs_virtual_port l)
    (vs_proto r) (vs_virtual_addr r) (vs_virtual_port r).
Definition dp_virtsvc_ipv6_comparator (l r : dp_virtsvc) : Z :=
  dp_virtsvc_ipv6_cmp (vs_proto l) (vs_service_addr l) (vs_service_port l)
    (vs_proto r) (vs_service_addr r) (vs_service_port r).

(** A tree over [array[start..end]]; what was allocated before a failure is lost.
    Every round has a smaller range, so [fuel] is the number of elements. *)
Fixpoint dp_virtsvc_array_to_tree (fuel : nat) (array : list nat) (start end_ : Z) :
    cmd libc_state (Z * dp_virtsvc_lookup_entry) :=
  if end_ <? start then mret (DP_OK, no_entry)
  else
    match fuel with
    | O => fault
    | S fuel =>
        ok ← (λ s, Some (libc_malloc s));
        if negb ok then mret (DP_ERROR, no_entry)
        else
          let mid := (start + end_) / 2 in
          match array !! Z.to_nat mid with
          | None => fault
          | Some virtsvc =>
              l ← dp_virtsvc_array_to_tree fuel array start (mid - 1);
              if DP_FAILED l.1 then mret (DP_ERROR, no_entry)
              else
                r ← dp_virtsvc_array_to_tree fuel array (mid + 1) end_;
                if DP_FAILED r.1 then mret (DP_ERROR, no_entry)
                else mret (DP_OK, lookup_entry virtsvc l.2 r.2)
          end
    end.

(** Comparison of the services two pointers point to. *)
Definition by_services (services : list dp_virtsvc) (cmp : dp_virtsvc → dp_virtsvc → Z) (i j : nat) : Z :=
  match services !! i, services !! j with Some l, Some r => cmp l r | _, _ => 0 end.

Definition vs_libc : Type := virtsvc_state * libc_state.

Definition dp_virtsvc_create_trees : cmd vs_libc Z :=
  services ← zoom fstL (gets vt_services);
  let service_count := Z.of_nat (length services) in
  if service_count <=? 0 then mret DP_ERROR
  else
    ok ← zoom sndL (λ s, Some (libc_malloc s));
    if negb ok then mret DP_ERROR
    else
      let array := seq 0 (length services) in
      let array := qsort (by_services services dp_virtsvc_ipv4_comparator) array in
      t4 ← zoom sndL (dp_virtsvc_array_to_tree (length services) array 0 (service_count - 1));
      zoom fstL (modify (λ st, st <| vt_ipv4_tree := t4.2 |>));;
      if DP_FAILED t4.1 then mret DP_ERROR
      else
        let array := qsort (by_services services dp_virtsvc_ipv6_comparator) array in
        t6 ← zoom sndL (dp_virtsvc_array_to_tree (length services) array 0 (service_count - 1));
        zoom fstL (modify (λ st, st <| vt_ipv6_tree := t6.2 |>));;
        if DP_FAILED t6.1 then mret DP_ERROR else mret DP_OK.

(** Releasing memory that was released before is undefined; nothing is released
    when nothing was allocated. *)
Definition dp_virtsvc_free : cmd virtsvc_state () := λ st,
  match vt_released st with
  | None => Some (tt, st)
  | Some false => Some (tt, st <| vt_released := Some true |>)
  | Some true => None
  end.

Definition new_virtsvc (rule : dp_conf_virtsvc) (open_ports : rte_hash dp_virtsvc_conn_key Z) : dp_virtsvc :=
  MkVirtsvc (cv_virtual_addr rule) (cv_service_addr rule) (cv_virtual_port rule) (cv_service_port rule)
    (cv_proto rule) 0 open_ports ∅.

(** [false] when a table cannot be created. *)
Fixpoint add_services (rules : list dp_conf_virtsvc) : cmd vs_libc bool :=
  match rules with
  | [] => mret true
  | rule :: rules =>
      match rte_hash_create (DP_JHASH_MARGIN_COEF DP_VIRTSVC_PORTCOUNT) with
      | None => mret false
      | Some open_ports =>
          zoom fstL (modify (λ st, st <| vt_services := vt_services st ++ [new_virtsvc rule open_ports] |>));;
          add_services rules
      end
  end.

(** [zmalloc_ok] is whether the array can be allocated, [hz] is
    [rte_get_timer_hz()]. *)
Definition dp_virtsvc_init (rules : list dp_conf_virtsvc) (zmalloc_ok : bool) (hz : Z) : cmd vs_libc Z :=
  match rules with
  | [] => mret DP_OK
  | _ =>
      if negb zmalloc_ok then mret DP_ERROR
      else
        zoom fstL (modify (λ st, st <| vt_services := [] |> <| vt_released := Some false |>));;
        ok ← add_services rules;
        if negb ok then zoom fstL dp_virtsvc_free;; mret DP_ERROR
        else
          ret ← dp_virtsvc_create_trees;
          if DP_FAILED ret then zoom fstL dp_virtsvc_free;; mret DP_ERROR
          else
            zoom fstL (modify (λ st,
              st <| vt_port_timeout := u64 (vt_port_timeout st * hz) |>
                 <| vt_established_port_timeout := u64 (vt_established_port_timeout st * hz) |>));;
            mret DP_OK
  end.

Definition dp_virtsvc_get_count : cmd virtsvc_state Z := gets (λ st, Z.of_nat (length (vt_services st))).

(** *** Searching (src/nodes/cls_node.c) *)

(** [cmp] compares what is searched with a service.  The walk ends at a leaf. *)
Fixpoint tree_search (services : list dp_virtsvc) (cmp : dp_virtsvc → Z) (entry : dp_virtsvc_lookup_entry) :
    option (option nat) :=
  match entry with
  | no_entry => Some None
  | lookup_entry i tl tr =>
      match services !! i with
      | None => None
      | Some virtsvc =>
          let diff := cmp virtsvc in
          if diff =? 0 then Some (Some i)
          else if diff <? 0 then tree_search services cmp tl else tree_search services cmp tr
      end
  end.

Definition vpkt_state : Type := (virtsvc_state * ports_state) * rte_mbuf.
Definition vsL : lens vpkt_state virtsvc_state := Lens (λ s, s.1.1) (λ x s, ((x, s.1.2), s.2)).
Definition vportsL : lens vpkt_state ports_state := Lens (λ s, s.1.2) (λ x s, ((s.1.1, x), s.2)).

(** The port of the L4 header at [l4_hdr], which is where TCP and UDP have it. *)
Definition get_outgoing_virtsvc : cmd vpkt_state (option nat) :=
  let ipv4_hdr := dp_get_ipv4_hdr in
  addr ← zoom sndL (ld32 (ipv4_hdr + ip4_dst));
  proto ← zoom sndL (ld8 (ipv4_hdr + ip4_proto));
  if (proto =? IPPROTO_TCP) || (proto =? IPPROTO_UDP) then
    port ← zoom sndL (ld16 (ipv4_hdr + sizeof_ipv4_hdr + l4_dst_port));
    zoom vsL (λ st,
      match tree_search (vt_services st) (λ v, dp_virtsvc_ipv4_cmp proto addr port
              (vs_proto v) (vs_virtual_addr v) (vs_virtual_port v)) (vt_ipv4_tree st) with
      | Some r => Some (r, st) | None => None
      end)
  else mret None.

Definition get_incoming_virtsvc : cmd vpkt_state (option nat) :=
  let ipv6_hdr := dp_get_ipv6_hdr in
  addr ← zoom sndL (ld128 (ipv6_hdr + ip6_src));
  proto ← zoom sndL (ld8 (ipv6_hdr + ip6_proto));
  if (proto =? IPPROTO_TCP) || (proto =? IPPROTO_UDP) then
    port ← zoom sndL (ld16 (ipv6_hdr + sizeof_ipv6_hdr + l4_src_port));
    zoom vsL (λ st,
      match tree_search (vt_services st) (λ v, dp_virtsvc_ipv6_cmp proto addr port
              (vs_proto v) (vs_service_addr v) (vs_service_port v)) (vt_ipv6_tree st) with
      | Some r => Some (r, st) | None => None
      end)
  else mret None.

(** ** Connections *)

Definition conn_at (virtsvc : dp_virtsvc) (port : Z) : dp_virtsvc_conn := default zero_conn (vs_connections virtsvc !! port).

Definition dp_virtsvc_is_connection_old st (conn : dp_virtsvc_conn) (current_tsc : Z) : bool :=
  let timeout := u64 (vc_last_pkt_timestamp conn
                      + (if bool_decide (vc_state conn = DP_VIRTSVC_CONN_ESTABLISHED)
                         then vt_established_port_timeout st else vt_port_timeout st)) in
  timeout <? current_tsc.

(** The first free port after the last assigned one, or from the start again. *)
Definition free_port_of st (virtsvc : dp_virtsvc) (current_tsc : Z) : option Z :=
  let old port := dp_virtsvc_is_connection_old st (conn_at virtsvc port) current_tsc in
  let last := vs_last_assigned_port virtsvc in
  match for_find old (last + 1) (DP_VIRTSVC_PORTCOUNT - (last + 1)) with
  | Some port => Some port
  | None => for_find old 0 (last + 1)
  end.

(** [*virtsvc], and an assignment to its members. *)
Definition get_svc i : cmd virtsvc_state dp_virtsvc := λ st,
  match vt_services st !! i with Some v => Some (v, st) | None => None end.
Definition upd_svc i (f : dp_virtsvc → dp_virtsvc) : cmd virtsvc_state () := λ st,
  match vt_services st !! i with
  | Some v => Some (tt, st <| vt_services := <[i := f v]> (vt_services st) |>)
  | None => None
  end.

Definition dp_virtsvc_get_free_port (current_tsc : Z) i : cmd virtsvc_state Z :=
  virtsvc ← get_svc i;
  port ← gets (λ st, free_port_of st virtsvc current_tsc);
  match port with
  | Some port => upd_svc i (λ v, v <| vs_last_assigned_port := port |>);; mret port
  | None => mret DP_ERROR
  end.

Definition conn_key (conn : dp_virtsvc_conn) : dp_virtsvc_conn_key :=
  MkVsKey (vc_vf_port_id conn) (vc_vf_l4_port conn) (vc_vf_ip conn).
Definition set_conn (port : Z) (conn : dp_virtsvc_conn) (v : dp_virtsvc) : dp_virtsvc :=
  v <| vs_connections := <[port := conn]> (vs_connections v) |>.

Definition dp_virtsvc_create_connection (current_tsc : Z) i (key : dp_virtsvc_conn_key) : cmd virtsvc_state Z :=
  ret ← dp_virtsvc_get_free_port current_tsc i;
  if DP_FAILED ret then mret ret
  else
    let free_port := ret in
    virtsvc ← get_svc i;
    let conn := conn_at virtsvc free_port in
    (if negb (vc_last_pkt_timestamp conn =? 0)
     then upd_svc i (λ v, v <| vs_open_ports := (rte_hash_del_key (vs_open_ports v) (conn_key conn)).2 |>)
     else mret tt);;
    virtsvc ← get_svc i;
    let r := rte_hash_add_key_data (vs_open_ports virtsvc) key free_port in
    upd_svc i (λ v, v <| vs_open_ports := r.2 |>);;
    if DP_FAILED r.1 then mret r.1
    else
      upd_svc i (set_conn free_port
        (conn <| vc_vf_ip := vk_vf_ip key |> <| vc_vf_l4_port := vk_vf_l4_port key |>
              <| vc_vf_port_id := vk_vf_port_id key |> <| vc_state := DP_VIRTSVC_CONN_TRANSIENT |>));;
      mret free_port.

(** The value of a key is asserted to be an index of the array. *)
Definition dp_virstvc_get_connection i (key : dp_virtsvc_conn_key) : cmd virtsvc_state Z :=
  virtsvc ← get_svc i;
  match rte_hash_lookup_data (vs_open_ports virtsvc) key with
  | (ret, data) =>
      if DP_FAILED ret then mret ret
      else
        match data with
        | None => fault
        | Some data => if (0 <=? data) && (data <? DP_VIRTSVC_PORTCOUNT) then mret data else fault
        end
  end.

(** The return value, the physical port and the index of the connection. *)
Definition dp_virtsvc_get_pf_route (wcmp_perc current_tsc : Z) i (vf_port_id vf_ip vf_l4_port : Z) :
    cmd (virtsvc_state * ports_state) (Z * Z * Z) :=
  let key := MkVsKey vf_port_id vf_l4_port vf_ip in
  virtsvc ← zoom fstL (get_svc i);
  let key_hash := rte_hash_hash (vs_open_ports virtsvc) key in
  ret ← zoom fstL (dp_virstvc_get_connection i key);
  ret ← (if ret =? - ENOENT then zoom fstL (dp_virtsvc_create_connection current_tsc i key) else mret ret);
  if DP_FAILED ret then mret (ret, 0, 0)
  else
    pf ← zoom sndL (dp_multipath_get_pf wcmp_perc key_hash);
    match pf with
    | None => fault
    | Some pf => port ← zoom sndL (get_port pf); mret (DP_OK, pt_port_id port, ret)
    end.

(** The connections of an interface are closed in every service. *)
Definition close_port (port_id : Z) (v : dp_virtsvc) (i : Z) : dp_virtsvc :=
  let conn := conn_at v i in
  if (vc_vf_port_id conn =? port_id) && negb (vc_last_pkt_timestamp conn =? 0) then
    (set_conn i (conn <| vc_last_pkt_timestamp := 0 |>) v)
      <| vs_open_ports := (rte_hash_del_key (vs_open_ports v) (conn_key conn)).2 |>
  else v.
Definition dp_virtsvc_del_iface (port_id : Z) : cmd virtsvc_state () :=
  modify (λ st, st <| vt_services := (λ v, foldl (close_port port_id) v (seqZ 0 DP_VIRTSVC_PORTCOUNT)) <$> vt_services st |>).

Definition dp_virtsvc_get_used_port_count st (virtsvc : dp_virtsvc) (current_tsc : Z) : Z :=
  Z.of_nat (length (filter (λ port, dp_virtsvc_is_connection_old st (conn_at virtsvc port) current_tsc = false)
                      (seqZ 0 DP_VIRTSVC_PORTCOUNT))).

(** ** The node (src/nodes/virtsvc_node.c) *)

Definition RTE_PTYPE_L2_ETHER : Z := 1.
Definition RTE_PTYPE_L4_MASK : Z := 3840.

Definition virtsvc_tcp_state_change (state : dp_virtsvc_conn_state) (flags : Z) : dp_virtsvc_conn_state :=
  if DP_TCP_PKT_FLAG_RST flags then DP_VIRTSVC_CONN_TRANSIENT
  else if DP_TCP_PKT_FLAG_FIN flags then DP_VIRTSVC_CONN_TRANSIENT
  else
    match state with
    | DP_VIRTSVC_CONN_TRANSIENT => if DP_TCP_PKT_FLAG_SYN flags then DP_VIRTSVC_CONN_TRANSIENT_SYN else state
    | DP_VIRTSVC_CONN_TRANSIENT_SYN => if DP_TCP_PKT_FLAG_SYNACK flags then DP_VIRTSVC_CONN_TRANSIENT_SYNACK else state
    | DP_VIRTSVC_CONN_TRANSIENT_SYNACK => if DP_TCP_PKT_FLAG_ACK flags then DP_VIRTSVC_CONN_ESTABLISHED else state
    | DP_VIRTSVC_CONN_ESTABLISHED => state
    end.

Definition virtsvc_get_port_for_conn (conn_idx : Z) : Z := htons (u16 (conn_idx + DP_NB_SYSTEM_PORTS)).

(** [&virtsvc->connections[port_idx]]: an index past the array is undefined. *)
Definition virtsvc_get_conn_on_port (virtsvc : dp_virtsvc) (l4_port : Z) : option Z :=
  let port_idx := u16 (ntohs l4_port - DP_NB_SYSTEM_PORTS) in
  if port_idx <? DP_VIRTSVC_PORTCOUNT then Some port_idx else None.

Definition set_packet_type (f : Z → Z) (m : rte_mbuf) : rte_mbuf := m <| mb_packet_type := f (mb_packet_type m) |>.

(** A packet of connection [idx] passes: its time, and its state for TCP. *)
Definition touch_conn (tsc : Z) (flags : option Z) (idx : Z) (v : dp_virtsvc) : dp_virtsvc :=
  let conn := conn_at v idx in
  set_conn idx (conn <| vc_last_pkt_timestamp := tsc |>
                     <| vc_state := match flags with
                                    | Some flags => virtsvc_tcp_state_change (vc_state conn) flags
                                    | None => vc_state conn
                                    end |>) v.

(** The TCP flags of the header at [hdr], for TCP. *)
Definition tcp_flags_of (proto hdr : Z) : cmd rte_mbuf (option Z) :=
  if proto =? IPPROTO_TCP then flags ← ld8 (hdr + tcp_flags); mret (Some flags) else mret None.
Definition offload_l4_cksum (proto hdr : Z) : cmd rte_mbuf () :=
  if proto =? IPPROTO_TCP then offload_tcp_cksum hdr else offload_udp_cksum hdr.

Section node.
(** [dp_conf_get_underlay_ip()], the configured percentage of the first physical
    port, the ports with a transmit node, and what [rte_get_timer_cycles()]
    returns in [dp_virtsvc_get_free_port] and in the node. *)
Context (service_ul_ip wcmp_perc : Z) (next_tx_index : gset Z) (tsc0 tsc : Z).

(** The new IPv6 header, up to the lengths for the offloading. *)
Definition request_ipv6_hdr (virtsvc : dp_virtsvc) (hdr_total_len proto ttl : Z) : cmd rte_mbuf () :=
  let ipv6_hdr := dp_get_ipv6_hdr in
  modify (set_packet_type (λ t, Z.lor (Z.lor (Z.land t RTE_PTYPE_L4_MASK) RTE_PTYPE_L3_IPV6) RTE_PTYPE_L2_ETHER));;
  st32 (ipv6_hdr + ip6_vtc_flow) (htonl DP_IP6_VTC_FLOW);;
  st16 (ipv6_hdr + ip6_payload_len) (htons (u16 (hdr_total_len - sizeof_ipv4_hdr)));;
  st8 (ipv6_hdr + ip6_proto) proto;;
  st8 (ipv6_hdr + ip6_hop_limits) ttl;;
  st128 (ipv6_hdr + ip6_src) service_ul_ip;;
  st128 (ipv6_hdr + ip6_dst) (vs_service_addr virtsvc);;
  modify (add_ol_flags RTE_MBUF_F_TX_IPV6);;
  modify (set_tx_offload sizeof_ether_hdr sizeof_ipv6_hdr 0).

Definition pf_routeL : lens vpkt_state (virtsvc_state * ports_state) := fstL.

Definition virtsvc_request_next i : cmd vpkt_state dp_edge :=
  let ipv4_hdr := sizeof_ether_hdr in
  total_length ← zoom sndL (ld16 (ipv4_hdr + ip4_total_length));
  let hdr_total_len := ntohs total_length in
  original_ip ← zoom sndL (ld32 (ipv4_hdr + ip4_src));
  proto ← zoom sndL (ld8 (ipv4_hdr + ip4_proto));
  ttl ← zoom sndL (ld8 (ipv4_hdr + ip4_ttl));
  if hdr_total_len <? sizeof_ipv4_hdr then mret EDGE_DROP
  else
    zoom sndL (mbuf_move (rte_pktmbuf_adj (sizeof_ether_hdr + sizeof_ipv4_hdr)));;
    ok ← zoom sndL (mbuf_move (rte_pktmbuf_prepend (sizeof_ether_hdr + sizeof_ipv6_hdr)));
    if negb ok then mret EDGE_DROP
    else
      virtsvc ← zoom vsL (get_svc i);
      zoom sndL (request_ipv6_hdr virtsvc hdr_total_len proto ttl);;
      let hdr := dp_get_ipv6_hdr + sizeof_ipv6_hdr in
      src_port ← zoom sndL (ld16 (hdr + l4_src_port));
      m_port ← zoom sndL (gets mb_port);
      r ← zoom pf_routeL (dp_virtsvc_get_pf_route wcmp_perc tsc0 i m_port original_ip src_port);
      let '(ret, pf_port_id, conn_idx) := r : Z * Z * Z in
      if DP_FAILED ret then mret EDGE_DROP
      else
        flags ← zoom sndL (tcp_flags_of proto hdr);
        zoom vsL (upd_svc i (touch_conn tsc flags conn_idx));;
        zoom sndL (st16 (hdr + l4_src_port) (virtsvc_get_port_for_conn conn_idx));;
        zoom sndL (st16 (hdr + l4_dst_port) (vs_service_port virtsvc));;
        zoom sndL (offload_l4_cksum proto hdr);;
        pf_port ← zoom vportsL (dp_get_port_by_id pf_port_id);
        match pf_port with
        | None => mret EDGE_DROP
        | Some p =>
            port ← zoom vportsL (get_port p);
            zoom sndL (dp_fill_ether_hdr 0 port RTE_ETHER_TYPE_IPV6);;
            tx_edge next_tx_index pf_port_id
        end.

(** The new IPv4 header, up to the lengths for the offloading. *)
Definition reply_ipv4_hdr (virtsvc : dp_virtsvc) (total_length packet_id proto ttl : Z) : cmd rte_mbuf () :=
  let ipv4_hdr := dp_get_ipv4_hdr in
  modify (set_packet_type (λ t, Z.lor (Z.lor (Z.land t (2 ^ 32 - 1 - RTE_PTYPE_L3_MASK)) RTE_PTYPE_L3_IPV4) RTE_PTYPE_L2_ETHER));;
  st8 (ipv4_hdr + ip4_version_ihl) 69;;
  st16 (ipv4_hdr + ip4_total_length) total_length;;
  st8 (ipv4_hdr + ip4_tos) 0;;
  st16 (ipv4_hdr + ip4_packet_id) packet_id;;
  st16 (ipv4_hdr + ip4_fragment_offset) 0;;
  st8 (ipv4_hdr + ip4_ttl) ttl;;
  st8 (ipv4_hdr + ip4_proto) proto;;
  st32 (ipv4_hdr + ip4_src) (vs_virtual_addr virtsvc);;
  st16 (ipv4_hdr + ip4_cksum) 0;;
  modify (add_ol_flags (Z.lor RTE_MBUF_F_TX_IPV4 RTE_MBUF_F_TX_IP_CKSUM));;
  modify (set_tx_offload sizeof_ether_hdr sizeof_ipv4_hdr 0).

Definition virtsvc_reply_next i : cmd vpkt_state dp_edge :=
  let ipv6_hdr := sizeof_ether_hdr in
  proto ← zoom sndL (ld8 (ipv6_hdr + ip6_proto));
  ttl ← zoom sndL (ld8 (ipv6_hdr + ip6_hop_limits));
  payload_len ← zoom sndL (ld16 (ipv6_hdr + ip6_payload_len));
  let total_length := htons (u16 (ntohs payload_len + sizeof_ipv4_hdr)) in
  zoom sndL (mbuf_move (rte_pktmbuf_adj (sizeof_ether_hdr + sizeof_ipv6_hdr)));;
  ok ← zoom sndL (mbuf_move (rte_pktmbuf_prepend (sizeof_ether_hdr + sizeof_ipv4_hdr)));
  if negb ok then mret EDGE_DROP
  else
    virtsvc ← zoom vsL (get_svc i);
    packet_id ← zoom vsL (gets vt_packet_id);
    zoom vsL (modify (λ st, st <| vt_packet_id := u16 (packet_id + 1) |>));;
    zoom sndL (reply_ipv4_hdr virtsvc total_length packet_id proto ttl);;
    let hdr := dp_get_ipv4_hdr + sizeof_ipv4_hdr in
    dst_port ← zoom sndL (ld16 (hdr + l4_dst_port));
    match virtsvc_get_conn_on_port virtsvc dst_port with
    | None => fault
    | Some idx =>
        let conn := conn_at virtsvc idx in
        if vc_last_pkt_timestamp conn =? 0 then mret EDGE_DROP
        else
          flags ← zoom sndL (tcp_flags_of proto hdr);
          zoom vsL (upd_svc i (touch_conn tsc flags idx));;
          zoom sndL (st16 (hdr + l4_dst_port) (vc_vf_l4_port conn));;
          zoom sndL (st16 (hdr + l4_src_port) (vs_virtual_port virtsvc));;
          zoom sndL (offload_l4_cksum proto hdr);;
          zoom sndL (st32 (dp_get_ipv4_hdr + ip4_dst) (vc_vf_ip conn));;
          vf_port ← zoom vportsL (dp_get_port_by_id (vc_vf_port_id conn));
          match vf_port with
          | None => mret EDGE_DROP
          | Some p =>
              port ← zoom vportsL (get_port p);
              zoom sndL (dp_fill_ether_hdr 0 port RTE_ETHER_TYPE_IPV4);;
              tx_edge next_tx_index (vc_vf_port_id conn)
          end
    end.

(** [get_next_index]; [df->virtsvc] is not NULL for the packets of this node. *)
Definition virtsvc_next : cmd vpkt_state dp_edge :=
  df ← zoom sndL get_df;
  m_port ← zoom sndL (gets mb_port);
  in_port ← zoom vportsL (dp_get_in_port m_port);
  match in_port, df_virtsvc df with
  | Some p, Some i =>
      port ← zoom vportsL (get_port p);
      if pt_is_pf port then virtsvc_reply_next i else virtsvc_request_next i
  | _, _ => fault
  end.
End node.
End virtsvc.

(** A read of the packet of a bigger state. *)
Ltac zoom_ld :=
  apply wp_bind, wp_zoom, wp_ld; [cbn [lget sndL snd]; net_unfold; pkt_in|]; cbn [lget lput sndL fst snd].

(** ** Facts: the search trees *)

(** A comparison that agrees with the order of numbers. *)
Definition ranked {T : Type} (cmp : T → T → Z) (rank : T → Z) (x y : T) : Prop :=
  (cmp x y < 0 ↔ rank x < rank y) ∧ (cmp x y = 0 ↔ rank x = rank y).

Lemma ranked_consistent {T : Type} (cmp : T → T → Z) rank l :
  (∀ x y, x ∈ l → y ∈ l → ranked cmp rank x y) → consistent cmp l.
Proof.
  intros Hr. split.
  - intros x y Hx Hy. destruct (Hr x y Hx Hy) as [? ?], (Hr y x Hy Hx) as [? ?]. lia.
  - intros x y z Hx Hy Hz. destruct (Hr x y Hx Hy) as [? ?], (Hr y z Hy Hz) as [? ?], (Hr x z Hx Hz) as [? ?]. lia.
Qed.

(** The number whose digits are the bytes, the first one highest. *)
Definition be_value (l : list Z) : Z := foldl (λ acc b, acc * 256 + b) 0 l.

Lemma be_value_foldl l acc : foldl (λ acc b, acc * 256 + b) acc l = acc * 256 ^ Z.of_nat (length l) + be_value l.
Proof.
  revert acc. unfold be_value. induction l as [|b l IH]; intros acc; cbn [foldl length]; [lia|].
  rewrite IH, (IH (0 * 256 + b)). rewrite Nat2Z.inj_succ, Z.pow_succ_r by lia. lia.
Qed.

Lemma be_value_cons b l : be_value (b :: l) = b * 256 ^ Z.of_nat (length l) + be_value l.
Proof. unfold be_value at 1. cbn [foldl]. rewrite be_value_foldl. lia. Qed.

Lemma be_value_range l : Forall is_u8 l → 0 ≤ be_value l < 256 ^ Z.of_nat (length l).
Proof.
  induction 1 as [|b l Hb Hl IH]; [done|]. rewrite be_value_cons. cbn [length].
  rewrite Nat2Z.inj_succ, Z.pow_succ_r by lia. unfold is_u8 in Hb. change (2 ^ 8) with 256 in Hb. nia.
Qed.

(** Comparing numbers by their first digit. *)
Lemma digit_lt P a b v1 v2 : 0 ≤ v1 < P → 0 ≤ v2 < P → a < b → a * P + v1 < b * P + v2.
Proof. intros. assert (a * P + P ≤ b * P) by nia. lia. Qed.

Lemma memcmp_ranked l1 l2 :
  length l1 = length l2 → Forall is_u8 l1 → Forall is_u8 l2 →
  (memcmp l1 l2 < 0 ↔ be_value l1 < be_value l2) ∧ (memcmp l1 l2 = 0 ↔ be_value l1 = be_value l2).
Proof.
  revert l2. induction l1 as [|a l1 IH]; intros [|b l2] Hlen H1 H2; try done. injection Hlen as Hlen.
  apply Forall_cons in H1 as [Ha H1], H2 as [Hb H2]. rewrite !be_value_cons, Hlen. cbn [memcmp].
  pose proof (be_value_range _ H1) as Hr1. pose proof (be_value_range _ H2) as Hr2. rewrite Hlen in Hr1.
  destruct (Z.eqb_spec a b) as [->|Hne].
  - destruct (IH l2 Hlen H1 H2). lia.
  - destruct (Z.lt_total a b) as [Hab|[?|Hab]]; [|done|].
    + pose proof (digit_lt _ _ _ _ _ Hr1 Hr2 Hab). lia.
    + pose proof (digit_lt _ _ _ _ _ Hr2 Hr1 Hab). lia.
Qed.

Lemma be_value_inj l1 l2 :
  length l1 = length l2 → Forall is_u8 l1 → Forall is_u8 l2 → be_value l1 = be_value l2 → l1 = l2.
Proof.
  revert l2. induction l1 as [|a l1 IH]; intros [|b l2] Hlen H1 H2; try done. injection Hlen as Hlen.
  apply Forall_cons in H1 as [Ha H1], H2 as [Hb H2]. rewrite !be_value_cons, Hlen.
  pose proof (be_value_range _ H1) as Hr1. pose proof (be_value_range _ H2) as Hr2. rewrite Hlen in Hr1. intros Heq.
  destruct (Z.lt_total a b) as [Hab|[->|Hab]].
  { pose proof (digit_lt _ _ _ _ _ Hr1 Hr2 Hab). lia. }
  2: { pose proof (digit_lt _ _ _ _ _ Hr2 Hr1 Hab). lia. }
  f_equal. apply IH; try done. lia.
Qed.

(** The address of 16 bytes as the number that [memcmp] compares. *)
Definition be128 (addr : Z) : Z := be_value (to_bytes 16 addr).

Lemma be128_range addr : 0 ≤ be128 addr < 2 ^ 128.
Proof. unfold be128. pose proof (be_value_range _ (to_bytes_u8 16 addr)) as H. by rewrite length_to_bytes in H. Qed.

Lemma be128_inj a b : is_u128 a → is_u128 b → be128 a = be128 b → a = b.
Proof.
  unfold be128. intros Ha Hb Heq. apply be_value_inj in Heq; [|by rewrite !length_to_bytes|apply to_bytes_u8..].
  rewrite <- (Z.mod_small a (2 ^ 128)), <- (Z.mod_small b (2 ^ 128)) by done.
  pose proof (of_to_bytes 16 a) as Ea. pose proof (of_to_bytes 16 b) as Eb. rewrite Heq in Ea.
  change (8 * Z.of_nat 16) with 128 in Ea, Eb. congruence.
Qed.

Definition rank6 (proto addr port : Z) : Z := (proto * 2 ^ 128 + be128 addr) * 2 ^ 16 + port.
Definition rank4 (proto addr port : Z) : Z := (proto * 2 ^ 32 + addr) * 2 ^ 16 + port.

(** Comparing by protocol, address and port in this order, where [c] compares the
    addresses. *)
Definition lex_cmp (d c q : Z) : Z := if negb (d =? 0) then d else if negb (c =? 0) then c else q.

Lemma lex_cmp_ranked N proto1 proto2 a1 a2 port1 port2 c :
  0 ≤ a1 < N → 0 ≤ a2 < N → is_u16 port1 → is_u16 port2 → (c < 0 ↔ a1 < a2) → (c = 0 ↔ a1 = a2) →
  (lex_cmp (proto1 - proto2) c (port1 - port2) < 0
   ↔ (proto1 * N + a1) * 2 ^ 16 + port1 < (proto2 * N + a2) * 2 ^ 16 + port2)
  ∧ (lex_cmp (proto1 - proto2) c (port1 - port2) = 0
     ↔ (proto1 * N + a1) * 2 ^ 16 + port1 = (proto2 * N + a2) * 2 ^ 16 + port2).
Proof.
  unfold is_u16, lex_cmp. intros H1 H2 Hp1 Hp2 Hlt Heq. change (2 ^ 16) with 65536 in *.
  destruct (Z.eqb_spec (proto1 - proto2) 0) as [Hp|Hp]; cbn [negb].
  - assert (proto1 = proto2) as -> by lia. destruct (Z.eqb_spec c 0); cbn [negb]; lia.
  - destruct (Z.lt_total proto1 proto2) as [Hab|[?|Hab]]; [|lia|].
    + pose proof (digit_lt _ _ _ _ _ H1 H2 Hab). lia.
    + pose proof (digit_lt _ _ _ _ _ H2 H1 Hab). lia.
Qed.

Lemma ipv6_cmp_ranked proto1 addr1 port1 proto2 addr2 port2 :
  is_u16 port1 → is_u16 port2 →
  (dp_virtsvc_ipv6_cmp proto1 addr1 port1 proto2 addr2 port2 < 0
   ↔ rank6 proto1 addr1 port1 < rank6 proto2 addr2 port2)
  ∧ (dp_virtsvc_ipv6_cmp proto1 addr1 port1 proto2 addr2 port2 = 0
     ↔ rank6 proto1 addr1 port1 = rank6 proto2 addr2 port2).
Proof.
  intros H1 H2. destruct (memcmp_ranked (to_bytes 16 addr1) (to_bytes 16 addr2)) as [Hlt Heq];
    [by rewrite !length_to_bytes|apply to_bytes_u8..|].
  exact (lex_cmp_ranked (2 ^ 128) proto1 proto2 (be128 addr1) (be128 addr2) port1 port2 _
    (be128_range addr1) (be128_range addr2) H1 H2 Hlt Heq).
Qed.

Lemma i32_diff a b : is_u32 a → is_u32 b → Z.abs (a - b) < 2 ^ 31 → i32 (u32 (a - b)) = a - b.
Proof.
  intros Ha Hb Hd. unfold i32. assert (u32 (u32 (a - b)) = u32 (a - b)) as -> by (apply u32_id, u32_range).
  unfold u32, is_u32 in *. change (2 ^ 32) with 4294967296 in *. change (2 ^ 31) with 2147483648 in *.
  destruct (Z.ltb_spec ((a - b) mod 4294967296) 2147483648); Z.div_mod_to_equations; lia.
Qed.

Lemma i32_zero a b : is_u32 a → is_u32 b → i32 (u32 (a - b)) = 0 → a = b.
Proof.
  intros Ha Hb. unfold i32. assert (u32 (u32 (a - b)) = u32 (a - b)) as -> by (apply u32_id, u32_range).
  unfold u32, is_u32 in *. change (2 ^ 32) with 4294967296 in *. change (2 ^ 31) with 2147483648 in *.
  destruct (Z.ltb_spec ((a - b) mod 4294967296) 2147483648); Z.div_mod_to_equations; lia.
Qed.

Lemma ipv4_cmp_ranked proto1 addr1 port1 proto2 addr2 port2 :
  is_u32 addr1 → is_u32 addr2 → is_u16 port1 → is_u16 port2 → Z.abs (addr1 - addr2) < 2 ^ 31 →
  (dp_virtsvc_ipv4_cmp proto1 addr1 port1 proto2 addr2 port2 < 0
   ↔ rank4 proto1 addr1 port1 < rank4 proto2 addr2 port2)
  ∧ (dp_virtsvc_ipv4_cmp proto1 addr1 port1 proto2 addr2 port2 = 0
     ↔ rank4 proto1 addr1 port1 = rank4 proto2 addr2 port2).
Proof.
  intros Ha1 Ha2 H1 H2 Hd. unfold dp_virtsvc_ipv4_cmp. rewrite i32_diff by done.
  apply (lex_cmp_ranked (2 ^ 32) proto1 proto2 addr1 addr2 port1 port2 (addr1 - addr2)); try done; lia.
Qed.

Section tree_facts.
Context `{HH : RteHash} `{HM : RteMalloc} `{HL : Libc} {LO : LibcOk}.
Implicit Types (services : list dp_virtsvc) (t : dp_virtsvc_lookup_entry).

Fixpoint inorder t : list nat :=
  match t with no_entry => [] | lookup_entry i l r => inorder l ++ i :: inorder r end.

Lemma wp_array_to_tree fuel array start end_ s :
  0 ≤ start ≤ end_ + 1 → end_ < Z.of_nat (length array) → end_ - start < Z.of_nat fuel →
  wp (dp_virtsvc_array_to_tree fuel array start end_)
    (λ r _, (r.1 = DP_OK ∧ inorder r.2 = take (Z.to_nat (end_ + 1 - start)) (drop (Z.to_nat start) array))
            ∨ r.1 = DP_ERROR) s.
Proof.
  revert start end_ s. induction fuel as [|fuel IH]; intros start end_ s Hs He Hf; cbn [dp_virtsvc_array_to_tree].
  { destruct (Z.ltb_spec end_ start); [|lia]. apply wp_ret. left. split; [done|].
    by replace (end_ + 1 - start) with 0 by lia. }
  destruct (Z.ltb_spec end_ start).
  { apply wp_ret. left. split; [done|]. by replace (end_ + 1 - start) with 0 by lia. }
  apply wp_bind. unfold wp at 1. destruct (libc_malloc s) as [[] s1]; cbn [negb]; [|apply wp_ret; by right].
  set (mid := (start + end_) / 2). assert (Hmid : start ≤ mid ≤ end_) by (unfold mid; Z.div_mod_to_equations; lia).
  destruct (lookup_lt_is_Some_2 array (Z.to_nat mid)) as [i Hi]; [lia|]. rewrite Hi.
  apply wp_bind. wp_use (IH start (mid - 1) s1); [lia..|]. intros l s2 [[Hl1 Hl]|Hl1]; rewrite Hl1; [|apply wp_ret; by right].
  apply wp_bind. wp_use (IH (mid + 1) end_ s2); [lia..|]. intros r s3 [[Hr1 Hr]|Hr1]; rewrite Hr1; [|apply wp_ret; by right].
  apply wp_ret. left. split; [done|]. cbn [inorder snd]. rewrite Hl, Hr.
  replace (Z.to_nat (end_ + 1 - start))
    with (Z.to_nat (mid - 1 + 1 - start) + S (Z.to_nat (end_ + 1 - (mid + 1))))%nat by lia.
  rewrite <- take_take_drop. f_equal. rewrite drop_drop.
  replace (Z.to_nat start + Z.to_nat (mid - 1 + 1 - start))%nat with (Z.to_nat mid) by lia.
  rewrite (drop_S array i (Z.to_nat mid)) by done. cbn [take]. do 3 f_equal. lia.
Qed.

(** What a search finds is in the tree and equal to what was searched. *)
Lemma tree_search_sound services cmp t r :
  tree_search services cmp t = Some (Some r) → r ∈ inorder t ∧ ∃ v, services !! r = Some v ∧ cmp v = 0.
Proof.
  induction t as [|i l IHl tr IHr]; [done|]. cbn [tree_search inorder].
  destruct (services !! i) as [v|] eqn:Hv; [|done]. destruct (Z.eqb_spec (cmp v) 0).
  - intros [= <-]. split; [set_solver|]. eauto.
  - destruct (cmp v <? 0); intros H; [apply IHl in H|apply IHr in H]; destruct H; split; set_solver.
Qed.

Lemma tree_search_defined services cmp t :
  Forall (λ i, is_Some (services !! i)) (inorder t) → is_Some (tree_search services cmp t).
Proof.
  induction t as [|i l IHl r IHr]; [done|]. cbn [tree_search inorder].
  intros [Hl [[v Hv] Hr]%Forall_cons]%Forall_app. rewrite Hv.
  destruct (cmp v =? 0); [done|]. destruct (cmp v <? 0); auto.
Qed.

Lemma StronglySorted_app_inv {A} (R : A → A → Prop) l1 l2 :
  StronglySorted R (l1 ++ l2) →
  StronglySorted R l1 ∧ StronglySorted R l2 ∧ ∀ x y, x ∈ l1 → y ∈ l2 → R x y.
Proof.
  induction l1 as [|a l1 IH]; cbn [app].
  { intros H. split; [constructor|]. split; [done|]. set_solver. }
  intros [Hs Ha]%StronglySorted_inv. destruct (IH Hs) as (H1 & H2 & H3). rewrite Forall_forall in Ha. split_and!.
  - constructor; [done|]. apply Forall_forall. set_solver.
  - done.
  - intros x y [->|Hx]%elem_of_cons Hy; [apply Ha; set_solver|auto].
Qed.

(** In a sorted tree, the search for a service that is there finds an equal one. *)
Lemma tree_search_complete services cmp t (key : dp_virtsvc → Z) k :
  Forall (λ i, is_Some (services !! i)) (inorder t) →
  consistent (by_services services cmp) (inorder t) →
  StronglySorted (λ i j, by_services services cmp i j ≤ 0) (inorder t) →
  (∀ v, key v = match services !! k with Some w => cmp w v | None => 0 end) → k ∈ inorder t →
  ∃ r, tree_search services key t = Some (Some r).
Proof.
  intros Hdef Hcons Hsort Hkey. induction t as [|i l IHl r IHr]; [set_solver|]. cbn [tree_search inorder] in *.
  intros Hk. pose proof Hdef as Hall. apply Forall_app in Hdef as [Hdl [[v Hv] Hdr]%Forall_cons]. rewrite Hv.
  apply StronglySorted_app_inv in Hsort as (Hsl & [Hsr Hi]%StronglySorted_inv & Hlr).
  assert (Hki : key v = by_services services cmp k i).
  { unfold by_services. rewrite Hkey, Hv. rewrite Forall_forall in Hall. destruct (Hall k) as [w Hw]; [set_solver|].
    by rewrite Hw. }
  assert (Hin : i ∈ inorder l ++ i :: inorder r) by set_solver.
  assert (Hanti := λ x y Hx Hy, cons_anti _ _ Hcons x y Hx Hy).
  assert (Hsub : ∀ t', (∀ x, x ∈ inorder t' → x ∈ inorder l ++ i :: inorder r) → consistent (by_services services cmp) (inorder t')).
  { intros t' Ht'. destruct Hcons as [C1 C2]. split; [eauto|]. intros x y z ? ? ?. apply C2; auto. }
  destruct (Z.eqb_spec (key v) 0); [eauto|]. rewrite Forall_forall in Hi.
  destruct (Z.ltb_spec (key v) 0).
  - apply IHl; [done|apply Hsub; set_solver|done|]. apply elem_of_app in Hk as [Hk|[->|Hk]%elem_of_cons]; [done|..].
    + destruct (Hanti i i Hin Hin). lia.
    + specialize (Hi _ Hk). destruct (Hanti i k Hin ltac:(set_solver)). lia.
  - apply IHr; [done|apply Hsub; set_solver|done|]. apply elem_of_app in Hk as [Hk|[->|Hk]%elem_of_cons]; [..|done].
    + pose proof (Hlr k i Hk ltac:(set_solver)). lia.
    + destruct (Hanti i i Hin Hin). lia.
Qed.

(** *** The trees that are built *)

Record svc_ok (v : dp_virtsvc) : Prop := {
  so_proto : vs_proto v = IPPROTO_TCP ∨ vs_proto v = IPPROTO_UDP;
  so_vaddr : is_u32 (vs_virtual_addr v);
  so_vport : is_u16 (vs_virtual_port v);
  so_saddr : is_u128 (vs_service_addr v);
  so_sport : is_u16 (vs_service_port v)
}.

(** No two IPv4 addresses are further apart than a difference of type [int]. *)
Definition near services : Prop :=
  ∀ v w, v ∈ services → w ∈ services → Z.abs (vs_virtual_addr v - vs_virtual_addr w) < 2 ^ 31.

Definition svc_rank4 (v : dp_virtsvc) : Z := rank4 (vs_proto v) (vs_virtual_addr v) (vs_virtual_port v).
Definition svc_rank6 (v : dp_virtsvc) : Z := rank6 (vs_proto v) (vs_service_addr v) (vs_service_port v).
Definition rank_of services (rank : dp_virtsvc → Z) (i : nat) : Z := default 0 (rank <$> services !! i).

Lemma by_services_consistent services cmp rank l :
  (∀ v w, v ∈ services → w ∈ services → ranked cmp rank v w) → Forall (λ i, is_Some (services !! i)) l →
  consistent (by_services services cmp) l.
Proof.
  intros Hr Hl. apply (ranked_consistent _ (rank_of services rank)). rewrite Forall_forall in Hl.
  intros i j [v Hv]%Hl [w Hw]%Hl. unfold ranked, by_services, rank_of. rewrite Hv, Hw.
  apply Hr; by eapply list_elem_of_lookup_2.
Qed.

(** A tree that holds every service and is sorted. *)
Record sorted_tree services cmp t : Prop := {
  st_all : inorder t ≡ₚ seq 0 (length services);
  st_sorted : StronglySorted (λ i j, by_services services cmp i j ≤ 0) (inorder t)
}.

Lemma seq_services services l :
  l ≡ₚ seq 0 (length services) → Forall (λ i, is_Some (services !! i)) l.
Proof. intros ->. apply Forall_forall. intros i Hi%elem_of_seq. apply lookup_lt_is_Some. lia. Qed.

Lemma wp_sorted_tree services cmp rank array ls :
  (∀ v w, v ∈ services → w ∈ services → ranked cmp rank v w) → array ≡ₚ seq 0 (length services) →
  let array' := qsort (by_services services cmp) array in
  array' ≡ₚ seq 0 (length services)
  ∧ wp (dp_virtsvc_array_to_tree (length services) array' 0 (Z.of_nat (length services) - 1))
      (λ r _, (r.1 = DP_OK ∧ sorted_tree services cmp r.2) ∨ r.1 = DP_ERROR) ls.
Proof.
  intros Hr Harr array'. destruct (qsort_ok (by_services services cmp) array) as [Hperm Hsort].
  { by eapply by_services_consistent; [|apply seq_services]. }
  fold array' in Hperm, Hsort. assert (Hall : array' ≡ₚ seq 0 (length services)) by (by rewrite Hperm).
  assert (Hlen : length array' = length services) by (rewrite Hall; apply length_seq).
  split; [done|]. wp_use (wp_array_to_tree (length services) array' 0 (Z.of_nat (length services) - 1) ls); [lia..|].
  intros r _ [[H1 H2]|H1]; [left|by right]. split; [done|].
  rewrite Z2Nat.inj_0, drop_0, take_ge in H2 by lia. split; by rewrite H2.
Qed.

Definition services_ok services : Prop := services ≠ [] ∧ Forall svc_ok services.

Lemma cmp6_ranked services v w :
  Forall svc_ok services → v ∈ services → w ∈ services → ranked dp_virtsvc_ipv6_comparator svc_rank6 v w.
Proof. rewrite Forall_forall. intros Hok []%Hok []%Hok. by apply ipv6_cmp_ranked. Qed.

Lemma cmp4_ranked services v w :
  Forall svc_ok services → near services → v ∈ services → w ∈ services →
  ranked dp_virtsvc_ipv4_comparator svc_rank4 v w.
Proof. rewrite Forall_forall. intros Hok Hnear Hv Hw. apply ipv4_cmp_ranked; by (apply Hok || apply Hnear). Qed.

Lemma wp_create_trees (st : virtsvc_state) ls :
  services_ok (vt_services st) → near (vt_services st) →
  wp dp_virtsvc_create_trees
    (λ ret x, vt_services x.1 = vt_services st
       ∧ (ret = DP_ERROR
          ∨ (ret = DP_OK ∧ sorted_tree (vt_services st) dp_virtsvc_ipv4_comparator (vt_ipv4_tree x.1)
             ∧ sorted_tree (vt_services st) dp_virtsvc_ipv6_comparator (vt_ipv6_tree x.1)))) (st, ls).
Proof.
  intros [Hne Hok] Hnear. unfold dp_virtsvc_create_trees. wp_steps. cbn [lget lput fstL fst].
  destruct (vt_services st) as [|v0 vs] eqn:Hs; [done|]. rewrite <- Hs in *.
  destruct (Z.leb_spec (Z.of_nat (length (vt_services st))) 0) as [H0|_]; [rewrite Hs in H0; cbn in H0; lia|].
  apply wp_bind, wp_zoom. unfold wp at 1. cbn [lget sndL snd]. destruct (libc_malloc ls) as [[] ls1]; cbn [negb];
    [|apply wp_ret; split; [done|by left]].
  destruct (wp_sorted_tree (vt_services st) dp_virtsvc_ipv4_comparator svc_rank4 (seq 0 (length (vt_services st))) ls1)
    as [Hp4 Hw4]; [by intros; eapply cmp4_ranked|done|].
  apply wp_bind, wp_zoom. wp_use Hw4. intros t4 ls2 H4. wp_steps. cbn [lget lput fstL fst snd].
  destruct H4 as [[-> H4]| ->]; [|apply wp_ret; split; [done|by left]]. cbn match.
  change (DP_FAILED DP_OK) with false. cbn match.
  destruct (wp_sorted_tree (vt_services st) dp_virtsvc_ipv6_comparator svc_rank6
    (qsort (by_services (vt_services st) dp_virtsvc_ipv4_comparator) (seq 0 (length (vt_services st)))) ls2)
    as [Hp6 Hw6]; [by intros; eapply cmp6_ranked|done|].
  apply wp_bind, wp_zoom. wp_use Hw6. intros t6 ls3 H6. wp_steps. cbn [lget lput fstL fst snd].
  destruct H6 as [[-> H6]| ->]; apply wp_ret; (split; [done|]); [by right|by left].
Qed.

(** *** What a lookup finds *)

Definition found services (matches : dp_virtsvc → Prop) (r : option nat) : Prop :=
  match r with
  | Some i => ∃ v, services !! i = Some v ∧ matches v
  | None => ∀ v, v ∈ services → ¬ matches v
  end.

Lemma sorted_tree_search services cmp rank t (key : dp_virtsvc → Z) (matches : dp_virtsvc → Prop) :
  (∀ v w, v ∈ services → w ∈ services → ranked cmp rank v w) → sorted_tree services cmp t →
  (∀ v, v ∈ services → key v = 0 → matches v) → (∀ w v, w ∈ services → matches w → key v = cmp w v) →
  ∃ r, tree_search services key t = Some r ∧ found services matches r.
Proof.
  intros Hr [Hall Hsort] Hzero Hkey. pose proof (seq_services _ _ Hall) as Hdef.
  destruct (tree_search_defined services key t Hdef) as [r Hres]. exists r. split; [done|].
  destruct r as [i|]; cbn.
  - apply tree_search_sound in Hres as (_ & v & Hv & H0). exists v. split; [done|].
    apply Hzero; [by eapply list_elem_of_lookup_2|done].
  - intros w Hw Hm. pose proof Hw as [k Hk]%list_elem_of_lookup.
    destruct (tree_search_complete services cmp t key k) as [? Heq]; [done|..|by rewrite Hres in Heq].
    + by eapply by_services_consistent.
    + done.
    + intros v. rewrite Hk. by apply Hkey.
    + rewrite Hall. apply elem_of_seq. apply lookup_lt_Some in Hk. lia.
Qed.

(** The endpoints a packet is sent to, and comes from. *)
Definition sent_to (m : rte_mbuf) (v : dp_virtsvc) : Prop :=
  vs_proto v = mget m 1 (dp_get_ipv4_hdr + ip4_proto)
  ∧ vs_virtual_addr v = mget m 4 (dp_get_ipv4_hdr + ip4_dst)
  ∧ vs_virtual_port v = mget m 2 (dp_get_ipv4_hdr + sizeof_ipv4_hdr + l4_dst_port).
Definition comes_from (m : rte_mbuf) (v : dp_virtsvc) : Prop :=
  vs_proto v = mget m 1 (dp_get_ipv6_hdr + ip6_proto)
  ∧ vs_service_addr v = mget m 16 (dp_get_ipv6_hdr + ip6_src)
  ∧ vs_service_port v = mget m 2 (dp_get_ipv6_hdr + sizeof_ipv6_hdr + l4_src_port).

Lemma cmp4_zero p1 a1 q1 p2 a2 q2 :
  is_u32 a1 → is_u32 a2 → dp_virtsvc_ipv4_cmp p1 a1 q1 p2 a2 q2 = 0 → p2 = p1 ∧ a2 = a1 ∧ q2 = q1.
Proof.
  unfold dp_virtsvc_ipv4_cmp. intros Ha1 Ha2. destruct (Z.eqb_spec (p1 - p2) 0); cbn [negb]; [|lia].
  destruct (Z.eqb_spec (i32 (u32 (a1 - a2))) 0) as [H0|]; cbn [negb]; [|lia]. apply i32_zero in H0; [|done..]. lia.
Qed.

Lemma cmp6_zero p1 a1 q1 p2 a2 q2 :
  is_u128 a1 → is_u128 a2 → dp_virtsvc_ipv6_cmp p1 a1 q1 p2 a2 q2 = 0 → p2 = p1 ∧ a2 = a1 ∧ q2 = q1.
Proof.
  unfold dp_virtsvc_ipv6_cmp. intros Ha1 Ha2. destruct (Z.eqb_spec (p1 - p2) 0); cbn [negb]; [|lia].
  destruct (Z.eqb_spec (memcmp (to_bytes 16 a1) (to_bytes 16 a2)) 0) as [H0|]; cbn [negb]; [|lia].
  apply memcmp_ranked in H0; [|by rewrite !length_to_bytes|apply to_bytes_u8..]. apply be128_inj in H0; [|done..]. lia.
Qed.

Lemma wp_outgoing (st : virtsvc_state) (ports : ports_state) m :
  services_ok (vt_services st) → near (vt_services st) →
  sorted_tree (vt_services st) dp_virtsvc_ipv4_comparator (vt_ipv4_tree st) →
  in_pkt m 0 38 = true → Forall is_u8 (mb_buf m) →
  wp get_outgoing_virtsvc (λ r s', s' = ((st, ports), m) ∧ found (vt_services st) (sent_to m) r) ((st, ports), m).
Proof.
  intros [_ Hok] Hnear Ht Hin Hu8. unfold get_outgoing_virtsvc.
  zoom_ld. zoom_ld. set (addr := mget m 4 _). set (proto := mget m 1 _).
  assert (Haddr : is_u32 addr) by (apply mget_range; [done|net_unfold; pkt_in]).
  destruct (_ || _) eqn:Hp; last first.
  { apply wp_ret. split; [done|]. intros v Hv (Hm & _). rewrite Forall_forall in Hok.
    zbool. destruct (so_proto _ (Hok v Hv)) as [E|E]; rewrite E in Hm; by subst proto. }
  zoom_ld. set (port := mget m 2 _).
  destruct (sorted_tree_search (vt_services st) dp_virtsvc_ipv4_comparator svc_rank4 (vt_ipv4_tree st)
    (λ v, dp_virtsvc_ipv4_cmp proto addr port (vs_proto v) (vs_virtual_addr v) (vs_virtual_port v)) (sent_to m))
    as (r & Hr & Hf).
  - by intros; eapply cmp4_ranked.
  - done.
  - intros v Hv H0. rewrite Forall_forall in Hok. apply cmp4_zero in H0; [done|done|]. by apply Hok.
  - intros w v _ (Ep & Ea & Eq). unfold dp_virtsvc_ipv4_comparator. by rewrite Ep, Ea, Eq.
  - apply wp_zoom. unfold wp. cbn [lget vsL fst]. by rewrite Hr.
Qed.

Lemma wp_incoming (st : virtsvc_state) (ports : ports_state) m :
  services_ok (vt_services st) →
  sorted_tree (vt_services st) dp_virtsvc_ipv6_comparator (vt_ipv6_tree st) →
  in_pkt m 0 58 = true → Forall is_u8 (mb_buf m) →
  wp get_incoming_virtsvc (λ r s', s' = ((st, ports), m) ∧ found (vt_services st) (comes_from m) r) ((st, ports), m).
Proof.
  intros [_ Hok] Ht Hin Hu8. unfold get_incoming_virtsvc.
  zoom_ld. zoom_ld. set (addr := mget m 16 _). set (proto := mget m 1 _).
  assert (Haddr : is_u128 addr) by (apply mget_range; [done|net_unfold; pkt_in]).
  destruct (_ || _) eqn:Hp; last first.
  { apply wp_ret. split; [done|]. intros v Hv (Hm & _). rewrite Forall_forall in Hok.
    zbool. destruct (so_proto _ (Hok v Hv)) as [E|E]; rewrite E in Hm; by subst proto. }
  zoom_ld. set (port := mget m 2 _).
  destruct (sorted_tree_search (vt_services st) dp_virtsvc_ipv6_comparator svc_rank6 (vt_ipv6_tree st)
    (λ v, dp_virtsvc_ipv6_cmp proto addr port (vs_proto v) (vs_service_addr v) (vs_service_port v)) (comes_from m))
    as (r & Hr & Hf).
  - by intros; eapply cmp6_ranked.
  - done.
  - intros v Hv H0. rewrite Forall_forall in Hok. apply cmp6_zero in H0; [done|done|]. by apply Hok.
  - intros w v _ (Ep & Ea & Eq). unfold dp_virtsvc_ipv6_comparator. by rewrite Ep, Ea, Eq.
  - apply wp_zoom. unfold wp. cbn [lget vsL fst]. by rewrite Hr.
Qed.

(** When the IPv4 addresses of the services are less than [2^31] apart, as
    numbers in network byte order, the search trees that are built find, for
    every packet, the service it is sent to or comes from exactly when there is
    one. *)
Theorem virtsvc_lookup_spec (st : virtsvc_state) ls :
  services_ok (vt_services st) → near (vt_services st) →
  wp dp_virtsvc_create_trees
    (λ ret x, ret = DP_ERROR
       ∨ (ret = DP_OK ∧ ∀ (ports : ports_state) m, Forall is_u8 (mb_buf m) →
            (in_pkt m 0 38 = true →
             wp get_outgoing_virtsvc (λ r _, found (vt_services st) (sent_to m) r) ((x.1, ports), m))
            ∧ (in_pkt m 0 58 = true →
               wp get_incoming_virtsvc (λ r _, found (vt_services st) (comes_from m) r) ((x.1, ports), m)))) (st, ls).
Proof.
  intros Hok Hnear. wp_use (wp_create_trees st ls Hok Hnear). intros ret [st' ls'] [Hs H]. cbn [fst] in *.
  destruct H as [->|(-> & H4 & H6)]; [by left|right]. split; [done|]. intros ports m Hu8. rewrite <- Hs in *. split; intros Hin.
  - wp_use (wp_outgoing st' ports m Hok Hnear H4 Hin Hu8). by intros r s' [_ ?].
  - wp_use (wp_incoming st' ports m Hok H6 Hin Hu8). by intros r s' [_ ?].
Qed.
End tree_facts.

(** ** Facts: connections *)

Section conn_facts.
Context `{HH : RteHash} {HO : RteHashOk} `{HM : RteMalloc} `{HN : RteNet}.
Implicit Types (st : virtsvc_state) (v : dp_virtsvc) (i : nat).

Definition open_ports v : gmap dp_virtsvc_conn_key Z := contents (vs_open_ports v).
Definition is_conn_idx (idx : Z) : Prop := 0 ≤ idx < DP_VIRTSVC_PORTCOUNT.

(** Every connection in the table is the one of its port, and in use; so no two
    connections share a port. *)
Record svc_inv v : Prop := {
  sv_last : is_conn_idx (vs_last_assigned_port v);
  sv_open k p : open_ports v !! k = Some p →
    is_conn_idx p ∧ conn_key (conn_at v p) = k ∧ vc_last_pkt_timestamp (conn_at v p) ≠ 0
}.

(** What a service is configured with. *)
Definition svc_endpoints v : Z * Z * Z * Z * Z :=
  (vs_virtual_addr v, vs_service_addr v, vs_virtual_port v, vs_service_port v, vs_proto v).

Lemma conn_at_set_eq v idx c : conn_at (set_conn idx c v) idx = c.
Proof. unfold conn_at, set_conn. simpl. by rewrite lookup_insert_eq. Qed.
Lemma conn_at_set_ne v idx c p : p ≠ idx → conn_at (set_conn idx c v) p = conn_at v p.
Proof. intros Hne. unfold conn_at, set_conn. simpl. by rewrite lookup_insert_ne by congruence. Qed.

Lemma wp_get_svc st i v (Q : dp_virtsvc → virtsvc_state → Prop) :
  vt_services st !! i = Some v → Q v st → wp (get_svc i) Q st.
Proof. unfold wp, get_svc. by intros ->. Qed.
Lemma wp_upd_svc st i v f (Q : () → virtsvc_state → Prop) :
  vt_services st !! i = Some v → Q tt (st <| vt_services := <[i := f v]> (vt_services st) |>) → wp (upd_svc i f) Q st.
Proof. unfold wp, upd_svc. by intros ->. Qed.

(** The state with another service. *)
Definition with_svc st i v : virtsvc_state := st <| vt_services := <[i := v]> (vt_services st) |>.

Lemma with_svc_lookup st i v v0 : vt_services st !! i = Some v0 → vt_services (with_svc st i v) !! i = Some v.
Proof. intros Hv. simpl. apply list_lookup_insert_eq. by eapply lookup_lt_Some. Qed.
Lemma with_svc_twice st i v1 v2 : with_svc (with_svc st i v1) i v2 = with_svc st i v2.
Proof. unfold with_svc. simpl. by rewrite list_insert_insert_eq. Qed.
Lemma with_svc_same st i v : vt_services st !! i = Some v → with_svc st i v = st.
Proof. intros Hv. unfold with_svc. rewrite list_insert_id by done. by destruct st. Qed.

Lemma free_port_spec st v tsc p :
  is_conn_idx (vs_last_assigned_port v) → free_port_of st v tsc = Some p →
  is_conn_idx p ∧ dp_virtsvc_is_connection_old st (conn_at v p) tsc = true.
Proof.
  unfold free_port_of, is_conn_idx. intros Hlast.
  destruct (for_find _ (vs_last_assigned_port v + 1) _) as [q|] eqn:Hf.
  - intros [= <-]. apply for_find_Some in Hf as (Hr & Ht & _). split; [lia|done].
  - intros (Hr & Ht & _)%for_find_Some. split; [lia|done].
Qed.

(** A port was taken from a connection that timed out, or never used, and given to
    [key]. *)
Record conn_made st (tsc : Z) (key : dp_virtsvc_conn_key) (idx : Z) v v' : Prop := {
  cm_idx : is_conn_idx idx;
  cm_old : dp_virtsvc_is_connection_old st (conn_at v idx) tsc = true;
  cm_ends : svc_endpoints v' = svc_endpoints v;
  cm_last : vs_last_assigned_port v' = idx;
  cm_key : open_ports v' !! key = Some idx;
  cm_conn : conn_key (conn_at v' idx) = key;
  cm_sub k p : k ≠ key → open_ports v' !! k = Some p →
    open_ports v !! k = Some p ∧ p ≠ idx;
  cm_keep k p : k ≠ key → open_ports v !! k = Some p → k ≠ conn_key (conn_at v idx) → open_ports v' !! k = Some p;
  cm_others p : p ≠ idx → conn_at v' p = conn_at v p
}.

(** No connection could be made. *)
Record conn_refused v v' : Prop := {
  cr_inv : svc_inv v';
  cr_ends : svc_endpoints v' = svc_endpoints v;
  cr_sub : open_ports v' ⊆ open_ports v;
  cr_conns : vs_connections v' = vs_connections v
}.

Lemma contents_del_key (t : rte_hash dp_virtsvc_conn_key Z) k :
  contents (rte_hash_del_key t k).2 = delete k (contents t).
Proof.
  destruct (contents t !! k) as [p|] eqn:Hk.
  - destruct (hash_del_some t k p Hk) as (pos & t' & _ & Hd & Hc). by rewrite Hd.
  - rewrite hash_del_none by done. simpl. by rewrite delete_id.
Qed.

Lemma svc_inv_sub v v' :
  svc_inv v → is_conn_idx (vs_last_assigned_port v') → open_ports v' ⊆ open_ports v →
  vs_connections v' = vs_connections v → svc_inv v'.
Proof.
  intros [_ Ho] Hl Hsub Hc. split; [done|]. intros k p Hp. unfold conn_at. rewrite Hc.
  apply Ho. by eapply lookup_weaken.
Qed.

(** After the connection of the port was removed, no key leads to the port. *)
Lemma open_after_del v p k q :
  svc_inv v →
  (if negb (vc_last_pkt_timestamp (conn_at v p) =? 0) then delete (conn_key (conn_at v p)) (open_ports v)
   else open_ports v) !! k = Some q → open_ports v !! k = Some q ∧ q ≠ p.
Proof.
  intros Hi. destruct (Z.eqb_spec (vc_last_pkt_timestamp (conn_at v p)) 0) as [H0|H0]; cbn [negb].
  - intros Hq. split; [done|]. intros ->. by destruct (sv_open _ Hi _ _ Hq) as (_ & _ & ?).
  - intros [Hne Hq]%lookup_delete_Some. split; [done|]. intros ->.
    destruct (sv_open _ Hi _ _ Hq) as (_ & Hk & _). done.
Qed.

Lemma wp_create_connection st i v tsc key (Q : Z → virtsvc_state → Prop) :
  vt_services st !! i = Some v → svc_inv v → open_ports v !! key = None →
  (∀ ret v', DP_FAILED ret = true → conn_refused v v' → Q ret (with_svc st i v')) →
  (∀ idx v', conn_made st tsc key idx v v' → Q idx (with_svc st i v')) →
  wp (dp_virtsvc_create_connection tsc i key) Q st.
Proof.
  intros Hv Hi Hnew Hfail Hok. unfold dp_virtsvc_create_connection, dp_virtsvc_get_free_port.
  apply wp_bind, wp_bind. eapply wp_get_svc; [done|]. wp_steps. destruct (free_port_of st v tsc) as [p|] eqn:Hp; last first.
  { apply wp_ret. cbn match. apply wp_ret. rewrite <- (with_svc_same st i v) by done. apply Hfail; [done|].
    constructor; try done. }
  destruct (free_port_spec _ _ _ _ (sv_last _ Hi) Hp) as [Hidx Hold].
  apply wp_bind. eapply wp_upd_svc; [done|]. apply wp_ret. fold (with_svc st i (v <| vs_last_assigned_port := p |>)).
  set (v1 := v <| vs_last_assigned_port := p |>).
  replace (DP_FAILED p) with false by (unfold DP_FAILED, is_conn_idx in *; destruct (Z.ltb_spec p 0); [lia|done]). cbn match.
  apply wp_bind. eapply wp_get_svc; [by eapply with_svc_lookup|]. change (conn_at v1 p) with (conn_at v p).
  apply wp_bind. set (c := conn_at v p).
  set (tbl := if negb (vc_last_pkt_timestamp c =? 0) then (rte_hash_del_key (vs_open_ports v) (conn_key c)).2 else vs_open_ports v).
  assert (Hdel : wp (if negb (vc_last_pkt_timestamp c =? 0)
    then upd_svc i (λ v, v <| vs_open_ports := (rte_hash_del_key (vs_open_ports v) (conn_key c)).2 |>) else mret tt)
    (λ _ s', s' = with_svc st i (v1 <| vs_open_ports := tbl |>)) (with_svc st i v1)).
  { unfold tbl. destruct (negb _); [|by apply wp_ret]. eapply wp_upd_svc; [by eapply with_svc_lookup|].
    apply with_svc_twice. }
  eapply wp_mono; [exact Hdel|]. intros _ ? ->. set (v2 := v1 <| vs_open_ports := tbl |>).
  assert (Htbl : contents tbl = if negb (vc_last_pkt_timestamp c =? 0) then delete (conn_key c) (open_ports v) else open_ports v).
  { unfold tbl. destruct (negb _); [apply contents_del_key|done]. }
  apply wp_bind. eapply wp_get_svc; [by eapply with_svc_lookup|]. change (vs_open_ports v2) with tbl.
  destruct (rte_hash_add_key_data tbl key p) as [r tbl'] eqn:Hadd. cbn [fst snd].
  apply wp_bind. eapply wp_upd_svc; [by eapply with_svc_lookup|]. fold (with_svc (with_svc st i v2) i (v2 <| vs_open_ports := tbl' |>)).
  rewrite with_svc_twice. set (v3 := v2 <| vs_open_ports := tbl' |>).
  assert (Hsub : ∀ k q, contents tbl !! k = Some q → open_ports v !! k = Some q ∧ q ≠ p).
  { intros k q. rewrite Htbl. by apply open_after_del. }
  apply hash_add in Hadd as [[-> Hadd]|[Hr Hadd]]; last first.
  - replace (DP_FAILED r) with true by (by destruct Hr as [-> | ->]). apply wp_ret. apply Hfail; [by destruct Hr as [-> | ->]|].
    assert (Hs3 : open_ports v3 ⊆ open_ports v).
    { apply map_subseteq_spec. intros k q. change (open_ports v3) with (contents tbl'). rewrite Hadd. apply Hsub. }
    constructor; [by apply (svc_inv_sub v)|done..].
  - change (DP_FAILED 0) with false. cbn match. apply wp_bind. eapply wp_upd_svc; [by eapply with_svc_lookup|].
    apply wp_ret. set (v4 := set_conn p _ v3).
    fold (with_svc (with_svc st i v3) i v4). rewrite with_svc_twice. apply Hok.
    assert (Ho : open_ports v4 = <[key := p]> (contents tbl)) by exact Hadd.
    constructor; try done.
    + rewrite Ho. apply lookup_insert_eq.
    + unfold v4. rewrite conn_at_set_eq. by destruct key.
    + intros k q Hne. rewrite Ho, lookup_insert_ne by done. apply Hsub.
    + intros k q Hne Hq Hc. rewrite Ho, lookup_insert_ne, Htbl by done. destruct (negb _); [|done].
      by rewrite lookup_delete_ne.
    + intros q Hq. unfold v4. by rewrite conn_at_set_ne.
Qed.

(** *** The route of a request *)

(** Connection [idx] is the one of [key]; the other connections that are left are
    as they were. *)
Record routed (key : dp_virtsvc_conn_key) (idx : Z) v v' : Prop := {
  ro_inv : svc_inv v';
  ro_idx : is_conn_idx idx;
  ro_ends : svc_endpoints v' = svc_endpoints v;
  ro_key : open_ports v' !! key = Some idx;
  ro_sub k p : k ≠ key → open_ports v' !! k = Some p →
    open_ports v !! k = Some p ∧ p ≠ idx ∧ conn_at v' p = conn_at v p
}.

Lemma routed_touch_found v key idx tsc flags :
  svc_inv v → open_ports v !! key = Some idx → tsc ≠ 0 → routed key idx v (touch_conn tsc flags idx v).
Proof.
  intros Hi Hk Ht. destruct (sv_open _ Hi _ _ Hk) as (Hidx & Hc & _).
  assert (Hdist : ∀ k p, k ≠ key → open_ports v !! k = Some p → p ≠ idx).
  { intros k p Hne Hp ->. destruct (sv_open _ Hi _ _ Hp) as (_ & Hc' & _). congruence. }
  assert (Hoth : ∀ p, p ≠ idx → conn_at (touch_conn tsc flags idx v) p = conn_at v p) by (intros; by apply conn_at_set_ne).
  split; try done.
  - split; [by destruct Hi|]. intros k p Hp. change (open_ports v !! k = Some p) in Hp.
    destruct (sv_open _ Hi _ _ Hp) as (Hp' & Hck & Hts). split; [done|]. destruct (decide (p = idx)) as [->|Hne].
    + unfold touch_conn. by rewrite conn_at_set_eq.
    + by rewrite Hoth.
  - intros k p Hne Hp. pose proof (Hdist k p Hne Hp). split; [done|]. split; [done|]. by apply Hoth.
Qed.

Lemma routed_touch_made st tsc0 v v' key idx tsc flags :
  svc_inv v → conn_made st tsc0 key idx v v' → tsc ≠ 0 → routed key idx v (touch_conn tsc flags idx v').
Proof.
  intros Hi [Hidx _ He Hl Hk Hc Hsub _ Hoth] Ht.
  assert (Hoth' : ∀ p, p ≠ idx → conn_at (touch_conn tsc flags idx v') p = conn_at v p).
  { intros p Hne. rewrite <- Hoth by done. by apply conn_at_set_ne. }
  split; try done.
  - split; [simpl; by rewrite Hl|]. intros k p Hp. change (open_ports v' !! k = Some p) in Hp.
    destruct (decide (k = key)) as [->|Hne].
    + rewrite Hk in Hp. injection Hp as <-. unfold touch_conn. by rewrite conn_at_set_eq.
    + destruct (Hsub k p Hne Hp) as [Hp0 Hpi]. rewrite Hoth' by done. by apply (sv_open _ Hi).
  - intros k p Hne Hp. destruct (Hsub k p Hne Hp) as [Hp0 Hpi]. split; [done|]. split; [done|]. by apply Hoth'.
Qed.

(** The choice of the physical port never fails. *)
Definition pfs_ready (perc : Z) (ports : ports_state) : Prop :=
  ∀ hash, ∃ p port, dp_multipath_get_pf perc hash ports = Some (Some p, ports) ∧ ps_ports ports !! p = Some port
    ∧ pt_is_pf port = true ∧ ps_port_table ports !! pt_port_id port = Some p ∧ pt_port_id port < DP_MAX_PORTS.

Lemma wp_get_pf_route st (ports : ports_state) i v perc tsc0 vf_port_id vf_ip vf_l4_port
    (Q : Z * Z * Z → virtsvc_state * ports_state → Prop) :
  vt_services st !! i = Some v → svc_inv v → pfs_ready perc ports →
  (∀ ret v', DP_FAILED ret = true → conn_refused v v' → Q (ret, 0, 0) (with_svc st i v', ports)) →
  (∀ idx v' p port, ps_ports ports !! p = Some port → pt_is_pf port = true →
     ps_port_table ports !! pt_port_id port = Some p → pt_port_id port < DP_MAX_PORTS → vt_services (with_svc st i v') !! i = Some v' →
     (∀ tsc flags, tsc ≠ 0 → routed (MkVsKey vf_port_id vf_l4_port vf_ip) idx v (touch_conn tsc flags idx v')) →
     Q (DP_OK, pt_port_id port, idx) (with_svc st i v', ports)) →
  wp (dp_virtsvc_get_pf_route perc tsc0 i vf_port_id vf_ip vf_l4_port) Q (st, ports).
Proof.
  intros Hv Hi Hpf Hfail Hok. unfold dp_virtsvc_get_pf_route. set (key := MkVsKey vf_port_id vf_l4_port vf_ip).
  apply wp_bind, wp_zoom. eapply wp_get_svc; [done|]. cbn [lget lput fstL fst snd]. fold (open_ports v).
  destruct (Hpf (rte_hash_hash (vs_open_ports v) key)) as (p & port & Hmp & Hp & Hispf & Htab & Hlt).
  assert (Hend : ∀ idx v', 0 ≤ idx → vt_services (with_svc st i v') !! i = Some v' →
    (∀ tsc flags, tsc ≠ 0 → routed key idx v (touch_conn tsc flags idx v')) →
    wp (if DP_FAILED idx then mret (idx, 0, 0)
        else pf ← zoom sndL (dp_multipath_get_pf perc (rte_hash_hash (vs_open_ports v) key));
             match pf with None => fault | Some pf => port ← zoom sndL (get_port pf); mret (DP_OK, pt_port_id port, idx) end)
      Q (with_svc st i v', ports)).
  { intros idx v' Hidx Hs Hr. replace (DP_FAILED idx) with false
      by (unfold DP_FAILED; destruct (Z.ltb_spec idx 0); [lia|done]). cbn match.
    apply wp_bind, wp_zoom. eapply wp_intro; [exact Hmp|]. cbn [lget lput sndL fst snd].
    apply wp_bind, wp_zoom. eapply wp_get_port; [done|]. apply wp_ret. by eapply Hok. }
  apply wp_bind, wp_zoom. apply wp_bind. eapply wp_get_svc; [done|]. cbn [lget lput fstL fst snd].
  destruct (hash_lookup_cases (vs_open_ports v) key) as [(pos & idx & Hk & Hpos & ->)|[Hk ->]].
  - replace (DP_FAILED pos) with false by (unfold DP_FAILED; destruct (Z.ltb_spec pos 0); [lia|done]). cbn match.
    destruct (sv_open _ Hi _ _ Hk) as (Hidx & Hc & Hts). unfold is_conn_idx in Hidx.
    replace ((0 <=? idx) && (idx <? DP_VIRTSVC_PORTCOUNT)) with true
      by (symmetry; apply andb_true_iff; split; [apply Z.leb_le|apply Z.ltb_lt]; lia).
    apply wp_ret. apply wp_bind. replace (idx =? - ENOENT) with false by (symmetry; apply Z.eqb_neq; unfold ENOENT; lia).
    apply wp_ret. rewrite <- (with_svc_same st i v) at 1 by done. apply Hend; [lia|by rewrite with_svc_same|].
    intros. by apply routed_touch_found.
  - change (DP_FAILED (- ENOENT)) with true. cbn match. apply wp_ret. apply wp_bind.
    rewrite Z.eqb_refl. apply wp_zoom. eapply wp_create_connection; [done|done|done|..]; cbn [lget lput fstL fst snd].
    + intros ret v' Hret Hr. rewrite Hret. apply wp_ret. by apply Hfail.
    + intros idx v' Hm. apply Hend; [destruct (cm_idx _ _ _ _ _ _ Hm); lia|by eapply with_svc_lookup|].
      intros. by eapply routed_touch_made.
Qed.

(** *** Closing the connections of an interface *)

(** [v'] is [v] after the connections [closed] of the interface were looked at. *)
Record closing (port_id : Z) v v' (closed : list Z) : Prop := {
  cl_inv : svc_inv v';
  cl_ends : svc_endpoints v' = svc_endpoints v;
  cl_sub : open_ports v' ⊆ open_ports v;
  cl_keep k p : open_ports v !! k = Some p → vk_vf_port_id k ≠ port_id → open_ports v' !! k = Some p;
  cl_gone k p : open_ports v' !! k = Some p → vk_vf_port_id k = port_id → p ∉ closed
}.

Lemma close_port_step port_id v v' closed p :
  closing port_id v v' closed → closing port_id v (close_port port_id v' p) (closed ++ [p]).
Proof.
  intros [Hi He Hs Hk Hg]. unfold close_port. set (conn := conn_at v' p).
  destruct ((vc_vf_port_id conn =? port_id) && negb (vc_last_pkt_timestamp conn =? 0)) eqn:Hc.
  - apply andb_true_iff in Hc as [Hport%Z.eqb_eq Hts%negb_true_iff%Z.eqb_neq].
    set (v2 := _ <| vs_open_ports := _ |>).
    assert (Ho : open_ports v2 = delete (conn_key conn) (open_ports v')) by apply contents_del_key.
    assert (Hne : ∀ k q, open_ports v2 !! k = Some q → open_ports v' !! k = Some q ∧ q ≠ p).
    { intros k q. rewrite Ho, lookup_delete_Some. intros [Hne Hq]. split; [done|]. intros ->.
      destruct (sv_open _ Hi _ _ Hq) as (_ & Hck & _). by apply Hne. }
    split.
    + split; [by destruct Hi|]. intros k q [Hq Hqp]%Hne. destruct (sv_open _ Hi _ _ Hq) as (H1 & H2 & H3).
      assert (Hcq : conn_at v2 q = conn_at v' q) by (by apply conn_at_set_ne). by rewrite Hcq.
    + done.
    + rewrite Ho. etrans; [apply delete_subseteq|done].
    + intros k q Hq Hkp. rewrite Ho, lookup_delete_ne; [by apply Hk|]. intros <-. by apply Hkp.
    + intros k q Hq Hkp. apply Hne in Hq as [Hq Hqp]. pose proof (Hg k q Hq Hkp). set_solver.
  - split; try done. intros k q Hq Hkp. rewrite not_elem_of_app, list_elem_of_singleton. split; [by eapply Hg|]. intros ->.
    destruct (sv_open _ Hi _ _ Hq) as (_ & Hck & Hts). fold conn in Hck, Hts.
    apply andb_false_iff in Hc as [Hc%Z.eqb_neq|Hc%negb_false_iff%Z.eqb_eq]; [|done]. apply Hc. by rewrite <- Hkp, <- Hck.
Qed.

Lemma close_ports port_id v v' closed l :
  closing port_id v v' closed → closing port_id v (foldl (close_port port_id) v' l) (closed ++ l).
Proof.
  revert v' closed. induction l as [|p l IH]; intros v' closed Hc; [by rewrite app_nil_r|]. simpl.
  replace (closed ++ p :: l) with ((closed ++ [p]) ++ l) by (by rewrite <- app_assoc). by apply IH, close_port_step.
Qed.

(** Deleting an interface closes exactly its connections: in every service
    the table keeps the connections of the other interfaces and only those, each
    with its element of the array, and what the service stands for stays. *)
Theorem virtsvc_del_iface_spec st port_id :
  Forall svc_inv (vt_services st) →
  wp (dp_virtsvc_del_iface port_id)
    (λ _ st', Forall2 (λ v v', svc_inv v' ∧ svc_endpoints v' = svc_endpoints v
                ∧ open_ports v' = filter (λ kp, vk_vf_port_id kp.1 ≠ port_id) (open_ports v))
                (vt_services st) (vt_services st')) st.
Proof.
  intros Hall. unfold dp_virtsvc_del_iface. apply wp_modify. cbn [vt_services set_field]. apply Forall2_fmap_r.
  apply Forall_Forall2_diag. eapply Forall_impl; [exact Hall|]. intros v Hi. cbn beta.
  destruct (close_ports port_id v v [] (seqZ 0 DP_VIRTSVC_PORTCOUNT)) as [Hi' He Hs Hk Hg].
  { split; try done. intros. apply not_elem_of_nil. }
  split; [done|]. split; [done|]. apply map_eq. intros k. apply option_eq. intros p.
  rewrite map_lookup_filter_Some. cbn [fst]. split.
  - intros Hp. split; [by eapply lookup_weaken|]. intros Hkp. apply (Hg k p Hp Hkp). cbn [app]. apply elem_of_seqZ.
    destruct (sv_open _ Hi' _ _ Hp) as [Hidx _]. unfold is_conn_idx in Hidx. lia.
  - intros [Hp Hkp]. by apply Hk.
Qed.
End conn_facts.

(** ** Facts: the node *)

(** [node_run] runs a node over accesses of its packet. *)
Ltac node_simpl := cbn [lget lput sndL fstL vsL vportsL pf_routeL fst snd]; wp_simpl.
Ltac node_step :=
  lazymatch goal with
  | |- wp (zoom _ _) _ _ => apply wp_zoom
  | |- wp (modify _) _ ?s => lazymatch type of s with rte_mbuf => pkt_step end
  | |- _ => pkt_step
  end.
Ltac node_run := node_simpl; repeat (node_step; node_simpl).

Section node_facts.
Context `{HH : RteHash} {HO : RteHashOk} `{HM : RteMalloc} `{HN : RteNet} {HNO : RteNetOk}.
Implicit Types (st : virtsvc_state) (v : dp_virtsvc) (i : nat) (ports : ports_state).
Context (service_ul_ip wcmp_perc : Z) (next_tx_index : gset Z) (tsc0 tsc : Z).

Definition l4_proto_ok (proto : Z) : Prop := proto = IPPROTO_TCP ∨ proto = IPPROTO_UDP.

(** The packet that goes to the service for the packet of a guest: between the
    endpoint of the host with the port of the connection and the service. *)
Record request_pkt v (idx : Z) (m m' : rte_mbuf) : Prop := {
  rq_src : mget m' 16 (dp_get_ipv6_hdr + ip6_src) = service_ul_ip;
  rq_dst : mget m' 16 (dp_get_ipv6_hdr + ip6_dst) = vs_service_addr v;
  rq_proto : mget m' 1 (dp_get_ipv6_hdr + ip6_proto) = mget m 1 (dp_get_ipv4_hdr + ip4_proto);
  rq_hops : mget m' 1 (dp_get_ipv6_hdr + ip6_hop_limits) = mget m 1 (dp_get_ipv4_hdr + ip4_ttl);
  rq_len : mget m' 2 (dp_get_ipv6_hdr + ip6_payload_len)
           = htons (u16 (ntohs (mget m 2 (dp_get_ipv4_hdr + ip4_total_length)) - sizeof_ipv4_hdr));
  rq_sport : mget m' 2 (dp_get_ipv6_hdr + sizeof_ipv6_hdr + l4_src_port) = virtsvc_get_port_for_conn idx;
  rq_dport : mget m' 2 (dp_get_ipv6_hdr + sizeof_ipv6_hdr + l4_dst_port) = vs_service_port v;
  rq_u8 : Forall is_u8 (mb_buf m')
}.

Lemma l4_offload_frame proto hdr (m : rte_mbuf) (Q : () → rte_mbuf → Prop) :
  l4_proto_ok proto → in_pkt m hdr 20 = true →
  (∀ m', l4_offloaded proto hdr m m' → length (mb_buf m') = length (mb_buf m) →
     (Forall is_u8 (mb_buf m) → Forall is_u8 (mb_buf m')) → mb_port m' = mb_port m → Q tt m') →
  wp (offload_l4_cksum proto hdr) Q m.
Proof.
  intros Hp Hin HQ. unfold offload_l4_cksum.
  assert (Hk : ∀ (c : cmd rte_mbuf ()), wp c (λ _ m', l4_offloaded proto hdr m m') m →
    wp c (λ _ m', length (mb_buf m') = length (mb_buf m) ∧ (Forall is_u8 (mb_buf m) → Forall is_u8 (mb_buf m'))
                  ∧ mb_port m' = mb_port m) m → wp c Q m).
  { intros c H1 H2. unfold wp in *. destruct (c m) as [[[] m']|]; [|done]. destruct H2 as (? & ? & ?). by apply HQ. }
  destruct Hp as [-> | ->]; cbn [Z.eqb Pos.eqb IPPROTO_TCP IPPROTO_UDP]; apply Hk.
  - by apply wp_offload_tcp.
  - unfold offload_tcp_cksum, set_l4_len. net_unfold. pkt_run. split_and!; [congruence|by intros ?; pkt_u8|congruence].
  - apply wp_offload_udp. eapply in_pkt_sub; [exact Hin|lia|simpl; lia].
  - unfold offload_udp_cksum, set_l4_len. net_unfold. pkt_run. split_and!; [congruence|by intros ?; pkt_u8|congruence].
Qed.

Lemma wp_tcp_flags proto hdr m (Q : option Z → rte_mbuf → Prop) :
  in_pkt m (hdr + tcp_flags) 1 = true → (∀ flags, Q flags m) → wp (tcp_flags_of proto hdr) Q m.
Proof.
  intros Hin HQ. unfold tcp_flags_of. destruct (proto =? IPPROTO_TCP); [|by apply wp_ret].
  apply wp_bind, wp_ld; [done|]. by apply wp_ret.
Qed.

(** The end of both directions: the packet leaves through a known port. *)
Lemma wp_send st ports (m : rte_mbuf) p port ether_type (Q : dp_edge → vpkt_state → Prop) :
  ps_ports ports !! p = Some port → ps_port_table ports !! pt_port_id port = Some p →
  0 ≤ pt_port_id port < DP_MAX_PORTS → in_pkt m 0 14 = true →
  (∀ m', (∀ k off, 14 ≤ off → mget m' k off = mget m k off) → (Forall is_u8 (mb_buf m) → Forall is_u8 (mb_buf m')) →
     Q (if decide (pt_port_id port ∈ next_tx_index) then EDGE_TX (pt_port_id port) else EDGE_DROP) ((st, ports), m')) →
  wp (pf_port ← zoom vportsL (dp_get_port_by_id (pt_port_id port));
      match pf_port with
      | None => mret EDGE_DROP
      | Some p => port' ← zoom vportsL (get_port p);
                  zoom sndL (dp_fill_ether_hdr 0 port' ether_type);; tx_edge next_tx_index (pt_port_id port)
      end) Q ((st, ports), m).
Proof.
  intros Hp Htab Hid Hin HQ. unfold dp_get_port_by_id. destruct (Z.leb_spec DP_MAX_PORTS (pt_port_id port)); [lia|].
  node_run. rewrite Htab. node_run. eapply wp_get_port; [done|]. unfold dp_fill_ether_hdr. net_unfold. node_run.
  unfold tx_edge. replace ((0 <=? pt_port_id port) && (pt_port_id port <? DP_MAX_PORTS)) with true
    by (symmetry; apply andb_true_iff; split; [apply Z.leb_le|apply Z.ltb_lt]; lia).
  apply wp_ret. unfold in_pkt in Hin. rewrite in_buf_spec in Hin. apply HQ; [|by intros; pkt_u8].
  intros k off Hoff. by pkt_read.
Qed.

(** The packet of a guest, with room for the longer header. *)
Record guest_pkt (m : rte_mbuf) : Prop := {
  gp_in : in_pkt m (-20) 74 = true;
  gp_len : 34 ≤ mb_data_len m;
  gp_u8 : Forall is_u8 (mb_buf m);
  gp_proto : l4_proto_ok (mget m 1 (dp_get_ipv4_hdr + ip4_proto));
  gp_total : sizeof_ipv4_hdr ≤ ntohs (mget m 2 (dp_get_ipv4_hdr + ip4_total_length))
}.

Definition request_key (m : rte_mbuf) : dp_virtsvc_conn_key :=
  MkVsKey (mb_port m) (mget m 2 (dp_get_ipv4_hdr + sizeof_ipv4_hdr + l4_src_port)) (mget m 4 (dp_get_ipv4_hdr + ip4_src)).

(** The outcome of a request: the packet goes to a physical port and the
    connection is known, or no connection could be made and it is dropped. *)
Definition request_post st ports i v (m : rte_mbuf) (e : dp_edge) (s' : vpkt_state) : Prop :=
  (e = EDGE_DROP ∧ ∃ v', conn_refused v v' ∧ s'.1 = (with_svc st i v', ports))
  ∨ (∃ v' idx p port, s'.1 = (with_svc st i v', ports) ∧ routed (request_key m) idx v v' ∧ request_pkt v idx m s'.2
       ∧ ps_ports ports !! p = Some port ∧ pt_is_pf port = true ∧ ps_port_table ports !! pt_port_id port = Some p
       ∧ e = if decide (pt_port_id port ∈ next_tx_index) then EDGE_TX (pt_port_id port) else EDGE_DROP).

Lemma wp_request st ports i v m :
  vt_services st !! i = Some v → svc_ok v → svc_inv v → pfs_ready wcmp_perc ports →
  (∀ p port, ps_port_table ports !! p = Some port → 0 ≤ p) → is_u128 service_ul_ip → tsc ≠ 0 → guest_pkt m →
  wp (virtsvc_request_next service_ul_ip wcmp_perc next_tx_index tsc0 tsc i) (request_post st ports i v m) ((st, ports), m).
Proof.
  intros Hv Hsvc Hi Hpf Hids Hul Htsc [Hin Hlen Hu8 Hproto Htotal]. unfold virtsvc_request_next. net_unfold.
  node_run. destruct (Z.ltb_spec (ntohs (mget m 2 (14 + 2))) 20); [lia|].
  node_run. apply wp_mbuf_adj; [lia|intros; lia|]. intros _ m1 Hb1 Ho1 Hl1 Hf1 Hg1 Hp1.
  pose proof (f_equal length Hb1). node_run.
  assert (Hoff : 20 ≤ mb_data_off m) by (unfold in_pkt in Hin; rewrite in_buf_spec in Hin; lia).
  apply wp_mbuf_prepend; [lia|intros; lia|]. intros _ m2 Hb2 Ho2 Hl2 Hf2 Hg2 Hp2. pose proof (f_equal length Hb2).
  assert (Hs : ∀ k off, mget m2 k off = mget m k (off - 20)).
  { intros k off. rewrite (mget_shift m) by congruence. f_equal. lia. }
  node_run. eapply wp_get_svc; [done|]. unfold request_ipv6_hdr, set_packet_type, upd_df. net_unfold. node_run.
  lazymatch goal with |- wp (dp_virtsvc_get_pf_route _ _ _ (mb_port ?mm) _ (mget ?mm 2 ?o)) _ _ =>
    assert (Hmp : mb_port mm = mb_port m) by congruence;
    assert (Hsp : mget mm 2 o = mget m 2 (14 + 20 + 0)) by (pkt_read; rewrite Hs; done); rewrite Hmp, Hsp end.
  eapply wp_get_pf_route; [done|done|done|..].
  { intros ret v' Hret Hr. rewrite Hret. apply wp_ret. left. split; [done|]. eauto. }
  intros idx v' p port Hp Hispf Htab Hlt Hs' Hro. change (DP_FAILED DP_OK) with false. cbn match.
  apply wp_bind, wp_zoom, wp_tcp_flags; [cbn [lget sndL snd]; net_unfold; pkt_in|]. intros flags. node_run.
  eapply wp_upd_svc; [done|]. fold (with_svc (with_svc st i v') i (touch_conn tsc flags idx v')). rewrite with_svc_twice.
  node_run. apply l4_offload_frame; [done|pkt_in|]. intros m3 Hlo Hlen3 Hu3 Hport3.
  pose proof (lo_off _ _ _ _ Hlo). unfold in_pkt in Hin. rewrite in_buf_spec in Hin.
  eapply wp_send; [done|done|split; [by eapply Hids|done]|pkt_in|]. intros m4 Hk4 Hu4. right.
  eexists _, idx, p, port. split; [done|]. split; [by apply Hro|]. split; [|done].
  destruct Hlo as [_ Hother _ _ _ _].
  assert (Hck : 14 + 40 + 6 ≤ 14 + 40 + l4_cksum (mget m 1 (14 + 9))) by (destruct Hproto as [-> | ->]; done).
  constructor; cbn [snd]; net_unfold; [..|apply Hu4, Hu3; pkt_u8; congruence].
  all: rewrite Hk4, Hother by lia; pkt_read.
  - by apply Z.mod_small.
  - by apply Z.mod_small, so_saddr.
  - apply mget_mod; [done|pkt_in].
  - apply mget_mod; [done|pkt_in].
  - apply Z.mod_small, bswap16_range.
  - apply Z.mod_small, bswap16_range.
  - by apply Z.mod_small, so_sport.
Qed.

(** The packet of a service, and the packet that its guest gets for it: from the
    virtual endpoint to the endpoint of the guest. *)
Record service_pkt (m : rte_mbuf) : Prop := {
  sp_in : in_pkt m 0 74 = true;
  sp_len : 54 ≤ mb_data_len m;
  sp_u8 : Forall is_u8 (mb_buf m);
  sp_proto : l4_proto_ok (mget m 1 (dp_get_ipv6_hdr + ip6_proto))
}.

Record reply_pkt v (key : dp_virtsvc_conn_key) (m m' : rte_mbuf) : Prop := {
  rp_src : mget m' 4 (dp_get_ipv4_hdr + ip4_src) = vs_virtual_addr v;
  rp_dst : mget m' 4 (dp_get_ipv4_hdr + ip4_dst) = vk_vf_ip key;
  rp_proto : mget m' 1 (dp_get_ipv4_hdr + ip4_proto) = mget m 1 (dp_get_ipv6_hdr + ip6_proto);
  rp_ttl : mget m' 1 (dp_get_ipv4_hdr + ip4_ttl) = mget m 1 (dp_get_ipv6_hdr + ip6_hop_limits);
  rp_total : mget m' 2 (dp_get_ipv4_hdr + ip4_total_length)
             = htons (u16 (ntohs (mget m 2 (dp_get_ipv6_hdr + ip6_payload_len)) + sizeof_ipv4_hdr));
  rp_sport : mget m' 2 (dp_get_ipv4_hdr + sizeof_ipv4_hdr + l4_src_port) = vs_virtual_port v;
  rp_dport : mget m' 2 (dp_get_ipv4_hdr + sizeof_ipv4_hdr + l4_dst_port) = vk_vf_l4_port key;
  rp_u8 : Forall is_u8 (mb_buf m')
}.

Definition key_ok (key : dp_virtsvc_conn_key) : Prop := is_u16 (vk_vf_l4_port key) ∧ is_u32 (vk_vf_ip key).

Lemma conn_on_port v idx : is_conn_idx idx → virtsvc_get_conn_on_port v (virtsvc_get_port_for_conn idx) = Some idx.
Proof.
  unfold is_conn_idx, virtsvc_get_conn_on_port, virtsvc_get_port_for_conn, DP_VIRTSVC_PORTCOUNT, DP_NB_SYSTEM_PORTS.
  intros Hi. cbv zeta. rewrite bswap16_involutive by apply u16_range.
  replace (u16 (u16 (idx + 1024) - 1024)) with idx; [by destruct (Z.ltb_spec idx (65535 + 1 - 1024)); [|lia]|].
  unfold u16. rewrite (Z.mod_small (idx + 1024)) by lia. rewrite Z.mod_small; lia.
Qed.

Lemma wp_reply st ports i v key idx p port m :
  vt_services st !! i = Some v → svc_ok v → svc_inv v → open_ports v !! key = Some idx → key_ok key →
  ps_ports ports !! p = Some port → ps_port_table ports !! pt_port_id port = Some p →
  0 ≤ pt_port_id port < DP_MAX_PORTS → pt_port_id port = vk_vf_port_id key → service_pkt m →
  mget m 2 (dp_get_ipv6_hdr + sizeof_ipv6_hdr + l4_dst_port) = virtsvc_get_port_for_conn idx →
  wp (virtsvc_reply_next next_tx_index tsc i)
    (λ e s', e = (if decide (pt_port_id port ∈ next_tx_index) then EDGE_TX (pt_port_id port) else EDGE_DROP)
             ∧ reply_pkt v key m s'.2) ((st, ports), m).
Proof.
  intros Hv Hsvc Hi Hk [Hkp Hkip] Hp Htab Hid Hvf [Hin Hlen Hu8 Hproto] Hdst. unfold virtsvc_reply_next. net_unfold.
  destruct (sv_open _ Hi _ _ Hk) as (Hidx & Hck & Hts). subst key.
  node_run. apply wp_mbuf_adj; [lia|intros; lia|]. intros _ m1 Hb1 Ho1 Hl1 Hf1 Hg1 Hp1.
  pose proof (f_equal length Hb1). node_run.
  assert (Hoff : 0 ≤ mb_data_off m) by (unfold in_pkt in Hin; rewrite in_buf_spec in Hin; lia).
  apply wp_mbuf_prepend; [lia|intros; lia|]. intros _ m2 Hb2 Ho2 Hl2 Hf2 Hg2 Hp2. pose proof (f_equal length Hb2).
  assert (Hs : ∀ k off, mget m2 k off = mget m k (off + 20)).
  { intros k off. rewrite (mget_shift m) by congruence. f_equal. lia. }
  node_run. eapply wp_get_svc; [done|]. node_run.
  apply wp_modify. unfold reply_ipv4_hdr, set_packet_type, upd_df. net_unfold. node_run.
  lazymatch goal with |- context [virtsvc_get_conn_on_port v (mget ?mm 2 ?o)] =>
    assert (Hdp : mget mm 2 o = virtsvc_get_port_for_conn idx) by (pkt_read; rewrite Hs; done); rewrite Hdp end.
  rewrite conn_on_port by done. cbv zeta. rewrite (proj2 (Z.eqb_neq _ _)) by done.
  apply wp_bind, wp_zoom, wp_tcp_flags; [cbn [lget sndL snd]; net_unfold; pkt_in|]. intros flags. node_run.
  eapply wp_upd_svc; [done|]. node_run. apply l4_offload_frame; [done|pkt_in|]. intros m3 Hlo Hlen3 Hu3 Hport3.
  pose proof (lo_off _ _ _ _ Hlo). unfold in_pkt in Hin. rewrite in_buf_spec in Hin. node_simpl. do 3 (node_step; node_simpl).
  change (vc_vf_port_id (conn_at v idx)) with (vk_vf_port_id (conn_key (conn_at v idx))). rewrite <- Hvf.
  eapply wp_send; [done|done|done|pkt_in|]. intros m4 Hk4 Hu4. split; [done|]. destruct Hlo as [_ Hother _ _ _ _].
  assert (Hck : 14 + 20 + 6 ≤ 14 + 20 + l4_cksum (mget m 1 (14 + 6))) by (destruct Hproto as [-> | ->]; done).
  constructor; cbn [snd]; net_unfold; [..|apply Hu4; pkt_u8; apply Hu3; pkt_u8; congruence].
  all: rewrite Hk4 by lia; pkt_read; rewrite ?Hother by lia; pkt_read.
  all: first [apply mget_mod; [done|pkt_in] | apply Z.mod_small; first [done | apply bswap16_range | apply Hsvc]].
Qed.

(** *** Requests and their replies *)

(** The guest and the physical ports are known, and the node can transmit to them. *)
Record node_ports ports (vf_port_id : Z) : Prop := {
  np_pfs : pfs_ready wcmp_perc ports;
  np_vf : ∃ p port, ps_port_table ports !! vf_port_id = Some p ∧ ps_ports ports !! p = Some port
            ∧ pt_port_id port = vf_port_id ∧ pt_is_pf port = false;
  np_ids p port : ps_port_table ports !! p = Some port → 0 ≤ p < DP_MAX_PORTS;
  np_tx p port : ps_port_table ports !! p = Some port → p ∈ next_tx_index
}.

(** A packet that answers [m]: received on a physical port for service [i], to the
    port that [m] is sent from. *)
Record answers ports i (m m' : rte_mbuf) : Prop := {
  an_pkt : service_pkt m';
  an_svc : df_virtsvc (mb_flow m') = Some i;
  an_port : ∃ p port, ps_port_table ports !! mb_port m' = Some p ∧ ps_ports ports !! p = Some port ∧ pt_is_pf port = true;
  an_l4port : mget m' 2 (dp_get_ipv6_hdr + sizeof_ipv6_hdr + l4_dst_port)
              = mget m 2 (dp_get_ipv6_hdr + sizeof_ipv6_hdr + l4_src_port)
}.

Lemma request_key_ok m : guest_pkt m → key_ok (request_key m).
Proof.
  intros [Hin Hlen Hu8 _ _]. unfold key_ok, request_key. cbn [vk_vf_l4_port vk_vf_ip]. net_unfold.
  split; (apply mget_range; [done|pkt_in]).
Qed.

Lemma in_port_known ports (m_port : Z) p (Q : option nat → ports_state → Prop) :
  ps_port_table ports !! m_port = Some p → 0 ≤ m_port < DP_MAX_PORTS → Q (Some p) ports → wp (dp_get_in_port m_port) Q ports.
Proof.
  intros Hp [Hlo Hhi] HQ. unfold wp, dp_get_in_port.
  rewrite (proj2 (Z.leb_le _ _) Hlo), (proj2 (Z.ltb_lt _ _) Hhi). simpl. by rewrite Hp.
Qed.

Lemma wp_virtsvc_next ports p m port i st (Q : dp_edge → vpkt_state → Prop) :
  ps_port_table ports !! mb_port m = Some p → ps_ports ports !! p = Some port → 0 ≤ mb_port m < DP_MAX_PORTS →
  df_virtsvc (mb_flow m) = Some i →
  wp (if pt_is_pf port then virtsvc_reply_next next_tx_index tsc i
      else virtsvc_request_next service_ul_ip wcmp_perc next_tx_index tsc0 tsc i) Q ((st, ports), m) →
  wp (virtsvc_next service_ul_ip wcmp_perc next_tx_index tsc0 tsc) Q ((st, ports), m).
Proof.
  intros Hp Hport Hid Hdf HQ. unfold virtsvc_next, get_df. node_run. eapply in_port_known; [done|done|]. node_simpl.
  rewrite Hdf. node_run. by eapply wp_get_port.
Qed.


(** The connection of a port is an element of the array exactly when the port
    is not a system port, and then it is the connection that has this port; for
    a system port, which a service can send to, the address computed is past the
    end of the array. *)
Theorem conn_port_bounds v l4_port :
  is_u16 l4_port →
  (virtsvc_get_conn_on_port v l4_port = None ↔ ntohs l4_port < DP_NB_SYSTEM_PORTS)
  ∧ ∀ idx, virtsvc_get_conn_on_port v l4_port = Some idx ↔ is_conn_idx idx ∧ virtsvc_get_port_for_conn idx = l4_port.
Proof.
  intros Hu. pose proof (bswap16_range l4_port) as Hr. unfold is_u16 in Hr. change (2 ^ 16) with 65536 in Hr. split.
  - unfold virtsvc_get_conn_on_port, DP_VIRTSVC_PORTCOUNT, DP_NB_SYSTEM_PORTS, u16. cbv zeta. change (2 ^ 16) with 65536.
    destruct (Z.ltb_spec ((bswap16 l4_port - 1024) mod 65536) (65535 + 1 - 1024)) as [H|H].
    + split; [done|]. intros Hlow. exfalso. Z.div_mod_to_equations. lia.
    + split; [|done]. intros _. Z.div_mod_to_equations. lia.
  - intros idx. split; [|intros [Hi <-]; by apply conn_on_port].
    unfold virtsvc_get_conn_on_port, virtsvc_get_port_for_conn, is_conn_idx, DP_VIRTSVC_PORTCOUNT, DP_NB_SYSTEM_PORTS, u16.
    cbv zeta. change (2 ^ 16) with 65536. intros H. destruct (Z.ltb_spec ((bswap16 l4_port - 1024) mod 65536) (65535 + 1 - 1024)) as [Hlt|Hge];
      [|done]. injection H as <-. split; [Z.div_mod_to_equations; lia|].
    replace (((bswap16 l4_port - 1024) mod 65536 + 1024) mod 65536) with (bswap16 l4_port) by (Z.div_mod_to_equations; lia).
    by apply bswap16_involutive.
Qed.
End node_facts.

(** ** Examples *)

(** Insertion sort. *)
Fixpoint insert_sorted {T : Type} (cmp : T → T → Z) (x : T) (l : list T) : list T :=
  match l with
  | [] => [x]
  | y :: l' => if cmp x y <=? 0 then x :: l else y :: insert_sorted cmp x l'
  end.

Definition test_libc : Libc := {|
  libc_state := unit;
  libc_malloc s := (true, s);
  qsort _ cmp l := foldr (insert_sorted cmp) [] l
|}.

Lemma insert_sorted_perm {T : Type} (cmp : T → T → Z) x l : insert_sorted cmp x l ≡ₚ x :: l.
Proof.
  induction l as [|y l IH]; [done|]. simpl. destruct (cmp x y <=? 0); [done|]. rewrite IH. apply perm_swap.
Qed.

Lemma consistent_tail {T : Type} (cmp : T → T → Z) l l' : l' ⊆ l → consistent cmp l → consistent cmp l'.
Proof. intros Hsub [Ha Ht]. split; intros *; [intros ??; apply Ha|intros ???; apply Ht]; by apply Hsub. Qed.

Lemma insert_sorted_sorted {T : Type} (cmp : T → T → Z) x l :
  consistent cmp (x :: l) → StronglySorted (λ a b, cmp a b ≤ 0) l → StronglySorted (λ a b, cmp a b ≤ 0) (insert_sorted cmp x l).
Proof.
  intros Hc. induction 1 as [|y l Hl IH Hy]; [by repeat constructor|]. simpl. pose proof Hc as [Hanti Htrans].
  destruct (Z.leb_spec (cmp x y) 0) as [Hxy|Hxy].
  - constructor; [by constructor|]. constructor; [done|]. rewrite Forall_forall in *. intros z Hz.
    apply (Htrans x y z); [set_solver..|done|by apply Hy].
  - constructor.
    + apply IH. eapply consistent_tail; [|exact Hc]. set_solver.
    + apply Forall_forall. intros z Hz. rewrite insert_sorted_perm in Hz. apply elem_of_cons in Hz as [->|Hz].
      * apply Hanti; [set_solver..|lia].
      * rewrite Forall_forall in Hy. by apply Hy.
Qed.

Lemma insertion_sort_perm {T : Type} (cmp : T → T → Z) l : foldr (insert_sorted cmp) [] l ≡ₚ l.
Proof. induction l as [|x l IH]; [done|]. simpl. by rewrite insert_sorted_perm, IH. Qed.

Definition test_libc_ok : @LibcOk test_libc.
Proof.
  split. intros T cmp l Hc. split; [apply insertion_sort_perm|]. cbn [qsort test_libc].
  induction l as [|x l IH]; [constructor|]. simpl.
  apply insert_sorted_sorted; [|apply IH; by eapply consistent_tail; [|done]; set_solver].
  eapply consistent_tail; [|done]. intros z. by rewrite insertion_sort_perm.
Defined.

Section virtsvc_examples.
#[local] Existing Instances test_hash test_hash_ok test_malloc test_net test_net_ok test_libc test_libc_ok.

(** The virtual address 10.0.0.[octet] with port 53 for the service 64:ff9b::[octet]
    on port 5353. *)
Definition ex_virtsvc (octet : Z) : dp_virtsvc :=
  MkVirtsvc (octet * 2 ^ 24 + 10) (octet * 2 ^ 120 + 2603967488) (htons 53) (htons 5353) IPPROTO_UDP 0 (∅ : gmap dp_virtsvc_conn_key Z) ∅.
Definition ex_vs_state (octets : list Z) : virtsvc_state :=
  MkVsState (ex_virtsvc <$> octets) (Some false) no_entry no_entry 30 300 0.

(** A guest's packet to 10.0.0.[octet], port 53. *)
Definition ex_dns_query (octet : Z) : rte_mbuf :=
  (ex_frame 20 62 (dp_init_flow_ptr <| df_virtsvc := Some 0%nat |>)
    (replicate 14 0 ++ [69; 0; 0; 48; 0; 0; 0; 0; 64; 17; 0; 0; 192; 168; 0; 7; 10; 0; 0; octet] ++ [200; 1; 0; 53]))
    <| mb_port := 2 |>.
Definition ex_vs_ports : ports_state :=
  MkPorts [ex_mp_pf 0 RTE_ETH_LINK_UP; ex_mp_pf 1 RTE_ETH_LINK_UP; zero_port <| pt_port_id := 2 |>]
    {[0 := 0%nat; 1 := 1%nat; 2 := 2%nat]} [0%nat; 1%nat] (Heap (H := test_malloc) ∅ []).

(** The trees of [octets], then the service that a query to [octet] finds. *)
Definition ex_query (octets : list Z) (octet : Z) : option (Z * option nat) :=
  match dp_virtsvc_create_trees (ex_vs_state octets, tt) with
  | Some (ret, (st, _)) => (λ r, (ret, r.1)) <$> get_outgoing_virtsvc ((st, ex_vs_ports), ex_dns_query octet)
  | None => None
  end.

Lemma virtsvc_lookup_spec_witness :
  ex_query [53; 54] 54 = Some (DP_OK, Some 1%nat)
  ∧ wp dp_virtsvc_create_trees
      (λ ret x, ret = DP_ERROR ∨ wp get_outgoing_virtsvc (λ r _, found (ex_virtsvc <$> [53; 54]) (sent_to (ex_dns_query 54)) r)
                                   ((x.1, ex_vs_ports), ex_dns_query 54))
      (ex_vs_state [53; 54], tt).
Proof.
  split; [vm_compute; reflexivity|].
  eapply wp_mono; [apply (virtsvc_lookup_spec (HL := test_libc) (ex_vs_state [53; 54]) tt)|].
  - split; [done|]. repeat constructor; try (right; reflexivity); by (apply Z.leb_le || apply Z.ltb_lt).
  - intros v w [octet [-> Hv]]%list_elem_of_fmap [octet' [-> Hw]]%list_elem_of_fmap. set_unfold.
    destruct Hv as [->|[->|[]]], Hw as [->|[->|[]]]; by apply Z.ltb_lt.
  - intros ret x [->|[_ H]]; [by left|right]. apply H; [by apply ex_frame_u8|reflexivity].
Defined.

(** Four services on 10.0.0.1, 10.0.0.70, 10.0.0.135 and 10.0.0.200: the
    comparison of the IPv4 addresses, whose difference is converted to [int], goes
    round in a circle, and a packet to the last of them finds no service. *)
Example far_service_missed :
  (dp_virtsvc_ipv4_comparator (ex_virtsvc 1) (ex_virtsvc 100) < 0
   ∧ dp_virtsvc_ipv4_comparator (ex_virtsvc 100) (ex_virtsvc 200) < 0
   ∧ dp_virtsvc_ipv4_comparator (ex_virtsvc 200) (ex_virtsvc 1) < 0)
  ∧ ex_query [1; 70; 135; 200] 70 = Some (DP_OK, Some 1%nat)
  ∧ ex_query [1; 70; 135; 200] 200 = Some (DP_OK, None).
Proof. vm_compute. done. Qed.

Lemma conn_port_bounds_witness :
  is_u16 (htons 80) ∧ virtsvc_get_conn_on_port (ex_virtsvc 1) (htons 80) = None
  ∧ virtsvc_get_conn_on_port (ex_virtsvc 1) (htons 1029) = Some 5.
Proof.
  split; [by split; [apply Z.leb_le|apply Z.ltb_lt]|]. split.
  - apply (conn_port_bounds (ex_virtsvc 1) (htons 80)); [by split; [apply Z.leb_le|apply Z.ltb_lt]|by apply Z.ltb_lt].
  - apply (conn_port_bounds (ex_virtsvc 1) (htons 1029)); [by split; [apply Z.leb_le|apply Z.ltb_lt]|].
    split; [by split; [apply Z.leb_le|apply Z.ltb_lt]|reflexivity].
Defined.


(** Two connections, of the interfaces 2 and 3. *)
Definition ex_svc_conns : dp_virtsvc :=
  (ex_virtsvc 53) <| vs_open_ports := ({[MkVsKey 2 1 7 := 5; MkVsKey 3 1 7 := 6]} : gmap dp_virtsvc_conn_key Z) |>
    <| vs_connections := {[5 := MkVsConn 99 7 1 2 DP_VIRTSVC_CONN_TRANSIENT; 6 := MkVsConn 99 7 1 3 DP_VIRTSVC_CONN_TRANSIENT]} |>.

Lemma virtsvc_del_iface_spec_witness :
  wp (dp_virtsvc_del_iface 2)
    (λ _ st', ∃ v', vt_services st' = [v'] ∧ open_ports v' = {[MkVsKey 3 1 7 := 6]})
    (MkVsState [ex_svc_conns] (Some false) no_entry no_entry 30 300 0).
Proof.
  eapply wp_mono; [apply (virtsvc_del_iface_spec (MkVsState [ex_svc_conns] (Some false) no_entry no_entry 30 300 0) 2)|].
  - apply Forall_singleton. split; [by split; [apply Z.leb_le|apply Z.ltb_lt]|]. intros k p Hp. cbn in Hp. rewrite lookup_insert_Some, lookup_singleton_Some in Hp.
    destruct Hp as [[<- <-]|[_ [<- <-]]]; by split_and!.
  - intros u st' H. cbn beta in H. cbn [vt_services] in H. apply Forall2_cons_inv_l in H as (v' & l & (_ & _ & Ho) & Hl & ->).
    apply Forall2_nil_inv_l in Hl as ->. exists v'. split; [done|]. rewrite Ho. reflexivity.
Defined.
End virtsvc_examples.
