(* ===== verification/Conf.v ===== *)
(** * Configuration (src/dp_argparse.c, dp_conf.c, dp_conf_opts.c)

    The options of the service, from the configuration file and from the command
    line.  Strings are the bytes before the terminating zero.  The options that are
    only compiled in for tests are left out; those of virtual services are in.

    The addresses in strings are read by the C library, whose results are a
    parameter, like what [getopt_long] returns and whether memory can be
    allocated. *)

From Stdlib Require Import String Ascii.
From S2P Require Import Prelude Dpdk Error Types Port Rib Lb Vnf Conn Mbuf Graph Nat Vni Lpm Flow Nat64 Cntrack Virtsvc.

Close Scope string_scope.

Abbreviation cstring := (list Z).
Definition cstr (s : string) : cstring := (λ c, Z.of_N (N_of_ascii c)) <$> list_ascii_of_string s.

Definition DP_EAL_A_MAXLEN : Z := 128.
Definition IF_NAMESIZE : Z := 16.
Definition DP_VIRTSVC_MAX : Z := 256.
Definition UINT8_MAX : Z := 255.
Definition UINT16_MAX : Z := 65535.
Definition DP_IPV6_ADDR_SIZE : Z := 16.

(** ** Functions of the C library *)

(** [inet_aton] and [inet_pton(AF_INET6, ...)], when they return 1, and whether
    [realloc] succeeds. *)
Class LibcConf := {
  inet_aton : cstring → option Z;
  inet_pton6 : cstring → option Z;
  realloc_state : Type;
  libc_realloc : realloc_state → bool * realloc_state
}.
Class LibcConfOk `{LibcConf} : Prop := {
  inet_aton_range s a : inet_aton s = Some a → is_u32 a;
  inet_pton6_range s a : inet_pton6 s = Some a → is_u128 a
}.

(** The longest prefix of bytes that satisfy [f], and the rest. *)
Fixpoint span (f : Z → bool) (s : cstring) : cstring * cstring :=
  match s with
  | c :: s' => if f c then let r := span f s' in (c :: r.1, r.2) else ([], s)
  | [] => ([], [])
  end.

Definition isspace (c : Z) : bool := (c =? 32) || ((9 <=? c) && (c <=? 13)).
Definition isdigit (c : Z) : bool := (48 <=? c) && (c <=? 57).
Definition digits_value (l : cstring) : Z := foldl (λ n c, 10 * n + (c - 48)) 0 l.

(** The sign, the digits and what follows a number at the start of a string. *)
Definition scan_number (s : cstring) : bool * cstring * cstring :=
  let s := (span isspace s).2 in
  let '(neg, s) := match s with
                   | 45 :: s' => (true, s')
                   | 43 :: s' => (false, s')
                   | _ => (false, s)
                   end in
  let d := span isdigit s in
  (neg, d.1, d.2).

(** [strtol(s, &endptr, 10)] and [strtoul(s, &endptr, 10)] with the string at [endptr];
    values out of range are replaced by the nearest limit. *)
Definition strtol (s : cstring) : Z * cstring :=
  let '(neg, digits, rest) := scan_number s in
  if bool_decide (digits = []) then (0, s)
  else
    let v := if neg : bool then - digits_value digits else digits_value digits in
    (Z.max (- 2 ^ 63) (Z.min (2 ^ 63 - 1) v), rest).
Definition strtoul (s : cstring) : Z * cstring :=
  let '(neg, digits, rest) := scan_number s in
  if bool_decide (digits = []) then (0, s)
  else
    let v := digits_value digits in
    if 2 ^ 64 - 1 <? v then (2 ^ 64 - 1, rest)
    else (if neg : bool then (- v) mod 2 ^ 64 else v, rest).

(** [strtok]: the next token and what is left for the next call. *)
Definition strtok (delim : cstring) (s : cstring) : option (cstring * cstring) :=
  let s := (span (λ c, bool_decide (c ∈ delim)) s).2 in
  match s with
  | [] => None
  | _ =>
      let t := span (λ c, negb (bool_decide (c ∈ delim))) s in
      Some (t.1, tail t.2)
  end.

(** ** Values of options (src/dp_argparse.c) *)

(** The new value of the destination. *)
Definition dp_argparse_string (arg dst : cstring) (dst_size : Z) : Z * cstring :=
  if dst_size <=? Z.of_nat (List.length arg) then (DP_ERROR, dst) else (DP_OK, arg).

Definition dp_argparse_int (arg : cstring) (dst min max : Z) : Z * Z :=
  let '(result, endptr) := strtol arg in
  if negb (bool_decide (endptr = [])) then (DP_ERROR, dst)
  else if (result <? min) || (max <? result) then (DP_ERROR, dst)
  else (DP_OK, result).

Fixpoint enum_index (arg : cstring) (choices : list cstring) (i : Z) : option Z :=
  match choices with
  | [] => None
  | c :: choices => if bool_decide (c = arg) then Some i else enum_index arg choices (i + 1)
  end.
Definition dp_argparse_enum (arg : cstring) (dst : Z) (choices : list cstring) : Z * Z :=
  match enum_index arg choices 0 with
  | Some i => (DP_OK, i)
  | None => (DP_ERROR, dst)
  end.

(** ** The settings *)

Inductive conf_opt :=
  | OPT_HELP | OPT_VERSION | OPT_PF0 | OPT_PF1 | OPT_IPV6 | OPT_VF_PATTERN | OPT_DHCP_MTU | OPT_DHCP_DNS | OPT_DHCPV6_DNS
  | OPT_UDP_VIRTSVC | OPT_TCP_VIRTSVC | OPT_WCMP | OPT_NIC_TYPE | OPT_NO_STATS | OPT_NO_CONNTRACK | OPT_ENABLE_IPV6_OVERLAY
  | OPT_NO_OFFLOAD | OPT_COLOR | OPT_LOG_FORMAT | OPT_GRPC_PORT.
Global Instance conf_opt_eq_dec : EqDecision conf_opt.
Proof. solve_decision. Defined.

Record longopt := MkLongopt { lo_name : cstring; lo_has_arg : bool; lo_val : conf_opt }.

Definition dp_conf_longopts : list longopt :=
  [MkLongopt (cstr "help") false OPT_HELP; MkLongopt (cstr "version") false OPT_VERSION;
   MkLongopt (cstr "pf0") true OPT_PF0; MkLongopt (cstr "pf1") true OPT_PF1; MkLongopt (cstr "ipv6") true OPT_IPV6;
   MkLongopt (cstr "vf-pattern") true OPT_VF_PATTERN; MkLongopt (cstr "dhcp-mtu") true OPT_DHCP_MTU;
   MkLongopt (cstr "dhcp-dns") true OPT_DHCP_DNS; MkLongopt (cstr "dhcpv6-dns") true OPT_DHCPV6_DNS;
   MkLongopt (cstr "udp-virtsvc") true OPT_UDP_VIRTSVC; MkLongopt (cstr "tcp-virtsvc") true OPT_TCP_VIRTSVC;
   MkLongopt (cstr "wcmp") true OPT_WCMP; MkLongopt (cstr "nic-type") true OPT_NIC_TYPE;
   MkLongopt (cstr "no-stats") false OPT_NO_STATS; MkLongopt (cstr "no-conntrack") false OPT_NO_CONNTRACK;
   MkLongopt (cstr "enable-ipv6-overlay") false OPT_ENABLE_IPV6_OVERLAY; MkLongopt (cstr "no-offload") false OPT_NO_OFFLOAD;
   MkLongopt (cstr "color") true OPT_COLOR; MkLongopt (cstr "log-format") true OPT_LOG_FORMAT;
   MkLongopt (cstr "grpc-port") true OPT_GRPC_PORT].

Definition nic_type_choices : list cstring := [cstr "mellanox"; cstr "tap"; cstr "bluefield2"].
Definition color_choices : list cstring := [cstr "never"; cstr "always"; cstr "auto"].
Definition log_format_choices : list cstring := [cstr "text"; cstr "json"].

(** The storage variables.  Enumerations are their numbers; [cf_dhcp_dns] and
    [cf_dhcpv6_dns] are the arrays of addresses as bytes, and their [len] is the
    length of the list. *)
Record conf_state `{LibcConf} := MkConf {
  cf_pf0_name : cstring;
  cf_pf1_name : cstring;
  cf_vf_pattern : cstring;
  cf_dhcp_mtu : Z;
  cf_wcmp_perc : Z;
  cf_nic_type : Z;
  cf_stats_enabled : bool;
  cf_conntrack_enabled : bool;
  cf_ipv6_overlay_enabled : bool;
  cf_offload_enabled : bool;
  cf_color : Z;
  cf_log_format : Z;
  cf_grpc_port : Z;
  cf_eal_a_pf0 : cstring;
  cf_eal_a_pf1 : cstring;
  cf_underlay_ip : Z;
  cf_dhcp_dns : cstring;
  cf_dhcpv6_dns : cstring;
  cf_virtual_services : list dp_conf_virtsvc;
  cf_realloc : realloc_state
}.
Arguments MkConf {_} _ _ _ _ _ _ _ _ _ _ _ _ _ _ _ _ _ _ _ _.
Global Instance conf_state_eta `{LibcConf} : Eta conf_state := λ r,
  MkConf (cf_pf0_name r) (cf_pf1_name r) (cf_vf_pattern r) (cf_dhcp_mtu r) (cf_wcmp_perc r) (cf_nic_type r)
    (cf_stats_enabled r) (cf_conntrack_enabled r) (cf_ipv6_overlay_enabled r) (cf_offload_enabled r) (cf_color r)
    (cf_log_format r) (cf_grpc_port r) (cf_eal_a_pf0 r) (cf_eal_a_pf1 r) (cf_underlay_ip r) (cf_dhcp_dns r)
    (cf_dhcpv6_dns r) (cf_virtual_services r) (cf_realloc r).

Section conf.
Context `{HL : LibcConf}.

(** The values before any option is parsed. *)
Definition conf_defaults (st : realloc_state) : conf_state :=
  MkConf [] [] [] 1500 100 0 true true false true 0 0 1337 [] [] 0 [] [] [] st.

Definition dp_conf_is_wcmp_enabled (s : conf_state) : bool := cf_wcmp_perc s <? 100.

Definition conf_realloc : cmd conf_state bool := λ s,
  let r := libc_realloc (cf_realloc s) in Some (r.1, s <| cf_realloc := r.2 |>).

(** ** Addresses and services *)

Definition add_dhcpv6_dns (str : cstring) : cmd conf_state Z :=
  match inet_pton6 str with
  | None => mret DP_ERROR
  | Some addr6 =>
      dns ← gets cf_dhcpv6_dns;
      if UINT8_MAX <? Z.of_nat (List.length dns) + DP_IPV6_ADDR_SIZE then mret DP_ERROR
      else
        ok ← conf_realloc;
        if negb ok then mret DP_ERROR
        else modify (λ s, s <| cf_dhcpv6_dns := dns ++ to_bytes 16 addr6 |>);; mret DP_OK
  end.

Definition add_dhcp_dns (str : cstring) : cmd conf_state Z :=
  match inet_aton str with
  | None => mret DP_ERROR
  | Some addr =>
      dns ← gets cf_dhcp_dns;
      if UINT8_MAX <? Z.of_nat (List.length dns) + 4 then mret DP_ERROR
      else
        ok ← conf_realloc;
        if negb ok then mret DP_ERROR
        else modify (λ s, s <| cf_dhcp_dns := dns ++ to_bytes 4 addr |>);; mret DP_OK
  end.

(** The next token is a port. *)
Definition virtsvc_port (tok : cstring) : option Z :=
  let '(longport, endptr) := strtoul tok in
  if bool_decide (tok = []) || negb (bool_decide (endptr = [])) || (longport =? 0) || (UINT16_MAX <? longport) then None
  else Some (htons (u16 longport)).

(** The four parts of a service, each followed by a comma or the end. *)
Definition parse_virtsvc (str : cstring) : option (Z * Z * Z * Z) :=
  '(tok, rest) ← strtok (cstr ",") (take 255 str);
  from_addr ← inet_aton tok;
  '(tok, rest) ← strtok (cstr ",") rest;
  from_port ← virtsvc_port tok;
  '(tok, rest) ← strtok (cstr ",") rest;
  to_addr ← inet_pton6 tok;
  '(tok, rest) ← strtok (cstr ",") rest;
  to_port ← virtsvc_port tok;
  Some (from_addr, from_port, to_addr, to_port).

(** Whether an entry is in the way of a new one. *)
Definition virtsvc_duplicate (proto from_addr from_port to_addr to_port : Z) (e : dp_conf_virtsvc) : bool :=
  (cv_proto e =? proto)
  && (((cv_virtual_addr e =? from_addr) && (cv_virtual_port e =? from_port))
      || ((cv_service_addr e =? to_addr) && (cv_service_port e =? to_port))).

Definition add_virtsvc (proto : Z) (str : cstring) : cmd conf_state Z :=
  entries ← gets cf_virtual_services;
  if DP_VIRTSVC_MAX <=? Z.of_nat (List.length entries) then mret DP_ERROR
  else
    match parse_virtsvc str with
    | None => mret DP_ERROR
    | Some (from_addr, from_port, to_addr, to_port) =>
        if existsb (virtsvc_duplicate proto from_addr from_port to_addr to_port) entries then mret DP_ERROR
        else
          ok ← conf_realloc;
          if negb ok then mret DP_ERROR
          else
            modify (λ s, s <| cf_virtual_services := entries ++ [MkConfVirtsvc proto from_addr from_port to_addr to_port] |>);;
            mret DP_OK
    end.

Definition dp_argparse_opt_ipv6 (arg : cstring) : cmd conf_state Z :=
  match inet_pton6 arg with
  | None => mret DP_ERROR
  | Some addr => modify (λ s, s <| cf_underlay_ip := addr |>);; mret DP_OK
  end.

(** ** Options (src/dp_conf_opts.c) *)

(** An option whose argument is stored by one of the functions above. *)
Definition store_string (get : conf_state → cstring) (put : cstring → conf_state → conf_state) (size : Z) (arg : cstring) :
    cmd conf_state Z := λ s,
  let r := dp_argparse_string arg (get s) size in Some (r.1, put r.2 s).
Definition store_int (get : conf_state → Z) (put : Z → conf_state → conf_state) (min max : Z) (arg : cstring) : cmd conf_state Z := λ s,
  let r := dp_argparse_int arg (get s) min max in Some (r.1, put r.2 s).
Definition store_enum (get : conf_state → Z) (put : Z → conf_state → conf_state) (choices : list cstring) (arg : cstring) :
    cmd conf_state Z := λ s,
  let r := dp_argparse_enum arg (get s) choices in Some (r.1, put r.2 s).

(** [arg] is NULL for an option without argument. *)
Definition with_arg (arg : option cstring) (f : cstring → cmd conf_state Z) : cmd conf_state Z :=
  match arg with Some arg => f arg | None => fault end.

Definition dp_conf_parse_arg (opt : conf_opt) (arg : option cstring) : cmd conf_state Z :=
  match opt with
  | OPT_PF0 => with_arg arg (store_string cf_pf0_name (λ x s, s <| cf_pf0_name := x |>) IF_NAMESIZE)
  | OPT_PF1 => with_arg arg (store_string cf_pf1_name (λ x s, s <| cf_pf1_name := x |>) IF_NAMESIZE)
  | OPT_IPV6 => with_arg arg dp_argparse_opt_ipv6
  | OPT_VF_PATTERN => with_arg arg (store_string cf_vf_pattern (λ x s, s <| cf_vf_pattern := x |>) IF_NAMESIZE)
  | OPT_DHCP_MTU => with_arg arg (store_int cf_dhcp_mtu (λ x s, s <| cf_dhcp_mtu := x |>) 68 1500)
  | OPT_DHCP_DNS => with_arg arg add_dhcp_dns
  | OPT_DHCPV6_DNS => with_arg arg add_dhcpv6_dns
  | OPT_UDP_VIRTSVC => with_arg arg (add_virtsvc IPPROTO_UDP)
  | OPT_TCP_VIRTSVC => with_arg arg (add_virtsvc IPPROTO_TCP)
  | OPT_WCMP => with_arg arg (store_int cf_wcmp_perc (λ x s, s <| cf_wcmp_perc := x |>) 0 100)
  | OPT_NIC_TYPE => with_arg arg (store_enum cf_nic_type (λ x s, s <| cf_nic_type := x |>) nic_type_choices)
  | OPT_NO_STATS => modify (λ s, s <| cf_stats_enabled := false |>);; mret DP_OK
  | OPT_NO_CONNTRACK => modify (λ s, s <| cf_conntrack_enabled := false |>);; mret DP_OK
  | OPT_ENABLE_IPV6_OVERLAY => modify (λ s, s <| cf_ipv6_overlay_enabled := true |>);; mret DP_OK
  | OPT_NO_OFFLOAD => modify (λ s, s <| cf_offload_enabled := false |>);; mret DP_OK
  | OPT_COLOR => with_arg arg (store_enum cf_color (λ x s, s <| cf_color := x |>) color_choices)
  | OPT_LOG_FORMAT => with_arg arg (store_enum cf_log_format (λ x s, s <| cf_log_format := x |>) log_format_choices)
  | OPT_GRPC_PORT => with_arg arg (store_int cf_grpc_port (λ x s, s <| cf_grpc_port := x |>) 1024 65535)
  | OPT_HELP | OPT_VERSION => mret DP_ERROR
  end.

(** What a call of [getopt_long] returns: an option with [optarg], [:] or [?]. *)
Inductive getopt_result := GETOPT_OPT (opt : conf_opt) (arg : option cstring) | GETOPT_MISSING | GETOPT_UNKNOWN.

Inductive dp_conf_runmode := DP_CONF_RUNMODE_NORMAL | DP_CONF_RUNMODE_EXIT | DP_CONF_RUNMODE_ERROR.

(** [results] are those of the calls before the one that returns [-1]. *)
Fixpoint dp_conf_parse_args (results : list getopt_result) : cmd conf_state dp_conf_runmode :=
  match results with
  | [] => mret DP_CONF_RUNMODE_NORMAL
  | GETOPT_MISSING :: _ | GETOPT_UNKNOWN :: _ => mret DP_CONF_RUNMODE_ERROR
  | GETOPT_OPT opt arg :: results =>
      if bool_decide (opt = OPT_HELP) || bool_decide (opt = OPT_VERSION) then mret DP_CONF_RUNMODE_EXIT
      else
        ret ← dp_conf_parse_arg opt arg;
        if DP_FAILED ret then mret DP_CONF_RUNMODE_ERROR else dp_conf_parse_args results
  end.

(** ** The file *)

Definition get_opt_by_name (name : cstring) : option longopt :=
  head (filter (λ o, lo_name o = name) dp_conf_longopts).

Definition blanks : cstring := [32; 9; 10].

Definition parse_line (line : cstring) : cmd conf_state Z :=
  if bool_decide (head line = Some 35) || bool_decide (head line = Some 10) then mret DP_OK
  else
    match strtok blanks line with
    | None => mret DP_ERROR
    | Some (key, rest) =>
        let longopt := get_opt_by_name key in
        let value := fst <$> strtok blanks rest in
        if bool_decide (value = None) && match longopt with None => true | Some o => lo_has_arg o end then mret DP_ERROR
        else if bool_decide (key = cstr "a-pf0") then
          with_arg value (store_string cf_eal_a_pf0 (λ x s, s <| cf_eal_a_pf0 := x |>) DP_EAL_A_MAXLEN)
        else if bool_decide (key = cstr "a-pf1") then
          with_arg value (store_string cf_eal_a_pf1 (λ x s, s <| cf_eal_a_pf1 := x |>) DP_EAL_A_MAXLEN)
        else
          match longopt with
          | None => mret DP_ERROR
          | Some o => dp_conf_parse_arg (lo_val o) value
          end
    end.

(** [lines] are what the calls of [getline] store, up to the end of the file. *)
Fixpoint parse_file (lines : list cstring) : cmd conf_state Z :=
  match lines with
  | [] => mret DP_OK
  | line :: lines =>
      ret ← parse_line line;
      if DP_FAILED ret then mret ret else parse_file lines
  end.

(** [env_filename] is the variable of the environment, and [file] the lines of the
    file that [fopen] opens. *)
Definition dp_conf_parse_file (env_filename : option cstring) (file : option (list cstring)) : cmd conf_state Z :=
  match file with
  | None =>
      match env_filename with
      | None | Some [] => mret DP_OK
      | Some _ => mret DP_ERROR
      end
  | Some lines => parse_file lines
  end.

(** ** Arguments of DPDK (src/dp_service.c) *)

Definition dp_is_mellanox_opt_set (s : conf_state) : bool :=
  negb (bool_decide (cf_eal_a_pf0 s = [])) && negb (bool_decide (cf_eal_a_pf1 s = [])).

(** The arguments with those for the devices in front of [--]. *)
Fixpoint eal_args (argv : list cstring) : list cstring * list cstring :=
  match argv with
  | [] => ([], [])
  | arg :: rest => if bool_decide (arg = cstr "--") then ([], argv) else let r := eal_args rest in (arg :: r.1, r.2)
  end.
(** [ok] says whether the array and the four strings could be allocated. *)
Definition dp_args_add_mellanox (s : conf_state) (ok : bool) (argv : list cstring) : Z * list cstring :=
  if negb ok then (DP_ERROR, argv)
  else
    let r := eal_args argv in
    (DP_OK, r.1 ++ [cstr "-a"; cf_eal_a_pf0 s; cstr "-a"; cf_eal_a_pf1 s] ++ r.2).
End conf.

(** ** Facts: reading numbers and words *)

Lemma span_app (f : Z → bool) (s rest : cstring) :
  Forall (λ c, f c = true) s → match rest with [] => True | c :: _ => f c = false end → span f (s ++ rest) = (s, rest).
Proof.
  intros Hs Hr. induction Hs as [|c s Hc _ IH]; cbn; [|by rewrite Hc, IH]. destruct rest; cbn; [done|by rewrite Hr].
Qed.

Lemma span_all (f : Z → bool) (s : cstring) : Forall (λ c, f c = true) s → span f s = (s, []).
Proof. intros Hs. rewrite <- (app_nil_r s) at 1. by apply span_app. Qed.

Lemma span_none (f : Z → bool) (s : cstring) : match s with [] => True | c :: _ => f c = false end → span f s = ([], s).
Proof. intros Hs. by apply (span_app f []). Qed.

(** The digits of a number, as they are printed. *)
Fixpoint decimal_from (fuel : nat) (n : Z) (acc : cstring) : cstring :=
  match fuel with
  | O => acc
  | S fuel => let acc := (48 + n mod 10) :: acc in if n <? 10 then acc else decimal_from fuel (n / 10) acc
  end.
Definition decimal (n : Z) : cstring := decimal_from (S (Z.to_nat n)) n [].

Lemma digits_value_app l1 l2 : digits_value (l1 ++ l2) = foldl (λ n c, 10 * n + (c - 48)) (digits_value l1) l2.
Proof. apply foldl_app. Qed.

Lemma decimal_from_spec fuel n acc :
  0 ≤ n < Z.of_nat fuel →
  ∃ d, decimal_from fuel n acc = d ++ acc ∧ d ≠ [] ∧ Forall (λ c, isdigit c = true) d ∧ digits_value d = n.
Proof.
  revert n acc. induction fuel as [|fuel IH]; intros n acc Hn; [lia|]. cbn [decimal_from].
  assert (Hd : isdigit (48 + n mod 10) = true) by (unfold isdigit; pose proof (Z.mod_pos_bound n 10); lia).
  destruct (Z.ltb_spec n 10).
  - exists [48 + n mod 10]. repeat split; [done|by constructor|]. unfold digits_value. cbn [foldl].
    rewrite Z.mod_small by lia. lia.
  - destruct (IH (n / 10) ((48 + n mod 10) :: acc)) as (d & -> & Hne & Hall & Hv).
    { pose proof (Z.div_lt n 10). pose proof (Z.div_pos n 10). lia. }
    exists (d ++ [48 + n mod 10]). split; [by rewrite <- app_assoc|]. split; [by destruct d|]. split.
    + apply Forall_app. by split; [|constructor].
    + rewrite digits_value_app. cbn [foldl]. rewrite Hv. pose proof (Z.div_mod n 10). lia.
Qed.

Lemma decimal_spec n : 0 ≤ n → decimal n ≠ [] ∧ Forall (λ c, isdigit c = true) (decimal n) ∧ digits_value (decimal n) = n.
Proof.
  intros Hn. destruct (decimal_from_spec (S (Z.to_nat n)) n []) as (d & E & H); [lia|]. unfold decimal.
  rewrite app_nil_r in E. by rewrite E.
Qed.

Lemma scan_digits d : d ≠ [] → Forall (λ c, isdigit c = true) d → scan_number d = (false, d, []).
Proof.
  intros Hne Hd. unfold scan_number. destruct d as [|c d]; [done|]. pose proof (Forall_inv Hd) as Hc. cbn beta in Hc.
  rewrite span_none; [|unfold isspace, isdigit in *; lia]. cbn [snd].
  assert (c ≠ 45 ∧ c ≠ 43) as [] by (unfold isdigit in Hc; lia).
  replace (match c :: d with 45 :: s' => (true, s') | 43 :: s' => (false, s') | _ => (false, c :: d) end) with (false, c :: d).
  - by rewrite span_all.
  - destruct c as [|c|]; try done. do 6 (destruct c as [c|c|]; try done).
Qed.

Lemma strtol_decimal n : 0 ≤ n < 2 ^ 63 → strtol (decimal n) = (n, []).
Proof.
  intros Hn. destruct (decimal_spec n) as (Hne & Hd & Hv); [lia|]. unfold strtol. rewrite scan_digits by done.
  rewrite bool_decide_eq_false_2, Hv by done. f_equal. lia.
Qed.

(** [dp_argparse_int] reads back a number in decimal notation when it is in the range, and
    otherwise fails and leaves the setting. *)
Theorem argparse_int_roundtrip n dst min max :
  0 ≤ n < 2 ^ 63 →
  dp_argparse_int (decimal n) dst min max = if (min <=? n) && (n <=? max) then (DP_OK, n) else (DP_ERROR, dst).
Proof.
  intros Hn. unfold dp_argparse_int. rewrite strtol_decimal by done. cbn.
  destruct (Z.ltb_spec n min), (Z.ltb_spec max n), (Z.leb_spec min n), (Z.leb_spec n max); cbn; try lia; done.
Qed.

(** A word without delimiters up to a delimiter, or the end. *)
Lemma strtok_word delim (w rest : cstring) :
  w ≠ [] → Forall (λ c, c ∉ delim) w → match rest with [] => True | c :: _ => c ∈ delim end →
  strtok delim (w ++ rest) = Some (w, tail rest).
Proof.
  intros Hne Hw Hr. unfold strtok.
  assert (H0 : span (λ c, bool_decide (c ∈ delim)) (w ++ rest) = ([], w ++ rest)).
  { apply span_none. destruct w as [|c w]; [done|]. apply bool_decide_eq_false_2. exact (Forall_inv Hw). }
  rewrite H0. cbn [snd]. rewrite span_app.
  - destruct w as [|c w]; [done|]. by destruct rest.
  - eapply Forall_impl; [exact Hw|]. cbn. intros c Hc. by rewrite bool_decide_eq_false_2.
  - destruct rest; [done|]. by rewrite bool_decide_eq_true_2.
Qed.

Section conf_facts.
Context `{HL : LibcConf} {HLO : LibcConfOk}.
Implicit Types (s : conf_state).

Lemma virtsvc_port_decimal n : 0 < n < 2 ^ 16 → virtsvc_port (decimal n) = Some (htons n).
Proof.
  intros Hn. destruct (decimal_spec n) as (Hne & Hd & Hv); [lia|]. unfold virtsvc_port, strtoul.
  rewrite scan_digits, bool_decide_eq_false_2 by done. rewrite Hv. destruct (Z.ltb_spec (2 ^ 64 - 1) n); [lia|].
  cbn [negb orb]. rewrite bool_decide_eq_true_2 by done. unfold UINT16_MAX.
  destruct (Z.eqb_spec n 0), (Z.ltb_spec 65535 n); cbn [orb negb]; try lia. by rewrite u16_id by (unfold is_u16; lia).
Qed.

Lemma cstr_comma : cstr "," = [44].
Proof. done. Qed.

Lemma decimal_no_comma n : 0 ≤ n → Forall (λ c, c ∉ [44]) (decimal n).
Proof.
  intros Hn. destruct (decimal_spec n Hn) as (_ & Hd & _). eapply Forall_impl; [exact Hd|]. cbn. intros c Hc Hin.
  apply list_elem_of_singleton in Hin as ->. done.
Qed.

(** The notation of a service on the command line. *)
Definition virtsvc_arg (addr4 : cstring) (port4 : Z) (addr6 : cstring) (port6 : Z) : cstring :=
  addr4 ++ cstr "," ++ decimal port4 ++ cstr "," ++ addr6 ++ cstr "," ++ decimal port6.

(** A string that is read as an address. *)
Definition addr_word (w : cstring) : Prop := w ≠ [] ∧ Forall (λ c, c ∉ [44]) w.

Lemma parse_virtsvc_arg addr4 port4 addr6 port6 a4 a6 :
  addr_word addr4 → addr_word addr6 → inet_aton addr4 = Some a4 → inet_pton6 addr6 = Some a6 →
  0 < port4 < 2 ^ 16 → 0 < port6 < 2 ^ 16 → (List.length (virtsvc_arg addr4 port4 addr6 port6) ≤ 255)%nat →
  parse_virtsvc (virtsvc_arg addr4 port4 addr6 port6) = Some (a4, htons port4, a6, htons port6).
Proof.
  intros [H4 H4'] [H6 H6'] Ha4 Ha6 Hp4 Hp6 Hlen. unfold parse_virtsvc. rewrite take_ge by done. unfold virtsvc_arg.
  rewrite cstr_comma. assert (Hcomma : 44 ∈ [44]) by by apply list_elem_of_singleton.
  destruct (decimal_spec port4) as (Hd4 & _); [lia|]. destruct (decimal_spec port6) as (Hd6 & _); [lia|].
  assert (Hn4 := decimal_no_comma port4 ltac:(lia)). assert (Hn6 := decimal_no_comma port6 ltac:(lia)).
  rewrite strtok_word by done. cbn [mbind option_bind]. rewrite Ha4. cbn [mbind option_bind tail app].
  rewrite strtok_word by done. cbn [mbind option_bind]. rewrite virtsvc_port_decimal by done. cbn [mbind option_bind tail app].
  rewrite strtok_word by done. cbn [mbind option_bind]. rewrite Ha6. cbn [mbind option_bind tail app].
  rewrite <- (app_nil_r (decimal port6)), strtok_word by done. cbn [mbind option_bind]. by rewrite virtsvc_port_decimal.
Qed.

(** ** Facts: the settings are in their ranges *)

Definition name_ok (w : cstring) : Prop := Z.of_nat (List.length w) < IF_NAMESIZE.
Definition eal_ok (w : cstring) : Prop := Z.of_nat (List.length w) < DP_EAL_A_MAXLEN.

(** An array of addresses of [size] bytes whose length fits into a byte. *)
Definition dns_ok (size : nat) (l : cstring) : Prop :=
  (∃ n, List.length l = (size * n)%nat) ∧ Z.of_nat (List.length l) ≤ UINT8_MAX ∧ Forall is_u8 l.

(** What distinguishes services of a protocol. *)
Definition virtual_end (e : dp_conf_virtsvc) : Z * Z * Z := (cv_proto e, cv_virtual_addr e, cv_virtual_port e).
Definition service_end (e : dp_conf_virtsvc) : Z * Z * Z := (cv_proto e, cv_service_addr e, cv_service_port e).

Record entry_ok (e : dp_conf_virtsvc) : Prop := {
  eo_proto : cv_proto e = IPPROTO_TCP ∨ cv_proto e = IPPROTO_UDP;
  eo_vaddr : is_u32 (cv_virtual_addr e);
  eo_vport : is_u16 (cv_virtual_port e) ∧ cv_virtual_port e ≠ 0;
  eo_saddr : is_u128 (cv_service_addr e);
  eo_sport : is_u16 (cv_service_port e) ∧ cv_service_port e ≠ 0
}.
Record services_conf_ok (l : list dp_conf_virtsvc) : Prop := {
  sc_count : Z.of_nat (List.length l) ≤ DP_VIRTSVC_MAX;
  sc_entries : Forall entry_ok l;
  sc_virtual : NoDup (virtual_end <$> l);
  sc_service : NoDup (service_end <$> l)
}.

Record conf_ok s : Prop := {
  co_pf0 : name_ok (cf_pf0_name s);
  co_pf1 : name_ok (cf_pf1_name s);
  co_vf : name_ok (cf_vf_pattern s);
  co_mtu : 68 ≤ cf_dhcp_mtu s ≤ 1500;
  co_wcmp : 0 ≤ cf_wcmp_perc s ≤ 100;
  co_nic : 0 ≤ cf_nic_type s < 3;
  co_color : 0 ≤ cf_color s < 3;
  co_format : 0 ≤ cf_log_format s < 2;
  co_port : 1024 ≤ cf_grpc_port s ≤ 65535;
  co_a0 : eal_ok (cf_eal_a_pf0 s);
  co_a1 : eal_ok (cf_eal_a_pf1 s);
  co_underlay : is_u128 (cf_underlay_ip s);
  co_dns : dns_ok 4 (cf_dhcp_dns s);
  co_dns6 : dns_ok 16 (cf_dhcpv6_dns s);
  co_services : services_conf_ok (cf_virtual_services s)
}.

Lemma conf_defaults_ok st : conf_ok (conf_defaults st).
Proof. constructor; cbn; try done; by repeat split; try exists 0%nat; try constructor. Qed.

Lemma argparse_string_ok arg dst size :
  Z.of_nat (List.length dst) < size → Z.of_nat (List.length (dp_argparse_string arg dst size).2) < size.
Proof. unfold dp_argparse_string. destruct (Z.leb_spec size (Z.of_nat (List.length arg))); cbn; lia. Qed.

Lemma argparse_int_ok arg dst min max : min ≤ dst ≤ max → min ≤ (dp_argparse_int arg dst min max).2 ≤ max.
Proof.
  unfold dp_argparse_int. intros Hd. destruct (strtol arg) as [r e]. destruct (negb _); [done|].
  destruct (Z.ltb_spec r min), (Z.ltb_spec max r); cbn; lia.
Qed.

Lemma enum_index_range arg choices i k :
  enum_index arg choices i = Some k → i ≤ k < i + Z.of_nat (List.length choices).
Proof.
  revert i. induction choices as [|c choices IH]; intros i; cbn; [done|]. destruct (bool_decide _).
  - intros [= <-]. lia.
  - intros H%IH. lia.
Qed.

Lemma argparse_enum_ok arg dst choices :
  0 ≤ dst < Z.of_nat (List.length choices) → 0 ≤ (dp_argparse_enum arg dst choices).2 < Z.of_nat (List.length choices).
Proof.
  unfold dp_argparse_enum. destruct (enum_index arg choices 0) as [k|] eqn:E; cbn; [|done].
  apply enum_index_range in E. lia.
Qed.

Lemma dns_app size l a :
  dns_ok size l → Z.of_nat (List.length l) + Z.of_nat size ≤ UINT8_MAX → dns_ok size (l ++ to_bytes size a).
Proof.
  intros [[n Hn] [Hl Hu]] Hs. unfold dns_ok. rewrite length_app, length_to_bytes. split; [exists (S n); lia|]. split; [lia|].
  apply Forall_app. split; [done|apply to_bytes_u8].
Qed.

Lemma span_fst (f : Z → bool) l : Forall (λ c, f c = true) (span f l).1.
Proof. induction l as [|c l IH]; cbn; [constructor|]. destruct (f c) eqn:E; cbn; [by constructor|constructor]. Qed.

Lemma digits_value_nonneg l : Forall (λ c, isdigit c = true) l → 0 ≤ digits_value l.
Proof.
  intros Hl. unfold digits_value. cut (∀ n, 0 ≤ n → 0 ≤ foldl (λ n c, 10 * n + (c - 48)) n l); [intros H; by apply H|].
  induction Hl as [|c l Hc _ IH]; intros n Hn; cbn [foldl]; [done|]. apply IH. unfold isdigit in Hc. lia.
Qed.

Lemma strtoul_nonneg tok : 0 ≤ (strtoul tok).1.
Proof.
  unfold strtoul, scan_number. set (s := (span isspace tok).2).
  destruct (match s with 45 :: s' => (true, s') | 43 :: s' => (false, s') | _ => (false, s) end) as [neg s'].
  pose proof (digits_value_nonneg _ (span_fst isdigit s')). destruct (bool_decide _); [done|].
  destruct (Z.ltb_spec (2 ^ 64 - 1) (digits_value (span isdigit s').1)); [done|]. destruct neg; [|done]. by apply Z.mod_pos_bound.
Qed.

Lemma virtsvc_port_range tok p : virtsvc_port tok = Some p → is_u16 p ∧ p ≠ 0.
Proof.
  unfold virtsvc_port. pose proof (strtoul_nonneg tok) as Hv. destruct (strtoul tok) as [v e]. cbn [fst] in Hv. unfold UINT16_MAX.
  destruct (bool_decide _), (bool_decide _), (Z.eqb_spec v 0), (Z.ltb_spec 65535 v); cbn [orb negb]; try done.
  intros [= <-]. split; [apply bswap16_range|]. intros Hz. assert (u16 v = v) as E by (apply u16_id; unfold is_u16; lia).
  rewrite E in Hz. change 0 with (bswap16 0) in Hz. apply bswap16_inj in Hz; unfold is_u16 in *; lia.
Qed.

Lemma parse_virtsvc_range str a p a' p' proto :
  parse_virtsvc str = Some (a, p, a', p') → proto = IPPROTO_TCP ∨ proto = IPPROTO_UDP → entry_ok (MkConfVirtsvc proto a p a' p').
Proof using HLO.
  unfold parse_virtsvc. intros H Hproto.
  repeat (apply bind_Some in H as (? & ? & H); repeat lazymatch type of H with (let '(_, _) := ?x in _) = _ => destruct x end).
  simplify_eq. constructor; cbn; eauto using virtsvc_port_range, inet_aton_range, inet_pton6_range.
Qed.

Lemma not_duplicate proto a p a' p' l :
  existsb (virtsvc_duplicate proto a p a' p') l = false →
  let e := MkConfVirtsvc proto a p a' p' in virtual_end e ∉ virtual_end <$> l ∧ service_end e ∉ service_end <$> l.
Proof.
  intros H e. split; intros (x & Hx & Hin)%list_elem_of_fmap; apply not_true_iff_false in H; apply H, existsb_exists; exists x;
    (split; [by apply list_elem_of_In|]); unfold virtual_end, service_end in Hx; cbn in Hx; injection Hx as -> -> ->;
    unfold virtsvc_duplicate; rewrite !Z.eqb_refl; cbn; by rewrite ?orb_true_r.
Qed.

Lemma is_duplicate proto a p a' p' l :
  existsb (virtsvc_duplicate proto a p a' p') l = true →
  let e := MkConfVirtsvc proto a p a' p' in virtual_end e ∈ virtual_end <$> l ∨ service_end e ∈ service_end <$> l.
Proof.
  intros (x & Hin%list_elem_of_In & Hx)%existsb_exists e. unfold virtsvc_duplicate in Hx.
  apply andb_true_iff in Hx as [Hp%Z.eqb_eq [[H1%Z.eqb_eq H2%Z.eqb_eq]%andb_true_iff|[H1%Z.eqb_eq H2%Z.eqb_eq]%andb_true_iff]%orb_true_iff];
    [left|right]; apply list_elem_of_fmap; exists x; (split; [|done]); unfold virtual_end, service_end; cbn; congruence.
Qed.

Lemma services_snoc l e :
  services_conf_ok l → entry_ok e → Z.of_nat (List.length l) < DP_VIRTSVC_MAX →
  virtual_end e ∉ virtual_end <$> l → service_end e ∉ service_end <$> l → services_conf_ok (l ++ [e]).
Proof.
  intros [] He Hl Hv Hs. constructor.
  - rewrite length_app. cbn. lia.
  - apply Forall_app. by split; [|constructor].
  - rewrite fmap_app. apply NoDup_app. split; [done|]. split; [|apply NoDup_singleton]. intros x Hx ->%list_elem_of_singleton. done.
  - rewrite fmap_app. apply NoDup_app. split; [done|]. split; [|apply NoDup_singleton]. intros x Hx ->%list_elem_of_singleton. done.
Qed.

(** An operation that ends and keeps the settings in their ranges. *)
Definition keeps_ok {A} (m : cmd conf_state A) : Prop := ∀ s, conf_ok s → wp m (λ _ s', conf_ok s') s.

Lemma stays_ret {A} (x : A) : keeps_ok (mret x).
Proof. intros s Hs. by apply wp_ret. Qed.

Lemma keeps_seq {A B} (m : cmd conf_state A) (f : A → cmd conf_state B) : keeps_ok m → (∀ x, keeps_ok (f x)) → keeps_ok (m ≫= f).
Proof. intros Hm Hf s Hs. apply wp_bind. wp_use (Hm s Hs). intros x s' Hs'. by apply Hf. Qed.

Lemma keeps_modify (g : conf_state → conf_state) : (∀ s, conf_ok s → conf_ok (g s)) → keeps_ok (modify g).
Proof. intros Hg s Hs. by apply wp_modify, Hg. Qed.

Lemma realloc_ok s st : conf_ok s → conf_ok (s <| cf_realloc := st |>).
Proof. by intros []. Qed.

Lemma keeps_add_dns str : keeps_ok (add_dhcp_dns str).
Proof.
  unfold add_dhcp_dns. destruct (inet_aton str) as [a|]; [|apply stays_ret]. intros s Hs. wp_steps.
  destruct (Z.ltb_spec UINT8_MAX (Z.of_nat (List.length (cf_dhcp_dns s)) + 4)); wp_steps; [done|].
  unfold wp at 1, conf_realloc. destruct (libc_realloc _) as [[] st]; cbn [fst snd negb]; wp_steps; [|by apply realloc_ok].
  destruct Hs. constructor; try done. cbn. apply dns_app; [done|lia].
Qed.

Lemma keeps_add_dns6 str : keeps_ok (add_dhcpv6_dns str).
Proof.
  unfold add_dhcpv6_dns. destruct (inet_pton6 str) as [a|]; [|apply stays_ret]. intros s Hs. wp_steps. unfold DP_IPV6_ADDR_SIZE.
  destruct (Z.ltb_spec UINT8_MAX (Z.of_nat (List.length (cf_dhcpv6_dns s)) + 16)); wp_steps; [done|].
  unfold wp at 1, conf_realloc. destruct (libc_realloc _) as [[] st]; cbn [fst snd negb]; wp_steps; [|by apply realloc_ok].
  destruct Hs. constructor; try done. cbn. apply dns_app; [done|lia].
Qed.

Lemma keeps_add_virtsvc proto str : proto = IPPROTO_TCP ∨ proto = IPPROTO_UDP → keeps_ok (add_virtsvc proto str).
Proof using HLO.
  intros Hproto s Hs. unfold add_virtsvc. wp_steps.
  destruct (Z.leb_spec DP_VIRTSVC_MAX (Z.of_nat (List.length (cf_virtual_services s)))); wp_steps; [done|].
  destruct (parse_virtsvc str) as [[[[a p] a'] p']|] eqn:Hparse; wp_steps; [|done].
  destruct (existsb _ _) eqn:Hdup; wp_steps; [done|]. apply not_duplicate in Hdup as [Hv Hsv].
  unfold wp at 1, conf_realloc. destruct (libc_realloc _) as [[] st]; cbn [fst snd negb]; wp_steps; [|by apply realloc_ok].
  destruct Hs. constructor; try done. cbn. apply services_snoc; [done|by eapply parse_virtsvc_range|done..].
Qed.

Lemma keeps_ipv6 arg : keeps_ok (dp_argparse_opt_ipv6 arg).
Proof using HLO.
  unfold dp_argparse_opt_ipv6. destruct (inet_pton6 arg) as [a|] eqn:Ha; [|apply stays_ret].
  apply keeps_seq; [|intros; apply stays_ret]. apply keeps_modify. intros s []. constructor; try done. cbn. by eapply inet_pton6_range.
Qed.

(** Whether the option gets the argument it needs. *)
Definition needs_arg (opt : conf_opt) : bool :=
  match opt with
  | OPT_HELP | OPT_VERSION | OPT_NO_STATS | OPT_NO_CONNTRACK | OPT_ENABLE_IPV6_OVERLAY | OPT_NO_OFFLOAD => false
  | _ => true
  end.

Lemma keeps_parse_arg opt arg : (needs_arg opt = true → is_Some arg) → keeps_ok (dp_conf_parse_arg opt arg).
Proof using HLO.
  intros Harg. destruct arg as [arg|].
  2: { destruct opt; cbn in *; try (by destruct (Harg eq_refl)); first [apply stays_ret|apply keeps_seq; [|intros; apply stays_ret]];
       apply keeps_modify; intros s []; by constructor. }
  assert (Hflag : ∀ g, (∀ s, conf_ok s → conf_ok (g s)) → keeps_ok (modify g;; mret DP_OK)).
  { intros g Hg. apply keeps_seq; [by apply keeps_modify|intros; apply stays_ret]. }
  destruct opt; cbn [dp_conf_parse_arg with_arg]; try apply stays_ret; try (apply Hflag; intros s []; by constructor);
    eauto using keeps_ipv6, keeps_add_dns, keeps_add_dns6, keeps_add_virtsvc.
  all: intros s []; unfold wp, store_string, store_int, store_enum; constructor; try done; cbn [fst snd].
  all: first [by apply argparse_string_ok|by apply argparse_int_ok|by apply argparse_enum_ok].
Qed.

Lemma get_opt_needs name o : get_opt_by_name name = Some o → lo_has_arg o = needs_arg (lo_val o) ∧ lo_name o = name.
Proof.
  intros Hh%head_Some_elem_of. apply list_elem_of_filter in Hh as [Hn Ho]. split; [|done].
  assert (Hall : forallb (λ o, Bool.eqb (lo_has_arg o) (needs_arg (lo_val o))) dp_conf_longopts = true) by done.
  rewrite forallb_forall in Hall. apply Bool.eqb_prop, Hall. by apply list_elem_of_In.
Qed.

Lemma keeps_store_eal (get : conf_state → cstring) (put : cstring → conf_state → conf_state) size arg :
  (∀ s, conf_ok s → conf_ok (put (dp_argparse_string arg (get s) size).2 s)) → keeps_ok (store_string get put size arg).
Proof. intros H s Hs. unfold wp, store_string. by apply H. Qed.

Lemma keeps_parse_line line : keeps_ok (parse_line line).
Proof using HLO.
  unfold parse_line. destruct (_ || _); [apply stays_ret|]. destruct (strtok blanks line) as [[key rest]|]; [|apply stays_ret].
  destruct (get_opt_by_name key) as [o|] eqn:Ho.
  - pose proof (get_opt_needs _ _ Ho) as [Hn _].
    assert (Hparse : (lo_has_arg o = true → is_Some (fst <$> strtok blanks rest)) →
      keeps_ok (dp_conf_parse_arg (lo_val o) (fst <$> strtok blanks rest))) by (intros H; apply keeps_parse_arg; by rewrite <- Hn).
    destruct (fst <$> strtok blanks rest) as [value|] eqn:Hv.
    + rewrite bool_decide_eq_false_2 by done. cbn [andb]. destruct (bool_decide (key = cstr "a-pf0")), (bool_decide (key = cstr "a-pf1"));
        try (apply keeps_store_eal; intros s []; constructor; try done; by apply argparse_string_ok); apply Hparse; eauto.
    + rewrite bool_decide_eq_true_2 by done. destruct (lo_has_arg o) eqn:Hha; cbn [andb]; [apply stays_ret|].
      rewrite !bool_decide_eq_false_2; [by apply Hparse|..]; intros ->; by vm_compute in Ho.
  - destruct (fst <$> strtok blanks rest) as [value|]; [|apply stays_ret]. rewrite bool_decide_eq_false_2 by done. cbn [andb].
    destruct (bool_decide (key = cstr "a-pf0")), (bool_decide (key = cstr "a-pf1")); try apply stays_ret;
      apply keeps_store_eal; intros s []; constructor; try done; by apply argparse_string_ok.
Qed.

Lemma keeps_parse_file lines : keeps_ok (parse_file lines).
Proof using HLO.
  induction lines as [|line lines IH]; [apply stays_ret|]. apply keeps_seq; [apply keeps_parse_line|]. intros ret.
  destruct (DP_FAILED ret); [apply stays_ret|exact IH].
Qed.

(** [getopt_long] stores an argument for the options that have one. *)
Definition getopt_ok (r : getopt_result) : Prop :=
  match r with GETOPT_OPT opt arg => needs_arg opt = true → is_Some arg | _ => True end.

Lemma keeps_parse_args results : Forall getopt_ok results → keeps_ok (dp_conf_parse_args results).
Proof using HLO.
  intros H. induction H as [|[opt arg| |] results Hr _ IH]; cbn; try apply stays_ret.
  destruct (_ || _); [apply stays_ret|]. apply keeps_seq; [by apply keeps_parse_arg|]. intros ret.
  destruct (DP_FAILED ret); [apply stays_ret|exact IH].
Qed.

(** The services of a configuration satisfy what the component of virtual services expects. *)
Lemma conf_services_ok `{RteHash} l ports : services_conf_ok l → Forall (λ e, svc_ok (new_virtsvc e ports)) l.
Proof.
  intros [_ He _ _]. eapply Forall_impl; [exact He|]. intros e [Hp Ha [Hv _] Hs [Hq _]]. by constructor.
Qed.

(** C20. Whatever the configuration file contains and whatever options follow on the command
    line, parsing ends without an invalid access and every setting is in its range: names and device
    arguments fit into their buffers, numbers are within their limits, the
    lists of name servers fit into a DHCP option, and there are at most [DP_VIRTSVC_MAX]
    virtual services, valid and pairwise different at both ends. *)
Theorem conf_parsed_ok `{RteHash} st env file results (ports : rte_hash dp_virtsvc_conn_key Z) :
  Forall getopt_ok results →
  wp (dp_conf_parse_file env file;; dp_conf_parse_args results)
    (λ _ s, conf_ok s ∧ Forall (λ e, svc_ok (new_virtsvc e ports)) (cf_virtual_services s)) (conf_defaults st).
Proof using HLO.
  intros Hr. assert (Hkeep : keeps_ok (dp_conf_parse_file env file;; dp_conf_parse_args results)).
  { apply keeps_seq; [|intros; by apply keeps_parse_args]. unfold dp_conf_parse_file.
    destruct file; [apply keeps_parse_file|]. destruct env as [[|? ?]|]; apply stays_ret. }
  wp_use (Hkeep _ (conf_defaults_ok st)). intros _ s Hs. split; [done|]. apply conf_services_ok, Hs.
Qed.

(** ** Facts: lines and arguments *)

Lemma names_no_blanks o : o ∈ dp_conf_longopts → lo_name o ≠ [] ∧ Forall (λ c, c ∉ blanks) (lo_name o) ∧ head (lo_name o) ≠ Some 35.
Proof.
  intros Ho. assert (Hall : forallb (λ o, negb (bool_decide (lo_name o = [])) && bool_decide (Forall (λ c, c ∉ blanks) (lo_name o))
    && negb (bool_decide (head (lo_name o) = Some 35))) dp_conf_longopts = true) by done.
  rewrite forallb_forall in Hall. specialize (Hall o ltac:(by apply list_elem_of_In)).
  apply andb_true_iff in Hall as [[H1 H2]%andb_true_iff H3]. apply negb_true_iff, bool_decide_eq_false in H1, H3.
  by apply bool_decide_eq_true in H2.
Qed.

Lemma longopts_by_name o : o ∈ dp_conf_longopts → get_opt_by_name (lo_name o) = Some o.
Proof. intros Ho. unfold dp_conf_longopts in Ho. repeat (apply elem_of_cons in Ho as [->|Ho]; [by vm_compute|]). by apply not_elem_of_nil in Ho. Qed.

(** A line of the configuration file, an option with its value, does what the option with this
    argument does on the command line. *)
Theorem file_line_equiv o value s :
  o ∈ dp_conf_longopts → value ≠ [] → Forall (λ c, c ∉ blanks) value →
  parse_line (lo_name o ++ [32] ++ value ++ [10]) s = dp_conf_parse_arg (lo_val o) (Some value) s.
Proof.
  intros Ho Hne Hv. destruct (names_no_blanks o Ho) as (Hn & Hb & H35). unfold parse_line.
  assert (Hhead : head (lo_name o ++ [32] ++ value ++ [10]) = head (lo_name o)) by by destruct (lo_name o).
  rewrite Hhead, (bool_decide_eq_false_2 (head (lo_name o) = Some 35)) by done.
  rewrite bool_decide_eq_false_2 by (intros E; destruct (lo_name o); simplify_eq/=; by apply (Forall_inv Hb); right; right; left).
  cbn [orb]. rewrite strtok_word by (done || by left). cbn [tail app]. rewrite strtok_word by (done || by right; right; left).
  rewrite longopts_by_name by done. cbn [fmap option_fmap option_map fst]. rewrite bool_decide_eq_false_2 by done. cbn [andb].
  rewrite !bool_decide_eq_false_2; [done|..]; intros E; pose proof (longopts_by_name o Ho) as Hl; rewrite E in Hl; by vm_compute in Hl.
Qed.

(** An empty argument is read as the number 0.  [dp_argparse_int] only looks at the byte where
    [strtol] stopped, which is the end of an empty string, so [--wcmp=] sets the
    percentage to 0 instead of being refused. *)
Theorem empty_argument_accepted dst max : 0 ≤ max → dp_argparse_int [] dst 0 max = (DP_OK, 0).
Proof. intros Hm. unfold dp_argparse_int. cbn. destruct (Z.ltb_spec max 0); [lia|done]. Qed.

(** What becomes of the services when [e] is to be added. *)
Definition virtsvc_added (s : conf_state) (e : dp_conf_virtsvc) (ret : Z) (s' : conf_state) : Prop :=
  let l := cf_virtual_services s in
  if (Z.of_nat (List.length l) <? DP_VIRTSVC_MAX) && bool_decide (virtual_end e ∉ virtual_end <$> l)
     && bool_decide (service_end e ∉ service_end <$> l) && (libc_realloc (cf_realloc s)).1
  then ret = DP_OK ∧ cf_virtual_services s' = l ++ [e]
  else ret = DP_ERROR ∧ cf_virtual_services s' = l.

Lemma wp_add_virtsvc s proto str a p a' p' :
  parse_virtsvc str = Some (a, p, a', p') →
  wp (add_virtsvc proto str) (virtsvc_added s (MkConfVirtsvc proto a p a' p')) s.
Proof.
  intros Hparse. unfold add_virtsvc, virtsvc_added. wp_steps. set (l := cf_virtual_services s).
  destruct (Z.leb_spec DP_VIRTSVC_MAX (Z.of_nat (List.length l))), (Z.ltb_spec (Z.of_nat (List.length l)) DP_VIRTSVC_MAX); try lia; wp_steps; [done|].
  rewrite Hparse. wp_steps. destruct (existsb _ l) eqn:Hdup; wp_steps.
  - apply is_duplicate in Hdup as [Hd|Hd]; [rewrite bool_decide_eq_false_2 by tauto|rewrite (bool_decide_eq_false_2 (service_end _ ∉ _)) by tauto];
      by rewrite ?andb_false_r.
  - apply not_duplicate in Hdup as [Hv Hs]. rewrite !bool_decide_eq_true_2 by done. cbn [andb].
    unfold wp at 1, conf_realloc. destruct (libc_realloc _) as [[] st]; cbn [fst snd negb]; by wp_steps.
Qed.

(** C34. A virtual service in the notation of the command line is added with the addresses and ports it
    names, unless one of its ends is in use, the table is full or there is no memory. *)
Theorem virtsvc_arg_roundtrip s opt proto addr4 port4 addr6 port6 a4 a6 :
  (opt = OPT_TCP_VIRTSVC ∧ proto = IPPROTO_TCP) ∨ (opt = OPT_UDP_VIRTSVC ∧ proto = IPPROTO_UDP) →
  addr_word addr4 → addr_word addr6 → inet_aton addr4 = Some a4 → inet_pton6 addr6 = Some a6 →
  0 < port4 < 2 ^ 16 → 0 < port6 < 2 ^ 16 → (List.length (virtsvc_arg addr4 port4 addr6 port6) ≤ 255)%nat →
  wp (dp_conf_parse_arg opt (Some (virtsvc_arg addr4 port4 addr6 port6)))
    (virtsvc_added s (MkConfVirtsvc proto a4 (htons port4) a6 (htons port6))) s.
Proof.
  intros Hopt H4 H6 Ha4 Ha6 Hp4 Hp6 Hlen.
  destruct Hopt as [[-> ->]|[-> ->]]; apply wp_add_virtsvc; by apply parse_virtsvc_arg.
Qed.
End conf_facts.

(** ** Runs *)

Section conf_examples.
#[local] Existing Instances test_hash.

(** Two addresses are known, and memory is always available. *)
#[local] Instance test_libcconf : LibcConf := {
  inet_aton s := if bool_decide (s = cstr "10.0.0.1") then Some 16777226 else None;
  inet_pton6 s := if bool_decide (s = cstr "fd00::1") then Some 253 else None;
  realloc_state := unit;
  libc_realloc st := (true, st)
}.

#[local] Instance test_libcconf_ok : LibcConfOk.
Proof. constructor; intros s a; cbn; destruct (bool_decide _); intros [= <-]; done. Qed.

Definition ex_defaults : conf_state := @conf_defaults test_libcconf tt.

Lemma argparse_int_roundtrip_witness : dp_argparse_int (cstr "1400") 1500 68 1500 = (DP_OK, 1400).
Proof. apply (argparse_int_roundtrip 1400 1500 68 1500). lia. Defined.

(** A file with a comment, a service and a name server, and two options. *)
Definition ex_lines : list cstring :=
  [cstr "# services" ++ [10]; cstr "tcp-virtsvc 10.0.0.1,80,fd00::1,8080" ++ [10]; cstr "dhcp-dns 10.0.0.1" ++ [10]].
Definition ex_options : list getopt_result := [GETOPT_OPT OPT_WCMP (Some (cstr "40")); GETOPT_OPT OPT_NO_OFFLOAD None].

Lemma conf_parsed_ok_witness :
  wp (dp_conf_parse_file (Some (cstr "conf")) (Some ex_lines);; dp_conf_parse_args ex_options)
    (λ _ s, 0 ≤ cf_wcmp_perc s ≤ 100) ex_defaults.
Proof.
  eapply wp_mono; [apply (conf_parsed_ok (tt : @realloc_state test_libcconf) (Some (cstr "conf")) (Some ex_lines) ex_options ∅);
    constructor; [by intros _; eexists|constructor; [by intros [=]|constructor]]|].
  intros _ s [[] _]. done.
Defined.

(** The settings these lines and options give. *)
Lemma ex_conf_run :
  match (dp_conf_parse_file (Some (cstr "conf")) (Some ex_lines);; dp_conf_parse_args ex_options) ex_defaults with
  | Some (DP_CONF_RUNMODE_NORMAL, s) =>
      cf_wcmp_perc s = 40 ∧ cf_offload_enabled s = false ∧ cf_dhcp_dns s = [10; 0; 0; 1]
      ∧ cf_virtual_services s = [MkConfVirtsvc IPPROTO_TCP 16777226 (htons 80) 253 (htons 8080)]
  | _ => False
  end.
Proof. vm_compute. done. Qed.

Lemma file_line_equiv_witness :
  parse_line (cstr "wcmp" ++ [32] ++ cstr "40" ++ [10]) ex_defaults
  = dp_conf_parse_arg OPT_WCMP (Some (cstr "40")) ex_defaults.
Proof.
  apply (file_line_equiv (MkLongopt (cstr "wcmp") true OPT_WCMP) (cstr "40") ex_defaults).
  - unfold dp_conf_longopts. do 11 right. left.
  - done.
  - by apply (bool_decide_eq_true_1 _).
Defined.

Lemma empty_argument_accepted_witness : dp_argparse_int (cstr "") 100 0 100 = (DP_OK, 0).
Proof. apply (empty_argument_accepted 100 100). lia. Defined.

Lemma virtsvc_arg_roundtrip_witness :
  wp (dp_conf_parse_arg OPT_TCP_VIRTSVC (Some (cstr "10.0.0.1,80,fd00::1,8080")))
    (λ ret s, ret = DP_OK ∧ cf_virtual_services s = [MkConfVirtsvc IPPROTO_TCP 16777226 (htons 80) 253 (htons 8080)]) ex_defaults.
Proof.
  eapply wp_mono; [apply (virtsvc_arg_roundtrip ex_defaults OPT_TCP_VIRTSVC IPPROTO_TCP (cstr "10.0.0.1") 80 (cstr "fd00::1") 8080
    16777226 253)|]; [by left| | |done|done|lia|lia|vm_compute; lia|].
  - split; [done|]. by apply (bool_decide_eq_true_1 _).
  - split; [done|]. by apply (bool_decide_eq_true_1 _).
  - intros ret s H. exact H.
Defined.
End conf_examples.
