(* ===== verification/Nodes.v ===== *)
(** * The nodes of the packet graph (src/nodes)

    Each node is the function that gives the edge for a packet; it reads and
    changes the packet, the connection of the packet and the tables of the
    components.  A branch of the source that returns early is a step with an
    optional edge.  The nodes for ARP, neighbour discovery and DHCP are in
    [Neigh] and [Dhcp], the node for virtual services in [Virtsvc], and the
    graph in [Pipeline].

    A node that dereferences the port of its packet does so before everything
    else that depends on it: the classification has checked this port. *)

From S2P Require Import Prelude Dpdk Error Types Port Firewall Rib Lb Vnf Conn Mbuf Graph Multipath Nat Vni Lpm Flow Nat64 Cntrack Virtsvc.

Definition IPPROTO_IPIP : Z := 4.
Definition IPPROTO_IPV6 : Z := 41.
Definition DP_BOOTP_SRV_PORT : Z := 67.
Definition DHCPV6_SERVER_PORT : Z := 547.
Definition RTE_PTYPE_L2_MASK : Z := 15.
Definition RTE_PTYPE_TUNNEL_IP : Z := 4096.
Definition RTE_PTYPE_INNER_L3_IPV4 : Z := 1048576.
Definition RTE_PTYPE_INNER_L3_IPV6 : Z := 3145728.
Definition RTE_PTYPE_INNER_L4_MASK : Z := 251658240.
Definition RTE_MBUF_F_TX_OUTER_IPV6 : Z := Z.shiftl 1 60.
Definition RTE_MBUF_F_TX_TUNNEL_IP : Z := Z.shiftl 13 45.

Definition NDISC_ROUTER_SOLICITATION : Z := 133.
Definition NDISC_NEIGHBOUR_SOLICITATION : Z := 135.

(** Members of the ARP header. *)
Definition arp_hardware : Z := 0.
Definition arp_protocol : Z := 2.
Definition arp_hlen : Z := 4.
Definition arp_plen : Z := 5.
Definition arp_opcode : Z := 6.
Definition arp_sha : Z := 8.
Definition arp_sip : Z := 14.
Definition arp_tha : Z := 18.
Definition arp_tip : Z := 24.
Definition RTE_ARP_HRD_ETHER : Z := 1.
Definition RTE_ETHER_ADDR_LEN : Z := 6.

(** The nodes that a node is registered with (the macros NEXT_NODES). *)
Definition next_nodes (n : dp_node) : list dp_node :=
  match n with
  | node_cls => [node_arp; node_ipv6_nd; node_conntrack; node_ipip_decap; node_virtsvc]
  | node_conntrack => [node_lb; node_dhcpv6; node_dnat; node_firewall]
  | node_dnat => [node_ipv4_lookup; node_ipv6_lookup; node_packet_relay]
  | node_firewall | node_packet_relay => [node_ipip_encap]
  | node_ipip_decap => [node_conntrack]
  | node_ipip_encap => [node_cls]
  | node_ipv4_lookup => [node_dhcp; node_snat]
  | node_ipv6_lookup => [node_snat]
  | node_lb => [node_ipip_encap; node_packet_relay; node_dnat]
  | node_snat => [node_firewall]
  | node_arp | node_ipv6_nd | node_dhcp | node_dhcpv6 | node_virtsvc => []
  end.

(** A step that may return from the node. *)
Definition returns {S : Type} (c : cmd S (option dp_edge)) (k : cmd S dp_edge) : cmd S dp_edge :=
  r ← c; match r with Some e => mret e | None => k end.
Notation "c '?;;' k" := (returns c k) (at level 100, k at level 200, right associativity) : dps_scope.

(** ** Classification (src/nodes/cls_node.c) *)

Section cls.
Context `{HH : RteHash} `{HM : RteMalloc}.

Definition is_arp : cmd rte_mbuf bool :=
  let arp_hdr := sizeof_ether_hdr in
  hardware ← ld16 (arp_hdr + arp_hardware);
  if negb (hardware =? htons RTE_ARP_HRD_ETHER) then mret false
  else
    hlen ← ld8 (arp_hdr + arp_hlen);
    if negb (hlen =? RTE_ETHER_ADDR_LEN) then mret false
    else
      protocol ← ld16 (arp_hdr + arp_protocol);
      if negb (protocol =? htons RTE_ETHER_TYPE_IPV4) then mret false
      else plen ← ld8 (arp_hdr + arp_plen); mret (plen =? 4).

(** The type of the message is read for ICMPv6 only. *)
Definition is_ipv6_nd (ipv6_hdr : Z) : cmd rte_mbuf bool :=
  proto ← ld8 (ipv6_hdr + ip6_proto);
  if proto =? IPPROTO_ICMPV6 then
    type ← ld8 (ipv6_hdr + sizeof_ipv6_hdr + icmp_type);
    mret ((type =? NDISC_NEIGHBOUR_SOLICITATION) || (type =? NDISC_ROUTER_SOLICITATION))
  else mret false.

Definition RTE_ETH_IS_IPV4_HDR (ptype : Z) : bool := negb (Z.land ptype RTE_PTYPE_L3_IPV4 =? 0).
Definition RTE_ETH_IS_IPV6_HDR (ptype : Z) : bool := negb (Z.land ptype RTE_PTYPE_L3_IPV6 =? 0).

(** Whether there are virtual services; [false] without ENABLE_VIRTSVC. *)
Variable virtsvc_present : bool.

Definition set_virtsvc (i : nat) : cmd vpkt_state () :=
  zoom sndL (upd_df (λ df, df <| df_virtsvc := Some i |>)).
Definition ether_type_of : cmd rte_mbuf Z := t ← ld16 eth_ether_type; mret (ntohs t).

(** The result of a lookup of a virtual service. *)
Definition to_virtsvc (lookup : cmd vpkt_state (option nat)) : cmd vpkt_state (option dp_edge) :=
  if virtsvc_present then
    r ← lookup;
    match r with
    | Some i => set_virtsvc i;; mret (Some (EDGE_NODE node_virtsvc))
    | None => mret None
    end
  else mret None.

Definition cls_ipv4 (port : dp_port) : cmd vpkt_state dp_edge :=
  if pt_is_pf port then mret EDGE_DROP
  else
    to_virtsvc get_outgoing_virtsvc ?;;
    l3_type ← zoom sndL ether_type_of;
    pkt_len ← zoom sndL (gets mb_data_len);
    zoom sndL (upd_df (λ df, df <| df_l3_type := l3_type |>
                                <| df_l3_payload_length := u32 (pkt_len - sizeof_ether_hdr) |>));;
    mret (EDGE_NODE node_conntrack).

Definition cls_ipv6_pf : cmd vpkt_state dp_edge :=
  let ipv6_hdr := sizeof_ether_hdr in
  nd ← zoom sndL (is_ipv6_nd ipv6_hdr);
  if (nd : bool) then mret EDGE_DROP
  else
    to_virtsvc get_incoming_virtsvc ?;;
    proto ← zoom sndL (ld8 (ipv6_hdr + ip6_proto));
    ether_type ← zoom sndL ether_type_of;
    let inner := if proto =? IPPROTO_IPIP then Some RTE_ETHER_TYPE_IPV4
                 else if proto =? IPPROTO_IPV6 then Some RTE_ETHER_TYPE_IPV6 else None in
    match inner with
    | Some l3_type =>
        zoom sndL (upd_df (λ df, df <| df_l3_type := l3_type |> <| df_tun_l3_type := ether_type |>));;
        zoom sndL (dp_extract_underlay_header ipv6_hdr);;
        mret (EDGE_NODE node_ipip_decap)
    | None =>
        zoom sndL (upd_df (λ df, df <| df_l3_type := ether_type |>));;
        mret (EDGE_NODE node_conntrack)
    end.

Definition cls_ipv6_vf : cmd vpkt_state dp_edge :=
  nd ← zoom sndL (is_ipv6_nd sizeof_ether_hdr);
  if (nd : bool) then mret (EDGE_NODE node_ipv6_nd)
  else
    l3_type ← zoom sndL ether_type_of;
    zoom sndL (upd_df (λ df, df <| df_l3_type := l3_type |>));;
    mret (EDGE_NODE node_conntrack).

Definition cls_next : cmd vpkt_state dp_edge :=
  ptype ← zoom sndL (gets mb_packet_type);
  if negb (Z.land ptype RTE_PTYPE_L2_MASK =? RTE_PTYPE_L2_ETHER) then mret EDGE_DROP
  else
    let l3_type := Z.land ptype RTE_PTYPE_L3_MASK in
    if l3_type =? 0 then
      arp ← zoom sndL is_arp;
      mret (if (arp : bool) then EDGE_NODE node_arp else EDGE_DROP)
    else
      zoom sndL (modify (λ m, m <| mb_flow := dp_init_flow_ptr |>));;
      m_port ← zoom sndL (gets mb_port);
      portp ← zoom vportsL (dp_get_port_by_id m_port);
      match portp with
      | None => mret EDGE_DROP
      | Some p =>
          port ← zoom vportsL (get_port p);
          if RTE_ETH_IS_IPV4_HDR l3_type then cls_ipv4 port
          else if RTE_ETH_IS_IPV6_HDR l3_type then
            if pt_is_pf port then cls_ipv6_pf else cls_ipv6_vf
          else mret EDGE_DROP
      end.
End cls.

(** ** The state of the other nodes *)

Record data_state `{RteHash} `{RteMalloc} `{RteRib} := MkData {
  da_conn : conn_state;
  da_vni : vni_state;
  da_lb : lb_state
}.
Arguments MkData {_ _ _} _ _ _.
Global Instance data_state_eta `{RteHash} `{RteMalloc} `{RteRib} : Eta data_state := λ r,
  MkData (da_conn r) (da_vni r) (da_lb r).

Section nodes.
Context `{HH : RteHash} `{HM : RteMalloc} `{HR : RteRib} `{HN : RteNet}.

Definition node_state : Type := data_state * rte_mbuf.
Definition connN : lens node_state conn_state := Lens (λ s, da_conn s.1) (λ x s, (s.1 <| da_conn := x |>, s.2)).
Definition pktN : lens node_state pkt_state :=
  Lens (λ s, (da_conn s.1, s.2)) (λ x s, (s.1 <| da_conn := x.1 |>, x.2)).
Definition lbN : lens node_state lb_state := Lens (λ s, da_lb s.1) (λ x s, (s.1 <| da_lb := x |>, s.2)).
Definition portsvniN : lens node_state (ports_state * vni_state) :=
  Lens (λ s, (cs_ports (da_conn s.1), da_vni s.1))
    (λ x s, (s.1 <| da_conn := (da_conn s.1) <| cs_ports := x.1 |> |> <| da_vni := x.2 |>, s.2)).

(** [*cntrack], assignments to its members and to those of [*df]. *)
Definition fv_of (cntrack : loc) : cmd node_state flow_value := zoom connN (fv_load cntrack).
Definition upd_fv (cntrack : loc) (f : flow_value → flow_value) : cmd node_state () :=
  v ← fv_of cntrack; zoom connN (fv_store cntrack (f v)).
Definition node_df : cmd node_state dp_flow := zoom sndL get_df.
Definition upd_node_df (f : dp_flow → dp_flow) : cmd node_state () := zoom sndL (upd_df f).

(** The port a packet came from, with its position. *)
Definition in_port : cmd node_state (nat * dp_port) :=
  portp ← zoom pktN in_port_ptr;
  match portp with
  | None => fault
  | Some p => port ← zoom connN (zoom portsL (get_port p)); mret (p, port)
  end.

(** [dp_get_out_port(df)] *)
Definition out_port_ptr : cmd node_state (option nat) :=
  df ← node_df; zoom connN (zoom portsL (dp_get_out_port (df_nxt_hop df))).

(** The reply key is taken out of the table, changed and entered again. *)
Definition del_reply_key (cntrack : loc) : cmd node_state () :=
  v ← fv_of cntrack; zoom connN (dp_delete_flow (fv_key_reply v)).
Definition upd_reply_key (cntrack : loc) (f : flow_key → flow_key) : cmd node_state () :=
  upd_fv cntrack (λ v, v <| fv_key_reply := f (fv_key_reply v) |>).
Definition add_reply_key (cntrack : loc) : cmd node_state Z :=
  v ← fv_of cntrack; zoom connN (dp_add_flow (fv_key_reply v) cntrack).

(** ** Connection tracking (src/nodes/conntrack_node.c) *)

Definition is_udp_to (port : Z) (df : dp_flow) : bool :=
  (df_l4_type df =? IPPROTO_UDP) && (df_trans_dst_port df =? htons port).

Definition conntrack_extract : cmd node_state (option dp_edge) :=
  df ← node_df;
  if df_l3_type df =? RTE_ETHER_TYPE_IPV4 then
    zoom sndL (dp_extract_ipv4_header dp_get_ipv4_hdr);;
    ret ← zoom sndL (dp_extract_l4_header (dp_get_ipv4_hdr + sizeof_ipv4_hdr));
    if DP_FAILED ret then mret (Some EDGE_DROP)
    else df ← node_df; mret (if is_udp_to DP_BOOTP_SRV_PORT df then Some (EDGE_NODE node_dnat) else None)
  else if df_l3_type df =? RTE_ETHER_TYPE_IPV6 then
    zoom sndL (dp_extract_ipv6_header dp_get_ipv6_hdr);;
    ret ← zoom sndL (dp_extract_l4_header (dp_get_ipv6_hdr + sizeof_ipv6_hdr));
    if DP_FAILED ret then mret (Some EDGE_DROP)
    else df ← node_df; mret (if is_udp_to DHCPV6_SERVER_PORT df then Some (EDGE_NODE node_dhcpv6) else None)
  else mret None.

Definition vnf_next (vnf_type : dp_vnf_type) : dp_edge :=
  match vnf_type with
  | DP_VNF_TYPE_LB => EDGE_NODE node_lb
  | DP_VNF_TYPE_VIP | DP_VNF_TYPE_NAT => EDGE_NODE node_dnat
  | DP_VNF_TYPE_LB_ALIAS_PFX | DP_VNF_TYPE_INTERFACE_IP | DP_VNF_TYPE_ALIAS_PFX => EDGE_NODE node_firewall
  | DP_VNF_TYPE_UNDEFINED => EDGE_DROP
  end.

(** [tsc] is [rte_rdtsc()]. *)
Definition conntrack_next (conf : cntrack_conf) (conntrack_enabled : bool) (tsc : Z) : cmd node_state dp_edge :=
  conntrack_extract ?;;
  if negb conntrack_enabled then mret (EDGE_NODE node_dnat)
  else
    df ← node_df;
    if (df_l4_type df =? IPPROTO_TCP) || (df_l4_type df =? IPPROTO_UDP)
       || (df_l4_type df =? IPPROTO_ICMP) || (df_l4_type df =? IPPROTO_ICMPV6) then
      ret ← zoom pktN (dp_cntrack_handle conf tsc);
      if DP_FAILED ret then mret EDGE_DROP
      else
        port ← in_port;
        df ← node_df;
        mret (if negb (pt_is_pf port.2) then EDGE_NODE node_dnat else vnf_next (df_vnf_type df))
    else mret EDGE_DROP.

(** ** Destination NAT (src/nodes/dnat_node.c) *)

(** [df->tun_info.dst_vni], or the network of the port. *)
Definition vni_of (df : dp_flow) : cmd node_state Z :=
  if df_tun_dst_vni df =? 0 then port ← in_port; mret (if_vni (pt_iface port.2)) else mret (df_tun_dst_vni df).

(** [ipv4_hdr->dst_addr = htonl(addr)] and what follows it in three places. *)
Definition change_dst_ip (addr : Z) : cmd node_state () :=
  zoom sndL (st32 (dp_get_ipv4_hdr + ip4_dst) (htonl addr)).
Definition finish_dst_ip : cmd node_state () :=
  dst_addr ← zoom sndL (ld32 (dp_get_ipv4_hdr + ip4_dst));
  upd_node_df (λ df, set_df_dst_addr dst_addr
    (df <| df_nat_type := DP_NAT_CHG_DST_IP |> <| df_nat_addr := df_dst_addr df |>));;
  zoom sndL (dp_nat_chg_ip dp_get_ipv4_hdr).

(** A new flow whose destination is no network NAT. *)
Definition dnat_vip (cntrack : loc) (dnat_ip : Z) : cmd node_state dp_edge :=
  change_dst_ip dnat_ip;;
  finish_dst_ip;;
  upd_fv cntrack (λ v, v <| fv_flow_flags := Z.lor (fv_flow_flags v) DP_FLOW_FLAG_DST_NAT |>);;
  del_reply_key cntrack;;
  dst_addr ← zoom sndL (ld32 (dp_get_ipv4_hdr + ip4_dst));
  upd_reply_key cntrack (λ k, k <| fk_l3_src := DP_SET_IPADDR4 (ntohl dst_addr) |>);;
  ret ← add_reply_key cntrack;
  mret (if DP_FAILED ret then EDGE_DROP else EDGE_NODE node_ipv4_lookup).

(** A new flow to the address of a network NAT: an echo request is answered, the
    range of another hypervisor forwarded, everything else dropped. *)
Definition dnat_network (cntrack : loc) (df : dp_flow) : cmd node_state dp_edge :=
  if (df_l4_type df =? IPPROTO_ICMP) && (df_icmp_type df =? RTE_IP_ICMP_ECHO_REQUEST) then
    upd_fv cntrack (λ v, v <| fv_nf_nat_type := DP_FLOW_NAT_AS_TARGET |>);;
    mret (EDGE_NODE node_packet_relay)
  else
    underlay_dst ← zoom connN (zoom natL (gets (dp_lookup_network_nat_underlay_ip df)));
    match underlay_dst with
    | Some underlay_dst =>
        upd_fv cntrack (λ v, v <| fv_nf_nat_type := DP_FLOW_NAT_TYPE_NETWORK_NEIGH |>);;
        upd_node_df (λ df, df <| df_nat_type := DP_CHG_UL_DST_IP |>);;
        upd_fv cntrack (λ v, v <| fv_nf_l4_type := df_l4_type df |> <| fv_nf_underlay_dst := underlay_dst |>);;
        del_reply_key cntrack;;
        mret (EDGE_NODE node_packet_relay)
    | None => mret EDGE_DROP
    end.

Definition dnat_new_flow (cntrack : loc) : cmd node_state dp_edge :=
  df ← node_df;
  vni ← vni_of df;
  data ← zoom connN (zoom natL (dp_get_dnat_data (ntohl (df_dst_addr df)) vni));
  match data with
  | None => mret (EDGE_NODE node_ipv4_lookup)
  | Some p =>
      d ← zoom connN (zoom natL (zoom dnatT (ot_load p)));
      if dd_dnat_ip d =? 0 then dnat_network cntrack df else dnat_vip cntrack (dd_dnat_ip d)
  end.

(** The destination of a known flow is replaced. *)
Definition dnat_known_dst (cntrack : loc) : cmd node_state (option dp_edge) :=
  v ← fv_of cntrack;
  if is_v6 (fk_l3_src (fv_key_reply v)) then mret (Some EDGE_DROP)
  else change_dst_ip (ipv4 (fk_l3_src (fv_key_reply v)));; finish_dst_ip;; mret None.

(** The packet that an ICMP error is about gets its source back. *)
Definition dnat_icmp_error (v : flow_value) : cmd node_state (option dp_edge) :=
  info ← zoom sndL (dp_get_icmp_err_ip_hdr (MkErrInfo None 0 0));
  match ei_err_ipv4_hdr info with
  | None => mret (Some EDGE_DROP)
  | Some err =>
      if (ei_l4_src_port info =? 0) || (ei_l4_dst_port info =? 0) then mret (Some EDGE_DROP)
      else
        zoom sndL (st32 (err + ip4_src) (htonl (ipv4 (fk_l3_src (fv_key_org v)))));;
        zoom sndL (st16 (err + ip4_cksum) (fv_nf_icmp_err_ip_cksum v));;
        zoom sndL (dp_change_icmp_err_l4_src_port info (fk_port_src (fv_key_org v)));;
        mret None
  end.

(** A reply to an address of the NAT goes back to the interface. *)
Definition dnat_reply (cntrack : loc) : cmd node_state (option dp_edge) :=
  v ← fv_of cntrack;
  if is_v6 (fk_l3_src (fv_key_org v)) then mret (Some EDGE_DROP)
  else
    change_dst_ip (ipv4 (fk_l3_src (fv_key_org v)));;
    df ← node_df;
    r ← (if bool_decide (fv_nf_nat_type v = DP_FLOW_NAT_TYPE_NETWORK_LOCAL) then
           if df_l4_type df =? IPPROTO_ICMP then
             if df_icmp_type df =? RTE_IP_ICMP_ECHO_REPLY then
               zoom sndL (dp_change_icmp_identifier (fk_port_dst (fv_key_org v)));; mret None
             else if df_icmp_type df =? DP_IP_ICMP_TYPE_ERROR then dnat_icmp_error v
             else mret None
           else zoom sndL (dp_change_l4_hdr_port DP_L4_PORT_DIR_DST (fk_port_src (fv_key_org v)));; mret None
         else mret None);
    match r with
    | Some e => mret (Some e)
    | None => finish_dst_ip;; mret None
    end.

(** The same for a flow from IPv6. *)
Definition dnat_reply_64 (cntrack : loc) : cmd node_state dp_edge :=
  upd_node_df (λ df, df <| df_nat_type := DP_NAT_64_CHG_DST_IP |> <| df_nat_addr := df_dst_addr df |>);;
  v ← fv_of cntrack;
  df ← node_df;
  (if bool_decide (fv_nf_nat_type v = DP_FLOW_NAT_TYPE_NETWORK_LOCAL) then
     if df_l4_type df =? IPPROTO_ICMP then
       if df_icmp_type df =? RTE_IP_ICMP_ECHO_REPLY
       then zoom sndL (dp_change_icmp_identifier (fk_port_dst (fv_key_org v))) else mret tt
     else zoom sndL (dp_change_l4_hdr_port DP_L4_PORT_DIR_DST (fk_port_src (fv_key_org v)))
   else mret tt);;
  if negb (is_v6 (fk_l3_src (fv_key_org v))) then mret EDGE_DROP
  else
    ret ← zoom sndL (dp_nat_chg_ipv4_to_ipv6_hdr (ipv6 (fk_l3_src (fv_key_org v))));
    mret (if DP_FAILED ret then EDGE_DROP else EDGE_NODE node_ipv6_lookup).

Definition dnat_out : cmd node_state dp_edge :=
  df ← node_df;
  mret (if df_l3_type df =? RTE_ETHER_TYPE_IPV4 then EDGE_NODE node_ipv4_lookup
        else if df_l3_type df =? RTE_ETHER_TYPE_IPV6 then EDGE_NODE node_ipv6_lookup
        else EDGE_DROP).

Definition is_echo_request (df : dp_flow) : bool :=
  ((df_l4_type df =? IPPROTO_ICMP) || (df_l4_type df =? IPPROTO_ICMPV6))
  && ((df_icmp_type df =? RTE_IP_ICMP_ECHO_REQUEST) || (df_icmp_type df =? DP_ICMPV6_ECHO_REQUEST)).

(** A packet of a flow that is known. *)
Definition dnat_known_flow (cntrack : loc) : cmd node_state dp_edge :=
  v ← fv_of cntrack;
  df ← node_df;
  if bool_decide (fv_nf_nat_type v = DP_FLOW_NAT_TYPE_NETWORK_NEIGH) then
    upd_node_df (λ df, df <| df_nat_type := DP_CHG_UL_DST_IP |>);;
    mret (EDGE_NODE node_packet_relay)
  else if DP_FLOW_HAS_FLAG_DEFAULT (fv_flow_flags v)
          && bool_decide (fv_nf_nat_type v = DP_FLOW_NAT_AS_TARGET) && is_echo_request df then
    mret (EDGE_NODE node_packet_relay)
  else
    (if DP_FLOW_HAS_FLAG_DST_NAT (fv_flow_flags v) && bool_decide (df_flow_dir df = DP_FLOW_DIR_ORG)
     then dnat_known_dst cntrack else mret None) ?;;
    (if DP_FLOW_HAS_FLAG_SRC_NAT (fv_flow_flags v) && bool_decide (df_flow_dir df = DP_FLOW_DIR_REPLY)
     then dnat_reply cntrack else mret None) ?;;
    if DP_FLOW_HAS_FLAG_SRC_NAT64 (fv_flow_flags v) && bool_decide (df_flow_dir df = DP_FLOW_DIR_REPLY)
    then dnat_reply_64 cntrack
    else dnat_out.

Definition dnat_next : cmd node_state dp_edge :=
  df ← node_df;
  match df_conntrack df with
  | None => dnat_out
  | Some cntrack =>
      v ← fv_of cntrack;
      if DP_FLOW_HAS_NO_FLAGS (fv_flow_flags v) && bool_decide (df_flow_dir df = DP_FLOW_DIR_ORG)
         && (df_l3_type df =? RTE_ETHER_TYPE_IPV4)
      then dnat_new_flow cntrack
      else dnat_known_flow cntrack
  end.

(** ** Lookup of the route (src/nodes/ipv4_lookup_node.c, ipv6_lookup_node.c) *)

(** The end of both nodes; [route_vni] is [route.vni]. *)
Definition lookup_finish (in_port : dp_port) (route_vni : Z) (default_route : bool) (out_port : dp_port) :
    cmd node_state dp_edge :=
  (if negb (pt_is_pf in_port) then upd_node_df (λ df, df <| df_tun_dst_vni := route_vni |>) else mret tt);;
  upd_node_df (λ df, df <| df_flow_type := if default_route then DP_FLOW_SOUTH_NORTH else DP_FLOW_WEST_EAST |>
                        <| df_nxt_hop := pt_port_id out_port |>);;
  mret (EDGE_NODE node_snat).

(** [junk_vni] is what the variable [route], which has no initial value, holds at
    the place of the network: it is only written for a route over the underlay. *)
Definition ipv4_lookup_next (wcmp_perc junk_vni : Z) : cmd node_state dp_edge :=
  df ← node_df;
  if is_udp_to DP_BOOTP_SRV_PORT df then mret (EDGE_NODE node_dhcp)
  else
    inp ← in_port;
    r ← zoom portsvniN (dp_get_ip4_out_port inp.2 (df_tun_dst_vni df) df);
    match r with
    | None => mret EDGE_DROP
    | Some r =>
        out ← zoom connN (zoom portsL (get_port (op_port r)));
        if pt_is_pf out then
          if pt_is_pf inp.2 then mret EDGE_DROP
          else
            match op_route r with
            | None => fault
            | Some route =>
                upd_node_df (λ df, df <| df_ul_dst_addr6 := rt_nh_ipv6 route |>);;
                pf ← zoom connN (zoom portsL (dp_multipath_get_pf wcmp_perc (df_flow_hash df)));
                match pf with
                | None => fault
                | Some pf =>
                    pf_port ← zoom connN (zoom portsL (get_port pf));
                    lookup_finish inp.2 (rt_vni route) (op_route_key r =? 0) pf_port
                end
            end
        else
          zoom sndL (dp_fill_ether_hdr 0 out RTE_ETHER_TYPE_IPV4);;
          lookup_finish inp.2 junk_vni (op_route_key r =? 0) out
    end.

Definition ipv6_lookup_next (junk_vni : Z) : cmd node_state dp_edge :=
  df ← node_df;
  inp ← in_port;
  let t_vni := if pt_is_pf inp.2 then df_tun_dst_vni df else 0 in
  r ← zoom portsvniN (dp_get_ip6_out_port inp.2 t_vni df);
  match r with
  | None => mret EDGE_DROP
  | Some r =>
      out ← zoom connN (zoom portsL (get_port (op_port r)));
      if pt_is_pf out then
        if pt_is_pf inp.2 then mret EDGE_DROP
        else
          match op_route r with
          | None => fault
          | Some route =>
              upd_node_df (λ df, df <| df_ul_dst_addr6 := rt_nh_ipv6 route |>);;
              lookup_finish inp.2 (rt_vni route) (op_route_key r =? 0) out
          end
      else
        zoom sndL (dp_fill_ether_hdr 0 out RTE_ETHER_TYPE_IPV6);;
        lookup_finish inp.2 junk_vni (op_route_key r =? 0) out
  end.

(** ** Source NAT (src/nodes/snat_node.c) *)

Definition upd_used_ports (p : nat) (d : Z) : cmd node_state () :=
  zoom connN (zoom portsL (upd_port p (λ port, port <| pt_used_port_cnt := u16 (pt_used_port_cnt port + d) |>))).

(** ICMP flows of a network NAT are not offloaded. *)
Definition icmp_not_offloaded (cntrack : loc) : cmd node_state () :=
  upd_fv cntrack (λ v, v <| fv_offload_orig := DP_FLOW_OFFLOADED |> <| fv_offload_reply := DP_FLOW_OFFLOADED |>);;
  upd_node_df (λ df, df <| df_offload_state := DP_FLOW_NON_OFFLOAD |>).

(** The members of [nf_info] for a network NAT. *)
Definition set_nat_info (cntrack : loc) (vni : Z) : cmd node_state () :=
  df ← node_df;
  cksum ← zoom sndL (ld16 (dp_get_ipv4_hdr + ip4_cksum));
  upd_fv cntrack (λ v, v <| fv_nf_nat_type := DP_FLOW_NAT_TYPE_NETWORK_LOCAL |> <| fv_nf_vni := vni |>
                         <| fv_nf_l4_type := df_l4_type df |> <| fv_nf_icmp_err_ip_cksum := cksum |>).

(** A port of the network NAT for the flow; [false] when there is none. *)
Definition snat_network (tsc : Z) (cntrack : loc) (p : nat) (port : dp_port) (snat : loc) (nat_ip : Z) : cmd node_state bool :=
  df ← node_df;
  ret ← zoom connN (zoom natL (dp_allocate_network_snat_port tsc (SnatEntry snat) df (if_vni (pt_iface port))));
  if DP_FAILED ret then mret false
  else
    let nat_port := u16 ret in
    zoom sndL (st32 (dp_get_ipv4_hdr + ip4_src) (htonl nat_ip));;
    upd_used_ports p 1;;
    (if df_l4_type df =? IPPROTO_ICMP
     then zoom sndL (dp_change_icmp_identifier nat_port);; icmp_not_offloaded cntrack
     else zoom sndL (dp_change_l4_hdr_port DP_L4_PORT_DIR_SRC nat_port));;
    set_nat_info cntrack (if_vni (pt_iface port));;
    upd_node_df (λ df, df <| df_nat_port := nat_port |>);;
    mret true.

Definition finish_src_ip : cmd node_state () :=
  src_addr ← zoom sndL (ld32 (dp_get_ipv4_hdr + ip4_src));
  upd_node_df (λ df, df <| df_nat_type := DP_NAT_CHG_SRC_IP |> <| df_nat_addr := src_addr |>);;
  zoom sndL (dp_nat_chg_ip dp_get_ipv4_hdr).

(** [p] is the position of [port] and [snat] points to [data]. *)
Definition dp_process_ipv4_snat (tsc : Z) (cntrack : loc) (p : nat) (port : dp_port) (snat : loc) (data : snat_data) :
    cmd node_state Z :=
  (if negb (sd_vip_ip data =? 0) then
     zoom sndL (st32 (dp_get_ipv4_hdr + ip4_src) (htonl (sd_vip_ip data)));;
     upd_fv cntrack (λ v, v <| fv_nf_nat_type := DP_FLOW_NAT_TYPE_VIP |>)
   else mret tt);;
  ok ← (if negb (sd_nat_ip data =? 0) then snat_network tsc cntrack p port snat (sd_nat_ip data) else mret true);
  if negb ok then mret DP_ERROR
  else
    finish_src_ip;;
    upd_fv cntrack (λ v, v <| fv_flow_flags := Z.lor (fv_flow_flags v) DP_FLOW_FLAG_SRC_NAT |>);;
    del_reply_key cntrack;;
    src_addr ← zoom sndL (ld32 (dp_get_ipv4_hdr + ip4_src));
    upd_reply_key cntrack (λ k, k <| fk_l3_dst := DP_SET_IPADDR4 (ntohl src_addr) |>);;
    df ← node_df;
    (if negb (sd_nat_ip data =? 0)
     then upd_reply_key cntrack (λ k, k <| fk_port_dst := df_nat_port df |>) else mret tt);;
    ret ← add_reply_key cntrack;
    mret (if DP_FAILED ret then DP_ERROR else DP_OK).

(** The type of the ICMP message in the reply key. *)
Definition icmp_type_64 (type_src : Z) : Z :=
  if type_src =? DP_ICMPV6_ECHO_REQUEST then RTE_IP_ICMP_ECHO_REQUEST
  else if type_src =? DP_ICMPV6_ECHO_REPLY then RTE_IP_ICMP_ECHO_REPLY else 0.

(** The part after the header was replaced; [dest_ip4] is the new destination. *)
Definition nat64_finish (cntrack : loc) (port : dp_port) (nat_port dest_ip4 : Z) : cmd node_state Z :=
  df ← node_df;
  (if df_l4_type df =? IPPROTO_ICMP then
     zoom sndL (dp_change_icmp_identifier nat_port);;
     icmp_not_offloaded cntrack;;
     upd_reply_key cntrack (λ k, k <| fk_port_src := icmp_type_64 (fk_port_src k) |>)
   else zoom sndL (dp_change_l4_hdr_port DP_L4_PORT_DIR_SRC nat_port));;
  set_nat_info cntrack (if_vni (pt_iface port));;
  upd_fv cntrack (λ v, v <| fv_flow_flags := Z.lor (fv_flow_flags v) DP_FLOW_FLAG_SRC_NAT64 |>);;
  del_reply_key cntrack;;
  upd_reply_key cntrack (λ k, k <| fk_l3_src := DP_SET_IPADDR4 (ntohl dest_ip4) |>
                                <| fk_l3_dst := DP_SET_IPADDR4 (if_nat_ip (pt_iface port)) |>
                                <| fk_port_dst := df_nat_port df |> <| fk_proto := df_l4_type df |>);;
  ret ← add_reply_key cntrack;
  mret (if DP_FAILED ret then DP_ERROR else DP_OK).

Definition dp_process_ipv6_nat64 (tsc : Z) (cntrack : loc) (p : nat) (port : dp_port) : cmd node_state Z :=
  let iface := pt_iface port in
  let snat64_data := zero_snat <| sd_nat_ip := if_nat_ip iface |> <| sd_port_min := if_nat_port_range0 iface |>
                               <| sd_port_max := if_nat_port_range1 iface |> in
  df ← node_df;
  ret ← zoom connN (zoom natL (dp_allocate_network_snat_port tsc (SnatLocal snat64_data) df (if_vni iface)));
  if DP_FAILED ret then mret DP_ERROR
  else
    let nat_port := u16 ret in
    upd_used_ports p 1;;
    upd_node_df (λ df, df <| df_nat_port := nat_port |> <| df_nat_type := DP_NAT_64_CHG_SRC_IP |>
                          <| df_nat_addr := if_nat_ip iface |>);;
    r ← zoom sndL (dp_nat_chg_ipv6_to_ipv4_hdr (if_nat_ip iface));
    if DP_FAILED r.1 then
      v ← fv_of cntrack;
      zoom connN (zoom natportsL (dp_remove_network_snat_port v));;
      upd_used_ports p (-1);;
      mret DP_ERROR
    else nat64_finish cntrack port nat_port r.2.

(** The first packet of a flow. *)
Definition snat_new_flow (tsc : Z) (cntrack : loc) (p : nat) (port : dp_port) : cmd node_state (option dp_edge) :=
  df ← node_df;
  snat ← (if df_l3_type df =? RTE_ETHER_TYPE_IPV4
          then zoom connN (zoom natL (dp_get_iface_snat_data (ntohl (df_src_addr df)) (if_vni (pt_iface port))))
          else mret None);
  ret ← (match snat with
         | None => mret DP_OK
         | Some snat =>
             data ← zoom connN (zoom natL (zoom snatT (ot_load snat)));
             if (negb (sd_vip_ip data =? 0) || negb (sd_nat_ip data =? 0))
                && bool_decide (df_flow_type df = DP_FLOW_SOUTH_NORTH)
             then dp_process_ipv4_snat tsc cntrack p port snat data else mret DP_OK
         end);
  if DP_FAILED ret then mret (Some EDGE_DROP)
  else
    df ← node_df;
    if (df_l3_type df =? RTE_ETHER_TYPE_IPV6) && negb (if_nat_ip (pt_iface port) =? 0)
       && dp_is_ip6_in_nat64_range (df_dst_addr6 df) && bool_decide (df_flow_type df = DP_FLOW_SOUTH_NORTH) then
      ret ← dp_process_ipv6_nat64 tsc cntrack p port;
      mret (Some (if DP_FAILED ret then EDGE_DROP else EDGE_NODE node_firewall))
    else mret None.

(** The port that a known flow got. *)
Definition change_src_port (cntrack : loc) : cmd node_state () :=
  v ← fv_of cntrack;
  if bool_decide (fv_nf_nat_type v = DP_FLOW_NAT_TYPE_NETWORK_LOCAL) then
    let nat_port := fk_port_dst (fv_key_reply v) in
    upd_node_df (λ df, df <| df_nat_port := nat_port |>);;
    df ← node_df;
    if df_l4_type df =? IPPROTO_ICMP then zoom sndL (dp_change_icmp_identifier nat_port)
    else zoom sndL (dp_change_l4_hdr_port DP_L4_PORT_DIR_SRC nat_port)
  else mret tt.

Definition snat_known_src (cntrack : loc) : cmd node_state (option dp_edge) :=
  v ← fv_of cntrack;
  if is_v6 (fk_l3_dst (fv_key_reply v)) then mret (Some EDGE_DROP)
  else
    zoom sndL (st32 (dp_get_ipv4_hdr + ip4_src) (htonl (ipv4 (fk_l3_dst (fv_key_reply v)))));;
    change_src_port cntrack;;
    finish_src_ip;;
    mret None.

(** A reply of an interface with a VIP, or of a backend, leaves from the address
    that the request was sent to. *)
Definition snat_reply (cntrack : loc) : cmd node_state (option dp_edge) :=
  v ← fv_of cntrack;
  if is_v6 (fk_l3_dst (fv_key_org v)) then mret (Some EDGE_DROP)
  else
    src_addr ← zoom sndL (ld32 (dp_get_ipv4_hdr + ip4_src));
    upd_node_df (set_df_src_addr src_addr);;
    zoom sndL (st32 (dp_get_ipv4_hdr + ip4_src) (htonl (ipv4 (fk_l3_dst (fv_key_org v)))));;
    finish_src_ip;;
    mret None.

Definition snat_known_64 (cntrack : loc) (port : dp_port) : cmd node_state (option dp_edge) :=
  r ← zoom sndL (dp_nat_chg_ipv6_to_ipv4_hdr (if_nat_ip (pt_iface port)));
  if DP_FAILED r.1 then mret (Some EDGE_DROP)
  else
    change_src_port cntrack;;
    upd_node_df (λ df, df <| df_nat_type := DP_NAT_64_CHG_SRC_IP |> <| df_nat_addr := if_nat_ip (pt_iface port) |>);;
    mret None.

(** [meter_red port len] is whether [rte_meter_srtcm_color_blind_check] colours a
    packet of [len] bytes red; the state of the meter is inside the library. *)
Definition snat_next (tsc : Z) (meter_red : dp_port → Z → bool) : cmd node_state dp_edge :=
  df ← node_df;
  inp ← in_port;
  let '(p, port) := inp : nat * dp_port in
  if negb (pt_is_pf port) && negb (if_public_flow_rate_cap (pt_iface port) =? 0)
     && bool_decide (df_flow_type df = DP_FLOW_SOUTH_NORTH)
     && ((df_l3_type df =? RTE_ETHER_TYPE_IPV4) || (df_l3_type df =? RTE_ETHER_TYPE_IPV6))
     && meter_red port (df_l3_payload_length df)
  then mret EDGE_DROP
  else
    match df_conntrack df with
    | None => mret (EDGE_NODE node_firewall)
    | Some cntrack =>
        v ← fv_of cntrack;
        (if DP_FLOW_HAS_NO_FLAGS (fv_flow_flags v) && bool_decide (df_flow_dir df = DP_FLOW_DIR_ORG)
         then snat_new_flow tsc cntrack p port else mret None) ?;;
        v ← fv_of cntrack;
        (if DP_FLOW_HAS_FLAG_SRC_NAT (fv_flow_flags v) && bool_decide (df_flow_dir df = DP_FLOW_DIR_ORG)
         then snat_known_src cntrack else mret None) ?;;
        (if (DP_FLOW_HAS_FLAG_DST_NAT (fv_flow_flags v) || DP_FLOW_HAS_FLAG_DST_LB (fv_flow_flags v))
            && bool_decide (df_flow_dir df = DP_FLOW_DIR_REPLY)
         then snat_reply cntrack else mret None) ?;;
        (if DP_FLOW_HAS_FLAG_SRC_NAT64 (fv_flow_flags v) && bool_decide (df_flow_dir df = DP_FLOW_DIR_ORG)
         then snat_known_64 cntrack port else mret None) ?;;
        mret (EDGE_NODE node_firewall)
    end.

(** ** Load balancing (src/nodes/lb_node.c) *)

Definition dp_lb_set_next_hop (port_id : Z) : cmd node_state () :=
  df ← node_df;
  vnf ← zoom connN (zoom vnfL (dp_get_vnf (df_ul_dst_addr6 df)));
  let recirc := match vnf with
                | Some vnf => bool_decide (vnf_type vnf = DP_VNF_TYPE_LB_ALIAS_PFX)
                | None => false
                end in
  if recirc then upd_node_df (λ df, df <| df_nat_type := DP_LB_RECIRC |>)
  else upd_node_df (λ df, df <| df_nxt_hop := port_id |> <| df_nat_type := DP_CHG_UL_DST_IP |>).

(** The tunnel to the backend. *)
Definition lb_set_target (target_ip6 : Z) : cmd node_state () :=
  upd_node_df (λ df, df <| df_ul_src_addr6 := df_ul_dst_addr6 df |> <| df_ul_dst_addr6 := target_ip6 |>).

(** What happens to an ICMP packet of a new flow. *)
Definition lb_icmp (df : dp_flow) : option dp_edge :=
  if (df_l4_type df =? IPPROTO_ICMP) || (df_l4_type df =? IPPROTO_ICMPV6) then
    if (df_icmp_type df =? RTE_IP_ICMP_ECHO_REQUEST) || (df_icmp_type df =? DP_ICMPV6_ECHO_REQUEST)
    then Some (EDGE_NODE node_packet_relay)
    else if negb (df_icmp_type df =? DP_IP_ICMP_TYPE_ERROR) then Some EDGE_DROP else None
  else None.

Definition lb_new_flow (cntrack : loc) (vni : Z) : cmd node_state dp_edge :=
  df ← node_df;
  match lb_icmp df with
  | Some e =>
      (if bool_decide (e = EDGE_NODE node_packet_relay)
       then upd_node_df (λ df, df <| df_nat_type := DP_CHG_UL_DST_IP |>) else mret tt);;
      mret e
  | None =>
      v ← fv_of cntrack;
      target_ip6 ← zoom lbN (dp_lb_get_backend_ip (fv_key_org v) vni);
      match target_ip6 with
      | None => mret EDGE_DROP
      | Some target_ip6 =>
          lb_set_target target_ip6;;
          upd_fv cntrack (λ v, v <| fv_nf_underlay_dst := target_ip6 |>
                                 <| fv_flow_flags := Z.lor (fv_flow_flags v) DP_FLOW_FLAG_DST_LB |>);;
          m_port ← zoom sndL (gets mb_port);
          dp_lb_set_next_hop m_port;;
          df ← node_df;
          (if negb (bool_decide (df_nat_type df = DP_LB_RECIRC)) then
             upd_fv cntrack (λ v, v <| fv_nf_nat_type := DP_FLOW_LB_TYPE_FORWARD |>);;
             del_reply_key cntrack
           else upd_fv cntrack (λ v, v <| fv_nf_nat_type := DP_FLOW_LB_TYPE_RECIRC |>));;
          mret (EDGE_NODE node_ipip_encap)
      end
  end.

Definition lb_next : cmd node_state dp_edge :=
  df ← node_df;
  match df_conntrack df with
  | None => mret (EDGE_NODE node_dnat)
  | Some cntrack =>
      vni ← vni_of df;
      v ← fv_of cntrack;
      is_lb ← (if DP_FLOW_HAS_NO_FLAGS (fv_flow_flags v) && bool_decide (df_flow_dir df = DP_FLOW_DIR_ORG)
               then zoom lbN (dp_is_ip_lb df vni) else mret false);
      if (is_lb : bool) then lb_new_flow cntrack vni
      else if DP_FLOW_HAS_FLAG_DST_LB (fv_flow_flags v) && bool_decide (df_flow_dir df = DP_FLOW_DIR_ORG) then
        lb_set_target (fv_nf_underlay_dst v);;
        m_port ← zoom sndL (gets mb_port);
        dp_lb_set_next_hop m_port;;
        mret (EDGE_NODE node_ipip_encap)
      else if DP_FLOW_HAS_FLAG_DEFAULT (fv_flow_flags v)
              && ((df_l4_type df =? IPPROTO_ICMP) || (df_l4_type df =? IPPROTO_ICMPV6)) then
        upd_node_df (λ df, df <| df_nat_type := DP_CHG_UL_DST_IP |>);;
        mret (EDGE_NODE node_packet_relay)
      else mret (EDGE_NODE node_dnat)
  end.

(** [lb_node_process]: without load balancers all packets are forwarded. *)
Definition lb_process_next : cmd node_state dp_edge :=
  enabled ← zoom lbN dp_is_lb_enabled;
  if (enabled : bool) then lb_next else mret (EDGE_NODE node_dnat).

(** ** The firewall (src/nodes/firewall_node.c) *)

(** The verdict is computed once per flow and kept in it; the code that would
    drop a packet for it is commented out. *)
Definition firewall_verdict (cntrack : loc) (inp outp : option nat) : cmd node_state dp_fwall_action :=
  df ← node_df;
  v ← fv_of cntrack;
  if DP_FLOW_HAS_FLAG_FIREWALL (fv_flow_flags v) then
    mret (match df_flow_dir df with
          | DP_FLOW_DIR_ORG => fv_fwall_action_org v
          | DP_FLOW_DIR_REPLY => fv_fwall_action_reply v
          end)
  else if bool_decide (df_flow_dir df = DP_FLOW_DIR_ORG) then
    match inp, outp with
    | Some inp, Some outp =>
        action ← zoom connN (zoom portsL (dp_get_firewall_action df inp outp));
        upd_fv cntrack (λ v, v <| fv_fwall_action_org := action |> <| fv_fwall_action_reply := action |>
                               <| fv_flow_flags := Z.lor (fv_flow_flags v) DP_FLOW_FLAG_FIREWALL |>);;
        mret action
    | _, _ => fault
    end
  else mret DP_FWALL_DROP.

Definition firewall_next (next_tx_index : gset Z) : cmd node_state dp_edge :=
  df ← node_df;
  inp ← zoom pktN in_port_ptr;
  outp ← out_port_ptr;
  (match df_conntrack df with
   | Some cntrack => firewall_verdict cntrack inp outp;; mret tt
   | None => mret tt
   end);;
  match outp with
  | None => fault
  | Some p =>
      out ← zoom connN (zoom portsL (get_port p));
      if pt_is_pf out then mret (EDGE_NODE node_ipip_encap) else tx_edge next_tx_index (pt_port_id out)
  end.

(** ** Encapsulation (src/nodes/ipip_encap_node.c) *)

(** The protocol, the length of the payload and the type of the new packet. *)
Definition encap_params (df : dp_flow) : cmd rte_mbuf (option (Z * Z * Z)) :=
  let outer := Z.lor RTE_PTYPE_L3_IPV6 RTE_PTYPE_TUNNEL_IP in
  if df_l3_type df =? RTE_ETHER_TYPE_IPV4 then
    total_length ← ld16 (dp_get_ipv4_hdr + ip4_total_length);
    mret (Some (IPPROTO_IPIP, total_length, Z.lor (Z.lor outer RTE_PTYPE_INNER_L3_IPV4) RTE_PTYPE_L2_ETHER))
  else if df_l3_type df =? RTE_ETHER_TYPE_IPV6 then
    payload_len ← ld16 (dp_get_ipv6_hdr + ip6_payload_len);
    mret (Some (IPPROTO_IPV6, htons (u16 (ntohs payload_len + sizeof_ipv6_hdr)),
                Z.lor (Z.lor outer RTE_PTYPE_INNER_L3_IPV6) RTE_PTYPE_L2_ETHER))
  else mret None.

(** The tunnel header after the Ethernet header. *)
Definition encap_hdr (payload_len src dst proto : Z) : cmd rte_mbuf () :=
  let ipv6_hdr := sizeof_ether_hdr in
  st8 (ipv6_hdr + ip6_hop_limits) DP_IP6_HOP_LIMIT;;
  st16 (ipv6_hdr + ip6_payload_len) payload_len;;
  st32 (ipv6_hdr + ip6_vtc_flow) (htonl DP_IP6_VTC_FLOW);;
  st128 (ipv6_hdr + ip6_src) src;;
  st128 (ipv6_hdr + ip6_dst) dst;;
  st8 (ipv6_hdr + ip6_proto) proto.

(** [underlay_ip] is [dp_conf_get_underlay_ip()]. *)
Definition ipip_encap_next (underlay_ip : Z) (next_tx_index : gset Z) : cmd node_state dp_edge :=
  df ← node_df;
  params ← zoom sndL (encap_params df);
  match params with
  | None => mret EDGE_DROP
  | Some (proto_id, payload_len, packet_type) =>
      upd_node_df (λ df, df <| df_tun_proto_id := proto_id |>);;
      zoom sndL (modify (λ m, m <| mb_outer_l2_len := sizeof_ether_hdr |> <| mb_outer_l3_len := sizeof_ipv6_hdr |>
                                <| mb_l2_len := 0 |>));;
      zoom sndL (mbuf_move (rte_pktmbuf_adj sizeof_ether_hdr));;
      ok ← zoom sndL (mbuf_move (rte_pktmbuf_prepend (sizeof_ether_hdr + sizeof_ipv6_hdr)));
      if negb ok then mret EDGE_DROP
      else
        outp ← out_port_ptr;
        out ← zoom connN (deref_port outp);
        zoom sndL (dp_fill_ether_hdr 0 out RTE_ETHER_TYPE_IPV6);;
        let recirc := bool_decide (df_nat_type df = DP_LB_RECIRC) in
        src ← (if recirc then mret (df_ul_src_addr6 df)
               else inp ← in_port; mret (dp_get_port_ul_ipv6 underlay_ip inp.2));
        zoom sndL (encap_hdr payload_len src (df_ul_dst_addr6 df) proto_id);;
        zoom sndL (modify (λ m, add_ol_flags RTE_MBUF_F_TX_TUNNEL_IP
          (add_ol_flags RTE_MBUF_F_TX_OUTER_IPV6 (m <| mb_packet_type := packet_type |>))));;
        if recirc then
          zoom sndL (modify (λ m, m <| mb_mark := MkMark (pm_id (mb_mark m)) true |>));;
          mret (EDGE_NODE node_cls)
        else tx_edge next_tx_index (df_nxt_hop df)
  end.

(** ** Decapsulation (src/nodes/ipip_decap_node.c) *)

Definition ipip_decap_next : cmd node_state dp_edge :=
  df ← node_df;
  vnf ← zoom connN (zoom vnfL (dp_get_vnf (df_ul_dst_addr6 df)));
  match vnf with
  | None => mret EDGE_DROP
  | Some vnf =>
      dst ← zoom connN (zoom portsL (dp_get_port_by_id (vnf_port_id vnf)));
      match dst with
      | None => mret EDGE_DROP
      | Some p =>
          upd_node_df (λ df, df <| df_tun_dst_vni := vnf_vni vnf |> <| df_vnf_type := vnf_type vnf |>
                                <| df_nxt_hop := vnf_port_id vnf |>);;
          let l3_type := if df_tun_proto_id df =? IPPROTO_IPIP then Some RTE_PTYPE_L3_IPV4
                         else if df_tun_proto_id df =? IPPROTO_IPV6 then Some RTE_PTYPE_L3_IPV6 else None in
          match l3_type with
          | None => mret EDGE_DROP
          | Some l3_type =>
              zoom sndL (mbuf_move (rte_pktmbuf_adj (sizeof_ether_hdr + sizeof_ipv6_hdr)));;
              ok ← zoom sndL (mbuf_move (rte_pktmbuf_prepend sizeof_ether_hdr));
              if negb ok then fault
              else
                port ← zoom connN (zoom portsL (get_port p));
                zoom sndL (dp_fill_ether_hdr 0 port (df_l3_type df));;
                zoom sndL (modify (λ m, m <| mb_packet_type :=
                  Z.lor (Z.lor (Z.shiftr (Z.land (mb_packet_type m) RTE_PTYPE_INNER_L4_MASK) 16) l3_type)
                    RTE_PTYPE_L2_ETHER |>));;
                mret (EDGE_NODE node_conntrack)
          end
      end
  end.

(** ** Relaying (src/nodes/packet_relay_node.c) *)

(** The new checksum when the type of a message changes from request to reply. *)
Definition echo_reply_cksum (cksum : Z) : Z :=
  let sum := u32 (not16 cksum + not16 (htons (Z.shiftl RTE_IP_ICMP_ECHO_REQUEST 8))
                  + htons (Z.shiftl RTE_IP_ICMP_ECHO_REPLY 8)) in
  not16 (fold16 (fold16 sum)).

(** The packet goes back through the tunnel it came from. *)
Definition relay_back : cmd node_state dp_edge :=
  upd_node_df (λ df, df <| df_ul_dst_addr6 := df_ul_src_addr6 df |>);;
  mret (EDGE_NODE node_ipip_encap).
Definition next_hop_is_port : cmd node_state () :=
  m_port ← zoom sndL (gets mb_port);
  upd_node_df (λ df, df <| df_nxt_hop := m_port |>).

Definition lb_nnat_icmp_reply : cmd node_state dp_edge :=
  let ipv4_hdr := dp_get_ipv4_hdr in
  let icmp_hdr := ipv4_hdr + sizeof_ipv4_hdr in
  type ← zoom sndL (ld8 (icmp_hdr + icmp_type));
  if negb (type =? RTE_IP_ICMP_ECHO_REQUEST) then mret EDGE_DROP
  else
    zoom sndL (st8 (icmp_hdr + icmp_type) RTE_IP_ICMP_ECHO_REPLY);;
    cksum ← zoom sndL (ld16 (icmp_hdr + icmp_cksum));
    zoom sndL (st16 (icmp_hdr + icmp_cksum) (echo_reply_cksum cksum));;
    temp_ip ← zoom sndL (ld32 (ipv4_hdr + ip4_dst));
    src_addr ← zoom sndL (ld32 (ipv4_hdr + ip4_src));
    zoom sndL (st32 (ipv4_hdr + ip4_dst) src_addr);;
    zoom sndL (st32 (ipv4_hdr + ip4_src) temp_ip);;
    next_hop_is_port;;
    zoom sndL (dp_nat_chg_ip ipv4_hdr);;
    relay_back.

Definition lb_nnat_icmpv6_reply : cmd node_state dp_edge :=
  let ipv6_hdr := dp_get_ipv6_hdr in
  let icmp6_hdr := ipv6_hdr + sizeof_ipv6_hdr in
  type ← zoom sndL (ld8 (icmp6_hdr + icmp_type));
  if negb (type =? DP_ICMPV6_ECHO_REQUEST) then mret EDGE_DROP
  else
    zoom sndL (st8 (icmp6_hdr + icmp_type) DP_ICMPV6_ECHO_REPLY);;
    zoom sndL (st16 (icmp6_hdr + icmp_cksum) 0);;
    cksum ← zoom sndL (gets (λ m, rte_ipv6_udptcp_cksum m ipv6_hdr icmp6_hdr));
    zoom sndL (st16 (icmp6_hdr + icmp_cksum) cksum);;
    temp_addr ← zoom sndL (ld128 (ipv6_hdr + ip6_dst));
    src_addr ← zoom sndL (ld128 (ipv6_hdr + ip6_src));
    zoom sndL (st128 (ipv6_hdr + ip6_dst) src_addr);;
    zoom sndL (st128 (ipv6_hdr + ip6_src) temp_addr);;
    next_hop_is_port;;
    relay_back.

Definition packet_relay_next : cmd node_state dp_edge :=
  df ← node_df;
  match df_conntrack df with
  | None => mret EDGE_DROP
  | Some cntrack =>
      v ← fv_of cntrack;
      if bool_decide (fv_nf_nat_type v = DP_FLOW_NAT_TYPE_NETWORK_NEIGH) then
        next_hop_is_port;;
        lb_set_target (fv_nf_underlay_dst v);;
        mret (EDGE_NODE node_ipip_encap)
      else if df_l4_type df =? IPPROTO_ICMP then lb_nnat_icmp_reply
      else if df_l4_type df =? IPPROTO_ICMPV6 then lb_nnat_icmpv6_reply
      else mret EDGE_DROP
  end.

(** ** Transmission (src/nodes/tx_node.c) *)

(** What happens to the connection of a packet that leaves; [offload] is
    [dp_offload_handler]. *)
Definition tx_pkt (offload : cmd node_state Z) : cmd node_state () :=
  df ← node_df;
  match df_conntrack df with
  | None => mret tt
  | Some cntrack =>
      v ← fv_of cntrack;
      (if negb (DP_FLOW_HAS_FLAG_NF (fv_flow_flags v))
       then upd_fv cntrack (λ v, v <| fv_flow_flags := Z.lor (fv_flow_flags v) DP_FLOW_FLAG_DEFAULT |>)
       else mret tt);;
      df ← node_df;
      if bool_decide (df_offload_state df = DP_FLOW_OFFLOAD_INSTALL) then offload;; mret tt else mret tt
  end.
End nodes.
