(* ===== verification/Forward.v ===== *)
(** * What the nodes do to a packet

    Facts about the nodes of src/nodes/ that change packets: the translation of
    addresses and ports and its inverse for the answer, the tunnel between
    hypervisors, the choice of a load-balancer target, and the answers of the
    service itself. *)

From S2P Require Import Prelude Dpdk Error Types Port Firewall Rib Lb Vnf Conn Mbuf Graph Multipath Nat Vni Lpm Flow Nat64 Cntrack Virtsvc Nodes.

(** ** Connections in packets and keys *)

(** The addresses and ports of a connection, in host order. *)
Record conn_tuple := MkTuple { t_src : Z; t_dst : Z; t_sport : Z; t_dport : Z }.
Definition mirror (t : conn_tuple) : conn_tuple := MkTuple (t_dst t) (t_src t) (t_dport t) (t_sport t).

Definition tuple_of (m : rte_mbuf) : conn_tuple :=
  let l4 := dp_get_ipv4_hdr + sizeof_ipv4_hdr in
  MkTuple (ntohl (mget m 4 (dp_get_ipv4_hdr + ip4_src))) (ntohl (mget m 4 (dp_get_ipv4_hdr + ip4_dst)))
    (ntohs (mget m 2 (l4 + l4_src_port))) (ntohs (mget m 2 (l4 + l4_dst_port))).

(** The key is one of IPv4 with the tuple [t]. *)
Record key_of (k : flow_key) (t : conn_tuple) : Prop := {
  ko_v4 : is_v6 (fk_l3_src k) = false ∧ is_v6 (fk_l3_dst k) = false;
  ko_src : ipv4 (fk_l3_src k) = t_src t;
  ko_dst : ipv4 (fk_l3_dst k) = t_dst t;
  ko_sport : fk_port_src k = t_sport t;
  ko_dport : fk_port_dst k = t_dport t
}.

(** A whole packet of TCP or UDP over IPv4. *)
Record l4_pkt (m : rte_mbuf) : Prop := {
  lp_in : in_pkt m 0 54 = true;
  lp_u8 : Forall is_u8 (mb_buf m);
  lp_proto : l4_proto_ok (df_l4_type (mb_flow m))
}.

(** ** Facts: headers *)

(** [pkt_flow] takes the private area back through stores to the packet. *)
Ltac pkt_flow := repeat match goal with H : mb_flow ?m = mb_flow _ |- context [mb_flow ?m] => rewrite H; clear H end.

(** What was stored in network order is read back. *)
Lemma bswap32_stored z : is_u32 z → ntohl (htonl z mod 2 ^ (8 * Z.of_nat 4)) = z.
Proof. intros Hz. rewrite Z.mod_small by apply (bswap32_range z). by apply bswap32_involutive. Qed.
Lemma bswap16_stored z : is_u16 z → ntohs (htons z mod 2 ^ (8 * Z.of_nat 2)) = z.
Proof. intros Hz. rewrite Z.mod_small by apply (bswap16_range z). by apply bswap16_involutive. Qed.

Section headers.
Context `{HN : RteNet} {HNO : RteNetOk}.

(** The packet is the same but for checksums and what DPDK needs to compute them. *)
Record same_but_cksums (m m' : rte_mbuf) : Prop := {
  sc_tuple : tuple_of m' = tuple_of m;
  sc_flow : mb_flow m' = mb_flow m;
  sc_off : mb_data_off m' = mb_data_off m;
  sc_size : length (mb_buf m') = length (mb_buf m);
  sc_u8 : Forall is_u8 (mb_buf m) → Forall is_u8 (mb_buf m');
  sc_port : mb_port m' = mb_port m;
  sc_len : mb_data_len m' = mb_data_len m
}.

Lemma wp_nat_chg_ip m (Q : () → rte_mbuf → Prop) :
  l4_pkt m → (∀ m', same_but_cksums m m' → Q tt m') → wp (dp_nat_chg_ip dp_get_ipv4_hdr) Q m.
Proof.
  intros [Hin _ Hp] HQ. unfold dp_nat_chg_ip, get_df. net_unfold. pkt_run.
  destruct Hp as [Hp|Hp]; rewrite Hp; cbn [Z.eqb Pos.eqb IPPROTO_TCP IPPROTO_UDP]; unfold offload_tcp_cksum, offload_udp_cksum, set_l4_len;
    net_unfold; pkt_run; apply HQ; unfold in_pkt in Hin; rewrite in_buf_spec in Hin; constructor; try congruence;
    try (by intros; pkt_u8); unfold tuple_of; net_unfold; f_equal; by pkt_read.
Qed.
End headers.

(** ** Facts: the flow of a packet *)

Section flow_steps.
Context `{HH : RteHash} {HO : RteHashOk} `{HM : RteMalloc} `{HR : RteRib} `{HN : RteNet}.
Implicit Types (d : data_state) (m : rte_mbuf) (p : loc) (v : flow_value).

Definition flow_at d p : option flow_value := flow_objs (cs_flow (da_conn d)) !! p.
Definition flow_entries d : gmap flow_key loc := flow_tbl (cs_flow (da_conn d)).

(** The flow [p] is [v] and the entries are [t]; the other components are as in [d]. *)
Record flow_changed d p v (t : gmap flow_key loc) d' : Prop := {
  fc_at : flow_at d' p = Some v;
  fc_entries : flow_entries d' = t;
  fc_nat : cs_nat (da_conn d') = cs_nat (da_conn d);
  fc_ports : cs_ports (da_conn d') = cs_ports (da_conn d);
  fc_vnf : cs_vnf (da_conn d') = cs_vnf (da_conn d);
  fc_vni : da_vni d' = da_vni d;
  fc_lb : da_lb d' = da_lb d
}.

Lemma wp_fv_of d m p v (Q : flow_value → node_state → Prop) :
  flow_at d p = Some v → Q v (d, m) → wp (fv_of p) Q (d, m).
Proof. intros Hp HQ. destruct d. apply wp_zoom. by eapply wp_fv_load. Qed.
Lemma wp_upd_fv d m p v f (Q : () → node_state → Prop) :
  flow_at d p = Some v → (∀ d', flow_changed d p (f v) (flow_entries d) d' → Q tt (d', m)) → wp (upd_fv p f) Q (d, m).
Proof.
  intros Hp HQ. unfold upd_fv. apply wp_bind. eapply wp_fv_of; [done|]. apply wp_zoom.
  eapply wp_fv_store; [done|]. apply HQ. constructor; try done. unfold flow_at, flow_objs. cbn. by rewrite lookup_insert_eq.
Qed.
Lemma wp_upd_reply_key d m p v f (Q : () → node_state → Prop) :
  flow_at d p = Some v →
  (∀ d', flow_changed d p (v <| fv_key_reply := f (fv_key_reply v) |>) (flow_entries d) d' → Q tt (d', m)) →
  wp (upd_reply_key p f) Q (d, m).
Proof. intros Hp HQ. unfold upd_reply_key. by eapply wp_upd_fv. Qed.
Lemma wp_del_reply_key d m p v (Q : () → node_state → Prop) :
  flow_at d p = Some v →
  (∀ d', flow_changed d p v (delete (fv_key_reply v) (flow_entries d)) d' → Q tt (d', m)) →
  wp (del_reply_key p) Q (d, m).
Proof.
  intros Hp HQ. unfold del_reply_key. apply wp_bind. eapply wp_fv_of; [done|]. apply wp_zoom.
  unfold dp_delete_flow, dp_delete_flow_no_flush, dp_cntrack_flush_cache. wp_steps. apply HQ.
  constructor; try done. apply contents_del.
Qed.
Lemma wp_add_reply_key d m p v (Q : Z → node_state → Prop) :
  flow_at d p = Some v →
  (∀ r d', r < 0 → flow_changed d p v (flow_entries d) d' → Q r (d', m)) →
  (∀ d', flow_changed d p v (<[fv_key_reply v := p]> (flow_entries d)) d' → Q DP_OK (d', m)) →
  wp (add_reply_key p) Q (d, m).
Proof.
  intros Hp Hf Hok. unfold add_reply_key. apply wp_bind. eapply wp_fv_of; [done|]. apply wp_zoom. apply wp_add_flow.
  - intros r tbl Hr Ht. by apply Hf.
  - intros tbl Ht. by apply Hok.
Qed.
Lemma wp_node_df d m (Q : dp_flow → node_state → Prop) : Q (mb_flow m) (d, m) → wp node_df Q (d, m).
Proof. done. Qed.
Lemma wp_upd_node_df d m f (Q : () → node_state → Prop) :
  Q tt (d, m <| mb_flow := f (mb_flow m) |>) → wp (upd_node_df f) Q (d, m).
Proof. done. Qed.
Lemma wp_upd_used_ports d m i port n (Q : () → node_state → Prop) :
  ps_ports (cs_ports (da_conn d)) !! i = Some port →
  (∀ d', flow_entries d' = flow_entries d → (∀ p, flow_at d' p = flow_at d p) → Q tt (d', m)) →
  wp (upd_used_ports i n) Q (d, m).
Proof. intros Hp HQ. unfold upd_used_ports. do 2 apply wp_zoom. eapply wp_upd_port; [done|]. by apply HQ. Qed.
Lemma wp_nat_zoom {A} d m (c : cmd nat_state A) R (Q : A → node_state → Prop) :
  wp c R (cs_nat (da_conn d)) →
  (∀ a nat d', R a nat → flow_entries d' = flow_entries d → (∀ p, flow_at d' p = flow_at d p) →
     cs_ports (da_conn d') = cs_ports (da_conn d) → Q a (d', m)) →
  wp (zoom connN (zoom natL c)) Q (d, m).
Proof. intros Hc HQ. do 2 apply wp_zoom. eapply wp_mono; [done|]. intros a nat Hr. by eapply HQ. Qed.
End flow_steps.

(** ** Network address translation *)

Section nat_nodes.
Context `{HH : RteHash} {HO : RteHashOk} `{HM : RteMalloc} {MO : RteMallocOk} `{HR : RteRib} `{HN : RteNet} {HNO : RteNetOk}.
Implicit Types (d : data_state) (m : rte_mbuf) (p : loc) (v : flow_value).

(** The packet now comes from [ip] and [port]. *)
Record src_changed (ip port : Z) m m' : Prop := {
  sc_new : tuple_of m' = MkTuple ip (t_dst (tuple_of m)) port (t_dport (tuple_of m));
  sc_df : mb_flow m' = (mb_flow m) <| df_nat_port := port |>;
  sc_pkt : l4_pkt m'
}.
(** The flow is one of a network NAT, with the keys and flags of [v]. *)
Record local_nat v v' : Prop := {
  ln_org : fv_key_org v' = fv_key_org v;
  ln_reply : fv_key_reply v' = fv_key_reply v;
  ln_flags : fv_flow_flags v' = fv_flow_flags v;
  ln_type : fv_nf_nat_type v' = DP_FLOW_NAT_TYPE_NETWORK_LOCAL
}.

Lemma wp_snat_network E d m tsc p v i port snat sd (Q : bool → node_state → Prop) :
  flow_at d p = Some v → l4_pkt m → alloc_pre E (cs_nat (da_conn d)) (SnatEntry snat) sd (mb_flow m) →
  ps_ports (cs_ports (da_conn d)) !! i = Some port → is_u32 (sd_nat_ip sd) →
  (∀ d', Q false (d', m)) →
  (∀ nat_port v' d' m', is_u16 nat_port → local_nat v v' → flow_at d' p = Some v' → flow_entries d' = flow_entries d →
     src_changed (sd_nat_ip sd) nat_port m m' → Q true (d', m')) →
  wp (snat_network tsc p i port snat (sd_nat_ip sd)) Q (d, m).
Proof.
  intros Hp Hm Ha Hport Hip Hfail Hok. unfold snat_network. apply wp_bind, wp_node_df, wp_bind.
  eapply wp_nat_zoom; [by apply (wp_allocate E)|]. intros ret nat d1 _ Ht1 Hp1 Hports.
  destruct (DP_FAILED ret); [by apply wp_ret, Hfail|]. cbv zeta. pose proof (u16_range ret) as Hr.
  destruct Hm as [Hin Hu Hl4]. apply wp_bind. net_unfold. node_run.
  eapply wp_upd_used_ports; [by rewrite Hports|]. intros d2 Ht2 Hp2.
  rewrite (proj2 (Z.eqb_neq (df_l4_type (mb_flow m)) IPPROTO_ICMP)) by (by destruct Hl4 as [-> | ->]).
  unfold dp_change_l4_hdr_port. net_unfold. cbn [Z.eqb Pos.eqb DP_L4_PORT_DIR_SRC]. node_run.
  unfold set_nat_info. apply wp_bind, wp_node_df. net_unfold. node_run.
  eapply wp_upd_fv; [by rewrite Hp2, Hp1|]. intros d3 [Hp3 Ht3 _ _ _ _ _]. node_run. apply wp_upd_node_df. node_run.
  eapply (Hok (u16 ret)); [done| |exact Hp3|congruence|]; [by constructor|].
  unfold in_pkt in Hin. rewrite in_buf_spec in Hin.
  assert (Hg : ∀ k off, mget (m'0 <| mb_flow := (mb_flow m'0) <| df_nat_port := u16 ret |> |>) k off = mget m'0 k off) by done.
  constructor.
  - unfold tuple_of. rewrite !Hg. net_unfold. f_equal; pkt_read; [by apply bswap32_stored|done|by apply bswap16_stored|done].
  - cbn. by pkt_flow.
  - constructor; [unfold in_pkt; rewrite in_buf_spec; cbn; lia|by cbn; pkt_u8|]. cbn. by pkt_flow.
Qed.

Lemma wp_finish_src_ip d m (Q : () → node_state → Prop) :
  l4_pkt m →
  (∀ m', tuple_of m' = tuple_of m → df_nat_port (mb_flow m') = df_nat_port (mb_flow m) → l4_pkt m' → Q tt (d, m')) →
  wp finish_src_ip Q (d, m).
Proof.
  intros [Hin Hu Hp] HQ. unfold finish_src_ip. net_unfold. node_run. apply wp_upd_node_df. node_run.
  apply wp_nat_chg_ip; [by constructor|]. intros m' [Ht Hf Ho Hs Hu' _ _]. node_simpl. cbn in Ho, Hs. apply HQ; [done|by rewrite Hf|].
  unfold in_pkt in Hin. rewrite in_buf_spec in Hin.
  constructor; [unfold in_pkt; rewrite in_buf_spec; lia|by apply Hu'|by rewrite Hf].
Qed.

(** A new connection of an interface with a network NAT. *)
Record new_conn E d m p v i port snat sd : Prop := {
  nc_flow : flow_at d p = Some v;
  nc_flags : fv_flow_flags v = DP_FLOW_FLAG_NONE;
  nc_pkt : l4_pkt m;
  nc_org : key_of (fv_key_org v) (tuple_of m);
  nc_reply : key_of (fv_key_reply v) (mirror (tuple_of m));
  nc_port : ps_ports (cs_ports (da_conn d)) !! i = Some port;
  nc_alloc : alloc_pre E (cs_nat (da_conn d)) (SnatEntry snat) sd (mb_flow m);
  nc_nat : is_u32 (sd_nat_ip sd) ∧ sd_nat_ip sd ≠ 0 ∧ sd_vip_ip sd = 0
}.
(** The packet leaves from the NAT address and a port, and the flow expects the answer to it. *)
Record conn_translated m p v sd d' m' : Prop := {
  ct_src : ∃ nat_port, tuple_of m' = MkTuple (sd_nat_ip sd) (t_dst (tuple_of m)) nat_port (t_dport (tuple_of m));
  ct_flow : ∃ v', flow_at d' p = Some v' ∧ fv_key_org v' = fv_key_org v ∧ fv_flow_flags v' = DP_FLOW_FLAG_SRC_NAT
    ∧ fv_nf_nat_type v' = DP_FLOW_NAT_TYPE_NETWORK_LOCAL ∧ key_of (fv_key_reply v') (mirror (tuple_of m'))
    ∧ flow_entries d' !! fv_key_reply v' = Some p
}.

Lemma wp_process_ipv4_snat E d m tsc p v i port snat sd :
  new_conn E d m p v i port snat sd →
  wp (dp_process_ipv4_snat tsc p i port snat sd)
    (λ ret s', ret = DP_ERROR ∨ ret = DP_OK ∧ conn_translated m p v sd s'.1 s'.2) (d, m).
Proof.
  intros [Hp Hfl Hm Horg Hrep Hport Ha (Hip & Hnz & Hvip)]. unfold dp_process_ipv4_snat.
  rewrite Hvip, (proj2 (Z.eqb_neq _ _) Hnz). cbn [negb Z.eqb]. wp_steps.
  eapply wp_snat_network; [done..|intros d'; wp_steps; by left|]. intros nat_port v1 d1 m1 Hnp [Ho1 Hr1 Hf1 Hn1] Hp1 Ht1 [Hc Hdf Hm1].
  wp_steps. apply wp_finish_src_ip; [done|]. intros m2 Htm2 Hnp2 Hm2. wp_steps.
  eapply wp_upd_fv; [done|]. intros d2 [Hp2 _ _ _ _ _ _]. wp_steps.
  eapply wp_del_reply_key; [done|]. intros d3 [Hp3 Ht3 _ _ _ _ _]. wp_steps.
  apply wp_ld; [apply (in_pkt_sub _ _ _ _ _ (lp_in _ Hm2)); done|]. node_simpl.
  change (bswap32 (mget m2 4 (dp_get_ipv4_hdr + ip4_src))) with (t_src (tuple_of m2)).
  apply wp_bind. eapply wp_upd_reply_key; [done|]. intros d4 [Hp4 _ _ _ _ _ _]. apply wp_bind, wp_node_df, wp_bind.
  eapply wp_upd_reply_key; [done|]. intros d5 [Hp5 _ _ _ _ _ _]. wp_steps. eapply wp_add_reply_key; [done|..].
  - intros r d6 Hr _. wp_steps. left. by rewrite DP_FAILED_neg.
  - intros d6 [Hp6 Ht6 _ _ _ _ _]. wp_steps. right. split; [done|]. rewrite Htm2, Hc, Hnp2, Hdf in *. cbn in Hp6, Ht6.
    constructor; [by exists nat_port; rewrite Htm2|]. eexists. split; [exact Hp6|]. cbn. rewrite Ho1, Hn1, Hf1, Hfl, Htm2.
    split_and!; [done..| |]; [|by rewrite Ht6, lookup_insert_eq].
    destruct Hrep as [[Hv6 _] Hs Hd Hsp Hdp]. rewrite Hr1. constructor; cbn; try done. by apply ipv4_set4.
Qed.

(** A packet of the other direction, as the connection tracking hands it on. *)
Record reply_pkt p m : Prop := {
  rp_pkt : l4_pkt m;
  rp_flow : df_conntrack (mb_flow m) = Some p;
  rp_dir : df_flow_dir (mb_flow m) = DP_FLOW_DIR_REPLY;
  rp_l3 : df_l3_type (mb_flow m) = RTE_ETHER_TYPE_IPV4
}.

Lemma wp_finish_dst_ip d m (Q : () → node_state → Prop) :
  l4_pkt m →
  (∀ m', tuple_of m' = tuple_of m → df_l3_type (mb_flow m') = df_l3_type (mb_flow m) → Q tt (d, m')) →
  wp finish_dst_ip Q (d, m).
Proof.
  intros [Hin Hu Hp] HQ. unfold finish_dst_ip. net_unfold. node_run. apply wp_upd_node_df. node_run.
  apply wp_nat_chg_ip; [by constructor|]. intros m' [Ht Hf _ _ _ _ _]. node_simpl. apply HQ; [done|by rewrite Hf].
Qed.
Lemma wp_dnat_reply d m p v (Q : option dp_edge → node_state → Prop) :
  flow_at d p = Some v → l4_pkt m → is_v6 (fk_l3_src (fv_key_org v)) = false →
  fv_nf_nat_type v = DP_FLOW_NAT_TYPE_NETWORK_LOCAL →
  is_u32 (ipv4 (fk_l3_src (fv_key_org v))) → is_u16 (fk_port_src (fv_key_org v)) →
  (∀ m', tuple_of m' = MkTuple (t_src (tuple_of m)) (ipv4 (fk_l3_src (fv_key_org v)))
                         (t_sport (tuple_of m)) (fk_port_src (fv_key_org v)) →
     df_l3_type (mb_flow m') = df_l3_type (mb_flow m) → Q None (d, m')) →
  wp (dnat_reply p) Q (d, m).
Proof.
  intros Hp Hm Hv6 Hn Hip Hport HQ. unfold dnat_reply. apply wp_bind. eapply wp_fv_of; [done|]. rewrite Hv6, Hn.
  destruct Hm as [Hin Hu Hl4]. unfold change_dst_ip. net_unfold. apply wp_bind. node_run. apply wp_node_df, wp_bind.
  rewrite bool_decide_eq_true_2 by done.
  rewrite (proj2 (Z.eqb_neq (df_l4_type (mb_flow m')) IPPROTO_ICMP)) by (pkt_flow; by destruct Hl4 as [-> | ->]).
  unfold dp_change_l4_hdr_port. net_unfold. cbn [Z.eqb Pos.eqb DP_L4_PORT_DIR_SRC DP_L4_PORT_DIR_DST]. node_run.
  unfold in_pkt in Hin. rewrite in_buf_spec in Hin.
  apply wp_finish_dst_ip; [constructor; [unfold in_pkt; rewrite in_buf_spec; lia|by pkt_u8|by pkt_flow]|].
  intros m2 Ht Hl3. node_run. apply HQ; [|by rewrite Hl3; pkt_flow]. rewrite Ht. unfold tuple_of. net_unfold.
  f_equal; pkt_read; [done|by apply bswap32_stored|done|by apply bswap16_stored].
Qed.

End nat_nodes.

(** ** Load balancing *)

Section lb_nodes.
Context `{HH : RteHash} {HO : RteHashOk} `{HM : RteMalloc} {MO : RteMallocOk} `{HR : RteRib} `{HN : RteNet} {HNO : RteNetOk}.
Implicit Types (d : data_state) (m : rte_mbuf) (p : loc) (v : flow_value).

(** The address a packet goes to, as the table of load balancers has it. *)
Definition lb_dst (df : dp_flow) : dp_ip_address :=
  if df_l3_type df =? RTE_ETHER_TYPE_IPV4 then DP_SET_IPADDR4 (ntohl (df_dst_addr df)) else DP_SET_IPADDR6 (df_dst_addr6 df).

(** A packet of the flow [p] in the original direction. *)
Record flow_pkt p m : Prop := {
  fp_flow : df_conntrack (mb_flow m) = Some p;
  fp_dir : df_flow_dir (mb_flow m) = DP_FLOW_DIR_ORG;
  fp_vni : df_tun_dst_vni (mb_flow m) ≠ 0
}.
(** Its first one, to a load balancer [lb] that serves its port and has a backend. *)
Record lb_first d m p v (lb : lb_value) : Prop := {
  lf_pkt : flow_pkt p m;
  lf_l4 : df_l4_type (mb_flow m) = IPPROTO_TCP ∨ df_l4_type (mb_flow m) = IPPROTO_UDP;
  lf_l3 : df_l3_type (mb_flow m) = RTE_ETHER_TYPE_IPV4 ∨ df_l3_type (mb_flow m) = RTE_ETHER_TYPE_IPV6;
  lf_flow : flow_at d p = Some v;
  lf_flags : fv_flow_flags v = DP_FLOW_FLAG_NONE;
  lf_entry : flow_entries d !! fv_key_org v = Some p;
  lf_keys : fv_key_reply v ≠ fv_key_org v;
  lf_key : fk_l3_dst (fv_key_org v) = lb_dst (mb_flow m);
  lf_lb : lbs (da_lb d) !! MkLbKey (df_tun_dst_vni (mb_flow m)) (lb_dst (mb_flow m)) = Some lb;
  lf_port : lb_port_scan (MkLbPort (fk_proto (fv_key_org v)) (htons (fk_port_dst (fv_key_org v)))) (lv_ports lb) = true;
  lf_backend : backends lb ≠ ∅;
  lf_inv : lb_inv (da_lb d);
  lf_vnf : vnf_inv (cs_vnf (da_conn d))
}.
(** The flow [p] is bound to the backend [target]. *)
Definition bound_to d p (target : Z) : Prop :=
  ∃ v, flow_at d p = Some v ∧ DP_FLOW_HAS_FLAG_DST_LB (fv_flow_flags v) = true ∧ fv_nf_underlay_dst v = target.

Lemma wp_set_next_hop d m port_id (Q : () → node_state → Prop) :
  vnf_inv (cs_vnf (da_conn d)) →
  (∀ df, df_ul_dst_addr6 df = df_ul_dst_addr6 (mb_flow m) → Q tt (d, m <| mb_flow := df |>)) →
  wp (dp_lb_set_next_hop port_id) Q (d, m).
Proof.
  intros Hv HQ. unfold dp_lb_set_next_hop. apply wp_bind, wp_node_df, wp_bind. do 2 apply wp_zoom.
  apply wp_get_vnf; [done|]. destruct d as [[? ? ? ?] ? ?]. cbn [lget lput vnfL connN fst snd].
  destruct (match _ with Some _ => _ | None => _ end); apply wp_upd_node_df; by apply HQ.
Qed.

Lemma wp_vni_of d m (Q : Z → node_state → Prop) :
  df_tun_dst_vni (mb_flow m) ≠ 0 → Q (df_tun_dst_vni (mb_flow m)) (d, m) → wp (vni_of (mb_flow m)) Q (d, m).
Proof. intros Hv%Z.eqb_neq HQ. unfold vni_of. rewrite Hv. by wp_steps. Qed.

(** A packet of a bound flow goes to the backend. *)
Lemma wp_lb_bound d m p target :
  bound_to d p target → flow_pkt p m → vnf_inv (cs_vnf (da_conn d)) →
  wp lb_next (λ e s, e = EDGE_NODE node_ipip_encap ∧ s.1 = d ∧ df_ul_dst_addr6 (mb_flow s.2) = target) (d, m).
Proof.
  intros (v & Hp & Hfl & Ht) [Hf Hd Hn] Hv. unfold lb_next. apply wp_bind, wp_node_df. rewrite Hf.
  apply wp_bind, wp_vni_of; [done|]. apply wp_bind. eapply wp_fv_of; [done|].
  assert (DP_FLOW_HAS_NO_FLAGS (fv_flow_flags v) = false) as ->.
  { unfold DP_FLOW_HAS_NO_FLAGS. apply Z.eqb_neq. intros H0. by rewrite H0 in Hfl. }
  wp_steps. rewrite Hfl, Hd. cbn match. unfold lb_set_target. apply wp_bind, wp_upd_node_df. node_run.
  apply wp_set_next_hop; [done|]. intros df Hdf. wp_steps. split; [done|]. split; [done|]. cbn. by rewrite Hdf.
Qed.

(** What the node does for the first packet of a flow. *)
Definition lb_bound p v (lb : lb_value) (e : dp_edge) (s : node_state) : Prop :=
  e = EDGE_NODE node_ipip_encap ∧ df_ul_dst_addr6 (mb_flow s.2) ∈ backends lb
  ∧ bound_to s.1 p (df_ul_dst_addr6 (mb_flow s.2)) ∧ flow_entries s.1 !! fv_key_org v = Some p.

Lemma wp_lb_new_flow d m p v lb :
  lb_first d m p v lb → wp (lb_new_flow p (df_tun_dst_vni (mb_flow m))) (lb_bound p v lb) (d, m).
Proof.
  intros [[Hf Hd Hn] Hl4 Hl3 Hp Hfl Hent Hkeys Hkey Hlb Hport Hback Hinv Hv]. unfold lb_new_flow. apply wp_bind, wp_node_df.
  assert (lb_icmp (mb_flow m) = None) as -> by (unfold lb_icmp; by destruct Hl4 as [-> | ->]).
  apply wp_bind. eapply wp_fv_of; [done|]. apply wp_bind, wp_zoom.
  eapply wp_mono; [by apply get_backend_ip_spec|]. intros r lb' (_ & _ & Hr). cbn [lget lbN fst] in Hr.
  rewrite Hkey, Hlb, Hport in Hr. destruct (backend_cycle_head lb) as [k Hk]; [by eapply lbi_ok|done|]. rewrite Hk in Hr.
  destruct Hr as (target & -> & _ & Hin & _). unfold lb_set_target. apply wp_bind, wp_upd_node_df, wp_bind.
  eapply wp_upd_fv; [done|]. intros d1 [Hp1 Ht1 _ _ Hv1 _ _]. cbn in Hv1. node_run.
  apply wp_set_next_hop; [by rewrite Hv1|]. intros df Hdf. cbn in Hdf. wp_steps. apply wp_node_df.
  destruct (negb _).
  - wp_steps. eapply wp_upd_fv; [done|]. intros d2 [Hp2 Ht2 _ _ _ _ _]. wp_steps.
    eapply wp_del_reply_key; [done|]. intros d3 [Hp3 Ht3 _ _ _ _ _]. wp_steps. split; [done|]. cbn. rewrite Hdf.
    split; [done|]. split; [eexists; split; [exact Hp3|]; cbn; by rewrite Hfl|].
    rewrite Ht3, lookup_delete_ne by done. cbn. by rewrite Ht2, Ht1.
  - wp_steps. eapply wp_upd_fv; [done|]. intros d2 [Hp2 Ht2 _ _ _ _ _]. wp_steps. split; [done|]. cbn. rewrite Hdf.
    split; [done|]. split; [eexists; split; [exact Hp2|]; cbn; by rewrite Hfl|]. by rewrite Ht2, Ht1.
Qed.

(** C8. Load balancing is sticky: the first packet of a TCP or UDP flow to a load
    balancer that serves its port and has a backend is sent to one of its backends,
    and the flow, still found under its key, is bound to it.  As long as the flow
    is, every later packet of it goes to the same backend, whatever happens to the
    load balancers in between. *)
Theorem lb_sticky d m p v lb :
  lb_first d m p v lb →
  wp lb_next
    (λ e s, e = EDGE_NODE node_ipip_encap ∧ flow_entries s.1 !! fv_key_org v = Some p ∧
       ∃ target, target ∈ backends lb ∧ df_ul_dst_addr6 (mb_flow s.2) = target ∧ bound_to s.1 p target ∧
       ∀ d' m', bound_to d' p target → flow_pkt p m' → vnf_inv (cs_vnf (da_conn d')) →
         wp lb_next (λ e s, e = EDGE_NODE node_ipip_encap ∧ s.1 = d' ∧ df_ul_dst_addr6 (mb_flow s.2) = target) (d', m'))
    (d, m).
Proof.
  intros Hfirst. pose proof Hfirst as [[Hf Hd Hn] _ Hl3 Hp Hfl _ _ _ Hlb _ _ Hinv _].
  unfold lb_next at 1. apply wp_bind, wp_node_df. rewrite Hf. apply wp_bind, wp_vni_of; [done|].
  apply wp_bind. eapply wp_fv_of; [done|]. rewrite Hfl, Hd. apply wp_bind, wp_zoom.
  eapply wp_is_ip_lb; [done|exact Hlb|done|]. destruct d. eapply wp_mono; [by apply wp_lb_new_flow|].
  intros e s (-> & Hin & Hb & Hent). split; [done|]. split; [done|]. eexists. split; [exact Hin|]. split; [done|]. split; [done|].
  intros d' m' Hb' Hm' Hv'. by apply (wp_lb_bound _ _ p).
Qed.
End lb_nodes.

(** ** The tunnel *)

Section tunnel.
Context `{HH : RteHash} {HO : RteHashOk} `{HM : RteMalloc} {MO : RteMallocOk} `{HR : RteRib} `{HN : RteNet} {HNO : RteNetOk}.
Implicit Types (d : data_state) (m : rte_mbuf).

(** The port with the number [id]. *)
Definition port_at d (id : Z) (i : nat) (port : dp_port) : Prop :=
  0 ≤ id < DP_MAX_PORTS ∧ ps_port_table (cs_ports (da_conn d)) !! id = Some i
  ∧ ps_ports (cs_ports (da_conn d)) !! i = Some port.

Lemma wp_in_port d m i port (Q : nat * dp_port → node_state → Prop) :
  port_at d (mb_port m) i port → Q (i, port) (d, m) → wp in_port Q (d, m).
Proof.
  intros (Hid & Ht & Hp) HQ. destruct d as [[? ? ? ?] ? ?]. unfold in_port, in_port_ptr, dp_get_in_port. wp_steps. cbn in *.
  unfold wp at 1. rewrite (proj2 (Z.leb_le _ _)), (proj2 (Z.ltb_lt _ _)) by lia. cbn [andb]. rewrite Ht. wp_steps. cbn.
  eapply wp_get_port; [done|]. by wp_steps.
Qed.

(** [m'] is [m] behind a header of IPv6 with the protocol [proto] to [dst]. *)
Record tunnelled (proto dst : Z) m m' : Prop := {
  tn_inner k off : 54 ≤ off → mget m' k off = mget m k (off - 40);
  tn_dst : mget m' 16 (dp_get_ipv6_hdr + ip6_dst) = dst;
  tn_proto : mget m' 1 (dp_get_ipv6_hdr + ip6_proto) = proto;
  tn_type : mget m' 2 eth_ether_type = htons RTE_ETHER_TYPE_IPV6;
  tn_off : mb_data_off m' = mb_data_off m - 40;
  tn_len : mb_data_len m' = mb_data_len m + 40;
  tn_size : length (mb_buf m') = length (mb_buf m);
  tn_u8 : Forall is_u8 (mb_buf m')
}.
(** The header in front of a packet from [port] to [out], except for the protocol,
    the length and the destination. *)
Record tunnel_header (underlay_ip : Z) (port out : dp_port) m' : Prop := {
  th_eth_dst : mget m' 6 eth_dst = pt_neigh_mac out mod 2 ^ 48;
  th_eth_src : mget m' 6 eth_src = pt_own_mac out mod 2 ^ 48;
  th_vtc_flow : mget m' 4 (dp_get_ipv6_hdr + ip6_vtc_flow) = htonl DP_IP6_VTC_FLOW;
  th_hop_limits : mget m' 1 (dp_get_ipv6_hdr + ip6_hop_limits) = DP_IP6_HOP_LIMIT;
  th_src : mget m' 16 (dp_get_ipv6_hdr + ip6_src) = dp_get_port_ul_ipv6 underlay_ip port mod 2 ^ 128
}.

Definition inner_proto (l3_type : Z) : Z := if l3_type =? RTE_ETHER_TYPE_IPV4 then IPPROTO_IPIP else IPPROTO_IPV6.

(** A packet of an interface with room for the header, and the ports it goes between. *)
Record encap_pre d m : Prop := {
  ep_in : in_pkt m (-40) 74 = true;
  ep_u8 : Forall is_u8 (mb_buf m);
  ep_len : 14 ≤ mb_data_len m;
  ep_l3 : df_l3_type (mb_flow m) = RTE_ETHER_TYPE_IPV4 ∨ df_l3_type (mb_flow m) = RTE_ETHER_TYPE_IPV6;
  ep_dst : is_u128 (df_ul_dst_addr6 (mb_flow m));
  ep_nat : df_nat_type (mb_flow m) ≠ DP_LB_RECIRC;
  ep_from : ∃ i port, port_at d (mb_port m) i port;
  ep_to : ∃ i port, port_at d (df_nxt_hop (mb_flow m)) i port
}.

Lemma wp_encap_params m (Q : option (Z * Z * Z) → rte_mbuf → Prop) :
  in_pkt m (-40) 74 = true →
  df_l3_type (mb_flow m) = RTE_ETHER_TYPE_IPV4 ∨ df_l3_type (mb_flow m) = RTE_ETHER_TYPE_IPV6 →
  (∀ len ptype, Q (Some (inner_proto (df_l3_type (mb_flow m)), len, ptype)) m) →
  wp (encap_params (mb_flow m)) Q m.
Proof.
  intros Hin Hl3 HQ. unfold encap_params, inner_proto in *. net_unfold.
  destruct Hl3 as [Hl|Hl]; rewrite Hl in *; cbn [Z.eqb Pos.eqb RTE_ETHER_TYPE_IPV4 RTE_ETHER_TYPE_IPV6]; pkt_run; apply HQ.
Qed.

Lemma wp_out_port_ptr d m i port (Q : option nat → node_state → Prop) :
  port_at d (df_nxt_hop (mb_flow m)) i port → Q (Some i) (d, m) → wp out_port_ptr Q (d, m).
Proof.
  intros (Hid & Ht & Hp) HQ. destruct d as [[? ? ? ?] ? ?]. unfold out_port_ptr, dp_get_out_port, dp_get_in_port.
  apply wp_bind, wp_node_df. do 2 apply wp_zoom. unfold wp. cbn in *.
  rewrite (proj2 (Z.leb_le _ _)), (proj2 (Z.ltb_lt _ _)) by lia. cbn [andb]. by rewrite Ht.
Qed.
Lemma wp_deref d m id i port (Q : dp_port → node_state → Prop) :
  port_at d id i port → Q port (d, m) → wp (zoom connN (deref_port (Some i))) Q (d, m).
Proof. intros (_ & _ & Hp) HQ. destruct d as [[? ? ? ?] ? ?]. do 2 apply wp_zoom. by eapply wp_get_port. Qed.

Lemma wp_encap underlay_ip tx d m :
  encap_pre d m →
  wp (ipip_encap_next underlay_ip tx)
    (λ e s, e = (if decide (df_nxt_hop (mb_flow m) ∈ tx) then EDGE_TX (df_nxt_hop (mb_flow m)) else EDGE_DROP)
       ∧ s.1 = d ∧ tunnelled (inner_proto (df_l3_type (mb_flow m))) (df_ul_dst_addr6 (mb_flow m)) m s.2
       ∧ mb_flow s.2 = (mb_flow m) <| df_tun_proto_id := inner_proto (df_l3_type (mb_flow m)) |>
       ∧ ∀ i port o out, port_at d (mb_port m) i port → port_at d (df_nxt_hop (mb_flow m)) o out →
           tunnel_header underlay_ip port out s.2) (d, m).
Proof.
  intros [Hin Hu Hlen Hl3 Hdst Hnat (i & port & Hfrom) (o & out & Hto)]. unfold ipip_encap_next.
  apply wp_bind, wp_node_df, wp_bind, wp_zoom, wp_encap_params; [done..|]. intros len ptype. node_simpl. wp_simpl.
  set (proto := inner_proto _). apply wp_bind, wp_upd_node_df. node_run.
  assert (Hh : df_nxt_hop (mb_flow m') = df_nxt_hop (mb_flow m)) by (by rewrite H3).
  assert (Hflow : ∃ f, f = mb_flow m' ∧ f = (mb_flow m) <| df_tun_proto_id := proto |>) by by exists (mb_flow m'). clear H3.
  unfold in_pkt in Hin. rewrite in_buf_spec in Hin. net_unfold.
  apply wp_mbuf_adj; [lia|lia|]. intros _ m1 Hb1 Ho1 Hl1 Hf1 _ Hp1. node_run.
  apply wp_mbuf_prepend; [lia|lia|]. intros _ m2 Hb2 Ho2 Hl2 Hf2 _ Hp2. node_run.
  eapply wp_out_port_ptr; [by rewrite Hf2, Hf1, Hh|]. apply wp_bind. eapply wp_deref; [done|].
  unfold dp_fill_ether_hdr. net_unfold. assert (length (mb_buf m2) = length (mb_buf m)) by congruence. node_run.
  rewrite bool_decide_eq_false_2 by done. apply wp_bind. eapply wp_in_port; [|unfold encap_hdr; net_unfold; node_run].
  { lazymatch goal with |- port_at _ (mb_port ?x) _ _ => replace (mb_port x) with (mb_port m) by congruence end. done. }
  destruct Hto as (Hid & Hto). apply wp_tx_edge; [lia|].
  split; [done|]. split; [done|]. cbn [snd].
  assert (Hin2 : ∀ k off, mget m2 k off = mget m k (off - 40)).
  { intros k off. rewrite (mget_shift m m2); [f_equal; lia|]. rewrite Hb2, Hb1.
    by match goal with H : pkt_meta _ m' |- _ => rewrite (pm_buf _ _ H) end. }
  split; [constructor; net_unfold|split].
  - intros k off Hoff. pkt_read. apply Hin2.
  - pkt_read. by apply Z.mod_small.
  - pkt_read. unfold proto, inner_proto. by destruct (_ =? _).
  - change 12 with (0 + 12). pkt_read. apply Z.mod_small, bswap16_range.
  - lia.
  - lia.
  - lia.
  - pkt_u8. rewrite Hb2, Hb1. by pkt_u8.
  - destruct Hflow as (f & Hf & <-). congruence.
  - intros i' port' o' out' (_ & Hi' & Hport') (_ & Ho' & Hout'). destruct Hfrom as (_ & Hi & Hport), Hto as [Ho Hout].
    rewrite Hi in Hi'. injection Hi' as <-. rewrite Hport in Hport'. injection Hport' as <-.
    rewrite Ho in Ho'. injection Ho' as <-. rewrite Hout in Hout'. injection Hout' as <-.
    constructor; net_unfold.
    + change 0 with (0 + 0). pkt_read. done.
    + change 6 with (0 + 6). by pkt_read.
    + pkt_read. done.
    + by pkt_read.
    + by pkt_read.
Qed.

(** The frame [m] as another host receives it at a physical port. *)
Record received d m mr : Prop := {
  rc_buf : mb_buf mr = mb_buf m;
  rc_off : mb_data_off mr = mb_data_off m;
  rc_len : mb_data_len mr = mb_data_len m;
  rc_l2 : Z.land (mb_packet_type mr) RTE_PTYPE_L2_MASK = RTE_PTYPE_L2_ETHER;
  rc_l3 : Z.land (mb_packet_type mr) RTE_PTYPE_L3_MASK = RTE_PTYPE_L3_IPV6;
  rc_port : ∃ i port, port_at d (mb_port mr) i port ∧ pt_is_pf port = true
}.

Lemma wp_cls_tunnel vs d l3 mr (Q : dp_edge → vpkt_state → Prop) :
  l3 = RTE_ETHER_TYPE_IPV4 ∨ l3 = RTE_ETHER_TYPE_IPV6 →
  in_pkt mr 0 54 = true → mget mr 1 (dp_get_ipv6_hdr + ip6_proto) = inner_proto l3 →
  received d mr mr →
  (∀ m', mb_buf m' = mb_buf mr → mb_data_off m' = mb_data_off mr → mb_data_len m' = mb_data_len mr →
     mb_port m' = mb_port mr → df_l3_type (mb_flow m') = l3 →
     df_ul_dst_addr6 (mb_flow m') = mget mr 16 (dp_get_ipv6_hdr + ip6_dst) →
     df_tun_proto_id (mb_flow m') = inner_proto l3 →
     Q (EDGE_NODE node_ipip_decap) ((vs, cs_ports (da_conn d)), m')) →
  wp (cls_next false) Q ((vs, cs_ports (da_conn d)), mr).
Proof.
  intros Hl3 Hin Hp [_ _ _ Ht2 Ht3 (i & port & (Hid & Htab & Hport) & Hpf)] HQ.
  assert (Hnd : (inner_proto l3 =? IPPROTO_ICMPV6) = false) by (by destruct Hl3 as [-> | ->]).
  unfold cls_next. node_run. rewrite Ht2, Ht3. change (negb (RTE_PTYPE_L2_ETHER =? RTE_PTYPE_L2_ETHER)) with false.
  change (RTE_PTYPE_L3_IPV6 =? 0) with false. cbn match. node_run.
  unfold dp_get_port_by_id. rewrite H5, (proj2 (Z.leb_gt _ _)) by lia. node_run. rewrite Htab. node_run.
  eapply wp_get_port; [done|]. change (RTE_ETH_IS_IPV4_HDR RTE_PTYPE_L3_IPV6) with false.
  change (RTE_ETH_IS_IPV6_HDR RTE_PTYPE_L3_IPV6) with true. rewrite Hpf. unfold cls_ipv6_pf, is_ipv6_nd, to_virtsvc, returns, ether_type_of.
  net_unfold. node_run. pkt_read. rewrite Hp, Hnd. node_run. pkt_read. rewrite Hp.
  assert (Hi : (if inner_proto l3 =? IPPROTO_IPIP then Some RTE_ETHER_TYPE_IPV4
     else if inner_proto l3 =? IPPROTO_IPV6 then Some RTE_ETHER_TYPE_IPV6 else None) = Some l3) by (by destruct Hl3 as [-> | ->]).
  rewrite Hi. unfold dp_extract_underlay_header, upd_df. net_unfold. node_run. apply HQ.
  - by rewrite (pm_buf _ _ H14), (pm_buf _ _ H7), (pm_buf _ _ H0).
  - congruence.
  - congruence.
  - congruence.
  - by rewrite H17, H10.
  - rewrite H17. cbn. by pkt_read.
  - rewrite H17. cbn. by pkt_read.
Qed.

(** The underlay address [ul] leads to [vnf]. *)
Definition vnf_at d (ul : Z) (vnf : dp_vnf) : Prop :=
  vnf_inv (cs_vnf (da_conn d)) ∧ handles (cs_vnf (da_conn d)) !! ul = Some vnf.

Lemma wp_node_vnf d m ul vnf (Q : option dp_vnf → node_state → Prop) :
  vnf_at d ul vnf → Q (Some vnf) (d, m) → wp (zoom connN (zoom vnfL (dp_get_vnf ul))) Q (d, m).
Proof.
  intros [Hi Hh] HQ. destruct d as [[? ? ? ?] ? ?]. do 2 apply wp_zoom. apply wp_get_vnf; [done|]. cbn in *. by rewrite Hh.
Qed.
Lemma wp_node_port_by_id d m id i port (Q : option nat → node_state → Prop) :
  port_at d id i port → Q (Some i) (d, m) → wp (zoom connN (zoom portsL (dp_get_port_by_id id))) Q (d, m).
Proof.
  intros (Hid & Ht & _) HQ. destruct d as [[? ? ? ?] ? ?]. do 2 apply wp_zoom. unfold dp_get_port_by_id.
  rewrite (proj2 (Z.leb_gt _ _)) by lia. unfold wp. cbn in *. by rewrite Ht.
Qed.

(** The packet [m] as the guest behind [vnf] gets it: everything after the
    Ethernet header, its type and the length are those of [m]. *)
Record delivered (vnf : dp_vnf) (l3 : Z) m m' : Prop := {
  dl_payload k off : 14 ≤ off → mget m' k off = mget m k off;
  dl_type : mget m' 2 eth_ether_type = htons l3;
  dl_len : mb_data_len m' = mb_data_len m;
  dl_l3 : df_l3_type (mb_flow m') = l3;
  dl_vni : df_tun_dst_vni (mb_flow m') = vnf_vni vnf;
  dl_vnf : df_vnf_type (mb_flow m') = vnf_type vnf;
  dl_port : df_nxt_hop (mb_flow m') = vnf_port_id vnf
}.

Lemma wp_decap d m0 m l3 vnf i port :
  l3 = RTE_ETHER_TYPE_IPV4 ∨ l3 = RTE_ETHER_TYPE_IPV6 → df_l3_type (mb_flow m) = l3 →
  df_tun_proto_id (mb_flow m) = inner_proto l3 → in_pkt m 0 74 = true →
  14 ≤ mb_data_len m0 → mb_data_len m = mb_data_len m0 + 40 →
  (∀ k off, 54 ≤ off → mget m k off = mget m0 k (off - 40)) →
  vnf_at d (df_ul_dst_addr6 (mb_flow m)) vnf → port_at d (vnf_port_id vnf) i port →
  wp ipip_decap_next (λ e s, e = EDGE_NODE node_conntrack ∧ s.1 = d ∧ delivered vnf l3 m0 s.2) (d, m).
Proof.
  intros Hl3 Hf Hproto Hin Hlen0 Hlen Hinner Hvnf Hport.
  assert (Hi : (if df_tun_proto_id (mb_flow m) =? IPPROTO_IPIP then Some RTE_PTYPE_L3_IPV4
     else if df_tun_proto_id (mb_flow m) =? IPPROTO_IPV6 then Some RTE_PTYPE_L3_IPV6 else None)
    = Some (if l3 =? RTE_ETHER_TYPE_IPV4 then RTE_PTYPE_L3_IPV4 else RTE_PTYPE_L3_IPV6))
    by (rewrite Hproto; by destruct Hl3 as [-> | ->]).
  unfold ipip_decap_next. apply wp_bind, wp_node_df, wp_bind. eapply wp_node_vnf; [done|]. cbn match. rewrite Hi, Hf.
  apply wp_bind. eapply wp_node_port_by_id; [done|]. apply wp_bind, wp_upd_node_df. node_run.
  unfold in_pkt in Hin. rewrite in_buf_spec in Hin. net_unfold.
  apply wp_mbuf_adj; [lia|cbn; lia|]. intros _ m1 Hb1 Ho1 Hl1 Hf1 _ Hp1. cbn in Hb1, Ho1, Hl1, Hf1. node_run.
  apply wp_mbuf_prepend; [lia|lia|]. intros _ m2 Hb2 Ho2 Hl2 Hf2 _ _. node_simpl. cbn match.
  apply wp_bind, (wp_deref _ _ _ _ _ _ Hport). clear Hp1.
  unfold dp_fill_ether_hdr. net_unfold. assert (length (mb_buf m2) = length (mb_buf m)) by congruence. node_run.
  split; [done|]. split; [done|]. cbn [snd].
  assert (Hfl : mb_flow m'2 = mb_flow m1) by (rewrite H25, H18, H11, H4; exact Hf2).
  assert (Hs : ∀ k off, mget m2 k off = mget m k (off + 40))
    by (intros; rewrite (mget_shift m m2) by congruence; f_equal; lia).
  constructor; net_unfold; [| |lia|by rewrite Hfl, Hf1..].
  - intros k off Hoff. pkt_read. rewrite Hs, Hinner by lia. f_equal. lia.
  - change 12 with (0 + 12). pkt_read. apply Z.mod_small, bswap16_range.
Qed.

(** C7. The tunnel between two hosts is transparent: a packet with room for the
    header that [ipip_encap] sends to a known port, and that another host gets at
    a physical port, is classified there as tunnelled, and if the underlay
    address belongs to a function of that host, [ipip_decap] passes it to the
    connection tracking with the bytes after the Ethernet header, the type and
    the length it had, and with the VNI, the kind and the port of the function.
    Neither host's tables change. *)
Theorem tunnel_roundtrip underlay_ip tx vs d dr m vnf i port :
  encap_pre d m → df_nxt_hop (mb_flow m) ∈ tx →
  vnf_at dr (df_ul_dst_addr6 (mb_flow m)) vnf → port_at dr (vnf_port_id vnf) i port →
  wp (ipip_encap_next underlay_ip tx)
    (λ e s, e = EDGE_TX (df_nxt_hop (mb_flow m)) ∧ s.1 = d ∧
      ∀ mr, received dr s.2 mr →
      wp (cls_next false)
        (λ e t, e = EDGE_NODE node_ipip_decap ∧ t.1 = (vs, cs_ports (da_conn dr)) ∧
          wp ipip_decap_next
            (λ e u, e = EDGE_NODE node_conntrack ∧ u.1 = dr ∧ delivered vnf (df_l3_type (mb_flow m)) m u.2)
            (dr, t.2))
        ((vs, cs_ports (da_conn dr)), mr)) (d, m).
Proof.
  intros Hpre Htx Hvnf Hport. pose proof Hpre as [Hin _ Hlen Hl3 _ _ _ _].
  eapply wp_mono; [by apply wp_encap|]. intros e s (-> & -> & Ht & _). rewrite decide_True by done.
  split; [done|]. split; [done|]. intros mr [Hb Ho Hl Hr2 Hr3 Hpf].
  unfold in_pkt in Hin. rewrite in_buf_spec in Hin. destruct Ht.
  assert (Hr : ∀ k off, mget mr k off = mget s.2 k off) by (intros; unfold mget; by rewrite Hb, Ho).
  assert (Hin' : ∀ m', mb_buf m' = mb_buf mr → mb_data_off m' = mb_data_off mr → in_pkt m' 0 74 = true).
  { intros m' Hb' Ho'. unfold in_pkt. rewrite in_buf_spec, Hb', Ho', Hb, Ho. lia. }
  apply (wp_cls_tunnel vs dr (df_l3_type (mb_flow m)));
    [done|by apply (in_pkt_sub _ 0 74); [apply Hin'|..]|by rewrite Hr|by constructor|].
  intros m' Hb' Ho' Hl' _ Hf Hd Hp. split; [done|]. split; [done|]. cbn [snd].
  eapply wp_decap; [done..|by apply Hin'|done|congruence| |by rewrite Hd, Hr, tn_dst0|done].
  intros k off Hoff. rewrite <- tn_inner0 by done. rewrite <- Hr. unfold mget. by rewrite Hb', Ho'.
Qed.
End tunnel.

(** ** Answering echo requests *)

Lemma echo_reply_cksum_eq cksum : echo_reply_cksum cksum = icmp_ident_cksum cksum 8 0.
Proof. done. Qed.

Section relay.
Context `{HH : RteHash} {HO : RteHashOk} `{HM : RteMalloc} {MO : RteMallocOk} `{HR : RteRib} `{HN : RteNet} {HNO : RteNetOk}.
Implicit Types (d : data_state) (m : rte_mbuf) (p : loc) (v : flow_value).

(** A valid echo request of [n] 16-bit words for an address of the host. *)
Record echo_request d m (n : nat) : Prop := {
  er_flow : ∃ p v, df_conntrack (mb_flow m) = Some p ∧ flow_at d p = Some v
                   ∧ fv_nf_nat_type v ≠ DP_FLOW_NAT_TYPE_NETWORK_NEIGH;
  er_l4 : df_l4_type (mb_flow m) = IPPROTO_ICMP;
  er_in : in_pkt m 0 (34 + 2 * n) = true;
  er_u8 : Forall is_u8 (mb_buf m);
  er_words : (4 ≤ n)%nat;
  er_type : mget m 1 (dp_get_ipv4_hdr + sizeof_ipv4_hdr + icmp_type) = RTE_IP_ICMP_ECHO_REQUEST;
  er_cksum : cksum_ok m (dp_get_ipv4_hdr + sizeof_ipv4_hdr) n
}.
(** The reply to it: valid, with the same identifier, sequence number and data,
    back to where the request came from. *)
Record echo_reply m m' (n : nat) : Prop := {
  ey_type : mget m' 1 (dp_get_ipv4_hdr + sizeof_ipv4_hdr + icmp_type) = RTE_IP_ICMP_ECHO_REPLY;
  ey_cksum : cksum_ok m' (dp_get_ipv4_hdr + sizeof_ipv4_hdr) n;
  ey_data k : (2 ≤ k < n)%nat →
    mget m' 2 (dp_get_ipv4_hdr + sizeof_ipv4_hdr + 2 * Z.of_nat k) = mget m 2 (dp_get_ipv4_hdr + sizeof_ipv4_hdr + 2 * Z.of_nat k);
  ey_src : mget m' 4 (dp_get_ipv4_hdr + ip4_src) = mget m 4 (dp_get_ipv4_hdr + ip4_dst);
  ey_dst : mget m' 4 (dp_get_ipv4_hdr + ip4_dst) = mget m 4 (dp_get_ipv4_hdr + ip4_src);
  ey_tunnel : df_ul_dst_addr6 (mb_flow m') = df_ul_src_addr6 (mb_flow m);
  ey_port : df_nxt_hop (mb_flow m') = mb_port m
}.

(** The checksum of a message whose type changed from request to reply. *)
Lemma echo_reply_cksum_ok m m' off n :
  (2 ≤ n)%nat → Forall is_u8 (mb_buf m) → in_pkt m off (2 * n) = true → in_pkt m' off 4 = true →
  mget m 1 off = RTE_IP_ICMP_ECHO_REQUEST → mget m' 1 off = RTE_IP_ICMP_ECHO_REPLY → mget m' 1 (off + 1) = mget m 1 (off + 1) →
  mget m' 2 (off + 2) = echo_reply_cksum (mget m 2 (off + 2)) →
  (∀ k, (2 ≤ k < n)%nat → mget m' 2 (off + 2 * Z.of_nat k) = mget m 2 (off + 2 * Z.of_nat k)) →
  cksum_ok m off n → cksum_ok m' off n.
Proof.
  intros Hn Hu Hin Hin' Ht Ht' Hc Hk Hdata. destruct n as [|[|n]]; [lia..|]. unfold cksum_ok. cbn [words_sum].
  rewrite (words_sum_ext m m' (off + 2 + 2) n).
  2: { intros k Hkn. specialize (Hdata (S (S k))). replace (off + 2 + 2 + 2 * Z.of_nat k) with (off + 2 * Z.of_nat (S (S k))) by lia.
       apply Hdata. lia. }
  rewrite (mget_word m off), (mget_word m' off) by (by eapply in_pkt_sub; [done|lia..]).
  rewrite Hk, Ht, Ht', Hc, echo_reply_cksum_eq.
  assert (is_u16 (mget m 2 (off + 2))) as Hr by (apply (mget_range m 2); [done|by apply (in_pkt_sub _ _ _ _ _ Hin); lia]).
  pose proof (icmp_ident_cksum_mod (mget m 2 (off + 2)) 8 0 Hr ltac:(done) ltac:(done)) as Hmod.
  revert Hmod. generalize (icmp_ident_cksum (mget m 2 (off + 2)) 8 0), (mget m 2 (off + 2)), (mget m 1 (off + 1)), (words_sum m (off + 2 + 2) n).
  unfold RTE_IP_ICMP_ECHO_REQUEST, RTE_IP_ICMP_ECHO_REPLY. change (2 ^ 16 - 1) with 65535. clear. intros. Z.div_mod_to_equations. lia.
Qed.

(** For ICMP only the checksum of the header is written. *)
Lemma wp_nat_chg_ip_icmp m (Q : () → rte_mbuf → Prop) :
  in_pkt m 0 34 = true → df_l4_type (mb_flow m) = IPPROTO_ICMP →
  (∀ m', mb_flow m' = mb_flow m → mb_data_off m' = mb_data_off m → length (mb_buf m') = length (mb_buf m) →
     (∀ k off, 26 ≤ off → mget m' k off = mget m k off) → Q tt m') →
  wp (dp_nat_chg_ip dp_get_ipv4_hdr) Q m.
Proof.
  intros Hin Hp HQ. unfold dp_nat_chg_ip, get_df, set_l4_len. net_unfold. pkt_run. rewrite Hp.
  change (IPPROTO_ICMP =? IPPROTO_TCP) with false. change (IPPROTO_ICMP =? IPPROTO_UDP) with false.
  change (IPPROTO_ICMP =? IPPROTO_ICMP) with true. cbn match. pkt_run. unfold in_pkt in Hin. rewrite in_buf_spec in Hin.
  apply HQ; [by pkt_flow|congruence..|]. intros k off Hoff. by pkt_read.
Qed.

(** An echo request to an address of the host (a load balancer or a NAT
    address) is answered: with the same data, a valid checksum and the addresses
    exchanged, through the tunnel and the port it came from. *)
Theorem echo_reply_spec d m n :
  echo_request d m n →
  wp packet_relay_next (λ e s, e = EDGE_NODE node_ipip_encap ∧ s.1 = d ∧ echo_reply m s.2 n) (d, m).
Proof.
  intros [(p & v & Hf & Hp & Hnat) Hl4 Hin Hu Hn Htype Hck]. unfold packet_relay_next. apply wp_bind, wp_node_df. rewrite Hf.
  apply wp_bind. eapply wp_fv_of; [done|]. rewrite bool_decide_eq_false_2, Hl4 by done.
  change (IPPROTO_ICMP =? IPPROTO_ICMP) with true. cbn match. unfold lb_nnat_icmp_reply. net_unfold.
  assert (in_pkt m 0 42 = true) as Hin0 by (apply (in_pkt_sub _ _ _ _ _ Hin); lia).
  node_run. rewrite Htype. change (negb (RTE_IP_ICMP_ECHO_REQUEST =? RTE_IP_ICMP_ECHO_REQUEST)) with false. cbn match.
  unfold next_hop_is_port, relay_back. node_run. apply wp_upd_node_df. node_run.
  apply wp_nat_chg_ip_icmp; [unfold in_pkt in Hin0 |- *; rewrite in_buf_spec in Hin0 |- *; cbn; lia|cbn; by pkt_flow|].
  intros mf Hff Hfo Hfs Hfg. node_run. apply wp_upd_node_df. node_run. split; [done|]. split; [done|].
  set (mr := mf <| mb_flow := _ |>). assert (Hg : ∀ k off, 26 ≤ off → mget mr k off = mget m'2 k off) by exact Hfg.
  assert (Hfl : mb_flow m'2 = mb_flow m) by (by pkt_flow). cbn in Hff, Hfo, Hfs. unfold in_pkt in Hin0. rewrite in_buf_spec in Hin0.
  constructor; net_unfold.
  - rewrite Hg by lia. by pkt_read.
  - apply (echo_reply_cksum_ok m); [lia|done|by apply (in_pkt_sub _ _ _ _ _ Hin); lia| |done| | | |..].
    + unfold in_pkt. rewrite in_buf_spec. cbn. lia.
    + rewrite Hg by lia. change (14 + 20) with (14 + 20 + 0). by pkt_read.
    + rewrite Hg by lia. by pkt_read.
    + rewrite Hg by lia. pkt_read. apply Z.mod_small. rewrite echo_reply_cksum_eq. apply icmp_ident_cksum_range.
    + intros k Hk. rewrite Hg by lia. by pkt_read.
    + done.
  - intros k Hk. rewrite Hg by lia. by pkt_read.
  - rewrite Hg by lia. pkt_read. by apply mget_mod; [|pkt_in].
  - rewrite Hg by lia. pkt_read. by apply mget_mod; [|pkt_in].
  - cbn. rewrite Hff. cbn. by rewrite Hfl.
  - cbn. rewrite Hff. cbn. congruence.
Qed.
End relay.

(** ** Runs *)

Section forward_examples.
#[local] Existing Instances test_hash test_hash_ok test_malloc test_malloc_ok test_rib test_rib_ok test_net test_net_ok.

(** The packet 10:4000 to 30:80 of the interface, and the flow it has just opened. *)
Definition ex_tcp4 (src dst sport dport : Z) (df : dp_flow) : rte_mbuf :=
  ex_frame 64 54 df (replicate 14 0 ++ [69; 0; 0; 40; 0; 0; 0; 0; 64; 6; 0; 0] ++ to_bytes 4 (htonl src) ++ to_bytes 4 (htonl dst)
    ++ to_bytes 2 (htons sport) ++ to_bytes 2 (htons dport) ++ [0; 0; 0; 0; 0; 0; 0; 0; 80; 2]).
Definition ex_opened : flow_value :=
  zero_flow_value <| fv_key_org := ex_key |> <| fv_key_reply := dp_invert_flow_key ex_key |>.
Definition ex_nat_data : data_state :=
  MkData
    (MkConnState
       (MkFlowState ({[ex_key := 1%positive; dp_invert_flow_key ex_key := 1%positive]} : gmap flow_key loc)
          (Heap {[1%positive := ex_opened]} ([] : list bool)) (Heap ∅ ([] : list bool)) [] false
          (MkFlowCache zero_flow_key zero_flow_key 0 None false None))
       ex_nat_one ex_vnf_empty ex_ports)
    ex_vni_empty ex_tables.

Lemma ex_new_conn :
  new_conn ∅ ex_nat_data (ex_tcp4 10 30 4000 80 ex_df) 1%positive ex_opened 0 (zero_port <| pt_used_port_cnt := 1 |>)
    2%positive ex_snat.
Proof.
  constructor; try done.
  - constructor; [done| |by left]. by apply ex_frame_u8.
  - apply ex_alloc_pre.
Qed.

Definition ex_answer (port : Z) : rte_mbuf :=
  ex_tcp4 30 20 80 port (ex_df <| df_conntrack := Some 1%positive |> <| df_flow_dir := DP_FLOW_DIR_REPLY |>).

(** A flow to the load balancer 10.0.0.1 with the backend 11. *)
Definition ex_lb_one : lb_state := run_state ex_created (dp_add_lb_back_ip [108; 98] 11 16).
Definition ex_lb_flow : flow_value :=
  zero_flow_value <| fv_key_org := Lb.ex_key |> <| fv_key_reply := dp_invert_flow_key Lb.ex_key |>.
Definition ex_lb_data (lb : lb_state) : data_state :=
  MkData
    (MkConnState
       (MkFlowState ({[Lb.ex_key := 1%positive; dp_invert_flow_key Lb.ex_key := 1%positive]} : gmap flow_key loc)
          (Heap {[1%positive := ex_lb_flow]} ([] : list bool)) (Heap ∅ ([] : list bool)) [] false
          (MkFlowCache zero_flow_key zero_flow_key 0 None false None))
       ex_nat_one ex_vnf_empty ex_ports)
    ex_vni_empty lb.
Definition ex_lb_df : dp_flow :=
  dp_init_flow_ptr <| df_l3_type := RTE_ETHER_TYPE_IPV4 |> <| df_l4_type := IPPROTO_TCP |>
    <| df_dst_addr6 := htonl 167772161 |> <| df_conntrack := Some 1%positive |> <| df_tun_dst_vni := 100 |>.

Lemma ex_lb_one_inv : lb_inv ex_lb_one.
Proof.
  destruct (wp_inv _ _ _ (add_lb_back_ip_spec ex_created [108; 98] 11 (proj1 ex_created_inv)
    ltac:(split; vm_compute; congruence) ltac:(vm_compute; congruence))) as (ret & s' & Hrun & Hinv & _).
  unfold ex_lb_one, run_state. by rewrite Hrun.
Qed.

(** Also after the load balancer is gone. *)
Lemma lb_sticky_witness :
  wp lb_next (λ _ s, ∃ target, target ∈ backends (ex_val [11]) ∧
    (bound_to (s.1 <| da_lb := ex_tables |>) 1%positive target → vnf_inv (cs_vnf (da_conn s.1)) →
     wp lb_next (λ e s', e = EDGE_NODE node_ipip_encap ∧ df_ul_dst_addr6 (mb_flow s'.2) = target)
       (s.1 <| da_lb := ex_tables |>, ex_frame 64 54 ex_lb_df [])))
    (ex_lb_data ex_lb_one, ex_frame 64 54 ex_lb_df []).
Proof.
  assert (Hp : flow_pkt 1%positive (ex_frame 64 54 ex_lb_df [])) by done.
  eapply wp_mono; [apply (lb_sticky (ex_lb_data ex_lb_one) (ex_frame 64 54 ex_lb_df []) 1%positive ex_lb_flow (ex_val [11]))|].
  - constructor; try done; try (by left).
    + exact ex_lb_one_inv.
    + exact ex_vnf_empty_inv.
  - intros e s (_ & _ & target & Hin & _ & _ & H). exists target. split; [done|]. intros Hb Hv.
    eapply wp_mono; [by apply H|]. intros e' s' (-> & _ & <-). done.
Defined.

(** Two hosts with a physical port 0 and the interface of [ex_vnf]; the address
    77 leads to it on the second. *)
Definition ex_tunnel_ports : ports_state :=
  MkPorts [zero_port <| pt_is_pf := true |>; zero_port <| pt_port_id := 3 |>] {[0 := 0%nat; 3 := 1%nat]} []
    (Heap (H := test_malloc) ∅ ([] : list bool)).
Definition ex_tunnel_data : data_state :=
  ex_nat_data <| da_conn := MkConnState (cs_flow (da_conn ex_nat_data)) ex_nat_one ex_vnf_one ex_tunnel_ports |>.
Definition ex_outgoing : rte_mbuf := ex_tcp4 10 30 4000 80 (ex_df <| df_ul_dst_addr6 := 77 |>).

Definition ex_arrived (m : rte_mbuf) : rte_mbuf := m <| mb_packet_type := Z.lor RTE_PTYPE_L2_ETHER RTE_PTYPE_L3_IPV6 |> <| mb_port := 0 |>.

Lemma tunnel_roundtrip_witness :
  wp (ipip_encap_next 1 {[0]})
    (λ _ s, wp (cls_next false)
       (λ _ t, wp ipip_decap_next (λ e u, e = EDGE_NODE node_conntrack ∧ mget u.2 4 (14 + 16) = htonl 30) (ex_tunnel_data, t.2))
       (((ex_vs_state []), ex_tunnel_ports), ex_arrived s.2)) (ex_tunnel_data, ex_outgoing).
Proof.
  assert (Hpf : port_at ex_tunnel_data 0 0 (zero_port <| pt_is_pf := true |>)) by (split; [done|split; reflexivity]).
  assert (Hpre : encap_pre ex_tunnel_data ex_outgoing).
  { constructor; try done; [by apply ex_frame_u8|by left|by eauto..]. }
  eapply wp_mono; [apply (tunnel_roundtrip 1 {[0]} (ex_vs_state []) ex_tunnel_data ex_tunnel_data ex_outgoing ex_vnf 1
    (zero_port <| pt_port_id := 3 |>) Hpre)|].
  - by apply elem_of_singleton.
  - split; [exact ex_vnf_one_inv|reflexivity].
  - split; [done|split; reflexivity].
  - intros e s (_ & _ & H). eapply wp_mono; [apply H|].
    + constructor; try reflexivity. exists 0%nat, (zero_port <| pt_is_pf := true |>). split; [|done]. exact Hpf.
    + intros e' t (_ & _ & Hd). eapply wp_mono; [exact Hd|]. intros e'' u (-> & _ & []). split; [done|]. by rewrite dl_payload0.
Defined.

(** An echo request from 10.0.0.9 to 10.0.0.1, with the identifier 7. *)
Definition ex_ping : rte_mbuf :=
  ex_frame 64 42 (dp_init_flow_ptr <| df_l3_type := RTE_ETHER_TYPE_IPV4 |> <| df_l4_type := IPPROTO_ICMP |>
      <| df_ul_src_addr6 := 88 |> <| df_conntrack := Some 1%positive |>)
    (replicate 14 0 ++ [69; 0; 0; 28; 0; 0; 0; 0; 64; 1; 0; 0; 10; 0; 0; 9; 10; 0; 0; 1] ++ [8; 0; 240; 255; 7; 0; 0; 0]).

Lemma echo_reply_spec_witness :
  wp packet_relay_next (λ e s, e = EDGE_NODE node_ipip_encap ∧ mget s.2 4 (14 + 12) = of_bytes [10; 0; 0; 1]
    ∧ mget s.2 2 (14 + 20 + 2 * Z.of_nat 2) = 7) (ex_nat_data, ex_ping).
Proof.
  eapply wp_mono; [apply (echo_reply_spec ex_nat_data ex_ping 4)|].
  - constructor; try done; [|by apply ex_frame_u8]. by exists 1%positive, ex_opened.
  - intros e s (-> & _ & []). split; [done|]. split; [exact ey_src0|]. apply (ey_data0 2%nat). lia.
Defined.
End forward_examples.
