(* ===== verification/Offload.v ===== *)
(** * Offloading of connections (src/rte_flow/dp_rte_flow_traffic_forward.c)

    The rules with which the NIC forwards the packets of a connection by itself.
    Each rule has a context on the heap of the flow table, which DPDK reports
    when the rule is idle; the contexts of TCP rules are also kept in the flow,
    with an indirect action by which their age is queried.

    The rules that were created are in the state of [Hw]; the requests to destroy
    rules and actions are in the state of [Flow].  A pointer to a rule is a
    handle there. *)

From S2P Require Import Prelude Dpdk Error Types Port Hw PortCtl Rib Lb Vnf Conn Mbuf Graph Nat Vni Lpm Flow Nat64 Cntrack Virtsvc Nodes Forward.

Record rte_flow_indir_action_conf := MkIndirConf { ic_ingress : bool; ic_egress : bool; ic_transfer : bool }.

(** Indirect actions of DPDK, by a handle. *)
Class RteIndirect := {
  indirect_state : Type;
  rte_flow_action_handle_create :
    Z → rte_flow_indir_action_conf → rte_flow_action → indirect_state → option Z * indirect_state
}.

Definition DP_IPIP_ENCAP_HEADER_SIZE : Z := sizeof_ether_hdr + sizeof_ipv6_hdr.

Definition dp_flow_pf_attr_ingress : rte_flow_attr := MkAttr DP_RTE_FLOW_DEFAULT_GROUP 0 true false false.
Definition dp_flow_vf_attr_ingress : rte_flow_attr := MkAttr DP_RTE_FLOW_DEFAULT_GROUP 0 true false false.
Definition dp_flow_attr_egress : rte_flow_attr := MkAttr DP_RTE_FLOW_DEFAULT_GROUP 0 false true false.
Definition dp_flow_pf_attr_transfer_capture : rte_flow_attr := MkAttr DP_RTE_FLOW_DEFAULT_GROUP 0 false false true.
Definition dp_flow_attr_transfer_multi_stage : rte_flow_attr := MkAttr DP_RTE_FLOW_VNET_GROUP 0 false false true.
Definition dp_flow_attr_transfer_single_stage : rte_flow_attr := MkAttr DP_RTE_FLOW_DEFAULT_GROUP 0 false false true.

Record offload_state `{RteHash} `{RteMalloc} `{RteFlow} `{RteIndirect} := MkOffload {
  os_conn : conn_state;
  os_hw : hw_state;
  os_indirect : indirect_state
}.
Arguments MkOffload {_ _ _ _} _ _ _.
Global Instance offload_state_eta `{RteHash} `{RteMalloc} `{RteFlow} `{RteIndirect} : Eta offload_state := λ r,
  MkOffload (os_conn r) (os_hw r) (os_indirect r).

(** All bytes zero. *)
Definition zero_age_ctx : flow_age_ctx := MkAgeCtx None None 0 0 None.

Section offload.
Context `{HH : RteHash} `{HM : RteMalloc} `{HF : RteFlow} `{HI : RteIndirect}.
(** [dp_conf_get_underlay_ip()] *)
Context (underlay_ip : Z).

Definition oconnL : lens offload_state conn_state := Lens os_conn (λ x s, s <| os_conn := x |>).
Definition ohwL : lens offload_state hw_state := Lens os_hw (λ x s, s <| os_hw := x |>).
Definition oindL : lens offload_state indirect_state := Lens os_indirect (λ x s, s <| os_indirect := x |>).

Definition on_conn {A : Type} (c : cmd conn_state A) : cmd offload_state A := zoom oconnL c.
Definition on_ports {A : Type} (c : cmd ports_state A) : cmd offload_state A := on_conn (zoom portsL c).

(** ** Rules with an age *)

Definition allocate_agectx : cmd offload_state (option loc) :=
  on_conn (zoom flowL (zoom ctxsL (hp_malloc zero_age_ctx))).

Definition dp_install_rte_flow_with_age (port_id : Z) (attr : rte_flow_attr) (pattern : list rte_flow_item)
    (actions : list rte_flow_action) (conntrack agectx : loc) : cmd offload_state Z :=
  flow ← zoom ohwL (dp_install_rte_flow port_id attr pattern actions);
  match flow with
  | None => mret DP_ERROR
  | Some flow =>
      c ← on_conn (ctx_load agectx);
      on_conn (ctx_store agectx (c <| ac_cntrack := Some conntrack |> <| ac_rte_flow := Some (Z.pos flow) |>
                                   <| ac_port_id := u8 port_id |>));;
      on_conn (dp_ref_inc conntrack);;
      mret DP_OK
  end.

Definition dp_create_age_indirect_action (port_id : Z) (attr : rte_flow_attr) (age_action : rte_flow_action)
    (conntrack agectx : loc) : cmd offload_state Z :=
  let age_indirect_conf := MkIndirConf (at_ingress attr) (at_egress attr) (at_transfer attr) in
  result ← zoom oindL (λ s, Some (rte_flow_action_handle_create port_id age_indirect_conf age_action s));
  match result with
  | None => mret DP_ERROR
  | Some result =>
      ret ← on_conn (dp_add_rte_age_ctx conntrack agectx);
      if DP_FAILED ret then
        on_conn (hw_request (ActionHandleDestroy port_id result));;
        mret DP_ERROR
      else
        c ← on_conn (ctx_load agectx);
        on_conn (ctx_store agectx (c <| ac_handle := Some result |>));;
        mret DP_OK
  end.

(** [agectx->handle] as an argument of a call *)
Definition destroy_handle (port_id : Z) (agectx : loc) : cmd offload_state () :=
  c ← on_conn (ctx_load agectx);
  match ac_handle c with
  | Some handle => on_conn (hw_request (ActionHandleDestroy port_id handle))
  | None => fault
  end.

Definition conntrack_of (df : dp_flow) : cmd offload_state loc :=
  match df_conntrack df with Some conntrack => mret conntrack | None => fault end.

Definition dp_install_rte_flow_with_indirect (port_id : Z) (attr : rte_flow_attr) (pattern : list rte_flow_item)
    (actions : list rte_flow_action) (age_action : rte_flow_action) (df : dp_flow) (agectx : loc) : cmd offload_state Z :=
  conntrack ← conntrack_of df;
  let tcp := df_l4_type df =? IPPROTO_TCP in
  ret ← (if tcp then dp_create_age_indirect_action port_id attr age_action conntrack agectx else mret DP_OK);
  if DP_FAILED ret then mret DP_ERROR
  else
    ret ← dp_install_rte_flow_with_age port_id attr pattern actions conntrack agectx;
    (if DP_FAILED ret && tcp then
       on_conn (dp_del_rte_age_ctx conntrack agectx);;
       destroy_handle port_id agectx
     else mret tt);;
    mret ret.

(** A rule with a context that is destroyed when the rule cannot be installed;
    [actions] are the actions of the rule, given the one for the age. *)
Definition install_aging (port_id : Z) (attr : rte_flow_attr) (pattern : list rte_flow_item)
    (actions : rte_flow_action → list rte_flow_action) (timeout : Z) (df : dp_flow) (agectx : loc) : cmd offload_state Z :=
  let age_action := dp_set_flow_age_action timeout agectx in
  ret ← dp_install_rte_flow_with_indirect port_id attr pattern (actions age_action) age_action df agectx;
  if DP_FAILED ret then on_conn (dp_destroy_rte_flow_agectx (Some agectx));; mret DP_ERROR else mret DP_OK.

(** The value behind [df->conntrack]. *)
Definition flow_of (df : dp_flow) : cmd offload_state flow_value := conntrack ← conntrack_of df; on_conn (fv_load conntrack).

(** A rule with a new context, which is returned; NULL when it failed. *)
Definition aging_rule (port_id : Z) (attr : rte_flow_attr) (pattern : list rte_flow_item)
    (actions : rte_flow_action → list rte_flow_action) (df : dp_flow) : cmd offload_state (option loc) :=
  agectx ← allocate_agectx;
  match agectx with
  | None => mret None
  | Some agectx =>
      v ← flow_of df;
      ret ← install_aging port_id attr pattern actions (fv_timeout_value v) df agectx;
      mret (if DP_FAILED ret then None else Some agectx)
  end.

Definition destroy_ctx (agectx : option loc) : cmd offload_state () := on_conn (dp_destroy_rte_flow_agectx agectx);; mret tt.

(** ** Traffic to another host *)

Definition dp_create_ipip_encap_header (df : dp_flow) (incoming_port outgoing_port : dp_port) : Hw.encap_hdr :=
  MkEncapHdr
    (MkEncapEth (pt_neigh_mac outgoing_port) (pt_own_mac outgoing_port) (htons RTE_ETHER_TYPE_IPV6))
    (Some (MkEncapIpv6 (htonl DP_IP6_VTC_FLOW) 0 (df_tun_proto_id df) DP_IP6_HOP_LIMIT
             (dp_get_port_ul_ipv6 underlay_ip incoming_port) (df_ul_dst_addr6 df)))
    None.

(** The item for the destination in the overlay. *)
Definition l3_dst_item (df : dp_flow) (ipv4_dst : Z) : rte_flow_item :=
  if df_l3_type df =? RTE_ETHER_TYPE_IPV6 then dp_set_ipv6_dst_flow_item (df_dst_addr6 df) (df_l4_type df)
  else dp_set_ipv4_dst_flow_item ipv4_dst (df_l4_type df).

(** The four bytes of the VNI followed by two zeros. *)
Definition vni_in_mac_addr (df : dp_flow) : Z := u32 (df_tun_dst_vni df).

(** The rule that moves packets to the hairpin queue. *)
Definition encap_hairpin (df : dp_flow) (incoming_port : dp_port) (hairpin_pattern : list rte_flow_item) :
    cmd offload_state (option loc) :=
  aging_rule (pt_port_id incoming_port) dp_flow_vf_attr_ingress hairpin_pattern
    (λ age, [dp_set_dst_mac_set_action (vni_in_mac_addr df); dp_set_redirect_queue_action DP_NR_STD_RX_QUEUES;
             age; dp_set_end_action]) df.

(** The actions before the one for the age. *)
Definition encap_actions (df : dp_flow) (v : flow_value) (incoming_port outgoing_port : dp_port) : list rte_flow_action :=
  (if bool_decide (df_nat_type df = DP_NAT_CHG_SRC_IP) then
     [dp_set_ipv4_set_src_action (df_nat_addr df)]
     ++ (if bool_decide (fv_nf_nat_type v = DP_FLOW_NAT_TYPE_NETWORK_LOCAL)
         then [dp_set_trans_proto_set_src_action (htons (df_nat_port df))] else [])
   else [])
  ++ [dp_set_raw_decap_action sizeof_ether_hdr;
      dp_set_raw_encap_action (dp_create_ipip_encap_header df incoming_port outgoing_port)].

Definition pf1_port_id : cmd offload_state Z :=
  p ← on_ports dp_get_pf1; port ← on_conn (deref_port p); mret (pt_port_id port).

(** [outgoing] is the address of the outgoing port. *)
Definition dp_offload_handle_tunnel_encap_traffic (df : dp_flow) (incoming_port : dp_port) (outgoing : nat)
    (outgoing_port : dp_port) : cmd offload_state Z :=
  pf0 ← on_ports dp_get_pf0;
  let cross_pf_port := negb (bool_decide (Some outgoing = pf0)) in
  let type := htons (df_l3_type df) in
  match dp_set_l4_flow_item df with
  | None => mret DP_ERROR
  | Some l4 =>
      let l3 := l3_dst_item df (df_dst_addr df) in
      let pattern := [if cross_pf_port then dp_set_eth_dst_flow_item (vni_in_mac_addr df) type else dp_set_eth_flow_item type;
                      l3; l4; dp_set_end_flow_item] in
      hairpin ← (if cross_pf_port
                 then r ← encap_hairpin df incoming_port [dp_set_eth_flow_item type; l3; l4; dp_set_end_flow_item];
                      mret (Some <$> r)
                 else mret (Some None));
      match hairpin with
      | None => mret DP_ERROR
      | Some hairpin_agectx =>
          v ← flow_of df;
          t_port_id ← (if cross_pf_port then pf1_port_id else mret (pt_port_id incoming_port));
          let attr := if cross_pf_port then dp_flow_attr_egress
                      else if pt_captured incoming_port then dp_flow_attr_transfer_multi_stage
                      else dp_flow_attr_transfer_single_stage in
          agectx ← aging_rule t_port_id attr pattern
                     (λ age, encap_actions df v incoming_port outgoing_port ++ [age]
                             ++ (if cross_pf_port then [] else [dp_set_send_to_port_action (pt_port_id outgoing_port)])
                             ++ [dp_set_end_action]) df;
          match agectx with
          | None => destroy_ctx hairpin_agectx;; mret DP_ERROR
          | Some _ => mret DP_OK
          end
      end
  end.

(** ** Traffic from another host *)

Definition set_incoming_flag (df : dp_flow) (cross_pf_port : bool) : cmd offload_state () :=
  conntrack ← conntrack_of df;
  v ← on_conn (fv_load conntrack);
  on_conn (fv_store conntrack
    (if cross_pf_port then v <| fv_incoming_pf1 := true |> else v <| fv_incoming_pf0 := true |>)).

(** The destination that packets have before it is translated. *)
Definition actual_ol_ipv4_addr (df : dp_flow) : Z :=
  if bool_decide (df_nat_type df = DP_NAT_CHG_DST_IP) then df_nat_addr df else df_dst_addr df.

(** The rule that sends packets to the capturing group. *)
Definition decap_capture (df : dp_flow) (incoming_port : dp_port) (pattern : list rte_flow_item) :
    cmd offload_state (option loc) :=
  aging_rule (pt_port_id incoming_port) dp_flow_pf_attr_transfer_capture pattern
    (λ age, [age; dp_set_jump_group_action DP_RTE_FLOW_CAPTURE_GROUP; dp_set_end_action]) df.

(** The actions before the one for the age. *)
Definition decap_actions (df : dp_flow) (v : flow_value) (outgoing_port : dp_port) : list rte_flow_action :=
  [dp_set_raw_decap_action DP_IPIP_ENCAP_HEADER_SIZE;
   dp_set_raw_encap_action
     (MkEncapHdr (MkEncapEth (pt_neigh_mac outgoing_port) (pt_own_mac outgoing_port) (htons (df_l3_type df))) None None)]
  ++ (if bool_decide (df_nat_type df = DP_NAT_CHG_DST_IP) then
        [dp_set_ipv4_set_dst_action (df_dst_addr df)]
        ++ (if bool_decide (fv_nf_nat_type v = DP_FLOW_NAT_TYPE_NETWORK_LOCAL)
            then [dp_set_trans_proto_set_dst_action (htons (fk_port_src (fv_key_org v)))] else [])
      else []).

(** The flow, whose underlay destination may change, is returned. *)
Definition dp_offload_handle_tunnel_decap_traffic (df : dp_flow) (incoming : nat) (incoming_port outgoing_port : dp_port)
    (is_recirc : bool) : cmd offload_state (Z * dp_flow) :=
  pf0 ← on_ports dp_get_pf0;
  let cross_pf_port := negb (bool_decide (Some incoming = pf0)) in
  set_incoming_flag df cross_pf_port;;
  let df := if is_recirc then df <| df_ul_dst_addr6 := df_ul_src_addr6 df |> else df in
  match dp_set_l4_flow_item df with
  | None => mret (DP_ERROR, df)
  | Some l4 =>
      let pattern := [dp_set_eth_flow_item (htons (df_tun_l3_type df));
                      dp_set_ipv6_dst_flow_item (df_ul_dst_addr6 df) (df_tun_proto_id df);
                      l3_dst_item df (actual_ol_ipv4_addr df); l4; dp_set_end_flow_item] in
      let captured := negb cross_pf_port && pt_captured incoming_port in
      capture ← (if captured then r ← decap_capture df incoming_port pattern; mret (Some <$> r) else mret (Some None));
      match capture with
      | None => mret (DP_ERROR, df)
      | Some agectx_capture =>
          v ← flow_of df;
          if cross_pf_port && pt_is_pf outgoing_port then
            agectx ← allocate_agectx;
            destroy_ctx agectx;; mret (DP_ERROR, df)
          else
            let target :=
              if cross_pf_port
              then dp_set_redirect_queue_action (u16 (DP_NR_RESERVED_RX_QUEUES - 1 + pt_peer_pf_hairpin_offset outgoing_port))
              else dp_set_send_to_port_action (pt_port_id outgoing_port) in
            let attr := if cross_pf_port then dp_flow_pf_attr_ingress
                        else if captured then dp_flow_attr_transfer_multi_stage
                        else dp_flow_attr_transfer_single_stage in
            agectx ← aging_rule (pt_port_id incoming_port) attr pattern
                       (λ age, decap_actions df v outgoing_port ++ [age; target; dp_set_end_action]) df;
            match agectx with
            | None => destroy_ctx agectx_capture;; mret (DP_ERROR, df)
            | Some _ => mret (DP_OK, df)
            end
      end
  end.

(** ** Traffic between interfaces of the host *)

Definition dp_offload_handle_local_traffic (df : dp_flow) (incoming_port outgoing_port : dp_port) : cmd offload_state Z :=
  let l3 := if df_l3_type df =? RTE_ETHER_TYPE_IPV6
            then dp_set_ipv6_dst_flow_item (df_dst_addr6 df) (df_l4_type df)
            else dp_set_ipv4_src_dst_flow_item (df_src_addr df) (actual_ol_ipv4_addr df) (df_l4_type df) in
  match dp_set_l4_flow_item df with
  | None => mret DP_ERROR
  | Some l4 =>
      let nat := if bool_decide (df_nat_type df = DP_NAT_CHG_DST_IP) then [dp_set_ipv4_set_dst_action (df_dst_addr df)]
                 else if bool_decide (df_nat_type df = DP_NAT_CHG_SRC_IP) then [dp_set_ipv4_set_src_action (df_nat_addr df)]
                 else [] in
      let attr := if pt_captured incoming_port then dp_flow_attr_transfer_multi_stage
                  else dp_flow_attr_transfer_single_stage in
      agectx ← aging_rule (pt_port_id incoming_port) attr
                 [dp_set_eth_flow_item (htons (df_l3_type df)); l3; l4; dp_set_end_flow_item]
                 (λ age, [dp_set_dst_mac_set_action (pt_neigh_mac outgoing_port);
                          dp_set_src_mac_set_action (pt_own_mac outgoing_port)]
                         ++ nat ++ [age; dp_set_send_to_port_action (pt_port_id outgoing_port); dp_set_end_action]) df;
      mret (match agectx with None => DP_ERROR | Some _ => DP_OK end)
  end.

(** ** Traffic that is sent back into the network *)

Definition dp_offload_handle_in_network_traffic (df : dp_flow) (incoming : nat) (incoming_port : dp_port) :
    cmd offload_state Z :=
  match dp_set_l4_flow_item df with
  | None => mret DP_ERROR
  | Some l4 =>
      let pattern := [dp_set_eth_flow_item (htons (df_tun_l3_type df));
                      dp_set_ipv6_dst_flow_item (df_ul_src_addr6 df) (df_tun_proto_id df);
                      l3_dst_item df (df_dst_addr df); l4; dp_set_end_flow_item] in
      pf0 ← on_ports dp_get_pf0;
      outgoing ← (if bool_decide (Some incoming = pf0) then on_ports dp_get_pf1 else mret pf0);
      outgoing_port ← on_conn (deref_port outgoing);
      agectx ← allocate_agectx;
      match agectx with
      | None => mret DP_ERROR
      | Some agectx =>
          conntrack ← conntrack_of df;
          ret ← dp_install_rte_flow_with_age (pt_port_id incoming_port) dp_flow_pf_attr_ingress pattern
                  [dp_set_src_mac_set_action (pt_own_mac outgoing_port); dp_set_dst_mac_set_action (pt_neigh_mac outgoing_port);
                   dp_set_ipv6_set_dst_action (df_ul_dst_addr6 df); dp_set_flow_age_action DP_FLOW_DEFAULT_TIMEOUT agectx;
                   dp_set_redirect_queue_action DP_NR_STD_RX_QUEUES; dp_set_end_action]
                  conntrack agectx;
          if DP_FAILED ret then destroy_ctx (Some agectx);; mret DP_ERROR else mret DP_OK
      end
  end.

(** ** The handler *)

Definition in_network (v : flow_value) : bool :=
  bool_decide (fv_nf_nat_type v = DP_FLOW_NAT_TYPE_NETWORK_NEIGH) || bool_decide (fv_nf_nat_type v = DP_FLOW_LB_TYPE_FORWARD).

Definition dp_offload_handler : cmd (offload_state * rte_mbuf) Z :=
  m ← gets snd;
  let df := mb_flow m in
  in_portp ← zoom fstL (on_ports (dp_get_in_port (mb_port m)));
  out_portp ← zoom fstL (on_ports (dp_get_out_port (df_nxt_hop df)));
  in_port ← zoom fstL (on_conn (deref_port in_portp));
  out_port ← zoom fstL (on_conn (deref_port out_portp));
  if negb (pt_is_pf in_port) && negb (pt_is_pf out_port) then
    zoom fstL (dp_offload_handle_local_traffic df in_port out_port)
  else if pt_is_pf out_port then
    v ← zoom fstL (flow_of df);
    if in_network v then
      if negb (pt_is_pf in_port) then mret DP_ERROR
      else zoom fstL (dp_offload_handle_in_network_traffic df (default 0%nat in_portp) in_port)
    else if pt_is_pf in_port then mret DP_ERROR
    else zoom fstL (dp_offload_handle_tunnel_encap_traffic df in_port (default 0%nat out_portp) out_port)
  else
    r ← zoom fstL (dp_offload_handle_tunnel_decap_traffic df (default 0%nat in_portp) in_port out_port (pm_is_recirc (mb_mark m)));
    zoom sndL (upd_df (λ _, r.2));;
    mret r.1.
End offload.

(** ** Facts: the rules of a connection *)

(** Whether it was requested to destroy a rule. *)
Definition destroyed (reqs : list rte_flow_request) (f : loc) : bool :=
  existsb (λ r, match r with FlowDestroy _ g => g =? Z.pos f | _ => false end) reqs.

Lemma destroyed_app reqs l f : destroyed (reqs ++ l) f = destroyed reqs f || destroyed l f.
Proof. apply existsb_app. Qed.

(** The rules that were created and not destroyed. *)
Definition live (reqs : list rte_flow_request) (rules : gmap loc flow_rule) : gmap loc flow_rule :=
  filter (λ x, destroyed reqs x.1 = false) rules.

(** Only rules that were created are destroyed. *)
Definition reqs_ok (reqs : list rte_flow_request) (rules : gmap loc flow_rule) : Prop :=
  ∀ f, destroyed reqs f = true → is_Some (rules !! f).

Lemma live_lookup reqs rules f r : live reqs rules !! f = Some r ↔ rules !! f = Some r ∧ destroyed reqs f = false.
Proof. apply map_lookup_filter_Some. Qed.

Lemma live_insert reqs rules f r :
  reqs_ok reqs rules → rules !! f = None → live reqs (<[f := r]> rules) = <[f := r]> (live reqs rules).
Proof.
  intros Hok Hf. apply map_filter_insert_True. cbn. destruct (destroyed reqs f) eqn:E; [|done].
  destruct (Hok f E). congruence.
Qed.

Lemma live_fresh reqs rules f : rules !! f = None → live reqs rules !! f = None.
Proof. intros Hf. apply map_lookup_filter_None. by left. Qed.

Lemma live_ext reqs reqs' rules : (∀ f, destroyed reqs f = destroyed reqs' f) → live reqs rules = live reqs' rules.
Proof. intros He. apply map_filter_ext. intros f r _. cbn. by rewrite He. Qed.

Lemma live_destroy reqs rules f r l :
  rules !! f = None → (∀ g, destroyed l g = bool_decide (g = f)) → live (reqs ++ l) (<[f := r]> rules) = live reqs rules.
Proof.
  intros Hf Hl. apply map_eq. intros g. apply option_eq. intros x. rewrite !live_lookup, destroyed_app, Hl.
  destruct (decide (g = f)) as [->|Hg].
  - rewrite bool_decide_true, orb_true_r by done. split; [by intros [_ ?]|]. intros [? _]. congruence.
  - rewrite bool_decide_false, orb_false_r, lookup_insert_ne by done. done.
Qed.

Section offload_facts.
Context `{HH : RteHash} `{HM : RteMalloc} {MO : RteMallocOk} `{HF : RteFlow} {FO : RteFlowOk} `{HI : RteIndirect}.
Implicit Types (v : flow_value) (p a f : loc) (c : flow_age_ctx).

(** The state [s0] with other flows, contexts and requests. *)
Definition at_conn (s0 : conn_state) (vals : gmap loc flow_value) (ctxs : heap flow_age_ctx)
    (reqs : list rte_flow_request) : conn_state :=
  s0 <| cs_flow := (cs_flow s0) <| fl_vals := Heap vals (mst (fl_vals (cs_flow s0))) |>
                                <| fl_ctxs := ctxs |> <| fl_requests := reqs |> |>.

(** The heap with other contexts. *)
Abbreviation with_ctxs ctxs objs' := (Heap objs' (mst ctxs)).

Lemma wp_on_conn {A} (m : cmd conn_state A) t hw ind (Q : A → offload_state → Prop) :
  wp m (λ x t', Q x (MkOffload t' hw ind)) t → wp (on_conn m) Q (MkOffload t hw ind).
Proof. intros H. by apply wp_zoom. Qed.

(** The steps up to the next access to the state. *)
Ltac off_step :=
  lazymatch goal with
  | |- context [DP_FAILED DP_ERROR] => change (DP_FAILED DP_ERROR) with true
  | |- context [DP_FAILED DP_OK] => change (DP_FAILED DP_OK) with false
  | |- wp (mbind _ _) _ _ => apply wp_bind
  | |- wp (mret _) _ _ => apply wp_ret
  | |- wp (on_conn _) _ _ => apply wp_on_conn
  end.
Ltac off_steps := wp_simpl; repeat (off_step; wp_simpl).

Section steps.
Context (s0 : conn_state).
Abbreviation conn := (at_conn s0).

Lemma wp_off_load vals ctxs reqs p v (Q : flow_value → conn_state → Prop) :
  vals !! p = Some v → Q v (conn vals ctxs reqs) → wp (fv_load p) Q (conn vals ctxs reqs).
Proof. intros Hp HQ. by eapply wp_fv_load. Qed.

Lemma wp_off_store vals ctxs reqs p v0 v (Q : () → conn_state → Prop) :
  vals !! p = Some v0 → Q tt (conn (<[p := v]> vals) ctxs reqs) → wp (fv_store p v) Q (conn vals ctxs reqs).
Proof. intros Hp HQ. by eapply wp_fv_store. Qed.

Lemma wp_off_ctx_load vals ctxs reqs a c (Q : flow_age_ctx → conn_state → Prop) :
  objs ctxs !! a = Some c → Q c (conn vals ctxs reqs) → wp (ctx_load a) Q (conn vals ctxs reqs).
Proof. intros Ha HQ. do 2 apply wp_zoom. by eapply wp_hp_load. Qed.

Lemma wp_off_ctx_store vals ctxs reqs a c0 c (Q : () → conn_state → Prop) :
  objs ctxs !! a = Some c0 → Q tt (conn vals (with_ctxs ctxs (<[a := c]> (objs ctxs))) reqs) →
  wp (ctx_store a c) Q (conn vals ctxs reqs).
Proof. intros Ha HQ. do 2 apply wp_zoom. by eapply wp_hp_store. Qed.

Lemma wp_off_ctx_free vals ctxs reqs a c (Q : () → conn_state → Prop) :
  objs ctxs !! a = Some c → Q tt (conn vals (with_ctxs ctxs (delete a (objs ctxs))) reqs) →
  wp (ctx_free a) Q (conn vals ctxs reqs).
Proof. intros Ha HQ. do 2 apply wp_zoom. by eapply wp_hp_free. Qed.

Lemma wp_off_request vals ctxs reqs r (Q : () → conn_state → Prop) :
  Q tt (conn vals ctxs (reqs ++ [r])) → wp (hw_request r) Q (conn vals ctxs reqs).
Proof. intros HQ. apply wp_zoom. by apply wp_modify. Qed.

(** A context is stored in the first free place of the flow, if there is one. *)
Lemma wp_off_add_ctx vals ctxs reqs p v a c (Q : Z → conn_state → Prop) :
  vals !! p = Some v → objs ctxs !! a = Some c →
  ((∀ i : nat, (i < DP_FLOW_VAL_AGE_CTX_CAPACITY)%nat → fv_rte_age_ctxs v !! i ≠ Some None) → Q DP_ERROR (conn vals ctxs reqs)) →
  (∀ i : nat, (i < DP_FLOW_VAL_AGE_CTX_CAPACITY)%nat → fv_rte_age_ctxs v !! i = Some None →
     Q DP_OK (conn (<[p := v <| fv_rte_age_ctxs := <[i := Some a]> (fv_rte_age_ctxs v) |>]> vals)
                (with_ctxs ctxs (<[a := c <| ac_ref_index := Z.of_nat i |>]> (objs ctxs))) reqs)) →
  wp (dp_add_rte_age_ctx p a) Q (conn vals ctxs reqs).
Proof.
  intros Hp Ha Hno Hyes. unfold dp_add_rte_age_ctx. wp_steps. eapply wp_off_load; [done|].
  destruct (for_find _ _ _) as [i|] eqn:Hf; wp_steps.
  2: { apply Hno. intros i Hi Hs. apply (for_find_None _ _ _ (Z.of_nat i)) in Hf; [|lia]. cbn in Hf. by rewrite Nat2Z.id, Hs in Hf. }
  apply for_find_Some in Hf as (Hi & Hs & _).
  destruct (fv_rte_age_ctxs v !! Z.to_nat i) as [[?|]|] eqn:Hi'; try done.
  eapply wp_off_store; [done|]. wp_steps. eapply wp_off_ctx_load; [done|]. wp_steps.
  eapply wp_off_ctx_store; [done|]. wp_steps. specialize (Hyes (Z.to_nat i)).
  rewrite Z2Nat.id in Hyes by lia. unfold DP_FLOW_VAL_AGE_CTX_CAPACITY in *.
  replace (u8 i) with i by (symmetry; apply Z.mod_small; lia). apply Hyes; [lia|done].
Qed.

Lemma wp_off_del_ctx vals ctxs reqs p v a c (Q : Z → conn_state → Prop) :
  vals !! p = Some v → objs ctxs !! a = Some c → ac_ref_index c < Z.of_nat DP_FLOW_VAL_AGE_CTX_CAPACITY →
  Q DP_OK (conn (<[p := v <| fv_rte_age_ctxs := <[Z.to_nat (ac_ref_index c) := None]> (fv_rte_age_ctxs v) |>]> vals)
             ctxs reqs) →
  wp (dp_del_rte_age_ctx p a) Q (conn vals ctxs reqs).
Proof.
  intros Hp Ha Hi HQ. unfold dp_del_rte_age_ctx. wp_steps. eapply wp_off_ctx_load; [done|].
  destruct (Z.leb_spec (Z.of_nat DP_FLOW_VAL_AGE_CTX_CAPACITY) (ac_ref_index c)); [lia|].
  wp_steps. eapply wp_off_load; [done|]. wp_steps. eapply wp_off_store; [done|]. by wp_steps.
Qed.

Lemma wp_off_ref_inc vals ctxs reqs p v (Q : () → conn_state → Prop) :
  vals !! p = Some v → 0 < fv_refcount v < 2 ^ 31 - 1 →
  Q tt (conn (<[p := v <| fv_refcount := fv_refcount v + 1 |>]> vals) ctxs reqs) →
  wp (dp_ref_inc p) Q (conn vals ctxs reqs).
Proof.
  intros Hp Hr HQ. unfold dp_ref_inc. wp_steps. eapply wp_off_load; [done|].
  destruct (Z.eqb_spec (fv_refcount v) 0); [lia|]. rewrite i32_small by lia. by eapply wp_off_store.
Qed.

(** A reference that is not the last one. *)
Lemma wp_off_ref_dec vals ctxs reqs p v (Q : () → conn_state → Prop) :
  vals !! p = Some v → 1 < fv_refcount v < 2 ^ 31 →
  Q tt (conn (<[p := v <| fv_refcount := fv_refcount v - 1 |>]> vals) ctxs reqs) →
  wp (dp_ref_dec p) Q (conn vals ctxs reqs).
Proof.
  intros Hp Hr HQ. unfold dp_ref_dec. wp_steps. eapply wp_off_load; [done|]. rewrite i32_small by lia.
  wp_steps. eapply wp_off_store; [done|]. destruct (Z.eqb_spec (fv_refcount v - 1) 0); [lia|]. by wp_steps.
Qed.

(** The requests for the indirect action of a context. *)
Definition handle_requests (c : flow_age_ctx) : list rte_flow_request :=
  match ac_handle c with Some h => [ActionHandleDestroy (ac_port_id c) h] | None => [] end.

(** A context without a rule is only freed. *)
Lemma wp_destroy_unused vals ctxs reqs a c (Q : Z → conn_state → Prop) :
  objs ctxs !! a = Some c → ac_rte_flow c = None → ac_cntrack c = None →
  Q DP_OK (conn vals (with_ctxs ctxs (delete a (objs ctxs))) (reqs ++ handle_requests c)) →
  wp (dp_destroy_rte_flow_agectx (Some a)) Q (conn vals ctxs reqs).
Proof.
  intros Ha Hf Hc HQ. unfold dp_destroy_rte_flow_agectx, handle_requests in *. wp_steps.
  eapply wp_off_ctx_load; [done|]. destruct (ac_handle c); wp_steps.
  - apply wp_off_request. eapply wp_off_ctx_store; [done|]. wp_steps.
    eapply wp_off_ctx_load; [apply lookup_insert_eq|]. cbn. rewrite Hf, Hc. wp_steps.
    eapply wp_off_ctx_free; [apply lookup_insert_eq|]. wp_steps. cbn. by rewrite delete_insert_eq.
  - eapply wp_off_ctx_load; [done|]. rewrite Hf, Hc. wp_steps.
    eapply wp_off_ctx_free; [done|]. wp_steps. by rewrite app_nil_r in HQ.
Qed.

(** The context [c] belongs to the rule [f] of a flow that had the value [v0]
    before the rule was made and has the value [v] after. *)
Record rule_ctx (p : loc) (v0 v : flow_value) (c : flow_age_ctx) (f : loc) : Prop := {
  rc_cntrack : ac_cntrack c = Some p;
  rc_flow : ac_rte_flow c = Some (Z.pos f);
  rc_index : ac_ref_index c < Z.of_nat DP_FLOW_VAL_AGE_CTX_CAPACITY;
  rc_value : v = v0 <| fv_rte_age_ctxs := fv_rte_age_ctxs v |> <| fv_refcount := fv_refcount v0 + 1 |>;
  rc_slot : <[Z.to_nat (ac_ref_index c) := None]> (fv_rte_age_ctxs v) = fv_rte_age_ctxs v0
}.

Lemma rule_ctx_undo p v0 v c f :
  rule_ctx p v0 v c f →
  v <| fv_rte_age_ctxs := <[Z.to_nat (ac_ref_index c) := None]> (fv_rte_age_ctxs v) |> <| fv_refcount := fv_refcount v - 1 |> = v0.
Proof.
  intros [_ _ _ Hv Hs]. rewrite Hs, Hv. destruct v0. cbn. unfold set_field. cbn. f_equal. lia.
Qed.

(** A context with a rule is freed with it, and the flow is as before the rule. *)
Lemma wp_destroy_used vals ctxs reqs p v0 v a c f (Q : Z → conn_state → Prop) :
  vals !! p = Some v → objs ctxs !! a = Some c → rule_ctx p v0 v c f → 0 < fv_refcount v0 < 2 ^ 31 - 1 →
  Q DP_OK (conn (<[p := v0]> vals) (with_ctxs ctxs (delete a (objs ctxs)))
             (reqs ++ handle_requests c ++ [FlowDestroy (ac_port_id c) (Z.pos f)])) →
  wp (dp_destroy_rte_flow_agectx (Some a)) Q (conn vals ctxs reqs).
Proof.
  intros Hp Ha Hc Hr HQ. pose proof (rule_ctx_undo _ _ _ _ _ Hc) as Hundo. destruct Hc as [H1 H2 H3 H4 _].
  assert (Hrv : fv_refcount v = fv_refcount v0 + 1) by (rewrite H4; done).
  unfold dp_destroy_rte_flow_agectx, handle_requests in *. wp_steps. eapply wp_off_ctx_load; [done|].
  wp_steps. apply (wp_mono _ (λ _ s, s = conn vals (with_ctxs ctxs (<[a := c <| ac_handle := None |>]> (objs ctxs))) (reqs ++ handle_requests c))).
  { unfold handle_requests. destruct c as [? ? ? ? [h|]]; cbn in *; wp_steps.
    - apply wp_off_request. by eapply wp_off_ctx_store.
    - rewrite app_nil_r. destruct ctxs. cbn in *. unfold set_field. cbn. rewrite insert_id by done. done. }
  intros _ ? ->. wp_steps. eapply wp_off_ctx_load; [apply lookup_insert_eq|]. destruct c as [cn fl ? ? h]. cbn in *. subst cn fl. wp_steps.
  apply wp_off_request. wp_steps. eapply wp_off_ctx_store; [apply lookup_insert_eq|]. wp_steps. cbn.
  eapply wp_off_del_ctx; [done|apply lookup_insert_eq|done|]. eapply wp_off_ref_dec; [apply lookup_insert_eq|cbn; lia|].
  wp_steps. eapply wp_off_ctx_free; [apply lookup_insert_eq|]. wp_steps. cbn.
  rewrite !insert_insert_eq, !delete_insert_eq, <- app_assoc. unfold handle_requests. cbn. unfold set_field in *. cbn in *. by rewrite Hundo.
Qed.

(** ** Facts: installing a rule *)

Abbreviation off vals ctxs reqs hw ind := (MkOffload (conn vals ctxs reqs) hw ind).

Lemma wp_off_alloc vals ctxs reqs hw ind (Q : option loc → offload_state → Prop) :
  (∀ st, Q None (off vals (Heap (objs ctxs) st) reqs hw ind)) →
  (∀ a st, objs ctxs !! a = None → Q (Some a) (off vals (Heap (<[a := zero_age_ctx]> (objs ctxs)) st) reqs hw ind)) →
  wp allocate_agectx Q (off vals ctxs reqs hw ind).
Proof. intros Hno Hyes. do 3 apply wp_zoom. apply wp_hp_malloc; [exact Hno|exact Hyes]. Qed.

Lemma wp_off_install vals ctxs reqs hw ind port_id attr pattern actions (Q : option loc → offload_state → Prop) :
  (∀ st, Q None (off vals ctxs reqs (MkHw (hw_rules hw) st) ind)) →
  (∀ f st, hw_rules hw !! f = None →
     Q (Some f) (off vals ctxs reqs (MkHw (<[f := MkFlowRule port_id attr pattern actions]> (hw_rules hw)) st) ind)) →
  wp (zoom ohwL (dp_install_rte_flow port_id attr pattern actions)) Q (off vals ctxs reqs hw ind).
Proof.
  intros Hno Hyes. apply wp_zoom. unfold wp, dp_install_rte_flow. cbn [lget ohwL os_hw].
  destruct (DP_FAILED _).
  - specialize (Hno (hw_st hw)). by destruct hw.
  - destruct (rte_flow_create _ _ _) as [[f|] st] eqn:E; cbn [fst snd]; [|apply Hno].
    apply rte_flow_create_fresh, not_elem_of_dom in E. by apply Hyes.
Qed.

Lemma wp_install_with_age vals ctxs reqs hw ind port_id attr pattern actions p v a c (Q : Z → offload_state → Prop) :
  vals !! p = Some v → objs ctxs !! a = Some c → 0 < fv_refcount v < 2 ^ 31 - 1 →
  (∀ st, Q DP_ERROR (off vals ctxs reqs (MkHw (hw_rules hw) st) ind)) →
  (∀ f st, hw_rules hw !! f = None →
     Q DP_OK (off (<[p := v <| fv_refcount := fv_refcount v + 1 |>]> vals)
       (with_ctxs ctxs (<[a := c <| ac_cntrack := Some p |> <| ac_rte_flow := Some (Z.pos f) |> <| ac_port_id := u8 port_id |>]>
          (objs ctxs))) reqs
       (MkHw (<[f := MkFlowRule port_id attr pattern actions]> (hw_rules hw)) st) ind)) →
  wp (dp_install_rte_flow_with_age port_id attr pattern actions p a) Q (off vals ctxs reqs hw ind).
Proof.
  intros Hp Ha Hr Hno Hyes. unfold dp_install_rte_flow_with_age. apply wp_bind, wp_off_install.
  - intros st. off_steps. apply Hno.
  - intros f st Hf. off_steps. eapply wp_off_ctx_load; [done|]. off_steps. eapply wp_off_ctx_store; [done|].
    off_steps. eapply wp_off_ref_inc; [done..|]. off_steps. by apply Hyes.
Qed.

Lemma wp_create_indirect vals ctxs reqs hw ind port_id attr age p v a c (Q : Z → offload_state → Prop) :
  vals !! p = Some v → objs ctxs !! a = Some c →
  (∀ l ind', (∀ f, destroyed l f = false) → Q DP_ERROR (off vals ctxs (reqs ++ l) hw ind')) →
  (∀ (i : nat) h ind', (i < DP_FLOW_VAL_AGE_CTX_CAPACITY)%nat → fv_rte_age_ctxs v !! i = Some None →
     Q DP_OK (off (<[p := v <| fv_rte_age_ctxs := <[i := Some a]> (fv_rte_age_ctxs v) |>]> vals)
       (with_ctxs ctxs (<[a := c <| ac_ref_index := Z.of_nat i |> <| ac_handle := Some h |>]> (objs ctxs))) reqs hw ind')) →
  wp (dp_create_age_indirect_action port_id attr age p a) Q (off vals ctxs reqs hw ind).
Proof.
  intros Hp Ha Hno Hyes. unfold dp_create_age_indirect_action. apply wp_bind, wp_zoom. unfold wp at 1.
  destruct (rte_flow_action_handle_create _ _ _ _) as [[h|] ind'].
  - off_steps. eapply wp_off_add_ctx; [done..| |].
    + intros _. off_steps. apply wp_off_request. off_steps. by apply Hno.
    + intros i Hi Hs. off_steps. eapply wp_off_ctx_load; [apply lookup_insert_eq|].
      off_steps. eapply wp_off_ctx_store; [apply lookup_insert_eq|]. off_steps. cbn [objs mst].
      rewrite insert_insert_eq. by apply Hyes.
  - off_steps. specialize (Hno [] ind'). rewrite app_nil_r in Hno. by apply Hno.
Qed.

(** The places of a flow without indirect actions are not used. *)
Definition slots_ok (df : dp_flow) (v : flow_value) : Prop :=
  df_l4_type df ≠ IPPROTO_TCP → fv_rte_age_ctxs v !! 0%nat = Some None.

Section install.
Context (df : dp_flow) (p : loc) (v : flow_value) (vals : gmap loc flow_value) (Hp : vals !! p = Some v).
Context (Hdf : df_conntrack df = Some p) (Hr : 0 < fv_refcount v < 2 ^ 31 - 1) (Hs : slots_ok df v).
Context (ctxs : heap flow_age_ctx) (a : loc) (Ha : objs ctxs !! a = None).

(** A failure leaves no trace but requests to destroy indirect actions. *)
Lemma wp_with_indirect reqs hw ind port_id attr pattern actions age (Q : Z → offload_state → Prop) :
  (∀ c l st ind', ac_rte_flow c = None → ac_cntrack c = None → (∀ f, destroyed l f = false) →
     Q DP_ERROR (off vals (with_ctxs ctxs (<[a := c]> (objs ctxs))) (reqs ++ l) (MkHw (hw_rules hw) st) ind')) →
  (∀ f st ind' v' c, hw_rules hw !! f = None → rule_ctx p v v' c f →
     (df_l4_type df ≠ IPPROTO_TCP → fv_rte_age_ctxs v' = fv_rte_age_ctxs v) →
     Q DP_OK (off (<[p := v']> vals) (with_ctxs ctxs (<[a := c]> (objs ctxs))) reqs
       (MkHw (<[f := MkFlowRule port_id attr pattern actions]> (hw_rules hw)) st) ind')) →
  wp (dp_install_rte_flow_with_indirect port_id attr pattern actions age df a) Q
    (off vals (with_ctxs ctxs (<[a := zero_age_ctx]> (objs ctxs))) reqs hw ind).
Proof using FO Hp Hdf Hr Hs.
  intros Hno Hyes. unfold dp_install_rte_flow_with_indirect, conntrack_of. rewrite Hdf. off_steps.
  destruct (Z.eqb_spec (df_l4_type df) IPPROTO_TCP) as [Ht|Ht].
  - eapply wp_create_indirect; [done|apply lookup_insert_eq|..].
    + intros l ind' Hl. off_steps. specialize (Hno zero_age_ctx l (hw_st hw) ind' eq_refl eq_refl Hl). by destruct hw.
    + intros i h ind' Hi Hfree. off_steps. cbn [objs mst]. rewrite insert_insert_eq.
      eapply wp_install_with_age; [apply lookup_insert_eq|apply lookup_insert_eq|done|..].
      * intros st. off_steps. eapply wp_off_del_ctx; [apply lookup_insert_eq|apply lookup_insert_eq|cbn; lia|].
        unfold destroy_handle. off_steps. eapply wp_off_ctx_load; [apply lookup_insert_eq|]. cbn [ac_handle set_field]. off_steps.
        apply wp_off_request. off_steps. rewrite insert_insert_eq. unfold set_field. cbn. rewrite Nat2Z.id, list_insert_insert_eq, list_insert_id by done.
        rewrite insert_id by (rewrite Hp; by destruct v). by apply Hno.
      * intros f st Hf. off_steps. cbn [objs mst]. rewrite !insert_insert_eq. apply Hyes; [done| |done].
        constructor; try done; [cbn; lia|]. cbn. by rewrite Nat2Z.id, list_insert_insert_eq, list_insert_id.
  - off_steps. eapply wp_install_with_age; [done|apply lookup_insert_eq|done|..].
    + intros st. off_steps. specialize (Hno zero_age_ctx [] st ind eq_refl eq_refl). rewrite app_nil_r in Hno. by apply Hno.
    + intros f st Hf. off_steps. cbn [objs mst]. rewrite !insert_insert_eq. apply Hyes; [done| |done].
      constructor; try done. cbn. by rewrite list_insert_id by by apply Hs.
Qed.

Lemma wp_install_aging reqs hw ind port_id attr pattern actions timeout (Q : Z → offload_state → Prop) :
  (∀ l st ind', (∀ f, destroyed l f = false) → Q DP_ERROR (off vals ctxs (reqs ++ l) (MkHw (hw_rules hw) st) ind')) →
  (∀ f st ind' v' c, hw_rules hw !! f = None → rule_ctx p v v' c f →
     (df_l4_type df ≠ IPPROTO_TCP → fv_rte_age_ctxs v' = fv_rte_age_ctxs v) →
     Q DP_OK (off (<[p := v']> vals) (with_ctxs ctxs (<[a := c]> (objs ctxs))) reqs
       (MkHw (<[f := MkFlowRule port_id attr pattern (actions (dp_set_flow_age_action timeout a))]> (hw_rules hw)) st) ind')) →
  wp (install_aging port_id attr pattern actions timeout df a) Q
    (off vals (with_ctxs ctxs (<[a := zero_age_ctx]> (objs ctxs))) reqs hw ind).
Proof using FO Hp Hdf Hr Hs Ha.
  intros Hno Hyes. unfold install_aging. off_steps. apply wp_with_indirect.
  - intros c l st ind' Hf Hc Hl. off_steps. eapply wp_destroy_unused; [apply lookup_insert_eq|done..|]. off_steps.
    cbn [objs mst]. rewrite delete_insert_id, <- app_assoc by done. destruct ctxs. apply Hno. intros f.
    rewrite destroyed_app, Hl. unfold handle_requests. by destruct (ac_handle c).
  - intros. off_steps. by apply Hyes.
Qed.
End install.

(** ** Facts: all the rules of a direction *)

Lemma wp_on_ports_gets {A} vals' ctxs' reqs' hw ind' (g : ports_state → A) (Q : A → offload_state → Prop) :
  Q (g (cs_ports s0)) (off vals' ctxs' reqs' hw ind') → wp (on_ports (gets g)) Q (off vals' ctxs' reqs' hw ind').
Proof. intros HQ. unfold on_ports, on_conn. wp_steps. by destruct s0. Qed.

Lemma wp_off_deref vals' ctxs' reqs' q port (Q : dp_port → conn_state → Prop) :
  ps_ports (cs_ports s0) !! q = Some port → Q port (conn vals' ctxs' reqs') → wp (deref_port (Some q)) Q (conn vals' ctxs' reqs').
Proof. intros Hq HQ. apply wp_zoom. eapply wp_get_port; [done|]. by destruct s0. Qed.

Section outcome.
Context (df : dp_flow) (p : loc) (Hdf : df_conntrack df = Some p).
Context (v : flow_value) (vals : gmap loc flow_value) (Hp : vals !! p = Some v).
Context (Hr : 0 < fv_refcount v < 2 ^ 31 - 2) (Hs : slots_ok df v).
Context (ctxs : gmap loc flow_age_ctx) (reqs : list rte_flow_request) (rules : gmap loc flow_rule) (Hok : reqs_ok reqs rules).

(** Nothing was installed, or [new], each rule with its own context. *)
Definition offload_outcome (ret : Z) (s : offload_state) : Prop :=
  let fs := cs_flow (os_conn s) in
  let rules' := live (fl_requests fs) (hw_rules (os_hw s)) in
  (ret = DP_ERROR ∧ rules' = live reqs rules ∧ objs (fl_ctxs fs) = ctxs ∧ flow_objs fs = vals)
  ∨ (ret = DP_OK ∧ ∃ new v',
       rules' = new ∪ live reqs rules ∧ new ##ₘ live reqs rules ∧ (1 ≤ size new ≤ 2)%nat
       ∧ flow_objs fs = <[p := v']> vals ∧ fv_refcount v' = fv_refcount v + Z.of_nat (size new)
       ∧ map_Forall (λ f _, ∃ a c, ctxs !! a = None ∧ objs (fl_ctxs fs) !! a = Some c
                                   ∧ ac_rte_flow c = Some (Z.pos f) ∧ ac_cntrack c = Some p) new).

(** The state when the last rule is installed: nothing was installed before, or
    a rule with the context [h]. *)
Inductive prior : option loc → gmap loc flow_value → gmap loc flow_age_ctx → gmap loc flow_rule → flow_value → Prop :=
  | prior_none : prior None vals ctxs rules v
  | prior_some a c f r v' :
      ctxs !! a = None → rules !! f = None → rule_ctx p v v' c f → slots_ok df v' →
      prior (Some a) (<[p := v']> vals) (<[a := c]> ctxs) (<[f := r]> rules) v'.

Lemma prior_flow h vals' ctxs' rules' v' :
  prior h vals' ctxs' rules' v' → vals' !! p = Some v' ∧ 0 < fv_refcount v' < 2 ^ 31 - 1 ∧ slots_ok df v'.
Proof using Hp Hr Hs.
  intros [|a c f r w Ha Hf Hc Hw]; [repeat split; [done|lia..|done]|]. rewrite lookup_insert_eq.
  assert (fv_refcount w = fv_refcount v + 1) by by rewrite (rc_value _ _ _ _ _ Hc). repeat split; [lia..|done].
Qed.

Lemma handle_not_destroyed c f : destroyed (handle_requests c) f = false.
Proof. unfold handle_requests. by destruct (ac_handle c). Qed.

Lemma outcome_failed l mst st ind :
  (∀ f, destroyed l f = false) → offload_outcome DP_ERROR (off vals (Heap ctxs mst) (reqs ++ l) (MkHw rules st) ind).
Proof.
  intros Hl. left. split; [done|]. split; [|done]. apply live_ext. intros f.
  change (destroyed (reqs ++ l) f = destroyed reqs f). by rewrite destroyed_app, Hl, orb_false_r.
Qed.

Lemma wp_rollback h vals' ctxs' rules' v' mst l st ind (Q : () → offload_state → Prop) :
  prior h vals' ctxs' rules' v' → (∀ f, destroyed l f = false) →
  (∀ s', offload_outcome DP_ERROR s' → Q tt s') →
  wp (destroy_ctx h) Q (off vals' (Heap ctxs' mst) (reqs ++ l) (MkHw rules' st) ind).
Proof using Hp Hr.
  intros Hprior Hl HQ. unfold destroy_ctx. off_steps. destruct Hprior as [|a c f r v' Ha Hf Hc _].
  - wp_steps. apply HQ. by apply outcome_failed.
  - eapply wp_destroy_used; [apply lookup_insert_eq|apply lookup_insert_eq|done|lia|]. off_steps. apply HQ. left.
    split; [done|]. split; [|split].
    + cbn. rewrite <- app_assoc. apply live_destroy; [done|]. intros g. rewrite !destroyed_app, Hl, handle_not_destroyed.
      cbn. rewrite orb_false_r. apply eq_true_iff_eq. rewrite bool_decide_eq_true, Pos.eqb_eq. naive_solver.
    + cbn. by apply delete_insert_id.
    + cbn. unfold flow_objs. cbn. rewrite insert_insert_eq. by apply insert_id.
Qed.

(** Another rule is installed after those of [prior]. *)
Lemma prior_done h vals' ctxs' rules' v' a c f r v'' mst st ind :
  prior h vals' ctxs' rules' v' → ctxs' !! a = None → rules' !! f = None →
  ac_cntrack c = Some p → ac_rte_flow c = Some (Z.pos f) → fv_refcount v'' = fv_refcount v' + 1 →
  offload_outcome DP_OK (off (<[p := v'']> vals') (Heap (<[a := c]> ctxs') mst) reqs (MkHw (<[f := r]> rules') st) ind).
Proof using Hok.
  intros Hprior Ha Hf Hc1 Hc2 Hv''. right. split; [done|].
  destruct Hprior as [|a1 c1 f1 r1 v1 Ha1 Hf1 Hc _]; cbn; unfold flow_objs; cbn.
  - exists {[f := r]}, v''. rewrite live_insert, insert_union_singleton_l, map_size_singleton by done.
    split; [done|]. split; [by apply map_disjoint_singleton_l, live_fresh|]. split; [lia|]. split; [done|]. split; [lia|].
    apply map_Forall_singleton. exists a, c. by rewrite lookup_insert_eq.
  - assert (Hv1 : fv_refcount v1 = fv_refcount v + 1) by by rewrite (rc_value _ _ _ _ _ Hc).
    apply lookup_insert_None in Ha as [Ha Hne]. apply lookup_insert_None in Hf as [Hf Hnf].
    exists (<[f := r]> {[f1 := r1]}), v''.
    rewrite live_insert, live_insert by (done || by rewrite lookup_insert_ne || (intros g Hg; apply lookup_insert_is_Some; destruct (decide (f1 = g)); auto)).
    rewrite map_size_insert_None, map_size_singleton by by rewrite lookup_singleton_ne.
    rewrite <- insert_union_l, <- insert_union_singleton_l, insert_insert_eq. split; [done|].
    split; [apply map_disjoint_insert_l; split; [by apply live_fresh|by apply map_disjoint_singleton_l, live_fresh]|].
    split; [lia|]. split; [done|]. split; [lia|]. apply map_Forall_insert_2; [|apply map_Forall_singleton].
    + exists a, c. by rewrite lookup_insert_eq.
    + exists a1, c1. rewrite lookup_insert_ne, lookup_insert_eq by done. destruct Hc. by repeat split.
Qed.

Lemma wp_flow_of vals' ctxs' reqs' hw ind v' (Q : flow_value → offload_state → Prop) :
  vals' !! p = Some v' → Q v' (off vals' ctxs' reqs' hw ind) → wp (flow_of df) Q (off vals' ctxs' reqs' hw ind).
Proof using Hdf. intros Hv HQ. unfold flow_of, conntrack_of. rewrite Hdf. off_steps. by eapply wp_off_load. Qed.

Lemma wp_aging_rule h vals' ctxs' rules' v' mst st ind port_id attr pattern actions (Q : option loc → offload_state → Prop) :
  prior h vals' ctxs' rules' v' →
  (∀ mst l st ind, (∀ f, destroyed l f = false) → Q None (off vals' (Heap ctxs' mst) (reqs ++ l) (MkHw rules' st) ind)) →
  (∀ a c f r v'' mst st ind, ctxs' !! a = None → rules' !! f = None → rule_ctx p v' v'' c f →
     (df_l4_type df ≠ IPPROTO_TCP → fv_rte_age_ctxs v'' = fv_rte_age_ctxs v') →
     Q (Some a) (off (<[p := v'']> vals') (Heap (<[a := c]> ctxs') mst) reqs (MkHw (<[f := r]> rules') st) ind)) →
  wp (aging_rule port_id attr pattern actions df) Q (off vals' (Heap ctxs' mst) reqs (MkHw rules' st) ind).
Proof using FO MO Hdf Hp Hr Hs.
  intros Hprior Hno Hyes. destruct (prior_flow _ _ _ _ _ Hprior) as (Hv & Hrv & Hsv). unfold aging_rule. off_steps.
  apply wp_off_alloc.
  - intros mst'. off_steps. specialize (Hno mst' [] st ind). rewrite app_nil_r in Hno. by apply Hno.
  - cbn [objs]. intros a mst' Ha. off_steps. eapply wp_flow_of; [done|]. off_steps.
    apply (wp_install_aging df p v' vals' Hv Hdf Hrv Hsv (Heap ctxs' mst') a Ha).
    + intros l st' ind' Hl. off_steps. by apply Hno.
    + intros f st' ind' v'' c Hf Hc Hsame. off_steps. by apply Hyes.
Qed.

(** The last rule; those before are removed when it fails. *)
Lemma wp_last_rule {A} h vals' ctxs' rules' v' mst st ind port_id attr pattern actions (x y : A) (Q : A → offload_state → Prop) :
  prior h vals' ctxs' rules' v' →
  (∀ s, offload_outcome DP_ERROR s → Q x s) → (∀ s, offload_outcome DP_OK s → Q y s) →
  wp (aging_rule port_id attr pattern actions df)
    (λ agectx, wp (match agectx with None => destroy_ctx h;; mret x | Some _ => mret y end) Q)
    (off vals' (Heap ctxs' mst) reqs (MkHw rules' st) ind).
Proof using FO MO Hdf Hp Hr Hs Hok.
  intros Hprior Hx Hy. eapply wp_aging_rule; [done|..].
  - intros. off_steps. eapply wp_rollback; [done..|]. intros s' Hs'. wp_steps. by apply Hx.
  - intros a c f r v'' mst' st' ind' Ha Hf Hc _. off_steps. apply Hy. eapply prior_done; [done..| | |];
      destruct Hc as [Hc1 Hc2 _ Hc _]; [done|done|by rewrite Hc].
Qed.

(** The first of two rules, if [b]. *)
Lemma wp_first_rule (b : bool) mst st ind port_id attr pattern actions (Q : option (option loc) → offload_state → Prop) :
  (∀ s, offload_outcome DP_ERROR s → Q None s) →
  (∀ h vals' ctxs' rules' v' mst st ind, prior h vals' ctxs' rules' v' → (b = false → h = None) →
     Q (Some h) (off vals' (Heap ctxs' mst) reqs (MkHw rules' st) ind)) →
  wp (if b then r ← aging_rule port_id attr pattern actions df; mret (Some <$> r) else mret (Some None)) Q
    (off vals (Heap ctxs mst) reqs (MkHw rules st) ind).
Proof using FO MO Hdf Hp Hr Hs.
  intros Hno Hyes. destruct b; off_steps; [|by eapply Hyes; [apply prior_none|]].
  eapply wp_aging_rule; [constructor|..].
  - intros mst' l st' ind' Hl. off_steps. apply Hno. by apply outcome_failed.
  - intros a c f r v'' mst' st' ind' Ha Hf Hc Hsl. off_steps. eapply Hyes; [constructor; [done..|]|done].
    intros Ht. rewrite Hsl by done. by apply Hs.
Qed.

Context (underlay_ip : Z) (mst : malloc_state) (st : rteflow_state) (ind : indirect_state).
Context (p0 p1 : nat) (port1 : dp_port) (Hpf : ps_pf_ports (cs_ports s0) = [p0; p1]) (Hp1 : ps_ports (cs_ports s0) !! p1 = Some port1).

Abbreviation start := (off vals (Heap ctxs mst) reqs (MkHw rules st) ind).

Lemma outcome_nothing : offload_outcome DP_ERROR start.
Proof. by left. Qed.

Lemma wp_offload_local in_port out_port :
  wp (dp_offload_handle_local_traffic df in_port out_port) offload_outcome start.
Proof using FO MO Hdf Hp Hr Hs Hok.
  unfold dp_offload_handle_local_traffic. destruct (dp_set_l4_flow_item df) as [l4|]; [|apply wp_ret, outcome_nothing].
  off_steps. eapply wp_aging_rule; [constructor|..].
  - intros mst' l st' ind' Hl. off_steps. by apply outcome_failed.
  - intros a c f r v'' mst' st' ind' Ha Hf Hc _. off_steps. destruct Hc as [Hc1 Hc2 _ Hc _].
    eapply prior_done; [constructor|done..|by rewrite Hc].
Qed.

Lemma wp_pf1_port_id vals' ctxs' reqs' hw ind' (Q : Z → offload_state → Prop) :
  Q (pt_port_id port1) (off vals' ctxs' reqs' hw ind') → wp pf1_port_id Q (off vals' ctxs' reqs' hw ind').
Proof using Hpf Hp1.
  intros HQ. unfold pf1_port_id. apply wp_bind, wp_on_ports_gets. rewrite Hpf. off_steps.
  eapply wp_off_deref; [done|]. by off_steps.
Qed.

Lemma wp_offload_encap in_port outgoing out_port :
  wp (dp_offload_handle_tunnel_encap_traffic underlay_ip df in_port outgoing out_port) offload_outcome start.
Proof using FO MO Hdf Hp Hr Hs Hok Hpf Hp1.
  unfold dp_offload_handle_tunnel_encap_traffic. apply wp_bind, wp_on_ports_gets. cbn beta zeta.
  destruct (dp_set_l4_flow_item df) as [l4|]; [|apply wp_ret, outcome_nothing].
  apply wp_bind, wp_first_rule; [intros s Hs'; by off_steps|]. intros h vals' ctxs' rules' v' mst' st' ind' Hprior _. off_steps.
  destruct (prior_flow _ _ _ _ _ Hprior) as (Hv & _). eapply wp_flow_of; [done|]. off_steps.
  destruct (negb _); [apply wp_pf1_port_id|]; off_steps; by eapply wp_last_rule.
Qed.

Lemma wp_offload_in_network incoming in_port port0 :
  ps_ports (cs_ports s0) !! p0 = Some port0 →
  wp (dp_offload_handle_in_network_traffic df incoming in_port) offload_outcome start.
Proof using FO MO Hdf Hp Hr Hs Hok Hpf Hp1.
  intros Hp0. unfold dp_offload_handle_in_network_traffic. destruct (dp_set_l4_flow_item df) as [l4|]; [|apply wp_ret, outcome_nothing].
  apply wp_bind, wp_on_ports_gets. rewrite Hpf. cbn [lookup list_lookup].
  assert (Hout : wp (if bool_decide (Some incoming = Some p0) then on_ports dp_get_pf1 else mret (Some p0))
    (λ out s, s = start ∧ ∃ q port, out = Some q ∧ ps_ports (cs_ports s0) !! q = Some port) start).
  { destruct (bool_decide _); [apply wp_on_ports_gets; rewrite Hpf|apply wp_ret]; split; eauto. }
  apply wp_bind. wp_use Hout. intros out s (-> & q & port & -> & Hq). off_steps. eapply wp_off_deref; [done|].
  off_steps. apply wp_off_alloc.
  - intros st'. off_steps. by left.
  - intros a mst' Ha. unfold conntrack_of. rewrite Hdf. off_steps.
    eapply wp_install_with_age; [done|apply lookup_insert_eq|lia|..].
    + intros st'. off_steps. unfold destroy_ctx. off_steps. eapply wp_destroy_unused; [apply lookup_insert_eq|done..|]. off_steps.
      cbn [objs]. rewrite delete_insert_id by done. by apply outcome_failed.
    + intros f st' Hf. off_steps. cbn [objs]. rewrite insert_insert_eq. by eapply prior_done; [apply prior_none|..].
Qed.
End outcome.

(** The flow with the flag for the PF the packet came from. *)
Definition flagged (pf1 : bool) (v : flow_value) : flow_value :=
  if pf1 then v <| fv_incoming_pf1 := true |> else v <| fv_incoming_pf0 := true |>.

Lemma wp_offload_decap df p v vals ctxs reqs rules mst st ind (p0 p1 incoming : nat) in_port out_port is_recirc :
  df_conntrack df = Some p → vals !! p = Some v → 0 < fv_refcount v < 2 ^ 31 - 2 → slots_ok df v → reqs_ok reqs rules →
  ps_pf_ports (cs_ports s0) = [p0; p1] →
  wp (dp_offload_handle_tunnel_decap_traffic df incoming in_port out_port is_recirc)
    (λ r s, let v' := flagged (negb (bool_decide (incoming = p0))) v in
            offload_outcome p v' (<[p := v']> vals) ctxs reqs rules r.1 s)
    (off vals (Heap ctxs mst) reqs (MkHw rules st) ind).
Proof.
  intros Hdf Hp Hr Hs Hok Hpf. unfold dp_offload_handle_tunnel_decap_traffic. apply wp_bind, wp_on_ports_gets. rewrite Hpf.
  cbn [lookup list_lookup]. replace (bool_decide (Some incoming = Some p0)) with (bool_decide (incoming = p0))
    by (apply bool_decide_ext; naive_solver).
  set (cross := negb (bool_decide (incoming = p0))). unfold set_incoming_flag, conntrack_of. rewrite Hdf. off_steps.
  eapply wp_off_load; [done|]. off_steps. eapply wp_off_store; [done|]. off_steps. cbn zeta. fold (flagged cross v).
  set (v' := flagged cross v). set (df' := if is_recirc then _ else _).
  assert (Hp' : (<[p := v']> vals) !! p = Some v') by apply lookup_insert_eq.
  assert (Hdf' : df_conntrack df' = Some p) by by destruct is_recirc.
  assert (Hr' : 0 < fv_refcount v' < 2 ^ 31 - 2) by by (unfold v'; destruct cross).
  assert (Hs' : slots_ok df' v') by by (unfold v', df', slots_ok; destruct is_recirc, cross).
  destruct (dp_set_l4_flow_item df') as [l4|]; [|apply wp_ret; by left].
  apply wp_bind, (wp_first_rule df' p Hdf' v' _ Hp' Hr' Hs'); [intros s Ho; by off_steps|].
  intros h vals' ctxs' rules' w mst' st' ind' Hprior Hh. off_steps.
  destruct (prior_flow df' p v' _ Hp' Hr' Hs' _ _ _ _ _ _ _ Hprior) as (Hw & _). eapply wp_flow_of; [done..|]. off_steps.
  destruct cross eqn:Hcross; cbn [andb negb] in *; [pose proof (Hh eq_refl) as ->; inversion Hprior; subst|];
    [destruct (pt_is_pf out_port)|]; off_steps; [|eapply (wp_last_rule df' p Hdf' v' _ Hp' Hr' Hs'); [exact Hok|exact Hprior|intros s Ho; exact Ho..]..].
  apply wp_off_alloc; intros; unfold destroy_ctx; off_steps; [apply wp_ret; off_steps; by left|].
  eapply wp_destroy_unused; [apply lookup_insert_eq|done..|]. off_steps. cbn [objs]. rewrite delete_insert_id by done.
  by apply outcome_failed.
Qed.
End steps.

(** ** The handler *)

Definition port_of (s : ports_state) (id : Z) (i : nat) (port : dp_port) : Prop :=
  0 ≤ id < DP_MAX_PORTS ∧ ps_port_table s !! id = Some i ∧ ps_ports s !! i = Some port.

(** A packet of the flow [v] at [p] that goes from one known port to another. *)
Record offload_pre (s : offload_state) (m : rte_mbuf) (p : loc) (v : flow_value) (i : nat) (in_port out_port : dp_port) (p0 : nat) :
    Prop := {
  op_flow : df_conntrack (mb_flow m) = Some p;
  op_value : flow_objs (cs_flow (os_conn s)) !! p = Some v;
  op_ref : 0 < fv_refcount v < 2 ^ 31 - 2;
  op_slots : slots_ok (mb_flow m) v;
  op_reqs : reqs_ok (fl_requests (cs_flow (os_conn s))) (hw_rules (os_hw s));
  op_in : port_of (cs_ports (os_conn s)) (mb_port m) i in_port;
  op_out : ∃ j, port_of (cs_ports (os_conn s)) (df_nxt_hop (mb_flow m)) j out_port;
  op_pfs : ∃ (p1 : nat) port0 port1, ps_pf_ports (cs_ports (os_conn s)) = [p0; p1]
             ∧ ps_ports (cs_ports (os_conn s)) !! p0 = Some port0 ∧ ps_ports (cs_ports (os_conn s)) !! p1 = Some port1
}.

(** The flow with the flag that the decapsulating rule sets first. *)
Definition marked (i p0 : nat) (in_port out_port : dp_port) (v : flow_value) : flow_value :=
  if pt_is_pf in_port && negb (pt_is_pf out_port) then flagged (negb (bool_decide (i = p0))) v else v.

Lemma at_conn_id t :
  at_conn t (flow_objs (cs_flow t)) (Heap (objs (fl_ctxs (cs_flow t))) (mst (fl_ctxs (cs_flow t)))) (fl_requests (cs_flow t)) = t.
Proof. by destruct t as [[? [] [] ? ? ?] ? ? ?]. Qed.

Lemma wp_at_conn {A} (c : cmd offload_state A) s0 hw ind (Q : A → offload_state → Prop) :
  wp c Q (MkOffload (at_conn s0 (flow_objs (cs_flow s0)) (Heap (objs (fl_ctxs (cs_flow s0))) (mst (fl_ctxs (cs_flow s0))))
                       (fl_requests (cs_flow s0))) hw ind) →
  wp c Q (MkOffload s0 hw ind).
Proof. by rewrite at_conn_id. Qed.

Lemma wp_handler {A} (c : cmd offload_state A) (R : A → offload_state → Prop) s0 hw ind m (Q : A → offload_state * rte_mbuf → Prop) :
  wp c R (MkOffload (at_conn s0 (flow_objs (cs_flow s0)) (Heap (objs (fl_ctxs (cs_flow s0))) (mst (fl_ctxs (cs_flow s0))))
                       (fl_requests (cs_flow s0))) hw ind) →
  (∀ x s, R x s → Q x (s, m)) → wp (zoom fstL c) Q (MkOffload s0 hw ind, m).
Proof. intros H%wp_at_conn HQ. apply wp_zoom. eapply wp_mono; [exact H|exact HQ]. Qed.

Lemma wp_handler_port s0 id i port hw ind m (Q : option nat → offload_state * rte_mbuf → Prop) :
  port_of (cs_ports s0) id i port → Q (Some i) (MkOffload s0 hw ind, m) →
  wp (zoom fstL (on_ports (dp_get_in_port id))) Q (MkOffload s0 hw ind, m).
Proof.
  intros ([H1 H2] & Ht & _) HQ. unfold on_ports, on_conn. do 3 apply wp_zoom. unfold wp, dp_get_in_port.
  destruct (Z.leb_spec 0 id), (Z.ltb_spec id DP_MAX_PORTS); try lia. cbn [andb]. destruct s0. cbn in *. by rewrite Ht.
Qed.

Lemma wp_handler_deref s0 id i port hw ind m (Q : dp_port → offload_state * rte_mbuf → Prop) :
  port_of (cs_ports s0) id i port → Q port (MkOffload s0 hw ind, m) →
  wp (zoom fstL (on_conn (deref_port (Some i)))) Q (MkOffload s0 hw ind, m).
Proof.
  intros (_ & _ & Hi) HQ. apply wp_zoom, wp_on_conn, wp_zoom. eapply wp_get_port; [done|]. by destruct s0.
Qed.


(** ** Indirect actions of rules that failed *)

(** When a rule of a TCP flow cannot be installed, its indirect action is destroyed
    twice: by [dp_install_rte_flow_with_indirect], which leaves the handle in the
    context, and again with the context, then on port 0, since the port is
    only stored after the installation. *)
Theorem failed_rule_destroys_twice s df p v a port_id attr pattern actions timeout h ind (i : nat) :
  let age := dp_set_flow_age_action timeout a in
  df_conntrack df = Some p → df_l4_type df = IPPROTO_TCP →
  flow_objs (cs_flow (os_conn s)) !! p = Some v → (i < DP_FLOW_VAL_AGE_CTX_CAPACITY)%nat → fv_rte_age_ctxs v !! i = Some None →
  objs (fl_ctxs (cs_flow (os_conn s))) !! a = Some zero_age_ctx →
  rte_flow_action_handle_create port_id (MkIndirConf (at_ingress attr) (at_egress attr) (at_transfer attr)) age (os_indirect s)
    = (Some h, ind) →
  DP_FAILED (rte_flow_validate (hw_st (os_hw s)) (MkFlowRule port_id attr pattern (actions age))) = true →
  wp (install_aging port_id attr pattern actions timeout df a)
    (λ ret s', ret = DP_ERROR ∧ fl_requests (cs_flow (os_conn s')) =
       fl_requests (cs_flow (os_conn s)) ++ [ActionHandleDestroy port_id h; ActionHandleDestroy 0 h]) s.
Proof.
  intros age Hdf Ht Hp Hi Hslot Ha Hcreate Hfail. destruct s as [s0 hw ind0]. cbn in *. apply wp_at_conn.
  unfold install_aging, dp_install_rte_flow_with_indirect, conntrack_of, dp_create_age_indirect_action.
  rewrite Hdf, Ht, Z.eqb_refl. off_steps. fold age. apply wp_zoom. unfold wp at 1. cbn [lget oindL os_indirect]. rewrite Hcreate.
  off_steps. eapply wp_off_add_ctx; [done..|intros Hno; by destruct (Hno i)|]. intros k Hk _. off_steps.
  eapply wp_off_ctx_load; [apply lookup_insert_eq|]. off_steps. eapply wp_off_ctx_store; [apply lookup_insert_eq|]. off_steps.
  unfold dp_install_rte_flow_with_age. off_steps. apply wp_zoom. unfold wp at 1, dp_install_rte_flow. cbn [lget ohwL os_hw].
  rewrite Hfail. off_steps. eapply wp_off_del_ctx; [apply lookup_insert_eq|apply lookup_insert_eq|cbn; lia|]. unfold destroy_handle.
  off_steps. eapply wp_off_ctx_load; [apply lookup_insert_eq|]. cbn [ac_handle set_field]. off_steps. apply wp_off_request. off_steps.
  eapply wp_destroy_unused; [apply lookup_insert_eq|done..|]. off_steps. split; [done|]. cbn. by rewrite <- app_assoc.
Qed.

(** ** Rules of flows that are removed *)

Lemma wp_remove_no_ctxs s0 vals ctxs reqs p v (idxs : list nat) (Q : () → conn_state → Prop) :
  vals !! p = Some v → Forall (λ i, fv_rte_age_ctxs v !! i = Some None) idxs → Q tt (at_conn s0 vals ctxs reqs) →
  wp (foldr (λ i rest, a ← age_ctx_at p i; dp_destroy_rte_flow_agectx a;; rest) (mret tt) idxs) Q (at_conn s0 vals ctxs reqs).
Proof.
  intros Hp Hi HQ. induction Hi as [|i idxs Hi _ IH]; [by apply wp_ret|]. cbn [foldr].
  apply wp_bind, (wp_mono _ (λ x t, x = None ∧ t = at_conn s0 vals ctxs reqs)).
  - unfold age_ctx_at. wp_steps. eapply wp_off_load; [done|]. rewrite Hi. by wp_steps.
  - intros x t [-> ->]. wp_steps. exact IH.
Qed.

(** C38. A rule of a flow that is not TCP outlives the removal of the flow.  Its context is
    not among those of the flow, so [dp_remove_flow] does not destroy the rule,
    and the flow stays allocated for the reference of the rule. *)
Theorem rule_outlives_flow s df p v port_id attr pattern actions :
  df_conntrack df = Some p → df_l4_type df ≠ IPPROTO_TCP → flow_objs (cs_flow (os_conn s)) !! p = Some v →
  0 < fv_refcount v < 2 ^ 31 - 2 → fv_rte_age_ctxs v = replicate DP_FLOW_VAL_AGE_CTX_CAPACITY None →
  reqs_ok (fl_requests (cs_flow (os_conn s))) (hw_rules (os_hw s)) →
  wp (aging_rule port_id attr pattern actions df)
    (λ agectx s1, ∀ a, agectx = Some a →
       wp (on_conn (dp_remove_flow p))
         (λ _ s2, (∃ f r v', live (fl_requests (cs_flow (os_conn s2))) (hw_rules (os_hw s2)) =
                             <[f := r]> (live (fl_requests (cs_flow (os_conn s))) (hw_rules (os_hw s)))
                          ∧ hw_rules (os_hw s) !! f = None
                          ∧ flow_objs (cs_flow (os_conn s2)) !! p = Some v' ∧ fv_aged v' = true)) s1) s.
Proof.
  intros Hdf Ht Hp Hr Hslots Hok. destruct s as [s0 [rules st] ind]. cbn in *. apply wp_at_conn.
  assert (Hsl : slots_ok df v) by by (intros _; rewrite Hslots).
  eapply (wp_aging_rule s0 df p Hdf v _ Hp Hr Hsl); [apply prior_none|done|].
  intros a c f r v' mst' st' ind' Ha Hf Hc Hsame _ _. apply wp_on_conn. unfold dp_remove_flow. wp_steps.
  assert (Hv' : fv_refcount v' = fv_refcount v + 1) by by rewrite (rc_value _ _ _ _ _ Hc).
  eapply (wp_mono _ (λ _ t, t = at_conn s0 (<[p := v']> (flow_objs (cs_flow s0)))
    (Heap (<[a := c]> (objs (fl_ctxs (cs_flow s0)))) mst') (fl_requests (cs_flow s0)))).
  { destruct (fl_offload_mode_enabled _); [|by apply wp_ret]. eapply wp_remove_no_ctxs; [apply lookup_insert_eq| |done].
    rewrite Hsame, Hslots by done. repeat constructor. }
  intros _ ? ->. unfold dp_age_out_flow. wp_steps. eapply wp_off_load; [apply lookup_insert_eq|].
  wp_steps. eapply wp_off_store; [apply lookup_insert_eq|]. eapply wp_off_ref_dec; [apply lookup_insert_eq|cbn; lia|].
  exists f, r. eexists. split; [by apply live_insert|]. split; [done|]. unfold flow_objs. cbn. split; [apply lookup_insert_eq|done].
Qed.

(** ** The header of the hardware and that of the software *)

(** The fields of a header in front of a packet, except for the length of the payload. *)
Definition header_sent (h : Hw.encap_hdr) (m : rte_mbuf) : Prop :=
  mget m 6 eth_dst = ee_dst (eh_eth h) mod 2 ^ 48 ∧ mget m 6 eth_src = ee_src (eh_eth h) mod 2 ^ 48
  ∧ mget m 2 eth_ether_type = ee_type (eh_eth h)
  ∧ match eh_ipv6 h with
    | None => False
    | Some h6 =>
        mget m 4 (dp_get_ipv6_hdr + ip6_vtc_flow) = e6_vtc_flow h6
        ∧ mget m 1 (dp_get_ipv6_hdr + ip6_proto) = e6_proto h6 ∧ mget m 1 (dp_get_ipv6_hdr + ip6_hop_limits) = e6_hop_limits h6
        ∧ mget m 16 (dp_get_ipv6_hdr + ip6_src) = e6_src h6 mod 2 ^ 128 ∧ mget m 16 (dp_get_ipv6_hdr + ip6_dst) = e6_dst h6
    end.

(** C25. The hardware puts the same header in front of a packet as the software.  The packet
    that [ipip_encap_node] sends for a connection has, field by field except for the
    length of the payload, the header that the encapsulating rule made from its flow
    contains, followed by the packet without its Ethernet header. *)
Theorem encap_header_equiv `{HR : RteRib} `{HN : RteNet} {HNO : RteNetOk} underlay_ip tx d m i port o out :
  encap_pre d m → port_at d (mb_port m) i port → port_at d (df_nxt_hop (mb_flow m)) o out →
  wp (ipip_encap_next underlay_ip tx)
    (λ _ s, header_sent (dp_create_ipip_encap_header underlay_ip (mb_flow s.2) port out) s.2
       ∧ (∀ k off, sizeof_ether_hdr ≤ off →
            mget s.2 k (off + DP_IPIP_ENCAP_HEADER_SIZE - sizeof_ether_hdr) = mget m k off)) (d, m).
Proof.
  intros Hpre Hport Hout. eapply wp_mono; [by apply wp_encap|]. intros e s (_ & _ & Ht & Hflow & Hhdr).
  pose proof (tn_inner _ _ _ _ Ht) as Hinner. destruct Ht, (Hhdr _ _ _ _ Hport Hout). unfold header_sent, dp_create_ipip_encap_header. rewrite Hflow. cbn. split; [done|].
  unfold DP_IPIP_ENCAP_HEADER_SIZE, sizeof_ether_hdr, sizeof_ipv6_hdr. intros k off Hoff. rewrite Hinner by lia. f_equal. lia.
Qed.
End offload_facts.

(** ** Runs *)

Section offload_examples.
#[local] Existing Instances test_hash test_hash_ok test_malloc test_malloc_ok test_rib test_net test_net_ok.

(** Handles are numbers. *)
#[local] Instance test_indirect : RteIndirect := {
  indirect_state := Z;
  rte_flow_action_handle_create _ _ _ n := (Some n, n + 1)
}.

(** Two physical ports and an interface, whose flow to 30:80 is the first object. *)
Definition ex_off_ports : ports_state :=
  MkPorts [zero_port <| pt_is_pf := true |>; zero_port <| pt_is_pf := true |> <| pt_port_id := 1 |>; zero_port <| pt_port_id := 2 |>]
    {[0 := 0%nat; 1 := 1%nat; 2 := 2%nat]} [0%nat; 1%nat] (Heap (H := test_malloc) ∅ ([] : list bool)).
Definition ex_off_conn : conn_state := ex_conn <| cs_ports := ex_off_ports |>.

(** A packet that leaves by the second physical port. *)
Definition ex_off_pkt : rte_mbuf :=
  (ex_tcp4 10 30 4000 80 (ex_df <| df_nxt_hop := 1 |> <| df_conntrack := Some 1%positive |>)) <| mb_port := 2 |>.

(** The rule for the hairpin queue is installed, the second rule is not. *)
Definition ex_off_state : @offload_state test_hash test_malloc test_rteflow test_indirect :=
  MkOffload (H1 := test_rteflow) ex_off_conn (@MkHw test_rteflow ∅ [true; false]) 7.

Lemma ex_off_pre : offload_pre (HF := test_rteflow) ex_off_state ex_off_pkt 1%positive ex_flow 2 (zero_port <| pt_port_id := 2 |>)
  (zero_port <| pt_is_pf := true |> <| pt_port_id := 1 |>) 0.
Proof.
  constructor; try done; [by exists 1%nat|]. by exists 1%nat, (zero_port <| pt_is_pf := true |>), (zero_port <| pt_is_pf := true |> <| pt_port_id := 1 |>).
Qed.


(** No rule is valid. *)
Definition test_rejecting : RteFlow := {|
  rteflow_state := unit;
  rte_flow_validate _ _ := -1;
  rte_flow_create st _ _ := (None, st);
  rte_flow_destroy st _ := (0, st)
|}.

(** The state with a new context. *)
Definition ex_rejected : @offload_state test_hash test_malloc test_rejecting test_indirect :=
  MkOffload (H1 := test_rejecting)
    (ex_off_conn <| cs_flow := (cs_flow ex_off_conn) <| fl_ctxs := Heap {[5%positive := zero_age_ctx]} ([] : list bool) |> |>)
    (@MkHw test_rejecting ∅ tt) 7.

Lemma failed_rule_destroys_twice_witness :
  wp (install_aging (HF := test_rejecting) 2 dp_flow_vf_attr_ingress [dp_set_end_flow_item] (λ age, [age; dp_set_end_action]) 30
        (mb_flow ex_off_pkt) 5%positive)
    (λ _ s, fl_requests (cs_flow (os_conn s)) = [ActionHandleDestroy 2 7; ActionHandleDestroy 0 7]) ex_rejected.
Proof.
  eapply wp_mono; [eapply (failed_rule_destroys_twice (HF := test_rejecting) ex_rejected (mb_flow ex_off_pkt) 1%positive ex_flow
    5%positive 2 dp_flow_vf_attr_ingress [dp_set_end_flow_item] (λ age, [age; dp_set_end_action]) 30 7 8 0);
    (reflexivity || (cbv; lia))|].
  intros ret s [_ H]. exact H.
Defined.

(** A datagram of the same flow. *)
Lemma rule_outlives_flow_witness :
  wp (aging_rule (HF := test_rteflow) 2 dp_flow_vf_attr_ingress [dp_set_end_flow_item] (λ age, [age; dp_set_end_action])
        ((mb_flow ex_off_pkt) <| df_l4_type := IPPROTO_UDP |>))
    (λ agectx s1, ∀ a, agectx = Some a →
       wp (on_conn (dp_remove_flow 1%positive))
         (λ _ s2, live (fl_requests (cs_flow (os_conn s2))) (hw_rules (os_hw s2)) ≠ ∅) s1) ex_off_state.
Proof.
  eapply wp_mono; [apply (rule_outlives_flow (FO := test_rteflow_ok) ex_off_state
    ((mb_flow ex_off_pkt) <| df_l4_type := IPPROTO_UDP |>) 1%positive ex_flow); done|].
  intros agectx s1 H a Ha. eapply wp_mono; [exact (H a Ha)|]. intros _ s2 (f & r & v & -> & _). apply insert_non_empty.
Defined.

Lemma encap_header_equiv_witness :
  wp (ipip_encap_next 1 {[0]})
    (λ _ s, header_sent (dp_create_ipip_encap_header 1 (mb_flow s.2) (zero_port <| pt_is_pf := true |>) (zero_port <| pt_is_pf := true |>)) s.2)
    (ex_tunnel_data, ex_outgoing).
Proof.
  assert (Hpf : port_at ex_tunnel_data 0 0 (zero_port <| pt_is_pf := true |>)) by (split; [done|split; reflexivity]).
  eapply wp_mono; [apply (encap_header_equiv 1 {[0]} ex_tunnel_data ex_outgoing 0 (zero_port <| pt_is_pf := true |>) 0
    (zero_port <| pt_is_pf := true |>)); [|exact Hpf..]|].
  - constructor; try done; [by apply ex_frame_u8|by left|by eauto..].
  - intros e s [H _]. exact H.
Defined.
End offload_examples.
