(* ===== verification/Neigh.v ===== *)
(** * Neighbours of the interfaces (src/nodes/arp_node.c, ipv6_nd_node.c,
    rx_periodic_node.c, src/dp_periodic_msg.c)

    The nodes that answer ARP requests and neighbour discovery in the name of
    the gateway, and the messages that are sent to all interfaces from time to
    time.  The headers are positions in the packet.  The theorems give the outcome of
    every ARP packet. *)

From S2P Require Import Prelude Dpdk Error Types Port Rib Lb Vnf Conn Mbuf Graph Nat Vni Lpm Flow Nat64 Cntrack Virtsvc Nodes Forward.

Definition RTE_ETHER_TYPE_ARP : Z := 2054.
Definition DP_ARP_REQUEST : Z := 1.
Definition DP_ARP_REPLY : Z := 2.
Definition DP_ARP_HW_ETH : Z := 1.
Definition NDISC_ROUTER_ADVERTISEMENT : Z := 134.
Definition NDISC_NEIGHBOUR_ADVERTISEMENT : Z := 136.
Definition ND_OPT_LEN_OCTET_1 : Z := 1.
Definition ND_OPT_SOURCE_LL_ADDR : Z := 1.
Definition ND_OPT_TARGET_LL_ADDR : Z := 2.
Definition RTE_PTYPE_L2_ETHER_ARP : Z := 3.
Definition RTE_PTYPE_L4_ICMP : Z := 1280.

(** [struct icmp6hdr], [struct nd_msg] and [struct ra_msg].  The byte [icmp6_flags]
    holds the bits [override], [solicited] and [router] of an advertisement and is
    [hop_limit] in a router advertisement, whose bits [other] and [managed] are in
    the byte after it. *)
Definition icmp6_type : Z := 0.
Definition icmp6_cksum : Z := 2.
Definition icmp6_flags : Z := 4.
Definition icmp6_hop_limit : Z := 4.
Definition icmp6_ra_flags : Z := 5.
Definition icmp6_rt_lifetime : Z := 6.
Definition sizeof_icmp6hdr : Z := 8.
Definition nd_target : Z := 8.
Definition nd_opt : Z := 24.
Definition ra_reachable_time : Z := 8.
Definition ra_retrans_timer : Z := 12.
Definition sizeof_ra_msg : Z := 16.
Definition sizeof_nd_opt_ll : Z := 8.
Definition sizeof_arp_hdr : Z := 28.

Definition ND_OVERRIDE : Z := 32.
Definition ND_SOLICITED : Z := 64.
Definition ND_ROUTER : Z := 128.
Definition RA_OTHER : Z := 64.
Definition RA_MANAGED : Z := 128.

Definition dp_unspecified_ipv6 : Z := 0.
Definition dp_multicast_ipv6 : Z := of_bytes ([0xff; 0x02] ++ replicate 13 0 ++ [1]).
Definition dp_mc_mac : Z := of_bytes [0x33; 0x33; 0; 0; 0; 1].
Definition all_ones_mac : Z := 2 ^ 48 - 1.

(** [rte_ether_addr_copy] and setting a bit of a bit-field. *)
Definition mac_copy (src dst : Z) : cmd rte_mbuf () := mac ← ld 6 src; st 6 dst mac.
Definition set_bits (pos bits : Z) : cmd rte_mbuf () := b ← ld8 pos; st8 pos (Z.lor b bits).
Definition clear_bits (pos bits : Z) : cmd rte_mbuf () := b ← ld8 pos; st8 pos (Z.land b (255 - bits)).

Section neigh.
Context `{HH : RteHash} `{HM : RteMalloc} `{HR : RteRib} `{HN : RteNet}.

Definition upd_in_port (p : nat) (f : dp_port → dp_port) : cmd node_state () :=
  zoom connN (zoom portsL (upd_port p f)).

(** ** ARP *)

(** The request becomes the reply of the gateway. *)
Definition arp_reply (own_mac : Z) : cmd rte_mbuf () :=
  let arp_hdr := sizeof_ether_hdr in
  mac_copy (arp_hdr + arp_sha) eth_dst;;
  st 6 eth_src own_mac;;
  tmp_addr ← ld 6 (arp_hdr + arp_sha);
  st 6 (arp_hdr + arp_sha) own_mac;;
  st 6 (arp_hdr + arp_tha) tmp_addr;;
  temp_ip ← ld32 (arp_hdr + arp_sip);
  tip ← ld32 (arp_hdr + arp_tip);
  st32 (arp_hdr + arp_sip) tip;;
  st32 (arp_hdr + arp_tip) temp_ip;;
  st16 (arp_hdr + arp_opcode) (htons DP_ARP_REPLY).

Definition arp_handled : cmd node_state bool :=
  let arp_hdr := sizeof_ether_hdr in
  requested_ip ← zoom sndL (ld32 (arp_hdr + arp_tip));
  sender_ip ← zoom sndL (ld32 (arp_hdr + arp_sip));
  inp ← in_port;
  let '(p, port) := inp : nat * dp_port in
  if dp_arp_cycle_needed port && (sender_ip =? htonl (cfg_own_ip (if_cfg (pt_iface port)))) then
    mac ← zoom sndL (ld 6 eth_src);
    upd_in_port p (λ port, port <| pt_neigh_mac := mac |>);;
    mret true
  else
    opcode ← zoom sndL (ld16 (arp_hdr + arp_opcode));
    if negb (opcode =? htons DP_ARP_REQUEST) || negb (requested_ip =? htonl dp_get_gw_ip4) then mret false
    else zoom sndL (arp_reply (pt_own_mac port));; mret true.

Definition arp_next (next_tx_index : gset Z) : cmd node_state dp_edge :=
  handled ← arp_handled;
  if negb handled then mret EDGE_DROP
  else m_port ← zoom sndL (gets mb_port); tx_edge next_tx_index m_port.

(** ** Neighbour discovery *)

(** The result is the length of the packet. *)
Definition dp_ipv6_fill_ra (ipv6_hdr ra_msg : Z) (src_mac_addr : option Z) : cmd rte_mbuf Z :=
  st 8 ra_msg 0;;
  st8 (ra_msg + icmp6_type) NDISC_ROUTER_ADVERTISEMENT;;
  set_bits (ra_msg + icmp6_ra_flags) RA_MANAGED;;
  set_bits (ra_msg + icmp6_ra_flags) RA_OTHER;;
  st16 (ra_msg + icmp6_rt_lifetime) 65535;;
  st32 (ra_msg + ra_reachable_time) 0;;
  st32 (ra_msg + ra_retrans_timer) 0;;
  st8 (ra_msg + icmp6_hop_limit) 255;;
  st16 (ipv6_hdr + ip6_payload_len) (htons (sizeof_ra_msg + sizeof_nd_opt_ll));;
  let src_ll_addr := ra_msg + sizeof_ra_msg in
  st8 src_ll_addr ND_OPT_SOURCE_LL_ADDR;;
  st8 (src_ll_addr + 1) ND_OPT_LEN_OCTET_1;;
  (match src_mac_addr with Some mac => st 6 (src_ll_addr + 2) mac | None => mret tt end);;
  mret (sizeof_ether_hdr + sizeof_ipv6_hdr + sizeof_ra_msg + sizeof_nd_opt_ll).

(** [icmp6_cksum = 0; icmp6_cksum = rte_ipv6_udptcp_cksum(ipv6_hdr, icmp6_hdr)] *)
Definition icmp6_checksum (ipv6_hdr icmp6_hdr : Z) : cmd rte_mbuf () :=
  st16 (icmp6_hdr + icmp6_cksum) 0;;
  cksum ← gets (λ m, rte_ipv6_udptcp_cksum m ipv6_hdr icmp6_hdr);
  st16 (icmp6_hdr + icmp6_cksum) cksum.

(** The answer is sent back to the sender, from the gateway. *)
Definition nd_turn (own_mac : Z) : cmd rte_mbuf () :=
  let ipv6_hdr := sizeof_ether_hdr in
  mac_copy eth_src eth_dst;;
  st 6 eth_src own_mac;;
  src_addr ← ld128 (ipv6_hdr + ip6_src);
  st128 (ipv6_hdr + ip6_dst) (if src_addr =? dp_unspecified_ipv6 then dp_multicast_ipv6 else src_addr);;
  st128 (ipv6_hdr + ip6_src) dp_get_gw_ip6.

(** The solicitation becomes an advertisement. *)
Definition nd_advert (nd_msg : Z) : cmd rte_mbuf () :=
  st8 (nd_msg + icmp6_type) NDISC_NEIGHBOUR_ADVERTISEMENT;;
  set_bits (nd_msg + icmp6_flags) ND_SOLICITED;;
  set_bits (nd_msg + icmp6_flags) ND_OVERRIDE;;
  st8 (nd_msg + nd_opt) ND_OPT_TARGET_LL_ADDR;;
  st8 (nd_msg + nd_opt + 1) ND_OPT_LEN_OCTET_1;;
  mac_copy eth_src (nd_msg + nd_opt + 2).

(** The interface is known by the address and the MAC of its solicitation. *)
Definition nd_learn (p : nat) : cmd node_state () :=
  mac ← zoom sndL (ld 6 eth_dst);
  dst_addr ← zoom sndL (ld128 (sizeof_ether_hdr + ip6_dst));
  upd_in_port p (λ port, port <| pt_neigh_mac := mac |>
    <| pt_iface := (pt_iface port) <| if_cfg := (if_cfg (pt_iface port)) <| cfg_own_ipv6 := dst_addr |> |> |>).

Definition ipv6_nd_answer (next_tx_index : gset Z) : cmd node_state dp_edge :=
  zoom sndL (icmp6_checksum sizeof_ether_hdr (sizeof_ether_hdr + sizeof_ipv6_hdr));;
  m_port ← zoom sndL (gets mb_port);
  tx_edge next_tx_index m_port.

Definition ipv6_nd_next (next_tx_index : gset Z) : cmd node_state dp_edge :=
  let ipv6_hdr := sizeof_ether_hdr in
  let icmp6_hdr := ipv6_hdr + sizeof_ipv6_hdr in
  icmp_type ← zoom sndL (ld8 (icmp6_hdr + icmp6_type));
  inp ← in_port;
  let '(p, port) := inp : nat * dp_port in
  zoom sndL (nd_turn (pt_own_mac port));;
  if icmp_type =? NDISC_NEIGHBOUR_SOLICITATION then
    target ← zoom sndL (ld128 (icmp6_hdr + nd_target));
    if negb (target =? dp_get_gw_ip6) then mret EDGE_DROP
    else
      nd_learn p;;
      zoom sndL (nd_advert icmp6_hdr);;
      ipv6_nd_answer next_tx_index
  else if icmp_type =? NDISC_ROUTER_SOLICITATION then
    len ← zoom sndL (dp_ipv6_fill_ra ipv6_hdr icmp6_hdr (Some (pt_own_mac port)));
    zoom sndL (modify (λ m, m <| mb_data_len := len |>));;
    ipv6_nd_answer next_tx_index
  else mret EDGE_DROP.

(** [ipv6_nd_node_process]: without the IPv6 overlay all packets are dropped. *)
Definition ipv6_nd_process_next (ipv6_overlay_enabled : bool) (next_tx_index : gset Z) : cmd node_state dp_edge :=
  if ipv6_overlay_enabled then ipv6_nd_next next_tx_index else mret EDGE_DROP.
End neigh.

(** ** Periodic messages *)

(** Packets of DPDK's pool, and the ring with those to be sent.  A packet is
    allocated with what its memory held before. *)
Class RtePktpool := {
  pool_state : Type;
  pktmbuf_alloc : pool_state → option rte_mbuf * pool_state;
  pktmbuf_copy : rte_mbuf → pool_state → option rte_mbuf * pool_state;
  pktmbuf_free : rte_mbuf → pool_state → pool_state;
  ring_state : Type;
  rte_ring_sp_enqueue : rte_mbuf → ring_state → Z * ring_state
}.

Record periodic_state `{RteMalloc} `{RtePktpool} := MkPeriodic {
  pe_ports : ports_state;
  pe_pool : pool_state;
  pe_ring : ring_state;
  pe_pkt_id : Z
}.
Arguments MkPeriodic {_ _} _ _ _ _.
Global Instance periodic_state_eta `{RteMalloc} `{RtePktpool} : Eta periodic_state := λ r,
  MkPeriodic (pe_ports r) (pe_pool r) (pe_ring r) (pe_pkt_id r).

Section periodic.
Context `{HM : RteMalloc} `{HN : RteNet} `{HP : RtePktpool}.

(** A command on a packet that the function holds. *)
Definition on_mbuf {A : Type} (c : cmd rte_mbuf A) (m : rte_mbuf) : cmd periodic_state (A * rte_mbuf) := λ s,
  match c m with Some r => Some (r, s) | None => None end.

Definition dp_is_ip_set (port : dp_port) (eth_type : Z) : bool :=
  ((eth_type =? RTE_ETHER_TYPE_IPV6) && negb (cfg_dhcp_ipv6 (if_cfg (pt_iface port)) =? 0))
  || ((eth_type =? RTE_ETHER_TYPE_ARP) && negb (cfg_own_ip (if_cfg (pt_iface port)) =? 0)).

(** What is written to the copy for a port; the atomic counter gives [pkt_id]. *)
Definition periodic_fill (port : dp_port) (eth_type pkt_id : Z) : cmd rte_mbuf () :=
  modify (λ m, m <| mb_port := pt_port_id port |>);;
  st 6 eth_src (pt_own_mac port);;
  (if eth_type =? RTE_ETHER_TYPE_ARP then
     st 6 (sizeof_ether_hdr + arp_sha) (pt_own_mac port);;
     if dp_arp_cycle_needed port
     then st32 (sizeof_ether_hdr + arp_tip) (htonl (cfg_own_ip (if_cfg (pt_iface port)))) else mret tt
   else mret tt);;
  (if eth_type =? RTE_ETHER_TYPE_IPV6 then
     let ipv6_hdr := sizeof_ether_hdr in
     let ra_msg := ipv6_hdr + sizeof_ipv6_hdr in
     type ← ld8 (ra_msg + icmp6_type);
     if type =? NDISC_ROUTER_ADVERTISEMENT
     then st 6 (ra_msg + sizeof_ra_msg + 2) (pt_own_mac port);; icmp6_checksum ipv6_hdr ra_msg
     else mret tt
   else mret tt);;
  dp_init_pkt_mark pkt_id;;
  modify (λ m, m <| mb_flow := dp_init_flow_ptr <| df_l3_type := eth_type |> |>).

(** The body of the loop; [false] ends it. *)
Definition send_to_vf (pkt : rte_mbuf) (eth_type : Z) (port : dp_port) : cmd periodic_state bool :=
  if pt_is_pf port || negb (pt_allocated port) then mret true
  else if negb (dp_is_ip_set port eth_type) then mret true
  else
    clone ← (λ s, let '(r, pool) := pktmbuf_copy pkt (pe_pool s) in Some (r, s <| pe_pool := pool |>));
    match clone with
    | None => mret false
    | Some clone_buf =>
        modify (λ s, s <| pe_pkt_id := u32 (pe_pkt_id s + 1) |>);;
        pkt_id ← gets pe_pkt_id;
        r ← on_mbuf (periodic_fill port eth_type pkt_id) clone_buf;
        ret ← (λ s, let '(ret, ring) := rte_ring_sp_enqueue r.2 (pe_ring s) in Some (ret, s <| pe_ring := ring |>));
        (if DP_FAILED ret then modify (λ s, s <| pe_pool := pktmbuf_free r.2 (pe_pool s) |>) else mret tt);;
        mret true
    end.

Fixpoint send_to_vfs (pkt : rte_mbuf) (eth_type : Z) (ports : list dp_port) : cmd periodic_state () :=
  match ports with
  | [] => mret tt
  | port :: ports =>
      go ← send_to_vf pkt eth_type port;
      if (go : bool) then send_to_vfs pkt eth_type ports else mret tt
  end.
Definition send_to_all_vfs (pkt : rte_mbuf) (eth_type : Z) : cmd periodic_state () :=
  ports ← gets (λ s, ps_ports (pe_ports s));
  send_to_vfs pkt eth_type ports.

(** A message is made in a packet, sent, and the packet freed. *)
Definition trigger (fill : cmd rte_mbuf ()) (eth_type : Z) : cmd periodic_state () :=
  pkt ← (λ s, let '(r, pool) := pktmbuf_alloc (pe_pool s) in Some (r, s <| pe_pool := pool |>));
  match pkt with
  | None => mret tt
  | Some pkt =>
      r ← on_mbuf fill pkt;
      send_to_all_vfs r.2 eth_type;;
      modify (λ s, s <| pe_pool := pktmbuf_free r.2 (pe_pool s) |>)
  end.

Definition garp_fill : cmd rte_mbuf () :=
  let arp_hdr := sizeof_ether_hdr in
  modify (λ m, m <| mb_packet_type := RTE_PTYPE_L2_ETHER_ARP |>);;
  st16 eth_ether_type (htons RTE_ETHER_TYPE_ARP);;
  st 6 eth_dst all_ones_mac;;
  st16 (arp_hdr + arp_opcode) (htons DP_ARP_REQUEST);;
  st16 (arp_hdr + arp_hardware) (htons DP_ARP_HW_ETH);;
  st16 (arp_hdr + arp_protocol) (htons RTE_ETHER_TYPE_IPV4);;
  st8 (arp_hdr + arp_hlen) 6;;
  st8 (arp_hdr + arp_plen) 4;;
  st32 (arp_hdr + arp_tip) (htonl dp_get_gw_ip4);;
  st32 (arp_hdr + arp_sip) (htonl dp_get_gw_ip4);;
  st 6 (arp_hdr + arp_tha) 0;;
  modify (λ m, m <| mb_data_len := sizeof_ether_hdr + sizeof_arp_hdr |>).
Definition trigger_garp : cmd periodic_state () := trigger garp_fill RTE_ETHER_TYPE_ARP.

(** The headers of both messages of neighbour discovery. *)
Definition nd_ipv6_hdr : cmd rte_mbuf () :=
  let ipv6_hdr := sizeof_ether_hdr in
  st 6 eth_dst dp_mc_mac;;
  st16 eth_ether_type (htons RTE_ETHER_TYPE_IPV6);;
  st8 (ipv6_hdr + ip6_proto) IPPROTO_ICMPV6;;
  st32 (ipv6_hdr + ip6_vtc_flow) (htonl 0x60000000);;
  st8 (ipv6_hdr + ip6_hop_limits) 255;;
  st128 (ipv6_hdr + ip6_src) dp_get_gw_ip6;;
  st128 (ipv6_hdr + ip6_dst) dp_multicast_ipv6.
Definition nd_ptype : Z := Z.lor (Z.lor RTE_PTYPE_L2_ETHER RTE_PTYPE_L3_IPV6) RTE_PTYPE_L4_ICMP.

Definition nd_unsol_adv_fill : cmd rte_mbuf () :=
  let ipv6_hdr := sizeof_ether_hdr in
  let ns_msg := ipv6_hdr + sizeof_ipv6_hdr in
  modify (λ m, m <| mb_packet_type := nd_ptype |>);;
  nd_ipv6_hdr;;
  st16 (ipv6_hdr + ip6_payload_len) (htons (sizeof_icmp6hdr + 16));;
  st 8 ns_msg 0;;
  st8 (ns_msg + icmp6_type) NDISC_NEIGHBOUR_ADVERTISEMENT;;
  clear_bits (ns_msg + icmp6_flags) ND_SOLICITED;;
  set_bits (ns_msg + icmp6_flags) ND_OVERRIDE;;
  set_bits (ns_msg + icmp6_flags) ND_ROUTER;;
  st8 (ns_msg + icmp6_hop_limit) 255;;
  st128 (ns_msg + nd_target) dp_get_gw_ip6;;
  modify (λ m, m <| mb_data_len := sizeof_ether_hdr + sizeof_ipv6_hdr + sizeof_icmp6hdr + 16 |>);;
  icmp6_checksum ipv6_hdr ns_msg.
Definition trigger_nd_unsol_adv : cmd periodic_state () := trigger nd_unsol_adv_fill RTE_ETHER_TYPE_IPV6.

Definition nd_ra_fill : cmd rte_mbuf () :=
  let ipv6_hdr := sizeof_ether_hdr in
  let ra_msg := ipv6_hdr + sizeof_ipv6_hdr in
  modify (λ m, m <| mb_packet_type := nd_ptype |>);;
  st 6 eth_src all_ones_mac;;
  nd_ipv6_hdr;;
  len ← dp_ipv6_fill_ra ipv6_hdr ra_msg None;
  modify (λ m, m <| mb_data_len := len |>).
Definition trigger_nd_ra : cmd periodic_state () := trigger nd_ra_fill RTE_ETHER_TYPE_IPV6.
End periodic.

(** The edge of a periodic message (src/nodes/rx_periodic_node.c). *)
Definition rx_periodic_next (next_tx_index : gset Z) : cmd rte_mbuf dp_edge :=
  m_port ← gets mb_port; tx_edge next_tx_index m_port.

(** ** Facts *)

Ltac arp_unfold := unfold arp_sha, arp_sip, arp_tha, arp_tip, arp_opcode in *; net_unfold.

Section neigh_facts.
Context `{HH : RteHash} {HO : RteHashOk} `{HM : RteMalloc} {MO : RteMallocOk} `{HR : RteRib} `{HN : RteNet} {HNO : RteNetOk}.
Implicit Types (d : data_state) (m : rte_mbuf).

(** A whole ARP packet from the interface of [port]. *)
Record arp_pkt d m (i : nat) port : Prop := {
  ap_port : port_at d (mb_port m) i port;
  ap_in : in_pkt m 0 42 = true;
  ap_u8 : Forall is_u8 (mb_buf m);
  ap_mac : 0 ≤ pt_own_mac port < 2 ^ 48
}.
(** [m'] is the answer of [own_mac] to the request [m]. *)
Record arp_answer (own_mac : Z) m m' : Prop := {
  aa_opcode : mget m' 2 (sizeof_ether_hdr + arp_opcode) = htons DP_ARP_REPLY;
  aa_sender : mget m' 6 (sizeof_ether_hdr + arp_sha) = own_mac
    ∧ mget m' 4 (sizeof_ether_hdr + arp_sip) = mget m 4 (sizeof_ether_hdr + arp_tip);
  aa_target : mget m' 6 (sizeof_ether_hdr + arp_tha) = mget m 6 (sizeof_ether_hdr + arp_sha)
    ∧ mget m' 4 (sizeof_ether_hdr + arp_tip) = mget m 4 (sizeof_ether_hdr + arp_sip);
  aa_eth : mget m' 6 eth_src = own_mac ∧ mget m' 6 eth_dst = mget m 6 (sizeof_ether_hdr + arp_sha);
  aa_port : mb_port m' = mb_port m
}.

Lemma wp_arp_reply own_mac m (Q : () → rte_mbuf → Prop) :
  in_pkt m 0 42 = true → Forall is_u8 (mb_buf m) → 0 ≤ own_mac < 2 ^ 48 →
  (∀ m', arp_answer own_mac m m' → Q tt m') → wp (arp_reply own_mac) Q m.
Proof.
  intros Hin Hu Hmac HQ. unfold arp_reply, mac_copy. arp_unfold. pkt_run. unfold in_pkt in Hin. rewrite in_buf_spec in Hin.
  apply HQ. constructor; arp_unfold; [| | | |congruence].
  - pkt_read. by apply Z.mod_small, bswap16_range.
  - split; pkt_read; [by apply Z.mod_small|by apply mget_mod; [|pkt_in]].
  - split; pkt_read; by apply mget_mod; [|pkt_in].
  - split; pkt_read; [by apply Z.mod_small|by apply mget_mod; [|pkt_in]].
Qed.

(** The answer to an ARP packet: a message with which the interface shows its
    address when that is waited for is learnt from and sent back as it is; a
    request for the gateway is answered; anything else is dropped. *)
Definition arp_outcome (tx : gset Z) d m (i : nat) port (e : dp_edge) (s : node_state) : Prop :=
  let sip := mget m 4 (sizeof_ether_hdr + arp_sip) in
  let to_port := if decide (mb_port m ∈ tx) then EDGE_TX (mb_port m) else EDGE_DROP in
  if dp_arp_cycle_needed port && (sip =? htonl (cfg_own_ip (if_cfg (pt_iface port)))) then
    e = to_port ∧ s.2 = m ∧ ps_ports (cs_ports (da_conn s.1)) = <[i := port <| pt_neigh_mac := mget m 6 eth_src |>]> (ps_ports (cs_ports (da_conn d)))
  else if (mget m 2 (sizeof_ether_hdr + arp_opcode) =? htons DP_ARP_REQUEST)
          && (mget m 4 (sizeof_ether_hdr + arp_tip) =? htonl dp_get_gw_ip4) then
    e = to_port ∧ s.1 = d ∧ arp_answer (pt_own_mac port) m s.2
  else e = EDGE_DROP ∧ s = (d, m).

(** C32. Every ARP packet of an interface ends in one of three ways: while the address of
    the neighbour is wanted, a packet from the address of the interface is
    learnt from and sent back; a request for the gateway is turned into the
    reply and sent back; anything else is dropped unchanged. *)
Theorem arp_spec tx d m i port :
  arp_pkt d m i port → wp (arp_next tx) (arp_outcome tx d m i port) (d, m).
Proof.
  intros [Hport Hin Hu Hmac]. pose proof Hport as (Hid & Htab & Hp). unfold arp_next, arp_handled, arp_outcome.
  apply wp_bind. arp_unfold. node_run. eapply wp_in_port; [done|]. cbv beta iota. destruct (_ && _).
  - apply wp_bind, wp_zoom, wp_ld; [by apply (in_pkt_sub _ _ _ _ _ Hin); lia|]. cbn [lget lput sndL fst snd].
    apply wp_bind. unfold upd_in_port. do 2 apply wp_zoom. eapply wp_upd_port; [done|]. wp_steps.
    by apply wp_tx_edge.
  - node_run. rewrite <- negb_andb. destruct (_ && _); cbn [negb]; [|by wp_steps].
    node_run. apply wp_arp_reply; [done..|]. intros m' Ha. node_run. rewrite (aa_port _ _ _ Ha). by apply wp_tx_edge.
Qed.
End neigh_facts.

(** ** Runs *)

Section neigh_examples.
#[local] Existing Instances test_hash test_hash_ok test_malloc test_malloc_ok test_rib test_rib_ok test_net test_net_ok.

(** A request for the gateway from 10.0.0.9 with the MAC 1:2:3:4:5:6. *)
Definition ex_arp : rte_mbuf :=
  ex_frame 64 42 dp_init_flow_ptr
    (replicate 6 255 ++ [1; 2; 3; 4; 5; 6; 8; 6; 0; 1; 8; 0; 6; 4; 0; 1] ++ [1; 2; 3; 4; 5; 6] ++ [10; 0; 0; 9]
     ++ replicate 6 0 ++ to_bytes 4 (htonl dp_get_gw_ip4)).

Lemma arp_spec_witness :
  wp (arp_next {[0]})
    (λ e s, e = EDGE_TX 0 ∧ mget s.2 6 eth_dst = of_bytes [1; 2; 3; 4; 5; 6] ∧ mget s.2 4 (sizeof_ether_hdr + arp_sip) = htonl dp_get_gw_ip4)
    (ex_tunnel_data, ex_arp).
Proof.
  eapply wp_mono; [apply (arp_spec {[0]} ex_tunnel_data ex_arp 0 (zero_port <| pt_is_pf := true |>))|].
  - constructor; [split; [done|split; reflexivity]|reflexivity|by apply ex_frame_u8|done].
  - intros e s (-> & _ & [_ [_ Hs] _ [_ He] _]). split; [done|]. split; [exact He|exact Hs].
Defined.
End neigh_examples.
