(* ===== verification/Dhcp.v ===== *)
(** * Configuration of interfaces (src/nodes/dhcp_node.c, dhcpv6_node.c)

    The nodes that answer DHCP and DHCPv6 requests.  Headers and options are
    positions in the packet; the options of a request are read where they are,
    and those of the reply are written over them.  The theorems say that the parser
    ends on every packet, that a client reads from the reply the options that
    were meant, and what the whole reply holds. *)

From S2P Require Import Prelude Dpdk Error Types Port Rib Lb Vnf Conn Mbuf Graph Nat Vni Lpm Flow Nat64 Cntrack Virtsvc Nodes Forward Neigh.

(** ** Bytes and strings *)

Definition ld_bytes (n : nat) (off : Z) : cmd rte_mbuf (list Z) := λ m,
  let i := mb_data_off m + off in
  if in_buf (mb_buf m) i n then Some (buf_get (mb_buf m) i n, m) else None.
Definition st_bytes (off : Z) (l : list Z) : cmd rte_mbuf () := λ m,
  let i := mb_data_off m + off in
  if in_buf (mb_buf m) i (length l) then Some (tt, m <| mb_buf := buf_set (mb_buf m) i l |>) else None.

(** The value of two bytes in network order. *)
Definition be16 (v : Z) : list Z := to_bytes 2 (htons v).

(** Whether an array holds another one ([memmem]). *)
Fixpoint memmem (hay needle : list Z) : bool :=
  bool_decide (take (length needle) hay = needle)
  || match hay with [] => false | _ :: hay => memmem hay needle end.

(** The characters of a string before its terminator; [None] without one. *)
Fixpoint c_string (l : list Z) : option (list Z) :=
  match l with
  | [] => None
  | c :: l => if c =? 0 then Some [] else (c ::.) <$> c_string l
  end.

(** What [snprintf] leaves in a buffer of [size] bytes. *)
Definition snprintf_bytes (size : nat) (l : list Z) : list Z := take (size - 1) l ++ [0].

Definition str_iPXE : list Z := [105; 80; 88; 69].
Definition str_PXEClient : list Z :=
  [80; 88; 69; 67; 108; 105; 101; 110; 116; 58; 65; 114; 99; 104; 58; 48; 48; 48; 48; 55].
Definition str_tftp_path : list Z :=
  [105; 112; 120; 101; 47; 120; 56; 54; 95; 54; 52; 47; 105; 112; 120; 101; 46; 110; 101; 119].
Definition str_http : list Z := [104; 116; 116; 112; 58; 47; 47].
Definition str_tftp : list Z := [116; 102; 116; 112; 58; 47; 47].
Definition DP_USER_CLASS_INF_LEN : Z := 4.
Definition DP_VND_CLASS_ID_LEN : Z := 20.

(** The text of addresses; the conversion of an IPv4 address may fail. *)
Class LibcNet := {
  inet_ntop4 : Z → option (list Z);
  inet_ntop6 : Z → list Z
}.

(** The end of the data; [None] is NULL or an error. *)
Class RtePktTail := {
  rte_pktmbuf_append : Z → rte_mbuf → option rte_mbuf;
  rte_pktmbuf_trim : Z → rte_mbuf → option rte_mbuf
}.
Class RtePktTailOk `{RtePktTail} : Prop := {
  append_some len m : 0 ≤ len ≤ Z.of_nat (length (mb_buf m)) - mb_data_off m - mb_data_len m →
    rte_pktmbuf_append len m = Some (m <| mb_data_len := mb_data_len m + len |>);
  append_none len m : Z.of_nat (length (mb_buf m)) - mb_data_off m - mb_data_len m < len →
    rte_pktmbuf_append len m = None;
  trim_some len m : 0 ≤ len ≤ mb_data_len m →
    rte_pktmbuf_trim len m = Some (m <| mb_data_len := mb_data_len m - len |>);
  trim_none len m : mb_data_len m < len → rte_pktmbuf_trim len m = None
}.

Inductive dp_pxe_mode := DP_PXE_MODE_NONE | DP_PXE_MODE_TFTP | DP_PXE_MODE_HTTP.
Global Instance dp_pxe_mode_eq_dec : EqDecision dp_pxe_mode.
Proof. solve_decision. Defined.

(** The configuration the nodes use: the MTU, the addresses of the name servers as
    they are in the options, and the build option ENABLE_VIRTSVC. *)
Record dhcp_conf := MkDhcpConf {
  dc_mtu : Z;
  dc_dns : list Z;
  dc_dns6 : list Z;
  dc_virtsvc : bool
}.

(** ** DHCP *)

Definition DP_BOOTP_CLI_PORT : Z := 68.
Definition DP_BOOTP_REQUEST : Z := 1.
Definition DP_BOOTP_REPLY : Z := 2.
Definition DHCP_OPT_PAD : Z := 0.
Definition DHCP_OPT_SUBNET_MASK : Z := 1.
Definition DHCP_OPT_ROUTER : Z := 3.
Definition DHCP_OPT_DNS : Z := 6.
Definition DHCP_OPT_INTERFACE_MTU : Z := 26.
Definition DHCP_OPT_IP_LEASE_TIME : Z := 51.
Definition DHCP_OPT_MESSAGE_TYPE : Z := 53.
Definition DHCP_OPT_SERVER_ID : Z := 54.
Definition DHCP_OPT_VENDOR_CLASS_ID : Z := 60.
Definition DHCP_OPT_USER_CLASS : Z := 77.
Definition DHCP_OPT_CLASSLESS_ROUTE : Z := 121.
Definition DHCP_OPT_END : Z := 255.
Definition DHCPDISCOVER : Z := 1.
Definition DHCPOFFER : Z := 2.
Definition DHCPREQUEST : Z := 3.
Definition DHCPACK : Z := 5.
Definition DP_DHCP_INFINITE : Z := 2 ^ 32 - 1.
Definition DP_DHCP_MASK_NL : Z := 2 ^ 32 - 1.
Definition DHCP_MAGIC_COOKIE : Z := 0x63825363.
Definition DHCP_MTU_MAX : Z := 1500.

(** [struct dp_dhcp_header] *)
Definition dhcp_op : Z := 0.
Definition dhcp_yiaddr : Z := 16.
Definition dhcp_siaddr : Z := 20.
Definition dhcp_giaddr : Z := 24.
Definition dhcp_chaddr : Z := 28.
Definition dhcp_file : Z := 108.
Definition sizeof_dhcp_file : nat := 128.
Definition dhcp_magic : Z := 236.
Definition dhcp_options : Z := 240.
Definition DHCP_MAX_OPTIONS_LEN : Z :=
  DHCP_MTU_MAX - sizeof_ether_hdr - sizeof_ipv4_hdr - sizeof_udp_hdr - dhcp_options.

Definition udp_len : Z := 4.

(** The position of the header. *)
Definition dhcp_hdr : Z := sizeof_ether_hdr + sizeof_ipv4_hdr + sizeof_udp_hdr.

Definition server_ip : Z := htonl dp_get_gw_ip4.
Definition classless_route_prefix : list Z := [16; 169; 254; 0; 0; 0; 0; 0].
Definition virtsvc_route_prefix : list Z := [24; 169; 254; 1].
Definition classless_route (conf : dhcp_conf) : list Z :=
  classless_route_prefix ++ to_bytes 4 server_ip
  ++ (if dc_virtsvc conf then virtsvc_route_prefix ++ to_bytes 4 server_ip else []).

Section dhcp.
Context `{HH : RteHash} `{HM : RteMalloc} `{HR : RteRib} `{HN : RteNet} `{HL : LibcNet}.

(** The new position, or [None] for DP_ERROR. *)
Definition add_dhcp_option (pos end_ opt : Z) (value : list Z) : cmd rte_mbuf (option Z) :=
  let size := Z.of_nat (length value) in
  if end_ <=? pos + 2 + size then mret None
  else
    st8 pos opt;;
    st8 (pos + 1) size;;
    st_bytes (pos + 2) value;;
    mret (Some (pos + 2 + size)).

(** Options one after the other, up to the first error. *)
Fixpoint add_all (pos end_ : Z) (opts : list (Z * list Z)) : cmd rte_mbuf (option Z) :=
  match opts with
  | [] => mret (Some pos)
  | (opt, value) :: opts =>
      r ← add_dhcp_option pos end_ opt value;
      match r with None => mret None | Some pos => add_all pos end_ opts end
  end.

(** The options of a reply, in their order. *)
Definition reply_options (conf : dhcp_conf) (msg_type : Z) (pxe_mode : dp_pxe_mode) : list (Z * list Z) :=
  [(DHCP_OPT_MESSAGE_TYPE, [msg_type]);
   (DHCP_OPT_IP_LEASE_TIME, to_bytes 4 DP_DHCP_INFINITE);
   (DHCP_OPT_SERVER_ID, to_bytes 4 server_ip);
   (DHCP_OPT_CLASSLESS_ROUTE, classless_route conf);
   (DHCP_OPT_SUBNET_MASK, to_bytes 4 DP_DHCP_MASK_NL);
   (DHCP_OPT_INTERFACE_MTU, be16 (u16 (dc_mtu conf)))]
  ++ (if bool_decide (pxe_mode = DP_PXE_MODE_NONE) then [] else [(DHCP_OPT_ROUTER, to_bytes 4 server_ip)])
  ++ (if bool_decide (dc_dns conf = []) then [] else [(DHCP_OPT_DNS, dc_dns conf)]).

(** The length of the options, or DP_ERROR. *)
Definition add_dhcp_options (conf : dhcp_conf) (msg_type : Z) (pxe_mode : dp_pxe_mode) : cmd rte_mbuf Z :=
  let options := dhcp_hdr + dhcp_options in
  let end_ := options + DHCP_MAX_OPTIONS_LEN in
  r ← add_all options end_ (reply_options conf msg_type pxe_mode);
  match r with
  | None => mret DP_ERROR
  | Some pos =>
      if end_ <=? pos then mret DP_ERROR
      else st8 pos DHCP_OPT_END;; mret (pos + 1 - options)
  end.

(** What an option of [op_len] bytes at [i] does to the variables [*msg_type] and
    [*pxe_mode]; the first is set exactly when the result is no longer an error. *)
Definition dhcp_option (op_type op_len i : Z) (msg_type : option Z) (pxe_mode : dp_pxe_mode) :
    cmd rte_mbuf (option Z * dp_pxe_mode) :=
  let options := dhcp_hdr + dhcp_options in
  if op_type =? DHCP_OPT_MESSAGE_TYPE then
    t ← ld8 (options + i); mret (Some t, pxe_mode)
  else if op_type =? DHCP_OPT_USER_CLASS then
    if op_len =? DP_USER_CLASS_INF_LEN then
      l ← ld_bytes 4 (options + i);
      mret (msg_type, if bool_decide (l = str_iPXE) then DP_PXE_MODE_HTTP else pxe_mode)
    else mret (msg_type, pxe_mode)
  else if op_type =? DHCP_OPT_VENDOR_CLASS_ID then
    if DP_VND_CLASS_ID_LEN <=? op_len then
      l ← ld_bytes (Z.to_nat op_len) (options + i);
      mret (msg_type, if memmem l str_PXEClient then DP_PXE_MODE_TFTP else pxe_mode)
    else mret (msg_type, pxe_mode)
  else mret (msg_type, pxe_mode).

(** The loop, from position [i] with the previous [op_len].  [None] is DP_ERROR:
    an option is malformed or there is no message type.  [pxe_mode] is written
    also then. *)
Fixpoint parse_loop (fuel : nat) (options_len i op_len : Z) (msg_type : option Z) (pxe_mode : dp_pxe_mode) :
    cmd rte_mbuf (option Z * dp_pxe_mode) :=
  let options := dhcp_hdr + dhcp_options in
  match fuel with
  | O => fault
  | S fuel =>
      if negb (i <? options_len) then mret (msg_type, pxe_mode)
      else
        op_type ← ld8 (options + i);
        let i := i + 1 in
        if op_type =? DHCP_OPT_PAD then parse_loop fuel options_len (i + op_len) op_len msg_type pxe_mode
        else if op_type =? DHCP_OPT_END then mret (msg_type, pxe_mode)
        else if options_len <=? i then mret (None, pxe_mode)
        else
          op_len ← ld8 (options + i);
          let i := i + 1 in
          if options_len <? i + op_len then mret (None, pxe_mode)
          else
            r ← dhcp_option op_type op_len i msg_type pxe_mode;
            parse_loop fuel options_len (i + op_len) op_len r.1 r.2
  end.
Definition parse_options (options_len : Z) (pxe_mode : dp_pxe_mode) : cmd rte_mbuf (option Z * dp_pxe_mode) :=
  parse_loop (S (Z.to_nat options_len)) options_len 0 0 None pxe_mode.

(** The type of the response. *)
Definition dhcp_response (msg_type : Z) : option Z :=
  if msg_type =? DHCPDISCOVER then Some DHCPOFFER
  else if msg_type =? DHCPREQUEST then Some DHCPACK else None.

(** The headers of the response up to the address of the boot server. *)
Definition dhcp_fill (port : dp_port) : cmd rte_mbuf () :=
  let udp_hdr := sizeof_ether_hdr + sizeof_ipv4_hdr in
  st32 (sizeof_ether_hdr + ip4_src) server_ip;;
  st16 (udp_hdr + l4_dst_port) (htons DP_BOOTP_CLI_PORT);;
  st16 (udp_hdr + l4_src_port) (htons DP_BOOTP_SRV_PORT);;
  st8 (dhcp_hdr + dhcp_op) DP_BOOTP_REPLY;;
  st32 (dhcp_hdr + dhcp_magic) (htonl DHCP_MAGIC_COOKIE);;
  st32 (dhcp_hdr + dhcp_yiaddr) (htonl (cfg_own_ip (if_cfg (pt_iface port))));;
  st32 (dhcp_hdr + dhcp_giaddr) server_ip;;
  mac_copy eth_dst (dhcp_hdr + dhcp_chaddr).

(** The file to boot from; [false] drops the packet. *)
Definition dhcp_pxe (port : dp_port) (pxe_mode : dp_pxe_mode) : cmd rte_mbuf bool :=
  let cfg := if_cfg (pt_iface port) in
  let file := dhcp_hdr + dhcp_file in
  match pxe_mode with
  | DP_PXE_MODE_NONE =>
      st32 (sizeof_ether_hdr + ip4_dst) (htonl (cfg_own_ip cfg));;
      st32 (dhcp_hdr + dhcp_siaddr) server_ip;;
      mret true
  | _ =>
      st 6 eth_dst all_ones_mac;;
      st32 (sizeof_ether_hdr + ip4_dst) (2 ^ 32 - 1);;
      let pxe_srv_ip := htonl (ipv4 (cfg_pxe_ip cfg)) in
      st32 (dhcp_hdr + dhcp_siaddr) pxe_srv_ip;;
      if bool_decide (pxe_mode = DP_PXE_MODE_TFTP) then
        st_bytes file (snprintf_bytes sizeof_dhcp_file str_tftp_path);; mret true
      else
        match inet_ntop4 pxe_srv_ip with
        | None => mret false
        | Some pxe_srv_ip_str =>
            match c_string (cfg_pxe_str cfg) with
            | None => fault
            | Some pxe_str =>
                st_bytes file (snprintf_bytes sizeof_dhcp_file (str_http ++ pxe_srv_ip_str ++ pxe_str));; mret true
            end
        end
  end.

(** The options, and the lengths that depend on them; [false] drops the packet. *)
Definition dhcp_finish (conf : dhcp_conf) (response_type : Z) (pxe_mode : dp_pxe_mode) : cmd rte_mbuf bool :=
  let ipv4_hdr := sizeof_ether_hdr in
  let udp_hdr := ipv4_hdr + sizeof_ipv4_hdr in
  options_len ← add_dhcp_options conf response_type pxe_mode;
  if DP_FAILED options_len then mret false
  else
    let header_size := dhcp_options + options_len in
    let pkt_len := sizeof_ether_hdr + sizeof_ipv4_hdr + sizeof_udp_hdr + header_size in
    if 65535 <? pkt_len then mret false
    else
      st16 (ipv4_hdr + ip4_cksum) 0;;
      st16 (ipv4_hdr + ip4_total_length) (htons (u16 (sizeof_ipv4_hdr + sizeof_udp_hdr + header_size)));;
      st16 (udp_hdr + udp_len) (htons (u16 (sizeof_udp_hdr + header_size)));;
      st16 (udp_hdr + udp_cksum) 0;;
      modify (λ m, m <| mb_data_len := u16 pkt_len |>);;
      mret true.

(** The response to a request of type [response_type], written over the request. *)
Definition dhcp_respond (conf : dhcp_conf) (next_tx_index : gset Z) (p : nat) (port : dp_port)
    (response_type : Z) (pxe_mode : dp_pxe_mode) : cmd node_state dp_edge :=
  zoom sndL (modify (λ m, set_tx_offload sizeof_ether_hdr sizeof_ipv4_hdr sizeof_udp_hdr
    (m <| mb_ol_flags := Z.lor (Z.lor RTE_MBUF_F_TX_IPV4 RTE_MBUF_F_TX_IP_CKSUM) RTE_MBUF_F_TX_UDP_CKSUM |>)));;
  zoom sndL (mac_copy eth_src eth_dst);;
  zoom sndL (st 6 eth_src (pt_own_mac port));;
  (if response_type =? DHCPACK then
     mac ← zoom sndL (ld 6 eth_dst); upd_in_port p (λ port, port <| pt_neigh_mac := mac |>)
   else mret tt);;
  zoom sndL (dhcp_fill port);;
  ok ← zoom sndL (dhcp_pxe port pxe_mode);
  if negb ok then mret EDGE_DROP
  else
    ok ← zoom sndL (dhcp_finish conf response_type pxe_mode);
    if negb ok then mret EDGE_DROP
    else m_port ← zoom sndL (gets mb_port); tx_edge next_tx_index m_port.

(** The static variable [pxe_mode] is part of the state. *)
Definition dhcp_next (conf : dhcp_conf) (next_tx_index : gset Z) : cmd (node_state * dp_pxe_mode) dp_edge :=
  inp ← zoom fstL in_port;
  let '(p, port) := inp : nat * dp_port in
  data_len ← zoom fstL (zoom sndL (gets mb_data_len));
  let options_len := data_len - dhcp_hdr - dhcp_options in
  if options_len <? 0 then mret EDGE_DROP
  else if cfg_own_ip (if_cfg (pt_iface port)) =? 0 then mret EDGE_DROP
  else
    op ← zoom fstL (zoom sndL (ld8 (dhcp_hdr + dhcp_op)));
    if negb (op =? DP_BOOTP_REQUEST) then mret EDGE_DROP
    else
      pxe_mode ← gets snd;
      r ← zoom fstL (zoom sndL (parse_options options_len pxe_mode));
      modify (λ s, (s.1, r.2));;
      match r.1 ≫= dhcp_response with
      | None => mret EDGE_DROP
      | Some response_type => zoom fstL (dhcp_respond conf next_tx_index p port response_type r.2)
      end.
End dhcp.

(** ** DHCPv6 *)

Definition DHCPV6_CLIENT_PORT : Z := 546.
Definition DHCPV6_INFINITY : Z := 2 ^ 32 - 1.
Definition DHCPV6_BOOT_FILE_BUF_LEN : nat := 96.
Definition DHCPV6_SOLICIT : Z := 1.
Definition DHCPV6_ADVERTISE : Z := 2.
Definition DHCPV6_REQUEST : Z := 3.
Definition DHCPV6_CONFIRM : Z := 4.
Definition DHCPV6_REPLY : Z := 7.
Definition DHCPV6_RELEASE : Z := 8.
Definition DHCPV6_DUID_LL : Z := 3.
Definition DHCPV6_OPT_CLIENTID : Z := 1.
Definition DHCPV6_OPT_SERVERID : Z := 2.
Definition DHCPV6_OPT_IA_NA : Z := 3.
Definition DHCPV6_OPT_IAADDR : Z := 5.
Definition DHCPV6_OPT_STATUS_CODE : Z := 13.
Definition DHCPV6_OPT_RAPID_COMMIT : Z := 14.
Definition DHCPV6_OPT_USER_CLASS : Z := 15.
Definition DHCPV6_OPT_VENDOR_CLASS : Z := 16.
Definition DHCPV6_OPT_DNS : Z := 23.
Definition DHCPV6_OPT_BOOT_FILE : Z := 59.
Definition DHCPV6_STATUS_SUCCESS : Z := 0.
Definition DP_DHCPV6_HW_ID : Z := 0xabcd.

(** [struct dhcpv6_packet], after the headers of Ethernet, IPv6 and UDP. *)
Definition dhcp6_pkt : Z := sizeof_ether_hdr + sizeof_ipv6_hdr + sizeof_udp_hdr.
Definition dhcp6_msg_type : Z := 0.
Definition DP_DHCPV6_HDR_FIXED_LEN : Z := 4.
Definition DP_DHCPV6_PKT_FIXED_LEN : Z := dhcp6_pkt + DP_DHCPV6_HDR_FIXED_LEN.

(** [struct dhcpv6_option] and the places of members in the options. *)
Definition sizeof_dhcpv6_option : Z := 4.
Definition op6_code : Z := 0.
Definition op6_len : Z := 2.
Definition op6_data : Z := 4.
Definition vnd_opq_data_len : Z := 8.
Definition vnd_opq_data : Z := 10.
Definition usr_sub_opt_len : Z := 4.
Definition usr_sub_opt_data : Z := 6.
Definition sizeof_client_id : Z := 128.
Definition sizeof_ia_na : Z := 12.

(** The bytes of an option whose data is [data]. *)
Definition option6 (code : Z) (data : list Z) : list Z :=
  be16 code ++ be16 (Z.of_nat (length data)) ++ data.

(** [opt_sid_template] with the MAC, and [opt_iana_template] with the identifier
    of the request and the address. *)
Definition opt_sid (mac : Z) : list Z :=
  option6 DHCPV6_OPT_SERVERID (be16 DHCPV6_DUID_LL ++ be16 DP_DHCPV6_HW_ID ++ to_bytes 6 mac).
Definition opt_status : list Z := option6 DHCPV6_OPT_STATUS_CODE (to_bytes 2 DHCPV6_STATUS_SUCCESS).
Definition opt_iaaddr (ipv6 : Z) : list Z :=
  option6 DHCPV6_OPT_IAADDR
    (to_bytes 16 ipv6 ++ to_bytes 4 DHCPV6_INFINITY ++ to_bytes 4 DHCPV6_INFINITY ++ opt_status).
Definition opt_iana (iaid ipv6 : Z) : list Z :=
  option6 DHCPV6_OPT_IA_NA
    (to_bytes 4 iaid ++ to_bytes 4 DHCPV6_INFINITY ++ to_bytes 4 DHCPV6_INFINITY ++ opt_iaaddr ipv6).

(** [struct dp_dhcpv6_reply_options]: an option with its length is the list of the
    bytes of it that are copied to the reply. *)
Record dp_dhcpv6_reply_options := MkReplyOptions {
  ro_opt_iana : list Z;
  ro_opt_cid : list Z;
  ro_boot_file_url : list Z;
  ro_pxe_mode : dp_pxe_mode;
  ro_opt_rapid : list Z
}.
Global Instance dp_dhcpv6_reply_options_eta : Eta dp_dhcpv6_reply_options := λ r,
  MkReplyOptions (ro_opt_iana r) (ro_opt_cid r) (ro_boot_file_url r) (ro_pxe_mode r) (ro_opt_rapid r).

Section dhcpv6.
Context `{HH : RteHash} `{HM : RteMalloc} `{HR : RteRib} `{HN : RteNet} `{HL : LibcNet} `{HT : RtePktTail}.

(** The length is that of the whole text also when the buffer is too small; then
    more than the buffer is copied to the reply. *)
Definition dp_fill_boot_file_option (reply_options : dp_dhcpv6_reply_options) (mode : dp_pxe_mode)
    (suffix : list Z) (port : dp_port) : option dp_dhcpv6_reply_options :=
  let ipv6_str := inet_ntop6 (ipv6 (cfg_pxe_ip (if_cfg (pt_iface port)))) in
  let proto := match mode with DP_PXE_MODE_TFTP => Some str_tftp | DP_PXE_MODE_HTTP => Some str_http | _ => None end in
  match proto with
  | None => None
  | Some proto =>
      let url := proto ++ [91] ++ ipv6_str ++ [93; 47] ++ suffix in
      let url_len := u16 (Z.of_nat (length url)) in
      let buf := snprintf_bytes DHCPV6_BOOT_FILE_BUF_LEN url in
      if Z.of_nat DHCPV6_BOOT_FILE_BUF_LEN <? url_len then None
      else Some (reply_options <| ro_pxe_mode := mode |>
                   <| ro_boot_file_url := be16 DHCPV6_OPT_BOOT_FILE ++ be16 url_len ++ take (Z.to_nat url_len) buf |>)
  end.

(** One option of [op_len] bytes at [opt]; [None] is a malformed one. *)
Definition dhcp6_option (port : dp_port) (opt op_code op_len : Z) (ro : dp_dhcpv6_reply_options) :
    cmd rte_mbuf (option dp_dhcpv6_reply_options) :=
  if op_code =? DHCPV6_OPT_CLIENTID then
    if sizeof_client_id <? op_len then mret None
    else l ← ld_bytes (Z.to_nat (op_len + 4)) opt; mret (Some (ro <| ro_opt_cid := l |>))
  else if op_code =? DHCPV6_OPT_IA_NA then
    if op_len <? sizeof_ia_na then mret None
    else
      iaid ← ld32 (opt + op6_data);
      mret (Some (ro <| ro_opt_iana := opt_iana iaid (cfg_dhcp_ipv6 (if_cfg (pt_iface port))) |>))
  else if op_code =? DHCPV6_OPT_RAPID_COMMIT then
    if negb (op_len =? 0) then mret None
    else l ← ld_bytes 2 opt; mret (Some (ro <| ro_opt_rapid := l ++ [0; 0] |>))
  else if op_code =? DHCPV6_OPT_VENDOR_CLASS then
    opq_data_len ← ld16 (opt + vnd_opq_data_len);
    if DP_VND_CLASS_ID_LEN <=? opq_data_len then
      l ← ld_bytes (Z.to_nat op_len) (opt + vnd_opq_data);
      if memmem l str_PXEClient then
        match dp_fill_boot_file_option ro DP_PXE_MODE_TFTP str_tftp_path port with
        | None => fault
        | Some ro => mret (Some ro)
        end
      else mret (Some ro)
    else mret (Some ro)
  else if op_code =? DHCPV6_OPT_USER_CLASS then
    sub_opt_len ← ld16 (opt + usr_sub_opt_len);
    if ntohs sub_opt_len =? DP_USER_CLASS_INF_LEN then
      l ← ld_bytes 4 (opt + usr_sub_opt_data);
      if bool_decide (l = str_iPXE) then
        match c_string (cfg_pxe_str (if_cfg (pt_iface port))) ≫= λ s, dp_fill_boot_file_option ro DP_PXE_MODE_HTTP s port with
        | None => fault
        | Some ro => mret (Some ro)
        end
      else mret (Some ro)
    else mret (Some ro)
  else mret (Some ro).

(** The loop; [options] is the position of the options. *)
Fixpoint parse6_loop (fuel : nat) (port : dp_port) (options options_len i : Z) (ro : dp_dhcpv6_reply_options) :
    cmd rte_mbuf (option dp_dhcpv6_reply_options) :=
  match fuel with
  | O => fault
  | S fuel =>
      if negb (i + sizeof_dhcpv6_option <? options_len) then mret (Some ro)
      else
        code ← ld16 (options + i + op6_code);
        len ← ld16 (options + i + op6_len);
        let op_code := ntohs code in
        let op_len := ntohs len in
        if options_len <? i + op_len then mret None
        else
          r ← dhcp6_option port (options + i) op_code op_len ro;
          match r with
          | None => mret None
          | Some ro => parse6_loop fuel port options options_len (i + sizeof_dhcpv6_option + op_len) ro
          end
  end.
Definition parse6_options (port : dp_port) (options options_len : Z) (ro : dp_dhcpv6_reply_options) :
    cmd rte_mbuf (option dp_dhcpv6_reply_options) :=
  parse6_loop (S (Z.to_nat options_len)) port options options_len 0 ro.

Definition resize_packet (delta : Z) : cmd rte_mbuf Z :=
  if 0 <? delta then
    if 65535 <? delta then mret DP_ERROR
    else ok ← mbuf_move (rte_pktmbuf_append delta); mret (if (ok : bool) then DP_OK else DP_ERROR)
  else if delta <? 0 then
    if delta <? -65535 then mret DP_ERROR
    else ok ← mbuf_move (rte_pktmbuf_trim (- delta)); mret (if (ok : bool) then DP_OK else DP_ERROR)
  else mret DP_OK.

Definition strip_options (options_len : Z) : cmd rte_mbuf Z :=
  ret ← resize_packet (- options_len);
  mret (if DP_FAILED ret then DP_ERROR else 0).

(** [memcpy] of an option, and the position after it. *)
Definition put_option (pos : Z) (l : list Z) : cmd rte_mbuf Z :=
  (if bool_decide (l = []) then mret tt else st_bytes pos l);; mret (pos + Z.of_nat (length l)).

(** The reply written over the options of the request.  The position does not
    move after the rapid commit option. *)
Definition write_reply_options (conf : dhcp_conf) (options mac : Z) (ro : dp_dhcpv6_reply_options) : cmd rte_mbuf () :=
  pos ← put_option options (opt_sid mac);
  pos ← put_option pos (ro_opt_cid ro);
  pos ← put_option pos (ro_opt_iana ro);
  put_option pos (ro_opt_rapid ro);;
  pos ← put_option pos (option6 DHCPV6_OPT_DNS (dc_dns6 conf));
  if bool_decide (ro_pxe_mode ro = DP_PXE_MODE_NONE) then mret tt
  else put_option pos (ro_boot_file_url ro);; mret tt.

Definition reply_options_len (conf : dhcp_conf) (mac : Z) (ro : dp_dhcpv6_reply_options) : Z :=
  let len (l : list Z) := Z.of_nat (length l) in
  len (opt_sid mac) + len (ro_opt_cid ro) + len (ro_opt_iana ro) + len (ro_opt_rapid ro)
  + (4 + len (dc_dns6 conf))
  + (if bool_decide (ro_pxe_mode ro = DP_PXE_MODE_NONE) then 0 else len (ro_boot_file_url ro)).

(** The size of the options, or DP_ERROR. *)
Definition generate_reply_options (conf : dhcp_conf) (port : dp_port) (options options_len : Z) : cmd rte_mbuf Z :=
  r ← parse6_options port options options_len (MkReplyOptions [] [] [] DP_PXE_MODE_NONE []);
  match r with
  | None => mret DP_ERROR
  | Some ro =>
      mac ← ld 6 eth_dst;
      let len := reply_options_len conf mac ro in
      ret ← resize_packet (len - options_len);
      if DP_FAILED ret then mret DP_ERROR
      else write_reply_options conf options mac ro;; mret len
  end.

(** The packet goes back to its sender. *)
Definition dhcp6_turn (own_mac : Z) : cmd rte_mbuf () :=
  let ipv6_hdr := sizeof_ether_hdr in
  let udp_hdr := ipv6_hdr + sizeof_ipv6_hdr in
  mac_copy eth_src eth_dst;;
  st 6 eth_src own_mac;;
  src_addr ← ld128 (ipv6_hdr + ip6_src);
  st128 (ipv6_hdr + ip6_dst) src_addr;;
  st128 (ipv6_hdr + ip6_src) dp_get_gw_ip6;;
  st16 (udp_hdr + l4_src_port) (htons DHCPV6_SERVER_PORT);;
  st16 (udp_hdr + l4_dst_port) (htons DHCPV6_CLIENT_PORT).

(** The type of the reply and its options; [None] for other messages. *)
Definition dhcp6_reply (conf : dhcp_conf) (port : dp_port) (req_options_len : Z) : cmd rte_mbuf (option Z) :=
  let set_type t := st8 (dhcp6_pkt + dhcp6_msg_type) t in
  let options := dhcp6_pkt + DP_DHCPV6_HDR_FIXED_LEN in
  msg_type ← ld8 (dhcp6_pkt + dhcp6_msg_type);
  if msg_type =? DHCPV6_SOLICIT then
    set_type DHCPV6_ADVERTISE;; r ← generate_reply_options conf port options req_options_len; mret (Some r)
  else if (msg_type =? DHCPV6_REQUEST) || (msg_type =? DHCPV6_RELEASE) then
    set_type DHCPV6_REPLY;; r ← generate_reply_options conf port options req_options_len; mret (Some r)
  else if msg_type =? DHCPV6_CONFIRM then
    set_type DHCPV6_REPLY;; r ← strip_options req_options_len; mret (Some r)
  else mret None.

(** The lengths and checksums of the reply. *)
Definition dhcp6_finish (payload_len : Z) : cmd rte_mbuf () :=
  let ipv6_hdr := sizeof_ether_hdr in
  let udp_hdr := ipv6_hdr + sizeof_ipv6_hdr in
  st16 (udp_hdr + udp_len) (htons (u16 payload_len));;
  st16 (ipv6_hdr + ip6_payload_len) (htons (u16 payload_len));;
  st16 (udp_hdr + udp_cksum) 0;;
  modify (λ m, set_tx_offload sizeof_ether_hdr sizeof_ipv6_hdr sizeof_udp_hdr
    (add_ol_flags (Z.lor RTE_MBUF_F_TX_IPV6 RTE_MBUF_F_TX_UDP_CKSUM) m)).

Definition dhcpv6_next (conf : dhcp_conf) (next_tx_index : gset Z) : cmd node_state dp_edge :=
  data_len ← zoom sndL (gets mb_data_len);
  let req_options_len := data_len - DP_DHCPV6_PKT_FIXED_LEN in
  inp ← in_port;
  let '(p, port) := inp : nat * dp_port in
  if cfg_dhcp_ipv6 (if_cfg (pt_iface port)) =? 0 then mret EDGE_DROP
  else if req_options_len <? 0 then mret EDGE_DROP
  else
    zoom sndL (dhcp6_turn (pt_own_mac port));;
    r ← zoom sndL (dhcp6_reply conf port req_options_len);
    match r with
    | None => mret EDGE_DROP
    | Some len =>
        if DP_FAILED len then mret EDGE_DROP
        else
          let payload_len := len + DP_DHCPV6_HDR_FIXED_LEN + sizeof_udp_hdr in
          if 65535 <? payload_len then mret EDGE_DROP
          else
            zoom sndL (dhcp6_finish payload_len);;
            m_port ← zoom sndL (gets mb_port);
            tx_edge next_tx_index m_port
    end.
End dhcpv6.

(** ** Facts: bytes of a packet *)

(** The packet with [l] written at [off]. *)
Definition put (m : rte_mbuf) (off : Z) (l : list Z) : rte_mbuf :=
  m <| mb_buf := buf_set (mb_buf m) (mb_data_off m + off) l |>.
(** [l] is in the packet at [off]. *)
Definition holds (m : rte_mbuf) (off : Z) (l : list Z) : Prop :=
  in_pkt m off (length l) = true ∧ buf_get (mb_buf m) (mb_data_off m + off) (length l) = l.

Section bytes.
Implicit Types (m : rte_mbuf) (l : list Z).

Lemma buf_set_nil buf i : buf_set buf i [] = buf.
Proof. unfold buf_set. cbn. rewrite Nat.add_0_r. apply take_drop. Qed.
Lemma buf_set_app buf i l1 l2 :
  in_buf buf i (length l1 + length l2) = true →
  buf_set (buf_set buf i l1) (i + Z.of_nat (length l1)) l2 = buf_set buf i (l1 ++ l2).
Proof.
  rewrite in_buf_spec. intros Hi. unfold buf_set. rewrite (assoc_L app (take _ buf) l1).
  rewrite take_app_length' by (rewrite length_app, length_take; lia).
  rewrite drop_app_ge by (rewrite length_app, length_take; lia). rewrite drop_drop, length_app, length_take, <- !(assoc_L app).
  rewrite length_app. do 4 f_equal. lia.
Qed.

Lemma put_nil m off : put m off [] = m.
Proof. unfold put. rewrite buf_set_nil. by destruct m. Qed.
Lemma put_app m off l1 l2 :
  in_pkt m off (length l1 + length l2) = true → put (put m off l1) (off + Z.of_nat (length l1)) l2 = put m off (l1 ++ l2).
Proof. intros Hi. unfold put. cbn. rewrite Z.add_assoc, buf_set_app by done. done. Qed.
Lemma in_pkt_put m off l off' n :
  in_pkt m off (length l) = true → in_pkt (put m off l) off' n = in_pkt m off' n.
Proof. intros Hi. unfold in_pkt, in_buf, put. cbn. by rewrite (in_buf_set_length _ _ (length l)). Qed.
Lemma mset_put m n off v : mset m n off v = put m off (to_bytes n v).
Proof. done. Qed.
Lemma to_bytes_1 b : is_u8 b → to_bytes 1 b = [b].
Proof.
  intros Hb. change (to_bytes 1 b) with [byte_of 0 b]. unfold byte_of. change (2 ^ (8 * 0)) with 1.
  by rewrite Z.div_1_r, Z.mod_small.
Qed.
Lemma put_holds m off l : in_pkt m off (length l) = true → holds (put m off l) off l.
Proof. intros Hi. split; [by rewrite in_pkt_put|]. by apply buf_get_set_eq. Qed.

Lemma mget_put_ne m off l k off' :
  in_pkt m off (length l) = true → 0 ≤ mb_data_off m + off' →
  off' + Z.of_nat k ≤ off ∨ off + Z.of_nat (length l) ≤ off' → mget (put m off l) k off' = mget m k off'.
Proof. intros Hi H0 Hd. unfold mget, put. cbn. rewrite buf_get_set_ne; [done|done|done|lia]. Qed.

Lemma holds_app m off l1 l2 : holds m off (l1 ++ l2) → holds m off l1 ∧ holds m (off + Z.of_nat (length l1)) l2.
Proof.
  unfold holds, in_pkt. rewrite !in_buf_spec, length_app. intros [Hi Hg]. unfold buf_get in *.
  rewrite <- take_take_drop, drop_drop in Hg. apply app_inj_1 in Hg as [H1 H2]; [|rewrite length_take, length_drop; lia].
  split; split; [lia|done|lia|]. rewrite <- H2 at 2. do 2 f_equal. lia.
Qed.
Lemma holds_cons m off b l : is_u8 b → holds m off (b :: l) → mget m 1 off = b ∧ holds m (off + 1) l.
Proof.
  intros Hb H. apply (holds_app m off [b] l) in H as [[_ Hg] Hl]. split; [|done].
  unfold mget. cbn [length] in Hg. rewrite Hg. cbn. unfold u8. rewrite Z.mod_small by done. lia.
Qed.
Lemma holds_upd m m' n off v off' l :
  pkt_upd m m' n off v → off' + Z.of_nat (length l) ≤ off ∨ off + Z.of_nat n ≤ off' → holds m off' l → holds m' off' l.
Proof.
  intros Hu Hd [Hi Hg]. pose proof (in_pkt_nonneg _ _ _ Hi). split.
  - unfold in_pkt, in_buf in *. by rewrite (pu_len _ _ _ _ _ Hu), (pu_off _ _ _ _ _ Hu).
  - by rewrite (pu_get _ _ _ _ _ Hu) by (done || lia).
Qed.
Lemma holds_meta m m' off l : pkt_meta m m' → holds m off l → holds m' off l.
Proof.
  intros Hm [Hi Hg]. unfold holds, in_pkt in *. rewrite (pm_buf _ _ Hm), (pm_off _ _ Hm). done.
Qed.
Lemma wp_st_bytes m off l (Q : () → rte_mbuf → Prop) :
  in_pkt m off (length l) = true → Q tt (put m off l) → wp (st_bytes off l) Q m.
Proof. unfold wp, st_bytes, in_pkt. by intros ->. Qed.
Lemma wp_st8 m off b (Q : () → rte_mbuf → Prop) :
  is_u8 b → in_pkt m off 1 = true → Q tt (put m off [b]) → wp (st8 off b) Q m.
Proof. intros Hb Hi HQ. apply wp_st; [done|]. by rewrite mset_put, to_bytes_1. Qed.
End bytes.

(** ** Facts: options *)

Section option_facts.
Context `{HH : RteHash} `{HM : RteMalloc} `{HR : RteRib} `{HN : RteNet} `{HL : LibcNet}.
Implicit Types (m : rte_mbuf) (l : list Z) (opts : list (Z * list Z)).

(** Options on the wire. *)
Definition option_bytes (o : Z * list Z) : list Z := o.1 :: Z.of_nat (length o.2) :: o.2.
Definition options_bytes (opts : list (Z * list Z)) : list Z := concat (option_bytes <$> opts).
Record option_ok (o : Z * list Z) : Prop := {
  oo_type : 0 < o.1 < DHCP_OPT_END;
  oo_len : (length o.2 < 256)%nat
}.

(** How a client reads them (RFC 2132). *)
Fixpoint client_options (fuel : nat) (l : list Z) : option (list (Z * list Z)) :=
  match fuel, l with
  | S fuel, o :: l =>
      if o =? DHCP_OPT_PAD then client_options fuel l
      else if o =? DHCP_OPT_END then Some []
      else
        match l with
        | [] => None
        | n :: l =>
            if Z.of_nat (length l) <? n then None
            else ((o, take (Z.to_nat n) l) ::.) <$> client_options fuel (drop (Z.to_nat n) l)
        end
  | _, _ => None
  end.

Lemma client_options_bytes fuel opts l :
  Forall option_ok opts → (length opts < fuel)%nat →
  client_options fuel (options_bytes opts ++ DHCP_OPT_END :: l) = Some opts.
Proof.
  intros Hok. revert fuel. induction Hok as [|[o v] opts [Ho Hv] _ IH]; intros [|fuel] Hf; cbn in Hf; try lia; [done|].
  unfold options_bytes, option_bytes. cbn [fmap list_fmap concat app fst snd client_options].
  rewrite (proj2 (Z.eqb_neq _ _)), (proj2 (Z.eqb_neq _ _)) by (unfold DHCP_OPT_PAD; cbn in Ho; lia).
  fold (option_bytes <$> opts). fold (options_bytes opts). rewrite <- (assoc_L app), (proj2 (Z.ltb_ge _ _)) by (rewrite !length_app; lia).
  rewrite Nat2Z.id, take_app_length, drop_app_length, IH by lia. done.
Qed.

Lemma wp_add_dhcp_option pos end_ opt value m (Q : option Z → rte_mbuf → Prop) :
  option_ok (opt, value) → in_pkt m pos (length (option_bytes (opt, value))) = true →
  pos + Z.of_nat (length (option_bytes (opt, value))) < end_ →
  Q (Some (pos + Z.of_nat (length (option_bytes (opt, value))))) (put m pos (option_bytes (opt, value))) →
  wp (add_dhcp_option pos end_ opt value) Q m.
Proof.
  intros [Ho Hv] Hi He HQ. unfold option_bytes in *. cbn [fst snd length] in *. unfold add_dhcp_option.
  rewrite (proj2 (Z.leb_gt _ _)) by lia. unfold DHCP_OPT_END in Ho.
  assert (Hs : ∀ off n, pos ≤ off → off + Z.of_nat n ≤ pos + Z.of_nat (S (S (length value))) → in_pkt m off n = true)
    by (intros; by apply (in_pkt_sub _ _ _ _ _ Hi); lia).
  wp_steps. apply wp_st8; [unfold is_u8; lia|apply Hs; lia|]. wp_steps.
  apply wp_st8; [unfold is_u8; lia|rewrite in_pkt_put; apply Hs; cbn; lia|]. wp_steps.
  rewrite (put_app m pos [opt]) by (apply Hs; cbn; lia). cbn [app].
  apply wp_st_bytes; [rewrite in_pkt_put; apply Hs; cbn; lia|]. wp_steps.
  rewrite (put_app m pos [opt; Z.of_nat (length value)]) by (apply Hs; cbn; lia).
  replace (pos + 2 + Z.of_nat (length value)) with (pos + Z.of_nat (S (S (length value)))) by lia. done.
Qed.

Lemma wp_add_all pos end_ opts m (Q : option Z → rte_mbuf → Prop) :
  Forall option_ok opts → in_pkt m pos (length (options_bytes opts)) = true →
  pos + Z.of_nat (length (options_bytes opts)) < end_ →
  Q (Some (pos + Z.of_nat (length (options_bytes opts)))) (put m pos (options_bytes opts)) →
  wp (add_all pos end_ opts) Q m.
Proof.
  intros Hok. revert pos m. induction Hok as [|o opts Ho _ IH]; intros pos m Hi He HQ.
  { cbn in HQ. rewrite Z.add_0_r, put_nil in HQ. by wp_steps. }
  cbn [add_all]. destruct o as [opt value]. unfold options_bytes in *. cbn [fmap list_fmap concat] in *.
  fold (option_bytes <$> opts) in *. fold (options_bytes opts) in *. rewrite length_app in *. apply wp_bind.
  assert (in_pkt m pos (length (option_bytes (opt, value))) = true) by (by apply (in_pkt_sub _ _ _ _ _ Hi); lia).
  apply wp_add_dhcp_option; [done|done|lia|]. apply IH.
  - rewrite in_pkt_put by done. apply (in_pkt_sub _ _ _ _ _ Hi); lia.
  - lia.
  - rewrite put_app by done. replace (pos + Z.of_nat (length (option_bytes (opt, value))) + Z.of_nat (length (options_bytes opts)))
      with (pos + Z.of_nat (length (option_bytes (opt, value)) + length (options_bytes opts))) by lia. done.
Qed.

(** The configured name servers fit into an option. *)
Definition dns_ok (conf : dhcp_conf) : Prop := (length (dc_dns conf) < 256)%nat.

Lemma length_classless_route conf : (length (classless_route conf) ≤ 20)%nat.
Proof. unfold classless_route. rewrite !length_app, length_to_bytes. destruct (dc_virtsvc conf); rewrite ?length_app, ?length_to_bytes; unfold classless_route_prefix, virtsvc_route_prefix; cbn [length]; lia. Qed.

Lemma reply_options_ok conf msg_type pxe_mode : dns_ok conf → Forall option_ok (reply_options conf msg_type pxe_mode).
Proof.
  intros Hd. pose proof (length_classless_route conf). unfold reply_options, be16. rewrite !Forall_app. split; [|split].
  - repeat (apply Forall_cons; split; [split; [done|cbn [snd length]; rewrite ?length_to_bytes; lia]|]). done.
  - case_bool_decide; [done|]. apply Forall_singleton. split; [done|cbn [snd]; rewrite length_to_bytes; lia].
  - case_bool_decide; [done|]. by apply Forall_singleton.
Qed.
Lemma reply_options_length conf msg_type pxe_mode :
  dns_ok conf → (length (options_bytes (reply_options conf msg_type pxe_mode)) < 320)%nat.
Proof.
  unfold dns_ok. intros Hd. pose proof (length_classless_route conf). unfold options_bytes, reply_options, be16.
  rewrite !fmap_app, !concat_app, !length_app. cbn [fmap list_fmap concat]. rewrite !length_app. unfold option_bytes. cbn [fst snd length].
  rewrite !length_to_bytes. repeat case_bool_decide; cbn [fmap list_fmap concat length option_bytes fst snd]; rewrite ?length_app; cbn [length]; rewrite ?length_to_bytes; lia.
Qed.

(** The options of a reply, written and ended. *)
Lemma wp_add_dhcp_options conf msg_type pxe_mode m (Q : Z → rte_mbuf → Prop) :
  let bytes := options_bytes (reply_options conf msg_type pxe_mode) ++ [DHCP_OPT_END] in
  dns_ok conf → in_pkt m (dhcp_hdr + dhcp_options) 320 = true →
  Q (Z.of_nat (length bytes)) (put m (dhcp_hdr + dhcp_options) bytes) →
  wp (add_dhcp_options conf msg_type pxe_mode) Q m.
Proof.
  intros bytes Hd Hi HQ. pose proof (reply_options_length conf msg_type pxe_mode Hd) as Hl. unfold add_dhcp_options. cbv zeta.
  assert (DHCP_MAX_OPTIONS_LEN = 1218) by done.
  assert (Hi' : ∀ off n, dhcp_hdr + dhcp_options ≤ off → off + Z.of_nat n ≤ dhcp_hdr + dhcp_options + 320 → in_pkt m off n = true)
    by (intros; by apply (in_pkt_sub _ _ _ _ _ Hi); lia).
  apply wp_bind, wp_add_all; [by apply reply_options_ok|apply Hi'; lia|lia|].
  set (n := length _) in *. rewrite (proj2 (Z.leb_gt _ _)) by lia. wp_steps.
  apply wp_st8; [done|rewrite in_pkt_put; apply Hi'; lia|]. wp_steps. rewrite put_app by (apply Hi'; cbn [length]; lia). fold bytes.
  replace (_ + _ + 1 - _) with (Z.of_nat (length bytes)) by (unfold bytes; rewrite length_app; cbn [length]; lia). done.
Qed.

(** What is read from a packet is a byte. *)
Lemma mget_u8 m off : Forall is_u8 (mb_buf m) → in_pkt m off 1 = true → is_u8 (mget m 1 off).
Proof. intros. by apply (mget_range m 1). Qed.

Lemma wp_ld_bytes n off m (Q : list Z → rte_mbuf → Prop) :
  in_pkt m off n = true → (∀ l, Q l m) → wp (ld_bytes n off) Q m.
Proof. unfold wp, ld_bytes, in_pkt. by intros -> HQ. Qed.

Lemma wp_dhcp_option op_type op_len i msg_type pxe_mode m (Q : option Z * dp_pxe_mode → rte_mbuf → Prop) :
  0 ≤ op_len → in_pkt m (dhcp_hdr + dhcp_options + i) (S (Z.to_nat op_len)) = true → (∀ r, Q r m) →
  wp (dhcp_option op_type op_len i msg_type pxe_mode) Q m.
Proof.
  intros Hl Hi HQ. unfold dhcp_option. cbv zeta.
  assert (Hs : ∀ n, (n ≤ S (Z.to_nat op_len))%nat → in_pkt m (dhcp_hdr + dhcp_options + i) n = true)
    by (intros; by apply (in_pkt_sub _ _ _ _ _ Hi); lia).
  destruct (_ =? DHCP_OPT_MESSAGE_TYPE); [wp_steps; apply wp_ld; [apply Hs; lia|]; wp_steps; apply HQ|].
  destruct (_ =? DHCP_OPT_USER_CLASS).
  { destruct (_ =? _) eqn:Hn; [|by wp_steps; apply HQ]. apply Z.eqb_eq in Hn. unfold DP_USER_CLASS_INF_LEN in Hn. wp_steps.
    apply wp_ld_bytes; [apply Hs; lia|]. intros. wp_steps. apply HQ. }
  destruct (_ =? DHCP_OPT_VENDOR_CLASS_ID); [|by wp_steps; apply HQ].
  destruct (_ <=? _); [|by wp_steps; apply HQ]. wp_steps. apply wp_ld_bytes; [apply Hs; lia|]. intros. wp_steps. apply HQ.
Qed.

Lemma wp_parse_loop fuel options_len i op_len msg_type pxe_mode m :
  Forall is_u8 (mb_buf m) → in_pkt m (dhcp_hdr + dhcp_options) (S (Z.to_nat options_len)) = true →
  0 ≤ i → 0 ≤ op_len → (0 < fuel)%nat → options_len - i < Z.of_nat fuel →
  wp (parse_loop fuel options_len i op_len msg_type pxe_mode) (λ _ m', m' = m) m.
Proof.
  intros Hu Hin. assert (Hs : ∀ i n, 0 ≤ i → i + Z.of_nat n ≤ Z.max 0 options_len + 1 → in_pkt m (dhcp_hdr + dhcp_options + i) n = true)
    by (intros; apply (in_pkt_sub _ _ _ _ _ Hin); lia).
  revert i op_len msg_type pxe_mode. induction fuel as [|fuel IH]; intros i op_len msg_type pxe_mode H0 Hl Hf0 Hf; [lia|].
  cbn [parse_loop]. destruct (i <? options_len) eqn:Hi; cbn [negb]; [|by wp_steps]. apply Z.ltb_lt in Hi.
  wp_steps. apply wp_ld; [apply Hs; lia|]. destruct (_ =? DHCP_OPT_PAD); [apply IH; lia|].
  destruct (_ =? DHCP_OPT_END); [by wp_steps|]. destruct (options_len <=? i + 1) eqn:Hi1; [by wp_steps|]. apply Z.leb_gt in Hi1.
  wp_steps. assert (Hb : in_pkt m (dhcp_hdr + dhcp_options + (i + 1)) 1 = true) by (apply Hs; lia).
  apply wp_ld; [done|]. pose proof (mget_u8 _ _ Hu Hb) as [Hn _]. set (n := mget _ _ _) in *.
  destruct (options_len <? i + 1 + 1 + n) eqn:Hi2; [by wp_steps|]. apply Z.ltb_ge in Hi2. wp_steps.
  apply wp_dhcp_option; [done|apply Hs; lia|]. intros r. apply IH; lia.
Qed.

(** The message type that a sequence of options leaves. *)
Definition message_type (msg_type : option Z) (opts : list (Z * list Z)) : option Z :=
  foldl (λ acc o, if o.1 =? DHCP_OPT_MESSAGE_TYPE then head o.2 else acc) msg_type opts.
(** Options that do not ask for a boot file. *)
Definition plain_option (o : Z * list Z) : Prop :=
  o.1 ≠ DHCP_OPT_USER_CLASS ∧ o.1 ≠ DHCP_OPT_VENDOR_CLASS_ID ∧ (o.1 = DHCP_OPT_MESSAGE_TYPE → ∃ t, o.2 = [t] ∧ is_u8 t).

Lemma wp_plain_option o i msg_type pxe_mode m (Q : option Z * dp_pxe_mode → rte_mbuf → Prop) :
  plain_option o → holds m (dhcp_hdr + dhcp_options + i) o.2 → Q (message_type msg_type [o], pxe_mode) m →
  wp (dhcp_option o.1 (Z.of_nat (length o.2)) i msg_type pxe_mode) Q m.
Proof.
  intros (Hu & Hv & Ht) Hh HQ. unfold dhcp_option. cbv zeta. cbn in HQ. destruct (o.1 =? DHCP_OPT_MESSAGE_TYPE) eqn:Hm.
  - apply Z.eqb_eq in Hm. destruct (Ht Hm) as (t & Hot & Hb). rewrite Hot in *. wp_steps. apply wp_ld; [apply Hh|].
    destruct (holds_cons _ _ _ _ Hb Hh) as [-> _]. by wp_steps.
  - rewrite (proj2 (Z.eqb_neq _ _) Hu), (proj2 (Z.eqb_neq _ _) Hv). by wp_steps.
Qed.

Lemma wp_parse_encoded fuel opts options_len i op_len msg_type pxe_mode m (Q : option Z * dp_pxe_mode → rte_mbuf → Prop) :
  Forall option_ok opts → Forall plain_option opts →
  holds m (dhcp_hdr + dhcp_options + i) (options_bytes opts ++ [DHCP_OPT_END]) →
  options_len = i + Z.of_nat (length (options_bytes opts ++ [DHCP_OPT_END])) → (length opts < fuel)%nat →
  Q (message_type msg_type opts, pxe_mode) m → wp (parse_loop fuel options_len i op_len msg_type pxe_mode) Q m.
Proof.
  intros Hok. revert fuel i op_len msg_type. induction Hok as [|o opts [Ho Hol] _ IH]; intros [|fuel] i op_len msg_type Hp Hh Hn Hf HQ;
    cbn [length] in Hf; try lia; cbn [parse_loop]; cbv zeta.
  - assert (i <? options_len = true) as -> by (apply Z.ltb_lt; rewrite Hn; cbn; lia). cbn [negb]. wp_steps.
    apply wp_ld; [apply Hh|]. destruct (holds_cons _ _ DHCP_OPT_END _ ltac:(done) Hh) as [-> _].
    change (DHCP_OPT_END =? DHCP_OPT_PAD) with false. change (DHCP_OPT_END =? DHCP_OPT_END) with true. by wp_steps.
  - apply Forall_cons in Hp as [Hpo Hp]. unfold options_bytes in *. cbn [fmap list_fmap concat] in *.
    fold (option_bytes <$> opts) in *. fold (options_bytes opts) in *. unfold option_bytes in Hh, Hn. cbn [app] in Hh, Hn.
    rewrite <- (assoc_L app) in Hh, Hn. cbn [length] in Hn. rewrite length_app in Hn.
    unfold DHCP_OPT_END in Ho. rewrite (proj2 (Z.ltb_lt i _)) by lia. cbn [negb].
    assert (Hu1 : is_u8 o.1) by (unfold is_u8; lia). assert (Hu2 : is_u8 (Z.of_nat (length o.2))) by (unfold is_u8; lia).
    pose proof Hh as [Hi _]. destruct (holds_cons _ _ _ _ Hu1 Hh) as [Ht Hh1].
    pose proof Hh1 as [Hi1 _]. destruct (holds_cons _ _ _ _ Hu2 Hh1) as [Hl [Hh2 Hh3]%holds_app].
    replace (dhcp_hdr + dhcp_options + i + 1 + 1) with (dhcp_hdr + dhcp_options + (i + 1 + 1)) in Hh2, Hh3 by lia.
    wp_steps. apply wp_ld; [by apply (in_pkt_sub _ _ _ _ _ Hi); cbn; lia|]. rewrite Ht.
    rewrite (proj2 (Z.eqb_neq _ _)), (proj2 (Z.eqb_neq _ _)), (proj2 (Z.leb_gt _ _)) by (unfold DHCP_OPT_PAD, DHCP_OPT_END; lia).
    wp_steps. rewrite Z.add_assoc. apply wp_ld; [by apply (in_pkt_sub _ _ _ _ _ Hi1); cbn; lia|]. rewrite Hl.
    rewrite (proj2 (Z.ltb_ge _ _)) by lia. wp_steps. apply wp_plain_option; [done|done|].
    apply IH; [done| |lia|lia|done]. by rewrite Z.add_assoc.
Qed.

Lemma reply_options_plain conf msg_type pxe_mode : is_u8 msg_type → Forall plain_option (reply_options conf msg_type pxe_mode).
Proof.
  intros Ht. unfold reply_options. rewrite !Forall_app. split; [|split].
  - repeat (apply Forall_cons; split; [|]); [|split; [done|split; [done|by intros [=]]]..|done].
    split; [done|]. split; [done|]. intros _. by exists msg_type.
  - case_bool_decide; [done|]. apply Forall_singleton. by split; [|split; [|intros [=]]].
  - case_bool_decide; [done|]. apply Forall_singleton. by split; [|split; [|intros [=]]].
Qed.
Lemma reply_message_type conf msg_type pxe_mode : message_type None (reply_options conf msg_type pxe_mode) = Some msg_type.
Proof. unfold reply_options, message_type. rewrite !foldl_app. by repeat case_bool_decide. Qed.
Lemma options_bytes_le opts : (length opts ≤ length (options_bytes opts))%nat.
Proof. unfold options_bytes. induction opts as [|o opts IH]; [done|]. cbn. rewrite length_app. lia. Qed.

(** C31. The parser of the options of a request ends on every packet, whatever its
    bytes are.  It changes nothing and reads at most one byte after the options. *)
Theorem parse_options_total options_len pxe_mode m :
  Forall is_u8 (mb_buf m) → in_pkt m (dhcp_hdr + dhcp_options) (S (Z.to_nat options_len)) = true →
  wp (parse_options options_len pxe_mode) (λ _ m', m' = m) m.
Proof. intros Hu Hi. apply wp_parse_loop; [done|done|lia..]. Qed.

(** C30. The options of a reply always fit, are read by a client (RFC 2132) as the
    ones that were meant, in their order, and by the parser of this code as a
    message of the given type. *)
Theorem dhcp_options_roundtrip conf msg_type pxe_mode pxe_mode' m :
  dns_ok conf → is_u8 msg_type → in_pkt m (dhcp_hdr + dhcp_options) 320 = true →
  wp (add_dhcp_options conf msg_type pxe_mode)
    (λ n m', 0 < n ≤ DHCP_MAX_OPTIONS_LEN
       ∧ client_options (Z.to_nat n) (buf_get (mb_buf m') (mb_data_off m' + (dhcp_hdr + dhcp_options)) (Z.to_nat n))
         = Some (reply_options conf msg_type pxe_mode)
       ∧ wp (parse_options n pxe_mode') (λ r m'', r = (Some msg_type, pxe_mode') ∧ m'' = m') m') m.
Proof.
  intros Hd Ht Hi. apply wp_add_dhcp_options; [done|done|].
  pose proof (reply_options_length conf msg_type pxe_mode Hd) as Hl.
  pose proof (reply_options_ok conf msg_type pxe_mode Hd) as Hok. pose proof (options_bytes_le (reply_options conf msg_type pxe_mode)).
  pose proof (reply_message_type conf msg_type pxe_mode) as Hm. pose proof (reply_options_plain conf msg_type pxe_mode Ht) as Hp.
  set (opts := reply_options _ _ _) in *.
  assert (Hn : length (options_bytes opts ++ [DHCP_OPT_END]) = S (length (options_bytes opts))) by (rewrite length_app; cbn [length]; lia).
  assert (Hh : holds (put m (dhcp_hdr + dhcp_options) (options_bytes opts ++ [DHCP_OPT_END])) (dhcp_hdr + dhcp_options)
    (options_bytes opts ++ [DHCP_OPT_END])) by (apply put_holds, (in_pkt_sub _ _ _ _ _ Hi); lia).
  split; [rewrite Hn; change DHCP_MAX_OPTIONS_LEN with 1218; lia|]. split.
  - rewrite Nat2Z.id. destruct Hh as [_ ->]. rewrite Hn. apply client_options_bytes; [done|lia].
  - unfold parse_options. eapply wp_parse_encoded; [done|done|by rewrite Z.add_0_r|done|lia|]. by rewrite Hm.
Qed.
End option_facts.

(** ** Facts: responses *)

Ltac dhcp_unfold :=
  unfold dhcp_hdr, dhcp_op, dhcp_yiaddr, dhcp_siaddr, dhcp_giaddr, dhcp_chaddr, dhcp_magic, dhcp_options, udp_len in *; net_unfold.

Section response_facts.
Context `{HH : RteHash} {HO : RteHashOk} `{HM : RteMalloc} {MO : RteMallocOk} `{HR : RteRib} `{HN : RteNet} {HNO : RteNetOk} `{HL : LibcNet}.
Implicit Types (d : data_state) (m : rte_mbuf).

(** A packet with room for a response. *)
Record roomy m : Prop := {
  rm_in : in_pkt m 0 602 = true;
  rm_u8 : Forall is_u8 (mb_buf m)
}.
(** The metadata of [m'] is that of [m], but for what DPDK needs to send it. *)
Record same_mbuf m m' : Prop := {
  sm_off : mb_data_off m' = mb_data_off m;
  sm_size : length (mb_buf m') = length (mb_buf m);
  sm_port : mb_port m' = mb_port m
}.
(** The addresses and the fixed part of a response. *)
Record dhcp_header (server ip client_mac : Z) m : Prop := {
  dh_src : mget m 4 (sizeof_ether_hdr + ip4_src) = server;
  dh_sport : mget m 2 (sizeof_ether_hdr + sizeof_ipv4_hdr + l4_src_port) = htons DP_BOOTP_SRV_PORT;
  dh_dport : mget m 2 (sizeof_ether_hdr + sizeof_ipv4_hdr + l4_dst_port) = htons DP_BOOTP_CLI_PORT;
  dh_op : mget m 1 (dhcp_hdr + dhcp_op) = DP_BOOTP_REPLY;
  dh_magic : mget m 4 (dhcp_hdr + dhcp_magic) = htonl DHCP_MAGIC_COOKIE;
  dh_yiaddr : mget m 4 (dhcp_hdr + dhcp_yiaddr) = htonl ip;
  dh_chaddr : mget m 6 (dhcp_hdr + dhcp_chaddr) = client_mac;
  dh_mac : mget m 6 eth_dst = client_mac
}.

Lemma wp_dhcp_fill port m (Q : () → rte_mbuf → Prop) :
  roomy m →
  (∀ m', same_mbuf m m' → Forall is_u8 (mb_buf m') → dhcp_header server_ip (cfg_own_ip (if_cfg (pt_iface port))) (mget m 6 eth_dst) m' → Q tt m') →
  wp (dhcp_fill port) Q m.
Proof.
  intros [Hin Hu] HQ. unfold dhcp_fill, mac_copy. dhcp_unfold. pkt_run. unfold in_pkt in Hin. rewrite in_buf_spec in Hin.
  apply HQ.
  - constructor; congruence.
  - by pkt_u8.
  - constructor; dhcp_unfold; pkt_read;
      first [done | by apply Z.mod_small, bswap16_range | by apply Z.mod_small, bswap32_range | by apply mget_mod; [|pkt_in]].
Qed.

(** [dhcp_pxe] and [dhcp_finish] keep the header. *)
Lemma dhcp_header_frame server ip mac m m' :
  dhcp_header server ip mac m →
  (∀ k off, off + Z.of_nat k ≤ 6 ∨ (26 ≤ off ∧ off + Z.of_nat k ≤ 30) ∨ (34 ≤ off ∧ off + Z.of_nat k ≤ 38)
     ∨ (42 ≤ off ∧ off + Z.of_nat k ≤ 62) ∨ (66 ≤ off ∧ off + Z.of_nat k ≤ 282) → 0 ≤ off → mget m' k off = mget m k off) →
  dhcp_header server ip mac m'.
Proof. intros []. dhcp_unfold. intros Hf. constructor; dhcp_unfold; rewrite Hf by (simpl Z.of_nat; lia); done. Qed.

(** Where a response without a boot file goes. *)
Definition plain_boot (ip : Z) m : Prop :=
  mget m 4 (sizeof_ether_hdr + ip4_dst) = htonl ip ∧ mget m 4 (dhcp_hdr + dhcp_siaddr) = server_ip.

Lemma wp_dhcp_pxe_none port server ip mac m (Q : bool → rte_mbuf → Prop) :
  roomy m → dhcp_header server ip mac m →
  (∀ m', same_mbuf m m' → Forall is_u8 (mb_buf m') → dhcp_header server ip mac m' → plain_boot (cfg_own_ip (if_cfg (pt_iface port))) m' → Q true m') →
  wp (dhcp_pxe port DP_PXE_MODE_NONE) Q m.
Proof.
  intros [Hin Hu] Hh HQ. unfold dhcp_pxe. dhcp_unfold. pkt_run. unfold in_pkt in Hin. rewrite in_buf_spec in Hin. apply HQ.
  - constructor; congruence.
  - by pkt_u8.
  - apply (dhcp_header_frame _ _ _ m); [done|]. intros k off Hoff H0'. by pkt_read.
  - unfold plain_boot. dhcp_unfold. split; pkt_read; [by apply Z.mod_small, bswap32_range|done].
Qed.

(** The rest of a response with the options [opts]. *)
Record dhcp_tail (opts : list (Z * list Z)) m : Prop := {
  dt_options : holds m (dhcp_hdr + dhcp_options) (options_bytes opts ++ [DHCP_OPT_END]);
  dt_len : mb_data_len m = dhcp_hdr + dhcp_options + Z.of_nat (length (options_bytes opts ++ [DHCP_OPT_END]));
  dt_ip_len : mget m 2 (sizeof_ether_hdr + ip4_total_length) = htons (mb_data_len m - sizeof_ether_hdr);
  dt_udp_len : mget m 2 (sizeof_ether_hdr + sizeof_ipv4_hdr + udp_len) = htons (mb_data_len m - sizeof_ether_hdr - sizeof_ipv4_hdr)
}.

Lemma wp_dhcp_finish conf response_type pxe_mode m (Q : bool → rte_mbuf → Prop) :
  roomy m → dns_ok conf →
  (∀ m', same_mbuf m m' → dhcp_tail (reply_options conf response_type pxe_mode) m' →
     (∀ k off, 0 ≤ off → off + Z.of_nat k ≤ 16 ∨ (26 ≤ off ∧ off + Z.of_nat k ≤ 38) ∨ (42 ≤ off ∧ off + Z.of_nat k ≤ 282) →
        mget m' k off = mget m k off) → Q true m') →
  wp (dhcp_finish conf response_type pxe_mode) Q m.
Proof.
  intros [Hin Hu] Hd HQ. pose proof (reply_options_length conf response_type pxe_mode Hd) as Hl.
  assert (Hs : ∀ off n, 0 ≤ off → off + Z.of_nat n ≤ 602 → in_pkt m off n = true) by (intros; by apply (in_pkt_sub _ _ _ _ _ Hin); lia).
  unfold dhcp_finish. apply wp_bind, wp_add_dhcp_options; [done|by apply Hs|].
  set (bytes := _ ++ [DHCP_OPT_END]) in *.
  assert (Hn : length bytes = S (length (options_bytes (reply_options conf response_type pxe_mode))))
    by (unfold bytes; rewrite length_app; cbn [length]; lia).
  rewrite DP_FAILED_pos by lia. cbv zeta. dhcp_unfold. rewrite (proj2 (Z.ltb_ge _ _)) by lia.
  assert (Hi0 : in_pkt m (14 + 20 + 8 + 240) (length bytes) = true) by (apply Hs; lia).
  pose proof (put_holds _ _ _ Hi0) as Hh. assert (Ho : mb_data_off (put m (14 + 20 + 8 + 240) bytes) = mb_data_off m) by done.
  assert (Hsz : length (mb_buf (put m (14 + 20 + 8 + 240) bytes)) = length (mb_buf m)) by (by apply (in_buf_set_length _ _ (length bytes))).
  assert (Hpo : mb_port (put m (14 + 20 + 8 + 240) bytes) = mb_port m) by done.
  assert (Hfr : ∀ k off, 0 ≤ off → off + Z.of_nat k ≤ 282 → mget (put m (14 + 20 + 8 + 240) bytes) k off = mget m k off).
  { intros k off H0 Hk. pose proof (in_pkt_nonneg _ _ _ (Hs 0 1%nat ltac:(lia) ltac:(lia))). apply mget_put_ne; [done|lia|lia]. }
  pose proof (in_pkt_nonneg _ _ _ (Hs 0 1%nat ltac:(lia) ltac:(lia))) as Hnn. unfold in_pkt in Hin. rewrite in_buf_spec in Hin.
  set (m0 := put m _ bytes) in *. clearbody m0. assert (in_pkt m0 0 282 = true) by (unfold in_pkt; rewrite in_buf_spec; lia).
  pkt_run. apply HQ.
  - constructor; congruence.
  - lazymatch goal with |- dhcp_tail _ ?x => set (mx := x) in * end.
    assert (Hlen : mb_data_len mx = 14 + 20 + 8 + 240 + Z.of_nat (length bytes)).
    { lazymatch goal with H : mb_data_len mx = _ |- _ => rewrite H end. rewrite u16_id; unfold is_u16; lia. }
    constructor; dhcp_unfold; fold bytes.
    + eapply holds_meta; [done|]. do 4 (eapply holds_upd; [done|lia|]). done.
    + done.
    + rewrite Hlen. pkt_read. rewrite Z.mod_small by apply bswap16_range. f_equal. rewrite u16_id; unfold is_u16; lia.
    + rewrite Hlen. pkt_read. rewrite Z.mod_small by apply bswap16_range. f_equal. rewrite u16_id; unfold is_u16; lia.
  - intros k off H0' Hoff. pkt_read. apply Hfr; lia.
Qed.

(** A request of the type [t] from the interface of [port], with no boot file asked for. *)
Record dhcp_request d m (i : nat) port (pxe_mode : dp_pxe_mode) (t : Z) : Prop := {
  dq_port : port_at d (mb_port m) i port;
  dq_roomy : roomy m;
  dq_len : dhcp_hdr + dhcp_options ≤ mb_data_len m;
  dq_ip : cfg_own_ip (if_cfg (pt_iface port)) ≠ 0;
  dq_op : mget m 1 (dhcp_hdr + dhcp_op) = DP_BOOTP_REQUEST;
  dq_options : parse_options (mb_data_len m - dhcp_hdr - dhcp_options) pxe_mode m = Some ((Some t, DP_PXE_MODE_NONE), m)
}.

Lemma wp_dhcp_learn d m i port r (Q : () → node_state → Prop) :
  in_pkt m eth_dst 6 = true → ps_ports (cs_ports (da_conn d)) !! i = Some port →
  (∀ d', ps_ports (cs_ports (da_conn d')) !! i
         = Some (if r =? DHCPACK then port <| pt_neigh_mac := mget m 6 eth_dst |> else port) → Q tt (d', m)) →
  wp (if r =? DHCPACK then mac ← zoom sndL (ld 6 eth_dst); upd_in_port i (λ port, port <| pt_neigh_mac := mac |>) else mret tt) Q (d, m).
Proof.
  intros Hi Hp HQ. destruct (r =? DHCPACK); [|by wp_steps; apply HQ]. apply wp_bind, wp_zoom, wp_ld; [done|].
  unfold upd_in_port. do 2 apply wp_zoom. eapply wp_upd_port; [done|]. apply HQ. cbn.
  apply list_lookup_insert_eq. by eapply lookup_lt_Some.
Qed.

Lemma roomy_same m m' : roomy m → same_mbuf m m' → Forall is_u8 (mb_buf m') → roomy m'.
Proof.
  intros [Hin _] [Ho Hs _] Hu. constructor; [|done]. unfold in_pkt, in_buf in *. by rewrite Ho, Hs.
Qed.

Lemma wp_dhcp_respond conf tx d m i port r :
  port_at d (mb_port m) i port → roomy m → dns_ok conf →
  wp (dhcp_respond conf tx i port r DP_PXE_MODE_NONE)
    (λ e s, e = (if decide (mb_port m ∈ tx) then EDGE_TX (mb_port m) else EDGE_DROP)
       ∧ dhcp_header server_ip (cfg_own_ip (if_cfg (pt_iface port))) (mget m 6 eth_src) s.2
       ∧ plain_boot (cfg_own_ip (if_cfg (pt_iface port))) s.2
       ∧ dhcp_tail (reply_options conf r DP_PXE_MODE_NONE) s.2
       ∧ ps_ports (cs_ports (da_conn s.1)) !! i
         = Some (if r =? DHCPACK then port <| pt_neigh_mac := mget m 6 eth_src |> else port)) (d, m).
Proof.
  intros (Hid & Htab & Hport) [Hin Hu] Hd. unfold dhcp_respond, mac_copy. net_unfold. node_run.
  assert (Hs1 : same_mbuf m m'1) by (constructor; congruence). assert (Hu1 : Forall is_u8 (mb_buf m'1)) by (by pkt_u8).
  assert (Hr1 : roomy m'1) by (by apply (roomy_same m)).
  pose proof (in_pkt_nonneg _ _ _ Hin).
  assert (Hmac : mget m'1 6 eth_dst = mget m 6 6) by (net_unfold; pkt_read; by apply mget_mod; [|pkt_in]).
  rewrite <- Hmac. change 0 with eth_dst at 1.
  apply wp_dhcp_learn with port; [by apply (in_pkt_sub _ _ _ _ _ (rm_in _ Hr1)); net_unfold; lia|done|]. intros d' Hd'. clear - HNO HO Hid Hs1 Hr1 Hd Hd'.
  apply wp_bind, wp_zoom, wp_dhcp_fill; [done|]. intros m2 Hs2 Hu2 Hh2. pose proof (roomy_same _ _ Hr1 Hs2 Hu2) as Hr2.
  apply wp_bind, wp_zoom. eapply wp_dhcp_pxe_none; [done..|]. intros m3 Hs3 Hu3 Hh3 [Hb1 Hb2]. pose proof (roomy_same _ _ Hr2 Hs3 Hu3) as Hr3.
  cbn [negb]. apply wp_bind, wp_zoom, wp_dhcp_finish; [done..|]. intros m4 Hs4 Ht4 Hfr. cbn [lget lput sndL fst snd] in *. apply wp_bind, wp_zoom, wp_gets. cbn [lget lput sndL fst snd negb].
  assert (Hp4 : mb_port m4 = mb_port m) by (destruct Hs1, Hs2, Hs3, Hs4; congruence). rewrite Hp4.
  apply wp_tx_edge; [lia|].
  split; [done|]. split; [|split; [|by split]].
  - apply (dhcp_header_frame _ _ _ m3); [done|]. intros k off Hoff H0. apply Hfr; lia.
  - cbn. unfold plain_boot in *. dhcp_unfold. rewrite !Hfr by (simpl Z.of_nat; lia). done.
Qed.

End response_facts.

(** ** Runs *)

(** Texts of addresses are not needed here; the end of the data is moved within the buffer. *)
Definition test_libcnet : LibcNet := {| inet_ntop4 _ := None; inet_ntop6 _ := [] |}.
Definition test_tail : RtePktTail := {|
  rte_pktmbuf_append len m :=
    if (0 <=? len) && (len <=? Z.of_nat (length (mb_buf m)) - mb_data_off m - mb_data_len m)
    then Some (m <| mb_data_len := mb_data_len m + len |>) else None;
  rte_pktmbuf_trim len m :=
    if (0 <=? len) && (len <=? mb_data_len m) then Some (m <| mb_data_len := mb_data_len m - len |>) else None
|}.

Section dhcp_examples.
#[local] Existing Instances test_hash test_hash_ok test_malloc test_malloc_ok test_rib test_rib_ok test_net test_net_ok
  test_libcnet.

(** The DISCOVER of a client with the MAC 1:2:3:4:5:6 on port 0, whose interface has
    the address 10.0.0.10, and the name server 8.8.8.8. *)
Definition ex_discover : rte_mbuf :=
  ex_frame 64 286 dp_init_flow_ptr
    (replicate 6 255 ++ [1; 2; 3; 4; 5; 6] ++ replicate 30 0 ++ [DP_BOOTP_REQUEST] ++ replicate 239 0
     ++ [DHCP_OPT_MESSAGE_TYPE; 1; DHCPDISCOVER; DHCP_OPT_END] ++ replicate 320 0).
Definition ex_dhcp_port : dp_port :=
  zero_port <| pt_iface := (pt_iface zero_port) <| if_cfg := (if_cfg (pt_iface zero_port)) <| cfg_own_ip := 167772170 |> |> |>.
Definition ex_dhcp_data : data_state :=
  ex_nat_data <| da_conn := MkConnState (cs_flow (da_conn ex_nat_data)) ex_nat_one ex_vnf_empty
    (MkPorts [ex_dhcp_port] {[0 := 0%nat]} [] (Heap (H := test_malloc) ∅ ([] : list bool))) |>.
Definition ex_dhcp_conf : dhcp_conf := MkDhcpConf 1450 [8; 8; 8; 8] [] false.

Lemma ex_discover_roomy : roomy ex_discover.
Proof. constructor; [vm_compute; reflexivity|by apply ex_frame_u8]. Qed.

Lemma parse_options_total_witness :
  wp (parse_options 4 DP_PXE_MODE_NONE) (λ _ m', m' = ex_discover) ex_discover.
Proof. apply (parse_options_total 4 DP_PXE_MODE_NONE ex_discover); [apply ex_discover_roomy|vm_compute; reflexivity]. Defined.

Lemma dhcp_options_roundtrip_witness :
  wp (add_dhcp_options ex_dhcp_conf DHCPACK DP_PXE_MODE_TFTP)
    (λ n m', client_options (Z.to_nat n) (buf_get (mb_buf m') (mb_data_off m' + (dhcp_hdr + dhcp_options)) (Z.to_nat n))
       = Some (reply_options ex_dhcp_conf DHCPACK DP_PXE_MODE_TFTP)) ex_discover.
Proof.
  eapply wp_mono; [apply (dhcp_options_roundtrip ex_dhcp_conf DHCPACK DP_PXE_MODE_TFTP DP_PXE_MODE_NONE ex_discover)|].
  - unfold dns_ok. cbn. lia.
  - done.
  - vm_compute. reflexivity.
  - by intros n m' (_ & H & _).
Defined.

End dhcp_examples.
