(* ===== verification/Pipeline.v ===== *)
(** * The path of a packet through the graph

    The graph of src/dp_graph.c as far as one packet is concerned: the nodes a
    packet visits from its classification until it is dropped or transmitted.
    A packet is recirculated to the classification at most once, so a bounded
    number of visits is enough, and no node leaves an entry in the flow table
    that leads to memory which is not a flow with that key. *)

From S2P Require Import Prelude Dpdk Error Types Port Firewall Rib Lb Vnf Conn Mbuf Graph Multipath Nat Vni Lpm Flow Nat64 Cntrack Virtsvc Nodes Neigh Dhcp.

(** What all nodes work on. *)
Record graph_data `{RteHash} `{RteMalloc} `{RteRib} := MkGraphData {
  gd_data : data_state;
  gd_virtsvc : virtsvc_state;
  gd_pxe_mode : dp_pxe_mode
}.
Arguments MkGraphData {_ _ _} _ _ _.
Global Instance graph_data_eta `{RteHash} `{RteMalloc} `{RteRib} : Eta graph_data := λ r,
  MkGraphData (gd_data r) (gd_virtsvc r) (gd_pxe_mode r).

(** The configuration, with the transmit nodes that were appended to each node. *)
Record graph_conf := MkGraphConf {
  gc_cntrack : cntrack_conf;
  gc_conntrack_enabled : bool;
  gc_virtsvc_present : bool;
  gc_ipv6_overlay_enabled : bool;
  gc_wcmp_perc : Z;
  gc_underlay_ip : Z;
  gc_service_ul_ip : Z;
  gc_dhcp : dhcp_conf;
  gc_next_tx_index : dp_node → gset Z
}.

(** Where a packet ends. *)
Inductive graph_end := END_DROP | END_TX (port_id : Z).
Global Instance graph_end_eq_dec : EqDecision graph_end.
Proof. solve_decision. Defined.

Section graph.
Context `{HH : RteHash} `{HM : RteMalloc} `{HR : RteRib} `{HN : RteNet} `{HL : LibcNet} `{HT : RtePktTail}.

Definition packet_state : Type := graph_data * rte_mbuf.
Definition nodeG : lens packet_state node_state :=
  Lens (λ s, (gd_data s.1, s.2)) (λ x s, (s.1 <| gd_data := x.1 |>, x.2)).
Definition vpktG : lens packet_state vpkt_state :=
  Lens (λ s, ((gd_virtsvc s.1, cs_ports (da_conn (gd_data s.1))), s.2))
    (λ x s, (s.1 <| gd_virtsvc := x.1.1 |>
                 <| gd_data := (gd_data s.1) <| da_conn := (da_conn (gd_data s.1)) <| cs_ports := x.1.2 |> |> |>, x.2)).
Definition dhcpG : lens packet_state (node_state * dp_pxe_mode) :=
  Lens (λ s, ((gd_data s.1, s.2), gd_pxe_mode s.1))
    (λ x s, (s.1 <| gd_data := x.1.1 |> <| gd_pxe_mode := x.2 |>, x.1.2)).

(** [tsc0] and [tsc] are the values of [rte_rdtsc()] in a visit, [junk_vni] that of
    a variable without a value, [meter_red] the verdict of the meter, and
    [offload] the handler that makes hardware rules. *)
Context (conf : graph_conf) (tsc0 tsc junk_vni : Z) (meter_red : dp_port → Z → bool) (offload : cmd node_state Z).

(** The function [get_next_index] of every node. *)
Definition visit (n : dp_node) : cmd packet_state dp_edge :=
  let tx := gc_next_tx_index conf n in
  match n with
  | node_cls => zoom vpktG (cls_next (gc_virtsvc_present conf))
  | node_arp => zoom nodeG (arp_next tx)
  | node_ipv6_nd => zoom nodeG (ipv6_nd_process_next (gc_ipv6_overlay_enabled conf) tx)
  | node_conntrack => zoom nodeG (conntrack_next (gc_cntrack conf) (gc_conntrack_enabled conf) tsc)
  | node_ipip_decap => zoom nodeG ipip_decap_next
  | node_virtsvc => zoom vpktG (virtsvc_next (gc_service_ul_ip conf) (gc_wcmp_perc conf) tx tsc0 tsc)
  | node_lb => zoom nodeG lb_process_next
  | node_dhcp => zoom dhcpG (dhcp_next (gc_dhcp conf) tx)
  | node_dhcpv6 => zoom nodeG (dhcpv6_next (gc_dhcp conf) tx)
  | node_dnat => zoom nodeG dnat_next
  | node_firewall => zoom nodeG (firewall_next tx)
  | node_ipv4_lookup => zoom nodeG (ipv4_lookup_next (gc_wcmp_perc conf) junk_vni)
  | node_ipv6_lookup => zoom nodeG (ipv6_lookup_next junk_vni)
  | node_packet_relay => zoom nodeG packet_relay_next
  | node_snat => zoom nodeG (snat_next tsc meter_red)
  | node_ipip_encap => zoom nodeG (ipip_encap_next (gc_underlay_ip conf) tx)
  end.

(** At most [fuel] visits, from the node [n]; [None] when they are not enough. *)
Fixpoint walk (fuel : nat) (n : dp_node) : cmd packet_state (option graph_end) :=
  match fuel with
  | O => mret None
  | S fuel =>
      e ← visit n;
      match e with
      | EDGE_DROP => mret (Some END_DROP)
      | EDGE_TX port_id => zoom nodeG (tx_pkt offload);; mret (Some (END_TX port_id))
      | EDGE_NODE n => walk fuel n
      end
  end.

(** A packet that a port received ([rx_node_process] in src/nodes/rx_node.c). *)
Definition receive (fuel : nat) (pkt_id : Z) : cmd packet_state (option graph_end) :=
  zoom sndL (dp_init_pkt_mark pkt_id);; walk fuel node_cls.
End graph.

(** ** Facts: the edges *)

Definition is_next (l : list dp_node) (e : dp_edge) : bool :=
  match e with EDGE_NODE n => bool_decide (n ∈ l) | _ => true end.

(** What a step that may return ensures. *)
Definition ret_ok {S : Type} (P : S → Prop) (l : list dp_node) (r : option dp_edge) (s : S) : Prop :=
  P s ∧ match r with Some e => is_next l e = true | None => True end.
Definition edge_ok {S : Type} (P : S → Prop) (l : list dp_node) (e : dp_edge) (s : S) : Prop :=
  P s ∧ is_next l e = true.

Lemma tr_returns {S} (P : S → Prop) l c k :
  triple P c (ret_ok P l) → triple P k (edge_ok P l) → triple P (returns c k) (edge_ok P l).
Proof.
  intros Hc Hk. unfold returns. eapply tr_bind; [done|]. intros [e|]; cbn.
  - by apply tr_ret.
  - eapply tr_pre; [done|]. by intros s [? _].
Qed.

Lemma tr_bind_opt {S A} (P : S → Prop) l c (f : option dp_edge → cmd S A) Q :
  triple P c (ret_ok P l) → (∀ e, is_next l e = true → triple P (f (Some e)) Q) → triple P (f None) Q →
  triple P (c ≫= f) Q.
Proof.
  intros Hc Hs Hn. eapply tr_bind; [done|]. intros [e|] s a s' [HP He] E; [by eapply Hs|by eapply Hn].
Qed.

Definition always {S : Type} (s : S) : Prop := True.
Lemma mt_true {S A} (c : cmd S A) : maintains always c.
Proof. done. Qed.

Lemma tr_zoom_edge {S T} (l : lens S T) (c : cmd T dp_edge) ns :
  triple always c (edge_ok always ns) → triple always (zoom l c) (edge_ok always ns).
Proof. intros Hc. apply tr_zoom. intros s _ e t E. split; [done|]. by eapply (Hc _ e t). Qed.

Lemma tr_tx_edge {S} (P : S → Prop) tx port_id l : triple P (tx_edge tx port_id) (edge_ok P l).
Proof.
  unfold tx_edge. destruct (_ && _); [|apply tr_fault]. apply tr_ret. intros s Hs. split; [done|]. by destruct (decide _).
Qed.

(** A command is taken apart down to the commands that [tr_lift] knows. *)
Ltac tr_head c := lazymatch c with ?f _ => tr_head f | _ => c end.
Ltac tr_lift := fail.
Ltac tr_end :=
  intros ? ?; lazymatch goal with
  | |- edge_ok _ _ _ _ => split; [done|try solve [done | unfold vnf_next; repeat case_match; done]]
  | |- ret_ok _ _ _ _ =>
      split; [done|try solve [done | repeat match goal with |- context [if ?b then _ else _] => destruct b end; done]]
  | _ => try done
  end.
Ltac tr_go :=
  unfold maintains; cbv zeta beta;
  lazymatch goal with
  | |- triple ?P (@mbind _ _ (option dp_edge) _ _ _) (_ _ ?l) =>
      apply (tr_bind_opt P l); [tr_go|intros ? ?; tr_go|tr_go]
  | |- triple _ (mbind _ _) _ => apply tr_seq; [first [exact (mt_true _)|tr_go]|intros ?; tr_go]
  | |- triple _ (returns _ _) (edge_ok _ _) => apply tr_returns; tr_go
  | |- triple _ (mret _) _ => apply tr_ret; tr_end
  | |- triple _ fault _ => apply tr_fault
  | |- triple _ (gets _) _ => apply tr_gets; try done
  | |- triple _ (tx_edge _ _) _ =>
      first [apply tr_tx_edge | eapply tr_post; [apply (tr_tx_edge _ _ _ [])|by intros ? ? []]]
  | |- triple _ (if ?b then _ else _) _ => destruct b; tr_go
  | |- triple _ (match ?x with _ => _ end) _ => destruct x; tr_go
  | |- triple _ ?c _ => first [tr_lift; tr_go | let h := tr_head c in progress unfold h; tr_go | idtac]
  end.

(** ** Facts: what is in the private area *)

Section df_facts.
Context `{HH : RteHash} `{HM : RteMalloc} `{HR : RteRib} `{HN : RteNet} {HNO : RteNetOk}.
Context (X : dp_flow → Prop).

Definition dfM (m : rte_mbuf) : Prop := X (mb_flow m).
Definition dfP (s : pkt_state) : Prop := X (mb_flow s.2).
Definition dfN (s : node_state) : Prop := X (mb_flow s.2).

Lemma df_ld n off : maintains dfM (ld n off).
Proof. intros m a m' H. unfold ld. destruct (in_buf _ _ _); [|done]. by intros [= <- <-]. Qed.
Lemma df_st n off v : maintains dfM (st n off v).
Proof. intros m a m' H. unfold st. destruct (in_buf _ _ _); [|done]. by intros [= <- <-]. Qed.
Lemma df_memmove n i j : maintains dfM (m_memmove n i j).
Proof. intros m a m' H. unfold m_memmove. destruct (_ && _); [|done]. by intros [= <- <-]. Qed.
Lemma df_adj len : 0 ≤ len → maintains dfM (mbuf_move (rte_pktmbuf_adj len)).
Proof.
  intros Hl m a m' H. unfold mbuf_move. destruct (decide (mb_data_len m < len)).
  - rewrite adj_none by done. by intros [= <- <-].
  - rewrite adj_some by lia. by intros [= <- <-].
Qed.
Lemma df_prepend len : 0 ≤ len → maintains dfM (mbuf_move (rte_pktmbuf_prepend len)).
Proof.
  intros Hl m a m' H. unfold mbuf_move. destruct (decide (mb_data_off m < len)).
  - rewrite prepend_none by done. by intros [= <- <-].
  - rewrite prepend_some by lia. by intros [= <- <-].
Qed.
Lemma df_modify f : (∀ m, mb_flow (f m) = mb_flow m) → maintains dfM (modify f).
Proof. intros Hf. apply tr_modify. intros m. unfold dfM. by rewrite Hf. Qed.
Lemma df_upd f : (∀ df, X df → X (f df)) → maintains dfM (upd_df f).
Proof. intros Hf. apply tr_modify. intros m Hm. by apply Hf. Qed.

Lemma df_icmp_sum fuel off i len sum : maintains dfM (icmp_sum fuel off i len sum).
Proof.
  revert i sum. induction fuel as [|fuel IH]; intros i sum; cbn [icmp_sum]; [apply tr_fault|].
  destruct (i <? len); [|by apply tr_ret]. apply tr_seq; [apply df_ld|]. intros w. apply IH.
Qed.

Lemma dfN_mbuf {A} (c : cmd rte_mbuf A) : maintains dfM c → maintains dfN (zoom sndL c).
Proof. by apply mt_zoom. Qed.
Lemma dfN_pkt {A} (c : cmd pkt_state A) : maintains dfP c → maintains dfN (zoom pktN c).
Proof. apply mt_zoom; [done|]. by intros []. Qed.
Lemma dfN_conn {A} (c : cmd conn_state A) : maintains dfN (zoom connN c).
Proof. by apply mt_frame. Qed.
Lemma dfN_lb {A} (c : cmd lb_state A) : maintains dfN (zoom lbN c).
Proof. by apply mt_frame. Qed.
Lemma dfN_portsvni {A} (c : cmd (ports_state * vni_state) A) : maintains dfN (zoom portsvniN c).
Proof. by apply mt_frame. Qed.
Lemma dfP_mbuf {A} (c : cmd rte_mbuf A) : maintains dfM c → maintains dfP (zoom sndL c).
Proof. by apply mt_zoom. Qed.
Lemma dfP_conn {A} (c : cmd conn_state A) : maintains dfP (zoom fstL c).
Proof. by apply mt_frame. Qed.
End df_facts.
Ltac df_lift :=
  lazymatch goal with
  | |- triple always (zoom _ _) (edge_ok always _) => apply tr_zoom_edge
  | |- triple (dfN _) (zoom sndL _) _ => apply dfN_mbuf
  | |- triple (dfN _) (zoom pktN _) _ => apply dfN_pkt
  | |- triple (dfN _) (zoom connN _) _ => apply dfN_conn
  | |- triple (dfN _) (zoom lbN _) _ => apply dfN_lb
  | |- triple (dfN _) (zoom portsvniN _) _ => apply dfN_portsvni
  | |- triple (dfP _) (zoom fstL _) _ => apply dfP_conn
  | |- triple (dfM _) (ld _ _) _ => apply df_ld
  | |- triple (dfM _) (icmp_sum _ _ _ _ _) _ => apply df_icmp_sum
  | |- triple (dfM _) (st _ _ _) _ => apply df_st
  | |- triple (dfM _) (m_memmove _ _ _) _ => apply df_memmove
  | |- triple (dfP _) (zoom sndL _) _ => apply dfP_mbuf
  | |- triple (dfM _) (upd_df _) _ => apply df_upd; try done
  | |- triple (dfM _) (modify _) _ => apply df_modify; try done
  | |- triple (dfM _) (mbuf_move (rte_pktmbuf_adj _)) _ => apply df_adj; try done
  | |- triple (dfM _) (mbuf_move (rte_pktmbuf_prepend _)) _ => apply df_prepend; try done
  end.

Ltac tr_lift ::= df_lift.

(** The packet is not marked for recirculation. *)
Definition no_recirc (df : dp_flow) : Prop := df_nat_type df ≠ DP_LB_RECIRC.
Abbreviation NR := (dfN no_recirc).

Section nr_facts.
Context `{HH : RteHash} `{HM : RteMalloc} `{HR : RteRib} `{HN : RteNet} {HNO : RteNetOk}.

Lemma nr_dnat : triple NR dnat_next (edge_ok NR (next_nodes node_dnat)).
Proof.
  tr_go.
Qed.
Lemma nr_ipv4_lookup perc junk : triple NR (ipv4_lookup_next perc junk) (edge_ok NR (next_nodes node_ipv4_lookup)).
Proof.
  tr_go.
Qed.
Lemma nr_ipv6_lookup junk : triple NR (ipv6_lookup_next junk) (edge_ok NR (next_nodes node_ipv6_lookup)).
Proof.
  tr_go.
Qed.
Lemma nr_firewall tx : triple NR (firewall_next tx) (edge_ok NR (next_nodes node_firewall)).
Proof.
  tr_go.
Qed.
Lemma nr_packet_relay : triple NR packet_relay_next (edge_ok NR (next_nodes node_packet_relay)).
Proof.
  tr_go.
Qed.
Lemma nr_snat tsc meter : triple NR (snat_next tsc meter) (edge_ok NR (next_nodes node_snat)).
Proof.
  tr_go.
Qed.
Lemma nr_conntrack conf en tsc : triple NR (conntrack_next conf en tsc) (edge_ok NR (next_nodes node_conntrack)).
Proof.
  tr_go.
Qed.
Lemma nr_ipip_decap : triple NR ipip_decap_next (edge_ok NR (next_nodes node_ipip_decap)).
Proof.
  tr_go.
Qed.

(** Nodes that end the path. *)
Lemma ends_arp tx : triple always (arp_next tx) (edge_ok always []).
Proof.
  tr_go.
Qed.
Lemma ends_nd en tx : triple always (ipv6_nd_process_next en tx) (edge_ok always []).
Proof.
  tr_go.
Qed.
Lemma ends_dhcp `{LibcNet} conf tx : triple always (dhcp_next conf tx) (edge_ok always []).
Proof.
  tr_go.
Qed.
Lemma ends_dhcpv6 `{LibcNet} `{RtePktTail} conf tx : triple always (dhcpv6_next conf tx) (edge_ok always []).
Proof.
  tr_go.
Qed.
Lemma ends_virtsvc ul perc tx t0 t : triple always (virtsvc_next ul perc tx t0 t) (edge_ok always []).
Proof.
  tr_go.
Qed.
End nr_facts.

(** ** Facts: classification and the tunnel *)

Section cls_facts.
Context `{HH : RteHash} `{HM : RteMalloc}.

(** The destination of the tunnel. *)
Definition outer_dst (m : rte_mbuf) : Z := mget m 16 (sizeof_ether_hdr + ip6_dst).

(** A packet with a new private area, whose tunnel goes to [ul]. *)
Definition freshM (ul : Z) (m : rte_mbuf) : Prop :=
  outer_dst m = ul ∧ no_recirc (mb_flow m) ∧ df_vnf_type (mb_flow m) = DP_VNF_TYPE_UNDEFINED.
Definition freshV (ul : Z) (s : vpkt_state) : Prop := freshM ul s.2.

Definition cls_post (ul : Z) (e : dp_edge) (s : vpkt_state) : Prop :=
  is_next (next_nodes node_cls) e = true
  ∧ (e = EDGE_NODE node_ipip_decap → no_recirc (mb_flow s.2) ∧ df_ul_dst_addr6 (mb_flow s.2) = ul)
  ∧ (e = EDGE_NODE node_conntrack →
     no_recirc (mb_flow s.2) ∧ df_vnf_type (mb_flow s.2) = DP_VNF_TYPE_UNDEFINED).

Lemma fr_ld ul n off : maintains (freshM ul) (ld n off).
Proof. intros m a m' H. unfold ld. destruct (in_buf _ _ _); [|done]. by intros [= <- <-]. Qed.
Lemma fr_gets {A} ul (g : rte_mbuf → A) : maintains (freshM ul) (gets g).
Proof. by apply tr_gets. Qed.
Lemma fr_upd ul f :
  (∀ df, df_nat_type (f df) = df_nat_type df) → (∀ df, df_vnf_type (f df) = df_vnf_type df) →
  maintains (freshM ul) (upd_df f).
Proof. intros H1 H2. apply tr_modify. intros m (? & ? & ?). unfold freshM, no_recirc. cbn. by rewrite H1, H2. Qed.
Lemma fr_mbuf {A} ul (c : cmd rte_mbuf A) : maintains (freshM ul) c → maintains (freshV ul) (zoom sndL c).
Proof. by apply mt_zoom. Qed.
Lemma fr_svc {A} ul (c : cmd virtsvc_state A) : maintains (freshV ul) (zoom vsL c).
Proof. by apply mt_frame. Qed.
Lemma fr_ports {A} ul (c : cmd ports_state A) : maintains (freshV ul) (zoom vportsL c).
Proof. by apply mt_frame. Qed.

Lemma tr_extract_underlay ul :
  triple (freshM ul) (dp_extract_underlay_header sizeof_ether_hdr)
    (λ _ m, no_recirc (mb_flow m) ∧ df_ul_dst_addr6 (mb_flow m) = ul).
Proof.
  unfold dp_extract_underlay_header. apply tr_seq; [apply fr_ld|]. intros src.
  apply (tr_bind _ (λ dst m, dst = ul ∧ freshM ul m)).
  { intros m a m' H. unfold ld. destruct (in_buf _ _ _); [|done]. intros [= <- <-]. split; [apply H|done]. }
  intros dst. apply tr_fact. intros ->. apply tr_seq; [apply fr_ld|]. intros proto.
  apply tr_modify. by intros m (_ & ? & _).
Qed.

Lemma to_virtsvc_ok present (lookup : cmd vpkt_state (option nat)) ul :
  maintains (freshV ul) lookup →
  triple (freshV ul) (to_virtsvc present lookup) (ret_ok (freshV ul) [node_virtsvc]).
Proof.
  intros Hl. unfold to_virtsvc. destruct present; [|by apply tr_ret].
  apply tr_seq; [done|]. intros [i|]; [|by apply tr_ret].
  apply tr_seq; [by apply fr_mbuf, fr_upd|]. intros []. by apply tr_ret.
Qed.
End cls_facts.

Ltac tr_lift ::=
  lazymatch goal with
  | |- triple (freshV _) (zoom sndL _) _ => apply fr_mbuf
  | |- triple (freshV _) (zoom vsL _) _ => apply fr_svc
  | |- triple (freshV _) (zoom vportsL _) _ => apply fr_ports
  | |- triple (freshM _) (ld _ _) _ => apply fr_ld
  | |- triple (freshM _) (upd_df _) _ => apply fr_upd; done
  end.

Section cls_edges.
Context `{HH : RteHash} `{HM : RteMalloc}.

Lemma cls_returns present lookup ul k :
  maintains (freshV ul) lookup → triple (freshV ul) k (cls_post ul) →
  triple (freshV ul) (returns (to_virtsvc present lookup) k) (cls_post ul).
Proof.
  intros Hl Hk. unfold returns. apply (tr_bind_opt _ [node_virtsvc]); [by apply to_virtsvc_ok| |done].
  intros e He. apply tr_ret. intros s Hs. destruct e as [|n|]; [done| |done].
  apply bool_decide_eq_true, list_elem_of_singleton in He as ->. done.
Qed.

Lemma cls_conntrack ul (s : vpkt_state) : freshV ul s → cls_post ul (EDGE_NODE node_conntrack) s.
Proof. intros (_ & ? & ?). done. Qed.

Lemma cls_ipv6_pf_ok present ul : triple (freshV ul) (cls_ipv6_pf present) (cls_post ul).
Proof.
  unfold cls_ipv6_pf. cbv zeta. apply tr_seq; [tr_go|]. intros nd. destruct nd; [by apply tr_ret|].
  apply cls_returns; [tr_go|]. apply tr_seq; [tr_go|]. intros proto. apply tr_seq; [tr_go|]. intros t.
  destruct (if proto =? _ then _ else _) as [l3|].
  - apply tr_seq; [tr_go|]. intros []. apply (tr_bind _ (λ _ s, no_recirc (mb_flow s.2) ∧ df_ul_dst_addr6 (mb_flow s.2) = ul)).
    + apply tr_zoom. intros s Hs [] m E. by eapply tr_extract_underlay.
    + intros []. by apply tr_ret.
  - apply tr_seq; [tr_go|]. intros []. apply tr_ret, cls_conntrack.
Qed.

Lemma cls_ipv4_ok present port ul : triple (freshV ul) (cls_ipv4 present port) (cls_post ul).
Proof.
  unfold cls_ipv4. destruct (pt_is_pf port); [by apply tr_ret|]. apply cls_returns; [tr_go|].
  apply tr_seq; [tr_go|]. intros t. apply tr_seq; [tr_go|]. intros len. apply tr_seq; [tr_go|]. intros [].
  apply tr_ret, cls_conntrack.
Qed.
Lemma cls_ipv6_vf_ok ul : triple (freshV ul) cls_ipv6_vf (cls_post ul).
Proof.
  unfold cls_ipv6_vf. apply tr_seq; [tr_go|]. intros nd. destruct nd; [by apply tr_ret|].
  apply tr_seq; [tr_go|]. intros t. apply tr_seq; [tr_go|]. intros []. apply tr_ret, cls_conntrack.
Qed.

Lemma cls_ok present ul : triple (λ s, outer_dst s.2 = ul) (cls_next present) (cls_post ul).
Proof.
  unfold cls_next. apply tr_seq; [by apply tr_zoom; intros s Hs ? ? [= <- <-]|]. intros ptype.
  destruct (negb _); [by apply tr_ret|]. destruct (Z.land ptype _ =? 0).
  { apply (tr_bind _ (λ _ _, True)); [done|]. intros []; by apply tr_ret. }
  apply (tr_bind _ (λ _, freshV ul)). { by apply tr_zoom; intros s Hs ? ? [= <- <-]. }
  intros []. apply tr_seq; [tr_go|]. intros id. apply tr_seq; [tr_go|]. intros [p|]; [|by apply tr_ret].
  apply tr_seq; [tr_go|]. intros port. destruct (RTE_ETH_IS_IPV4_HDR _); [apply cls_ipv4_ok|].
  destruct (RTE_ETH_IS_IPV6_HDR _); [|by apply tr_ret].
  destruct (pt_is_pf port); [apply cls_ipv6_pf_ok|apply cls_ipv6_vf_ok].
Qed.
End cls_edges.

Ltac tr_lift ::= df_lift.

Section late_facts.
Context `{HH : RteHash} `{HM : RteMalloc} `{HR : RteRib} `{HN : RteNet} {HNO : RteNetOk}.

Lemma tr_node_df {A} (P : node_state → Prop) (k : dp_flow → cmd node_state A) Q :
  (∀ df, triple (λ s, P s ∧ mb_flow s.2 = df) (k df) Q) → triple P (node_df ≫= k) Q.
Proof.
  intros Hk. apply (tr_bind _ (λ df s, P s ∧ mb_flow s.2 = df)); [|done].
  apply tr_zoom. intros [d m] Hs df m' [= <- <-]. done.
Qed.

(** What [ul] leads to, if anything, is a prefix of a load balancer's target. *)
Definition alias_ul (vs : vnf_state) (ul : Z) : Prop :=
  ∀ vnf vs', dp_get_vnf ul vs = Some (Some vnf, vs') → vnf_type vnf = DP_VNF_TYPE_LB_ALIAS_PFX.
Definition aliasN (ul : Z) (s : node_state) : Prop := alias_ul (cs_vnf (da_conn s.1)) ul.

Definition not_lb (df : dp_flow) : Prop := no_recirc df ∧ df_vnf_type df ≠ DP_VNF_TYPE_LB.

(** [P] holds where the packet goes on. *)
Definition goes {S : Type} (P : S → Prop) (l : list dp_node) (e : dp_edge) (s : S) : Prop :=
  match e with EDGE_NODE n => n ∈ l ∧ P s | _ => True end.
Lemma edge_ok_goes {S} (P : S → Prop) l (c : cmd S dp_edge) (R : S → Prop) :
  triple R c (edge_ok P l) → triple R c (goes P l).
Proof.
  intros Hc. eapply tr_post; [done|]. intros [|n|] s [HP He]; [done| |done]. split; [|done].
  by apply bool_decide_eq_true in He.
Qed.

Lemma decap_alias ul :
  triple (λ s, dfN (λ df, no_recirc df ∧ df_ul_dst_addr6 df = ul) s ∧ aliasN ul s) ipip_decap_next
    (goes (dfN not_lb) [node_conntrack]).
Proof.
  unfold ipip_decap_next. apply tr_node_df. intros df.
  apply (tr_bind _ (λ r s, no_recirc (mb_flow s.2) ∧ ∀ vnf, r = Some vnf → vnf_type vnf = DP_VNF_TYPE_LB_ALIAS_PFX)).
  { apply tr_zoom. intros [d m] [[[Hn Hul] Ha] <-] r c E. cbn in *. split; [done|]. intros vnf ->.
    unfold zoom in E. destruct (dp_get_vnf _ _) as [[r' vs']|] eqn:Ev; [|done]. injection E as -> <-.
    unfold aliasN, alias_ul in Ha. eapply Ha. by rewrite <- Hul. }
  intros [vnf|]; [|by apply tr_ret].
  apply (tr_bind _ (λ _ s, no_recirc (mb_flow s.2) ∧ ∀ v, Some vnf = Some v → vnf_type v = DP_VNF_TYPE_LB_ALIAS_PFX));
    [by apply mt_frame|].
  intros [p|]; [|by apply tr_ret]. apply (tr_bind _ (λ _, dfN not_lb)).
  { apply tr_zoom. intros [d m] [Hn Ha] [] m' [= <-]. split; [done|]. cbn. by rewrite (Ha vnf). }
  intros []. apply edge_ok_goes. tr_go.
Qed.

Lemma conntrack_not_lb conf en tsc :
  triple (dfN not_lb) (conntrack_next conf en tsc) (goes NR [node_dhcpv6; node_dnat; node_firewall]).
Proof.
  apply (tr_post _ _ (edge_ok (dfN not_lb) [node_dhcpv6; node_dnat; node_firewall])).
  - unfold conntrack_next. apply tr_returns; [tr_go|]. destruct (negb en); [by apply tr_ret|].
    apply tr_seq; [tr_go|]. intros df. destruct (_ || _); [|by apply tr_ret].
    apply tr_seq; [tr_go|]. intros ret. destruct (DP_FAILED ret); [by apply tr_ret|].
    apply tr_seq; [tr_go|]. intros inp. apply tr_node_df. intros df'. apply tr_ret.
    intros s [[Hn Hv] <-]. split; [done|]. destruct (negb _); [done|]. by destruct (df_vnf_type _).
  - intros [|n|] s [[? ?] He]; [done| |done]. split; [|done]. by apply bool_decide_eq_true in He.
Qed.

(** A store that ends at the place the next one does not touch. *)
Definition holds_at (n : nat) (off v : Z) (m : rte_mbuf) : Prop := in_pkt m off n = true ∧ mget m n off = v.
Lemma tr_st_here n off v : triple always (st n off v) (λ _, holds_at n off (v mod 2 ^ (8 * Z.of_nat n))).
Proof.
  intros m a m' _ E. destruct (in_pkt m off n) eqn:Hi; [|unfold in_pkt in Hi; unfold st in E; by rewrite Hi in E].
  rewrite st_eq in E by done. injection E as <- <-. split; [by rewrite in_pkt_mset|by apply mget_mset_eq].
Qed.
Lemma tr_st_away n off v n' off' x :
  off' + Z.of_nat n' ≤ off ∨ off + Z.of_nat n ≤ off' → maintains (holds_at n' off' x) (st n off v).
Proof.
  intros Hd m a m' [Hi' <-] E.
  destruct (in_pkt m off n) eqn:Hi; [|unfold in_pkt in Hi; unfold st in E; by rewrite Hi in E].
  rewrite st_eq in E by done. injection E as <- <-. split; [by rewrite in_pkt_mset|].
  apply mget_mset_ne; [done|by eapply in_pkt_nonneg|done].
Qed.

Lemma encap_hdr_dst len src dst proto :
  is_u128 dst → triple always (encap_hdr len src dst proto) (λ _ m, outer_dst m = dst).
Proof.
  intros Hd. unfold encap_hdr. do 4 (apply (tr_bind _ (λ _, always)); [done|]; intros _).
  eapply tr_bind; [apply tr_st_here|]. intros []. cbn beta.
  eapply tr_post; [apply tr_st_away; right; done|]. intros [] m [_ Hm]. unfold outer_dst. rewrite Hm.
  by apply Z.mod_small.
Qed.

Lemma encap_goes ul t underlay_ip tx :
  (t = DP_LB_RECIRC → is_u128 ul) →
  triple (dfN (λ df, df_nat_type df = t ∧ df_ul_dst_addr6 df = ul)) (ipip_encap_next underlay_ip tx)
    (goes (λ s, t = DP_LB_RECIRC ∧ outer_dst s.2 = ul) [node_cls]).
Proof.
  intros Hul. unfold ipip_encap_next. apply tr_node_df. intros df.
  apply (tr_pre _ (λ s, (df_nat_type df = t ∧ df_ul_dst_addr6 df = ul) ∧ always s)); [|by intros s [[Ht Hu] <-]].
  apply tr_fact. intros [Ht Hu]. apply tr_seq; [done|]. intros [[[proto len] ptype]|]; [|by apply tr_ret].
  do 3 (apply tr_seq; [done|]; intros _). apply tr_seq; [done|]. intros []; [|by apply tr_ret]. cbn [negb].
  do 3 (apply tr_seq; [done|]; intros ?). apply tr_seq; [done|]. intros src.
  apply (tr_bind _ (λ _ s, t = DP_LB_RECIRC → outer_dst s.2 = ul)).
  { apply tr_zoom. intros s _ [] m E Hr. cbn. rewrite <- Hu. eapply encap_hdr_dst; [|done|exact E]. rewrite Hu. auto. }
  intros []. apply tr_seq; [by apply tr_zoom; intros s Hs [] m [= <-]|]. intros _. case_bool_decide as Hr.
  - apply tr_seq; [by apply tr_zoom; intros s Hs [] m [= <-]|]. intros _. apply tr_ret. intros s Hs.
    split; [by apply list_elem_of_singleton|]. rewrite Ht in Hr. auto.
  - eapply tr_post; [apply (tr_tx_edge _ _ _ [])|]. intros [|n|] s [_ He]; [done| |done]. apply bool_decide_eq_true in He. set_solver.
Qed.
End late_facts.

(** ** Facts: the tables of the components *)

Section ok_facts.
Context `{HH : RteHash} {HO : RteHashOk} `{HM : RteMalloc} {MO : RteMallocOk} `{HR : RteRib} `{HN : RteNet}.
Implicit Types (p : loc) (v : flow_value) (k : flow_key) (fs : flow_state) (c : conn_state).

(** Every entry of the table leads to a flow that has its key, and the addresses
    that flows hold fit their arrays. *)
Record flows_ok fs : Prop := {
  fo_live k p : flow_tbl fs !! k = Some p → ∃ v, flow_objs fs !! p = Some v ∧ has_key v k;
  fo_typed p v : flow_objs fs !! p = Some v → is_u128 (fv_nf_underlay_dst v)
}.
(** Besides, the flow [p] is entered with its original key only. *)
Definition org_only p fs : Prop :=
  ∀ k v, flow_tbl fs !! k = Some p → flow_objs fs !! p = Some v → k = fv_key_org v.

Definition neigh_ok (s : nat_state) : Prop := Forall (λ x, is_u128 (ne_dst_ipv6 x.2)) (nat_headp s).
Definition backends_ok (s : lb_state) : Prop :=
  ∀ p (lv : lb_value), objs (ot_heap (ipv4_lb_tbl s)) !! p = Some lv → Forall is_u128 (lv_back_end_ips lv).
Definition conn_ok c : Prop := flows_ok (cs_flow c) ∧ neigh_ok (cs_nat c).
Definition data_ok (d : data_state) : Prop := conn_ok (da_conn d) ∧ backends_ok (da_lb d).

Definition okP (s : pkt_state) : Prop := conn_ok s.1.
Definition okN (s : node_state) : Prop := data_ok s.1.
Definition okB (s : nat_state * ports_state) : Prop := neigh_ok s.1.

Lemma okN_mbuf {A} (m : cmd rte_mbuf A) : maintains okN (zoom sndL m).
Proof. by apply mt_frame. Qed.
Lemma okN_conn {A} (m : cmd conn_state A) : maintains conn_ok m → maintains okN (zoom connN m).
Proof. intros Hm. apply tr_zoom. intros s [Hc Hl] a t E. split; [|done]. by eapply Hm. Qed.
Lemma okN_lb {A} (m : cmd lb_state A) : maintains backends_ok m → maintains okN (zoom lbN m).
Proof. intros Hm. apply tr_zoom. intros s [Hc Hl] a t E. split; [done|]. by eapply Hm. Qed.
Lemma okN_pkt {A} (m : cmd pkt_state A) : maintains okP m → maintains okN (zoom pktN m).
Proof. intros Hm. apply tr_zoom. intros s [Hc Hl] a t E. split; [|done]. by eapply (Hm (da_conn s.1, s.2)). Qed.
Lemma okN_portsvni {A} (m : cmd (ports_state * vni_state) A) : maintains okN (zoom portsvniN m).
Proof. by apply mt_frame. Qed.
Lemma okP_mbuf {A} (m : cmd rte_mbuf A) : maintains okP (zoom sndL m).
Proof. by apply mt_frame. Qed.
Lemma okP_conn {A} (m : cmd conn_state A) : maintains conn_ok m → maintains okP (zoom fstL m).
Proof. by apply mt_zoom. Qed.
Lemma okC_ports {A} (m : cmd ports_state A) : maintains conn_ok (zoom portsL m).
Proof. by apply mt_frame. Qed.
Lemma okC_vnf {A} (m : cmd vnf_state A) : maintains conn_ok (zoom vnfL m).
Proof. by apply mt_frame. Qed.
Lemma okC_nat {A} (m : cmd nat_state A) : maintains neigh_ok m → maintains conn_ok (zoom natL m).
Proof. intros Hm. apply tr_zoom. intros s [Hf Hn] a t E. split; [done|]. by eapply Hm. Qed.
Lemma okC_natports {A} (m : cmd (nat_state * ports_state) A) : maintains okB m → maintains conn_ok (zoom natportsL m).
Proof. intros Hm. apply tr_zoom. intros s [Hf Hn] a t E. split; [done|]. by eapply (Hm (cs_nat s, cs_ports s)). Qed.
Lemma okC_flow {A} (m : cmd flow_state A) : maintains flows_ok m → maintains conn_ok (zoom flowL m).
Proof. intros Hm. apply tr_zoom. intros s [Hf Hn] a t E. split; [|done]. by eapply Hm. Qed.
Lemma okB_nat {A} (m : cmd nat_state A) : maintains neigh_ok m → maintains okB (zoom fstL m).
Proof. by apply mt_zoom. Qed.
Lemma okB_ports {A} (m : cmd ports_state A) : maintains okB (zoom sndL m).
Proof. by apply mt_frame. Qed.

(** *** Flows *)

(** The flow at [p] is [v]. *)
Definition at_ok p v c : Prop := conn_ok c ∧ flow_objs (cs_flow c) !! p = Some v.
(** [v'] can replace [v]. *)
Definition same_keys v v' : Prop :=
  fv_key_org v' = fv_key_org v ∧ fv_key_reply v' = fv_key_reply v
  ∧ (is_u128 (fv_nf_underlay_dst v) → is_u128 (fv_nf_underlay_dst v')).

Lemma flows_ok_ext fs fs' :
  flow_tbl fs' = flow_tbl fs → flow_objs fs' = flow_objs fs → flows_ok fs → flows_ok fs'.
Proof. intros Ht Ho []. split; [by rewrite Ht, Ho|by rewrite Ho]. Qed.

Lemma flows_ok_set c p v v' :
  conn_ok c → flow_objs (cs_flow c) !! p = Some v → same_keys v v' → conn_ok (set_flow c p v').
Proof.
  intros [[Hl Ht] Hn] Hp (Ho & Hr & Hu). split; [|done]. split.
  - intros k q Hk. destruct (Hl k q Hk) as (w & Hw & Hkw). unfold flow_objs. simpl.
    destruct (decide (p = q)) as [<-|]; [|exists w; by rewrite lookup_insert_ne].
    exists v'. rewrite lookup_insert_eq. assert (w = v) as -> by congruence. unfold has_key. by rewrite Ho, Hr.
  - intros q w. unfold flow_objs. simpl. intros [[<- <-]|[_ Hw]]%lookup_insert_Some; [|by eapply Ht]. by eauto.
Qed.

Lemma ok_load p : triple conn_ok (fv_load p) (λ v, at_ok p v).
Proof.
  intros c v c' Hc. unfold fv_load, zoom, hp_load. cbn. fold (flow_objs (cs_flow c)).
  destruct (flow_objs (cs_flow c) !! p) as [w|] eqn:Hp; [|done]. intros [= <- <-].
  destruct c as [[] ? ? ?]. by split.
Qed.
Lemma at_load p v : triple (at_ok p v) (fv_load p) (λ w c, w = v ∧ at_ok p v c).
Proof.
  intros c w c' [Hc Hp]. unfold fv_load, zoom, hp_load. cbn. fold (flow_objs (cs_flow c)). rewrite Hp.
  intros [= <- <-]. destruct c as [[] ? ? ?]. by split.
Qed.
Lemma fv_store_eq p v c c' :
  fv_store p v c = Some (tt, c') → is_Some (flow_objs (cs_flow c) !! p) ∧ c' = set_flow c p v.
Proof.
  unfold fv_store, zoom, hp_store. cbn. fold (flow_objs (cs_flow c)).
  destruct (flow_objs (cs_flow c) !! p) as [w|] eqn:Hp; [|done]. by intros [= <-].
Qed.
Lemma at_store p v v' : same_keys v v' → triple (at_ok p v) (fv_store p v') (λ _, at_ok p v').
Proof.
  intros Hk c [] c' [Hc Hp] [_ ->]%fv_store_eq. split; [by eapply flows_ok_set|].
  unfold flow_objs. simpl. by rewrite lookup_insert_eq.
Qed.
Lemma at_frame {A T} p v (l : lens conn_state T) (m : cmd T A) :
  (∀ t c, conn_ok c → conn_ok (lput l t c)) → (∀ t c, cs_flow (lput l t c) = cs_flow c) →
  maintains (at_ok p v) (zoom l m).
Proof. intros Hl Hf. apply tr_zoom. intros c [Hc Hp] a t E. split; [by apply Hl|by rewrite Hf]. Qed.

(** *** Keys *)

Lemma dp_delete_flow_eq key c c' :
  dp_delete_flow key c = Some (tt, c') →
  cs_nat c' = cs_nat c ∧ flow_objs (cs_flow c') = flow_objs (cs_flow c)
  ∧ flow_tbl (cs_flow c') = delete key (flow_tbl (cs_flow c)).
Proof.
  unfold dp_delete_flow, dp_delete_flow_no_flush, dp_cntrack_flush_cache, mbind, cmd_bind, zoom, modify. cbn.
  intros [= <-]. split_and!; [done|done|]. apply contents_del.
Qed.
Lemma dp_add_flow_eq key p c ret c' :
  dp_add_flow key p c = Some (ret, c') →
  cs_nat c' = cs_nat c ∧ flow_objs (cs_flow c') = flow_objs (cs_flow c)
  ∧ (DP_FAILED ret = false ∧ flow_tbl (cs_flow c') = <[key := p]> (flow_tbl (cs_flow c))
     ∨ DP_FAILED ret = true ∧ flow_tbl (cs_flow c') = flow_tbl (cs_flow c)).
Proof.
  intros E. refine (wp_elim _ (λ r c', _) _ _ _ (wp_add_flow c key p _ _ _) E); [|].
  - intros r tbl Hr Ht. split_and!; [done|done|right]. split; [by apply DP_FAILED_neg|done].
  - intros tbl Ht. split_and!; [done|done|by left].
Qed.
End ok_facts.

Ltac ok_lift :=
  lazymatch goal with
  | |- triple okN (zoom sndL _) _ => apply okN_mbuf
  | |- triple okN (zoom connN _) _ => apply okN_conn
  | |- triple okN (zoom lbN _) _ => apply okN_lb
  | |- triple okN (zoom pktN _) _ => apply okN_pkt
  | |- triple okN (zoom portsvniN _) _ => apply okN_portsvni
  | |- triple okP (zoom sndL _) _ => apply okP_mbuf
  | |- triple okP (zoom fstL _) _ => apply okP_conn
  | |- triple conn_ok (zoom portsL _) _ => apply okC_ports
  | |- triple conn_ok (zoom vnfL _) _ => apply okC_vnf
  | |- triple conn_ok (zoom natL _) _ => apply okC_nat
  | |- triple conn_ok (zoom natportsL _) _ => apply okC_natports
  | |- triple conn_ok (fv_load _) _ => eapply tr_post; [apply ok_load|by intros ? ? []]
  | |- triple conn_ok (zoom flowL _) _ => apply okC_flow
  | |- triple okB (zoom fstL _) _ => apply okB_nat
  | |- triple okB (zoom sndL _) _ => apply okB_ports
  end.
Ltac tr_lift ::= ok_lift.

Section ok_cntrack.
Context `{HH : RteHash} {HO : RteHashOk} `{HM : RteMalloc} {MO : RteMallocOk} `{HR : RteRib} `{HN : RteNet}.
Implicit Types (p : loc) (v : flow_value) (k : flow_key) (fs : flow_state) (c : conn_state).
Variable conf : cntrack_conf.

Definition atP p v (s : pkt_state) : Prop := at_ok p v s.1.

Lemma okP_load p : triple okP (zoom fstL (fv_load p)) (λ v, atP p v).
Proof. apply tr_zoom. intros s Hs v c E. by eapply (ok_load p _ v c). Qed.
Lemma atP_mbuf {A} p v (m : cmd rte_mbuf A) : maintains (atP p v) (zoom sndL m).
Proof. by apply mt_frame. Qed.
Lemma atP_ports {A} p v (m : cmd ports_state A) : maintains (atP p v) (zoom fstL (zoom portsL m)).
Proof. apply tr_zoom. intros s Hs a c E. refine (at_frame p v portsL m _ _ _ a c Hs E); done. Qed.
Lemma atP_store p v v' : same_keys v v' → triple (atP p v) (zoom fstL (fv_store p v')) (λ _, okP).
Proof. intros Hk. apply tr_zoom. intros s Hs [] c E. by eapply (at_store p v v' Hk _ tt c). Qed.
Lemma atP_okP {A} p v (m : cmd pkt_state A) Q : triple okP m Q → triple (atP p v) m Q.
Proof. intros Hm. eapply tr_pre; [done|]. by intros s []. Qed.

Lemma ok_change_offload p : maintains okP (dp_cntrack_change_flow_offload_flags conf p).
Proof.
  unfold dp_cntrack_change_flow_offload_flags. apply tr_seq; [tr_go|]. intros portp.
  destruct (negb _); [by apply tr_ret|]. apply tr_seq; [tr_go|]. intros port.
  eapply tr_bind; [apply okP_load|]. intros v. cbn beta. apply tr_seq; [apply atP_ports|]. intros pf0.
  apply tr_seq; [apply atP_mbuf|]. intros df. destruct (df_flow_dir df); by apply atP_store.
Qed.
Lemma ok_set_timeout p : maintains okP (dp_cntrack_set_timeout_tcp_flow conf p).
Proof.
  unfold dp_cntrack_set_timeout_tcp_flow. eapply tr_bind; [apply okP_load|]. intros v. cbn beta.
  destruct (bool_decide _); (eapply tr_bind; [by apply atP_store|]; intros []; cbn beta);
    [apply ok_change_offload|]. destruct (_ || _); [apply ok_change_offload|by apply tr_ret].
Qed.

Lemma ok_fields c c' :
  cs_nat c' = cs_nat c → conn_ok c → flows_ok (cs_flow c') → conn_ok c'.
Proof. intros Hn [_ ?] Hf. split; [done|]. by rewrite Hn. Qed.

(** A new flow [p] whose value is [v] and which is entered under keys in [ks]. *)
Definition new_at p v (ks : list flow_key) (s : pkt_state) : Prop :=
  at_ok p v s.1 ∧ ∀ k, flow_tbl (cs_flow s.1) !! k = Some p → k ∈ ks.

Lemma new_mbuf {A} p v ks (m : cmd rte_mbuf A) : maintains (new_at p v ks) (zoom sndL m).
Proof. by apply mt_frame. Qed.
Lemma new_frame {A T} p v ks (l : lens conn_state T) (m : cmd T A) :
  (∀ t c, conn_ok c → conn_ok (lput l t c)) → (∀ t c, cs_flow (lput l t c) = cs_flow c) →
  maintains (new_at p v ks) (zoom fstL (zoom l m)).
Proof.
  intros Hl Hf. apply tr_zoom. intros s [Hs Hk] a c E. split.
  - by refine (at_frame p v l m _ _ _ a c Hs E).
  - unfold zoom in E. destruct (m _) as [[b t]|]; [|done]. injection E as <- <-. cbn. by rewrite Hf.
Qed.
Lemma new_malloc :
  triple okP (zoom fstL (zoom flowL (zoom valsL (hp_malloc zero_flow_value))))
    (λ r s, okP s ∧ match r with Some p => new_at p zero_flow_value [] s | None => True end).
Proof.
  intros s r s' [[Hl Ht] Hn] E.
  refine (wp_elim _ (λ r s', _) _ _ _ (_ : wp _ _ s) E). do 3 apply wp_zoom. apply wp_hp_malloc; cbn.
  - intros st. split; [|done]. split; [|done]. by apply (flows_ok_ext (cs_flow s.1)).
  - intros p st Hp. lazymatch goal with |- okP (?c, _) ∧ _ => assert (Hc : conn_ok c) end.
    { split; [|done]. split; cbn.
      - intros k q Hk. destruct (Hl k q Hk) as (w & Hw & Hkw). exists w. unfold flow_objs. cbn.
        rewrite lookup_insert_ne; [done|]. intros <-. unfold flow_objs in Hw. congruence.
      - intros q w. unfold flow_objs. cbn. intros [[<- <-]|[_ Hw]]%lookup_insert_Some; [done|by eapply Ht]. }
    split; [done|]. split; [split; [done|]; unfold flow_objs; cbn; by rewrite lookup_insert_eq|].
    intros k Hk. destruct (Hl k p Hk) as (w & Hw & _). unfold flow_objs in Hw. congruence.
Qed.
Lemma new_store p v v' ks :
  (∀ k, k ∈ ks → has_key v' k) → is_u128 (fv_nf_underlay_dst v') →
  triple (new_at p v ks) (zoom fstL (fv_store p v')) (λ _, new_at p v' ks).
Proof.
  intros Hks Hu. apply tr_zoom. intros s [[[[Hl Ht] Hn] Hp] Hk] [] c [_ ->]%fv_store_eq.
  split; [|done]. split; [|unfold flow_objs; cbn; by rewrite lookup_insert_eq]. split; [|done]. split; cbn.
  - intros k q Hkq. unfold flow_objs. cbn. destruct (decide (p = q)) as [<-|].
    + exists v'. rewrite lookup_insert_eq. auto.
    + rewrite lookup_insert_ne by done. by apply Hl.
  - intros q w. unfold flow_objs. cbn. intros [[<- <-]|[_ Hw]]%lookup_insert_Some; [done|by eapply Ht].
Qed.
Lemma new_add p v ks key :
  has_key v key →
  triple (new_at p v ks) (zoom fstL (dp_add_flow key p))
    (λ ret, new_at p v (if DP_FAILED ret then ks else key :: ks)).
Proof.
  intros Hv. apply tr_zoom. intros s [[[[Hl Ht] Hn] Hp] Hk] ret c (En & Eo & Etbl)%dp_add_flow_eq. unfold new_at, at_ok. cbn.
  assert (Hc : conn_ok c).
  { split; [|by rewrite En]. split; rewrite Eo; [|done]. destruct Etbl as [[_ ->]|[_ ->]]; [|done].
    intros k q [[<- <-]|[_ Hq]]%lookup_insert_Some; [eauto|by apply Hl]. }
  split; [by rewrite Eo|]. intros k. destruct Etbl as [[-> ->]|[-> ->]]; [|by auto].
  intros [[<- _]|[_ Hq]]%lookup_insert_Some; [by left|right; auto].
Qed.
Lemma new_delete p v key :
  triple (new_at p v [key]) (zoom fstL (dp_delete_flow key)) (λ _, new_at p v []).
Proof.
  apply tr_zoom. intros s [[[[Hl Ht] Hn] Hp] Hk] [] c (En & Eo & Et)%dp_delete_flow_eq. unfold new_at, at_ok. cbn.
  rewrite Eo, Et. split.
  - split; [|done]. split; [|by rewrite En]. split; rewrite Eo, ?Et; [|done].
    intros k q [_ Hq]%lookup_delete_Some. by apply Hl.
  - intros k [Hne Hq]%lookup_delete_Some. apply Hk, list_elem_of_singleton in Hq. done.
Qed.
Lemma new_free p v : triple (new_at p v []) (zoom fstL (fv_free p)) (λ _, okP).
Proof.
  apply tr_zoom. intros s [[[[Hl Ht] Hn] Hp] Hk] [] c. unfold fv_free, zoom, hp_free. cbn.
  fold (flow_objs (cs_flow s.1)). rewrite Hp. intros [= <-]. split; [|done]. split; cbn.
  - intros k q Hq. destruct (Hl k q Hq) as (w & Hw & Hkw). exists w. unfold flow_objs. cbn.
    rewrite lookup_delete_ne; [done|]. intros <-. by apply Hk, not_elem_of_nil in Hq.
  - intros q w. unfold flow_objs. cbn. intros [_ Hw]%lookup_delete_Some. by eapply Ht.
Qed.
Lemma new_ok p v ks s : new_at p v ks s → okP s.
Proof. by intros [[? _] _]. Qed.

Lemma new_value p ks key df port :
  triple (new_at p zero_flow_value ks) (zoom fstL (new_flow_value conf key df port))
    (λ v s, (fv_key_org v = key ∧ is_u128 (fv_nf_underlay_dst v)) ∧ new_at p zero_flow_value ks s).
Proof.
  assert (Hinit : ∀ v, fv_key_org v = key ∧ is_u128 (fv_nf_underlay_dst v) →
    let v' := dp_cntrack_init_flow_offload_flags conf df v in
    fv_key_org v' = key ∧ is_u128 (fv_nf_underlay_dst v')).
  { intros v Hv. unfold dp_cntrack_init_flow_offload_flags. by destruct (negb _). }
  apply tr_zoom. intros s Hs v c E. unfold new_flow_value, mbind, cmd_bind in E.
  destruct (cc_offload_mode_enabled conf && negb (pt_is_pf port) && negb (is_v6 (fk_l3_dst key))).
  - destruct (zoom vnfL _ _) as [[b c1]|] eqn:Ev; [|done]. injection E as <- <-. split; [by apply Hinit|].
    refine (new_frame p zero_flow_value ks vnfL _ _ _ s b _ Hs _); [done|done|].
    unfold zoom at 1. cbn beta. unfold zoom in Ev |- *. cbn [lget fstL] in *. by rewrite Ev.
  - injection E as <- <-. split; [by apply Hinit|by destruct s].
Qed.

Lemma ok_insert_entry key portp : maintains okP (flow_table_insert_entry conf key portp).
Proof.
  unfold flow_table_insert_entry. eapply tr_bind; [apply new_malloc|]. intros [p|]; cbn beta match; [|by apply tr_ret; intros s []].
  apply (tr_pre _ (new_at p zero_flow_value [])); [|by intros s []].
  apply tr_seq. { unfold deref_port. destruct portp; [by apply new_frame|apply tr_zoom; intros; done]. }
  intros port. apply tr_seq; [apply new_mbuf|]. intros df. eapply tr_bind; [apply new_value|]. intros v. cbn beta.
  apply tr_fact. intros [Ho Hu]. eapply tr_bind; [apply new_store; [by intros k ?%not_elem_of_nil|done]|]. intros []. cbn beta.
  apply tr_seq; [apply new_mbuf|]. intros []. eapply tr_bind; [apply new_add; by left|]. intros ret. cbn beta.
  destruct (DP_FAILED ret); cbn match.
  { eapply tr_bind; [apply new_free|]. intros []. by apply tr_ret. }
  apply tr_seq; [apply tr_zoom; intros s Hs h c [= <- <-]; by destruct s as [[] ?]|]. intros hash.
  apply tr_seq; [apply new_mbuf|]. intros [].
  eapply tr_bind; [apply new_store; [intros k ->%list_elem_of_singleton; by left|done]|]. intros []. cbn beta.
  eapply tr_bind; [apply new_add; by right|]. intros ret'. cbn beta. destruct (DP_FAILED ret'); cbn match.
  - eapply tr_bind; [apply new_delete|]. intros []. cbn beta. eapply tr_bind; [apply new_free|]. intros []. by apply tr_ret.
  - apply tr_ret. apply new_ok.
Qed.

Lemma ok_cache {A} (m : cmd flow_cache A) : maintains flows_ok (zoom cacheL m).
Proof. apply tr_zoom. intros fs Hf a t E. by apply (flows_ok_ext fs). Qed.
Lemma ok_snat {A} (m : cmd (otable nat_key snat_data) A) : maintains neigh_ok (zoom snatT m).
Proof. by apply mt_frame. Qed.
Lemma ok_dnat {A} (m : cmd (otable nat_key dnat_data) A) : maintains neigh_ok (zoom dnatT m).
Proof. by apply mt_frame. Qed.
Lemma ok_portmap {A} (m : cmd (otable netnat_portmap_key netnat_portmap_data) A) : maintains neigh_ok (zoom portmapT m).
Proof. by apply mt_frame. Qed.
Lemma ok_modify_nat f : (∀ s, nat_headp (f s) = nat_headp s) → maintains neigh_ok (modify f).
Proof. intros Hf. apply tr_modify. intros s. unfold neigh_ok. by rewrite Hf. Qed.
Lemma ok_load_store {A} p (g : flow_value → flow_value) (k : cmd pkt_state A) (Q : A → pkt_state → Prop) :
  (∀ v, same_keys v (g v)) → triple okP k Q →
  triple okP (v ← zoom fstL (fv_load p); zoom fstL (fv_store p (g v));; k) Q.
Proof.
  intros Hg Hk. eapply tr_bind; [apply okP_load|]. intros v. cbn beta.
  eapply tr_bind; [by apply atP_store|]. intros []. done.
Qed.
End ok_cntrack.

Ltac ok_lift2 :=
  first [ok_lift | lazymatch goal with
  | |- triple okP (dp_cntrack_change_flow_offload_flags _ _) _ => apply ok_change_offload
  | |- triple okP (dp_cntrack_set_timeout_tcp_flow _ _) _ => apply ok_set_timeout
  | |- triple okP (flow_table_insert_entry _ _ _) _ => apply ok_insert_entry
  | |- triple flows_ok (zoom cacheL _) _ => apply ok_cache
  | |- triple neigh_ok (zoom snatT _) _ => apply ok_snat
  | |- triple neigh_ok (zoom dnatT _) _ => apply ok_dnat
  | |- triple neigh_ok (zoom portmapT _) _ => apply ok_portmap
  | |- triple neigh_ok (modify _) _ => apply ok_modify_nat; done
  end].
Ltac tr_lift ::= ok_lift2.

Section ok_handle.
Context `{HH : RteHash} {HO : RteHashOk} `{HM : RteMalloc} {MO : RteMallocOk} `{HR : RteRib} `{HN : RteNet}.
Variable conf : cntrack_conf.

Lemma ok_get_flow_val : maintains okP (dp_get_flow_val conf).
Proof.
  tr_go.
Qed.
Lemma ok_cntrack_handle tsc : maintains okP (dp_cntrack_handle conf tsc).
Proof.
  unfold dp_cntrack_handle. apply tr_seq; [apply ok_get_flow_val|]. intros r. destruct (DP_FAILED r.1); [by apply tr_ret|].
  destruct r.2 as [p|]; [|apply tr_fault]. apply (ok_load_store p (λ v, v <| fv_timestamp := tsc |>)); [done|].
  apply tr_seq; [tr_go|]. intros df. apply tr_seq.
  { destruct (_ && _); [|by apply tr_ret]. cbv zeta. unfold maintains.
    lazymatch goal with |- triple _ (match ?x with _ => _ end) _ => destruct x as [hdr|]; [|by apply tr_ret] end.
    apply tr_seq; [tr_go|]. intros flags.
    apply (ok_load_store p (λ v, v <| fv_tcp_state := dp_cntrack_tcp_state (fv_tcp_state v) flags |>)); [done|]. tr_go. }
  intros ret. tr_go.
Qed.
End ok_handle.

(** *** The flow of the packet in a node *)

Section ok_nodes.
Context `{HH : RteHash} {HO : RteHashOk} `{HM : RteMalloc} {MO : RteMallocOk} `{HR : RteRib} `{HN : RteNet}.
Implicit Types (p : loc) (v : flow_value).

Definition atN p v (s : node_state) : Prop := okN s ∧ flow_objs (cs_flow (da_conn s.1)) !! p = Some v.
Definition orgN p (s : node_state) : Prop := okN s ∧ org_only p (cs_flow (da_conn s.1)).

Lemma okN_load p : triple okN (fv_of p) (λ v, atN p v).
Proof.
  apply tr_zoom. intros s [Hc Hb] v c E. destruct (ok_load p _ v c Hc E) as [Hc' Hp]. split; [by split|done].
Qed.
Lemma ok_fv_of p : maintains okN (fv_of p).
Proof. eapply tr_post; [apply okN_load|]. by intros v s []. Qed.
Lemma ok_upd_fv p f : (∀ v, same_keys v (f v)) → maintains okN (upd_fv p f).
Proof.
  intros Hf. unfold upd_fv. eapply tr_bind; [apply okN_load|]. intros v. cbn beta. apply tr_zoom.
  intros s [[Hc Hb] Hp] [] c [_ ->]%fv_store_eq. split; [|done]. by eapply flows_ok_set.
Qed.
Lemma ok_del_reply p : triple okN (del_reply_key p) (λ _, orgN p).
Proof.
  unfold del_reply_key. eapply tr_bind; [apply okN_load|]. intros v. cbn beta. apply tr_zoom.
  intros s [[[[Hl Ht] Hn] Hb] Hp] [] c (En & Eo & Et)%dp_delete_flow_eq. split.
  - split; [|done]. split; cbn; [|by rewrite En]. split; rewrite Eo, ?Et; [|done].
    intros k q [_ Hq]%lookup_delete_Some. by apply Hl.
  - intros k w. cbn. rewrite Eo, Et. intros [Hne Hk]%lookup_delete_Some Hw.
    cbn in *. destruct (Hl k p Hk) as (w' & Hw' & [->| ->]); by simplify_eq.
Qed.
Lemma org_mbuf {A} p (m : cmd rte_mbuf A) : maintains (orgN p) (zoom sndL m).
Proof. by apply mt_frame. Qed.
Lemma org_load p : triple (orgN p) (fv_of p) (λ v s, orgN p s ∧ flow_objs (cs_flow (da_conn s.1)) !! p = Some v).
Proof.
  apply tr_zoom. intros s [[Hc Hb] Ho] v c. unfold fv_load, zoom, hp_load. cbn. fold (flow_objs (cs_flow (da_conn s.1))).
  destruct (flow_objs (cs_flow (da_conn s.1)) !! p) as [w|] eqn:Hp; [|done]. intros [= <- <-].
  destruct s as [[[[] ? ? ?] ? ?] ?]. done.
Qed.
Lemma org_upd p f :
  (∀ v, fv_key_org (f v) = fv_key_org v) → (∀ v, fv_nf_underlay_dst (f v) = fv_nf_underlay_dst v) →
  maintains (orgN p) (upd_fv p f).
Proof.
  intros Hf Hu. unfold upd_fv. eapply tr_bind; [apply org_load|]. intros v. cbn beta. apply tr_zoom.
  intros s [[[[[Hl Ht] Hn] Hb] Ho] Hp] [] c [_ ->]%fv_store_eq. split.
  - split; [|done]. split; [|done]. split; cbn.
    + intros k q Hq. unfold flow_objs. cbn. destruct (decide (p = q)) as [<-|].
      * exists (f v). rewrite lookup_insert_eq. split; [done|]. left. rewrite Hf. by eapply Ho.
      * rewrite lookup_insert_ne by done. by apply Hl.
    + intros q w. unfold flow_objs. cbn. intros [[<- <-]|[_ Hw]]%lookup_insert_Some; [rewrite Hu|]; by eapply Ht.
  - intros k w. unfold flow_objs. cbn. rewrite lookup_insert_eq. intros Hk [= <-]. rewrite Hf. by eapply Ho.
Qed.
Lemma org_add p : triple (orgN p) (add_reply_key p) (λ _, okN).
Proof.
  unfold add_reply_key. eapply tr_bind; [apply org_load|]. intros v. cbn beta. apply tr_zoom.
  intros s [[[[[Hl Ht] Hn] Hb] Ho] Hp] ret c (En & Eo & Et)%dp_add_flow_eq. split; [|done].
  split; cbn; [|by rewrite En]. split; rewrite Eo; [|done]. destruct Et as [[_ ->]|[_ ->]]; [|done].
  intros k q [[<- <-]|[_ Hq]]%lookup_insert_Some; [|by apply Hl]. exists v. split; [done|by right].
Qed.
Lemma org_ok p s : orgN p s → okN s.
Proof. by intros []. Qed.
End ok_nodes.

Ltac ok_lift3 :=
  first [ok_lift2 | lazymatch goal with
  | |- triple okP (dp_cntrack_handle _ _) _ => apply ok_cntrack_handle
  | |- triple okN (fv_of _) _ => apply ok_fv_of
  | |- triple okN (upd_fv _ _) _ => apply ok_upd_fv; done
  | |- triple (orgN _) (zoom sndL _) _ => apply org_mbuf
  | |- triple (orgN _) (upd_reply_key _ _) _ => apply org_upd; done
  end].
Ltac tr_lift ::= first [df_lift | ok_lift3].

Section ok_next.
Context `{HH : RteHash} {HO : RteHashOk} `{HM : RteMalloc} {MO : RteMallocOk} `{HR : RteRib} `{HN : RteNet} {HNO : RteNetOk}.
Implicit Types (p : loc) (v : flow_value).

Lemma mt_and {S A} (P P' : S → Prop) (c : cmd S A) :
  maintains P c → maintains P' c → maintains (λ s, P s ∧ P' s) c.
Proof. apply tr_and. Qed.

(** *** Destination NAT *)

Lemma ok_dnat_vip p ip : maintains okN (dnat_vip p ip).
Proof.
  unfold dnat_vip. do 3 (apply tr_seq; [tr_go|]; intros []). eapply tr_bind; [apply ok_del_reply|]. intros []. cbn beta.
  apply tr_seq; [tr_go|]. intros dst. apply tr_seq; [tr_go|]. intros [].
  eapply tr_bind; [apply org_add|]. intros ret. by apply tr_ret.
Qed.

Lemma ok_neigh_underlay df :
  triple okN (zoom connN (zoom natL (gets (dp_lookup_network_nat_underlay_ip df))))
    (λ r s, (∀ u, r = Some u → is_u128 u) ∧ okN s).
Proof.
  apply tr_zoom. intros s [[Hf Hn] Hb] r c [= <- <-]. split; [|by destruct s as [[[]] ?]].
  unfold dp_lookup_network_nat_underlay_ip. intros u. rewrite fmap_Some. intros ([i [q e]] & Hx & ->).
  apply list_find_Some in Hx as (Hi & _). unfold neigh_ok in Hn. rewrite Forall_forall in Hn.
  apply (Hn (q, e)). by eapply list_elem_of_lookup_2.
Qed.
Lemma ok_dnat_network p df : maintains okN (dnat_network p df).
Proof.
  unfold dnat_network. destruct (_ && _); [tr_go|]. eapply tr_bind; [apply ok_neigh_underlay|].
  intros r. apply tr_fact. intros Hu. destruct r as [u|]; [|by apply tr_ret]. specialize (Hu u eq_refl).
  apply tr_seq; [tr_go|]. intros []. apply tr_seq; [tr_go|]. intros [].
  apply tr_seq; [by apply ok_upd_fv|]. intros []. eapply tr_bind; [apply ok_del_reply|]. intros []. apply tr_ret, org_ok.
Qed.
Lemma ok_dnat_next : maintains okN dnat_next.
Proof.
  unfold dnat_next. apply tr_seq; [tr_go|]. intros df. destruct (df_conntrack df) as [p|]; [|tr_go].
  apply tr_seq; [tr_go|]. intros v. destruct (_ && _); [|tr_go]. unfold dnat_new_flow.
  apply tr_seq; [tr_go|]. intros df'. apply tr_seq; [tr_go|]. intros vni. apply tr_seq; [tr_go|].
  intros [q|]; [|by apply tr_ret]. apply tr_seq; [tr_go|]. intros d.
  destruct (_ =? 0); [apply ok_dnat_network|apply ok_dnat_vip].
Qed.

(** *** Source NAT *)

Lemma ok_ipv4_snat tsc p i port snat data : maintains okN (dp_process_ipv4_snat tsc p i port snat data).
Proof.
  unfold dp_process_ipv4_snat. apply tr_seq; [tr_go|]. intros []. apply tr_seq; [tr_go|]. intros ok.
  destruct (negb ok); [by apply tr_ret|]. do 2 (apply tr_seq; [tr_go|]; intros []).
  eapply tr_bind; [apply ok_del_reply|]. intros []. cbn beta. apply tr_seq; [tr_go|]. intros src.
  apply tr_seq; [tr_go|]. intros []. apply tr_seq; [tr_go|]. intros df.
  apply tr_seq; [destruct (negb _); [tr_go|by apply tr_ret]|]. intros [].
  eapply tr_bind; [apply org_add|]. intros ret. by apply tr_ret.
Qed.

Definition no_icmp (df : dp_flow) : Prop := df_l4_type df ≠ IPPROTO_ICMP ∧ df_l4_type df ≠ IPPROTO_ICMPV6.
Definition ok64 (s : node_state) : Prop := okN s ∧ dfN no_icmp s.

Lemma no_icmp_l4 : maintains (dfM no_icmp) chg_l4_for_ipv4.
Proof.
  unfold chg_l4_for_ipv4. apply (tr_bind _ (λ df m, no_icmp df ∧ dfM no_icmp m)); [by apply tr_gets|].
  intros df. apply tr_fact. intros [Hi Hi6]. cbv zeta. rewrite (proj2 (Z.eqb_neq _ IPPROTO_ICMPV6)) by done. tr_go.
Qed.
Lemma no_icmp_hdr ip : maintains (dfM no_icmp) (dp_nat_chg_ipv6_to_ipv4_hdr ip).
Proof.
  unfold dp_nat_chg_ipv6_to_ipv4_hdr. apply tr_seq; [tr_go|]. intros r. destruct (negb _); [by apply tr_ret|].
  apply tr_seq; [apply no_icmp_l4|]. intros ret. by apply tr_ret.
Qed.

Lemma ok64_okN {A} (c : cmd node_state A) Q : triple okN c Q → triple ok64 c Q.
Proof. intros Hc. eapply tr_pre; [done|]. by intros s []. Qed.

Lemma ok_nat64_finish p port nat_port dst : triple ok64 (nat64_finish p port nat_port dst) (λ _, okN).
Proof.
  unfold nat64_finish. apply tr_node_df. intros df.
  apply (tr_pre _ (λ s, no_icmp df ∧ okN s)); [|by intros s [[? Hd] <-]]. apply tr_fact. intros [Hi _].
  rewrite (proj2 (Z.eqb_neq _ _) Hi). do 3 (apply tr_seq; [tr_go|]; intros []).
  eapply tr_bind; [apply ok_del_reply|]. intros []. cbn beta. apply tr_seq; [tr_go|]. intros [].
  eapply tr_bind; [apply org_add|]. intros ret. by apply tr_ret.
Qed.
Lemma ok_nat64 tsc p i port : triple ok64 (dp_process_ipv6_nat64 tsc p i port) (λ _, okN).
Proof.
  unfold dp_process_ipv6_nat64. cbv zeta. do 2 (apply tr_seq; [apply mt_and; tr_go|]; intros ?).
  destruct (DP_FAILED _); [by apply tr_ret; intros s []|]. do 2 (apply tr_seq; [apply mt_and; tr_go|]; intros ?).
  apply tr_seq; [apply mt_and; [tr_go|apply dfN_mbuf, no_icmp_hdr]|]. intros r.
  destruct (DP_FAILED r.1); [|apply ok_nat64_finish]. apply ok64_okN. tr_go.
Qed.

(** What may break the table: a packet of ICMPv6 whose flow is new. *)
Definition no_icmp6 (df : dp_flow) : Prop := df_l3_type df = RTE_ETHER_TYPE_IPV6 → no_icmp df.
Definition ok6 (s : node_state) : Prop := okN s ∧ dfN no_icmp6 s.
Lemma ok6_okN {A} (c : cmd node_state A) Q : triple okN c Q → triple ok6 c Q.
Proof. intros Hc. eapply tr_pre; [done|]. by intros s []. Qed.

Lemma ok_snat_new tsc p i port : triple ok6 (snat_new_flow tsc p i port) (λ _, okN).
Proof.
  unfold snat_new_flow. do 2 (apply tr_seq; [apply mt_and; tr_go|]; intros ?). apply tr_seq.
  { destruct a0 as [snat|]; [|by apply tr_ret]. apply tr_seq; [apply mt_and; tr_go|]. intros data.
    destruct (_ && _); [|by apply tr_ret]. apply mt_and; [apply ok_ipv4_snat|tr_go]. }
  intros ret. destruct (DP_FAILED ret); [by apply tr_ret; intros s []|]. apply tr_node_df. intros df.
  destruct (df_l3_type df =? RTE_ETHER_TYPE_IPV6) eqn:H6; [|by apply tr_ret; intros s [[] _]]. zbool.
  destruct (_ && _); [|by apply tr_ret; intros s [[] _]].
  apply (tr_pre _ ok64); [|intros s [[Ho Hd] <-]; split; [done|by apply Hd]].
  eapply tr_bind; [apply ok_nat64|]. intros r. by apply tr_ret.
Qed.
Lemma ok_snat_next tsc red : triple ok6 (snat_next tsc red) (λ _, okN).
Proof.
  unfold snat_next. apply tr_seq; [apply mt_and; tr_go|]. intros df. apply tr_seq; [apply mt_and; tr_go|]. intros [i port].
  destruct (_ && _); [by apply tr_ret; intros s []|]. destruct (df_conntrack df) as [p|]; [|by apply tr_ret; intros s []].
  apply tr_seq; [apply mt_and; tr_go|]. intros v. unfold returns at 1. apply (tr_bind _ (λ _, okN)).
  { destruct (_ && _); [apply ok_snat_new|by apply tr_ret; intros s []]. }
  intros r. tr_go.
Qed.

(** *** Load balancing *)

Lemma bk_lookup k : maintains backends_ok (zoom lbT (ot_lookup k)).
Proof. apply tr_zoom. by intros [] Hb r t [= <- <-]. Qed.
Lemma bk_load q :
  triple backends_ok (zoom lbT (ot_load q))
    (λ lv s, objs (ot_heap (ipv4_lb_tbl s)) !! q = Some lv ∧ backends_ok s).
Proof.
  apply tr_zoom. intros [t i] Hb lv t'. unfold ot_load. cbn. destruct (objs _ !! q) eqn:E; [|done]. by intros [= <- <-].
Qed.
Lemma bk_store q lv :
  Forall is_u128 (lv_back_end_ips lv) → maintains backends_ok (zoom lbT (ot_store q lv)).
Proof.
  intros Hlv. apply tr_zoom. intros [t i] Hb [] t'. unfold ot_store. cbn. destruct (objs _ !! q); [|done].
  intros [= <-] q' lv'. cbn. intros [[_ <-]|[_ ?]]%lookup_insert_Some; [done|by eapply Hb].
Qed.
Lemma bk_get_backend key vni :
  triple backends_ok (dp_lb_get_backend_ip key vni) (λ r s, (∀ ip, r = Some ip → is_u128 ip) ∧ backends_ok s).
Proof.
  unfold dp_lb_get_backend_ip. cbv zeta. apply tr_seq; [apply bk_lookup|]. intros r.
  destruct (r.1 <? 0); [by apply tr_ret|]. destruct r.2 as [q|]; [|apply tr_fault].
  eapply tr_bind; [apply bk_load|]. intros lv. cbn beta. destruct (_ <? 0); [by apply tr_ret; intros s []|].
  apply (tr_pre _ (λ s, Forall is_u128 (lv_back_end_ips lv) ∧ backends_ok s)); [|intros s [Hl Hb]; split; [by eapply Hb|done]].
  apply tr_fact. intros Hlv. apply tr_seq; [by apply bk_store|]. intros [].
  destruct (_ !! _) as [ip|] eqn:Eip; [|apply tr_fault]. apply tr_ret. intros s Hs. split; [|done].
  intros ip' [= <-]. rewrite Forall_lookup in Hlv. eauto.
Qed.
Lemma okN_backend key vni :
  triple okN (zoom lbN (dp_lb_get_backend_ip key vni)) (λ r s, (∀ ip, r = Some ip → is_u128 ip) ∧ okN s).
Proof.
  apply tr_zoom. intros s [Hc Hb] r t E. destruct (bk_get_backend key vni _ r t Hb E) as [Hr Ht]. by split.
Qed.
Lemma ok_is_lb df vni : maintains okN (zoom lbN (dp_is_ip_lb df vni)).
Proof.
  apply okN_lb. unfold dp_is_ip_lb. cbv zeta.
  assert (Hl : ∀ ip, maintains backends_ok (r ← zoom lbT (ot_lookup (MkLbKey vni ip)); mret (negb (DP_FAILED r.1)))).
  { intros ip. apply tr_seq; [apply bk_lookup|]. intros r. by apply tr_ret. }
  destruct (_ =? _); [apply Hl|]. destruct (_ =? _); [apply Hl|by apply tr_ret].
Qed.
Lemma ok_lb_new p vni : maintains okN (lb_new_flow p vni).
Proof.
  unfold lb_new_flow. apply tr_seq; [tr_go|]. intros df. destruct (lb_icmp df) as [e|]; [tr_go|].
  apply tr_seq; [tr_go|]. intros v. eapply tr_bind; [apply okN_backend|]. intros r. cbn beta.
  apply tr_fact. intros Hr. destruct r as [ip|]; [|by apply tr_ret]. specialize (Hr ip eq_refl).
  apply tr_seq; [tr_go|]. intros []. apply tr_seq; [by apply ok_upd_fv|]. intros [].
  do 2 (apply tr_seq; [tr_go|]; intros ?). apply tr_seq; [tr_go|]. intros df'.
  apply tr_seq; [|intros []; by apply tr_ret]. destruct (negb _); [|tr_go].
  apply tr_seq; [tr_go|]. intros []. eapply tr_post; [apply ok_del_reply|]. intros [] s. apply org_ok.
Qed.
Lemma ok_lb_next : maintains okN lb_process_next.
Proof.
  unfold lb_process_next. apply tr_seq; [tr_go|]. intros en. destruct en; [|by apply tr_ret].
  unfold lb_next. apply tr_seq; [tr_go|]. intros df. destruct (df_conntrack df) as [p|]; [|by apply tr_ret].
  do 2 (apply tr_seq; [tr_go|]; intros ?). apply tr_seq; [destruct (_ && _); [apply ok_is_lb|by apply tr_ret]|].
  intros is_lb. destruct is_lb; [apply ok_lb_new|]. tr_go.
Qed.

(** *** The other nodes *)

Lemma ok_conntrack conf en tsc : maintains okN (conntrack_next conf en tsc).
Proof.
  tr_go.
Qed.
Lemma ok_firewall_next tx : maintains okN (firewall_next tx).
Proof.
  tr_go.
Qed.
Lemma ok_relay_next : maintains okN packet_relay_next.
Proof.
  tr_go.
Qed.
Lemma ok_ipv4_lookup_next perc junk : maintains okN (ipv4_lookup_next perc junk).
Proof.
  tr_go.
Qed.
Lemma ok_ipv6_lookup_next junk : maintains okN (ipv6_lookup_next junk).
Proof.
  tr_go.
Qed.
Lemma ok_encap_next ul tx : maintains okN (ipip_encap_next ul tx).
Proof.
  tr_go.
Qed.
Lemma ok_decap_next : maintains okN ipip_decap_next.
Proof.
  tr_go.
Qed.
Lemma ok_arp_next tx : maintains okN (arp_next tx).
Proof.
  tr_go.
Qed.
Lemma ok_nd_next en tx : maintains okN (ipv6_nd_process_next en tx).
Proof.
  tr_go.
Qed.
Lemma ok_dhcpv6_next `{LibcNet} `{RtePktTail} conf tx : maintains okN (dhcpv6_next conf tx).
Proof.
  tr_go.
Qed.
Lemma ok_dhcp_respond `{LibcNet} conf tx i port t mode : maintains okN (dhcp_respond conf tx i port t mode).
Proof.
  tr_go.
Qed.
Lemma ok_tx_pkt (offload : cmd node_state Z) : maintains okN offload → maintains okN (tx_pkt offload).
Proof.
  intros Ho. unfold tx_pkt. apply tr_seq; [tr_go|]. intros df. destruct (df_conntrack df) as [p|]; [|by apply tr_ret].
  apply tr_seq; [tr_go|]. intros v. apply tr_seq; [tr_go|]. intros []. apply tr_seq; [tr_go|]. intros df'.
  destruct (bool_decide _); [|by apply tr_ret]. apply tr_seq; [done|]. intros ret. by apply tr_ret.
Qed.
End ok_next.

(** ** Facts: recirculation *)

Section lb_facts.
Context `{HH : RteHash} {HO : RteHashOk} `{HM : RteMalloc} {MO : RteMallocOk} `{HR : RteRib} `{HN : RteNet} {HNO : RteNetOk}.
Implicit Types (p : loc) (v : flow_value) (s : node_state).

(** A packet for the tunnel: one that leaves, or one that is recirculated to an
    address that a load balancer's target has. *)
Definition encN s : Prop :=
  NR s ∨ (is_u128 (df_ul_dst_addr6 (mb_flow s.2)) ∧ aliasN (df_ul_dst_addr6 (mb_flow s.2)) s).
Definition lb_post (e : dp_edge) s : Prop :=
  match e with
  | EDGE_NODE n => (n = node_ipip_encap ∧ encN s) ∨ (n ∈ [node_packet_relay; node_dnat] ∧ NR s)
  | _ => True
  end.

Lemma get_vnf_same ul vs r vs' : dp_get_vnf ul vs = Some (r, vs') → vs' = vs.
Proof.
  destruct vs as [h v]. unfold dp_get_vnf, ot_lookup, ot_load, gets, zoom, mbind, cmd_bind. cbn.
  destruct (DP_FAILED _); [by intros [= <- <-]|]. destruct (snd _); [|done].
  destruct (objs _ !! _); [|done]. by intros [= <- <-].
Qed.

Lemma lb_hop port_id :
  triple (λ s, NR s ∧ is_u128 (df_ul_dst_addr6 (mb_flow s.2))) (dp_lb_set_next_hop port_id) (λ _, encN).
Proof.
  unfold dp_lb_set_next_hop. apply tr_node_df. intros df.
  apply (tr_bind _ (λ r s, ((NR s ∧ is_u128 (df_ul_dst_addr6 df)) ∧ mb_flow s.2 = df)
    ∧ ∃ vs, dp_get_vnf (df_ul_dst_addr6 df) (cs_vnf (da_conn s.1)) = Some (r, vs))).
  { apply tr_zoom. intros [d m] [[Hn Hu] Hdf] r c E. cbn in *. subst df. split; [done|].
    unfold zoom in E. destruct (dp_get_vnf _ _) as [[r' vs]|] eqn:Ev; [|done]. injection E as -> <-.
    apply get_vnf_same in Ev as Hvs. cbn. exists vs. rewrite Hvs in Ev |- *. done. }
  intros r. cbv zeta.
  destruct r as [vnf|]; [case_bool_decide as Ht|]; apply tr_zoom; intros [d m] [[[Hn Hu] Hdf] (vs & Ev)] [] m' [= <-]; [|by left..].
  right. cbn in *. rewrite Hdf. split; [done|]. intros vnf' vs' Ev'. cbn in Ev'. rewrite Ev in Ev'. by simplify_eq.
Qed.

Lemma enc_conn {A} (m : cmd conn_state A) : (∀ vs, maintains (λ c, cs_vnf c = vs) m) → maintains encN (zoom connN m).
Proof.
  intros Hm. apply tr_zoom. intros s Hs a c E. assert (Hv : cs_vnf c = cs_vnf (da_conn s.1)) by (by eapply (Hm _ _ a c)).
  destruct Hs as [Hn|[Hu Ha]]; [by left|right]. split; [done|]. unfold aliasN. cbn. by rewrite Hv.
Qed.
Lemma enc_load p : maintains encN (fv_of p).
Proof. apply enc_conn. intros vs. by apply mt_frame. Qed.
Lemma enc_upd_fv p f : maintains encN (upd_fv p f).
Proof. unfold upd_fv. apply tr_seq; [apply enc_load|]. intros v. apply enc_conn. intros vs. by apply mt_frame. Qed.
Lemma enc_del p : maintains encN (del_reply_key p).
Proof.
  unfold del_reply_key. apply tr_seq; [apply enc_load|]. intros v. apply enc_conn. intros vs.
  apply tr_seq; [by apply mt_frame|]. intros []. by apply mt_frame.
Qed.
Lemma lb_target ip : is_u128 ip →
  triple NR (lb_set_target ip) (λ _ s, NR s ∧ is_u128 (df_ul_dst_addr6 (mb_flow s.2))).
Proof. intros Hip. apply tr_zoom. by intros s Hs [] m [= <-]. Qed.

Definition okNR s : Prop := okN s ∧ NR s.
Lemma lb_load p : triple okNR (fv_of p) (λ v s, is_u128 (fv_nf_underlay_dst v) ∧ okNR s).
Proof.
  eapply tr_post; [apply tr_and; [apply okN_load|tr_go]|]. intros v s [[[[[Hl Ht] Hn] Hb] Hp] Hr].
  split; [by eapply Ht|]. by split.
Qed.
Lemma lb_to_backend p port_id :
  triple (λ s, NR s ∧ is_u128 (df_ul_dst_addr6 (mb_flow s.2)))
    (dp_lb_set_next_hop port_id;;
     df ← node_df;
     (if negb (bool_decide (df_nat_type df = DP_LB_RECIRC)) then
        upd_fv p (λ v, v <| fv_nf_nat_type := DP_FLOW_LB_TYPE_FORWARD |>);; del_reply_key p
      else upd_fv p (λ v, v <| fv_nf_nat_type := DP_FLOW_LB_TYPE_RECIRC |>));;
     mret (EDGE_NODE node_ipip_encap)) lb_post.
Proof.
  eapply tr_bind; [apply lb_hop|]. intros []. cbn beta. apply tr_seq.
  { apply tr_zoom. intros [d m] Hs df m' [= <- <-]. done. }
  intros df. apply tr_seq; [|intros []; apply tr_ret; by left].
  destruct (negb _); [|apply enc_upd_fv]. apply tr_seq; [apply enc_upd_fv|]. intros []. apply enc_del.
Qed.
Lemma lb_new_goes p vni : triple okNR (lb_new_flow p vni) lb_post.
Proof.
  unfold lb_new_flow. apply tr_seq; [apply mt_and; tr_go|]. intros df. destruct (lb_icmp df) as [e|] eqn:He.
  { apply tr_seq; [apply mt_and; tr_go|]. intros []. apply tr_ret. intros s [_ Hn]. unfold lb_icmp in He.
    repeat case_match; simplify_eq; try done. right. split; [set_solver|done]. }
  apply tr_seq; [apply mt_and; tr_go|]. intros v.
  eapply tr_bind; [apply tr_and; [apply okN_backend|tr_go]|]. intros r. cbn beta.
  apply (tr_pre _ (λ s, (∀ ip, r = Some ip → is_u128 ip) ∧ NR s)); [|by intros s [[Hr _] Hn]]. apply tr_fact. intros Hr.
  destruct r as [ip|]; [|by apply tr_ret]. eapply tr_bind; [by apply lb_target, Hr|]. intros []. cbn beta.
  apply tr_seq; [unfold upd_fv; apply tr_seq; [by apply mt_frame|intros ?; by apply mt_frame]|]. intros [].
  apply tr_seq; [by apply tr_zoom; intros [] ? ? ? [= <- <-]|]. intros id. apply lb_to_backend.
Qed.
Lemma lb_goes : triple okNR lb_process_next lb_post.
Proof.
  assert (Hdnat : ∀ s, okNR s → lb_post (EDGE_NODE node_dnat) s) by (intros s [_ Hn]; right; split; [set_solver|done]).
  unfold lb_process_next. apply tr_seq; [apply mt_and; tr_go|]. intros en. destruct en; [|by apply tr_ret].
  unfold lb_next. apply tr_seq; [apply mt_and; tr_go|]. intros df. destruct (df_conntrack df) as [p|]; [|by apply tr_ret].
  apply tr_seq; [apply mt_and; tr_go|]. intros vni. eapply tr_bind; [apply lb_load|]. intros v. cbn beta. apply tr_fact. intros Hu.
  apply tr_seq; [destruct (_ && _); [apply mt_and; [apply ok_is_lb|tr_go]|by apply tr_ret]|].
  intros is_lb. destruct is_lb; [apply lb_new_goes|]. destruct (_ && _).
  - apply (tr_pre _ NR); [|by intros s []]. eapply tr_bind; [by apply lb_target|]. intros []. cbn beta.
    apply tr_seq; [by apply tr_zoom; intros [] ? ? ? [= <- <-]|]. intros id.
    eapply tr_bind; [apply lb_hop|]. intros []. apply tr_ret. by left.
  - destruct (_ && _); [|by apply tr_ret]. apply tr_seq; [apply mt_and; tr_go|]. intros [].
    apply tr_ret. intros s [_ Hn]. right. split; [set_solver|done].
Qed.
End lb_facts.

Section vnf_facts.
Context `{HH : RteHash} `{HM : RteMalloc} `{HR : RteRib} `{HN : RteNet} {HNO : RteNetOk}.
Context (vs : vnf_state).
Definition vnfC (c : conn_state) : Prop := cs_vnf c = vs.
Definition vnfP (s : pkt_state) : Prop := cs_vnf s.1 = vs.
Definition vnfN (s : node_state) : Prop := cs_vnf (da_conn s.1) = vs.

Lemma vnfN_mbuf {A} (m : cmd rte_mbuf A) : maintains vnfN (zoom sndL m).
Proof. by apply mt_frame. Qed.
Lemma vnfN_conn {A} (m : cmd conn_state A) : maintains vnfC m → maintains vnfN (zoom connN m).
Proof. by apply mt_zoom. Qed.
Lemma vnfN_pkt {A} (m : cmd pkt_state A) : maintains vnfP m → maintains vnfN (zoom pktN m).
Proof. apply mt_zoom; [done|]. by intros []. Qed.
Lemma vnfP_conn {A} (m : cmd conn_state A) : maintains vnfC m → maintains vnfP (zoom fstL m).
Proof. by apply mt_zoom. Qed.
Lemma vnfC_ports {A} (m : cmd ports_state A) : maintains vnfC (zoom portsL m).
Proof. by apply mt_frame. Qed.
End vnf_facts.

Ltac vnf_lift :=
  lazymatch goal with
  | |- triple (vnfN _) (zoom sndL _) _ => apply vnfN_mbuf
  | |- triple (vnfN _) (zoom connN _) _ => apply vnfN_conn
  | |- triple (vnfN _) (zoom pktN _) _ => apply vnfN_pkt
  | |- triple (vnfP _) (zoom fstL _) _ => apply vnfP_conn
  | |- triple (vnfC _) (zoom portsL _) _ => apply vnfC_ports
  end.
Ltac tr_lift ::= vnf_lift.

Section encap_facts.
Context `{HH : RteHash} `{HM : RteMalloc} `{HR : RteRib} `{HN : RteNet} {HNO : RteNetOk}.

Lemma vnf_encap vs ul tx : maintains (vnfN vs) (ipip_encap_next ul tx).
Proof.
  tr_go.
Qed.
Lemma encap_any underlay_ip tx :
  triple encN (ipip_encap_next underlay_ip tx) (goes (λ s, aliasN (outer_dst s.2) s) [node_cls]).
Proof.
  intros s e s' Hs E. assert (Hv : cs_vnf (da_conn s'.1) = cs_vnf (da_conn s.1)) by (by eapply (vnf_encap _ _ _ s e)).
  set (df := mb_flow s.2). assert (Hu : df_nat_type df = DP_LB_RECIRC → is_u128 (df_ul_dst_addr6 df)).
  { intros Hr. by destruct Hs as [Hn|[Hu _]]. }
  pose proof (encap_goes _ _ underlay_ip tx Hu s e s' (conj eq_refl eq_refl) E) as H.
  destruct e as [|n|]; [done| |done]. destruct H as (Hn & Hr & Hd). split; [done|]. unfold aliasN. rewrite Hv, Hd.
  destruct Hs as [Hs|[_ Hs]]; [by destruct Hs|done].
Qed.
End encap_facts.

(** ** The path ends *)

Section walk_facts.
Context `{HH : RteHash} {HO : RteHashOk} `{HM : RteMalloc} {MO : RteMallocOk} `{HR : RteRib}.
Context `{HN : RteNet} {HNO : RteNetOk} `{HL : LibcNet} `{HT : RtePktTail}.
Context (conf : graph_conf) (tsc0 tsc junk_vni : Z) (meter_red : dp_port → Z → bool) (offload : cmd node_state Z).

Abbreviation visit' := (visit conf tsc0 tsc junk_vni meter_red).
Abbreviation walk' := (walk conf tsc0 tsc junk_vni meter_red offload).

(** A predicate on the part that most nodes work on. *)
Definition onN (P : node_state → Prop) (s : packet_state) : Prop := P (gd_data s.1, s.2).

(** [k] visits from [n] are enough. *)
Definition enough (k : nat) (n : dp_node) (P : packet_state → Prop) : Prop :=
  ∀ k', (k ≤ k')%nat → triple P (walk' k' n) (λ r _, r ≠ None).

Lemma tr_nodeG {A} (P : node_state → Prop) (c : cmd node_state A) Q :
  triple P c Q → triple (onN P) (zoom nodeG c) (λ a, onN (Q a)).
Proof. intros Hc. apply tr_zoom. intros [d m] Hs a [t m'] E. by eapply Hc. Qed.

Lemma enough_step k n (P : packet_state → Prop) R :
  triple P (visit' n) R →
  (∀ n', ∃ P', (∀ s, R (EDGE_NODE n') s → P' s) ∧ ((∃ s, P' s) → enough k n' P')) →
  enough (S k) n P.
Proof.
  intros Hv Hn [|k'] Hk; [lia|]. cbn [walk]. eapply tr_bind; [done|]. intros [|n'|port_id].
  - by apply tr_ret.
  - destruct (Hn n') as (P' & HP & He). intros s r s' Hs. apply HP in Hs. by eapply He; [eauto|lia|].
  - apply (tr_bind _ (λ _ _, True)); [done|]. intros []. by apply tr_ret.
Qed.

(** The same for the nodes on [node_state], where [P'] holds for all that follow. *)
Lemma enough_goes k n l (P P' : node_state → Prop) (c : cmd node_state dp_edge) :
  visit' n = zoom nodeG c → triple P c (goes P' l) → (∀ n', n' ∈ l → enough k n' (onN P')) →
  enough (S k) n (onN P).
Proof.
  intros Hv Hc Hl. eapply enough_step; [rewrite Hv; by apply tr_nodeG|]. intros n'. exists (λ s, n' ∈ l ∧ onN P' s).
  split; [done|]. intros (s & Hn & _) k' Hk. eapply tr_pre; [by apply Hl|]. by intros s' [].
Qed.
Lemma enough_le k k' n P : (k ≤ k')%nat → enough k n P → enough k' n P.
Proof. intros Hk He k'' Hk'. apply He. lia. Qed.
Lemma enough_pre k n (P P' : packet_state → Prop) : enough k n P' → (∀ s, P s → P' s) → enough k n P.
Proof. intros He HP k' Hk. eapply tr_pre; [by apply He|done]. Qed.

(** A node without registered nodes ends the path. *)
Lemma enough_last n : next_nodes n = [] → enough 1 n always.
Proof.
  intros Hn. apply (enough_step 0 n always (λ e _, is_next [] e = true)).
  - destruct n; try discriminate Hn; unfold visit; apply tr_zoom; intros s _ e t E.
    + by eapply (ends_arp _ _ e t).
    + by eapply (ends_nd _ _ _ e t).
    + by eapply (ends_virtsvc _ _ _ _ _ _ e t).
    + by eapply (ends_dhcp _ _ _ e t).
    + by eapply (ends_dhcpv6 _ _ _ e t).
  - intros n'. exists (λ _, False). split; [|by intros []]. intros s He. apply bool_decide_eq_true in He. set_solver.
Qed.

(** *** After the load balancer *)

Lemma encap_nr underlay_ip tx : triple NR (ipip_encap_next underlay_ip tx) (goes (λ _, False) []).
Proof.
  intros s e s' Hs E. pose proof (encap_goes (df_ul_dst_addr6 (mb_flow s.2)) (df_nat_type (mb_flow s.2)) underlay_ip
    tx ltac:(done) s e s' (conj eq_refl eq_refl) E) as H. destruct e as [|n|]; [done| |done]. by destruct H as (_ & ? & _).
Qed.
Lemma walk_encap : enough 1 node_ipip_encap (onN NR).
Proof. eapply (enough_goes 0 _ []); [done|apply encap_nr|set_solver]. Qed.

Ltac walk_next :=
  intros n' Hn'; repeat (apply elem_of_cons in Hn' as [->|Hn']); [..|set_solver];
  first [done | eapply enough_le; [|done]; lia].

Lemma walk_nr k n c l :
  visit' n = zoom nodeG c → triple NR c (edge_ok NR l) → (∀ n', n' ∈ l → enough k n' (onN NR)) →
  enough (S k) n (onN NR).
Proof. intros Hv Hc Hl. eapply enough_goes; [done|by apply edge_ok_goes|done]. Qed.
Lemma walk_last n : next_nodes n = [] → enough 1 n (onN NR).
Proof. intros Hn. eapply enough_pre; [by apply enough_last|done]. Qed.

Lemma walk_firewall : enough 2 node_firewall (onN NR).
Proof. eapply walk_nr; [done|apply nr_firewall|]. pose proof walk_encap. walk_next. Qed.
Lemma walk_relay : enough 2 node_packet_relay (onN NR).
Proof. eapply walk_nr; [done|apply nr_packet_relay|]. pose proof walk_encap. walk_next. Qed.
Lemma walk_snat : enough 3 node_snat (onN NR).
Proof. eapply walk_nr; [done|apply nr_snat|]. pose proof walk_firewall. walk_next. Qed.
Lemma walk_ipv4_lookup : enough 4 node_ipv4_lookup (onN NR).
Proof.
  eapply walk_nr; [done|apply nr_ipv4_lookup|]. pose proof walk_snat. pose proof (walk_last node_dhcp eq_refl). walk_next.
Qed.
Lemma walk_ipv6_lookup : enough 4 node_ipv6_lookup (onN NR).
Proof. eapply walk_nr; [done|apply nr_ipv6_lookup|]. pose proof walk_snat. walk_next. Qed.
Lemma walk_dnat : enough 5 node_dnat (onN NR).
Proof.
  eapply walk_nr; [done|apply nr_dnat|]. pose proof walk_ipv4_lookup. pose proof walk_ipv6_lookup. pose proof walk_relay.
  walk_next.
Qed.

(** *** The second time *)

Lemma walk_conntrack_late : enough 6 node_conntrack (onN (dfN not_lb)).
Proof.
  eapply enough_goes; [done|apply conntrack_not_lb|]. pose proof walk_dnat. pose proof walk_firewall.
  pose proof (walk_last node_dhcpv6 eq_refl). walk_next.
Qed.
Lemma walk_decap_late ul :
  enough 7 node_ipip_decap (onN (λ s, dfN (λ df, no_recirc df ∧ df_ul_dst_addr6 df = ul) s ∧ aliasN ul s)).
Proof. eapply enough_goes; [done|apply decap_alias|]. pose proof walk_conntrack_late. walk_next. Qed.

(** The classification changes the private area of the packet only. *)
Lemma cls_visit ul (P : data_state → Prop) :
  (∀ d ports, P d → P (d <| da_conn := (da_conn d) <| cs_ports := ports |> |>)) →
  triple (λ s, outer_dst s.2 = ul ∧ P (gd_data s.1)) (visit' node_cls)
    (λ e s, cls_post ul e (lget vpktG s) ∧ P (gd_data s.1)).
Proof.
  intros HP. apply tr_zoom. intros s [Hul Hs] e [[vs ports] m] E. split; [|by apply HP].
  by eapply (cls_ok _ ul (lget vpktG s) e).
Qed.
Lemma walk_cls_late ul : enough 8 node_cls (onN (λ s, outer_dst s.2 = ul ∧ aliasN ul s)).
Proof.
  eapply enough_step; [apply (cls_visit ul (λ d, alias_ul (cs_vnf (da_conn d)) ul)); done|]. intros n'.
  destruct (decide (n' = node_ipip_decap)) as [->|Hd].
  { eexists. split; [|intros _; apply (walk_decap_late ul)]. by intros s [(_ & Hp & _) Ha]; destruct (Hp eq_refl). }
  destruct (decide (n' = node_conntrack)) as [->|Hc].
  { exists (onN (dfN not_lb)). split; [|intros _; eapply enough_le, walk_conntrack_late; lia].
    intros s [(_ & _ & Hp) Ha]. destruct (Hp eq_refl) as [Hn Hv]. split; [done|]. cbn in *. by rewrite Hv. }
  exists (λ s, n' ∈ next_nodes node_cls). split; [intros s [(He & _) _]; by apply bool_decide_eq_true in He|].
  intros [_ Hn]. apply (enough_pre _ _ _ always); [|done]. eapply (enough_le 1); [lia|]. apply enough_last.
  repeat (apply elem_of_cons in Hn as [->|Hn]; [done|]). set_solver.
Qed.
Lemma walk_encap_any : enough 9 node_ipip_encap (onN encN).
Proof.
  eapply enough_goes; [done|apply encap_any|]. intros n' ->%list_elem_of_singleton k Hk s r s' Hs E.
  by eapply (walk_cls_late (outer_dst s.2)).
Qed.

(** *** From the start *)

Lemma walk_lb : enough 10 node_lb (onN okNR).
Proof.
  eapply enough_step; [apply (tr_nodeG _ _ _ lb_goes)|]. intros n'.
  destruct (decide (n' = node_ipip_encap)) as [->|Hd].
  - exists (onN encN). split; [|intros _; apply walk_encap_any]. intros s [[_ ?]|[_ ?]]; [done|by left].
  - exists (λ s, n' ∈ [node_packet_relay; node_dnat] ∧ onN NR s). split; [by intros s [[-> _]|[? ?]]|].
    intros (s & Hn & _). apply (enough_pre _ _ _ (onN NR)); [|by intros ? []].
    pose proof walk_relay. pose proof walk_dnat. revert n' Hd Hn. intros n' _ Hn'.
    repeat (apply elem_of_cons in Hn' as [->|Hn']); [..|set_solver]; (eapply enough_le; [|done]; lia).
Qed.
Lemma walk_conntrack : enough 11 node_conntrack (onN okNR).
Proof.
  eapply enough_step; [apply (tr_nodeG _ _ _ (tr_and _ _ _ _ _ (ok_conntrack _ _ _) (nr_conntrack _ _ _)))|].
  intros n'. exists (λ s, n' ∈ next_nodes node_conntrack ∧ onN okNR s). split.
  { intros s (Ho & Hn & He). by apply bool_decide_eq_true in He. }
  intros (s & Hn' & _). apply (enough_pre _ _ _ (onN okNR)); [|by intros ? []].
  assert (Hnr : ∀ k n, enough k n (onN NR) → (k ≤ 10)%nat → enough 10 n (onN okNR)).
  { intros k n He Hk. eapply enough_pre; [by eapply enough_le|]. by intros ? []. }
  repeat (apply elem_of_cons in Hn' as [->|Hn']); [..|set_solver].
  - apply walk_lb.
  - eapply Hnr; [by apply walk_last|lia].
  - eapply Hnr; [apply walk_dnat|lia].
  - eapply Hnr; [apply walk_firewall|lia].
Qed.
Lemma walk_decap : enough 12 node_ipip_decap (onN okNR).
Proof.
  eapply enough_step; [apply (tr_nodeG _ _ _ (tr_and _ _ _ _ _ ok_decap_next nr_ipip_decap))|].
  intros n'. exists (λ s, n' = node_conntrack ∧ onN okNR s). split.
  { intros s (Ho & Hn & He). split; [|done]. apply bool_decide_eq_true in He. set_solver. }
  intros (s & -> & _). eapply enough_pre; [apply walk_conntrack|]. by intros ? [].
Qed.
Lemma walk_cls : enough 13 node_cls (onN okN).
Proof.
  intros [|k] Hk s r s' Hs E; [lia|]. revert E. set (ul := outer_dst s.2).
  refine ((_ : enough 13 node_cls (λ s, outer_dst s.2 = ul ∧ data_ok (gd_data s.1))) (S k) Hk s r s' (conj eq_refl Hs)).
  eapply enough_step; [apply (cls_visit ul data_ok); intros d ports H; exact H|]. intros n'.
  destruct (decide (n' = node_ipip_decap)) as [->|Hd].
  { eexists. split; [|intros _; apply walk_decap]. intros t [(_ & Hp & _) Ho]. by destruct (Hp eq_refl). }
  destruct (decide (n' = node_conntrack)) as [->|Hc].
  { exists (onN okNR). split; [|intros _; eapply enough_le, walk_conntrack; lia].
    intros t [(_ & _ & Hp) Ho]. by destruct (Hp eq_refl). }
  exists (λ t, n' ∈ next_nodes node_cls). split; [intros t [(He & _) _]; by apply bool_decide_eq_true in He|].
  intros [_ Hn]. apply (enough_pre _ _ _ always); [|done]. eapply (enough_le 1); [lia|]. apply enough_last.
  repeat (apply elem_of_cons in Hn as [->|Hn]; [done|]). set_solver.
Qed.

(** More fuel changes nothing but a path that was cut. *)
Lemma walk_more k k' n s :
  (k ≤ k')%nat → (∀ s', walk' k n s ≠ Some (None, s')) → walk' k' n s = walk' k n s.
Proof.
  revert k' n s. induction k as [|k IH]; intros [|k'] n s Hk Hn; try lia; [by destruct (Hn s)|by destruct (Hn s)|].
  cbn [walk] in *. unfold mbind, cmd_bind in *. destruct (visit' n s) as [[[|n'|port] s1]|]; [done| |done..].
  by apply IH; [lia|].
Qed.

(** C4. A packet that is received is dropped or transmitted after at most 13
    visits of nodes, however often it is recirculated between load balancers:
    the walk through the graph is not cut by the bound, and a larger bound gives
    the same result. *)
Theorem packet_path_ends pkt_id s k :
  data_ok (gd_data s.1) →
  (∀ s', receive conf tsc0 tsc junk_vni meter_red offload 13 pkt_id s ≠ Some (None, s'))
  ∧ receive conf tsc0 tsc junk_vni meter_red offload (13 + k) pkt_id s
    = receive conf tsc0 tsc junk_vni meter_red offload 13 pkt_id s.
Proof.
  intros Hs. unfold receive, mbind, cmd_bind.
  destruct (zoom sndL (dp_init_pkt_mark pkt_id) s) as [[[] s1]|] eqn:E; [|done].
  assert (Hs1 : data_ok (gd_data s1.1)).
  { unfold zoom in E. destruct (dp_init_pkt_mark _ _) as [[[] m]|]; [|done]. by injection E as <-. }
  assert (Hn : ∀ s', walk' 13 node_cls s1 ≠ Some (None, s')).
  { intros s' E'. by apply (walk_cls 13%nat (le_n _) s1 None s' Hs1 E'). }
  split; [done|]. by apply walk_more; [lia|].
Qed.

Lemma lb_icmp_edge df e : lb_icmp df = Some e → is_next (next_nodes node_lb) e = true.
Proof. unfold lb_icmp. repeat case_match; by intros [= <-]. Qed.
Lemma lb_edges : triple always lb_process_next (edge_ok always (next_nodes node_lb)).
Proof.
  assert (triple always lb_next (edge_ok always (next_nodes node_lb)));
    [|unfold lb_process_next; apply tr_seq; [done|]; intros []; [done|by apply tr_ret]].
  unfold lb_next. apply tr_seq; [done|]. intros df. destruct (df_conntrack df) as [p|]; [|by apply tr_ret].
  do 3 (apply tr_seq; [done|]; intros ?). lazymatch goal with |- triple _ (if ?b then _ else _) _ => destruct b end; [|tr_go].
  unfold lb_new_flow. apply tr_seq; [done|]. intros df'. destruct (lb_icmp df') as [e|] eqn:E; [|tr_go].
  apply tr_seq; [done|]. intros _. apply tr_ret. intros s _. split; [done|]. by eapply lb_icmp_edge.
Qed.

(** A node sends a packet only to nodes that it has registered, so the index
    that is looked up in the graph always is the one of an edge. *)
Theorem visit_registered n s e s' :
  visit' n s = Some (e, s') → is_next (next_nodes n) e = true.
Proof.
  intros E. enough (triple always (visit' n) (edge_ok always (next_nodes n))) as H by (by eapply (H s e)).
  destruct n; apply tr_zoom_edge; [|apply ends_arp|apply ends_nd| | |apply ends_virtsvc|apply lb_edges|apply ends_dhcp|apply ends_dhcpv6|..];
    tr_go.
Qed.
End walk_facts.
