(* ===== verification/Runtime.v ===== *)
(** * The tables while the service runs

    The worker moves packets from node to node, timers remove flows that are
    idle, and requests remove the flows of interfaces and of NAT addresses. What
    the graph shares between packets (src/nodes/*.c, src/dp_flow.c) changes in
    these steps only. No step leaves an entry in the flow table that leads to
    memory which is not a flow with that key, apart from the NAT64 translation of
    an ICMPv6 packet, which does. *)

From S2P Require Import Prelude Dpdk Error Types Port Firewall Rib Lb Vnf Conn Mbuf Graph Multipath Nat Vni Lpm Flow Nat64 Cntrack Virtsvc Nodes Neigh Dhcp Pipeline.

Section runtime.
Context `{HH : RteHash} `{HM : RteMalloc} `{HR : RteRib} `{HN : RteNet} `{HL : LibcNet} `{HT : RtePktTail}.
Context (conf : graph_conf).

Definition connG : lens graph_data conn_state :=
  Lens (λ d, da_conn (gd_data d)) (λ c d, d <| gd_data := (gd_data d) <| da_conn := c |> |>).

(** The requests and timers that remove flows. *)
Inductive flow_removal :=
  | REMOVE_AGED (tsc timer_hz : Z) (query : Z → Z → Z * Z)
  | REMOVE_AGED_HW (total : Z) (allocated : bool) (fetched : Z) (contexts : list (option loc))
  | REMOVE_NAT (port_id : Z) (nat_type : dp_flow_nat_type)
  | REMOVE_NEIGHNAT (ip4 vni min_port max_port : Z)
  | REMOVE_IFACE (port_id ip4 vni : Z).
Definition remove_flows (r : flow_removal) : cmd conn_state () :=
  match r with
  | REMOVE_AGED tsc timer_hz query => dp_process_aged_flows_non_offload tsc timer_hz query
  | REMOVE_AGED_HW total allocated fetched contexts => dp_process_aged_flows total allocated fetched contexts
  | REMOVE_NAT port_id nat_type => dp_remove_nat_flows port_id nat_type
  | REMOVE_NEIGHNAT ip4 vni min_port max_port => dp_remove_neighnat_flows ip4 vni min_port max_port
  | REMOVE_IFACE port_id ip4 vni => dp_remove_iface_flows port_id ip4 vni
  end.

(** One step: a node handles a packet, or flows are removed. The packets are
    whatever arrives, with any clock, meter and uninitialised memory. *)
Inductive data_step : graph_data → graph_data → Prop :=
  | step_visit n tsc0 tsc junk_vni red m e d d' m' :
      (n = node_snat → no_icmp6 (mb_flow m)) →
      visit conf tsc0 tsc junk_vni red n (d, m) = Some (e, (d', m')) → data_step d d'
  | step_remove r d d' : zoom connG (remove_flows r) d = Some (tt, d') → data_step d d'.
Definition reachable (d d' : graph_data) : Prop := rtc data_step d d'.
End runtime.

(** ** Facts: removal of flows *)

Ltac tr_lift ::= ok_lift3.

Section removal.
Context `{HH : RteHash} {HO : RteHashOk} `{HM : RteMalloc} {MO : RteMallocOk}.
Implicit Types (p : loc) (v : flow_value) (c : conn_state).

Lemma okB_nat_port v : maintains okB (dp_remove_network_snat_port v).
Proof.
  tr_go.
Qed.
Lemma ok_modify_flow f :
  (∀ fs, flow_tbl (f fs) = flow_tbl fs) → (∀ fs, flow_objs (f fs) = flow_objs fs) → maintains flows_ok (modify f).
Proof. intros Ht Ho. apply tr_modify. intros fs. by apply flows_ok_ext. Qed.
Lemma ok_ctxs {A} (m : cmd (heap flow_age_ctx) A) : maintains conn_ok (zoom flowL (zoom ctxsL m)).
Proof. apply okC_flow, tr_zoom. intros fs Hf a t E. by apply (flows_ok_ext fs). Qed.

(** A flow is freed after both of its keys have left the table. *)
Lemma at_delete_both p v :
  triple (at_ok p v)
    (dp_delete_flow_no_flush (fv_key_org v);; dp_delete_flow_no_flush (fv_key_reply v);; dp_cntrack_flush_cache;; fv_free p)
    (λ _, conn_ok).
Proof.
  intros c [] c' [[[Hl Ht] Hn] Hp]. unfold dp_delete_flow_no_flush, dp_cntrack_flush_cache, fv_free, mbind, cmd_bind, zoom,
    modify, hp_free. cbn. fold (flow_objs (cs_flow c)). rewrite Hp. intros [= <-]. split; [|done].
  split; cbn; unfold flow_tbl, flow_objs; cbn; rewrite ?contents_del.
  - intros k q [Hr [Ho Hk]%lookup_delete_Some]%lookup_delete_Some. destruct (Hl k q Hk) as (w & Hw & Hkw). exists w.
    rewrite lookup_delete_ne; [done|]. intros <-. assert (w = v) as -> by congruence. by destruct Hkw.
  - intros q w [_ Hw]%lookup_delete_Some. by eapply Ht.
Qed.
Lemma ok_free_flow p : maintains conn_ok (dp_free_flow p).
Proof.
  unfold dp_free_flow. apply tr_seq; [tr_go; apply okB_nat_port|]. intros []. eapply tr_bind; [apply ok_load|]. intros v.
  apply at_delete_both.
Qed.
Lemma ok_change {A} p (g : flow_value → flow_value) (k : flow_value → cmd conn_state A) (Q : A → conn_state → Prop) :
  (∀ v, same_keys v (g v)) → (∀ v, triple conn_ok (k v) Q) →
  triple conn_ok (v ← fv_load p; fv_store p (g v);; k v) Q.
Proof.
  intros Hg Hk. eapply tr_bind; [apply ok_load|]. intros v. cbn beta. eapply tr_bind; [by apply at_store|].
  intros []. eapply tr_pre; [done|]. by intros c [].
Qed.
Lemma ok_ref_dec p : maintains conn_ok (dp_ref_dec p).
Proof.
  apply (ok_change p (λ v, v <| fv_refcount := i32 (fv_refcount v - 1) |>)); [done|]. intros v.
  destruct (_ =? _); [apply ok_free_flow|by apply tr_ret].
Qed.
Lemma ok_age_out p : maintains conn_ok (dp_age_out_flow p).
Proof. apply (ok_change p (λ v, v <| fv_aged := true |>)); [done|]. intros v. apply ok_ref_dec. Qed.
Lemma ok_del_ctx p a : maintains conn_ok (dp_del_rte_age_ctx p a).
Proof.
  unfold dp_del_rte_age_ctx. apply tr_seq; [apply ok_ctxs|]. intros x. destruct (_ <=? _); [by apply tr_ret|].
  apply (ok_change p (λ v, v <| fv_rte_age_ctxs := _ |>)); [done|]. intros v. by apply tr_ret.
Qed.
Lemma ok_request r : maintains conn_ok (hw_request r).
Proof. apply okC_flow. by apply ok_modify_flow. Qed.
Lemma ok_destroy a : maintains conn_ok (dp_destroy_rte_flow_agectx a).
Proof.
  destruct a as [a|]; [|by apply tr_ret]. unfold dp_destroy_rte_flow_agectx.
  assert (Hs : ∀ x, maintains conn_ok (ctx_store a x)) by (intros x; apply ok_ctxs).
  apply tr_seq; [apply ok_ctxs|]. intros x. apply tr_seq.
  { destruct (ac_handle x); [|by apply tr_ret]. apply tr_seq; [apply ok_request|]. intros []. apply Hs. }
  intros []. apply tr_seq; [apply ok_ctxs|]. intros y. apply tr_seq.
  { destruct (ac_rte_flow y); [|by apply tr_ret]. apply tr_seq; [apply ok_request|]. intros []. apply Hs. }
  intros []. apply tr_seq.
  { destruct (ac_cntrack y); [|by apply tr_ret]. apply tr_seq; [apply ok_del_ctx|]. intros _. apply ok_ref_dec. }
  intros []. apply tr_seq; [apply ok_ctxs|]. intros []. by apply tr_ret.
Qed.
Lemma ok_ctx_at p i : maintains conn_ok (age_ctx_at p i).
Proof. tr_go. Qed.
Lemma ok_query_remove q p l : maintains conn_ok (query_and_remove_from q p l).
Proof.
  induction l as [|i l IH]; [by apply tr_ret|]. cbn [query_and_remove_from]. apply tr_seq; [apply ok_ctx_at|]. intros [a|]; [|done].
  apply tr_seq; [apply ok_ctxs|]. intros x. destruct (ac_handle x) as [h|]; [|done]. destruct (q _ _) as [ret sec].
  destruct (DP_FAILED ret); [by apply tr_ret|]. apply tr_seq; [tr_go|]. intros v. apply tr_seq; [|by intros []].
  destruct (_ <=? _); [|by apply tr_ret]. apply tr_seq; [apply ok_destroy|]. intros _. by apply tr_ret.
Qed.
Lemma ok_remove_flow p : maintains conn_ok (dp_remove_flow p).
Proof.
  unfold dp_remove_flow. apply tr_seq; [by apply tr_gets|]. intros off. apply tr_seq; [|intros []; apply ok_age_out].
  destruct off; [|by apply tr_ret]. unfold dp_rte_flow_remove. induction (seq _ _) as [|i l IH]; [by apply tr_ret|].
  cbn [foldr]. apply tr_seq; [apply ok_ctx_at|]. intros a. apply tr_seq; [apply ok_destroy|]. by intros _.
Qed.
Lemma ok_foreach body : (∀ k p, maintains conn_ok (body k p)) → maintains conn_ok (flow_foreach body).
Proof.
  intros Hb. unfold flow_foreach. apply tr_seq; [tr_go|]. intros n. generalize 0. generalize (S (Z.to_nat n)).
  intros fuel. induction fuel as [|fuel IH]; intros i; [apply tr_fault|]. cbn. apply tr_seq; [tr_go|].
  intros [[ret e] i']. destruct (_ =? _); [by apply tr_ret|]. destruct (DP_FAILED ret); [by apply tr_ret|].
  destruct e as [[k p]|]; [|apply tr_fault]. apply tr_seq; [apply Hb|]. intros []. apply IH.
Qed.
Lemma ok_remove_if (test : flow_value → bool) p :
  maintains conn_ok (v ← fv_load p; if test v then dp_remove_flow p else mret tt).
Proof. apply tr_seq; [tr_go|]. intros v. destruct (test v); [apply ok_remove_flow|by apply tr_ret]. Qed.

Lemma ok_remove_flows r : maintains conn_ok (remove_flows r).
Proof.
  destruct r as [tsc hz q|total al fetched l|i t|ip vni lo hi|i ip vni]; cbn [remove_flows].
  - unfold dp_process_aged_flows_non_offload. apply tr_seq; [by apply tr_gets|]. intros off. apply ok_foreach. intros k p.
    apply tr_seq.
    { destruct (_ && _); [|by apply tr_ret]. apply tr_seq; [apply ok_query_remove|]. intros _. by apply tr_ret. }
    intros []. apply tr_seq; [tr_go|]. intros v. destruct (_ && _); [apply ok_age_out|by apply tr_ret].
  - unfold dp_process_aged_flows. destruct (_ <=? _); [by apply tr_ret|]. destruct (negb _); [by apply tr_ret|].
    cbv zeta. induction (take _ l) as [|a as' IH]; [by apply tr_ret|]. cbn [foldr]. apply tr_seq; [apply ok_destroy|]. by intros _.
  - apply ok_foreach. intros _ p. apply (ok_remove_if (λ v, _ && _)).
  - apply ok_foreach. intros k p. destruct (_ && _); [apply ok_remove_flow|by apply tr_ret].
  - apply ok_foreach. intros k p. apply (ok_remove_if (λ v, _ || _)).
Qed.
End removal.

(** ** Facts: every node *)

Section steps.
Context `{HH : RteHash} {HO : RteHashOk} `{HM : RteMalloc} {MO : RteMallocOk} `{HR : RteRib}.
Context `{HN : RteNet} {HNO : RteNetOk} `{HL : LibcNet} `{HT : RtePktTail}.
Context (conf : graph_conf).

Lemma ok_dhcp_next tx : maintains (λ s, okN s.1) (dhcp_next (gc_dhcp conf) tx).
Proof.
  assert (Hz : ∀ A (m : cmd node_state A),
    maintains okN m → maintains (λ s : node_state * dp_pxe_mode, okN s.1) (zoom fstL m)) by (intros A m; by apply mt_zoom).
  unfold dhcp_next. apply tr_seq; [apply Hz; tr_go|]. intros [p port]. apply tr_seq; [apply Hz; tr_go|]. intros len.
  cbv zeta. do 2 (destruct (_ : bool); [by apply tr_ret|]). apply tr_seq; [apply Hz; tr_go|]. intros op.
  destruct (_ : bool); [by apply tr_ret|]. apply tr_seq; [by apply tr_gets|]. intros mode.
  apply tr_seq; [apply Hz; tr_go|]. intros r. apply tr_seq; [by apply tr_modify|]. intros [].
  destruct (_ ≫= _) as [t|]; [|by apply tr_ret]. apply Hz, ok_dhcp_respond.
Qed.

(** The nodes that the lens [nodeG] leads to. *)
Lemma ok_nodeG (c : cmd node_state dp_edge) : maintains okN c → maintains (onN okN) (zoom nodeG c).
Proof. intros Hc. by eapply tr_post; [apply (tr_nodeG _ _ _ Hc)|]. Qed.

Lemma ok_visit tsc0 tsc junk red n :
  n ≠ node_snat → maintains (onN okN) (visit conf tsc0 tsc junk red n).
Proof.
  intros Hn. destruct n; try done; cbn [visit]; cbv zeta; try apply ok_nodeG.
  - by apply mt_frame.
  - apply ok_arp_next.
  - apply ok_nd_next.
  - apply ok_conntrack.
  - apply ok_decap_next.
  - by apply mt_frame.
  - apply ok_lb_next.
  - apply tr_zoom. intros s Hs e [[d m] x] E. refine (ok_dhcp_next _ (_, _) e _ _ E). done.
  - apply ok_dhcpv6_next.
  - apply ok_dnat_next.
  - apply ok_firewall_next.
  - apply ok_ipv4_lookup_next.
  - apply ok_ipv6_lookup_next.
  - apply ok_relay_next.
  - apply ok_encap_next.
Qed.

End steps.

(** ** Runs *)

Section runtime_examples.
#[local] Existing Instances test_hash test_hash_ok test_hash_scan test_malloc test_malloc_ok test_rib test_rib_ok
  test_net test_net_ok test_libcnet test_tail.

(** One physical port, and the interface 2 in network 100 with the NAT address
    10.0.0.99 and a default route for IPv6. The load balancer at the underlay
    address 4242 has one target, the prefix with the underlay address 77 on the
    same host. *)
Definition ex_host_ports : ports_state :=
  MkPorts [ex_mp_pf 0 RTE_ETH_LINK_UP;
           set_iface (λ i, i <| if_vni := 100 |> <| if_ready := true |> <| if_nat_ip := 167772259 |>
             <| if_nat_port_range0 := 1000 |> <| if_nat_port_range1 := 1004 |>) zero_port <| pt_port_id := 2 |>]
    {[0 := 0%nat; 2 := 1%nat]} [0%nat] (Heap (H := test_malloc) ∅ []).
Definition ex_host_conn : conn_state :=
  MkConnState
    (MkFlowState (∅ : gmap flow_key loc) (Heap ∅ ([] : list bool)) (Heap ∅ ([] : list bool)) [] false
       (MkFlowCache zero_flow_key zero_flow_key 0 None false None))
    ex_nat_empty
    (run_state ex_vnf_empty
       (dp_add_vnf 4242 DP_VNF_TYPE_LB 0 100 (DP_SET_IPADDR4 0) 0;;
        dp_add_vnf 77 DP_VNF_TYPE_LB_ALIAS_PFX 2 100 (DP_SET_IPADDR4 167772161) 32))
    ex_host_ports.
Definition ex_host : graph_data :=
  MkGraphData
    (MkData ex_host_conn (run_state ex_vni_100 (dp_add_route Rib6 (ex_mp_pf 0 1) 100 200 0 (Some 88) 0))
       (run_state ex_created (dp_add_lb_back_ip [108; 98] 77 16)))
    (ex_vs_state []) DP_PXE_MODE_NONE.
Definition ex_graph_conf : graph_conf :=
  MkGraphConf (dp_cntrack_init false) true false false 100 5 6 (MkDhcpConf 1500 [] [] false) (λ _, {[0; 2]}).
Definition ex_receive (d : graph_data) (m : rte_mbuf) : option (option graph_end * packet_state) :=
  receive ex_graph_conf 1 2 0 (λ _ _, false) (mret 0) 13 7 (d, m).

(** A TCP packet to 10.0.0.1, port 80, through the tunnel to the load balancer. *)
Definition ex_lb_packet : rte_mbuf :=
  (ex_frame 64 94 dp_init_flow_ptr
    (replicate 12 0 ++ [134; 221]
     ++ [96; 0; 0; 0; 0; 40; 4; 64] ++ [9] ++ replicate 15 0 ++ [146; 16] ++ replicate 14 0
     ++ [69; 0; 0; 40; 0; 0; 0; 0; 64; 6; 0; 0; 192; 168; 0; 7; 10; 0; 0; 1]
     ++ [200; 1; 0; 80; 0; 0; 0; 0; 0; 0; 0; 0; 80; 2]))
    <| mb_packet_type := 65 |>.
Lemma ex_host_ok : data_ok (gd_data ex_host).
Proof.
  split; [split; [split|]|].
  - intros k p Hk. exfalso. by apply (lookup_empty_Some k p).
  - intros p v Hp. exfalso. by apply (lookup_empty_Some p v).
  - constructor.
  - intros p lv Hp.
    assert (Hall : forallb (λ x : loc * lb_value, forallb (λ ip, (0 <=? ip) && (ip <? 2 ^ 128)) (lv_back_end_ips x.2))
      (map_to_list (objs (ot_heap (ipv4_lb_tbl (da_lb (gd_data ex_host)))))) = true) by (vm_compute; reflexivity).
    rewrite forallb_forall in Hall. apply elem_of_map_to_list, list_elem_of_In, Hall in Hp. cbn [snd] in Hp.
    apply Forall_forall. intros ip Hip. rewrite forallb_forall in Hp. apply list_elem_of_In, Hp in Hip. unfold is_u128. zbool. lia.
Qed.

Definition ex_sent (r : option (option graph_end * packet_state)) (port_id : Z) : bool :=
  match r with Some (Some (END_TX i), _) => i =? port_id | _ => false end.
Definition ex_recirculated (r : option (option graph_end * packet_state)) : bool :=
  match r with Some (_, s) => pm_is_recirc (mb_mark s.2) | None => false end.

(** It is recirculated and ends at the interface of the prefix. *)
Lemma packet_path_ends_witness :
  ex_sent (ex_receive ex_host ex_lb_packet) 2 && ex_recirculated (ex_receive ex_host ex_lb_packet) = true
  ∧ receive ex_graph_conf 1 2 0 (λ _ _, false) (mret 0) (13 + 100) 7 (ex_host, ex_lb_packet)
    = ex_receive ex_host ex_lb_packet.
Proof.
  split; [vm_compute; reflexivity|].
  exact (proj2 (packet_path_ends ex_graph_conf 1 2 0 (λ _ _, false) (mret 0) 7 (ex_host, ex_lb_packet) 100 ex_host_ok)).
Defined.

(** An ICMPv6 echo request of the interface to 64:ff9b::101:101. *)
Definition ex_echo6 : rte_mbuf :=
  (ex_frame 64 62 dp_init_flow_ptr
    (replicate 12 0 ++ [134; 221] ++ [96; 0; 0; 0; 0; 8; 58; 64] ++ [32; 1] ++ replicate 14 0
     ++ [0; 100; 255; 155] ++ replicate 8 0 ++ [1; 1; 1; 1] ++ [128; 0; 0; 0; 0; 9; 0; 1]))
    <| mb_packet_type := 65 |> <| mb_port := 2 |>.

(** The key of the reply before its translation. *)
Definition ex_stale_key : flow_key :=
  MkFlowKey (MkIp 288 true) IPPROTO_ICMPV6 9 (MkIp 1334440654281216866467099100022006784 true) DP_VNF_TYPE_NAT
    DP_ICMPV6_ECHO_REPLY 100.

Definition ex_after (d : graph_data) (m : rte_mbuf) : graph_data :=
  match ex_receive d m with Some (_, s) => s.1 | None => d end.
Definition ex_has_entry (d : graph_data) (k : flow_key) (own : bool) : bool :=
  let fs := cs_flow (da_conn (gd_data d)) in
  match flow_tbl fs !! k ≫= λ p, flow_objs fs !! p with
  | Some v => bool_decide (bool_decide (k = fv_key_org v) || bool_decide (k = fv_key_reply v) = own)
  | None => false
  end.


(** The packet to the load balancer on its way, and later the removal of idle flows. *)
Definition ex_visit (n : dp_node) (s : packet_state) : packet_state :=
  match visit ex_graph_conf 1 2 0 (λ _ _, false) n s with Some (_, s') => s' | None => s end.
Lemma ex_step n s :
  n ≠ node_snat → faults (visit ex_graph_conf 1 2 0 (λ _ _, false) n) s = false →
  data_step ex_graph_conf s.1 (ex_visit n s).1.
Proof.
  intros Hn. unfold ex_visit, faults. destruct s as [d m].
  destruct (visit _ _ _ _ _ n (d, m)) as [[e [d' m']]|] eqn:E; [|done]. intros _. by eapply step_visit; [|exact E].
Qed.
Definition ex_tracked : packet_state :=
  ex_visit node_lb (ex_visit node_conntrack (ex_visit node_ipip_decap (ex_visit node_cls (ex_host, ex_lb_packet)))).
Definition ex_aged : graph_data :=
  run_state ex_tracked.1 (zoom connG (remove_flows (REMOVE_AGED 100000 100 (λ _ _, (0, 0))))).
Definition ex_flow_count (d : graph_data) : nat := size (flow_tbl (cs_flow (da_conn (gd_data d)))).


Lemma visit_registered_witness :
  ∃ e s', visit ex_graph_conf 1 2 0 (λ _ _, false) node_cls (ex_host, ex_lb_packet) = Some (e, s')
    ∧ is_next (next_nodes node_cls) e = true.
Proof.
  assert (Hf : faults (visit ex_graph_conf 1 2 0 (λ _ _, false) node_cls) (ex_host, ex_lb_packet) = false)
    by (vm_compute; reflexivity).
  unfold faults in Hf. destruct (visit _ _ _ _ _ _ _) as [[e s']|] eqn:E; [|done]. exists e, s'. split; [done|].
  exact (visit_registered ex_graph_conf 1 2 0 (λ _ _, false) node_cls (ex_host, ex_lb_packet) e s' E).
Defined.
End runtime_examples.
