(* ===== verification/Iface.v ===== *)
(** * Interfaces (src/dp_iface.c, its header) and the state of the service

    The state of all components that the control plane changes, and the
    operations that map the identifier of an interface to its port and set an
    interface up or tear it down. *)

From S2P Require Import Prelude Dpdk Error Types Port Hw Capture PortCtl Firewall Rib Lb Vnf Conn Mbuf Nat Vni Lpm Flow.

(** [sv_iface_id_table] maps identifiers to ports; [sv_rand] are the values that
    [rand()] is going to return (zero after the last one). *)
Record service_state `{RteHash} `{RteMalloc} `{RteRib} `{RteFlow} `{RteEth} := MkService {
  sv_conn : conn_state;
  sv_lb : lb_state;
  sv_vni : vni_state;
  sv_iface_id_table : rte_hash (list Z) nat;
  sv_hw : hw_state;
  sv_eth : eth_dev;
  sv_ports_cap : Z;
  sv_last_offset : Z;
  sv_mon : monitoring_state;
  sv_pfx_counter : Z;
  sv_rand : list Z
}.
Arguments MkService {_ _ _ _ _} _ _ _ _ _ _ _ _ _ _ _.
Global Instance service_state_eta `{RteHash} `{RteMalloc} `{RteRib} `{RteFlow} `{RteEth} : Eta service_state := λ r,
  MkService (sv_conn r) (sv_lb r) (sv_vni r) (sv_iface_id_table r) (sv_hw r) (sv_eth r) (sv_ports_cap r)
    (sv_last_offset r) (sv_mon r) (sv_pfx_counter r) (sv_rand r).

Section iface.
Context `{HH : RteHash} `{HM : RteMalloc} `{HR : RteRib} `{HF : RteFlow} `{HE : RteEth}.

(** ** The components inside the state *)

Definition connS : lens service_state conn_state := Lens sv_conn (λ x s, s <| sv_conn := x |>).
Definition lbS : lens service_state lb_state := Lens sv_lb (λ x s, s <| sv_lb := x |>).
Definition vniS : lens service_state vni_state := Lens sv_vni (λ x s, s <| sv_vni := x |>).
Definition monS : lens service_state monitoring_state := Lens sv_mon (λ x s, s <| sv_mon := x |>).
Definition ifaceS : lens service_state (rte_hash (list Z) nat) :=
  Lens sv_iface_id_table (λ x s, s <| sv_iface_id_table := x |>).
Definition natS : lens service_state nat_state :=
  Lens (λ s, cs_nat (sv_conn s)) (λ x s, s <| sv_conn := (sv_conn s) <| cs_nat := x |> |>).
Definition vnfS : lens service_state vnf_state :=
  Lens (λ s, cs_vnf (sv_conn s)) (λ x s, s <| sv_conn := (sv_conn s) <| cs_vnf := x |> |>).
Definition portsS : lens service_state ports_state :=
  Lens (λ s, cs_ports (sv_conn s)) (λ x s, s <| sv_conn := (sv_conn s) <| cs_ports := x |> |>).
Definition vninatS : lens service_state (vni_state * nat_state) :=
  Lens (λ s, (lget vniS s, lget natS s)) (λ x s, lput natS x.2 (lput vniS x.1 s)).
Definition portsvniS : lens service_state (ports_state * vni_state) :=
  Lens (λ s, (lget portsS s, lget vniS s)) (λ x s, lput vniS x.2 (lput portsS x.1 s)).
Definition porthwS : lens service_state port_hw :=
  Lens (λ s, (lget portsS s, sv_hw s)) (λ x s, (lput portsS x.1 s) <| sv_hw := x.2 |>).
Definition devS : lens service_state dev_state :=
  Lens (λ s, MkDev (lget portsS s) (sv_hw s) (sv_eth s) (sv_ports_cap s) (sv_last_offset s))
    (λ d s, (lput portsS (dv_ports d) s) <| sv_hw := dv_hw d |> <| sv_eth := dv_eth d |>
              <| sv_ports_cap := dv_ports_cap d |> <| sv_last_offset := dv_last_offset d |>).

(** [*port], and an assignment to its members. *)
Definition sv_port (p : nat) : cmd service_state dp_port := zoom portsS (get_port p).
Definition sv_set_port (p : nat) (f : dp_port → dp_port) : cmd service_state () := zoom portsS (upd_port p f).

(** ** Identifiers *)

Definition DP_IFACE_ID_MAX_LEN : Z := 64.

Definition dp_ifaces_init : option (rte_hash (list Z) nat) := rte_hash_create (DP_JHASH_MARGIN_COEF DP_MAX_PORTS).

Definition dp_map_iface_id (iface_id : list Z) (p : nat) : cmd service_state Z :=
  ret ← zoom ifaceS (gets (λ t, rte_hash_lookup t iface_id));
  if negb (ret =? - ENOENT) then mret DP_ERROR
  else
    ret ← zoom ifaceS (λ t, Some (rte_hash_add_key_data t iface_id p));
    if DP_FAILED ret then mret DP_ERROR
    else sv_set_port p (set_iface (λ i, i <| if_id := iface_id |>));; mret DP_OK.

Definition dp_unmap_iface_id (iface_id : list Z) : cmd service_state () :=
  zoom ifaceS (modify (λ t, (rte_hash_del_key t iface_id).2)).

Definition dp_get_port_with_iface_id (iface_id : list Z) : cmd service_state (option nat) :=
  r ← zoom ifaceS (gets (λ t, rte_hash_lookup_data t iface_id));
  mret (if DP_FAILED r.1 then None else r.2).

(** ** Setting up and tearing down *)

Definition dp_setup_iface (p : nat) (vni : Z) : cmd service_state Z :=
  port ← sv_port p;
  ret ← zoom vniS (dp_create_vni_route_tables vni (pt_socket_id port));
  if DP_FAILED ret then mret DP_ERROR
  else
    zoom portsS (dp_init_firewall_rules p);;
    sv_set_port p (set_iface (λ i, i <| if_vni := vni |> <| if_ready := true |>));;
    mret DP_OK.

Definition dp_delete_iface (p : nat) : cmd service_state () :=
  port ← sv_port p;
  let vni := if_vni (pt_iface port) in
  zoom vniS (dp_del_route Rib4 port vni (cfg_own_ip (if_cfg (pt_iface port))) 32);;
  zoom vniS (dp_del_route6 port vni (cfg_dhcp_ipv6 (if_cfg (pt_iface port))) 128);;
  zoom vninatS (dp_delete_vni_route_tables vni);;
  zoom portsS (dp_del_all_firewall_rules p);;
  sv_set_port p (set_iface (λ _, zero_iface));;
  zoom devS (dp_load_mac p);;
  mret tt.
End iface.

(** ** Facts *)

Section iface_facts.
Context `{HH : RteHash} `{HM : RteMalloc} `{HR : RteRib} `{HF : RteFlow} `{HE : RteEth}.

Ltac lens_ok := split; [by intros ? []|by intros ? ? []|by intros [[]]].

Global Instance connS_ok : LensOk connS.
Proof. lens_ok. Qed.
Global Instance lbS_ok : LensOk lbS.
Proof. lens_ok. Qed.
Global Instance vniS_ok : LensOk vniS.
Proof. lens_ok. Qed.
Global Instance monS_ok : LensOk monS.
Proof. lens_ok. Qed.
Global Instance ifaceS_ok : LensOk ifaceS.
Proof. lens_ok. Qed.
Global Instance natS_ok : LensOk natS.
Proof. lens_ok. Qed.
Global Instance vnfS_ok : LensOk vnfS.
Proof. lens_ok. Qed.
Global Instance portsS_ok : LensOk portsS.
Proof. lens_ok. Qed.
Global Instance porthwS_ok : LensOk porthwS.
Proof. split; [by intros [] []|by intros [] [] []|by intros [[]]]. Qed.

(** Reading a component. *)
Lemma zoom_read {T A} (l : lens service_state T) `{!LensOk l} (c : cmd T A) a s :
  c (lget l s) = Some (a, lget l s) → zoom l c s = Some (a, s).
Proof. unfold zoom. intros ->. by rewrite lput_lget. Qed.
End iface_facts.

Section iface_table_facts.
Context `{HH : RteHash} {HO : RteHashOk} `{HM : RteMalloc} `{HR : RteRib} `{HF : RteFlow} `{HE : RteEth}.

(** The interfaces by identifier. *)
Definition iface_ids (s : service_state) : gmap (list Z) nat := contents (sv_iface_id_table s).

Lemma get_port_with_iface_id_eq (s : service_state) id :
  dp_get_port_with_iface_id id s = Some (iface_ids s !! id, s).
Proof.
  unfold dp_get_port_with_iface_id, iface_ids. unfold mbind, cmd_bind.
  rewrite (zoom_read ifaceS (gets (λ t, rte_hash_lookup_data t id)) (rte_hash_lookup_data (sv_iface_id_table s) id) s eq_refl).
  unfold mret, cmd_ret.
  destruct (hash_lookup_cases (sv_iface_id_table s) id) as [(pos & v & -> & Hpos & ->)|[-> ->]]; cbn [fst snd].
  - by rewrite DP_FAILED_pos.
  - by rewrite DP_FAILED_ENOENT.
Qed.
End iface_table_facts.
