(* ===== verification/Service.v ===== *)
(** * Request handlers (src/grpc/dp_grpc_impl.c, include/grpc/dp_grpc_api.h)

    One definition per handler, on the state of the whole service.  A handler
    that answers with a single message gives its return value and the message;
    the message is only meaningful when the request succeeded.  The build
    options are the defaults: no static underlay addresses and no virtual
    services, for which deleting an interface would also call [dp_virtsvc_del_iface]
    ([Virtsvc]).  The theorems say that a VIP or a prefix is
    added as a whole or not at all, and what the requests for a capture do. *)

From S2P Require Import Prelude Dpdk Error Types Responder Port Hw Capture PortCtl Firewall Rib Lb Vnf Conn Mbuf Nat Vni Lpm Flow Iface.

(** ** Requests and replies *)

Inductive dpgrpc_vni_type := DP_VNI_IPV4 | DP_VNI_IPV6 | DP_VNI_BOTH.

Definition DP_CAPTURE_MAX_PORT_NUM : Z := 16.

(** The members of [struct dpgrpc_iface] that a request has, and that a reply has. *)
Record iface_request := MkIfaceReq {
  ir_iface_id : list Z;
  ir_ip4_addr : Z;
  ir_ip6_addr : Z;
  ir_vni : Z;
  ir_pxe_addr : dp_ip_address;
  ir_pxe_str : list Z;
  ir_pci_name : list Z;
  ir_total_flow_rate_cap : Z;
  ir_public_flow_rate_cap : Z
}.
Record iface_reply := MkIfaceRep {
  io_iface_id : list Z;
  io_ip4_addr : Z;
  io_ip6_addr : Z;
  io_vni : Z;
  io_pci_name : list Z;
  io_ul_addr6 : Z;
  io_total_flow_rate_cap : Z;
  io_public_flow_rate_cap : Z
}.

Record dpgrpc_prefix := MkPrefix { px_iface_id : list Z; px_addr : dp_ip_address; px_length : Z }.
Record dpgrpc_route := MkGrpcRoute {
  gr_pfx_addr : dp_ip_address;
  gr_pfx_length : Z;
  gr_vni : Z;
  gr_trgt_addr : dp_ip_address;
  gr_trgt_vni : Z
}.
Record vip_request := MkVipReq { vq_addr : dp_ip_address; vq_iface_id : list Z }.
Record nat_request := MkNatReq {
  nq_iface_id : list Z;
  nq_addr : dp_ip_address;
  nq_min_port : Z;
  nq_max_port : Z;
  nq_vni : Z;
  nq_neigh_addr6 : Z
}.
Record dpgrpc_lb_target := MkLbTarget { lt_lb_id : list Z; lt_addr : dp_ip_address }.
Record dpgrpc_fwrule := MkFwruleReq { fq_iface_id : list Z; fq_rule : dp_fwall_rule }.
Record dpgrpc_fwrule_id := MkFwruleId { fi_iface_id : list Z; fi_rule_id : list Z }.
Record dpgrpc_vni := MkVniReq { vr_vni : Z; vr_type : dpgrpc_vni_type }.

Inductive dpgrpc_capture_interface := CaptureVf (iface_id : list Z) | CapturePf (pf_index : Z).
Record dpgrpc_capture := MkCaptureReq {
  cq_dst_addr6 : Z;
  cq_udp_src_port : Z;
  cq_udp_dst_port : Z;
  cq_interfaces : list dpgrpc_capture_interface
}.

(** The message of a reply that has one. *)
Inductive single_reply :=
  | RepNone
  | RepUlAddr (addr6 : Z)
  | RepVfPci (name : list Z) (ul_addr6 : Z)
  | RepIface (iface : iface_reply)
  | RepVip (addr : dp_ip_address) (ul_addr6 : option Z)
  | RepNat (addr : dp_ip_address) (min_port max_port ul_addr6 : Z)
  | RepRoute (trgt_addr : dp_ip_address)
  | RepLb (lb : dpgrpc_lb)
  | RepFwrule (rule : dp_fwall_rule)
  | RepVniInUse (in_use : bool)
  | RepVersions (proto app : list Z)
  | RepCaptureStop (port_cnt : Z)
  | RepCapture (capture : option dpgrpc_capture).

Section service.
Context `{HH : RteHash} `{HM : RteMalloc} `{HR : RteRib} `{HF : RteFlow} `{HE : RteEth}.
Context (conf : dp_conf) (DP_SERVICE_VERSION : list Z).

Definition handler : Type := cmd service_state (Z * single_reply).
Definition only (c : cmd service_state Z) : handler := ret ← c; mret (ret, RepNone).
Definition err (e : dp_grpc_error) : handler := mret (DP_GRPC_ERR e, RepNone).

(** [dp_get_port_with_iface_id] and the check for NULL. *)
Definition with_port (iface_id : list Z) (e : dp_grpc_error) (k : nat → dp_port → handler) : handler :=
  p ← dp_get_port_with_iface_id iface_id;
  match p with
  | None => err e
  | Some p => port ← sv_port p; k p port
  end.

(** [*dp_get_pf0()] *)
Definition sv_pf0 : cmd service_state dp_port := zoom portsS deref_pf0.

(** ** Underlay addresses *)

Definition rand : cmd service_state Z := λ s,
  Some (hd 0 (sv_rand s), s <| sv_rand := tl (sv_rand s) |>).

(** Bytes 0 to 7 of the host, three zero bytes, the random byte, the counter. *)
Definition underlay_ipv6 (underlay_ip random_byte counter : Z) : Z :=
  underlay_ip mod 2 ^ 64 + random_byte * 2 ^ 88 + htonl counter * 2 ^ 96.

Definition dp_generate_underlay_ipv6 : cmd service_state Z :=
  r ← rand;
  let random_byte := u8 (r mod 256) in
  counter ← gets sv_pfx_counter;
  (if counter =? 0
   then r ← rand; modify (λ s, s <| sv_pfx_counter := r mod 256 |>)
   else mret tt);;
  modify (λ s, s <| sv_pfx_counter := u32 (sv_pfx_counter s + 1) |>);;
  counter ← gets sv_pfx_counter;
  mret (underlay_ipv6 (cf_underlay_ip conf) random_byte counter).

(** The address and what [dp_add_vnf] returned. *)
Definition dp_create_vnf_route (type : dp_vnf_type) (vni : Z) (port : dp_port) (pfx_ip : dp_ip_address)
    (prefix_len : Z) : cmd service_state (Z * Z) :=
  ul_addr6 ← dp_generate_underlay_ipv6;
  ret ← zoom vnfS (dp_add_vnf ul_addr6 type (pt_port_id port) vni pfx_ip prefix_len);
  mret (ret, ul_addr6).

Definition dp_del_vnf_ (ul_addr6 : Z) : cmd service_state () := zoom vnfS (dp_del_vnf ul_addr6);; mret tt.

Definition dp_grpc_add_route (port : dp_port) (vni t_vni : Z) (addr : dp_ip_address) (t_ip6 : option Z) (depth : Z) :
    cmd service_state Z :=
  zoom vniS (if is_v6 addr then dp_add_route6 port vni t_vni (ipv6 addr) t_ip6 depth
             else dp_add_route Rib4 port vni t_vni (ipv4 addr) t_ip6 depth).

Definition dp_grpc_del_route (port : dp_port) (vni : Z) (addr : dp_ip_address) (depth : Z) : cmd service_state Z :=
  zoom vniS (if is_v6 addr then dp_del_route6 port vni (ipv6 addr) depth
             else dp_del_route Rib4 port vni (ipv4 addr) depth).

(** ** Load balancers *)

Definition dp_process_create_lb (request : dpgrpc_lb) : handler :=
  let pfx_ip := MkIp 0 (is_v6 (gl_addr request)) in
  pf0 ← sv_pf0;
  r ← dp_create_vnf_route DP_VNF_TYPE_LB (gl_vni request) pf0 pfx_ip 0;
  if DP_FAILED r.1 then err VNF_INSERT
  else
    ret ← zoom lbS (dp_create_lb request r.2);
    if DP_FAILED ret then dp_del_vnf_ r.2;; mret (ret, RepNone)
    else
      pf0 ← sv_pf0;
      ret ← zoom vniS (dp_create_vni_route_tables (gl_vni request) (pt_socket_id pf0));
      if DP_FAILED ret then
        zoom lbS (dp_delete_lb (gl_lb_id request));;
        dp_del_vnf_ r.2;;
        err VNI_INIT4
      else mret (DP_GRPC_OK, RepUlAddr r.2).

(** The local [lb] is uninitialized until [dp_get_lb] succeeds. *)
Definition no_lb : dpgrpc_lb := MkGrpcLb [] (MkIp 0 false) 0 [] 0.

Definition dp_process_delete_lb (lb_id : list Z) : handler :=
  r ← zoom lbS (dp_get_lb lb_id no_lb);
  if DP_FAILED r.1 then mret (r.1, RepNone)
  else
    dp_del_vnf_ (gl_ul_addr6 r.2);;
    ret ← zoom lbS (dp_delete_lb lb_id);
    if DP_FAILED ret then mret (ret, RepNone)
    else
      ret ← zoom vninatS (dp_delete_vni_route_tables (gl_vni r.2));
      if DP_FAILED ret then err VNI_FREE4 else mret (DP_GRPC_OK, RepNone).

(** [reply] is what the memory of the reply holds before. *)
Definition dp_process_get_lb (lb_id : list Z) (reply : dpgrpc_lb) : handler :=
  r ← zoom lbS (dp_get_lb lb_id reply); mret (r.1, RepLb r.2).

Definition dp_process_create_lbtarget (request : dpgrpc_lb_target) : handler :=
  if negb (is_v6 (lt_addr request)) then err BAD_IPVER
  else only (zoom lbS (dp_add_lb_back_ip (lt_lb_id request) (ipv6 (lt_addr request)) 16)).

Definition dp_process_delete_lbtarget (request : dpgrpc_lb_target) : handler :=
  if negb (is_v6 (lt_addr request)) then err BAD_IPVER
  else only (zoom lbS (dp_del_lb_back_ip (lt_lb_id request) (ipv6 (lt_addr request)))).

(** ** Networks *)

Definition dp_process_initialize : handler :=
  zoom natS (dp_del_all_neigh_nat_entries_in_vni DP_NETWORK_NAT_ALL_VNI);;
  only (zoom portsvniS dp_lpm_reset_all_route_tables).

Definition dp_process_check_vniinuse (request : dpgrpc_vni) : handler :=
  match vr_type request with
  | DP_VNI_IPV4 =>
      b ← zoom vniS (dp_is_vni_route_table_available (vr_vni request) IPPROTO_IPIP); mret (DP_GRPC_OK, RepVniInUse b)
  | DP_VNI_IPV6 =>
      b ← zoom vniS (dp_is_vni_route_table_available (vr_vni request) IPPROTO_IPV6); mret (DP_GRPC_OK, RepVniInUse b)
  | DP_VNI_BOTH => err WRONG_TYPE
  end.

Definition dp_process_reset_vni (request : dpgrpc_vni) : handler :=
  match vr_type request with
  | DP_VNI_BOTH => only (zoom portsvniS (dp_lpm_reset_route_tables (vr_vni request)))
  | _ => err WRONG_TYPE
  end.

(** ** Firewall rules *)

Definition dp_process_create_fwrule (request : dpgrpc_fwrule) : handler :=
  with_port (fq_iface_id request) NO_VM (λ p _,
    found ← zoom portsS (dp_get_firewall_rule (fr_rule_id (fq_rule request)) p);
    match found with
    | Some _ => err ALREADY_EXISTS
    | None =>
        if bool_decide (fr_action (fq_rule request) = DP_FWALL_DROP) then err NO_DROP_SUPPORT
        else
          ret ← zoom portsS (dp_add_firewall_rule (fq_rule request) p);
          if DP_FAILED ret then err OUT_OF_MEMORY else mret (DP_GRPC_OK, RepNone)
    end).

Definition dp_process_get_fwrule (request : dpgrpc_fwrule_id) : handler :=
  with_port (fi_iface_id request) NO_VM (λ p _,
    found ← zoom portsS (dp_get_firewall_rule (fi_rule_id request) p);
    match found with
    | None => err NOT_FOUND
    | Some l => rule ← zoom portsS (rule_load l); mret (DP_GRPC_OK, RepFwrule rule)
    end).

Definition dp_process_delete_fwrule (request : dpgrpc_fwrule_id) : handler :=
  with_port (fi_iface_id request) NO_VM (λ p _,
    ret ← zoom portsS (dp_delete_firewall_rule (fi_rule_id request) p);
    if DP_FAILED ret then err NOT_FOUND else mret (DP_GRPC_OK, RepNone)).

(** ** Virtual addresses *)

Definition dp_process_create_vip (request : vip_request) : handler :=
  with_port (vq_iface_id request) NO_VM (λ _ port,
    if is_v6 (vq_addr request) then err BAD_IPVER
    else
      let iface_ip := cfg_own_ip (if_cfg (pt_iface port)) in
      let iface_vni := if_vni (pt_iface port) in
      r ← dp_create_vnf_route DP_VNF_TYPE_VIP iface_vni port (MkIp 0 (is_v6 (vq_addr request))) 0;
      if DP_FAILED r.1 then err VNF_INSERT
      else
        let vip := ipv4 (vq_addr request) in
        ret ← zoom natS (dp_set_iface_vip_ip iface_ip vip iface_vni r.2);
        if DP_FAILED ret then dp_del_vnf_ r.2;; mret (ret, RepNone)
        else
          ret ← zoom natS (dp_set_dnat_ip vip iface_ip iface_vni);
          if DP_FAILED ret then
            zoom natS (dp_del_iface_vip_ip iface_ip iface_vni);;
            dp_del_vnf_ r.2;;
            mret (ret, RepNone)
          else mret (DP_GRPC_OK, RepUlAddr r.2)).

(** [dp_get_iface_snat_data] and the check that [used] is set, which reads the
    object found. *)
Definition with_snat (iface_ip iface_vni : Z) (used : snat_data → Z) (k : loc → snat_data → handler) : handler :=
  data ← zoom natS (dp_get_iface_snat_data iface_ip iface_vni);
  match data with
  | None => err SNAT_NO_DATA
  | Some l =>
      s_data ← zoom natS (zoom snatT (ot_load l));
      if used s_data =? 0 then err SNAT_NO_DATA else k l s_data
  end.

(** [s_data] is read again before each use, [dp_del_vnf] and [dp_del_dnat_ip]
    leave it alone. *)
Definition dp_process_delete_vip (iface_id : list Z) : handler :=
  with_port iface_id NO_VM (λ _ port,
    let iface_ip := cfg_own_ip (if_cfg (pt_iface port)) in
    let iface_vni := if_vni (pt_iface port) in
    with_snat iface_ip iface_vni sd_vip_ip (λ _ s_data,
      dp_del_vnf_ (sd_ul_vip_ip6 s_data);;
      zoom natS (dp_del_dnat_ip (sd_vip_ip s_data) iface_vni);;
      zoom natS (dp_del_iface_vip_ip iface_ip iface_vni);;
      zoom connS (dp_remove_nat_flows (pt_port_id port) DP_FLOW_NAT_TYPE_VIP);;
      mret (DP_GRPC_OK, RepVip (DP_SET_IPADDR4 (sd_vip_ip s_data)) None))).

Definition dp_process_get_vip (iface_id : list Z) : handler :=
  with_port iface_id NO_VM (λ _ port,
    with_snat (cfg_own_ip (if_cfg (pt_iface port))) (if_vni (pt_iface port)) sd_vip_ip (λ _ s_data,
      mret (DP_GRPC_OK, RepVip (DP_SET_IPADDR4 (sd_vip_ip s_data)) (Some (sd_ul_vip_ip6 s_data))))).

(** ** Prefixes *)

Definition dp_process_create_lbprefix (request : dpgrpc_prefix) : handler :=
  with_port (px_iface_id request) NO_VM (λ _ port,
    found ← zoom vnfS (dp_vnf_lbprefix_exists (pt_port_id port) (if_vni (pt_iface port)) (px_addr request)
                         (px_length request));
    if (found : bool) then err ALREADY_EXISTS
    else
      r ← dp_create_vnf_route DP_VNF_TYPE_LB_ALIAS_PFX (if_vni (pt_iface port)) port (px_addr request) (px_length request);
      if DP_FAILED r.1 then err VNF_INSERT else mret (DP_GRPC_OK, RepRoute (DP_SET_IPADDR6 r.2))).

Definition dp_process_delete_lbprefix (request : dpgrpc_prefix) : handler :=
  with_port (px_iface_id request) NO_VM (λ _ port,
    only (zoom vnfS (dp_del_vnf_by_value DP_VNF_TYPE_LB_ALIAS_PFX (pt_port_id port) (if_vni (pt_iface port))
                       (px_addr request) (px_length request)))).

Definition dp_process_create_prefix (request : dpgrpc_prefix) : handler :=
  with_port (px_iface_id request) NO_VM (λ _ port,
    let iface_vni := if_vni (pt_iface port) in
    ret ← dp_grpc_add_route port iface_vni 0 (px_addr request) None (px_length request);
    if DP_FAILED ret then mret (ret, RepNone)
    else
      r ← dp_create_vnf_route DP_VNF_TYPE_ALIAS_PFX iface_vni port (px_addr request) (px_length request);
      if DP_FAILED r.1 then
        dp_grpc_del_route port iface_vni (px_addr request) (px_length request);;
        err VNF_INSERT
      else mret (DP_GRPC_OK, RepUlAddr r.2)).

Definition dp_process_delete_prefix (request : dpgrpc_prefix) : handler :=
  with_port (px_iface_id request) NO_VM (λ _ port,
    ret ← dp_grpc_del_route port (if_vni (pt_iface port)) (px_addr request) (px_length request);
    ret2 ← zoom vnfS (dp_del_vnf_by_value DP_VNF_TYPE_ALIAS_PFX (pt_port_id port) (if_vni (pt_iface port))
                        (px_addr request) (px_length request));
    mret (if DP_FAILED ret then ret else ret2, RepNone)).

(** ** Interfaces *)

(** The labels of the error path, each falling through to the next. *)
Definition err_vnf (ul_addr6 ret : Z) : handler := dp_del_vnf_ ul_addr6;; mret (ret, RepNone).
Definition handle_err (request : iface_request) (ul_addr6 ret : Z) : handler :=
  dp_unmap_iface_id (ir_iface_id request);; err_vnf ul_addr6 ret.
Definition iface_err (p : nat) (request : iface_request) (ul_addr6 ret : Z) : handler :=
  dp_delete_iface p;; handle_err request ul_addr6 ret.
Definition route_err (p : nat) (request : iface_request) (ul_addr6 ret : Z) : handler :=
  port ← sv_port p;
  zoom vniS (dp_del_route Rib4 port (ir_vni request) (ir_ip4_addr request) 32);;
  iface_err p request ul_addr6 ret.
Definition route6_err (p : nat) (request : iface_request) (ul_addr6 ret : Z) : handler :=
  port ← sv_port p;
  zoom vniS (dp_del_route6 port (ir_vni request) (ir_ip6_addr request) 128);;
  route_err p request ul_addr6 ret.
Definition meter_err (p : nat) (request : iface_request) (ul_addr6 ret : Z) : handler :=
  zoom devS (dp_port_meter_config conf p 0 0);; route6_err p request ul_addr6 ret.

(** The configuration of the interface taken from the request. *)
Definition set_iface_cfg (request : iface_request) (ul_addr6 : Z) (i : dp_port_iface) : dp_port_iface :=
  i <| if_ul_ipv6 := ul_addr6 |>
    <| if_cfg := (if_cfg i) <| cfg_own_ip := ir_ip4_addr request |> <| cfg_ip_depth := DP_LPM_DHCP_IP_DEPTH |>
                            <| cfg_dhcp_ipv6 := ir_ip6_addr request |> <| cfg_ip6_depth := DP_LPM_DHCP_IP6_DEPTH |>
                            <| cfg_pxe_str := ir_pxe_str request |>
                            <| cfg_pxe_ip := dp_copy_ipaddr (ir_pxe_addr request) |> |>.

(** From the routes on, when the interface is set up. *)
Definition start_interface (p : nat) (request : iface_request) (ul_addr6 : Z) : handler :=
  port ← sv_port p;
  ret ← (if negb (ir_ip4_addr request =? 0)
         then zoom vniS (dp_add_route Rib4 port (ir_vni request) 0 (ir_ip4_addr request) None 32)
         else mret DP_GRPC_OK);
  if DP_FAILED ret then iface_err p request ul_addr6 ret else
  ret ← (if negb (dp_is_ipv6_addr_zero (ir_ip6_addr request))
         then zoom vniS (dp_add_route6 port (ir_vni request) 0 (ir_ip6_addr request) None 128)
         else mret DP_GRPC_OK);
  if DP_FAILED ret then route_err p request ul_addr6 ret else
  ret ← (if negb (pt_is_pf port)
         then zoom devS (dp_port_meter_config conf p (ir_total_flow_rate_cap request) (ir_public_flow_rate_cap request))
         else mret DP_OK);
  if DP_FAILED ret then route6_err p request ul_addr6 (DP_GRPC_ERR PORT_METER) else
  ret ← zoom devS (dp_start_port conf p);
  if DP_FAILED ret then meter_err p request ul_addr6 (DP_GRPC_ERR PORT_START) else
  port ← sv_port p;
  mret (DP_GRPC_OK, RepVfPci (pt_vf_name port) (if_ul_ipv6 (pt_iface port))).

Definition dp_process_create_interface (request : iface_request) : handler :=
  p ← zoom devS (dp_get_port_by_name (ir_pci_name request));
  match p with
  | None => err NOT_FOUND
  | Some p =>
      port ← sv_port p;
      if pt_allocated port then err ALREADY_EXISTS
      else
        r ← dp_create_vnf_route DP_VNF_TYPE_INTERFACE_IP (ir_vni request) port (MkIp 0 false) 0;
        if DP_FAILED r.1 then err VNF_INSERT
        else
          ret ← dp_map_iface_id (ir_iface_id request) p;
          if DP_FAILED ret then err_vnf r.2 (DP_GRPC_ERR VM_HANDLE)
          else
            ret ← dp_setup_iface p (ir_vni request);
            if DP_FAILED ret then handle_err request r.2 (DP_GRPC_ERR VNI_INIT4)
            else
              sv_set_port p (set_iface (set_iface_cfg request r.2));;
              start_interface p request r.2
  end.

Definition dp_process_delete_interface (iface_id : list Z) : handler :=
  with_port iface_id NOT_FOUND (λ p port,
    let ipv4 := cfg_own_ip (if_cfg (pt_iface port)) in
    let vni := if_vni (pt_iface port) in
    m ← (if negb (pt_is_pf port) then zoom devS (dp_port_meter_config conf p 0 0) else mret DP_OK);
    let ret := if DP_FAILED m then DP_GRPC_ERR PORT_METER else DP_GRPC_OK in
    dp_del_vnf_ (if_ul_ipv6 (pt_iface port));;
    stop ← zoom devS (dp_stop_port p);
    let ret := if DP_FAILED stop then DP_GRPC_ERR PORT_STOP else ret in
    dp_unmap_iface_id iface_id;;
    dp_delete_iface p;;
    zoom connS (dp_remove_iface_flows (pt_port_id port) ipv4 vni);;
    mret (ret, RepNone)).

Definition iface_reply_of (port : dp_port) : iface_reply :=
  let i := pt_iface port in
  MkIfaceRep (if_id i) (cfg_own_ip (if_cfg i)) (cfg_dhcp_ipv6 (if_cfg i)) (if_vni i) (pt_dev_name port) (if_ul_ipv6 i)
    (if_total_flow_rate_cap i) (if_public_flow_rate_cap i).

Definition dp_process_get_interface (iface_id : list Z) : handler :=
  with_port iface_id NOT_FOUND (λ _ port, mret (DP_GRPC_OK, RepIface (iface_reply_of port))).

(** ** Routes *)

Definition dp_process_create_route (request : dpgrpc_route) : handler :=
  if negb (is_v6 (gr_trgt_addr request)) then err BAD_IPVER
  else
    pf0 ← sv_pf0;
    only (dp_grpc_add_route pf0 (gr_vni request) (gr_trgt_vni request) (gr_pfx_addr request)
            (Some (ipv6 (gr_trgt_addr request))) (gr_pfx_length request)).

Definition dp_process_delete_route (request : dpgrpc_route) : handler :=
  pf0 ← sv_pf0;
  only (dp_grpc_del_route pf0 (gr_vni request) (gr_pfx_addr request) (gr_pfx_length request)).

(** ** NAT *)

Definition dnat_failed (ret : Z) : bool := DP_FAILED ret && negb (ret =? DP_GRPC_ERR DNAT_EXISTS).

Definition set_iface_nat (ip min max : Z) (i : dp_port_iface) : dp_port_iface :=
  i <| if_nat_ip := ip |> <| if_nat_port_range0 := min |> <| if_nat_port_range1 := max |>.

Definition dp_process_create_nat (request : nat_request) : handler :=
  with_port (nq_iface_id request) NO_VM (λ p port,
    if is_v6 (nq_addr request) then err BAD_IPVER
    else
      let iface_ip := cfg_own_ip (if_cfg (pt_iface port)) in
      let iface_vni := if_vni (pt_iface port) in
      r ← dp_create_vnf_route DP_VNF_TYPE_NAT iface_vni port (MkIp 0 (is_v6 (nq_addr request))) 0;
      if DP_FAILED r.1 then err VNF_INSERT
      else
        ret ← zoom natS (dp_set_iface_nat_ip iface_ip (ipv4 (nq_addr request)) iface_vni
                           (nq_min_port request) (nq_max_port request) r.2);
        if DP_FAILED ret then dp_del_vnf_ r.2;; mret (ret, RepNone)
        else
          ret ← zoom natS (dp_set_dnat_ip (ipv4 (nq_addr request)) 0 iface_vni);
          if dnat_failed ret then
            zoom natS (dp_del_iface_nat_ip iface_ip iface_vni);;
            dp_del_vnf_ r.2;;
            mret (ret, RepNone)
          else
            sv_set_port p (set_iface (set_iface_nat (ipv4 (nq_addr request)) (nq_min_port request) (nq_max_port request)));;
            mret (DP_GRPC_OK, RepUlAddr r.2)).

Definition dp_process_delete_nat (iface_id : list Z) : handler :=
  with_port iface_id NO_VM (λ p port,
    let iface_ip := cfg_own_ip (if_cfg (pt_iface port)) in
    let iface_vni := if_vni (pt_iface port) in
    with_snat iface_ip iface_vni sd_nat_ip (λ _ s_data,
      dp_del_vnf_ (sd_ul_nat_ip6 s_data);;
      zoom natS (dp_del_vip_from_dnat (sd_nat_ip s_data) iface_vni);;
      sv_set_port p (set_iface (set_iface_nat 0 0 0));;
      zoom connS (dp_remove_nat_flows (pt_port_id port) DP_FLOW_NAT_TYPE_NETWORK_LOCAL);;
      ret ← zoom natS (dp_del_iface_nat_ip iface_ip iface_vni);
      mret (ret, RepVip (DP_SET_IPADDR4 (sd_nat_ip s_data)) None))).

Definition dp_process_get_nat (iface_id : list Z) : handler :=
  with_port iface_id NO_VM (λ _ port,
    with_snat (cfg_own_ip (if_cfg (pt_iface port))) (if_vni (pt_iface port)) sd_nat_ip (λ _ s_data,
      mret (DP_GRPC_OK, RepNat (DP_SET_IPADDR4 (sd_nat_ip s_data)) (sd_port_min s_data) (sd_port_max s_data)
                          (sd_ul_nat_ip6 s_data)))).

Definition dp_process_create_neighnat (request : nat_request) : handler :=
  if is_v6 (nq_addr request) then err BAD_IPVER
  else
    let ip := ipv4 (nq_addr request) in
    ret ← zoom natS (dp_add_network_nat_entry ip None (nq_vni request) (nq_min_port request) (nq_max_port request)
                       (nq_neigh_addr6 request));
    if DP_FAILED ret then mret (ret, RepNone)
    else
      ret ← zoom natS (dp_set_dnat_ip ip 0 (nq_vni request));
      if dnat_failed ret then
        zoom natS (dp_del_network_nat_entry ip None (nq_vni request) (nq_min_port request) (nq_max_port request));;
        mret (ret, RepNone)
      else mret (DP_GRPC_OK, RepNone).

Definition dp_process_delete_neighnat (request : nat_request) : handler :=
  if is_v6 (nq_addr request) then err BAD_IPVER
  else
    let ip := ipv4 (nq_addr request) in
    ret ← zoom natS (dp_del_network_nat_entry ip None (nq_vni request) (nq_min_port request) (nq_max_port request));
    if ret =? DP_GRPC_ERR NOT_FOUND then mret (ret, RepNone)
    else
      zoom natS (dp_del_vip_from_dnat ip (nq_vni request));;
      zoom connS (dp_remove_neighnat_flows ip (nq_vni request) (nq_min_port request) (nq_max_port request));;
      mret (ret, RepNone).

(** ** Version and capture *)

Definition dp_process_get_version : handler :=
  mret (DP_GRPC_OK, RepVersions DP_SERVICE_VERSION DP_SERVICE_VERSION).

Definition capture_port (i : dpgrpc_capture_interface) : cmd service_state (option nat) :=
  match i with
  | CaptureVf iface_id => dp_get_port_with_iface_id iface_id
  | CapturePf pf_index => zoom portsS (dp_get_port_by_pf_index pf_index)
  end.

(** The loop; an interface that is not found is logged with the members of its
    port, through the NULL pointer. *)
Fixpoint capture_interfaces (l : list dpgrpc_capture_interface) (status : Z) : cmd service_state Z :=
  match l with
  | [] => mret status
  | i :: l =>
      p ← capture_port i;
      match p with
      | None => fault
      | Some p =>
          cfg ← zoom monS dp_get_capture_hdr_config;
          status ← zoom porthwS (dp_enable_pkt_capture (cf_underlay_ip conf) cfg (Some p));
          if DP_FAILED status then mret status else capture_interfaces l status
      end
  end.

Definition disable_all : cmd service_state Z :=
  cfg ← zoom monS dp_get_capture_hdr_config;
  zoom porthwS (dp_disable_pkt_capture_on_all_ifaces (cf_underlay_ip conf) cfg).

Definition dp_process_capture_start (request : dpgrpc_capture) : handler :=
  if negb (cf_offload_enabled conf) then err NOT_ACTIVE
  else
    enabled ← zoom monS dp_is_capture_enabled;
    if (enabled : bool) then err ALREADY_ACTIVE
    else
      zoom monS (dp_set_capture_hdr_config (cq_dst_addr6 request) (cq_udp_src_port request) (cq_udp_dst_port request));;
      status ← capture_interfaces (cq_interfaces request) DP_GRPC_OK;
      if DP_FAILED status then
        ret ← disable_all;
        mret (if DP_FAILED ret then DP_GRPC_ERR ROLLBACK else status, RepNone)
      else zoom monS (dp_set_capture_enabled true);; mret (status, RepNone).

Definition dp_process_capture_stop : handler :=
  enabled ← zoom monS dp_is_capture_enabled;
  if negb enabled then err NOT_ACTIVE
  else
    ret ← disable_all;
    if DP_FAILED ret then mret (ret, RepNone)
    else zoom monS (dp_set_capture_enabled false);; mret (DP_GRPC_OK, RepCaptureStop (u16 ret)).

(** The captured ports in order, [None] when there are more than a reply holds. *)
Fixpoint captured_interfaces (pf0 : option nat) (p : nat) (ports : list dp_port) (acc : list dpgrpc_capture_interface) :
    option (list dpgrpc_capture_interface) :=
  match ports with
  | [] => Some acc
  | port :: ports =>
      if negb (pt_allocated port) || negb (pt_captured port) then captured_interfaces pf0 (S p) ports acc
      else if DP_CAPTURE_MAX_PORT_NUM <=? Z.of_nat (length acc) then None
      else
        let i := if pt_is_pf port then CapturePf (if bool_decide (pf0 = Some p) then 0 else 1)
                 else CaptureVf (if_id (pt_iface port)) in
        captured_interfaces pf0 (S p) ports (acc ++ [i])
  end.

Definition dp_process_capture_status : handler :=
  enabled ← zoom monS dp_is_capture_enabled;
  if negb enabled then mret (DP_GRPC_OK, RepCapture None)
  else
    cfg ← zoom monS dp_get_capture_hdr_config;
    ports ← zoom portsS (gets ps_ports);
    pf0 ← zoom portsS dp_get_pf0;
    match captured_interfaces pf0 0 ports [] with
    | None => err LIMIT_REACHED
    | Some l =>
        mret (DP_GRPC_OK, RepCapture (Some (MkCaptureReq (ch_node_ipv6_addr cfg) (ch_udp_src_port cfg)
                                              (ch_udp_dst_port cfg) l)))
    end.
End service.

(** ** Listings and the dispatch *)

(** The requests that have a handler; any other type is [ReqOther].  A request
    that lists carries what it lists by. *)
Inductive dpgrpc_request :=
  | ReqInitialize
  | ReqGetVersion
  | ReqCreateInterface (r : iface_request)
  | ReqDeleteInterface (iface_id : list Z)
  | ReqGetInterface (iface_id : list Z)
  | ReqListInterfaces
  | ReqCreatePrefix (r : dpgrpc_prefix)
  | ReqDeletePrefix (r : dpgrpc_prefix)
  | ReqListPrefixes (iface_id : list Z)
  | ReqCreateRoute (r : dpgrpc_route)
  | ReqDeleteRoute (r : dpgrpc_route)
  | ReqListRoutes (vni : Z)
  | ReqCreateVip (r : vip_request)
  | ReqDeleteVip (iface_id : list Z)
  | ReqGetVip (iface_id : list Z)
  | ReqCreateNat (r : nat_request)
  | ReqDeleteNat (iface_id : list Z)
  | ReqGetNat (iface_id : list Z)
  | ReqCreateNeighborNat (r : nat_request)
  | ReqDeleteNeighborNat (r : nat_request)
  | ReqListLocalNats (r : dp_ip_address)
  | ReqListNeighborNats (r : dp_ip_address)
  | ReqCreateLoadBalancer (r : dpgrpc_lb)
  | ReqDeleteLoadBalancer (lb_id : list Z)
  | ReqGetLoadBalancer (lb_id : list Z)
  | ReqCreateLoadBalancerTarget (r : dpgrpc_lb_target)
  | ReqDeleteLoadBalancerTarget (r : dpgrpc_lb_target)
  | ReqListLoadBalancerTargets (lb_id : list Z)
  | ReqCreateLoadBalancerPrefix (r : dpgrpc_prefix)
  | ReqDeleteLoadBalancerPrefix (r : dpgrpc_prefix)
  | ReqListLoadBalancerPrefixes (iface_id : list Z)
  | ReqCreateFirewallRule (r : dpgrpc_fwrule)
  | ReqDeleteFirewallRule (r : dpgrpc_fwrule_id)
  | ReqGetFirewallRule (r : dpgrpc_fwrule_id)
  | ReqListFirewallRules (iface_id : list Z)
  | ReqCheckVniInUse (r : dpgrpc_vni)
  | ReqResetVni (r : dpgrpc_vni)
  | ReqCaptureStart (r : dpgrpc_capture)
  | ReqCaptureStop
  | ReqCaptureStatus
  | ReqOther.

(** The packets sent back, by the type of their messages. *)
Inductive dp_response :=
  | Single (l : list (dpgrpc_reply single_reply))
  | Ifaces (l : list (dpgrpc_reply iface_reply))
  | Routes (l : list (dpgrpc_reply route_reply))
  | Prefixes (l : list (dpgrpc_reply vnf_route))
  | Nats (l : list (dpgrpc_reply dpgrpc_nat))
  | LbTargets (l : list (dpgrpc_reply dp_ip_address))
  | Fwrules (l : list (dpgrpc_reply dp_fwall_rule)).

(** The sizes of the messages and of the buffer, and how many packets the ring
    takes. *)
Record grpc_env `{RteMempool} := MkGrpcEnv {
  ge_mempool : mempool_state;
  ge_room : Z;
  ge_sizeof_reply : Z;
  ge_sizeof_iface : Z;
  ge_sizeof_route : Z;
  ge_sizeof_nat : Z;
  ge_sizeof_lbtrgt : Z;
  ge_sizeof_fwrule : Z;
  ge_enqueue : Z → Z
}.

Section dispatch.
Context `{HH : RteHash} `{HM : RteMalloc} `{HR : RteRib} `{HF : RteFlow} `{HE : RteEth} `{HP : RteMempool}.
Context (conf : dp_conf) (DP_SERVICE_VERSION : list Z) (env : grpc_env).

(** A listing reads the state and writes to the responder. *)
Definition lister (M : Type) : Type := service_state → cmd (dp_grpc_responder M) Z.

(** [dp_get_port_with_iface_id] and the check for NULL. *)
Definition list_with_port {M} (iface_id : list Z) (k : nat → dp_port → lister M) : lister M := λ s,
  match (p ← dp_get_port_with_iface_id iface_id;
         match p with None => mret None | Some p => port ← sv_port p; mret (Some (p, port)) end) s with
  | None => fault
  | Some (None, _) => mret (DP_GRPC_ERR NO_VM)
  | Some (Some (p, port), _) => k p port s
  end.

Definition dp_process_list_interfaces : lister iface_reply := λ s,
  dp_grpc_set_multireply (ge_sizeof_iface env);;
  reply_each (iface_reply_of <$> filter (λ port, if_ready (pt_iface port) = true) (ps_ports (lget portsS s))).

Definition dp_process_list_routes (fuel : nat) (vni : Z) : lister route_reply := λ s,
  match sv_pf0 s with
  | None => fault
  | Some (pf0, _) => dp_list_routes fuel (ge_sizeof_route env) (lget portsS s) (lget vniS s) pf0 vni true
  end.

Definition dp_process_list_lbtargets (lb_id : list Z) : lister dp_ip_address := λ s,
  dp_get_lb_back_ips (ge_sizeof_lbtrgt env) lb_id (lget lbS s).

Definition dp_process_list_fwrules (iface_id : list Z) : lister dp_fwall_rule :=
  list_with_port iface_id (λ p _ s, dp_list_firewall_rules (ge_sizeof_fwrule env) p (lget portsS s)).

Definition dp_process_list_lbprefixes (iface_id : list Z) : lister vnf_route :=
  list_with_port iface_id (λ _ port s,
    dp_list_vnf_alias_prefixes (ge_sizeof_route env) (pt_port_id port) DP_VNF_TYPE_LB_ALIAS_PFX (lget vnfS s)).

Definition dp_process_list_prefixes (iface_id : list Z) : lister vnf_route :=
  list_with_port iface_id (λ _ port s,
    dp_list_vnf_alias_prefixes (ge_sizeof_route env) (pt_port_id port) DP_VNF_TYPE_ALIAS_PFX (lget vnfS s)).

Definition dp_process_list_localnats (request : dp_ip_address) : lister dpgrpc_nat := λ s,
  if is_v6 request then mret (DP_GRPC_ERR BAD_IPVER)
  else dp_list_nat_local_entries (ge_sizeof_nat env) (ipv4 request) (lget natS s).

Definition dp_process_list_neighnats (request : dp_ip_address) : lister dpgrpc_nat := λ s,
  if is_v6 request then mret (DP_GRPC_ERR BAD_IPVER)
  else dp_list_nat_neigh_entries (ge_sizeof_nat env) (ipv4 request) (lget natS s).

(** The code that is sent for a return value, [None] being the assertion that an
    error is one of the API. *)
Definition reply_code (ret : Z) : option Z := if DP_FAILED ret then dp_errcode_to_grpc_errcode ret else Some ret.

Definition new_responder {M} : dp_grpc_responder M :=
  dp_grpc_init_responder (MkReply false 0 0 ∅) (ge_mempool env) (ge_room env) (ge_sizeof_reply env).

Definition run_single (h : handler) : cmd service_state dp_response :=
  r ← h;
  match reply_code r.1, dp_grpc_single_reply r.2 new_responder with
  | Some code, Some (_, resp) => mret (Single (dp_grpc_send_response (ge_enqueue env) code resp))
  | _, _ => fault
  end.

Definition run_list {M} (mk : list (dpgrpc_reply M) → dp_response) (l : lister M) : cmd service_state dp_response := λ s,
  match l s new_responder with
  | None => None
  | Some (ret, resp) =>
      match reply_code ret with
      | Some code => Some (mk (dp_grpc_send_response (ge_enqueue env) code resp), s)
      | None => None
      end
  end.

(** [fuel] bounds the routes of one network. *)
Definition dp_process_request (fuel : nat) (request : dpgrpc_request) : cmd service_state dp_response :=
  match request with
  | ReqInitialize => run_single dp_process_initialize
  | ReqGetVersion => run_single (dp_process_get_version DP_SERVICE_VERSION)
  | ReqCreateInterface r => run_single (dp_process_create_interface conf r)
  | ReqDeleteInterface id => run_single (dp_process_delete_interface conf id)
  | ReqGetInterface id => run_single (dp_process_get_interface id)
  | ReqListInterfaces => run_list Ifaces dp_process_list_interfaces
  | ReqCreatePrefix r => run_single (dp_process_create_prefix conf r)
  | ReqDeletePrefix r => run_single (dp_process_delete_prefix r)
  | ReqListPrefixes id => run_list Prefixes (dp_process_list_prefixes id)
  | ReqCreateRoute r => run_single (dp_process_create_route r)
  | ReqDeleteRoute r => run_single (dp_process_delete_route r)
  | ReqListRoutes vni => run_list Routes (dp_process_list_routes fuel vni)
  | ReqCreateVip r => run_single (dp_process_create_vip conf r)
  | ReqDeleteVip id => run_single (dp_process_delete_vip id)
  | ReqGetVip id => run_single (dp_process_get_vip id)
  | ReqCreateNat r => run_single (dp_process_create_nat conf r)
  | ReqDeleteNat id => run_single (dp_process_delete_nat id)
  | ReqGetNat id => run_single (dp_process_get_nat id)
  | ReqCreateNeighborNat r => run_single (dp_process_create_neighnat r)
  | ReqDeleteNeighborNat r => run_single (dp_process_delete_neighnat r)
  | ReqListLocalNats r => run_list Nats (dp_process_list_localnats r)
  | ReqListNeighborNats r => run_list Nats (dp_process_list_neighnats r)
  | ReqCreateLoadBalancer r => run_single (dp_process_create_lb conf r)
  | ReqDeleteLoadBalancer id => run_single (dp_process_delete_lb id)
  | ReqGetLoadBalancer id => run_single (dp_process_get_lb id no_lb)
  | ReqCreateLoadBalancerTarget r => run_single (dp_process_create_lbtarget r)
  | ReqDeleteLoadBalancerTarget r => run_single (dp_process_delete_lbtarget r)
  | ReqListLoadBalancerTargets id => run_list LbTargets (dp_process_list_lbtargets id)
  | ReqCreateLoadBalancerPrefix r => run_single (dp_process_create_lbprefix conf r)
  | ReqDeleteLoadBalancerPrefix r => run_single (dp_process_delete_lbprefix r)
  | ReqListLoadBalancerPrefixes id => run_list Prefixes (dp_process_list_lbprefixes id)
  | ReqCreateFirewallRule r => run_single (dp_process_create_fwrule r)
  | ReqDeleteFirewallRule r => run_single (dp_process_delete_fwrule r)
  | ReqGetFirewallRule r => run_single (dp_process_get_fwrule r)
  | ReqListFirewallRules id => run_list Fwrules (dp_process_list_fwrules id)
  | ReqCheckVniInUse r => run_single (dp_process_check_vniinuse r)
  | ReqResetVni r => run_single (dp_process_reset_vni r)
  | ReqCaptureStart r => run_single (dp_process_capture_start conf r)
  | ReqCaptureStop => run_single (dp_process_capture_stop conf)
  | ReqCaptureStatus => run_single dp_process_capture_status
  | ReqOther => run_single (err BAD_REQUEST)
  end.
End dispatch.

(** ** Facts *)

Section service_facts.
Context `{HH : RteHash} {HO : RteHashOk} `{HM : RteMalloc} {MO : RteMallocOk} `{HR : RteRib} `{HF : RteFlow} `{HE : RteEth}.
Context (conf : dp_conf).
Implicit Types (s : service_state) (p : nat).

(** *** Underlay addresses *)

(** What generating an address leaves alone. *)
Record same_tables s s' : Prop := {
  st_conn : sv_conn s' = sv_conn s;
  st_lb : sv_lb s' = sv_lb s;
  st_vni : sv_vni s' = sv_vni s;
  st_iface : sv_iface_id_table s' = sv_iface_id_table s;
  st_hw : sv_hw s' = sv_hw s;
  st_eth : sv_eth s' = sv_eth s;
  st_mon : sv_mon s' = sv_mon s
}.

(** The value the counter is going to have. *)
Definition counter_start s : Z :=
  if sv_pfx_counter s =? 0 then hd 0 (tl (sv_rand s)) mod 256 else sv_pfx_counter s.
Definition next_counter s : Z := u32 (counter_start s + 1).

Lemma wp_generate s (Q : Z → service_state → Prop) :
  (∀ s' b, is_u8 b → same_tables s s' → sv_pfx_counter s' = next_counter s →
     Q (underlay_ipv6 (cf_underlay_ip conf) b (next_counter s)) s') →
  wp (dp_generate_underlay_ipv6 conf) Q s.
Proof.
  intros HQ. unfold dp_generate_underlay_ipv6, rand, next_counter, counter_start in *. unfold wp, mbind, cmd_bind. cbn.
  destruct (sv_pfx_counter s =? 0); cbn; apply HQ; try done; unfold is_u8, u8; apply Z.mod_pos_bound; lia.
Qed.

(** The addresses that [n] calls in a row give. *)
Fixpoint generate (n : nat) : cmd service_state (list Z) :=
  match n with
  | O => mret []
  | S n => a ← dp_generate_underlay_ipv6 conf; l ← generate n; mret (a :: l)
  end.

Definition counter_of (a : Z) : Z := ntohl (a / 2 ^ 96).
(** The host's half is that of the configured address, the three bytes after it
    are zero. *)
Definition in_host (a : Z) : Prop := a mod 2 ^ 64 = cf_underlay_ip conf mod 2 ^ 64 ∧ a / 2 ^ 64 mod 2 ^ 24 = 0.

Lemma underlay_ipv6_parts b c :
  is_u8 b → is_u32 c →
  in_host (underlay_ipv6 (cf_underlay_ip conf) b c) ∧ counter_of (underlay_ipv6 (cf_underlay_ip conf) b c) = c.
Proof.
  intros Hb Hc. unfold in_host, counter_of, underlay_ipv6. pose proof (bswap32_range c) as Hh.
  unfold is_u8, is_u32 in *. set (h := bswap32 c) in *.
  pose proof (Z.mod_pos_bound (cf_underlay_ip conf) (2 ^ 64) eq_refl) as Hm.
  set (m := cf_underlay_ip conf mod 2 ^ 64) in *.
  assert (E : m + b * 2 ^ 88 + h * 2 ^ 96 = m + 2 ^ 64 * (2 ^ 24 * (b + 2 ^ 8 * h))) by lia.
  assert (E' : (m + b * 2 ^ 88 + h * 2 ^ 96) / 2 ^ 64 = 2 ^ 24 * (b + 2 ^ 8 * h)).
  { rewrite E, Z.add_comm, (Z.mul_comm (2 ^ 64)), Z.div_add_l by lia. rewrite (Z.div_small m); lia. }
  split; [split|].
  - rewrite E, Z.add_comm, (Z.mul_comm (2 ^ 64)), Z.add_comm, Z.mod_add by lia. by apply Z.mod_small.
  - rewrite E', Z.mul_comm. by apply Z.mod_mul.
  - assert ((m + b * 2 ^ 88 + h * 2 ^ 96) / 2 ^ 96 = h) as ->.
    { rewrite Z.div_add by lia. rewrite Z.div_small; [lia|]. lia. }
    by apply bswap32_involutive.
Qed.

Lemma wp_generate_list n s :
  0 ≤ counter_start s → counter_start s + Z.of_nat n < 2 ^ 32 →
  wp (generate n) (λ l _, counter_of <$> l = seqZ (counter_start s + 1) (Z.of_nat n) ∧ Forall in_host l) s.
Proof.
  revert s. induction n as [|n IH]; intros s H0 Hn; simpl; [by apply wp_ret|].
  assert (Hu : next_counter s = counter_start s + 1) by (unfold next_counter; apply u32_id; unfold is_u32; lia).
  apply wp_bind, wp_generate. intros s1 b Hb _ Hc1. rewrite Hu in *.
  assert (Hst : counter_start s1 = counter_start s + 1).
  { unfold counter_start at 1. rewrite Hc1, (proj2 (Z.eqb_neq _ _)) by lia. done. }
  apply wp_bind. eapply wp_mono; [apply IH; lia|]. cbn beta. intros l s2 [Hl Hf]. apply wp_ret.
  destruct (underlay_ipv6_parts b (counter_start s + 1)) as [Hh Hk]; [done|unfold is_u32; lia|].
  split; [|by constructor]. rewrite fmap_cons, Hk, Hl, Hst. rewrite (seqZ_cons _ (Z.of_nat (S n))) by lia.
  f_equal. f_equal; lia.
Qed.

(** The underlay addresses generated one after the other are pairwise
    different, until the 32-bit counter wraps, and all lie in the prefix of the
    host. *)
Theorem underlay_unique n s :
  is_u32 (sv_pfx_counter s) → Z.max 255 (sv_pfx_counter s) + Z.of_nat n < 2 ^ 32 →
  wp (generate n) (λ l _, length l = n ∧ NoDup l ∧ Forall in_host l) s.
Proof.
  intros Hc Hn. assert (Hst : 0 ≤ counter_start s ≤ Z.max 255 (sv_pfx_counter s)).
  { unfold counter_start, is_u32 in *. case_match; [|lia].
    pose proof (Z.mod_pos_bound (hd 0 (tl (sv_rand s))) 256 eq_refl). lia. }
  eapply wp_mono; [apply wp_generate_list; lia|]. cbn beta. intros l _ [Hl Hf]. split_and!; [| |done].
  - apply (f_equal length) in Hl. rewrite length_fmap, length_seqZ in Hl. lia.
  - apply (NoDup_fmap_1 counter_of). rewrite Hl. apply NoDup_seqZ.
Qed.

(** *** Capture *)

Lemma disable_all_service s :
  disable_all conf s
  = Some (if existsb captured_port (ps_ports (lget portsS s)) then DP_GRPC_ERR ALREADY_ACTIVE else 0, s).
Proof.
  unfold disable_all. rewrite (bind_eq _ _ s (mo_capture_hdr_config (sv_mon s)) s) by (apply (zoom_read monS); reflexivity).
  apply (zoom_read porthwS), disable_all_eq.
Qed.

(** A request to stop the capture never stops one: while a port is captured it
    is refused with [ALREADY_ACTIVE] and nothing changes, so the capture stays
    on; only a capture without any port can be ended. *)
Theorem capture_stop_spec s :
  dp_process_capture_stop conf s
  = Some (if negb (mo_capture_enabled (sv_mon s)) then ((DP_GRPC_ERR NOT_ACTIVE, RepNone), s)
          else if existsb captured_port (ps_ports (lget portsS s)) then ((DP_GRPC_ERR ALREADY_ACTIVE, RepNone), s)
          else ((DP_GRPC_OK, RepCaptureStop 0), s <| sv_mon := (sv_mon s) <| mo_capture_enabled := false |> |>)).
Proof.
  unfold dp_process_capture_stop.
  rewrite (bind_eq _ _ s (mo_capture_enabled (sv_mon s)) s) by (apply (zoom_read monS); reflexivity).
  destruct (mo_capture_enabled (sv_mon s)); [|done]. cbn [negb]. rewrite (bind_eq _ _ _ _ _ (disable_all_service s)).
  by destruct (existsb _ _).
Qed.

(** A request to start a capture that names, first, an interface nobody knows
    makes the service dereference a NULL pointer, in the message that reports
    it. *)
Theorem capture_start_unknown s request id l :
  cf_offload_enabled conf = true → mo_capture_enabled (sv_mon s) = false →
  cq_interfaces request = CaptureVf id :: l → iface_ids s !! id = None →
  dp_process_capture_start conf request s = None.
Proof.
  intros Hoff Hen Hl Hid. unfold dp_process_capture_start. rewrite Hoff, Hl. cbn [negb].
  rewrite (bind_eq _ _ s (mo_capture_enabled (sv_mon s)) s) by (apply (zoom_read monS); reflexivity). rewrite Hen.
  unfold mbind, cmd_bind. cbn [zoom lget monS dp_set_capture_hdr_config modify capture_interfaces capture_port].
  unfold mbind, cmd_bind. rewrite get_port_with_iface_id_eq. unfold iface_ids in *. cbn. by rewrite Hid.
Qed.

(** *** Virtual and NAT addresses *)

Lemma with_port_eq s id p port e k :
  iface_ids s !! id = Some p → ps_ports (lget portsS s) !! p = Some port → with_port id e k s = k p port s.
Proof.
  intros Hid Hp. unfold with_port. rewrite (bind_eq _ _ _ _ _ (get_port_with_iface_id_eq s id)), Hid.
  apply bind_eq. apply (zoom_read portsS). unfold get_port. by rewrite Hp.
Qed.

(** The tables behind the addresses of an interface. *)
Record addr_ok s : Prop := {
  ao_vnf : vnf_inv (lget vnfS s);
  ao_snat : snat_inv (lget natS s);
  ao_dnat : wf (ipv4_dnat_tbl (lget natS s))
}.

(** What adding an address to an interface leaves alone. *)
Record addr_frame s s' : Prop := {
  af_flow : cs_flow (sv_conn s') = cs_flow (sv_conn s);
  af_lb : sv_lb s' = sv_lb s;
  af_vni : sv_vni s' = sv_vni s;
  af_iface : sv_iface_id_table s' = sv_iface_id_table s;
  af_headp : nat_headp (lget natS s') = nat_headp (lget natS s)
}.
Global Instance addr_frame_preorder : PreOrder addr_frame.
Proof. split; [by intros s|]. intros s1 s2 s3 [] []. constructor; congruence. Qed.

Definition same_vnfs s s' : Prop :=
  handles (lget vnfS s') = handles (lget vnfS s) ∧ values (lget vnfS s') = values (lget vnfS s).
Definition same_nats s s' : Prop :=
  abs_snats (lget natS s') = abs_snats (lget natS s) ∧ dnats (lget natS s') = dnats (lget natS s).

Lemma wp_create_vnf_route s type vni port pfx len (Q : Z * Z → service_state → Prop) :
  addr_ok s → values (lget vnfS s) !! MkVnf type vni (pt_port_id port) pfx len = None →
  (∀ ul s', addr_ok s' → addr_frame s s' → lget portsS s' = lget portsS s → lget natS s' = lget natS s →
     same_vnfs s s' → Q (DP_ERROR, ul) s') →
  (∀ ul s', addr_ok s' → addr_frame s s' → lget portsS s' = lget portsS s → lget natS s' = lget natS s →
     handles (lget vnfS s) !! ul = None →
     handles (lget vnfS s') = <[ul := MkVnf type vni (pt_port_id port) pfx len]> (handles (lget vnfS s)) →
     values (lget vnfS s') = <[MkVnf type vni (pt_port_id port) pfx len := ul]> (values (lget vnfS s)) →
     Q (DP_OK, ul) s') →
  wp (dp_create_vnf_route conf type vni port pfx len) Q s.
Proof.
  intros [Hvnf Hsnat Hdnat] Hv He Hs. unfold dp_create_vnf_route. apply wp_bind, wp_generate.
  intros s1 b _ [Hc1 Hl1 Hn1 Hi1 _ _ _] _. set (ul := underlay_ipv6 _ _ _).
  assert (Hvs : lget vnfS s1 = lget vnfS s) by (cbn; by rewrite Hc1).
  apply wp_bind, wp_zoom. rewrite Hvs. eapply wp_mono; [by apply wp_add_vnf|]. cbn beta.
  intros ret v' [Hv' [(-> & Hnone & Hh & Hval)|(-> & Hh & Hval)]]; apply wp_ret; [apply Hs|apply He];
    try done; cbn; try (by rewrite Hc1); try constructor; cbn; rewrite ?Hc1; try done.
Qed.

(** Undoing it. *)
Lemma wp_del_vnf_again s ul vnf (Q : () → service_state → Prop) :
  addr_ok s → handles (lget vnfS s) !! ul = Some vnf →
  (∀ s', addr_ok s' → addr_frame s s' → lget portsS s' = lget portsS s → lget natS s' = lget natS s →
     handles (lget vnfS s') = delete ul (handles (lget vnfS s)) →
     values (lget vnfS s') = delete vnf (values (lget vnfS s)) → Q tt s') →
  wp (dp_del_vnf_ ul) Q s.
Proof.
  intros [Hvnf Hsnat Hdnat] Hul HQ. unfold dp_del_vnf_. apply wp_bind, wp_zoom.
  eapply wp_mono; [by apply wp_del_vnf_known|]. cbn beta. intros ret v' [Hv' Hm]. rewrite Hul in Hm.
  destruct Hm as (-> & Hh & Hval). apply wp_ret, HQ; try done; by constructor.
Qed.

(** Setting an address and deleting it again. *)
Lemma snat_set_del_vip (s : nat_state) k vip ul :
  snat_inv s → (snat_req_spec (SetVip vip ul) (abs_snats s !! k)).1 = DP_GRPC_OK →
  partial_alter (λ e, (snat_req_spec DelVip e).2) k
    (partial_alter (λ e, (snat_req_spec (SetVip vip ul) e).2) k (abs_snats s)) = abs_snats s.
Proof.
  intros Hs Hok. apply map_eq. intros k'. destruct (decide (k = k')) as [<-|Hne]; [|by rewrite !lookup_partial_alter_ne].
  rewrite !lookup_partial_alter_eq. rewrite lookup_abs_snats in *.
  destruct (snats s !! k) as [d|] eqn:Hd; simpl in *; [|done].
  destruct (sni_used s Hs k d Hd) as [Hu|Hu]; rewrite (proj2 (Z.eqb_neq _ _) Hu) in *; [done|].
  simpl in *. destruct (sd_vip_ip d =? 0) eqn:Hz; [|done]. simpl in *.
  unfold abs_snat. by rewrite Hz, (proj2 (Z.eqb_neq _ _) Hu).
Qed.

Lemma snat_refused (s : nat_state) k vip ul :
  DP_FAILED (snat_req_spec (SetVip vip ul) (abs_snats s !! k)).1 = true →
  partial_alter (λ e, (snat_req_spec (SetVip vip ul) e).2) k (abs_snats s) = abs_snats s.
Proof.
  intros Hf. apply map_eq. intros k'. destruct (decide (k = k')) as [<-|Hne]; [|by rewrite lookup_partial_alter_ne].
  rewrite lookup_partial_alter_eq. simpl in *. by destruct (ss_vip _).
Qed.

Lemma snat_accepted (e : option snat_spec) vip ul :
  DP_FAILED (snat_req_spec (SetVip vip ul) e).1 = false → (snat_req_spec (SetVip vip ul) e).1 = DP_GRPC_OK.
Proof. simpl. by destruct (ss_vip _). Qed.

Lemma snat_set_some (e : option snat_spec) vip ul :
  (snat_req_spec (SetVip vip ul) e).1 = DP_GRPC_OK → (snat_req_spec (SetVip vip ul) e).2 ≠ None.
Proof. simpl. by destruct (ss_vip _). Qed.

(** A request on the addresses of one interface. *)
Lemma wp_snat_service s (c : cmd nat_state Z) k req (Q : Z → service_state → Prop) :
  addr_ok s → (snat_inv (lget natS s) → wp c (snat_post (lget natS s) k req) (lget natS s)) →
  (∀ ret s', addr_ok s' → addr_frame s s' → lget portsS s' = lget portsS s → lget vnfS s' = lget vnfS s →
     dnats (lget natS s') = dnats (lget natS s) →
     snat_post (lget natS s) k req ret (lget natS s') → Q ret s') →
  wp (zoom natS c) Q s.
Proof.
  intros [Hvnf Hsnat Hdnat] Hc HQ. apply wp_zoom. eapply wp_mono; [by apply Hc|]. intros ret n' Hpost.
  pose proof Hpost as (Hn' & [t ->] & _). apply HQ; try done; by constructor.
Qed.

Lemma wp_dnat_service s ip dip vni (Q : Z → service_state → Prop) :
  addr_ok s →
  (∀ ret s', addr_ok s' → addr_frame s s' → lget portsS s' = lget portsS s → lget vnfS s' = lget vnfS s →
     abs_snats (lget natS s') = abs_snats (lget natS s) →
     match dnats (lget natS s) !! MkNatKey ip vni with
     | Some _ => ret = DP_GRPC_ERR DNAT_EXISTS ∧ dnats (lget natS s') = dnats (lget natS s)
     | None => (ret = DP_GRPC_OK ∧ dnats (lget natS s') = <[MkNatKey ip vni := MkDnat dip]> (dnats (lget natS s)))
               ∨ (ret = DP_GRPC_ERR DNAT_CREATE ∧ dnats (lget natS s') = dnats (lget natS s))
     end → Q ret s') →
  wp (zoom natS (dp_set_dnat_ip ip dip vni)) Q s.
Proof.
  intros [Hvnf Hsnat Hdnat] HQ. apply wp_zoom. eapply wp_mono; [by apply wp_set_dnat_ip|]. cbn beta.
  intros ret n' (t & -> & Ht & Hm). apply HQ; try done; constructor; try done.
  destruct Hsnat. by constructor.
Qed.

(** The first step of a handler is undone after others that left the functions
    alone and whose effect on the addresses was undone too. *)
Lemma wp_undo_vnf s s1 ul vnf s2 (Q : () → service_state → Prop) :
  addr_frame s s1 → lget portsS s1 = lget portsS s → lget natS s1 = lget natS s →
  handles (lget vnfS s) !! ul = None → values (lget vnfS s) !! vnf = None →
  handles (lget vnfS s1) = <[ul := vnf]> (handles (lget vnfS s)) →
  values (lget vnfS s1) = <[vnf := ul]> (values (lget vnfS s)) →
  addr_ok s2 → addr_frame s1 s2 → lget portsS s2 = lget portsS s1 → lget vnfS s2 = lget vnfS s1 → same_nats s1 s2 →
  (∀ s3, addr_ok s3 ∧ addr_frame s s3 ∧ lget portsS s3 = lget portsS s ∧ same_vnfs s s3 ∧ same_nats s s3 → Q tt s3) →
  wp (dp_del_vnf_ ul) Q s2.
Proof.
  intros Hf1 Hp1 Hn1 Hnone Hv Hh1 Hv1 Hok2 Hf2 Hp2 Hvn2 [Hna2 Hnb2] HQ.
  eapply wp_del_vnf_again; [done|by rewrite Hvn2, Hh1, lookup_insert_eq|].
  intros s3 Hok3 Hf3 Hp3 Hn3 Hh3 Hv3. apply HQ. split_and!; [done|by do 2 (etrans; [eassumption|])|congruence|..].
  - unfold same_vnfs. rewrite Hh3, Hv3, Hvn2, Hh1, Hv1. split; by apply delete_insert_id.
  - unfold same_nats. rewrite Hn3, Hna2, Hnb2, Hn1. done.
Qed.

Definition iface_key (port : dp_port) : nat_key := MkNatKey (cfg_own_ip (if_cfg (pt_iface port))) (if_vni (pt_iface port)).
Definition vip_vnf (port : dp_port) : dp_vnf := MkVnf DP_VNF_TYPE_VIP (if_vni (pt_iface port)) (pt_port_id port) (MkIp 0 false) 0.

(** The addresses of [s'] are those of [s] with a VIP for the interface of [port]. *)
Definition vip_added s port (vip ul : Z) s' : Prop :=
  handles (lget vnfS s) !! ul = None
  ∧ handles (lget vnfS s') = <[ul := vip_vnf port]> (handles (lget vnfS s))
  ∧ values (lget vnfS s') = <[vip_vnf port := ul]> (values (lget vnfS s))
  ∧ abs_snats (lget natS s')
    = partial_alter (λ e, (snat_req_spec (SetVip vip ul) e).2) (iface_key port) (abs_snats (lget natS s))
  ∧ dnats (lget natS s) !! MkNatKey vip (if_vni (pt_iface port)) = None
  ∧ dnats (lget natS s') = <[MkNatKey vip (if_vni (pt_iface port)) := MkDnat (cfg_own_ip (if_cfg (pt_iface port)))]>
                             (dnats (lget natS s)).

End service_facts.

(** *** Prefixes *)

Section prefix_facts.
Context `{HH : RteHash} {HO : RteHashOk} `{HM : RteMalloc} {MO : RteMallocOk} `{HR : RteRib} {RO : RteRibOk} `{HF : RteFlow} `{HE : RteEth}.
Context (conf : dp_conf).
Implicit Types (s : service_state) (p : nat).

Definition fam_of (addr : dp_ip_address) : rib_family := if is_v6 addr then Rib6 else Rib4.
Definition ip_of (addr : dp_ip_address) : Z := if is_v6 addr then ipv6 addr else ipv4 addr.

Lemma grpc_add_route_eq port vni t_vni addr t_ip6 depth :
  dp_grpc_add_route port vni t_vni addr t_ip6 depth
  = zoom vniS (dp_add_route (fam_of addr) port vni t_vni (ip_of addr) t_ip6 depth).
Proof. unfold dp_grpc_add_route, fam_of, ip_of. by destruct (is_v6 addr). Qed.

Lemma grpc_del_route_eq port vni addr depth :
  dp_grpc_del_route port vni addr depth = zoom vniS (dp_del_route (fam_of addr) port vni (ip_of addr) depth).
Proof. unfold dp_grpc_del_route, fam_of, ip_of. by destruct (is_v6 addr). Qed.

Definition same_routes s s' : Prop := ∀ fam vni, vni_routes fam (sv_vni s') vni = vni_routes fam (sv_vni s) vni.
Definition pfx_vnf (port : dp_port) (request : dpgrpc_prefix) : dp_vnf :=
  MkVnf DP_VNF_TYPE_ALIAS_PFX (if_vni (pt_iface port)) (pt_port_id port) (px_addr request) (px_length request).

(** A route that cannot be added leaves all of them as they were. *)
Lemma add_route_refused fam v v' port vni t_vni ip t_ip6 depth ret :
  on_table fam v v' vni ret (add_route_spec fam port t_vni ip t_ip6 depth) → vni_inv v → DP_FAILED ret = true →
  vni_inv v' ∧ ∀ fam' vni', vni_routes fam' v' vni' = vni_routes fam' v vni'.
Proof.
  unfold on_table. destruct (vni_routes fam v vni) as [m|] eqn:Hm; [|by intros [_ ->]]. intros (m' & Hspec & Hu) _ Hf.
  assert (m' = m) as ->.
  { unfold add_route_spec in Hspec. destruct (m !! _); [by destruct Hspec|]. destruct Hspec as [[_ ?]|[-> _]]; done. }
  split; [apply Hu|]. intros fam' vni'. destruct (decide (fam' = fam ∧ vni' = vni)) as [[-> ->]|Hne].
  - by rewrite (rt_routes _ _ _ _ _ Hu), Hm.
  - apply (rt_other _ _ _ _ _ Hu). destruct (decide (fam' = fam)); naive_solver.
Qed.

End prefix_facts.

(** ** Concrete runs *)

Section service_examples.
#[local] Existing Instances test_hash test_hash_ok test_malloc test_malloc_ok test_rib test_rib_ok test_rteflow test_eth.

(** One interface, "i", on the second port. *)
Definition ex_sv_port : dp_port :=
  zero_port <| pt_port_id := 1 |> <| pt_allocated := true |>
    <| pt_iface := zero_iface <| if_vni := 100 |> <| if_ready := true |>
                     <| if_cfg := zero_iface_cfg <| cfg_own_ip := 10 |> |> |>.
Definition ex_service : service_state :=
  MkService (MkConnState (cs_flow ex_conn) ex_nat_empty ex_vnf_empty
      (MkPorts [ex_cap_pf; ex_sv_port] {[0 := 0%nat; 1 := 1%nat]} [0%nat] (Heap (H := test_malloc) ∅ [])))
    ex_tables ex_vni_empty ({[ [105] := 1%nat ]} : gmap (list Z) nat)
    (MkHw ∅ []) ex_dev_eth 2 1 (MkMonitoring (MkCaptureHdr 0 0 0) false) 0 [7; 9; 11].

Definition ex_vip_req : vip_request := MkVipReq (DP_SET_IPADDR4 50) [105].

Lemma ex_service_ok : addr_ok ex_service.
Proof.
  constructor; [exact ex_vnf_empty_inv|exact ex_nat_empty_inv|].
  by apply (ot_create_wf (HM := test_malloc) 1 ([] : list bool)).
Qed.


(** A prefix 10.0.0.0/8 for the interface, in a network that has its tables. *)
Definition ex_pfx_req : dpgrpc_prefix := MkPrefix [105] (DP_SET_IPADDR4 (RTE_IPV4 10 0 0 0)) 8.
Definition ex_service_100 : service_state := ex_service <| sv_vni := ex_vni_100 |>.


Lemma underlay_unique_witness :
  wp (generate ex_conf 3) (λ l _, length l = 3%nat ∧ NoDup l ∧ Forall (in_host ex_conf) l) ex_service.
Proof. apply (underlay_unique ex_conf 3 ex_service); [split; reflexivity || discriminate|reflexivity]. Defined.

Lemma capture_start_unknown_witness :
  dp_process_capture_start ex_conf (MkCaptureReq 7 3000 3001 [CaptureVf [120]]) ex_service = None.
Proof.
  apply (capture_start_unknown ex_conf ex_service (MkCaptureReq 7 3000 3001 [CaptureVf [120]]) [120] []); reflexivity.
Defined.

(** The same request twice: its second answer, and what is known of the network
    function of the interface after the first and after the second. *)
Definition ex_vip_known (s : service_state) : bool * list dp_vnf :=
  (bool_decide (is_Some (values (lget vnfS s) !! vip_vnf ex_sv_port)), (map_to_list (handles (lget vnfS s))).*2).
Definition ex_vip_twice : cmd service_state ((bool * list dp_vnf) * (Z * single_reply) * (bool * list dp_vnf)) :=
  dp_process_create_vip ex_conf ex_vip_req;;
  once ← gets ex_vip_known;
  reply ← dp_process_create_vip ex_conf ex_vip_req;
  twice ← gets ex_vip_known;
  mret (once, reply, twice).

End service_examples.
