(* ===== verification/Startup.v ===== *)
(** * Start-up and shut-down (src/dp_service.c, dpdk_layer.c, dp_graph.c, dp_timers.c,
    src/grpc/dp_grpc_thread.cpp)

    The order in which the parts of the service are initialised and freed, for any
    outcome of each initialisation, and the timers.  That everything is freed again
    exactly once, or how it fails to be, is proved for whole runs of the service.

    A resource is what a successful initialisation leaves behind.  The state
    holds the live resources and notes when one is destroyed that is not live. *)

From S2P Require Import Prelude Dpdk Error Types Port Rib Lb Vnf Conn Mbuf Graph.

(** ** Timers *)

Definition TIMER_FLOW_AGING_INTERVAL : Z := 5.
Definition TIMER_DP_MAINTENANCE_INTERVAL : Z := 30.
Definition TIMER_DP_MAINTENANCE_STARTUP_INTERVAL : Z := 5.
Definition TIMER_DP_MAINTENANCE_STARTUP_CYCLES : Z := 5.
Definition TIMER_STATS_INTERVAL : Z := 1.
Definition NS_PER_S : Z := 1000000000.

Inductive dp_timer := dp_flow_aging_timer | dp_maintenance_timer | dp_stats_timer.
Inductive timer_cb := dp_flow_aging_timer_cb | dp_maintenance_startup_timer_cb | dp_maintenance_timer_cb | stats_cb.
Global Instance dp_timer_eq_dec : EqDecision dp_timer.
Proof. solve_decision. Defined.

(** [tm_running] are the timers with their period in cycles; [tm_counter] is the static
    variable of the callback. *)
Record timers_state := MkTimers {
  tm_manage_interval_cycles : Z;
  tm_maintenance_interval : Z;
  tm_counter : Z;
  tm_running : list (dp_timer * (Z * timer_cb))
}.
Global Instance timers_state_eta : Eta timers_state := λ r,
  MkTimers (tm_manage_interval_cycles r) (tm_maintenance_interval r) (tm_counter r) (tm_running r).

(** A timer that is reset replaces the one with its name. *)
Definition set_timer (t : dp_timer) (x : Z * timer_cb) (l : list (dp_timer * (Z * timer_cb))) : list (dp_timer * (Z * timer_cb)) :=
  (t, x) :: filter (λ y, y.1 ≠ t) l.
Definition timer_of (t : dp_timer) (s : timers_state) : option (Z * timer_cb) :=
  snd <$> head (filter (λ y, y.1 = t) (tm_running s)).

Section timers.
(** [rte_get_timer_hz()], the return value of [rte_timer_subsystem_init] and, for each
    timer, of [rte_timer_reset]. *)
Context (hz subsystem_ret : Z) (reset_ret : dp_timer → Z).

Definition rte_timer_reset (timer : dp_timer) (cycles : Z) (callback : timer_cb) : cmd timers_state Z :=
  (if DP_FAILED (reset_ret timer) then mret tt
   else modify (λ s, s <| tm_running := set_timer timer (cycles, callback) (tm_running s) |>));;
  mret (reset_ret timer).

Definition dp_timers_add (timer : dp_timer) (period : Z) (callback : timer_cb) : cmd timers_state Z :=
  let cycles := u64 (period * hz) in
  modify (λ s, if (tm_manage_interval_cycles s =? 0) || (cycles <? tm_manage_interval_cycles s)
               then s <| tm_manage_interval_cycles := cycles |> else s);;
  rte_timer_reset timer cycles callback.

Definition dp_timers_init : cmd timers_state Z :=
  if DP_FAILED subsystem_ret then mret subsystem_ret
  else
    ret ← dp_timers_add dp_flow_aging_timer TIMER_FLOW_AGING_INTERVAL dp_flow_aging_timer_cb;
    if DP_FAILED ret then mret DP_ERROR
    else
      interval ← gets tm_maintenance_interval;
      ret ← dp_timers_add dp_maintenance_timer interval dp_maintenance_startup_timer_cb;
      if DP_FAILED ret then mret DP_ERROR else mret DP_OK.

Definition dp_timers_add_stats : cmd timers_state Z :=
  ret ← dp_timers_add dp_stats_timer TIMER_STATS_INTERVAL stats_cb;
  if DP_FAILED ret then mret DP_ERROR else mret DP_OK.

Definition dp_timers_signal_initialization : cmd timers_state () :=
  modify (λ s, s <| tm_maintenance_interval := TIMER_DP_MAINTENANCE_INTERVAL |>).

(** The callback of the maintenance timer, after the messages were sent. *)
Definition maintenance_startup : cmd timers_state () :=
  s ← gets id;
  if (TIMER_DP_MAINTENANCE_STARTUP_INTERVAL <? tm_maintenance_interval s)
     && (tm_counter s <=? TIMER_DP_MAINTENANCE_STARTUP_CYCLES) then
    let counter := u32 (tm_counter s + 1) in
    modify (λ s, s <| tm_counter := counter |>);;
    if counter =? TIMER_DP_MAINTENANCE_STARTUP_CYCLES then
      rte_timer_reset dp_maintenance_timer (u64 (tm_maintenance_interval s * hz)) dp_maintenance_timer_cb;; mret tt
    else mret tt
  else mret tt.

(** The timer expires: the callback it has runs. *)
Definition maintenance_expires : cmd timers_state () :=
  cb ← gets (timer_of dp_maintenance_timer);
  match cb with
  | Some (_, dp_maintenance_startup_timer_cb) => maintenance_startup
  | _ => mret tt
  end.

Fixpoint expires (n : nat) : cmd timers_state () :=
  match n with O => mret tt | S n => maintenance_expires;; expires n end.
End timers.

(** The members of [struct timespec]. *)
Definition dp_nanosleep (ns : Z) : Z * Z :=
  if NS_PER_S <? ns then (ns / NS_PER_S, ns - ns / NS_PER_S * NS_PER_S) else (0, ns).

(** ** Resources *)

Inductive dp_ring := grpc_tx_queue | grpc_rx_queue | periodic_msg_queue | monitoring_rx_queue.
Inductive dp_part := P_PORTS | P_VIRTSVC | P_TELEMETRY | P_FLOW | P_IFACES | P_NAT | P_LB | P_VNI | P_VNF.

Inductive resource :=
  | R_MEMPOOL
  | R_RING (r : dp_ring)
  | R_TIMERS
  | R_PART (p : dp_part)
  | R_GRAPHTRACE
  | R_GRAPH (id : Z)
  | R_STATS
  | R_GRPC.
Global Instance dp_ring_eq_dec : EqDecision dp_ring.
Proof. solve_decision. Defined.
Global Instance dp_part_eq_dec : EqDecision dp_part.
Proof. solve_decision. Defined.
Global Instance resource_eq_dec : EqDecision resource.
Proof. solve_decision. Defined.

(** [bt_answers] are the return values of the calls still to come, zero when there
    are no more.  [bt_layer] are the members of [dp_layer] that are not NULL, and
    [bt_main_loops] counts the calls of [dp_dpdk_main_loop]. *)
Record boot_state := MkBoot {
  bt_answers : list Z;
  bt_live : list resource;
  bt_destroyed_dead : bool;
  bt_layer : list resource;
  bt_graph_id : option Z;
  bt_graph_stats : bool;
  bt_grpc_started : bool;
  bt_main_loops : nat
}.
Global Instance boot_state_eta : Eta boot_state := λ r,
  MkBoot (bt_answers r) (bt_live r) (bt_destroyed_dead r) (bt_layer r) (bt_graph_id r) (bt_graph_stats r)
    (bt_grpc_started r) (bt_main_loops r).

Definition answer : cmd boot_state Z := λ s,
  Some (default 0 (head (bt_answers s)), s <| bt_answers := tail (bt_answers s) |>).
Definition made (r : resource) : cmd boot_state () := modify (λ s, s <| bt_live := r :: bt_live s |>).

(** To destroy a resource that has to be live, and one that need not be. *)
Definition destroy (r : resource) : cmd boot_state () :=
  modify (λ s, if decide (r ∈ bt_live s) then s <| bt_live := filter (λ x, x ≠ r) (bt_live s) |>
               else s <| bt_destroyed_dead := true |>).
Definition release (r : resource) : cmd boot_state () :=
  modify (λ s, s <| bt_live := filter (λ x, x ≠ r) (bt_live s) |>).

(** An initialisation that returns a status. *)
Definition init (r : resource) : cmd boot_state Z :=
  ret ← answer; (if DP_FAILED ret then mret tt else made r);; mret ret.

(** [DP_FAILED(a) || DP_FAILED(b) || ...] *)
Fixpoint first_failed (l : list (cmd boot_state Z)) : cmd boot_state bool :=
  match l with
  | [] => mret false
  | c :: l => ret ← c; if DP_FAILED ret then mret true else first_failed l
  end.

(** ** The memory and rings (src/dpdk_layer.c) *)

Definition in_layer (r : resource) : cmd boot_state () := modify (λ s, s <| bt_layer := r :: bt_layer s |>).

(** [rte_ring_create] and [rte_pktmbuf_pool_create]: a negative answer is NULL. *)
Definition create_in_layer (r : resource) : cmd boot_state Z :=
  ret ← answer;
  if DP_FAILED ret then mret DP_ERROR else made r;; in_layer r;; mret DP_OK.
Definition ring_init (r : dp_ring) : cmd boot_state Z := create_in_layer (R_RING r).

(** The library ignores NULL. *)
Definition free_in_layer (r : resource) : cmd boot_state () :=
  s ← gets id; if decide (r ∈ bt_layer s) then destroy r else mret tt.

Definition dp_dpdk_layer_free : cmd boot_state () :=
  release R_TIMERS;;
  free_in_layer (R_RING monitoring_rx_queue);;
  free_in_layer (R_RING periodic_msg_queue);;
  free_in_layer (R_RING grpc_rx_queue);;
  free_in_layer (R_RING grpc_tx_queue);;
  free_in_layer R_MEMPOOL.

(** The second call is [dp_get_num_of_vfs]. *)
Definition dp_dpdk_layer_init_unsafe : cmd boot_state Z :=
  failed ← first_failed
    [create_in_layer R_MEMPOOL; answer; ring_init grpc_tx_queue; ring_init grpc_rx_queue; ring_init periodic_msg_queue;
     ring_init monitoring_rx_queue; init R_TIMERS];
  mret (if failed : bool then DP_ERROR else DP_OK).

Definition dp_dpdk_layer_init : cmd boot_state Z :=
  modify (λ s, s <| bt_layer := [] |>);;
  ret ← dp_dpdk_layer_init_unsafe;
  if DP_FAILED ret then dp_dpdk_layer_free;; mret DP_ERROR else mret DP_OK.

(** ** The graph (src/dp_graph.c) *)

(** The answer to [rte_graph_create] is the id, those to the export and to the lookup of
    the graph say whether they failed. *)
Definition dp_graph_create : cmd boot_state (option Z) :=
  graph_id ← answer;
  if DP_FAILED graph_id then mret None
  else
    made (R_GRAPH graph_id);;
    failed ← first_failed [answer; answer];
    mret (if failed : bool then None else Some graph_id).

Definition dp_graph_stats_create : cmd boot_state Z :=
  ret ← init R_STATS;
  if DP_FAILED ret then mret DP_ERROR else modify (λ s, s <| bt_graph_stats := true |>);; mret DP_OK.

(** [cores] is [rte_lcore_count()]; [stats] is whether statistics are enabled and
    available.  The calls before the graph is created are [dp_graphtrace_init] and
    [dp_graph_init_nodes]. *)
Definition dp_graph_init (cores : Z) (stats : bool) : cmd boot_state Z :=
  if negb (cores =? 2) then mret DP_ERROR
  else
    failed ← first_failed [init R_GRAPHTRACE; answer];
    if failed : bool then mret DP_ERROR
    else
      graph_id ← dp_graph_create;
      modify (λ s, s <| bt_graph_id := graph_id |>);;
      match graph_id with
      | None => mret DP_ERROR
      | Some graph_id =>
          failed ← (if stats then first_failed [dp_graph_stats_create; answer] else mret false);
          if failed : bool then destroy (R_GRAPH graph_id);; mret DP_ERROR else mret DP_OK
      end.

Definition dp_graph_free : cmd boot_state () :=
  s ← gets id;
  (if bt_graph_stats s then destroy R_STATS else mret tt);;
  (match bt_graph_id s with Some graph_id => destroy (R_GRAPH graph_id) | None => mret tt end);;
  release R_GRAPHTRACE.

(** ** The service (src/dp_service.c, src/grpc/dp_grpc_thread.cpp) *)

Definition dp_grpc_thread_start : cmd boot_state Z :=
  s ← gets id;
  if bt_grpc_started s then mret DP_ERROR
  else
    ret ← init R_GRPC;
    if DP_FAILED ret then mret ret else modify (λ s, s <| bt_grpc_started := true |>);; mret DP_OK.

(** [pthread_cancel] returns a positive number when it fails. *)
Definition dp_grpc_thread_cancel : cmd boot_state Z :=
  s ← gets id;
  if negb (bt_grpc_started s) then mret DP_OK
  else
    ret ← answer;
    if negb (ret =? 0) then mret ret
    else destroy R_GRPC;; modify (λ s, s <| bt_grpc_started := false |>);; mret DP_OK.

Section service.
Context (cores : Z) (stats conntrack_enabled offload_enabled : bool).

Definition part (p : dp_part) : cmd boot_state Z := init (R_PART p).

(** The two calls after the telemetry start the physical ports. *)
Definition init_interfaces : cmd boot_state Z :=
  failed ← first_failed
    [part P_PORTS; part P_VIRTSVC; dp_graph_init cores stats; part P_TELEMETRY; answer; answer;
     part P_FLOW; part P_IFACES; part P_NAT; part P_LB; part P_VNI; part P_VNF];
  mret (if failed : bool then DP_ERROR else DP_OK).

Definition free_interfaces : cmd boot_state () :=
  release (R_PART P_VNF);; release (R_PART P_VNI);; release (R_PART P_LB);; release (R_PART P_NAT);;
  release (R_PART P_IFACES);; release (R_PART P_FLOW);; release (R_PART P_TELEMETRY);; dp_graph_free;;
  release (R_PART P_VIRTSVC);; release (R_PART P_PORTS).

Definition dp_dpdk_main_loop : cmd boot_state Z :=
  modify (λ s, s <| bt_main_loops := S (bt_main_loops s) |>);; answer.

Definition run_dpdk_service : cmd boot_state Z :=
  failed ← first_failed [init_interfaces; dp_grpc_thread_start];
  result ← (if failed : bool then mret DP_ERROR
            else
              result ← dp_dpdk_main_loop;
              ret ← dp_grpc_thread_cancel;
              mret (if DP_FAILED ret then DP_ERROR else result));
  free_interfaces;;
  mret result.

(** The first answers are those of [dp_log_init] and [setup_sighandlers]. *)
Definition run_service : cmd boot_state Z :=
  if negb conntrack_enabled && offload_enabled then mret DP_ERROR
  else
    failed ← first_failed [answer; answer; dp_dpdk_layer_init];
    if failed : bool then mret DP_ERROR
    else
      result ← run_dpdk_service;
      dp_dpdk_layer_free;;
      mret result.
End service.

(** ** Facts: what is left when the service ends *)

Definition is_layer (r : resource) : bool := match r with R_MEMPOOL | R_RING _ => true | _ => false end.

(** Resources with a variable that says whether they are there. *)
Definition special (r : resource) : bool := match r with R_STATS | R_GRPC => true | _ => is_layer r end.
Definition is_graph (r : resource) : bool := match r with R_GRAPH _ => true | _ => false end.

Section boot_facts.
Context (stats : bool).
Implicit Types (s : boot_state) (r : resource) (gone : list resource) (gf : bool).

(** [gone] are the resources that were freed, [gf] is whether the graph was. *)
Record boot_inv gf gone s : Prop := {
  bi_layer r : r ∈ bt_layer s → is_layer r = true ∧ (r ∈ gone ∨ r ∈ bt_live s);
  bi_live r : r ∈ bt_live s → is_layer r = true → r ∈ bt_layer s;
  bi_graph g : bt_graph_id s = Some g → if gf then R_GRAPH g ∉ bt_live s else R_GRAPH g ∈ bt_live s ∨ stats = true;
  bi_stats : bt_graph_stats s = true → R_STATS ∈ gone ∨ R_STATS ∈ bt_live s;
  bi_stats' : R_STATS ∈ bt_live s → bt_graph_stats s = true;
  bi_grpc : R_GRPC ∈ bt_live s ↔ bt_grpc_started s = true;
  bi_dead : bt_destroyed_dead s = true → stats = true;
  bi_gone r : r ∈ gone → r ∉ bt_live s
}.

(** An operation that ends and keeps the invariant, with more resources freed. *)
Definition boots {A} gf gone gone' (m : cmd boot_state A) : Prop :=
  ∀ s, boot_inv gf gone s → wp m (λ _ s', boot_inv gf gone' s') s.

Lemma boots_ret {A} gf gone (x : A) : boots gf gone gone (mret x).
Proof. intros s Hs. by apply wp_ret. Qed.

Lemma boots_seq {A B} gf gone gone' gone'' (m : cmd boot_state A) (f : A → cmd boot_state B) :
  boots gf gone gone' m → (∀ x, boots gf gone' gone'' (f x)) → boots gf gone gone'' (m ≫= f).
Proof. intros Hm Hf s Hs. apply wp_bind. wp_use (Hm s Hs). intros x s' Hs'. by apply Hf. Qed.

Lemma boots_answer gf gone : boots gf gone gone answer.
Proof. intros s []. unfold wp, answer. by constructor. Qed.

Abbreviation starts := (boots false [] []).

Lemma inv_made r s : special r = false → boot_inv false [] s → boot_inv false [] (s <| bt_live := r :: bt_live s |>).
Proof.
  intros Hr []. constructor; cbn; try done.
  - intros x Hx. destruct (bi_layer0 x Hx) as [? [?|?]]; split; [done|by left|done|right; by right].
  - intros x [->|Hx]%elem_of_cons Hl; [|by apply bi_live0]. by destruct r.
  - intros g Hg. destruct (bi_graph0 g Hg) as [?|?]; [left; by right|by right].
  - intros Hg. destruct (bi_stats0 Hg) as [?|?]; [by left|right; by right].
  - intros [<-|Hx]%elem_of_cons; [done|by apply bi_stats'0].
  - rewrite elem_of_cons, <- bi_grpc0. split; [intros [<-|?]; [done|tauto]|tauto].
  - intros x Hx%not_elem_of_nil. done.
Qed.

Lemma starts_init r : special r = false → starts (init r).
Proof.
  intros Hr. eapply boots_seq; [apply boots_answer|]. intros ret.
  eapply boots_seq; [|intros []; apply boots_ret]. destruct (DP_FAILED ret); [apply boots_ret|].
  intros s Hs. apply wp_modify. by apply inv_made.
Qed.

Lemma starts_first l : Forall starts l → starts (first_failed l).
Proof.
  intros H. induction H as [|c l Hc _ IH]; [apply boots_ret|]. eapply boots_seq; [done|]. intros ret.
  destruct (DP_FAILED ret); [apply boots_ret|exact IH].
Qed.

Lemma starts_create r : is_layer r = true → starts (create_in_layer r).
Proof.
  intros Hr. eapply boots_seq; [apply boots_answer|]. intros ret. destruct (DP_FAILED ret); [apply boots_ret|].
  intros s []. apply wp_bind, wp_modify, wp_bind, wp_modify, wp_ret. constructor; cbn; try done.
  - intros x [->|Hx]%elem_of_cons; [split; [done|right; by left]|]. destruct (bi_layer0 x Hx) as [? [?|?]]; split; [done|by left|done|right; by right].
  - intros x [->|Hx]%elem_of_cons Hl; [by left|right; by apply bi_live0].
  - intros g Hg. destruct (bi_graph0 g Hg) as [?|?]; [left; by right|by right].
  - intros Hg. destruct (bi_stats0 Hg) as [?|?]; [by left|right; by right].
  - intros [<-|Hx]%elem_of_cons; [done|by apply bi_stats'0].
  - rewrite elem_of_cons, <- bi_grpc0. split; [intros [<-|?]; [done|tauto]|tauto].
  - intros x Hx%not_elem_of_nil. done.
Qed.

(** Removing a resource. *)
Lemma inv_removed gf gone r s :
  boot_inv gf gone s → r ≠ R_GRPC → is_graph r = false →
  boot_inv gf (r :: gone) (s <| bt_live := filter (λ x, x ≠ r) (bt_live s) |>).
Proof.
  intros [] Hr Hg.
  assert (Hkeep : ∀ x, x ∈ gone ∨ x ∈ bt_live s → x ∈ r :: gone ∨ x ∈ filter (λ x, x ≠ r) (bt_live s)).
  { intros x [?|?]; [left; by right|]. destruct (decide (x = r)) as [->|]; [left; by left|right]. by apply list_elem_of_filter. }
  constructor; cbn; try done.
  - intros x Hx. destruct (bi_layer0 x Hx). auto.
  - intros x [_ Hx]%list_elem_of_filter. by apply bi_live0.
  - intros g Hid. specialize (bi_graph0 g Hid). destruct gf; rewrite list_elem_of_filter; [tauto|].
    destruct bi_graph0 as [?|?]; [left|by right]. split; [|done]. by intros <-.
  - intros Hst. by apply Hkeep, bi_stats0.
  - intros [_ Hx]%list_elem_of_filter. by apply bi_stats'0.
  - rewrite list_elem_of_filter, <- bi_grpc0. naive_solver.
  - intros x Hx [Hne Hl]%list_elem_of_filter. apply elem_of_cons in Hx as [?|Hx]; [done|]. by apply (bi_gone0 x).
Qed.

Lemma inv_absent gf gone r s : boot_inv gf gone s → r ∉ bt_live s → boot_inv gf (r :: gone) s.
Proof.
  intros [] Hr. constructor; try done.
  - intros x Hx. destruct (bi_layer0 x Hx) as [? [?|?]]; split; [done|left; by right|done|by right].
  - intros Hst. destruct (bi_stats0 Hst); [left; by right|by right].
  - intros x [->|Hx]%elem_of_cons; [done|by apply bi_gone0].
Qed.

Lemma boots_release gf gone r : r ≠ R_GRPC → is_graph r = false → boots gf gone (r :: gone) (release r).
Proof. intros Hr Hg s Hs. apply wp_modify. by apply inv_removed. Qed.

Lemma boots_free_in_layer gf gone r : is_layer r = true → r ∉ gone → boots gf gone (r :: gone) (free_in_layer r).
Proof.
  intros Hl Hng s Hs. apply wp_bind, wp_gets. destruct (decide (r ∈ bt_layer _)) as [Hin|Hin].
  - apply wp_modify. cbn in Hin. destruct (bi_layer _ _ _ Hs r Hin) as [_ [?|Hlive]]; [done|]. rewrite decide_True by done.
    apply inv_removed; [done|by intros ->|by destruct r].
  - apply wp_ret. apply inv_absent; [done|]. intros Hlive. by apply Hin, (bi_live _ _ _ Hs).
Qed.

Lemma boots_layer_free gf gone :
  Forall (λ r, is_layer r = false) gone →
  boots gf gone ([R_MEMPOOL; R_RING grpc_tx_queue; R_RING grpc_rx_queue; R_RING periodic_msg_queue; R_RING monitoring_rx_queue; R_TIMERS] ++ gone)
    dp_dpdk_layer_free.
Proof.
  intros Hg. assert (Hn : ∀ r, is_layer r = true → r ∉ gone).
  { intros r Hr Hin. rewrite Forall_forall in Hg. specialize (Hg r Hin). congruence. }
  unfold dp_dpdk_layer_free. eapply boots_seq; [by apply boots_release|]. intros _.
  repeat (eapply boots_seq; [apply boots_free_in_layer; [done|]; rewrite ?not_elem_of_cons; repeat split; by try apply Hn|]; intros _).
  apply boots_free_in_layer; [done|]. rewrite ?not_elem_of_cons. repeat split; by try apply Hn.
Qed.

Lemma starts_stats : starts dp_graph_stats_create.
Proof.
  intros s Hs. unfold dp_graph_stats_create, init. apply wp_bind, wp_bind. wp_use (boots_answer _ _ s Hs). intros ret s1 Hs1.
  unfold made. destruct (DP_FAILED ret) eqn:Hret; wp_steps; rewrite Hret; wp_steps; [done|].
  destruct Hs1. constructor; cbn; try done.
  - intros x Hx. destruct (bi_layer0 x Hx) as [? [?|?]]; split; [done|by left|done|right; by right].
  - intros x [->|Hx]%elem_of_cons Hl; [done|by apply bi_live0].
  - intros g Hg. destruct (bi_graph0 g Hg) as [?|?]; [left; by right|by right].
  - intros _. right. by left.
  - rewrite elem_of_cons, <- bi_grpc0. split; [intros [?|?]; [done|tauto]|tauto].
  - intros x Hx%not_elem_of_nil. done.
Qed.

Ltac starts_all :=
  repeat (first [apply Forall_nil_2|apply Forall_cons_2]); first [by apply starts_init|by apply starts_create|apply boots_answer|apply starts_stats|idtac].

Lemma wp_graph_create s :
  boot_inv false [] s →
  wp dp_graph_create (λ id s', boot_inv false [] s' ∧ ∀ g, id = Some g → R_GRAPH g ∈ bt_live s') s.
Proof.
  intros Hs. unfold dp_graph_create. apply wp_bind. wp_use (boots_answer _ _ s Hs). intros g s1 Hs1.
  destruct (DP_FAILED g); [by apply wp_ret|]. apply wp_bind, wp_modify.
  assert (Hs2 : boot_inv false [] (s1 <| bt_live := R_GRAPH g :: bt_live s1 |>)) by by apply inv_made.
  unfold first_failed, answer. wp_steps. set (s2 := s1 <| bt_live := _ |>) in *.
  unfold wp at 1. destruct (DP_FAILED _); wp_steps; [split; [by destruct Hs2|done]|].
  unfold wp at 1. destruct (DP_FAILED _); wp_steps; (split; [by destruct Hs2|]); intros g' [= <-]. by left.
Qed.

Lemma starts_graph cores : starts (dp_graph_init cores stats).
Proof.
  unfold dp_graph_init. destruct (negb _); [apply boots_ret|].
  eapply boots_seq; [apply starts_first; starts_all|].
  intros failed. destruct failed; [apply boots_ret|]. intros s Hs. apply wp_bind. wp_use (wp_graph_create s Hs). intros id s1 [Hs1 Hid].
  apply wp_bind, wp_modify.
  assert (Hs2 : boot_inv false [] (s1 <| bt_graph_id := id |>)).
  { destruct Hs1. constructor; try done. cbn. intros g Hg. left. by apply Hid. }
  destruct id as [g|]; [|by apply wp_ret]. destruct stats eqn:Hst; [|by apply wp_bind, wp_ret, wp_ret].
  apply wp_bind.
  assert (Hf : starts (first_failed [dp_graph_stats_create; answer])).
  { apply starts_first. starts_all. }
  wp_use (Hf _ Hs2). intros failed s3 Hs3. destruct failed; [|by apply wp_ret].
  apply wp_bind, wp_modify, wp_ret. destruct (decide _); [|by destruct Hs3; constructor].
  destruct Hs3. constructor; cbn; try done.
  - intros x Hx. destruct (bi_layer0 x Hx) as [Hl [?|?]]; split; [done|by left|done|right]. apply list_elem_of_filter. split; [|done]. by intros ->.
  - intros x [_ Hx]%list_elem_of_filter. by apply bi_live0.
  - intros g' _. by right.
  - intros Hg. destruct (bi_stats0 Hg) as [?|?]; [by left|right]. by apply list_elem_of_filter.
  - intros [_ Hx]%list_elem_of_filter. by apply bi_stats'0.
  - rewrite list_elem_of_filter, <- bi_grpc0. naive_solver.
  - intros x Hx%not_elem_of_nil. done.
Qed.

Lemma wp_graph_free gone s :
  boot_inv false gone s → R_STATS ∉ gone → wp dp_graph_free (λ _ s', boot_inv true (R_GRAPHTRACE :: R_STATS :: gone) s') s.
Proof.
  intros Hs Hns. unfold dp_graph_free. apply wp_bind, wp_gets, wp_bind.
  apply (wp_mono _ (λ _ s', boot_inv false (R_STATS :: gone) s' ∧ bt_graph_id s' = bt_graph_id s)).
  { cbn [id]. destruct (bt_graph_stats s) eqn:Hst.
    - apply wp_modify. destruct (bi_stats _ _ _ Hs Hst) as [?|Hin]; [done|]. rewrite decide_True by done. split; [by apply inv_removed|done].
    - apply wp_ret. split; [|done]. apply inv_absent; [done|]. intros Hin%(bi_stats' _ _ _ Hs). congruence. }
  intros _ s1 [Hs1 Hid]. apply wp_bind, (wp_mono _ (λ _ s', boot_inv true (R_STATS :: gone) s')).
  - cbn [id]. destruct (bt_graph_id s) as [g|] eqn:Hg.
    + apply wp_modify. destruct (decide _) as [Hin|Hin].
      * destruct Hs1. constructor; cbn; try done.
        -- intros x Hx. destruct (bi_layer0 x Hx) as [Hl [?|?]]; split; [done|by left|done|right]. apply list_elem_of_filter. split; [|done]. by intros ->.
        -- intros x [_ Hx]%list_elem_of_filter. by apply bi_live0.
        -- rewrite Hid. intros g' [= <-] [? _]%list_elem_of_filter. done.
        -- intros Hst. destruct (bi_stats0 Hst) as [?|?]; [by left|right]. by apply list_elem_of_filter.
        -- intros [_ Hx]%list_elem_of_filter. by apply bi_stats'0.
        -- rewrite list_elem_of_filter, <- bi_grpc0. naive_solver.
        -- intros x Hx [_ Hl]%list_elem_of_filter. by apply (bi_gone0 x).
      * destruct Hs1. constructor; cbn; try done.
        -- rewrite Hid. by intros g' [= <-].
        -- intros _. destruct (bi_graph0 g Hid); [done|done].
    + apply wp_ret. destruct Hs1. constructor; try done. by rewrite Hid.
  - intros _ s2 Hs2. by apply boots_release.
Qed.

Lemma starts_grpc : starts dp_grpc_thread_start.
Proof.
  intros s Hs. unfold dp_grpc_thread_start, init, made. apply wp_bind, wp_gets. destruct (bt_grpc_started _); [by apply wp_ret|].
  apply wp_bind, wp_bind. wp_use (boots_answer _ _ s Hs). intros ret s1 Hs1.
  destruct (DP_FAILED ret) eqn:Hret; wp_steps; rewrite Hret; wp_steps; [done|]. destruct Hs1. constructor; cbn; try done.
  - intros x Hx. destruct (bi_layer0 x Hx) as [? [?|?]]; split; [done|by left|done|right; by right].
  - intros x [->|Hx]%elem_of_cons Hl; [done|by apply bi_live0].
  - intros g Hg. destruct (bi_graph0 g Hg) as [?|?]; [left; by right|by right].
  - intros Hg. destruct (bi_stats0 Hg) as [?|?]; [by left|right; by right].
  - intros [?|Hx]%elem_of_cons; [done|by apply bi_stats'0].
  - rewrite elem_of_cons. tauto.
  - intros x Hx%not_elem_of_nil. done.
Qed.

Lemma starts_cancel : starts dp_grpc_thread_cancel.
Proof.
  intros s Hs. unfold dp_grpc_thread_cancel, destroy. apply wp_bind, wp_gets. cbn [id]. destruct (bt_grpc_started s) eqn:Hg; [|by apply wp_ret].
  cbn [negb]. apply wp_bind, (wp_mono _ (λ _ s', boot_inv false [] s' ∧ bt_grpc_started s' = true)).
  { unfold wp, answer. split; [by destruct Hs|done]. }
  intros ret s1 [[] Hst]. destruct (negb _); [by apply wp_ret|]. apply wp_bind, wp_modify, wp_bind, wp_modify, wp_ret.
  rewrite decide_True by by apply bi_grpc0. constructor; cbn; try done.
  - intros x Hx. destruct (bi_layer0 x Hx) as [Hl [?|?]]; split; [done|by left|done|right]. apply list_elem_of_filter. split; [|done]. by intros ->.
  - intros x [_ Hx]%list_elem_of_filter. by apply bi_live0.
  - intros g Hid. destruct (bi_graph0 g Hid) as [?|?]; [left|by right]. by apply list_elem_of_filter.
  - intros Hs'. destruct (bi_stats0 Hs') as [?|?]; [by left|right]. by apply list_elem_of_filter.
  - intros [_ Hx]%list_elem_of_filter. by apply bi_stats'0.
  - rewrite list_elem_of_filter. naive_solver.
  - intros x Hx%not_elem_of_nil. done.
Qed.

(** What can be left: a graph that could not be exported or looked up after it was created, and the
    thread of the gRPC server when it could not be cancelled. *)
Definition leftover s r : Prop :=
  (∃ id, r = R_GRAPH id ∧ bt_graph_id s ≠ Some id) ∨ (r = R_GRPC ∧ bt_grpc_started s = true).

(** The resources that [free_interfaces] frees. *)
Definition freed_parts : list resource :=
  [R_PART P_PORTS; R_PART P_VIRTSVC; R_GRAPHTRACE; R_STATS; R_PART P_TELEMETRY; R_PART P_FLOW; R_PART P_IFACES; R_PART P_NAT;
   R_PART P_LB; R_PART P_VNI; R_PART P_VNF].

Lemma wp_free_interfaces s : boot_inv false [] s → wp free_interfaces (λ _ s', boot_inv true freed_parts s') s.
Proof.
  intros Hs. unfold free_interfaces. do 7 (apply wp_bind, wp_modify). apply wp_bind.
  eapply wp_mono; [apply (wp_graph_free [R_PART P_TELEMETRY; R_PART P_FLOW; R_PART P_IFACES; R_PART P_NAT; R_PART P_LB; R_PART P_VNI; R_PART P_VNF])|].
  - repeat (apply inv_removed; [|done..]). exact Hs.
  - by rewrite !not_elem_of_cons; repeat split; try apply not_elem_of_nil.
  - intros [] s' Hs'. apply wp_bind, wp_modify, wp_modify. by do 2 (apply inv_removed; [|done..]).
Qed.

Lemma starts_interfaces cores : starts (init_interfaces cores stats).
Proof.
  unfold init_interfaces. eapply boots_seq; [|intros; apply boots_ret]. apply starts_first. starts_all. apply starts_graph.
Qed.

Lemma wp_run_dpdk cores s : boot_inv false [] s → wp (run_dpdk_service cores stats) (λ _ s', boot_inv true freed_parts s') s.
Proof.
  intros Hs. unfold run_dpdk_service. apply wp_bind.
  assert (Hf : starts (first_failed [init_interfaces cores stats; dp_grpc_thread_start])).
  { apply starts_first. starts_all; [apply starts_interfaces|apply starts_grpc]. }
  wp_use (Hf s Hs). intros failed s1 Hs1. apply wp_bind.
  assert (Hr : starts (if failed then mret DP_ERROR
                       else result ← dp_dpdk_main_loop; ret ← dp_grpc_thread_cancel; mret (if DP_FAILED ret then DP_ERROR else result))).
  { destruct failed; [apply boots_ret|]. eapply boots_seq; [|intros; eapply boots_seq; [apply starts_cancel|intros; apply boots_ret]].
    unfold dp_dpdk_main_loop. eapply boots_seq; [|intros; apply boots_answer]. intros t []. apply wp_modify. by constructor. }
  wp_use (Hr s1 Hs1). intros result s2 Hs2. apply wp_bind. wp_use (wp_free_interfaces s2 Hs2). intros _ s3 Hs3. by apply wp_ret.
Qed.

(** Before the interfaces are initialised only the resources of the layer exist. *)
Definition layer_only s : Prop := ∀ r, r ∈ bt_live s → is_layer r = true ∨ r = R_TIMERS.
Definition only {A} (m : cmd boot_state A) : Prop := ∀ s, layer_only s → wp m (λ _ s', layer_only s') s.

Lemma only_seq {A B} (m : cmd boot_state A) (f : A → cmd boot_state B) : only m → (∀ x, only (f x)) → only (m ≫= f).
Proof. intros Hm Hf s Hs. apply wp_bind. wp_use (Hm s Hs). intros x s' Hs'. by apply Hf. Qed.
Lemma only_ret {A} (x : A) : only (mret x).
Proof. intros s Hs. by apply wp_ret. Qed.
Lemma only_answer : only answer.
Proof. intros s Hs. exact Hs. Qed.
Lemma only_made r : is_layer r = true ∨ r = R_TIMERS → only (made r).
Proof. intros Hr s Hs. apply wp_modify. intros x [->|Hx]%elem_of_cons; [done|by apply Hs]. Qed.
Lemma only_filter r s : layer_only s → layer_only (s <| bt_live := filter (λ x, x ≠ r) (bt_live s) |>).
Proof. intros Hs x [_ Hx]%list_elem_of_filter. by apply Hs. Qed.

Lemma only_create r : is_layer r = true → only (create_in_layer r).
Proof.
  intros Hr. apply only_seq; [apply only_answer|]. intros ret. destruct (DP_FAILED ret); [apply only_ret|].
  apply only_seq; [apply only_made; by left|]. intros []. apply only_seq; [intros s Hs; by apply wp_modify|intros; apply only_ret].
Qed.

Lemma only_first l : Forall only l → only (first_failed l).
Proof.
  intros H. induction H as [|c l Hc _ IH]; [apply only_ret|]. apply only_seq; [done|]. intros ret.
  destruct (DP_FAILED ret); [apply only_ret|exact IH].
Qed.

Lemma only_free r : only (free_in_layer r).
Proof.
  intros s Hs. apply wp_bind, wp_gets. destruct (decide _); [|by apply wp_ret]. apply wp_modify.
  destruct (decide _); [by apply only_filter|exact Hs].
Qed.

Lemma only_layer_init : only dp_dpdk_layer_init.
Proof.
  apply only_seq; [intros s Hs; by apply wp_modify|]. intros []. apply only_seq.
  - apply only_seq; [|intros; apply only_ret]. apply only_first.
    repeat (first [apply Forall_nil_2|apply Forall_cons_2]); try (by apply only_create); [apply only_answer|].
    apply only_seq; [apply only_answer|]. intros ret. apply only_seq; [|intros; apply only_ret].
    destruct (DP_FAILED ret); [apply only_ret|apply only_made; by right].
  - intros ret. destruct (DP_FAILED ret); [|apply only_ret]. apply only_seq; [|intros; apply only_ret].
    apply only_seq; [intros s Hs; by apply wp_modify, only_filter|]. intros [].
    repeat (apply only_seq; [apply only_free|intros []]). apply only_free.
Qed.

Lemma wp_layer_init s :
  boot_inv false [] s → bt_layer s = [] →
  wp dp_dpdk_layer_init (λ ret s', if DP_FAILED ret then ∃ gone, boot_inv false gone s' ∧ R_TIMERS ∈ gone ∧ (∀ r, is_layer r = true → r ∈ gone)
                                   else boot_inv false [] s') s.
Proof.
  intros Hs Hl. unfold dp_dpdk_layer_init. apply wp_bind, wp_modify.
  replace (s <| bt_layer := [] |>) with s by (destruct s; cbn in Hl; by subst). apply wp_bind.
  assert (Hi : starts dp_dpdk_layer_init_unsafe).
  { eapply boots_seq; [|intros; apply boots_ret]. apply starts_first. starts_all. }
  wp_use (Hi s Hs). intros ret s1 Hs1. destruct (DP_FAILED ret) eqn:Hret; [|by apply wp_ret].
  apply wp_bind. wp_use (boots_layer_free false [] (Forall_nil_2 _) s1 Hs1). intros [] s2 Hs2. apply wp_ret.
  eexists. split; [exact Hs2|]. split; [by repeat (left || right)|]. intros []; try done; intros _; try by repeat (left || right).
  all: try (destruct r; by repeat (left || right)).
Qed.

Lemma wp_and_post {A} (m : cmd boot_state A) (P Q : A → boot_state → Prop) s :
  wp m P s → wp m Q s → wp m (λ x s', P x s' ∧ Q x s') s.
Proof. unfold wp. by destruct (m s) as [[]|]. Qed.

(** The state in which the service starts. *)
Definition boot_start (answers : list Z) : boot_state := MkBoot answers [] false [] None false false 0.

Lemma boot_start_inv answers : boot_inv false [] (boot_start answers).
Proof. constructor; cbn; try done; try (by intros r Hr%not_elem_of_nil); [by intros H%not_elem_of_nil|].
  split; [by intros H%not_elem_of_nil|done].
Qed.

End boot_facts.

(** When statistics are enabled and cannot be set up, the graph is destroyed twice: by [dp_graph_init],
    which keeps the id, and by [dp_graph_free]. *)
Example graph_destroyed_twice :
  match (dp_graph_init 2 true;; dp_graph_free) (boot_start [0; 0; 7; 0; 0; -1]) with
  | Some (_, s) => bt_live s = [] ∧ bt_destroyed_dead s = true
  | None => False
  end.
Proof. vm_compute. done. Qed.

(** A gRPC thread that cannot be cancelled is not noticed.  [pthread_cancel] reports an error as a positive
    number, which [dp_grpc_thread_cancel] returns and [run_dpdk_service] takes for success. *)
Example cancel_failure_ignored :
  match run_dpdk_service 2 false (boot_start (replicate 17 0 ++ [0; 3])) with
  | Some (ret, s) => ret = DP_OK ∧ bt_main_loops s = 1%nat ∧ bt_live s = [R_GRPC]
  | None => False
  end.
Proof. vm_compute. done. Qed.

(** ** Facts: timers *)

Section timer_facts.
Context (hz subsystem_ret : Z) (reset_ret : dp_timer → Z).
Context (Hhz : 0 < hz) (Hmax : TIMER_DP_MAINTENANCE_INTERVAL * hz < 2 ^ 64).

(** Timers are managed at least as often as the shortest period. *)
Definition managed (s : timers_state) : Prop :=
  Forall (λ t, 0 < tm_manage_interval_cycles s ≤ t.2.1) (tm_running s).

Lemma u64_period n : 0 < n ≤ 30 → u64 (n * hz) = n * hz.
Proof using Hhz Hmax. intros Hn. unfold TIMER_DP_MAINTENANCE_INTERVAL in Hmax. apply Z.mod_small. nia. Qed.

Lemma wp_timers_add timer period cb s :
  0 < period ≤ 30 → 0 ≤ tm_manage_interval_cycles s → managed s →
  wp (dp_timers_add hz reset_ret timer period cb)
    (λ ret s', managed s' ∧ 0 < tm_manage_interval_cycles s' ≤ period * hz ∧ tm_maintenance_interval s' = tm_maintenance_interval s
               ∧ ret = reset_ret timer) s.
Proof using Hhz Hmax.
  intros Hp Hi Hm. unfold dp_timers_add, rte_timer_reset. rewrite u64_period by done. apply wp_bind, wp_modify.
  match goal with |- wp _ _ ?x => set (s1 := x) end.
  assert (Hs1 : managed s1 ∧ 0 < tm_manage_interval_cycles s1 ≤ period * hz ∧ tm_maintenance_interval s1 = tm_maintenance_interval s).
  { unfold s1, managed in *. destruct (Z.eqb_spec (tm_manage_interval_cycles s) 0), (Z.ltb_spec (period * hz) (tm_manage_interval_cycles s)); cbn;
      (split; [|split; [nia|done]]); try (eapply Forall_impl; [exact Hm|]; cbn; intros; nia). }
  clearbody s1. destruct Hs1 as (H1 & H2 & H3). apply wp_bind. destruct (DP_FAILED (reset_ret timer)); [by do 2 apply wp_ret|].
  apply wp_modify, wp_ret. split; [|done]. apply Forall_cons_2; [done|]. apply Forall_forall. intros t [_ Ht]%list_elem_of_filter. revert t Ht. by apply Forall_forall.
Qed.

(** C35. The timers are managed often enough: after [dp_timers_init] and [dp_timers_add_stats] the interval
    between two calls of [rte_timer_manage] is positive and no longer than the period of any timer
    that runs. *)
Theorem timers_managed_often s :
  tm_manage_interval_cycles s = 0 → tm_running s = [] → tm_maintenance_interval s = TIMER_DP_MAINTENANCE_STARTUP_INTERVAL →
  wp (dp_timers_init hz subsystem_ret reset_ret;; dp_timers_add_stats hz reset_ret)
    (λ ret s', managed s' ∧ (ret = DP_OK → 0 < tm_manage_interval_cycles s' ≤ hz)) s.
Proof using Hhz Hmax.
  intros Hi Hr Hm. assert (Hms : managed s) by by (unfold managed; rewrite Hr).
  assert (Hstats : ∀ t, 0 ≤ tm_manage_interval_cycles t → managed t →
    wp (dp_timers_add_stats hz reset_ret) (λ ret s', managed s' ∧ (ret = DP_OK → 0 < tm_manage_interval_cycles s' ≤ hz)) t).
  { intros t H0 Ht. apply wp_bind. wp_use (wp_timers_add dp_stats_timer 1 stats_cb t); [lia|done|done|].
    intros ret t' (H1 & H2 & _). destruct (DP_FAILED ret); apply wp_ret; (split; [done|intros _; lia]). }
  unfold dp_timers_init. apply wp_bind. destruct (DP_FAILED subsystem_ret); [apply wp_ret, Hstats; [lia|done]|].
  apply wp_bind. wp_use (wp_timers_add dp_flow_aging_timer 5 dp_flow_aging_timer_cb s); [lia|lia|done|].
  intros ret s1 (H1 & H2 & H3 & _). destruct (DP_FAILED ret); [apply wp_ret, Hstats; [lia|done]|].
  apply wp_bind, wp_gets, wp_bind. rewrite H3, Hm.
  wp_use (wp_timers_add dp_maintenance_timer 5 dp_maintenance_startup_timer_cb s1); [lia|lia|done|].
  intros ret' s2 (G1 & G2 & _). destruct (DP_FAILED ret'); apply wp_ret, Hstats; (lia || done).
Qed.

Lemma timer_of_set t x l s : timer_of t (s <| tm_running := set_timer t x l |>) = Some x.
Proof. unfold timer_of, set_timer. cbn. by rewrite decide_True. Qed.

Lemma wp_expires_startup s period (Q : () → timers_state → Prop) :
  timer_of dp_maintenance_timer s = Some (period, dp_maintenance_startup_timer_cb) →
  tm_maintenance_interval s = TIMER_DP_MAINTENANCE_INTERVAL → 0 ≤ tm_counter s < TIMER_DP_MAINTENANCE_STARTUP_CYCLES - 1 →
  Q tt (s <| tm_counter := tm_counter s + 1 |>) → wp (maintenance_expires hz reset_ret) Q s.
Proof.
  intros Ht Hi Hc HQ. unfold maintenance_expires. apply wp_bind, wp_gets. rewrite Ht. unfold maintenance_startup.
  apply wp_bind, wp_gets. cbn [id]. rewrite Hi. unfold TIMER_DP_MAINTENANCE_STARTUP_CYCLES in *.
  rewrite (proj2 (Z.leb_le _ _)) by lia. cbn [andb Z.ltb Z.compare TIMER_DP_MAINTENANCE_STARTUP_INTERVAL TIMER_DP_MAINTENANCE_INTERVAL].
  assert (Hu : u32 (tm_counter s + 1) = tm_counter s + 1) by (apply Z.mod_small; lia). cbn zeta. rewrite Hu.
  apply wp_bind, wp_modify. rewrite (proj2 (Z.eqb_neq _ _)) by lia. by apply wp_ret.
Qed.

Lemma wp_expires_last s period (Q : () → timers_state → Prop) :
  timer_of dp_maintenance_timer s = Some (period, dp_maintenance_startup_timer_cb) →
  tm_maintenance_interval s = TIMER_DP_MAINTENANCE_INTERVAL → tm_counter s = TIMER_DP_MAINTENANCE_STARTUP_CYCLES - 1 →
  DP_FAILED (reset_ret dp_maintenance_timer) = false →
  (∀ s', timer_of dp_maintenance_timer s' = Some (TIMER_DP_MAINTENANCE_INTERVAL * hz, dp_maintenance_timer_cb) → Q tt s') →
  wp (maintenance_expires hz reset_ret) Q s.
Proof using Hhz Hmax.
  intros Ht Hi Hc Hr HQ. unfold maintenance_expires. apply wp_bind, wp_gets. rewrite Ht. unfold maintenance_startup, rte_timer_reset.
  apply wp_bind, wp_gets. cbn [id]. rewrite Hi, Hc, Hr. apply wp_bind, wp_modify, wp_bind, wp_bind, wp_modify, wp_ret, wp_ret, HQ.
  rewrite u64_period by done. apply timer_of_set.
Qed.

Lemma wp_expires_steady n s period :
  timer_of dp_maintenance_timer s = Some (period, dp_maintenance_timer_cb) →
  wp (expires hz reset_ret n) (λ _ s', timer_of dp_maintenance_timer s' = Some (period, dp_maintenance_timer_cb)) s.
Proof.
  intros Ht. induction n as [|n IH]; [by apply wp_ret|]. cbn [expires]. apply wp_bind. unfold maintenance_expires.
  apply wp_bind, wp_gets. rewrite Ht. by apply wp_ret.
Qed.

(** The maintenance timer backs off as its comment says: once the service has signalled that it is initialised, the timer
    expires [TIMER_DP_MAINTENANCE_STARTUP_CYCLES] times with the short period and has the long one from then on. *)
Theorem maintenance_backoff s period n :
  timer_of dp_maintenance_timer s = Some (period, dp_maintenance_startup_timer_cb) → tm_counter s = 0 →
  DP_FAILED (reset_ret dp_maintenance_timer) = false →
  wp (dp_timers_signal_initialization;; expires hz reset_ret n)
    (λ _ s', timer_of dp_maintenance_timer s' =
       Some (if Z.of_nat n <? TIMER_DP_MAINTENANCE_STARTUP_CYCLES then (period, dp_maintenance_startup_timer_cb)
             else (TIMER_DP_MAINTENANCE_INTERVAL * hz, dp_maintenance_timer_cb))) s.
Proof using Hhz Hmax.
  intros Ht Hc Hr. apply wp_bind, wp_modify. set (s1 := s <| tm_maintenance_interval := _ |>).
  cut (∀ k s2, timer_of dp_maintenance_timer s2 = Some (period, dp_maintenance_startup_timer_cb) →
    tm_maintenance_interval s2 = TIMER_DP_MAINTENANCE_INTERVAL → tm_counter s2 = 5 - Z.of_nat k → (0 < k ≤ 5)%nat →
    wp (expires hz reset_ret n) (λ _ s', timer_of dp_maintenance_timer s' =
       Some (if (n <? k)%nat then (period, dp_maintenance_startup_timer_cb)
             else (TIMER_DP_MAINTENANCE_INTERVAL * hz, dp_maintenance_timer_cb))) s2).
  { intros H. eapply wp_mono; [apply (H 5%nat s1); [done|done|done|lia]|]. intros _ s' ->. unfold TIMER_DP_MAINTENANCE_STARTUP_CYCLES.
    destruct (Nat.ltb_spec n 5), (Z.ltb_spec (Z.of_nat n) 5); (done || lia). }
  clear s s1 Ht Hc. induction n as [|n IH]; intros k s2 Ht Hi Hc Hk.
  - apply wp_ret. by destruct k; [lia|].
  - cbn [expires]. apply wp_bind. destruct k as [|[|k]]; [lia| |].
    + eapply wp_expires_last; [done|done|rewrite Hc; done|done|]. intros s' Hs'. by apply wp_expires_steady.
    + eapply wp_expires_startup; [done|done|unfold TIMER_DP_MAINTENANCE_STARTUP_CYCLES; lia|]. apply (IH (S k)); [done|done|cbn; lia|lia].
Qed.
End timer_facts.

(** [dp_nanosleep] splits the time into seconds and nanoseconds; the number of nanoseconds is one that [nanosleep]
    accepts except for exactly one second, for which the call fails. *)
Theorem nanosleep_split ns :
  0 ≤ ns →
  let t := dp_nanosleep ns in
  t.1 * NS_PER_S + t.2 = ns ∧ 0 ≤ t.1 ∧ 0 ≤ t.2 ∧ (t.2 < NS_PER_S ↔ ns ≠ NS_PER_S).
Proof.
  intros Hn. unfold dp_nanosleep, NS_PER_S. destruct (Z.ltb_spec 1000000000 ns); cbn [fst snd].
  - pose proof (Z.div_mod ns 1000000000). pose proof (Z.mod_pos_bound ns 1000000000).
    assert (0 ≤ ns / 1000000000) by (apply Z.div_pos; lia). lia.
  - lia.
Qed.

Lemma timers_managed_often_witness :
  wp (dp_timers_init 1000 0 (λ _, 0);; dp_timers_add_stats 1000 (λ _, 0))
    (λ ret s', ret = DP_OK → 0 < tm_manage_interval_cycles s' ≤ 1000)
    (MkTimers 0 TIMER_DP_MAINTENANCE_STARTUP_INTERVAL 0 []).
Proof.
  eapply wp_mono; [apply (timers_managed_often 1000 0 (λ _, 0)); first [done|lia]|].
  intros ret s' [_ H]. exact H.
Defined.

Lemma maintenance_backoff_witness :
  wp (dp_timers_signal_initialization;; expires 1000 (λ _, 0) 7)
    (λ _ s', timer_of dp_maintenance_timer s' = Some (30000, dp_maintenance_timer_cb))
    (MkTimers 0 5 0 [(dp_maintenance_timer, (5000, dp_maintenance_startup_timer_cb))]).
Proof. apply (maintenance_backoff 1000 (λ _, 0) ltac:(lia) ltac:(done) _ 5000 7); done. Defined.

Lemma nanosleep_split_witness : dp_nanosleep 2500000000 = (2, 500000000) ∧ 0 ≤ (dp_nanosleep 2500000000).2.
Proof. split; [reflexivity|]. apply (nanosleep_split 2500000000). lia. Defined.
