(* ===== verification/Replies.v ===== *)
(** * Replies of the worker (src/grpc/dp_grpc_impl.c, src/grpc/dp_grpc_responder.c)

    What the gRPC server relies on when it reads a reply: the code is one of the API, a
    single reply that reports success holds the message of its request, and
    a listing is a chain of packets whose messages were all written. *)

From S2P Require Import Prelude Dpdk Error Types Responder Port Hw Capture PortCtl Firewall Rib Lb Vnf Conn Mbuf Nat Vni Lpm Flow Iface Service.

(** ** Results of commands *)

(** What holds of the result of a command, whatever the state. *)
Definition returns {S A} (P : A → Prop) (c : cmd S A) : Prop := ∀ s a s', c s = Some (a, s') → P a.

Section returns.
Context {S A B : Type}.

Lemma rt_bind (Q : A → Prop) (P : B → Prop) (c : cmd S A) (f : A → cmd S B) :
  returns Q c → (∀ a, Q a → returns P (f a)) → returns P (c ≫= f).
Proof.
  intros Hc Hf s b s' E. unfold mbind, cmd_bind in E. destruct (c s) as [[a s1]|] eqn:Ec; [|done].
  eapply Hf; [|exact E]. by eapply Hc.
Qed.
Lemma rt_seq (P : B → Prop) (c : cmd S A) (f : A → cmd S B) : (∀ a, returns P (f a)) → returns P (c ≫= f).
Proof. intros Hf. by apply (rt_bind (λ _, True)). Qed.
Lemma rt_ret (P : A → Prop) a : P a → returns P (mret a : cmd S A).
Proof. by intros Ha s b s' [= <- _]. Qed.
Lemma rt_fault (P : A → Prop) : returns P (fault : cmd S A).
Proof. done. Qed.
Lemma rt_mono (P Q : A → Prop) (c : cmd S A) : returns Q c → (∀ a, Q a → P a) → returns P c.
Proof. intros Hc HQ s a s' E. by eapply HQ, Hc. Qed.
End returns.
Lemma rt_zoom {S T A} (l : lens S T) (P : A → Prop) (c : cmd T A) : returns P c → returns P (zoom l c).
Proof. intros Hc s a s' E. unfold zoom in E. destruct (c (lget l s)) as [[b t]|] eqn:Ec; [|done]. injection E as <- _. by eapply Hc. Qed.

Create HintDb returns.
Create HintDb handlers.
#[export] Hint Resolve rt_zoom : returns.

(** A step of a proof about results; what is known of the functions called is in the database. *)
Ltac rt_step :=
  cbn beta match zeta;
  lazymatch goal with
  | |- returns _ (mret _) => apply rt_ret
  | |- returns _ fault => apply rt_fault
  | |- returns _ (mbind _ _) =>
      first [eapply rt_bind; [solve [eauto 2 with returns]|cbn beta; intros ? ?] | apply rt_seq; intros ?]
  | |- returns _ (zoom _ _) => apply rt_zoom
  | |- returns _ (match ?x with _ => _ end) => let E := fresh "Hb" in destruct x eqn:E
  | |- returns _ _ => solve [eauto 2 with returns]
  end.

Section codes.
Context `{HH : RteHash} `{HM : RteMalloc} `{HR : RteRib} `{HF : RteFlow} `{HE : RteEth}.

Abbreviation coded := (returns grpc_result).
Ltac rt := repeat rt_step; eauto with dps.

Lemma rt_lb_of_id {A} (P : A → Prop) id (no_id no_val : cmd lb_state A) k :
  returns P no_id → returns P no_val → (∀ a b c, returns P (k a b c)) → returns P (lb_of_id id no_id no_val k).
Proof. intros. unfold lb_of_id. repeat rt_step; auto. Qed.

Lemma rt_create_lb lb ul : coded (dp_create_lb lb ul).
Proof. unfold dp_create_lb. rt. Qed.
Lemma rt_get_lb id out : returns (λ r, grpc_result r.1) (dp_get_lb id out).
Proof. apply rt_lb_of_id; intros; rt. Qed.
Lemma rt_delete_lb id : coded (dp_delete_lb id).
Proof. unfold dp_delete_lb. rt. Qed.
Lemma rt_add_lb_back_ip id ip size : coded (dp_add_lb_back_ip id ip size).
Proof. apply rt_lb_of_id; intros; rt. Qed.
Lemma rt_del_lb_back_ip id ip : coded (dp_del_lb_back_ip id ip).
Proof.
  apply rt_lb_of_id; [rt|rt|]. intros. unfold dp_lb_delete_back_ip. apply rt_seq. intros v. destruct (for_find _ _ _); rt.
Qed.

Lemma rt_add_route fam port vni t_vni ip t_ip6 depth : coded (dp_add_route fam port vni t_vni ip t_ip6 depth).
Proof. unfold dp_add_route. rt. Qed.
Lemma rt_del_route fam port vni ip depth : coded (dp_del_route fam port vni ip depth).
Proof. unfold dp_del_route. rt. Qed.
Lemma rt_grpc_add_route port vni t_vni addr t_ip6 depth : coded (dp_grpc_add_route port vni t_vni addr t_ip6 depth).
Proof. unfold dp_grpc_add_route. apply rt_zoom. destruct (is_v6 addr); apply rt_add_route. Qed.
Lemma rt_grpc_del_route port vni addr depth : coded (dp_grpc_del_route port vni addr depth).
Proof. unfold dp_grpc_del_route. apply rt_zoom. destruct (is_v6 addr); apply rt_del_route. Qed.
#[local] Hint Resolve rt_create_lb rt_get_lb rt_delete_lb rt_add_lb_back_ip rt_del_lb_back_ip rt_add_route rt_del_route
  rt_grpc_add_route rt_grpc_del_route : returns.

Lemma rt_fill_ports skip ports : coded (fill_ports skip ports).
Proof.
  induction ports as [|port ports IH]; cbn; [rt|]. destruct (skip port); [done|].
  eapply (rt_bind grpc_result); [unfold dp_lpm_fill_route_tables; rt|]. intros ret Hret. rt.
Qed.
#[local] Hint Resolve rt_fill_ports : returns.
Lemma rt_reset_all : coded dp_lpm_reset_all_route_tables.
Proof. unfold dp_lpm_reset_all_route_tables. rt. Qed.
Lemma rt_reset vni : coded (dp_lpm_reset_route_tables vni).
Proof. unfold dp_lpm_reset_route_tables. rt. Qed.

Lemma rt_snat_data_for ip vni used : returns (λ r, match r with inl e => grpc_result e | inr _ => True end) (snat_data_for ip vni used).
Proof. unfold snat_data_for. rt. match goal with |- context [if ?b then _ else _] => destruct b end; eauto with dps. Qed.
#[local] Hint Resolve rt_snat_data_for : returns.
Lemma rt_set_vip a b c d : coded (dp_set_iface_vip_ip a b c d).
Proof. unfold dp_set_iface_vip_ip. rt. Qed.
Lemma rt_set_nat a b c d e f : coded (dp_set_iface_nat_ip a b c d e f).
Proof. unfold dp_set_iface_nat_ip. rt. Qed.
Lemma rt_del_nat a b : coded (dp_del_iface_nat_ip a b).
Proof. unfold dp_del_iface_nat_ip. rt. Qed.
Lemma rt_set_dnat a b c : coded (dp_set_dnat_ip a b c).
Proof. unfold dp_set_dnat_ip. rt. Qed.
Lemma rt_add_neigh a b c d e f : coded (dp_add_network_nat_entry a b c d e f).
Proof. unfold dp_add_network_nat_entry. rt. Qed.
Lemma rt_del_neigh a b c d e : coded (dp_del_network_nat_entry a b c d e).
Proof. unfold dp_del_network_nat_entry. rt. Qed.
Lemma rt_del_vnf_by_value a b c d e : coded (dp_del_vnf_by_value a b c d e).
Proof. unfold dp_del_vnf_by_value. rt; try (match goal with |- context [if ?b then _ else _] => destruct b end; eauto with dps). Qed.

Lemma rt_enable_capture ul cfg p : coded (dp_enable_pkt_capture ul cfg p).
Proof. unfold dp_enable_pkt_capture, set_captured. rt. Qed.
#[local] Hint Resolve rt_enable_capture : returns.
Lemma rt_disable_ports ul cfg n p count : 0 ≤ count → returns (λ ret, grpc_result ret ∨ 0 ≤ ret) (disable_ports ul cfg n p count).
Proof.
  revert p count. induction n as [|n IH]; intros p count Hc; cbn [disable_ports]; [apply rt_ret; by right|].
  rt_step. destruct (_ && _); [|by apply IH]. rt_step. destruct (DP_FAILED _); [apply rt_ret; by left|]. apply IH. lia.
Qed.
Lemma rt_disable_all ul cfg : returns (λ ret, grpc_result ret ∨ 0 ≤ ret) (dp_disable_pkt_capture_on_all_ifaces ul cfg).
Proof. unfold dp_disable_pkt_capture_on_all_ifaces. rt_step. by apply rt_disable_ports. Qed.
#[local] Hint Resolve rt_reset_all rt_reset rt_set_vip rt_set_nat rt_del_nat rt_set_dnat rt_add_neigh rt_del_neigh rt_del_vnf_by_value
  rt_disable_all : returns.

(** ** Single replies *)

(** The message that the reply to a request holds when it reports success. *)
Definition fits (request : dpgrpc_request) (r : single_reply) : bool :=
  match request, r with
  | ReqGetVersion, RepVersions _ _ => true
  | ReqCreateInterface _, RepVfPci _ _ => true
  | ReqGetInterface _, RepIface _ => true
  | (ReqCreatePrefix _ | ReqCreateVip _ | ReqCreateNat _ | ReqCreateLoadBalancer _), RepUlAddr _ => true
  | ReqGetVip _, RepVip _ (Some _) => true
  | ReqGetNat _, RepNat _ _ _ _ => true
  | ReqGetLoadBalancer _, RepLb _ => true
  | ReqCreateLoadBalancerPrefix _, RepRoute _ => true
  | ReqCreateFirewallRule _, RepNone => true
  | ReqGetFirewallRule _, RepFwrule _ => true
  | ReqCheckVniInUse _, RepVniInUse _ => true
  | ReqCaptureStop, RepCaptureStop _ => true
  | ReqCaptureStatus, RepCapture _ => true
  | (ReqGetVersion | ReqCreateInterface _ | ReqGetInterface _ | ReqCreatePrefix _ | ReqCreateVip _ | ReqCreateNat _
     | ReqCreateLoadBalancer _ | ReqGetVip _ | ReqGetNat _ | ReqGetLoadBalancer _ | ReqCreateLoadBalancerPrefix _
     | ReqCreateFirewallRule _ | ReqGetFirewallRule _ | ReqCheckVniInUse _ | ReqCaptureStop | ReqCaptureStatus), _ => false
  | _, _ => true
  end.

Definition answers (request : dpgrpc_request) (r : Z * single_reply) : Prop :=
  grpc_result r.1 ∧ (r.1 = DP_GRPC_OK → fits request r.2 = true).

Lemma answers_err request e : answers request (DP_GRPC_ERR e, RepNone).
Proof. split; cbn; [eauto with dps|]. intros E. pose proof (DP_GRPC_ERR_failed e) as H. by rewrite E in H. Qed.
Lemma answers_failed request ret r : grpc_result ret → DP_FAILED ret = true → answers request (ret, r).
Proof. split; [done|]. cbn. by intros ->. Qed.
Lemma answers_any request ret r : grpc_result ret → fits request r = true → answers request (ret, r).
Proof. by split. Qed.
Lemma dnat_failed_failed ret : dnat_failed ret = true → DP_FAILED ret = true.
Proof. by intros [? _]%andb_prop. Qed.
#[local] Hint Resolve answers_err answers_failed dnat_failed_failed : returns.
#[local] Hint Extern 2 (answers _ _) => (apply answers_any; [solve [eauto with dps]|reflexivity]) : returns.

Ltac an := repeat rt_step; eauto with returns.

Lemma rt_with_port id e k request : (∀ p port, returns (answers request) (k p port)) → returns (answers request) (with_port id e k).
Proof. intros Hk. unfold with_port, err. an. Qed.
Lemma rt_with_snat ip vni used k request : (∀ p d, returns (answers request) (k p d)) → returns (answers request) (with_snat ip vni used k).
Proof. intros Hk. unfold with_snat, err. an. Qed.
Lemma rt_only c request : returns grpc_result c → (∀ r, fits request r = true) → returns (answers request) (only c).
Proof. intros Hc Hf. unfold only. eapply rt_bind; [exact Hc|]. intros ret Hret. apply rt_ret. by apply answers_any. Qed.

Context (conf : dp_conf) (version : list Z).

Lemma an_create_lb r : returns (answers (ReqCreateLoadBalancer r)) (dp_process_create_lb conf r).
Proof. unfold dp_process_create_lb, err. an. Qed.
Lemma an_delete_lb id : returns (answers (ReqDeleteLoadBalancer id)) (dp_process_delete_lb id).
Proof. unfold dp_process_delete_lb, err. an. Qed.
Lemma an_get_lb id r : returns (answers (ReqGetLoadBalancer id)) (dp_process_get_lb id r).
Proof. unfold dp_process_get_lb. an. Qed.
Lemma an_create_lbtarget r : returns (answers (ReqCreateLoadBalancerTarget r)) (dp_process_create_lbtarget r).
Proof. unfold dp_process_create_lbtarget, err. destruct (negb _); [an|]. apply rt_only; [an|done]. Qed.
Lemma an_delete_lbtarget r : returns (answers (ReqDeleteLoadBalancerTarget r)) (dp_process_delete_lbtarget r).
Proof. unfold dp_process_delete_lbtarget, err. destruct (negb _); [an|]. apply rt_only; [an|done]. Qed.
Lemma an_initialize : returns (answers ReqInitialize) dp_process_initialize.
Proof. unfold dp_process_initialize. rt_step. apply rt_only; [an|done]. Qed.
Lemma an_check_vni r : returns (answers (ReqCheckVniInUse r)) (dp_process_check_vniinuse r).
Proof. unfold dp_process_check_vniinuse, err. an. Qed.
Lemma an_reset_vni r : returns (answers (ReqResetVni r)) (dp_process_reset_vni r).
Proof. unfold dp_process_reset_vni, err. destruct (vr_type r); [an|an|]. apply rt_only; [an|done]. Qed.
Lemma an_create_fwrule r : returns (answers (ReqCreateFirewallRule r)) (dp_process_create_fwrule r).
Proof. apply rt_with_port. intros. unfold err. an. Qed.
Lemma an_get_fwrule r : returns (answers (ReqGetFirewallRule r)) (dp_process_get_fwrule r).
Proof. apply rt_with_port. intros. unfold err. an. Qed.
Lemma an_delete_fwrule r : returns (answers (ReqDeleteFirewallRule r)) (dp_process_delete_fwrule r).
Proof. apply rt_with_port. intros. unfold err. an. Qed.
Lemma an_create_vip r : returns (answers (ReqCreateVip r)) (dp_process_create_vip conf r).
Proof. apply rt_with_port. intros. unfold err. an. Qed.
Lemma an_delete_vip id : returns (answers (ReqDeleteVip id)) (dp_process_delete_vip id).
Proof. apply rt_with_port. intros. apply rt_with_snat. intros. an. Qed.
Lemma an_get_vip id : returns (answers (ReqGetVip id)) (dp_process_get_vip id).
Proof. apply rt_with_port. intros. apply rt_with_snat. intros. an. Qed.
Lemma an_create_lbprefix r : returns (answers (ReqCreateLoadBalancerPrefix r)) (dp_process_create_lbprefix conf r).
Proof. apply rt_with_port. intros. unfold err. an. Qed.
Lemma an_delete_lbprefix r : returns (answers (ReqDeleteLoadBalancerPrefix r)) (dp_process_delete_lbprefix r).
Proof. apply rt_with_port. intros. apply rt_only; [an|done]. Qed.
Lemma an_create_prefix r : returns (answers (ReqCreatePrefix r)) (dp_process_create_prefix conf r).
Proof. apply rt_with_port. intros. unfold err. an. Qed.
Lemma an_delete_prefix r : returns (answers (ReqDeletePrefix r)) (dp_process_delete_prefix r).
Proof. apply rt_with_port. intros. an. destruct (DP_FAILED _); an. Qed.
Ltac errs := unfold meter_err, route6_err, route_err, iface_err, handle_err, err_vnf; an.
Lemma an_start_interface p r ul : returns (answers (ReqCreateInterface r)) (start_interface conf p r ul).
Proof.
  unfold start_interface.
  assert (Hroute : ∀ (b : bool) (c : cmd vni_state Z), returns grpc_result c →
    returns grpc_result (if b then zoom vniS c else mret DP_GRPC_OK : cmd service_state Z)) by (intros [] c Hc; [by apply rt_zoom|by apply rt_ret, grpc_result_ok]).
  rt_step. eapply rt_bind; [apply Hroute, rt_add_route|]. intros ret Hret. destruct (DP_FAILED ret) eqn:E; [errs|].
  eapply rt_bind; [apply Hroute, rt_add_route|]. intros ret6 Hret6. destruct (DP_FAILED ret6) eqn:E6; [errs|].
  do 2 rt_step; [errs|]. do 2 rt_step; [errs|]. an.
Qed.
Lemma an_create_interface r : returns (answers (ReqCreateInterface r)) (dp_process_create_interface conf r).
Proof.
  unfold dp_process_create_interface, err. repeat (rt_step; try solve [eauto with returns]);
    first [apply an_start_interface|errs].
Qed.
Lemma an_delete_interface id : returns (answers (ReqDeleteInterface id)) (dp_process_delete_interface conf id).
Proof. apply rt_with_port. intros. an. repeat match goal with |- context [if ?b then _ else _] => destruct b end; an. Qed.
Lemma an_get_interface id : returns (answers (ReqGetInterface id)) (dp_process_get_interface id).
Proof. apply rt_with_port. intros. an. Qed.
Lemma an_create_route r : returns (answers (ReqCreateRoute r)) (dp_process_create_route r).
Proof. unfold dp_process_create_route, err. destruct (negb _); [an|]. rt_step. apply rt_only; [an|done]. Qed.
Lemma an_delete_route r : returns (answers (ReqDeleteRoute r)) (dp_process_delete_route r).
Proof. unfold dp_process_delete_route. rt_step. apply rt_only; [an|done]. Qed.
Lemma an_create_nat r : returns (answers (ReqCreateNat r)) (dp_process_create_nat conf r).
Proof. apply rt_with_port. intros. unfold err. an. Qed.
Lemma an_delete_nat id : returns (answers (ReqDeleteNat id)) (dp_process_delete_nat id).
Proof. apply rt_with_port. intros. apply rt_with_snat. intros. an. Qed.
Lemma an_get_nat id : returns (answers (ReqGetNat id)) (dp_process_get_nat id).
Proof. apply rt_with_port. intros. apply rt_with_snat. intros. an. Qed.
Lemma an_create_neighnat r : returns (answers (ReqCreateNeighborNat r)) (dp_process_create_neighnat r).
Proof. unfold dp_process_create_neighnat, err. an. Qed.
Lemma an_delete_neighnat r : returns (answers (ReqDeleteNeighborNat r)) (dp_process_delete_neighnat r).
Proof. unfold dp_process_delete_neighnat, err. an. Qed.
Lemma an_get_version : returns (answers ReqGetVersion) (dp_process_get_version version).
Proof. unfold dp_process_get_version. an. Qed.

Lemma rt_capture_interfaces l status : grpc_result status → returns grpc_result (capture_interfaces conf l status).
Proof.
  revert status. induction l as [|i l IH]; intros status Hs; cbn [capture_interfaces]; [by apply rt_ret|].
  rt_step. destruct a as [p|]; [|apply rt_fault]. rt_step. rt_step. destruct (DP_FAILED _); [by apply rt_ret|by apply IH].
Qed.
Lemma rt_disable_all_ : returns (λ ret, grpc_result ret ∨ 0 ≤ ret) (disable_all conf).
Proof. unfold disable_all. an. Qed.
#[local] Hint Resolve rt_disable_all_ : returns.
Lemma an_capture_start r : returns (answers (ReqCaptureStart r)) (dp_process_capture_start conf r).
Proof.
  unfold dp_process_capture_start, err. destruct (negb _); [an|]. rt_step. destruct a; [an|]. rt_step.
  eapply rt_bind; [by apply rt_capture_interfaces, grpc_result_ok|]. intros st Hst. destruct (DP_FAILED st) eqn:E.
  - rt_step. apply rt_ret. match goal with |- context [if DP_FAILED ?x then _ else _] => destruct (DP_FAILED x) end; eauto with returns.
  - rt_step. apply rt_ret. by apply answers_any.
Qed.
Lemma an_capture_stop : returns (answers ReqCaptureStop) (dp_process_capture_stop conf).
Proof.
  unfold dp_process_capture_stop, err. rt_step. destruct (negb _); [an|]. rt_step. destruct (DP_FAILED a0) eqn:E; [|an].
  apply rt_ret. destruct H as [H|H]; [by apply answers_failed|]. apply DP_FAILED_true in E. lia.
Qed.
Lemma an_capture_status : returns (answers ReqCaptureStatus) dp_process_capture_status.
Proof. unfold dp_process_capture_status, err. an. Qed.
End codes.

(** ** Listings *)

(** All messages up to [n] were written, and [P] holds of them. *)
Definition all_written {M} (P : M → Prop) (n : Z) (msgs : gmap Z M) : Prop :=
  ∀ i, 0 ≤ i < n → ∃ m, msgs !! i = Some m ∧ P m.

(** Packets in a chain: all but the last say that another follows. *)
Inductive chain {M} (P : M → Prop) : list (dpgrpc_reply M) → Prop :=
  | chain_last p : rp_is_chained p = false → all_written P (rp_msg_count p) (rp_messages p) → chain P [p]
  | chain_more p ps : rp_is_chained p = true → all_written P (rp_msg_count p) (rp_messages p) → chain P ps → chain P (p :: ps).

(** The code is in the first packet. *)
Definition listing {M} (P : M → Prop) (code : Z) (ps : list (dpgrpc_reply M)) : Prop :=
  chain P ps ∧ rp_err_code <$> ps = code :: replicate (pred (length ps)) DP_GRPC_OK.

Section chains.
Context `{HP : RteMempool} {M : Type} (P : M → Prop).
Implicit Types r : dp_grpc_responder M.

Record resp_ok r : Prop := {
  rk_capacity : 0 < rs_rep_capacity r ≤ UINT16_MAX;
  rk_count : 0 ≤ rs_rep_msgcount r ≤ rs_rep_capacity r;
  rk_length : rs_repcount r ≤ DP_GRPC_REPLY_ARR_SIZE;
  rk_full : Forall (λ p, rp_is_chained p = true ∧ all_written P (rp_msg_count p) (rp_messages p)) (rs_replies r);
  rk_codes : Forall (λ p, rp_err_code p = DP_GRPC_OK) (tail (rs_replies r));
  rk_unchained : rp_is_chained (rs_rep r) = false;
  rk_last : all_written P (rs_rep_msgcount r) (rp_messages (rs_rep r));
  rk_code : rs_replies r ≠ [] → rp_err_code (rs_rep r) = DP_GRPC_OK
}.

Lemma all_written_insert n msgs m : 0 ≤ n → all_written P n msgs → P m → all_written P (n + 1) (<[n := m]> msgs).
Proof.
  intros Hn Hw Hm i Hi. destruct (decide (i = n)) as [->|Hne]; [rewrite lookup_insert_eq; eauto|].
  rewrite lookup_insert_ne by done. apply Hw. lia.
Qed.
Lemma all_written_nil msgs : all_written P 0 msgs.
Proof. intros i Hi. lia. Qed.

Lemma resp_ok_alloc r ret r' :
  resp_ok r → rs_rep_msgcount r = rs_rep_capacity r → dp_grpc_alloc_reply r = Some (ret, r') →
  resp_ok r' ∧ (DP_FAILED ret = false → rs_rep_msgcount r' < rs_rep_capacity r').
Proof.
  intros [] Hfull E. unfold dp_grpc_alloc_reply in E. destruct (UINT16_MAX <? _) eqn:E1; [by simplify_eq|].
  destruct (DP_GRPC_REPLY_ARR_SIZE <=? _) eqn:E2; [by simplify_eq|]. destruct (rte_pktmbuf_alloc _) as [ok pool].
  destruct ok; cbn in E; simplify_eq; cbn; [|by split].
  assert (Hu : u16 (rs_rep_capacity r) = rs_rep_capacity r) by (apply u16_id; unfold is_u16, UINT16_MAX in *; lia).
  split; [|intros _; lia]. apply Z.leb_gt in E2. constructor; cbn; try done; try lia.
  - unfold rs_repcount, DP_GRPC_REPLY_ARR_SIZE, DP_GRPC_Q_SIZE in *. cbn in *. rewrite length_app. cbn. lia.
  - apply Forall_app_2; [done|]. apply Forall_singleton. cbn. split; [done|]. rewrite Hu, <- Hfull. done.
  - destruct (rs_replies r) as [|p l]; cbn in *; [done|]. apply Forall_app_2; [done|]. apply Forall_singleton. cbn. by apply rk_code0.
  - apply all_written_nil.
Qed.

Lemma resp_ok_add r reply r' :
  resp_ok r → dp_grpc_add_reply r = Some (reply, r') →
  match reply with None => resp_ok r' | Some i => ∀ m, P m → wp (fill_reply i m) (λ _, resp_ok) r' end.
Proof.
  intros Hr E. unfold dp_grpc_add_reply, gets, modify, mbind, cmd_bind, mret, cmd_ret, id in E.
  assert (Hslot : ∀ r1, resp_ok r1 → rs_rep_msgcount r1 < rs_rep_capacity r1 → ∀ m, P m →
    wp (fill_reply (rs_rep_msgcount r1) m) (λ _, resp_ok) (r1 <| rs_rep_msgcount := u16 (rs_rep_msgcount r1 + 1) |>)).
  { intros r1 [] Hlt m Hm. assert (Hu : u16 (rs_rep_msgcount r1 + 1) = rs_rep_msgcount r1 + 1)
      by (apply u16_id; unfold is_u16, UINT16_MAX in *; lia).
    apply wp_modify. constructor; cbn; try done; rewrite ?Hu; try lia. apply all_written_insert; [lia|done|done]. }
  destruct (rs_rep_capacity r <=? rs_rep_msgcount r) eqn:Ec.
  - apply Z.leb_le in Ec. destruct (dp_grpc_alloc_reply r) as [[ret r1]|] eqn:Ea; [|done]. pose proof (rk_count r Hr).
    apply resp_ok_alloc in Ea as [Hr1 Hlt]; [|done|lia]. destruct (DP_FAILED ret); simplify_eq; [done|]. by apply Hslot; [|apply Hlt].
  - apply Z.leb_gt in Ec. simplify_eq. by apply Hslot.
Qed.

(** One message added, then the rest. *)
Lemma tr_add_reply (no : cmd (dp_grpc_responder M) Z) (k : cmd (dp_grpc_responder M) Z) m (Q : Z → dp_grpc_responder M → Prop) :
  P m → triple resp_ok no Q → triple resp_ok k Q →
  triple resp_ok (reply ← dp_grpc_add_reply; match reply with None => no | Some i => fill_reply i m;; k end) Q.
Proof.
  intros Hm Hno Hk r a r' Hr E. unfold mbind, cmd_bind in E. destruct (dp_grpc_add_reply r) as [[[i|] r1]|] eqn:Ea; [| |done].
  - pose proof (resp_ok_add r _ _ Hr Ea m Hm) as Hw. eapply Hk; [exact Hw|exact E].
  - pose proof (resp_ok_add r _ _ Hr Ea) as Hw. eapply Hno; [exact Hw|exact E].
Qed.

Definition listed_post (ret : Z) r : Prop := grpc_result ret ∧ resp_ok r.
Lemma tr_reply_each l : Forall P l → triple resp_ok (reply_each l) listed_post.
Proof.
  induction 1 as [|m l Hm Hl IH]; cbn [reply_each]; [apply tr_ret; intros r Hr; by split; [eauto with dps|]|].
  apply tr_add_reply; [done| |done]. apply tr_ret. intros r Hr. by split; [eauto with dps|].
Qed.

(** A responder that nothing was written to yet. *)
Record fresh (room : Z) r : Prop := {
  fr_replies : rs_replies r = [];
  fr_count : rs_rep_msgcount r = 0;
  fr_capacity : 0 < rs_rep_capacity r ≤ UINT16_MAX;
  fr_room : rs_rep_max_size r = room;
  fr_unchained : rp_is_chained (rs_rep r) = false
}.
Lemma fresh_ok room r : fresh room r → resp_ok r.
Proof.
  intros []. constructor; rewrite ?fr_replies0, ?fr_count0; try done; try lia; [|apply all_written_nil].
  unfold rs_repcount. by rewrite fr_replies0.
Qed.

Definition size_ok (room size : Z) : Prop := 0 < size ≤ room ∧ room / size ≤ UINT16_MAX.
Lemma tr_multireply room size k Q :
  size_ok room size → triple resp_ok k Q → triple (fresh room) (dp_grpc_set_multireply size;; k : cmd _ Z) Q.
Proof.
  intros [Hs Hmax] Hk r a r' [] E. eapply Hk; [|exact E]. apply (fresh_ok room).
  constructor; cbn; try done. rewrite fr_room0. split; [|done]. enough (1 ≤ room / size) by lia. apply Z.div_le_lower_bound; lia.
Qed.

Lemma chain_app l p : Forall (λ p, rp_is_chained p = true ∧ all_written P (rp_msg_count p) (rp_messages p)) l → chain P [p] → chain P (l ++ [p]).
Proof. intros Hl Hp. induction Hl as [|q l [Hc Hw] Hl IH]; [done|]. cbn. by apply chain_more. Qed.

Lemma codes_ok (l : list (dpgrpc_reply M)) : Forall (λ p, rp_err_code p = DP_GRPC_OK) l → rp_err_code <$> l = replicate (length l) DP_GRPC_OK.
Proof. induction 1 as [|p l Hp Hl IH]; [done|]. cbn. by rewrite Hp, IH. Qed.

Lemma send_listing r code enqueue :
  resp_ok r → rs_repcount r ≤ enqueue (rs_repcount r) → listing P code (dp_grpc_send_response enqueue code r).
Proof.
  intros [] He. unfold dp_grpc_send_response.
  assert (Hlast : ∀ c, chain P [(rs_rep r) <| rp_msg_count := rs_rep_msgcount r |> <| rp_err_code := c |>]) by (intros c; by apply chain_last).
  unfold rs_repcount in *. destruct (rs_replies r) as [|p l].
  - rewrite take_ge by (cbn in *; lia). split; [apply Hlast|done].
  - rewrite take_ge by (cbn in *; rewrite length_app; cbn; lia). inversion_clear rk_full0 as [|? ? [Hc Hw] Hl]. split.
    + apply chain_more; [done|done|]. apply chain_app; [done|].
      specialize (Hlast (rp_err_code (rs_rep r))). by destruct (rs_rep r).
    + cbn. f_equal. rewrite fmap_app, length_app. cbn. rewrite replicate_add, (codes_ok l) by done. cbn. rewrite rk_code0 by done. done.
Qed.
End chains.

(** ** The whole reply *)

(** A code that has a name in the API. *)
Definition code_ok (code : Z) : Prop := is_Some (dp_grpc_strerror code).

Lemma reply_code_ok ret code : grpc_result ret → reply_code ret = Some code → code_ok code ∧ (code = DP_GRPC_OK → ret = DP_GRPC_OK).
Proof.
  intros [->|[e ->]]; unfold reply_code.
  - intros [= <-]. split; [by eexists|done].
  - rewrite DP_GRPC_ERR_failed. destruct (grpc_codes_named e) as (n & name & En & Hn & _). rewrite En. intros [= <-].
    split; [by eexists|]. intros ->. by destruct e.
Qed.

Definition single_ok (request : dpgrpc_request) (l : list (dpgrpc_reply single_reply)) : Prop :=
  ∃ code r, l = [MkReply false 0 code {[0 := r]}] ∧ code_ok code ∧ (code = DP_GRPC_OK → fits request r = true).
Definition listing_ok {M} (P : M → Prop) (l : list (dpgrpc_reply M)) : Prop := ∃ code, listing P code l ∧ code_ok code.

(** A route with its target. *)
Definition route_complete (m : route_reply) : Prop := is_Some (rr_trgt_addr m) ∧ is_Some (rr_trgt_vni m).

(** What the members of the messages of a listing are that the server reads. *)
Definition response_ok (request : dpgrpc_request) (resp : dp_response) : Prop :=
  match request, resp with
  | ReqListInterfaces, Ifaces l => listing_ok (λ _, True) l
  | ReqListPrefixes _, Prefixes l => listing_ok (λ _, True) l
  | ReqListRoutes _, Routes l => listing_ok route_complete l
  | ReqListLocalNats _, Nats l => listing_ok (λ m, is_Some (nr_addr m)) l
  | ReqListNeighborNats _, Nats l => listing_ok (λ m, is_Some (nr_ul_addr6 m)) l
  | ReqListLoadBalancerTargets _, LbTargets l => listing_ok (λ _, True) l
  | ReqListLoadBalancerPrefixes _, Prefixes l => listing_ok (λ _, True) l
  | ReqListFirewallRules _, Fwrules l => listing_ok (λ _, True) l
  | (ReqListInterfaces | ReqListPrefixes _ | ReqListRoutes _ | ReqListLocalNats _ | ReqListNeighborNats _
     | ReqListLoadBalancerTargets _ | ReqListLoadBalancerPrefixes _ | ReqListFirewallRules _), _ => False
  | _, Single l => single_ok request l
  | _, _ => False
  end.

Section dispatch_facts.
Context `{HH : RteHash} `{HM : RteMalloc} `{HR : RteRib} `{HF : RteFlow} `{HE : RteEth} `{HP : RteMempool}.
Context (conf : dp_conf) (version : list Z) (env : grpc_env).

(** A message fits into a packet, a packet holds at most [UINT16_MAX] messages, and the
    ring takes a whole reply. *)
Record env_ok : Prop := {
  eo_iface : size_ok (ge_room env) (ge_sizeof_iface env);
  eo_route : size_ok (ge_room env) (ge_sizeof_route env);
  eo_nat : size_ok (ge_room env) (ge_sizeof_nat env);
  eo_lbtrgt : size_ok (ge_room env) (ge_sizeof_lbtrgt env);
  eo_fwrule : size_ok (ge_room env) (ge_sizeof_fwrule env);
  eo_enqueue n : n ≤ DP_GRPC_REPLY_ARR_SIZE → n ≤ ge_enqueue env n
}.
Context (Henv : env_ok).

Lemma run_single_ok request h s resp s' :
  returns (answers request) h → run_single env h s = Some (resp, s') → ∃ l, resp = Single l ∧ single_ok request l.
Proof using Henv.
  intros Hh E. unfold run_single, mbind, cmd_bind in E. destruct (h s) as [[[ret r] s1]|] eqn:Eh; [|done].
  destruct (Hh _ _ _ Eh) as [Hret Hfit]. cbn in *. destruct (reply_code ret) as [code|] eqn:Ec; [|done].
  destruct (reply_code_ok _ _ Hret Ec) as [Hok Hcode]. injection E as <- _. eexists. split; [done|].
  unfold dp_grpc_send_response, rs_repcount. cbn. rewrite take_ge; last first.
  { assert (1 ≤ ge_enqueue env 1) by (apply (eo_enqueue Henv); by vm_compute). cbn. change (Z.of_nat 0 + 1) with 1. lia. }
  exists code, r. split; [done|]. split; [done|]. auto.
Qed.

Lemma run_list_ok {M} (P : M → Prop) mk (l : lister M) s resp s' :
  triple (fresh (ge_room env)) (l s) (listed_post P) → run_list env mk l s = Some (resp, s') →
  ∃ ps, resp = mk ps ∧ listing_ok P ps.
Proof using Henv.
  intros Hl E. unfold run_list in E. destruct (l s (new_responder env)) as [[ret r]|] eqn:El; [|done].
  assert (Hf : fresh (ge_room env) (new_responder env : dp_grpc_responder M)) by by constructor.
  destruct (Hl _ _ _ Hf El) as [Hret Hr]. destruct (reply_code ret) as [code|] eqn:Ec; [|done]. injection E as <- _.
  eexists. split; [done|]. exists code. split; [|by eapply reply_code_ok]. apply send_listing; [done|].
  apply (eo_enqueue Henv). by apply rk_length with P.
Qed.

Lemma tr_fresh_ret {M} (P : M → Prop) room ret :
  grpc_result ret → triple (fresh room) (mret ret : cmd (dp_grpc_responder M) Z) (listed_post P).
Proof. intros Hret. apply tr_ret. intros r Hr. split; [done|]. by eapply fresh_ok. Qed.

(** The listings of tables end with a check of the iteration. *)
Lemma tr_items {M} (P : M → Prop) room size (l : list M) (last_ret : Z) :
  size_ok room size → Forall P l →
  triple (fresh room)
    (dp_grpc_set_multireply size;; ret ← reply_each l;
     mret (if DP_FAILED ret then ret else if last_ret =? - ENOENT then DP_GRPC_OK else DP_GRPC_ERR ITERATOR)) (listed_post P).
Proof.
  intros Hs Hl. eapply tr_multireply; [done|]. eapply tr_bind; [by apply tr_reply_each|]. intros ret. apply tr_ret.
  intros r [Hret Hr]. split; [|done]. repeat case_match; eauto with dps.
Qed.

Lemma tr_list_port {M} (P : M → Prop) room id (k : nat → dp_port → lister M) s :
  (∀ p port, triple (fresh room) (k p port s) (listed_post P)) → triple (fresh room) (list_with_port id k s) (listed_post P).
Proof. intros Hk. unfold list_with_port. repeat case_match; [auto|apply tr_fresh_ret; eauto with dps|apply tr_fault]. Qed.

Lemma Forall_any {A} (l : list A) : Forall (λ _, True) l.
Proof. by apply Forall_true. Qed.
Hint Resolve Forall_any : core.

Lemma tr_ok_ret {M} (P : M → Prop) ret : grpc_result ret → triple (resp_ok P) (mret ret : cmd (dp_grpc_responder M) Z) (listed_post P).
Proof. intros Hret. apply tr_ret. by split. Qed.
Hint Resolve tr_ok_ret tr_fault : core.

Lemma tr_route_entry st r node port : triple (resp_ok route_complete) (dp_list_route_entry st r node port true) (listed_post route_complete).
Proof.
  unfold dp_list_route_entry. destruct (port_by_nh _ _) as [i|]; [|eauto with dps]. cbn. destruct (ps_ports st !! i); [|done].
  destruct (_ || _); [|eauto with dps]. apply tr_add_reply; [by split; eexists|eauto with dps|eauto with dps].
Qed.

Lemma tr_entry_then st r node port k :
  triple (resp_ok route_complete) k (listed_post route_complete) →
  triple (resp_ok route_complete) (ret ← dp_list_route_entry st r node port true; if DP_FAILED ret then mret ret else k) (listed_post route_complete).
Proof.
  intros Hk. eapply tr_bind; [apply tr_route_entry|]. intros ret. destruct (DP_FAILED ret); [by apply tr_ret|].
  eapply tr_pre; [exact Hk|]. by intros r' [_ ?].
Qed.

Lemma tr_list_nxt fuel st r node port : triple (resp_ok route_complete) (list_nxt fuel st r node port true) (listed_post route_complete).
Proof.
  revert node. induction fuel as [|fuel IH]; intros node; cbn [list_nxt]; [done|].
  destruct (rib_get_nxt 0 0 node r); [|eauto with dps]. by apply tr_entry_then.
Qed.

Lemma tr_list_routes fuel s vni room :
  size_ok room (ge_sizeof_route env) → triple (fresh room) (dp_process_list_routes env fuel vni s) (listed_post route_complete).
Proof.
  intros Hs. unfold dp_process_list_routes. destruct (sv_pf0 s) as [[pf0 ?]|]; [|done]. unfold dp_list_routes.
  destruct (dp_get_vni_route_table _ _ _) as [[[root|] ?]|]; [|apply tr_fresh_ret; eauto with dps|done].
  destruct (objs _ !! root) as [r|]; [|done]. eapply tr_multireply; [done|].
  destruct (rib_lookup_exact 0 0 r) as [node|]; [apply tr_entry_then, tr_list_nxt|apply tr_list_nxt].
Qed.

(** The other listings. *)
Lemma tr_list_interfaces s : triple (fresh (ge_room env)) (dp_process_list_interfaces env s) (listed_post (λ _, True)).
Proof using Henv. eapply tr_multireply; [apply Henv|]. by apply tr_reply_each. Qed.
Lemma tr_list_lbtargets id s : triple (fresh (ge_room env)) (dp_process_list_lbtargets env id s) (listed_post (λ _, True)).
Proof using Henv.
  unfold dp_process_list_lbtargets, dp_get_lb_back_ips.
  match goal with |- context [lb_of_id id ?a ?b ?c ?s] =>
    assert (Hlb : returns (λ r, match r with inl e => grpc_result e | inr _ => True end) (lb_of_id id a b c)) end.
  { apply rt_lb_of_id; intros; repeat rt_step; eauto with dps. }
  destruct (lb_of_id _ _ _ _ _) as [[[e|v] ?]|] eqn:E; [apply tr_fresh_ret; exact (Hlb _ _ _ E)| |done].
  eapply tr_multireply; [apply Henv|]. by apply tr_reply_each.
Qed.
Lemma tr_list_fwrules id s : triple (fresh (ge_room env)) (dp_process_list_fwrules env id s) (listed_post (λ _, True)).
Proof using Henv.
  apply tr_list_port. intros p port. unfold dp_list_firewall_rules. case_match; [|done]. case_match.
  eapply tr_multireply; [apply Henv|]. by apply tr_reply_each.
Qed.
Lemma tr_list_vnfs port_id type s :
  triple (fresh (ge_room env)) (dp_list_vnf_alias_prefixes (ge_sizeof_route env) port_id type s) (listed_post (λ _, True)).
Proof using Henv.
  unfold dp_list_vnf_alias_prefixes. case_match; [apply tr_fresh_ret; eauto with dps|].
  destruct (ot_items _) as [[[vnfs last_ret] ?]|]; [|done].
  apply tr_items; [apply Henv|done].
Qed.
Lemma tr_list_localnats a s : triple (fresh (ge_room env)) (dp_process_list_localnats env a s) (listed_post (λ m, is_Some (nr_addr m))).
Proof using Henv.
  unfold dp_process_list_localnats, dp_list_nat_local_entries. case_match; [apply tr_fresh_ret; eauto with dps|].
  case_match; [apply tr_fresh_ret; eauto with dps|]. destruct (ot_items _) as [[[items last_ret] ?]|]; [|done]. apply tr_items; [apply Henv|].
  apply Forall_fmap, Forall_true. intros [k d]. by eexists.
Qed.
Lemma tr_list_neighnats a s : triple (fresh (ge_room env)) (dp_process_list_neighnats env a s) (listed_post (λ m, is_Some (nr_ul_addr6 m))).
Proof using Henv.
  unfold dp_process_list_neighnats, dp_list_nat_neigh_entries. case_match; [apply tr_fresh_ret; eauto with dps|].
  eapply tr_multireply; [apply Henv|]. apply tr_reply_each. apply Forall_fmap, Forall_true. intros x. by eexists.
Qed.

Lemma an_other : returns (answers ReqOther) (err BAD_REQUEST).
Proof. apply rt_ret, answers_err. Qed.
Lemma tr_list_prefixes id s : triple (fresh (ge_room env)) (dp_process_list_prefixes env id s) (listed_post (λ _, True)).
Proof using Henv. apply tr_list_port. intros p port. apply tr_list_vnfs. Qed.
Lemma tr_list_lbprefixes id s : triple (fresh (ge_room env)) (dp_process_list_lbprefixes env id s) (listed_post (λ _, True)).
Proof using Henv. apply tr_list_port. intros p port. apply tr_list_vnfs. Qed.
Hint Resolve an_initialize an_get_version an_create_interface an_delete_interface an_get_interface an_create_prefix an_delete_prefix
  an_create_route an_delete_route an_create_vip an_delete_vip an_get_vip an_create_nat an_delete_nat an_get_nat an_create_neighnat
  an_delete_neighnat an_create_lb an_delete_lb an_get_lb an_create_lbtarget an_delete_lbtarget an_create_lbprefix an_delete_lbprefix
  an_create_fwrule an_delete_fwrule an_get_fwrule an_check_vni an_reset_vni an_capture_start an_capture_stop an_capture_status
  an_other : handlers.
Hint Resolve tr_list_interfaces tr_list_prefixes tr_list_routes tr_list_localnats tr_list_neighnats tr_list_lbtargets tr_list_lbprefixes
  tr_list_fwrules eo_route : handlers.

Lemma dispatch_ok fuel request s resp s' :
  dp_process_request conf version env fuel request s = Some (resp, s') → response_ok request resp.
Proof using Henv.
  intros E. destruct request; cbn [dp_process_request] in E;
    lazymatch type of E with
    | run_single _ _ _ = _ => eapply run_single_ok in E; [destruct E as (l & -> & Hl); exact Hl|]
    | run_list _ _ _ _ = _ => eapply run_list_ok in E; [destruct E as (l & -> & Hl); exact Hl|]
    end; eauto 2 with handlers.
  apply tr_list_routes, Henv.
Qed.

(** C12. The reply to a request is what the server reads of it.  Its code is one of the API; a single reply is one
    packet, and when it reports success it holds the message that belongs to
    the request; a listing is a chain of packets in which every message that is
    counted was written, with the members that are read. *)
Theorem request_answered fuel request s resp s' :
  dp_process_request conf version env fuel request s = Some (resp, s') → response_ok request resp.
Proof using Henv. apply dispatch_ok. Qed.
End dispatch_facts.

(** ** Example *)

#[local] Existing Instances test_hash test_malloc test_rib test_rteflow test_eth list_mempool.

(** Packets of 1000 bytes, and a pool whose second buffer is not there. *)
Definition ex_env (pool : list bool) : grpc_env := MkGrpcEnv list_mempool pool 1000 400 300 100 100 100 250 id.
Lemma ex_env_ok pool : env_ok (ex_env pool).
Proof. constructor; try (split; [cbn; lia|by vm_compute]). done. Qed.

(** The number of messages in a reply of one packet. *)
Definition ex_listed (r : option (dp_response * service_state)) : option Z :=
  match r with Some (Ifaces [p], _) => Some (rp_msg_count p) | _ => None end.

Lemma request_answered_witness :
  ∃ resp s', dp_process_request ex_conf [49] (ex_env []) 5 ReqListInterfaces ex_service = Some (resp, s')
    ∧ response_ok ReqListInterfaces resp ∧ ex_listed (Some (resp, s')) = Some 1.
Proof.
  assert (H : ex_listed (dp_process_request ex_conf [49] (ex_env []) 5 ReqListInterfaces ex_service) = Some 1) by (vm_compute; reflexivity).
  destruct (dp_process_request ex_conf [49] (ex_env []) 5 ReqListInterfaces ex_service) as [[resp s']|] eqn:E; [|discriminate H].
  exists resp, s'. split; [reflexivity|]. split; [|exact H].
  exact (request_answered ex_conf [49] (ex_env []) (ex_env_ok []) 5 ReqListInterfaces ex_service resp s' E).
Defined.
