(* ===== verification/GrpcMsg.v ===== *)
(** * Messages of the API (proto/dpdk.proto) and their conversion (src/grpc/dp_grpc_conv.cpp,
    the calls of src/grpc/dp_async_grpc.cpp)

    Messages as a client sends them become requests to the worker, and the replies of the
    worker become messages.  An enumeration is a number, because a client may send
    numbers that have no name.  A message that is not present has the default
    values: zero, no bytes, no elements.

    The theorems say that a request made from any message is well formed, and that
    a firewall rule comes back as it was sent. *)

From S2P Require Import Prelude Dpdk Error Types Responder Port Hw Capture PortCtl Firewall GrpcConv Rib Lb Vnf Conn Mbuf Nat Vni Lpm Flow Iface Service.
From Stdlib Require Import String.
Close Scope string_scope.

Abbreviation bytes := (list Z).

(** ** Messages *)

Definition IPV4 : Z := 0.
Definition IPV6 : Z := 1.
Definition PROTOCOL_TCP : Z := 6.
Definition PROTOCOL_UDP : Z := 17.
Definition INGRESS : Z := 0.
Definition EGRESS : Z := 1.
Definition DROP : Z := 0.
Definition ACCEPT : Z := 1.
Definition VNI_IPV4 : Z := 0.
Definition VNI_IPV6 : Z := 1.
Definition VNI_BOTH : Z := 2.
Definition SINGLE_PF : Z := 0.
Definition SINGLE_VF : Z := 1.

Record IpAddress := MkIpAddress { ia_ipver : Z; ia_address : bytes }.
Record Prefix := MkPfx { pf_ip : IpAddress; pf_length : Z; pf_underlay_route : bytes }.
Record Route := MkRouteMsg { rt_prefix : Prefix; rt_nexthop_vni : Z; rt_nexthop_address : IpAddress }.
Record LbPort := MkLbPortMsg { lm_port : Z; lm_protocol : Z }.

Inductive ProtocolFilter :=
  | FILTER_NOT_SET
  | Icmp (icmp_type icmp_code : Z)
  | Tcp (src_port_lower src_port_upper dst_port_lower dst_port_upper : Z)
  | Udp (src_port_lower src_port_upper dst_port_lower dst_port_upper : Z).
Record FirewallRule := MkFirewallRule {
  fw_id : bytes;
  fw_direction : Z;
  fw_action : Z;
  fw_priority : Z;
  fw_source_prefix : Prefix;
  fw_destination_prefix : Prefix;
  fw_protocol_filter : ProtocolFilter
}.

Inductive CaptureSpec := SPEC_NOT_SET | VfName (name : bytes) | PfIndex (index : Z).
Record CapturedInterface := MkCaptured { ci_interface_type : Z; ci_spec : CaptureSpec }.
Record CaptureConfig := MkCaptureConfig {
  cc_sink_node_ip : IpAddress;
  cc_udp_src_port : Z;
  cc_udp_dst_port : Z;
  cc_interfaces : list CapturedInterface
}.

(** The getters of a [oneof]. *)
Definition vf_name (s : CaptureSpec) : bytes := match s with VfName name => name | _ => [] end.
Definition pf_index (s : CaptureSpec) : Z := match s with PfIndex index => index | _ => 0 end.

Record CreateInterface := MkCreateInterface {
  ce_interface_id : bytes;
  ce_vni : Z;
  ce_ipv4_primary_address : bytes;
  ce_ipv6_primary_address : bytes;
  ce_pxe_next_server : bytes;
  ce_pxe_boot_filename : bytes;
  ce_device_name : bytes;
  ce_total_rate : Z;
  ce_public_rate : Z
}.

(** The request messages, one for each call. *)
Inductive request_msg :=
  | InitializeRequest
  | CheckInitializedRequest
  | GetVersionRequest (client_protocol client_name client_version : bytes)
  | CreateInterfaceRequest (r : CreateInterface)
  | DeleteInterfaceRequest (interface_id : bytes)
  | GetInterfaceRequest (interface_id : bytes)
  | ListInterfacesRequest
  | CreatePrefixRequest (interface_id : bytes) (prefix : Prefix)
  | DeletePrefixRequest (interface_id : bytes) (prefix : Prefix)
  | ListPrefixesRequest (interface_id : bytes)
  | CreateRouteRequest (vni : Z) (route : Route)
  | DeleteRouteRequest (vni : Z) (route : Route)
  | ListRoutesRequest (vni : Z)
  | CreateVipRequest (interface_id : bytes) (vip_ip : IpAddress)
  | DeleteVipRequest (interface_id : bytes)
  | GetVipRequest (interface_id : bytes)
  | CreateNatRequest (interface_id : bytes) (nat_ip : IpAddress) (min_port max_port : Z)
  | DeleteNatRequest (interface_id : bytes)
  | GetNatRequest (interface_id : bytes)
  | CreateNeighborNatRequest (nat_ip : IpAddress) (vni min_port max_port : Z) (underlay_route : bytes)
  | DeleteNeighborNatRequest (nat_ip : IpAddress) (vni min_port max_port : Z)
  | ListLocalNatsRequest (nat_ip : IpAddress)
  | ListNeighborNatsRequest (nat_ip : IpAddress)
  | CreateLoadBalancerRequest (loadbalancer_id : bytes) (loadbalanced_ip : IpAddress) (vni : Z) (loadbalanced_ports : list LbPort)
  | DeleteLoadBalancerRequest (loadbalancer_id : bytes)
  | GetLoadBalancerRequest (loadbalancer_id : bytes)
  | CreateLoadBalancerTargetRequest (loadbalancer_id : bytes) (target_ip : IpAddress)
  | DeleteLoadBalancerTargetRequest (loadbalancer_id : bytes) (target_ip : IpAddress)
  | ListLoadBalancerTargetsRequest (loadbalancer_id : bytes)
  | CreateLoadBalancerPrefixRequest (interface_id : bytes) (prefix : Prefix)
  | DeleteLoadBalancerPrefixRequest (interface_id : bytes) (prefix : Prefix)
  | ListLoadBalancerPrefixesRequest (interface_id : bytes)
  | CreateFirewallRuleRequest (interface_id : bytes) (rule : FirewallRule)
  | DeleteFirewallRuleRequest (interface_id rule_id : bytes)
  | GetFirewallRuleRequest (interface_id rule_id : bytes)
  | ListFirewallRulesRequest (interface_id : bytes)
  | CheckVniInUseRequest (vni type : Z)
  | ResetVniRequest (vni type : Z)
  | CaptureStartRequest (capture_config : CaptureConfig)
  | CaptureStopRequest
  | CaptureStatusRequest.

Record Interface := MkInterface {
  it_id : bytes;
  it_vni : Z;
  it_primary_ipv4 : bytes;
  it_primary_ipv6 : bytes;
  it_underlay_route : bytes;
  it_pci_name : bytes;
  it_total_rate : Z;
  it_public_rate : Z
}.
Record NatEntry := MkNatEntryMsg {
  ne_nat_ip : IpAddress;
  ne_min_port : Z;
  ne_max_port : Z;
  ne_underlay_route : bytes;
  ne_vni : Z
}.

(** What a response has besides its status. *)
Inductive response_body :=
  | RespEmpty
  | RespUuid (uuid : bytes)
  | RespVersion (service_protocol service_version : bytes)
  | RespUnderlay (underlay_route : bytes)
  | RespVf (underlay_route vf_name : bytes)
  | RespInterface (interface : Interface)
  | RespInterfaces (interfaces : list Interface)
  | RespPrefixes (prefixes : list Prefix)
  | RespRoutes (routes : list Route)
  | RespVip (vip_ip : IpAddress) (underlay_route : bytes)
  | RespNat (nat_ip : IpAddress) (min_port max_port : Z) (underlay_route : bytes)
  | RespNats (nat_entries : list NatEntry)
  | RespLb (loadbalanced_ip : IpAddress) (vni : Z) (loadbalanced_ports : list LbPort) (underlay_route : bytes)
  | RespTargets (target_ips : list IpAddress)
  | RespRuleId (rule_id : bytes)
  | RespRule (rule : FirewallRule)
  | RespRules (rules : list FirewallRule)
  | RespInUse (in_use : bool)
  | RespStopped (stopped_interface_cnt : Z)
  | RespCapture (capture_config : option CaptureConfig).

(** ** Conversions *)

(** The C library's conversions between addresses and text.  An IPv4 address is in network order. *)
Class LibcAddr := {
  inet_aton : bytes → option Z;
  inet_pton6 : bytes → option Z;
  inet_ntoa : Z → bytes;
  inet_ntop6 : Z → bytes
}.
Class LibcAddrOk `{LibcAddr} : Prop := {
  inet_aton_range s a : inet_aton s = Some a → is_u32 a;
  inet_pton6_range s a : inet_pton6 s = Some a → is_u128 a;
  inet_aton_ntoa a : is_u32 a → inet_aton (inet_ntoa a) = Some a;
  inet_pton_ntop a : is_u128 a → inet_pton6 (inet_ntop6 a) = Some a;
  inet_ntoa_text a : Forall (λ c, 0 < c) (inet_ntoa a);
  inet_ntop6_text a : Forall (λ c, 0 < c) (inet_ntop6 a)
}.

(** The bytes up to the first NUL. *)
Fixpoint c_str (s : bytes) : bytes :=
  match s with
  | c :: s => if c =? 0 then [] else c :: c_str s
  | [] => []
  end.

(** [snprintf] into an array of [size] bytes, or the macro [SNPRINTF_FAILED]. *)
Definition snprintf (size : Z) (src : bytes) : option bytes :=
  match src with
  | [] => None
  | _ => if size <=? Z.of_nat (List.length (c_str src)) then None else Some (c_str src)
  end.

Definition DP_FIREWALL_ID_MAX_LEN : Z := 64.
Definition DP_LB_ID_MAX_LEN : Z := 64.
Definition DP_IFACE_PXE_MAX_LEN : Z := 32.
Definition RTE_ETH_NAME_MAX_LEN : Z := 64.
Definition DP_GRPC_VERSION_MAX_LEN : Z := 64.

(** An error message, or a value. *)
Definition fill (A : Type) : Type := string + A.
Global Instance fill_ret : MRet fill := λ A, inr.
Global Instance fill_bind : MBind fill := λ A B f m, match m with inl e => inl e | inr a => f a end.

(** [if (!...) return msg] *)
Definition require (b : bool) (msg : string) : fill () := if b then inr tt else inl msg.
Definition valid {A} (o : option A) (msg : string) : fill A := match o with Some a => inr a | None => inl msg end.

Section conv.
Context `{LC : LibcAddr}.

Definition StrToIpv4 (str : bytes) : option Z := ntohl <$> inet_aton (c_str str).
Definition StrToIpv6 (str : bytes) : option Z := inet_pton6 (c_str str).

Definition StrToDpAddress (str : bytes) (ipver : Z) : option dp_ip_address :=
  if ipver =? IPV4 then DP_SET_IPADDR4 <$> StrToIpv4 str
  else if ipver =? IPV6 then DP_SET_IPADDR6 <$> StrToIpv6 str
  else None.

Definition GrpcToDpAddress (grpc_addr : IpAddress) : option dp_ip_address :=
  StrToDpAddress (ia_address grpc_addr) (ia_ipver grpc_addr).

Definition GrpcToDpVniType (grpc_type : Z) : option dpgrpc_vni_type :=
  if grpc_type =? VNI_IPV4 then Some DP_VNI_IPV4
  else if grpc_type =? VNI_IPV6 then Some DP_VNI_IPV6
  else if grpc_type =? VNI_BOTH then Some DP_VNI_BOTH
  else None.

Definition GrpcToDpFwallAction (grpc_action : Z) : option dp_fwall_action :=
  if grpc_action =? ACCEPT then Some DP_FWALL_ACCEPT
  else if grpc_action =? DROP then Some DP_FWALL_DROP
  else None.

Definition GrpcToDpFwallDirection (grpc_dir : Z) : option dp_fwall_direction :=
  if grpc_dir =? INGRESS then Some DP_FWALL_INGRESS
  else if grpc_dir =? EGRESS then Some DP_FWALL_EGRESS
  else None.

Definition Ipv4ToStr (ipv4 : Z) : bytes := inet_ntoa (htonl ipv4).

(** The address of the reply, in the form of [is_v6]. *)
Definition DpToGrpcAddress (addr : dp_ip_address) : IpAddress :=
  if is_v6 addr then MkIpAddress IPV6 (inet_ntop6 (ipv6 addr)) else MkIpAddress IPV4 (Ipv4ToStr (ipv4 addr)).

Definition DpToGrpcInterface (dp_iface : iface_reply) : Interface :=
  MkInterface (io_iface_id dp_iface) (io_vni dp_iface) (Ipv4ToStr (io_ip4_addr dp_iface))
    (inet_ntop6 (io_ip6_addr dp_iface)) (inet_ntop6 (io_ul_addr6 dp_iface)) (io_pci_name dp_iface)
    (io_total_flow_rate_cap dp_iface) (io_public_flow_rate_cap dp_iface).

Definition SetupIpAndPrefix (rule_ip : dp_ip_address) (rule_mask : Z) : Prefix :=
  MkPfx (DpToGrpcAddress rule_ip) (rule_prefix_len (is_v6 rule_ip) rule_mask) [].

(** The setters of [int32] fields convert. *)
Definition DpToGrpcFwrule (dp_rule : dp_fwall_rule) : FirewallRule :=
  MkFirewallRule (fr_rule_id dp_rule)
    (match fr_dir dp_rule with DP_FWALL_INGRESS => INGRESS | DP_FWALL_EGRESS => EGRESS end)
    (match fr_action dp_rule with DP_FWALL_ACCEPT => ACCEPT | DP_FWALL_DROP => DROP end)
    (fr_priority dp_rule)
    (SetupIpAndPrefix (fr_src_ip dp_rule) (fr_src_mask dp_rule))
    (SetupIpAndPrefix (fr_dest_ip dp_rule) (fr_dest_mask dp_rule))
    (if fr_protocol dp_rule =? IPPROTO_TCP then
       Tcp (i32 (fr_src_port_lower dp_rule)) (i32 (fr_src_port_upper dp_rule))
         (i32 (fr_dst_port_lower dp_rule)) (i32 (fr_dst_port_upper dp_rule))
     else if fr_protocol dp_rule =? IPPROTO_UDP then
       Udp (i32 (fr_src_port_lower dp_rule)) (i32 (fr_src_port_upper dp_rule))
         (i32 (fr_dst_port_lower dp_rule)) (i32 (fr_dst_port_upper dp_rule))
     else if fr_protocol dp_rule =? IPPROTO_ICMP then Icmp (i32 (fr_icmp_type dp_rule)) (i32 (fr_icmp_code dp_rule))
     else FILTER_NOT_SET).

(** ** Requests to the worker *)

Definition iface_id_of (interface_id : bytes) : fill bytes := valid (snprintf DP_IFACE_ID_MAX_LEN interface_id) "Invalid interface_id".
Definition lb_id_of (loadbalancer_id : bytes) : fill bytes := valid (snprintf DP_LB_ID_MAX_LEN loadbalancer_id) "Invalid loadbalancer_id".

Definition GetVersionCall_FillRequest (client_protocol client_name client_version : bytes) : fill dpgrpc_request :=
  valid (snprintf DP_GRPC_VERSION_MAX_LEN client_protocol) "Invalid client_protocol";;
  valid (snprintf DP_GRPC_VERSION_MAX_LEN client_name) "Invalid client_name";;
  valid (snprintf DP_GRPC_VERSION_MAX_LEN client_version) "Invalid client_version";;
  mret ReqGetVersion.

(** The boot configuration, when there is one. *)
Definition fill_pxe (request_ : CreateInterface) (ip6_addr : Z) : fill (dp_ip_address * bytes) :=
  match ce_pxe_next_server request_ with
  | [] => mret (MkIp 0 false, [])
  | next_server =>
      pxe_addr ← valid (StrToDpAddress next_server (if dp_is_ipv6_addr_zero ip6_addr then IPV4 else IPV6))
                   "Invalid pxe_config.next_server";
      pxe_str ← valid (snprintf DP_IFACE_PXE_MAX_LEN (ce_pxe_boot_filename request_)) "Invalid pxe_config.boot_filename";
      mret (pxe_addr, pxe_str)
  end.

Definition CreateInterfaceCall_FillRequest (request_ : CreateInterface) : fill dpgrpc_request :=
  require (IsInterfaceIdValid (ce_interface_id request_)) "Invalid interface_id";;
  ip4_addr ← valid (StrToIpv4 (ce_ipv4_primary_address request_)) "Invalid ipv4_config.primary_address";
  ip6_addr ← valid (StrToIpv6 (ce_ipv6_primary_address request_)) "Invalid ipv6_config.primary_address";
  require (negb ((ip4_addr =? 0) && dp_is_ipv6_addr_zero ip6_addr))
    "Invalid ipv4_config.primary_address and ipv6_config.primary_address combination";;
  pxe ← fill_pxe request_ ip6_addr;
  pci_name ← valid (snprintf RTE_ETH_NAME_MAX_LEN (ce_device_name request_)) "Invalid device_name";
  iface_id ← iface_id_of (ce_interface_id request_);
  mret (ReqCreateInterface (MkIfaceReq iface_id ip4_addr ip6_addr (ce_vni request_) pxe.1 pxe.2 pci_name
          (ce_total_rate request_) (ce_public_rate request_))).

Definition DeleteInterfaceCall_FillRequest (interface_id : bytes) : fill dpgrpc_request :=
  iface_id ← iface_id_of interface_id; mret (ReqDeleteInterface iface_id).
Definition GetInterfaceCall_FillRequest (interface_id : bytes) : fill dpgrpc_request :=
  iface_id ← iface_id_of interface_id; mret (ReqGetInterface iface_id).

(** The checks that four calls for prefixes share. *)
Definition fill_prefix (interface_id : bytes) (prefix : Prefix) : fill dpgrpc_prefix :=
  iface_id ← iface_id_of interface_id;
  addr ← valid (GrpcToDpAddress (pf_ip prefix)) "Invalid prefix.ip";
  require (pf_length prefix <=? UINT8_MAX) "Invalid prefix.length";;
  mret (MkPrefix iface_id addr (u8 (pf_length prefix))).

Definition CreatePrefixCall_FillRequest (interface_id : bytes) (prefix : Prefix) : fill dpgrpc_request :=
  r ← fill_prefix interface_id prefix; mret (ReqCreatePrefix r).
Definition DeletePrefixCall_FillRequest (interface_id : bytes) (prefix : Prefix) : fill dpgrpc_request :=
  r ← fill_prefix interface_id prefix; mret (ReqDeletePrefix r).
Definition ListPrefixesCall_FillRequest (interface_id : bytes) : fill dpgrpc_request :=
  iface_id ← iface_id_of interface_id; mret (ReqListPrefixes iface_id).

Definition CreateRouteCall_FillRequest (vni : Z) (route : Route) : fill dpgrpc_request :=
  require (pf_length (rt_prefix route) <=? UINT8_MAX) "Invalid route.prefix.length";;
  pfx_addr ← valid (GrpcToDpAddress (pf_ip (rt_prefix route))) "Invalid route.prefix.ip";
  trgt_addr ← valid (GrpcToDpAddress (rt_nexthop_address route)) "Invalid route.nexthop_address";
  mret (ReqCreateRoute (MkGrpcRoute pfx_addr (u8 (pf_length (rt_prefix route))) vni trgt_addr (rt_nexthop_vni route))).

Definition DeleteRouteCall_FillRequest (vni : Z) (route : Route) : fill dpgrpc_request :=
  require (pf_length (rt_prefix route) <=? UINT8_MAX) "Invalid route.prefix.length";;
  pfx_addr ← valid (GrpcToDpAddress (pf_ip (rt_prefix route))) "Invalid route.prefix.ip";
  mret (ReqDeleteRoute (MkGrpcRoute pfx_addr (u8 (pf_length (rt_prefix route))) vni (MkIp 0 false) 0)).

Definition CreateVipCall_FillRequest (interface_id : bytes) (vip_ip : IpAddress) : fill dpgrpc_request :=
  iface_id ← iface_id_of interface_id;
  addr ← valid (GrpcToDpAddress vip_ip) "Invalid vip_ip";
  mret (ReqCreateVip (MkVipReq addr iface_id)).
Definition DeleteVipCall_FillRequest (interface_id : bytes) : fill dpgrpc_request :=
  iface_id ← iface_id_of interface_id; mret (ReqDeleteVip iface_id).
Definition GetVipCall_FillRequest (interface_id : bytes) : fill dpgrpc_request :=
  iface_id ← iface_id_of interface_id; mret (ReqGetVip iface_id).

(** The range of ports of a NAT. *)
Definition fill_nat_ports (min_port max_port : Z) : fill (Z * Z) :=
  require (min_port <=? UINT16_MAX) "Invalid min_port";;
  require (max_port <=? UINT16_MAX) "Invalid max_port";;
  require (min_port <? max_port) "Invalid port range";;
  mret (u16 min_port, u16 max_port).

Definition CreateNatCall_FillRequest (interface_id : bytes) (nat_ip : IpAddress) (min_port max_port : Z) : fill dpgrpc_request :=
  iface_id ← iface_id_of interface_id;
  addr ← valid (GrpcToDpAddress nat_ip) "Invalid nat_ip";
  ports ← fill_nat_ports min_port max_port;
  mret (ReqCreateNat (MkNatReq iface_id addr ports.1 ports.2 0 0)).
Definition DeleteNatCall_FillRequest (interface_id : bytes) : fill dpgrpc_request :=
  iface_id ← iface_id_of interface_id; mret (ReqDeleteNat iface_id).
Definition GetNatCall_FillRequest (interface_id : bytes) : fill dpgrpc_request :=
  iface_id ← iface_id_of interface_id; mret (ReqGetNat iface_id).
Definition ListLocalNatsCall_FillRequest (nat_ip : IpAddress) : fill dpgrpc_request :=
  addr ← valid (GrpcToDpAddress nat_ip) "Invalid nat_ip"; mret (ReqListLocalNats addr).
Definition ListNeighborNatsCall_FillRequest (nat_ip : IpAddress) : fill dpgrpc_request :=
  addr ← valid (GrpcToDpAddress nat_ip) "Invalid nat_ip"; mret (ReqListNeighborNats addr).

Definition CreateNeighborNatCall_FillRequest (nat_ip : IpAddress) (vni min_port max_port : Z) (underlay_route : bytes) : fill dpgrpc_request :=
  addr ← valid (GrpcToDpAddress nat_ip) "Invalid nat_ip";
  ports ← fill_nat_ports min_port max_port;
  neigh_addr6 ← valid (StrToIpv6 underlay_route) "Invalid underlay_route";
  mret (ReqCreateNeighborNat (MkNatReq [] addr ports.1 ports.2 vni neigh_addr6)).
Definition DeleteNeighborNatCall_FillRequest (nat_ip : IpAddress) (vni min_port max_port : Z) : fill dpgrpc_request :=
  addr ← valid (GrpcToDpAddress nat_ip) "Invalid nat_ip";
  ports ← fill_nat_ports min_port max_port;
  mret (ReqDeleteNeighborNat (MkNatReq [] addr ports.1 ports.2 vni 0)).

Fixpoint fill_lbports (l : list LbPort) : fill (list lb_port) :=
  match l with
  | [] => mret []
  | p :: l =>
      require (lm_port p <=? UINT16_MAX) "Invalid loadbalanced_ports.port";;
      protocol ← (if lm_protocol p =? PROTOCOL_TCP then mret IPPROTO_TCP
                  else if lm_protocol p =? PROTOCOL_UDP then mret IPPROTO_UDP
                  else inl "Invalid loadbalanced_ports.protocol"%string);
      rest ← fill_lbports l;
      mret (MkLbPort protocol (u16 (lm_port p)) :: rest)
  end.

(** The rest of the array is zero. *)
Definition CreateLoadBalancerCall_FillRequest (loadbalancer_id : bytes) (loadbalanced_ip : IpAddress) (vni : Z)
    (loadbalanced_ports : list LbPort) : fill dpgrpc_request :=
  lb_id ← lb_id_of loadbalancer_id;
  addr ← valid (GrpcToDpAddress loadbalanced_ip) "Invalid loadbalanced_ip";
  require (Z.of_nat (List.length loadbalanced_ports) <? DP_LB_MAX_PORTS) "Too many loadbalanced_ports";;
  lbports ← fill_lbports loadbalanced_ports;
  mret (ReqCreateLoadBalancer
          (MkGrpcLb lb_id addr vni (lbports ++ replicate (Z.to_nat DP_LB_MAX_PORTS - List.length lbports) (MkLbPort 0 0)) 0)).
Definition DeleteLoadBalancerCall_FillRequest (loadbalancer_id : bytes) : fill dpgrpc_request :=
  lb_id ← lb_id_of loadbalancer_id; mret (ReqDeleteLoadBalancer lb_id).
Definition GetLoadBalancerCall_FillRequest (loadbalancer_id : bytes) : fill dpgrpc_request :=
  lb_id ← lb_id_of loadbalancer_id; mret (ReqGetLoadBalancer lb_id).

Definition CreateLoadBalancerTargetCall_FillRequest (loadbalancer_id : bytes) (target_ip : IpAddress) : fill dpgrpc_request :=
  lb_id ← lb_id_of loadbalancer_id;
  addr ← valid (GrpcToDpAddress target_ip) "Invalid target_ip";
  mret (ReqCreateLoadBalancerTarget (MkLbTarget lb_id addr)).
Definition DeleteLoadBalancerTargetCall_FillRequest (loadbalancer_id : bytes) (target_ip : IpAddress) : fill dpgrpc_request :=
  lb_id ← lb_id_of loadbalancer_id;
  addr ← valid (GrpcToDpAddress target_ip) "Invalid target_ip";
  mret (ReqDeleteLoadBalancerTarget (MkLbTarget lb_id addr)).
Definition ListLoadBalancerTargetsCall_FillRequest (loadbalancer_id : bytes) : fill dpgrpc_request :=
  lb_id ← lb_id_of loadbalancer_id; mret (ReqListLoadBalancerTargets lb_id).

Definition CreateLoadBalancerPrefixCall_FillRequest (interface_id : bytes) (prefix : Prefix) : fill dpgrpc_request :=
  r ← fill_prefix interface_id prefix; mret (ReqCreateLoadBalancerPrefix r).
Definition DeleteLoadBalancerPrefixCall_FillRequest (interface_id : bytes) (prefix : Prefix) : fill dpgrpc_request :=
  r ← fill_prefix interface_id prefix; mret (ReqDeleteLoadBalancerPrefix r).
Definition ListLoadBalancerPrefixesCall_FillRequest (interface_id : bytes) : fill dpgrpc_request :=
  iface_id ← iface_id_of interface_id; mret (ReqListLoadBalancerPrefixes iface_id).

(** An address of a rule with its mask; [bad_ipver] and the rest are the messages for the
    source or the destination.  The first word of the mask is the IPv4 mask. *)
Definition fill_rule_prefix (prefix : Prefix) (bad_ipver bad_ip bad_length bad_ip6_length : string) : fill (dp_ip_address * Z) :=
  let ipver := ia_ipver (pf_ip prefix) in
  require ((ipver =? IPV4) || (ipver =? IPV6)) bad_ipver;;
  addr ← valid (GrpcToDpAddress (pf_ip prefix)) bad_ip;
  mask ← (if ipver =? IPV4 then valid (Ipv4PrefixLenToMask (pf_length prefix)) bad_length
          else valid (Ipv6PrefixLenToMask (pf_length prefix)) bad_ip6_length);
  mret (addr, mask).

(** The ports of a filter, in the order of the union: source and destination, each from lower to upper. *)
Definition fill_rule_ports (src_lower src_upper dst_lower dst_upper : Z)
    (bad_src_lower bad_dst_lower bad_src_upper bad_dst_upper bad_src bad_dst : string) : fill (Z * Z * Z * Z) :=
  sl ← valid (GrpcToDpFwallPort src_lower) bad_src_lower;
  dl ← valid (GrpcToDpFwallPort dst_lower) bad_dst_lower;
  su ← valid (GrpcToDpFwallPort src_upper) bad_src_upper;
  du ← valid (GrpcToDpFwallPort dst_upper) bad_dst_upper;
  require (negb (negb (sl =? DP_FWALL_MATCH_ANY_PORT) && (su <? sl))) bad_src;;
  require (negb (negb (dl =? DP_FWALL_MATCH_ANY_PORT) && (du <? dl))) bad_dst;;
  mret (sl, su, dl, du).

(** The protocol and the words of the filter. *)
Definition fill_rule_filter (grpc_filter : ProtocolFilter) : fill (Z * (Z * Z * Z * Z)) :=
  match grpc_filter with
  | Tcp sl su dl du =>
      ports ← fill_rule_ports sl su dl du "Invalid tcp.src_port_lower" "Invalid tcp.dst_port_lower"
                "Invalid tcp.src_port_upper" "Invalid tcp.dst_port_upper" "Invalid tcp.src_port range" "Invalid tcp.dst_port range";
      mret (IPPROTO_TCP, ports)
  | Udp sl su dl du =>
      ports ← fill_rule_ports sl su dl du "Invalid udp.src_port_lower" "Invalid udp.dst_port_lower"
                "Invalid udp.src_port_upper" "Invalid udp.dst_port_upper" "Invalid udp.src_port range" "Invalid udp.dst_port range";
      mret (IPPROTO_UDP, ports)
  | Icmp icmp_type icmp_code =>
      let type := u32 icmp_type in
      let code := u32 icmp_code in
      require (negb (negb (type =? DP_FWALL_MATCH_ANY_ICMP_TYPE) && (UINT8_MAX <? type))) "Invalid icmp.icmp_type";;
      require (negb (negb (code =? DP_FWALL_MATCH_ANY_ICMP_CODE) && (UINT8_MAX <? code))) "Invalid icmp.icmp_code";;
      mret (IPPROTO_ICMP, (type, code, 0, 0))
  | FILTER_NOT_SET => mret (DP_FWALL_MATCH_ANY_PROTOCOL, (DP_FWALL_MATCH_ANY_PORT, 0, DP_FWALL_MATCH_ANY_PORT, 0))
  end.

Definition CreateFirewallRuleCall_FillRequest (interface_id : bytes) (grpc_rule : FirewallRule) : fill dpgrpc_request :=
  iface_id ← iface_id_of interface_id;
  rule_id ← valid (snprintf DP_FIREWALL_ID_MAX_LEN (fw_id grpc_rule)) "Invalid rule id";
  src ← fill_rule_prefix (fw_source_prefix grpc_rule) "Invalid source_prefix.ip.ipver" "Invalid source_prefix.ip"
          "Invalid source_prefix.length" "Invalid ip6 source_prefix.length";
  dst ← fill_rule_prefix (fw_destination_prefix grpc_rule) "Invalid destination_prefix.ip.ipver" "Invalid destination_prefix.ip"
          "Invalid destination_prefix.length" "Invalid ip6 destination_prefix.length";
  dir ← valid (GrpcToDpFwallDirection (fw_direction grpc_rule)) "Invalid direction";
  action ← valid (GrpcToDpFwallAction (fw_action grpc_rule)) "Invalid action";
  require (fw_priority grpc_rule <=? UINT16_MAX) "Invalid priority";;
  filter ← fill_rule_filter (fw_protocol_filter grpc_rule);
  let '(protocol, (w0, w1, w2, w3)) := filter in
  mret (ReqCreateFirewallRule (MkFwruleReq iface_id
          (MkRule rule_id src.1 dst.1 src.2 dst.2 (u16 (fw_priority grpc_rule)) protocol w0 w1 w2 w3 action dir))).

Definition fill_rule_id (interface_id rule_id : bytes) : fill dpgrpc_fwrule_id :=
  iface_id ← iface_id_of interface_id;
  rule_id ← valid (snprintf DP_FIREWALL_ID_MAX_LEN rule_id) "Invalid rule_id";
  mret (MkFwruleId iface_id rule_id).
Definition DeleteFirewallRuleCall_FillRequest (interface_id rule_id : bytes) : fill dpgrpc_request :=
  r ← fill_rule_id interface_id rule_id; mret (ReqDeleteFirewallRule r).
Definition GetFirewallRuleCall_FillRequest (interface_id rule_id : bytes) : fill dpgrpc_request :=
  r ← fill_rule_id interface_id rule_id; mret (ReqGetFirewallRule r).
Definition ListFirewallRulesCall_FillRequest (interface_id : bytes) : fill dpgrpc_request :=
  iface_id ← iface_id_of interface_id; mret (ReqListFirewallRules iface_id).

Definition CheckVniInUseCall_FillRequest (vni type : Z) : fill dpgrpc_request :=
  type ← valid (GrpcToDpVniType type) "Invalid type"; mret (ReqCheckVniInUse (MkVniReq vni type)).
Definition ResetVniCall_FillRequest (vni type : Z) : fill dpgrpc_request :=
  type ← valid (GrpcToDpVniType type) "Invalid type"; mret (ReqResetVni (MkVniReq vni type)).

Fixpoint fill_captured (l : list CapturedInterface) : fill (list dpgrpc_capture_interface) :=
  match l with
  | [] => mret []
  | i :: l =>
      captured ← (if ci_interface_type i =? SINGLE_PF then
                    require (pf_index (ci_spec i) <=? UINT8_MAX) "Invalid pf_index";;
                    mret (CapturePf (u8 (pf_index (ci_spec i))))
                  else if ci_interface_type i =? SINGLE_VF then
                    iface_id ← iface_id_of (vf_name (ci_spec i)); mret (CaptureVf iface_id)
                  else inl "Invalid interfaces.interface_type"%string);
      rest ← fill_captured l;
      mret (captured :: rest)
  end.

Definition CaptureStartCall_FillRequest (config : CaptureConfig) : fill dpgrpc_request :=
  require (cc_udp_src_port config <=? UINT16_MAX) "Invalid udp_src_port";;
  require (cc_udp_dst_port config <=? UINT16_MAX) "Invalid udp_dst_port";;
  dst_addr6 ← valid (StrToIpv6 (ia_address (cc_sink_node_ip config))) "Invalid sink_node_ip";
  require (Z.of_nat (List.length (cc_interfaces config)) <=? DP_CAPTURE_MAX_PORT_NUM) "Too many interfaces to be captured";;
  interfaces ← fill_captured (cc_interfaces config);
  mret (ReqCaptureStart (MkCaptureReq dst_addr6 (u16 (cc_udp_src_port config)) (u16 (cc_udp_dst_port config)) interfaces)).

Definition FillRequest (m : request_msg) : fill dpgrpc_request :=
  match m with
  | InitializeRequest => mret ReqInitialize
  | CheckInitializedRequest => mret ReqOther
  | GetVersionRequest p n v => GetVersionCall_FillRequest p n v
  | CreateInterfaceRequest r => CreateInterfaceCall_FillRequest r
  | DeleteInterfaceRequest id => DeleteInterfaceCall_FillRequest id
  | GetInterfaceRequest id => GetInterfaceCall_FillRequest id
  | ListInterfacesRequest => mret ReqListInterfaces
  | CreatePrefixRequest id p => CreatePrefixCall_FillRequest id p
  | DeletePrefixRequest id p => DeletePrefixCall_FillRequest id p
  | ListPrefixesRequest id => ListPrefixesCall_FillRequest id
  | CreateRouteRequest vni r => CreateRouteCall_FillRequest vni r
  | DeleteRouteRequest vni r => DeleteRouteCall_FillRequest vni r
  | ListRoutesRequest vni => mret (ReqListRoutes vni)
  | CreateVipRequest id ip => CreateVipCall_FillRequest id ip
  | DeleteVipRequest id => DeleteVipCall_FillRequest id
  | GetVipRequest id => GetVipCall_FillRequest id
  | CreateNatRequest id ip min max => CreateNatCall_FillRequest id ip min max
  | DeleteNatRequest id => DeleteNatCall_FillRequest id
  | GetNatRequest id => GetNatCall_FillRequest id
  | CreateNeighborNatRequest ip vni min max ul => CreateNeighborNatCall_FillRequest ip vni min max ul
  | DeleteNeighborNatRequest ip vni min max => DeleteNeighborNatCall_FillRequest ip vni min max
  | ListLocalNatsRequest ip => ListLocalNatsCall_FillRequest ip
  | ListNeighborNatsRequest ip => ListNeighborNatsCall_FillRequest ip
  | CreateLoadBalancerRequest id ip vni ports => CreateLoadBalancerCall_FillRequest id ip vni ports
  | DeleteLoadBalancerRequest id => DeleteLoadBalancerCall_FillRequest id
  | GetLoadBalancerRequest id => GetLoadBalancerCall_FillRequest id
  | CreateLoadBalancerTargetRequest id ip => CreateLoadBalancerTargetCall_FillRequest id ip
  | DeleteLoadBalancerTargetRequest id ip => DeleteLoadBalancerTargetCall_FillRequest id ip
  | ListLoadBalancerTargetsRequest id => ListLoadBalancerTargetsCall_FillRequest id
  | CreateLoadBalancerPrefixRequest id p => CreateLoadBalancerPrefixCall_FillRequest id p
  | DeleteLoadBalancerPrefixRequest id p => DeleteLoadBalancerPrefixCall_FillRequest id p
  | ListLoadBalancerPrefixesRequest id => ListLoadBalancerPrefixesCall_FillRequest id
  | CreateFirewallRuleRequest id r => CreateFirewallRuleCall_FillRequest id r
  | DeleteFirewallRuleRequest id r => DeleteFirewallRuleCall_FillRequest id r
  | GetFirewallRuleRequest id r => GetFirewallRuleCall_FillRequest id r
  | ListFirewallRulesRequest id => ListFirewallRulesCall_FillRequest id
  | CheckVniInUseRequest vni type => CheckVniInUseCall_FillRequest vni type
  | ResetVniRequest vni type => ResetVniCall_FillRequest vni type
  | CaptureStartRequest config => CaptureStartCall_FillRequest config
  | CaptureStopRequest => mret ReqCaptureStop
  | CaptureStatusRequest => mret ReqCaptureStatus
  end.

(** ** Replies of the worker

    [None] means that memory is read which the worker has not written. *)

Definition underlay_body (ul_addr6 : Z) : response_body := RespUnderlay (inet_ntop6 ul_addr6).

(** Calls that answer with an underlay address. *)
Definition ul_addr_ParseReply (r : single_reply) : option response_body :=
  match r with RepUlAddr addr6 => Some (underlay_body addr6) | _ => None end.

Definition GetVersionCall_ParseReply (r : single_reply) : option response_body :=
  match r with RepVersions proto app => Some (RespVersion proto app) | _ => None end.
Definition CreateInterfaceCall_ParseReply (r : single_reply) : option response_body :=
  match r with RepVfPci name ul_addr6 => Some (RespVf (inet_ntop6 ul_addr6) name) | _ => None end.
Definition GetInterfaceCall_ParseReply (r : single_reply) : option response_body :=
  match r with RepIface iface => Some (RespInterface (DpToGrpcInterface iface)) | _ => None end.
Definition GetVipCall_ParseReply (r : single_reply) : option response_body :=
  match r with
  | RepVip addr (Some ul_addr6) => Some (RespVip (MkIpAddress IPV4 (Ipv4ToStr (ipv4 addr))) (inet_ntop6 ul_addr6))
  | _ => None
  end.
Definition GetNatCall_ParseReply (r : single_reply) : option response_body :=
  match r with
  | RepNat addr min_port max_port ul_addr6 =>
      Some (RespNat (MkIpAddress IPV4 (Ipv4ToStr (ipv4 addr))) min_port max_port (inet_ntop6 ul_addr6))
  | _ => None
  end.
Definition CreateLoadBalancerPrefixCall_ParseReply (r : single_reply) : option response_body :=
  match r with RepRoute trgt_addr => Some (underlay_body (ipv6 trgt_addr)) | _ => None end.

(** A protocol that is neither stays at its default. *)
Definition DpToGrpcLbPort (p : lb_port) : LbPort :=
  MkLbPortMsg (lp_port p)
    (if lp_protocol p =? IPPROTO_UDP then PROTOCOL_UDP else if lp_protocol p =? IPPROTO_TCP then PROTOCOL_TCP else 0).
Definition GetLoadBalancerCall_ParseReply (r : single_reply) : option response_body :=
  match r with
  | RepLb lb =>
      Some (RespLb (DpToGrpcAddress (gl_addr lb)) (gl_vni lb)
              (DpToGrpcLbPort <$> filter (λ p, lp_port p ≠ 0) (gl_lbports lb)) (inet_ntop6 (gl_ul_addr6 lb)))
  | _ => None
  end.

(** The bytes of an array that holds a string. *)
Definition array_of (size : nat) (s : bytes) : bytes := s ++ replicate (size - List.length s) 0.

(** [rule_id] of the reply, all of the array.  When the handler has not written it, the buffer still
    holds the request: the array starts at byte 16 of the buffer, in a request
    [iface_id] starts at byte 8 and [rule.rule_id] at byte 72. *)
Definition reply_rule_id (request : option dpgrpc_request) (r : single_reply) : option bytes :=
  match r, request with
  | RepFwrule rule, _ => Some (array_of (Z.to_nat DP_FIREWALL_ID_MAX_LEN) (fr_rule_id rule))
  | RepNone, Some (ReqCreateFirewallRule q) =>
      Some (drop 8 (array_of (Z.to_nat DP_IFACE_ID_MAX_LEN) (fq_iface_id q))
            ++ take 8 (array_of (Z.to_nat DP_FIREWALL_ID_MAX_LEN) (fr_rule_id (fq_rule q))))
  | _, _ => None
  end.
Definition CreateFirewallRuleCall_ParseReply (request : option dpgrpc_request) (r : single_reply) : option response_body :=
  RespRuleId <$> reply_rule_id request r.
Definition GetFirewallRuleCall_ParseReply (r : single_reply) : option response_body :=
  match r with RepFwrule rule => Some (RespRule (DpToGrpcFwrule rule)) | _ => None end.
Definition CheckVniInUseCall_ParseReply (r : single_reply) : option response_body :=
  match r with RepVniInUse in_use => Some (RespInUse in_use) | _ => None end.
Definition CaptureStopCall_ParseReply (r : single_reply) : option response_body :=
  match r with RepCaptureStop port_cnt => Some (RespStopped port_cnt) | _ => None end.

Definition DpToGrpcCaptured (i : dpgrpc_capture_interface) : CapturedInterface :=
  match i with
  | CapturePf pf_index => MkCaptured SINGLE_PF (PfIndex pf_index)
  | CaptureVf iface_id => MkCaptured SINGLE_VF (VfName iface_id)
  end.
Definition CaptureStatusCall_ParseReply (r : single_reply) : option response_body :=
  match r with
  | RepCapture None => Some (RespCapture None)
  | RepCapture (Some c) =>
      Some (RespCapture (Some (MkCaptureConfig (MkIpAddress IPV6 (inet_ntop6 (cq_dst_addr6 c))) (cq_udp_src_port c)
              (cq_udp_dst_port c) (DpToGrpcCaptured <$> cq_interfaces c))))
  | _ => None
  end.

(** One element of a list. *)
Definition DpToGrpcPrefix (route : vnf_route) : Prefix :=
  MkPfx (DpToGrpcAddress (vr_pfx_addr route)) (vr_pfx_length route) (inet_ntop6 (ipv6 (vr_trgt_addr route))).
Definition DpToGrpcRoute (route : route_reply) : option Route :=
  trgt_vni ← rr_trgt_vni route;
  trgt_addr ← rr_trgt_addr route;
  Some (MkRouteMsg (MkPfx (DpToGrpcAddress (rr_pfx_addr route)) (rr_pfx_length route) []) trgt_vni (DpToGrpcAddress trgt_addr)).
Definition DpToGrpcLocalNat (nat : dpgrpc_nat) : option NatEntry :=
  addr ← nr_addr nat;
  Some (MkNatEntryMsg (MkIpAddress IPV4 (Ipv4ToStr (ipv4 addr))) (nr_min_port nat) (nr_max_port nat) [] (nr_vni nat)).
Definition DpToGrpcNeighNat (nat : dpgrpc_nat) : option NatEntry :=
  ul_addr6 ← nr_ul_addr6 nat;
  Some (MkNatEntryMsg (MkIpAddress 0 []) (nr_min_port nat) (nr_max_port nat) (inet_ntop6 ul_addr6) (nr_vni nat)).
Definition DpToGrpcTarget (addr : dp_ip_address) : IpAddress := MkIpAddress IPV6 (inet_ntop6 (ipv6 addr)).

(** [FOREACH_MESSAGE]: each message converted and added to the response. *)
Definition foreach_message {M N} (conv : M → option N) (r : dpgrpc_reply M) : option (list N) :=
  msgs ← mapM (λ i, rp_messages r !! i) (seqZ 0 (rp_msg_count r)); mapM conv msgs.

Definition ListInterfacesCall_ParseReply (r : dpgrpc_reply iface_reply) (l : list Interface) : option response_body :=
  new ← foreach_message (λ i, Some (DpToGrpcInterface i)) r; Some (RespInterfaces (l ++ new)).
Definition ListPrefixesCall_ParseReply (r : dpgrpc_reply vnf_route) (l : list Prefix) : option response_body :=
  new ← foreach_message (λ i, Some (DpToGrpcPrefix i)) r; Some (RespPrefixes (l ++ new)).
Definition ListLoadBalancerPrefixesCall_ParseReply (r : dpgrpc_reply vnf_route) (l : list Prefix) : option response_body :=
  new ← foreach_message (λ i, Some (DpToGrpcPrefix i)) r; Some (RespPrefixes (l ++ new)).
Definition ListRoutesCall_ParseReply (r : dpgrpc_reply route_reply) (l : list Route) : option response_body :=
  new ← foreach_message DpToGrpcRoute r; Some (RespRoutes (l ++ new)).
Definition ListLocalNatsCall_ParseReply (r : dpgrpc_reply dpgrpc_nat) (l : list NatEntry) : option response_body :=
  new ← foreach_message DpToGrpcLocalNat r; Some (RespNats (l ++ new)).
Definition ListNeighborNatsCall_ParseReply (r : dpgrpc_reply dpgrpc_nat) (l : list NatEntry) : option response_body :=
  new ← foreach_message DpToGrpcNeighNat r; Some (RespNats (l ++ new)).
Definition ListLoadBalancerTargetsCall_ParseReply (r : dpgrpc_reply dp_ip_address) (l : list IpAddress) : option response_body :=
  new ← foreach_message (λ i, Some (DpToGrpcTarget i)) r; Some (RespTargets (l ++ new)).
Definition ListFirewallRulesCall_ParseReply (r : dpgrpc_reply dp_fwall_rule) (l : list FirewallRule) : option response_body :=
  new ← foreach_message (λ i, Some (DpToGrpcFwrule i)) r; Some (RespRules (l ++ new)).
End conv.

(** ** Facts: requests are well formed *)

Lemma fill_bind_inr {A B} (m : fill A) (f : A → fill B) b :
  (m ≫= f) = inr b → ∃ a, m = inr a ∧ f a = inr b.
Proof. destruct m as [e|a]; [done|]. intros H. by exists a. Qed.
Lemma require_inr b msg u : require b msg = inr u → b = true.
Proof. by destruct b. Qed.
Lemma valid_inr {A} (o : option A) msg a : valid o msg = inr a → o = Some a.
Proof. destruct o; [|done]. by intros [= ->]. Qed.

Create HintDb fill.

(** Takes a successful [fill] apart. *)
Ltac fill_inv :=
  repeat match goal with
  | H : mbind _ _ = inr _ |- _ =>
      let a := fresh "x" in let H1 := fresh "Hf" in let H2 := fresh "Hf" in
      apply fill_bind_inr in H as (a & H1 & H2); cbn beta in *
  | H : require _ _ = inr _ |- _ => apply require_inr in H
  | H : valid _ _ = inr _ |- _ => apply valid_inr in H
  | H : mret _ = inr _ |- _ => injection H as ?; subst
  | H : @inr _ _ _ = inr _ |- _ => injection H as ?; subst
  | H : inl _ = inr _ |- _ => discriminate H
  | H : (_ <=? _) = true |- _ => apply Z.leb_le in H
  | H : (_ <? _) = true |- _ => apply Z.ltb_lt in H
  end.

Lemma c_str_nonul s : Forall (λ c, c ≠ 0) (c_str s).
Proof. induction s as [|c s IH]; [done|]. cbn. destruct (Z.eqb_spec c 0); [done|]. by constructor. Qed.
Lemma c_str_id s : Forall (λ c, c ≠ 0) s → c_str s = s.
Proof. induction 1 as [|c s Hc _ IH]; [done|]. cbn. rewrite (proj2 (Z.eqb_neq c 0) Hc). by rewrite IH. Qed.

(** A string in an array of [size] bytes. *)
Definition id_ok (size : Z) (s : bytes) : Prop := Forall (λ c, c ≠ 0) s ∧ Z.of_nat (List.length s) < size.

Lemma snprintf_ok size src dst : snprintf size src = Some dst → id_ok size dst ∧ dst = c_str src.
Proof.
  unfold snprintf. destruct src as [|c src]; [done|]. destruct (Z.leb_spec size (Z.of_nat (List.length (c_str (c :: src))))); [done|].
  intros [= <-]. split; [|done]. split; [apply (c_str_nonul (c :: src))|done].
Qed.

Definition ipaddr_ok (a : dp_ip_address) : Prop := if is_v6 a then is_u128 (ip_data a) else is_u32 (ip_data a).

(** The mask comes from the length of a prefix of the address's family. *)
Definition mask_ok (a : dp_ip_address) (mask : Z) : Prop :=
  ∃ n, 0 ≤ n ∧ (if is_v6 a then Ipv6PrefixLenToMask n else Ipv4PrefixLenToMask n) = Some mask.

Definition port_word_ok (z : Z) : Prop := z = DP_FWALL_MATCH_ANY_PORT ∨ is_u16 z.
Definition port_range_ok (lower upper : Z) : Prop :=
  port_word_ok lower ∧ port_word_ok upper ∧ (lower = DP_FWALL_MATCH_ANY_PORT ∨ lower ≤ upper).
Definition icmp_word_ok (z : Z) : Prop := z = DP_FWALL_MATCH_ANY_ICMP_TYPE ∨ is_u8 z.

Record fwrule_ok (r : dp_fwall_rule) : Prop := {
  fo_id : id_ok DP_FIREWALL_ID_MAX_LEN (fr_rule_id r);
  fo_src_ip : ipaddr_ok (fr_src_ip r);
  fo_dest_ip : ipaddr_ok (fr_dest_ip r);
  fo_src_mask : mask_ok (fr_src_ip r) (fr_src_mask r);
  fo_dest_mask : mask_ok (fr_dest_ip r) (fr_dest_mask r);
  fo_priority : is_u16 (fr_priority r);
  fo_protocol : fr_protocol r ∈ [DP_FWALL_MATCH_ANY_PROTOCOL; IPPROTO_ICMP; IPPROTO_TCP; IPPROTO_UDP];
  fo_icmp : fr_protocol r = IPPROTO_ICMP → icmp_word_ok (fr_icmp_type r) ∧ icmp_word_ok (fr_icmp_code r);
  fo_ports : fr_protocol r ≠ IPPROTO_ICMP →
    port_range_ok (fr_src_port_lower r) (fr_src_port_upper r) ∧ port_range_ok (fr_dst_port_lower r) (fr_dst_port_upper r)
}.

Record iface_request_ok (r : iface_request) : Prop := {
  iro_id : id_ok DP_IFACE_ID_MAX_LEN (ir_iface_id r);
  iro_chars : IsInterfaceIdValid (ir_iface_id r) = true;
  iro_ip4 : is_u32 (ir_ip4_addr r);
  iro_ip6 : is_u128 (ir_ip6_addr r);
  iro_some : ir_ip4_addr r ≠ 0 ∨ dp_is_ipv6_addr_zero (ir_ip6_addr r) = false;
  iro_pxe : ipaddr_ok (ir_pxe_addr r);
  iro_pxe_str : id_ok DP_IFACE_PXE_MAX_LEN (ir_pxe_str r);
  iro_pci : id_ok RTE_ETH_NAME_MAX_LEN (ir_pci_name r)
}.

Definition prefix_ok (r : dpgrpc_prefix) : Prop :=
  id_ok DP_IFACE_ID_MAX_LEN (px_iface_id r) ∧ ipaddr_ok (px_addr r) ∧ is_u8 (px_length r).
Definition nat_range_ok (r : nat_request) : Prop :=
  ipaddr_ok (nq_addr r) ∧ is_u16 (nq_min_port r) ∧ is_u16 (nq_max_port r) ∧ nq_min_port r < nq_max_port r.

(** A port that is used comes with one of the two protocols. *)
Definition lbport_ok (p : lb_port) : Prop :=
  is_u16 (lp_port p) ∧ (lp_protocol p = IPPROTO_TCP ∨ lp_protocol p = IPPROTO_UDP ∨ p = MkLbPort 0 0).
Definition captured_ok (i : dpgrpc_capture_interface) : Prop :=
  match i with CaptureVf id => id_ok DP_IFACE_ID_MAX_LEN id | CapturePf index => is_u8 index end.

Definition request_ok (r : dpgrpc_request) : Prop :=
  match r with
  | ReqCreateInterface r => iface_request_ok r
  | ReqDeleteInterface id | ReqGetInterface id | ReqListPrefixes id | ReqDeleteVip id | ReqGetVip id | ReqDeleteNat id
  | ReqGetNat id | ReqListLoadBalancerPrefixes id | ReqListFirewallRules id => id_ok DP_IFACE_ID_MAX_LEN id
  | ReqCreatePrefix r | ReqDeletePrefix r | ReqCreateLoadBalancerPrefix r | ReqDeleteLoadBalancerPrefix r => prefix_ok r
  | ReqCreateRoute r => ipaddr_ok (gr_pfx_addr r) ∧ is_u8 (gr_pfx_length r) ∧ ipaddr_ok (gr_trgt_addr r)
  | ReqDeleteRoute r => ipaddr_ok (gr_pfx_addr r) ∧ is_u8 (gr_pfx_length r)
  | ReqCreateVip r => ipaddr_ok (vq_addr r) ∧ id_ok DP_IFACE_ID_MAX_LEN (vq_iface_id r)
  | ReqCreateNat r => id_ok DP_IFACE_ID_MAX_LEN (nq_iface_id r) ∧ nat_range_ok r
  | ReqCreateNeighborNat r => nat_range_ok r ∧ is_u128 (nq_neigh_addr6 r)
  | ReqDeleteNeighborNat r => nat_range_ok r
  | ReqListLocalNats a | ReqListNeighborNats a => ipaddr_ok a
  | ReqCreateLoadBalancer r =>
      id_ok DP_LB_ID_MAX_LEN (gl_lb_id r) ∧ ipaddr_ok (gl_addr r) ∧ Z.of_nat (List.length (gl_lbports r)) = DP_LB_MAX_PORTS
      ∧ Forall lbport_ok (gl_lbports r) ∧ last (gl_lbports r) = Some (MkLbPort 0 0)
  | ReqDeleteLoadBalancer id | ReqGetLoadBalancer id | ReqListLoadBalancerTargets id => id_ok DP_LB_ID_MAX_LEN id
  | ReqCreateLoadBalancerTarget r | ReqDeleteLoadBalancerTarget r => id_ok DP_LB_ID_MAX_LEN (lt_lb_id r) ∧ ipaddr_ok (lt_addr r)
  | ReqCreateFirewallRule r => id_ok DP_IFACE_ID_MAX_LEN (fq_iface_id r) ∧ fwrule_ok (fq_rule r)
  | ReqDeleteFirewallRule r | ReqGetFirewallRule r =>
      id_ok DP_IFACE_ID_MAX_LEN (fi_iface_id r) ∧ id_ok DP_FIREWALL_ID_MAX_LEN (fi_rule_id r)
  | ReqCaptureStart r =>
      is_u128 (cq_dst_addr6 r) ∧ is_u16 (cq_udp_src_port r) ∧ is_u16 (cq_udp_dst_port r)
      ∧ Z.of_nat (List.length (cq_interfaces r)) ≤ DP_CAPTURE_MAX_PORT_NUM ∧ Forall captured_ok (cq_interfaces r)
  | _ => True
  end.

(** The unsigned fields of a message that the conversion reads as such. *)
Definition wire_ok (m : request_msg) : Prop :=
  match m with
  | CreateNatRequest _ _ min max => 0 ≤ min ∧ 0 ≤ max
  | CreateNeighborNatRequest _ _ min max _ | DeleteNeighborNatRequest _ _ min max => 0 ≤ min ∧ 0 ≤ max
  | CreateFirewallRuleRequest _ r =>
      0 ≤ fw_priority r ∧ 0 ≤ pf_length (fw_source_prefix r) ∧ 0 ≤ pf_length (fw_destination_prefix r)
  | _ => True
  end.

Ltac head_of t := lazymatch t with ?f _ => head_of f | _ => t end.

Section fill_facts.
Context `{LC : LibcAddr} {LO : LibcAddrOk}.

Lemma iface_id_of_ok s id : iface_id_of s = inr id → id_ok DP_IFACE_ID_MAX_LEN id.
Proof. unfold iface_id_of. intros H. fill_inv. by eapply snprintf_ok. Qed.
Lemma lb_id_of_ok s id : lb_id_of s = inr id → id_ok DP_LB_ID_MAX_LEN id.
Proof. unfold lb_id_of. intros H. fill_inv. by eapply snprintf_ok. Qed.

Lemma StrToIpv4_range s a : StrToIpv4 s = Some a → is_u32 a.
Proof. unfold StrToIpv4. intros (z & _ & ->)%fmap_Some. apply bswap32_range. Qed.
Lemma StrToIpv6_range s a : StrToIpv6 s = Some a → is_u128 a.
Proof using LO. apply inet_pton6_range. Qed.

Lemma set_ipaddr4_ok a : is_u32 a → ipaddr_ok (DP_SET_IPADDR4 a).
Proof. intros Ha. unfold ipaddr_ok, DP_SET_IPADDR4, set_word32_0. cbn -[u32]. by rewrite u32_id. Qed.

Lemma StrToDpAddress_ok s ipver a :
  StrToDpAddress s ipver = Some a → ipaddr_ok a ∧ is_v6 a = (ipver =? IPV6).
Proof using LO.
  unfold StrToDpAddress. destruct (Z.eqb_spec ipver IPV4) as [->|].
  - intros (z & Hz & ->)%fmap_Some. split; [|done]. by eapply set_ipaddr4_ok, StrToIpv4_range.
  - destruct (Z.eqb_spec ipver IPV6) as [->|]; [|done]. intros (z & Hz & ->)%fmap_Some. split; [|done].
    by eapply StrToIpv6_range.
Qed.
Lemma GrpcToDpAddress_ok g a : GrpcToDpAddress g = Some a → ipaddr_ok a.
Proof using LO. by intros [? _]%StrToDpAddress_ok. Qed.

Lemma u8_range z : is_u8 (u8 z).
Proof. apply Z.mod_pos_bound. lia. Qed.

Hint Resolve iface_id_of_ok lb_id_of_ok StrToIpv4_range StrToIpv6_range GrpcToDpAddress_ok u8_range u16_range : fill.
Hint Extern 1 (id_ok _ _) => (eapply snprintf_ok; eassumption) : fill.

Lemma fill_prefix_ok s p r : fill_prefix s p = inr r → prefix_ok r.
Proof using LO. unfold fill_prefix. intros H. fill_inv. unfold prefix_ok. cbn. eauto with fill. Qed.

Lemma fill_nat_ports_ok min max r :
  fill_nat_ports min max = inr r → 0 ≤ min → 0 ≤ max → is_u16 r.1 ∧ is_u16 r.2 ∧ r.1 < r.2.
Proof.
  unfold fill_nat_ports, Responder.UINT16_MAX. intros H Hmin Hmax. fill_inv. cbn. rewrite !u16_id by (unfold is_u16; lia).
  unfold is_u16. lia.
Qed.

Lemma fill_lbports_ok l r : fill_lbports l = inr r → Forall lbport_ok r ∧ List.length r = List.length l.
Proof.
  revert r. induction l as [|p l IH]; cbn; intros r H; fill_inv; [done|].
  edestruct IH as [IHr IHl]; [eassumption|]. split; [|cbn; by rewrite IHl]. constructor; [|done]. split; [apply u16_range|].
  cbn. destruct (lm_protocol p =? PROTOCOL_TCP), (lm_protocol p =? PROTOCOL_UDP); fill_inv; eauto.
Qed.

Lemma fill_captured_ok l r : fill_captured l = inr r → Forall captured_ok r ∧ List.length r = List.length l.
Proof.
  revert r. induction l as [|i l IH]; cbn; intros r H; fill_inv; [done|].
  edestruct IH as [IHr IHl]; [eassumption|]. split; [|cbn; by rewrite IHl]. constructor; [|done].
  destruct (ci_interface_type i =? SINGLE_PF); [|destruct (ci_interface_type i =? SINGLE_VF)]; fill_inv; cbn; eauto with fill.
Qed.

Lemma fill_rule_prefix_ok p e1 e2 e3 e4 r :
  fill_rule_prefix p e1 e2 e3 e4 = inr r → 0 ≤ pf_length p → ipaddr_ok r.1 ∧ mask_ok r.1 r.2.
Proof using LO.
  unfold fill_rule_prefix. intros H Hn. fill_inv.
  match goal with H : GrpcToDpAddress _ = Some _ |- _ => apply StrToDpAddress_ok in H as [Ha Hv] end. split; [done|].
  exists (pf_length p). split; [done|]. cbn. rewrite Hv.
  apply orb_prop in Hf as [Hf%Z.eqb_eq|Hf%Z.eqb_eq]; rewrite Hf in *; cbn in *; by fill_inv.
Qed.

Lemma GrpcToDpFwallPort_ok p w : GrpcToDpFwallPort p = Some w → port_word_ok w.
Proof.
  unfold GrpcToDpFwallPort, port_word_ok, Responder.UINT16_MAX. destruct (Z.eqb_spec (u32 p) DP_FWALL_MATCH_ANY_PORT) as [->|]; cbn; [intros [= <-]; by left|].
  destruct (Z.ltb_spec 65535 (u32 p)); [done|]. intros [= <-]. right. pose proof (u32_range p). unfold is_u16, is_u32 in *. lia.
Qed.

Lemma range_check_ok l u : negb (negb (l =? DP_FWALL_MATCH_ANY_PORT) && (u <? l)) = true → l = DP_FWALL_MATCH_ANY_PORT ∨ l ≤ u.
Proof. intros [H%negb_false_iff%Z.eqb_eq|H%Z.ltb_ge]%negb_true_iff%andb_false_iff; [by left|by right]. Qed.

Lemma fill_rule_ports_ok sl su dl du e1 e2 e3 e4 e5 e6 w0 w1 w2 w3 :
  fill_rule_ports sl su dl du e1 e2 e3 e4 e5 e6 = inr (w0, w1, w2, w3) → port_range_ok w0 w1 ∧ port_range_ok w2 w3.
Proof.
  unfold fill_rule_ports. intros H. fill_inv.
  repeat match goal with H : GrpcToDpFwallPort _ = Some _ |- _ => apply GrpcToDpFwallPort_ok in H end.
  split; (split; [done|]; split; [done|]); by apply range_check_ok.
Qed.

Lemma icmp_check_ok z : negb (negb (u32 z =? DP_FWALL_MATCH_ANY_ICMP_TYPE) && (UINT8_MAX <? u32 z)) = true → icmp_word_ok (u32 z).
Proof.
  intros [H%negb_false_iff%Z.eqb_eq|H%Z.ltb_ge]%negb_true_iff%andb_false_iff; [by left|right].
  pose proof (u32_range z). unfold is_u8, is_u32, UINT8_MAX in *. lia.
Qed.

(** What the filter gives to the rule. *)
Lemma fill_rule_filter_ok f protocol w0 w1 w2 w3 :
  fill_rule_filter f = inr (protocol, (w0, w1, w2, w3)) →
  protocol ∈ [DP_FWALL_MATCH_ANY_PROTOCOL; IPPROTO_ICMP; IPPROTO_TCP; IPPROTO_UDP]
  ∧ (protocol = IPPROTO_ICMP → icmp_word_ok w0 ∧ icmp_word_ok w1)
  ∧ (protocol ≠ IPPROTO_ICMP → port_range_ok w0 w1 ∧ port_range_ok w2 w3).
Proof.
  destruct f; cbn; intros H; fill_inv.
  - split; [by left|]. split; [done|]. intros _. split; (split; [by left|]; split; [right; by split|by left]).
  - split; [by right; left|]. split; [|done]. intros _. split; by apply icmp_check_ok.
  - split; [by right; right; left|]. split; [done|]. intros _. by eapply fill_rule_ports_ok.
  - split; [by do 3 right; left|]. split; [done|]. intros _. by eapply fill_rule_ports_ok.
Qed.

Lemma fill_pxe_ok r a x : fill_pxe r a = inr x → ipaddr_ok x.1 ∧ id_ok DP_IFACE_PXE_MAX_LEN x.2.
Proof using LO.
  unfold fill_pxe. destruct (ce_pxe_next_server r) as [|c l]; intros H; fill_inv; cbn.
  - split; [by split|]. by split.
  - split; [by eapply StrToDpAddress_ok|eauto with fill].
Qed.

Lemma IsInterfaceIdValid_nonul s : IsInterfaceIdValid s = true → Forall (λ c, c ≠ 0) s.
Proof.
  unfold IsInterfaceIdValid. rewrite forallb_forall. intros H. apply Forall_forall. intros c Hc%list_elem_of_In%H.
  by intros ->.
Qed.

Lemma create_interface_ok r q : CreateInterfaceCall_FillRequest r = inr q → request_ok q.
Proof using LO.
  unfold CreateInterfaceCall_FillRequest. intros H. fill_inv.
  match goal with H : fill_pxe _ _ = inr _ |- _ => apply fill_pxe_ok in H as [? ?] end.
  match goal with H : IsInterfaceIdValid _ = true |- _ => pose proof (IsInterfaceIdValid_nonul _ H) as Hid end.
  constructor; cbn; eauto with fill.
  - unfold iface_id_of in *. fill_inv.
    match goal with H : snprintf DP_IFACE_ID_MAX_LEN _ = Some _ |- _ => apply snprintf_ok in H as [_ ->] end. by rewrite c_str_id.
  - match goal with H : negb _ = true |- _ => apply negb_true_iff, andb_false_iff in H as [H%Z.eqb_neq|H] end; auto.
Qed.

Lemma create_lb_ok id ip vni ports q : CreateLoadBalancerCall_FillRequest id ip vni ports = inr q → request_ok q.
Proof using LO.
  unfold CreateLoadBalancerCall_FillRequest, DP_LB_MAX_PORTS. intros H. fill_inv.
  match goal with H : fill_lbports _ = inr _ |- _ => apply fill_lbports_ok in H as [Hp Hl] end.
  cbn [request_ok gl_lb_id gl_addr gl_lbports]. split; [eauto with fill|]. split; [eauto with fill|].
  rewrite length_app, length_replicate. split; [unfold DP_LB_MAX_PORTS; lia|]. split.
  - apply Forall_app_2; [done|]. apply Forall_replicate. split; [by split|]. by right; right.
  - replace (Z.to_nat 16 - List.length x2)%nat with (S (15 - List.length x2)) by lia.
    rewrite replicate_S_end, app_assoc. by rewrite last_snoc.
Qed.

Lemma create_rule_ok id r q :
  CreateFirewallRuleCall_FillRequest id r = inr q → wire_ok (CreateFirewallRuleRequest id r) → request_ok q.
Proof using LO.
  unfold CreateFirewallRuleCall_FillRequest, Responder.UINT16_MAX. intros H (Hp & Hs & Hd). fill_inv.
  match goal with H : (let '(_, _) := ?x in _) = inr _ |- _ => destruct x as [protocol [[[w0 w1] w2] w3]] end. fill_inv.
  repeat match goal with H : fill_rule_prefix _ _ _ _ _ = inr _ |- _ => apply fill_rule_prefix_ok in H as [? ?]; [|done] end.
  match goal with H : fill_rule_filter _ = inr _ |- _ => apply fill_rule_filter_ok in H as (? & ? & ?) end.
  split; [eauto with fill|]. constructor; cbn; eauto with fill.
Qed.

Lemma nat_range id ip addr min max ports vni neigh :
  GrpcToDpAddress ip = Some addr → fill_nat_ports min max = inr ports → 0 ≤ min ∧ 0 ≤ max →
  nat_range_ok (MkNatReq id addr ports.1 ports.2 vni neigh).
Proof using LO. intros Ha Hp [? ?]. apply fill_nat_ports_ok in Hp as (? & ? & ?); [|done|done]. split; [by eapply GrpcToDpAddress_ok|done]. Qed.

Lemma fill_rule_id_ok s t r :
  fill_rule_id s t = inr r → id_ok DP_IFACE_ID_MAX_LEN (fi_iface_id r) ∧ id_ok DP_FIREWALL_ID_MAX_LEN (fi_rule_id r).
Proof. unfold fill_rule_id. intros H. fill_inv. cbn. eauto with fill. Qed.

Lemma capture_start_ok c q : CaptureStartCall_FillRequest c = inr q → request_ok q.
Proof using LO.
  unfold CaptureStartCall_FillRequest. intros H. fill_inv.
  match goal with H : fill_captured _ = inr _ |- _ => apply fill_captured_ok in H as [? Hl] end.
  cbn. rewrite Hl. split_and!; eauto with fill.
Qed.
Hint Resolve fill_prefix_ok fill_rule_id_ok : fill.

(** C13. Whatever message a client sends, the request that the worker gets is well formed: strings fit their
    arrays, addresses fit their family, ports, prefix lengths and indices fit their width, ranges are not
    empty, the masks of a firewall rule come from prefix lengths of the family of its addresses, an
    interface has an address, a load balancer has room after its last port. *)
Theorem fill_request_ok m r : FillRequest m = inr r → wire_ok m → request_ok r.
Proof using LO.
  destruct m; cbn [FillRequest wire_ok]; intros H Hw; fill_inv;
    eauto using create_interface_ok, create_lb_ok, create_rule_ok, capture_start_ok; try exact I;
    match type of H with ?f = _ => let h := head_of f in unfold h in H end; fill_inv; cbn; eauto with fill.
  - split; [eauto with fill|]. eauto using nat_range.
  - split; [eauto using nat_range|eauto with fill].
  - eauto using nat_range.
Qed.
End fill_facts.

(** ** Facts: firewall rules come back *)

Section rule_facts.
Context `{LC : LibcAddr} {LO : LibcAddrOk}.

(** The address is written the way the C library writes it. *)
Definition canonical_addr (a : IpAddress) : Prop :=
  (ia_ipver a = IPV4 ∧ ∃ z, is_u32 z ∧ ia_address a = inet_ntoa z) ∨ (ia_ipver a = IPV6 ∧ ∃ z, is_u128 z ∧ ia_address a = inet_ntop6 z).
Definition canonical_prefix (p : Prefix) : Prop := canonical_addr (pf_ip p) ∧ 0 ≤ pf_length p ∧ pf_underlay_route p = [].

Definition is_i32 (z : Z) : Prop := - 2 ^ 31 ≤ z < 2 ^ 31.
Definition canonical_filter (f : ProtocolFilter) : Prop :=
  match f with
  | FILTER_NOT_SET => True
  | Icmp t c => is_i32 t ∧ is_i32 c
  | Tcp a b c d | Udp a b c d => is_i32 a ∧ is_i32 b ∧ is_i32 c ∧ is_i32 d
  end.
Record canonical_rule (r : FirewallRule) : Prop := {
  cr_id : Forall (λ c, c ≠ 0) (fw_id r);
  cr_priority : 0 ≤ fw_priority r;
  cr_source : canonical_prefix (fw_source_prefix r);
  cr_destination : canonical_prefix (fw_destination_prefix r);
  cr_filter : canonical_filter (fw_protocol_filter r)
}.

Lemma address_roundtrip a dp : canonical_addr a → GrpcToDpAddress a = Some dp → DpToGrpcAddress dp = a.
Proof using LO.
  destruct a as [ipver addr]. unfold GrpcToDpAddress, StrToDpAddress, canonical_addr. cbn.
  intros [[-> (z & Hz & ->)]|[-> (z & Hz & ->)]]; cbn; intros (x & Hx & ->)%fmap_Some.
  - unfold StrToIpv4 in Hx. rewrite c_str_id in Hx by (eapply Forall_impl; [apply inet_ntoa_text|cbn; lia]).
    rewrite inet_aton_ntoa in Hx by done. injection Hx as <-. unfold DpToGrpcAddress, Ipv4ToStr. rewrite ipv4_set4 by apply bswap32_range.
    cbn [is_v6 DP_SET_IPADDR4]. by rewrite bswap32_involutive.
  - unfold StrToIpv6 in Hx. rewrite c_str_id in Hx by (eapply Forall_impl; [apply inet_ntop6_text|cbn; lia]).
    rewrite inet_pton_ntop in Hx by done. by injection Hx as <-.
Qed.

Lemma rule_prefix_roundtrip p e1 e2 e3 e4 r :
  canonical_prefix p → fill_rule_prefix p e1 e2 e3 e4 = inr r → SetupIpAndPrefix r.1 r.2 = p.
Proof using LO.
  destruct p as [ip len ul]. intros (Ha & Hn & Hul). cbn in *. subst ul. unfold fill_rule_prefix. cbn [pf_ip pf_length]. intros H. fill_inv.
  match goal with H : GrpcToDpAddress _ = Some _ |- _ =>
    pose proof (address_roundtrip _ _ Ha H) as Hback; apply StrToDpAddress_ok in H as [_ Hv] end.
  unfold SetupIpAndPrefix. cbn [fst snd]. rewrite Hback, Hv. f_equal.
  destruct Ha as [[E _]|[E _]]; rewrite E in *; cbn -[rule_prefix_len] in *; fill_inv; by apply (prefix_len_roundtrip len).
Qed.

Lemma i32_u32 z : is_i32 z → i32 (u32 z) = z.
Proof. intros Hz. rewrite <- (i32_small z) at 2 by done. unfold i32, u32. by rewrite Z.mod_mod. Qed.

Lemma fwall_port_roundtrip z w : GrpcToDpFwallPort z = Some w → is_i32 z → i32 w = z.
Proof. unfold GrpcToDpFwallPort. destruct (_ && _); [done|]. intros [= <-] Hz. by apply i32_u32. Qed.

Lemma rule_ports_roundtrip a b c d e1 e2 e3 e4 e5 e6 w0 w1 w2 w3 :
  fill_rule_ports a b c d e1 e2 e3 e4 e5 e6 = inr (w0, w1, w2, w3) → is_i32 a ∧ is_i32 b ∧ is_i32 c ∧ is_i32 d →
  i32 w0 = a ∧ i32 w1 = b ∧ i32 w2 = c ∧ i32 w3 = d.
Proof. unfold fill_rule_ports. intros H (? & ? & ? & ?). fill_inv. split_and!; by eapply fwall_port_roundtrip. Qed.

(** C36. A firewall rule that a client creates comes back as it was sent: the rule made from the message, converted
    to a message again, is the message, when its addresses are written in the
    usual form and its identifier has no NUL byte. *)
Theorem fwrule_roundtrip id rule q :
  canonical_rule rule → CreateFirewallRuleCall_FillRequest id rule = inr (ReqCreateFirewallRule q) →
  DpToGrpcFwrule (fq_rule q) = rule.
Proof using LO.
  destruct rule as [rid dir act prio src dst f]. intros []. unfold CreateFirewallRuleCall_FillRequest, Responder.UINT16_MAX. cbn in *.
  intros H. fill_inv.
  match goal with H : (let '(_, _) := ?x in _) = inr _ |- _ => destruct x as [protocol [[[w0 w1] w2] w3]] end. fill_inv.
  repeat match goal with H : fill_rule_prefix _ _ _ _ _ = inr _ |- _ => apply rule_prefix_roundtrip in H; [|done] end.
  match goal with H : snprintf _ _ = Some _ |- _ => apply snprintf_ok in H as [_ ->] end.
  unfold DpToGrpcFwrule. cbn [fq_rule fr_rule_id fr_src_ip fr_dest_ip fr_src_mask fr_dest_mask fr_priority fr_dir fr_action].
  rewrite c_str_id by done. f_equal; try done.
  - unfold GrpcToDpFwallDirection in *. destruct (Z.eqb_spec dir INGRESS), (Z.eqb_spec dir EGRESS); by simplify_eq.
  - unfold GrpcToDpFwallAction in *. destruct (Z.eqb_spec act ACCEPT), (Z.eqb_spec act DROP); by simplify_eq.
  - apply u16_id. unfold is_u16. lia.
  - destruct f; cbn in *; fill_inv; cbn; try done.
    + unfold fr_icmp_type, fr_icmp_code. cbn. by rewrite !i32_u32 by apply cr_filter0.
    + match goal with H : fill_rule_ports _ _ _ _ _ _ _ _ _ _ = inr _ |- _ => apply rule_ports_roundtrip in H as (-> & -> & -> & ->); done end.
    + match goal with H : fill_rule_ports _ _ _ _ _ _ _ _ _ _ = inr _ |- _ => apply rule_ports_roundtrip in H as (-> & -> & -> & ->); done end.
Qed.
End rule_facts.

(** ** Examples *)

(** A text is one character, the address plus one. *)
Definition text_of (a : Z) : bytes := [Z.abs a + 1].
Definition addr_in (bound : Z) (s : bytes) : option Z :=
  match s with [c] => if (0 <=? c - 1) && (c - 1 <? bound) then Some (c - 1) else None | _ => None end.
Definition test_libcaddr : LibcAddr := {|
  inet_aton := addr_in (2 ^ 32); inet_pton6 := addr_in (2 ^ 128); inet_ntoa := text_of; inet_ntop6 := text_of |}.

Lemma addr_in_range bound s a : addr_in bound s = Some a → 0 ≤ a < bound.
Proof.
  unfold addr_in. destruct s as [|c [|]]; [done| |done]. destruct (Z.leb_spec 0 (c - 1)), (Z.ltb_spec (c - 1) bound); cbn; try done.
  by intros [= <-].
Qed.
Lemma addr_in_text bound a : 0 ≤ a < bound → addr_in bound (text_of a) = Some a.
Proof.
  intros Ha. unfold addr_in, text_of. rewrite Z.abs_eq by lia. replace (a + 1 - 1) with a by lia.
  destruct (Z.leb_spec 0 a), (Z.ltb_spec a bound); try lia. done.
Qed.
Lemma text_of_text a : Forall (λ c, 0 < c) (text_of a).
Proof. repeat constructor. lia. Qed.
Lemma test_libcaddr_ok : @LibcAddrOk test_libcaddr.
Proof.
  constructor; cbn; intros; first [by eapply addr_in_range|by apply addr_in_text|by apply text_of_text].
Qed.

Definition ex_rule_msg : FirewallRule :=
  MkFirewallRule [114; 49] INGRESS ACCEPT 100 (MkPfx (MkIpAddress IPV4 (text_of (htonl (RTE_IPV4 10 0 0 0)))) 8 [])
    (MkPfx (MkIpAddress IPV4 (text_of 0)) 0 []) (Tcp (-1) (-1) 80 90).

Lemma fwrule_roundtrip_witness :
  ∃ q, @CreateFirewallRuleCall_FillRequest test_libcaddr [105] ex_rule_msg = inr (ReqCreateFirewallRule q)
       ∧ @DpToGrpcFwrule test_libcaddr (fq_rule q) = ex_rule_msg.
Proof.
  eexists. split; [reflexivity|]. apply (@fwrule_roundtrip test_libcaddr test_libcaddr_ok [105]); [|reflexivity].
  constructor; cbn.
  - by repeat constructor.
  - lia.
  - split; [left; split; [done|]; exists (htonl (RTE_IPV4 10 0 0 0)); by split|done].
  - split; [left; split; [done|]; exists 0; by split|done].
  - done.
Defined.

Lemma fill_request_ok_witness :
  ∃ r, @FillRequest test_libcaddr (CreateNatRequest [105] (MkIpAddress IPV4 (text_of 50)) 1024 2048) = inr r ∧ request_ok r.
Proof.
  eexists. split; [reflexivity|].
  eapply (@fill_request_ok test_libcaddr test_libcaddr_ok (CreateNatRequest [105] (MkIpAddress IPV4 (text_of 50)) 1024 2048)); [reflexivity|].
  by split.
Defined.
