(* ===== verification/AsyncGrpc.v ===== *)
(** * The gRPC server (src/grpc/dp_async_grpc.cpp, its header, src/grpc/dp_grpc_service.cpp)

    A call is an object with three states.  When its message arrives it makes a
    request and puts it into the queue to the worker; then it waits until
    the worker's reply is in the queue back; then the response is sent and
    the object is deleted.  The server handles one call after another.

    The worker takes its turns at any time.  The theorems say that a call
    ends with the worker's answer however the turns interleave, leaving both
    queues empty, and what is wrong with a listing that fails. *)

From S2P Require Import Prelude Dpdk Error Types Responder Startup Port Hw Capture PortCtl Firewall GrpcConv Rib Lb Vnf Conn Mbuf Nat Vni Lpm Flow Iface Service Replies GrpcMsg.
From Stdlib Require Import String.
Close Scope string_scope.

(** ** Calls *)

Inductive dpgrpc_request_type :=
  | DP_REQ_TYPE_NONE
  | DP_REQ_TYPE_Initialize
  | DP_REQ_TYPE_CheckInitialized
  | DP_REQ_TYPE_GetVersion
  | DP_REQ_TYPE_CreateInterface
  | DP_REQ_TYPE_DeleteInterface
  | DP_REQ_TYPE_GetInterface
  | DP_REQ_TYPE_ListInterfaces
  | DP_REQ_TYPE_CreatePrefix
  | DP_REQ_TYPE_DeletePrefix
  | DP_REQ_TYPE_ListPrefixes
  | DP_REQ_TYPE_CreateRoute
  | DP_REQ_TYPE_DeleteRoute
  | DP_REQ_TYPE_ListRoutes
  | DP_REQ_TYPE_CreateVip
  | DP_REQ_TYPE_DeleteVip
  | DP_REQ_TYPE_GetVip
  | DP_REQ_TYPE_CreateNat
  | DP_REQ_TYPE_DeleteNat
  | DP_REQ_TYPE_GetNat
  | DP_REQ_TYPE_CreateNeighborNat
  | DP_REQ_TYPE_DeleteNeighborNat
  | DP_REQ_TYPE_ListLocalNats
  | DP_REQ_TYPE_ListNeighborNats
  | DP_REQ_TYPE_CreateLoadBalancer
  | DP_REQ_TYPE_DeleteLoadBalancer
  | DP_REQ_TYPE_GetLoadBalancer
  | DP_REQ_TYPE_CreateLoadBalancerTarget
  | DP_REQ_TYPE_DeleteLoadBalancerTarget
  | DP_REQ_TYPE_ListLoadBalancerTargets
  | DP_REQ_TYPE_CreateLoadBalancerPrefix
  | DP_REQ_TYPE_DeleteLoadBalancerPrefix
  | DP_REQ_TYPE_ListLoadBalancerPrefixes
  | DP_REQ_TYPE_CreateFirewallRule
  | DP_REQ_TYPE_DeleteFirewallRule
  | DP_REQ_TYPE_GetFirewallRule
  | DP_REQ_TYPE_ListFirewallRules
  | DP_REQ_TYPE_CheckVniInUse
  | DP_REQ_TYPE_ResetVni
  | DP_REQ_TYPE_CaptureStart
  | DP_REQ_TYPE_CaptureStop
  | DP_REQ_TYPE_CaptureStatus.
Global Instance request_type_eq_dec : EqDecision dpgrpc_request_type.
Proof. solve_decision. Defined.

(** The base classes of the calls. *)
Inductive call_class := InitCall | NoIpcCall | SingleReplyCall | MultiReplyCall.

(** [CREATE_CALLCLASS]: the type of a call and its base class. *)
Definition call_of (m : request_msg) : dpgrpc_request_type * call_class :=
  match m with
  | InitializeRequest => (DP_REQ_TYPE_Initialize, InitCall)
  | CheckInitializedRequest => (DP_REQ_TYPE_CheckInitialized, NoIpcCall)
  | GetVersionRequest _ _ _ => (DP_REQ_TYPE_GetVersion, SingleReplyCall)
  | CreateInterfaceRequest _ => (DP_REQ_TYPE_CreateInterface, SingleReplyCall)
  | DeleteInterfaceRequest _ => (DP_REQ_TYPE_DeleteInterface, SingleReplyCall)
  | GetInterfaceRequest _ => (DP_REQ_TYPE_GetInterface, SingleReplyCall)
  | ListInterfacesRequest => (DP_REQ_TYPE_ListInterfaces, MultiReplyCall)
  | CreatePrefixRequest _ _ => (DP_REQ_TYPE_CreatePrefix, SingleReplyCall)
  | DeletePrefixRequest _ _ => (DP_REQ_TYPE_DeletePrefix, SingleReplyCall)
  | ListPrefixesRequest _ => (DP_REQ_TYPE_ListPrefixes, MultiReplyCall)
  | CreateRouteRequest _ _ => (DP_REQ_TYPE_CreateRoute, SingleReplyCall)
  | DeleteRouteRequest _ _ => (DP_REQ_TYPE_DeleteRoute, SingleReplyCall)
  | ListRoutesRequest _ => (DP_REQ_TYPE_ListRoutes, MultiReplyCall)
  | CreateVipRequest _ _ => (DP_REQ_TYPE_CreateVip, SingleReplyCall)
  | DeleteVipRequest _ => (DP_REQ_TYPE_DeleteVip, SingleReplyCall)
  | GetVipRequest _ => (DP_REQ_TYPE_GetVip, SingleReplyCall)
  | CreateNatRequest _ _ _ _ => (DP_REQ_TYPE_CreateNat, SingleReplyCall)
  | DeleteNatRequest _ => (DP_REQ_TYPE_DeleteNat, SingleReplyCall)
  | GetNatRequest _ => (DP_REQ_TYPE_GetNat, SingleReplyCall)
  | CreateNeighborNatRequest _ _ _ _ _ => (DP_REQ_TYPE_CreateNeighborNat, SingleReplyCall)
  | DeleteNeighborNatRequest _ _ _ _ => (DP_REQ_TYPE_DeleteNeighborNat, SingleReplyCall)
  | ListLocalNatsRequest _ => (DP_REQ_TYPE_ListLocalNats, MultiReplyCall)
  | ListNeighborNatsRequest _ => (DP_REQ_TYPE_ListNeighborNats, MultiReplyCall)
  | CreateLoadBalancerRequest _ _ _ _ => (DP_REQ_TYPE_CreateLoadBalancer, SingleReplyCall)
  | DeleteLoadBalancerRequest _ => (DP_REQ_TYPE_DeleteLoadBalancer, SingleReplyCall)
  | GetLoadBalancerRequest _ => (DP_REQ_TYPE_GetLoadBalancer, SingleReplyCall)
  | CreateLoadBalancerTargetRequest _ _ => (DP_REQ_TYPE_CreateLoadBalancerTarget, SingleReplyCall)
  | DeleteLoadBalancerTargetRequest _ _ => (DP_REQ_TYPE_DeleteLoadBalancerTarget, SingleReplyCall)
  | ListLoadBalancerTargetsRequest _ => (DP_REQ_TYPE_ListLoadBalancerTargets, MultiReplyCall)
  | CreateLoadBalancerPrefixRequest _ _ => (DP_REQ_TYPE_CreateLoadBalancerPrefix, SingleReplyCall)
  | DeleteLoadBalancerPrefixRequest _ _ => (DP_REQ_TYPE_DeleteLoadBalancerPrefix, SingleReplyCall)
  | ListLoadBalancerPrefixesRequest _ => (DP_REQ_TYPE_ListLoadBalancerPrefixes, MultiReplyCall)
  | CreateFirewallRuleRequest _ _ => (DP_REQ_TYPE_CreateFirewallRule, SingleReplyCall)
  | DeleteFirewallRuleRequest _ _ => (DP_REQ_TYPE_DeleteFirewallRule, SingleReplyCall)
  | GetFirewallRuleRequest _ _ => (DP_REQ_TYPE_GetFirewallRule, SingleReplyCall)
  | ListFirewallRulesRequest _ => (DP_REQ_TYPE_ListFirewallRules, MultiReplyCall)
  | CheckVniInUseRequest _ _ => (DP_REQ_TYPE_CheckVniInUse, SingleReplyCall)
  | ResetVniRequest _ _ => (DP_REQ_TYPE_ResetVni, SingleReplyCall)
  | CaptureStartRequest _ => (DP_REQ_TYPE_CaptureStart, SingleReplyCall)
  | CaptureStopRequest => (DP_REQ_TYPE_CaptureStop, SingleReplyCall)
  | CaptureStatusRequest => (DP_REQ_TYPE_CaptureStatus, SingleReplyCall)
  end.
Abbreviation call_type m := (call_of m).1.

Inductive CallState := REQUEST | AWAIT_MSG | FINISH.

(** [grpc::Status] *)
Inductive grpc_status := STATUS_OK | STATUS_ABORTED (msg : string) | STATUS_INVALID_ARGUMENT (msg : string) | STATUS_INTERNAL (msg : string).

(** [cl_status] and [cl_body] are [reply_]; [cl_finished] is the argument of [Finish]. *)
Record call := MkCall {
  cl_request : request_msg;
  cl_state : CallState;
  cl_status : option (Z * string);
  cl_body : response_body;
  cl_finished : option grpc_status
}.
Global Instance call_eta : Eta call := λ r,
  MkCall (cl_request r) (cl_state r) (cl_status r) (cl_body r) (cl_finished r).

(** A default message. *)
Definition empty_body (m : request_msg) : response_body :=
  match m with
  | ListInterfacesRequest => RespInterfaces []
  | ListPrefixesRequest _ | ListLoadBalancerPrefixesRequest _ => RespPrefixes []
  | ListRoutesRequest _ => RespRoutes []
  | ListLocalNatsRequest _ | ListNeighborNatsRequest _ => RespNats []
  | ListLoadBalancerTargetsRequest _ => RespTargets []
  | ListFirewallRulesRequest _ => RespRules []
  | _ => RespEmpty
  end.
Definition new_call (m : request_msg) : call := MkCall m REQUEST None (empty_body m) None.

(** ** Buffers in the queues *)

(** A reply, by the type of its messages. *)
Inductive reply_packet :=
  | PkSingle (r : dpgrpc_reply single_reply)
  | PkIface (r : dpgrpc_reply iface_reply)
  | PkRoute (r : dpgrpc_reply route_reply)
  | PkPrefix (r : dpgrpc_reply vnf_route)
  | PkNat (r : dpgrpc_reply dpgrpc_nat)
  | PkLbTarget (r : dpgrpc_reply dp_ip_address)
  | PkFwrule (r : dpgrpc_reply dp_fwall_rule).

Definition pk_is_chained (p : reply_packet) : bool :=
  match p with
  | PkSingle r => rp_is_chained r | PkIface r => rp_is_chained r | PkRoute r => rp_is_chained r | PkPrefix r => rp_is_chained r
  | PkNat r => rp_is_chained r | PkLbTarget r => rp_is_chained r | PkFwrule r => rp_is_chained r
  end.
Definition pk_msg_count (p : reply_packet) : Z :=
  match p with
  | PkSingle r => rp_msg_count r | PkIface r => rp_msg_count r | PkRoute r => rp_msg_count r | PkPrefix r => rp_msg_count r
  | PkNat r => rp_msg_count r | PkLbTarget r => rp_msg_count r | PkFwrule r => rp_msg_count r
  end.
Definition pk_err_code (p : reply_packet) : Z :=
  match p with
  | PkSingle r => rp_err_code r | PkIface r => rp_err_code r | PkRoute r => rp_err_code r | PkPrefix r => rp_err_code r
  | PkNat r => rp_err_code r | PkLbTarget r => rp_err_code r | PkFwrule r => rp_err_code r
  end.

(** [gm_request] is the request that the buffer held before, if it held one. *)
Record grpc_mbuf := MkGrpcMbuf {
  gm_type : dpgrpc_request_type;
  gm_request : option dpgrpc_request;
  gm_reply : reply_packet
}.

(** The first reply reuses the buffer of the request. *)
Definition chain_mbufs {M} (type : dpgrpc_request_type) (request : dpgrpc_request) (mk : dpgrpc_reply M → reply_packet)
    (l : list (dpgrpc_reply M)) : list grpc_mbuf :=
  match l with
  | [] => []
  | r :: l => MkGrpcMbuf type (Some request) (mk r) :: ((λ r, MkGrpcMbuf type None (mk r)) <$> l)
  end.
Definition response_mbufs (type : dpgrpc_request_type) (request : dpgrpc_request) (resp : dp_response) : list grpc_mbuf :=
  match resp with
  | Single l => chain_mbufs type request PkSingle l
  | Ifaces l => chain_mbufs type request PkIface l
  | Routes l => chain_mbufs type request PkRoute l
  | Prefixes l => chain_mbufs type request PkPrefix l
  | Nats l => chain_mbufs type request PkNat l
  | LbTargets l => chain_mbufs type request PkLbTarget l
  | Fwrules l => chain_mbufs type request PkFwrule l
  end.

(** [sr_waiting] are the types of the calls that wait for a message; [sr_tx] is [grpc_tx_queue]
    and [sr_rx] is [grpc_rx_queue]. *)
Record server_state `{RteMempool} := MkServer {
  sr_initialized : bool;
  sr_waiting : list dpgrpc_request_type;
  sr_tx : list (dpgrpc_request_type * dpgrpc_request);
  sr_rx : list grpc_mbuf;
  sr_mempool : mempool_state;
  sr_timers : timers_state
}.
Arguments MkServer {_} _ _ _ _ _ _.
Global Instance server_state_eta `{RteMempool} : Eta server_state := λ r,
  MkServer (sr_initialized r) (sr_waiting r) (sr_tx r) (sr_rx r) (sr_mempool r) (sr_timers r).

(** A ring of a power of two has room for one less. *)
Definition ring_capacity : nat := Z.to_nat (DP_GRPC_Q_SIZE - 1).

Definition ENOBUFS : Z := 105.

(** Arbitrary, just not an error or [DP_OK]. *)
Definition DP_GRPC_REPLY_NOT_READY : Z := 1.

Section server.
Context `{LC : LibcAddr} `{HP : RteMempool} (uuid : bytes).

Definition timersL : lens server_state timers_state := Lens sr_timers (λ t s, s <| sr_timers := t |>).

Definition SetInitStatus (status : bool) : cmd server_state () :=
  zoom timersL dp_timers_signal_initialization;;
  modify (λ s, s <| sr_initialized := status |>).

(** The members of the call and of the server. *)
Definition call_cmd (A : Type) : Type := cmd (call * server_state) A.
Definition on_call (f : call → call) : call_cmd () := modify (λ s, (f s.1, s.2)).

Definition SetStatus (grpc_errcode : Z) : call_cmd () :=
  match dp_grpc_strerror grpc_errcode with
  | Some message => on_call (λ c, c <| cl_status := Some (grpc_errcode, message) |>)
  | None => fault
  end.
Definition Finish (status : grpc_status) : call_cmd () := on_call (λ c, c <| cl_finished := Some status |>).
Definition set_call_state (st : CallState) : call_cmd () := on_call (λ c, c <| cl_state := st |>).

(** The message of a reply that has one. *)
Definition single_message (p : reply_packet) : option single_reply :=
  match p with PkSingle r => rp_messages r !! 0 | _ => None end.

(** What the reply sets in the response; [None] as the packet is NULL. *)
Definition parsed (m : request_msg) (p : option grpc_mbuf) (body : response_body) : option response_body :=
  match p with
  | None => match m with CheckInitializedRequest => Some (RespUuid uuid) | _ => None end
  | Some p =>
      match m, gm_reply p, body with
      | InitializeRequest, _, _ => Some (RespUuid uuid)
      | CheckInitializedRequest, _, _ => Some (RespUuid uuid)
      | GetVersionRequest _ _ _, r, _ => single_message r ≫= GetVersionCall_ParseReply
      | CreateInterfaceRequest _, r, _ => single_message r ≫= CreateInterfaceCall_ParseReply
      | GetInterfaceRequest _, r, _ => single_message r ≫= GetInterfaceCall_ParseReply
      | ListInterfacesRequest, PkIface r, RespInterfaces l => ListInterfacesCall_ParseReply r l
      | CreatePrefixRequest _ _, r, _ => single_message r ≫= ul_addr_ParseReply
      | ListPrefixesRequest _, PkPrefix r, RespPrefixes l => ListPrefixesCall_ParseReply r l
      | ListRoutesRequest _, PkRoute r, RespRoutes l => ListRoutesCall_ParseReply r l
      | CreateVipRequest _ _, r, _ => single_message r ≫= ul_addr_ParseReply
      | GetVipRequest _, r, _ => single_message r ≫= GetVipCall_ParseReply
      | CreateNatRequest _ _ _ _, r, _ => single_message r ≫= ul_addr_ParseReply
      | GetNatRequest _, r, _ => single_message r ≫= GetNatCall_ParseReply
      | ListLocalNatsRequest _, PkNat r, RespNats l => ListLocalNatsCall_ParseReply r l
      | ListNeighborNatsRequest _, PkNat r, RespNats l => ListNeighborNatsCall_ParseReply r l
      | CreateLoadBalancerRequest _ _ _ _, r, _ => single_message r ≫= ul_addr_ParseReply
      | GetLoadBalancerRequest _, r, _ => single_message r ≫= GetLoadBalancerCall_ParseReply
      | ListLoadBalancerTargetsRequest _, PkLbTarget r, RespTargets l => ListLoadBalancerTargetsCall_ParseReply r l
      | CreateLoadBalancerPrefixRequest _ _, r, _ => single_message r ≫= CreateLoadBalancerPrefixCall_ParseReply
      | ListLoadBalancerPrefixesRequest _, PkPrefix r, RespPrefixes l => ListLoadBalancerPrefixesCall_ParseReply r l
      | CreateFirewallRuleRequest _ _, r, _ => single_message r ≫= CreateFirewallRuleCall_ParseReply (gm_request p)
      | GetFirewallRuleRequest _ _, r, _ => single_message r ≫= GetFirewallRuleCall_ParseReply
      | ListFirewallRulesRequest _, PkFwrule r, RespRules l => ListFirewallRulesCall_ParseReply r l
      | CheckVniInUseRequest _ _, r, _ => single_message r ≫= CheckVniInUseCall_ParseReply
      | CaptureStopRequest, r, _ => single_message r ≫= CaptureStopCall_ParseReply
      | CaptureStatusRequest, r, _ => single_message r ≫= CaptureStatusCall_ParseReply
      | (DeleteInterfaceRequest _ | DeletePrefixRequest _ _ | CreateRouteRequest _ _ | DeleteRouteRequest _ _ | DeleteVipRequest _
         | DeleteNatRequest _ | CreateNeighborNatRequest _ _ _ _ _ | DeleteNeighborNatRequest _ _ _ _ | DeleteLoadBalancerRequest _
         | CreateLoadBalancerTargetRequest _ _ | DeleteLoadBalancerTargetRequest _ _ | DeleteLoadBalancerPrefixRequest _ _
         | DeleteFirewallRuleRequest _ _ | ResetVniRequest _ _ | CaptureStartRequest _), _, body => Some body
      | _, _, _ => None
      end
  end.

Definition ParseReply (p : option grpc_mbuf) : call_cmd () :=
  c ← gets fst;
  (match cl_request c with InitializeRequest => zoom sndL (SetInitStatus true) | _ => mret tt end);;
  match parsed (cl_request c) p (cl_body c) with
  | Some body => on_call (λ c, c <| cl_body := body |>)
  | None => fault
  end.

(** [rte_ring_sc_dequeue]; [None] is [-ENOENT], the only error it has. *)
Definition dequeue : call_cmd (option grpc_mbuf) := λ s,
  match sr_rx s.2 with
  | [] => Some (None, s)
  | p :: rx => Some (Some p, (s.1, s.2 <| sr_rx := rx |>))
  end.

Definition SingleReplyCall_HandleReply : call_cmd Z :=
  p ← dequeue;
  match p with
  | None => mret DP_GRPC_REPLY_NOT_READY
  | Some p =>
      c ← gets fst;
      if negb (bool_decide (gm_type p = call_type (cl_request c))) then mret DP_ERROR
      else if pk_is_chained (gm_reply p) || negb (pk_msg_count (gm_reply p) =? 0) then mret DP_ERROR
      else
        SetStatus (pk_err_code (gm_reply p));;
        (if pk_err_code (gm_reply p) =? DP_GRPC_OK then ParseReply (Some p) else mret tt);;
        mret DP_OK
  end.

(** Each turn of the loop takes a buffer, so fuel above their number is enough. *)
Fixpoint multi_loop (fuel : nat) : call_cmd Z :=
  match fuel with
  | O => fault
  | S fuel =>
      p ← dequeue;
      match p with
      | None => mret DP_GRPC_REPLY_NOT_READY
      | Some p =>
          c ← gets fst;
          if negb (bool_decide (gm_type p = call_type (cl_request c))) then mret DP_ERROR
          else
            SetStatus (pk_err_code (gm_reply p));;
            (if pk_err_code (gm_reply p) =? DP_GRPC_OK then ParseReply (Some p) else mret tt);;
            if pk_is_chained (gm_reply p) then multi_loop fuel else mret DP_OK
      end
  end.
Definition MultiReplyCall_HandleReply : call_cmd Z :=
  s ← gets snd; multi_loop (S (List.length (sr_rx s))).

Definition NoIpcCall_HandleReply : call_cmd Z := SetStatus DP_GRPC_OK;; ParseReply None;; mret DP_OK.

Definition HandleReply : call_cmd Z :=
  c ← gets fst;
  match (call_of (cl_request c)).2 with
  | InitCall | SingleReplyCall => SingleReplyCall_HandleReply
  | MultiReplyCall => MultiReplyCall_HandleReply
  | NoIpcCall => NoIpcCall_HandleReply
  end.

Definition NeedsInit : call_cmd bool :=
  s ← gets id;
  mret (match (call_of (cl_request s.1)).2 with InitCall => false | _ => negb (sr_initialized s.2) end).

(** [rte_ring_sp_enqueue] fails when the ring is full. *)
Definition BaseCall_WriteRequest (type : dpgrpc_request_type) (request : dpgrpc_request) : call_cmd Z := λ s,
  let '(ok, pool) := rte_pktmbuf_alloc (sr_mempool s.2) in
  let s' := (s.1, s.2 <| sr_mempool := pool |>) in
  if negb ok then Some (DP_ERROR, s')
  else if (List.length (sr_tx s.2) <? ring_capacity)%nat
  then Some (DP_OK, (s.1, (s'.2) <| sr_tx := sr_tx s.2 ++ [(type, request)] |>))
  else Some (- ENOBUFS, s').

Definition WriteRequest (request : dpgrpc_request) : call_cmd Z :=
  c ← gets fst;
  match (call_of (cl_request c)).2 with
  | NoIpcCall => mret DP_OK
  | _ => BaseCall_WriteRequest (call_type (cl_request c)) request
  end.

(** A new object of the same type waits for the next message. *)
Definition Clone : call_cmd () := modify (λ s, (s.1, s.2 <| sr_waiting := call_type (cl_request s.1) :: sr_waiting s.2 |>)).

Definition finish_with (status : grpc_status) : call_cmd () := Finish status;; set_call_state FINISH.

Definition handle_request : call_cmd () :=
  Clone;;
  needs_init ← NeedsInit;
  if needs_init : bool then finish_with (STATUS_ABORTED "not initialized")
  else
    c ← gets fst;
    match FillRequest (cl_request c) with
    | inl error => finish_with (STATUS_INVALID_ARGUMENT error)
    | inr request =>
        ret ← WriteRequest request;
        if DP_FAILED ret then finish_with (STATUS_INTERNAL "ipc write failed") else set_call_state AWAIT_MSG
    end.

(** [None] is the assertion. *)
Definition handle_await : call_cmd () :=
  ret ← HandleReply;
  if DP_FAILED ret then finish_with (STATUS_INTERNAL "reply parsing failed")
  else if ret =? DP_OK then finish_with STATUS_OK
  else if ret =? DP_GRPC_REPLY_NOT_READY then mret tt
  else fault.

(** An object that was deleted is [None]; what [HandleRpc] returns is then read from freed memory, [freed]. *)
Definition HandleRpc (freed : CallState) : cmd (option call * server_state) CallState := λ s,
  match s.1 with
  | None => None
  | Some c =>
      match cl_state c with
      | REQUEST => '(_, s') ← handle_request (c, s.2); Some (cl_state s'.1, (Some s'.1, s'.2))
      | AWAIT_MSG => '(_, s') ← handle_await (c, s.2); Some (cl_state s'.1, (Some s'.1, s'.2))
      | FINISH => Some (freed, (None, s.2))
      end
  end.
End server.

(** The objects created by [HandleRpcs]. *)
Definition initial_calls : list dpgrpc_request_type :=
  [DP_REQ_TYPE_Initialize; DP_REQ_TYPE_CheckInitialized; DP_REQ_TYPE_DeletePrefix; DP_REQ_TYPE_ListPrefixes; DP_REQ_TYPE_CreatePrefix;
   DP_REQ_TYPE_ListLoadBalancerTargets; DP_REQ_TYPE_CreateLoadBalancerTarget; DP_REQ_TYPE_DeleteLoadBalancerTarget;
   DP_REQ_TYPE_CreateVip; DP_REQ_TYPE_DeleteVip; DP_REQ_TYPE_GetVip; DP_REQ_TYPE_CreateRoute; DP_REQ_TYPE_DeleteRoute;
   DP_REQ_TYPE_ListRoutes; DP_REQ_TYPE_CreateInterface; DP_REQ_TYPE_DeleteInterface; DP_REQ_TYPE_ListInterfaces;
   DP_REQ_TYPE_GetInterface; DP_REQ_TYPE_CreateLoadBalancer; DP_REQ_TYPE_GetLoadBalancer; DP_REQ_TYPE_DeleteLoadBalancer;
   DP_REQ_TYPE_CreateNat; DP_REQ_TYPE_GetNat; DP_REQ_TYPE_DeleteNat; DP_REQ_TYPE_CreateNeighborNat; DP_REQ_TYPE_DeleteNeighborNat;
   DP_REQ_TYPE_ListLocalNats; DP_REQ_TYPE_ListNeighborNats; DP_REQ_TYPE_ListLoadBalancerPrefixes;
   DP_REQ_TYPE_DeleteLoadBalancerPrefix; DP_REQ_TYPE_CreateLoadBalancerPrefix; DP_REQ_TYPE_CreateFirewallRule;
   DP_REQ_TYPE_GetFirewallRule; DP_REQ_TYPE_DeleteFirewallRule; DP_REQ_TYPE_ListFirewallRules; DP_REQ_TYPE_CheckVniInUse;
   DP_REQ_TYPE_ResetVni; DP_REQ_TYPE_GetVersion; DP_REQ_TYPE_CaptureStart; DP_REQ_TYPE_CaptureStop; DP_REQ_TYPE_CaptureStatus].

Lemma initial_calls_complete : NoDup initial_calls ∧ ∀ m, call_type m ∈ initial_calls.
Proof. split; [by apply (bool_decide_unpack _)|]. intros m. by destruct m; apply (bool_decide_unpack _). Qed.

(** ** The server and the worker *)

Record system `{RteHash} `{RteMalloc} `{RteRib} `{RteFlow} `{RteEth} `{RteMempool} := MkSystem {
  sy_call : option call;
  sy_server : server_state;
  sy_worker : service_state
}.
Arguments MkSystem {_ _ _ _ _ _} _ _ _.

Section system.
Context `{LC : LibcAddr} `{HH : RteHash} `{HM : RteMalloc} `{HR : RteRib} `{HF : RteFlow} `{HE : RteEth} `{HP : RteMempool}.
Context (uuid : bytes) (freed : CallState) (conf : dp_conf) (version : bytes) (env : grpc_env) (fuel : nat).

(** The ring takes what there is room for. *)
Definition ring_env (used : nat) : grpc_env :=
  MkGrpcEnv _ (ge_mempool env) (ge_room env) (ge_sizeof_reply env) (ge_sizeof_iface env) (ge_sizeof_route env) (ge_sizeof_nat env)
    (ge_sizeof_lbtrgt env) (ge_sizeof_fwrule env) (λ n, Z.min n (Z.of_nat ring_capacity - Z.of_nat used)).

Definition worker_request (x : dpgrpc_request_type * dpgrpc_request) : cmd (list grpc_mbuf * service_state) () := λ s,
  '(resp, w) ← dp_process_request conf version (ring_env (List.length s.1)) fuel x.2 s.2;
  Some (tt, (s.1 ++ response_mbufs x.1 x.2 resp, w)).
Fixpoint worker_requests (l : list (dpgrpc_request_type * dpgrpc_request)) : cmd (list grpc_mbuf * service_state) () :=
  match l with
  | [] => mret tt
  | x :: l => worker_request x;; worker_requests l
  end.

(** [handle_nongraph_queues], its second half: all requests that are in the queue.  The first half
    does the same with the events of the link monitor, which touch neither queue. *)
Definition worker_turn : cmd system () := λ s,
  let srv := sy_server s in
  '(_, (rx, w)) ← worker_requests (sr_tx srv) (sr_rx srv, sy_worker s);
  Some (tt, MkSystem (sy_call s) (srv <| sr_tx := [] |> <| sr_rx := rx |>) w).

(** The loop of [HandleRpcs]: [HandleRpc] is called again as long as it waits. *)
Definition server_turn : cmd system () := λ s,
  match sy_call s with
  | Some c =>
      match cl_state c with
      | FINISH => Some (tt, s)
      | _ => '(_, (c', srv)) ← HandleRpc uuid freed (Some c, sy_server s); Some (tt, MkSystem c' srv (sy_worker s))
      end
  | None => Some (tt, s)
  end.

(** Turns in any order. *)
Inductive turn := ServerTurn | WorkerTurn.
Fixpoint run_turns (l : list turn) : cmd system () :=
  match l with
  | [] => mret tt
  | ServerTurn :: l => server_turn;; run_turns l
  | WorkerTurn :: l => worker_turn;; run_turns l
  end.
End system.

(** ** Facts: what a reply does to a call *)

(** The codes of the packets of a reply. *)
Definition resp_codes (resp : dp_response) : list Z :=
  match resp with
  | Single l => rp_err_code <$> l | Ifaces l => rp_err_code <$> l | Routes l => rp_err_code <$> l | Prefixes l => rp_err_code <$> l
  | Nats l => rp_err_code <$> l | LbTargets l => rp_err_code <$> l | Fwrules l => rp_err_code <$> l
  end.

(** The type of a request; the one that has no handler is never sent. *)
Definition request_type (request : dpgrpc_request) : dpgrpc_request_type :=
  match request with
  | ReqInitialize => DP_REQ_TYPE_Initialize
  | ReqGetVersion => DP_REQ_TYPE_GetVersion
  | ReqCreateInterface _ => DP_REQ_TYPE_CreateInterface
  | ReqDeleteInterface _ => DP_REQ_TYPE_DeleteInterface
  | ReqGetInterface _ => DP_REQ_TYPE_GetInterface
  | ReqListInterfaces => DP_REQ_TYPE_ListInterfaces
  | ReqCreatePrefix _ => DP_REQ_TYPE_CreatePrefix
  | ReqDeletePrefix _ => DP_REQ_TYPE_DeletePrefix
  | ReqListPrefixes _ => DP_REQ_TYPE_ListPrefixes
  | ReqCreateRoute _ => DP_REQ_TYPE_CreateRoute
  | ReqDeleteRoute _ => DP_REQ_TYPE_DeleteRoute
  | ReqListRoutes _ => DP_REQ_TYPE_ListRoutes
  | ReqCreateVip _ => DP_REQ_TYPE_CreateVip
  | ReqDeleteVip _ => DP_REQ_TYPE_DeleteVip
  | ReqGetVip _ => DP_REQ_TYPE_GetVip
  | ReqCreateNat _ => DP_REQ_TYPE_CreateNat
  | ReqDeleteNat _ => DP_REQ_TYPE_DeleteNat
  | ReqGetNat _ => DP_REQ_TYPE_GetNat
  | ReqCreateNeighborNat _ => DP_REQ_TYPE_CreateNeighborNat
  | ReqDeleteNeighborNat _ => DP_REQ_TYPE_DeleteNeighborNat
  | ReqListLocalNats _ => DP_REQ_TYPE_ListLocalNats
  | ReqListNeighborNats _ => DP_REQ_TYPE_ListNeighborNats
  | ReqCreateLoadBalancer _ => DP_REQ_TYPE_CreateLoadBalancer
  | ReqDeleteLoadBalancer _ => DP_REQ_TYPE_DeleteLoadBalancer
  | ReqGetLoadBalancer _ => DP_REQ_TYPE_GetLoadBalancer
  | ReqCreateLoadBalancerTarget _ => DP_REQ_TYPE_CreateLoadBalancerTarget
  | ReqDeleteLoadBalancerTarget _ => DP_REQ_TYPE_DeleteLoadBalancerTarget
  | ReqListLoadBalancerTargets _ => DP_REQ_TYPE_ListLoadBalancerTargets
  | ReqCreateLoadBalancerPrefix _ => DP_REQ_TYPE_CreateLoadBalancerPrefix
  | ReqDeleteLoadBalancerPrefix _ => DP_REQ_TYPE_DeleteLoadBalancerPrefix
  | ReqListLoadBalancerPrefixes _ => DP_REQ_TYPE_ListLoadBalancerPrefixes
  | ReqCreateFirewallRule _ => DP_REQ_TYPE_CreateFirewallRule
  | ReqDeleteFirewallRule _ => DP_REQ_TYPE_DeleteFirewallRule
  | ReqGetFirewallRule _ => DP_REQ_TYPE_GetFirewallRule
  | ReqListFirewallRules _ => DP_REQ_TYPE_ListFirewallRules
  | ReqCheckVniInUse _ => DP_REQ_TYPE_CheckVniInUse
  | ReqResetVni _ => DP_REQ_TYPE_ResetVni
  | ReqCaptureStart _ => DP_REQ_TYPE_CaptureStart
  | ReqCaptureStop => DP_REQ_TYPE_CaptureStop
  | ReqCaptureStatus => DP_REQ_TYPE_CaptureStatus
  | ReqOther => DP_REQ_TYPE_CheckInitialized
  end.

Section call_facts.
Context `{LC : LibcAddr} `{HP : RteMempool} (uuid : bytes).
Implicit Types (c : call) (srv : server_state).

(** The response that a reply without an error stands for. *)
Definition response_of (m : request_msg) (request : dpgrpc_request) (resp : dp_response) : option response_body :=
  match m, resp with
  | ListInterfacesRequest, Ifaces l => RespInterfaces <$> mapM (λ i, Some (DpToGrpcInterface i)) (received l)
  | (ListPrefixesRequest _ | ListLoadBalancerPrefixesRequest _), Prefixes l => RespPrefixes <$> mapM (λ i, Some (DpToGrpcPrefix i)) (received l)
  | ListRoutesRequest _, Routes l => RespRoutes <$> mapM DpToGrpcRoute (received l)
  | ListLocalNatsRequest _, Nats l => RespNats <$> mapM DpToGrpcLocalNat (received l)
  | ListNeighborNatsRequest _, Nats l => RespNats <$> mapM DpToGrpcNeighNat (received l)
  | ListLoadBalancerTargetsRequest _, LbTargets l => RespTargets <$> mapM (λ i, Some (DpToGrpcTarget i)) (received l)
  | ListFirewallRulesRequest _, Fwrules l => RespRules <$> mapM (λ i, Some (DpToGrpcFwrule i)) (received l)
  | m, Single [p] => parsed uuid m (Some (MkGrpcMbuf (call_type m) (Some request) (PkSingle p))) (empty_body m)
  | _, _ => None
  end.

(** Everything but the response is as before. *)
Definition same_call c c' : Prop := cl_request c' = cl_request c ∧ cl_state c' = cl_state c ∧ cl_finished c' = cl_finished c.
(** Everything but the queue of replies and what [Initialize] sets. *)
Definition same_server srv srv' : Prop := sr_tx srv' = sr_tx srv ∧ sr_waiting srv' = sr_waiting srv ∧ sr_mempool srv' = sr_mempool srv.

Lemma set_status_ok code c srv name :
  dp_grpc_strerror code = Some name → SetStatus code (c, srv) = Some (tt, (c <| cl_status := Some (code, name) |>, srv)).
Proof. intros E. unfold SetStatus. by rewrite E. Qed.

Lemma parse_reply_ok p c srv body :
  cl_request c ≠ InitializeRequest → parsed uuid (cl_request c) p (cl_body c) = Some body →
  ParseReply uuid p (c, srv) = Some (tt, (c <| cl_body := body |>, srv)).
Proof.
  intros Hm Hp. unfold ParseReply, gets, mbind, cmd_bind. cbn [fst]. rewrite Hp. by destruct (cl_request c).
Qed.

(** What the server does with the reply to a call: [code] is that of the last packet. *)
Definition replied (request : dpgrpc_request) (resp : dp_response) c srv c' srv' : Prop :=
  HandleReply uuid (c, srv) = Some (DP_OK, (c', srv')) ∧ same_call c c' ∧ same_server srv srv' ∧ sr_rx srv' = []
  ∧ (∃ code name, last (resp_codes resp) = Some code ∧ cl_status c' = Some (code, name))
  ∧ (head (resp_codes resp) = Some DP_GRPC_OK → response_of (cl_request c) request resp = Some (cl_body c')).

Section multi.
Context {M N : Type} (m : request_msg) (P : M → Prop) (inj : dpgrpc_reply M → reply_packet) (conv : M → option N)
  (mk : list N → response_body).
Context (Hinit : m ≠ InitializeRequest) (Hchained : ∀ r, pk_is_chained (inj r) = rp_is_chained r)
  (Hcode : ∀ r, pk_err_code (inj r) = rp_err_code r) (Hconv : ∀ x, P x → is_Some (conv x))
  (Hparsed : ∀ b r l, gm_reply b = inj r → parsed uuid m (Some b) (mk l) = (new ← foreach_message conv r; Some (mk (l ++ new)))).

Lemma written_upto n (msgs : gmap Z M) :
  all_written P n msgs → mapM (λ i, msgs !! i) (seqZ 0 n) = Some (messages_upto n msgs) ∧ Forall P (messages_upto n msgs).
Proof.
  intros Hw. unfold messages_upto.
  assert (Hall : Forall (λ i, ∃ x, msgs !! i = Some x ∧ P x) (seqZ 0 n)) by (apply Forall_seqZ; intros i Hi; apply Hw; lia).
  induction Hall as [|i l (x & Hx & HPx) Hl IH]; [done|]. destruct IH as [IH1 IH2]. cbn. rewrite Hx. cbn. rewrite IH1.
  split; [done|]. by constructor.
Qed.

Lemma mapM_total (l : list M) : Forall P l → ∃ new, mapM conv l = Some new.
Proof using Hconv.
  induction 1 as [|x l Hx Hl [new IH]]; [by eexists|]. destruct (Hconv x Hx) as [y Hy]. cbn. rewrite Hy. cbn. rewrite IH. by eexists.
Qed.

Lemma foreach_total r : all_written P (rp_msg_count r) (rp_messages r) →
  ∃ new, foreach_message conv r = Some new ∧ mapM conv (messages_upto (rp_msg_count r) (rp_messages r)) = Some new.
Proof using Hconv.
  intros [Hm HP']%written_upto. destruct (mapM_total _ HP') as [new Hn]. exists new. split; [|done].
  unfold foreach_message. rewrite Hm. done.
Qed.

(** One packet of a listing. *)
Lemma accept_packet c srv b r l :
  cl_request c = m → cl_body c = mk l → gm_reply b = inj r → code_ok (rp_err_code r) →
  all_written P (rp_msg_count r) (rp_messages r) →
  ∃ c' l', (∀ k : call_cmd Z, (SetStatus (pk_err_code (gm_reply b));;
              (if pk_err_code (gm_reply b) =? DP_GRPC_OK then ParseReply uuid (Some b) else mret tt);; k) (c, srv) = k (c', srv))
    ∧ same_call c c' ∧ cl_body c' = mk l' ∧ (∃ name, cl_status c' = Some (rp_err_code r, name))
    ∧ (rp_err_code r = DP_GRPC_OK → ∃ new, mapM conv (messages_upto (rp_msg_count r) (rp_messages r)) = Some new ∧ l' = l ++ new).
Proof using Hinit Hcode Hconv Hparsed.
  intros Hm Hb Hr [name Hname] Hw. rewrite Hr, Hcode. unfold mbind, cmd_bind. rewrite (set_status_ok _ _ _ _ Hname).
  destruct (Z.eqb_spec (rp_err_code r) DP_GRPC_OK) as [E|E].
  - destruct (foreach_total r Hw) as (new & Hnew & Hmap). exists (c <| cl_status := Some (rp_err_code r, name) |> <| cl_body := mk (l ++ new) |>), (l ++ new).
    split; [|split; [done|]; split; [done|]; split; [by eexists|eauto]].
    intros k. rewrite (parse_reply_ok _ _ _ (mk (l ++ new))); [done|by rewrite <-Hm in Hinit|].
    change (parsed uuid (cl_request c) (Some b) (cl_body c) = Some (mk (l ++ new))). by rewrite Hm, Hb, (Hparsed b r l Hr), Hnew.
  - exists (c <| cl_status := Some (rp_err_code r, name) |>), l. split; [done|]. split; [done|]. split; [done|]. split; [by eexists|done].
Qed.
Lemma mapM_app_some (l1 l2 : list M) n1 n2 : mapM conv l1 = Some n1 → mapM conv l2 = Some n2 → mapM conv (l1 ++ l2) = Some (n1 ++ n2).
Proof. rewrite !mapM_Some. apply Forall2_app. Qed.

(** A whole listing: the status is that of the last packet. *)
Lemma multi_loop_ok ps : chain P ps → ∀ fuel c srv bufs l,
  (List.length ps ≤ fuel)%nat → Forall (λ p, code_ok (rp_err_code p)) ps →
  Forall2 (λ b p, gm_type b = call_type m ∧ gm_reply b = inj p) bufs ps →
  cl_request c = m → cl_body c = mk l → sr_rx srv = bufs →
  ∃ c' l' code, multi_loop uuid fuel (c, srv) = Some (DP_OK, (c', srv <| sr_rx := [] |>))
    ∧ same_call c c' ∧ cl_body c' = mk l' ∧ last (rp_err_code <$> ps) = Some code ∧ (∃ name, cl_status c' = Some (code, name))
    ∧ (Forall (λ p, rp_err_code p = DP_GRPC_OK) ps → ∃ new, mapM conv (received ps) = Some new ∧ l' = l ++ new).
Proof using Hinit Hchained Hcode Hconv Hparsed.
  induction 1 as [p Hch Hw|p ps Hch Hw Hps IH]; intros [|fuel] c srv bufs l Hfuel Hcodes Hbufs Hm Hb Hrx; cbn in Hfuel; try lia.
  all: apply Forall_cons in Hcodes as [Hc Hcodes]; apply Forall2_cons_inv_r in Hbufs as (b & bufs' & [Ht Hr] & Hbufs & ->).
  all: destruct (accept_packet c (srv <| sr_rx := bufs' |>) b p l Hm Hb Hr Hc Hw) as (c1 & l1 & Hrun & Hsame & Hb1 & Hst & Hnew).
  all: cbn [multi_loop]; unfold mbind at 1, cmd_bind at 1, dequeue at 1; cbn [snd]; rewrite Hrx; cbn [fst snd].
  all: unfold mbind at 1, cmd_bind at 1, gets at 1; cbn [fst snd]; rewrite Hm, Ht, bool_decide_eq_true_2 by done; cbn [negb].
  all: rewrite (Hrun (if pk_is_chained (gm_reply b) then _ else _)), Hr, Hchained, Hch.
  - apply Forall2_nil_inv_r in Hbufs as ->. exists c1, l1, (rp_err_code p). split; [done|]. split; [done|]. split; [done|]. split; [done|].
    split; [done|]. intros [Hok _]%Forall_cons. unfold received. cbn. rewrite app_nil_r. auto.
  - destruct Hsame as (Hm1 & Hs1 & Hf1). assert (cl_request c1 = m) as Hm1' by by rewrite Hm1.
    destruct (IH fuel c1 (srv <| sr_rx := bufs' |>) bufs' l1 ltac:(lia) Hcodes Hbufs Hm1' Hb1 eq_refl)
      as (c2 & l2 & code & Hrun2 & (Hm2 & Hs2 & Hf2) & Hb2 & Hlast & Hst2 & Hnew2).
    exists c2, l2, code. split; [done|]. split; [split_and!; congruence|]. split; [done|]. split; [|split; [done|]].
    + cbn [fmap list_fmap]. rewrite last_cons. change (list_fmap _ _ _ ps) with (rp_err_code <$> ps). by rewrite Hlast.
    + intros [Hok Hoks]%Forall_cons. destruct (Hnew Hok) as (n1 & Hn1 & ->). destruct (Hnew2 Hoks) as (n2 & Hn2 & ->).
      exists (n1 ++ n2). unfold received in *. cbn [mbind list_bind]. split; [by apply mapM_app_some|by rewrite (assoc_L (++))].
Qed.

Lemma chain_mbufs_ok request ps :
  Forall2 (λ b p, gm_type b = call_type m ∧ gm_reply b = inj p) (chain_mbufs (call_type m) request inj ps) ps.
Proof. destruct ps as [|p ps]; constructor; [done|]. apply Forall2_fmap_l, Forall_Forall2_diag, Forall_true. done. Qed.

Lemma multi_reply_replied request resp ps c srv :
  listing_ok P ps → (call_of m).2 = MultiReplyCall → cl_request c = m → cl_body c = mk [] →
  sr_rx srv = chain_mbufs (call_type m) request inj ps →
  resp_codes resp = rp_err_code <$> ps → response_of m request resp = mk <$> mapM conv (received ps) →
  ∃ c' srv', replied request resp c srv c' srv'.
Proof using Hinit Hchained Hcode Hconv Hparsed.
  intros (code & [Hchain Hcodes] & Hok) Hclass Hm Hb Hrx Hrc Hro.
  assert (Hall : Forall (λ p, rp_err_code p = code ∨ rp_err_code p = DP_GRPC_OK) ps).
  { apply (Forall_fmap rp_err_code (λ e, e = code ∨ e = DP_GRPC_OK)). rewrite Hcodes. constructor; [by left|].
    apply Forall_replicate. by right. }
  destruct (multi_loop_ok ps Hchain (S (List.length (sr_rx srv))) c srv (sr_rx srv) []) as (c' & l' & last & Hrun & Hs & Hb' & Hl & Hst & Hnew); try done.
  - rewrite Hrx. rewrite (Forall2_length _ _ _ (chain_mbufs_ok request ps)). lia.
  - eapply Forall_impl; [done|]. intros p [->| ->]; [done|]. by eexists.
  - rewrite Hrx. apply chain_mbufs_ok.
  - exists c', (srv <| sr_rx := [] |>). split; [|split; [done|]; split; [done|]; split; [done|]; split].
    + unfold HandleReply, gets, mbind at 1, cmd_bind at 1. cbn [fst]. rewrite Hm, Hclass. exact Hrun.
    + destruct Hst as [name Hst]. exists last, name. by rewrite Hrc.
    + rewrite Hm, Hro, Hrc, Hcodes. intros [= ->]. destruct Hnew as (new & -> & ->); [eapply Forall_impl; [done|]; by intros p [?|?]|].
      by rewrite Hb'.
Qed.
End multi.

Lemma fill_type m request : FillRequest m = inr request → request_type request = call_type m.
Proof.
  intros H. destruct m; cbn [FillRequest] in H;
    try match type of H with ?f = _ => let h := get_head f in unfold h in H end; fill_inv; repeat (case_match; fill_inv); try done.
  all: by injection H as <-.
Qed.

(** The message of the reply is the one that is read. *)
Lemma single_parsed m request p r body :
  request_type request = call_type m → ((call_of m).2 = InitCall ∨ (call_of m).2 = SingleReplyCall) →
  rp_messages p !! 0 = Some r → fits request r = true →
  is_Some (parsed uuid m (Some (MkGrpcMbuf (call_type m) (Some request) (PkSingle p))) body).
Proof.
  intros Ht Hc Hr Hfit. destruct m; cbn in Hc; try (by destruct Hc); destruct request; try discriminate Ht; cbn; rewrite ?Hr; cbn;
    try (by eexists); destruct r; try discriminate Hfit; cbn; try (by eexists); repeat case_match; try done; by eexists.
Qed.

Lemma parse_single_ok p c srv body : parsed uuid (cl_request c) p (cl_body c) = Some body →
  ∃ srv', ParseReply uuid p (c, srv) = Some (tt, (c <| cl_body := body |>, srv')) ∧ same_server srv srv' ∧ sr_rx srv' = sr_rx srv.
Proof.
  intros Hp. assert (cl_request c = InitializeRequest ∨ cl_request c ≠ InitializeRequest) as [E|E] by (destruct (cl_request c); by auto).
  - unfold ParseReply, gets, mbind, cmd_bind. cbn [fst]. rewrite Hp, E. cbn. eexists. split; [done|]. by split_and!.
  - rewrite (parse_reply_ok _ _ _ body) by done. exists srv. by split_and!.
Qed.

Lemma single_reply_replied request l c srv :
  let m := cl_request c in
  single_ok request l → request_type request = call_type m → ((call_of m).2 = InitCall ∨ (call_of m).2 = SingleReplyCall) →
  cl_body c = empty_body m → sr_rx srv = response_mbufs (call_type m) request (Single l) →
  ∃ c' srv', replied request (Single l) c srv c' srv'.
Proof.
  intros m (code & r & -> & [name Hname] & Hfit) Ht Hc Hb Hrx. set (p := MkReply false 0 code {[0 := r]}) in *.
  set (b := MkGrpcMbuf (call_type m) (Some request) (PkSingle p)) in *.
  assert (HR : HandleReply uuid (c, srv) = SingleReplyCall_HandleReply uuid (c, srv)).
  { unfold HandleReply, gets, mbind at 1, cmd_bind at 1. cbn [fst]. fold m. by destruct Hc as [-> | ->]. }
  set (srv1 := srv <| sr_rx := [] |>). set (c1 := c <| cl_status := Some (code, name) |>).
  assert (HS : SingleReplyCall_HandleReply uuid (c, srv)
    = ((if code =? DP_GRPC_OK then ParseReply uuid (Some b) else mret tt);; mret DP_OK) (c1, srv1)).
  { unfold SingleReplyCall_HandleReply, mbind at 1, cmd_bind at 1, dequeue at 1. cbn [snd]. rewrite Hrx. cbn [response_mbufs chain_mbufs fmap list_fmap fst snd].
    unfold mbind at 1, cmd_bind at 1, gets at 1. cbn [fst]. fold m b. rewrite bool_decide_eq_true_2 by done. cbn [negb].
    change (pk_is_chained (gm_reply b) || negb (pk_msg_count (gm_reply b) =? 0)) with false. cbv iota.
    unfold mbind at 1, cmd_bind at 1. change (pk_err_code (gm_reply b)) with code. by rewrite (set_status_ok _ _ _ _ Hname). }
  unfold replied. rewrite HR, HS. unfold mbind, cmd_bind. destruct (Z.eqb_spec code DP_GRPC_OK) as [E|E].
  - destruct (single_parsed m request p r (empty_body m) Ht Hc (lookup_singleton_eq _ _) (Hfit E)) as [body Hbody].
    destruct (parse_single_ok (Some b) c1 srv1 body) as (srv2 & -> & Hs & Hrx2); [cbn [c1 cl_request cl_body]; by rewrite <-Hb in Hbody|].
    exists (c1 <| cl_body := body |>), srv2. split; [done|]. split; [done|]. split; [done|]. split; [done|]. split; [by eexists _, _|].
    intros _. subst m. destruct (cl_request c); cbn in Hc; try (by destruct Hc); exact Hbody.
  - exists c1, srv1. split; [done|]. split; [done|]. split; [done|]. split; [done|]. split; [by eexists _, _|]. cbn. by intros [= ?].
Qed.

Lemma route_converted x : route_complete x → is_Some (DpToGrpcRoute x).
Proof. intros [[a Ha] [v Hv]]. unfold DpToGrpcRoute. rewrite Ha, Hv. by eexists. Qed.
Lemma local_nat_converted x : is_Some (nr_addr x) → is_Some (DpToGrpcLocalNat x).
Proof. intros [a Ha]. unfold DpToGrpcLocalNat. rewrite Ha. by eexists. Qed.
Lemma neigh_nat_converted x : is_Some (nr_ul_addr6 x) → is_Some (DpToGrpcNeighNat x).
Proof. intros [a Ha]. unfold DpToGrpcNeighNat. rewrite Ha. by eexists. Qed.

(** A listing with its packets and the conversion of its messages. *)
Ltac listed_by inj conv mk :=
  lazymatch goal with
  | Hok : response_ok ?request ?resp, Em : _ = _, Hm : (call_of _).2 = MultiReplyCall, Hb : cl_body _ = _, Hrx : sr_rx _ = _ |- _ =>
      refine (multi_reply_replied _ _ inj conv mk _ _ _ _ _ request resp _ _ _ Hok Hm Em Hb Hrx eq_refl eq_refl);
      [done|done|done
      |eauto using route_converted, local_nat_converted, neigh_nat_converted
      |let Hr := fresh in intros ? ? ? Hr; cbn; by rewrite Hr]
  end.

Lemma reply_replied request resp c srv :
  let m := cl_request c in
  response_ok request resp → request_type request = call_type m → (call_of m).2 ≠ NoIpcCall →
  cl_body c = empty_body m → sr_rx srv = response_mbufs (call_type m) request resp →
  ∃ c' srv', replied request resp c srv c' srv'.
Proof.
  intros m Hok Ht Hc Hb Hrx.
  assert ((call_of m).2 = MultiReplyCall ∨ (call_of m).2 = InitCall ∨ (call_of m).2 = SingleReplyCall) as [Hm|Hs]
    by (destruct (call_of m).2; by auto).
  - destruct m eqn:Em; try discriminate Hm; destruct request; try discriminate Ht; destruct resp; try (by destruct Hok); clear Ht Hc.
    + listed_by PkIface (λ i, Some (DpToGrpcInterface i)) RespInterfaces.
    + listed_by PkPrefix (λ i, Some (DpToGrpcPrefix i)) RespPrefixes.
    + listed_by PkRoute DpToGrpcRoute RespRoutes.
    + listed_by PkNat DpToGrpcLocalNat RespNats.
    + listed_by PkNat DpToGrpcNeighNat RespNats.
    + listed_by PkLbTarget (λ i, Some (DpToGrpcTarget i)) RespTargets.
    + listed_by PkPrefix (λ i, Some (DpToGrpcPrefix i)) RespPrefixes.
    + listed_by PkFwrule (λ i, Some (DpToGrpcFwrule i)) RespRules.
  - assert (∃ l, resp = Single l ∧ single_ok request l) as (l & -> & Hl); [|by apply single_reply_replied].
    destruct m; cbn in Hs; try (by destruct Hs); destruct request; try discriminate Ht; destruct resp; try (by destruct Hok); eauto.
Qed.
End call_facts.

(** ** Facts: every call ends *)

Section system_facts.
Context `{LC : LibcAddr} `{HH : RteHash} `{HM : RteMalloc} `{HR : RteRib} `{HF : RteFlow} `{HE : RteEth} `{HP : RteMempool}.
Context (uuid : bytes) (freed : CallState) (conf : dp_conf) (version : bytes) (env : grpc_env) (fuel : nat).
Context (Henv : env_ok env).
Context (m : request_msg) (srv0 : server_state) (w : service_state).

(** What the worker answers when no other reply is in the ring. *)
Definition worker_answer (request : dpgrpc_request) : option (dp_response * service_state) :=
  dp_process_request conf version (ring_env env 0) fuel request w.

(** How a call ends, by its checks in their order; [w'] is the worker then. *)
Definition call_outcome (c : call) (w' : service_state) : Prop :=
  if match (call_of m).2 with InitCall => false | _ => negb (sr_initialized srv0) end
  then cl_finished c = Some (STATUS_ABORTED "not initialized") ∧ w' = w
  else
    match FillRequest m, (call_of m).2 with
    | inl error, _ => cl_finished c = Some (STATUS_INVALID_ARGUMENT error) ∧ w' = w
    | inr _, NoIpcCall =>
        cl_finished c = Some STATUS_OK ∧ fst <$> cl_status c = Some DP_GRPC_OK ∧ cl_body c = RespUuid uuid ∧ w' = w
    | inr request, _ =>
        if negb (rte_pktmbuf_alloc (sr_mempool srv0)).1
        then cl_finished c = Some (STATUS_INTERNAL "ipc write failed") ∧ w' = w
        else ∃ resp, worker_answer request = Some (resp, w')
               ∧ cl_finished c = Some STATUS_OK ∧ fst <$> cl_status c = last (resp_codes resp)
               ∧ (head (resp_codes resp) = Some DP_GRPC_OK → response_of uuid m request resp = Some (cl_body c))
    end.

(** The stages of a call; [3] is the end. *)
Inductive stage : nat → system → Prop :=
  | stage_new srv :
      sr_tx srv = [] → sr_rx srv = [] → sr_initialized srv = sr_initialized srv0 → sr_mempool srv = sr_mempool srv0 →
      stage 0 (MkSystem (Some (new_call m)) srv w)
  | stage_sent srv c request :
      (∀ resp w', worker_answer request = Some (resp, w') → ∀ c',
         cl_finished c' = Some STATUS_OK → fst <$> cl_status c' = last (resp_codes resp) →
         (head (resp_codes resp) = Some DP_GRPC_OK → response_of uuid m request resp = Some (cl_body c')) → call_outcome c' w') →
      FillRequest m = inr request → (call_of m).2 ≠ NoIpcCall → cl_request c = m → cl_state c = AWAIT_MSG → cl_body c = empty_body m →
      sr_tx srv = [(call_type m, request)] → sr_rx srv = [] →
      stage 1 (MkSystem (Some c) srv w)
  | stage_local srv c :
      (∀ c', cl_finished c' = Some STATUS_OK → fst <$> cl_status c' = Some DP_GRPC_OK → cl_body c' = RespUuid uuid → call_outcome c' w) →
      m = CheckInitializedRequest → cl_request c = m → cl_state c = AWAIT_MSG → sr_tx srv = [] → sr_rx srv = [] →
      stage 2 (MkSystem (Some c) srv w)
  | stage_replied srv c request resp w' :
      (∀ c', cl_finished c' = Some STATUS_OK → fst <$> cl_status c' = last (resp_codes resp) →
         (head (resp_codes resp) = Some DP_GRPC_OK → response_of uuid m request resp = Some (cl_body c')) → call_outcome c' w') →
      FillRequest m = inr request → (call_of m).2 ≠ NoIpcCall → cl_request c = m → cl_state c = AWAIT_MSG → cl_body c = empty_body m →
      response_ok request resp → sr_tx srv = [] → sr_rx srv = response_mbufs (call_type m) request resp →
      stage 2 (MkSystem (Some c) srv w')
  | stage_done srv c w' :
      cl_state c = FINISH → sr_tx srv = [] → sr_rx srv = [] → call_outcome c w' → stage 3 (MkSystem (Some c) srv w').

Definition next_stage (t : turn) (n : nat) : nat :=
  match t, n with ServerTurn, 0%nat => 1%nat | ServerTurn, 2%nat => 3%nat | WorkerTurn, 1%nat => 2%nat | _, n => n end.

(** A turn brings the call on. *)
Definition advances (n : nat) (t : turn) (s : system) (c : cmd system ()) : Prop :=
  ∃ s' n', c s = Some (tt, s') ∧ stage n' s' ∧ (next_stage t n ≤ n')%nat.

Lemma write_ok c srv request :
  cl_request c = m → (call_of m).2 ≠ NoIpcCall → sr_tx srv = [] →
  WriteRequest request (c, srv) =
    let '(ok, pool) := rte_pktmbuf_alloc (sr_mempool srv) in
    if negb ok then Some (DP_ERROR, (c, srv <| sr_mempool := pool |>))
    else Some (DP_OK, (c, srv <| sr_mempool := pool |> <| sr_tx := [(call_type m, request)] |>)).
Proof.
  intros Hm Hc Htx. unfold WriteRequest, gets, mbind, cmd_bind. cbn [fst]. rewrite Hm. destruct (call_of m) as [ty cl] eqn:Ecl.
  destruct cl; try done; unfold BaseCall_WriteRequest; cbn [fst snd]; rewrite Htx; by destruct (rte_pktmbuf_alloc _) as [[] ?].
Qed.

Lemma no_ipc_call : (call_of m).2 = NoIpcCall → m = CheckInitializedRequest.
Proof. by destruct m. Qed.

Lemma server_request c srv c' srv' w1 :
  cl_state c = REQUEST → handle_request (c, srv) = Some (tt, (c', srv')) →
  server_turn uuid freed (MkSystem (Some c) srv w1) = Some (tt, MkSystem (Some c') srv' w1).
Proof. intros Hc Hh. unfold server_turn, HandleRpc. cbn [sy_call fst snd sy_server]. by rewrite Hc, Hh. Qed.
Lemma server_await c srv c' srv' w1 :
  cl_state c = AWAIT_MSG → handle_await uuid (c, srv) = Some (tt, (c', srv')) →
  server_turn uuid freed (MkSystem (Some c) srv w1) = Some (tt, MkSystem (Some c') srv' w1).
Proof. intros Hc Hh. unfold server_turn, HandleRpc. cbn [sy_call fst snd sy_server]. by rewrite Hc, Hh. Qed.

Lemma finish_with_eq status c srv :
  finish_with status (c, srv) = Some (tt, (c <| cl_finished := Some status |> <| cl_state := FINISH |>, srv)).
Proof. done. Qed.

Lemma handle_request_eq c srv :
  let srv1 := srv <| sr_waiting := call_type (cl_request c) :: sr_waiting srv |> in
  handle_request (c, srv) =
    if match (call_of (cl_request c)).2 with InitCall => false | _ => negb (sr_initialized srv) end
    then finish_with (STATUS_ABORTED "not initialized") (c, srv1)
    else match FillRequest (cl_request c) with
         | inl error => finish_with (STATUS_INVALID_ARGUMENT error) (c, srv1)
         | inr request =>
             '(ret, s) ← WriteRequest request (c, srv1);
             (if DP_FAILED ret then finish_with (STATUS_INTERNAL "ipc write failed") else set_call_state AWAIT_MSG) s
         end.
Proof.
  unfold handle_request, NeedsInit, gets, mbind, cmd_bind. cbn -[FillRequest WriteRequest finish_with].
  destruct (call_of (cl_request c)).2, (sr_initialized srv); try done; cbn -[FillRequest WriteRequest finish_with];
    destruct (FillRequest (cl_request c)); try done; by destruct (WriteRequest _ _) as [[? ?]|].
Qed.

Lemma server_new srv :
  sr_tx srv = [] → sr_rx srv = [] → sr_initialized srv = sr_initialized srv0 → sr_mempool srv = sr_mempool srv0 →
  advances 0 ServerTurn (MkSystem (Some (new_call m)) srv w) (server_turn uuid freed).
Proof.
  intros Htx Hrx Hi Hp. pose proof (handle_request_eq (new_call m) srv) as Heq. cbn [new_call cl_request] in Heq.
  assert (Hend : ∀ c' srv' n, handle_request (new_call m, srv) = Some (tt, (c', srv')) → stage n (MkSystem (Some c') srv' w) → (1 ≤ n)%nat →
    advances 0 ServerTurn (MkSystem (Some (new_call m)) srv w) (server_turn uuid freed)).
  { intros c' srv' n Hh Hs Hn. exists (MkSystem (Some c') srv' w), n. split; [by apply server_request|done]. }
  destruct (match (call_of m).2 with InitCall => false | _ => negb (sr_initialized srv) end) eqn:Hinit.
  { rewrite finish_with_eq in Heq. apply (Hend _ _ 3%nat Heq); [|lia]. apply stage_done; try done. unfold call_outcome. by rewrite <-Hi, Hinit. }
  destruct (FillRequest m) as [error|request] eqn:Hfill.
  { rewrite finish_with_eq in Heq. apply (Hend _ _ 3%nat Heq); [|lia]. apply stage_done; try done. unfold call_outcome.
    by rewrite <-Hi, Hinit, Hfill. }
  assert ((call_of m).2 = NoIpcCall ∨ (call_of m).2 ≠ NoIpcCall) as [Hc|Hc] by (destruct (call_of m).2; by auto).
  - eapply (Hend _ _ 2%nat); [| |lia].
    + rewrite Heq. unfold WriteRequest, gets, mbind, cmd_bind. cbn [fst cl_request new_call]. by rewrite Hc.
    + apply stage_local; try done; [|by apply no_ipc_call]. intros c' H1 H2 H3. unfold call_outcome. rewrite <-Hi, Hinit, Hfill, Hc. done.
  - rewrite (write_ok (new_call m) _ request) in Heq by done. cbn -[FillRequest finish_with] in Heq.
    destruct (rte_pktmbuf_alloc (sr_mempool srv)) as [ok pool] eqn:Hal. cbn in Heq.
    destruct ok.
    + apply (Hend _ _ 1%nat Heq); [|lia]. eapply stage_sent; try done.
      intros resp w' Hans c' H1 H2 H3. unfold call_outcome. rewrite <-Hi, Hinit, Hfill, <-Hp, Hal. destruct (call_of m) as [ty []]; try done; exists resp; by split_and!.
    + apply (Hend _ _ 3%nat Heq); [|lia]. apply stage_done; try done. unfold call_outcome. rewrite <-Hi, Hinit, Hfill, <-Hp, Hal.
      by destruct (call_of m) as [ty []].
Qed.

Lemma handle_await_ok c srv c' srv' :
  HandleReply uuid (c, srv) = Some (DP_OK, (c', srv')) →
  handle_await uuid (c, srv) = Some (tt, (c' <| cl_finished := Some STATUS_OK |> <| cl_state := FINISH |>, srv')).
Proof. intros Hr. unfold handle_await, mbind, cmd_bind. by rewrite Hr. Qed.

(** No reply yet. *)
Lemma handle_await_empty c srv :
  (call_of (cl_request c)).2 ≠ NoIpcCall → sr_rx srv = [] → handle_await uuid (c, srv) = Some (tt, (c, srv)).
Proof.
  intros Hc Hrx. unfold handle_await, HandleReply, gets, mbind, cmd_bind. cbn [fst].
  destruct (call_of (cl_request c)) as [ty []]; try done; cbn [snd];
    unfold SingleReplyCall_HandleReply, MultiReplyCall_HandleReply, gets, mbind, cmd_bind; cbn [multi_loop fst snd];
    unfold dequeue, mbind, cmd_bind; cbn [fst snd]; by rewrite Hrx.
Qed.

Lemma server_advances n s : stage n s → advances n ServerTurn s (server_turn uuid freed).
Proof.
  intros Hs. destruct Hs as [srv|srv c request Ho Hf Hc Hm Hst Hb Htx Hrx|srv c Ho E Hm Hst Htx Hrx
    |srv c request resp w' Ho Hf Hc Hm Hst Hb Hok Htx Hrx|srv c w' Hst Htx Hrx Ho]; [by apply server_new| | | |].
  - exists (MkSystem (Some c) srv w), 1%nat. split; [|split; [by eapply stage_sent|done]].
    apply server_await; [done|]. apply handle_await_empty; [by rewrite Hm|done].
  - set (c' := c <| cl_status := Some (DP_GRPC_OK, default EmptyString (dp_grpc_strerror DP_GRPC_OK)) |> <| cl_body := RespUuid uuid |>).
    exists (MkSystem (Some (c' <| cl_finished := Some STATUS_OK |> <| cl_state := FINISH |>)) srv w), 3%nat.
    split; [|split; [|done]]; [|apply stage_done; try done; by apply Ho].
    apply server_await; [done|]. apply handle_await_ok. unfold HandleReply, gets, mbind, cmd_bind. cbn [fst]. rewrite Hm, E. cbn [call_of snd].
    unfold NoIpcCall_HandleReply, mbind, cmd_bind. erewrite set_status_ok by done. rewrite (parse_reply_ok uuid None _ _ (RespUuid uuid)); cbn [cl_request].
    + done.
    + change (cl_request c ≠ InitializeRequest). by rewrite Hm, E.
    + change (parsed uuid (cl_request c) None (cl_body c) = Some (RespUuid uuid)). by rewrite Hm, E.
  - destruct (reply_replied uuid request resp c srv) as (c' & srv' & Hr & (Hm' & Hst' & Hf') & (Htx' & Hw' & Hp') & Hrx' & (code & name & Hl & Hs) & Hbody);
      rewrite ?Hm; try done; [by apply fill_type|].
    exists (MkSystem (Some (c' <| cl_finished := Some STATUS_OK |> <| cl_state := FINISH |>)) srv' w'), 3%nat.
    split; [|split; [|done]]; [apply server_await; [done|]; by apply handle_await_ok|]. rewrite Hm in Hbody.
    apply stage_done; try done; [by rewrite Htx'|]. apply Ho; [done| |done]. cbn. by rewrite Hs, Hl.
  - exists (MkSystem (Some c) srv w'), 3%nat. split; [|split; [by apply stage_done|done]]. unfold server_turn. cbn [sy_call]. by rewrite Hst.
Qed.

Lemma ring_env_ok : env_ok (ring_env env 0).
Proof using Henv.
  destruct Henv. constructor; try done. intros n Hn. cbn [ge_enqueue ring_env].
  assert (DP_GRPC_REPLY_ARR_SIZE ≤ Z.of_nat ring_capacity - Z.of_nat 0) by by vm_compute. lia.
Qed.

Context (Hworker : ∀ request, FillRequest m = inr request → is_Some (worker_answer request)).

Lemma worker_idle c srv w1 : sr_tx srv = [] →
  worker_turn conf version env fuel (MkSystem c srv w1) = Some (tt, MkSystem c (srv <| sr_tx := [] |> <| sr_rx := sr_rx srv |>) w1).
Proof. intros Htx. unfold worker_turn. cbn [sy_server]. rewrite Htx. done. Qed.

Lemma worker_advances n s : stage n s → advances n WorkerTurn s (worker_turn conf version env fuel).
Proof using Henv Hworker.
  intros Hs. destruct Hs as [srv Htx Hrx|srv c request Ho Hf Hc Hm Hst Hb Htx Hrx|srv c Ho E Hm Hst Htx Hrx
    |srv c request resp w' Ho Hf Hc Hm Hst Hb Hok Htx Hrx|srv c w' Hst Htx Hrx Ho].
  2: { destruct (Hworker request Hf) as [[resp w'] Hans].
       exists (MkSystem (Some c) (srv <| sr_tx := [] |> <| sr_rx := response_mbufs (call_type m) request resp |>) w'), 2%nat.
       split; [|split; [|done]].
       - unfold worker_turn. cbn [sy_server sy_worker]. rewrite Htx, Hrx. cbn [worker_requests].
         unfold mbind at 2, cmd_bind, worker_request. cbn [fst snd List.length]. unfold worker_answer in Hans. by rewrite Hans.
       - apply (stage_replied _ c request resp w'); try done; [intros; by eapply Ho|].
         exact (dispatch_ok conf version _ ring_env_ok fuel request w resp w' Hans). }
  all: unfold advances; rewrite worker_idle by done; eexists _, _; split; [done|split; [|apply le_n]].
  - by constructor.
  - by apply stage_local.
  - by eapply stage_replied.
  - by apply stage_done.
Qed.

Lemma wanted_drop (W : list turn) n n' : (n ≤ n')%nat → drop n' W `sublist_of` drop n W.
Proof. intros Hn. replace n' with (n + (n' - n))%nat by lia. rewrite <-drop_drop. apply sublist_drop. Qed.
Lemma wanted_next t n l :
  let W := [ServerTurn; WorkerTurn; ServerTurn] in drop n W `sublist_of` t :: l → drop (next_stage t n) W `sublist_of` l.
Proof.
  cbn zeta. assert (Htail : ∀ (x : turn) k, x :: k `sublist_of` l → k `sublist_of` l) 
    by (intros x k H; etrans; [apply sublist_cons|exact H]; done).
  destruct t, n as [|[|[|n]]]; cbn; rewrite ?drop_nil; intros H; try apply sublist_nil_l; inversion H; subst; eauto.
Qed.

Lemma turns_advance l : ∀ n s, stage n s →
  ∃ s' n', run_turns uuid freed conf version env fuel l s = Some (tt, s') ∧ stage n' s'
    ∧ (drop n [ServerTurn; WorkerTurn; ServerTurn] `sublist_of` l → n' = 3%nat).
Proof using Henv Hworker.
  induction l as [|t l IH]; intros n s Hs.
  { exists s, n. split; [done|]. split; [done|]. intros H%sublist_nil_r. destruct Hs; by cbn in H. }
  assert (∃ s1 n1, (match t with ServerTurn => server_turn uuid freed | WorkerTurn => worker_turn conf version env fuel end) s = Some (tt, s1)
    ∧ stage n1 s1 ∧ (next_stage t n ≤ n1)%nat) as (s1 & n1 & Hrun & Hs1 & Hn) by (destruct t; [by apply server_advances|by apply worker_advances]).
  destruct (IH n1 s1 Hs1) as (s' & n' & Hrun' & Hs' & Hl). exists s', n'. split; [|split; [done|]].
  { destruct t; cbn [run_turns]; unfold mbind, cmd_bind; by rewrite Hrun. }
  intros Hsub. apply Hl. etrans; [by apply wanted_drop|]. by apply wanted_next.
Qed.

End system_facts.

(** ** Facts: the code of a listing *)

Lemma resp_codes_tail request resp : response_ok request resp → ∃ code n, resp_codes resp = code :: replicate n DP_GRPC_OK.
Proof.
  intros Hok. assert (Hs : ∀ l, single_ok request l → ∃ code n, rp_err_code <$> l = code :: replicate n DP_GRPC_OK)
    by (intros l (code & r & -> & _); by exists code, 0%nat).
  assert (Hl : ∀ M (P : M → Prop) l, listing_ok P l → ∃ code n, rp_err_code <$> l = code :: replicate n DP_GRPC_OK)
    by (intros M P l (code & [_ ->] & _); by eexists _, _).
  destruct request, resp; try (by destruct Hok); first [by apply Hs|by eapply Hl, Hok].
Qed.

(** C37. An error in a listing of more than one packet never reaches the client.  The code is in the first packet, and the
    server sets the status from each packet in turn: the last one, whose code
    is [DP_GRPC_OK], replaces it. *)
Theorem chained_error_lost `{LC : LibcAddr} `{HP : RteMempool} uuid request resp code codes c srv :
  let m := cl_request c in
  response_ok request resp → request_type request = call_type m → (call_of m).2 ≠ NoIpcCall → cl_body c = empty_body m →
  sr_rx srv = response_mbufs (call_type m) request resp → resp_codes resp = code :: codes → codes ≠ [] →
  ∃ c' srv' name, HandleReply uuid (c, srv) = Some (DP_OK, (c', srv')) ∧ cl_status c' = Some (DP_GRPC_OK, name).
Proof.
  intros m Hok Ht Hc Hb Hrx Hcodes Hne.
  destruct (reply_replied uuid request resp c srv Hok Ht Hc Hb Hrx) as (c' & srv' & Hr & _ & _ & _ & (last & name & Hl & Hs) & _).
  exists c', srv', name. split; [done|]. rewrite Hs. destruct (resp_codes_tail _ _ Hok) as (code0 & n & E). rewrite E in *.
  injection Hcodes as -> <-. destruct n as [|n]; [done|]. change (code :: replicate (S n) DP_GRPC_OK) with ([code] ++ replicate (S n) DP_GRPC_OK) in Hl.
  rewrite replicate_S_end, (assoc_L (++)), last_snoc in Hl. by injection Hl as <-.
Qed.

(** ** Examples *)

#[local] Existing Instances test_libcaddr test_hash test_malloc test_rib test_rteflow test_eth list_mempool.

Definition ex_server : server_state := MkServer true [] [] [] [] (MkTimers 0 5 0 []).

(** The state of a call, its status and the number of things it has listed. *)
Definition ex_client (r : option (() * system)) : option (CallState * option (Z * string) * nat) :=
  match r with
  | Some (_, MkSystem (Some c) _ _) =>
      Some (cl_state c, cl_status c, match cl_body c with RespInterfaces l => List.length l | RespRules l => List.length l | _ => 0%nat end)
  | _ => None
  end.

Definition ex_turns : list turn := [WorkerTurn; ServerTurn; ServerTurn; WorkerTurn; WorkerTurn; ServerTurn; ServerTurn].


(** Three rules of which two fit into the packets there are: the worker reports an error, the client sees none. *)
Definition ex_add_rule (i : Z) : cmd service_state () := dp_process_create_fwrule (MkFwruleReq [105] (ex_rule i DP_FWALL_INGRESS));; mret tt.
Definition ex_rules : service_state :=
  match (zoom portsS (dp_init_firewall_rules 1);; ex_add_rule 1;; ex_add_rule 2;; ex_add_rule 3) ex_service with Some (_, s) => s | None => ex_service end.
Definition ex_small : grpc_env := (MkGrpcEnv list_mempool [true; false] 1000 400 300 100 100 100 1000 id).
Lemma ex_small_ok : env_ok (ring_env ex_small 0).
Proof. apply ring_env_ok. constructor; try (split; [cbn; lia|by vm_compute]). done. Qed.
Definition ex_reply (r : option (dp_response * service_state)) : list Z := match r with Some (resp, _) => resp_codes resp | _ => [] end.

Lemma chained_error_lost_witness :
  ∃ resp w' code codes, dp_process_request ex_conf [49] (ring_env ex_small 0) 5 (ReqListFirewallRules [105]) ex_rules = Some (resp, w')
    ∧ resp_codes resp = code :: codes ∧ code ≠ DP_GRPC_OK
    ∧ ∃ c' srv' name,
        HandleReply [49] ((new_call (ListFirewallRulesRequest [105])) <| cl_state := AWAIT_MSG |>,
          ex_server <| sr_rx := response_mbufs DP_REQ_TYPE_ListFirewallRules (ReqListFirewallRules [105]) resp |>) = Some (DP_OK, (c', srv'))
        ∧ cl_status c' = Some (DP_GRPC_OK, name).
Proof.
  set (r := dp_process_request ex_conf [49] (ring_env ex_small 0) 5 (ReqListFirewallRules [105]) ex_rules).
  assert (H : ex_reply r = [208; 0]) by (vm_compute; reflexivity).
  destruct r as [[resp w']|] eqn:E; [|discriminate H]. exists resp, w', 208, [0]. split; [reflexivity|]. split; [exact H|]. split; [discriminate|].
  apply (chained_error_lost [49] (ReqListFirewallRules [105]) resp 208 [0]);
    [exact (dispatch_ok _ _ _ ex_small_ok _ _ _ _ _ E)|reflexivity|discriminate|reflexivity|reflexivity|exact H|discriminate].
Defined.
